(* ===== verification/_CoqProject ===== *)
-Q . S2P
Prelude.v
GoBase.v
Float64.v
Errors.v
Catalog.v
Money.v
Pricing.v
VirtualKey.v
GoCrypto.v
KeyFormat.v
Credential.v
Config.v
Duration.v
Context.v
Hooks.v
Headers.v
Transport.v
Network.v
ProviderPlane.v
Selection.v
Gorm.v
Atomic.v
StoreBudget.v
Usage.v
Budget.v
BudgetJobs.v
BudgetSync.v
BudgetHooks.v
BudgetRace.v
UsageFlush.v
Governance.v
StoreCatalog.v
ModelCatalog.v
Chat.v
OpenAI.v
Sse.v
Providers.v
Server.v
ServerChat.v
Gateway.v
StreamRun.v
KeyStore.v
KeyAdmin.v
Base64.v
Secrets.v
CredentialStore.v
CredentialAdmin.v
MetricsEvent.v
MetricsEngine.v
EventRows.v
DuckDB.v
Migrations.v
MetricsReads.v
MetricsDetail.v
MetricsQueries.v
Worker.v
PricingSource.v
CustomPricing.v
CatalogSync.v
Lifecycle.v
BudgetAdmin.v
ProviderAdmin.v
ModelPages.v
RowTypes.v
AzureAuth.v
StoreModels.v
Deployments.v
ConfigFile.v
Logs.v
Routes.v
Opening.v
Main.v
