(* ===== verification/Prelude.v ===== *)
(** * DiffractLLM gateway: verification library

    A model in Rocq of the Go sources under [src/] of the DiffractLLM gateway, and the theorems
    that make its parts correct.  The gateway is an HTTP server between clients and the providers
    of language models: it authenticates a client by a virtual key, checks the key's budget and the
    models it may use, picks a provider credential, forwards the request, relays the response or the
    stream, charges what was used to the budget of the key and records an event; administrators
    change keys, budgets, credentials, prices and providers while it runs.

    Every definition follows a piece of the source and carries its name where Rocq allows; the file
    that holds it names the source file in its first lines.

    ** How the code is modelled

    - An error is the second half of [result]; a Go panic is [None] of an [option].
    - [int64] arithmetic wraps ([wrap64], [add64], ...); [float64] is IEEE 754 binary64 (Float64.v).
    - A Go map is a [gmap] (a loop over one takes its iteration order as an argument where that
      matters); a string is the list of its bytes; a pointer is an [option] or, where objects are
      shared and recycled (budget cells, metrics events), a reference into a heap.
    - The clock, random bytes, UUIDs and what the network answers are arguments.
    - State that only one thread changes at a time is passed explicitly.  Code that shares state is
      either a program over atomic operations (Atomic.v, run sequentially by [exec] or interleaved)
      or a step relation; what holds of all interleavings is proved by rule induction over [star].
    - Code outside the repository is a parameter with its documented laws: gorm and SQLite ([Gorm],
      [UpsertTable]), DuckDB ([Duck]), the JSON codecs ([Sonic], [Json], [FeedDecoder]), AES-GCM
      ([AesGcm]), [sort.Slice] ([SortSlice]), the identity library of Azure ([Entra]), viper and
      mapstructure ([Viper]), gin's router ([Router]), [net/url] and the SOCKS5 dialer.  Each class of laws has an instance (in-memory tables with statements that
      fail on demand, toy codecs), and the witnesses run on those instances.

    ** The parts and their files

    - Foundations: Prelude (results, integers, lists, [star]), GoBase and Float64 (the Go standard
      library and its numbers), GoCrypto (CRC-32, SHA-256), Base64.
    - Data of the gateway ([core/]): Errors, Catalog, Money, Pricing, VirtualKey, KeyFormat,
      Credential, Duration, Context, Hooks, Deployments; Chat for the bodies of chat completions;
      Config and ConfigFile for [configs/].
    - Routing and providers: ProviderPlane ([providerplane/]), Selection ([dataplane/dataplane.go]),
      Headers, Transport and Network ([dataplane/transport.go]), OpenAI, Sse and Providers
      ([providers/]), AzureAuth ([providers/azure/azure-auth.go]).
    - Governance ([governance/]) and the tables it caches ([dbstore/]): Gorm (the database as an
      interface), StoreBudget, Atomic, Usage, Budget with BudgetJobs, BudgetSync, BudgetHooks (each
      job and hook alone), BudgetRace (all of them interleaved), UsageFlush, Governance (the cache
      of keys, authentication and model access), KeyStore, Secrets, CredentialStore.
    - Models and prices: StoreCatalog, StoreModels and CustomPricing (the tables), PricingSource
      (the feed), ModelCatalog (the snapshots and the price of a request), CatalogSync (from the
      feed to the snapshots).
    - Serving ([server/]): Server and ServerChat (the handler of a model endpoint), Gateway (the
      handler with the hooks of governance; any number of requests), StreamRun (the goroutines of a
      stream), Routes (the table of routes and the middleware around every handler).
    - Administration ([server/admin-handlers.go]): KeyAdmin, BudgetAdmin, CredentialAdmin,
      ProviderAdmin, CustomPricing, ModelPages.
    - Metrics ([metrics-engine/]): MetricsEvent, MetricsEngine (pool, buffer and flush), EventRows,
      DuckDB and RowTypes (the tables), Migrations, MetricsReads, MetricsDetail and MetricsQueries.
    - Running: Opening (both databases and the first rows), Worker ([worker/], the groups of
      background jobs), Lifecycle ([gateway/], starting and stopping everything), Main ([main.go],
      the process as a whole) and Logs (the logger and the record of a request).

    A request enters through Routes, which finds its handler, and runs through Server: [ValidatevKeyAuth] (Governance) reads the cache of keys, the
    pre-call hooks check the model and the budget (Budget), [Resolve] (Selection) asks the plane for
    candidates, the provider (Providers) calls the transport, and the post-call hooks record the
    spend on the budget's counters and the event in the metrics engine.  Jobs (Worker) flush the
    counters and roll elapsed windows (Budget), write the usage history and the events, synchronise
    the caches with the tables and the catalog with its feed.  Handlers of the administration change
    a table and then the cache that is the image of it.

    ** What the theorems show

    - What is answered: every request gets the response of the one route that fits it, once, panics
      included, and is logged and identified ([Routes.serve_spec]).
    - Who is served: authentication, with the reason of each refusal
      ([Governance.ValidatevKeyAuth_spec]), the models a key admits
      ([VirtualKey.IsModelKeyAllowed_spec]), the credential a request is given by name or by the
      weighted draw ([Selection.Resolve_spec]; it does not consult the key's model lists, which the
      hook before it does over all configurations) and the three composed as the server composes
      them ([Gateway.route_spec]).
    - What is charged: any number of requests never panic and charge each budget exactly what its
      keys used ([Gateway.serve_all_spec]); no spend is lost or counted twice under any interleaving
      with the jobs ([BudgetRace.spend_accounted]); each job alone, failing statements included
      ([BudgetJobs], [BudgetSync]); the usage history ([UsageFlush]); the price of a request and its
      breakdown ([ModelCatalog.ResolvePrice_spec], for any selectors; [Pricing.breakdown_sums_to_the_bill]).
    - What administration does: after any sequence of requests the cache is the image of its table,
      or an answer said so, for keys, budgets, credentials, providers and prices
      ([KeyAdmin.cache_is_table], [BudgetAdmin.budgets_are_table],
      [CredentialAdmin.plane_follows_tables], [ProviderAdmin.settings_live],
      [CustomPricing.prices_are_table]; the window of a budget just created has length zero until
      it is updated or synchronised; a budget is marked bound exactly when an active key has it
      ([KeyStore.budget_bound_once]); unsafe settings need a confirmation, and every client that
      resolves its targets itself checks them, which those of HTTP and environment proxies do not
      ([ProviderAdmin.unsafe_needs_confirmation]); a credential is read back as it was stored,
      except that it is created enabled, and its secrets are not shown
      ([CredentialStore.credential_roundtrip]).
    - Talking to providers: the retry loop ends after a bounded number of attempts
      ([Transport.ServeHTTP_spec]); a stream with its goroutine refines the sequential reading and
      terminates ([StreamRun]); a token is asked for as the principal of the settings of its own
      call, a collision of digests apart ([AzureAuth.token_identity]).
    - Catalog: what becomes of a feed, row by row, and why one is refused
      ([PricingSource.Fetch_spec]), that its prices are the ones
      billed ([CatalogSync.sync_bills_feed]), and its pages ([ModelPages.pages_cover]).
    - Metrics: no event is lost unseen or mixed with another ([MetricsEngine.events_conserved]); a
      batch is written all or nothing ([DuckDB.DuckDB_Write_spec]) and well typed
      ([RowTypes.tables_typed]); it is read back as it was ([MetricsDetail.detail_roundtrip]); a
      series counts each request once and is bounded ([MetricsReads], [MetricsQueries]); migrations
      run once and in order ([Migrations.Migrate_spec]).
    - Running: jobs of a group never overlap and a shutdown leaves none behind ([Worker]); the whole
      gateway keeps its store and its jobs while it runs ([Lifecycle.Gateway_keeps]) and a clean stop
      leaves none of them when it closes the store ([Lifecycle.Stop_quiet]); the process ends with every database it opened
      closed once and everything flushed ([Main.main_spec]); without a file the configuration is the
      defaults, and what is read is valid ([ConfigFile]); a boot adds the rows of new providers and
      changes no other ([Opening.seed_spec]).

    Lemmas named after a defect (for instance
    [Selection.resolveWeighted_ignores_provider_lists], [Lifecycle.failed_start_leaks],
    [ProviderAdmin.echoed_proxy_loses_password]) exhibit what modelling found.

    ** Bounds and fuel

    The retry loop runs with the number of attempts its configuration allows as fuel, and
    [Transport.ServeHTTP_spec] shows that it returns within it.  The scanner of a stream, the parser
    of durations and the walks over texts recurse on the text or on its length.  Loops over slices
    are structural.  Theorems about counters state the range in which [int64] does not wrap; the
    catalog of a provider is taken to have at most 2^48 models, which an address space cannot hold.

    ** Not modelled

    - gin, apart from which route it finds: the decoding of bodies and of query parameters, whose
      result is an argument of a handler, and the encoding of answers.
    - The statements of gorm's schema migration, the drivers of SQLite and DuckDB, zap, viper: calls
      of third-party code whose outcomes are arguments.
    - The registration of the metrics hook ([metrics-engine/hook.go]), whose one call is in
      MetricsEngine.v, and the printing of errors at start-up.
    - The console under [ui/], which is TypeScript. *)

From stdpp Require Export base tactics list option gmap strings pretty.
From Stdlib Require Export ZArith Lia.

Create HintDb gw.
Create Rewrite HintDb gw_rw.

(** ** Results: Go's [(value, error)] pairs *)

Inductive result (E A : Type) : Type :=
| Ok (a : A)
| Err (e : E).
Arguments Ok {E A} a.
Arguments Err {E A} e.

#[export] Instance result_ret E : MRet (result E) := fun A a => Ok a.
#[export] Instance result_bind E : MBind (result E) := fun A B f r =>
  match r with Ok a => f a | Err e => Err e end.

Definition is_ok {E A} (r : result E A) : bool :=
  match r with Ok _ => true | Err _ => false end.

(** [guard_err c e]: [if !c { return e }]. *)
Definition guard_err {E} (c : bool) (e : E) : result E () :=
  if c then Ok () else Err e.

(** A loop over a slice that may return early with an error. *)
Fixpoint foldM {E S A : Type} (f : S -> A -> result E S) (s : S) (l : list A) : result E S :=
  match l with
  | [] => Ok s
  | x :: l' => match f s x with Ok s' => foldM f s' l' | Err e => Err e end
  end.

(** ** Machine integers

    A Go [int64] (and [int], [time.Duration], on the 64-bit targets the gateway is built for) is
    the [Z] of its value; every arithmetic operation wraps around through [wrap64]. *)

Definition MaxInt64 : Z := 9223372036854775807.
Definition MinInt64 : Z := -9223372036854775808.
Definition two64 : Z := 18446744073709551616.
Definition wrap64 (z : Z) : Z := ((z + 9223372036854775808) mod two64 - 9223372036854775808)%Z.
Definition wrapU64 (z : Z) : Z := (z mod two64)%Z.
Definition wrap32 (z : Z) : Z := ((z + 2147483648) mod 4294967296 - 2147483648)%Z.
Definition wrapU32 (z : Z) : Z := (z mod 4294967296)%Z.

Definition in_int64 (z : Z) : Prop := (MinInt64 <= z <= MaxInt64)%Z.

Definition add64 (a b : Z) : Z := wrap64 (a + b).
Definition sub64 (a b : Z) : Z := wrap64 (a - b).
Definition mul64 (a b : Z) : Z := wrap64 (a * b).
(** Go's integer division truncates towards zero; [MinInt64 / -1] wraps. *)
Definition div64 (a b : Z) : Z := wrap64 (Z.quot a b).

Declare Scope int64_scope.
Delimit Scope int64_scope with int64.
Notation "a +! b" := (add64 a b) (at level 50, left associativity) : int64_scope.
Notation "a -! b" := (sub64 a b) (at level 50, left associativity) : int64_scope.
Notation "a *! b" := (mul64 a b) (at level 40, left associativity) : int64_scope.

(** [opt <|> default]-style reads of nil-able pointers. *)
Definition deref {A} (d : A) (o : option A) : A := match o with Some a => a | None => d end.

(** ** Functional update of record fields

    [r <| f := v |>] is the record [r] with field [f] set to [v] and [r <| f ::= g |>] the one
    with [g] applied to it: the model of Go's assignment to a struct field.  A record type becomes
    updatable through one [Eta] instance listing its projections; the setter of a projection is
    then computed by abstracting the projection in that eta expansion. *)

Class Eta (R : Type) := eta_of : R -> R.
Class FieldUpd {R T : Type} (proj : R -> T) := { field_upd : (T -> T) -> R -> R }.
Arguments field_upd {R T} proj {_} g r /.

Ltac solve_field_upd :=
  match goal with
  | |- @FieldUpd ?R ?T ?p =>
      let i := constr:(ltac:(typeclasses eauto) : Eta R) in
      let e := eval hnf in i in
      let a := eval pattern p in e in
      lazymatch a with
      | (fun _ => ?body) _ => fail "no field" p
      | ?ctx _ =>
          let s := eval cbv beta in (fun (g : T -> T) (r : R) => ctx (fun x => g (p x)) r) in
          exact {| field_upd := s |}
      end
  end.
#[export] Hint Extern 0 (FieldUpd _) => solve_field_upd : typeclass_instances.

Declare Scope update_scope.
Notation "r <| f ::= g |>" := (field_upd f g r)
  (at level 12, f at next level, left associativity, format "r  <| f  ::=  g |>") : update_scope.
Notation "r <| f := v |>" := (field_upd f (fun _ => v) r)
  (at level 12, f at next level, left associativity, format "r  <| f  :=  v |>") : update_scope.
Open Scope update_scope.

(** ** Tactics *)

(** Split every match on a boolean or an option in the goal and close the easy branches. *)
Ltac split_cases := repeat (case_match; simplify_eq/=); try done.

(** Split a conjunction goal completely. *)
Ltac splits := repeat match goal with |- _ /\ _ => split end.

(** Turn boolean comparisons on [Z] in the context into propositions. *)
Ltac zbool :=
  repeat match goal with
  | H : (_ <? _)%Z = true |- _ => apply Z.ltb_lt in H
  | H : (_ <? _)%Z = false |- _ => apply Z.ltb_ge in H
  | H : (_ <=? _)%Z = true |- _ => apply Z.leb_le in H
  | H : (_ <=? _)%Z = false |- _ => apply Z.leb_gt in H
  | H : (_ =? _)%Z = true |- _ => apply Z.eqb_eq in H
  | H : (_ =? _)%Z = false |- _ => apply Z.eqb_neq in H
  | H : (_ && _) = true |- _ => apply andb_true_iff in H as [??]
  | H : (_ || _) = false |- _ => apply orb_false_iff in H as [??]
  | H : negb _ = true |- _ => apply negb_true_iff in H
  | H : negb _ = false |- _ => apply negb_false_iff in H
  | H : bool_decide _ = true |- _ => apply bool_decide_eq_true in H
  | H : bool_decide _ = false |- _ => apply bool_decide_eq_false in H
  end.

(** ** Shared lemmas *)

Section int64.
Local Open Scope Z_scope.

Lemma wrap64_small z : in_int64 z -> wrap64 z = z.
Proof.
  unfold in_int64, wrap64, MinInt64, MaxInt64, two64. intros H.
  rewrite Z.mod_small; lia.
Qed.

Lemma wrap64_range z : in_int64 (wrap64 z).
Proof.
  unfold in_int64, wrap64, MinInt64, MaxInt64, two64.
  pose proof (Z.mod_pos_bound (z + 9223372036854775808) 18446744073709551616). lia.
Qed.

(** Two integers wrap to the same value exactly when they differ by a multiple of [2^64]. *)
Lemma wrap64_eq_mod a b : wrap64 a = wrap64 b <-> a mod two64 = b mod two64.
Proof. unfold wrap64, two64. split; intros H; Z.div_mod_to_equations; lia. Qed.

Lemma wrap64_add_l a b : wrap64 (wrap64 a + b) = wrap64 (a + b).
Proof. apply wrap64_eq_mod. unfold wrap64, two64. Z.div_mod_to_equations; lia. Qed.

Lemma wrap64_add_r a b : wrap64 (a + wrap64 b) = wrap64 (a + b).
Proof. rewrite Z.add_comm, wrap64_add_l. f_equal. lia. Qed.

Lemma wrap64_idemp a : wrap64 (wrap64 a) = wrap64 a.
Proof. apply wrap64_small, wrap64_range. Qed.
End int64.

#[export] Hint Resolve wrap64_range : gw.
#[export] Hint Rewrite wrap64_add_l wrap64_add_r wrap64_idemp : gw_rw.

Section foldM.
Context {E S A : Type} (f : S -> A -> result E S).

(** Rule for loops: an invariant of the body is an invariant of the loop. *)
Lemma foldM_inv (I : list A -> S -> Prop) l s s' :
  (forall done x todo s0 s1, l = done ++ x :: todo -> I done s0 -> f s0 x = Ok s1 -> I (done ++ [x]) s1) ->
  I [] s -> foldM f s l = Ok s' -> I l s'.
Proof.
  intros Hstep H0.
  assert (Hgen : forall todo d s0, l = d ++ todo -> I d s0 -> foldM f s0 todo = Ok s' -> I l s').
  { induction todo as [|x todo IH]; intros d s0 Hl Hi Hf; simpl in Hf.
    - rewrite app_nil_r in Hl. by simplify_eq.
    - destruct (f s0 x) as [s1|e] eqn:Hx; [|done].
      apply (IH (d ++ [x]) s1); [by rewrite <- app_assoc | eauto | done]. }
  apply (Hgen l [] s); done.
Qed.

Lemma foldM_app s l1 l2 :
  foldM f s (l1 ++ l2) = match foldM f s l1 with Ok s' => foldM f s' l2 | Err e => Err e end.
Proof. revert s. induction l1 as [|x l1 IH]; intros s; simpl; [done|]. destruct (f s x); auto. Qed.
End foldM.

Lemma foldl_map {A B C} (f : A -> B -> A) (g : C -> B) l a :
  foldl f a (map g l) = foldl (fun t x => f t (g x)) a l.
Proof. revert a. by induction l as [|x l IH]; intros a; simpl. Qed.

Lemma find_app {A} (f : A -> bool) l1 l2 :
  List.find f (l1 ++ l2) = match List.find f l1 with Some x => Some x | None => List.find f l2 end.
Proof. induction l1 as [|x l1 IH]; simpl; [done|]. by destruct (f x). Qed.

(** The last element of a list with a property. *)
Lemma find_rev_snoc {A} (f : A -> bool) l x :
  List.find f (rev (l ++ [x])) = if f x then Some x else List.find f (rev l).
Proof. by rewrite rev_app_distr. Qed.

(** ** Reachability of a step relation *)

Inductive star {S} (step : S -> S -> Prop) : S -> S -> Prop :=
| star_refl s : star step s s
| star_step s1 s2 s3 : step s1 s2 -> star step s2 s3 -> star step s1 s3.
#[export] Hint Constructors star : gw.

(** An invariant preserved by every step holds of every reachable state. *)
Lemma star_inv {S} (step : S -> S -> Prop) (I : S -> Prop) s s' :
  (forall a b, I a -> step a b -> I b) -> I s -> star step s s' -> I s'.
Proof. intros Hs Hi Hr. induction Hr; eauto. Qed.

Lemma star_trans {S} (step : S -> S -> Prop) a b c : star step a b -> star step b c -> star step a c.
Proof. induction 1; eauto with gw. Qed.
