(* ===== verification/GoBase.v ===== *)
(** * Go standard library routines the gateway relies on

    [strings.TrimSpace], [strings.ToLower], [strings.Cut], [strings.CutPrefix],
    [strings.Contains], [strings.Split]/[Join], [time.Time.Sub]/[Add] and the integer
    formatting of [fmt], as executable functions on byte strings and integers.  A Go [string] is
    the [String.string] of its bytes; a [time.Time] is the [Z] number of nanoseconds since the
    Unix epoch on the wall clock; a [time.Duration] is an [int64] of nanoseconds. *)

From S2P Require Import Prelude.
From Stdlib Require Import Ascii String.
Open Scope string_scope.
Arguments String.append !_ _ /.

(** ** strings *)

Definition chr (n : N) : string := String (Ascii.ascii_of_N n) EmptyString.
Fixpoint bytes (l : list N) : string :=
  match l with [] => EmptyString | n :: l' => String (Ascii.ascii_of_N n) (bytes l') end.

(** [strings.HasPrefix] together with [strings.CutPrefix]: the remainder after [p]. *)
Fixpoint cut_prefix (p s : string) : option string :=
  match p, s with
  | EmptyString, _ => Some s
  | String a p', String b s' => if Ascii.eqb a b then cut_prefix p' s' else None
  | String _ _, EmptyString => None
  end.

Definition has_prefix (p s : string) : bool :=
  match cut_prefix p s with Some _ => true | None => false end.

(** [strings.Contains s sub]. *)
Fixpoint contains (s sub : string) : bool :=
  has_prefix sub s ||
  match s with EmptyString => false | String _ s' => contains s' sub end.

Fixpoint srev_app (s acc : string) : string :=
  match s with EmptyString => acc | String c s' => srev_app s' (String c acc) end.
Definition srev (s : string) : string := srev_app s EmptyString.

(** The UTF-8 encodings of the runes [unicode.IsSpace] accepts: the ASCII spaces, U+0085, U+00A0,
    U+1680, U+2000 to U+200A, U+2028, U+2029, U+202F, U+205F and U+3000. *)
Definition space_encodings : list string := map bytes
  ([ [9]; [10]; [11]; [12]; [13]; [32]; [194; 133]; [194; 160]; [225; 154; 128];
     [226; 128; 128]; [226; 128; 129]; [226; 128; 130]; [226; 128; 131]; [226; 128; 132];
     [226; 128; 133]; [226; 128; 134]; [226; 128; 135]; [226; 128; 136]; [226; 128; 137];
     [226; 128; 138]; [226; 128; 168]; [226; 128; 169]; [226; 128; 175]; [226; 129; 159];
     [227; 128; 128] ])%N.

Fixpoint strip_one (es : list string) (s : string) : option string :=
  match es with
  | [] => None
  | e :: es' => match cut_prefix e s with Some r => Some r | None => strip_one es' s end
  end.

Fixpoint strip_all (es : list string) (fuel : nat) (s : string) : string :=
  match fuel with
  | O => s
  | S n => match strip_one es s with Some r => strip_all es n r | None => s end
  end.

Definition trim_left (s : string) : string := strip_all space_encodings (String.length s) s.
Definition trim_right (s : string) : string :=
  srev (strip_all (map srev space_encodings) (String.length s) (srev s)).

(** [strings.TrimSpace].  The fuel of each side is the length of the string: every round removes
    at least one byte. *)
Definition TrimSpace (s : string) : string := trim_right (trim_left s).

Definition lower_byte (c : ascii) : ascii :=
  let n := Ascii.N_of_ascii c in
  if (65 <=? n)%N && (n <=? 90)%N then Ascii.ascii_of_N (n + 32) else c.

(** [strings.ToLower], as far as a comparison with an ASCII text can observe it: the ASCII
    letters, the Kelvin sign (lower case "k") and the dotted capital I (lower case "i") are
    mapped, every other byte is kept.  The runes left unmapped have non-ASCII lower cases. *)
Fixpoint ToLower (s : string) : string :=
  match s with
  | String c1 ((String c2 ((String c3 s3) as s2)) as s1) =>
      if String.eqb (String c1 (String c2 (String c3 ""))) (bytes [226; 132; 170]%N)
      then String "k" (ToLower s3)
      else if String.eqb (String c1 (String c2 "")) (bytes [196; 176]%N)
      then String "i" (ToLower s2)
      else String (lower_byte c1) (ToLower s1)
  | String c1 (String c2 EmptyString) =>
      if String.eqb s (bytes [196; 176]%N) then "i"
      else String (lower_byte c1) (String (lower_byte c2) "")
  | String c1 EmptyString => String (lower_byte c1) ""
  | EmptyString => ""
  end.

(** [strings.Cut s sep] for a one-byte separator. *)
Fixpoint cut_byte (sep : ascii) (s : string) : option (string * string) :=
  match s with
  | EmptyString => None
  | String c s' =>
      if Ascii.eqb c sep then Some ("", s')
      else match cut_byte sep s' with Some (a, b) => Some (String c a, b) | None => None end
  end.

(** [strings.Split s sep] for a one-byte separator; never empty. *)
Fixpoint split_byte (sep : ascii) (s : string) : list string :=
  match s with
  | EmptyString => [""]
  | String c s' =>
      if Ascii.eqb c sep then "" :: split_byte sep s'
      else match split_byte sep s' with
           | p :: ps => String c p :: ps
           | [] => [String c ""]
           end
  end.

(** [strings.Join parts sep]. *)
Fixpoint join (sep : string) (parts : list string) : string :=
  match parts with
  | [] => ""
  | [p] => p
  | p :: ps => p ++ sep ++ join sep ps
  end.

Definition is_empty (s : string) : bool := match s with EmptyString => true | _ => false end.

(** [fmt]'s [%d] on an integer. *)
Definition fmt_d (z : Z) : string := pretty z.

(** ** time *)

Definition Millisecond : Z := 1000000.
Definition Second : Z := 1000000000.
Definition Minute : Z := 60 * Second.
Definition Hour : Z := 60 * Minute.

(** [t.Sub u]: the difference saturates at the ends of [int64], as documented. *)
Definition time_sub (t u : Z) : Z :=
  let d := (t - u)%Z in
  if (d <? MinInt64)%Z then MinInt64 else if (MaxInt64 <? d)%Z then MaxInt64 else d.

(** [t.Add d]. *)
Definition time_add (t d : Z) : Z := (t + d)%Z.
Definition time_after (t u : Z) : bool := (u <? t)%Z.
(** [t.Unix ()]: whole seconds. *)
Definition time_unix (t : Z) : Z := (t / Second)%Z.
(** [d.Microseconds ()]. *)
Definition microseconds (d : Z) : Z := Z.quot d 1000.

(** ** Lemmas *)

Lemma cut_prefix_app p s : cut_prefix p (p ++ s) = Some s.
Proof. induction p as [|a p IH]; simpl; [done|]. by rewrite Ascii.eqb_refl. Qed.

Lemma cut_prefix_Some p s r : cut_prefix p s = Some r <-> s = p ++ r.
Proof.
  split; [|intros ->; apply cut_prefix_app].
  revert s. induction p as [|a p IH]; intros s; simpl; [congruence|].
  destruct s as [|b s]; [done|]. destruct (Ascii.eqb_spec a b) as [->|]; [|done].
  intros ?%IH. by f_equal.
Qed.

Lemma is_empty_true s : is_empty s = true <-> s = "".
Proof. by destruct s. Qed.

Lemma is_empty_false s : is_empty s = false <-> s <> "".
Proof. by destruct s. Qed.

(** Joining the parts of a split gives the string back. *)
Lemma join_split_byte sep s : join (String sep "") (split_byte sep s) = s.
Proof.
  induction s as [|c s IH]; [done|]. simpl.
  destruct (Ascii.eqb_spec c sep) as [->|Hc].
  - destruct (split_byte sep s) as [|p ps] eqn:E; simpl in *.
    + by destruct s; simpl in E; repeat case_match.
    + by rewrite <- IH.
  - destruct (split_byte sep s) as [|p ps] eqn:E; simpl in *; [by rewrite <- IH|].
    destruct ps; simpl in *; by rewrite <- IH.
Qed.

Lemma time_sub_exact t u : in_int64 (t - u) -> time_sub t u = (t - u)%Z.
Proof.
  unfold time_sub, in_int64. intros [??].
  destruct (_ <? _)%Z eqn:?; zbool; [lia|]. destruct (_ <? _)%Z eqn:?; zbool; lia.
Qed.

Lemma time_sub_bounds t u : in_int64 (time_sub t u).
Proof.
  unfold time_sub, in_int64, MinInt64, MaxInt64.
  repeat case_match; zbool; lia.
Qed.
#[export] Hint Resolve time_sub_bounds : gw.
