(* ===== verification/Float64.v ===== *)
(** * Go's [float64]

    A [float64] is IEEE 754 binary64, modelled by the Standard Library's executable
    specification [spec_float] at 53 bits of precision and [emax = 1024]: addition,
    multiplication and division round to nearest, ties to even, with signed zeros, infinities and
    NaN.  [x*y + z] is two roundings, as on amd64 (the language lets other targets fuse it).
    Comparisons, [math.Round] and the conversions from and to [int64] are written out here. *)

From S2P Require Import Prelude.
From Stdlib Require Import SpecFloat.
Local Open Scope Z_scope.

Abbreviation f64 := spec_float (only parsing).

Definition prec64 : Z := 53.
Definition emax64 : Z := 1024.

Definition f64_zero : f64 := S754_zero false.
Definition f64_add (x y : f64) : f64 := SFadd prec64 emax64 x y.
Definition f64_sub (x y : f64) : f64 := SFsub prec64 emax64 x y.
Definition f64_mul (x y : f64) : f64 := SFmul prec64 emax64 x y.
Definition f64_div (x y : f64) : f64 := SFdiv prec64 emax64 x y.
Definition f64_abs (x : f64) : f64 := SFabs x.

(** [float64(n)] of an integer. *)
Definition f64_of_Z (n : Z) : f64 := binary_normalize prec64 emax64 n 0 false.
(** The [float64] nearest to [m * 2^e]; Go's untyped constants are given in this form. *)
Definition f64_dyadic (m e : Z) : f64 := binary_normalize prec64 emax64 m e false.

Definition is_nan (x : f64) : bool := match x with S754_nan => true | _ => false end.
Definition is_inf (x : f64) : bool := match x with S754_infinity _ => true | _ => false end.
Definition is_zero (x : f64) : bool := match x with S754_zero _ => true | _ => false end.
Definition is_finite (x : f64) : bool :=
  match x with S754_zero _ | S754_finite _ _ _ => true | _ => false end.

(** The exact comparison of two finite values [m1 * 2^e1] and [m2 * 2^e2]. *)
Definition signed (s : bool) (m : positive) : Z := if s then Zneg m else Zpos m.
Definition scaled (m e e0 : Z) : Z := m * 2 ^ (e - e0).
Definition dyadic_compare (m1 e1 m2 e2 : Z) : comparison :=
  let e0 := Z.min e1 e2 in Z.compare (scaled m1 e1 e0) (scaled m2 e2 e0).

(** [None] when one side is NaN: every ordered comparison with NaN is false. *)
Definition f64_compare (x y : f64) : option comparison :=
  match x, y with
  | S754_nan, _ | _, S754_nan => None
  | S754_infinity true, S754_infinity true => Some Eq
  | S754_infinity false, S754_infinity false => Some Eq
  | S754_infinity true, _ | _, S754_infinity false => Some Lt
  | S754_infinity false, _ | _, S754_infinity true => Some Gt
  | S754_zero _, S754_zero _ => Some Eq
  | S754_zero _, S754_finite s m e => Some (Z.compare 0 (signed s m))
  | S754_finite s m e, S754_zero _ => Some (Z.compare (signed s m) 0)
  | S754_finite s1 m1 e1, S754_finite s2 m2 e2 =>
      Some (dyadic_compare (signed s1 m1) e1 (signed s2 m2) e2)
  end.

Definition f64_eqb (x y : f64) : bool :=
  match f64_compare x y with Some Eq => true | _ => false end.
Definition f64_neb (x y : f64) : bool := negb (f64_eqb x y).
Definition f64_ltb (x y : f64) : bool :=
  match f64_compare x y with Some Lt => true | _ => false end.
Definition f64_leb (x y : f64) : bool :=
  match f64_compare x y with Some (Lt | Eq) => true | _ => false end.

(** [math.Round]: to the nearest integer, halves away from zero. *)
Definition f64_round (x : f64) : f64 :=
  match x with
  | S754_finite s m e =>
      if 0 <=? e then x
      else
        match (Zpos m + 2 ^ (- e - 1)) / 2 ^ (- e) with
        | Zpos q => binary_round prec64 emax64 s q 0
        | _ => S754_zero s
        end
  | _ => x
  end.

(** [int64(x)] for a value in range: the integer part, towards zero. *)
Definition f64_trunc (x : f64) : Z :=
  match x with
  | S754_finite s m e =>
      let a := if 0 <=? e then Zpos m * 2 ^ e else Zpos m / 2 ^ (- e) in
      if s then - a else a
  | _ => 0
  end.

(** ** Equality up to the sign of zero

    Go's [==] identifies the two zeros; a sum that skips zero terms agrees with the full sum only
    up to that sign. *)

Definition feq (x y : f64) : Prop := x = y \/ (is_zero x = true /\ is_zero y = true).

Infix "≈f" := feq (at level 70, no associativity).

#[export] Instance feq_equivalence : Equivalence feq.
Proof.
  split.
  - by left.
  - intros x y [->|[? ?]]; [by left | by right].
  - intros x y z [->|[Hx Hy]] [->|[Hy' Hz]]; [by left | by right | by right | by right].
Qed.

#[export] Instance f64_add_proper : Proper (feq ==> feq ==> feq) f64_add.
Proof.
  intros x x' [->|[Hx Hx']] y y' [->|[Hy Hy']]; [by left| | |].
  - destruct y, y'; try done. destruct x' as [[]| | |], s, s0; first [by left | by right].
  - destruct x, x'; try done. destruct y' as [[]| | |], s, s0; first [by left | by right].
  - destruct x, x', y, y'; try done. destruct s, s0, s1, s2; first [by left | by right].
Qed.

(** ** Zero and sign lemmas *)

Lemma f64_add_zero_r x z : is_zero z = true -> f64_add x z ≈f x.
Proof.
  destruct z as [s| | |]; try done. intros _.
  destruct x as [[]| | |]; destruct s; first [by left | by right].
Qed.

Lemma f64_mul_zero x y :
  is_finite x = true -> is_finite y = true -> is_zero x = true \/ is_zero y = true ->
  is_zero (f64_mul x y) = true.
Proof. destruct x, y; simpl; intuition congruence. Qed.

Lemma f64_eqb_zero x : f64_eqb x f64_zero = is_zero x.
Proof. by destruct x as [|[]| |[]]. Qed.

(** The sign of a rounded value is the sign it was rounded with. *)
Definition sign_is (s : bool) (x : f64) : bool :=
  match x with
  | S754_zero s' | S754_infinity s' | S754_finite s' _ _ => Bool.eqb s s'
  | S754_nan => true
  end.

Lemma binary_round_aux_sign s m e l : sign_is s (binary_round_aux prec64 emax64 s m e l) = true.
Proof.
  unfold binary_round_aux. repeat case_match; simpl; by rewrite ?Bool.eqb_reflx.
Qed.

Lemma binary_round_sign s m e : sign_is s (binary_round prec64 emax64 s m e) = true.
Proof. unfold binary_round. case_match. apply binary_round_aux_sign. Qed.

Lemma f64_mul_sign s x y :
  sign_is s x = true -> sign_is false y = true -> sign_is s (f64_mul x y) = true.
Proof.
  destruct x as [[]|[]| |[]], s, y as [[]|[]| |[]]; simpl; try done; intros _ _;
    apply binary_round_aux_sign.
Qed.

Lemma f64_round_sign s x : sign_is s x = true -> sign_is s (f64_round x) = true.
Proof.
  destruct x as [| | |s' m e]; try done. simpl. intros ->%Bool.eqb_prop.
  destruct (0 <=? e); [apply Bool.eqb_reflx|].
  case_match; [apply Bool.eqb_reflx | apply binary_round_sign | apply Bool.eqb_reflx].
Qed.

Lemma f64_trunc_nonneg x : sign_is false x = true -> 0 <= f64_trunc x.
Proof.
  destruct x as [| | |[] m e]; simpl; try done. intros _.
  destruct (Z.leb_spec 0 e) as [He|He].
  - apply Z.mul_nonneg_nonneg; [lia | apply Z.pow_nonneg; lia].
  - apply Z.div_pos; [lia | apply Z.pow_pos_nonneg; lia].
Qed.

(** A finite value not above [m2 * 2^e2], [e2 >= 0], truncates to at most that integer; strictly
    below it truncates strictly below. *)
Lemma f64_trunc_lt m e (m2 : positive) e2 :
  0 <= e2 -> f64_ltb (S754_finite false m e) (S754_finite false m2 e2) = true ->
  f64_trunc (S754_finite false m e) < Zpos m2 * 2 ^ e2.
Proof.
  intros He2. unfold f64_ltb; simpl. unfold dyadic_compare, scaled.
  destruct (_ ?= _) eqn:Hc; try done. intros _. apply Z.compare_lt_iff in Hc.
  destruct (Z.leb_spec 0 e) as [He|He].
  - assert (Hp : 0 < 2 ^ Z.min e e2) by (apply Z.pow_pos_nonneg; lia).
    replace (2 ^ e) with (2 ^ (e - Z.min e e2) * 2 ^ Z.min e e2)
      by (rewrite <- Z.pow_add_r by lia; f_equal; lia).
    replace (2 ^ e2) with (2 ^ (e2 - Z.min e e2) * 2 ^ Z.min e e2)
      by (rewrite <- Z.pow_add_r by lia; f_equal; lia).
    rewrite !Z.mul_assoc. by apply Z.mul_lt_mono_pos_r.
  - rewrite Z.min_l in Hc by lia. rewrite Z.sub_diag, Z.mul_1_r in Hc.
    replace (e2 - e) with (e2 + - e) in Hc by lia. rewrite Z.pow_add_r in Hc by lia.
    cbv [signed] in Hc. apply Z.div_lt_upper_bound; [apply Z.pow_pos_nonneg; lia|].
    by rewrite Z.mul_comm, <- Z.mul_assoc.
Qed.

(** ** [float64(n)] of an [int64] is finite *)

Lemma iter_pos_ind {A} (P : A -> Prop) f n x :
  (forall a, P a -> P (f a)) -> P x -> P (iter_pos f n x).
Proof. intros Hf. revert x. induction n; intros x Hx; simpl; auto. Qed.

Lemma shr_1_bounds b r : 0 <= shr_m r <= b -> 0 <= shr_m (shr_1 r) <= b.
Proof. destruct r as [m ? ?]. unfold shr_1; simpl. repeat case_match; simpl; lia. Qed.

Lemma shr_fexp_bounds m e l r e' b :
  0 <= m <= b -> shr_fexp prec64 emax64 m e l = (r, e') ->
  0 <= shr_m r <= b /\ e <= e' <= Z.max e (fexp prec64 emax64 (Zdigits2 m + e)).
Proof.
  intros Hm. unfold shr_fexp, shr.
  assert (Hl : shr_m (shr_record_of_loc m l) = m) by (destruct l as [|[]]; done).
  destruct (fexp _ _ _ - e) eqn:E; intros [= <- <-]; rewrite ?Hl; try lia.
  split; [|lia]. apply iter_pos_ind; [intros; by apply shr_1_bounds | by rewrite Hl].
Qed.

Lemma digits2_pos_le m n : 0 <= n -> Zpos m < 2 ^ n -> Zpos (digits2_pos m) <= n.
Proof.
  revert n. induction m as [m IH|m IH|]; intros n Hn Hlt; simpl.
  - destruct (Z.eq_dec n 0) as [->|]; [lia|]. specialize (IH (n - 1) ltac:(lia)).
    replace n with (Z.succ (n - 1)) in Hlt by lia. rewrite Z.pow_succ_r in Hlt by lia. lia.
  - destruct (Z.eq_dec n 0) as [->|]; [lia|]. specialize (IH (n - 1) ltac:(lia)).
    replace n with (Z.succ (n - 1)) in Hlt by lia. rewrite Z.pow_succ_r in Hlt by lia. lia.
  - destruct (Z.eq_dec n 0) as [->|]; lia.
Qed.

Lemma Zdigits2_le m n : 0 <= n -> 0 <= m < 2 ^ n -> Zdigits2 m <= n.
Proof. destruct m; simpl; intros; [done | apply digits2_pos_le; lia | lia]. Qed.

Lemma binary_round_aux_finite s m e l n :
  0 <= n <= 128 -> 0 <= m < 2 ^ n -> -1074 <= e <= 700 ->
  is_finite (binary_round_aux prec64 emax64 s m e l) = true.
Proof.
  intros Hn Hm He. unfold binary_round_aux.
  destruct (shr_fexp _ _ m e l) as [r1 e1] eqn:E1.
  apply (shr_fexp_bounds _ _ _ _ _ (2 ^ n - 1)) in E1 as [Hr1 He1]; [|lia].
  set (m2 := round_nearest_even _ _).
  assert (Hm2 : 0 <= m2 <= 2 ^ n).
  { unfold m2, round_nearest_even. repeat case_match; lia. }
  destruct (shr_fexp _ _ m2 e1 _) as [r2 e2] eqn:E2.
  apply (shr_fexp_bounds _ _ _ _ _ (2 ^ n)) in E2 as [Hr2 He2]; [|lia].
  pose proof (Zdigits2_le m n ltac:(lia) Hm) as Hd1.
  assert (Hd2 : Zdigits2 m2 <= n + 1).
  { apply Zdigits2_le; [lia|]. rewrite Z.pow_add_r by lia. lia. }
  assert (Hf1 : fexp prec64 emax64 (Zdigits2 m + e) <= Z.max (n + e - 53) (-1074)).
  { unfold fexp, emin, prec64, emax64. lia. }
  assert (Hf2 : fexp prec64 emax64 (Zdigits2 m2 + e1) <= Z.max (n + 1 + e1 - 53) (-1074)).
  { unfold fexp, emin, prec64, emax64. lia. }
  destruct (shr_m r2) as [|p|p] eqn:Er; [done| |lia].
  destruct (Z.leb_spec e2 (emax64 - prec64)) as [|Hgt]; [done|].
  unfold emax64, prec64 in Hgt. lia.
Qed.

Lemma shl_align_bound m d n mz ez :
  0 <= n -> Zpos m < 2 ^ n -> shl_align m 0 d = (mz, ez) ->
  Zpos mz < 2 ^ (n - Z.min d 0) /\ ez = Z.min d 0.
Proof.
  intros Hn Hm. unfold shl_align. rewrite Z.sub_0_r.
  destruct d as [|d|d]; intros [= <- <-].
  - rewrite Z.min_id, Z.sub_0_r. done.
  - rewrite Z.min_r by lia. rewrite Z.sub_0_r. done.
  - rewrite Z.min_l by lia. split; [|lia].
    replace (n - Zneg d) with (n + Zpos d) by lia. rewrite Z.pow_add_r by lia.
    assert (Hs : Zpos (Pos.iter xO m d) = Zpos m * 2 ^ Zpos d).
    { rewrite <- Pos2Z.inj_pow. rewrite <- Pos2Z.inj_mul. f_equal.
      unfold Pos.pow. induction d using Pos.peano_ind; [simpl; lia|].
      rewrite !Pos.iter_succ, IHd. lia. }
    rewrite Hs. apply Z.mul_lt_mono_pos_r; [apply Z.pow_pos_nonneg; lia | done].
Qed.

Lemma f64_of_Z_finite n : Z.abs n < 2 ^ 64 -> is_finite (f64_of_Z n) = true.
Proof.
  assert (Hp : forall s p, Zpos p < 2 ^ 64 -> is_finite (binary_round prec64 emax64 s p 0) = true).
  { intros s p Hlt. unfold binary_round. rewrite Z.add_0_r.
    pose proof (digits2_pos_le p 64 ltac:(lia) Hlt) as Hd.
    destruct (shl_align p 0 _) as [mz ez] eqn:E.
    apply (shl_align_bound _ _ 64) in E as [Hmz ->]; [|lia|done].
    set (d := fexp _ _ _) in *.
    assert (Hd' : -52 <= d <= 11) by (unfold d, fexp, emin, prec64, emax64; lia).
    apply (binary_round_aux_finite _ _ _ _ (64 - Z.min d 0)); lia. }
  unfold f64_of_Z, binary_normalize. destruct n as [|p|p]; intros H; [done | |];
    apply Hp; lia.
Qed.

Lemma f64_of_Z_int64 n : in_int64 n -> is_finite (f64_of_Z n) = true.
Proof. unfold in_int64, MinInt64, MaxInt64. intros. apply f64_of_Z_finite. lia. Qed.
#[export] Hint Resolve f64_of_Z_int64 : gw.

(** The literals of the source are what Go's constant arithmetic gives. *)
Example f64_of_Z_3 : f64_add (f64_of_Z 1) (f64_of_Z 2) = f64_of_Z 3.
Proof. vm_compute. reflexivity. Qed.
Example f64_round_half : f64_trunc (f64_round (f64_dyadic 5 (-1))) = 3.
Proof. vm_compute. reflexivity. Qed.
