(* ===== verification/Errors.v ===== *)
(** * Gateway errors — [core/errors.go]

    The error value every stage of the gateway returns, its constructors with their category, code
    and HTTP status, and the category tests.  The wrapped Go [error] is kept as its text;
    [ExtraDetails] holds strings only, as every constructor does; the raw JSON detail of an
    upstream error is its bytes.  A nil [*DiffractLLMError] is [None] where a stage may return
    one.  Four fields are renamed ([Type_], [Param], [EProvider], [ERequestID]) because [Parameter] and [Type] are
    keywords and record fields share one name space. *)

From S2P Require Import Prelude GoBase.
Open Scope string_scope.

(** ** Categories, codes and statuses *)

Definition ErrorCategoryClient : string := "client_error".
Definition ErrorCategoryGateway : string := "gateway_error".
Definition ErrorCategoryProvider : string := "provider_error".

Definition CodeNoHealthyBackends : string := "no_healthy_backends".
Definition CodeRouteNotFound : string := "route_not_found".
Definition CodeRouteTableEmpty : string := "route_table_empty".
Definition CodeConfigValidation : string := "config_validation_failed".
Definition CodeConfigReload : string := "config_reload_failed".
Definition CodeProxyError : string := "proxy_error".
Definition CodeInternalError : string := "internal_error".
Definition CodeUpstreamTimeout : string := "upstream_timeout".
Definition CodeUpstreamError : string := "upstream_error".
Definition CodeUpstreamAuth : string := "upstream_auth_error".
Definition CodeUpstreamRateLimit : string := "upstream_rate_limit".
Definition CodeUpstreamUnavailable : string := "upstream_unavailable".
Definition CodeMissingParameter : string := "missing_parameter".
Definition CodeInvalidParameter : string := "invalid_parameter".
Definition CodeInvalidRequestBody : string := "invalid_request_body".
Definition CodeAuthFailed : string := "auth_failed".
Definition CodeForbidden : string := "forbidden".
Definition CodeBudgetExceeded : string := "budget_exceeded".
Definition CodeInvalidBudget : string := "invalid_budget".

Definition StatusOK : Z := 200.
Definition StatusBadRequest : Z := 400.
Definition StatusUnauthorized : Z := 401.
Definition StatusForbidden : Z := 403.
Definition StatusNotFound : Z := 404.
Definition StatusRequestTimeout : Z := 408.
Definition StatusRequestEntityTooLarge : Z := 413.
Definition StatusTooManyRequests : Z := 429.
Definition StatusInternalServerError : Z := 500.
Definition StatusBadGateway : Z := 502.
Definition StatusServiceUnavailable : Z := 503.
Definition StatusGatewayTimeout : Z := 504.

(** ** The error record *)

Record DiffractLLMError : Type := mkDiffractLLMError {
  ErrorCategory : string;
  Code : string;
  Internal : option string;
  StatusCode : Z;
  Message : string;
  Type_ : string;
  Component : string;
  EProvider : string;
  Backend : string;
  BackendURL : string;
  ERequestID : string;
  Param : option string;
  Details : gmap string string;
  RetryAfter : Z;
  ProviderErrorCode : string;
  ProviderErrorType : string;
  ProviderErrorDetail : string
}.

#[export] Instance DiffractLLMError_eta : Eta DiffractLLMError := fun r =>
  mkDiffractLLMError (ErrorCategory r) (Code r) (Internal r) (StatusCode r) (Message r) (Type_ r)
    (Component r) (EProvider r) (Backend r) (BackendURL r) (ERequestID r) (Param r) (Details r)
    (RetryAfter r) (ProviderErrorCode r) (ProviderErrorType r) (ProviderErrorDetail r).

Definition new_error (cat code msg typ : string) (status : Z) (comp : string) : DiffractLLMError :=
  mkDiffractLLMError cat code None status msg typ comp "" "" "" "" None ∅ 0 "" "" "".

Definition IsGateway (r : DiffractLLMError) : bool := String.eqb r.(ErrorCategory) ErrorCategoryGateway.
Definition IsProvider (r : DiffractLLMError) : bool := String.eqb r.(ErrorCategory) ErrorCategoryProvider.
Definition IsClient (r : DiffractLLMError) : bool := String.eqb r.(ErrorCategory) ErrorCategoryClient.

(** [Error()]: the log line of an error. *)
Definition Error (r : DiffractLLMError) : string :=
  let line := "[" ++ r.(ErrorCategory) ++ "] : Status Code - [" ++ fmt_d r.(StatusCode)
              ++ "] Message - " ++ r.(Message) in
  match r.(Internal) with
  | Some cause => line ++ " Internal - " ++ cause
  | None => line
  end.

(** ** Constructors *)

Definition NewNoHealthyBackends (backendName : string) : DiffractLLMError :=
  new_error ErrorCategoryGateway CodeNoHealthyBackends
    ("No healthy instances available for backend '" ++ backendName ++ "'") "gateway_error" StatusServiceUnavailable "loadbalancer"
  <| Backend := backendName |>.

Definition NewRouteNotFound (path method : string) : DiffractLLMError :=
  new_error ErrorCategoryGateway CodeRouteNotFound
    ("No route found for " ++ method ++ " " ++ path) "gateway_error" StatusNotFound "routeengine"
  <| Details := {[ "path" := path; "method" := method ]} |>.

Definition NewRouteTableEmpty  : DiffractLLMError :=
  new_error ErrorCategoryGateway CodeRouteTableEmpty
    "Routing table is not initialized" "gateway_error" StatusServiceUnavailable "routeengine"
  <| Details := {[ "internal_detail" := "Check if policy.yaml is loaded correctly" ]} |>.

Definition NewConfigValidationError (message : string) (cause : option string) : DiffractLLMError :=
  new_error ErrorCategoryGateway CodeConfigValidation
    "Configuration validation failed" "gateway_error" StatusInternalServerError "configmanager"
  <| Internal := cause |>
  <| Details := {[ "internal_detail" := message ]} |>.

Definition NewConfigReloadError (message : string) (cause : option string) : DiffractLLMError :=
  new_error ErrorCategoryGateway CodeConfigReload
    "Failed to reload configuration" "gateway_error" StatusInternalServerError "configmanager"
  <| Internal := cause |>
  <| Details := {[ "internal_detail" := message ]} |>.

Definition NewProxyError (message : string) (cause : option string) : DiffractLLMError :=
  new_error ErrorCategoryGateway CodeProxyError
    "Proxy error occurred" "gateway_error" StatusBadGateway "reverseproxy"
  <| Internal := cause |>
  <| Details := {[ "internal_detail" := message ]} |>.

Definition NewInternalError (component message : string) (cause : option string) : DiffractLLMError :=
  new_error ErrorCategoryGateway CodeInternalError
    "Internal server error" "gateway_error" StatusInternalServerError component
  <| Internal := cause |>
  <| Details := {[ "internal_detail" := message ]} |>.

Definition NewUpstreamTimeout (provider backendURL : string) (cause : option string) : DiffractLLMError :=
  new_error ErrorCategoryProvider CodeUpstreamTimeout
    ("Request to " ++ provider ++ " timed out") "provider_error" StatusGatewayTimeout "provider"
  <| EProvider := provider |>
  <| BackendURL := backendURL |>
  <| Internal := cause |>
  <| Details := {[ "internal_detail" := ("Backend " ++ backendURL ++ " did not respond in time") ]} |>.

Definition NewUpstreamError (provider backendURL : string) (statusCode : Z) (message : string)
    (cause : option string) : DiffractLLMError :=
  new_error ErrorCategoryProvider CodeUpstreamError
    ("Provider " ++ provider ++ " returned an error") "provider_error" statusCode "provider"
  <| EProvider := provider |>
  <| BackendURL := backendURL |>
  <| Internal := cause |>
  <| Details := {[ "internal_detail" := message ]} |>.

Definition NewUpstreamAuth (provider backendURL message : string) : DiffractLLMError :=
  new_error ErrorCategoryProvider CodeUpstreamAuth
    ("Authentication failed with " ++ provider) "provider_error" StatusBadGateway "provider"
  <| EProvider := provider |>
  <| BackendURL := backendURL |>
  <| Details := {[ "internal_detail" := message ]} |>.

Definition NewUpstreamRateLimit (provider backendURL : string) (retryAfter : Z) : DiffractLLMError :=
  new_error ErrorCategoryProvider CodeUpstreamRateLimit
    ("Rate limit exceeded on " ++ provider) "provider_error" StatusTooManyRequests "provider"
  <| EProvider := provider |>
  <| BackendURL := backendURL |>
  <| RetryAfter := retryAfter |>.

Definition NewUpstreamUnavailable (provider backendURL : string) (cause : option string) : DiffractLLMError :=
  new_error ErrorCategoryProvider CodeUpstreamUnavailable
    ("Provider " ++ provider ++ " is currently unavailable") "provider_error" StatusBadGateway "provider"
  <| EProvider := provider |>
  <| BackendURL := backendURL |>
  <| Internal := cause |>
  <| Details := {[ "internal_detail" := "Service is down or unreachable" ]} |>.

Definition NewMissingParameter (parameter : string) : DiffractLLMError :=
  new_error ErrorCategoryClient CodeMissingParameter
    ("Missing required parameter: " ++ parameter) "invalid_request_error" StatusBadRequest "validator"
  <| Param := (Some parameter) |>.

Definition NewInvalidParameter (parameter reason : string) : DiffractLLMError :=
  new_error ErrorCategoryClient CodeInvalidParameter
    ("Invalid parameter '" ++ parameter ++ "': " ++ reason) "invalid_request_error" StatusBadRequest "validator"
  <| Param := (Some parameter) |>.

Definition NewInvalidRequestBody (message : string) (cause : option string) : DiffractLLMError :=
  new_error ErrorCategoryClient CodeInvalidRequestBody
    "Invalid request body" "invalid_request_error" StatusBadRequest "validator"
  <| Internal := cause |>
  <| Details := {[ "internal_detail" := message ]} |>.

Definition NewAuthFailed (message : string) : DiffractLLMError :=
  new_error ErrorCategoryClient CodeAuthFailed
    "Authentication failed" "authentication_error" StatusUnauthorized "auth"
  <| Details := {[ "internal_detail" := message ]} |>.

Definition NewForbidden (message : string) : DiffractLLMError :=
  new_error ErrorCategoryClient CodeForbidden
    "Access forbidden" "permission_error" StatusForbidden "auth"
  <| Details := {[ "internal_detail" := message ]} |>.

Definition NewInvalidBudget (message : string) : DiffractLLMError :=
  new_error ErrorCategoryGateway CodeInvalidBudget
    "Budget configuration error" "budget_error" StatusInternalServerError "budget"
  <| Details := {[ "internal_detail" := message ]} |>.

Definition NewBudgetExceeded (message : string) : DiffractLLMError :=
  new_error ErrorCategoryClient CodeBudgetExceeded
    "Budget limit exceeded" "budget_error" StatusBadRequest "budget"
  <| Details := {[ "internal_detail" := message ]} |>.

Definition NewPayloadTooLarge (limit : Z) : DiffractLLMError :=
  new_error ErrorCategoryClient CodeInvalidRequestBody
    "request body exceeds max_body_size" "invalid_request_error" StatusRequestEntityTooLarge "validator"
  <| Details := {[ "internal_detail" := ("body limit is " ++ fmt_d limit ++ " bytes") ]} |>.

(** [NewUnpricedModel]; the key is passed as its [SlashKey] text. *)
Definition NewUnpricedModel (slashKey : string) : DiffractLLMError :=
  new_error ErrorCategoryClient CodeInvalidRequestBody
    "model has no pricing configured" "invalid_request_error" StatusBadRequest "pricing"
  <| Details := {[ "model" := slashKey ]} |>.

(** ** Properties *)

(** At most one category test accepts an error. *)
Lemma error_category_exclusive (e : DiffractLLMError) :
  (IsClient e = true -> IsProvider e = false /\ IsGateway e = false) /\
  (IsProvider e = true -> IsClient e = false /\ IsGateway e = false) /\
  (IsGateway e = true -> IsClient e = false /\ IsProvider e = false).
Proof.
  unfold IsClient, IsProvider, IsGateway.
  generalize (ErrorCategory e) as c. intros c.
  splits; intros H%String.eqb_eq; by subst c.
Qed.
