(* ===== verification/Catalog.v ===== *)
(** * Names of the catalog — [core/provider.go], [core/kind-types.go], [core/capability.go],
    [core/catalog.go]

    Providers, request kinds, model types, capability bit sets and the key under which a model is
    looked up.  Go's string types are [string]; the [uint8] enumeration [ModelType] is an
    inductive type; a [Capability] is the [Z] of its [uint32]. *)

From S2P Require Import Prelude GoBase.
From Stdlib Require Import Ascii.
Open Scope string_scope.

(** ** Providers *)

Abbreviation Provider := string (only parsing).

Definition ProviderOpenAI : Provider := "openai".
Definition ProviderAnthropic : Provider := "anthropic".
Definition ProviderAzure : Provider := "azure".
Definition ProviderCohere : Provider := "cohere".
Definition ProviderOllama : Provider := "ollama".
Definition ProviderCustom : Provider := "custom".

Definition supportedProviders : list Provider :=
  [ProviderOpenAI; ProviderAnthropic; ProviderAzure; ProviderCohere; ProviderOllama; ProviderCustom].

Definition IsKnownProvider (name : string) : bool := bool_decide (name ∈ supportedProviders).

(** [ParseModelString]: "provider/model" when the prefix is a supported provider, otherwise the
    whole trimmed text is the model name and the provider is empty. *)
Definition ParseModelString (model : string) : Provider * string :=
  let model := TrimSpace model in
  match cut_byte "/"%char model with
  | Some (provider, name) =>
      if negb (is_empty provider) && negb (is_empty name) then
        if IsKnownProvider provider then (provider, name) else ("", model)
      else ("", model)
  | None => ("", model)
  end.

(** ** Model types *)

Inductive ModelType : Type :=
| ModelTypeUnknown
| ModelTypeChat
| ModelTypeCompletion
| ModelTypeResponses
| ModelTypeEmbedding
| ModelTypeImageGeneration
| ModelTypeAudioTranscription
| ModelTypeAudioSpeech
| ModelTypeModeration
| ModelTypeRerank
| ModelTypeSearch
| ModelTypeVideoGeneration
| ModelTypeImageEdit
| ModelTypeRealtime
| ModelTypeOCR
| ModelTypeVectorStore
| ModelType3D.

Definition ModelType_String (t : ModelType) : string :=
  match t with
  | ModelTypeChat => "chat"
  | ModelTypeCompletion => "completion"
  | ModelTypeResponses => "responses"
  | ModelTypeEmbedding => "embedding"
  | ModelTypeImageGeneration => "image_generation"
  | ModelTypeAudioTranscription => "audio_transcription"
  | ModelTypeAudioSpeech => "audio_speech"
  | ModelTypeModeration => "moderation"
  | ModelTypeRerank => "rerank"
  | ModelTypeSearch => "search"
  | ModelTypeVideoGeneration => "video_generation"
  | ModelTypeImageEdit => "image_edit"
  | ModelTypeRealtime => "realtime"
  | ModelTypeOCR => "ocr"
  | ModelTypeVectorStore => "vector_store"
  | ModelType3D => "3d"
  | ModelTypeUnknown => "unknown"
  end.

Definition ParseModelType (mode : string) : ModelType :=
  if String.eqb mode "chat" then ModelTypeChat
  else if String.eqb mode "completion" then ModelTypeCompletion
  else if String.eqb mode "responses" then ModelTypeResponses
  else if String.eqb mode "embedding" then ModelTypeEmbedding
  else if String.eqb mode "image_generation" then ModelTypeImageGeneration
  else if String.eqb mode "audio_transcription" then ModelTypeAudioTranscription
  else if String.eqb mode "audio_speech" then ModelTypeAudioSpeech
  else if String.eqb mode "moderation" then ModelTypeModeration
  else if String.eqb mode "rerank" then ModelTypeRerank
  else if String.eqb mode "search" then ModelTypeSearch
  else if String.eqb mode "video_generation" then ModelTypeVideoGeneration
  else if String.eqb mode "image_edit" then ModelTypeImageEdit
  else if String.eqb mode "realtime" then ModelTypeRealtime
  else if String.eqb mode "ocr" then ModelTypeOCR
  else if String.eqb mode "vector_store" then ModelTypeVectorStore
  else if String.eqb mode "3d" then ModelType3D
  else ModelTypeUnknown.

Lemma ParseModelType_String t : ParseModelType (ModelType_String t) = t.
Proof. by destruct t. Qed.

#[export] Instance ModelType_eq_dec : EqDecision ModelType.
Proof. solve_decision. Defined.
#[export] Instance ModelType_countable : Countable ModelType.
Proof.
  refine (inj_countable' ModelType_String ParseModelType _).
  exact ParseModelType_String.
Defined.

(** ** Request kinds *)

Abbreviation RequestKind := string (only parsing).

Definition ChatRequest : RequestKind := "chat".
Definition CompletionRequest : RequestKind := "completion".
Definition ResponsesRequest : RequestKind := "responses".
Definition EmbeddingRequest : RequestKind := "embedding".
Definition ImageGenRequest : RequestKind := "image_generation".
Definition ImageEditRequest : RequestKind := "image_edit".
Definition SpeechRequest : RequestKind := "speech".
Definition TranscriptionRequest : RequestKind := "transcription".
Definition ModerationRequest : RequestKind := "moderation".
Definition ModelsRequest : RequestKind := "models".

Definition RequestKind_ModelType (k : RequestKind) : ModelType :=
  if String.eqb k ChatRequest then ModelTypeChat
  else if String.eqb k CompletionRequest then ModelTypeCompletion
  else if String.eqb k ResponsesRequest then ModelTypeResponses
  else if String.eqb k EmbeddingRequest then ModelTypeEmbedding
  else if String.eqb k ImageGenRequest then ModelTypeImageGeneration
  else if String.eqb k ImageEditRequest then ModelTypeImageEdit
  else if String.eqb k SpeechRequest then ModelTypeAudioSpeech
  else if String.eqb k TranscriptionRequest then ModelTypeAudioTranscription
  else if String.eqb k ModerationRequest then ModelTypeModeration
  else ModelTypeUnknown.

(** ** Catalog keys *)

Record CatalogKey : Type := mkCatalogKey {
  KProvider : Provider;
  ModelName : string;
  KModelType : ModelType
}.
#[export] Instance CatalogKey_eta : Eta CatalogKey := fun k =>
  mkCatalogKey (KProvider k) (ModelName k) (KModelType k).
#[export] Instance CatalogKey_eq_dec : EqDecision CatalogKey.
Proof. solve_decision. Defined.
#[export] Instance CatalogKey_countable : Countable CatalogKey.
Proof.
  refine (inj_countable' (fun k => (KProvider k, ModelName k, KModelType k))
            (fun '(p, m, t) => mkCatalogKey p m t) _).
  by intros [].
Defined.

Definition CatalogKey0 : CatalogKey := mkCatalogKey "" "" ModelTypeUnknown.

Definition SlashKey (c : CatalogKey) : string := c.(KProvider) ++ "/" ++ c.(ModelName).
Definition RouteKey (c : CatalogKey) : CatalogKey := c <| KModelType := ModelTypeUnknown |>.
Definition CatalogKey_CustomPricingKey (c : CatalogKey) : CatalogKey := c <| KProvider := "" |>.

(** The limits and metadata of a model; [int32] fields are [Z]. *)
Record ModelLimits : Type := mkModelLimits {
  ContextWindow : Z;
  MaxInputTokens : Z;
  MaxOutputTokens : Z;
  LongContextThreshold : Z
}.

Record ModelMetadata : Type := mkModelMetadata {
  MID : string;
  MProvider : Provider;
  MModelType : ModelType;
  MModelName : string;
  BaseModel : string;
  MCapability : Z;
  Limits : ModelLimits;
  SourceRawKey : string
}.

Definition ModelMetadata_CatalogKey (m : ModelMetadata) : CatalogKey :=
  mkCatalogKey m.(MProvider) m.(MModelName) m.(MModelType).

(** ** Selector sets *)

Record SelectorSet : Type := mkSelectorSet { SelKey : string }.

Definition EmptySelectorKey : string := "{}".
Definition CanonicalKey (s : SelectorSet) : string :=
  if is_empty s.(SelKey) then EmptySelectorKey else s.(SelKey).
Definition Selector_IsEmpty (s : SelectorSet) : bool := String.eqb (CanonicalKey s) EmptySelectorKey.

(** ** Capabilities *)

Abbreviation Capability := Z (only parsing).

Definition CapFunctionCalling : Capability := Z.shiftl 1 0.
Definition CapParallelToolCalls : Capability := Z.shiftl 1 1.
Definition CapToolChoice : Capability := Z.shiftl 1 2.
Definition CapReasoning : Capability := Z.shiftl 1 3.
Definition CapVision : Capability := Z.shiftl 1 4.
Definition CapImageInput : Capability := Z.shiftl 1 5.
Definition CapAudioInput : Capability := Z.shiftl 1 6.
Definition CapAudioOutput : Capability := Z.shiftl 1 7.
Definition CapPDFInput : Capability := Z.shiftl 1 8.
Definition CapVideoInput : Capability := Z.shiftl 1 9.
Definition CapPromptCaching : Capability := Z.shiftl 1 10.
Definition CapResponseSchema : Capability := Z.shiftl 1 11.
Definition CapSystemMessages : Capability := Z.shiftl 1 12.
Definition CapStreaming : Capability := Z.shiftl 1 13.
Definition CapWebSearch : Capability := Z.shiftl 1 14.
Definition CapComputerUse : Capability := Z.shiftl 1 15.
Definition CapAssistantPrefill : Capability := Z.shiftl 1 16.
Definition CapEmbeddingImageInput : Capability := Z.shiftl 1 17.

Definition capabilityMap (name : string) : option Capability :=
  if String.eqb name "function_calling" then Some CapFunctionCalling
  else if String.eqb name "parallel_tool_calls" then Some CapParallelToolCalls
  else if String.eqb name "tool_choice" then Some CapToolChoice
  else if String.eqb name "reasoning" then Some CapReasoning
  else if String.eqb name "vision" then Some CapVision
  else if String.eqb name "image_input" then Some CapImageInput
  else if String.eqb name "audio_input" then Some CapAudioInput
  else if String.eqb name "audio_output" then Some CapAudioOutput
  else if String.eqb name "pdf_input" then Some CapPDFInput
  else if String.eqb name "video_input" then Some CapVideoInput
  else if String.eqb name "prompt_caching" then Some CapPromptCaching
  else if String.eqb name "response_schema" then Some CapResponseSchema
  else if String.eqb name "system_messages" then Some CapSystemMessages
  else if String.eqb name "streaming" then Some CapStreaming
  else if String.eqb name "web_search" then Some CapWebSearch
  else if String.eqb name "computer_use" then Some CapComputerUse
  else if String.eqb name "assistant_prefill" then Some CapAssistantPrefill
  else if String.eqb name "embedding_image_input" then Some CapEmbeddingImageInput
  else None.

Definition capabilityStrings : list string :=
  ["function_calling"; "parallel_tool_calls"; "tool_choice"; "reasoning"; "vision";
   "image_input"; "audio_input"; "audio_output"; "pdf_input"; "video_input";
   "prompt_caching"; "response_schema"; "system_messages"; "streaming"; "web_search";
   "computer_use"; "assistant_prefill"; "embedding_image_input"].

Definition Capability_Has (c f : Capability) : bool := negb (Z.land c f =? 0)%Z.
Definition SupportsAll (c required : Capability) : bool := (Z.land c required =? required)%Z.
Definition Capability_Empty (c : Capability) : bool := (c =? 0)%Z.

(** The loop of [String()] from index [i] on. *)
Fixpoint capability_names (c : Capability) (i : Z) (names : list string) : list string :=
  match names with
  | [] => []
  | n :: names' =>
      let rest := capability_names c (i + 1) names' in
      if Capability_Has c (Z.shiftl 1 i) then n :: rest else rest
  end.
Definition Capability_String (c : Capability) : list string := capability_names c 0 capabilityStrings.

Definition ParseCapabilityStrings (cap : list string) : Capability :=
  foldl (fun c n => match capabilityMap n with Some bit => Z.lor c bit | None => c end) 0%Z cap.

(** ** Properties *)

Lemma IsKnownProvider_spec p : IsKnownProvider p = true <-> p ∈ supportedProviders.
Proof. apply bool_decide_eq_true. Qed.

Lemma IsKnownProvider_nonempty p : IsKnownProvider p = true -> p <> "".
Proof. intros H ->. vm_compute in H. discriminate. Qed.

Lemma cut_byte_Some sep s a b : cut_byte sep s = Some (a, b) -> s = a ++ String sep b.
Proof.
  revert a. induction s as [|c s IH]; intros a; simpl; [done|].
  destruct (Ascii.eqb_spec c sep) as [->|]; [by intros [= <- <-]|].
  destruct (cut_byte sep s) as [[a' b']|]; [|done]. intros [= <- <-].
  simpl. f_equal. by apply IH.
Qed.

(** A parsed provider is always supported, its model name is never empty and
    the two give the trimmed text back; with no provider the model is the trimmed text. *)
Lemma ParseModelString_spec model :
  let '(p, name) := ParseModelString model in
  (p = "" /\ name = TrimSpace model) \/
  (IsKnownProvider p = true /\ name <> "" /\ TrimSpace model = p ++ "/" ++ name).
Proof.
  unfold ParseModelString.
  destruct (cut_byte _ _) as [[p name]|] eqn:Hcut; [|by left].
  destruct (negb _ && negb _) eqn:Hne; [|by left].
  destruct (IsKnownProvider p) eqn:Hk; [|by left].
  right. apply cut_byte_Some in Hcut. zbool. apply is_empty_false in H0. done.
Qed.

Lemma Capability_Has_bit c i : (0 <= i)%Z -> Capability_Has c (Z.shiftl 1 i) = Z.testbit c i.
Proof.
  intros Hi. unfold Capability_Has. rewrite Z.shiftl_1_l.
  destruct (Z.testbit c i) eqn:Hb.
  - apply negb_true_iff, Z.eqb_neq. intros H0.
    assert (H1 : Z.testbit (Z.land c (2 ^ i)) i = false) by (rewrite H0; apply Z.testbit_0_l).
    rewrite Z.land_spec, Hb, Z.pow2_bits_true in H1 by done. done.
  - apply negb_false_iff, Z.eqb_eq. apply Z.bits_inj'. intros n Hn.
    rewrite Z.land_spec, Z.pow2_bits_eqb, Z.testbit_0_l by done.
    destruct (Z.eqb_spec i n) as [->|]; [by rewrite Hb | by rewrite andb_false_r].
Qed.

(** The accumulated capability has a bit when it had it or a named capability carries it. *)
Lemma ParseCapability_bits l c0 j :
  Z.testbit (foldl (fun c n => match capabilityMap n with Some b => Z.lor c b | None => c end) c0 l) j
  = Z.testbit c0 j || existsb (fun n => match capabilityMap n with
                                        | Some b => Z.testbit b j | None => false end) l.
Proof.
  revert c0. induction l as [|n l IH]; intros c0; simpl; [by rewrite orb_false_r|].
  rewrite IH. destruct (capabilityMap n); [|done]. rewrite Z.lor_spec. by rewrite orb_assoc.
Qed.

Fixpoint indexed (i : Z) (names : list string) : Prop :=
  match names with
  | [] => True
  | n :: names' => capabilityMap n = Some (Z.shiftl 1 i) /\ indexed (i + 1) names'
  end.

Lemma capability_names_bits c i names j :
  (0 <= i)%Z -> indexed i names ->
  existsb (fun n => match capabilityMap n with Some b => Z.testbit b j | None => false end)
    (capability_names c i names)
  = Z.testbit c j && (i <=? j)%Z && (j <? i + Z.of_nat (List.length names))%Z.
Proof.
  revert i. induction names as [|n names IH]; intros i Hi Hix; simpl.
  - rewrite Z.add_0_r.
    destruct (Z.leb_spec i j), (Z.ltb_spec j i); rewrite ?andb_false_r; try done; lia.
  - destruct Hix as [Hn Hix]. rewrite Capability_Has_bit by done.
    assert (Hb : Z.testbit (Z.shiftl 1 i) j = Z.eqb i j).
    { rewrite Z.shiftl_1_l. by apply Z.pow2_bits_eqb. }
    assert (Hj : (if Z.testbit c i then Z.eqb i j else false) = (Z.testbit c j && Z.eqb i j)).
    { destruct (Z.eqb_spec i j) as [->|]; [by destruct (Z.testbit c j)|].
      rewrite andb_false_r. by case_match. }
    transitivity ((Z.testbit c j && Z.eqb i j)
       || (Z.testbit c j && (i + 1 <=? j)%Z && (j <? i + 1 + Z.of_nat (List.length names))%Z)).
    + rewrite <- IH, <- Hj by (done || lia).
      destruct (Z.testbit c i); simpl; [by rewrite Hn, Hb | done].
    + destruct (Z.testbit c j); simpl; [|done].
      apply eq_true_iff_eq. rewrite !orb_true_iff, !andb_true_iff, !Z.leb_le, !Z.ltb_lt, Z.eqb_eq. lia.
Qed.

(** Printing a capability set and parsing it back keeps exactly its eighteen named bits. *)
Theorem capability_roundtrip (c : Capability) :
  ParseCapabilityStrings (Capability_String c) = Z.land c (Z.ones 18).
Proof.
  apply Z.bits_inj'. intros j Hj.
  rewrite Z.land_spec. unfold ParseCapabilityStrings. rewrite ParseCapability_bits, Z.testbit_0_l.
  simpl orb. unfold Capability_String. rewrite capability_names_bits; [|lia|].
  - rewrite Z.testbit_ones by lia. simpl List.length. by rewrite andb_assoc.
  - repeat (split; [vm_compute; reflexivity|]). exact I.
Qed.
