(* ===== verification/Money.v ===== *)
(** * Nano-dollar amounts — [core/money.go]

    Budgets count money in [int64] nano-dollars; prices and costs are [float64] dollars.
    [ToNanoUSD] rounds and saturates, [FromNanoUSD] divides back. *)

From S2P Require Import Prelude Float64.
From Stdlib Require Import SpecFloat.
Local Open Scope Z_scope.

Definition NanoUSD : Z := 1000000000.
Definition maxNanoUSD : Z := MaxInt64.

Definition ToNanoUSD (usd : f64) : Z :=
  if is_nan usd || f64_leb usd f64_zero then 0
  else
    let nano := f64_round (f64_mul usd (f64_of_Z NanoUSD)) in
    if is_inf nano || f64_leb (f64_of_Z maxNanoUSD) nano then maxNanoUSD
    else f64_trunc nano.

Definition FromNanoUSD (nano : Z) : f64 := f64_div (f64_of_Z nano) (f64_of_Z NanoUSD).

(** ** Properties *)

(** The constant [maxNanoUSD] is [2^63] once converted to a [float64]. *)
Lemma f64_maxNanoUSD : f64_of_Z maxNanoUSD = S754_finite false 4503599627370496 11.
Proof. vm_compute. reflexivity. Qed.

Lemma f64_NanoUSD_pos : sign_is false (f64_of_Z NanoUSD) = true.
Proof. vm_compute. reflexivity. Qed.

(** What passes the guard of [ToNanoUSD] is positive. *)
Lemma f64_positive_sign usd :
  is_nan usd || f64_leb usd f64_zero = false -> sign_is false usd = true.
Proof. destruct usd as [|[]| |[]]; simpl; done. Qed.

Lemma f64_not_leb_2p63 nano :
  sign_is false nano = true -> is_inf nano || f64_leb (f64_of_Z maxNanoUSD) nano = false ->
  f64_trunc nano < 2 ^ 63.
Proof.
  rewrite f64_maxNanoUSD. intros Hs Hn.
  destruct nano as [s|s| |s m e]; try done. destruct s; [done|].
  apply orb_false_iff in Hn as [_ Hn].
  change (2 ^ 63) with (Zpos 4503599627370496 * 2 ^ 11). apply f64_trunc_lt; [lia|].
  unfold f64_leb, f64_ltb in *. simpl in *. unfold dyadic_compare in *.
  rewrite (Z.min_comm e 11). set (a := scaled _ 11 _) in *. set (b := scaled _ e _) in *.
  rewrite Z.compare_antisym. by destruct (a ?= b).
Qed.

Lemma ToNanoUSD_bounds (usd : f64) : 0 <= ToNanoUSD usd <= MaxInt64.
Proof.
  unfold ToNanoUSD.
  destruct (is_nan usd || f64_leb usd f64_zero) eqn:Hg; [unfold MaxInt64; lia|].
  apply f64_positive_sign in Hg.
  assert (Hs : sign_is false (f64_round (f64_mul usd (f64_of_Z NanoUSD))) = true).
  { apply f64_round_sign, f64_mul_sign; [done | apply f64_NanoUSD_pos]. }
  destruct (is_inf _ || _) eqn:Hb; [unfold maxNanoUSD, MaxInt64; lia|].
  pose proof (f64_trunc_nonneg _ Hs). pose proof (f64_not_leb_2p63 _ Hs Hb).
  unfold MaxInt64. lia.
Qed.

(** Whatever [float64] a cost computation produces (NaN, negative, infinite,
    huge), the amount recorded against a budget is a valid non-negative [int64]: it never wraps
    around to a credit.  What is not a positive number costs nothing, and an amount of [2^63]
    nano-dollars or more is charged as the largest [int64]. *)
Theorem ToNanoUSD_range (usd : f64) :
  0 <= ToNanoUSD usd <= MaxInt64 /\
  (is_nan usd || f64_leb usd f64_zero = true -> ToNanoUSD usd = 0) /\
  (f64_leb usd f64_zero = false -> is_nan usd = false ->
   f64_leb (f64_of_Z maxNanoUSD) (f64_round (f64_mul usd (f64_of_Z NanoUSD))) = true ->
   ToNanoUSD usd = MaxInt64).
Proof.
  splits; try apply ToNanoUSD_bounds; unfold ToNanoUSD.
  - by intros ->.
  - intros -> -> ->. by rewrite orb_true_r.
Qed.

(** Values that are not a positive amount are billed as zero. *)
Lemma ToNanoUSD_nonpositive usd : f64_leb usd f64_zero = true -> ToNanoUSD usd = 0.
Proof. unfold ToNanoUSD. intros ->. by rewrite orb_true_r. Qed.

Example ToNanoUSD_cent : ToNanoUSD (f64_div (f64_of_Z 1) (f64_of_Z 100)) = 10000000.
Proof. vm_compute. reflexivity. Qed.
Example FromNanoUSD_roundtrip : ToNanoUSD (FromNanoUSD 123456789) = 123456789.
Proof. vm_compute. reflexivity. Qed.
Example ToNanoUSD_saturates : ToNanoUSD (f64_of_Z 10000000000) = MaxInt64.
Proof. vm_compute. reflexivity. Qed.
