(* ===== verification/Pricing.v ===== *)
(** * Prices and the cost of a request — [core/pricing.go]

    A [Pricing] is a Go struct of 132 nil-able [float64] fields; here it is the function from the
    names of those fields ([PricingField], in the order of the struct) to the optional price.
    [pricingFieldPairs] is the table of the fields [MergePricing] copies.  The fifteen rate
    functions are written as the sequence of their early returns: [s1 <||> s2] is statement [s1],
    then, if it did not return, [s2].  [CalculateCost] and [CostBreakdown] run the same
    [costLines] over different accumulators. *)

From S2P Require Import Prelude GoBase Float64 Catalog.
Local Open Scope Z_scope.

(** ** The fields of [Pricing] *)

Inductive PricingField : Type :=
| InputCostPerToken
| OutputCostPerToken
| InputCostPerTokenPriority
| OutputCostPerTokenPriority
| InputCostPerTokenFlex
| OutputCostPerTokenFlex
| InputCostPerTokenBatches
| OutputCostPerTokenBatches
| InputCostPerTokenFast
| OutputCostPerTokenFast
| InputCostPerTokenAbove128kTokens
| OutputCostPerTokenAbove128kTokens
| InputCostPerTokenAbove200kTokens
| OutputCostPerTokenAbove200kTokens
| InputCostPerTokenAbove256kTokens
| OutputCostPerTokenAbove256kTokens
| InputCostPerTokenAbove272kTokens
| OutputCostPerTokenAbove272kTokens
| InputCostPerTokenAbove512kTokens
| OutputCostPerTokenAbove512kTokens
| InputCostPerTokenAbove200kTokensPriority
| OutputCostPerTokenAbove200kTokensPriority
| InputCostPerTokenAbove272kTokensPriority
| OutputCostPerTokenAbove272kTokensPriority
| InputCostPerTokenAbove272kTokensFlex
| OutputCostPerTokenAbove272kTokensFlex
| InputCostPerTokenFlexAbove272kTokens
| OutputCostPerTokenFlexAbove272kTokens
| InputCostPerTokenBatchesAbove272kTokens
| OutputCostPerTokenBatchesAbove272kTokens
| CacheReadInputTokenCost
| CacheReadInputTokenCostPriority
| CacheReadInputTokenCostFlex
| CacheReadInputTokenCostBatches
| CacheReadInputTokenCostFast
| CacheReadInputTokenCostAbove200kTokens
| CacheReadInputTokenCostAbove272kTokens
| CacheReadInputTokenCostAbove512kTokens
| CacheReadInputTokenCostAbove200kTokensPriority
| CacheReadInputTokenCostAbove272kTokensPriority
| CacheReadInputTokenCostAbove272kTokensFlex
| CacheReadInputTokenCostFlexAbove272kTokens
| CacheReadInputTokenCostBatchesAbove272kTokens
| InputCostPerTokenCacheHit
| CacheCreationInputTokenCost
| CacheCreationInputTokenCostPriority
| CacheCreationInputTokenCostFlex
| CacheCreationInputTokenCostBatches
| CacheCreationInputTokenCostFast
| CacheCreationInputTokenCostAbove200kTokens
| CacheCreationInputTokenCostAbove272kTokens
| CacheCreationInputTokenCostAbove272kTokensFlex
| CacheCreationInputTokenCostFlexAbove272kTokens
| CacheCreationInputTokenCostBatchesAbove272kTokens
| CacheCreationInputTokenCostAbove1hr
| CacheCreationInputTokenCostAbove1hrAbove200kTokens
| CacheCreationInputTokenCostAbove1hrFast
| CacheCreationInputTokenCostBatches1h
| OutputCostPerReasoningToken
| CitationCostPerToken
| InputCostPerAudioToken
| OutputCostPerAudioToken
| InputCostPerAudioTokenPriority
| CacheReadInputAudioTokenCost
| CacheCreationInputAudioTokenCost
| InputCostPerAudioPerSecond
| InputCostPerAudioPerSecondAbove128kTokens
| InputCostPerCharacter
| OutputCostPerCharacter
| InputCostPerCharacterAbove128kTokens
| OutputCostPerCharacterAbove128kTokens
| InputCostPerImage
| OutputCostPerImage
| InputCostPerImageAbove128kTokens
| InputCostPerImageToken
| OutputCostPerImageToken
| InputCostPerPixel
| OutputCostPerPixel
| OutputCostPerImageLowQuality
| OutputCostPerImageMediumQuality
| OutputCostPerImageHighQuality
| OutputCostPerImageAutoQuality
| OutputCostPerImageAbove1024And1024Pixels
| OutputCostPerImageAbove2048And2048Pixels
| OutputCostPerImageAbove4096And4096Pixels
| OutputCostPerImageAbove2048Pixels
| OutputCostPerImageAbove4096Pixels
| InputCostPerVideoPerSecond
| InputCostPerVideoPerSecondAbove128kTokens
| OutputCostPerVideoPerSecond
| OutputCostPerVideoToken
| OutputCostPerVideo
| InputCostPerSecond
| OutputCostPerSecond
| InputCostPerVideoPerSecondAbove8sInterval
| InputCostPerVideoPerSecondAbove15sInterval
| OutputCostPerVideoPerSecond360p
| OutputCostPerVideoPerSecond360pAudio
| OutputCostPerVideoPerSecond480p
| OutputCostPerVideoPerSecond480pVideoIn
| OutputCostPerVideoPerSecond540p
| OutputCostPerVideoPerSecond540pAudio
| OutputCostPerVideoPerSecond720p
| OutputCostPerVideoPerSecond720pAudio
| OutputCostPerVideoPerSecond720pVideoIn
| OutputCostPerVideoPerSecond1080p
| OutputCostPerVideoPerSecond1080pAudio
| OutputCostPerVideoPerSecond1080pVideoIn
| OutputCostPerVideoPerSecond4k
| OutputCostPerVideoPerSecond4kAudio
| OutputCostPerVideoPerSecond4kVideoIn
| OutputCostPerVideoPerSecondPro
| OutputCostPerVideoPerSecondProAudio
| OutputCostPerVideoPerSecondStandard
| OutputCostPerVideoPerSecondStandardAudio
| OutputCostPerSecond1080p
| OutputCostPerVideo768p6s
| OutputCostPerVideo768p10s
| OutputCostPerVideo1080p6s
| InputCostPerQuery
| SearchContextCostPerQueryLow
| SearchContextCostPerQueryMedium
| SearchContextCostPerQueryHigh
| CostPerRequest
| InputCostPerRequest
| OCRCostPerPage
| OCRCostPerCredit
| AnnotationCostPerPage
| CodeInterpreterCostPerSession
| InputDBUCostPerToken
| OutputDBUCostPerToken
| OutputCostPerUnit.

(** The JSON name of each field (its struct tag). *)
Definition json_tag (f : PricingField) : string :=
  match f with
  | InputCostPerToken => "input_cost_per_token"
  | OutputCostPerToken => "output_cost_per_token"
  | InputCostPerTokenPriority => "input_cost_per_token_priority"
  | OutputCostPerTokenPriority => "output_cost_per_token_priority"
  | InputCostPerTokenFlex => "input_cost_per_token_flex"
  | OutputCostPerTokenFlex => "output_cost_per_token_flex"
  | InputCostPerTokenBatches => "input_cost_per_token_batches"
  | OutputCostPerTokenBatches => "output_cost_per_token_batches"
  | InputCostPerTokenFast => "input_cost_per_token_fast"
  | OutputCostPerTokenFast => "output_cost_per_token_fast"
  | InputCostPerTokenAbove128kTokens => "input_cost_per_token_above_128k_tokens"
  | OutputCostPerTokenAbove128kTokens => "output_cost_per_token_above_128k_tokens"
  | InputCostPerTokenAbove200kTokens => "input_cost_per_token_above_200k_tokens"
  | OutputCostPerTokenAbove200kTokens => "output_cost_per_token_above_200k_tokens"
  | InputCostPerTokenAbove256kTokens => "input_cost_per_token_above_256k_tokens"
  | OutputCostPerTokenAbove256kTokens => "output_cost_per_token_above_256k_tokens"
  | InputCostPerTokenAbove272kTokens => "input_cost_per_token_above_272k_tokens"
  | OutputCostPerTokenAbove272kTokens => "output_cost_per_token_above_272k_tokens"
  | InputCostPerTokenAbove512kTokens => "input_cost_per_token_above_512k_tokens"
  | OutputCostPerTokenAbove512kTokens => "output_cost_per_token_above_512k_tokens"
  | InputCostPerTokenAbove200kTokensPriority => "input_cost_per_token_above_200k_tokens_priority"
  | OutputCostPerTokenAbove200kTokensPriority => "output_cost_per_token_above_200k_tokens_priority"
  | InputCostPerTokenAbove272kTokensPriority => "input_cost_per_token_above_272k_tokens_priority"
  | OutputCostPerTokenAbove272kTokensPriority => "output_cost_per_token_above_272k_tokens_priority"
  | InputCostPerTokenAbove272kTokensFlex => "input_cost_per_token_above_272k_tokens_flex"
  | OutputCostPerTokenAbove272kTokensFlex => "output_cost_per_token_above_272k_tokens_flex"
  | InputCostPerTokenFlexAbove272kTokens => "input_cost_per_token_flex_above_272k_tokens"
  | OutputCostPerTokenFlexAbove272kTokens => "output_cost_per_token_flex_above_272k_tokens"
  | InputCostPerTokenBatchesAbove272kTokens => "input_cost_per_token_batches_above_272k_tokens"
  | OutputCostPerTokenBatchesAbove272kTokens => "output_cost_per_token_batches_above_272k_tokens"
  | CacheReadInputTokenCost => "cache_read_input_token_cost"
  | CacheReadInputTokenCostPriority => "cache_read_input_token_cost_priority"
  | CacheReadInputTokenCostFlex => "cache_read_input_token_cost_flex"
  | CacheReadInputTokenCostBatches => "cache_read_input_token_cost_batches"
  | CacheReadInputTokenCostFast => "cache_read_input_token_cost_fast"
  | CacheReadInputTokenCostAbove200kTokens => "cache_read_input_token_cost_above_200k_tokens"
  | CacheReadInputTokenCostAbove272kTokens => "cache_read_input_token_cost_above_272k_tokens"
  | CacheReadInputTokenCostAbove512kTokens => "cache_read_input_token_cost_above_512k_tokens"
  | CacheReadInputTokenCostAbove200kTokensPriority => "cache_read_input_token_cost_above_200k_tokens_priority"
  | CacheReadInputTokenCostAbove272kTokensPriority => "cache_read_input_token_cost_above_272k_tokens_priority"
  | CacheReadInputTokenCostAbove272kTokensFlex => "cache_read_input_token_cost_above_272k_tokens_flex"
  | CacheReadInputTokenCostFlexAbove272kTokens => "cache_read_input_token_cost_flex_above_272k_tokens"
  | CacheReadInputTokenCostBatchesAbove272kTokens => "cache_read_input_token_cost_batches_above_272k_tokens"
  | InputCostPerTokenCacheHit => "input_cost_per_token_cache_hit"
  | CacheCreationInputTokenCost => "cache_creation_input_token_cost"
  | CacheCreationInputTokenCostPriority => "cache_creation_input_token_cost_priority"
  | CacheCreationInputTokenCostFlex => "cache_creation_input_token_cost_flex"
  | CacheCreationInputTokenCostBatches => "cache_creation_input_token_cost_batches"
  | CacheCreationInputTokenCostFast => "cache_creation_input_token_cost_fast"
  | CacheCreationInputTokenCostAbove200kTokens => "cache_creation_input_token_cost_above_200k_tokens"
  | CacheCreationInputTokenCostAbove272kTokens => "cache_creation_input_token_cost_above_272k_tokens"
  | CacheCreationInputTokenCostAbove272kTokensFlex => "cache_creation_input_token_cost_above_272k_tokens_flex"
  | CacheCreationInputTokenCostFlexAbove272kTokens => "cache_creation_input_token_cost_flex_above_272k_tokens"
  | CacheCreationInputTokenCostBatchesAbove272kTokens => "cache_creation_input_token_cost_batches_above_272k_tokens"
  | CacheCreationInputTokenCostAbove1hr => "cache_creation_input_token_cost_above_1hr"
  | CacheCreationInputTokenCostAbove1hrAbove200kTokens => "cache_creation_input_token_cost_above_1hr_above_200k_tokens"
  | CacheCreationInputTokenCostAbove1hrFast => "cache_creation_input_token_cost_above_1hr_fast"
  | CacheCreationInputTokenCostBatches1h => "cache_creation_input_token_cost_batches_1h"
  | OutputCostPerReasoningToken => "output_cost_per_reasoning_token"
  | CitationCostPerToken => "citation_cost_per_token"
  | InputCostPerAudioToken => "input_cost_per_audio_token"
  | OutputCostPerAudioToken => "output_cost_per_audio_token"
  | InputCostPerAudioTokenPriority => "input_cost_per_audio_token_priority"
  | CacheReadInputAudioTokenCost => "cache_read_input_audio_token_cost"
  | CacheCreationInputAudioTokenCost => "cache_creation_input_audio_token_cost"
  | InputCostPerAudioPerSecond => "input_cost_per_audio_per_second"
  | InputCostPerAudioPerSecondAbove128kTokens => "input_cost_per_audio_per_second_above_128k_tokens"
  | InputCostPerCharacter => "input_cost_per_character"
  | OutputCostPerCharacter => "output_cost_per_character"
  | InputCostPerCharacterAbove128kTokens => "input_cost_per_character_above_128k_tokens"
  | OutputCostPerCharacterAbove128kTokens => "output_cost_per_character_above_128k_tokens"
  | InputCostPerImage => "input_cost_per_image"
  | OutputCostPerImage => "output_cost_per_image"
  | InputCostPerImageAbove128kTokens => "input_cost_per_image_above_128k_tokens"
  | InputCostPerImageToken => "input_cost_per_image_token"
  | OutputCostPerImageToken => "output_cost_per_image_token"
  | InputCostPerPixel => "input_cost_per_pixel"
  | OutputCostPerPixel => "output_cost_per_pixel"
  | OutputCostPerImageLowQuality => "output_cost_per_image_low_quality"
  | OutputCostPerImageMediumQuality => "output_cost_per_image_medium_quality"
  | OutputCostPerImageHighQuality => "output_cost_per_image_high_quality"
  | OutputCostPerImageAutoQuality => "output_cost_per_image_auto_quality"
  | OutputCostPerImageAbove1024And1024Pixels => "output_cost_per_image_above_1024_and_1024_pixels"
  | OutputCostPerImageAbove2048And2048Pixels => "output_cost_per_image_above_2048_and_2048_pixels"
  | OutputCostPerImageAbove4096And4096Pixels => "output_cost_per_image_above_4096_and_4096_pixels"
  | OutputCostPerImageAbove2048Pixels => "output_cost_per_image_above_2048_pixels"
  | OutputCostPerImageAbove4096Pixels => "output_cost_per_image_above_4096_pixels"
  | InputCostPerVideoPerSecond => "input_cost_per_video_per_second"
  | InputCostPerVideoPerSecondAbove128kTokens => "input_cost_per_video_per_second_above_128k_tokens"
  | OutputCostPerVideoPerSecond => "output_cost_per_video_per_second"
  | OutputCostPerVideoToken => "output_cost_per_video_token"
  | OutputCostPerVideo => "output_cost_per_video"
  | InputCostPerSecond => "input_cost_per_second"
  | OutputCostPerSecond => "output_cost_per_second"
  | InputCostPerVideoPerSecondAbove8sInterval => "input_cost_per_video_per_second_above_8s_interval"
  | InputCostPerVideoPerSecondAbove15sInterval => "input_cost_per_video_per_second_above_15s_interval"
  | OutputCostPerVideoPerSecond360p => "output_cost_per_video_per_second_360p"
  | OutputCostPerVideoPerSecond360pAudio => "output_cost_per_video_per_second_360p_audio"
  | OutputCostPerVideoPerSecond480p => "output_cost_per_video_per_second_480p"
  | OutputCostPerVideoPerSecond480pVideoIn => "output_cost_per_video_per_second_480p_video_in"
  | OutputCostPerVideoPerSecond540p => "output_cost_per_video_per_second_540p"
  | OutputCostPerVideoPerSecond540pAudio => "output_cost_per_video_per_second_540p_audio"
  | OutputCostPerVideoPerSecond720p => "output_cost_per_video_per_second_720p"
  | OutputCostPerVideoPerSecond720pAudio => "output_cost_per_video_per_second_720p_audio"
  | OutputCostPerVideoPerSecond720pVideoIn => "output_cost_per_video_per_second_720p_video_in"
  | OutputCostPerVideoPerSecond1080p => "output_cost_per_video_per_second_1080p"
  | OutputCostPerVideoPerSecond1080pAudio => "output_cost_per_video_per_second_1080p_audio"
  | OutputCostPerVideoPerSecond1080pVideoIn => "output_cost_per_video_per_second_1080p_video_in"
  | OutputCostPerVideoPerSecond4k => "output_cost_per_video_per_second_4k"
  | OutputCostPerVideoPerSecond4kAudio => "output_cost_per_video_per_second_4k_audio"
  | OutputCostPerVideoPerSecond4kVideoIn => "output_cost_per_video_per_second_4k_video_in"
  | OutputCostPerVideoPerSecondPro => "output_cost_per_video_per_second_pro"
  | OutputCostPerVideoPerSecondProAudio => "output_cost_per_video_per_second_pro_audio"
  | OutputCostPerVideoPerSecondStandard => "output_cost_per_video_per_second_standard"
  | OutputCostPerVideoPerSecondStandardAudio => "output_cost_per_video_per_second_standard_audio"
  | OutputCostPerSecond1080p => "output_cost_per_second_1080p"
  | OutputCostPerVideo768p6s => "output_cost_per_video_768p_6s"
  | OutputCostPerVideo768p10s => "output_cost_per_video_768p_10s"
  | OutputCostPerVideo1080p6s => "output_cost_per_video_1080p_6s"
  | InputCostPerQuery => "input_cost_per_query"
  | SearchContextCostPerQueryLow => "search_context_cost_per_query_low"
  | SearchContextCostPerQueryMedium => "search_context_cost_per_query_medium"
  | SearchContextCostPerQueryHigh => "search_context_cost_per_query_high"
  | CostPerRequest => "cost_per_request"
  | InputCostPerRequest => "input_cost_per_request"
  | OCRCostPerPage => "ocr_cost_per_page"
  | OCRCostPerCredit => "ocr_cost_per_credit"
  | AnnotationCostPerPage => "annotation_cost_per_page"
  | CodeInterpreterCostPerSession => "code_interpreter_cost_per_session"
  | InputDBUCostPerToken => "input_dbu_cost_per_token"
  | OutputDBUCostPerToken => "output_dbu_cost_per_token"
  | OutputCostPerUnit => "output_cost_per_unit"
  end.

Definition all_fields : list PricingField :=
  [InputCostPerToken; OutputCostPerToken; InputCostPerTokenPriority; OutputCostPerTokenPriority;
   InputCostPerTokenFlex; OutputCostPerTokenFlex; InputCostPerTokenBatches;
   OutputCostPerTokenBatches; InputCostPerTokenFast; OutputCostPerTokenFast;
   InputCostPerTokenAbove128kTokens; OutputCostPerTokenAbove128kTokens;
   InputCostPerTokenAbove200kTokens; OutputCostPerTokenAbove200kTokens;
   InputCostPerTokenAbove256kTokens; OutputCostPerTokenAbove256kTokens;
   InputCostPerTokenAbove272kTokens; OutputCostPerTokenAbove272kTokens;
   InputCostPerTokenAbove512kTokens; OutputCostPerTokenAbove512kTokens;
   InputCostPerTokenAbove200kTokensPriority; OutputCostPerTokenAbove200kTokensPriority;
   InputCostPerTokenAbove272kTokensPriority; OutputCostPerTokenAbove272kTokensPriority;
   InputCostPerTokenAbove272kTokensFlex; OutputCostPerTokenAbove272kTokensFlex;
   InputCostPerTokenFlexAbove272kTokens; OutputCostPerTokenFlexAbove272kTokens;
   InputCostPerTokenBatchesAbove272kTokens; OutputCostPerTokenBatchesAbove272kTokens;
   CacheReadInputTokenCost; CacheReadInputTokenCostPriority; CacheReadInputTokenCostFlex;
   CacheReadInputTokenCostBatches; CacheReadInputTokenCostFast;
   CacheReadInputTokenCostAbove200kTokens; CacheReadInputTokenCostAbove272kTokens;
   CacheReadInputTokenCostAbove512kTokens; CacheReadInputTokenCostAbove200kTokensPriority;
   CacheReadInputTokenCostAbove272kTokensPriority; CacheReadInputTokenCostAbove272kTokensFlex;
   CacheReadInputTokenCostFlexAbove272kTokens; CacheReadInputTokenCostBatchesAbove272kTokens;
   InputCostPerTokenCacheHit; CacheCreationInputTokenCost; CacheCreationInputTokenCostPriority;
   CacheCreationInputTokenCostFlex; CacheCreationInputTokenCostBatches;
   CacheCreationInputTokenCostFast; CacheCreationInputTokenCostAbove200kTokens;
   CacheCreationInputTokenCostAbove272kTokens; CacheCreationInputTokenCostAbove272kTokensFlex;
   CacheCreationInputTokenCostFlexAbove272kTokens;
   CacheCreationInputTokenCostBatchesAbove272kTokens; CacheCreationInputTokenCostAbove1hr;
   CacheCreationInputTokenCostAbove1hrAbove200kTokens; CacheCreationInputTokenCostAbove1hrFast;
   CacheCreationInputTokenCostBatches1h; OutputCostPerReasoningToken; CitationCostPerToken;
   InputCostPerAudioToken; OutputCostPerAudioToken; InputCostPerAudioTokenPriority;
   CacheReadInputAudioTokenCost; CacheCreationInputAudioTokenCost; InputCostPerAudioPerSecond;
   InputCostPerAudioPerSecondAbove128kTokens; InputCostPerCharacter; OutputCostPerCharacter;
   InputCostPerCharacterAbove128kTokens; OutputCostPerCharacterAbove128kTokens; InputCostPerImage;
   OutputCostPerImage; InputCostPerImageAbove128kTokens; InputCostPerImageToken;
   OutputCostPerImageToken; InputCostPerPixel; OutputCostPerPixel; OutputCostPerImageLowQuality;
   OutputCostPerImageMediumQuality; OutputCostPerImageHighQuality; OutputCostPerImageAutoQuality;
   OutputCostPerImageAbove1024And1024Pixels; OutputCostPerImageAbove2048And2048Pixels;
   OutputCostPerImageAbove4096And4096Pixels; OutputCostPerImageAbove2048Pixels;
   OutputCostPerImageAbove4096Pixels; InputCostPerVideoPerSecond;
   InputCostPerVideoPerSecondAbove128kTokens; OutputCostPerVideoPerSecond; OutputCostPerVideoToken;
   OutputCostPerVideo; InputCostPerSecond; OutputCostPerSecond;
   InputCostPerVideoPerSecondAbove8sInterval; InputCostPerVideoPerSecondAbove15sInterval;
   OutputCostPerVideoPerSecond360p; OutputCostPerVideoPerSecond360pAudio;
   OutputCostPerVideoPerSecond480p; OutputCostPerVideoPerSecond480pVideoIn;
   OutputCostPerVideoPerSecond540p; OutputCostPerVideoPerSecond540pAudio;
   OutputCostPerVideoPerSecond720p; OutputCostPerVideoPerSecond720pAudio;
   OutputCostPerVideoPerSecond720pVideoIn; OutputCostPerVideoPerSecond1080p;
   OutputCostPerVideoPerSecond1080pAudio; OutputCostPerVideoPerSecond1080pVideoIn;
   OutputCostPerVideoPerSecond4k; OutputCostPerVideoPerSecond4kAudio;
   OutputCostPerVideoPerSecond4kVideoIn; OutputCostPerVideoPerSecondPro;
   OutputCostPerVideoPerSecondProAudio; OutputCostPerVideoPerSecondStandard;
   OutputCostPerVideoPerSecondStandardAudio; OutputCostPerSecond1080p; OutputCostPerVideo768p6s;
   OutputCostPerVideo768p10s; OutputCostPerVideo1080p6s; InputCostPerQuery;
   SearchContextCostPerQueryLow; SearchContextCostPerQueryMedium; SearchContextCostPerQueryHigh;
   CostPerRequest; InputCostPerRequest; OCRCostPerPage; OCRCostPerCredit; AnnotationCostPerPage;
   CodeInterpreterCostPerSession; InputDBUCostPerToken; OutputDBUCostPerToken; OutputCostPerUnit].

(** The field with a given tag; the inverse of [json_tag]. *)
Definition field_of_tag (t : string) : option PricingField :=
  List.find (fun f => String.eqb (json_tag f) t) all_fields.

Lemma field_of_tag_json_tag f : field_of_tag (json_tag f) = Some f.
Proof. by destruct f. Qed.

#[export] Instance json_tag_inj : Inj (=) (=) json_tag.
Proof.
  intros f g H. apply (f_equal field_of_tag) in H. rewrite !field_of_tag_json_tag in H.
  by simplify_eq.
Qed.

#[export] Instance PricingField_eq_dec : EqDecision PricingField := fun f g =>
  match decide (json_tag f = json_tag g) with
  | left H => left (json_tag_inj f g H)
  | right H => right (fun E => H (f_equal json_tag E))
  end.

(** [PricingFieldNames]: the set of the JSON names of the struct's fields. *)
Definition PricingFieldNames : gset string := list_to_set (json_tag <$> all_fields).

Abbreviation Pricing := (PricingField -> option f64) (only parsing).

Definition Pricing0 : Pricing := fun _ => None.

(** [*field = v]. *)
Definition set_field (f : PricingField) (v : option f64) (p : Pricing) : Pricing :=
  fun g => if decide (f = g) then v else p g.

(** ** Service tiers *)

Inductive ServiceTier : Type :=
| TierStandard | TierPriority | TierFlex | TierBatch | TierFast.
#[export] Instance ServiceTier_eq_dec : EqDecision ServiceTier.
Proof. solve_decision. Defined.
Definition is_tier (t u : ServiceTier) : bool := bool_decide (t = u).

Definition ServiceTier_String (t : ServiceTier) : string :=
  match t with
  | TierPriority => "priority"
  | TierFlex => "flex"
  | TierBatch => "batch"
  | TierFast => "fast"
  | TierStandard => "standard"
  end.

Definition ParseServiceTier (value : string) : ServiceTier :=
  if String.eqb value "priority" then TierPriority
  else if String.eqb value "flex" then TierFlex
  else if String.eqb value "batch" || String.eqb value "batches" then TierBatch
  else if String.eqb value "fast" then TierFast
  else TierStandard.

(** ** Rates *)

Definition BandAbove128K : Z := 128000.
Definition BandAbove200K : Z := 200000.
Definition BandAbove256K : Z := 256000.
Definition BandAbove272K : Z := 272000.
Definition BandAbove512K : Z := 512000.
Definition PixelsAbove1024 : Z := 1024 * 1024.
Definition PixelsAbove2048 : Z := 2048 * 2048.
Definition PixelsAbove4096 : Z := 4096 * 4096.

(** The first candidate that is set, or zero. *)
Fixpoint rate (candidates : list (option f64)) : f64 :=
  match candidates with
  | [] => f64_zero
  | Some v :: _ => v
  | None :: rest => rate rest
  end.

(** Early returns: [Some v] is [return v]. *)
Definition orelse (a b : option f64) : option f64 := match a with Some v => Some v | None => b end.
Infix "<||>" := orelse (at level 51, right associativity).
(** [if c { s }]. *)
Definition when (c : bool) (s : option f64) : option f64 := if c then s else None.
(** [if v != 0 { return v }]. *)
Definition nonzero (v : f64) : option f64 := if f64_neb v f64_zero then Some v else None.
Definition returns (s : option f64) (v : f64) : f64 := match s with Some r => r | None => v end.

Definition inputRate (p : Pricing) (totalTokens : Z) (tier : ServiceTier) : f64 :=
  returns
   ((match tier with
       | TierFast => p InputCostPerTokenFast
       | TierFlex => when (BandAbove272K <? totalTokens)
           (nonzero (rate [p InputCostPerTokenAbove272kTokensFlex; p InputCostPerTokenFlexAbove272kTokens]))
         <||> p InputCostPerTokenFlex
       | TierBatch => when (BandAbove272K <? totalTokens) (p InputCostPerTokenBatchesAbove272kTokens)
         <||> p InputCostPerTokenBatches
       | _ => None
       end)
    <||> when (BandAbove512K <? totalTokens) (p InputCostPerTokenAbove512kTokens)
    <||> when (BandAbove272K <? totalTokens)
      (when (is_tier tier TierPriority) (p InputCostPerTokenAbove272kTokensPriority)
       <||> p InputCostPerTokenAbove272kTokens)
    <||> when (BandAbove256K <? totalTokens) (p InputCostPerTokenAbove256kTokens)
    <||> when (BandAbove200K <? totalTokens)
      (when (is_tier tier TierPriority) (p InputCostPerTokenAbove200kTokensPriority)
       <||> p InputCostPerTokenAbove200kTokens)
    <||> when (BandAbove128K <? totalTokens) (p InputCostPerTokenAbove128kTokens)
    <||> when (is_tier tier TierPriority) (p InputCostPerTokenPriority))
   (rate [p InputCostPerToken]).

Definition outputRate (p : Pricing) (totalTokens : Z) (tier : ServiceTier) : f64 :=
  returns
   ((match tier with
       | TierFast => p OutputCostPerTokenFast
       | TierFlex => when (BandAbove272K <? totalTokens)
           (nonzero (rate [p OutputCostPerTokenAbove272kTokensFlex; p OutputCostPerTokenFlexAbove272kTokens]))
         <||> p OutputCostPerTokenFlex
       | TierBatch => when (BandAbove272K <? totalTokens) (p OutputCostPerTokenBatchesAbove272kTokens)
         <||> p OutputCostPerTokenBatches
       | _ => None
       end)
    <||> when (BandAbove512K <? totalTokens) (p OutputCostPerTokenAbove512kTokens)
    <||> when (BandAbove272K <? totalTokens)
      (when (is_tier tier TierPriority) (p OutputCostPerTokenAbove272kTokensPriority)
       <||> p OutputCostPerTokenAbove272kTokens)
    <||> when (BandAbove256K <? totalTokens) (p OutputCostPerTokenAbove256kTokens)
    <||> when (BandAbove200K <? totalTokens)
      (when (is_tier tier TierPriority) (p OutputCostPerTokenAbove200kTokensPriority)
       <||> p OutputCostPerTokenAbove200kTokens)
    <||> when (BandAbove128K <? totalTokens) (p OutputCostPerTokenAbove128kTokens)
    <||> when (is_tier tier TierPriority) (p OutputCostPerTokenPriority))
   (rate [p OutputCostPerToken]).

Definition cacheReadRate (p : Pricing) (totalTokens : Z) (tier : ServiceTier) : f64 :=
  returns
   ((match tier with
       | TierFast => p CacheReadInputTokenCostFast
       | TierFlex => when (BandAbove272K <? totalTokens)
           (nonzero (rate [p CacheReadInputTokenCostAbove272kTokensFlex;
                           p CacheReadInputTokenCostFlexAbove272kTokens]))
         <||> p CacheReadInputTokenCostFlex
       | TierBatch => when (BandAbove272K <? totalTokens) (p CacheReadInputTokenCostBatchesAbove272kTokens)
         <||> p CacheReadInputTokenCostBatches
       | _ => None
       end)
    <||> when (BandAbove512K <? totalTokens) (p CacheReadInputTokenCostAbove512kTokens)
    <||> when (BandAbove272K <? totalTokens)
      (when (is_tier tier TierPriority) (p CacheReadInputTokenCostAbove272kTokensPriority)
       <||> p CacheReadInputTokenCostAbove272kTokens)
    <||> when (BandAbove200K <? totalTokens)
      (when (is_tier tier TierPriority) (p CacheReadInputTokenCostAbove200kTokensPriority)
       <||> p CacheReadInputTokenCostAbove200kTokens)
    <||> when (is_tier tier TierPriority) (p CacheReadInputTokenCostPriority))
   (rate [p CacheReadInputTokenCost; p InputCostPerTokenCacheHit]).

Definition cacheCreationRate (p : Pricing) (totalTokens : Z) (tier : ServiceTier) (longTTL : bool) : f64 :=
  returns
   (when longTTL
      (when (is_tier tier TierFast) (p CacheCreationInputTokenCostAbove1hrFast)
       <||> when (is_tier tier TierBatch) (p CacheCreationInputTokenCostBatches1h)
       <||> when (BandAbove200K <? totalTokens) (p CacheCreationInputTokenCostAbove1hrAbove200kTokens)
       <||> p CacheCreationInputTokenCostAbove1hr)
    <||> (match tier with
       | TierFast => p CacheCreationInputTokenCostFast
       | TierFlex => when (BandAbove272K <? totalTokens)
           (nonzero (rate [p CacheCreationInputTokenCostAbove272kTokensFlex;
                           p CacheCreationInputTokenCostFlexAbove272kTokens]))
         <||> p CacheCreationInputTokenCostFlex
       | TierBatch => when (BandAbove272K <? totalTokens) (p CacheCreationInputTokenCostBatchesAbove272kTokens)
         <||> p CacheCreationInputTokenCostBatches
       | _ => None
       end)
    <||> when (BandAbove272K <? totalTokens) (p CacheCreationInputTokenCostAbove272kTokens)
    <||> when (BandAbove200K <? totalTokens) (p CacheCreationInputTokenCostAbove200kTokens)
    <||> when (is_tier tier TierPriority) (p CacheCreationInputTokenCostPriority))
   (rate [p CacheCreationInputTokenCost]).

Definition audioInputTokenRate (p : Pricing) (tier : ServiceTier) : f64 :=
  returns
   (when (is_tier tier TierPriority) (p InputCostPerAudioTokenPriority))
   (rate [p InputCostPerAudioToken]).

Definition audioSecondRate (p : Pricing) (totalTokens : Z) : f64 :=
  returns
   (when (BandAbove128K <? totalTokens) (p InputCostPerAudioPerSecondAbove128kTokens))
   (rate [p InputCostPerAudioPerSecond]).

Definition inputCharacterRate (p : Pricing) (totalTokens : Z) : f64 :=
  returns
   (when (BandAbove128K <? totalTokens) (p InputCostPerCharacterAbove128kTokens))
   (rate [p InputCostPerCharacter]).

Definition outputCharacterRate (p : Pricing) (totalTokens : Z) : f64 :=
  returns
   (when (BandAbove128K <? totalTokens) (p OutputCostPerCharacterAbove128kTokens))
   (rate [p OutputCostPerCharacter]).

Definition inputImageRate (p : Pricing) (totalTokens : Z) : f64 :=
  returns
   (when (BandAbove128K <? totalTokens) (p InputCostPerImageAbove128kTokens))
   (rate [p InputCostPerImage]).

Definition inputVideoSecondRate (p : Pricing) (totalTokens : Z) : f64 :=
  returns
   (when (BandAbove128K <? totalTokens) (p InputCostPerVideoPerSecondAbove128kTokens))
   (rate [p InputCostPerVideoPerSecond]).

Definition outputVideoSecondRate (p : Pricing) (resolution : string) (hasAudio : bool) (fromVideo : bool) : f64 :=
  returns
   ((if String.eqb resolution "360p" then when hasAudio (p OutputCostPerVideoPerSecond360pAudio)
         <||> p OutputCostPerVideoPerSecond360p
     else if String.eqb resolution "480p" then when fromVideo (p OutputCostPerVideoPerSecond480pVideoIn)
         <||> p OutputCostPerVideoPerSecond480p
     else if String.eqb resolution "540p" then when hasAudio (p OutputCostPerVideoPerSecond540pAudio)
         <||> p OutputCostPerVideoPerSecond540p
     else if String.eqb resolution "720p" then when hasAudio (p OutputCostPerVideoPerSecond720pAudio)
         <||> when fromVideo (p OutputCostPerVideoPerSecond720pVideoIn)
         <||> p OutputCostPerVideoPerSecond720p
     else if String.eqb resolution "1080p" then when hasAudio (p OutputCostPerVideoPerSecond1080pAudio)
         <||> when fromVideo (p OutputCostPerVideoPerSecond1080pVideoIn)
         <||> nonzero (rate [p OutputCostPerVideoPerSecond1080p; p OutputCostPerSecond1080p])
     else if String.eqb resolution "4k" then when hasAudio (p OutputCostPerVideoPerSecond4kAudio)
         <||> when fromVideo (p OutputCostPerVideoPerSecond4kVideoIn)
         <||> p OutputCostPerVideoPerSecond4k
     else if String.eqb resolution "pro" then when hasAudio (p OutputCostPerVideoPerSecondProAudio)
         <||> p OutputCostPerVideoPerSecondPro
     else if String.eqb resolution "standard" then when hasAudio (p OutputCostPerVideoPerSecondStandardAudio)
         <||> p OutputCostPerVideoPerSecondStandard
     else None))
   (rate [p OutputCostPerVideoPerSecond]).

Definition outputImageRate (p : Pricing) (quality : string) (pixels : Z) : f64 :=
  returns
   ((if String.eqb quality "low" then p OutputCostPerImageLowQuality
     else if String.eqb quality "medium" then p OutputCostPerImageMediumQuality
     else if String.eqb quality "high" then p OutputCostPerImageHighQuality
     else if String.eqb quality "auto" then p OutputCostPerImageAutoQuality
     else None)
    <||> when (PixelsAbove4096 <? pixels)
      (nonzero (rate [p OutputCostPerImageAbove4096And4096Pixels; p OutputCostPerImageAbove4096Pixels]))
    <||> when (PixelsAbove2048 <? pixels)
      (nonzero (rate [p OutputCostPerImageAbove2048And2048Pixels; p OutputCostPerImageAbove2048Pixels]))
    <||> when (PixelsAbove1024 <? pixels) (p OutputCostPerImageAbove1024And1024Pixels))
   (rate [p OutputCostPerImage]).

Definition inputVideoSecondRateForClip (p : Pricing) (seconds : f64) (totalTokens : Z) : f64 :=
  returns
   (when (f64_ltb (f64_of_Z 15) seconds) (p InputCostPerVideoPerSecondAbove15sInterval)
    <||> when (f64_ltb (f64_of_Z 8) seconds) (p InputCostPerVideoPerSecondAbove8sInterval))
   (inputVideoSecondRate p totalTokens).

Definition outputVideoRate (p : Pricing) (resolution : string) (seconds : f64) : f64 :=
  returns
   ((if String.eqb resolution "768p" then when (f64_ltb (f64_of_Z 6) seconds) (p OutputCostPerVideo768p10s)
         <||> p OutputCostPerVideo768p6s
     else if String.eqb resolution "1080p" then p OutputCostPerVideo1080p6s
     else None))
   (rate [p OutputCostPerVideo]).

Definition searchQueryRate (p : Pricing) (contextSize : string) : f64 :=
  returns
   ((if String.eqb contextSize "low" then p SearchContextCostPerQueryLow
     else if String.eqb contextSize "high" then p SearchContextCostPerQueryHigh
     else if String.eqb contextSize "medium" then p SearchContextCostPerQueryMedium
     else None))
   (rate [p SearchContextCostPerQueryMedium;
                   p SearchContextCostPerQueryHigh; p SearchContextCostPerQueryLow]).

(** ** Usage *)

Record Usage : Type := mkUsage {
  Tier : ServiceTier;
  CacheLongTTL : bool;
  SearchContextSize : string;
  VideoResolution : string;
  VideoHasAudio : bool;
  VideoFromVideo : bool;
  ImageQuality : string;
  InputTokens : Z;
  OutputTokens : Z;
  TotalTokens : Z;
  ReasoningTokens : Z;
  CitationTokens : Z;
  CachedInputTokens : Z;
  CacheCreationTokens : Z;
  AcceptedPredictionTokens : Z;
  RejectedPredictionTokens : Z;
  InputAudioTokens : Z;
  OutputAudioTokens : Z;
  CachedAudioTokens : Z;
  CacheCreationAudioTokens : Z;
  InputAudioSeconds : f64;
  InputCharacters : Z;
  OutputCharacters : Z;
  InputImages : Z;
  OutputImages : Z;
  InputImageTokens : Z;
  OutputImageTokens : Z;
  GeneratedPixels : Z;
  OutputPixels : Z;
  InputVideoSeconds : f64;
  OutputVideoSeconds : f64;
  OutputVideoTokens : Z;
  OutputVideos : Z;
  InputSeconds : f64;
  OutputSeconds : f64;
  Queries : Z;
  SearchQueries : Z;
  Requests : Z;
  InputRequests : Z;
  Pages : Z;
  OCRCredits : Z;
  AnnotationPages : Z;
  CodeSessions : Z;
  InputDBUs : Z;
  OutputDBUs : Z;
  Units : Z
}.

#[export] Instance Usage_eta : Eta Usage := fun u =>
  mkUsage (Tier u) (CacheLongTTL u) (SearchContextSize u) (VideoResolution u) (VideoHasAudio u)
    (VideoFromVideo u) (ImageQuality u) (InputTokens u) (OutputTokens u) (TotalTokens u)
    (ReasoningTokens u) (CitationTokens u) (CachedInputTokens u) (CacheCreationTokens u)
    (AcceptedPredictionTokens u) (RejectedPredictionTokens u) (InputAudioTokens u)
    (OutputAudioTokens u) (CachedAudioTokens u) (CacheCreationAudioTokens u) (InputAudioSeconds u)
    (InputCharacters u) (OutputCharacters u) (InputImages u) (OutputImages u) (InputImageTokens u)
    (OutputImageTokens u) (GeneratedPixels u) (OutputPixels u) (InputVideoSeconds u)
    (OutputVideoSeconds u) (OutputVideoTokens u) (OutputVideos u) (InputSeconds u) (OutputSeconds
    u) (Queries u) (SearchQueries u) (Requests u) (InputRequests u) (Pages u) (OCRCredits u)
    (AnnotationPages u) (CodeSessions u) (InputDBUs u) (OutputDBUs u) (Units u).

Definition Usage0 : Usage :=
  mkUsage TierStandard false "" "" false false "" 0 0 0 0 0 0 0 0 0 0 0 0 0 f64_zero 0 0 0 0 0 0 0 0
    f64_zero f64_zero 0 0 f64_zero f64_zero 0 0 0 0 0 0 0 0 0 0 0.

(** ** Cost lines *)

Record CostLine : Type := mkCostLine {
  Item : string;
  Quantity : f64;
  Unit : string;
  UnitCost : f64;
  CostUSD : f64
}.

(** One call [add(item, unit, qty, unitCost)]. *)
Record cost_line : Type := mkLine { l_item : string; l_unit : string; l_qty : f64; l_cost : f64 }.

Definition isset (o : option f64) : bool := match o with Some _ => true | None => false end.
(** [if c { n -= k }]. *)
Definition less (n : Z) (c : bool) (k : Z) : Z := if c then sub64 n k else n.
(** [if n < 0 { n = 0 }]. *)
Definition clamp0 (n : Z) : Z := if n <? 0 then 0 else n.

Definition uncachedInput (p : Pricing) (u : Usage) : Z :=
  let n := u.(InputTokens) in
  let n := less n (isset (p CacheReadInputTokenCost) || isset (p InputCostPerTokenCacheHit)) u.(CachedInputTokens) in
  let n := less n (isset (p InputCostPerAudioToken) || isset (p InputCostPerAudioTokenPriority)) u.(InputAudioTokens) in
  let n := less n (isset (p InputCostPerImageToken)) u.(InputImageTokens) in
  clamp0 n.

Definition plainOutput (p : Pricing) (u : Usage) : Z :=
  let n := u.(OutputTokens) in
  let n := less n (isset (p OutputCostPerReasoningToken)) u.(ReasoningTokens) in
  let n := less n (isset (p OutputCostPerAudioToken)) u.(OutputAudioTokens) in
  let n := less n (isset (p OutputCostPerImageToken)) u.(OutputImageTokens) in
  clamp0 n.

(** The calls of [add], in order. *)
Definition costLines (p : Pricing) (u : Usage) : list cost_line :=
  [ mkLine "input" "token" (f64_of_Z (uncachedInput p u)) (inputRate p u.(InputTokens) u.(Tier));
   mkLine "output" "token" (f64_of_Z (plainOutput p u)) (outputRate p u.(InputTokens) u.(Tier));
   mkLine "input_cache_read" "token" (f64_of_Z u.(CachedInputTokens)) (cacheReadRate p u.(InputTokens) u.(Tier));
   mkLine "input_cache_write" "token" (f64_of_Z u.(CacheCreationTokens)) (cacheCreationRate p u.(InputTokens) u.(Tier) u.(CacheLongTTL));
   mkLine "reasoning" "token" (f64_of_Z u.(ReasoningTokens)) (rate [p OutputCostPerReasoningToken]);
   mkLine "citation" "token" (f64_of_Z u.(CitationTokens)) (rate [p CitationCostPerToken]);
   mkLine "input_audio" "token" (f64_of_Z u.(InputAudioTokens)) (audioInputTokenRate p u.(Tier));
   mkLine "output_audio" "token" (f64_of_Z u.(OutputAudioTokens)) (rate [p OutputCostPerAudioToken]);
   mkLine "input_audio_cache_read" "token" (f64_of_Z u.(CachedAudioTokens)) (rate [p CacheReadInputAudioTokenCost]);
   mkLine "input_audio_cache_write" "token" (f64_of_Z u.(CacheCreationAudioTokens)) (rate [p CacheCreationInputAudioTokenCost]);
   mkLine "input_audio" "second" u.(InputAudioSeconds) (audioSecondRate p u.(InputTokens));
   mkLine "input" "character" (f64_of_Z u.(InputCharacters)) (inputCharacterRate p u.(InputTokens));
   mkLine "output" "character" (f64_of_Z u.(OutputCharacters)) (outputCharacterRate p u.(InputTokens));
   mkLine "input_image" "image" (f64_of_Z u.(InputImages)) (inputImageRate p u.(InputTokens));
   mkLine "output_image" "image" (f64_of_Z u.(OutputImages)) (outputImageRate p u.(ImageQuality) u.(OutputPixels));
   mkLine "input_image" "token" (f64_of_Z u.(InputImageTokens)) (rate [p InputCostPerImageToken]);
   mkLine "output_image" "token" (f64_of_Z u.(OutputImageTokens)) (rate [p OutputCostPerImageToken]);
   mkLine "generated" "pixel" (f64_of_Z u.(GeneratedPixels)) (rate [p InputCostPerPixel]);
   mkLine "output" "pixel" (f64_of_Z u.(OutputPixels)) (rate [p OutputCostPerPixel]);
   mkLine "input_video" "second" u.(InputVideoSeconds) (inputVideoSecondRateForClip p u.(InputVideoSeconds) u.(InputTokens));
   mkLine "output_video" "second" u.(OutputVideoSeconds) (outputVideoSecondRate p u.(VideoResolution) u.(VideoHasAudio) u.(VideoFromVideo));
   mkLine "output_video" "token" (f64_of_Z u.(OutputVideoTokens)) (rate [p OutputCostPerVideoToken]);
   mkLine "output_video" "video" (f64_of_Z u.(OutputVideos)) (outputVideoRate p u.(VideoResolution) u.(OutputVideoSeconds));
   mkLine "input" "second" u.(InputSeconds) (rate [p InputCostPerSecond]);
   mkLine "output" "second" u.(OutputSeconds) (rate [p OutputCostPerSecond]);
   mkLine "query" "query" (f64_of_Z u.(Queries)) (rate [p InputCostPerQuery]);
   mkLine "search_query" "query" (f64_of_Z u.(SearchQueries)) (searchQueryRate p u.(SearchContextSize));
   mkLine "request" "request" (f64_of_Z u.(Requests)) (rate [p CostPerRequest]);
   mkLine "input_request" "request" (f64_of_Z u.(InputRequests)) (rate [p InputCostPerRequest]);
   mkLine "ocr" "page" (f64_of_Z u.(Pages)) (rate [p OCRCostPerPage]);
   mkLine "ocr" "credit" (f64_of_Z u.(OCRCredits)) (rate [p OCRCostPerCredit]);
   mkLine "annotation" "page" (f64_of_Z u.(AnnotationPages)) (rate [p AnnotationCostPerPage]);
   mkLine "code_interpreter" "session" (f64_of_Z u.(CodeSessions)) (rate [p CodeInterpreterCostPerSession]);
   mkLine "input" "dbu" (f64_of_Z u.(InputDBUs)) (rate [p InputDBUCostPerToken]);
   mkLine "output" "dbu" (f64_of_Z u.(OutputDBUs)) (rate [p OutputDBUCostPerToken]);
   mkLine "unit" "unit" (f64_of_Z u.(Units)) (rate [p OutputCostPerUnit])].

(** [total += qty * unitCost]. *)
Definition accrue (total : f64) (l : cost_line) : f64 := f64_add total (f64_mul l.(l_qty) l.(l_cost)).

Definition CalculateCost (p : Pricing) (u : Usage) : f64 := foldl accrue f64_zero (costLines p u).

Definition billable (l : cost_line) : bool := f64_neb l.(l_qty) f64_zero && f64_neb l.(l_cost) f64_zero.

Definition CostBreakdown (p : Pricing) (u : Usage) : list CostLine :=
  map (fun l => mkCostLine l.(l_item) l.(l_qty) l.(l_unit) l.(l_cost) (f64_mul l.(l_qty) l.(l_cost)))
    (List.filter billable (costLines p u)).

(** ** Merging an override into a base price *)

Definition pricingFieldPairs : list PricingField :=
  [InputCostPerToken; OutputCostPerToken; InputCostPerTokenPriority; OutputCostPerTokenPriority;
   InputCostPerTokenFlex; OutputCostPerTokenFlex; InputCostPerTokenBatches;
   OutputCostPerTokenBatches; InputCostPerTokenFast; OutputCostPerTokenFast;
   InputCostPerTokenAbove128kTokens; OutputCostPerTokenAbove128kTokens;
   InputCostPerTokenAbove200kTokens; OutputCostPerTokenAbove200kTokens;
   InputCostPerTokenAbove256kTokens; OutputCostPerTokenAbove256kTokens;
   InputCostPerTokenAbove272kTokens; OutputCostPerTokenAbove272kTokens;
   InputCostPerTokenAbove512kTokens; OutputCostPerTokenAbove512kTokens;
   InputCostPerTokenAbove200kTokensPriority; OutputCostPerTokenAbove200kTokensPriority;
   InputCostPerTokenAbove272kTokensPriority; OutputCostPerTokenAbove272kTokensPriority;
   InputCostPerTokenAbove272kTokensFlex; OutputCostPerTokenAbove272kTokensFlex;
   InputCostPerTokenFlexAbove272kTokens; OutputCostPerTokenFlexAbove272kTokens;
   InputCostPerTokenBatchesAbove272kTokens; OutputCostPerTokenBatchesAbove272kTokens;
   CacheReadInputTokenCost; CacheReadInputTokenCostPriority; CacheReadInputTokenCostFlex;
   CacheReadInputTokenCostBatches; CacheReadInputTokenCostFast;
   CacheReadInputTokenCostAbove200kTokens; CacheReadInputTokenCostAbove272kTokens;
   CacheReadInputTokenCostAbove512kTokens; CacheReadInputTokenCostAbove200kTokensPriority;
   CacheReadInputTokenCostAbove272kTokensPriority; CacheReadInputTokenCostAbove272kTokensFlex;
   CacheReadInputTokenCostFlexAbove272kTokens; CacheReadInputTokenCostBatchesAbove272kTokens;
   InputCostPerTokenCacheHit; CacheCreationInputTokenCost; CacheCreationInputTokenCostPriority;
   CacheCreationInputTokenCostFlex; CacheCreationInputTokenCostBatches;
   CacheCreationInputTokenCostFast; CacheCreationInputTokenCostAbove200kTokens;
   CacheCreationInputTokenCostAbove272kTokens; CacheCreationInputTokenCostAbove272kTokensFlex;
   CacheCreationInputTokenCostFlexAbove272kTokens;
   CacheCreationInputTokenCostBatchesAbove272kTokens; CacheCreationInputTokenCostAbove1hr;
   CacheCreationInputTokenCostAbove1hrAbove200kTokens; CacheCreationInputTokenCostAbove1hrFast;
   CacheCreationInputTokenCostBatches1h; OutputCostPerReasoningToken; CitationCostPerToken;
   InputCostPerAudioToken; OutputCostPerAudioToken; InputCostPerAudioTokenPriority;
   CacheReadInputAudioTokenCost; CacheCreationInputAudioTokenCost; InputCostPerAudioPerSecond;
   InputCostPerAudioPerSecondAbove128kTokens; InputCostPerCharacter; OutputCostPerCharacter;
   InputCostPerCharacterAbove128kTokens; OutputCostPerCharacterAbove128kTokens; InputCostPerImage;
   OutputCostPerImage; InputCostPerImageAbove128kTokens; InputCostPerImageToken;
   OutputCostPerImageToken; InputCostPerPixel; OutputCostPerPixel; OutputCostPerImageLowQuality;
   OutputCostPerImageMediumQuality; OutputCostPerImageHighQuality; OutputCostPerImageAutoQuality;
   OutputCostPerImageAbove1024And1024Pixels; OutputCostPerImageAbove2048And2048Pixels;
   OutputCostPerImageAbove4096And4096Pixels; OutputCostPerImageAbove2048Pixels;
   OutputCostPerImageAbove4096Pixels; InputCostPerVideoPerSecond;
   InputCostPerVideoPerSecondAbove128kTokens; InputCostPerVideoPerSecondAbove8sInterval;
   InputCostPerVideoPerSecondAbove15sInterval; OutputCostPerVideoPerSecond;
   OutputCostPerVideoPerSecond360p; OutputCostPerVideoPerSecond360pAudio;
   OutputCostPerVideoPerSecond480p; OutputCostPerVideoPerSecond480pVideoIn;
   OutputCostPerVideoPerSecond540p; OutputCostPerVideoPerSecond540pAudio;
   OutputCostPerVideoPerSecond720p; OutputCostPerVideoPerSecond720pAudio;
   OutputCostPerVideoPerSecond720pVideoIn; OutputCostPerVideoPerSecond1080p;
   OutputCostPerVideoPerSecond1080pAudio; OutputCostPerVideoPerSecond1080pVideoIn;
   OutputCostPerVideoPerSecond4k; OutputCostPerVideoPerSecond4kAudio;
   OutputCostPerVideoPerSecond4kVideoIn; OutputCostPerVideoPerSecondPro;
   OutputCostPerVideoPerSecondProAudio; OutputCostPerVideoPerSecondStandard;
   OutputCostPerVideoPerSecondStandardAudio; OutputCostPerSecond1080p; OutputCostPerVideoToken;
   OutputCostPerVideo; OutputCostPerVideo768p6s; OutputCostPerVideo768p10s;
   OutputCostPerVideo1080p6s; InputCostPerSecond; OutputCostPerSecond; InputCostPerQuery;
   SearchContextCostPerQueryLow; SearchContextCostPerQueryMedium; SearchContextCostPerQueryHigh;
   CostPerRequest; InputCostPerRequest; OCRCostPerPage; OCRCostPerCredit; AnnotationCostPerPage;
   CodeInterpreterCostPerSession; InputDBUCostPerToken; OutputDBUCostPerToken; OutputCostPerUnit].

Definition MergePricing (base override : Pricing) : Pricing :=
  foldl (fun merged f => match override f with Some v => set_field f (Some v) merged | None => merged end)
    base pricingFieldPairs.

(** ** Priced variants and operator overrides *)

Record PricingVariant : Type := mkPricingVariant {
  VID : string;
  VRawKey : string;
  Selectors : SelectorSet;
  VProvider : Provider;
  VModelType : ModelType;
  VModelName : string;
  VPricing : Pricing
}.

Definition PricingVariant_CatalogKey (v : PricingVariant) : CatalogKey :=
  mkCatalogKey v.(VProvider) v.(VModelName) v.(VModelType).

Abbreviation ScopeType := string (only parsing).
Definition ScopeGlobal : ScopeType := "global".
Definition ScopeProvider_ : ScopeType := "provider".
Definition ScopeVirtualKey : ScopeType := "virtualkey".

Record CustomPricing : Type := mkCustomPricing {
  CPID : string;
  CPName : string;
  CPModelName : string;
  CPModelType : ModelType;
  CPPricing : Pricing;
  CPScopeType : ScopeType;
  ScopeVirtualkeyID : option string;
  ScopeProvider : option Provider
}.

Definition CustomPricing_CustomPricingKey (cp : CustomPricing) : CatalogKey :=
  mkCatalogKey "" cp.(CPModelName) cp.(CPModelType).

Record CustomScopePricing : Type := mkCustomScopePricing {
  Global : option CustomPricing;
  ByProvider : gmap string CustomPricing;
  ByVirtualKey : gmap string CustomPricing
}.
#[export] Instance CustomScopePricing_eta : Eta CustomScopePricing := fun s =>
  mkCustomScopePricing (Global s) (ByProvider s) (ByVirtualKey s).

(** ** Where a rate comes from

    Every rate is one of the prices that are set, or zero: whatever holds of zero and of every set
    price holds of every rate. *)

Section rates.
Context (Q : f64 -> Prop) (Q0 : Q f64_zero) (p : Pricing) (Hp : forall f v, p f = Some v -> Q v).

Definition opt_all (o : option f64) : Prop := match o with Some v => Q v | None => True end.

Lemma opt_all_field f : opt_all (p f).
Proof. destruct (p f) eqn:E; simpl; eauto. Qed.
Lemma opt_all_orelse a b : opt_all a -> opt_all b -> opt_all (a <||> b).
Proof. by destruct a. Qed.
Lemma opt_all_when c s : opt_all s -> opt_all (when c s).
Proof. by destruct c. Qed.
Lemma all_rate l : (forall o, o ∈ l -> opt_all o) -> Q (rate l).
Proof.
  induction l as [|[v|] l IH]; intros H; simpl; [done | |].
  - apply (H (Some v)). set_solver.
  - apply IH. set_solver.
Qed.
Lemma opt_all_nonzero v : Q v -> opt_all (nonzero v).
Proof. unfold nonzero. by case_match. Qed.
Lemma all_returns s v : opt_all s -> Q v -> Q (returns s v).
Proof. by destruct s. Qed.
Lemma all_rate_cons o l : opt_all o -> Q (rate l) -> Q (rate (o :: l)).
Proof. by destruct o. Qed.
Lemma opt_all_None : opt_all None.
Proof. done. Qed.

(** Walk down a rate function to its fields. *)
Ltac walk :=
  repeat first
    [ apply all_returns | apply opt_all_orelse | apply opt_all_when | apply opt_all_nonzero
    | apply opt_all_None | apply all_rate_cons | apply opt_all_field | exact Q0
    | case_match ].

Lemma inputRate_all t tier : Q (inputRate p t tier).
Proof. unfold inputRate. walk. Qed.
Lemma outputRate_all t tier : Q (outputRate p t tier).
Proof. unfold outputRate. walk. Qed.
Lemma cacheReadRate_all t tier : Q (cacheReadRate p t tier).
Proof. unfold cacheReadRate. walk. Qed.
Lemma cacheCreationRate_all t tier l : Q (cacheCreationRate p t tier l).
Proof. unfold cacheCreationRate. walk. Qed.
Lemma audioInputTokenRate_all tier : Q (audioInputTokenRate p tier).
Proof. unfold audioInputTokenRate. walk. Qed.
Lemma audioSecondRate_all t : Q (audioSecondRate p t).
Proof. unfold audioSecondRate. walk. Qed.
Lemma inputCharacterRate_all t : Q (inputCharacterRate p t).
Proof. unfold inputCharacterRate. walk. Qed.
Lemma outputCharacterRate_all t : Q (outputCharacterRate p t).
Proof. unfold outputCharacterRate. walk. Qed.
Lemma inputImageRate_all t : Q (inputImageRate p t).
Proof. unfold inputImageRate. walk. Qed.
Lemma inputVideoSecondRate_all t : Q (inputVideoSecondRate p t).
Proof. unfold inputVideoSecondRate. walk. Qed.
Lemma outputVideoSecondRate_all r a v : Q (outputVideoSecondRate p r a v).
Proof. unfold outputVideoSecondRate. walk. Qed.
Lemma outputImageRate_all q n : Q (outputImageRate p q n).
Proof. unfold outputImageRate. walk. Qed.
Lemma inputVideoSecondRateForClip_all s t : Q (inputVideoSecondRateForClip p s t).
Proof. unfold inputVideoSecondRateForClip. walk. Qed.
Lemma outputVideoRate_all r s : Q (outputVideoRate p r s).
Proof. unfold outputVideoRate. walk. Qed.
Lemma searchQueryRate_all c : Q (searchQueryRate p c).
Proof. unfold searchQueryRate. walk. Qed.
Lemma rate1_all f : Q (rate [p f]).
Proof. walk. Qed.

(** Every line of a bill charges such a rate. *)
Lemma costLines_cost u : Forall (fun l => Q l.(l_cost)) (costLines p u).
Proof.
  unfold costLines. repeat apply Forall_cons_2; cbn [l_cost]; try apply Forall_nil_2;
    auto using inputRate_all, outputRate_all, cacheReadRate_all, cacheCreationRate_all,
      audioInputTokenRate_all, audioSecondRate_all, inputCharacterRate_all,
      outputCharacterRate_all, inputImageRate_all, outputVideoSecondRate_all,
      outputImageRate_all, inputVideoSecondRateForClip_all, outputVideoRate_all,
      searchQueryRate_all, rate1_all.
Qed.
End rates.

(** ** The quantities of a bill *)

Definition usage_counts (u : Usage) : list Z :=
  [u.(InputTokens); u.(OutputTokens); u.(TotalTokens); u.(ReasoningTokens); u.(CitationTokens);
   u.(CachedInputTokens); u.(CacheCreationTokens); u.(AcceptedPredictionTokens);
   u.(RejectedPredictionTokens); u.(InputAudioTokens); u.(OutputAudioTokens);
   u.(CachedAudioTokens); u.(CacheCreationAudioTokens); u.(InputCharacters);
   u.(OutputCharacters); u.(InputImages); u.(OutputImages); u.(InputImageTokens);
   u.(OutputImageTokens); u.(GeneratedPixels); u.(OutputPixels); u.(OutputVideoTokens);
   u.(OutputVideos); u.(Queries); u.(SearchQueries); u.(Requests); u.(InputRequests); u.(Pages);
   u.(OCRCredits); u.(AnnotationPages); u.(CodeSessions); u.(InputDBUs); u.(OutputDBUs);
   u.(Units)].
Definition usage_seconds (u : Usage) : list f64 :=
  [u.(InputAudioSeconds); u.(InputVideoSeconds); u.(OutputVideoSeconds); u.(InputSeconds);
   u.(OutputSeconds)].

(** The counters of a usage record are [int64] and its durations are numbers. *)
Definition usage_ok (u : Usage) : Prop :=
  Forall in_int64 (usage_counts u) /\ Forall (fun s => is_finite s = true) (usage_seconds u).

Lemma less_range n c k : in_int64 n -> in_int64 (less n c k).
Proof. unfold less, sub64. case_match; auto with gw. Qed.
Lemma clamp0_range n : in_int64 n -> in_int64 (clamp0 n).
Proof. unfold clamp0, in_int64, MinInt64, MaxInt64. case_match; lia. Qed.
#[export] Hint Resolve less_range clamp0_range : gw.

Lemma costLines_qty p u : usage_ok u -> Forall (fun l => is_finite l.(l_qty) = true) (costLines p u).
Proof.
  intros [Hc Hs]. unfold usage_counts, usage_seconds in *.
  repeat match goal with H : Forall _ (_ :: _) |- _ => apply Forall_cons in H as [? ?] end.
  unfold costLines. repeat apply Forall_cons_2; cbn [l_qty]; trivial; try apply Forall_nil_2;
    apply f64_of_Z_int64; unfold uncachedInput, plainOutput; auto 10 with gw.
Qed.

(** ** The bill and its breakdown *)

Lemma accrue_skip total l :
  is_finite l.(l_qty) = true -> is_finite l.(l_cost) = true -> billable l = false ->
  accrue total l ≈f total.
Proof.
  intros Hq Hc Hb. apply f64_add_zero_r, f64_mul_zero; try done.
  unfold billable, f64_neb in Hb. rewrite !f64_eqb_zero in Hb.
  destruct (is_zero (l_qty l)), (is_zero (l_cost l)); simpl in Hb; auto.
Qed.

Lemma foldl_filter_billable ls t t' :
  Forall (fun l => is_finite l.(l_qty) = true) ls -> Forall (fun l => is_finite l.(l_cost) = true) ls ->
  t ≈f t' -> foldl accrue t ls ≈f foldl accrue t' (List.filter billable ls).
Proof.
  revert t t'. induction ls as [|l ls IH]; intros t t' Hq Hc Ht; simpl; [done|].
  apply Forall_cons in Hq as [Hq Hqs], Hc as [Hc Hcs].
  destruct (billable l) eqn:Hb; simpl; apply IH; try done.
  - unfold accrue. by rewrite Ht.
  - rewrite <- Ht. by apply accrue_skip.
Qed.

Definition prices_finite (p : Pricing) : Prop := forall f v, p f = Some v -> is_finite v = true.

(** C38: the breakdown explains the bill.  With finite prices and a well-formed usage
    record, adding up the [CostUSD] of the lines that [CostBreakdown] keeps gives the total of
    [CalculateCost], bit for bit up to the sign of a zero: the dropped lines change nothing. *)
Theorem breakdown_sums_to_the_bill (p : Pricing) (u : Usage) :
  prices_finite p -> usage_ok u ->
  CalculateCost p u ≈f foldl (fun t l => f64_add t l.(CostUSD)) f64_zero (CostBreakdown p u).
Proof.
  intros Hp Hu. unfold CalculateCost, CostBreakdown.
  rewrite foldl_map. apply foldl_filter_billable; [by apply costLines_qty | | done].
  exact (costLines_cost (fun v => is_finite v = true) eq_refl p Hp u).
Qed.

Definition sample_price : Pricing :=
  set_field InputCostPerToken (Some (f64_of_Z 2))
    (set_field OutputCostPerToken (Some (f64_of_Z 6))
      (set_field CacheReadInputTokenCost (Some f64_zero) Pricing0)).
Definition sample_usage : Usage :=
  Usage0 <| InputTokens := 100 |> <| OutputTokens := 10 |> <| CachedInputTokens := 40 |>.

(** Sixty uncached input tokens and ten output tokens are billed; the free cached ones leave no
    line. *)
Lemma breakdown_sums_to_the_bill_witness :
  map (fun l => (l.(Item), l.(CostUSD))) (CostBreakdown sample_price sample_usage)
    = [("input", f64_of_Z 120); ("output", f64_of_Z 60)] /\
  CalculateCost sample_price sample_usage
    ≈f foldl (fun t l => f64_add t l.(CostUSD)) f64_zero (CostBreakdown sample_price sample_usage).
Proof.
  split; [vm_compute; reflexivity|].
  apply breakdown_sums_to_the_bill.
  - intros f v. unfold sample_price, set_field, Pricing0.
    repeat case_decide; intros [= <-]; reflexivity.
  - split; repeat constructor; vm_compute; congruence.
Defined.

(** A price sheet that sets the cache-read price of the priority tier only: the cached tokens are
    charged at that price and, because [CalculateCost] subtracts them from the plain input only
    when the standard cache-read price is set, at the full input price as well. *)
Example cached_tokens_billed_twice :
  map (fun l => (l.(Item), l.(CostUSD)))
    (CostBreakdown
       (set_field InputCostPerToken (Some (f64_of_Z 2))
          (set_field CacheReadInputTokenCostPriority (Some (f64_of_Z 1)) Pricing0))
       (Usage0 <| Tier := TierPriority |> <| InputTokens := 100 |> <| CachedInputTokens := 100 |>))
  = [("input", f64_of_Z 200); ("input_cache_read", f64_of_Z 100)].
Proof. vm_compute. reflexivity. Qed.

(** An explicit free price of the long flex band does not take effect: the band's zero is taken
    for an unset price and the shorter flex price is charged. *)
Example flex_band_free_price_ignored :
  inputRate
    (set_field InputCostPerTokenAbove272kTokensFlex (Some f64_zero)
       (set_field InputCostPerTokenFlex (Some (f64_of_Z 3)) Pricing0))
    300000 TierFlex
  = f64_of_Z 3.
Proof. vm_compute. reflexivity. Qed.

(** No line of a breakdown is empty. *)
Lemma breakdown_lines_nonzero p u l :
  In l (CostBreakdown p u) -> is_zero l.(Quantity) = false /\ is_zero l.(UnitCost) = false.
Proof.
  unfold CostBreakdown. rewrite in_map_iff. intros (c & <- & Hc).
  apply filter_In in Hc as [_ Hb]. unfold billable, f64_neb in Hb.
  rewrite !f64_eqb_zero in Hb. zbool. by split.
Qed.

(** ** Merging *)

Lemma pricingFieldPairs_complete f : f ∈ pricingFieldPairs.
Proof. apply (bool_decide_unpack _). destruct f; vm_compute; reflexivity. Qed.

Lemma merge_fold (override : Pricing) l base f :
  foldl (fun merged g => match override g with Some v => set_field g (Some v) merged | None => merged end)
    base l f
  = if decide (f ∈ l) then override f <||> base f else base f.
Proof.
  revert base. induction l as [|g l IH]; intros base; cbn [foldl].
  - rewrite decide_False; [done | apply not_elem_of_nil].
  - rewrite IH.
    destruct (decide (f ∈ l)) as [Hl|Hl].
    + rewrite decide_True by set_solver. destruct (override f) eqn:E; [done|]. simpl.
      destruct (override g) eqn:Eg; [|done]. unfold set_field. destruct (decide (g = f)); congruence.
    + destruct (decide (f = g)) as [->|Hne].
      * rewrite decide_True by set_solver. destruct (override g) eqn:E; simpl; [|done].
        unfold set_field. by rewrite decide_True.
      * rewrite decide_False by set_solver. destruct (override g); [|done].
        unfold set_field. by rewrite decide_False by congruence.
Qed.

(** an operator override merges field by field.  For every one of the 132 price fields
    the merged price is the override's where the override sets it, and the base's otherwise; the
    field table of [MergePricing] forgets none. *)
Theorem MergePricing_spec (base override : Pricing) (f : PricingField) :
  MergePricing base override f = override f <||> base f.
Proof.
  unfold MergePricing. rewrite merge_fold. rewrite decide_True; [done|].
  apply pricingFieldPairs_complete.
Qed.
