(* ===== verification/VirtualKey.v ===== *)
(** * Virtual keys — [core/virtualkey.go], [core/dataplane.go]

    The routing policy attached to a virtual key: modes, load-balancer kinds, the per-provider
    configuration with its allow and block lists, its compilation from the stored form and the
    model access test.  The [uint8] enumerations are [Z]; a [float32] weight is the [f64] of its
    value, since the code only converts it; the runtime maps with empty values are [gset]s; a
    [*ProviderConfig] is an option where the code tests it for nil.  The [fmt.Errorf] texts are
    constructors carrying the formatted arguments. *)

From S2P Require Import Prelude GoBase Float64 Catalog.
From Stdlib Require Import SpecFloat.
Open Scope string_scope.

(** ** Modes and load balancers *)

Abbreviation VKMode := Z (only parsing).
Definition VKDirect : VKMode := 0.
Definition VKWeighted : VKMode := 1.
Definition VKDirectName : string := "direct".
Definition VKWeightedName : string := "weighted".

Inductive ParseError : Type :=
| UnknownVKMode (value : string)
| UnknownLBKind (value : string).

Definition VKMode_String (mode : VKMode) : string :=
  if (mode =? VKDirect)%Z then VKDirectName
  else if (mode =? VKWeighted)%Z then VKWeightedName
  else "".

Definition ParseVKMode (value : string) : result ParseError VKMode :=
  if String.eqb value VKDirectName then Ok VKDirect
  else if String.eqb value VKWeightedName then Ok VKWeighted
  else Err (UnknownVKMode value).

Abbreviation LBKind := Z (only parsing).
Definition LBRoundRobin : LBKind := 0.
Definition LBLeastConnection : LBKind := 1.
Definition LBLatencyBased : LBKind := 2.
Definition LBRoundRobinName : string := "round_robin".
Definition LBLeastConnectionName : string := "least_connection".
Definition LBLatencyBasedName : string := "latency_based".

Definition LBKind_String (lb : LBKind) : string :=
  if (lb =? LBRoundRobin)%Z then LBRoundRobinName
  else if (lb =? LBLeastConnection)%Z then LBLeastConnectionName
  else if (lb =? LBLatencyBased)%Z then LBLatencyBasedName
  else "".

Definition LBKind_Implemented (lb : LBKind) : bool := (lb =? LBRoundRobin)%Z.

Definition ParseLBKind (value : string) : result ParseError LBKind :=
  if String.eqb value LBRoundRobinName then Ok LBRoundRobin
  else if String.eqb value LBLeastConnectionName then Ok LBLeastConnection
  else if String.eqb value LBLatencyBasedName then Ok LBLatencyBased
  else Err (UnknownLBKind value).

(** ** Provider configurations *)

Record ProviderConfig : Type := mkProviderConfig {
  PCProvider : Provider;
  AllowedModels : list string;
  BlockedModels : list string;
  Weight : f64;
  runtimeAllowedModels : gset string;
  runtimeBlockedModels : gset string;
  allowAll : bool
}.
#[export] Instance ProviderConfig_eta : Eta ProviderConfig := fun c =>
  mkProviderConfig (PCProvider c) (AllowedModels c) (BlockedModels c) (Weight c)
    (runtimeAllowedModels c) (runtimeBlockedModels c) (allowAll c).

(** [config.IsModelAllowed(key)]; [None] is the nil receiver. *)
Definition IsModelAllowed (config : option ProviderConfig) (key : CatalogKey) : bool :=
  match config with
  | None => false
  | Some c =>
      if negb (String.eqb key.(KProvider) c.(PCProvider)) || is_empty key.(ModelName) then false
      else if bool_decide (key.(ModelName) ∈ c.(runtimeBlockedModels)) then false
      else if c.(allowAll) then true
      else bool_decide (key.(ModelName) ∈ c.(runtimeAllowedModels))
  end.

Inductive ConfigError : Type :=
| NoProviderConfig
| DirectNeedsOne
| EmptyProvider
| DuplicateProvider (p : Provider)
| BadWeight (p : Provider)
| EmptyBlockedModel (p : Provider)
| BlocksEveryModel (p : Provider)
| EmptyModel (p : Provider)
| NoAllowedModel (p : Provider)
| WeightsNotOne (total : f64).

(** The body of the loop over [stored.BlockedModels]. *)
Definition add_blocked (provider : Provider) (config : ProviderConfig) (rawModel : string)
    : result ConfigError ProviderConfig :=
  let model := TrimSpace rawModel in
  if is_empty model then Err (EmptyBlockedModel provider)
  else if String.eqb model "*" then Err (BlocksEveryModel provider)
  else if bool_decide (model ∈ config.(runtimeBlockedModels)) then Ok config
  else Ok (config <| runtimeBlockedModels ::= fun s => {[ model ]} ∪ s |>
                  <| BlockedModels ::= fun l => l ++ [model] |>)%list.

(** The body of the loop over [stored.AllowedModels]. *)
Definition add_allowed (provider : Provider) (config : ProviderConfig) (rawModel : string)
    : result ConfigError ProviderConfig :=
  let model := TrimSpace rawModel in
  if is_empty model then Err (EmptyModel provider)
  else
    let config := if String.eqb model "*" then config <| allowAll := true |> else config in
    if bool_decide (model ∈ config.(runtimeAllowedModels)) then Ok config
    else Ok (config <| runtimeAllowedModels ::= fun s => {[ model ]} ∪ s |>
                    <| AllowedModels ::= fun l => l ++ [model] |>)%list.

(** The three variables of the loop over the stored configurations. *)
Record CompileState : Type := mkCompileState {
  runtimeConfigs : list ProviderConfig;
  providers : gset Provider;
  totalWeight : f64
}.

Definition bad_weight (w : f64) : bool :=
  f64_ltb w f64_zero || f64_ltb (f64_of_Z 1) w || is_nan w || is_inf w.

(** The body of that loop. *)
Definition compile_config (mode : VKMode) (st : CompileState) (stored : ProviderConfig)
    : result ConfigError CompileState :=
  let provider := TrimSpace stored.(PCProvider) in
  if is_empty provider then Err EmptyProvider
  else if bool_decide (provider ∈ st.(providers)) then Err (DuplicateProvider provider)
  else if negb (mode =? VKDirect)%Z && bad_weight stored.(Weight) then Err (BadWeight provider)
  else
    let weight := if (mode =? VKDirect)%Z then f64_of_Z 1 else stored.(Weight) in
    let total := if (mode =? VKDirect)%Z then st.(totalWeight)
                 else f64_add st.(totalWeight) stored.(Weight) in
    let config := mkProviderConfig provider [] [] weight ∅ ∅ false in
    config ← foldM (add_blocked provider) config stored.(BlockedModels);
    config ← foldM (add_allowed provider) config stored.(AllowedModels);
    if (List.length config.(AllowedModels) =? 0)%nat then Err (NoAllowedModel provider)
    else Ok (mkCompileState (st.(runtimeConfigs) ++ [config])
               ({[ provider ]} ∪ st.(providers)) total)%list.

(** The constant [1e-6]: the [float64] nearest to it. *)
Definition weight_tolerance : f64 := f64_dyadic 4722366482869645 (-72).

Definition CompileProviderConfigs (mode : VKMode) (configs : list ProviderConfig)
    : result ConfigError (list ProviderConfig) :=
  if (List.length configs =? 0)%nat then Err NoProviderConfig
  else if (mode =? VKDirect)%Z && negb (List.length configs =? 1)%nat then Err DirectNeedsOne
  else
    st ← foldM (compile_config mode) (mkCompileState [] ∅ f64_zero) configs;
    if (mode =? VKWeighted)%Z
       && f64_ltb weight_tolerance (f64_abs (f64_sub st.(totalWeight) (f64_of_Z 1)))
    then Err (WeightsNotOne st.(totalWeight))
    else Ok st.(runtimeConfigs).

(** ** Virtual keys *)

Record VirtualKey : Type := mkVirtualKey {
  VKID : string;
  VKKey : string;
  VKClientID : string;
  VKBudgetID : string;
  VKIsActive : bool;
  VKExpiresAt : option Z;
  Mode : VKMode;
  LoadBalancer : LBKind;
  ProviderConfigs : list ProviderConfig
}.
#[export] Instance VirtualKey_eta : Eta VirtualKey := fun v =>
  mkVirtualKey (VKID v) (VKKey v) (VKClientID v) (VKBudgetID v) (VKIsActive v) (VKExpiresAt v)
    (Mode v) (LoadBalancer v) (ProviderConfigs v).

Inductive VKError : Type :=
| VKRequired
| LBNotImplemented (name : string)
| VKNoProviderConfig.

Definition VirtualKey_Validate (vk : option VirtualKey) : result VKError () :=
  match vk with
  | None => Err VKRequired
  | Some v =>
      if negb (LBKind_Implemented v.(LoadBalancer)) then
        let name := LBKind_String v.(LoadBalancer) in
        Err (LBNotImplemented (if is_empty name then "unknown" else name))
      else if (List.length v.(ProviderConfigs) =? 0)%nat then Err VKNoProviderConfig
      else Ok ()
  end.

(** [vkconfig.ProviderConfig(provider)]: the first configuration of the provider, or nil. *)
Fixpoint find_config (configs : list ProviderConfig) (provider : Provider) : option ProviderConfig :=
  match configs with
  | [] => None
  | cfg :: rest => if String.eqb cfg.(PCProvider) provider then Some cfg else find_config rest provider
  end.
Definition VirtualKey_ProviderConfig (v : VirtualKey) (provider : Provider) : option ProviderConfig :=
  find_config v.(ProviderConfigs) provider.

Definition IsModelKeyAllowed (v : VirtualKey) (key : CatalogKey) : bool :=
  if negb (is_empty key.(KProvider)) then
    IsModelAllowed (VirtualKey_ProviderConfig v key.(KProvider)) key
  else
    existsb (fun cfg => IsModelAllowed (Some cfg) (key <| KProvider := cfg.(PCProvider) |>))
      v.(ProviderConfigs).

(** ** Reference definitions *)

(** The elements of a list not yet seen, each kept at its first occurrence. *)
Fixpoint fresh (seen : gset string) (l : list string) : list string :=
  match l with
  | [] => []
  | x :: l' => if bool_decide (x ∈ seen) then fresh seen l' else x :: fresh ({[ x ]} ∪ seen) l'
  end.

Definition trimmed (l : list string) : list string := map TrimSpace l.

(** What a stored configuration means at run time. *)
Definition compiled (mode : VKMode) (stored : ProviderConfig) : ProviderConfig :=
  mkProviderConfig (TrimSpace stored.(PCProvider))
    (fresh ∅ (trimmed stored.(AllowedModels))) (fresh ∅ (trimmed stored.(BlockedModels)))
    (if (mode =? VKDirect)%Z then f64_of_Z 1 else stored.(Weight))
    (list_to_set (trimmed stored.(AllowedModels))) (list_to_set (trimmed stored.(BlockedModels)))
    (bool_decide ("*" ∈ trimmed stored.(AllowedModels))).

(** When a stored configuration is acceptable on its own. *)
Definition acceptable (mode : VKMode) (stored : ProviderConfig) : Prop :=
  TrimSpace stored.(PCProvider) <> "" /\
  (mode <> VKDirect -> bad_weight stored.(Weight) = false) /\
  Forall (fun m => m <> "" /\ m <> "*") (trimmed stored.(BlockedModels)) /\
  Forall (fun m => m <> "") (trimmed stored.(AllowedModels)) /\
  stored.(AllowedModels) <> [].

Definition sum_weights (configs : list ProviderConfig) : f64 :=
  foldl (fun t c => f64_add t c.(Weight)) f64_zero configs.

(** When a list of them is. *)
Definition acceptable_list (mode : VKMode) (configs : list ProviderConfig) : Prop :=
  configs <> [] /\ (mode = VKDirect -> List.length configs = 1) /\
  NoDup (map (fun c => TrimSpace c.(PCProvider)) configs) /\
  Forall (acceptable mode) configs /\
  (mode = VKWeighted ->
   f64_ltb weight_tolerance (f64_abs (f64_sub (sum_weights configs) (f64_of_Z 1))) = false).

(** ** The loops *)

Lemma fresh_elem seen l x : x ∈ fresh seen l <-> x ∈ l /\ x ∉ seen.
Proof.
  revert seen. induction l as [|y l IH]; intros seen; simpl; [set_solver|].
  case_bool_decide; rewrite ?elem_of_cons, IH, ?elem_of_union, ?elem_of_singleton; clear IH;
    destruct (decide (x = y)) as [->|]; tauto.
Qed.

Lemma fresh_nonempty l : l <> [] -> fresh ∅ l <> [].
Proof.
  destruct l as [|x l]; [done|]. intros _ H.
  assert (Hx : x ∈ fresh ∅ (x :: l)) by (apply fresh_elem; set_solver).
  rewrite H in Hx. set_solver.
Qed.

Lemma fresh_NoDup seen l : NoDup (fresh seen l).
Proof.
  revert seen. induction l as [|y l IH]; intros seen; simpl; [constructor|].
  case_bool_decide; [done|]. constructor; [|done]. rewrite fresh_elem, elem_of_union, elem_of_singleton. tauto.
Qed.

Lemma union_absorb (x : string) (L R : gset string) : x ∈ R -> {[ x ]} ∪ L ∪ R = L ∪ R.
Proof. set_solver. Qed.

Lemma union_swap (x : string) (L R : gset string) : {[ x ]} ∪ L ∪ R = L ∪ ({[ x ]} ∪ R).
Proof. set_solver. Qed.

Lemma add_blocked_loop p c l c' :
  foldM (add_blocked p) c l = Ok c' <->
  Forall (fun m => m <> "" /\ m <> "*") (trimmed l) /\
  c' = c <| runtimeBlockedModels ::= fun s => list_to_set (trimmed l) ∪ s |>
         <| BlockedModels ::= fun b => b ++ fresh c.(runtimeBlockedModels) (trimmed l) |>%list.
Proof.
  revert c. induction l as [|m l IH]; intros c; simpl.
  { split; [intros [= <-]; split; [constructor|] | intros [_ ->]];
      destruct c; simpl; rewrite app_nil_r, (left_id_L ∅ _); done. }
  rewrite Forall_cons. unfold add_blocked at 1.
  destruct (is_empty _) eqn:He; [apply is_empty_true in He; naive_solver|].
  apply is_empty_false in He.
  destruct (String.eqb_spec (TrimSpace m) "*"); [naive_solver|].
  case_bool_decide as Hin; rewrite IH; destruct c; simpl in *.
  - rewrite union_absorb by done. naive_solver.
  - rewrite union_swap, <- app_assoc. naive_solver.
Qed.

Lemma add_allowed_loop p c l c' :
  foldM (add_allowed p) c l = Ok c' <->
  Forall (fun m => m <> "") (trimmed l) /\
  c' = c <| runtimeAllowedModels ::= fun s => list_to_set (trimmed l) ∪ s |>
         <| AllowedModels ::= fun b => b ++ fresh c.(runtimeAllowedModels) (trimmed l) |>
         <| allowAll ::= orb (bool_decide ("*" ∈ trimmed l)) |>%list.
Proof.
  revert c. induction l as [|m l IH]; intros c; simpl.
  { split; [intros [= <-]; split; [constructor|] | intros [_ ->]];
      destruct c; simpl; rewrite app_nil_r, (left_id_L ∅ _); done. }
  rewrite Forall_cons. unfold add_allowed at 1.
  destruct (is_empty _) eqn:He; [apply is_empty_true in He; naive_solver|].
  apply is_empty_false in He.
  assert (Hstar : bool_decide ("*" ∈ TrimSpace m :: trimmed l)
                  = String.eqb (TrimSpace m) "*" || bool_decide ("*" ∈ trimmed l)).
  { destruct (String.eqb_spec (TrimSpace m) "*") as [->|]; cbn [orb];
      [by rewrite bool_decide_true by left | apply bool_decide_ext; rewrite elem_of_cons; naive_solver]. }
  rewrite Hstar. clear Hstar. generalize dependent (bool_decide ("*" ∈ trimmed l)). intros b IH.
  destruct c as [pc al bl w ra rb aa]; simpl.
  destruct (String.eqb (TrimSpace m) "*"); simpl; case_bool_decide as Hin; rewrite IH; simpl;
    rewrite ?orb_true_r, ?orb_false_l.
  all: first [rewrite union_absorb by done | rewrite union_swap, <- app_assoc].
  all: simpl; naive_solver.
Qed.

Lemma compile_config_spec mode st stored st' :
  compile_config mode st stored = Ok st' <->
  acceptable mode stored /\ TrimSpace stored.(PCProvider) ∉ st.(providers) /\
  st' = mkCompileState (st.(runtimeConfigs) ++ [compiled mode stored])
          ({[ TrimSpace stored.(PCProvider) ]} ∪ st.(providers))
          (if (mode =? VKDirect)%Z then st.(totalWeight)
           else f64_add st.(totalWeight) stored.(Weight)).
Proof.
  unfold compile_config, acceptable.
  destruct (is_empty _) eqn:He; [apply is_empty_true in He; naive_solver|].
  apply is_empty_false in He.
  case_bool_decide as Hp; [naive_solver|].
  destruct (negb _ && _) eqn:Hw.
  { apply andb_true_iff in Hw as [Hm Hw]. rewrite Hw.
    apply negb_true_iff, Z.eqb_neq in Hm. naive_solver. }
  assert (Hw' : mode <> VKDirect -> bad_weight (Weight stored) = false).
  { intros Hm. apply andb_false_iff in Hw as [Hw|]; [|done].
    by apply negb_false_iff, Z.eqb_eq in Hw. }
  unfold mbind, result_bind.
  set (c0 := mkProviderConfig _ _ _ _ _ _ _).
  destruct (foldM (add_blocked _) c0 _) as [c1|e] eqn:Hb.
  2: { split; [done|]. intros ((_ & _ & Hf & _) & _).
       by rewrite (proj2 (add_blocked_loop _ _ _ _) (conj Hf eq_refl)) in Hb. }
  apply add_blocked_loop in Hb as [Hfb ->].
  destruct (foldM (add_allowed _) _ _) as [c2|e] eqn:Ha.
  2: { split; [done|]. intros ((_ & _ & _ & Hf & _) & _).
       by rewrite (proj2 (add_allowed_loop _ _ _ _) (conj Hf eq_refl)) in Ha. }
  apply add_allowed_loop in Ha as [Hfa ->]. unfold compiled, c0; simpl.
  rewrite !(right_id_L ∅ _), orb_false_r.
  destruct (List.length (fresh _ (trimmed stored.(AllowedModels))) =? 0)%nat eqn:El.
  - apply Nat.eqb_eq, nil_length_inv in El. split; [done|]. intros ((_ & _ & _ & _ & Hne) & _).
    exfalso. apply (fresh_nonempty (trimmed stored.(AllowedModels))); [|done].
    unfold trimmed. by destruct stored.(AllowedModels).
  - assert (stored.(AllowedModels) <> []) by (intros Hn; by rewrite Hn in El). naive_solver.
Qed.

Lemma compile_loop mode st configs st' :
  foldM (compile_config mode) st configs = Ok st' <->
  Forall (acceptable mode) configs /\
  NoDup (map (fun c => TrimSpace c.(PCProvider)) configs) /\
  (forall c, c ∈ configs -> TrimSpace c.(PCProvider) ∉ st.(providers)) /\
  st' = mkCompileState (st.(runtimeConfigs) ++ map (compiled mode) configs)
          (list_to_set (map (fun c => TrimSpace c.(PCProvider)) configs) ∪ st.(providers))
          (if (mode =? VKDirect)%Z then st.(totalWeight)
           else foldl (fun t c => f64_add t c.(Weight)) st.(totalWeight) configs).
Proof.
  revert st. induction configs as [|c configs IH]; intros st; simpl.
  { rewrite app_nil_r, (left_id_L ∅ _). destruct st as [a b t]; simpl.
    replace (if (mode =? VKDirect)%Z then t else t) with t by (by case_match).
    split; [intros [= <-]; splits; try constructor; set_solver | naive_solver]. }
  rewrite Forall_cons, NoDup_cons.
  destruct (compile_config mode st c) as [st1|e] eqn:Hc.
  2: { split; [done|]. intros ([Hac _] & [_ _] & Hp & _).
       rewrite (proj2 (compile_config_spec _ _ _ _) (conj Hac (conj (Hp c ltac:(left)) eq_refl))) in Hc.
       done. }
  apply compile_config_spec in Hc as (Hac & Hp & ->). rewrite IH; simpl. clear IH.
  rewrite <- app_assoc, union_swap.
  replace (if (mode =? VKDirect)%Z then (if (mode =? VKDirect)%Z then totalWeight st else _) else _)
    with (if (mode =? VKDirect)%Z then totalWeight st
          else foldl (fun t c => f64_add t c.(Weight)) (f64_add (totalWeight st) (Weight c)) configs)
    by (by case_match).
  split.
  - intros (Hf & Hn & Hd & ->). splits; try done.
    + intros (c' & Heq & Hin)%list_elem_of_fmap. apply (Hd c' Hin). set_solver.
    + intros c' [->|Hin]%elem_of_cons; [done|]. specialize (Hd c' Hin). set_solver.
  - intros ([_ Hf] & [Hni Hn] & Hd & ->). splits; try done.
    intros c' Hin [Heq%elem_of_singleton|Hpr]%elem_of_union.
    + apply Hni, list_elem_of_fmap. by exists c'.
    + by apply (Hd c' ltac:(by right)).
Qed.

Lemma CompileProviderConfigs_out mode configs out :
  CompileProviderConfigs mode configs = Ok out -> out = map (compiled mode) configs.
Proof.
  unfold CompileProviderConfigs, mbind, result_bind. repeat case_match; try done.
  intros [= <-]. match goal with H : foldM _ _ _ = _ |- _ => apply compile_loop in H end.
  naive_solver.
Qed.

Lemma CompileProviderConfigs_providers mode configs out :
  CompileProviderConfigs mode configs = Ok out ->
  NoDup (map PCProvider out) /\ Forall (fun c => c.(PCProvider) <> "") out.
Proof.
  intros Hc. pose proof (CompileProviderConfigs_out _ _ _ Hc) as ->. revert Hc.
  unfold CompileProviderConfigs, mbind, result_bind. repeat case_match; try done. intros _.
  match goal with H : foldM _ _ _ = _ |- _ => apply compile_loop in H as (Hf & Hn & _) end.
  split; [by rewrite map_map|]. apply Forall_map.
  eapply Forall_impl; [exact Hf|]. by intros c [? _].
Qed.

(** ** Properties *)

(** compilation is exactly the reference definition.  It succeeds on a list of stored
    configurations if and only if the list is acceptable (not empty, one entry in direct mode,
    distinct trimmed provider names, finite weights in [0,1] summing to one in weighted mode, no
    empty or catch-all blocked model, at least one allowed model per entry), and the result lists
    for every entry, in order, its trimmed and deduplicated models. *)
Theorem CompileProviderConfigs_spec mode configs out :
  CompileProviderConfigs mode configs = Ok out <->
  acceptable_list mode configs /\ out = map (compiled mode) configs.
Proof.
  unfold CompileProviderConfigs, acceptable_list.
  destruct (List.length configs =? 0)%nat eqn:Hl.
  { apply Nat.eqb_eq in Hl. destruct configs; [naive_solver | done]. }
  assert (Hne : configs <> []) by (by intros ->).
  destruct ((mode =? VKDirect)%Z && _) eqn:Hd.
  { zbool. apply Nat.eqb_neq in H0. naive_solver. }
  assert (Hd' : mode = VKDirect -> List.length configs = 1).
  { intros ->. simpl in Hd. by apply negb_false_iff, Nat.eqb_eq in Hd. }
  unfold mbind, result_bind.
  destruct (foldM _ _ _) as [st|e] eqn:Hf.
  2: { split; [done|]. intros [(_ & _ & Hn & Hfa & _) _].
       rewrite (proj2 (compile_loop _ _ _ _)
                  (conj Hfa (conj Hn (conj (fun c _ => not_elem_of_empty _) eq_refl)))) in Hf. done. }
  apply compile_loop in Hf as (Hfa & Hn & _ & ->); simpl. fold (sum_weights configs).
  destruct (mode =? VKWeighted)%Z eqn:Hw; simpl.
  - apply Z.eqb_eq in Hw. subst mode. simpl.
    destruct (f64_ltb _ _); naive_solver.
  - apply Z.eqb_neq in Hw. naive_solver.
Qed.

(** The stored lists grant access to a model: it has a name, no (trimmed) block-list entry is that
    name, and the (trimmed) allow list holds the name or the catch-all. *)
Definition grants (stored : ProviderConfig) (model : string) : Prop :=
  model <> "" /\ model ∉ trimmed stored.(BlockedModels) /\
  ("*" ∈ trimmed stored.(AllowedModels) \/ model ∈ trimmed stored.(AllowedModels)).

Lemma IsModelAllowed_compiled mode stored key :
  IsModelAllowed (Some (compiled mode stored)) key = true <->
  key.(KProvider) = TrimSpace stored.(PCProvider) /\ grants stored key.(ModelName).
Proof.
  unfold IsModelAllowed, compiled, grants; simpl.
  destruct (String.eqb_spec key.(KProvider) (TrimSpace stored.(PCProvider))) as [->|]; simpl;
    [|naive_solver].
  destruct (is_empty _) eqn:He; [apply is_empty_true in He; naive_solver|].
  apply is_empty_false in He.
  case_bool_decide as Hb; rewrite elem_of_list_to_set in Hb; [naive_solver|].
  case_bool_decide as Hs; [naive_solver|].
  rewrite bool_decide_eq_true, elem_of_list_to_set. naive_solver.
Qed.

Lemma find_config_Some configs p cfg :
  NoDup (map PCProvider configs) ->
  (find_config configs p = Some cfg <-> cfg ∈ configs /\ cfg.(PCProvider) = p).
Proof.
  induction configs as [|c configs IH]; intros Hn; simpl.
  { split; [done | intros [?%elem_of_nil _]; done]. }
  apply NoDup_cons in Hn as [Hni Hn]. rewrite elem_of_cons.
  destruct (String.eqb_spec c.(PCProvider) p) as [Hp|Hp].
  - split; [naive_solver|]. intros [[->|Hin] Hc]; [done|].
    exfalso. apply Hni, list_elem_of_fmap. exists cfg. by rewrite Hc.
  - rewrite IH by done. naive_solver.
Qed.

Lemma find_config_elem configs p cfg :
  find_config configs p = Some cfg -> cfg ∈ configs /\ cfg.(PCProvider) = p.
Proof.
  induction configs as [|c configs IH]; simpl; [done|]. rewrite elem_of_cons.
  destruct (String.eqb_spec c.(PCProvider) p); naive_solver.
Qed.

Lemma find_config_None configs p :
  find_config configs p = None <-> forall cfg, cfg ∈ configs -> cfg.(PCProvider) <> p.
Proof.
  induction configs as [|c configs IH]; simpl; [split; [intros _ c ?%elem_of_nil|]; done|].
  setoid_rewrite elem_of_cons. destruct (String.eqb_spec c.(PCProvider) p) as [Hp|Hp].
  - split; [done|]. intros H. by destruct (H c (or_introl eq_refl)).
  - rewrite IH. naive_solver.
Qed.

(** C1: the access test of a virtual key whose configurations were compiled, in terms of what
    was stored.  The model is allowed if and only if some stored configuration grants it, and, when
    the request names a provider, that configuration is the one of that provider.  In particular a
    blocked model is refused even under the catch-all, and one provider's allow list never opens
    another provider. *)
Theorem IsModelKeyAllowed_spec mode configs v key :
  CompileProviderConfigs mode configs = Ok v.(ProviderConfigs) ->
  (IsModelKeyAllowed v key = true <->
   exists stored, stored ∈ configs /\ grants stored key.(ModelName) /\
     (key.(KProvider) = "" \/ key.(KProvider) = TrimSpace stored.(PCProvider))).
Proof.
  intros Hc. pose proof (CompileProviderConfigs_providers _ _ _ Hc) as [Hn Hne].
  apply CompileProviderConfigs_out in Hc.
  unfold IsModelKeyAllowed, VirtualKey_ProviderConfig. rewrite Hc in *.
  destruct (is_empty _) eqn:He; cbn [negb].
  - apply is_empty_true in He. rewrite existsb_exists. setoid_rewrite <- list_elem_of_In.
    split.
    + intros (cfg & (stored & -> & Hin)%list_elem_of_fmap & [_ Ha]%IsModelAllowed_compiled). eauto.
    + intros (stored & Hin & Hg & _). exists (compiled mode stored).
      split; [apply list_elem_of_fmap; eauto|]. by apply IsModelAllowed_compiled.
  - apply is_empty_false in He. split.
    + destruct (find_config _ _) as [cfg|] eqn:Hf; [|done].
      apply find_config_Some in Hf as [(stored & -> & Hin)%list_elem_of_fmap Hp]; [|done].
      intros [Hk Hg]%IsModelAllowed_compiled. eauto.
    + intros (stored & Hin & Hg & [|Hp]); [done|].
      rewrite (proj2 (find_config_Some _ _ (compiled mode stored) Hn)).
      * by apply IsModelAllowed_compiled.
      * split; [apply list_elem_of_fmap; eauto | done].
Qed.

(** Names and codes of the enumerations. *)
Lemma ParseVKMode_String m v : ParseVKMode v = Ok m <-> VKMode_String m = v /\ v <> "".
Proof.
  unfold ParseVKMode, VKMode_String.
  repeat match goal with |- context [String.eqb ?a ?b] => destruct (String.eqb_spec a b) end;
    repeat match goal with |- context [(?a =? ?b)%Z] => destruct (Z.eqb_spec a b) end; naive_solver.
Qed.

Lemma ParseLBKind_String m v : ParseLBKind v = Ok m <-> LBKind_String m = v /\ v <> "".
Proof.
  unfold ParseLBKind, LBKind_String.
  repeat match goal with |- context [String.eqb ?a ?b] => destruct (String.eqb_spec a b) end;
    repeat match goal with |- context [(?a =? ?b)%Z] => destruct (Z.eqb_spec a b) end; naive_solver.
Qed.

Lemma VirtualKey_Validate_Ok v :
  VirtualKey_Validate (Some v) = Ok () <->
  v.(LoadBalancer) = LBRoundRobin /\ v.(ProviderConfigs) <> [].
Proof.
  unfold VirtualKey_Validate, LBKind_Implemented.
  destruct (Z.eqb_spec v.(LoadBalancer) LBRoundRobin); simpl; [|naive_solver].
  destruct v.(ProviderConfigs); naive_solver.
Qed.

(** ** Witnesses *)

Definition stored_example : list ProviderConfig :=
  [mkProviderConfig " openai " ["gpt-4o "; "*"; "gpt-4o"] ["gpt-3.5"] (f64_dyadic 1 (-1)) ∅ ∅ false;
   mkProviderConfig "azure" ["gpt-4o"] [] (f64_dyadic 1 (-1)) ∅ ∅ false].

Definition key_example : VirtualKey :=
  mkVirtualKey "vk" "hash" "client" "budget" true None VKWeighted LBRoundRobin
    (map (compiled VKWeighted) stored_example).

Lemma IsModelKeyAllowed_spec_witness :
  IsModelKeyAllowed key_example (mkCatalogKey "" "gpt-3.5" ModelTypeChat) = false /\
  exists stored, stored ∈ stored_example /\ grants stored "o1" /\
     ("openai" = "" \/ "openai" = TrimSpace stored.(PCProvider)).
Proof.
  split; [vm_compute; reflexivity|].
  apply (IsModelKeyAllowed_spec VKWeighted stored_example key_example
           (mkCatalogKey "openai" "o1" ModelTypeChat)); vm_compute; reflexivity.
Defined.
