(* ===== verification/GoCrypto.v ===== *)
(** * Checksums of the Go standard library — [hash/crc32], [crypto/sha256], [encoding/hex]

    The CRC-32 (IEEE polynomial, reflected) and SHA-256 functions the virtual-key format uses, on
    byte strings, with 32-bit words as [Z]; both are executable and checked against published test
    vectors. *)

From S2P Require Import Prelude GoBase.
From Stdlib Require Import Ascii.
Local Open Scope Z_scope.

(** The bytes of a string. *)
Fixpoint string_bytes (s : string) : list Z :=
  match s with
  | EmptyString => []
  | String c s' => Z.of_N (Ascii.N_of_ascii c) :: string_bytes s'
  end.

(** ** CRC-32 *)

Definition crc_bit (crc : Z) : Z :=
  if Z.testbit crc 0 then Z.lxor (Z.shiftr crc 1) 3988292384 else Z.shiftr crc 1.
Definition crc_byte (crc b : Z) : Z := Nat.iter 8 crc_bit (Z.lxor crc b).

(** [crc32.ChecksumIEEE]. *)
Definition ChecksumIEEE (s : string) : Z :=
  Z.lxor (foldl crc_byte 4294967295 (string_bytes s)) 4294967295.

Example crc32_check : ChecksumIEEE "123456789" = 3421780262.
Proof. vm_compute. reflexivity. Qed.

(** ** SHA-256 *)

Definition rotr (x n : Z) : Z := Z.lor (Z.shiftr x n) (wrapU32 (Z.shiftl x (32 - n))).
Definition sha_S0 (x : Z) : Z := Z.lxor (Z.lxor (rotr x 2) (rotr x 13)) (rotr x 22).
Definition sha_S1 (x : Z) : Z := Z.lxor (Z.lxor (rotr x 6) (rotr x 11)) (rotr x 25).
Definition sha_s0 (x : Z) : Z := Z.lxor (Z.lxor (rotr x 7) (rotr x 18)) (Z.shiftr x 3).
Definition sha_s1 (x : Z) : Z := Z.lxor (Z.lxor (rotr x 17) (rotr x 19)) (Z.shiftr x 10).
Definition sha_ch (x y z : Z) : Z := Z.lxor (Z.land x y) (Z.land (Z.lxor x 4294967295) z).
Definition sha_maj (x y z : Z) : Z := Z.lxor (Z.lxor (Z.land x y) (Z.land x z)) (Z.land y z).

Definition sha_K : list Z :=
  [1116352408; 1899447441; 3049323471; 3921009573; 961987163; 1508970993;
   2453635748; 2870763221; 3624381080; 310598401; 607225278; 1426881987;
   1925078388; 2162078206; 2614888103; 3248222580; 3835390401; 4022224774;
   264347078; 604807628; 770255983; 1249150122; 1555081692; 1996064986;
   2554220882; 2821834349; 2952996808; 3210313671; 3336571891; 3584528711;
   113926993; 338241895; 666307205; 773529912; 1294757372; 1396182291;
   1695183700; 1986661051; 2177026350; 2456956037; 2730485921; 2820302411;
   3259730800; 3345764771; 3516065817; 3600352804; 4094571909; 275423344;
   430227734; 506948616; 659060556; 883997877; 958139571; 1322822218;
   1537002063; 1747873779; 1955562222; 2024104815; 2227730452; 2361852424;
   2428436474; 2756734187; 3204031479; 3329325298].
Definition sha_H0 : list Z :=
  [1779033703; 3144134277; 1013904242; 2773480762; 1359893119; 2600822924;
   528734635; 1541459225].

(** Big-endian encoding of [z] on [n] bytes. *)
Fixpoint be_bytes (n : nat) (z : Z) : list Z :=
  match n with O => [] | S n' => be_bytes n' (z / 256) ++ [z mod 256] end.

Definition sha_pad (msg : list Z) : list Z :=
  let len := Z.of_nat (List.length msg) in
  msg ++ [128] ++ repeat 0 (Z.to_nat ((55 - len) mod 64)) ++ be_bytes 8 (8 * len).

(** Groups of [n] bytes as big-endian words. *)
Fixpoint be_words (l : list Z) : list Z :=
  match l with
  | a :: b :: c :: d :: l' => (((a * 256 + b) * 256 + c) * 256 + d) :: be_words l'
  | _ => []
  end.

(** The message schedule, most recent word first. *)
Fixpoint sha_schedule (n : nat) (w : list Z) : list Z :=
  match n with
  | O => w
  | S n' =>
      sha_schedule n'
        (wrapU32 (sha_s1 (nth 1 w 0) + nth 6 w 0 + sha_s0 (nth 14 w 0) + nth 15 w 0) :: w)
  end.

Definition sha_round (st : list Z) (kw : Z * Z) : list Z :=
  match st with
  | [a; b; c; d; e; f; g; h] =>
      let t1 := h + sha_S1 e + sha_ch e f g + kw.1 + kw.2 in
      let t2 := sha_S0 a + sha_maj a b c in
      [wrapU32 (t1 + t2); a; b; c; wrapU32 (d + t1); e; f; g]
  | _ => st
  end.

Definition sha_block (st : list Z) (block : list Z) : list Z :=
  let w := rev (sha_schedule 48 (rev (be_words block))) in
  zip_with (fun x y => wrapU32 (x + y)) st (foldl sha_round st (zip sha_K w)).

Fixpoint sha_blocks (fuel : nat) (st msg : list Z) : list Z :=
  match fuel, msg with
  | S n, _ :: _ => sha_blocks n (sha_block st (take 64 msg)) (drop 64 msg)
  | _, _ => st
  end.

(** [sha256.Sum256].  One block per round of the loop, so the length of the padded message is
    more than enough fuel. *)
Definition Sum256 (s : string) : list Z :=
  let m := sha_pad (string_bytes s) in
  List.concat (map (be_bytes 4) (sha_blocks (List.length m) sha_H0 m)).

Definition hex_digit (n : Z) : ascii :=
  Ascii.ascii_of_N (Z.to_N (if n <? 10 then 48 + n else 87 + n)).
(** [hex.EncodeToString]. *)
Fixpoint EncodeToString (l : list Z) : string :=
  match l with
  | [] => EmptyString
  | b :: l' => String (hex_digit (b / 16)) (String (hex_digit (b mod 16)) (EncodeToString l'))
  end.

Example sha256_abc : EncodeToString (Sum256 "abc")
  = "ba7816bf8f01cfea414140de5dae2223b00361a396177a9cb410ff61f20015ad"%string.
Proof. vm_compute. reflexivity. Qed.
Example sha256_two_blocks :
  EncodeToString (Sum256 "abcdbcdecdefdefgefghfghighijhijkijkljklmklmnlmnomnopnopq")
  = "248d6a61d20638b8e5c026930c3e6039a33ce45964ff2167f6ecedd419db06c1"%string.
Proof. vm_compute. reflexivity. Qed.
