(* ===== verification/KeyFormat.v ===== *)
(** * The format of virtual keys — [core/virtualkey-format.go]

    A key is "dk-", eighteen base-62 digits and a four-digit checksum.  [GenerateVirtualKey] takes
    the fourteen bytes [io.ReadFull(rand.Reader, raw)] delivered, or [None] when it failed; a
    [big.Int] is a [Z].  Every slice expression of the source is within bounds where it is
    evaluated. *)

From S2P Require Import Prelude GoBase GoCrypto.
From Stdlib Require Import Ascii.
Open Scope string_scope.

Definition dkPrefix : string := "dk-".
Definition dkTotalLen : nat := 25.
Definition dkPayloadLen : nat := 18.
Definition dkChecksumLen : nat := 4.
Definition dkChecksumMod : Z := 62 * 62 * 62 * 62.
Definition base62Chars : string := "0123456789ABCDEFGHIJKLMNOPQRSTUVWXYZabcdefghijklmnopqrstuvwxyz".

(** [base62Chars[r]]. *)
Definition base62_char (r : Z) : ascii := default "0"%char (String.get (Z.to_nat r) base62Chars).

(** The digits of the loop, least significant first. *)
Fixpoint base62_digits (n : Z) (length : nat) : list ascii :=
  match length with
  | O => []
  | S k => base62_char (n mod 62) :: base62_digits (n / 62) k
  end.

Definition base62Encode (n : Z) (length : nat) : string :=
  String.string_of_list_ascii (rev (base62_digits n length)).

(** [n.SetBytes(raw)]: big-endian. *)
Definition SetBytes (raw : list Byte.byte) : Z :=
  foldl (fun n b => (n * 256 + Z.of_N (Byte.to_N b))%Z) 0%Z raw.

(** [s[:n]] and [s[n:]]. *)
Definition str_take (n : nat) (s : string) : string := String.substring 0 n s.
Definition str_drop (n : nat) (s : string) : string := String.substring n (String.length s - n) s.

Definition checksum_of (prefixPart : string) : string :=
  base62Encode (ChecksumIEEE prefixPart mod dkChecksumMod) dkChecksumLen.

(** The key, its hash and its display prefix; [None] when the random source failed. *)
Definition GenerateVirtualKey (raw : option (list Byte.byte)) : option (string * string * string) :=
  raw ← raw;
  let payload := base62Encode (SetBytes raw) dkPayloadLen in
  let prefixPart := dkPrefix ++ payload in
  let checksum := checksum_of prefixPart in
  let apikey := prefixPart ++ checksum in
  let prefix := str_take 11 apikey in
  let hash := EncodeToString (Sum256 apikey) in
  Some (apikey, hash, prefix).

Definition isBase62Char (c : ascii) : bool :=
  let n := Ascii.N_of_ascii c in
  ((48 <=? n) && (n <=? 57) || (65 <=? n) && (n <=? 90) || (97 <=? n) && (n <=? 122))%N.

Definition ValidateKeySignature (apiKey : string) : bool :=
  if negb (String.length apiKey =? dkTotalLen)%nat then false
  else if negb (String.eqb (str_take 3 apiKey) dkPrefix) then false
  else if negb (forallb isBase62Char (String.list_ascii_of_string (str_drop 3 apiKey))) then false
  else
    let payload := str_take (3 + dkPayloadLen) apiKey in
    String.eqb (str_drop (3 + dkPayloadLen) apiKey) (checksum_of payload).

(** ** Base 62 *)

(** The value of a digit and of a list of digits, least significant first. *)
Definition base62_value (c : ascii) : Z :=
  let n := Z.of_N (Ascii.N_of_ascii c) in
  if (n <=? 57)%Z then n - 48 else if (n <=? 90)%Z then n - 55 else n - 61.
Fixpoint digits_value (l : list ascii) : Z :=
  match l with [] => 0 | c :: l' => base62_value c + 62 * digits_value l' end.

Lemma base62_char_ok d : (0 <= d < 62)%Z ->
  base62_value (base62_char d) = d /\ isBase62Char (base62_char d) = true.
Proof.
  intros Hd.
  assert (Hall : forallb (fun k => let d := Z.of_nat k in
      (base62_value (base62_char d) =? d)%Z && isBase62Char (base62_char d)) (seq 0 62) = true)
    by (vm_compute; reflexivity).
  rewrite forallb_forall in Hall. specialize (Hall (Z.to_nat d)).
  rewrite Z2Nat.id in Hall by lia. rewrite andb_true_iff, Z.eqb_eq in Hall.
  apply Hall, in_seq. lia.
Qed.

Lemma base62_value_ok c : isBase62Char c = true ->
  base62_char (base62_value c) = c /\ (0 <= base62_value c < 62)%Z.
Proof.
  destruct c as [[] [] [] [] [] [] [] []]; intros H; vm_compute in H; try discriminate H;
    (split; [vm_compute; reflexivity | vm_compute; split; congruence]).
Qed.

Lemma base62_digits_length n k : List.length (base62_digits n k) = k.
Proof. revert n. induction k; intros n; simpl; auto. Qed.

Lemma base62_digits_chars n k : forallb isBase62Char (base62_digits n k) = true.
Proof.
  revert n. induction k as [|k IH]; intros n; [done|]. cbn [base62_digits forallb].
  rewrite IH, andb_true_r. apply base62_char_ok, Z.mod_pos_bound. lia.
Qed.

Lemma digits_value_digits n k : digits_value (base62_digits n k) = (n mod 62 ^ Z.of_nat k)%Z.
Proof.
  revert n. induction k as [|k IH]; intros n; cbn [base62_digits digits_value].
  { by rewrite Z.mod_1_r. }
  rewrite IH. destruct (base62_char_ok (n mod 62)) as [-> _]; [by apply Z.mod_pos_bound|].
  rewrite Nat2Z.inj_succ, Z.pow_succ_r by lia.
  rewrite Z.rem_mul_r; [done | lia | apply Z.pow_pos_nonneg; lia].
Qed.

Lemma digits_value_inv l : forallb isBase62Char l = true ->
  base62_digits (digits_value l) (List.length l) = l /\
  (0 <= digits_value l < 62 ^ Z.of_nat (List.length l))%Z.
Proof.
  induction l as [|c l IH]; [intros _; split; [done | cbn; lia]|].
  cbn [forallb]. intros [Hc Hl]%andb_true_iff. destruct (IH Hl) as [IH1 IH2].
  destruct (base62_value_ok c Hc) as [Hv Hr]. cbn [List.length base62_digits digits_value].
  rewrite Nat2Z.inj_succ, Z.pow_succ_r by lia. split; [|lia].
  rewrite (Z.mul_comm 62), Z.mod_add, Z.mod_small, Hv, Z.div_add, Z.div_small by lia.
  by rewrite Z.add_0_l, IH1.
Qed.

(** ** Strings *)

Lemma str_take_app s t : str_take (String.length s) (s ++ t) = s.
Proof. unfold str_take. induction s as [|c s IH]; simpl; [by destruct t | by rewrite IH]. Qed.

Lemma substring_all s : String.substring 0 (String.length s) s = s.
Proof. induction s as [|c s IH]; simpl; [done | by rewrite IH]. Qed.

Lemma str_drop_app s t : str_drop (String.length s) (s ++ t) = t.
Proof.
  unfold str_drop. induction s as [|c s IH]; simpl; [|done].
  rewrite Nat.sub_0_r. apply substring_all.
Qed.

Lemma str_take_0 s : str_take 0 s = "".
Proof. by destruct s. Qed.

Lemma str_take_S n c s : str_take (S n) (String c s) = String c (str_take n s).
Proof. done. Qed.

Lemma str_drop_S n c s : str_drop (S n) (String c s) = str_drop n s.
Proof. done. Qed.

Lemma str_take_drop n s : str_take n s ++ str_drop n s = s.
Proof.
  revert s. induction n as [|n IH]; intros s.
  - rewrite str_take_0. unfold str_drop. rewrite Nat.sub_0_r. apply substring_all.
  - destruct s as [|c s]; [done|]. rewrite str_take_S, str_drop_S. simpl. by rewrite IH.
Qed.

Lemma str_take_length n s : String.length (str_take n s) = Nat.min n (String.length s).
Proof.
  revert s. induction n as [|n IH]; intros s; [by rewrite str_take_0|].
  destruct s as [|c s]; [done|]. rewrite str_take_S. simpl. by rewrite IH.
Qed.

Lemma str_take_app_l n s t : (String.length s <= n)%nat ->
  str_take n (s ++ t) = s ++ str_take (n - String.length s) t.
Proof.
  revert n. induction s as [|c s IH]; intros n Hn; simpl; [by rewrite Nat.sub_0_r|].
  destruct n as [|n]; [simpl in Hn; lia|]. rewrite str_take_S, IH by (simpl in Hn; lia). done.
Qed.

(** A string of [n + m] bytes splits after its first [n]. *)
Lemma str_split n m s : String.length s = (n + m)%nat ->
  exists a b, s = a ++ b /\ String.length a = n /\ String.length b = m.
Proof.
  revert s. induction n as [|n IH]; intros s Hs; [by exists "", s|].
  destruct s as [|c s]; [done|]. injection Hs as Hs.
  destruct (IH s Hs) as (a & b & -> & <- & <-). by exists (String c a), b.
Qed.

Lemma str_length_list s : List.length (String.list_ascii_of_string s) = String.length s.
Proof. induction s; simpl; auto. Qed.

Lemma list_str_length l : String.length (String.string_of_list_ascii l) = List.length l.
Proof. induction l; simpl; auto. Qed.

Lemma list_ascii_app a b :
  String.list_ascii_of_string (a ++ b)
  = (String.list_ascii_of_string a ++ String.list_ascii_of_string b)%list.
Proof. induction a; simpl; by f_equal. Qed.

Lemma str_length_app a b : String.length (a ++ b) = (String.length a + String.length b)%nat.
Proof. induction a; simpl; auto. Qed.

Lemma str_app_assoc (a b c : string) : (a ++ b) ++ c = a ++ b ++ c.
Proof. induction a; simpl; by f_equal. Qed.

Lemma base62Encode_length n k : String.length (base62Encode n k) = k.
Proof. unfold base62Encode. by rewrite list_str_length, length_rev, base62_digits_length. Qed.

Lemma base62Encode_chars n k :
  forallb isBase62Char (String.list_ascii_of_string (base62Encode n k)) = true.
Proof.
  unfold base62Encode. rewrite String.list_ascii_of_string_of_list_ascii.
  apply forallb_forall. intros c Hc%in_rev.
  pose proof (base62_digits_chars n k) as H. rewrite forallb_forall in H. auto.
Qed.

(** The number a base-62 text denotes. *)
Definition base62_decode (s : string) : Z := digits_value (rev (String.list_ascii_of_string s)).

Lemma base62_decode_encode n k : base62_decode (base62Encode n k) = (n mod 62 ^ Z.of_nat k)%Z.
Proof.
  unfold base62_decode, base62Encode.
  by rewrite String.list_ascii_of_string_of_list_ascii, rev_involutive, digits_value_digits.
Qed.

Lemma base62_encode_decode s :
  forallb isBase62Char (String.list_ascii_of_string s) = true ->
  base62Encode (base62_decode s) (String.length s) = s /\
  (0 <= base62_decode s < 62 ^ Z.of_nat (String.length s))%Z.
Proof.
  intros H. set (l := rev (String.list_ascii_of_string s)).
  assert (Hl : forallb isBase62Char l = true).
  { apply forallb_forall. intros c Hc%in_rev. rewrite forallb_forall in H. auto. }
  assert (Hlen : List.length l = String.length s).
  { unfold l. by rewrite length_rev, str_length_list. }
  destruct (digits_value_inv l Hl) as [H1 H2]. rewrite Hlen in H1, H2. split; [|done].
  unfold base62Encode, base62_decode. fold l. rewrite H1. unfold l.
  rewrite rev_involutive. apply String.string_of_list_ascii_of_string.
Qed.

(** ** Random bytes *)

Definition byte_of (z : Z) : Byte.byte := default Byte.x00 (Byte.of_N (Z.to_N (z mod 256))).

Lemma byte_of_ok z : Z.of_N (Byte.to_N (byte_of z)) = (z mod 256)%Z.
Proof.
  assert (Hm : (0 <= z mod 256 < 256)%Z) by (apply Z.mod_pos_bound; lia).
  unfold byte_of. generalize dependent (z mod 256)%Z. intros m Hm.
  assert (Hall : forallb (fun k => match Byte.of_N (N.of_nat k) with
     | Some b => N.eqb (Byte.to_N b) (N.of_nat k) | None => false end) (seq 0 256) = true)
    by (vm_compute; reflexivity).
  rewrite forallb_forall in Hall. specialize (Hall (Z.to_nat m)).
  assert (Hn : N.of_nat (Z.to_nat m) = Z.to_N m) by lia. rewrite Hn in Hall.
  destruct (Byte.of_N _) as [b|]; simpl; [|discriminate Hall; apply in_seq; lia].
  assert (Hb : N.eqb (Byte.to_N b) (Z.to_N m) = true) by (apply Hall, in_seq; lia).
  apply N.eqb_eq in Hb. rewrite Hb. lia.
Qed.

(** Every number of [k] bytes is the value of some [k] random bytes. *)
Lemma SetBytes_surj k n : (0 <= n < 256 ^ Z.of_nat k)%Z ->
  exists raw, List.length raw = k /\ SetBytes raw = n.
Proof.
  revert n. induction k as [|k IH]; intros n Hn.
  { exists []. split; [done|]. cbn in *. lia. }
  rewrite Nat2Z.inj_succ, Z.pow_succ_r in Hn by lia.
  destruct (IH (n / 256)%Z) as (raw & Hl & Hv).
  { split; [apply Z.div_pos; lia | apply Z.div_lt_upper_bound; lia]. }
  exists (raw ++ [byte_of n])%list. split; [rewrite length_app; simpl; lia|].
  unfold SetBytes in *. rewrite foldl_app, Hv. simpl. rewrite byte_of_ok.
  pose proof (Z.div_mod n 256). lia.
Qed.

(** ** Properties *)

Definition make_key (n : Z) : string :=
  let p := dkPrefix ++ base62Encode n dkPayloadLen in p ++ checksum_of p.

Lemma prefix_length n : String.length (dkPrefix ++ base62Encode n dkPayloadLen) = 21%nat.
Proof. by rewrite str_length_app, base62Encode_length. Qed.

Lemma ValidateKeySignature_make_key n : ValidateKeySignature (make_key n) = true.
Proof.
  unfold ValidateKeySignature, make_key. set (p := dkPrefix ++ base62Encode n dkPayloadLen).
  assert (Hp : String.length p = 21%nat) by apply prefix_length.
  assert (Hc : String.length (checksum_of p) = 4%nat) by apply base62Encode_length.
  replace (String.length _ =? dkTotalLen)%nat with true by (by rewrite str_length_app, Hp, Hc).
  replace (3 + dkPayloadLen)%nat with (String.length p) by (by rewrite Hp).
  rewrite str_take_app, str_drop_app, String.eqb_refl. cbn [negb].
  unfold p. rewrite str_app_assoc.
  change 3%nat with (String.length dkPrefix). rewrite str_drop_app, String.eqb_refl.
  rewrite list_ascii_app, forallb_app. unfold checksum_of. by rewrite !base62Encode_chars.
Qed.

Lemma ValidateKeySignature_inv k : ValidateKeySignature k = true ->
  exists n, (0 <= n < 62 ^ 18)%Z /\ k = make_key n.
Proof.
  unfold ValidateKeySignature. destruct (_ =? _)%nat eqn:Hlen; [|done]. apply Nat.eqb_eq in Hlen.
  destruct (str_split 3 22 k Hlen) as (a & r & -> & Ha & Hr).
  destruct (str_split 18 4 r Hr) as (b & c & -> & Hb & Hc).
  replace (str_take 3 _) with a by (rewrite <- Ha; by rewrite str_take_app).
  replace (str_drop 3 _) with (b ++ c) by (rewrite <- Ha; by rewrite str_drop_app). cbn [negb].
  destruct (String.eqb_spec a dkPrefix) as [->|]; [|done]. cbn [negb].
  rewrite list_ascii_app, forallb_app.
  destruct (forallb _ (String.list_ascii_of_string b)) eqn:Hcb; [|done].
  destruct (forallb _ (String.list_ascii_of_string c)); [|done]. cbn [negb andb].
  rewrite <- str_app_assoc.
  replace (3 + dkPayloadLen)%nat with (String.length (dkPrefix ++ b))
    by (by rewrite str_length_app, Hb).
  rewrite str_take_app, str_drop_app. intros ->%String.eqb_eq.
  destruct (base62_encode_decode b Hcb) as [He Hr']. rewrite Hb in He, Hr'.
  exists (base62_decode b). split; [done|]. unfold make_key. change dkPayloadLen with 18%nat. by rewrite He.
Qed.

Lemma some_triple {A B C} (a a' : A) (b b' : B) (c c' : C) :
  Some (a, b, c) = Some (a', b', c') -> a = a'.
Proof. congruence. Qed.

#[local] Opaque ChecksumIEEE Sum256 EncodeToString base62Encode str_take.

Lemma GenerateVirtualKey_valid raw k hash prefix :
  GenerateVirtualKey raw = Some (k, hash, prefix) -> ValidateKeySignature k = true.
Proof.
  destruct raw as [raw|]; [|done]. intros H%some_triple. rewrite <- H. apply ValidateKeySignature_make_key.
Qed.

(** the keys whose signature validates are exactly the keys the generator can return.  A
    key it returns, whatever fourteen random bytes it read, passes the check the gateway makes
    before looking a key up, and conversely a text that passes the check is a key some fourteen
    bytes generate, stored under the SHA-256 of its text and displayed by its first eleven
    bytes. *)
Theorem ValidateKeySignature_spec (k : string) :
  ValidateKeySignature k = true <->
  exists raw, List.length raw = 14%nat /\
    GenerateVirtualKey (Some raw) = Some (k, EncodeToString (Sum256 k), str_take 11 k).
Proof.
  split.
  - intros (n & Hn & ->)%ValidateKeySignature_inv.
    destruct (SetBytes_surj 14 n) as (raw & Hl & Hv); [cbn in *; lia|].
    exists raw. split; [done|]. unfold GenerateVirtualKey, make_key. cbn [mbind option_bind].
    by rewrite Hv.
  - intros (raw & _ & H). apply some_triple in H. rewrite <- H. apply ValidateKeySignature_make_key.
Qed.

Example GenerateVirtualKey_zero :
  GenerateVirtualKey (Some (repeat Byte.x00 14)) ≫= (fun '(k, _, p) => Some (k, p))
  = Some ("dk-000000000000000000IV3Z", "dk-00000000").
Proof. vm_compute. reflexivity. Qed.
