(* ===== verification/Credential.v ===== *)
(** * Credentials and upstreams — [core/credential.go], [core/azure-credential.go],
    [core/upstream.go]

    Provider credentials with their model lists, aliases and Azure settings, the checks made on a
    credential at selection time and the validation of a new one; the per-provider network
    configuration.  [time.Now()] is an argument; a Go map is a [gmap], and a loop over it takes
    the iteration order it happens to have as an argument. *)

From S2P Require Import Prelude GoBase Catalog.
Open Scope string_scope.

(** ** Azure settings *)

Definition AzureAuthKeyMode : string := "azure_api_key".
Definition AzureAuthServicePrincipal : string := "azure_service_principal".
Definition AzureDefaultCredential : string := "azure_default_credential".
Definition DefaultAzureScope : string := "https://cognitiveservices.azure.com/.default".
Definition AzureRouteV1 : string := "v1".
Definition AzureRouteDeployment : string := "deployment".

Record AzureSettings : Type := mkAzureSettings {
  AuthMode : string;
  TenantID : string;
  AzClientID : string;
  ClientSecret : string;
  Scopes : list string
}.

Inductive CredentialError : Type :=
| KeyModeTakesNoIdentity
| PrincipalNeedsIdentity
| ManagedTakesNoSecret
| ManagedTakesNoTenant
| UnknownAuthMode (m : string)
| AzureSettingsOn (p : Provider)
| OneSettingsBlock (n : Z)
| DeploymentIDRequired
| UnknownEndpointProtocol (p : string)
| RouteStyleOpenAIOnly
| APIVersionRequired
| UnknownRouteStyle (s : string)
| ProviderRequired
| ProviderNotSupported (p : Provider)
| EndpointRequired
| AllowedModelRequired
| EmptyAllowedModel
| AliasError (model : string) (cause : CredentialError)
| AzureBlockRequired.

Definition AzureSettings_Validate (azure : AzureSettings) : result CredentialError () :=
  if String.eqb azure.(AuthMode) AzureAuthKeyMode then
    if negb (is_empty azure.(TenantID)) || negb (is_empty azure.(AzClientID))
       || negb (is_empty azure.(ClientSecret))
    then Err KeyModeTakesNoIdentity else Ok ()
  else if String.eqb azure.(AuthMode) AzureAuthServicePrincipal then
    if is_empty azure.(TenantID) || is_empty azure.(AzClientID) || is_empty azure.(ClientSecret)
    then Err PrincipalNeedsIdentity else Ok ()
  else if String.eqb azure.(AuthMode) AzureDefaultCredential then
    if negb (is_empty azure.(ClientSecret)) then Err ManagedTakesNoSecret
    else if negb (is_empty azure.(TenantID)) then Err ManagedTakesNoTenant
    else Ok ()
  else Err (UnknownAuthMode azure.(AuthMode)).

(** ** Credential settings *)

Record CredentialSettings : Type := mkCredentialSettings { Azure : option AzureSettings }.

Definition Settings_IsEmpty (cs : CredentialSettings) : bool :=
  match cs.(Azure) with None => true | Some _ => false end.

Definition Settings_Validate (cs : CredentialSettings) (provider : Provider)
    : result CredentialError () :=
  check ← match cs.(Azure) with
          | Some azure =>
              if negb (String.eqb provider ProviderAzure) then Err (AzureSettingsOn provider)
              else _ ← AzureSettings_Validate azure; Ok 1%Z
          | None => Ok 0%Z
          end;
  if (1 <? check)%Z then Err (OneSettingsBlock check) else Ok ().

(** ** Aliases *)

Abbreviation EndpointProtocol := string (only parsing).
Definition ProtocolOpenAI : EndpointProtocol := ProviderOpenAI.
Definition ProtocolAnthropic : EndpointProtocol := ProviderAnthropic.

Record Alias : Type := mkAlias {
  AModelID : string;
  AModelName : string;
  AEndpointProtocol : EndpointProtocol;
  RouteStyle : string;
  APIVersion : string
}.

Definition protocolNameHints : list (EndpointProtocol * string) :=
  [(ProtocolAnthropic, "claude"); (ProtocolAnthropic, "anthropic.")].

Fixpoint match_hint (lowered : string) (hints : list (EndpointProtocol * string))
    : option EndpointProtocol :=
  match hints with
  | [] => None
  | (p, m) :: hints' => if contains lowered m then Some p else match_hint lowered hints'
  end.

Fixpoint match_candidate (candidates : list string) : option EndpointProtocol :=
  match candidates with
  | [] => None
  | c :: cs =>
      if is_empty c then match_candidate cs
      else match match_hint (ToLower c) protocolNameHints with
           | Some p => Some p
           | None => match_candidate cs
           end
  end.

(** [a.Protocol(requested)]; [None] is the nil receiver. *)
Definition Alias_Protocol (a : option Alias) (requested : string) : EndpointProtocol :=
  match a with
  | None => ProtocolOpenAI
  | Some a =>
      if negb (is_empty a.(AEndpointProtocol)) then a.(AEndpointProtocol)
      else default ProtocolOpenAI
             (match_candidate [a.(AModelName); a.(AModelID); requested])
  end.

Definition Alias_Validate (a : Alias) : result CredentialError () :=
  if is_empty a.(AModelID) then Err DeploymentIDRequired
  else if negb (is_empty a.(AEndpointProtocol)
                || String.eqb a.(AEndpointProtocol) ProtocolOpenAI
                || String.eqb a.(AEndpointProtocol) ProtocolAnthropic)
  then Err (UnknownEndpointProtocol a.(AEndpointProtocol))
  else if is_empty a.(RouteStyle) || String.eqb a.(RouteStyle) AzureRouteV1 then Ok ()
  else if String.eqb a.(RouteStyle) AzureRouteDeployment then
    if String.eqb a.(AEndpointProtocol) ProtocolAnthropic then Err RouteStyleOpenAIOnly
    else if is_empty a.(APIVersion) then Err APIVersionRequired
    else Ok ()
  else Err (UnknownRouteStyle a.(RouteStyle)).

(** ** Credentials *)

Record Credential : Type := mkCredential {
  CID : string;
  CProvider : Provider;
  CName : string;
  APIKey : string;
  Enabled : bool;
  ExpiryAt : option Z;
  CAllowedModels : list string;
  CBlockedModels : list string;
  Endpoint : string;
  Aliases : gmap string Alias;
  Settings : CredentialSettings
}.
#[export] Instance Credential_eta : Eta Credential := fun c =>
  mkCredential (CID c) (CProvider c) (CName c) (APIKey c) (Enabled c) (ExpiryAt c)
    (CAllowedModels c) (CBlockedModels c) (Endpoint c) (Aliases c) (Settings c).

(** [slices.Contains]. *)
Definition slice_contains (l : list string) (x : string) : bool := existsb (fun y => String.eqb y x) l.

Definition CheckModel (cred : option Credential) (model : string) : bool :=
  match cred with
  | None => false
  | Some c =>
      if is_empty model then false
      else if slice_contains c.(CBlockedModels) "*" || slice_contains c.(CBlockedModels) model
      then false
      else slice_contains c.(CAllowedModels) "*" || slice_contains c.(CAllowedModels) model
  end.

Definition CheckValidity (now : Z) (cred : option Credential) : bool :=
  match cred with
  | None => false
  | Some c => c.(Enabled) && match c.(ExpiryAt) with
                             | None => true
                             | Some at_ => time_after at_ now
                             end
  end.

Definition CheckModelAlias (cred : option Credential) (model : string) : Alias :=
  match cred with
  | None => mkAlias model "" "" "" ""
  | Some c => default (mkAlias model "" "" "" "") (c.(Aliases) !! model)
  end.

(** The loop over the aliases, in the order the map is iterated. *)
Fixpoint validate_aliases (order : list (string * Alias)) : result CredentialError () :=
  match order with
  | [] => Ok ()
  | (model, alias) :: order' =>
      match Alias_Validate alias with
      | Err err => Err (AliasError model err)
      | Ok _ => validate_aliases order'
      end
  end.

(** [cred.Validate()]; [order] is the iteration order of [cred.Aliases]. *)
Definition Credential_Validate (order : list (string * Alias)) (cred : Credential)
    : result CredentialError () :=
  if is_empty cred.(CProvider) then Err ProviderRequired
  else if negb (IsKnownProvider cred.(CProvider)) then Err (ProviderNotSupported cred.(CProvider))
  else if is_empty cred.(Endpoint) then Err EndpointRequired
  else if (List.length cred.(CAllowedModels) =? 0)%nat then Err AllowedModelRequired
  else if existsb is_empty cred.(CAllowedModels) then Err EmptyAllowedModel
  else
    _ ← validate_aliases order;
    if String.eqb cred.(CProvider) ProviderAzure && Settings_IsEmpty cred.(Settings)
    then Err AzureBlockRequired
    else if negb (Settings_IsEmpty cred.(Settings))
    then Settings_Validate cred.(Settings) cred.(CProvider)
    else Ok ().

(** ** Upstreams *)

Record NetworkConfig : Type := mkNetworkConfig {
  BaseURL : string;
  Headers : gmap string string;
  RequestTimeout : option Z;
  MaxRetries : option Z;
  RetryBackoff : option Z;
  MaxConnsPerHost : option Z;
  InsecureSkipVerify : bool;
  AllowPrivateNetwork : bool;
  RetryAmbiguousStatus : option bool;
  MaxResponseBytes : Z;
  StreamIdleTimeout : option Z
}.
#[export] Instance NetworkConfig_eta : Eta NetworkConfig := fun n =>
  mkNetworkConfig (BaseURL n) (Headers n) (RequestTimeout n) (MaxRetries n) (RetryBackoff n)
    (MaxConnsPerHost n) (InsecureSkipVerify n) (AllowPrivateNetwork n) (RetryAmbiguousStatus n)
    (MaxResponseBytes n) (StreamIdleTimeout n).
Definition NetworkConfig0 : NetworkConfig :=
  mkNetworkConfig "" ∅ None None None None false false None 0 None.

Definition is_none {A} (o : option A) : bool := match o with None => true | Some _ => false end.

Definition NetworkConfig_IsZero (n : NetworkConfig) : bool :=
  is_empty n.(BaseURL) && bool_decide (size n.(Headers) = 0)
  && is_none n.(RequestTimeout) && is_none n.(MaxRetries)
  && is_none n.(RetryBackoff) && is_none n.(MaxConnsPerHost)
  && is_none n.(StreamIdleTimeout) && is_none n.(RetryAmbiguousStatus)
  && negb n.(InsecureSkipVerify) && negb n.(AllowPrivateNetwork)
  && (n.(MaxResponseBytes) =? 0)%Z.

Definition ProxyHTTP : string := "http".
Definition ProxySOCKS5 : string := "socks5".
Definition ProxyEnvironment : string := "environment".

Record ProxyConfig : Type := mkProxyConfig {
  PType : string;
  PURL : string;
  Username : string;
  Password : string
}.

Record Upstream : Type := mkUpstream {
  UProvider : Provider;
  Network : NetworkConfig;
  Proxy : option ProxyConfig
}.

(** ** Properties *)

Lemma NetworkConfig_IsZero_spec n : NetworkConfig_IsZero n = true <-> n = NetworkConfig0.
Proof.
  split; [|by intros ->]. unfold NetworkConfig_IsZero, NetworkConfig0.
  rewrite !andb_true_iff, bool_decide_eq_true, map_size_empty_iff, is_empty_true, Z.eqb_eq.
  destruct n as [b h [] [] [] [] [] [] [] m []]; cbn; intuition (try congruence).
Qed.

Lemma slice_contains_spec l x : slice_contains l x = true <-> x ∈ l.
Proof.
  unfold slice_contains. rewrite existsb_exists, list_elem_of_In.
  setoid_rewrite String.eqb_eq. naive_solver.
Qed.

Lemma CheckModel_spec c model :
  CheckModel (Some c) model = true <->
  model <> "" /\ "*" ∉ c.(CBlockedModels) /\ model ∉ c.(CBlockedModels) /\
  ("*" ∈ c.(CAllowedModels) \/ model ∈ c.(CAllowedModels)).
Proof.
  unfold CheckModel. destruct (is_empty model) eqn:He; [apply is_empty_true in He; naive_solver|].
  apply is_empty_false in He. rewrite <- !slice_contains_spec.
  destruct (slice_contains c.(CBlockedModels) "*"), (slice_contains c.(CBlockedModels) model); simpl;
    rewrite ?orb_true_iff; naive_solver.
Qed.

(** Well-formed Azure settings and aliases, by authentication mode and route style. *)
Definition azure_ok (a : AzureSettings) : Prop :=
  (a.(AuthMode) = AzureAuthKeyMode /\ a.(TenantID) = "" /\ a.(AzClientID) = "" /\ a.(ClientSecret) = "") \/
  (a.(AuthMode) = AzureAuthServicePrincipal /\
     a.(TenantID) <> "" /\ a.(AzClientID) <> "" /\ a.(ClientSecret) <> "") \/
  (a.(AuthMode) = AzureDefaultCredential /\ a.(ClientSecret) = "" /\ a.(TenantID) = "").

Definition alias_ok (a : Alias) : Prop :=
  a.(AModelID) <> "" /\ a.(AEndpointProtocol) ∈ [""; ProtocolOpenAI; ProtocolAnthropic] /\
  (a.(RouteStyle) ∈ [""; AzureRouteV1] \/
   (a.(RouteStyle) = AzureRouteDeployment /\ a.(AEndpointProtocol) <> ProtocolAnthropic /\
    a.(APIVersion) <> "")).

Ltac strings :=
  repeat match goal with
  | |- context [is_empty ?s] => destruct (is_empty s) eqn:?
  | |- context [String.eqb ?a ?b] => destruct (String.eqb_spec a b)
  | H : is_empty _ = true |- _ => apply is_empty_true in H
  | H : is_empty _ = false |- _ => apply is_empty_false in H
  end; cbn;
  cbv [AzureAuthKeyMode AzureAuthServicePrincipal AzureDefaultCredential ProtocolOpenAI
    ProtocolAnthropic ProviderOpenAI ProviderAnthropic AzureRouteV1 AzureRouteDeployment] in *;
  intuition (try congruence).

Lemma AzureSettings_Validate_spec a : AzureSettings_Validate a = Ok () <-> azure_ok a.
Proof. unfold AzureSettings_Validate, azure_ok. strings. Qed.

Lemma Alias_Validate_spec a : Alias_Validate a = Ok () <-> alias_ok a.
Proof.
  unfold Alias_Validate, alias_ok. rewrite !elem_of_cons.
  setoid_rewrite (elem_of_nil (A := string)). strings.
Qed.

Lemma validate_aliases_spec order :
  validate_aliases order = Ok () <-> Forall (fun ma => alias_ok ma.2) order.
Proof.
  induction order as [|[m a] order IH]; simpl; [split; [constructor | done]|].
  rewrite Forall_cons, <- IH, <- Alias_Validate_spec; simpl.
  destruct (Alias_Validate a) as [[]|e]; naive_solver.
Qed.

Lemma Settings_Validate_spec cs p :
  Settings_Validate cs p = Ok () <->
  match cs.(Azure) with None => True | Some a => p = ProviderAzure /\ azure_ok a end.
Proof.
  unfold Settings_Validate, mbind, result_bind. destruct cs as [[a|]]; simpl; [|done].
  rewrite <- AzureSettings_Validate_spec.
  destruct (String.eqb_spec p ProviderAzure); simpl; [|naive_solver].
  destruct (AzureSettings_Validate a) as [[]|]; naive_solver.
Qed.

(** a credential passes validation exactly when it names a supported provider and an
    endpoint, lists at least one model and no empty one, all its aliases are well-formed for their
    protocol and route style, and it carries well-formed Azure settings if and only if it is an
    Azure credential.  The verdict does not depend on the order the alias map is iterated in. *)
Theorem Credential_Validate_spec order cred :
  order ≡ₚ map_to_list cred.(Aliases) ->
  (Credential_Validate order cred = Ok () <->
   cred.(CProvider) ∈ supportedProviders /\ cred.(Endpoint) <> "" /\
   cred.(CAllowedModels) <> [] /\ "" ∉ cred.(CAllowedModels) /\
   (forall model alias, cred.(Aliases) !! model = Some alias -> alias_ok alias) /\
   match cred.(Settings).(Azure) with
   | Some azure => cred.(CProvider) = ProviderAzure /\ azure_ok azure
   | None => cred.(CProvider) <> ProviderAzure
   end).
Proof.
  intros Hord.
  assert (Hal : validate_aliases order = Ok () <->
                forall model alias, cred.(Aliases) !! model = Some alias -> alias_ok alias).
  { rewrite validate_aliases_spec, Hord, Forall_forall. split.
    - intros H m a Ha. apply (H (m, a)). by apply elem_of_map_to_list.
    - intros H [m a] Ha%elem_of_map_to_list. eauto. }
  rewrite <- Hal, <- IsKnownProvider_spec. clear Hal Hord.
  assert (Hem : existsb is_empty cred.(CAllowedModels) = true <-> "" ∈ cred.(CAllowedModels)).
  { rewrite existsb_exists, list_elem_of_In. setoid_rewrite is_empty_true. naive_solver. }
  unfold Credential_Validate, mbind, result_bind, Settings_IsEmpty.
  destruct (is_empty (CProvider cred)) eqn:He.
  { apply is_empty_true in He. rewrite He. split; [done|]. intros [?%IsKnownProvider_nonempty _]. done. }
  destruct (IsKnownProvider _); simpl; [|naive_solver].
  destruct (is_empty (Endpoint cred)) eqn:Hep; [apply is_empty_true in Hep; naive_solver|].
  apply is_empty_false in Hep.
  destruct (List.length _ =? 0)%nat eqn:Hlen.
  { apply Nat.eqb_eq, nil_length_inv in Hlen. naive_solver. }
  assert (Hne : CAllowedModels cred <> []) by (intros Hn; by rewrite Hn in Hlen).
  destruct (existsb _ _) eqn:Hex; [naive_solver|].
  destruct (validate_aliases order) as [[]|]; [|naive_solver].
  destruct (String.eqb_spec (CProvider cred) ProviderAzure); simpl;
    destruct (Azure (Settings cred)) eqn:Haz; simpl;
    rewrite ?Settings_Validate_spec, ?Haz; naive_solver.
Qed.

(** ** Witness *)

Definition azure_credential : Credential :=
  mkCredential "c1" ProviderAzure "prod" "key" true None ["gpt-4o"] [] "https://r.openai.azure.com"
    {[ "gpt-4o" := mkAlias "dep" "" "" AzureRouteDeployment "2024-06-01" ]}
    (mkCredentialSettings (Some (mkAzureSettings AzureAuthKeyMode "" "" "" []))).

Lemma Credential_Validate_spec_witness :
  azure_credential.(CProvider) ∈ supportedProviders /\
  Credential_Validate (map_to_list azure_credential.(Aliases)) azure_credential = Ok ().
Proof.
  assert (H : Credential_Validate (map_to_list azure_credential.(Aliases)) azure_credential = Ok ())
    by (vm_compute; reflexivity).
  split; [|exact H].
  exact (proj1 (proj1 (Credential_Validate_spec _ azure_credential (Permutation_refl _)) H)).
Defined.
