(* ===== verification/Config.v ===== *)
(** * Gateway configuration — [configs/serverconfig.go]

    The configuration sections and their validation; the file is read in ConfigFile.v, which
    proves that without a file the result is [DefaultConfig].  [fmt.Errorf] texts are constructors
    with the values they print. *)

From S2P Require Import Prelude GoBase.
Open Scope string_scope.

Definition MinSyncInterval : Z := 30 * Second.

Record ServerConfig : Type := mkServerConfig {
  Port : Z;
  MaxBodySize : Z;
  ConfigSource : string;
  DBPath : string;
  MockEnabled : bool;
  AesPasskey : string;
  TrustedProxies : list string
}.

Record UpstreamConfig : Type := mkUpstreamConfig {
  MaxIdleConns : Z;
  UMaxConnsPerHost : Z;
  MaxIdleConnsPerHost : Z;
  IdleConnTimeout : Z;
  DialTimeout : Z;
  KeepAlive : Z;
  TLSHandshakeTimeout : Z;
  ResponseHeaderTimeout : Z;
  URequestTimeout : Z;
  UStreamIdleTimeout : Z;
  UMaxRetries : Z;
  URetryBackoff : Z;
  MaxResponseBytesKB : Z;
  WriteBufferSize : Z;
  ReadBufferSize : Z;
  DisableCompression : bool
}.
#[export] Instance UpstreamConfig_eta : Eta UpstreamConfig := fun u =>
  mkUpstreamConfig (MaxIdleConns u) (UMaxConnsPerHost u) (MaxIdleConnsPerHost u) (IdleConnTimeout u)
    (DialTimeout u) (KeepAlive u) (TLSHandshakeTimeout u) (ResponseHeaderTimeout u)
    (URequestTimeout u) (UStreamIdleTimeout u) (UMaxRetries u) (URetryBackoff u)
    (MaxResponseBytesKB u) (WriteBufferSize u) (ReadBufferSize u) (DisableCompression u).

(** [u.MaxResponseBytes()]: kilobytes to bytes, on [int64]. *)
Definition UpstreamConfig_MaxResponseBytes (u : UpstreamConfig) : Z :=
  wrap64 (Z.shiftl u.(MaxResponseBytesKB) 10).

Record ModelCatalogConfig : Type := mkModelCatalogConfig {
  SourceURL : string;
  SyncInterval : Z
}.

Definition PayloadModeNone : string := "none".
Definition PayloadModeErrorsOnly : string := "errors_only".
Definition PayloadModeFull : string := "full".

Record MetricsEngineConfig : Type := mkMetricsEngineConfig {
  MEnabled : bool;
  DSN : string;
  BufferCapacity : Z;
  FlushInterval : Z;
  PruneInterval : Z;
  EventsDays : Z;
  PayloadsDays : Z;
  QueryTimeout : Z;
  MaxPage : Z;
  MaxWindow : Z;
  PayloadMode : string;
  PayloadMaxKB : Z
}.

Record GatewayConfig : Type := mkGatewayConfig {
  ServerConfig_ : option ServerConfig;
  Upstream_ : UpstreamConfig;
  LogLevel : option string;
  ModelCatalog_ : option ModelCatalogConfig;
  MetricsEngine_ : option MetricsEngineConfig
}.

Inductive ConfigError : Type :=
| SectionRequired (name : string)
| InSection (name : string) (cause : ConfigError)
| FieldRequired (name : string)
| NotPositive (name : string) (got : Z)
| Negative (name : string) (got : Z)
| PortRange (got : Z)
| IntervalsNotPositive
| RetentionNotPositive
| PayloadsOutliveEvents (payloads events : Z)
| PageNotPositive
| UnknownPayloadMode (got : string)
| PayloadSizeRequired
| IdleUnreachable (idle max : Z)
| BelowMinInterval (name : string) (got : Z).

(** [fmt.Errorf("section: %w", err)]. *)
Definition in_section (name : string) (r : result ConfigError ()) : result ConfigError () :=
  match r with Ok _ => Ok () | Err e => Err (InSection name e) end.

Definition MetricsEngineConfig_Validate (m : MetricsEngineConfig) : result ConfigError () :=
  if negb m.(MEnabled) then Ok ()
  else if is_empty m.(DSN) then Err (FieldRequired "dsn")
  else if (m.(BufferCapacity) <=? 0)%Z then Err (NotPositive "buffer_capacity" m.(BufferCapacity))
  else if (m.(FlushInterval) <=? 0)%Z || (m.(PruneInterval) <=? 0)%Z || (m.(QueryTimeout) <=? 0)%Z
  then Err IntervalsNotPositive
  else if (m.(EventsDays) <=? 0)%Z || (m.(PayloadsDays) <=? 0)%Z then Err RetentionNotPositive
  else if (m.(EventsDays) <? m.(PayloadsDays))%Z
  then Err (PayloadsOutliveEvents m.(PayloadsDays) m.(EventsDays))
  else if (m.(MaxPage) <=? 0)%Z || (m.(MaxWindow) <=? 0)%Z then Err PageNotPositive
  else if negb (is_empty m.(PayloadMode)) && negb (String.eqb m.(PayloadMode) PayloadModeNone)
          && negb (String.eqb m.(PayloadMode) PayloadModeErrorsOnly)
          && negb (String.eqb m.(PayloadMode) PayloadModeFull)
  then Err (UnknownPayloadMode m.(PayloadMode))
  else if negb (is_empty m.(PayloadMode)) && negb (String.eqb m.(PayloadMode) PayloadModeNone)
          && (m.(PayloadMaxKB) <=? 0)%Z
  then Err PayloadSizeRequired
  else Ok ().

Definition ServerConfig_Validate (s : ServerConfig) : result ConfigError () :=
  if (s.(Port) <=? 0)%Z || (65535 <? s.(Port))%Z then Err (PortRange s.(Port))
  else if is_empty s.(DBPath) then Err (FieldRequired "db_path")
  else if (s.(MaxBodySize) <=? 0)%Z then Err (NotPositive "max_body_size" s.(MaxBodySize))
  else Ok ().

(** The loops over the named counts and durations. *)
Fixpoint all_positive (fields : list (string * Z)) : result ConfigError () :=
  match fields with
  | [] => Ok ()
  | (name, value) :: rest => if (value <=? 0)%Z then Err (NotPositive name value) else all_positive rest
  end.

Definition UpstreamConfig_Validate (u : UpstreamConfig) : result ConfigError () :=
  if (0 <? u.(UMaxConnsPerHost))%Z && (u.(UMaxConnsPerHost) <? u.(MaxIdleConnsPerHost))%Z
  then Err (IdleUnreachable u.(MaxIdleConnsPerHost) u.(UMaxConnsPerHost))
  else
    _ ← all_positive
      [("max_idle_conns", u.(MaxIdleConns)); ("max_conns_per_host", u.(UMaxConnsPerHost));
       ("max_idle_conns_per_host", u.(MaxIdleConnsPerHost));
       ("max_response_bytes", u.(MaxResponseBytesKB)); ("write_buffer_size", u.(WriteBufferSize));
       ("read_buffer_size", u.(ReadBufferSize))];
    if (u.(UMaxRetries) <? 0)%Z then Err (Negative "max_retries" u.(UMaxRetries))
    else
      all_positive
        [("idle_conn_timeout", u.(IdleConnTimeout)); ("dial_timeout", u.(DialTimeout));
         ("keep_alive", u.(KeepAlive)); ("tls_handshake_timeout", u.(TLSHandshakeTimeout));
         ("response_header_timeout", u.(ResponseHeaderTimeout));
         ("request_timeout", u.(URequestTimeout)); ("stream_idle_timeout", u.(UStreamIdleTimeout));
         ("retry_backoff", u.(URetryBackoff))].

Definition checkInterval (name : string) (d : Z) : result ConfigError () :=
  if (d <=? 0)%Z then Err (NotPositive name d)
  else if (d <? MinSyncInterval)%Z then Err (BelowMinInterval name d)
  else Ok ().

Definition ModelCatalogConfig_Validate (m : ModelCatalogConfig) : result ConfigError () :=
  _ ← checkInterval "sync_interval" m.(SyncInterval);
  if is_empty m.(SourceURL) then Err (FieldRequired "source_url") else Ok ().

Definition GatewayConfig_Validate (c : GatewayConfig) : result ConfigError () :=
  match c.(ServerConfig_) with
  | None => Err (SectionRequired "server")
  | Some s =>
      _ ← in_section "server" (ServerConfig_Validate s);
      _ ← in_section "upstream" (UpstreamConfig_Validate c.(Upstream_));
      _ ← match c.(ModelCatalog_) with
          | Some m => in_section "modelcatalog" (ModelCatalogConfig_Validate m)
          | None => Ok ()
          end;
      match c.(MetricsEngine_) with
      | Some m => in_section "metrics_engine" (MetricsEngineConfig_Validate m)
      | None => Ok ()
      end
  end.

(** The values [viper.SetDefault] installs. *)
Definition DefaultConfig : GatewayConfig :=
  mkGatewayConfig
    (Some (mkServerConfig 8080 32768 "yaml" "./data/diffractllm.db" false "" []))
    (mkUpstreamConfig 1000 256 256 (90 * Second) (5 * Second) (30 * Second) (10 * Second)
       (30 * Second) (60 * Second) (60 * Second) 0 (250 * Millisecond) 32768 65536 65536 true)
    (Some "info")
    (Some (mkModelCatalogConfig "https://getbifrost.ai/datasheet" (5 * Minute)))
    (Some (mkMetricsEngineConfig true "./data/diffractllm-metrics.duckdb" 5000 (5 * Second)
             (24 * Hour) 90 7 (5 * Second) 200 (2160 * Hour) "" 0)).

(** ** Properties *)

Lemma all_positive_spec fields :
  all_positive fields = Ok () <-> Forall (fun f => (0 < f.2)%Z) fields.
Proof.
  induction fields as [|[n v] fields IH]; simpl; [split; [constructor | done]|].
  rewrite Forall_cons, <- IH; simpl. destruct (Z.leb_spec v 0); naive_solver lia.
Qed.

(** The ranges the rest of the gateway may rely on. *)
Definition server_ok (s : ServerConfig) : Prop :=
  (0 < s.(Port) <= 65535)%Z /\ s.(DBPath) <> "" /\ (0 < s.(MaxBodySize))%Z.
Definition upstream_ok (u : UpstreamConfig) : Prop :=
  (0 < u.(MaxIdleConns))%Z /\ (0 < u.(MaxIdleConnsPerHost) <= u.(UMaxConnsPerHost))%Z /\
  (0 < u.(MaxResponseBytesKB))%Z /\ (0 < u.(WriteBufferSize))%Z /\ (0 < u.(ReadBufferSize))%Z /\
  (0 <= u.(UMaxRetries))%Z /\
  Forall (fun d => 0 < d)%Z
    [u.(IdleConnTimeout); u.(DialTimeout); u.(KeepAlive); u.(TLSHandshakeTimeout);
     u.(ResponseHeaderTimeout); u.(URequestTimeout); u.(UStreamIdleTimeout); u.(URetryBackoff)].
Definition catalog_ok (m : ModelCatalogConfig) : Prop :=
  (MinSyncInterval <= m.(SyncInterval))%Z /\ m.(SourceURL) <> "".
Definition captures (m : MetricsEngineConfig) : Prop :=
  m.(PayloadMode) = PayloadModeErrorsOnly \/ m.(PayloadMode) = PayloadModeFull.
Definition metrics_ok (m : MetricsEngineConfig) : Prop :=
  m.(MEnabled) = false \/
  (m.(DSN) <> "" /\ (0 < m.(BufferCapacity))%Z /\
   (0 < m.(FlushInterval))%Z /\ (0 < m.(PruneInterval))%Z /\ (0 < m.(QueryTimeout))%Z /\
   (0 < m.(PayloadsDays) <= m.(EventsDays))%Z /\ (0 < m.(MaxPage))%Z /\ (0 < m.(MaxWindow))%Z /\
   (m.(PayloadMode) = "" \/ m.(PayloadMode) = PayloadModeNone \/
    (captures m /\ (0 < m.(PayloadMaxKB))%Z))).

Lemma ServerConfig_Validate_spec s : ServerConfig_Validate s = Ok () <-> server_ok s.
Proof.
  unfold ServerConfig_Validate, server_ok.
  destruct (Z.leb_spec s.(Port) 0), (Z.ltb_spec 65535 s.(Port)), (is_empty s.(DBPath)) eqn:He,
    (Z.leb_spec s.(MaxBodySize) 0); simpl;
    first [apply is_empty_true in He | apply is_empty_false in He]; intuition (try congruence; try lia).
Qed.

Lemma UpstreamConfig_Validate_spec u : UpstreamConfig_Validate u = Ok () <-> upstream_ok u.
Proof.
  unfold UpstreamConfig_Validate, upstream_ok, mbind, result_bind.
  pose proof (all_positive_spec
      [("max_idle_conns", u.(MaxIdleConns)); ("max_conns_per_host", u.(UMaxConnsPerHost));
       ("max_idle_conns_per_host", u.(MaxIdleConnsPerHost));
       ("max_response_bytes", u.(MaxResponseBytesKB)); ("write_buffer_size", u.(WriteBufferSize));
       ("read_buffer_size", u.(ReadBufferSize))]) as H1.
  destruct (all_positive _) as [[]|e].
  2: { rewrite !Forall_cons in H1; simpl in H1. case_match; (split; [done|]);
       intros (?&?&?&?&?&?&?); exfalso; assert (Hn : Err e = Ok ()) by (apply H1; splits; try lia; constructor); done. }
  apply proj1 in H1. specialize (H1 eq_refl). rewrite !Forall_cons in H1; simpl in H1.
  destruct (Z.ltb_spec 0 u.(UMaxConnsPerHost)), (Z.ltb_spec u.(UMaxConnsPerHost) u.(MaxIdleConnsPerHost));
    cbn [andb]; try (intuition (try congruence; try lia); fail).
  all: destruct (Z.ltb_spec u.(UMaxRetries) 0); [intuition (try congruence; try lia)|].
  all: rewrite all_positive_spec, !Forall_cons; simpl; intuition (try constructor; try lia).
Qed.

Lemma ModelCatalogConfig_Validate_spec m : ModelCatalogConfig_Validate m = Ok () <-> catalog_ok m.
Proof.
  unfold ModelCatalogConfig_Validate, catalog_ok, checkInterval, mbind, result_bind, MinSyncInterval, Second.
  destruct (Z.leb_spec m.(SyncInterval) 0), (Z.ltb_spec m.(SyncInterval) (30 * 1000000000)),
    (is_empty m.(SourceURL)) eqn:He;
    first [apply is_empty_true in He | apply is_empty_false in He]; intuition (try congruence; try lia).
Qed.

Ltac reject :=
  rewrite ?orb_true_r; cbn [orb]; split; [congruence | intros [?|?]; [congruence | exfalso; destruct_and!; lia]].

Lemma MetricsEngineConfig_Validate_spec m : MetricsEngineConfig_Validate m = Ok () <-> metrics_ok m.
Proof.
  unfold MetricsEngineConfig_Validate, metrics_ok, captures.
  destruct (MEnabled m); cbn [negb]; [|intuition].
  destruct (is_empty m.(DSN)) eqn:He; [apply is_empty_true in He; intuition congruence|].
  apply is_empty_false in He.
  destruct (Z.leb_spec m.(BufferCapacity) 0); [reject|].
  destruct (Z.leb_spec m.(FlushInterval) 0); [reject|].
  destruct (Z.leb_spec m.(PruneInterval) 0); [reject|].
  destruct (Z.leb_spec m.(QueryTimeout) 0); [reject|]. cbn [orb].
  destruct (Z.leb_spec m.(EventsDays) 0); [reject|].
  destruct (Z.leb_spec m.(PayloadsDays) 0); [reject|]. cbn [orb].
  destruct (Z.ltb_spec m.(EventsDays) m.(PayloadsDays)); [reject|].
  destruct (Z.leb_spec m.(MaxPage) 0); [reject|].
  destruct (Z.leb_spec m.(MaxWindow) 0); [reject|]. cbn [orb].
  destruct (is_empty m.(PayloadMode)) eqn:Hm; [apply is_empty_true in Hm | apply is_empty_false in Hm];
    destruct (String.eqb_spec m.(PayloadMode) PayloadModeNone),
      (String.eqb_spec m.(PayloadMode) PayloadModeErrorsOnly),
      (String.eqb_spec m.(PayloadMode) PayloadModeFull), (Z.leb_spec m.(PayloadMaxKB) 0); cbn [negb andb];
    unfold PayloadModeNone, PayloadModeErrorsOnly, PayloadModeFull in *;
    intuition (try congruence; try lia).
Qed.

(** a configuration is accepted exactly when every section is within its documented
    ranges (ports, sizes, positive durations, reachable idle limit, payloads not outliving their
    events, a known payload mode with a size when bodies are captured, a sync interval of at least
    thirty seconds); the installed defaults are accepted. *)
Theorem GatewayConfig_Validate_spec c :
  (GatewayConfig_Validate c = Ok () <->
   (exists s, c.(ServerConfig_) = Some s /\ server_ok s) /\ upstream_ok c.(Upstream_) /\
   (forall m, c.(ModelCatalog_) = Some m -> catalog_ok m) /\
   (forall m, c.(MetricsEngine_) = Some m -> metrics_ok m)) /\
  GatewayConfig_Validate DefaultConfig = Ok ().
Proof.
  split; [|vm_compute; reflexivity].
  unfold GatewayConfig_Validate, mbind, result_bind.
  destruct c.(ServerConfig_) as [s|]; [|naive_solver].
  assert (Hs : (exists s0, Some s = Some s0 /\ server_ok s0) <-> server_ok s) by naive_solver.
  rewrite Hs, <- ServerConfig_Validate_spec, <- UpstreamConfig_Validate_spec. clear Hs.
  destruct (ServerConfig_Validate s) as [[]|]; simpl; [|naive_solver].
  destruct (UpstreamConfig_Validate _) as [[]|]; simpl; [|naive_solver].
  assert (Hm : (forall m, c.(ModelCatalog_) = Some m -> catalog_ok m) <->
    match c.(ModelCatalog_) with Some m => ModelCatalogConfig_Validate m = Ok () | None => True end).
  { destruct c.(ModelCatalog_); [rewrite ModelCatalogConfig_Validate_spec|]; naive_solver. }
  assert (He : (forall m, c.(MetricsEngine_) = Some m -> metrics_ok m) <->
    match c.(MetricsEngine_) with Some m => MetricsEngineConfig_Validate m = Ok () | None => True end).
  { destruct c.(MetricsEngine_); [rewrite MetricsEngineConfig_Validate_spec|]; naive_solver. }
  rewrite Hm, He. clear Hm He.
  destruct c.(ModelCatalog_) as [m|]; [destruct (ModelCatalogConfig_Validate m) as [[]|]|]; simpl;
    try naive_solver;
    (destruct c.(MetricsEngine_) as [m'|]; [destruct (MetricsEngineConfig_Validate m') as [[]|]|]; naive_solver).
Qed.
