(* ===== verification/Duration.v ===== *)
(** * Durations — [time.ParseDuration] and [core/utils.go]

    The grammar of Go's durations (sign, decimal fractions, units, overflow of the 64-bit
    accumulator) and the gateway's budget windows on top of it: days, weeks, months of thirty days
    and years of 365. *)

From S2P Require Import Prelude GoBase Float64 KeyFormat.
From Stdlib Require Import Ascii.
Open Scope string_scope.

(** ** [time.ParseDuration] *)

Inductive DurationError : Type :=
| InvalidDuration (orig : string)
| MissingUnit (orig : string)
| UnknownUnit (u orig : string)
| InvalidFor (what duration : string)
| PanicSliceBounds.

Definition digit_of (c : ascii) : option Z :=
  let n := Z.of_N (Ascii.N_of_ascii c) in
  if (48 <=? n)%Z && (n <=? 57)%Z then Some (n - 48)%Z else None.

Definition two63 : Z := 9223372036854775808.

(** [leadingInt]: the value and the rest, or [None] on overflow. *)
Fixpoint leadingInt (x : Z) (s : string) : option (Z * string) :=
  match s with
  | EmptyString => Some (x, s)
  | String c s' =>
      match digit_of c with
      | None => Some (x, s)
      | Some d =>
          if (two63 / 10 <? x)%Z then None
          else let x := (x * 10 + d)%Z in
               if (two63 <? x)%Z then None else leadingInt x s'
      end
  end.

(** [leadingFraction]: value, scale and rest. *)
Fixpoint leadingFraction (x : Z) (scale : f64) (overflow : bool) (s : string) : Z * f64 * string :=
  match s with
  | EmptyString => (x, scale, s)
  | String c s' =>
      match digit_of c with
      | None => (x, scale, s)
      | Some d =>
          if overflow then leadingFraction x scale overflow s'
          else if (MaxInt64 / 10 <? x)%Z then leadingFraction x scale true s'
          else let y := (x * 10 + d)%Z in
               if (two63 <? y)%Z then leadingFraction x scale true s'
               else leadingFraction y (f64_mul scale (f64_of_Z 10)) false s'
      end
  end.

Definition unitMap (u : string) : option Z :=
  if String.eqb u "ns" then Some 1%Z
  else if String.eqb u "us" then Some 1000%Z
  else if String.eqb u (bytes [194; 181; 115]%N) then Some 1000%Z
  else if String.eqb u (bytes [206; 188; 115]%N) then Some 1000%Z
  else if String.eqb u "ms" then Some Millisecond
  else if String.eqb u "s" then Some Second
  else if String.eqb u "m" then Some Minute
  else if String.eqb u "h" then Some Hour
  else None.

Definition is_dot_or_digit (c : ascii) : bool :=
  Ascii.eqb c "."%char || match digit_of c with Some _ => true | None => false end.

(** The unit: everything up to the next digit or period. *)
Fixpoint take_unit (s : string) : string * string :=
  match s with
  | EmptyString => ("", "")
  | String c s' =>
      if is_dot_or_digit c then ("", s)
      else let '(u, r) := take_unit s' in (String c u, r)
  end.

(** One round of the loop: a number with its unit, in nanoseconds. *)
Definition parse_component (orig s : string) : result DurationError (Z * string) :=
  match s with
  | EmptyString => Err (InvalidDuration orig)
  | String c _ =>
    if negb (is_dot_or_digit c) then Err (InvalidDuration orig)
    else match leadingInt 0 s with
    | None => Err (InvalidDuration orig)
    | Some (v, s1) =>
      let pre := negb (String.length s =? String.length s1)%nat in
      let '(f, scale, s2, post) :=
        match s1 with
        | String "." s' =>
            let '(f, scale, s2) := leadingFraction 0 (f64_of_Z 1) false s' in
            (f, scale, s2, negb (String.length s' =? String.length s2)%nat)
        | _ => (0%Z, f64_of_Z 1, s1, false)
        end in
      if negb pre && negb post then Err (InvalidDuration orig)
      else
        let '(u, s3) := take_unit s2 in
        if is_empty u then Err (MissingUnit orig)
        else match unitMap u with
        | None => Err (UnknownUnit u orig)
        | Some unit =>
          if (two63 / unit <? v)%Z then Err (InvalidDuration orig)
          else
            let v := (v * unit)%Z in
            let v := if (0 <? f)%Z
                     then wrapU64 (v + f64_trunc (f64_mul (f64_of_Z f) (f64_div (f64_of_Z unit) scale)))
                     else v in
            if (0 <? f)%Z && (two63 <? v)%Z then Err (InvalidDuration orig) else Ok (v, s3)
        end
    end
  end.

(** The loop [for s != ""]; every round consumes at least one byte, so the length of the text is
    enough fuel. *)
Fixpoint parse_components (fuel : nat) (orig : string) (d : Z) (s : string)
    : result DurationError Z :=
  match s, fuel with
  | EmptyString, _ => Ok d
  | _, O => Err (InvalidDuration orig)
  | _, S n =>
      match parse_component orig s with
      | Err e => Err e
      | Ok (v, s') =>
          let d := wrapU64 (d + v) in
          if (two63 <? d)%Z then Err (InvalidDuration orig) else parse_components n orig d s'
      end
  end.

Definition time_ParseDuration (orig : string) : result DurationError Z :=
  let '(neg, s) := match orig with
                   | String "-" s => (true, s)
                   | String "+" s => (false, s)
                   | _ => (false, orig)
                   end in
  if String.eqb s "0" then Ok 0%Z
  else if is_empty s then Err (InvalidDuration orig)
  else
    match parse_components (String.length s) orig 0 s with
    | Err e => Err e
    | Ok d =>
        if neg then Ok (wrap64 (- wrap64 d))
        else if (MaxInt64 <? d)%Z then Err (InvalidDuration orig)
        else Ok d
    end.

(** ** [core.ParseDuration] *)

Definition ParseDuration (duration : string) : result DurationError Z :=
  let n := String.length duration in
  if (n =? 0)%nat then Err PanicSliceBounds
  else
    let frequency := ToLower (str_drop (n - 1) duration) in
    let number := str_take (n - 1) duration in
    if String.eqb frequency "d" then
      match time_ParseDuration (number ++ "h") with
      | Ok d => Ok (mul64 d 24)
      | Err _ => Err (InvalidFor "days" duration)
      end
    else if String.eqb frequency "w" then
      match time_ParseDuration (number ++ "h") with
      | Ok w => Ok (mul64 (mul64 w 24) 7)
      | Err _ => Err (InvalidFor "week" duration)
      end
    else if String.eqb frequency "m" then
      match time_ParseDuration (number ++ "h") with
      | Ok m => Ok (mul64 (mul64 m 24) 30)
      | Err _ => Err (InvalidFor "month" duration)
      end
    else if String.eqb frequency "y" then
      match time_ParseDuration (number ++ "h") with
      | Ok y => Ok (mul64 (mul64 y 24) 365)
      | Err _ => Err (InvalidFor "year" duration)
      end
    else time_ParseDuration duration.

Example ParseDuration_30d : ParseDuration "30d" = Ok (30 * 24 * Hour)%Z.
Proof. vm_compute. reflexivity. Qed.
Example ParseDuration_hours : ParseDuration "1h30m5.5s" = Ok 5405500000000%Z.
Proof. vm_compute. reflexivity. Qed.
(** The suffix "m" is a month even where a Go duration would mean minutes. *)
Example ParseDuration_30m : ParseDuration "30m" = Ok (30 * 30 * 24 * Hour)%Z.
Proof. vm_compute. reflexivity. Qed.
(** A window of 200 000 days overflows silently to a negative one. *)
Example ParseDuration_overflow : ParseDuration "200000d" = Ok (-1166744073709551616)%Z.
Proof. vm_compute. reflexivity. Qed.

(** ** Properties *)

(** A text of decimal digits and its value, continuing from [x]. *)
Fixpoint all_digits (s : string) : bool :=
  match s with
  | EmptyString => true
  | String c s' => match digit_of c with Some _ => all_digits s' | None => false end
  end.
Fixpoint decimal_value (x : Z) (s : string) : Z :=
  match s with
  | EmptyString => x
  | String c s' => decimal_value (x * 10 + default 0%Z (digit_of c)) s'
  end.

(** The hours in a day, a (seven-day) week, a (thirty-day) month and a (365-day) year. *)
Definition window_hours (u : ascii) : option Z :=
  let f := ToLower (String u "") in
  if String.eqb f "d" then Some 24%Z
  else if String.eqb f "w" then Some (24 * 7)%Z
  else if String.eqb f "m" then Some (24 * 30)%Z
  else if String.eqb f "y" then Some (24 * 365)%Z
  else None.

Lemma digit_of_range c d : digit_of c = Some d -> (0 <= d <= 9)%Z.
Proof. unfold digit_of. destruct (_ && _) eqn:H; [|done]. intros [= <-]. zbool. lia. Qed.

Lemma decimal_value_ge x s : (0 <= x)%Z -> (x <= decimal_value x s)%Z.
Proof.
  revert x. induction s as [|c s IH]; intros x Hx; simpl; [lia|].
  destruct (digit_of c) as [d|] eqn:Hd; simpl.
  - apply digit_of_range in Hd. specialize (IH (x * 10 + d)%Z). lia.
  - specialize (IH (x * 10 + 0)%Z). lia.
Qed.

(** The accumulator of [leadingInt] overflows exactly when the value exceeds [2^63]. *)
Lemma leadingInt_digits ds x rest :
  (0 <= x <= two63)%Z -> all_digits ds = true ->
  (match rest with String c _ => digit_of c = None | EmptyString => True end) ->
  leadingInt x (ds ++ rest)
  = if (decimal_value x ds <=? two63)%Z then Some (decimal_value x ds, rest) else None.
Proof.
  revert x. induction ds as [|c ds IH]; intros x Hx Hds Hrest; simpl in *.
  { destruct (Z.leb_spec x two63); [|lia].
    destruct rest as [|c rest]; simpl; [done | by rewrite Hrest]. }
  destruct (digit_of c) as [d|] eqn:Hd; [|done]. apply digit_of_range in Hd. simpl.
  pose proof (decimal_value_ge (x * 10 + d) ds ltac:(lia)).
  unfold two63 in *. change (9223372036854775808 / 10)%Z with 922337203685477580%Z.
  destruct (Z.ltb_spec 922337203685477580 x); [destruct (Z.leb_spec (decimal_value (x * 10 + d) ds) 9223372036854775808); [lia|done]|].
  destruct (Z.ltb_spec 9223372036854775808 (x * 10 + d));
    [destruct (Z.leb_spec (decimal_value (x * 10 + d) ds) 9223372036854775808); [lia|done]|].
  apply IH; [lia | done | done].
Qed.

Lemma time_ParseDuration_unsigned c s :
  digit_of c <> None ->
  time_ParseDuration (String c s) =
    if String.eqb (String c s) "0" then Ok 0%Z
    else match parse_components (S (String.length s)) (String c s) 0 (String c s) with
         | Err e => Err e
         | Ok d => if (MaxInt64 <? d)%Z then Err (InvalidDuration (String c s)) else Ok d
         end.
Proof.
  intros H. destruct c as [[] [] [] [] [] [] [] []];
    try (exfalso; by apply H); reflexivity.
Qed.

(** A whole number of hours. *)
Lemma parse_component_hours orig c ds :
  all_digits (String c ds) = true ->
  parse_component orig (String c (ds ++ "h")) =
    if (decimal_value 0 (String c ds) <=? 2562047)%Z
    then Ok (decimal_value 0 (String c ds) * Hour, "")%Z else Err (InvalidDuration orig).
Proof.
  intros Hds. unfold parse_component.
  assert (Hli : leadingInt 0 (String c (ds ++ "h")) = if (decimal_value 0 (String c ds) <=? two63)%Z
                  then Some (decimal_value 0 (String c ds), "h") else None).
  { apply (leadingInt_digits (String c ds) 0 "h"); [unfold two63; lia | done | done]. }
  rewrite Hli. clear Hli.
  unfold is_dot_or_digit. replace (match digit_of c with Some _ => true | None => false end) with true
    by (simpl in Hds; by destruct (digit_of c)).
  rewrite orb_true_r. cbn [negb].
  pose proof (decimal_value_ge 0 (String c ds) ltac:(lia)).
  generalize dependent (decimal_value 0 (String c ds)). intros v Hv.
  destruct (Z.leb_spec v two63).
  2: { destruct (Z.leb_spec v 2562047); [unfold two63 in *; lia | done]. }
  replace (String.length (String c (ds ++ "h")) =? String.length "h")%nat with false.
  2: { symmetry. apply Nat.eqb_neq. cbn. rewrite str_length_app. simpl. lia. }
  change (take_unit "h") with ("h", ""). cbv beta iota. cbn [negb andb is_empty].
  change (unitMap "h") with (Some Hour). cbv beta iota.
  change (two63 / Hour)%Z with 2562047%Z. change (0 <? 0)%Z with false. cbn [andb].
  destruct (Z.leb_spec v 2562047), (Z.ltb_spec 2562047 v); try lia; done.
Qed.

Lemma time_ParseDuration_hours ds :
  all_digits ds = true -> ds <> "" ->
  if (decimal_value 0 ds <=? 2562047)%Z
  then time_ParseDuration (ds ++ "h") = Ok (decimal_value 0 ds * Hour)%Z
  else exists e, time_ParseDuration (ds ++ "h") = Err e.
Proof.
  intros Hds Hne. destruct ds as [|c ds]; [done|].
  assert (Hc : digit_of c <> None) by (intros Hn; simpl in Hds; by rewrite Hn in Hds).
  cbn [String.append]. rewrite time_ParseDuration_unsigned by done.
  destruct (String.eqb_spec (String c (ds ++ "h")) "0") as [He|_].
  { exfalso. injection He as _ He. by destruct ds. }
  cbn [parse_components]. rewrite parse_component_hours by done.
  pose proof (decimal_value_ge 0 (String c ds) ltac:(lia)).
  generalize dependent (decimal_value 0 (String c ds)). intros v Hv.
  destruct (Z.leb_spec v 2562047); [|by eexists].
  assert (Hmod : wrapU64 (0 + v * Hour) = (v * Hour)%Z).
  { unfold wrapU64, two64, Hour, Minute, Second. rewrite Z.mod_small; lia. }
  rewrite Hmod. unfold two63, MaxInt64, Hour, Minute, Second in *.
  destruct (Z.ltb_spec 9223372036854775808 (v * (60 * (60 * 1000000000)))); [lia|].
  destruct (String.length _); cbn [parse_components];
    (destruct (Z.ltb_spec 9223372036854775807 (v * (60 * (60 * 1000000000)))); [lia | done]).
Qed.

Lemma wrap64_mul_l a b : wrap64 (wrap64 a * b) = wrap64 (a * b).
Proof.
  apply wrap64_eq_mod.
  assert (H : (wrap64 a mod two64 = a mod two64)%Z) by apply wrap64_eq_mod, wrap64_idemp.
  by rewrite Z.mul_mod, H, <- Z.mul_mod by done.
Qed.

Lemma str_last s u : 
  str_drop (String.length (s ++ String u "") - 1) (s ++ String u "") = String u "" /\
  str_take (String.length (s ++ String u "") - 1) (s ++ String u "") = s.
Proof.
  replace (String.length (s ++ String u "") - 1)%nat with (String.length s)
    by (rewrite str_length_app; simpl; lia).
  by rewrite str_drop_app, str_take_app.
Qed.

(** a budget window written as a whole number and a unit letter, in either case, is
    that many days, weeks, thirty-day months or 365-day years, computed modulo [2^64]; it is
    refused exactly when the number exceeds 2562047 (the hours an [int64] of nanoseconds holds),
    so windows whose product overflows are accepted with a wrapped length. *)
Theorem ParseDuration_window ds u k :
  all_digits ds = true -> ds <> "" -> window_hours u = Some k ->
  match ParseDuration (ds ++ String u "") with
  | Ok d => (decimal_value 0 ds <= 2562047)%Z /\ d = wrap64 (decimal_value 0 ds * k * Hour)
  | Err _ => (2562047 < decimal_value 0 ds)%Z
  end.
Proof.
  intros Hds Hne Hu. unfold ParseDuration.
  destruct (str_last ds u) as [-> ->].
  destruct (_ =? 0)%nat eqn:Hl.
  { apply Nat.eqb_eq in Hl. rewrite str_length_app in Hl. simpl in Hl. lia. }
  pose proof (time_ParseDuration_hours ds Hds Hne) as Hp. revert Hp.
  assert (Hk : ToLower (String u "") = "d" /\ k = 24%Z \/ ToLower (String u "") = "w" /\ k = 168%Z \/
    ToLower (String u "") = "m" /\ k = 720%Z \/ ToLower (String u "") = "y" /\ k = 8760%Z).
  { revert Hu. unfold window_hours. generalize (ToLower (String u "")). intros f.
    repeat match goal with |- context [String.eqb ?a ?b] => destruct (String.eqb_spec a b) end;
      intros [= <-]; auto. }
  destruct (Z.leb_spec (decimal_value 0 ds) 2562047); [intros ->|intros [e ->]];
    destruct Hk as [[-> ->]|[[-> ->]|[[-> ->]|[-> ->]]]]; cbn -[Hour Z.mul wrap64 decimal_value];
    unfold mul64; rewrite ?wrap64_mul_l; try done;
    (split; [done | f_equal; lia]).
Qed.

Lemma ParseDuration_window_witness :
  window_hours "M"%char = Some 720%Z /\
  match ParseDuration ("03" ++ "M") with
  | Ok d => (3 <= 2562047)%Z /\ d = wrap64 (3 * 720 * Hour)
  | Err _ => (2562047 < 3)%Z
  end.
Proof.
  split; [reflexivity|].
  apply (ParseDuration_window "03" "M"%char 720%Z); [reflexivity | discriminate | reflexivity].
Defined.
