(* ===== verification/Context.v ===== *)
(** * The request context and its hook log — [core/diffractcontext.go], [core/hooks.go]

    The record that follows one request through the gateway, its operations, and the pool that
    recycles it.  A [context.Context] is only compared and passed on, so it is an integer handle;
    the request keeps its method, path and headers; an [http.ResponseWriter] is the response
    written so far together with the room its connection has left (an [io.Writer] that writes
    fewer bytes than given reports an error).  The clock is an argument. *)

From S2P Require Import Prelude GoBase Float64 Errors Catalog Pricing VirtualKey Credential.
Open Scope string_scope.

(** ** Hook log *)

Inductive HookStatus : Type := HookOK | HookRejected | HookFailed.

Definition HookStatus_String (hs : HookStatus) : string :=
  match hs with HookOK => "ok" | HookRejected => "rejected" | HookFailed => "failed" end.

Definition maxHooks : nat := 5.

Record HookResult : Type := mkHookResult {
  HName : string;
  HStatus : HookStatus;
  HDuration : Z;
  HError : string
}.
#[export] Instance HookResult_eta : Eta HookResult := fun r =>
  mkHookResult (HName r) (HStatus r) (HDuration r) (HError r).
Definition HookResult0 : HookResult := mkHookResult "" HookOK 0 "".

(** The arrays [[maxHooks]HookResult] are lists of five elements. *)
Record HookLog : Type := mkHookLog {
  PreCallResults : list HookResult;
  PreProviderResults : list HookResult;
  PostProviderResults : list HookResult;
  PostCallResults : list HookResult;
  PreCallCount : Z;
  PreProviderCount : Z;
  PostProviderCount : Z;
  PostCallCount : Z;
  PreCallTotal : Z;
  PreProviderTotal : Z;
  PostProviderTotal : Z;
  PostCallTotal : Z
}.
#[export] Instance HookLog_eta : Eta HookLog := fun h =>
  mkHookLog (PreCallResults h) (PreProviderResults h) (PostProviderResults h) (PostCallResults h)
    (PreCallCount h) (PreProviderCount h) (PostProviderCount h) (PostCallCount h)
    (PreCallTotal h) (PreProviderTotal h) (PostProviderTotal h) (PostCallTotal h).
Definition HookLog0 : HookLog :=
  let empty := repeat HookResult0 maxHooks in
  mkHookLog empty empty empty empty 0 0 0 0 0 0 0 0.

Definition HookLog_reset (hl : HookLog) : HookLog :=
  hl <| PreCallCount := 0%Z |> <| PreProviderCount := 0%Z |>
     <| PostProviderCount := 0%Z |> <| PostCallCount := 0%Z |>
     <| PreCallTotal := 0%Z |> <| PreProviderTotal := 0%Z |>
     <| PostProviderTotal := 0%Z |> <| PostCallTotal := 0%Z |>.

(** ** Stages *)

Inductive Stage : Type :=
| StageAuth | StageReadBody | StageParse | StageAdmission | StageRouting | StageUpstream
| StageFirstToken.
Definition stage_index (s : Stage) : nat :=
  match s with
  | StageAuth => 0 | StageReadBody => 1 | StageParse => 2 | StageAdmission => 3
  | StageRouting => 4 | StageUpstream => 5 | StageFirstToken => 6
  end%nat.
Definition NumStages : nat := 7.
Definition StageNames : list string :=
  ["auth"; "read_body"; "parse"; "admission"; "routing"; "upstream"; "first_token"].

(** ** Requests and responses *)

Record HTTPRequest : Type := mkHTTPRequest {
  RMethod : string;
  RPath : string;
  RHeader : gmap string string
}.

Record ResponseWriter : Type := mkResponseWriter {
  WHeader : gmap string string;
  WStatus : option Z;
  WBody : string;
  WRoom : option nat;
  WFlusher : bool;
  WFlushed : nat
}.
#[export] Instance ResponseWriter_eta : Eta ResponseWriter := fun w =>
  mkResponseWriter (WHeader w) (WStatus w) (WBody w) (WRoom w) (WFlusher w) (WFlushed w).

(** [w.WriteHeader(code)]: the first status sticks. *)
Definition WriteHeader (w : ResponseWriter) (code : Z) : ResponseWriter :=
  match w.(WStatus) with None => w <| WStatus := Some code |> | Some _ => w end.

(** [w.Write(p)]: bytes accepted, and whether an error is returned. *)
Definition writer_Write (w : ResponseWriter) (p : string) : ResponseWriter * Z * bool :=
  let w := WriteHeader w StatusOK in
  let n := match w.(WRoom) with
           | None => String.length p
           | Some room => Nat.min room (String.length p)
           end in
  (w <| WBody ::= fun b => b ++ String.substring 0 n p |>
     <| WRoom ::= fmap (fun room => room - n)%nat |>,
   Z.of_nat n, bool_decide (n < String.length p)%nat).

(** ** The context *)

Inductive Any : Type :=
| AnyString (s : string)
| AnyInt (z : Z).

(** [time.Time{}] in nanoseconds from the Unix epoch. *)
Definition zero_time : Z := (-62135596800 * Second)%Z.

Record DiffractLLMContext : Type := mkContext {
  ctx : option Z;
  Request : option HTTPRequest;
  RequestID : string;
  BodyBytes : option string;
  SDKProvider : Provider;
  Modelkey : CatalogKey;
  RequestKind_ : RequestKind;
  Writer : option ResponseWriter;
  metadata : gmap string Any;
  aborted : bool;
  HookLog_ : HookLog;
  ClientID : string;
  BudgetRef : string;
  VirtualKeyID : string;
  VirtualKeyPolicy : option VirtualKey;
  AuthFrozen : bool;
  RequestedProvider : Provider;
  RequestedModel : string;
  SelectedCredential : option Credential;
  UpstreamStatus : Z;
  UpstreamAttempts : Z;
  TTFB : Z;
  UpstreamModel : string;
  RequestCompleted : bool;
  ResponseStatus : Z;
  ResponseBytes : Z;
  ResponseBody : option string;
  CError : option DiffractLLMError;
  Usage_ : option Usage;
  Cost : f64;
  Pricing_ : option Pricing;
  StreamChunks : Z;
  StreamFinishReason : string;
  StreamAborted : bool;
  StartedAt : Z;
  Marks : list Z
}.
#[export] Instance Context_eta : Eta DiffractLLMContext := fun r =>
  mkContext (ctx r) (Request r) (RequestID r) (BodyBytes r) (SDKProvider r) (Modelkey r)
    (RequestKind_ r) (Writer r) (metadata r) (aborted r) (HookLog_ r) (ClientID r) (BudgetRef r)
    (VirtualKeyID r) (VirtualKeyPolicy r) (AuthFrozen r) (RequestedProvider r) (RequestedModel r)
    (SelectedCredential r) (UpstreamStatus r) (UpstreamAttempts r) (TTFB r) (UpstreamModel r)
    (RequestCompleted r) (ResponseStatus r) (ResponseBytes r) (ResponseBody r) (CError r)
    (Usage_ r) (Cost r) (Pricing_ r) (StreamChunks r) (StreamFinishReason r) (StreamAborted r)
    (StartedAt r) (Marks r).

(** The context the pool's [New] allocates. *)
Definition NewContext : DiffractLLMContext :=
  mkContext None None "" None "" CatalogKey0 "" None ∅ false HookLog0 "" "" "" None false "" ""
    None 0 0 0 "" false 0 0 None None None f64_zero None 0 "" false zero_time (repeat 0%Z NumStages).

Definition Mark (rc : DiffractLLMContext) (s : Stage) (now : Z) : DiffractLLMContext :=
  rc <| Marks ::= <[ stage_index s := time_sub now rc.(StartedAt) ]> |>.

Definition Context_Set (rc : DiffractLLMContext) (key : string) (value : Any)
    : result string DiffractLLMContext :=
  match rc.(metadata) !! key with
  | Some _ => Err ("key '" ++ key ++ "' already exists in context")
  | None => Ok (rc <| metadata ::= <[ key := value ]> |>)
  end.
Definition Context_Get (rc : DiffractLLMContext) (key : string) : option Any := rc.(metadata) !! key.
Definition Overwrite (rc : DiffractLLMContext) (key : string) (value : Any) : DiffractLLMContext :=
  rc <| metadata ::= <[ key := value ]> |>.

(** [rc.Write(p)].  Every operation on the response needs the writer the request came with; the
    nil writer of a released context panics ([None]). *)
Definition Context_Write (rc : DiffractLLMContext) (p : string)
    : option (DiffractLLMContext * Z * bool) :=
  w ← rc.(Writer);
  let '(w, n, err) := writer_Write w p in
  Some (rc <| Writer := Some w |> <| ResponseBytes ::= fun b => add64 b n |>, n, err).

Definition SetHeader (rc : DiffractLLMContext) (key value : string) : option DiffractLLMContext :=
  w ← rc.(Writer); Some (rc <| Writer := Some (w <| WHeader ::= <[ key := value ]> |>) |>).

Definition Flush (rc : DiffractLLMContext) : DiffractLLMContext :=
  match rc.(Writer) with
  | Some w => if w.(WFlusher) then rc <| Writer := Some (w <| WFlushed ::= S |>) |> else rc
  | None => rc
  end.

(** [rc.JSON(code, obj)]; [data] is [sonic.Marshal(obj)], [None] when it failed. *)
Definition Context_JSON (rc : DiffractLLMContext) (code : Z) (data : option string)
    : option DiffractLLMContext :=
  match data with
  | None => Some rc
  | Some data =>
      let rc := rc <| ResponseBody := Some data |> in
      rc ← SetHeader rc "Content-Type" "application/json; charset=utf-8";
      w ← rc.(Writer);
      let rc := rc <| Writer := Some (WriteHeader w code) |> in
      '(rc, _, _) ← Context_Write rc data;
      Some (rc <| aborted := true |>)
  end.

Definition nl : string := chr 10.

(** The bytes of one server-sent event. *)
Definition sse_frame (event body : string) : string :=
  (if is_empty event then "" else "event: " ++ event ++ nl) ++ "data: " ++ body ++ nl ++ nl.

(** [rc.WriteSSE(event, body)] and whether it returns an error. *)
Definition WriteSSE (rc : DiffractLLMContext) (event body : string)
    : option (DiffractLLMContext * bool) :=
  '(rc, _, err) ← Context_Write rc (sse_frame event body);
  if err : bool then Some (rc, true) else Some (Flush rc, false).

Definition WriteData (rc : DiffractLLMContext) (code : Z) (contentType data : string)
    : option DiffractLLMContext :=
  rc ← SetHeader rc "Content-Type" contentType;
  w ← rc.(Writer);
  let rc := rc <| Writer := Some (WriteHeader w code) |> in
  '(rc, _, _) ← Context_Write rc data;
  Some rc.

Definition Abort (rc : DiffractLLMContext) : DiffractLLMContext := rc <| aborted := true |>.

Definition Context_reset (rc : DiffractLLMContext) : DiffractLLMContext :=
  let rc := rc
    <| ctx := None |> <| Request := None |> <| RequestID := "" |> <| BodyBytes := None |>
    <| SDKProvider := "" |> <| Modelkey := CatalogKey0 |> <| RequestKind_ := "" |>
    <| Writer := None |> <| aborted := false |>
    <| ClientID := "" |> <| BudgetRef := "" |> <| VirtualKeyID := "" |>
    <| VirtualKeyPolicy := None |> <| RequestedProvider := "" |> <| RequestedModel := "" |>
    <| SelectedCredential := None |>
    <| AuthFrozen := false |> <| UpstreamStatus := 0%Z |> <| UpstreamAttempts := 0%Z |>
    <| TTFB := 0%Z |> <| UpstreamModel := "" |>
    <| RequestCompleted := false |> <| ResponseStatus := 0%Z |> <| ResponseBytes := 0%Z |>
    <| ResponseBody := None |> <| CError := None |> <| Usage_ := None |> <| Cost := f64_zero |>
    <| Pricing_ := None |> <| StreamChunks := 0%Z |> <| StreamFinishReason := "" |>
    <| StreamAborted := false |> <| StartedAt := zero_time |> <| Marks := repeat 0%Z NumStages |> in
  let rc := rc <| HookLog_ ::= HookLog_reset |> in
  rc <| metadata := ∅ |>.

(** ** The pool

    [sync.Pool] hands out one of the contexts put back, or a new one: [which] is the choice it
    makes. *)

Abbreviation ContextPool := (list DiffractLLMContext) (only parsing).

Definition Pool_Acquire (pool : ContextPool) (which : option nat) (c : Z) (req : HTTPRequest)
    (w : ResponseWriter) : ContextPool * DiffractLLMContext :=
  let '(pool, rc) :=
    match which ≫= (fun i => (fun rc => (i, rc)) <$> pool !! i) with
    | Some (i, rc) => (delete i pool, rc)
    | None => (pool, NewContext)
    end in
  (pool, rc <| ctx := Some c |> <| Request := Some req |> <| Writer := Some w |>).

Definition Pool_Release (pool : ContextPool) (rc : DiffractLLMContext) : ContextPool :=
  Context_reset rc :: pool.

Inductive pool_step : ContextPool -> ContextPool -> Prop :=
| step_acquire pool which c req w :
    pool_step pool (Pool_Acquire pool which c req w).1
| step_release pool rc : pool_step pool (Pool_Release pool rc).

(** ** Properties *)

(** The results of a stage a reader of the log may look at: those below its counter. *)
Definition visible (results : list HookResult) (count : Z) : list HookResult :=
  take (Z.to_nat count) results.

(** Two contexts differ at most in hook results beyond the counters. *)
Definition same_context (a b : DiffractLLMContext) : Prop :=
  a <| HookLog_ := HookLog0 |> = b <| HookLog_ := HookLog0 |> /\
  let la := a.(HookLog_) in let lb := b.(HookLog_) in
  visible (PreCallResults la) (PreCallCount la) = visible (PreCallResults lb) (PreCallCount lb) /\
  visible (PreProviderResults la) (PreProviderCount la)
    = visible (PreProviderResults lb) (PreProviderCount lb) /\
  visible (PostProviderResults la) (PostProviderCount la)
    = visible (PostProviderResults lb) (PostProviderCount lb) /\
  visible (PostCallResults la) (PostCallCount la)
    = visible (PostCallResults lb) (PostCallCount lb) /\
  (PreCallCount la, PreProviderCount la, PostProviderCount la, PostCallCount la,
   PreCallTotal la, PreProviderTotal la, PostProviderTotal la, PostCallTotal la)
  = (PreCallCount lb, PreProviderCount lb, PostProviderCount lb, PostCallCount lb,
     PreCallTotal lb, PreProviderTotal lb, PostProviderTotal lb, PostCallTotal lb).

#[export] Instance same_context_equiv : Equivalence same_context.
Proof.
  split; unfold same_context.
  - intros a. splits; done.
  - intros a b (?&?&?&?&?&?). splits; congruence.
  - intros a b c (?&?&?&?&?&?) (?&?&?&?&?&?). splits; congruence.
Qed.

Lemma Context_reset_fresh rc : same_context (Context_reset rc) NewContext.
Proof. unfold same_context. splits; reflexivity. Qed.

Lemma same_context_acquire a b c req w :
  same_context a b ->
  same_context (a <| ctx := Some c |> <| Request := Some req |> <| Writer := Some w |>)
               (b <| ctx := Some c |> <| Request := Some req |> <| Writer := Some w |>).
Proof.
  intros [H Hl]. split; [|exact Hl].
  apply (f_equal (fun r => r <| ctx := Some c |> <| Request := Some req |> <| Writer := Some w |>)) in H.
  exact H.
Qed.

(** no request ever sees what an earlier one left in a recycled context.  However acquires
    and releases interleave, the context [Acquire] returns is indistinguishable from a newly
    allocated one that was given the same request: no identity, policy, credential, usage, error
    or response survives.  (The hook-result slots beyond the reset counters do, and are invisible
    to a reader that goes by the counters.) *)
Theorem Pool_Acquire_fresh pool which c req w :
  star pool_step [] pool ->
  same_context (Pool_Acquire pool which c req w).2
    (NewContext <| ctx := Some c |> <| Request := Some req |> <| Writer := Some w |>).
Proof.
  intros Hr.
  assert (Hpool : Forall (fun rc => same_context rc NewContext) pool).
  { apply (star_inv pool_step (Forall (fun rc => same_context rc NewContext)) [] pool);
      [|constructor|exact Hr].
    intros a b Ha Hs. revert Ha.
    destruct Hs as [p wh c' req' w'|p rc]; intros Ha; unfold Pool_Acquire, Pool_Release.
    - destruct (wh ≫= _) as [[i rc]|]; cbn [fst]; [by apply Forall_delete | exact Ha].
    - apply Forall_cons_2; [apply Context_reset_fresh | exact Ha]. }
  unfold Pool_Acquire. destruct (which ≫= _) as [[i rc]|] eqn:Hw; apply same_context_acquire.
  - destruct which as [j|]; [|done]. simpl in Hw.
    destruct (pool !! j) as [rc'|] eqn:Hj; [|done]. simpl in Hw. simplify_eq.
    exact (Forall_lookup_1 _ _ _ _ Hpool Hj).
  - reflexivity.
Qed.

Lemma Pool_Acquire_fresh_witness :
  same_context (Pool_Acquire (Pool_Release [] (NewContext <| ClientID := "mallory" |>)) (Some 0%nat)
                  7 (mkHTTPRequest "GET" "/" ∅) (mkResponseWriter ∅ None "" None true 0)).2
    (NewContext <| ctx := Some 7%Z |> <| Request := Some (mkHTTPRequest "GET" "/" ∅) |>
                <| Writer := Some (mkResponseWriter ∅ None "" None true 0) |>).
Proof.
  apply Pool_Acquire_fresh. eapply star_step; [apply step_release | apply star_refl].
Defined.

(** Byte accounting: a response written through the context counts exactly the bytes accepted. *)
Lemma writer_Write_length w p w' n err :
  writer_Write w p = (w', n, err) ->
  (0 <= n <= Z.of_nat (String.length p))%Z /\
  (err = false <-> n = Z.of_nat (String.length p)).
Proof.
  unfold writer_Write. intros [= _ <- <-].
  destruct (WRoom _) as [room|]; rewrite bool_decide_eq_false; lia.
Qed.

Lemma WriteSSE_bytes rc event body rc' :
  (0 <= rc.(ResponseBytes))%Z ->
  (rc.(ResponseBytes) + Z.of_nat (String.length (sse_frame event body)) <= MaxInt64)%Z ->
  WriteSSE rc event body = Some (rc', false) ->
  rc'.(ResponseBytes) = (rc.(ResponseBytes) + Z.of_nat (String.length (sse_frame event body)))%Z.
Proof.
  intros H0 Hb. unfold WriteSSE, Context_Write.
  destruct (Writer rc) as [w|]; cbn [mbind option_bind]; [|done].
  destruct (writer_Write w _) as [[w' n] err] eqn:Hw. cbn [mbind option_bind].
  apply writer_Write_length in Hw as [Hn Herr].
  destruct err; [done|]. intros [= <-].
  rewrite <- (proj1 Herr eq_refl). unfold Flush; simpl.
  destruct (WFlusher w'); simpl; unfold add64; apply wrap64_small; unfold in_int64, MinInt64; lia.
Qed.
