(* ===== verification/Hooks.v ===== *)
(** * The hook engine — [core/hooks.go]

    Four stages of at most five hooks each, run around a request.  A hook reads and writes the
    request context and a world [W] of its own (the state of the component that registered it);
    [elapsed i] is the time the clock measured for the [i]-th hook.  A slice or array access out
    of range panics: [None]. *)

From S2P Require Import Prelude GoBase Errors Context.
Open Scope string_scope.

Inductive HookStage : Type := PreCall | PreProvider | PostProvider | PostCall.

(** ** The slots of the log a stage writes *)

Definition stage_results (s : HookStage) (l : HookLog) : list HookResult :=
  match s with
  | PreCall => l.(PreCallResults) | PreProvider => l.(PreProviderResults)
  | PostProvider => l.(PostProviderResults) | PostCall => l.(PostCallResults)
  end.
Definition stage_count (s : HookStage) (l : HookLog) : Z :=
  match s with
  | PreCall => l.(PreCallCount) | PreProvider => l.(PreProviderCount)
  | PostProvider => l.(PostProviderCount) | PostCall => l.(PostCallCount)
  end.
Definition stage_total (s : HookStage) (l : HookLog) : Z :=
  match s with
  | PreCall => l.(PreCallTotal) | PreProvider => l.(PreProviderTotal)
  | PostProvider => l.(PostProviderTotal) | PostCall => l.(PostCallTotal)
  end.

Definition set_stage (s : HookStage) (rs : list HookResult) (n t : Z) (l : HookLog) : HookLog :=
  match s with
  | PreCall => l <| PreCallResults := rs |> <| PreCallCount := n |> <| PreCallTotal := t |>
  | PreProvider =>
      l <| PreProviderResults := rs |> <| PreProviderCount := n |> <| PreProviderTotal := t |>
  | PostProvider =>
      l <| PostProviderResults := rs |> <| PostProviderCount := n |> <| PostProviderTotal := t |>
  | PostCall => l <| PostCallResults := rs |> <| PostCallCount := n |> <| PostCallTotal := t |>
  end.

(** What a stage records of one hook: the result slot at the counter gets the name, the duration
    and the status; the message only when there is an error. *)
Definition log_hook (s : HookStage) (l : HookLog) (name : string) (elapsed : Z)
    (failure : option (HookStatus * string)) : option HookLog :=
  slot ← stage_results s l !! Z.to_nat (stage_count s l);
  let slot := slot <| HName := name |> <| HDuration := elapsed |> in
  let slot := match failure with
              | Some (st, msg) => slot <| HStatus := st |> <| HError := msg |>
              | None => slot <| HStatus := HookOK |>
              end in
  Some (set_stage s (<[ Z.to_nat (stage_count s l) := slot ]> (stage_results s l))
          (add64 (stage_count s l) 1) (add64 (stage_total s l) elapsed) l).

Section engine.
Context {W : Type}.

Record Hook : Type := mkHook {
  Hook_Name : string;
  Execute : W -> DiffractLLMContext -> W * DiffractLLMContext * option DiffractLLMError
}.

(** The arrays of [maxHooks] hook slots hold the registered hooks and then nil. *)
Record HookEngine : Type := mkHookEngine {
  preCallHooks : list (option Hook);
  preProviderHooks : list (option Hook);
  postProviderHooks : list (option Hook);
  postCallHooks : list (option Hook);
  preCallCount : nat;
  preProviderCount : nat;
  postProviderCount : nat;
  postCallCount : nat
}.
#[export] Instance HookEngine_eta : Eta HookEngine := fun e =>
  mkHookEngine (preCallHooks e) (preProviderHooks e) (postProviderHooks e) (postCallHooks e)
    (preCallCount e) (preProviderCount e) (postProviderCount e) (postCallCount e).

Definition NewHookEngine : HookEngine :=
  let empty := repeat None maxHooks in mkHookEngine empty empty empty empty 0 0 0 0.

Definition Registered (he : HookEngine) : nat :=
  he.(preCallCount) + he.(preProviderCount) + he.(postProviderCount) + he.(postCallCount).

Definition AddPreCallHook (he : HookEngine) (hook : Hook) : result DiffractLLMError HookEngine :=
  if (maxHooks <=? he.(preCallCount))%nat
  then Err (NewInternalError "hooks" "pre-call hook limit reached" None)
  else Ok (he <| preCallHooks ::= <[ he.(preCallCount) := Some hook ]> |>
              <| preCallCount ::= S |>).

Definition AddPreProviderHook (he : HookEngine) (hook : Hook) : result DiffractLLMError HookEngine :=
  if (maxHooks <=? he.(preProviderCount))%nat
  then Err (NewInternalError "hooks" "pre-provider hook limit reached" None)
  else Ok (he <| preProviderHooks ::= <[ he.(preProviderCount) := Some hook ]> |>
              <| preProviderCount ::= S |>).

Definition AddPostProviderHook (he : HookEngine) (hook : Hook) : result DiffractLLMError HookEngine :=
  if (maxHooks <=? he.(postProviderCount))%nat
  then Err (NewInternalError "hooks" "post-provider hook limit reached" None)
  else Ok (he <| postProviderHooks ::= <[ he.(postProviderCount) := Some hook ]> |>
              <| postProviderCount ::= S |>).

Definition AddPostCallHook (he : HookEngine) (hook : Hook) : result DiffractLLMError HookEngine :=
  if (maxHooks <=? he.(postCallCount))%nat
  then Err (NewInternalError "hooks" "post-call hook limit reached" None)
  else Ok (he <| postCallHooks ::= <[ he.(postCallCount) := Some hook ]> |>
              <| postCallCount ::= S |>).

(** The state threaded through a stage: the world and the context. *)
Abbreviation St := (W * DiffractLLMContext)%type (only parsing).

Variable elapsed : nat -> Z.

(** The loop of the two "pre" stages, from hook [i] on: the first error stops it. *)
Fixpoint run_pre (s : HookStage) (i : nat) (hooks : list (option Hook)) (st : St)
    : option (St * option DiffractLLMError) :=
  match hooks with
  | [] => Some (st, None)
  | None :: _ => None
  | Some hook :: rest =>
      let '(w, rctx, hookErr) := hook.(Execute) st.1 st.2 in
      let failure := (fun e => (HookRejected, e.(Message))) <$> hookErr in
      log ← log_hook s rctx.(HookLog_) hook.(Hook_Name) (elapsed i) failure;
      let st := (w, rctx <| HookLog_ := log |>) in
      match hookErr with
      | Some e => Some (st, Some e)
      | None => run_pre s (S i) rest st
      end
  end.

(** The loop of the two "post" stages: every hook runs, errors are only logged. *)
Fixpoint run_post (s : HookStage) (i : nat) (hooks : list (option Hook)) (st : St) : option St :=
  match hooks with
  | [] => Some st
  | None :: _ => None
  | Some hook :: rest =>
      let '(w, rctx, hookErr) := hook.(Execute) st.1 st.2 in
      let failure := (fun e => (HookFailed, e.(Message))) <$> hookErr in
      log ← log_hook s rctx.(HookLog_) hook.(Hook_Name) (elapsed i) failure;
      run_post s (S i) rest (w, rctx <| HookLog_ := log |>)
  end.

Definition RunPreCallHooks (he : HookEngine) (st : St) :=
  run_pre PreCall 0 (take he.(preCallCount) he.(preCallHooks)) st.
Definition RunPreProviderHooks (he : HookEngine) (st : St) :=
  run_pre PreProvider 0 (take he.(preProviderCount) he.(preProviderHooks)) st.
Definition RunPostProviderHooks (he : HookEngine) (st : St) :=
  run_post PostProvider 0 (take he.(postProviderCount) he.(postProviderHooks)) st.
Definition RunPostCallHooks (he : HookEngine) (st : St) :=
  run_post PostCall 0 (take he.(postCallCount) he.(postCallHooks)) st.

(** ** Specification *)

(** What the hooks themselves do, without the log: a "pre" stage stops at the first error, a
    "post" stage does not; the trace lists the hooks that ran with their outcome. *)
Abbreviation Trace := (list (string * HookStatus)) (only parsing).

Fixpoint exec_pre (hooks : list Hook) (st : St) : St * option DiffractLLMError * Trace :=
  match hooks with
  | [] => (st, None, [])
  | hook :: rest =>
      let '(w, rctx, err) := hook.(Execute) st.1 st.2 in
      match err with
      | Some e => ((w, rctx), Some e, [(hook.(Hook_Name), HookRejected)])
      | None =>
          let '(st, e, t) := exec_pre rest (w, rctx) in (st, e, (hook.(Hook_Name), HookOK) :: t)
      end
  end.

Fixpoint exec_post (hooks : list Hook) (st : St) : St * Trace :=
  match hooks with
  | [] => (st, [])
  | hook :: rest =>
      let '(w, rctx, err) := hook.(Execute) st.1 st.2 in
      let status := match err with Some _ => HookFailed | None => HookOK end in
      let '(st, t) := exec_post rest (w, rctx) in (st, (hook.(Hook_Name), status) :: t)
  end.

(** A slot array holds exactly the hooks [l], in order. *)
Definition holds (slots : list (option Hook)) (count : nat) (l : list Hook) : Prop :=
  count = List.length l /\ (count <= maxHooks)%nat /\
  slots = (map Some l ++ repeat None (maxHooks - count))%list.

(** An engine in which the four stages hold the given hooks. *)
Definition engine_ok (he : HookEngine) (a b c d : list Hook) : Prop :=
  holds he.(preCallHooks) he.(preCallCount) a /\
  holds he.(preProviderHooks) he.(preProviderCount) b /\
  holds he.(postProviderHooks) he.(postProviderCount) c /\
  holds he.(postCallHooks) he.(postCallCount) d.

Lemma NewHookEngine_ok : engine_ok NewHookEngine [] [] [] [].
Proof. unfold engine_ok, holds. splits; try done; unfold maxHooks; cbn; lia. Qed.

Lemma holds_take slots count l : holds slots count l -> take count slots = map Some l.
Proof. intros (-> & _ & ->). apply take_app_length'. by rewrite length_map. Qed.

Lemma holds_add slots count l hook :
  holds slots count l -> (count < maxHooks)%nat ->
  holds (<[ count := Some hook ]> slots) (S count) (l ++ [hook])%list.
Proof.
  intros (-> & Hle & ->) Hlt. unfold holds. rewrite length_app. simpl.
  split; [lia|]. split; [lia|].
  replace (maxHooks - List.length l)%nat with (S (maxHooks - S (List.length l))) by lia.
  replace (List.length l) with (List.length (map Some l) + 0)%nat at 1 by (rewrite length_map; lia).
  rewrite insert_app_r. simpl. rewrite map_app, <- app_assoc. done.
Qed.

(** registration fills a stage up to its five slots and then refuses with an
    internal error, leaving the engine as it was; the other stages are untouched. *)
Theorem AddHook_spec he a b c d hook :
  engine_ok he a b c d ->
  match AddPreCallHook he hook with
  | Ok he' => (List.length a < maxHooks)%nat /\ engine_ok he' (a ++ [hook]) b c d
  | Err e => List.length a = maxHooks /\ e.(Code) = CodeInternalError
  end /\
  match AddPreProviderHook he hook with
  | Ok he' => (List.length b < maxHooks)%nat /\ engine_ok he' a (b ++ [hook]) c d
  | Err e => List.length b = maxHooks /\ e.(Code) = CodeInternalError
  end /\
  match AddPostProviderHook he hook with
  | Ok he' => (List.length c < maxHooks)%nat /\ engine_ok he' a b (c ++ [hook]) d
  | Err e => List.length c = maxHooks /\ e.(Code) = CodeInternalError
  end /\
  match AddPostCallHook he hook with
  | Ok he' => (List.length d < maxHooks)%nat /\ engine_ok he' a b c (d ++ [hook])
  | Err e => List.length d = maxHooks /\ e.(Code) = CodeInternalError
  end.
Proof.
  intros (Ha & Hb & Hc & Hd).
  unfold AddPreCallHook, AddPreProviderHook, AddPostProviderHook, AddPostCallHook.
  splits.
  all: destruct (Nat.leb_spec maxHooks (preCallCount he)), (Nat.leb_spec maxHooks (preProviderCount he)),
    (Nat.leb_spec maxHooks (postProviderCount he)), (Nat.leb_spec maxHooks (postCallCount he)).
  all: try (split; [|reflexivity]; unfold holds in *; lia).
  all: split; [unfold holds in *; lia|]; unfold engine_ok; cbn; splits; eauto using holds_add.
Qed.
(** ** Running a stage *)

Definition strip (c : DiffractLLMContext) : DiffractLLMContext := c <| HookLog_ := HookLog0 |>.

(** A hook that neither reads nor writes the log, as none of the registered ones does. *)
Definition log_blind (hook : Hook) : Prop := forall w c1 c2, strip c1 = strip c2 ->
  let '(w1, c1', e1) := hook.(Execute) w c1 in
  let '(w2, c2', e2) := hook.(Execute) w c2 in
  w1 = w2 /\ e1 = e2 /\ strip c1' = strip c2' /\ c1'.(HookLog_) = c1.(HookLog_).

Definition outcome (r : HookResult) : string * HookStatus := (r.(HName), r.(HStatus)).

(** The first [k] slots of a stage hold the trace [t], and there are five slots. *)
Definition logged (s : HookStage) (l : HookLog) (t : Trace) : Prop :=
  stage_count s l = Z.of_nat (List.length t) /\ List.length (stage_results s l) = maxHooks /\
  map outcome (take (List.length t) (stage_results s l)) = t.

Lemma log_hook_logged s l t name el failure :
  logged s l t -> (List.length t < maxHooks)%nat ->
  exists l', log_hook s l name el failure = Some l' /\
    logged s l' (t ++ [(name, match failure with Some (st, _) => st | None => HookOK end)]).
Proof.
  intros (Hc & Hl & Ht) Hlt. unfold log_hook. rewrite Hc, Nat2Z.id.
  destruct (stage_results s l !! List.length t) as [slot|] eqn:Hs.
  2: { apply lookup_ge_None in Hs. lia. }
  simpl. eexists. split; [reflexivity|].
  set (slot' := match failure with Some _ => _ | None => _ end).
  set (rs' := <[ List.length t := slot' ]> (stage_results s l)).
  assert (Hrs : forall n tt, stage_results s (set_stage s rs' n tt l) = rs' /\
                       stage_count s (set_stage s rs' n tt l) = n) by (by destruct s).
  unfold logged. destruct (Hrs (add64 (Z.of_nat (List.length t)) 1) (add64 (stage_total s l) el)) as [-> ->].
  rewrite length_app. simpl. splits.
  - unfold add64. rewrite wrap64_small; [lia|].
    unfold in_int64, MinInt64, MaxInt64, maxHooks in *. lia.
  - unfold rs'. by rewrite length_insert.
  - rewrite Nat.add_1_r, (take_S_r _ _ slot').
    + unfold rs'. rewrite take_insert_ge by lia. rewrite map_app, Ht.
      f_equal. simpl. f_equal. unfold slot', outcome. by destruct failure as [[]|].
    + unfold rs'. apply list_lookup_insert_eq. lia.
Qed.

Lemma run_pre_spec s i hooks w c1 c2 t :
  Forall log_blind hooks -> logged s c1.(HookLog_) t -> strip c1 = strip c2 ->
  (List.length t + List.length hooks <= maxHooks)%nat ->
  let '(w', c2', err, t') := exec_pre hooks (w, c2) in
  exists c1', run_pre s i (map Some hooks) (w, c1) = Some (w', c1', err) /\
    strip c1' = strip c2' /\ logged s c1'.(HookLog_) (t ++ t').
Proof.
  revert i w c1 c2 t. induction hooks as [|hook hooks IH]; intros i w c1 c2 t Hb Hl Hs Hn; simpl.
  { exists c1. by rewrite app_nil_r. }
  apply Forall_cons in Hb as [Hh Hb]. simpl in Hn.
  pose proof (Hh w c1 c2 Hs) as Hx.
  destruct (Execute hook w c1) as [[w1 c1'] e1] eqn:E1, (Execute hook w c2) as [[w2 c2'] e2] eqn:E2.
  destruct Hx as (<- & <- & Hs' & Hlog). rewrite Hlog.
  destruct (log_hook_logged s c1.(HookLog_) t hook.(Hook_Name) (elapsed i)
              ((fun e => (HookRejected, e.(Message))) <$> e1) Hl ltac:(lia)) as (l' & Hlk & Hl').
  destruct e1 as [e|]; cbn [fmap option_fmap option_map] in *; rewrite Hlk; cbn [mbind option_bind].
  - eexists. split; [reflexivity|]. split; [exact Hs' | exact Hl'].
  - specialize (IH (S i) w1 (c1' <| HookLog_ := l' |>) c2' (t ++ [(hook.(Hook_Name), HookOK)])%list
      Hb Hl' Hs' ltac:(rewrite length_app; simpl; lia)).
    destruct (exec_pre hooks (w1, c2')) as [[[w' c2''] err] t'].
    by rewrite <- app_assoc in IH.
Qed.

Lemma run_post_spec s i hooks w c1 c2 t :
  Forall log_blind hooks -> logged s c1.(HookLog_) t -> strip c1 = strip c2 ->
  (List.length t + List.length hooks <= maxHooks)%nat ->
  let '(w', c2', t') := exec_post hooks (w, c2) in
  exists c1', run_post s i (map Some hooks) (w, c1) = Some (w', c1') /\
    strip c1' = strip c2' /\ logged s c1'.(HookLog_) (t ++ t').
Proof.
  revert i w c1 c2 t. induction hooks as [|hook hooks IH]; intros i w c1 c2 t Hb Hl Hs Hn; simpl.
  { exists c1. by rewrite app_nil_r. }
  apply Forall_cons in Hb as [Hh Hb]. simpl in Hn.
  pose proof (Hh w c1 c2 Hs) as Hx.
  destruct (Execute hook w c1) as [[w1 c1'] e1] eqn:E1, (Execute hook w c2) as [[w2 c2'] e2] eqn:E2.
  destruct Hx as (<- & <- & Hs' & Hlog). rewrite Hlog.
  destruct (log_hook_logged s c1.(HookLog_) t hook.(Hook_Name) (elapsed i)
              ((fun e => (HookFailed, e.(Message))) <$> e1) Hl ltac:(lia)) as (l' & Hlk & Hl').
  rewrite Hlk; cbn [mbind option_bind].
  replace (match _ <$> e1 with Some (st, _) => st | None => HookOK end)
    with (match e1 with Some _ => HookFailed | None => HookOK end) in Hl' by (by destruct e1).
  specialize (IH (S i) w1 (c1' <| HookLog_ := l' |>) c2' _ Hb Hl' Hs'
                ltac:(rewrite length_app; simpl; lia)).
  destruct (exec_post hooks (w1, c2')) as [[w' c2''] t']. by rewrite <- app_assoc in IH.
Qed.

(** C39: the four runs on a context whose log is empty.  No array access panics; the
    effects are those of the hooks composed in registration order, the "pre" stages stopping at
    (and returning) the first error, the "post" stages running every hook and returning nothing;
    and the log of the stage holds exactly the hooks that ran, with their outcome. *)
Theorem RunHooks_spec he a b c d w rctx :
  engine_ok he a b c d -> Forall log_blind (a ++ b ++ c ++ d) ->
  (forall s, logged s rctx.(HookLog_) []) ->
  (let '(w', r, err, t) := exec_pre a (w, rctx) in
   exists r', RunPreCallHooks he (w, rctx) = Some (w', r', err) /\
     strip r' = strip r /\ logged PreCall r'.(HookLog_) t) /\
  (let '(w', r, err, t) := exec_pre b (w, rctx) in
   exists r', RunPreProviderHooks he (w, rctx) = Some (w', r', err) /\
     strip r' = strip r /\ logged PreProvider r'.(HookLog_) t) /\
  (let '(w', r, t) := exec_post c (w, rctx) in
   exists r', RunPostProviderHooks he (w, rctx) = Some (w', r') /\
     strip r' = strip r /\ logged PostProvider r'.(HookLog_) t) /\
  (let '(w', r, t) := exec_post d (w, rctx) in
   exists r', RunPostCallHooks he (w, rctx) = Some (w', r') /\
     strip r' = strip r /\ logged PostCall r'.(HookLog_) t).
Proof.
  intros (Ha & Hb & Hc & Hd) Hblind Hlog.
  rewrite !Forall_app in Hblind. destruct Hblind as (Ba & Bb & Bc & Bd).
  unfold RunPreCallHooks, RunPreProviderHooks, RunPostProviderHooks, RunPostCallHooks.
  rewrite (holds_take _ _ _ Ha), (holds_take _ _ _ Hb), (holds_take _ _ _ Hc), (holds_take _ _ _ Hd).
  unfold holds in *. splits.
  - apply (run_pre_spec PreCall 0 a w rctx rctx [] Ba (Hlog _) eq_refl). simpl; lia.
  - apply (run_pre_spec PreProvider 0 b w rctx rctx [] Bb (Hlog _) eq_refl). simpl; lia.
  - apply (run_post_spec PostProvider 0 c w rctx rctx [] Bc (Hlog _) eq_refl). simpl; lia.
  - apply (run_post_spec PostCall 0 d w rctx rctx [] Bd (Hlog _) eq_refl). simpl; lia.
Qed.
(** ** What a run leaves of the rest of the log *)

(** The other stages are as before and no slot is lost. *)
Definition log_frame (s : HookStage) (l l' : HookLog) : Prop :=
  (forall s', s' <> s -> stage_results s' l' = stage_results s' l /\ stage_count s' l' = stage_count s' l) /\
  List.length (stage_results s l') = List.length (stage_results s l).

Lemma log_frame_refl s l : log_frame s l l.
Proof. done. Qed.

Lemma log_frame_trans s l1 l2 l3 : log_frame s l1 l2 -> log_frame s l2 l3 -> log_frame s l1 l3.
Proof.
  intros [H1 L1] [H2 L2]. split; [|congruence]. intros s' Hs.
  destruct (H1 s' Hs), (H2 s' Hs). split; congruence.
Qed.

Lemma log_frame_logged s s' l l' t : log_frame s l l' -> s' <> s -> logged s' l t -> logged s' l' t.
Proof. intros [Hf _] Hs. unfold logged. by destruct (Hf s' Hs) as [-> ->]. Qed.

Lemma log_frame_length s s' l l' : log_frame s l l' ->
  List.length (stage_results s' l') = List.length (stage_results s' l).
Proof.
  intros [Hf Hl]. assert (Hd : s' = s \/ s' <> s) by (destruct s, s'; auto; by right).
  destruct Hd as [->|Hd]; [done | by rewrite (proj1 (Hf s' Hd))].
Qed.

Lemma log_hook_frame s l name el f l' : log_hook s l name el f = Some l' -> log_frame s l l'.
Proof.
  unfold log_hook. destruct (stage_results s l !! _) as [slot|]; [|done]. cbn [mbind option_bind].
  intros [= <-]. split.
  - intros s' Hs. by destruct s, s'.
  - destruct s; apply length_insert.
Qed.

Definition keeps_log (hook : Hook) : Prop :=
  forall w c, (hook.(Execute) w c).1.2.(HookLog_) = c.(HookLog_).

Lemma log_blind_keeps hook : log_blind hook -> keeps_log hook.
Proof. intros Hb w c. specialize (Hb w c c eq_refl). destruct (Execute hook w c) as [[w' c'] e]. apply Hb. Qed.

Lemma run_pre_frame s i hooks st st' e : Forall keeps_log hooks ->
  run_pre s i (map Some hooks) st = Some (st', e) -> log_frame s st.2.(HookLog_) st'.2.(HookLog_).
Proof.
  intros Hk. revert i st. induction Hk as [|hook hooks Hh _ IH]; intros i st; cbn [run_pre map].
  { intros [= <- <-]. apply log_frame_refl. }
  specialize (Hh st.1 st.2). destruct (Execute hook st.1 st.2) as [[w c] err]. cbn [fst snd] in Hh.
  destruct (log_hook _ _ _ _ _) as [l|] eqn:Hl; [|done]. cbn [mbind option_bind].
  apply log_hook_frame in Hl. rewrite Hh in Hl.
  destruct err as [e0|]; [by intros [= <- <-]|]. intros H%IH. eapply log_frame_trans; [exact Hl | exact H].
Qed.

Lemma run_post_frame s i hooks st st' : Forall keeps_log hooks ->
  run_post s i (map Some hooks) st = Some st' -> log_frame s st.2.(HookLog_) st'.2.(HookLog_).
Proof.
  intros Hk. revert i st. induction Hk as [|hook hooks Hh _ IH]; intros i st; cbn [run_post map].
  { intros [= <-]. apply log_frame_refl. }
  specialize (Hh st.1 st.2). destruct (Execute hook st.1 st.2) as [[w c] err]. cbn [fst snd] in Hh.
  destruct (log_hook _ _ _ _ _) as [l|] eqn:Hl; [|done]. cbn [mbind option_bind].
  apply log_hook_frame in Hl. rewrite Hh in Hl. intros H%IH. eapply log_frame_trans; [exact Hl | exact H].
Qed.

(** Hooks that only look at the context, and keep [I] of the world. *)
Definition observes (I : W -> Prop) (hook : Hook) : Prop := forall w c, I w ->
  (hook.(Execute) w c).1.2 = c /\ I (hook.(Execute) w c).1.1.

Lemma run_post_observers (I : W -> Prop) s i hooks w c t :
  Forall (observes I) hooks -> I w -> logged s c.(HookLog_) t ->
  (List.length t + List.length hooks <= maxHooks)%nat ->
  exists w' l', run_post s i (map Some hooks) (w, c) = Some (w', c <| HookLog_ := l' |>) /\ I w' /\
    log_frame s c.(HookLog_) l'.
Proof.
  intros Ho. revert i w c t. induction Ho as [|hook hooks Hh _ IH]; intros i w c t Hw Hl Hn; cbn [run_post map].
  { exists w, c.(HookLog_). splits; [by destruct c | done | apply log_frame_refl]. }
  cbn [List.length] in Hn. destruct (Hh w c Hw) as [Hc Hw1]. cbn [fst snd].
  destruct (Execute hook w c) as [[w1 c1] err]. cbn [fst snd] in Hc, Hw1. subst c1.
  set (failure := (fun e => (HookFailed, e.(Message))) <$> err).
  destruct (log_hook_logged s c.(HookLog_) t hook.(Hook_Name) (elapsed i) failure Hl ltac:(lia)) as (l1 & Hk & Hl1).
  rewrite Hk. cbn [mbind option_bind].
  set (t' := (t ++ _)%list) in Hl1. set (c1 := c <| HookLog_ := l1 |>).
  assert (Hl2 : logged s c1.(HookLog_) t') by exact Hl1.
  destruct (IH (S i) w1 c1 t' Hw1 Hl2) as (w2 & l2 & Hr & Hw2 & Hf).
  { unfold t'. rewrite length_app. cbn [List.length]. lia. }
  exists w2, l2. splits; [exact Hr | done|]. eapply log_frame_trans; [by eapply log_hook_frame | exact Hf].
Qed.
End engine.
Arguments Hook : clear implicits.
Arguments HookEngine : clear implicits.

(** ** Witnesses *)

Definition forbid_hook : Hook nat :=
  mkHook "forbid" (fun w c => (S w, c, Some (NewForbidden "no"))).
Definition count_hook : Hook nat := mkHook "count" (fun w c => (S w, c, None)).

Definition engine_example : result DiffractLLMError (HookEngine nat) :=
  he ← AddPreCallHook NewHookEngine count_hook;
  he ← AddPreCallHook he forbid_hook;
  AddPostCallHook he count_hook.

Lemma log_blind_examples : log_blind count_hook /\ log_blind forbid_hook.
Proof. split; intros w c1 c2 H; cbn; splits; try done. Qed.

Definition engine_value : HookEngine nat :=
  match engine_example with Ok he => he | Err _ => NewHookEngine end.

Lemma engine_value_ok : engine_ok engine_value [count_hook; forbid_hook] [] [] [count_hook].
Proof. unfold engine_ok, holds. splits; try done; unfold maxHooks; cbn; lia. Qed.

Lemma AddHook_spec_witness :
  match AddPreProviderHook engine_value count_hook with
  | Ok he' => (0 < maxHooks)%nat /\ engine_ok he' [count_hook; forbid_hook] [count_hook] [] [count_hook]
  | Err e => 0%nat = maxHooks /\ e.(Code) = CodeInternalError
  end.
Proof. exact (proj1 (proj2 (AddHook_spec engine_value _ _ _ _ count_hook engine_value_ok))). Defined.

Lemma RunHooks_spec_witness :
  exists r', RunPreCallHooks (fun _ => 1%Z) engine_value (0%nat, NewContext)
             = Some (2%nat, r', Some (NewForbidden "no")) /\
    logged PreCall r'.(HookLog_) [("count", HookOK); ("forbid", HookRejected)].
Proof.
  destruct (proj1 (RunHooks_spec (fun _ => 1%Z) engine_value _ _ _ _ 0%nat NewContext engine_value_ok
    (Forall_cons_2 _ _ _ (proj1 log_blind_examples) (Forall_cons_2 _ _ _ (proj2 log_blind_examples)
       (Forall_cons_2 _ _ _ (proj1 log_blind_examples) (Forall_nil_2 _))))
    (fun s => match s with PreCall | PreProvider | PostProvider | PostCall =>
                conj eq_refl (conj eq_refl eq_refl) end))) as (r' & H1 & _ & H2).
  exists r'. split; [exact H1 | exact H2].
Defined.
