(* ===== verification/Headers.v ===== *)
(** * HTTP headers — [net/http] and [dataplane/transport.go]

    A header map from canonical names to their values, with the canonicalisation [net/http]
    applies on every access, and the transport's treatment of headers: names an operator may not
    set, hop-by-hop names removed from a response, rate-limit names captured in the context. *)

From S2P Require Import Prelude GoBase Context.
From Stdlib Require Import Ascii.
Open Scope string_scope.

(** ** [http.Header] *)

Abbreviation Header := (gmap string (list string)) (only parsing).

Definition in_range (lo hi n : N) : bool := (lo <=? n)%N && (n <=? hi)%N.
(** The token characters of RFC 7230. *)
Definition token_byte (c : ascii) : bool :=
  let n := Ascii.N_of_ascii c in
  in_range 48 57 n || in_range 65 90 n || in_range 97 122 n ||
  existsb (fun m => (n =? m)%N) [33; 35; 36; 37; 38; 39; 42; 43; 45; 46; 94; 95; 96; 124; 126]%N.

Definition upper_byte (c : ascii) : ascii :=
  let n := Ascii.N_of_ascii c in
  if in_range 97 122 n then Ascii.ascii_of_N (n - 32) else c.

Fixpoint all_tokens (s : string) : bool :=
  match s with EmptyString => true | String c s' => token_byte c && all_tokens s' end.

(** Upper case at the start and after a hyphen, lower case elsewhere. *)
Fixpoint title (upper : bool) (s : string) : string :=
  match s with
  | EmptyString => ""
  | String c s' =>
      String (if upper then upper_byte c else lower_byte c) (title (Ascii.eqb c "-"%char) s')
  end.

(** [textproto.CanonicalMIMEHeaderKey]: a name with a byte that is no token is left alone. *)
Definition CanonicalHeaderKey (s : string) : string := if all_tokens s then title true s else s.

(** [h.Get], [h.Set] and [h.Del]. *)
Definition Header_Get (h : Header) (key : string) : string :=
  match h !! CanonicalHeaderKey key with Some (v :: _) => v | _ => "" end.
Definition Header_Set (h : Header) (key value : string) : Header :=
  <[ CanonicalHeaderKey key := [value] ]> h.
Definition Header_Del (h : Header) (key : string) : Header := delete (CanonicalHeaderKey key) h.

(** ** The transport's use of them *)

Definition reservedNames : list string :=
  ["authorization"; "api-key"; "x-api-key"; "x-goog-api-key";
   "content-type"; "content-length"; "host";
   "connection"; "proxy-connection"; "keep-alive";
   "proxy-authenticate"; "proxy-authorization";
   "te"; "trailer"; "transfer-encoding"; "upgrade"].

Definition reservedHeader (name : string) : bool :=
  existsb (String.eqb (ToLower (TrimSpace name))) reservedNames.

(** [strings.FieldsFunc] with the separators ',' and ' '. *)
Fixpoint fields (acc s : string) : list string :=
  match s with
  | EmptyString => if is_empty acc then [] else [acc]
  | String c s' =>
      if Ascii.eqb c ","%char || Ascii.eqb c " "%char
      then if is_empty acc then fields "" s' else acc :: fields "" s'
      else fields (acc ++ String c "") s'
  end.

Definition hopHeaders : list string :=
  ["Connection"; "Proxy-Connection"; "Keep-Alive";
   "Proxy-Authenticate"; "Proxy-Authorization";
   "Te"; "Trailer"; "Transfer-Encoding"; "Upgrade"].

Definition removeHopHeaders (h : Header) : Header :=
  let conn := Header_Get h "Connection" in
  let h := if negb (is_empty conn) then foldl Header_Del h (fields "" conn) else h in
  foldl Header_Del h hopHeaders.

(** The names captured from a response and their context keys. *)
Definition UpstreamHeaders : list (string * string) :=
  [("x-request-id", "upstream.x-request-id");
   ("apim-request-id", "upstream.apim-request-id");
   ("openai-processing-ms", "upstream.openai-processing-ms");
   ("x-ratelimit-remaining-requests", "upstream.x-ratelimit-remaining-requests");
   ("x-ratelimit-remaining-tokens", "upstream.x-ratelimit-remaining-tokens");
   ("x-ratelimit-reset-requests", "upstream.x-ratelimit-reset-requests");
   ("retry-after", "upstream.retry-after")].

Definition captureResponseHeaders (rctx : DiffractLLMContext) (h : Header) : DiffractLLMContext :=
  foldl (fun rctx uh =>
           let v := Header_Get h uh.1 in
           if negb (is_empty v) then Overwrite rctx uh.2 (AnyString v) else rctx)
    rctx UpstreamHeaders.

(** The headers of an outgoing request: the operator's, except reserved names, then those of the
    provider adapter; each map is visited in the order given. *)
Definition outgoingHeaders (network request : list (string * string)) : Header :=
  let h := foldl (fun h kv => if reservedHeader kv.1 then h else Header_Set h kv.1 kv.2) ∅ network in
  foldl (fun h kv => Header_Set h kv.1 kv.2) h request.

(** ** Case *)

(** A string of ASCII bytes. *)
Fixpoint all_ascii (s : string) : bool :=
  match s with EmptyString => true | String c s' => (Ascii.N_of_ascii c <? 128)%N && all_ascii s' end.
Fixpoint lower_ascii (s : string) : string :=
  match s with EmptyString => "" | String c s' => String (lower_byte c) (lower_ascii s') end.

Lemma ToLower_ascii s : all_ascii s = true -> ToLower s = lower_ascii s.
Proof.
  assert (H2 : forall c1 c2, (Ascii.N_of_ascii c1 <? 128)%N = true -> String.eqb (String c1 (String c2 "")) (bytes [196; 176]%N) = false).
  { intros c1 c2 Hc. apply String.eqb_neq. intros He. injection He as -> _. vm_compute in Hc. done. }
  assert (H3 : forall c1 c2 c3, (Ascii.N_of_ascii c1 <? 128)%N = true ->
     String.eqb (String c1 (String c2 (String c3 ""))) (bytes [226; 132; 170]%N) = false).
  { intros c1 c2 c3 Hc. apply String.eqb_neq. intros He. injection He as -> _ _. vm_compute in Hc. done. }
  induction s as [|c1 s IH]; [done|]. cbn [all_ascii]. intros [Hc1 Hs]%andb_true_iff.
  destruct s as [|c2 s]; [done|]. specialize (IH Hs).
  destruct s as [|c3 s].
  - cbn [ToLower]. by rewrite H2.
  - change (ToLower (String c1 (String c2 (String c3 s)))) with
      (if String.eqb (String c1 (String c2 (String c3 ""))) (bytes [226; 132; 170]%N)
       then String "k" (ToLower s)
       else if String.eqb (String c1 (String c2 "")) (bytes [196; 176]%N)
       then String "i" (ToLower (String c3 s))
       else String (lower_byte c1) (ToLower (String c2 (String c3 s)))).
    rewrite H3, H2 by done. by rewrite IH.
Qed.

Lemma lower_upper c : lower_byte (upper_byte c) = lower_byte c.
Proof. by destruct c as [[] [] [] [] [] [] [] []]. Qed.
Lemma lower_lower c : lower_byte (lower_byte c) = lower_byte c.
Proof. by destruct c as [[] [] [] [] [] [] [] []]. Qed.

Lemma lower_title b s : lower_ascii (title b s) = lower_ascii s.
Proof.
  revert b. induction s as [|c s IH]; intros b; simpl; [done|].
  rewrite IH. f_equal. destruct b; [apply lower_upper | apply lower_lower].
Qed.

Lemma lower_canonical s : lower_ascii (CanonicalHeaderKey s) = lower_ascii s.
Proof. unfold CanonicalHeaderKey. destruct (all_tokens s); [apply lower_title | done]. Qed.

Lemma token_ascii s : all_tokens s = true -> all_ascii s = true.
Proof.
  induction s as [|c s IH]; [done|]. cbn [all_tokens all_ascii]. intros [Hc Hs]%andb_true_iff.
  rewrite IH, andb_true_r by done. revert Hc. clear. by destruct c as [[] [] [] [] [] [] [] []].
Qed.

Lemma strip_one_token c s : token_byte c = true -> strip_one space_encodings (String c s) = None.
Proof. intros H. destruct c as [[] [] [] [] [] [] [] []]; vm_compute in H; try discriminate H; reflexivity. Qed.
Lemma strip_one_rev_token c s :
  token_byte c = true -> strip_one (map srev space_encodings) (String c s) = None.
Proof. intros H. destruct c as [[] [] [] [] [] [] [] []]; vm_compute in H; try discriminate H; reflexivity. Qed.

Lemma srev_app_srev_app s acc t : srev_app (srev_app s acc) t = srev_app acc (s ++ t).
Proof. revert acc. induction s as [|c s IH]; intros acc; simpl; [done|]. by rewrite IH. Qed.

Lemma srev_srev s : srev (srev s) = s.
Proof. unfold srev. rewrite srev_app_srev_app. simpl. induction s as [|c s IH]; simpl; by f_equal. Qed.

Lemma all_tokens_srev_app s acc : all_tokens (srev_app s acc) = all_tokens s && all_tokens acc.
Proof.
  revert acc. induction s as [|c s IH]; intros acc; simpl; [done|]. rewrite IH. simpl.
  by destruct (token_byte c), (all_tokens s).
Qed.

Lemma TrimSpace_token s : all_tokens s = true -> TrimSpace s = s.
Proof.
  assert (Hfront : forall t n, all_tokens t = true -> strip_all space_encodings n t = t).
  { intros [|c t] [|n]; try done. cbn [all_tokens]. intros [Hc _]%andb_true_iff.
    cbn [strip_all]. by rewrite strip_one_token. }
  assert (Hback : forall t n, all_tokens t = true -> strip_all (map srev space_encodings) n t = t).
  { intros [|c t] [|n]; try done. cbn [all_tokens]. intros [Hc _]%andb_true_iff.
    cbn [strip_all]. by rewrite strip_one_rev_token. }
  intros Hs. unfold TrimSpace, trim_left, trim_right. rewrite Hfront by done.
  rewrite Hback; [apply srev_srev|]. unfold srev. by rewrite all_tokens_srev_app, Hs.
Qed.

(** ** Properties *)

(** A key that reaches the same slot as a reserved name is itself recognised as reserved. *)
Lemma reserved_canonical r k :
  r ∈ reservedNames -> CanonicalHeaderKey k = CanonicalHeaderKey r -> reservedHeader k = true.
Proof.
  intros Hr He.
  assert (Hrs : all_tokens r = true /\ lower_ascii r = r /\ all_tokens (CanonicalHeaderKey r) = true).
  { assert (Hall : Forall (fun r => all_tokens r = true /\ lower_ascii r = r /\
      all_tokens (CanonicalHeaderKey r) = true) reservedNames)
      by (repeat (constructor; [vm_compute; done|]); constructor).
    rewrite Forall_forall in Hall. by apply Hall. }
  destruct Hrs as (Ht & Hl & Hc).
  assert (Hk : all_tokens k = true).
  { destruct (all_tokens k) eqn:E; [done|]. revert He. unfold CanonicalHeaderKey at 1. rewrite E.
    intros He. congruence. }
  unfold reservedHeader. rewrite (TrimSpace_token k Hk), ToLower_ascii by (by apply token_ascii).
  assert (Hlk : lower_ascii k = r) by (rewrite <- lower_canonical, He, lower_canonical; done).
  rewrite Hlk. apply existsb_exists. exists r. split; [by apply list_elem_of_In | apply String.eqb_refl].
Qed.

(** Setting headers on top of two maps that agree at a slot keeps them agreeing there. *)
Lemma foldl_Set_agree (l : list (string * string)) (h1 h2 : gmap string (list string)) k :
  h1 !! k = h2 !! k ->
  foldl (fun h kv => Header_Set h kv.1 kv.2) h1 l !! k
  = foldl (fun h kv => Header_Set h kv.1 kv.2) h2 l !! k.
Proof.
  revert h1 h2. induction l as [|[a v] l IH]; intros h1 h2 H; [done|]. cbn [foldl]. apply IH.
  unfold Header_Set; simpl. destruct (decide (k = CanonicalHeaderKey a)) as [->|];
    [by rewrite !lookup_insert_eq | by rewrite !lookup_insert_ne].
Qed.

Lemma foldl_Del_lookup names (h : gmap string (list string)) k :
  foldl Header_Del h names !! k
  = if bool_decide (k ∈ map CanonicalHeaderKey names) then None else h !! k.
Proof.
  revert h. induction names as [|n names IH]; intros h; [done|]. cbn [foldl map].
  rewrite IH. unfold Header_Del.
  destruct (decide (k = CanonicalHeaderKey n)) as [->|Hne].
  - rewrite lookup_delete_eq, (bool_decide_eq_true_2 (_ ∈ _ :: _)) by left. by case_match.
  - rewrite lookup_delete_ne by done.
    assert (Hb : bool_decide (k ∈ CanonicalHeaderKey n :: map CanonicalHeaderKey names)
                 = bool_decide (k ∈ map CanonicalHeaderKey names))
      by (apply bool_decide_ext; rewrite elem_of_cons; tauto).
    by rewrite Hb.
Qed.

(** what the transport guarantees about headers.  Whatever an operator configures for a
    provider, every reserved header of an outgoing request (credentials, content type and length,
    host, connection management) is exactly what the provider adapter set, in any spelling and any
    map order.  And a response that went through [removeHopHeaders] has no hop-by-hop header and
    none of the headers its [Connection] line named, every other header being untouched. *)
Theorem headers_spec :
  (forall network request r, r ∈ reservedNames ->
     outgoingHeaders network request !! CanonicalHeaderKey r
     = outgoingHeaders [] request !! CanonicalHeaderKey r) /\
  (forall (h : gmap string (list string)) k,
     removeHopHeaders h !! k
     = if bool_decide (k ∈ map CanonicalHeaderKey (fields "" (Header_Get h "Connection") ++ hopHeaders))
       then None else h !! k).
Proof.
  split.
  - intros network request r Hr. unfold outgoingHeaders. apply foldl_Set_agree. cbn [foldl].
    assert (Hgen : forall h : gmap string (list string), foldl (fun h kv => if reservedHeader kv.1 then h
        else Header_Set h kv.1 kv.2) h network !! CanonicalHeaderKey r = h !! CanonicalHeaderKey r).
    { induction network as [|[k v] network IH]; intros h; [done|]. cbn [foldl fst snd]. rewrite IH.
      destruct (reservedHeader k) eqn:Hk; [done|]. unfold Header_Set. rewrite lookup_insert_ne; [done|].
      intros He. rewrite (reserved_canonical r k Hr He) in Hk. done. }
    apply Hgen.
  - intros h k. unfold removeHopHeaders.
    assert (Hf : (if negb (is_empty (Header_Get h "Connection"))
        then foldl Header_Del h (fields "" (Header_Get h "Connection")) else h)
        = foldl Header_Del h (fields "" (Header_Get h "Connection"))).
    { destruct (is_empty _) eqn:He; [|done]. apply is_empty_true in He. by rewrite He. }
    rewrite Hf. by rewrite <- foldl_app, foldl_Del_lookup.
Qed.
