(* ===== verification/Transport.v ===== *)
(** * The upstream transport — [dataplane/transport.go]

    One call to a provider: the retry loop with its attempts, backoff and timeouts, the bodies it
    returns (size-limited or watched for idleness) and the configuration that governs them.  The
    network is an argument: what each attempt observes ([attempt_outcome]).  Durations and counters
    are [int64]s. *)

From S2P Require Import Prelude GoBase Errors Catalog Context Credential Config Headers Duration KeyFormat.
From Stdlib Require Import Ascii.
Open Scope string_scope.

(** [compareConfig(base, override)]: a positive override wins. *)
Definition compareConfig (base : Z) (override : option Z) : Z :=
  match override with
  | Some o => if (0 <? o)%Z then o else base
  | None => base
  end.

(** ** Response bodies *)

(** What is left of a body: [EOF] with the last bytes or after them, as the reader chooses. *)
Inductive ReadError : Type :=
| EOF
| ErrResponseTooLarge
| ErrStreamIdle
| ErrBody (cause : string).

(** An [io.Reader] over a fixed text.  [chunk] bounds the bytes it has at hand and [eager] tells
    whether it reports [EOF] together with the last bytes. *)
Definition raw_Read (data : string) (len : Z) (chunk : nat) (eager : bool)
    : string * string * option ReadError :=
  match data with
  | EmptyString => ("", "", Some EOF)
  | _ =>
      let n := Nat.min (Z.to_nat len) (Nat.max 1 chunk) in
      let got := str_take n data in
      let rest := str_drop n data in
      (got, rest, if is_empty rest && eager then Some EOF else None)
  end.

Record limitedBody : Type := mkLimitedBody { lb_rc : string; lb_remaining : Z }.

Definition newLimitedBody (rc : string) (limit : Z) : limitedBody := mkLimitedBody rc (add64 limit 1).

(** [b.Read(p)] for a buffer of [len] bytes: the bytes read, the error and the body after. *)
Definition limited_Read (b : limitedBody) (len : Z) (chunk : nat) (eager : bool)
    : string * option ReadError * limitedBody :=
  if (b.(lb_remaining) <=? 0)%Z then ("", Some ErrResponseTooLarge, b)
  else
    let len := if (b.(lb_remaining) <? len)%Z then b.(lb_remaining) else len in
    let '(got, rest, err) := raw_Read b.(lb_rc) len chunk eager in
    let remaining := sub64 b.(lb_remaining) (Z.of_nat (String.length got)) in
    let b := mkLimitedBody rest remaining in
    if (remaining <=? 0)%Z then (got, Some ErrResponseTooLarge, b) else (got, err, b).

(** [io.ReadAll(b)]: read until an error; [EOF] ends it normally.  [sched i] is the buffer space,
    chunk and eagerness of the [i]-th read. *)
Fixpoint ReadAll (fuel : nat) (sched : nat -> Z * nat * bool) (i : nat) (b : limitedBody) (acc : string)
    : option (string * option ReadError) :=
  match fuel with
  | O => None
  | S n =>
      let '(len, chunk, eager) := sched i in
      let '(got, err, b) := limited_Read b len chunk eager in
      let acc := acc ++ got in
      match err with
      | Some EOF => Some (acc, None)
      | Some e => Some (acc, Some e)
      | None => ReadAll n sched (S i) b acc
      end
  end.

(** A body that is closed when nothing arrives for [st_timeout]: [st_deadline] is when its timer
    fires, [None] once stopped. *)
Record streamTimeoutBody : Type := mkStreamTimeoutBody {
  st_timeout : Z;
  st_stalled : bool;
  st_closed : bool;
  st_deadline : option Z
}.
#[export] Instance streamTimeoutBody_eta : Eta streamTimeoutBody := fun b =>
  mkStreamTimeoutBody (st_timeout b) (st_stalled b) (st_closed b) (st_deadline b).

Definition newStreamTimeoutBody (timeout now : Z) : streamTimeoutBody :=
  mkStreamTimeoutBody timeout false false (Some (time_add now timeout)).

Definition stream_Close (b : streamTimeoutBody) : streamTimeoutBody :=
  if b.(st_closed) then b else b <| st_deadline := None |> <| st_closed := true |>.

(** The timer's function, run once the deadline has passed. *)
Definition stream_tick (b : streamTimeoutBody) (now : Z) : streamTimeoutBody :=
  match b.(st_deadline) with
  | Some d => if (d <=? now)%Z
              then stream_Close (b <| st_stalled := true |> <| st_deadline := None |>) else b
  | None => b
  end.

(** [b.Read]: the underlying read returned [n] bytes and [err] at the time [now]. *)
Definition stream_Read (b : streamTimeoutBody) (now : Z) (n : Z) (err : option ReadError)
    : option ReadError * streamTimeoutBody :=
  let b := stream_tick b now in
  let b := if (0 <? n)%Z then b <| st_deadline := Some (time_add now b.(st_timeout)) |> else b in
  match err with
  | Some e => (Some (if b.(st_stalled) then ErrStreamIdle else e), b)
  | None => (None, b)
  end.

(** ** Retries *)

Definition retrySafe (status : Z) : bool :=
  (status =? StatusRequestTimeout)%Z || (status =? StatusTooManyRequests)%Z.
Definition retryAmbiguous (status : Z) : bool :=
  (status =? StatusBadGateway)%Z || (status =? StatusServiceUnavailable)%Z
  || (status =? StatusGatewayTimeout)%Z.
Definition retryable (status : Z) (allowAmbiguous : bool) : bool :=
  retrySafe status || (allowAmbiguous && retryAmbiguous status).

(** [strconv.Atoi]: an optional sign and decimal digits, within [int64]. *)
Definition Atoi (s : string) : option Z :=
  let '(neg, ds) := match s with
                    | String "-" r => (true, r)
                    | String "+" r => (false, r)
                    | _ => (false, s)
                    end in
  if is_empty ds || negb (all_digits ds) then None
  else
    let v := decimal_value 0 ds in
    let z := if neg : bool then (- v)%Z else v in
    if (MinInt64 <=? z)%Z && (z <=? MaxInt64)%Z then Some z else None.

(** [1 << k] on [int64]. *)
Definition shift1 (k : Z) : Z := if (64 <=? k)%Z then 0%Z else wrap64 (Z.shiftl 1 k).

Definition retryAfter (h : gmap string (list string)) (base : Z) (attempt : Z) : Z :=
  let backoff := mul64 base (shift1 (attempt - 1)) in
  let v := Header_Get h "Retry-After" in
  if negb (is_empty v) then
    match Atoi v with
    | Some secs => if (0 <? secs)%Z then mul64 secs Second else backoff
    | None => backoff
    end
  else backoff.

(** ** The call *)

Record TransportRequest : Type := mkTransportRequest {
  TMethod : string;
  TURL : string;
  TBody : string;
  THeaders : list (string * string);
  IsStreaming : bool
}.

Inductive ResultBody : Type :=
| StreamBody (data : string) (idle : Z)
| LimitedBody (body : limitedBody).

(** [BodyCancelled] tells that the context the response was requested with, which governs the
    reading of its body, has been cancelled. *)
Record TransportResult : Type := mkTransportResult {
  TStatus : Z;
  THeader : gmap string (list string);
  RBody : ResultBody;
  BodyCancelled : bool;
  RTTFB : Z;
  Attempts : Z
}.

(** What one attempt observes.  [slept] tells whether the backoff after it ran to its end rather
    than being cut short by the request context; [now] is the time the response arrived. *)
Inductive attempt_outcome : Type :=
| BuildFailed (cause : string)
| DoFailed (cause : string) (ctx_done slept : bool)
| Responded (status : Z) (header : gmap string (list string)) (body : string)
    (ttfb now : Z) (slept : bool).

(** The parts of the call that do not change between attempts. *)
Record Call : Type := mkCall {
  call_provider : Provider;
  call_safeURL : string;
  call_streaming : bool;
  call_timeout : Z;
  call_maxAttempts : Z;
  call_backoff : Z;
  call_ambiguous : bool;
  call_idle : Z;
  call_maxBytes : Z
}.

(** The body of the loop for one attempt: the context, and the value returned unless the loop goes
    on with [lastErr]. *)
Definition attempt_step (c : Call) (attempt : Z) (o : attempt_outcome) (rctx : DiffractLLMContext)
    : DiffractLLMContext * (option DiffractLLMError + result DiffractLLMError TransportResult) :=
  let rctx := rctx <| UpstreamAttempts := attempt |> in
  match o with
  | BuildFailed cause => (rctx, inr (Err (NewInternalError "transport" "building request" (Some cause))))
  | DoFailed cause ctx_done slept =>
      if ctx_done : bool
      then (rctx, inr (Err (NewUpstreamTimeout c.(call_provider) c.(call_safeURL) (Some cause))))
      else
        let lastErr := NewUpstreamUnavailable c.(call_provider) c.(call_safeURL) (Some cause) in
        if (attempt <? c.(call_maxAttempts))%Z
        then if negb slept then (rctx, inr (Err lastErr)) else (rctx, inl (Some lastErr))
        else (rctx, inr (Err lastErr))
  | Responded status header body ttfb now slept =>
      let rctx := rctx <| UpstreamStatus := status |> in
      if retryable status c.(call_ambiguous) && (attempt <? c.(call_maxAttempts))%Z
      then
        if negb slept
        then (rctx, inr (Err (NewUpstreamError c.(call_provider) c.(call_safeURL) status "retry aborted" None)))
        else (rctx, inl None)
      else
        let rctx := rctx <| TTFB := ttfb |> in
        let rctx := Mark rctx StageUpstream now in
        let rctx := captureResponseHeaders rctx header in
        let body := if c.(call_streaming) then StreamBody body c.(call_idle)
                    else LimitedBody (newLimitedBody body c.(call_maxBytes)) in
        let cancelled := negb c.(call_streaming) && (0 <? c.(call_timeout))%Z in
        (rctx, inr (Ok (mkTransportResult status (removeHopHeaders header) body cancelled ttfb attempt)))
  end.

(** The [for] loop.  Both components of the Go result may be nil.  Attempts increase up to
    [maxAttempts], which is the fuel. *)
Fixpoint attempts_loop (fuel : nat) (c : Call) (net : Z -> attempt_outcome) (attempt : Z)
    (rctx : DiffractLLMContext) (lastErr : option DiffractLLMError)
    : DiffractLLMContext * option TransportResult * option DiffractLLMError :=
  match fuel with
  | O => (rctx, None, lastErr)
  | S n =>
      if (attempt <=? c.(call_maxAttempts))%Z then
        match attempt_step c attempt (net attempt) rctx with
        | (rctx, inr (Ok r)) => (rctx, Some r, None)
        | (rctx, inr (Err e)) => (rctx, None, Some e)
        | (rctx, inl err) =>
            attempts_loop n c net (attempt + 1) rctx (match err with Some e => Some e | None => lastErr end)
        end
      else (rctx, None, lastErr)
  end.

(** The settings of a call from the defaults and the provider's network configuration. *)
Definition make_call (d : UpstreamConfig) (n : NetworkConfig) (provider : Provider) (safeURL : string)
    (streaming : bool) : Call :=
  mkCall provider safeURL streaming
    (compareConfig d.(URequestTimeout) n.(RequestTimeout))
    (match n.(MaxRetries) with
     | Some r => if (0 <? r)%Z then add64 1 r else add64 1 d.(UMaxRetries)
     | None => add64 1 d.(UMaxRetries)
     end)
    (match n.(RetryBackoff) with
     | Some b => if (0 <? b)%Z then b else d.(URetryBackoff)
     | None => d.(URetryBackoff)
     end)
    (match n.(RetryAmbiguousStatus) with Some b => b | None => false end)
    (compareConfig d.(UStreamIdleTimeout) n.(StreamIdleTimeout))
    (compareConfig (UpstreamConfig_MaxResponseBytes d) (Some n.(MaxResponseBytes))).

(** [t.ServeHTTP(rctx, req)].  [providers] is the client map ([None] when never stored) and
    [safeURL] the sanitised URL. *)
Definition ServeHTTP (d : UpstreamConfig) (providers : option (gmap Provider Upstream))
    (safeURL : string) (net : Z -> attempt_outcome) (rctx : DiffractLLMContext) (req : TransportRequest)
    : DiffractLLMContext * option TransportResult * option DiffractLLMError :=
  let provider := rctx.(Modelkey).(KProvider) in
  match providers with
  | None => (rctx, None,
      Some (NewInternalError "transport" ("no providers found for the request - " ++ provider) None))
  | Some pt =>
      match pt !! provider with
      | None => (rctx, None,
          Some (NewInternalError "transport" ("no client for provider " ++ provider) None))
      | Some upstream =>
          let c := make_call d upstream.(Network) provider safeURL req.(IsStreaming) in
          attempts_loop (Z.to_nat c.(call_maxAttempts)) c net 1 rctx None
      end
  end.

(** The configuration reported to administrators. *)
Definition EffectiveNetwork (d : UpstreamConfig) (stored : NetworkConfig) : NetworkConfig :=
  let effective := stored
    <| RequestTimeout := Some (compareConfig d.(URequestTimeout) stored.(RequestTimeout)) |>
    <| StreamIdleTimeout := Some (compareConfig d.(UStreamIdleTimeout) stored.(StreamIdleTimeout)) |>
    <| MaxConnsPerHost := Some (compareConfig d.(UMaxConnsPerHost) stored.(MaxConnsPerHost)) |> in
  let effective := if (effective.(MaxResponseBytes) =? 0)%Z
    then effective <| MaxResponseBytes := UpstreamConfig_MaxResponseBytes d |> else effective in
  let retries := match stored.(MaxRetries) with
                 | Some r => if (0 <? r)%Z then r else d.(UMaxRetries)
                 | None => d.(UMaxRetries)
                 end in
  let backoff := match stored.(RetryBackoff) with
                 | Some b => if (0 <? b)%Z then b else d.(URetryBackoff)
                 | None => d.(URetryBackoff)
                 end in
  let ambiguous := match stored.(RetryAmbiguousStatus) with Some b => b | None => false end in
  effective <| MaxRetries := Some retries |> <| RetryBackoff := Some backoff |>
            <| RetryAmbiguousStatus := Some ambiguous |>.

(** ** Reading a limited body *)

Lemma str_app_nil_r (s : string) : s ++ "" = s.
Proof. induction s; simpl; by f_equal. Qed.

Lemma raw_Read_spec data len chunk eager got rest err :
  (0 < len)%Z -> raw_Read data len chunk eager = (got, rest, err) ->
  data = got ++ rest /\ (Z.of_nat (String.length got) <= len)%Z /\
  ((data = "" /\ err = Some EOF) \/
   ((0 < String.length got)%nat /\ (err = None \/ (err = Some EOF /\ rest = "")))).
Proof.
  intros Hl. unfold raw_Read. destruct data as [|c data]; [intros H; simplify_eq; simpl; split; [done|]; split; [lia|auto]|].
  set (n := Nat.min (Z.to_nat len) (Nat.max 1 chunk)). intros H. apply pair_eq in H as [H <-].
  apply pair_eq in H as [<- <-].
  assert (Hlen := str_take_length n (String c data)).
  rewrite str_take_drop. split; [done|]. rewrite Hlen. split; [lia|]. right.
  split; [simpl; lia|]. generalize (str_drop n (String c data)). intros r.
  destruct r as [|a r]; cbn [is_empty andb]; [destruct eager; auto | auto].
Qed.

Definition read_schedule_ok (sched : nat -> Z * nat * bool) : Prop := forall i, (0 < (sched i).1.1)%Z.

Lemma ReadAll_limited fuel sched i limit rest acc :
  read_schedule_ok sched -> (0 <= limit < MaxInt64)%Z ->
  (Z.of_nat (String.length acc) <= limit)%Z -> (String.length rest < fuel)%nat ->
  ReadAll fuel sched i (mkLimitedBody rest (limit + 1 - Z.of_nat (String.length acc))) acc
  = Some (if (Z.of_nat (String.length (acc ++ rest)) <=? limit)%Z then (acc ++ rest, None)
          else (str_take (Z.to_nat (limit + 1)) (acc ++ rest), Some ErrResponseTooLarge)).
Proof.
  intros Hs Hlim. revert i rest acc. induction fuel as [|n IH]; intros i rest acc Hacc Hfuel; [lia|].
  cbn [ReadAll]. pose proof (Hs i) as Hi. destruct (sched i) as [[len chunk] eager]. cbn [fst] in Hi.
  unfold limited_Read. cbn [lb_remaining lb_rc].
  destruct (Z.leb_spec (limit + 1 - Z.of_nat (String.length acc)) 0); [lia|].
  set (rem := (limit + 1 - Z.of_nat (String.length acc))%Z) in *.
  set (len' := if (rem <? len)%Z then rem else len).
  assert (Hlen' : (0 < len' <= rem)%Z) by (unfold len'; destruct (Z.ltb_spec rem len); lia).
  destruct (raw_Read rest len' chunk eager) as [[got rest'] err] eqn:Hr.
  apply raw_Read_spec in Hr as (-> & Hgot & Hcase); [|lia].
  assert (Hsub : sub64 rem (Z.of_nat (String.length got)) = (rem - Z.of_nat (String.length got))%Z).
  { unfold sub64. apply wrap64_small. unfold in_int64, MinInt64, MaxInt64 in *. lia. }
  rewrite Hsub. rewrite <- str_app_assoc. rewrite !str_length_app in *.
  destruct (Z.leb_spec (rem - Z.of_nat (String.length got)) 0) as [Hz|Hz].
  - assert (Hex : Z.to_nat (limit + 1) = String.length (acc ++ got)) by (rewrite str_length_app; lia).
    destruct (Z.leb_spec (Z.of_nat (String.length acc + String.length got + String.length rest')) limit); [lia|].
    by rewrite Hex, str_take_app.
  - destruct Hcase as [[He ->]|[Hpos [->|[-> ->]]]].
    + destruct got; [|done]. simpl in *. subst rest'. simpl.
      rewrite !str_app_nil_r in *. simpl.
      destruct (Z.leb_spec (Z.of_nat (String.length acc + 0 + 0)) limit); [done|lia].
    + specialize (IH (S i) rest' (acc ++ got)). rewrite !str_length_app in IH.
      replace (rem - Z.of_nat (String.length got))%Z
        with (limit + 1 - Z.of_nat (String.length acc + String.length got))%Z by lia.
      rewrite IH by lia. done.
    + rewrite str_app_nil_r in *. simpl in *.
      destruct (Z.leb_spec (Z.of_nat (String.length acc + String.length got + 0)) limit); [done|lia].
Qed.

(** reading a whole response through the size limit.  However the reads are sized and the
    bytes arrive, a body of at most [limit] bytes is delivered entire and without error, and a
    longer one fails with [ErrResponseTooLarge] after exactly [limit + 1] bytes, so no more than
    that is ever held.  (The fuel is the number of reads, and one more than the length of the
    body is enough.) *)
Theorem ReadAll_limit sched data limit fuel :
  read_schedule_ok sched -> (0 <= limit < MaxInt64)%Z -> (String.length data < fuel)%nat ->
  ReadAll fuel sched 0 (newLimitedBody data limit) ""
  = Some (if (Z.of_nat (String.length data) <=? limit)%Z then (data, None)
          else (str_take (Z.to_nat (limit + 1)) data, Some ErrResponseTooLarge)).
Proof.
  intros Hs Hlim Hf. unfold newLimitedBody, add64.
  rewrite wrap64_small by (unfold in_int64, MinInt64, MaxInt64 in *; lia).
  pose proof (ReadAll_limited fuel sched 0 limit data "" Hs Hlim) as H. simpl in H.
  rewrite Z.sub_0_r in H. apply H; lia.
Qed.

(** The largest limit wraps around and refuses every response. *)
Example newLimitedBody_overflow :
  limited_Read (newLimitedBody "ok" MaxInt64) 512 512 true
  = ("", Some ErrResponseTooLarge, mkLimitedBody "ok" MinInt64).
Proof. vm_compute. reflexivity. Qed.

(** ** The retry loop *)

(** An attempt after which the loop goes on. *)
Definition retried (c : Call) (attempt : Z) (o : attempt_outcome) : Prop :=
  (attempt < c.(call_maxAttempts))%Z /\
  match o with
  | BuildFailed _ => False
  | DoFailed _ ctx_done slept => ctx_done = false /\ slept = true
  | Responded status _ _ _ _ slept => retryable status c.(call_ambiguous) = true /\ slept = true
  end.

(** What the call returns when its last attempt is number [n]. *)
Definition finished (c : Call) (n : Z) (o : attempt_outcome)
    (out : DiffractLLMContext * option TransportResult * option DiffractLLMError) : Prop :=
  let '(rctx, res, err) := out in
  rctx.(UpstreamAttempts) = n /\
  match o with
  | BuildFailed cause => res = None /\ err = Some (NewInternalError "transport" "building request" (Some cause))
  | DoFailed cause ctx_done _ =>
      res = None /\
      err = Some (if ctx_done then NewUpstreamTimeout c.(call_provider) c.(call_safeURL) (Some cause)
                  else NewUpstreamUnavailable c.(call_provider) c.(call_safeURL) (Some cause))
  | Responded status header body ttfb _ _ =>
      rctx.(UpstreamStatus) = status /\
      if retryable status c.(call_ambiguous) && (n <? c.(call_maxAttempts))%Z
      then res = None /\
           err = Some (NewUpstreamError c.(call_provider) c.(call_safeURL) status "retry aborted" None)
      else err = None /\ rctx.(TTFB) = ttfb /\
        res = Some (mkTransportResult status (removeHopHeaders header)
          (if c.(call_streaming) then StreamBody body c.(call_idle)
           else LimitedBody (newLimitedBody body c.(call_maxBytes)))
          (negb c.(call_streaming) && (0 <? c.(call_timeout))%Z) ttfb n)
  end.

Lemma capture_keeps rctx h :
  UpstreamAttempts (captureResponseHeaders rctx h) = UpstreamAttempts rctx /\
  UpstreamStatus (captureResponseHeaders rctx h) = UpstreamStatus rctx /\
  TTFB (captureResponseHeaders rctx h) = TTFB rctx.
Proof.
  unfold captureResponseHeaders. generalize UpstreamHeaders. intros l. revert rctx.
  induction l as [|uh l IH]; intros rctx; [done|]. cbn [foldl].
  destruct (IH (if negb (is_empty (Header_Get h uh.1)) then Overwrite rctx uh.2 (AnyString (Header_Get h uh.1))
                else rctx)) as (-> & -> & ->).
  by destruct (negb _).
Qed.

Lemma attempt_step_spec c n o rctx :
  (n <= c.(call_maxAttempts))%Z ->
  match attempt_step c n o rctx with
  | (rctx', inl _) => retried c n o
  | (rctx', inr (Ok r)) => ~ retried c n o /\ finished c n o (rctx', Some r, None)
  | (rctx', inr (Err e)) => ~ retried c n o /\ finished c n o (rctx', None, Some e)
  end.
Proof.
  intros Hn. unfold attempt_step, retried, finished. destruct o as [cause|cause done slept|st h b ttfb now slept].
  - simpl. split; [tauto|]. done.
  - destruct done; [simpl; split; [intros [_ [? _]]; done|]; done|].
    destruct (Z.ltb_spec n c.(call_maxAttempts)); [destruct slept|]; simpl; try done.
    + split; [intros [_ [_ ?]]; done | done].
    + split; [intros [? _]; lia | done].
  - destruct (retryable st _) eqn:Hr; destruct (Z.ltb_spec n c.(call_maxAttempts)); cbn [andb];
      [destruct slept; cbn [negb]| | |]; try done.
    1: { split; [intros [_ [_ ?]]; done | done]. }
    all: split; [intros [? [? _]]; (lia || congruence)|].
    all: match goal with |- context [captureResponseHeaders ?r ?h] =>
           destruct (capture_keeps r h) as (-> & -> & ->) end.
    all: splits; reflexivity.
Qed.

Lemma attempts_loop_spec fuel c net attempt rctx lastErr :
  (attempt <= c.(call_maxAttempts))%Z -> (Z.to_nat (c.(call_maxAttempts) - attempt) < fuel)%nat ->
  exists n, (attempt <= n <= c.(call_maxAttempts))%Z /\
    (forall j, (attempt <= j < n)%Z -> retried c j (net j)) /\ ~ retried c n (net n) /\
    finished c n (net n) (attempts_loop fuel c net attempt rctx lastErr).
Proof.
  revert attempt rctx lastErr. induction fuel as [|fuel IH]; intros attempt rctx lastErr Ha Hf; [lia|].
  cbn [attempts_loop]. destruct (Z.leb_spec attempt c.(call_maxAttempts)); [|lia].
  pose proof (attempt_step_spec c attempt (net attempt) rctx Ha) as Hstep.
  destruct (attempt_step c attempt (net attempt) rctx) as [rctx' [err|[r|e]]].
  - assert (Hlt : (attempt < c.(call_maxAttempts))%Z) by apply Hstep.
    destruct (IH (attempt + 1)%Z rctx' (match err with Some e => Some e | None => lastErr end))
      as (n & Hn & Hj & Hnr & Hfin); [lia | lia|].
    exists n. splits; try lia; try done. intros j Hjn.
    destruct (Z.eq_dec j attempt) as [->|]; [done | apply Hj; lia].
  - exists attempt. destruct Hstep. splits; try lia; done.
  - exists attempt. destruct Hstep. splits; try lia; done.
Qed.

(** C3: a call to a configured provider terminates after [n] attempts, at most one more than
    the retries configured for the provider or else by default.  All earlier attempts were
    retryable (a network failure before the deadline, a safe status, or an ambiguous one when the
    provider opts in) and waited out their backoff; the outcome, which is always either a response
    or an error, is the one of attempt [n], a response being returned with its status, its
    attempt count and without hop-by-hop headers. *)
Theorem ServeHTTP_spec d pt safeURL net rctx req upstream retries :
  pt !! rctx.(Modelkey).(KProvider) = Some upstream ->
  retries = compareConfig d.(UMaxRetries) upstream.(Network).(MaxRetries) ->
  (0 <= d.(UMaxRetries))%Z -> (retries < MaxInt64)%Z ->
  let c := make_call d upstream.(Network) rctx.(Modelkey).(KProvider) safeURL req.(IsStreaming) in
  exists n, (1 <= n <= 1 + retries)%Z /\
    (forall j, (1 <= j < n)%Z -> retried c j (net j)) /\ ~ retried c n (net n) /\
    finished c n (net n) (ServeHTTP d (Some pt) safeURL net rctx req).
Proof.
  intros Hpt Hr Hd Hmax c. unfold ServeHTTP. rewrite Hpt. fold c.
  assert (H0 : (0 <= retries)%Z).
  { subst retries. unfold compareConfig. destruct upstream.(Network).(MaxRetries) as [r|]; [|done].
    destruct (Z.ltb_spec 0 r); lia. }
  assert (Hc : c.(call_maxAttempts) = (1 + retries)%Z).
  { assert (Hadd : add64 1 retries = (1 + retries)%Z).
    { unfold add64. apply wrap64_small. unfold in_int64, MinInt64, MaxInt64 in *. lia. }
    rewrite <- Hadd. subst retries c. simpl. unfold compareConfig.
    destruct upstream.(Network).(MaxRetries) as [r|]; [|done]. by destruct (Z.ltb_spec 0 r). }
  destruct (attempts_loop_spec (Z.to_nat c.(call_maxAttempts)) c net 1 rctx None) as (n & Hn & H);
    [lia | lia|].
  exists n. rewrite <- Hc. done.
Qed.

Definition responses (n : Z) : attempt_outcome :=
  if (n <=? 1)%Z then Responded 429 ∅ "" 5 0 true
  else Responded 200 {[ "Connection" := ["close"]; "X-Request-Id" := ["r1"] ]} "ok" 7 9 true.

Definition upstream_example : Upstream :=
  mkUpstream ProviderOpenAI (NetworkConfig0 <| MaxRetries := Some 2%Z |>) None.
Definition route_example : DiffractLLMContext :=
  NewContext <| Modelkey := mkCatalogKey ProviderOpenAI "gpt-4o" ModelTypeChat |>.

Lemma ServeHTTP_spec_witness :
  let c := make_call DefaultConfig.(Upstream_) upstream_example.(Network) ProviderOpenAI "" true in
  exists n, (1 <= n <= 1 + 2)%Z /\ (forall j, (1 <= j < n)%Z -> retried c j (responses j)) /\
    ~ retried c n (responses n) /\
    finished c n (responses n)
      (ServeHTTP DefaultConfig.(Upstream_) (Some {[ ProviderOpenAI := upstream_example ]}) "" responses
         route_example (mkTransportRequest "POST" "" "" [] true)).
Proof.
  apply (ServeHTTP_spec DefaultConfig.(Upstream_) {[ ProviderOpenAI := upstream_example ]} "" responses
           route_example (mkTransportRequest "POST" "" "" [] true) upstream_example 2);
    vm_compute; congruence.
Defined.

Lemma ReadAll_limit_witness :
  ReadAll 6 (fun _ => (512%Z, 2%nat, false)) 0 (newLimitedBody "hello" 3) ""
  = Some ("hell", Some ErrResponseTooLarge).
Proof.
  rewrite (ReadAll_limit (fun _ => (512%Z, 2%nat, false)) "hello" 3 6).
  - vm_compute. reflexivity.
  - intros i. vm_compute. reflexivity.
  - vm_compute. split; congruence.
  - vm_compute. lia.
Defined.

(** ** Configuration *)

Lemma compareConfig_idemp base o : compareConfig base (Some (compareConfig base o)) = compareConfig base o.
Proof.
  unfold compareConfig. destruct o as [o|]; [destruct (Z.ltb_spec 0 o)|]; repeat case_match; zbool; lia.
Qed.

Lemma pick_idemp {A} (f : Z -> A) r base :
  (if (0 <? (if (0 <? r)%Z then r else base))%Z then f (if (0 <? r)%Z then r else base) else f base)
  = if (0 <? r)%Z then f r else f base.
Proof. destruct (0 <? r)%Z eqn:E; [by rewrite E | by destruct (0 <? base)%Z]. Qed.

(** the network configuration reported for a provider is the one its calls run with.
    A call made with the reported configuration stored back is the same call, and the reported
    timeouts, retries, backoff, opt-in and (for a stored size that is not negative) size limit are
    the values of the call. *)
Theorem EffectiveNetwork_spec d stored provider safeURL streaming :
  let c := make_call d stored provider safeURL streaming in
  let e := EffectiveNetwork d stored in
  make_call d e provider safeURL streaming = c /\
  e.(RequestTimeout) = Some c.(call_timeout) /\ e.(StreamIdleTimeout) = Some c.(call_idle) /\
  (exists r, e.(MaxRetries) = Some r /\ c.(call_maxAttempts) = add64 1 r) /\
  e.(RetryBackoff) = Some c.(call_backoff) /\ e.(RetryAmbiguousStatus) = Some c.(call_ambiguous) /\
  ((0 <= stored.(MaxResponseBytes))%Z -> e.(MaxResponseBytes) = c.(call_maxBytes)).
Proof.
  destruct stored as [b h rt mr rb mc isv apn ra mrb sit].
  intros c e.
  assert (Hb : e.(MaxResponseBytes) = if (mrb =? 0)%Z then UpstreamConfig_MaxResponseBytes d else mrb)
    by (unfold e, EffectiveNetwork; cbn -[UpstreamConfig_MaxResponseBytes]; by destruct (mrb =? 0)%Z).
  assert (Hf : e.(RequestTimeout) = Some c.(call_timeout) /\ e.(StreamIdleTimeout) = Some c.(call_idle) /\
    e.(MaxRetries) = Some (match mr with Some r => if (0 <? r)%Z then r else d.(UMaxRetries) | None => d.(UMaxRetries) end) /\
    e.(RetryBackoff) = Some c.(call_backoff) /\ e.(RetryAmbiguousStatus) = Some c.(call_ambiguous))
    by (unfold e, EffectiveNetwork; cbn -[UpstreamConfig_MaxResponseBytes]; by destruct (mrb =? 0)%Z).
  destruct Hf as (H1 & H2 & H3 & H4 & H5). rewrite H1, H2, H3, H4, H5.
  assert (H6 : compareConfig (UpstreamConfig_MaxResponseBytes d) (Some e.(MaxResponseBytes)) = c.(call_maxBytes)).
  { rewrite Hb. unfold c. cbn -[UpstreamConfig_MaxResponseBytes].
    destruct (Z.eqb_spec mrb 0) as [->|]; [by destruct (Z.ltb_spec 0 (UpstreamConfig_MaxResponseBytes d))|done]. }
  splits; try done.
  - unfold make_call. rewrite H1, H2, H3, H4, H5, H6. unfold c, make_call. f_equal.
    + apply compareConfig_idemp.
    + destruct mr as [r|]; [apply (pick_idemp (add64 1)) | by destruct (0 <? UMaxRetries d)%Z].
    + destruct rb as [r|]; [apply (pick_idemp (fun x => x)) | cbn [call_backoff RetryBackoff]; by destruct (0 <? URetryBackoff d)%Z].
    + apply compareConfig_idemp.
  - eexists. split; [reflexivity|]. unfold c, make_call. cbn [call_maxAttempts MaxRetries].
    destruct mr as [r|]; [by destruct (0 <? r)%Z | done].
  - intros Hp. rewrite Hb. unfold c. cbn -[UpstreamConfig_MaxResponseBytes].
    cbn in Hp. destruct (Z.eqb_spec mrb 0) as [->|]; [done|]. destruct (Z.ltb_spec 0 mrb); [done|lia].
Qed.

(** ** Backoff *)

Lemma retryAfter_backoff h base attempt :
  Header_Get h "Retry-After" = "" -> (1 <= attempt < 64)%Z -> (0 <= base)%Z ->
  (base * 2 ^ (attempt - 1) <= MaxInt64)%Z ->
  retryAfter h base attempt = (base * 2 ^ (attempt - 1))%Z.
Proof.
  intros Hh Ha Hb Hm. unfold retryAfter. rewrite Hh. cbn [is_empty negb]. unfold mul64, shift1.
  destruct (Z.leb_spec 64 (attempt - 1)); [lia|]. rewrite Z.shiftl_1_l.
  assert (Hp : (0 < 2 ^ (attempt - 1))%Z) by (apply Z.pow_pos_nonneg; lia).
  destruct (Z.eq_dec base 0) as [->|Hn]; [by rewrite !Z.mul_0_l|].
  rewrite (wrap64_small (2 ^ (attempt - 1))); [apply wrap64_small|];
    unfold in_int64, MinInt64 in *; nia.
Qed.

(** A large [Retry-After] wraps to a negative wait, which [time.After] ends at once. *)
Lemma retryAfter_overflow :
  retryAfter {[ "Retry-After" := ["9999999999"] ]} (250 * Millisecond) 1 = (-8446744074709551616)%Z.
Proof. vm_compute. reflexivity. Qed.

(** A response to a non-streaming call with a timeout is handed over with its context already
    cancelled by the deferred [cancel]. *)
Lemma nonstreaming_body_cancelled :
  exists rctx r, ServeHTTP DefaultConfig.(Upstream_) (Some {[ ProviderOpenAI := upstream_example ]}) ""
    responses route_example (mkTransportRequest "POST" "" "" [] false) = (rctx, Some r, None)
    /\ r.(BodyCancelled) = true.
Proof. eexists _, _. split; vm_compute; reflexivity. Qed.

(** ** Idle streams *)

(** A run of reads: times, sizes and underlying errors. *)
Fixpoint stream_reads (b : streamTimeoutBody) (reads : list (Z * Z * option ReadError))
    : list (option ReadError) * streamTimeoutBody :=
  match reads with
  | [] => ([], b)
  | (now, n, err) :: rest =>
      let '(e, b) := stream_Read b now n err in
      let '(es, b) := stream_reads b rest in (e :: es, b)
  end.

(** Every read returns within [timeout] of the previous one that delivered bytes. *)
Fixpoint timely (timeout since : Z) (reads : list (Z * Z * option ReadError)) : Prop :=
  match reads with
  | [] => True
  | (now, n, _) :: rest =>
      (now < since + timeout)%Z /\ timely timeout (if (0 <? n)%Z then now else since) rest
  end.

Lemma stream_reads_timely timeout since reads :
  timely timeout since reads ->
  (stream_reads (newStreamTimeoutBody timeout since) reads).1 = map snd reads.
Proof.
  unfold newStreamTimeoutBody, time_add. revert since. induction reads as [|[[now n] err] reads IH]; intros since; [done|].
  intros [Hn Ht]. cbn [stream_reads map snd]. unfold stream_Read, stream_tick. cbn [st_deadline].
  destruct (Z.leb_spec (since + timeout) now); [lia|]. unfold time_add. cbn.
  specialize (IH (if (0 <? n)%Z then now else since) Ht).
  destruct (0 <? n)%Z; cbn; destruct err; cbn in IH |- *;
    destruct (stream_reads _ reads) as [es b']; cbn in *; by rewrite IH.
Qed.

Lemma stream_stalled timeout since now n err e :
  (since + timeout <= now)%Z -> err = Some e ->
  (stream_Read (newStreamTimeoutBody timeout since) now n err).1 = Some ErrStreamIdle.
Proof.
  intros Hn ->. unfold stream_Read, stream_tick, newStreamTimeoutBody, time_add. cbn [st_deadline].
  destruct (Z.leb_spec (since + timeout) now); [|lia]. cbn. by destruct (0 <? n)%Z.
Qed.
