(* ===== verification/Network.v ===== *)
(** * Upstream clients and the address guard — [dataplane/transport.go]

    Which addresses the gateway refuses to dial, how a provider's client is built with its guard
    and proxy, and the hot swap of the client map.  An address is the number of its bits
    ([netip.Addr] without a zone).  [url.Parse] and the SOCKS5 dialer of [golang.org/x/net/proxy]
    are observed through their success; a [*providerTransport] has an identity, the number of
    clients allocated before it. *)

From S2P Require Import Prelude GoBase Catalog Credential Config.
Open Scope string_scope.

(** ** [netip.Addr] *)

Inductive Addr : Type :=
| IPv4 (ip : Z)
| IPv6 (ip : Z).

(** Bits [lo, lo + n) of an address. *)
Definition bits (ip lo n : Z) : Z := Z.land (Z.shiftr ip lo) (Z.ones n).

(** [ip.Unmap()]: an IPv4-mapped IPv6 address becomes IPv4. *)
Definition Unmap (a : Addr) : Addr :=
  match a with
  | IPv6 ip => if (Z.shiftr ip 32 =? 65535)%Z then IPv4 (bits ip 0 32) else a
  | _ => a
  end.

Definition IsLoopback (a : Addr) : bool :=
  match a with IPv4 ip => (bits ip 24 8 =? 127)%Z | IPv6 ip => (ip =? 1)%Z end.
Definition IsPrivate (a : Addr) : bool :=
  match a with
  | IPv4 ip =>
      (bits ip 24 8 =? 10)%Z ||
      ((bits ip 24 8 =? 172)%Z && (Z.land (bits ip 16 8) 240 =? 16)%Z) ||
      ((bits ip 24 8 =? 192)%Z && (bits ip 16 8 =? 168)%Z)
  | IPv6 ip => (Z.land (bits ip 120 8) 254 =? 252)%Z
  end.
Definition IsLinkLocalUnicast (a : Addr) : bool :=
  match a with
  | IPv4 ip => (bits ip 24 8 =? 169)%Z && (bits ip 16 8 =? 254)%Z
  | IPv6 ip => (Z.land (bits ip 112 16) 65472 =? 65152)%Z
  end.
Definition IsLinkLocalMulticast (a : Addr) : bool :=
  match a with
  | IPv4 ip => (bits ip 24 8 =? 224)%Z && (bits ip 16 8 =? 0)%Z && (bits ip 8 8 =? 0)%Z
  | IPv6 ip => (Z.land (bits ip 112 16) 65295 =? 65282)%Z
  end.
Definition IsInterfaceLocalMulticast (a : Addr) : bool :=
  match a with
  | IPv4 _ => false
  | IPv6 ip => (Z.land (bits ip 112 16) 65295 =? 65281)%Z
  end.
Definition IsMulticast (a : Addr) : bool :=
  match a with
  | IPv4 ip => (Z.land (bits ip 24 8) 240 =? 224)%Z
  | IPv6 ip => (bits ip 120 8 =? 255)%Z
  end.
Definition IsUnspecified (a : Addr) : bool :=
  match a with IPv4 ip | IPv6 ip => (ip =? 0)%Z end.

Definition isBlockedIP (ip : Addr) : bool :=
  let ip := Unmap ip in
  IsLoopback ip || IsPrivate ip || IsLinkLocalUnicast ip || IsLinkLocalMulticast ip
  || IsInterfaceLocalMulticast ip || IsMulticast ip || IsUnspecified ip.

(** ** Guards *)

Inductive DialError : Type :=
| BadAddress (cause : string)
| Unresolved (address : string)
| Blocked (ip : Addr)
| LookupFailed (cause : string)
| DialFailed (cause : string)
| NoAddresses (host : string).

(** [guardedControl(allowPrivate)] run on an address; [host] is the outcome of
    [net.SplitHostPort] and [ip] that of [netip.ParseAddr] on the host. *)
Definition guardedControl (allowPrivate : bool) (address : string) (host : result string ())
    (ip : option Addr) : result DialError () :=
  if allowPrivate then Ok ()
  else match host with
  | Err e => Err (BadAddress e)
  | Ok _ =>
      match ip with
      | None => Err (Unresolved address)
      | Some ip => if isBlockedIP ip then Err (Blocked ip) else Ok ()
      end
  end.

(** The loop of [guardedProxyDial] over the resolved addresses: the addresses dialled and the
    connection or the last error. *)
Fixpoint dial_loop {Conn : Type} (dial : Addr -> result string Conn) (ips : list Addr)
    (lastErr : option DialError) : list Addr * (Conn + option DialError) :=
  match ips with
  | [] => ([], inr lastErr)
  | ip :: rest =>
      if isBlockedIP ip then dial_loop dial rest (Some (Blocked ip))
      else match dial ip with
      | Ok conn => ([ip], inl conn)
      | Err e => let '(dialled, r) := dial_loop dial rest (Some (DialFailed e)) in (ip :: dialled, r)
      end
  end.

(** [guardedProxyDial(d, allowPrivate)] for a host that [LookupNetIP] resolves to [ips]; [direct]
    is the dial of the unresolved address. *)
Definition guardedProxyDial {Conn : Type} (allowPrivate : bool) (direct : result string Conn)
    (split : result string ()) (host : string) (ips : result string (list Addr))
    (dial : Addr -> result string Conn) : list Addr * result DialError Conn :=
  if allowPrivate
  then ([], match direct with Ok c => Ok c | Err e => Err (DialFailed e) end)
  else match split with
  | Err e => ([], Err (BadAddress e))
  | Ok _ =>
      match ips with
      | Err e => ([], Err (LookupFailed e))
      | Ok ips =>
          match dial_loop dial ips None with
          | (dialled, inl conn) => (dialled, Ok conn)
          | (dialled, inr (Some e)) => (dialled, Err e)
          | (dialled, inr None) => (dialled, Err (NoAddresses host))
          end
      end
  end.

(** ** Clients *)

(** How connections of a client are made: the guard on the addresses its own dialer reaches, its
    proxy, and the guard on the target behind a SOCKS5 proxy. *)
Inductive ClientProxy : Type :=
| NoProxy
| FromEnvironment
| ViaHTTP (url username password : string)
| ViaSOCKS5 (url : string) (auth : option (string * string)) (targetGuarded : bool).

Record Client : Type := mkClient {
  DialGuarded : bool;
  Via : ClientProxy;
  ClientMaxConns : Z;
  SkipVerify : bool;
  ClientIdleConns : Z;
  HeaderTimeout : Z;
  FollowsRedirects : bool
}.
#[export] Instance Client_eta : Eta Client := fun c =>
  mkClient (DialGuarded c) (Via c) (ClientMaxConns c) (SkipVerify c) (ClientIdleConns c)
    (HeaderTimeout c) (FollowsRedirects c).

Inductive ClientError : Type :=
| ParsingProxyURL
| BuildingSOCKS5
| UnknownProxyType (t : string).

Section clients.
(** Whether [url.Parse] accepts a text and whether a SOCKS5 dialer can be built for an address. *)
Variable url_parses : string -> bool.
Variable socks5_builds : string -> option (string * string) -> bool.

Definition applyProxy (transport : Client) (proxyConfig : option ProxyConfig)
    (allowPrivateNetwork : bool) : result ClientError Client :=
  match proxyConfig with
  | None => Ok transport
  | Some p =>
      if String.eqb p.(PType) ProxyEnvironment then
        Ok (transport <| Via := FromEnvironment |> <| DialGuarded := false |>)
      else if String.eqb p.(PType) ProxyHTTP then
        if negb (url_parses p.(PURL)) then Err ParsingProxyURL
        else Ok (transport <| Via := ViaHTTP p.(PURL) p.(Username)
                                      (if is_empty p.(Username) then "" else p.(Password)) |>
                           <| DialGuarded := false |>)
      else if String.eqb p.(PType) ProxySOCKS5 then
        let auth := if is_empty p.(Username) then None else Some (p.(Username), p.(Password)) in
        if negb (socks5_builds p.(PURL) auth) then Err BuildingSOCKS5
        else Ok (transport <| Via := ViaSOCKS5 p.(PURL) auth (negb allowPrivateNetwork) |>
                           <| DialGuarded := false |>)
      else Err (UnknownProxyType p.(PType))
  end.

Definition newClient (d : UpstreamConfig) (u : Upstream) : result ClientError Client :=
  let providerNetwork := u.(Network) in
  let maxConns := match providerNetwork.(MaxConnsPerHost) with
                  | Some o => if (0 <? o)%Z then o else d.(UMaxConnsPerHost)
                  | None => d.(UMaxConnsPerHost)
                  end in
  let transport := mkClient (negb providerNetwork.(AllowPrivateNetwork)) NoProxy maxConns
                     providerNetwork.(InsecureSkipVerify) d.(MaxIdleConns)
                     d.(ResponseHeaderTimeout) false in
  match u.(Proxy) with
  | Some _ => applyProxy transport u.(Proxy) providerNetwork.(AllowPrivateNetwork)
  | None => Ok transport
  end.

(** ** The client map *)

Record providerTransport : Type := mkProviderTransport {
  pt_id : nat;
  pt_client : Client;
  pt_upstream : Upstream
}.

Abbreviation providerClientMap := (gmap Provider providerTransport) (only parsing).

(** The loop of [buildProviders] over the configuration in iteration order; [next] numbers the
    clients. *)
Fixpoint build_loop (d : UpstreamConfig) (order : list (Provider * Upstream)) (next : nat)
    : providerClientMap * nat :=
  match order with
  | [] => (∅, next)
  | (provider, upstream) :: rest =>
      match newClient d upstream with
      | Err _ => build_loop d rest next
      | Ok client =>
          let '(m, n) := build_loop d rest (S next) in
          (<[ provider := mkProviderTransport next client upstream ]> m, n)
      end
  end.

Definition buildProviders (d : UpstreamConfig) (config : gmap Provider Upstream) (next : nat) :=
  build_loop d (map_to_list config) next.

(** The transport: the map its atomic pointer holds, the number of clients ever allocated and
    the clients whose idle connections were closed. *)
Record TransportState : Type := mkTransportState {
  ts_providers : option providerClientMap;
  ts_next : nat;
  ts_closed : list nat
}.

Definition NewTransport (d : UpstreamConfig) (config : gmap Provider Upstream) : TransportState :=
  let '(m, n) := buildProviders d config 0 in mkTransportState (Some m) n [].

(** The loop of [Replace] over the providers that failed to build. *)
Definition keep_previous (old : option providerClientMap) (next : providerClientMap)
    (provider : Provider) : providerClientMap :=
  match old ≫= (fun o => o !! provider) with
  | Some existing => <[ provider := existing ]> next
  | None => next
  end.

(** [closeDropped]: the clients of the old map that the new one does not hold. *)
Definition closeDropped (old : option providerClientMap) (next : providerClientMap) : list nat :=
  match old with
  | None => []
  | Some o =>
      map (fun pv => pv.2.(pt_id))
        (List.filter (fun pv => negb (bool_decide (pt_id <$> next !! pv.1 = Some pv.2.(pt_id))))
           (map_to_list o))
  end.

Definition Replace (d : UpstreamConfig) (t : TransportState) (config : gmap Provider Upstream)
    : TransportState * list Provider :=
  let '(built, n) := buildProviders d config t.(ts_next) in
  let failed := List.filter (fun p => match built !! p with Some _ => false | None => true end)
                  (map_to_list config).*1 in
  let next := foldl (keep_previous t.(ts_providers)) built failed in
  (mkTransportState (Some next) n (t.(ts_closed) ++ closeDropped t.(ts_providers) next), failed).

(** ** Clients: properties *)

Lemma elem_of_keys {A} (m : gmap Provider A) p : p ∈ (map_to_list m).*1 <-> exists x, m !! p = Some x.
Proof.
  rewrite list_elem_of_fmap. split.
  - intros ([q x] & -> & Hx). exists x. by apply elem_of_map_to_list.
  - intros [x Hx]. exists (p, x). split; [done | by apply elem_of_map_to_list].
Qed.

(** A client that may not reach private networks guards its own dials or, behind a SOCKS5 proxy,
    the target; behind an HTTP or environment proxy the proxy resolves the target itself and
    nothing is checked. *)
Lemma newClient_guard d u c :
  newClient d u = Ok c -> u.(Network).(AllowPrivateNetwork) = false ->
  match c.(Via) with
  | NoProxy => c.(DialGuarded) = true /\ u.(Proxy) = None
  | ViaSOCKS5 _ _ guarded => guarded = true
  | FromEnvironment | ViaHTTP _ _ _ => c.(DialGuarded) = false
  end.
Proof.
  unfold newClient. destruct u.(Proxy) as [p|]; [|intros [= <-] ->; done].
  unfold applyProxy. intros H Hp. rewrite Hp in H.
  destruct (String.eqb _ ProxyEnvironment); [by injection H as <-|].
  destruct (String.eqb _ ProxyHTTP); [destruct (negb _); [done|]; by injection H as <-|].
  destruct (String.eqb _ ProxySOCKS5); [|done]. destruct (negb (socks5_builds _ _)); [done|].
  by injection H as <-.
Qed.

Lemma build_loop_lookup d order next p :
  NoDup order.*1 ->
  match build_loop d order next with
  | (m, _) =>
      match m !! p with
      | Some pt => exists u, (p, u) ∈ order /\ newClient d u = Ok pt.(pt_client) /\
                             pt.(pt_upstream) = u /\ (next <= pt.(pt_id))%nat
      | None => forall u, (p, u) ∈ order -> is_ok (newClient d u) = false
      end
  end.
Proof.
  revert next. induction order as [|[q u] order IH]; intros next; cbn [build_loop].
  { intros _. rewrite lookup_empty. intros u Hu. by apply elem_of_nil in Hu. }
  cbn [fmap list_fmap fst]. intros [Hni Hn]%NoDup_cons.
  assert (Hfresh : forall v, (q, v) ∉ order).
  { intros v Hv. apply Hni. by apply (list_elem_of_fmap_2 fst) in Hv. }
  destruct (newClient d u) as [c|e] eqn:Hc.
  - specialize (IH (S next) Hn). destruct (build_loop d order (S next)) as [m n].
    destruct (decide (p = q)) as [->|Hne].
    + rewrite lookup_insert_eq. exists u. splits; [left | done | done | done].
    + rewrite lookup_insert_ne by done. destruct (m !! p) as [pt|].
      * destruct IH as (v & Hv & ? & ? & ?). exists v. splits; [by right | done | done | lia].
      * intros v [Hv|Hv]%elem_of_cons; [congruence | by apply IH].
  - specialize (IH next Hn). destruct (build_loop d order next) as [m n]. destruct (m !! p) as [pt|].
    + destruct IH as (v & Hv & ?). exists v. split; [by right | done].
    + intros v [Hv|Hv]%elem_of_cons; [|by apply IH]. injection Hv as -> ->. by rewrite Hc.
Qed.

Lemma foldl_keep old next failed p :
  foldl (keep_previous old) next failed !! p
  = if bool_decide (p ∈ failed)
    then match old ≫= (fun o => o !! p) with Some e => Some e | None => next !! p end
    else next !! p.
Proof.
  revert next. induction failed as [|q failed IH]; intros next; [done|]. cbn [foldl]. rewrite IH.
  unfold keep_previous.
  destruct (decide (p = q)) as [->|Hne].
  - rewrite (bool_decide_eq_true_2 (q ∈ q :: failed)) by left.
    destruct (old ≫= (fun o => o !! q)) as [e|]; [rewrite lookup_insert_eq|]; by case_match.
  - assert (Hb : bool_decide (p ∈ q :: failed) = bool_decide (p ∈ failed))
      by (apply bool_decide_ext; rewrite elem_of_cons; tauto).
    rewrite Hb. destruct (old ≫= (fun o => o !! q)) as [e|]; [rewrite lookup_insert_ne by done|]; done.
Qed.

(** what a hot swap of the upstream configuration does to each provider.  A configured
    provider whose client builds gets the new client; one whose client fails to build keeps the
    client it had, if any, and is reported; a provider no longer configured is dropped; and the
    clients closed are exactly the previous ones no longer in the map. *)
Theorem Replace_spec d t config :
  let '(t', failed) := Replace d t config in
  let old := fun p => t.(ts_providers) ≫= (fun o => o !! p) in
  exists m, t'.(ts_providers) = Some m /\
  (forall p, m !! p = None <-> match config !! p with
                               | Some u => is_ok (newClient d u) = false /\ old p = None
                               | None => True end) /\
  (forall p pt, m !! p = Some pt ->
     exists u, config !! p = Some u /\
       match newClient d u with
       | Ok c => pt.(pt_client) = c /\ pt.(pt_upstream) = u /\ (t.(ts_next) <= pt.(pt_id))%nat
       | Err _ => old p = Some pt
       end) /\
  (forall p, p ∈ failed <-> exists u, config !! p = Some u /\ is_ok (newClient d u) = false) /\
  t'.(ts_closed) = (t.(ts_closed) ++ closeDropped t.(ts_providers) m)%list.
Proof.
  unfold Replace. pose proof (build_loop_lookup d (map_to_list config) t.(ts_next)) as Hb.
  unfold buildProviders. destruct (build_loop _ _ _) as [built n].
  assert (Hn : NoDup (map_to_list config).*1) by apply NoDup_fst_map_to_list.
  set (failed := List.filter _ _).
  assert (Hfail : forall p, p ∈ failed <-> exists u, config !! p = Some u /\ is_ok (newClient d u) = false).
  { intros p. unfold failed. rewrite list_elem_of_In, List.filter_In, <- list_elem_of_In.
    specialize (Hb p Hn). rewrite elem_of_keys. split.
    - intros [[u Hu] Hbp]. exists u. split; [done|]. destruct (built !! p); [done|].
      apply Hb. by apply elem_of_map_to_list.
    - intros (u & Hu & Hc). split; [by exists u|]. destruct (built !! p) as [pt|]; [|done].
      destruct Hb as (v & Hv%elem_of_map_to_list & Hok & _). simplify_eq. by rewrite Hok in Hc. }
  cbn [ts_providers ts_closed]. eexists. split; [reflexivity|]. splits; [| | exact Hfail | reflexivity].
  - intros p. rewrite foldl_keep. specialize (Hb p Hn).
    destruct (decide (p ∈ failed)) as [Hp|Hp].
    + rewrite bool_decide_eq_true_2 by done. apply Hfail in Hp as (u & Hu & Hc). rewrite Hu.
      assert (Hnone : built !! p = None).
      { destruct (built !! p) as [pt|]; [|done]. destruct Hb as (v & Hv%elem_of_map_to_list & Hok & _).
        simplify_eq. by rewrite Hok in Hc. }
      rewrite Hnone. destruct (t.(ts_providers) ≫= _); naive_solver.
    + rewrite bool_decide_eq_false_2 by done. destruct (config !! p) as [u|] eqn:Hu.
      * assert (Hok : is_ok (newClient d u) = true).
        { destruct (is_ok (newClient d u)) eqn:E; [done|]. exfalso. apply Hp, Hfail. eauto. }
        rewrite Hok. destruct (built !! p); [split; [done | naive_solver]|].
        rewrite (Hb u) in Hok; [done|]. by apply elem_of_map_to_list.
      * destruct (built !! p) as [pt|]; [|done]. destruct Hb as (v & Hv%elem_of_map_to_list & _). congruence.
  - intros p pt. rewrite foldl_keep. specialize (Hb p Hn).
    destruct (decide (p ∈ failed)) as [Hp|Hp].
    + rewrite bool_decide_eq_true_2 by done. apply Hfail in Hp as (u & Hu & Hc).
      assert (Hnone : built !! p = None).
      { destruct (built !! p) as [pt'|]; [|done]. destruct Hb as (v & Hv%elem_of_map_to_list & Hok & _).
        simplify_eq. by rewrite Hok in Hc. }
      rewrite Hnone. destruct (t.(ts_providers) ≫= _) as [e|] eqn:Ho; [|done]. intros [= ->].
      exists u. split; [done|]. destruct (newClient d u); done.
    + rewrite bool_decide_eq_false_2 by done. intros Hpt. rewrite Hpt in Hb.
      destruct Hb as (u & Hu%elem_of_map_to_list & Hok & Hup & Hid). exists u. rewrite Hok. done.
Qed.
End clients.

(** ** Addresses *)

Definition v4 (a b c d : Z) : Z := (((a * 256 + b) * 256 + c) * 256 + d)%Z.
Definition is_byte (z : Z) : Prop := (0 <= z < 256)%Z.

Lemma bits_div ip lo n : (0 <= lo)%Z -> (0 <= n)%Z -> bits ip lo n = ((ip / 2 ^ lo) mod 2 ^ n)%Z.
Proof. intros. unfold bits. by rewrite Z.land_ones, Z.shiftr_div_pow2. Qed.

Lemma v4_bits a b c d : is_byte a -> is_byte b -> is_byte c -> is_byte d ->
  bits (v4 a b c d) 24 8 = a /\ bits (v4 a b c d) 16 8 = b /\ bits (v4 a b c d) 8 8 = c.
Proof.
  unfold is_byte, v4. intros. rewrite !bits_div by lia.
  change (2 ^ 24)%Z with 16777216%Z. change (2 ^ 16)%Z with 65536%Z. change (2 ^ 8)%Z with 256%Z.
  splits; Z.div_mod_to_equations; lia.
Qed.

Lemma byte_cases (P : Z -> bool) z : is_byte z -> forallb (fun k => P (Z.of_nat k)) (seq 0 256) = true ->
  P z = true.
Proof.
  intros Hz H. rewrite forallb_forall in H. specialize (H (Z.to_nat z)).
  rewrite Z2Nat.id in H by (unfold is_byte in Hz; lia). apply H, in_seq. unfold is_byte in Hz. lia.
Qed.

Lemma land_240_16 b : is_byte b -> (Z.land b 240 =? 16)%Z = (16 <=? b)%Z && (b <=? 31)%Z.
Proof.
  intros Hb. apply eqb_prop.
  apply (byte_cases (fun b => eqb (Z.land b 240 =? 16)%Z ((16 <=? b)%Z && (b <=? 31)%Z)) b Hb).
  vm_compute. reflexivity.
Qed.

Lemma land_240_224 a : is_byte a -> (Z.land a 240 =? 224)%Z = (224 <=? a)%Z && (a <=? 239)%Z.
Proof.
  intros Ha. apply eqb_prop.
  apply (byte_cases (fun b => eqb (Z.land b 240 =? 224)%Z ((224 <=? b)%Z && (b <=? 239)%Z)) a Ha).
  vm_compute. reflexivity.
Qed.

(** The IPv4 addresses the gateway does not dial, by octets. *)
Definition blocked_v4 (a b c d : Z) : Prop :=
  a = 127%Z \/ a = 10%Z \/ (a = 172%Z /\ (16 <= b <= 31)%Z) \/ (a = 192%Z /\ b = 168%Z) \/
  (a = 169%Z /\ b = 254%Z) \/ (224 <= a <= 239)%Z \/ (a = 0 /\ b = 0 /\ c = 0 /\ d = 0)%Z.

Lemma isBlockedIP_v4 a b c d : is_byte a -> is_byte b -> is_byte c -> is_byte d ->
  isBlockedIP (IPv4 (v4 a b c d)) = true <-> blocked_v4 a b c d.
Proof.
  intros Ha Hb Hc Hd. destruct (v4_bits a b c d Ha Hb Hc Hd) as (E1 & E2 & E3).
  unfold isBlockedIP, blocked_v4. cbn [Unmap].
  unfold IsLoopback, IsPrivate, IsLinkLocalUnicast, IsLinkLocalMulticast, IsInterfaceLocalMulticast,
    IsMulticast, IsUnspecified. rewrite E1, E2, E3, land_240_16, land_240_224 by done.
  rewrite !orb_true_iff, !andb_true_iff, !Z.eqb_eq, !Z.leb_le.
  unfold is_byte, v4 in *. split; intros H; lia.
Qed.

Lemma isBlockedIP_mapped ip : (0 <= ip < 2 ^ 32)%Z ->
  isBlockedIP (IPv6 (65535 * 2 ^ 32 + ip)) = isBlockedIP (IPv4 ip).
Proof.
  intros Hip. unfold isBlockedIP. cbn [Unmap].
  assert (Hhi : (Z.shiftr (65535 * 2 ^ 32 + ip) 32 =? 65535)%Z = true).
  { rewrite Z.shiftr_div_pow2, Z.div_add_l, Z.div_small by lia. done. }
  assert (Hlo : bits (65535 * 2 ^ 32 + ip) 0 32 = ip).
  { rewrite bits_div by lia. rewrite Z.pow_0_r, Z.div_1_r, (Z.add_comm _ ip), Z.mod_add, Z.mod_small; lia. }
  by rewrite Hhi, Hlo.
Qed.

Lemma dial_loop_guarded {Conn} (dial : Addr -> result string Conn) ips lastErr :
  Forall (fun ip => isBlockedIP ip = false /\ ip ∈ ips) (dial_loop dial ips lastErr).1 /\
  (forall conn, (dial_loop dial ips lastErr).2 = inl conn ->
     exists ip, ip ∈ (dial_loop dial ips lastErr).1 /\ dial ip = Ok conn).
Proof.
  revert lastErr. induction ips as [|ip ips IH]; intros lastErr; cbn [dial_loop]; [by split|].
  destruct (isBlockedIP ip) eqn:Hb.
  - destruct (IH (Some (Blocked ip))) as [H1 H2]. split; [|exact H2].
    eapply Forall_impl; [exact H1|]. intros a [? ?]. split; [done | by right].
  - destruct (dial ip) as [conn|e] eqn:Hd; cbn.
    + split; [repeat constructor; done|]. intros c [= <-]. exists ip. split; [left | done].
    + destruct (IH (Some (DialFailed e))) as [H1 H2].
      destruct (dial_loop dial ips (Some (DialFailed e))) as [dialled r]; cbn in *. split.
      * constructor; [split; [done | left]|]. eapply Forall_impl; [exact H1|].
        intros a [? ?]. split; [done | by right].
      * intros c Hc. destruct (H2 c Hc) as (a & ? & ?). exists a. split; [by right | done].
Qed.

(** the guard against private networks.  The blocked IPv4 addresses are exactly loopback,
    the three private blocks, link-local, multicast and the unspecified address, also when written
    as IPv4-mapped IPv6; a dial whose resolved address is blocked is refused; and behind a SOCKS5
    proxy only resolved addresses that are not blocked are ever dialled, a connection coming from
    one of them. *)
Theorem address_guard :
  (forall a b c d, is_byte a -> is_byte b -> is_byte c -> is_byte d ->
     (isBlockedIP (IPv4 (v4 a b c d)) = true <-> blocked_v4 a b c d) /\
     isBlockedIP (IPv6 (65535 * 2 ^ 32 + v4 a b c d)) = isBlockedIP (IPv4 (v4 a b c d))) /\
  (forall address ip, guardedControl false address (Ok ()) (Some ip) = Ok () <-> isBlockedIP ip = false) /\
  (forall (Conn : Type) direct split host ips (dial : Addr -> result string Conn) dialled r,
     guardedProxyDial false direct split host ips dial = (dialled, r) ->
     Forall (fun ip => isBlockedIP ip = false /\ exists l, ips = Ok l /\ ip ∈ l) dialled /\
     (forall conn, r = Ok conn -> exists ip, ip ∈ dialled /\ dial ip = Ok conn)).
Proof.
  splits.
  - intros a b c d Ha Hb Hc Hd. split; [by apply isBlockedIP_v4|].
    apply isBlockedIP_mapped. unfold is_byte, v4 in *. lia.
  - intros address ip. unfold guardedControl. destruct (isBlockedIP ip); naive_solver.
  - intros Conn direct split host ips dial dialled r. unfold guardedProxyDial.
    destruct split as [[]|e]; [|intros [= <- <-]; by split].
    destruct ips as [ips|e]; [|intros [= <- <-]; by split].
    destruct (dial_loop_guarded dial ips None) as [H1 H2].
    destruct (dial_loop dial ips None) as [l [conn|[e|]]]; intros [= <- <-]; cbn in *.
    all: split; [eapply Forall_impl; [exact H1|]; intros x [? ?]; eauto|].
    all: intros c Hc; try done. injection Hc as <-. by apply H2.
Qed.
