(* ===== verification/ProviderPlane.v ===== *)
(** * The provider plane — [providerplane/plane.go]

    The credentials the gateway can route to, in an immutable snapshot per provider that every
    update replaces as a whole.  The plane is the snapshot its atomic pointer holds ([None] before
    the first [Store]); updates run under the plane's mutex, so each is one atomic step.  A bucket
    is only ever replaced, never written in place, so slices are values. *)

From S2P Require Import Prelude GoBase Catalog Credential.
Open Scope string_scope.

Record snapshot : Type := mkSnapshot {
  providerCredentials : gmap Provider (list Credential)
}.
#[export] Instance snapshot_eta : Eta snapshot := fun s => mkSnapshot (providerCredentials s).

Abbreviation ProviderPlane := (option snapshot) (only parsing).

Inductive PlaneError : Type :=
| ErrNoCredential
| ErrInvalidCredential (cause : CredentialError).

(** A map read of a missing provider gives the nil slice. *)
Definition bucket_of (snap : snapshot) (p : Provider) : list Credential :=
  default [] (snap.(providerCredentials) !! p).

Definition buildCredSnapshot (credentials : list Credential) : snapshot :=
  foldl (fun snap cred =>
           snap <| providerCredentials ::=
                     <[ cred.(CProvider) := (bucket_of snap cred.(CProvider) ++ [cred])%list ]> |>)
    (mkSnapshot ∅) credentials.

Definition NewProviderPlane (cred : list Credential) : ProviderPlane :=
  Some (buildCredSnapshot cred).

Definition usable (now : Z) (model : string) (cred : Credential) : bool :=
  CheckValidity now (Some cred) && CheckModel (Some cred) model.

(** [plane.Candidates(key)] at the time [now]. *)
Definition Plane_Candidates (now : Z) (plane : ProviderPlane) (key : CatalogKey) : list Credential :=
  match plane with
  | None => []
  | Some snap => List.filter (usable now key.(ModelName)) (bucket_of snap key.(KProvider))
  end.

Definition Plane_Credentials (plane : ProviderPlane) (provider : Provider) : list Credential :=
  match plane with None => [] | Some snap => bucket_of snap provider end.

Definition clone (plane : ProviderPlane) : snapshot :=
  match plane with None => mkSnapshot ∅ | Some old => mkSnapshot old.(providerCredentials) end.

(** The loop of [UpsertCredential]: the new bucket and whether the ID was found. *)
Fixpoint upsert_loop (cred : Credential) (bucket : list Credential) : list Credential * bool :=
  match bucket with
  | [] => ([], false)
  | existing :: rest =>
      let '(replaced, found) := upsert_loop cred rest in
      if String.eqb existing.(CID) cred.(CID) then (cred :: replaced, true)
      else (existing :: replaced, found)
  end.

(** [order] is the iteration order of the aliases of the credential being validated. *)
Definition UpsertCredential (order : list (string * Alias)) (plane : ProviderPlane)
    (cred : Credential) : result PlaneError ProviderPlane :=
  match Credential_Validate order cred with
  | Err err => Err (ErrInvalidCredential err)
  | Ok _ =>
      let next := clone plane in
      let '(replaced, found) := upsert_loop cred (bucket_of next cred.(CProvider)) in
      let replaced := if found then replaced else (replaced ++ [cred])%list in
      Ok (Some (next <| providerCredentials ::= <[ cred.(CProvider) := replaced ]> |>))
  end.

Definition RemoveCredential (plane : ProviderPlane) (provider : Provider) (id : string)
    : result PlaneError ProviderPlane :=
  let next := clone plane in
  let bucket := bucket_of next provider in
  let kept := List.filter (fun existing => negb (String.eqb existing.(CID) id)) bucket in
  if (List.length kept =? List.length bucket)%nat then Err ErrNoCredential
  else if (List.length kept =? 0)%nat
  then Ok (Some (next <| providerCredentials ::= delete provider |>))
  else Ok (Some (next <| providerCredentials ::= <[ provider := kept ]> |>)).

Definition Replace (plane : ProviderPlane) (credentials : list Credential) : ProviderPlane :=
  Some (buildCredSnapshot credentials).

Definition Plane_Len (plane : ProviderPlane) : nat :=
  match plane with
  | None => 0
  | Some snap => foldr (fun b n => List.length b + n)%nat 0%nat (map_to_list snap.(providerCredentials)).*2
  end.

(** ** The plane as a table of credentials

    What the plane promises: it is a finite map from provider and ID to a credential. *)

Definition find_in (bucket : list Credential) (id : string) : option Credential :=
  List.find (fun c => String.eqb c.(CID) id) bucket.
Definition find_cred (plane : ProviderPlane) (p : Provider) (id : string) : option Credential :=
  find_in (Plane_Credentials plane p) id.

(** Well-formed planes: no bucket is empty, every credential is in the bucket of its provider, and
    IDs are unique within a bucket. *)
Definition bucket_ok (p : Provider) (bucket : list Credential) : Prop :=
  bucket <> [] /\ Forall (fun c => c.(CProvider) = p) bucket /\ NoDup (map CID bucket).
Definition plane_ok (plane : ProviderPlane) : Prop :=
  match plane with
  | None => True
  | Some snap => map_Forall bucket_ok snap.(providerCredentials)
  end.

(** One update of the plane. *)
Inductive plane_step : ProviderPlane -> ProviderPlane -> Prop :=
| step_upsert order plane cred plane' :
    UpsertCredential order plane cred = Ok plane' -> plane_step plane plane'
| step_remove plane p id plane' :
    RemoveCredential plane p id = Ok plane' -> plane_step plane plane'
| step_replace plane creds :
    NoDup (map (fun c => (c.(CProvider), c.(CID))) creds) -> plane_step plane (Replace plane creds).

(** ** Loops *)

Lemma upsert_loop_spec cred bucket :
  upsert_loop cred bucket =
    (map (fun c => if String.eqb c.(CID) cred.(CID) then cred else c) bucket,
     existsb (fun c => String.eqb c.(CID) cred.(CID)) bucket).
Proof. induction bucket as [|c b IH]; simpl; [done|]. rewrite IH. by case_match. Qed.

(** The bucket [UpsertCredential] stores. *)
Definition upserted (cred : Credential) (bucket : list Credential) : list Credential :=
  let replaced := map (fun c => if String.eqb c.(CID) cred.(CID) then cred else c) bucket in
  if existsb (fun c => String.eqb c.(CID) cred.(CID)) bucket then replaced
  else (replaced ++ [cred])%list.

Lemma UpsertCredential_Ok order plane cred plane' :
  UpsertCredential order plane cred = Ok plane' ->
  Credential_Validate order cred = Ok () /\
  plane' = Some (mkSnapshot (<[ cred.(CProvider) := upserted cred (bucket_of (clone plane) cred.(CProvider)) ]>
                               (clone plane).(providerCredentials))).
Proof.
  unfold UpsertCredential. destruct (Credential_Validate order cred) as [[]|]; [|done].
  rewrite upsert_loop_spec. intros [= <-]. split; [done|]. unfold upserted. by destruct (existsb _ _).
Qed.

Lemma find_replaced cred bucket id :
  find_in (map (fun c => if String.eqb c.(CID) cred.(CID) then cred else c) bucket) id
  = if String.eqb cred.(CID) id
    then if existsb (fun c => String.eqb c.(CID) cred.(CID)) bucket then Some cred else None
    else find_in bucket id.
Proof.
  unfold find_in. induction bucket as [|c b IH]; cbn [map List.find existsb]; [by case_match|].
  rewrite IH. destruct (String.eqb_spec c.(CID) cred.(CID)) as [Hc|Hc]; cbn [orb].
  - rewrite Hc. by destruct (String.eqb cred.(CID) id).
  - destruct (String.eqb_spec cred.(CID) id) as [Hi|Hi]; [|done]. rewrite <- Hi.
    by destruct (String.eqb_spec c.(CID) cred.(CID)).
Qed.

Lemma find_upserted cred bucket id :
  find_in (upserted cred bucket) id = if String.eqb cred.(CID) id then Some cred else find_in bucket id.
Proof.
  unfold upserted. pose proof (find_replaced cred bucket id) as H. unfold find_in in *.
  destruct (existsb _ bucket); [done|]. rewrite find_app, H. cbn [List.find].
  destruct (String.eqb cred.(CID) id); [done|]. by destruct (List.find _ bucket).
Qed.

Lemma bucket_insert (m : gmap Provider (list Credential)) p b q :
  bucket_of (mkSnapshot (<[ p := b ]> m)) q = if String.eqb p q then b else bucket_of (mkSnapshot m) q.
Proof.
  unfold bucket_of; simpl. destruct (String.eqb_spec p q) as [->|];
    [by rewrite lookup_insert_eq | by rewrite lookup_insert_ne].
Qed.

Lemma bucket_delete (m : gmap Provider (list Credential)) p q :
  bucket_of (mkSnapshot (delete p m)) q = if String.eqb p q then [] else bucket_of (mkSnapshot m) q.
Proof.
  unfold bucket_of; simpl. destruct (String.eqb_spec p q) as [->|];
    [by rewrite lookup_delete_eq | by rewrite lookup_delete_ne].
Qed.

Lemma clone_bucket plane p : bucket_of (clone plane) p = Plane_Credentials plane p.
Proof. by destruct plane as [[m]|]. Qed.

Lemma find_in_filter (l : list Credential) id id' :
  find_in (List.filter (fun c => negb (String.eqb c.(CID) id)) l) id'
  = if String.eqb id id' then None else find_in l id'.
Proof.
  unfold find_in. induction l as [|c l IH]; simpl; [by case_match|].
  destruct (String.eqb_spec c.(CID) id) as [Hc|Hc]; simpl; rewrite ?IH.
  - destruct (String.eqb_spec id id') as [|Hn]; [done|].
    destruct (String.eqb_spec c.(CID) id'); [congruence | done].
  - destruct (String.eqb_spec c.(CID) id'), (String.eqb_spec id id'); congruence.
Qed.

Lemma filter_length_ne {A} (f : A -> bool) l :
  List.length (List.filter f l) <> List.length l <-> exists x, x ∈ l /\ f x = false.
Proof.
  pose proof (List.filter_length_le f l).
  induction l as [|a l IH]; simpl; [split; [done | intros (x & Hx & _); by apply elem_of_nil in Hx]|].
  pose proof (List.filter_length_le f l). setoid_rewrite elem_of_cons.
  destruct (f a) eqn:Hf; simpl; rewrite ?Nat.succ_inj_wd_neg, ?IH by done; split.
  - intros (x & ? & ?). eauto.
  - intros (x & [->|?] & ?); [congruence | eauto].
  - eauto.
  - lia.
Qed.

(** ** The operations as table operations *)

Lemma find_cred_upsert order plane cred plane' p id :
  UpsertCredential order plane cred = Ok plane' ->
  find_cred plane' p id
  = if String.eqb cred.(CProvider) p && String.eqb cred.(CID) id then Some cred
    else find_cred plane p id.
Proof.
  intros [_ ->]%UpsertCredential_Ok. unfold find_cred. cbn [Plane_Credentials].
  rewrite bucket_insert. destruct (String.eqb_spec cred.(CProvider) p) as [<-|]; cbn [andb].
  - by rewrite find_upserted, clone_bucket.
  - by rewrite <- clone_bucket.
Qed.

Lemma find_cred_remove plane p id :
  match RemoveCredential plane p id with
  | Ok plane' => find_cred plane p id <> None /\ forall p' id',
      find_cred plane' p' id'
      = if String.eqb p p' && String.eqb id id' then None else find_cred plane p' id'
  | Err e => e = ErrNoCredential /\ find_cred plane p id = None
  end.
Proof.
  unfold RemoveCredential. rewrite clone_bucket.
  set (kept := List.filter _ _).
  assert (Hfind : forall i, find_in kept i = if String.eqb id i then None else find_cred plane p i)
    by (intros i; apply find_in_filter).
  assert (Hlen : (List.length kept =? List.length (Plane_Credentials plane p))%nat = true <->
                 find_cred plane p id = None).
  { rewrite Nat.eqb_eq. destruct (Nat.eq_dec (List.length kept) (List.length (Plane_Credentials plane p)))
      as [He|He]; (split; [intros H | intros H]); try done.
    - unfold find_cred, find_in. destruct (List.find _ _) as [c|] eqn:Hf; [|done].
      apply List.find_some in Hf as [Hin Hc]. exfalso.
      apply (proj2 (filter_length_ne (fun c => negb (String.eqb c.(CID) id)) (Plane_Credentials plane p)));
        [|exact He].
      exists c. split; [by apply list_elem_of_In | by rewrite Hc].
    - exfalso. apply filter_length_ne in He as (c & Hin & Hc). apply negb_false_iff in Hc.
      unfold find_cred, find_in in H. eapply List.find_none in H; [|by apply list_elem_of_In]. congruence. }
  destruct (_ =? List.length (Plane_Credentials plane p))%nat eqn:Hk.
  { split; [done | by apply Hlen]. }
  assert (Hne : find_cred plane p id <> None) by (intros H; discriminate (proj2 Hlen H)).
  assert (Hrest : forall p' id', p <> p' -> find_in (bucket_of (clone plane) p') id' = find_cred plane p' id')
    by (intros; by rewrite clone_bucket).
  destruct (_ =? 0)%nat eqn:Hz; split; try done; intros p' id'; unfold find_cred at 1;
    cbn [Plane_Credentials]; cbn.
  - rewrite bucket_delete. destruct (String.eqb_spec p p') as [<-|]; cbn [andb]; [|by apply Hrest].
    apply Nat.eqb_eq, nil_length_inv in Hz. rewrite <- Hfind, Hz. done.
  - rewrite bucket_insert. destruct (String.eqb_spec p p') as [<-|]; cbn [andb]; [apply Hfind|by apply Hrest].
Qed.

(** [Replace] keeps the credentials of each provider in their order. *)
Lemma bucket_build creds p :
  bucket_of (buildCredSnapshot creds) p = List.filter (fun c => String.eqb c.(CProvider) p) creds.
Proof.
  unfold buildCredSnapshot.
  assert (H : forall snap, bucket_of (foldl (fun snap cred => snap <| providerCredentials ::=
      <[ cred.(CProvider) := (bucket_of snap cred.(CProvider) ++ [cred])%list ]> |>) snap creds) p
      = (bucket_of snap p ++ List.filter (fun c => String.eqb c.(CProvider) p) creds)%list).
  { induction creds as [|c creds IH]; intros snap; simpl; [by rewrite app_nil_r|].
    rewrite IH. clear IH. destruct snap as [m]. rewrite bucket_insert.
    destruct (String.eqb_spec c.(CProvider) p) as [->|]; [by rewrite <- app_assoc | done]. }
  apply H.
Qed.

Lemma find_build creds p id :
  find_in (bucket_of (buildCredSnapshot creds) p) id
  = List.find (fun c => String.eqb c.(CProvider) p && String.eqb c.(CID) id) creds.
Proof.
  rewrite bucket_build. unfold find_in. induction creds as [|c creds IH]; simpl; [done|].
  destruct (String.eqb c.(CProvider) p); simpl; rewrite IH; done.
Qed.

(** the plane implements a table from (provider, ID) to credentials.  A successful upsert
    validates the credential and then changes exactly its own entry; a removal deletes exactly the
    entry asked for, and fails, changing nothing, exactly when there is none; a replacement makes
    the table that of the given list. *)
Theorem ProviderPlane_table plane :
  (forall order cred p id,
     match UpsertCredential order plane cred with
     | Ok plane' => Credential_Validate order cred = Ok () /\
         find_cred plane' p id
         = if String.eqb cred.(CProvider) p && String.eqb cred.(CID) id then Some cred
           else find_cred plane p id
     | Err _ => Credential_Validate order cred <> Ok ()
     end) /\
  (forall p id,
     match RemoveCredential plane p id with
     | Ok plane' => find_cred plane p id <> None /\ forall p' id',
         find_cred plane' p' id'
         = if String.eqb p p' && String.eqb id id' then None else find_cred plane p' id'
     | Err e => e = ErrNoCredential /\ find_cred plane p id = None
     end) /\
  (forall creds p id, find_cred (Replace plane creds) p id
     = List.find (fun c => String.eqb c.(CProvider) p && String.eqb c.(CID) id) creds).
Proof.
  splits.
  - intros order cred p id. destruct (UpsertCredential order plane cred) as [plane'|e] eqn:Hu.
    + split; [by apply UpsertCredential_Ok in Hu as [? _] | by apply (find_cred_upsert order)].
    + intros Hv. unfold UpsertCredential in Hu. rewrite Hv in Hu. by destruct (upsert_loop _ _).
  - intros p id. apply find_cred_remove.
  - intros creds p id. apply find_build.
Qed.

(** ** The invariant *)

Lemma bucket_ok_upserted cred b :
  Forall (fun c => c.(CProvider) = cred.(CProvider)) b -> NoDup (map CID b) ->
  bucket_ok cred.(CProvider) (upserted cred b).
Proof.
  intros Hp Hn. unfold bucket_ok, upserted.
  set (rep := map _ b).
  assert (Hids : map CID rep = map CID b).
  { unfold rep. rewrite map_map. apply map_ext. intros c.
    destruct (String.eqb_spec c.(CID) cred.(CID)); congruence. }
  assert (Hpr : Forall (fun c => c.(CProvider) = cred.(CProvider)) rep).
  { unfold rep. apply Forall_map. eapply Forall_impl; [exact Hp|]. intros c Hc; simpl. by case_match. }
  destruct (existsb _ b) eqn:Hex; splits.
  - intros Hnil. unfold rep in Hnil. destruct b; done.
  - done.
  - by rewrite Hids.
  - by destruct rep.
  - apply Forall_app. split; [done | by repeat constructor].
  - rewrite map_app, Hids. apply NoDup_app. split; [done|]. split; [|by apply NoDup_singleton].
    intros i (c & -> & Hin)%list_elem_of_fmap Hi. apply list_elem_of_singleton in Hi.
    assert (Ht : existsb (fun c => String.eqb c.(CID) cred.(CID)) b = true).
    { apply existsb_exists. exists c. split; [by apply list_elem_of_In | by apply String.eqb_eq]. }
    congruence.
Qed.

Lemma plane_ok_bucket plane p : plane_ok plane ->
  Forall (fun c => c.(CProvider) = p) (Plane_Credentials plane p) /\
  NoDup (map CID (Plane_Credentials plane p)).
Proof.
  destruct plane as [[m]|]; simpl; [|by repeat constructor].
  intros Hm. unfold bucket_of; simpl. destruct (m !! p) as [b|] eqn:Hb; simpl; [|by repeat constructor].
  by destruct (Hm p b Hb) as (_ & ? & ?).
Qed.

Lemma NoDup_ids_of creds p :
  NoDup (map (fun c => (c.(CProvider), c.(CID))) creds) ->
  NoDup (map CID (List.filter (fun c => String.eqb c.(CProvider) p) creds)).
Proof.
  induction creds as [|c creds IH]; simpl; [constructor|].
  intros [Hni Hn]%NoDup_cons. destruct (String.eqb_spec c.(CProvider) p) as [Hp|]; [|auto].
  simpl. apply NoDup_cons. split; [|auto].
  intros (c' & Hc & Hin)%list_elem_of_fmap. apply Hni, list_elem_of_fmap. exists c'.
  apply list_elem_of_In, List.filter_In in Hin as [Hin Hp']. apply String.eqb_eq in Hp'.
  split; [by rewrite Hc, Hp, Hp' | by apply list_elem_of_In].
Qed.

Lemma build_lookup creds p b : (buildCredSnapshot creds).(providerCredentials) !! p = Some b -> b <> [].
Proof.
  unfold buildCredSnapshot.
  assert (H : forall snap : snapshot, map_Forall (fun _ b => b <> []) snap.(providerCredentials) ->
     map_Forall (fun _ b => b <> []) (foldl (fun snap cred => snap <| providerCredentials ::=
      <[ cred.(CProvider) := (bucket_of snap cred.(CProvider) ++ [cred])%list ]> |>) snap creds).(providerCredentials)).
  { induction creds as [|c creds IH]; intros snap Hs; simpl; [done|]. apply IH; simpl.
    apply map_Forall_insert_2; [by destruct (bucket_of snap _) | done]. }
  intros Hb. exact (H (mkSnapshot ∅) (map_Forall_empty _) p b Hb).
Qed.

Lemma plane_ok_step a b : plane_ok a -> plane_step a b -> plane_ok b.
Proof.
  intros Ha Hs. destruct Hs as [order plane cred plane' Hu | plane p id plane' Hr | plane creds Hn].
  - apply UpsertCredential_Ok in Hu as [_ ->]. simpl.
    apply map_Forall_insert_2; [|by destruct plane as [[m]|]].
    rewrite clone_bucket. destruct (plane_ok_bucket plane cred.(CProvider) Ha).
    by apply bucket_ok_upserted.
  - unfold RemoveCredential in Hr. rewrite clone_bucket in Hr.
    assert (Hm : map_Forall bucket_ok (clone plane).(providerCredentials))
      by (by destruct plane as [[m]|]).
    destruct (_ =? List.length (Plane_Credentials plane p))%nat; [done|].
    destruct (_ =? 0)%nat eqn:Hz; injection Hr as <-; simpl.
    + by apply map_Forall_delete.
    + apply map_Forall_insert_2; [|done]. destruct (plane_ok_bucket plane p Ha) as [Hp Hn].
      apply Nat.eqb_neq in Hz. unfold bucket_ok. splits.
      * intros He. by rewrite He in Hz.
      * apply Forall_forall. intros c Hc%list_elem_of_In%List.filter_In.
        rewrite Forall_forall in Hp. apply Hp, list_elem_of_In, Hc.
      * clear Hz Hp. induction (Plane_Credentials plane p) as [|c l IH]; simpl in *; [constructor|].
        apply NoDup_cons in Hn as [Hni Hn]. destruct (negb _); simpl; [|auto].
        apply NoDup_cons. split; [|auto].
        intros (c' & Hc & Hin)%list_elem_of_fmap. apply Hni, list_elem_of_fmap. exists c'.
        split; [done|]. apply list_elem_of_In, List.filter_In in Hin as [Hin _]. by apply list_elem_of_In.
  - simpl. intros p b Hb. pose proof (build_lookup creds p b Hb) as Hne.
    assert (Hbk : b = List.filter (fun c => String.eqb c.(CProvider) p) creds).
    { rewrite <- bucket_build. unfold bucket_of. by rewrite Hb. }
    unfold bucket_ok. splits; [done | | by rewrite Hbk; apply NoDup_ids_of].
    rewrite Hbk. apply Forall_forall. intros c Hc%list_elem_of_In%List.filter_In.
    by apply String.eqb_eq, Hc.
Qed.

Lemma plane_ok_reachable plane : star plane_step None plane -> plane_ok plane.
Proof. intros H. apply (star_inv plane_step plane_ok None plane); [apply plane_ok_step | done | done]. Qed.

Lemma find_in_unique b c : NoDup (map CID b) -> c ∈ b -> find_in b c.(CID) = Some c.
Proof.
  unfold find_in. induction b as [|d b IH]; simpl; [intros _ ?%elem_of_nil; done|].
  intros [Hni Hn]%NoDup_cons [->|Hin]%elem_of_cons; [by rewrite String.eqb_refl|].
  destruct (String.eqb_spec d.(CID) c.(CID)) as [He|]; [|auto].
  exfalso. apply Hni, list_elem_of_fmap. by exists c.
Qed.

Lemma find_in_elem b i c : find_in b i = Some c -> c ∈ b /\ c.(CID) = i.
Proof. intros [Hin He]%List.find_some. by split; [apply list_elem_of_In | apply String.eqb_eq]. Qed.

(** in every plane reachable by updates (of a loaded list without repeated IDs), the
    candidates of a route are exactly the credentials of the table whose provider is the one asked
    for, which are enabled and unexpired at that time, and whose lists admit the model; each is
    offered once. *)
Theorem Plane_Candidates_spec plane now key :
  star plane_step None plane ->
  NoDup (map CID (Plane_Candidates now plane key)) /\
  forall c, c ∈ Plane_Candidates now plane key <->
    find_cred plane key.(KProvider) c.(CID) = Some c /\ c.(CProvider) = key.(KProvider) /\
    c.(Enabled) = true /\ (forall t, c.(ExpiryAt) = Some t -> (now < t)%Z) /\
    CheckModel (Some c) key.(ModelName) = true.
Proof.
  intros Hok%plane_ok_reachable.
  destruct (plane_ok_bucket plane key.(KProvider) Hok) as [Hp Hn].
  assert (Hc : Plane_Candidates now plane key
    = List.filter (usable now key.(ModelName)) (Plane_Credentials plane key.(KProvider)))
    by (by destruct plane).
  rewrite Hc. clear Hc. unfold find_cred. generalize dependent (Plane_Credentials plane key.(KProvider)).
  intros b Hp Hn. split.
  - clear Hp. induction b as [|c b IH]; simpl in *; [constructor|].
    apply NoDup_cons in Hn as [Hni Hn]. destruct (usable _ _ c); simpl; [|auto].
    apply NoDup_cons. split; [|auto].
    intros (c' & Hc & Hin)%list_elem_of_fmap. apply Hni, list_elem_of_fmap. exists c'.
    split; [done|]. apply list_elem_of_In, List.filter_In in Hin as [Hin _]. by apply list_elem_of_In.
  - intros c. rewrite list_elem_of_In, List.filter_In, <- list_elem_of_In.
    unfold usable, CheckValidity, time_after. rewrite !andb_true_iff. split.
    + intros (Hin & (He & Hx) & Hm). splits; try done.
      * by apply find_in_unique.
      * rewrite Forall_forall in Hp. by apply Hp.
      * intros t Ht. rewrite Ht in Hx. by apply Z.ltb_lt.
    + intros (Hf & _ & He & Hx & Hm). apply find_in_elem in Hf as [Hin _]. splits; try done.
      destruct c.(ExpiryAt) as [t|]; [apply Z.ltb_lt; auto | done].
Qed.

Definition plane_example : ProviderPlane :=
  NewProviderPlane [azure_credential; azure_credential <| CID := "c2" |> <| Enabled := false |>].

Lemma Plane_Candidates_spec_witness :
  Plane_Candidates 0 plane_example (mkCatalogKey ProviderAzure "gpt-4o" ModelTypeChat)
    = [azure_credential] /\
  NoDup (map CID (Plane_Candidates 0 plane_example (mkCatalogKey ProviderAzure "gpt-4o" ModelTypeChat))).
Proof.
  split; [vm_compute; reflexivity|].
  apply (Plane_Candidates_spec plane_example 0 (mkCatalogKey ProviderAzure "gpt-4o" ModelTypeChat)).
  eapply star_step; [|apply star_refl].
  apply (step_replace None [azure_credential; azure_credential <| CID := "c2" |> <| Enabled := false |>]).
  refine (bool_decide_unpack _ _). vm_compute. exact I.
Defined.
