(* ===== verification/Selection.v ===== *)
(** * Credential selection — [dataplane/dataplane.go]

    The selection engine resolves a request to a credential: it asks a credential source for the
    candidates of the provider the client named, or picks a provider by weight among those that
    have candidates, and then takes the next candidate in round-robin order.  The source is the
    interface [CredentialSource]; [rand.Float64()] is an argument; the cursors of the round robin
    are a map of [uint64] counters, each pick being one atomic increment.  Calling a method of a
    nil selector panics: [None]. *)

From S2P Require Import Prelude GoBase Float64 Errors Catalog VirtualKey Credential Context ProviderPlane.
Open Scope string_scope.

(** ** The interface of the credential source *)

Class CredentialSource (Src : Type) : Type := {
  Candidates : Src -> CatalogKey -> list Credential
}.

(** What the engine's clients rely on: a source only offers credentials of the provider asked for
    that admit the model. *)
Class CredentialSourceLaws (Src : Type) `{CredentialSource Src} : Prop := {
  Candidates_provider s key c : c ∈ Candidates s key -> c.(CProvider) = key.(KProvider);
  Candidates_model s key c : c ∈ Candidates s key -> CheckModel (Some c) key.(ModelName) = true
}.

(** ** Round robin *)

(** The cursors: a counter per route. *)
Abbreviation roundRobin := (gmap CatalogKey Z) (only parsing).

Definition newRoundRobin : roundRobin := ∅.

Definition Pick (r : roundRobin) (key : CatalogKey) (creds : list Credential)
    : roundRobin * option Credential :=
  match creds with
  | [] => (r, None)
  | [c] => (r, Some c)
  | _ =>
      let value := default 0%Z (r !! key) in
      let temp := wrapU64 (value + 1) in
      (<[ key := temp ]> r, creds !! Z.to_nat (temp mod Z.of_nat (List.length creds)))
  end.

(** ** The engine *)

Section engine.
Context {Src : Type} `{CredentialSource Src}.

Record SelectionEngine : Type := mkSelectionEngine {
  providerplane : Src;
  selectors : gmap LBKind roundRobin
}.
#[export] Instance SelectionEngine_eta : Eta SelectionEngine := fun se =>
  mkSelectionEngine (providerplane se) (selectors se).

Definition NewSelectionEngine (plane : Src) : SelectionEngine :=
  mkSelectionEngine plane {[ LBRoundRobin := newRoundRobin ]}.

(** [se.kind(kind)]: the kind whose selector is used. *)
Definition kind (se : SelectionEngine) (k : LBKind) : LBKind :=
  match se.(selectors) !! k with Some _ => k | None => LBRoundRobin end.

(** [se.kind(lb).Pick(key, creds)]. *)
Definition kind_Pick (se : SelectionEngine) (lb : LBKind) (key : CatalogKey) (creds : list Credential)
    : option (SelectionEngine * option Credential) :=
  let k := kind se lb in
  r ← se.(selectors) !! k;
  let '(r, chosen) := Pick r key creds in
  Some (se <| selectors ::= <[ k := r ]> |>, chosen).

(** [se.commit(rctx, key, cred)]. *)
Definition commit (rctx : DiffractLLMContext) (key : CatalogKey) (cred : Credential)
    : DiffractLLMContext :=
  rctx <| Modelkey := key |> <| SelectedCredential := Some cred |>.

(** The engine, the context and the result of a resolution; [None] panics. *)
Abbreviation Resolution :=
  (option (SelectionEngine * DiffractLLMContext * result DiffractLLMError Credential)) (only parsing).

Definition resolveExplicit (se : SelectionEngine) (rctx : DiffractLLMContext) (key : CatalogKey)
    (vk : VirtualKey) : Resolution :=
  match VirtualKey_ProviderConfig vk key.(KProvider) with
  | None =>
      Some (se, rctx,
        Err (NewForbidden ("provider " ++ key.(KProvider) ++ " is not permitted for this key")))
  | Some _ =>
      let creds := Candidates se.(providerplane) key in
      if (List.length creds =? 0)%nat then Some (se, rctx, Err (NewNoHealthyBackends (SlashKey key)))
      else
        '(se, chosen) ← kind_Pick se vk.(LoadBalancer) key creds;
        match chosen with
        | None => Some (se, rctx, Err (NewNoHealthyBackends (SlashKey key)))
        | Some c => Some (se, commit rctx key c, Ok c)
        end
  end.

(** The first loop of [resolveWeighted]: providers with candidates. *)
Definition viable_providers (se : SelectionEngine) (key : CatalogKey) (vk : VirtualKey)
    : gmap Provider (list Credential) :=
  foldl (fun viable cfg =>
           let creds := Candidates se.(providerplane)
                          (mkCatalogKey cfg.(PCProvider) key.(ModelName) key.(KModelType)) in
           if (0 <? List.length creds)%nat then <[ cfg.(PCProvider) := creds ]> viable else viable)
    ∅ vk.(ProviderConfigs).

Definition is_viable (viable : gmap Provider (list Credential)) (cfg : ProviderConfig) : bool :=
  match viable !! cfg.(PCProvider) with Some _ => true | None => false end.

(** The total weight of the viable providers. *)
Definition viable_total (viable : gmap Provider (list Credential)) (vk : VirtualKey) : f64 :=
  foldl (fun t cfg => if is_viable viable cfg then f64_add t cfg.(Weight) else t)
    f64_zero vk.(ProviderConfigs).

(** The draw: subtract weights until the target is negative, else the last viable provider. *)
Fixpoint draw (viable : gmap Provider (list Credential)) (configs : list ProviderConfig)
    (target : f64) (last : Provider) : Provider :=
  match configs with
  | [] => last
  | cfg :: rest =>
      if is_viable viable cfg then
        let target := f64_sub target cfg.(Weight) in
        if f64_ltb target f64_zero then cfg.(PCProvider)
        else draw viable rest target cfg.(PCProvider)
      else draw viable rest target last
  end.

Definition pickProvider (rnd : f64) (viable : gmap Provider (list Credential)) (vk : VirtualKey)
    : Provider :=
  draw viable vk.(ProviderConfigs) (f64_mul rnd (viable_total viable vk)) "".

Definition resolveWeighted (rnd : f64) (se : SelectionEngine) (rctx : DiffractLLMContext)
    (key : CatalogKey) (vk : VirtualKey) : Resolution :=
  let viable := viable_providers se key vk in
  if bool_decide (size viable = 0) then Some (se, rctx, Err (NewNoHealthyBackends key.(ModelName)))
  else
    let provider := pickProvider rnd viable vk in
    if is_empty provider then Some (se, rctx, Err (NewNoHealthyBackends key.(ModelName)))
    else
      let key := key <| KProvider := provider |> in
      '(se, chosen) ← kind_Pick se vk.(LoadBalancer) key (default [] (viable !! provider));
      match chosen with
      | None => Some (se, rctx, Err (NewNoHealthyBackends (SlashKey key)))
      | Some c => Some (se, commit rctx key c, Ok c)
      end.

(** [se.Resolve(rctx)] on a context that is not nil. *)
Definition Resolve (rnd : f64) (se : SelectionEngine) (rctx : DiffractLLMContext) : Resolution :=
  match (if is_empty rctx.(VirtualKeyID) then None else rctx.(VirtualKeyPolicy)) with
  | None =>
      Some (se, rctx, Err (NewAuthFailed "virtual key policy missing ,contact the adminstrator"))
  | Some vk =>
      if (List.length vk.(ProviderConfigs) =? 0)%nat then
        Some (se, rctx,
          Err (NewAuthFailed "virtual key policy provider configs are missing ,contact the adminstrator"))
      else
        let rkey := rctx.(Modelkey) in
        if is_empty rkey.(ModelName) then Some (se, rctx, Err (NewMissingParameter "model"))
        else if negb (is_empty rkey.(KProvider)) then resolveExplicit se rctx rkey vk
        else resolveWeighted rnd se rctx rkey vk
  end.

(** ** Picking *)

Lemma Pick_Some r key creds :
  creds <> [] -> exists c, (Pick r key creds).2 = Some c /\ c ∈ creds.
Proof.
  destruct creds as [|c [|d creds]]; [done | intros _; exists c; split; [done | left] | intros _].
  cbn [Pick snd]. set (i := Z.to_nat _).
  destruct ((c :: d :: creds) !! i) as [x|] eqn:Hx.
  - exists x. split; [done|]. by apply list_elem_of_lookup_2 in Hx.
  - exfalso. apply lookup_ge_None in Hx. unfold i in Hx.
    pose proof (Z.mod_pos_bound (wrapU64 (default 0%Z (r !! key) + 1)%Z)
      (Z.of_nat (List.length (c :: d :: creds))) ltac:(simpl; lia)). lia.
Qed.

(** An engine that can always pick. *)
Definition engine_ok (se : SelectionEngine) : Prop := is_Some (se.(selectors) !! LBRoundRobin).

Lemma kind_Pick_Some se lb key creds :
  engine_ok se -> creds <> [] ->
  exists se' c, kind_Pick se lb key creds = Some (se', Some c) /\ c ∈ creds /\
    se'.(providerplane) = se.(providerplane) /\ engine_ok se'.
Proof.
  intros [r0 Hr0] Hne. unfold kind_Pick, kind, engine_ok.
  assert (Hk : exists r, selectors se !! (match selectors se !! lb with Some _ => lb | None => LBRoundRobin end) = Some r).
  { destruct (selectors se !! lb) as [r|] eqn:E; eauto. }
  destruct Hk as [r Hr]. rewrite Hr. cbn [mbind option_bind].
  destruct (Pick_Some r key creds Hne) as (c & Hc & Hin).
  destruct (Pick r key creds) as [r' o]. simpl in Hc. subst o.
  eexists _, c. splits; try done. simpl.
  match goal with |- context [<[ ?k := _ ]> _] => destruct (decide (k = LBRoundRobin)) as [->|] end;
    [rewrite lookup_insert_eq | rewrite lookup_insert_ne by done]; eauto.
Qed.

(** ** Weighted choice *)

Lemma viable_lookup se key vk p creds :
  viable_providers se key vk !! p = Some creds ->
  creds <> [] /\ (exists cfg, cfg ∈ vk.(ProviderConfigs) /\ cfg.(PCProvider) = p) /\
  creds = Candidates se.(providerplane) (mkCatalogKey p key.(ModelName) key.(KModelType)).
Proof.
  unfold viable_providers.
  set (Good := fun (m : gmap Provider (list Credential)) => forall p creds, m !! p = Some creds ->
    creds <> [] /\ (exists cfg, cfg ∈ vk.(ProviderConfigs) /\ cfg.(PCProvider) = p) /\
    creds = Candidates se.(providerplane) (mkCatalogKey p key.(ModelName) key.(KModelType))).
  assert (Hgen : forall l m, (forall cfg, cfg ∈ l -> cfg ∈ vk.(ProviderConfigs)) -> Good m ->
    Good (foldl (fun viable cfg =>
           let creds := Candidates se.(providerplane)
                          (mkCatalogKey cfg.(PCProvider) key.(ModelName) key.(KModelType)) in
           if (0 <? List.length creds)%nat then <[ cfg.(PCProvider) := creds ]> viable else viable) m l)).
  { induction l as [|cfg l IH]; intros m Hl Hm; [done|]. cbn [foldl]. apply IH.
    { intros c Hc. apply Hl. by right. }
    destruct (Nat.ltb_spec 0 (List.length (Candidates se.(providerplane)
                (mkCatalogKey cfg.(PCProvider) key.(ModelName) key.(KModelType))))) as [Hn|]; [|done].
    intros q cs Hq. destruct (decide (q = cfg.(PCProvider))) as [->|Hne].
    - rewrite lookup_insert_eq in Hq. injection Hq as <-. splits; [|exists cfg|]; try done.
      + intros He. rewrite He in Hn. simpl in Hn. lia.
      + split; [apply Hl; left | done].
    - rewrite lookup_insert_ne in Hq by done. by apply Hm. }
  apply (Hgen vk.(ProviderConfigs) ∅); [done|]. intros q cs Hq. by rewrite lookup_empty in Hq.
Qed.

Lemma viable_complete se key vk cfg :
  cfg ∈ vk.(ProviderConfigs) ->
  Candidates se.(providerplane) (mkCatalogKey cfg.(PCProvider) key.(ModelName) key.(KModelType)) <> [] ->
  is_Some (viable_providers se key vk !! cfg.(PCProvider)).
Proof.
  intros Hin Hne. unfold viable_providers.
  set (f := fun viable cfg => _).
  assert (Hkeep : forall l m p, is_Some (m !! p) -> is_Some (foldl f m l !! p)).
  { induction l as [|d l IH]; intros m p Hm; [done|]. cbn [foldl]. apply IH. unfold f.
    case_match; [|done]. destruct (decide (p = d.(PCProvider))) as [->|];
      [rewrite lookup_insert_eq | rewrite lookup_insert_ne by done]; eauto. }
  assert (Hgen : forall l m, cfg ∈ l -> is_Some (foldl f m l !! cfg.(PCProvider))).
  { induction l as [|d l IH]; intros m Hc; [by apply elem_of_nil in Hc|].
    apply elem_of_cons in Hc as [<-|Hc]; cbn [foldl]; [|by apply IH].
    apply Hkeep. unfold f.
    destruct (Nat.ltb_spec 0 (List.length (Candidates se.(providerplane)
      (mkCatalogKey cfg.(PCProvider) key.(ModelName) key.(KModelType))))) as [|Hn].
    - rewrite lookup_insert_eq. eauto.
    - exfalso. apply Hne, nil_length_inv. lia. }
  by apply Hgen.
Qed.

(** Whatever the weights (even NaN) and the random number, the draw gives a viable provider when
    there is one. *)
Lemma draw_viable viable configs target last :
  (exists cfg, cfg ∈ configs /\ is_viable viable cfg = true) \/ is_Some (viable !! last) ->
  is_Some (viable !! draw viable configs target last).
Proof.
  revert target last. induction configs as [|cfg configs IH]; intros target last Hv; cbn [draw].
  { destruct Hv as [(c & Hc & _)|]; [by apply elem_of_nil in Hc | done]. }
  unfold is_viable at 1. destruct (viable !! cfg.(PCProvider)) as [cs|] eqn:Hl.
  - case_match; [by rewrite Hl|]. apply IH. right. by rewrite Hl.
  - apply IH. destruct Hv as [(c & [->|Hc]%elem_of_cons & Hvc)|]; [|by eauto|by right].
    unfold is_viable in Hvc. by rewrite Hl in Hvc.
Qed.
(** ** Properties *)

Definition config_key (key : CatalogKey) (cfg : ProviderConfig) : CatalogKey :=
  mkCatalogKey cfg.(PCProvider) key.(ModelName) key.(KModelType).

Lemma viable_empty se key vk :
  size (viable_providers se key vk) = 0 <->
  forall cfg, cfg ∈ vk.(ProviderConfigs) ->
    Candidates se.(providerplane) (config_key key cfg) = [].
Proof.
  rewrite map_size_empty_iff. split.
  - intros He cfg Hin. destruct (decide (Candidates se.(providerplane) (config_key key cfg) = [])) as [|Hne]; [done|].
    destruct (viable_complete se key vk cfg Hin Hne) as [x Hx]. by rewrite He, lookup_empty in Hx.
  - intros Hall. apply map_empty. intros p.
    destruct (viable_providers se key vk !! p) as [cs|] eqn:Hp; [|done].
    apply viable_lookup in Hp as (Hne & (cfg & Hin & <-) & ->). exfalso. by apply Hne, Hall.
Qed.

(** What a resolution promises of its outcome. *)
Definition resolved (se : SelectionEngine) (rctx : DiffractLLMContext) (vk : VirtualKey)
    (rctx' : DiffractLLMContext) (res : result DiffractLLMError Credential) : Prop :=
  let key := rctx.(Modelkey) in
  match res with
  | Ok c => exists cfg, cfg ∈ vk.(ProviderConfigs) /\
      (key.(KProvider) = "" \/ key.(KProvider) = cfg.(PCProvider)) /\
      rctx' = rctx <| Modelkey := config_key key cfg |> <| SelectedCredential := Some c |> /\
      c ∈ Candidates se.(providerplane) (config_key key cfg) /\
      c.(CProvider) = cfg.(PCProvider) /\ CheckModel (Some c) key.(ModelName) = true
  | Err e => rctx' = rctx /\ forall cfg, cfg ∈ vk.(ProviderConfigs) ->
      (key.(KProvider) = "" \/ key.(KProvider) = cfg.(PCProvider)) ->
      Candidates se.(providerplane) (config_key key cfg) = []
  end.

Lemma resolveExplicit_spec `{!CredentialSourceLaws Src} se rctx vk :
  engine_ok se -> rctx.(Modelkey).(KProvider) <> "" ->
  exists se' rctx' res,
    resolveExplicit se rctx rctx.(Modelkey) vk = Some (se', rctx', res) /\
    engine_ok se' /\ se'.(providerplane) = se.(providerplane) /\ resolved se rctx vk rctx' res.
Proof.
  intros Hok Hp. unfold resolveExplicit, VirtualKey_ProviderConfig.
  set (key := rctx.(Modelkey)) in *.
  destruct (find_config _ _) as [cfg|] eqn:Hf.
  2: { eexists _, _, _. split; [reflexivity|]. splits; try done.
       split; [done|]. fold key. intros cfg Hin [|He]; [done|].
       by destruct (proj1 (find_config_None _ _) Hf cfg Hin). }
  apply find_config_elem in Hf as [Hin Hpc].
  assert (Hkey : config_key key cfg = key) by (unfold config_key; rewrite Hpc; by destruct key).
  destruct (_ =? 0)%nat eqn:Hlen.
  { apply Nat.eqb_eq, nil_length_inv in Hlen.
    eexists _, _, _. split; [reflexivity|]. splits; try done. split; [done|]. fold key.
    intros cfg' Hin' [|He]; [done|].
    replace (config_key key cfg') with key; [done|]. unfold config_key. rewrite <- He. by destruct key. }
  assert (Hne : Candidates se.(providerplane) key <> []) by (intros He; by rewrite He in Hlen).
  destruct (kind_Pick_Some se vk.(LoadBalancer) key _ Hok Hne) as (se' & c & Hk & Hc & Hpp & Hok').
  rewrite Hk. cbn [mbind option_bind]. eexists _, _, _. split; [reflexivity|]. splits; try done.
  exists cfg. fold key. rewrite Hkey, Hpc. splits; try done; [by right | | ].
  - by apply (Candidates_provider se.(providerplane) key).
  - by apply (Candidates_model se.(providerplane) key).
Qed.

Lemma resolveWeighted_spec `{!CredentialSourceLaws Src} rnd se rctx vk :
  engine_ok se -> rctx.(Modelkey).(KProvider) = "" ->
  Forall (fun cfg => cfg.(PCProvider) <> "") vk.(ProviderConfigs) ->
  exists se' rctx' res,
    resolveWeighted rnd se rctx rctx.(Modelkey) vk = Some (se', rctx', res) /\
    engine_ok se' /\ se'.(providerplane) = se.(providerplane) /\ resolved se rctx vk rctx' res.
Proof.
  intros Hok Hp Hnames. unfold resolveWeighted. set (key := rctx.(Modelkey)) in *.
  case_bool_decide as Hsz.
  { eexists _, _, _. split; [reflexivity|]. splits; try done. split; [done|]. intros cfg Hin _.
    by apply (proj1 (viable_empty se key vk)). }
  set (viable := viable_providers se key vk) in *.
  assert (Hv : is_Some (viable !! pickProvider rnd viable vk)).
  { apply draw_viable. left.
    assert (Hex : viable <> ∅) by (intros He; apply Hsz; by rewrite He, map_size_empty).
    apply map_choose in Hex as (p & cs & Hpc). pose proof Hpc as Hpc'.
    apply viable_lookup in Hpc as (_ & (cfg & Hin & <-) & _). exists cfg. split; [done|].
    unfold is_viable. by rewrite Hpc'. }
  destruct Hv as [cs Hcs]. rewrite Hcs.
  pose proof (viable_lookup se key vk _ _ Hcs) as (Hne & (cfg & Hin & Hpc) & Heq).
  rewrite <- Hpc in *. rewrite Forall_forall in Hnames.
  rewrite (proj2 (is_empty_false _) (Hnames cfg Hin)). cbn [default].
  destruct (kind_Pick_Some se vk.(LoadBalancer) (config_key key cfg) cs Hok Hne)
    as (se' & c & Hk & Hc & Hpp & Hok').
  match goal with |- context [kind_Pick se ?l ?k ?cs'] =>
    change (kind_Pick se l k cs') with (kind_Pick se l (config_key key cfg) cs) end.
  rewrite Hk. cbn [mbind option_bind]. eexists _, _, _. split; [reflexivity|]. splits; try done.
  exists cfg. fold key. rewrite Heq in Hc. splits; try done; [by left | | ].
  - by apply (Candidates_provider se.(providerplane) (config_key key cfg)).
  - by apply (Candidates_model se.(providerplane) (config_key key cfg)).
Qed.

Lemma Resolve_run `{!CredentialSourceLaws Src} rnd se rctx vk :
  engine_ok se -> rctx.(VirtualKeyID) <> "" -> rctx.(VirtualKeyPolicy) = Some vk ->
  Forall (fun cfg => cfg.(PCProvider) <> "") vk.(ProviderConfigs) -> rctx.(Modelkey).(ModelName) <> "" ->
  exists se' rctx' res, Resolve rnd se rctx = Some (se', rctx', res) /\
    engine_ok se' /\ se'.(providerplane) = se.(providerplane) /\ resolved se rctx vk rctx' res.
Proof.
  intros Hok Hid Hvk Hnames Hm. unfold Resolve.
  rewrite (proj2 (is_empty_false _) Hid), Hvk.
  destruct (_ =? 0)%nat eqn:Hl.
  { apply Nat.eqb_eq, nil_length_inv in Hl. eexists _, _, _. split; [reflexivity|]. splits; try done.
    split; [done|]. rewrite Hl. by intros cfg Hin%elem_of_nil. }
  rewrite (proj2 (is_empty_false _) Hm).
  destruct (is_empty (KProvider _)) eqn:Hp; cbn [negb].
  - apply resolveWeighted_spec; [done | by apply is_empty_true | done].
  - apply resolveExplicit_spec; [done | by apply is_empty_false].
Qed.

(** *** The draw, described without its loop *)

(** The configured providers that have a candidate, in the order of the key. *)
Definition can_serve (se : SelectionEngine) (key : CatalogKey) (vk : VirtualKey) : list ProviderConfig :=
  filter (fun cfg => Candidates se.(providerplane) (config_key key cfg) <> []) vk.(ProviderConfigs).

(** What is left of a target once the weights of some providers are taken off, in order. *)
Definition left_after (target : f64) (cfgs : list ProviderConfig) : f64 :=
  foldl f64_sub target (map Weight cfgs).

(** [cfg] is the provider of [cfgs] a target falls on: the first one whose weight takes what is
    left below zero, or the last one when none does. *)
Definition falls_on (target : f64) (cfgs : list ProviderConfig) (cfg : ProviderConfig) : Prop :=
  exists before after : list ProviderConfig, cfgs = (before ++ cfg :: after)%list /\
    (forall n, (0 < n <= List.length before)%nat ->
       f64_ltb (left_after target (take n before)) f64_zero = false) /\
    (f64_ltb (left_after target (before ++ [cfg])%list) f64_zero = true \/ after = []).

(** The target of a draw: the random number times the total weight of those that can serve. *)
Definition draw_target (rnd : f64) (cfgs : list ProviderConfig) : f64 :=
  f64_mul rnd (foldl f64_add f64_zero (map Weight cfgs)).

(** The turn of the round robin: a lone candidate is taken without counting; among several the
    route's counter advances by one, modulo [2^64], and designates the candidate. *)
Inductive in_turn (r : roundRobin) (key : CatalogKey) : list Credential -> roundRobin -> Credential -> Prop :=
  | turn_alone c : in_turn r key [c] r c
  | turn_next creds c v :
      (2 <= List.length creds)%nat -> v = wrapU64 (default 0%Z (r !! key) + 1) ->
      creds !! Z.to_nat (v mod Z.of_nat (List.length creds)) = Some c ->
      in_turn r key creds (<[ key := v ]> r) c.

(** The selector a key asks for takes the turn; one the engine does not have is replaced by the
    round robin. *)
Definition takes_turn (se : SelectionEngine) (lb : LBKind) (key : CatalogKey) (creds : list Credential)
    (se' : SelectionEngine) (c : Credential) : Prop :=
  exists k r r', (k = lb \/ se.(selectors) !! lb = None /\ k = LBRoundRobin) /\
    se.(selectors) !! k = Some r /\ in_turn r key creds r' c /\
    se' = mkSelectionEngine se.(providerplane) (<[ k := r' ]> se.(selectors)).

(** The outcomes of a resolution, each with its condition.  A refusal changes nothing. *)
Inductive resolution (rnd : f64) (se : SelectionEngine) (rctx : DiffractLLMContext) :
    SelectionEngine -> DiffractLLMContext -> result DiffractLLMError Credential -> Prop :=
  | refused_anonymous :
      rctx.(VirtualKeyID) = "" \/ rctx.(VirtualKeyPolicy) = None ->
      resolution rnd se rctx se rctx
        (Err (NewAuthFailed "virtual key policy missing ,contact the adminstrator"))
  | refused_unconfigured vk :
      rctx.(VirtualKeyID) <> "" -> rctx.(VirtualKeyPolicy) = Some vk -> vk.(ProviderConfigs) = [] ->
      resolution rnd se rctx se rctx
        (Err (NewAuthFailed "virtual key policy provider configs are missing ,contact the adminstrator"))
  | refused_no_model vk :
      rctx.(VirtualKeyID) <> "" -> rctx.(VirtualKeyPolicy) = Some vk -> vk.(ProviderConfigs) <> [] ->
      rctx.(Modelkey).(ModelName) = "" ->
      resolution rnd se rctx se rctx (Err (NewMissingParameter "model"))
  | refused_provider vk p :
      rctx.(VirtualKeyID) <> "" -> rctx.(VirtualKeyPolicy) = Some vk -> vk.(ProviderConfigs) <> [] ->
      rctx.(Modelkey).(ModelName) <> "" -> rctx.(Modelkey).(KProvider) = p -> p <> "" ->
      (forall cfg, cfg ∈ vk.(ProviderConfigs) -> cfg.(PCProvider) <> p) ->
      resolution rnd se rctx se rctx
        (Err (NewForbidden ("provider " ++ p ++ " is not permitted for this key")))
  | refused_no_candidate vk cfg :
      rctx.(VirtualKeyID) <> "" -> rctx.(VirtualKeyPolicy) = Some vk ->
      rctx.(Modelkey).(ModelName) <> "" -> rctx.(Modelkey).(KProvider) <> "" ->
      cfg ∈ vk.(ProviderConfigs) -> cfg.(PCProvider) = rctx.(Modelkey).(KProvider) ->
      Candidates se.(providerplane) rctx.(Modelkey) = [] ->
      resolution rnd se rctx se rctx (Err (NewNoHealthyBackends (SlashKey rctx.(Modelkey))))
  | refused_none_can_serve vk :
      rctx.(VirtualKeyID) <> "" -> rctx.(VirtualKeyPolicy) = Some vk -> vk.(ProviderConfigs) <> [] ->
      rctx.(Modelkey).(ModelName) <> "" -> rctx.(Modelkey).(KProvider) = "" ->
      can_serve se rctx.(Modelkey) vk = [] ->
      resolution rnd se rctx se rctx (Err (NewNoHealthyBackends rctx.(Modelkey).(ModelName)))
  | refused_nameless vk cfg :
      rctx.(VirtualKeyID) <> "" -> rctx.(VirtualKeyPolicy) = Some vk ->
      rctx.(Modelkey).(ModelName) <> "" -> rctx.(Modelkey).(KProvider) = "" ->
      falls_on (draw_target rnd (can_serve se rctx.(Modelkey) vk)) (can_serve se rctx.(Modelkey) vk) cfg ->
      cfg.(PCProvider) = "" ->
      resolution rnd se rctx se rctx (Err (NewNoHealthyBackends rctx.(Modelkey).(ModelName)))
  | resolved_named vk cfg se' c :
      rctx.(VirtualKeyID) <> "" -> rctx.(VirtualKeyPolicy) = Some vk ->
      rctx.(Modelkey).(ModelName) <> "" -> rctx.(Modelkey).(KProvider) <> "" ->
      cfg ∈ vk.(ProviderConfigs) -> cfg.(PCProvider) = rctx.(Modelkey).(KProvider) ->
      takes_turn se vk.(LoadBalancer) rctx.(Modelkey)
        (Candidates se.(providerplane) rctx.(Modelkey)) se' c ->
      resolution rnd se rctx se' (rctx <| SelectedCredential := Some c |>) (Ok c)
  | resolved_drawn vk cfg se' c :
      rctx.(VirtualKeyID) <> "" -> rctx.(VirtualKeyPolicy) = Some vk ->
      rctx.(Modelkey).(ModelName) <> "" -> rctx.(Modelkey).(KProvider) = "" ->
      falls_on (draw_target rnd (can_serve se rctx.(Modelkey) vk)) (can_serve se rctx.(Modelkey) vk) cfg ->
      cfg.(PCProvider) <> "" ->
      takes_turn se vk.(LoadBalancer) (config_key rctx.(Modelkey) cfg)
        (Candidates se.(providerplane) (config_key rctx.(Modelkey) cfg)) se' c ->
      resolution rnd se rctx se'
        (rctx <| Modelkey := config_key rctx.(Modelkey) cfg |> <| SelectedCredential := Some c |>) (Ok c).

Lemma Pick_turn r key creds :
  creds <> [] -> exists c, (Pick r key creds).2 = Some c /\ in_turn r key creds (Pick r key creds).1 c.
Proof.
  intros Hne. destruct (Pick_Some r key creds Hne) as (c & Hc & _). exists c. split; [done|].
  destruct creds as [|d [|e creds]]; [done | |].
  - injection Hc as <-. constructor.
  - eapply turn_next; [simpl; lia | done | exact Hc].
Qed.

Lemma kind_Pick_turn se lb key creds :
  engine_ok se -> creds <> [] ->
  exists se' c, kind_Pick se lb key creds = Some (se', Some c) /\ takes_turn se lb key creds se' c.
Proof.
  intros [r0 Hr0] Hne. unfold kind_Pick.
  assert (Hk : exists r, selectors se !! kind se lb = Some r /\
                (kind se lb = lb \/ selectors se !! lb = None /\ kind se lb = LBRoundRobin)).
  { unfold kind. destruct (selectors se !! lb) as [r|] eqn:E; [exists r; auto | exists r0; auto]. }
  destruct Hk as (r & Hr & Hk). rewrite Hr. cbn [mbind option_bind].
  destruct (Pick_turn r key creds Hne) as (c & Hc & Ht).
  destruct (Pick r key creds) as [r' o]. cbn [fst snd] in *. subst o.
  eexists _, c. split; [reflexivity|]. by exists (kind se lb), r, r'.
Qed.

Lemma takes_turn_ok se lb key creds se' c :
  engine_ok se -> takes_turn se lb key creds se' c ->
  c ∈ creds /\ engine_ok se' /\ se'.(providerplane) = se.(providerplane).
Proof.
  intros [r0 Hr0] (k & r & r' & _ & _ & Ht & ->). splits; [| |done].
  - destruct Ht as [|? ? ? ? _ Hl]; [left | by apply list_elem_of_lookup_2 in Hl].
  - unfold engine_ok. simpl. destruct (decide (k = LBRoundRobin)) as [->|];
      [rewrite lookup_insert_eq | rewrite lookup_insert_ne by done]; eauto.
Qed.

(** Viability in the map is having a candidate. *)
Lemma is_viable_spec se key vk cfg :
  cfg ∈ vk.(ProviderConfigs) ->
  is_viable (viable_providers se key vk) cfg
  = bool_decide (Candidates se.(providerplane) (config_key key cfg) <> []).
Proof.
  intros Hin. unfold is_viable. case_bool_decide as Hc.
  - by destruct (viable_complete se key vk cfg Hin Hc) as [x ->].
  - destruct (_ !! _) as [cs|] eqn:Hl; [|done].
    apply viable_lookup in Hl as (Hne & _ & ->). done.
Qed.

Lemma viable_total_spec se key vk :
  viable_total (viable_providers se key vk) vk
  = foldl f64_add f64_zero (map Weight (can_serve se key vk)).
Proof.
  unfold viable_total, can_serve.
  assert (Hgen : forall l t, (forall cfg, cfg ∈ l -> cfg ∈ vk.(ProviderConfigs)) ->
    foldl (fun t cfg => if is_viable (viable_providers se key vk) cfg then f64_add t cfg.(Weight) else t) t l
    = foldl f64_add t (map Weight (filter (fun cfg => Candidates se.(providerplane) (config_key key cfg) <> []) l))).
  { induction l as [|cfg l IH]; intros t Hl; [done|]. cbn [foldl].
    rewrite is_viable_spec by (apply Hl; left). case_bool_decide as Hc.
    - rewrite filter_cons_True by done. cbn [map foldl]. apply IH. intros d Hd. apply Hl. by right.
    - rewrite filter_cons_False by (by intros Hn; apply Hn). apply IH. intros d Hd. apply Hl. by right. }
  by apply Hgen.
Qed.

(** The loop of the draw over a list of providers stops at the one the target falls on. *)
Lemma draw_falls_on (viable : gmap Provider (list Credential)) (P : ProviderConfig -> Prop)
    `{!forall cfg, Decision (P cfg)} l target last :
  (forall cfg, cfg ∈ l -> is_viable viable cfg = bool_decide (P cfg)) ->
  filter P l = [] /\ draw viable l target last = last \/
  exists cfg, falls_on target (filter P l) cfg /\ draw viable l target last = cfg.(PCProvider).
Proof.
  revert target last. induction l as [|cfg l IH]; intros target last Hl; [by left|].
  cbn [draw]. rewrite Hl by left.
  assert (Hl' : forall d, d ∈ l -> is_viable viable d = bool_decide (P d))
    by (intros d Hd; apply Hl; by right).
  case_bool_decide as Hc; [rewrite filter_cons_True by done | rewrite filter_cons_False by done; by apply IH].
  right. destruct (f64_ltb (f64_sub target cfg.(Weight)) f64_zero) eqn:Hlt.
  - exists cfg. split; [|done]. exists [], (filter P l). splits; [done| |by left].
    simpl. intros n ?. lia.
  - destruct (IH (f64_sub target cfg.(Weight)) cfg.(PCProvider) Hl') as [[-> Hd]|(d & Hf & Hd)].
    + exists cfg. split; [|done]. exists [], []. splits; [done| |by right]. simpl. intros n ?. lia.
    + exists d. split; [|done]. destruct Hf as (before & after & He & Hb & Ha).
      exists (cfg :: before), after. splits; [by rewrite He | | done].
      intros [|n] Hn; [lia|]. cbn [take]. destruct n as [|n]; [done|].
      apply (Hb (S n)). simpl in Hn. lia.
Qed.

Lemma resolveExplicit_resolution rnd se rctx vk :
  engine_ok se -> rctx.(VirtualKeyID) <> "" -> rctx.(VirtualKeyPolicy) = Some vk ->
  vk.(ProviderConfigs) <> [] ->
  rctx.(Modelkey).(ModelName) <> "" -> rctx.(Modelkey).(KProvider) <> "" ->
  exists se' rctx' res, resolveExplicit se rctx rctx.(Modelkey) vk = Some (se', rctx', res) /\
    resolution rnd se rctx se' rctx' res.
Proof.
  intros Hok Hid Hvk Hcf Hm Hp. unfold resolveExplicit, VirtualKey_ProviderConfig.
  destruct (find_config _ _) as [cfg|] eqn:Hf.
  2: { eexists _, _, _. split; [reflexivity|]. eapply refused_provider; try done.
       by apply find_config_None. }
  apply find_config_elem in Hf as [Hin Hpc].
  destruct (_ =? 0)%nat eqn:Hlen.
  { apply Nat.eqb_eq, nil_length_inv in Hlen.
    eexists _, _, _. split; [reflexivity|]. by eapply refused_no_candidate. }
  assert (Hne : Candidates se.(providerplane) rctx.(Modelkey) <> []) by (intros He; by rewrite He in Hlen).
  destruct (kind_Pick_turn se vk.(LoadBalancer) rctx.(Modelkey) _ Hok Hne) as (se' & c & Hk & Ht).
  rewrite Hk. cbn [mbind option_bind]. eexists _, _, _. split; [reflexivity|].
  replace (commit rctx (Modelkey rctx) c) with (rctx <| SelectedCredential := Some c |>)
    by (unfold commit; by destruct rctx).
  by eapply resolved_named.
Qed.

Lemma resolveWeighted_resolution rnd se rctx vk :
  engine_ok se -> rctx.(VirtualKeyID) <> "" -> rctx.(VirtualKeyPolicy) = Some vk ->
  vk.(ProviderConfigs) <> [] ->
  rctx.(Modelkey).(ModelName) <> "" -> rctx.(Modelkey).(KProvider) = "" ->
  exists se' rctx' res, resolveWeighted rnd se rctx rctx.(Modelkey) vk = Some (se', rctx', res) /\
    resolution rnd se rctx se' rctx' res.
Proof.
  intros Hok Hid Hvk Hcf Hm Hp. unfold resolveWeighted. set (key := rctx.(Modelkey)) in *.
  set (viable := viable_providers se key vk).
  destruct (draw_falls_on viable (fun cfg => Candidates se.(providerplane) (config_key key cfg) <> [])
    vk.(ProviderConfigs) (f64_mul rnd (viable_total viable vk)) "" (fun cfg => is_viable_spec se key vk cfg))
    as [[Hnil _]|(cfg & Hf & Hd)]; fold (can_serve se key vk) in *.
  - rewrite bool_decide_true.
    { eexists _, _, _. split; [reflexivity|]. by eapply refused_none_can_serve. }
    apply viable_empty. intros cfg Hin.
    destruct (decide (Candidates se.(providerplane) (config_key key cfg) = [])) as [|Hne]; [done|].
    exfalso. apply (not_elem_of_nil cfg). rewrite <- Hnil. by apply list_elem_of_filter.
  - unfold viable in Hf. rewrite viable_total_spec in Hf. fold (draw_target rnd (can_serve se key vk)) in Hf.
    assert (Hin : cfg ∈ can_serve se key vk)
      by (destruct Hf as (b & a & -> & _); apply elem_of_app; right; left).
    apply list_elem_of_filter in Hin as [Hne Hin].
    destruct (viable_complete se key vk cfg Hin Hne) as [cs Hcs].
    rewrite bool_decide_false.
    2: { rewrite map_size_empty_iff. intros He. fold viable in Hcs. by rewrite He, lookup_empty in Hcs. }
    unfold pickProvider. rewrite Hd. destruct (is_empty (PCProvider cfg)) eqn:He.
    { eexists _, _, _. split; [reflexivity|]. eapply refused_nameless; try done. by apply is_empty_true. }
    unfold viable. rewrite Hcs. apply viable_lookup in Hcs as (_ & _ & ->). cbn [default].
    change (mkCatalogKey (PCProvider cfg) (ModelName key) (KModelType key)) with (config_key key cfg).
    destruct (kind_Pick_turn se vk.(LoadBalancer) (config_key key cfg) _ Hok Hne) as (se' & c & Hk & Ht).
    change (key <| KProvider := PCProvider cfg |>) with (config_key key cfg). cbn [id].
    rewrite Hk. cbn [mbind option_bind]. eexists _, _, _. split; [reflexivity|].
    eapply resolved_drawn; try done. by apply is_empty_false.
Qed.

(** C2: a resolution never panics and has one of the outcomes of [resolution], whatever the
    context.  Each refusal carries its stated error and changes neither the engine nor the
    context: no policy, a policy without providers, no model, a named provider the key does not
    configure, no candidate, a drawn configuration without a provider name.  Otherwise the provider
    is the one the client named (if the key configures it), or, when none was named, the one the
    random number falls on: weights are subtracted in the key's order, over the configured
    providers that have a candidate, from the random number times their total, until the rest is
    negative.  The credential is the next in
    turn of that provider's candidates, and becomes the context's selected credential on that
    route.  It belongs to that provider and admits the model.  The key's own per-provider model
    lists are not consulted here. *)
Theorem Resolve_spec `{!CredentialSourceLaws Src} rnd se rctx :
  engine_ok se ->
  exists se' rctx' res, Resolve rnd se rctx = Some (se', rctx', res) /\
    engine_ok se' /\ se'.(providerplane) = se.(providerplane) /\
    resolution rnd se rctx se' rctx' res /\
    match res with
    | Ok c => rctx'.(SelectedCredential) = Some c /\ c.(CProvider) = rctx'.(Modelkey).(KProvider) /\
        CheckModel (Some c) rctx.(Modelkey).(ModelName) = true /\
        rctx'.(Modelkey).(ModelName) = rctx.(Modelkey).(ModelName)
    | Err _ => rctx' = rctx /\ se' = se
    end.
Proof.
  intros Hok.
  assert (Hrun : exists se' rctx' res, Resolve rnd se rctx = Some (se', rctx', res) /\
                   resolution rnd se rctx se' rctx' res).
  { unfold Resolve. destruct (is_empty (VirtualKeyID rctx)) eqn:Hid.
    { eexists _, _, _. split; [reflexivity|]. constructor. left. by apply is_empty_true. }
    destruct (VirtualKeyPolicy rctx) as [vk|] eqn:Hvk.
    2: { eexists _, _, _. split; [reflexivity|]. constructor. by right. }
    apply is_empty_false in Hid. destruct (_ =? 0)%nat eqn:Hl.
    { apply Nat.eqb_eq, nil_length_inv in Hl. eexists _, _, _. split; [reflexivity|].
      by eapply refused_unconfigured. }
    assert (Hcf : vk.(ProviderConfigs) <> []) by (intros He; by rewrite He in Hl).
    destruct (is_empty (ModelName _)) eqn:Hm.
    { eexists _, _, _. split; [reflexivity|]. eapply refused_no_model; try done. by apply is_empty_true. }
    apply is_empty_false in Hm. destruct (is_empty (KProvider _)) eqn:Hp; cbn [negb].
    - apply resolveWeighted_resolution; try done. by apply is_empty_true.
    - apply resolveExplicit_resolution; try done. by apply is_empty_false. }
  destruct Hrun as (se' & rctx' & res & Hr & Hres). exists se', rctx', res. split; [done|].
  pose proof Hres as Hcase.
  destruct Hcase as [| | | | | | |vk cfg se' c ? ? ? ? ? ? Ht|vk cfg se' c ? ? ? ? ? ? Ht];
    try (by splits).
  all: destruct (takes_turn_ok _ _ _ _ _ _ Hok Ht) as (Hc & Hok' & Hpp); splits; try done.
  - by apply (Candidates_provider se.(providerplane) rctx.(Modelkey)).
  - by apply (Candidates_model se.(providerplane) rctx.(Modelkey)).
  - by apply (Candidates_provider se.(providerplane) (config_key rctx.(Modelkey) cfg)).
  - by apply (Candidates_model se.(providerplane) (config_key rctx.(Modelkey) cfg)).
Qed.
End engine.
Arguments SelectionEngine : clear implicits.

(** ** Fairness of the round robin *)

(** [n] picks in a row on one route. *)
Fixpoint picks (n : nat) (r : gmap CatalogKey Z) (key : CatalogKey) (creds : list Credential)
    : gmap CatalogKey Z * list (option Credential) :=
  match n with
  | O => (r, [])
  | Datatypes.S n' =>
      let '(r, c) := Pick r key creds in
      let '(r, cs) := picks n' r key creds in (r, c :: cs)
  end.

Lemma Pick_step r key creds :
  (2 <= List.length creds)%nat ->
  let v := wrapU64 (default 0%Z (r !! key) + 1) in
  Pick r key creds = (<[ key := v ]> r, creds !! Z.to_nat (v mod Z.of_nat (List.length creds))).
Proof. destruct creds as [|c [|d creds]]; simpl; try lia. done. Qed.

Lemma picks_lookup n r key creds :
  (2 <= List.length creds)%nat ->
  let v := default 0%Z (r !! key) in
  (0 <= v)%Z -> (v + Z.of_nat n < two64)%Z ->
  (picks n r key creds).2
  = map (fun i => creds !! Z.to_nat ((v + 1 + Z.of_nat i) mod Z.of_nat (List.length creds))) (seq 0 n) /\
  (forall k, k <> key -> (picks n r key creds).1 !! k = r !! k).
Proof.
  intros Hlen. revert r. induction n as [|n IH]; intros r v Hv Hn; [done|].
  cbn [picks]. rewrite Pick_step by done. fold v.
  assert (Hw : wrapU64 (v + 1) = (v + 1)%Z) by (unfold wrapU64; rewrite Z.mod_small; lia).
  rewrite Hw. specialize (IH (<[ key := (v + 1)%Z ]> r)). rewrite lookup_insert_eq in IH.
  cbn [default from_option id] in IH. destruct (IH ltac:(lia) ltac:(lia)) as [IH1 IH2]. clear IH.
  destruct (picks n _ key creds) as [r' cs]. cbn [fst snd] in *. subst cs. split.
  - cbn [seq map]. f_equal; [by rewrite Z.add_0_r|].
    rewrite <- seq_shift, map_map. apply map_ext. intros i. do 3 f_equal. lia.
  - intros k Hk. by rewrite IH2, lookup_insert_ne by done.
Qed.

(** any [n] consecutive picks among the same [n >= 2] candidates of a route use every one of
    them exactly once: they are the candidate list rotated by the route's cursor.  The cursors of
    other routes do not move. *)
Theorem Pick_fair r key creds :
  (2 <= List.length creds)%nat ->
  (0 <= default 0%Z (r !! key))%Z ->
  (default 0%Z (r !! key) + Z.of_nat (List.length creds) < two64)%Z ->
  let '(r', picked) := picks (List.length creds) r key creds in
  picked = map Some (rotate (Z.to_nat (default 0%Z (r !! key) + 1)) creds) /\
  picked ≡ₚ map Some creds /\ (forall k, k <> key -> r' !! k = r !! k).
Proof.
  intros Hlen Hv Hn. destruct (picks_lookup _ r key creds Hlen Hv Hn) as [H1 H2].
  destruct (picks _ r key creds) as [r' picked]. cbn [fst snd] in *. subst picked.
  set (v := default 0%Z (r !! key)) in *.
  assert (Hrot : map (fun i => creds !! Z.to_nat ((v + 1 + Z.of_nat i) mod Z.of_nat (List.length creds)))
      (seq 0 (List.length creds)) = map Some (rotate (Z.to_nat (v + 1)) creds)).
  { apply list_eq. intros i. rewrite !list_lookup_fmap.
    destruct (decide (i < List.length creds)%nat) as [Hi|Hi].
    - rewrite lookup_seq_lt, lookup_rotate_r by done. simpl.
      unfold rotate_nat_add. rewrite Z2Nat.id by lia.
      set (j := Z.to_nat _).
      destruct (creds !! j) as [c|] eqn:Hj; [done|]. apply lookup_ge_None in Hj.
      unfold j in Hj. pose proof (Z.mod_pos_bound (v + 1 + Z.of_nat i) (Z.of_nat (List.length creds)) ltac:(lia)).
      lia.
    - rewrite lookup_seq_ge by lia. rewrite (proj2 (lookup_ge_None _ _)); [done|].
      rewrite length_rotate. lia. }
  rewrite Hrot. splits; try done. apply Permutation_map. unfold rotate.
  rewrite Permutation_app_comm. by rewrite take_drop.
Qed.

(** ** The provider plane is a lawful source *)

(** The plane as the engine sees it: its state and the time of the request. *)
Record PlaneAt : Type := mkPlaneAt { plane : option snapshot; at_time : Z; plane_wf : plane_ok plane }.

#[export] Instance PlaneAt_source : CredentialSource PlaneAt := {
  Candidates p key := Plane_Candidates p.(at_time) p.(plane) key
}.

#[export] Instance PlaneAt_laws : CredentialSourceLaws PlaneAt.
Proof.
  split; intros [pl now Hok] key c Hc; cbn in Hc;
    destruct (plane_ok_bucket pl key.(KProvider) Hok) as [Hp _]; destruct pl as [snap|];
    try (by apply elem_of_nil in Hc); apply list_elem_of_In, List.filter_In in Hc as [Hin Hu].
  - rewrite Forall_forall in Hp. by apply Hp, list_elem_of_In.
  - unfold usable in Hu. by apply andb_true_iff in Hu as [_ ?].
Qed.

(** ** Witnesses and an example of interaction *)

Definition cred_of (id : string) (p : Provider) : Credential :=
  mkCredential id p id "secret" true None ["*"] [] "https://example.test" ∅ (mkCredentialSettings None).

Definition three_creds : list Credential :=
  [cred_of "a" ProviderOpenAI; cred_of "b" ProviderOpenAI; cred_of "c" ProviderCohere].

Lemma three_creds_ok : plane_ok (NewProviderPlane three_creds).
Proof.
  apply (plane_ok_step None); [done|]. apply (step_replace None three_creds).
  refine (bool_decide_unpack _ _). vm_compute. exact I.
Qed.

Definition plane_now : PlaneAt := mkPlaneAt (NewProviderPlane three_creds) 0 three_creds_ok.

(** Half of the traffic to OpenAI, where "gpt-4o" is blocked, and half to Cohere. *)
Definition split_configs : list ProviderConfig :=
  [mkProviderConfig ProviderOpenAI ["*"] ["gpt-4o"] (f64_dyadic 1 (-1)) ∅ ∅ false;
   mkProviderConfig ProviderCohere ["*"] [] (f64_dyadic 1 (-1)) ∅ ∅ false].

Definition split_key : VirtualKey :=
  mkVirtualKey "vk" "dk" "client" "budget" true None VKWeighted LBRoundRobin
    (map (compiled VKWeighted) split_configs).

Definition route_context (p : Provider) : DiffractLLMContext :=
  NewContext <| VirtualKeyID := "vk" |> <| VirtualKeyPolicy := Some split_key |>
             <| Modelkey := mkCatalogKey p "gpt-4o" ModelTypeChat |>.

(** A request that names no provider, drawn at random number one half: OpenAI's weight is used up
    and Cohere serves. *)
Lemma Resolve_spec_witness :
  let se := NewSelectionEngine plane_now in
  let rctx := route_context "" in
  let rnd := f64_dyadic 1 (-1) in
  (exists se' rctx' res, Resolve rnd se rctx = Some (se', rctx', res) /\
    engine_ok se' /\ se'.(providerplane) = se.(providerplane) /\
    resolution rnd se rctx se' rctx' res /\
    match res with
    | Ok c => rctx'.(SelectedCredential) = Some c /\ c.(CProvider) = rctx'.(Modelkey).(KProvider) /\
        CheckModel (Some c) rctx.(Modelkey).(ModelName) = true /\
        rctx'.(Modelkey).(ModelName) = rctx.(Modelkey).(ModelName)
    | Err _ => rctx' = rctx /\ se' = se
    end) /\
  match Resolve rnd se rctx with
  | Some (_, rctx', Ok c) => rctx'.(Modelkey).(KProvider) = ProviderCohere /\ c.(CID) = "c"
  | _ => False
  end.
Proof.
  intros se rctx rnd. split.
  - apply (Resolve_spec rnd se rctx). exists ∅. reflexivity.
  - vm_compute. done.
Defined.

Lemma Pick_fair_witness :
  let r : gmap CatalogKey Z := ∅ in
  let '(r', picked) := picks (List.length three_creds) r CatalogKey0 three_creds in
  picked = map Some (rotate (Z.to_nat (default 0%Z (r !! CatalogKey0) + 1)) three_creds) /\
  picked ≡ₚ map Some three_creds /\ (forall k, k <> CatalogKey0 -> r' !! k = r !! k).
Proof.
  intros r. apply (Pick_fair r CatalogKey0 three_creds).
  - vm_compute. lia.
  - vm_compute. discriminate.
  - vm_compute. reflexivity.
Defined.

(** The access test admits the model to the key through Cohere only, yet the weighted resolution
    of the same request can send it to OpenAI, where the key blocks it: the per-provider lists are
    not consulted when the provider is drawn. *)
Lemma resolveWeighted_ignores_provider_lists :
  IsModelKeyAllowed split_key (mkCatalogKey "" "gpt-4o" ModelTypeChat) = true /\
  IsModelKeyAllowed split_key (mkCatalogKey ProviderOpenAI "gpt-4o" ModelTypeChat) = false /\
  match Resolve f64_zero (NewSelectionEngine plane_now) (route_context "") with
  | Some (_, rctx', Ok c) =>
      rctx'.(Modelkey) = mkCatalogKey ProviderOpenAI "gpt-4o" ModelTypeChat /\ c.(CID) = "b"
  | _ => False
  end.
Proof. vm_compute. done. Qed.
