(* ===== verification/Gorm.v ===== *)
(** * The database behind the store: an interface

    The methods of [internal/dbstore] are thin layers over gorm and SQLite, which are not part of
    the repository.  What they use of one table is the class [Gorm]: a lookup of the rows by
    primary key (which exists for the specification only) and the statements.  [GormLaws] states
    what the database documents: a statement is atomic (when it reports an error it changed
    nothing), an UPDATE or DELETE by primary key touches that row only, a SELECT of a table
    returns each of its rows once.  Any statement may fail.  [MemTable] is a concrete table,
    whose statements fail when the next entry of a list of faults says so. *)

From S2P Require Import Prelude GoBase.

Abbreviation DbError := string (only parsing).

(** The primary key of a row. *)
Class Keyed (Row : Type) := key : Row -> string.

Class Gorm (Db Row : Type) := {
  (** The row with a primary key. *)
  tbl : Db -> string -> option Row;
  (** [DB.Find(&rows)]. *)
  db_find : Db -> result DbError (list Row) * Db;
  (** [DB.Where("id = ?", id).First(&row)]. *)
  db_first : string -> Db -> result DbError Row * Db;
  (** [DB.Where("id = ?", id).Updates(..)]: the number of rows affected. *)
  db_update : string -> (Row -> Row) -> Db -> result DbError Z * Db;
  (** [DB.Create(&row)]. *)
  db_create : Row -> Db -> result DbError () * Db;
  (** [DB.Where("id = ?", id).Delete(..)]: the number of rows affected. *)
  db_delete : string -> Db -> result DbError Z * Db
}.

Class GormLaws (Db Row : Type) `{Keyed Row} `{Gorm Db Row} := {
  (** The states of a table whose rows are stored under their primary keys. *)
  db_ok : Db -> Prop;
  tbl_key d id r : db_ok d -> tbl d id = Some r -> key r = id;
  find_state d res d' : db_ok d -> db_find d = (res, d') -> db_ok d' /\ (forall id, tbl d' id = tbl d id);
  find_rows d rows d' : db_ok d -> db_find d = (Ok rows, d') ->
    NoDup (map key rows) /\ (forall r, In r rows <-> tbl d (key r) = Some r);
  first_state id d res d' : db_ok d -> db_first id d = (res, d') ->
    db_ok d' /\ (forall j, tbl d' j = tbl d j);
  first_row id d r d' : db_ok d -> db_first id d = (Ok r, d') -> tbl d id = Some r;
  update_ok id f d n d' : db_ok d -> (forall r, key (f r) = key r) -> db_update id f d = (Ok n, d') ->
    db_ok d' /\ (forall j, tbl d' j = if decide (j = id) then f <$> tbl d j else tbl d j) /\
    n = (if tbl d id then 1 else 0)%Z;
  update_err id f d e d' : db_ok d -> db_update id f d = (Err e, d') ->
    db_ok d' /\ (forall j, tbl d' j = tbl d j);
  create_ok r d u d' : db_ok d -> db_create r d = (Ok u, d') ->
    db_ok d' /\ tbl d (key r) = None /\
    (forall j, tbl d' j = if decide (j = key r) then Some r else tbl d j);
  create_err r d e d' : db_ok d -> db_create r d = (Err e, d') ->
    db_ok d' /\ (forall j, tbl d' j = tbl d j);
  delete_ok id d n d' : db_ok d -> db_delete id d = (Ok n, d') ->
    db_ok d' /\ (forall j, tbl d' j = if decide (j = id) then None else tbl d j) /\
    n = (if tbl d id then 1 else 0)%Z;
  delete_err id d e d' : db_ok d -> db_delete id d = (Err e, d') ->
    db_ok d' /\ (forall j, tbl d' j = tbl d j)
}.

(** A column with a default, as gorm's Create fills it: a zero value is not told from a missing one
    and takes the default.  [db_create] inserts the row it is given, so an operation applies the
    defaults of its table to the row first.  Of the tables with defaults, that of credentials is the
    only one in which a row that is created can have a zero in such a column. *)
Definition or_default {A} (is_zero : A -> bool) (d v : A) : A := if is_zero v then d else v.

(** ** Sequences of statements

    A method of the store runs statements over the tables [S] and may fail with an error [E]. *)

Definition Tx (S E A : Type) : Type := S -> result E A * S.
#[export] Instance Tx_ret S E : MRet (Tx S E) := fun A a d => (Ok a, d).
#[export] Instance Tx_bind S E : MBind (Tx S E) := fun A B f m d =>
  match m d with (Ok a, d') => f a d' | (Err e, d') => (Err e, d') end.
Definition tx_fail {S E A} (e : E) : Tx S E A := fun d => (Err e, d).
Definition tx_lift {S E A} (r : result E A) : Tx S E A := fun d => (r, d).

(** [s.DB.Transaction(..)]: rolled back when a statement fails or the COMMIT does ([failed]). *)
Definition Tx_transaction {S E A} (failed : E) (commit : bool) (t : Tx S E A) : Tx S E A := fun d =>
  match t d with
  | (Ok a, d') => if commit then (Ok a, d') else (Err failed, d)
  | (Err e, _) => (Err e, d)
  end.

(** A bind that returned a value. *)
Lemma tx_bind_Ok {S E A B} (m : Tx S E A) (f : A -> Tx S E B) d b d' :
  (m ≫= f) d = (Ok b, d') -> exists a d1, m d = (Ok a, d1) /\ f a d1 = (Ok b, d').
Proof. unfold mbind, Tx_bind. destruct (m d) as [[a|e] d1]; [eauto|done]. Qed.

Lemma Tx_transaction_cases {S E A} failed commit (t : Tx S E A) d res d' :
  Tx_transaction failed commit t d = (res, d') ->
  (exists e, res = Err e /\ d' = d) \/ exists a, res = Ok a /\ t d = (Ok a, d').
Proof.
  unfold Tx_transaction. destruct (t d) as [[a|e] d1]; [destruct commit|]; intros [= <- <-]; eauto.
Qed.

(** ** A table in memory, with faults *)

Record MemTable (Row : Type) : Type := mkMemTable {
  rows : gmap string Row;
  (** Whether each of the next statements fails; none does after the end of the list. *)
  faults : list bool
}.
Arguments mkMemTable {Row}. Arguments rows {Row}. Arguments faults {Row}.

Definition mem_stmt {Row A} (f : gmap string Row -> result DbError A * gmap string Row)
    (d : MemTable Row) : result DbError A * MemTable Row :=
  match d.(faults) with
  | true :: fs => (Err "database is locked", mkMemTable d.(rows) fs)
  | fs => let '(res, m) := f d.(rows) in (res, mkMemTable m (tail fs))
  end.

Section mem.
Context {Row : Type} `{KR : Keyed Row}.

Definition mem_first (id : string) (m : gmap string Row) : result DbError Row * gmap string Row :=
  match m !! id with Some r => (Ok r, m) | None => (Err "record not found", m) end.

Definition mem_update (id : string) (f : Row -> Row) (m : gmap string Row) :
    result DbError Z * gmap string Row :=
  (Ok (if m !! id then 1 else 0)%Z, alter f id m).

Definition mem_create (r : Row) (m : gmap string Row) : result DbError () * gmap string Row :=
  match m !! key r with
  | Some _ => (Err "UNIQUE constraint failed", m)
  | None => (Ok tt, <[key r := r]> m)
  end.

#[local] Instance MemGorm : Gorm (MemTable Row) Row := {
  tbl d id := d.(rows) !! id;
  db_find := mem_stmt (fun m => (Ok (map snd (map_to_list m)), m));
  db_first id := mem_stmt (mem_first id);
  db_update id f := mem_stmt (mem_update id f);
  db_create r := mem_stmt (mem_create r);
  db_delete id := mem_stmt (fun m => (Ok (if m !! id then 1 else 0)%Z, delete id m))
}.

Definition mem_ok (d : MemTable Row) : Prop := map_Forall (fun id r => key r = id) d.(rows).

(** A statement either fails and leaves the rows, or is what [f] does to them. *)
Lemma mem_stmt_cases {A} (f : gmap string Row -> result DbError A * gmap string Row) d res d' :
  mem_stmt f d = (res, d') ->
  (exists e, res = Err e /\ d'.(rows) = d.(rows)) \/ f d.(rows) = (res, d'.(rows)).
Proof.
  unfold mem_stmt. destruct d as [m fs]. cbn [faults rows].
  assert (Hgo : forall fs', (let '(res0, m0) := f m in (res0, mkMemTable m0 fs')) = (res, d') ->
    f m = (res, d'.(rows))).
  { intros fs'. destruct (f m). intros [= <- <-]. done. }
  destruct fs as [|[] fs].
  - eauto.
  - intros [= <- <-]. left. eauto.
  - eauto.
Qed.

Lemma NoDup_mem_keys (m : gmap string Row) :
  map_Forall (fun id r => key r = id) m -> NoDup (map key (map snd (map_to_list m))).
Proof.
  intros Hm. rewrite map_map.
  replace (map (fun x => key x.2) (map_to_list m)) with ((map_to_list m).*1).
  - apply NoDup_fst_map_to_list.
  - apply map_ext_in. intros [i r] Hin. simpl. symmetry. apply Hm.
    apply elem_of_map_to_list. by apply list_elem_of_In.
Qed.

Lemma mem_find_rows (m : gmap string Row) r :
  map_Forall (fun id r => key r = id) m ->
  In r (map snd (map_to_list m)) <-> m !! key r = Some r.
Proof.
  intros Hm. rewrite in_map_iff. split.
  - intros ([i r'] & Hr & Hin). simpl in Hr. subst r'.
    apply list_elem_of_In, elem_of_map_to_list in Hin. by rewrite (Hm _ _ Hin).
  - intros H. exists (key r, r). split; [done|]. by apply list_elem_of_In, elem_of_map_to_list.
Qed.

Lemma mem_unchanged (d d' : MemTable Row) :
  mem_ok d -> d'.(rows) = d.(rows) -> mem_ok d' /\ (forall j, tbl d' j = tbl d j).
Proof.
  intros Hok Hd. split; [by unfold mem_ok; rewrite Hd|]. intros j. cbn. by rewrite Hd.
Qed.

#[local] Instance MemGormLaws : GormLaws (MemTable Row) Row.
Proof.
  refine {| db_ok := mem_ok |}; intros *; cbn.
  - intros Hok Hl. exact (Hok _ _ Hl).
  - intros Hok [(e & -> & Hd)|[= <- Hd]]%mem_stmt_cases; by apply mem_unchanged.
  - intros Hok [(e & [=] & Hd)|[= <- Hd]]%mem_stmt_cases.
    split; [by apply NoDup_mem_keys | intros r; by apply mem_find_rows].
  - intros Hok [(e & -> & Hd)|Hf]%mem_stmt_cases; [by apply mem_unchanged|].
    apply mem_unchanged; [done|]. revert Hf. unfold mem_first. by case_match; intros [= <- <-].
  - intros Hok [(e & [=] & Hd)|Hf]%mem_stmt_cases.
    revert Hf. unfold mem_first. by case_match; intros [= <- _].
  - intros Hok Hkey [(e & [=] & Hd)|[= <- Hd]]%mem_stmt_cases. unfold mem_ok. rewrite <- Hd.
    splits; [| | done].
    + intros j r. rewrite lookup_alter_Some. intros [(-> & r0 & H0 & ->)|[? H0]]; [rewrite Hkey|];
        exact (Hok _ _ H0).
    + intros j. rewrite lookup_alter. repeat case_decide; congruence.
  - intros Hok [(e' & [=] & Hd)|[=]]%mem_stmt_cases. by apply mem_unchanged.
  - intros Hok [(e & [=] & Hd)|Hf]%mem_stmt_cases. revert Hf. unfold mem_create, mem_ok.
    destruct (rows d !! key r) eqn:Hr; intros [= <- <-]. splits; [|done|].
    + intros j r'. rewrite lookup_insert_Some. intros [[<- <-]|[? H0]]; [done | exact (Hok _ _ H0)].
    + intros j. rewrite lookup_insert. repeat case_decide; congruence.
  - intros Hok [(e' & [= <-] & Hd)|Hf]%mem_stmt_cases; [by apply mem_unchanged|].
    apply mem_unchanged; [done|]. revert Hf. unfold mem_create. by case_match; intros [= <- <-].
  - intros Hok [(e & [=] & Hd)|[= <- Hd]]%mem_stmt_cases. unfold mem_ok. rewrite <- Hd. splits; [| |done].
    + intros j r. rewrite lookup_delete_Some. intros [? H0]. exact (Hok _ _ H0).
    + intros j. rewrite lookup_delete. repeat case_decide; congruence.
  - intros Hok [(e' & [=] & Hd)|[=]]%mem_stmt_cases. by apply mem_unchanged.
Defined.
End mem.
#[export] Existing Instances MemGorm MemGormLaws.
