(* ===== verification/Atomic.v ===== *)
(** * Concurrent code as programs over atomic operations

    The gateway shares state between request goroutines and background jobs through atomics,
    concurrent maps and the database.  Code that does is a [prog]: a sequence of atomic
    operations, each one call of [sync/atomic], of a [sync.Map] method, of a locked section or of
    a database statement, whose answer decides what follows.  [run] executes a program alone;
    [interleave] executes a pool of them under a schedule, one operation at a time, and returns
    the trace of operations with their answers.  Quantifying over schedules covers every
    interleaving. *)

From S2P Require Import Prelude.

Section prog.
Context {op : Type} {ans : op -> Type}.

Inductive prog (A : Type) : Type :=
| Ret (a : A)
| Act (o : op) (k : ans o -> prog A).
Arguments Ret {A} a.
Arguments Act {A} o k.

Fixpoint prog_bind {A B} (f : A -> prog B) (t : prog A) : prog B :=
  match t with
  | Ret a => f a
  | Act o k => Act o (fun x => prog_bind f (k x))
  end.

(** One operation, as a program. *)
Definition act (o : op) : prog (ans o) := Act o Ret.

#[export] Instance prog_ret : MRet prog := @Ret.
#[export] Instance prog_mbind : MBind prog := @prog_bind.

(** A loop over the keys visited by [sync.Map.Range], in the order of the visit. *)
Fixpoint for_each {X A} (body : A -> X -> prog A) (l : list X) (acc : A) : prog A :=
  match l with
  | [] => Ret acc
  | x :: l' => body acc x ≫= for_each body l'
  end.

Definition event : Type := { o : op & ans o }.

(** ** One thread *)

(** [thread_run t tr t']: the thread [t] becomes [t'] by executing the operations of [tr], with
    whatever answers the others left for it. *)
Fixpoint thread_run {A} (t : prog A) (tr : list event) (t' : prog A) : Prop :=
  match t with
  | Ret a => tr = [] /\ t' = Ret a
  | Act o k => tr = [] /\ t' = Act o k \/
      exists a tr', tr = existT o a :: tr' /\ thread_run (k a) tr' t'
  end.

Lemma thread_run_refl {A} (t : prog A) : thread_run t [] t.
Proof. destruct t; simpl; auto. Qed.

(** A run may be extended by the operation it stops at. *)
Lemma thread_run_snoc {A} (t : prog A) tr t' :
  thread_run t tr t' ->
  match t' with
  | Ret _ => True
  | Act o k => forall a, thread_run t (tr ++ [existT o a]) (k a)
  end.
Proof.
  revert tr. induction t as [b|o' k' IH]; intros tr; simpl; [by intros [_ ->]|].
  intros [[-> ->]|(b & tr' & -> & Hr)].
  - intros a. right. exists a, []. split; [done | apply thread_run_refl].
  - apply IH in Hr. destruct t' as [|o k]; [done|]. intros a. right. exists b, (tr' ++ [existT o a]). auto.
Qed.

(** A run of a sequence is inside its first part or splits at its end. *)
Lemma thread_run_bind {A B} (t : prog A) (f : A -> prog B) tr t' :
  thread_run (prog_bind f t) tr t' ->
  (exists u, thread_run t tr u /\ t' = prog_bind f u) \/
  (exists a tr1 tr2, tr = tr1 ++ tr2 /\ thread_run t tr1 (Ret a) /\ thread_run (f a) tr2 t').
Proof.
  revert tr. induction t as [a|o k IH]; intros tr; simpl; intros Hr.
  - right. exists a, [], tr. auto.
  - destruct Hr as [[-> ->]|(b & tr' & -> & Hr)].
    + left. exists (Act o k). simpl. auto.
    + apply IH in Hr as [(u & Hu & ->)|(a & tr1 & tr2 & -> & H1 & H2)].
      * left. exists u. split; [|done]. right. eauto.
      * right. exists a, (existT o b :: tr1), tr2. splits; [done | | done]. right. eauto.
Qed.

(** A complete run of a sequence splits. *)
Lemma thread_run_bind_ret {A B} (t : prog A) (f : A -> prog B) tr b :
  thread_run (prog_bind f t) tr (Ret b) ->
  exists a tr1 tr2, tr = tr1 ++ tr2 /\ thread_run t tr1 (Ret a) /\ thread_run (f a) tr2 (Ret b).
Proof.
  intros [([a|] & Hu & Hb)|H]%thread_run_bind; [| |exact H].
  - exists a, tr, []. rewrite app_nil_r. simpl in Hb. rewrite <- Hb. split; [done|].
    split; [done | apply thread_run_refl].
  - discriminate Hb.
Qed.

(** ** Execution *)

Context {S : Type} (exec : forall o : op, S -> ans o * S).

(** The program alone, to its end. *)
Fixpoint run {A} (t : prog A) (s : S) : A * S :=
  match t with
  | Ret a => (a, s)
  | Act o k => let '(x, s') := exec o s in run (k x) s'
  end.

Lemma run_bind {A B} (t : prog A) (f : A -> prog B) s :
  run (prog_bind f t) s = let '(a, s') := run t s in run (f a) s'.
Proof. revert s. induction t as [a|o k IH]; intros s; simpl; [done|]. destruct (exec o s). apply IH. Qed.

(** Thread [i] of the pool executes its next operation; a finished thread does nothing. *)
Definition pool_step {A} (i : nat) (pool : list (prog A)) (s : S) :
    list (prog A) * S * list (nat * event) :=
  match pool !! i with
  | Some (Act o k) => let '(x, s') := exec o s in (<[i := k x]> pool, s', [(i, existT o x)])
  | _ => (pool, s, [])
  end.

Fixpoint interleave {A} (sch : list nat) (pool : list (prog A)) (s : S) :
    list (prog A) * S * list (nat * event) :=
  match sch with
  | [] => (pool, s, [])
  | i :: sch' =>
      let '(pool1, s1, tr1) := pool_step i pool s in
      let '(pool2, s2, tr2) := interleave sch' pool1 s1 in
      (pool2, s2, tr1 ++ tr2)
  end.

Definition finished {A} (t : prog A) : bool := match t with Ret _ => true | Act _ _ => false end.

(** The operations of thread [i] in a trace. *)
Definition thread_trace (i : nat) (tr : list (nat * event)) : list event :=
  map snd (List.filter (fun e => Nat.eqb i e.1) tr).

Lemma thread_trace_app i tr1 tr2 : thread_trace i (tr1 ++ tr2) = thread_trace i tr1 ++ thread_trace i tr2.
Proof. unfold thread_trace. by rewrite List.filter_app, map_app. Qed.

(** Prefixing a run with its first operations. *)
Lemma thread_run_app {A} (t : prog A) tr1 t1 tr2 t2 :
  thread_run t tr1 t1 -> thread_run t1 tr2 t2 -> thread_run t (tr1 ++ tr2) t2.
Proof.
  revert tr1. induction t as [a|o k IH]; intros tr1; simpl.
  - intros [-> ->]. done.
  - intros [[-> ->]|(b & tr' & -> & Hr)]; [done|]. intros H2. right. exists b, (tr' ++ tr2). eauto.
Qed.

(** Under any schedule each thread executes its own program. *)
Lemma interleave_thread {A} sch (pool pool' : list (prog A)) s s' tr :
  interleave sch pool s = (pool', s', tr) ->
  forall i t, pool !! i = Some t -> exists t', pool' !! i = Some t' /\ thread_run t (thread_trace i tr) t'.
Proof.
  revert pool s tr. induction sch as [|j sch IH]; intros pool s tr; simpl.
  - intros [= -> -> <-] i t Hi. exists t. split; [done | apply thread_run_refl].
  - destruct (pool_step j pool s) as [[pool1 s1] tr1] eqn:Hstep.
    destruct (interleave sch pool1 s1) as [[pool2 s2] tr2] eqn:Hrest.
    intros [= <- <- <-] i t Hi.
    assert (H1 : exists t1, pool1 !! i = Some t1 /\ thread_run t (thread_trace i tr1) t1).
    { revert Hstep. unfold pool_step.
      destruct (pool !! j) as [[|o k]|] eqn:Hj; [intros [= <- <- <-]| |intros [= <- <- <-]];
        [exists t; split; [done | apply thread_run_refl] | |
         exists t; split; [done | apply thread_run_refl]].
      destruct (exec o s) as [x s0]. intros [= <- <- <-]. unfold thread_trace. simpl.
      destruct (Nat.eqb_spec i j) as [->|Hne]; simpl.
      - rewrite Hj in Hi. injection Hi as <-. exists (k x). split.
        + apply list_lookup_insert_eq. by eapply lookup_lt_Some.
        + right. exists x, []. split; [done | apply thread_run_refl].
      - exists t. rewrite list_lookup_insert_ne by done. split; [done | apply thread_run_refl]. }
    destruct H1 as (t1 & Ht1 & Hr1).
    destruct (IH _ _ _ Hrest _ _ Ht1) as (t2 & Ht2 & Hr2).
    exists t2. split; [done|]. rewrite thread_trace_app. by eapply thread_run_app.
Qed.

(** An invariant of every operation is an invariant of every interleaving; [I] may speak of the
    trace executed so far. *)
Lemma interleave_inv {A} (I : list (nat * event) -> S -> Prop) :
  (forall tr s i o, I tr s -> I (tr ++ [(i, existT o (fst (exec o s)))]) (snd (exec o s))) ->
  forall sch (pool pool' : list (prog A)) tr0 s s' tr,
    I tr0 s -> interleave sch pool s = (pool', s', tr) -> I (tr0 ++ tr) s'.
Proof.
  intros Hstep sch. induction sch as [|j sch IH]; intros pool pool' tr0 s s' tr Hi; simpl.
  - intros [= <- <- <-]. by rewrite app_nil_r.
  - destruct (pool_step j pool s) as [[pool1 s1] tr1] eqn:Hs.
    destruct (interleave sch pool1 s1) as [[pool2 s2] tr2] eqn:Hrest.
    intros [= <- <- <-]. rewrite app_assoc. eapply IH; [|exact Hrest].
    revert Hs. unfold pool_step.
    destruct (pool !! j) as [[|o k]|]; [intros [= <- <- <-]| |intros [= <- <- <-]];
      [by rewrite app_nil_r | | by rewrite app_nil_r].
    destruct (exec o s) as [x s0] eqn:He. intros [= <- <- <-].
    pose proof (Hstep tr0 s j o Hi) as H. by rewrite He in H.
Qed.
End prog.
Arguments prog : clear implicits.
Arguments Ret {op ans A} a.
Arguments Act {op ans A} & o k.
Arguments event {op} ans.
