(* ===== verification/StoreBudget.v ===== *)
(** * Budgets in the database ([internal/core/budget.go], [internal/dbstore/budget.go])

    The methods of the store over the [budgets] table, which is any [Gorm] table.  A time is the
    [Z] of its nanoseconds; the readings of the clock and the UUIDs are arguments. *)

From S2P Require Import Prelude GoBase Money Duration Gorm.
Local Open Scope Z_scope.

(** [core.Budget]. *)
Record Budget : Type := mkBudget {
  BID : string;
  BName : string;
  BudgetLimit : Z;
  BudgetUnit : string;
  BudgetDuration : string;
  LastBudgetRefreshAt : Z;
  Enforce : option bool;
  TotalSpend : Z;
  RequestCount : Z;
  BStatus : string;
  BCreatedAt : Z;
  BUpdatedAt : Z;
  BudgetParseDuration : Z
}.
#[export] Instance Budget_eta : Eta Budget := fun b =>
  mkBudget (BID b) (BName b) (BudgetLimit b) (BudgetUnit b) (BudgetDuration b)
    (LastBudgetRefreshAt b) (Enforce b) (TotalSpend b) (RequestCount b) (BStatus b) (BCreatedAt b)
    (BUpdatedAt b) (BudgetParseDuration b).

(** [dbstore.StoreBudget]. *)
Record StoreBudget : Type := mkStoreBudget {
  SID : string;
  SName : string;
  SBudgetLimit : Z;
  SBudgetUnit : string;
  SBudgetDuration : string;
  SEnforce : bool;
  STotalCost : Z;
  SRequestCount : Z;
  SStatus : string;
  SLastBudgetRefreshAt : Z;
  (** Not a column. *)
  SBudgetParseDuration : Z;
  SLastFlushedAt : Z;
  SCreatedAt : Z;
  SUpdatedAt : Z
}.
#[export] Instance StoreBudget_eta : Eta StoreBudget := fun b =>
  mkStoreBudget (SID b) (SName b) (SBudgetLimit b) (SBudgetUnit b) (SBudgetDuration b)
    (SEnforce b) (STotalCost b) (SRequestCount b) (SStatus b) (SLastBudgetRefreshAt b)
    (SBudgetParseDuration b) (SLastFlushedAt b) (SCreatedAt b) (SUpdatedAt b).

#[export] Instance StoreBudget_key : Keyed StoreBudget := SID.

Definition BudgetUnitNanoUSD : string := "nanodollars".

(** Why a query failed: in the database, or in the hook gorm runs on the rows. *)
Inductive QueryError : Type :=
| QueryFailed (e : DbError)
| BudgetInvalidDuration (id duration : string) (cause : DurationError).

Inductive StoreError : Type :=
| LimitNotPositive (limit : Z)
| DurationRequired
| InvalidDuration (duration : string) (cause : DurationError)
| BudgetNotFound (id : string) (cause : QueryError)
| ListFailed (cause : QueryError)
| NotFound (id : string)
| BudgetBound (id : string)
| DbFailed (op : string) (cause : DbError).

(** The hook gorm runs on every row it reads. *)
Definition AfterFind (b : StoreBudget) : result QueryError StoreBudget :=
  if is_empty b.(SBudgetDuration) then Ok (b <| SBudgetParseDuration := 0 |>)
  else match ParseDuration b.(SBudgetDuration) with
       | Err e => Err (BudgetInvalidDuration b.(SID) b.(SBudgetDuration) e)
       | Ok d => Ok (b <| SBudgetParseDuration := d |>)
       end.

Definition ToCore (b : StoreBudget) : Budget :=
  mkBudget b.(SID) b.(SName) b.(SBudgetLimit) b.(SBudgetUnit) b.(SBudgetDuration)
    b.(SLastBudgetRefreshAt) (Some b.(SEnforce)) b.(STotalCost) b.(SRequestCount) b.(SStatus) 0 0
    b.(SBudgetParseDuration).

(** A slice of rows is read with the hook run on each. *)
Definition after_find_all (rows : list StoreBudget) : result QueryError (list StoreBudget) :=
  foldM (fun out b => match AfterFind b with Ok b' => Ok (out ++ [b'])%list | Err e => Err e end) [] rows.

(** The zero [time.Time]: the first of January of the year 1, in nanoseconds from 1970. *)
Definition zero_time : Z := -62135596800 * Second.

Section store.
Context {Db : Type} `{Gorm Db StoreBudget}.

(** [uuid] is the new primary key. *)
Definition CreateBudget (uuid : string) (now : Z) (b : Budget) (d : Db) : result StoreError StoreBudget * Db :=
  if b.(BudgetLimit) <=? 0 then (Err (LimitNotPositive b.(BudgetLimit)), d)
  else if is_empty b.(BudgetDuration) then (Err DurationRequired, d)
  else match ParseDuration b.(BudgetDuration) with
  | Err e => (Err (InvalidDuration b.(BudgetDuration) e), d)
  | Ok _ =>
      let unit := if is_empty b.(BudgetUnit) then BudgetUnitNanoUSD else b.(BudgetUnit) in
      let enforce := deref true b.(Enforce) in
      let refreshedAt := if b.(LastBudgetRefreshAt) =? zero_time then now else b.(LastBudgetRefreshAt) in
      let budget := mkStoreBudget uuid b.(BName) b.(BudgetLimit) unit b.(BudgetDuration) enforce
        0 0 "unbound" refreshedAt 0 zero_time now now in
      match db_create budget d with
      | (Err e, d') => (Err (DbFailed "create budget" e), d')
      | (Ok _, d') => (Ok budget, d')
      end
  end.

Definition GetBudget (budgetID : string) (d : Db) : result StoreError StoreBudget * Db :=
  match db_first budgetID d with
  | (Err e, d') => (Err (BudgetNotFound budgetID (QueryFailed e)), d')
  | (Ok b, d') =>
      (match AfterFind b with Err e => Err (BudgetNotFound budgetID e) | Ok b' => Ok b' end, d')
  end.

Definition ListBudgets (d : Db) : result StoreError (list StoreBudget) * Db :=
  match db_find d with
  | (Err e, d') => (Err (ListFailed (QueryFailed e)), d')
  | (Ok rows, d') =>
      (match after_find_all rows with Err e => Err (ListFailed e) | Ok rows' => Ok rows' end, d')
  end.

(** The columns [UpdateBudget] changes; [None] when the map of updates is empty. *)
Definition budget_updates (existing : StoreBudget) (b : Budget) : result StoreError (option (StoreBudget -> StoreBudget)) :=
  let limit := negb (b.(BudgetLimit) =? 0) && negb (existing.(SBudgetLimit) =? b.(BudgetLimit)) in
  let duration := negb (is_empty b.(BudgetDuration))
    && negb (String.eqb existing.(SBudgetDuration) b.(BudgetDuration)) in
  let enforce := match b.(Enforce) with Some e => negb (Bool.eqb existing.(SEnforce) e) | None => false end in
  let upd := fun r =>
    let r := if limit then r <| SBudgetLimit := b.(BudgetLimit) |> else r in
    let r := if duration then r <| SBudgetDuration := b.(BudgetDuration) |> else r in
    if enforce then r <| SEnforce := deref true b.(Enforce) |> else r in
  match (if duration then ParseDuration b.(BudgetDuration) else Ok 0) with
  | Err e => Err (InvalidDuration b.(BudgetDuration) e)
  | Ok _ => Ok (if limit || duration || enforce then Some upd else None)
  end.

Definition UpdateBudget (budget_id : string) (now : Z) (b : Budget) (d : Db) : result StoreError StoreBudget * Db :=
  match GetBudget budget_id d with
  | (Err e, d1) => (Err e, d1)
  | (Ok existing, d1) =>
      match budget_updates existing b with
      | Err e => (Err e, d1)
      | Ok None => (Ok existing, d1)
      | Ok (Some upd) =>
          match db_update budget_id (fun r => upd r <| SUpdatedAt := now |>) d1 with
          | (Err e, d2) => (Err (DbFailed "update budget" e), d2)
          | (Ok _, d2) => GetBudget budget_id d2
          end
      end
  end.

Definition UpdateBudgetEnforce (budgetID : string) (now : Z) (enforce : bool) (d : Db) : result StoreError () * Db :=
  match db_update budgetID (fun r => r <| SEnforce := enforce |> <| SUpdatedAt := now |>) d with
  | (Err e, d') => (Err (DbFailed "update enforce" e), d')
  | (Ok n, d') => if n =? 0 then (Err (NotFound budgetID), d') else (Ok tt, d')
  end.

Definition DeleteBudgetRow (budgetID : string) (d : Db) : result StoreError () * Db :=
  match GetBudget budgetID d with
  | (Err e, d1) => (Err e, d1)
  | (Ok b, d1) =>
      if String.eqb b.(SStatus) "bound" then (Err (BudgetBound budgetID), d1)
      else match db_delete budgetID d1 with
           | (Err e, d2) => (Err (DbFailed "delete budget" e), d2)
           | (Ok _, d2) => (Ok tt, d2)
           end
  end.

(** [UpdateColumns] leaves [updated_at] alone; an unknown ID is no error. *)
Definition FlushBudgetUsage (budgetID : string) (totalCost totalRequests now : Z) (d : Db) : result DbError () * Db :=
  match db_update budgetID (fun r => r <| STotalCost := totalCost |> <| SRequestCount := totalRequests |>
                                       <| SLastFlushedAt := now |>) d with
  | (Err e, d') => (Err e, d')
  | (Ok _, d') => (Ok tt, d')
  end.

Definition ResetBudgetWindow (budgetID : string) (resetTime : Z) (d : Db) : result DbError () * Db :=
  match db_update budgetID (fun r => r <| STotalCost := 0 |> <| SRequestCount := 0 |>
                                       <| SLastBudgetRefreshAt := resetTime |>) d with
  | (Err e, d') => (Err e, d')
  | (Ok _, d') => (Ok tt, d')
  end.
End store.
