(* ===== verification/Usage.v ===== *)
(** * The usage buffer ([governance/usage.go]) and the usage history ([dbstore/usage.go])

    The buffer is a slice under a mutex and a counter of dropped records beside it.  Each locked
    section is one operation.  The history is a table that rows are inserted into in one
    transaction: the class [UsageTable]. *)

From S2P Require Import Prelude GoBase.
Local Open Scope Z_scope.

Record UsageRecord : Type := mkUsageRecord {
  UClientID : string;
  UBudgetID : string;
  UBackend : string;
  UModelID : string;
  UModelName : string;
  UInputTokens : Z;
  UOutputTokens : Z;
  UResponseBytes : Z;
  UResponseStatus : Z;
  UCost : Z;
  URequestedAt : Z
}.

Definition DefaultUsageBufferCapacity : Z := 100000.

Record UsageBuffer : Type := mkUsageBuffer {
  records : list UsageRecord;
  maxCapacity : Z;
  dropped : Z
}.
#[export] Instance UsageBuffer_eta : Eta UsageBuffer := fun b =>
  mkUsageBuffer (records b) (maxCapacity b) (dropped b).

Definition NewUsageBuffer (maxcapacity : Z) : UsageBuffer :=
  mkUsageBuffer [] (if maxcapacity <=? 0 then DefaultUsageBufferCapacity else maxcapacity) 0.

(** The locked section of [Append]: whether the record found a place. *)
Definition append_locked (r : UsageRecord) (ub : UsageBuffer) : bool * UsageBuffer :=
  if ub.(maxCapacity) <=? Z.of_nat (List.length ub.(records)) then (false, ub)
  else (true, ub <| records ::= fun l => (l ++ [r])%list |>).

(** [ub.dropped.Add(1)]. *)
Definition count_dropped (ub : UsageBuffer) : Z * UsageBuffer :=
  let n := add64 ub.(dropped) 1 in (n, ub <| dropped := n |>).

Definition Append (r : UsageRecord) (ub : UsageBuffer) : UsageBuffer :=
  let '(stored, ub') := append_locked r ub in
  if stored then ub' else snd (count_dropped ub').

Definition Drain (ub : UsageBuffer) : list UsageRecord * UsageBuffer :=
  (ub.(records), ub <| records := [] |>).

Definition Buffer_Len (ub : UsageBuffer) : Z := Z.of_nat (List.length ub.(records)).
Definition DroppedCount (ub : UsageBuffer) : Z := ub.(dropped).

(** ** The history *)

Record StoreUsageRecord : Type := mkStoreUsageRecord {
  SUID : string;
  SUClientID : string;
  SUBudgetID : string;
  SUBackend : string;
  SUModelID : string;
  SUModelName : string;
  SUInputTokens : Z;
  SUOutputTokens : Z;
  SUTotalTokens : Z;
  SUResponseStatus : Z;
  SUResponseBytes : Z;
  SUCost : Z;
  SURequestAt : Z;
  SUFlushedAt : Z
}.

(** One row of the flush; [uuid] is its new ID. *)
Definition store_record (uuid : string) (flushedAt : Z) (record : UsageRecord) : StoreUsageRecord :=
  mkStoreUsageRecord uuid record.(UClientID) record.(UBudgetID) record.(UBackend) record.(UModelID)
    record.(UModelName) record.(UInputTokens) record.(UOutputTokens)
    (add64 record.(UInputTokens) record.(UOutputTokens)) record.(UResponseStatus)
    record.(UResponseBytes) record.(UCost) record.(URequestedAt) flushedAt.

(** What a row keeps of the record it was made from. *)
Definition record_of (r : StoreUsageRecord) : UsageRecord :=
  mkUsageRecord r.(SUClientID) r.(SUBudgetID) r.(SUBackend) r.(SUModelID) r.(SUModelName)
    r.(SUInputTokens) r.(SUOutputTokens) r.(SUResponseBytes) r.(SUResponseStatus) r.(SUCost)
    r.(SURequestAt).

Lemma record_of_store uuid at_ r : record_of (store_record uuid at_ r) = r.
Proof. by destruct r. Qed.

(** [DB.CreateInBatches(rows, 200)] runs in one transaction: all rows or none. *)
Class UsageTable (UDb : Type) := {
  history : UDb -> list StoreUsageRecord;
  create_in_batches : list StoreUsageRecord -> Z -> UDb -> result string () * UDb
}.
Class UsageTableLaws (UDb : Type) `{UsageTable UDb} := {
  create_all rs n d u d' : create_in_batches rs n d = (Ok u, d') -> history d' ≡ₚ history d ++ rs;
  create_none rs n d e d' : create_in_batches rs n d = (Err e, d') -> history d' ≡ₚ history d
}.

Definition BulkInsertUsageHistory {UDb} `{UsageTable UDb} (rs : list StoreUsageRecord) (d : UDb) :
    result string () * UDb :=
  match rs with
  | [] => (Ok tt, d)
  | _ => create_in_batches rs 200 d
  end.

(** A history in memory whose inserts fail when the next fault says so. *)
Definition MemHistory : Type := list StoreUsageRecord * list bool.
#[export] Instance MemUsageTable : UsageTable MemHistory := {
  history := fst;
  create_in_batches rs _ d :=
    match d.2 with
    | true :: fs => (Err "database is locked", (d.1, fs))
    | fs => (Ok tt, ((d.1 ++ rs)%list, tail fs))
    end
}.
#[export] Instance MemUsageTableLaws : UsageTableLaws MemHistory.
Proof.
  split; intros rs n [h fs] ? d'; cbn; destruct fs as [|[] fs]; intros [=]; by subst d'.
Qed.

(** ** Properties *)

Definition buffer_ok (ub : UsageBuffer) : Prop :=
  0 < ub.(maxCapacity) /\ Buffer_Len ub <= ub.(maxCapacity).

Lemma NewUsageBuffer_ok n : buffer_ok (NewUsageBuffer n).
Proof.
  unfold buffer_ok, NewUsageBuffer, Buffer_Len, DefaultUsageBufferCapacity. cbn [maxCapacity records].
  case_match; zbool; simpl; lia.
Qed.

Lemma append_locked_spec r ub :
  let '(stored, ub') := append_locked r ub in
  ub'.(records) = (ub.(records) ++ if stored then [r] else [])%list /\
  ub'.(maxCapacity) = ub.(maxCapacity) /\ ub'.(dropped) = ub.(dropped) /\
  (buffer_ok ub -> buffer_ok ub').
Proof.
  unfold append_locked, buffer_ok, Buffer_Len.
  destruct (_ <=? _) eqn:Hfull; zbool; cbn [records maxCapacity dropped].
  - rewrite app_nil_r. auto.
  - cbn. rewrite length_app. simpl. splits; auto; lia.
Qed.
