(* ===== verification/Budget.v ===== *)
(** * Budgets, spend tracking and windows ([internal/governance])

    Requests record spend on a budget's atomic counters while two background jobs flush the
    counters to the database, roll elapsed windows and synchronise the cache with the table.
    Every piece of that code is a [prog] over the operations of [op]; the state they share is
    [GovState].  A [*Budget] of the cache is an index into [heap], which only grows: code that
    looked a budget up keeps its pointer whatever happens to the map. *)

From S2P Require Import Prelude GoBase Float64 Errors Catalog Money Pricing Duration Context Gorm Atomic StoreBudget Usage.
Local Open Scope Z_scope.

(** ** Shared state *)

(** [governance.Budget]. *)
Record Cell : Type := mkCell {
  Config : option Budget;
  WindowCost : Z;
  WindowReqs : Z;
  LastFlushed : Z;
  LastReqs : Z
}.
#[export] Instance Cell_eta : Eta Cell := fun c =>
  mkCell (Config c) (WindowCost c) (WindowReqs c) (LastFlushed c) (LastReqs c).

(** The two counters of a window and what the database last accepted of them. *)
Inductive counter : Type := CostCounter | ReqsCounter.
Definition window (c : counter) (b : Cell) : Z :=
  match c with CostCounter => b.(WindowCost) | ReqsCounter => b.(WindowReqs) end.
Definition set_window (c : counter) (n : Z) (b : Cell) : Cell :=
  match c with CostCounter => b <| WindowCost := n |> | ReqsCounter => b <| WindowReqs := n |> end.
Definition last (c : counter) (b : Cell) : Z :=
  match c with CostCounter => b.(LastFlushed) | ReqsCounter => b.(LastReqs) end.
Definition set_last (c : counter) (n : Z) (b : Cell) : Cell :=
  match c with CostCounter => b <| LastFlushed := n |> | ReqsCounter => b <| LastReqs := n |> end.

Record GovState (Db UDb : Type) : Type := mkGovState {
  heap : list Cell;
  BudgetMap : gmap string nat;
  budgets : Db;
  usage : UsageBuffer;
  usage_history : UDb
}.
Arguments mkGovState {Db UDb}. Arguments heap {Db UDb}. Arguments BudgetMap {Db UDb}.
Arguments budgets {Db UDb}. Arguments usage {Db UDb}. Arguments usage_history {Db UDb}.
#[export] Instance GovState_eta Db UDb : Eta (GovState Db UDb) := fun s =>
  mkGovState (heap s) (BudgetMap s) (budgets s) (usage s) (usage_history s).

(** ** Atomic operations *)

Inductive op : Type :=
| LoadConfig (p : nat)
| StoreConfig (p : nat) (cfg : option Budget)
| LoadWindow (p : nat) (c : counter)
| AddWindow (p : nat) (c : counter) (n : Z)
| LoadLast (p : nat) (c : counter)
| StoreLast (p : nat) (c : counter) (n : Z)
| MapLoad (id : string)
| MapLoadOrStore (id : string) (seeded : Cell)
| MapDelete (id : string)
| DbFlush (id : string) (cost reqs now : Z)
| DbReset (id : string) (target : Z)
| DbList
| BufferAppend (r : UsageRecord)
| BufferDropped
| BufferDrain
| DbInsertUsage (rs : list StoreUsageRecord).

Definition ans (o : op) : Type :=
  match o with
  | LoadConfig _ => option Budget
  | LoadWindow _ _ | LoadLast _ _ | AddWindow _ _ _ => Z
  | MapLoad _ => option nat
  | MapLoadOrStore _ _ => nat * bool
  | DbFlush _ _ _ _ | DbReset _ _ => result DbError ()
  | DbList => result StoreError (list StoreBudget)
  | BufferAppend _ => bool
  | BufferDropped => Z
  | BufferDrain => list UsageRecord
  | DbInsertUsage _ => result string ()
  | StoreConfig _ _ | StoreLast _ _ _ | MapDelete _ => ()
  end.

Abbreviation gprog := (prog op ans).

Notation "x <~ o ;; k" := (@Act op ans _ o (fun x => k)) (at level 100, o at next level, right associativity,
  only parsing).
Notation "'do' o ;; k" := (@Act op ans _ o (fun _ => k)) (at level 100, o at next level, right associativity,
  only parsing).

Definition cell0 : Cell := mkCell None 0 0 0 0.
Definition get {Db UDb} (s : GovState Db UDb) (p : nat) : Cell := default cell0 (s.(heap) !! p).

Section exec.
Context {Db UDb : Type} `{Gorm Db StoreBudget} `{UsageTable UDb}.

(** A statement on the table of budgets, on the buffer, on the history. *)
Definition on_budgets {A} (f : Db -> A * Db) (s : GovState Db UDb) : A * GovState Db UDb :=
  let '(a, d) := f s.(budgets) in (a, s <| budgets := d |>).
Definition on_usage {A} (f : UsageBuffer -> A * UsageBuffer) (s : GovState Db UDb) : A * GovState Db UDb :=
  let '(a, u) := f s.(usage) in (a, s <| usage := u |>).
Definition on_history {A} (f : UDb -> A * UDb) (s : GovState Db UDb) : A * GovState Db UDb :=
  let '(a, u) := f s.(usage_history) in (a, s <| usage_history := u |>).
Definition on_cell (p : nat) (f : Cell -> Cell) (s : GovState Db UDb) : GovState Db UDb :=
  s <| heap ::= alter f p |>.

Definition exec (o : op) (s : GovState Db UDb) : ans o * GovState Db UDb :=
  match o return ans o * GovState Db UDb with
  | LoadConfig p => ((get s p).(Config), s)
  | StoreConfig p cfg => (tt, on_cell p (fun b => b <| Config := cfg |>) s)
  | LoadWindow p c => (window c (get s p), s)
  | AddWindow p c n =>
      let n' := add64 (window c (get s p)) n in (n', on_cell p (set_window c n') s)
  | LoadLast p c => (last c (get s p), s)
  | StoreLast p c n => (tt, on_cell p (set_last c n) s)
  | MapLoad id => (s.(BudgetMap) !! id, s)
  | MapLoadOrStore id seeded =>
      match s.(BudgetMap) !! id with
      | Some p => ((p, true), s)
      | None =>
          let p := List.length s.(heap) in
          ((p, false), s <| heap ::= fun h => (h ++ [seeded])%list |> <| BudgetMap ::= <[id := p]> |>)
      end
  | MapDelete id => (tt, s <| BudgetMap ::= delete id |>)
  | DbFlush id cost reqs now => on_budgets (FlushBudgetUsage id cost reqs now) s
  | DbReset id target => on_budgets (ResetBudgetWindow id target) s
  | DbList => on_budgets ListBudgets s
  | BufferAppend r => on_usage (append_locked r) s
  | BufferDropped => on_usage count_dropped s
  | BufferDrain => on_usage Drain s
  | DbInsertUsage rs => on_history (BulkInsertUsageHistory rs) s
  end.
End exec.

(** ** [governance.Budget] *)

Definition CheckBudgetUsage (b : nat) : gprog bool :=
  cfg <~ LoadConfig b;;
  match cfg with
  | None => Ret true
  | Some bc =>
      if bc.(BudgetLimit) =? 0 then Ret true
      else if negb (deref true bc.(Enforce)) then Ret true
      else cost <~ LoadWindow b CostCounter;; Ret (cost <? bc.(BudgetLimit))
  end.

Definition CheckBudgetWindow (b : nat) (now : Z) : gprog bool :=
  cfg <~ LoadConfig b;;
  match cfg with
  | None => Ret false
  | Some bc =>
      if bc.(BudgetParseDuration) <=? 0 then Ret false
      else Ret (bc.(BudgetParseDuration) <=? time_sub now bc.(LastBudgetRefreshAt))
  end.

Definition RecordUsage (b : nat) (spend : Z) : gprog () :=
  do AddWindow b CostCounter spend;;
  do AddWindow b ReqsCounter 1;;
  Ret tt.

(** The end of the last window that elapsed by [now], if one did. *)
Definition budgetResetTarget (cfg : option Budget) (now : Z) : option Z :=
  match cfg with
  | None => None
  | Some cfg =>
      if cfg.(BudgetParseDuration) <=? 0 then None
      else
        let elapsed := time_sub now cfg.(LastBudgetRefreshAt) in
        if elapsed <? cfg.(BudgetParseDuration) then None
        else
          let windows := div64 elapsed cfg.(BudgetParseDuration) in
          Some (time_add cfg.(LastBudgetRefreshAt) (mul64 windows cfg.(BudgetParseDuration)))
  end.

(** ** The cache *)

Definition LookupBudget (budgetID : string) : gprog (option nat) := act (MapLoad budgetID).

Definition seeded (budget : Budget) : Cell :=
  mkCell (Some budget) budget.(TotalSpend) budget.(RequestCount) budget.(TotalSpend) budget.(RequestCount).

(** The entry of an ID that is cached keeps its counters and takes the new configuration. *)
Definition UpsertBudget (budget : option Budget) : gprog () :=
  match budget with
  | None => Ret tt
  | Some budget =>
      r <~ MapLoadOrStore budget.(BID) (seeded budget);;
      let '(actual, loaded) := r in
      if loaded then do StoreConfig actual (Some budget);; Ret tt else Ret tt
  end.

Definition DeleteBudget (budgetID : string) : gprog () := act (MapDelete budgetID).

(** [order] is the order in which [Range] visits the keys. *)
Definition LoadBudgets (budgetData : list Budget) (order : list string) : gprog () :=
  for_each (fun _ b => UpsertBudget (Some b)) budgetData tt ≫= fun _ =>
  for_each (fun _ id =>
    v <~ MapLoad id;;
    match v with
    | None => Ret tt
    | Some _ => if bool_decide (id ∈ map BID budgetData) then Ret tt else DeleteBudget id
    end) order tt.

(** ** Background jobs *)

Definition syncBudget (order : list string) : gprog (result StoreError Z) :=
  r <~ DbList;;
  match r with
  | Err e => Ret (Err e)
  | Ok db_budget =>
      let tempBudget := map ToCore db_budget in
      LoadBudgets tempBudget order ≫= fun _ => Ret (Ok (Z.of_nat (List.length tempBudget)))
  end.

(** One entry of the flush; [clock] is the time the statement runs at. *)
Definition flush_entry (clock : string -> Z) (flushed : Z) (key : string) : gprog Z :=
  v <~ MapLoad key;;
  match v with
  | None => Ret flushed
  | Some b =>
      cfg <~ LoadConfig b;;
      match cfg with
      | None => Ret flushed
      | Some cfg =>
          cost <~ LoadWindow b CostCounter;;
          reqs <~ LoadWindow b ReqsCounter;;
          (* [&&] evaluates its second operand only when the first one holds *)
          last_cost <~ LoadLast b CostCounter;;
          let go :=
            r <~ DbFlush cfg.(BID) cost reqs (clock key);;
            match r with
            | Err _ => Ret flushed
            | Ok _ =>
                do StoreLast b CostCounter cost;;
                do StoreLast b ReqsCounter reqs;;
                Ret (add64 flushed 1)
            end in
          if cost =? last_cost then
            last_reqs <~ LoadLast b ReqsCounter;;
            if reqs =? last_reqs then Ret flushed else go
          else go
      end
  end.

Definition flushBudgetUsage (clock : string -> Z) (order : list string) : gprog Z :=
  for_each (flush_entry clock) order 0.

(** One entry of the roll. *)
Definition track_entry (now : Z) (clock : string -> Z) (rolled : Z) (key : string) : gprog Z :=
  v <~ MapLoad key;;
  match v with
  | None => Ret rolled
  | Some b =>
      cfg <~ LoadConfig b;;
      match cfg, budgetResetTarget cfg now with
      | Some cfg, Some target =>
          cost <~ LoadWindow b CostCounter;;
          reqs <~ LoadWindow b ReqsCounter;;
          r <~ DbFlush cfg.(BID) cost reqs (clock key);;
          match r with
          | Err _ => Ret rolled
          | Ok _ =>
              r <~ DbReset cfg.(BID) target;;
              match r with
              | Err _ => Ret rolled
              | Ok _ =>
                  let newCfg := cfg <| LastBudgetRefreshAt := target |> <| TotalSpend := 0 |>
                                    <| RequestCount := 0 |> in
                  do StoreConfig b (Some newCfg);;
                  do AddWindow b CostCounter (wrap64 (- cost));;
                  do AddWindow b ReqsCounter (wrap64 (- reqs));;
                  do StoreLast b CostCounter 0;;
                  do StoreLast b ReqsCounter 0;;
                  Ret (add64 rolled 1)
              end
          end
      | _, _ => Ret rolled
      end
  end.

Definition trackBudgetWindow (now : Z) (clock : string -> Z) (order : list string) : gprog Z :=
  for_each (track_entry now clock) order 0.

(** The flush of the usage history; [uuid i] is the ID of the [i]th row and [at_ i] its time. *)
Definition flushUsageHistory (uuid : nat -> string) (at_ : nat -> Z) : gprog (result string Z) :=
  records <~ BufferDrain;;
  match records with
  | [] => Ret (Ok 0)
  | _ =>
      let storeRecords := imap (fun i r => store_record (uuid i) (at_ i) r) records in
      r <~ DbInsertUsage storeRecords;;
      match r with
      | Err e =>
          for_each (fun _ r =>
            stored <~ BufferAppend r;;
            if stored then Ret tt else do BufferDropped;; Ret tt) records tt ≫= fun _ =>
          Ret (Err e)
      | Ok _ => Ret (Ok (Z.of_nat (List.length records)))
      end
  end.

(** ** Request hooks *)

Definition BudgetHook_Execute (rctx : DiffractLLMContext) : gprog (option DiffractLLMError) :=
  if is_empty rctx.(BudgetRef) then Ret (Some (NewInvalidBudget "budget reference not set on virtual key"))
  else
    LookupBudget rctx.(BudgetRef) ≫= fun budget =>
    match budget with
    | None => Ret (Some (NewInvalidBudget rctx.(BudgetRef)))
    | Some b =>
        CheckBudgetUsage b ≫= fun ok =>
        if negb ok then Ret (Some (NewBudgetExceeded "Budget exceeded for the DiffractLLM API key used"))
        else Ret None
    end.

Definition usage_record (rctx : DiffractLLMContext) (u : Usage) (nano : Z) : UsageRecord :=
  mkUsageRecord rctx.(ClientID) rctx.(BudgetRef) rctx.(Modelkey).(KProvider) rctx.(UpstreamModel)
    rctx.(Modelkey).(ModelName) u.(InputTokens) u.(OutputTokens) rctx.(ResponseBytes)
    rctx.(ResponseStatus) nano rctx.(StartedAt).

Definition RecordHook_Execute (rctx : DiffractLLMContext) : gprog (option DiffractLLMError) :=
  match rctx.(Usage_) with
  | None => Ret None
  | Some u =>
      let nano := ToNanoUSD rctx.(Cost) in
      stored <~ BufferAppend (usage_record rctx u nano);;
      (if stored then Ret 0 else act BufferDropped) ≫= fun _ =>
      LookupBudget rctx.(BudgetRef) ≫= fun budget =>
      match budget with
      | Some b => RecordUsage b nano ≫= fun _ => Ret None
      | None => Ret None
      end
  end.
