(* ===== verification/BudgetJobs.v ===== *)
(** * The budget jobs run alone

    Sequential specifications of the jobs of Budget.v, over any database that follows
    [GormLaws]: what one run of [flushBudgetUsage], of [trackBudgetWindow], of a synchronisation
    and of the request hooks does to the cache and to the table, failing statements included. *)

From S2P Require Import Prelude GoBase Float64 Errors Catalog Money Pricing Duration Context Gorm Atomic StoreBudget Usage Budget.
Local Open Scope Z_scope.

(** ** The end of an elapsed window *)

(** [time.Sub] saturates but keeps the comparison with a duration. *)
Lemma time_sub_order now start d :
  in_int64 d -> 0 < d ->
  (time_sub now start < d -> now - start < d) /\
  (d <= time_sub now start -> time_sub now start <= now - start) /\
  (now - start <= MaxInt64 -> d <= time_sub now start -> time_sub now start = now - start).
Proof.
  unfold time_sub, in_int64, MinInt64, MaxInt64. intros Hd H0.
  destruct (_ <? _) eqn:H1; zbool; [splits; lia|].
  destruct (_ <? _) eqn:H2; zbool; splits; lia.
Qed.

Lemma quot_window e d : 0 < d -> d <= e -> 1 <= e / d /\ e / d * d <= e /\ e < e / d * d + d.
Proof.
  intros Hd He. pose proof (Z.div_le_lower_bound e d 1). pose proof (Z.mul_div_le e d).
  pose proof (Z.mul_succ_div_gt e d). lia.
Qed.

(** The product of the code does not overflow. *)
Lemma windows_exact e d : 0 < d -> d <= e <= MaxInt64 -> mul64 (div64 e d) d = e / d * d.
Proof.
  intros Hd [Hde He]. destruct (quot_window e d Hd Hde) as (H1 & H2 & _).
  assert (Hq : in_int64 (e / d)).
  { split; [unfold MinInt64; lia|]. transitivity e; [|done]. apply Z.div_le_upper_bound; nia. }
  unfold div64, mul64. rewrite Z.quot_div_nonneg by lia. rewrite (wrap64_small (e / d)) by done.
  apply wrap64_small. split; [unfold MinInt64; lia | lia].
Qed.

(** The reset target is the start of the window that contains [now].  It is set exactly
    when the budget has a window and at least one elapsed; then it lies a whole number of windows,
    at least one, after the old start, is not in the future, and the next boundary is (as far as
    [time.Sub] can tell: within 292 years of the old start). *)
Theorem budgetResetTarget_spec cfg now :
  in_int64 cfg.(BudgetParseDuration) ->
  let d := cfg.(BudgetParseDuration) in
  let start := cfg.(LastBudgetRefreshAt) in
  match budgetResetTarget (Some cfg) now with
  | None => d <= 0 \/ now - start < d
  | Some target => 0 < d /\ d <= now - start /\ exists k, 1 <= k /\ target = start + k * d /\
      target <= now /\ (now - start <= MaxInt64 -> now < target + d)
  end.
Proof.
  intros Hd d start. unfold budgetResetTarget. fold d start.
  destruct (d <=? 0) eqn:H0; zbool; [by left|].
  destruct (time_sub_order now start d Hd H0) as (Hlt & Hle & Hge).
  destruct (time_sub now start <? d) eqn:Hed; zbool; [right; auto|].
  specialize (Hle Hed).
  rewrite windows_exact; [|done | split; [done | apply time_sub_bounds]].
  destruct (quot_window (time_sub now start) d) as (Hk & Hkd & Hnext); [lia|done|].
  unfold time_add. splits; [lia | lia |]. exists (time_sub now start / d). splits; [done | done | lia |].
  intros Hs. specialize (Hge Hs). lia.
Qed.

Lemma budgetResetTarget_spec_witness :
  let cfg := mkBudget "b" "b" 10 "" "1d" 0 None 0 0 "" 0 0 86400000000000 in
  budgetResetTarget (Some cfg) 200000000000000 = Some 172800000000000 /\
  0 < BudgetParseDuration cfg <= 200000000000000 - 0.
Proof.
  intros cfg. split; [reflexivity|].
  pose proof (budgetResetTarget_spec cfg 200000000000000) as H.
  assert (Hd : in_int64 (BudgetParseDuration cfg)) by (vm_compute; split; congruence).
  specialize (H Hd). vm_compute budgetResetTarget in H. cbv zeta in H.
  destruct H as (H1 & H2 & _). split; [exact H1 | exact H2].
Defined.

(** ** States of the cache *)

(** The database has accepted the current totals. *)
Definition clean (b : Cell) : Prop := b.(WindowCost) = b.(LastFlushed) /\ b.(WindowReqs) = b.(LastReqs).
#[export] Instance clean_dec b : Decision (clean b) := _.

Section jobs.
Context {Db UDb : Type} `{Gorm Db StoreBudget} `{!GormLaws Db StoreBudget} `{UsageTable UDb}.
Implicit Types s : GovState Db UDb.

Record cache_ok s : Prop := mkCacheOk {
  co_valid id p : s.(BudgetMap) !! id = Some p -> (p < List.length s.(heap))%nat;
  co_inj id1 id2 p : s.(BudgetMap) !! id1 = Some p -> s.(BudgetMap) !! id2 = Some p -> id1 = id2;
  co_config id p : s.(BudgetMap) !! id = Some p ->
    exists cfg, (get s p).(Config) = Some cfg /\ cfg.(BID) = id;
  co_db : db_ok s.(budgets);
  (** The row of a clean entry holds the totals of its window. *)
  co_row id p r : s.(BudgetMap) !! id = Some p -> tbl s.(budgets) id = Some r -> clean (get s p) ->
    r.(STotalCost) = (get s p).(WindowCost) /\ r.(SRequestCount) = (get s p).(WindowReqs)
}.

(** The cell of a budget. *)
Definition entry s (id : string) : option Cell := get s <$> s.(BudgetMap) !! id.

Lemma heap_on_cell s p f : heap (on_cell p f s) = alter f p (heap s).
Proof. done. Qed.

Lemma get_on_cell s p f q :
  (p < List.length s.(heap))%nat -> get (on_cell p f s) q = if decide (q = p) then f (get s p) else get s q.
Proof.
  intros Hp. unfold get. rewrite heap_on_cell, list_lookup_alter.
  destruct (decide (q = p)) as [->|Hne].
  - rewrite decide_True by done. apply lookup_lt_is_Some in Hp as [b Hb]. by rewrite Hb.
  - by rewrite decide_False by congruence.
Qed.

Lemma get_budgets s d q : get (s <| budgets := d |>) q = get s q.
Proof. done. Qed.
Lemma length_on_cell s p f : List.length (heap (on_cell p f s)) = List.length (heap s).
Proof. rewrite heap_on_cell. apply length_alter. Qed.

(** The statement of the flush and of the reset, in one form. *)
Lemma flush_row id cost reqs now d res d' :
  db_ok d -> FlushBudgetUsage id cost reqs now d = (res, d') ->
  db_ok d' /\ (forall j, j <> id -> tbl d' j = tbl d j) /\
  match res with
  | Err _ => tbl d' id = tbl d id
  | Ok _ => tbl d' id = (fun r => r <| STotalCost := cost |> <| SRequestCount := reqs |>
                                    <| SLastFlushedAt := now |>) <$> tbl d id
  end.
Proof.
  intros Hok. unfold FlushBudgetUsage.
  destruct (db_update _ _ d) as [[n|e] d1] eqn:Hu; intros [= <- <-].
  - apply (update_ok _ _ _ _ _ Hok) in Hu; [|done]. destruct Hu as (? & Hl & _). splits; [done| |].
    + intros j Hj. rewrite Hl. by rewrite decide_False.
    + rewrite Hl. by rewrite decide_True.
  - apply update_err in Hu as (? & Hl); [|done]. auto.
Qed.

Lemma reset_row id target d res d' :
  db_ok d -> ResetBudgetWindow id target d = (res, d') ->
  db_ok d' /\ (forall j, j <> id -> tbl d' j = tbl d j) /\
  match res with
  | Err _ => tbl d' id = tbl d id
  | Ok _ => tbl d' id = (fun r => r <| STotalCost := 0 |> <| SRequestCount := 0 |>
                                    <| SLastBudgetRefreshAt := target |>) <$> tbl d id
  end.
Proof.
  intros Hok. unfold ResetBudgetWindow.
  destruct (db_update _ _ d) as [[n|e] d1] eqn:Hu; intros [= <- <-].
  - apply (update_ok _ _ _ _ _ Hok) in Hu; [|done]. destruct Hu as (? & Hl & _). splits; [done| |].
    + intros j Hj. rewrite Hl. by rewrite decide_False.
    + rewrite Hl. by rewrite decide_True.
  - apply update_err in Hu as (? & Hl); [|done]. auto.
Qed.

(** Updating the cell and the row of one cached ID keeps the cache well formed, if the new cell
    agrees with the new row when it is clean. *)
Lemma cache_ok_update s id p f d' :
  cache_ok s -> s.(BudgetMap) !! id = Some p -> db_ok d' ->
  (forall j, j <> id -> tbl d' j = tbl s.(budgets) j) ->
  (exists cfg, (f (get s p)).(Config) = Some cfg /\ cfg.(BID) = id) ->
  (forall r, tbl d' id = Some r -> clean (f (get s p)) ->
    r.(STotalCost) = (f (get s p)).(WindowCost) /\ r.(SRequestCount) = (f (get s p)).(WindowReqs)) ->
  cache_ok (on_cell p f (s <| budgets := d' |>)).
Proof.
  intros [Hv Hi Hc Hd Hr] Hp Hd' Hother Hcfg Hrow. pose proof (Hv _ _ Hp) as Hlen.
  assert (Hget : forall q, get (on_cell p f (s <| budgets := d' |>)) q
                 = if decide (q = p) then f (get s p) else get s q).
  { intros q. by rewrite get_on_cell. }
  constructor.
  - intros j q Hj. rewrite length_on_cell. by apply (Hv j).
  - exact Hi.
  - intros j q Hj. rewrite Hget. destruct (decide (q = p)) as [->|]; [|by apply Hc].
    by rewrite (Hi _ _ _ Hj Hp).
  - done.
  - intros j q r Hj Hl. rewrite Hget. destruct (decide (q = p)) as [->|Hne].
    + rewrite (Hi _ _ _ Hj Hp) in Hl. by apply Hrow.
    + apply (Hr j); [done|]. rewrite <- Hother; [done|]. intros ->.
      apply Hne. assert (E : Some q = Some p) by (rewrite <- Hj; exact Hp). congruence.
Qed.

(** The same when only the row changes. *)
Lemma cache_ok_row s id p d' :
  cache_ok s -> s.(BudgetMap) !! id = Some p -> db_ok d' ->
  (forall j, j <> id -> tbl d' j = tbl s.(budgets) j) ->
  (forall r, tbl d' id = Some r -> clean (get s p) ->
    r.(STotalCost) = (get s p).(WindowCost) /\ r.(SRequestCount) = (get s p).(WindowReqs)) ->
  cache_ok (s <| budgets := d' |>).
Proof.
  intros [Hv Hi Hc Hd Hr] Hp Hd' Hother Hrow. constructor; [exact Hv | exact Hi | exact Hc | done |].
  intros j q r Hj Hl Hcl. destruct (decide (j = id)) as [->|Hne].
  - change (get (s <| budgets := d' |>) q) with (get s q) in *.
    change (BudgetMap (s <| budgets := d' |>)) with (BudgetMap s) in Hj.
    rewrite Hp in Hj. injection Hj as <-. by apply Hrow.
  - apply (Hr j); [done | by rewrite <- Hother | done].
Qed.

(** ** The flush *)

Definition mark_flushed (cost reqs : Z) (b : Cell) : Cell := b <| LastFlushed := cost |> <| LastReqs := reqs |>.

(** What one entry of the flush does. *)
Inductive flush_outcome (clock : string -> Z) s (id : string) : Z -> GovState Db UDb -> Prop :=
| flush_absent : s.(BudgetMap) !! id = None -> flush_outcome clock s id 0 s
| flush_clean p : s.(BudgetMap) !! id = Some p -> clean (get s p) -> flush_outcome clock s id 0 s
| flush_failed p e d' : s.(BudgetMap) !! id = Some p -> ~ clean (get s p) ->
    FlushBudgetUsage id (get s p).(WindowCost) (get s p).(WindowReqs) (clock id) s.(budgets) = (Err e, d') ->
    flush_outcome clock s id 0 (s <| budgets := d' |>)
| flush_done p d' : s.(BudgetMap) !! id = Some p -> ~ clean (get s p) ->
    FlushBudgetUsage id (get s p).(WindowCost) (get s p).(WindowReqs) (clock id) s.(budgets) = (Ok tt, d') ->
    flush_outcome clock s id 1 (on_cell p (mark_flushed (get s p).(WindowCost) (get s p).(WindowReqs)) (s <| budgets := d' |>)).

Lemma on_cell_twice s p f g : on_cell p g (on_cell p f s) = on_cell p (fun b => g (f b)) s.
Proof.
  unfold on_cell, field_upd. destruct s as [h m d u uh]. cbn. f_equal.
  apply list_eq. intros i. rewrite !list_lookup_alter.
  case_decide as Hp; [|done]. rewrite decide_True by done. by destruct (h !! p).
Qed.

(** An update of a cell is what it does to its value. *)
Lemma on_cell_ext s p f g : f (get s p) = g (get s p) -> on_cell p f s = on_cell p g s.
Proof.
  intros Hfg. unfold on_cell, field_upd. destruct s as [h m d u uh]. cbn. f_equal.
  apply list_eq. intros i. rewrite !list_lookup_alter. case_decide as Hi; [subst i|done].
  unfold get in Hfg. cbn in Hfg. destruct (h !! p) as [b|]; [|done]. cbn in *. by rewrite Hfg.
Qed.

Lemma flush_entry_outcome clock n s id n' s' :
  cache_ok s -> 0 <= n < MaxInt64 -> run exec (flush_entry clock n id) s = (n', s') ->
  exists k, n' = n + k /\ flush_outcome clock s id k s'.
Proof.
  intros Hok Hn. unfold flush_entry. cbn [run exec].
  destruct (BudgetMap s !! id) as [p|] eqn:Hp; cbn [run exec].
  2: { intros [= <- <-]. exists 0. split; [lia | by constructor]. }
  destruct (co_config s Hok id p Hp) as (cfg & Hcfg & <-). rewrite Hcfg. cbn [run exec window last].
  assert (Hgo : ~ clean (get s p) ->
    run exec (r <~ DbFlush (BID cfg) (WindowCost (get s p)) (WindowReqs (get s p)) (clock (BID cfg));;
            match r with
            | Err _ => Ret n
            | Ok _ =>
                do StoreLast p CostCounter (WindowCost (get s p));;
                do StoreLast p ReqsCounter (WindowReqs (get s p));;
                Ret (add64 n 1)
            end) s = (n', s') ->
    exists k, n' = n + k /\ flush_outcome clock s (BID cfg) k s').
  { intros Hdirty. cbn [run exec]. unfold on_budgets.
    destruct (FlushBudgetUsage _ _ _ _ _) as [[[]|e] d'] eqn:Hf; cbn [run exec].
    - intros [= <- <-]. exists 1. split.
      + unfold add64. apply wrap64_small. unfold in_int64, MinInt64. lia.
      + rewrite on_cell_twice. exact (flush_done _ _ _ _ _ Hp Hdirty Hf).
    - intros [= <- <-]. exists 0. split; [lia|]. by eapply flush_failed. }
  destruct (Z.eqb_spec (WindowCost (get s p)) (LastFlushed (get s p))) as [Hc|Hc].
  - cbn [run exec last].
    destruct (Z.eqb_spec (WindowReqs (get s p)) (LastReqs (get s p))) as [Hr|Hr].
    + intros [= <- <-]. exists 0. split; [lia|]. by eapply flush_clean.
    + apply Hgo. intros [? ?]. done.
  - apply Hgo. intros [? ?]. done.
Qed.

(** Whether an ID is cached with totals the database has not accepted. *)
Definition pending s (id : string) : bool :=
  match entry s id with Some b => negb (bool_decide (clean b)) | None => false end.

(** A cell with the same configuration and the same totals. *)
Definition same_totals (b b' : Cell) : Prop :=
  b'.(Config) = b.(Config) /\ b'.(WindowCost) = b.(WindowCost) /\ b'.(WindowReqs) = b.(WindowReqs).

(** The frame of a job on the entries [ids]: other entries and rows are as before. *)
Record frame (ids : list string) s s' : Prop := mkFrame {
  fr_map : s'.(BudgetMap) = s.(BudgetMap);
  fr_entry id : id ∉ ids -> entry s' id = entry s id;
  fr_row id : id ∉ ids -> tbl s'.(budgets) id = tbl s.(budgets) id;
  fr_usage : s'.(usage) = s.(usage) /\ s'.(usage_history) = s.(usage_history)
}.

Lemma frame_refl ids s : frame ids s s.
Proof. by constructor. Qed.

Lemma frame_trans ids1 ids2 s1 s2 s3 :
  frame ids1 s1 s2 -> frame ids2 s2 s3 -> frame (ids1 ++ ids2) s1 s3.
Proof.
  intros [M1 E1 R1 [U1 H1]] [M2 E2 R2 [U2 H2]]. constructor; [congruence | | | split; congruence];
    intros id [Hn1 Hn2]%not_elem_of_app; [rewrite E2 | rewrite R2]; auto.
Qed.

Lemma entry_Some s id p : s.(BudgetMap) !! id = Some p -> entry s id = Some (get s p).
Proof. unfold entry. by intros ->. Qed.

Lemma entry_on_cell s id p f d' j :
  cache_ok s -> s.(BudgetMap) !! id = Some p ->
  entry (on_cell p f (s <| budgets := d' |>)) j
  = if decide (j = id) then Some (f (get s p)) else entry s j.
Proof.
  intros Hok Hp. unfold entry. change (BudgetMap (on_cell _ _ _)) with (BudgetMap s).
  pose proof (co_valid s Hok _ _ Hp) as Hlen.
  destruct (decide (j = id)) as [->|Hne].
  - rewrite Hp. simpl. rewrite get_on_cell by done. by rewrite decide_True.
  - destruct (BudgetMap s !! j) as [q|] eqn:Hq; [|done]. simpl. rewrite get_on_cell by done.
    rewrite decide_False; [done|]. intros ->. apply Hne. by eapply (co_inj s Hok).
Qed.

(** Each outcome keeps the cache well formed and touches one entry. *)
Lemma flush_outcome_spec clock s id k s' :
  cache_ok s -> flush_outcome clock s id k s' ->
  cache_ok s' /\ frame [id] s s' /\
  (forall b, entry s id = Some b -> exists b', entry s' id = Some b' /\ same_totals b b' /\ (b' = b \/ clean b')) /\
  k = (if pending s id && negb (pending s' id) then 1 else 0).
Proof.
  intros Hok Ho. destruct Ho as [Hp|p Hp Hc|p e d' Hp Hc Hf|p d' Hp Hc Hf].
  - splits; [done | apply frame_refl | |].
    + unfold entry. by rewrite Hp.
    + unfold pending, entry. by rewrite Hp.
  - splits; [done | apply frame_refl | |].
    + intros b Hb. exists b. unfold same_totals. auto.
    + unfold pending. rewrite (entry_Some _ _ _ Hp). by rewrite bool_decide_eq_true_2.
  - apply flush_row in Hf as (Hd & Hoth & Hid); [|by apply co_db].
    assert (Hent : forall j, entry (s <| budgets := d' |>) j = entry s j) by done.
    splits.
    + eapply cache_ok_row; [done|done|done|done|]. by intros r _ ?.
    + constructor; [done|done| |done]. intros j Hj. apply Hoth. set_solver.
    + intros b Hb. exists b. unfold same_totals. auto.
    + unfold pending. rewrite Hent. by destruct (entry s id) as [b|]; [destruct (bool_decide _)|].
  - apply flush_row in Hf as (Hd & Hoth & Hid); [|by apply co_db].
    pose proof (entry_on_cell s id p (mark_flushed (WindowCost (get s p)) (WindowReqs (get s p))) d')
      as Hent.
    splits.
    + apply (cache_ok_update s id); [done|done|done|done| |].
      * destruct (co_config s Hok _ _ Hp) as (cfg & Hcfg & Hid'). exists cfg. by rewrite <- Hcfg.
      * intros r. rewrite Hid. intros (r0 & _ & ->)%fmap_Some _. done.
    + constructor; [done| | |done].
      * intros j Hj. rewrite Hent by done. rewrite decide_False by set_solver. done.
      * intros j Hj. apply Hoth. set_solver.
    + intros b Hb. rewrite Hent, decide_True by done. rewrite (entry_Some _ _ _ Hp) in Hb.
      injection Hb as <-. eexists. split; [done|]. split; [done|]. by right.
    + unfold pending. rewrite Hent, decide_True, (entry_Some _ _ _ Hp) by done.
      rewrite bool_decide_eq_false_2 by done. by rewrite bool_decide_eq_true_2.
Qed.

Lemma run_for_each {X A} (body : A -> X -> gprog A) x l a s :
  run exec (for_each body (x :: l) a) s
  = let '(a1, s1) := run exec (body a x) s in run exec (for_each body l a1) s1.
Proof. apply (run_bind exec). Qed.

Lemma pending_frame ids s s' id : frame ids s s' -> id ∉ ids -> pending s' id = pending s id.
Proof. intros Hf Hn. unfold pending. by rewrite (fr_entry _ _ _ Hf id Hn). Qed.

(** The entries of [order] that the flush made clean. *)
Definition flushed_ids s s' (order : list string) : list string :=
  List.filter (fun id => pending s id && negb (pending s' id)) order.

Lemma flush_loop clock order : forall s n m s',
  cache_ok s -> NoDup order -> 0 <= n -> n + Z.of_nat (List.length order) <= MaxInt64 ->
  run exec (for_each (flush_entry clock) order n) s = (m, s') ->
  cache_ok s' /\ frame order s s' /\
  (forall id b, id ∈ order -> entry s id = Some b -> exists b', entry s' id = Some b' /\ same_totals b b' /\ (b' = b \/ clean b')) /\
  m = n + Z.of_nat (List.length (flushed_ids s s' order)).
Proof.
  induction order as [|x order IH]; intros s n m s' Hok Hnd Hn Hlen Hrun.
  - injection Hrun as <- <-. splits; [done | apply frame_refl | by intros ? ? ?%not_elem_of_nil | simpl; lia].
  - rewrite run_for_each in Hrun. cbn [List.length] in Hlen.
    destruct (run exec (flush_entry clock n x) s) as [n1 s1] eqn:Hx.
    apply flush_entry_outcome in Hx as (k & -> & Ho); [|done|lia].
    destruct (flush_outcome_spec _ _ _ _ _ Hok Ho) as (Hok1 & Hf1 & He1 & ->).
    apply NoDup_cons in Hnd as [Hx Hnd].
    apply IH in Hrun as (Hok2 & Hf2 & He2 & ->); [|done|done|destruct (_ && _); lia|destruct (_ && _); lia].
    splits.
    + done.
    + exact (frame_trans _ _ _ _ _ Hf1 Hf2).
    + intros id b Hid Hb. destruct (decide (id = x)) as [->|Hne].
      * destruct (He1 _ Hb) as (b' & Hb' & ?). exists b'. by rewrite (fr_entry _ _ _ Hf2 x Hx).
      * apply He2; [set_solver|]. rewrite (fr_entry _ _ _ Hf1); [done | set_solver].
    + unfold flushed_ids. cbn [List.filter].
      rewrite (pending_frame _ _ _ _ Hf2 Hx).
      rewrite (filter_ext_in (fun id => pending s id && negb (pending s' id))
                 (fun id => pending s1 id && negb (pending s' id))).
      * destruct (pending s x && negb (pending s1 x)); cbn [List.length]; lia.
      * intros id Hid%list_elem_of_In. rewrite (pending_frame _ _ _ _ Hf1); [done | set_solver].
Qed.

(** The flush.  No total is changed and nothing outside the visited budgets is touched; each
    visited budget with unflushed spend either ends with its row holding exactly the totals of
    its window, or its statement failed and it is left as it was, to be retried by the next run;
    the number returned counts the former. *)
Theorem flushBudgetUsage_spec clock order s n s' :
  cache_ok s -> NoDup order -> Z.of_nat (List.length order) <= MaxInt64 ->
  run exec (flushBudgetUsage clock order) s = (n, s') ->
  cache_ok s' /\ frame order s s' /\
  (forall id b, id ∈ order -> entry s id = Some b -> exists b', entry s' id = Some b' /\ same_totals b b' /\
    (pending s' id = true /\ b' = b \/
     pending s' id = false /\ forall r, tbl s'.(budgets) id = Some r ->
       r.(STotalCost) = b.(WindowCost) /\ r.(SRequestCount) = b.(WindowReqs))) /\
  n = Z.of_nat (List.length (flushed_ids s s' order)).
Proof.
  intros Hok Hnd Hlen Hrun. apply flush_loop in Hrun as (Hok' & Hf & He & ->); [|done|done|lia|lia].
  splits; [done|done| |lia]. intros id b Hid Hb.
  destruct (He id b Hid Hb) as (b' & Hb' & Hs & Hc). exists b'. splits; [done|done|].
  unfold pending. rewrite Hb'. destruct (decide (clean b')) as [Hcl|Hd].
  - right. rewrite bool_decide_eq_true_2 by done. split; [done|]. intros r Hr.
    unfold entry in Hb'. destruct (BudgetMap s' !! id) as [p|] eqn:Hp; [|done].
    injection Hb' as <-. destruct Hs as (_ & <- & <-). by eapply (co_row s' Hok').
  - left. rewrite bool_decide_eq_false_2 by done. split; [done|]. by destruct Hc.
Qed.

(** ** The roll *)

(** A cell whose window was closed. *)
Definition rolled_config (target : Z) (cfg : Budget) : Budget :=
  cfg <| LastBudgetRefreshAt := target |> <| TotalSpend := 0 |> <| RequestCount := 0 |>.
Definition rolled_cell (target : Z) (cfg : Budget) : Cell := mkCell (Some (rolled_config target cfg)) 0 0 0 0.

Inductive track_outcome (now : Z) (clock : string -> Z) s (id : string) : Z -> GovState Db UDb -> Prop :=
| track_absent : s.(BudgetMap) !! id = None -> track_outcome now clock s id 0 s
| track_early p cfg : s.(BudgetMap) !! id = Some p -> (get s p).(Config) = Some cfg ->
    budgetResetTarget (Some cfg) now = None -> track_outcome now clock s id 0 s
| track_flush_failed p cfg target e d' :
    s.(BudgetMap) !! id = Some p -> (get s p).(Config) = Some cfg ->
    budgetResetTarget (Some cfg) now = Some target ->
    FlushBudgetUsage id (get s p).(WindowCost) (get s p).(WindowReqs) (clock id) s.(budgets) = (Err e, d') ->
    track_outcome now clock s id 0 (s <| budgets := d' |>)
| track_reset_failed p cfg target e d1 d' :
    s.(BudgetMap) !! id = Some p -> (get s p).(Config) = Some cfg ->
    budgetResetTarget (Some cfg) now = Some target ->
    FlushBudgetUsage id (get s p).(WindowCost) (get s p).(WindowReqs) (clock id) s.(budgets) = (Ok tt, d1) ->
    ResetBudgetWindow id target d1 = (Err e, d') ->
    track_outcome now clock s id 0 (s <| budgets := d' |>)
| track_done p cfg target d1 d' :
    s.(BudgetMap) !! id = Some p -> (get s p).(Config) = Some cfg ->
    budgetResetTarget (Some cfg) now = Some target ->
    FlushBudgetUsage id (get s p).(WindowCost) (get s p).(WindowReqs) (clock id) s.(budgets) = (Ok tt, d1) ->
    ResetBudgetWindow id target d1 = (Ok tt, d') ->
    track_outcome now clock s id 1 (on_cell p (fun _ => rolled_cell target cfg) (s <| budgets := d' |>)).

Lemma add_opposite n : add64 n (wrap64 (- n)) = 0.
Proof. unfold add64. rewrite wrap64_add_r. by rewrite Z.add_opp_diag_r. Qed.

(** The five updates of a closed window, in the order of the code. *)
Lemma roll_cell s p target cfg n :
  (p < List.length s.(heap))%nat ->
  run exec (do StoreConfig p (Some (rolled_config target cfg));;
            do AddWindow p CostCounter (wrap64 (- (get s p).(WindowCost)));;
            do AddWindow p ReqsCounter (wrap64 (- (get s p).(WindowReqs)));;
            do StoreLast p CostCounter 0;;
            do StoreLast p ReqsCounter 0;;
            Ret (add64 n 1)) s
  = (add64 n 1, on_cell p (fun _ => rolled_cell target cfg) s).
Proof.
  intros Hp. cbn [run exec window]. rewrite !on_cell_twice.
  rewrite !get_on_cell by done. rewrite !decide_True by done.
  cbn [set_window WindowCost WindowReqs field_upd]. rewrite !add_opposite. done.
Qed.

Lemma track_entry_outcome now clock n s id n' s' :
  cache_ok s -> 0 <= n < MaxInt64 -> run exec (track_entry now clock n id) s = (n', s') ->
  exists k, n' = n + k /\ track_outcome now clock s id k s'.
Proof.
  intros Hok Hn. unfold track_entry. cbn [run exec].
  destruct (BudgetMap s !! id) as [p|] eqn:Hp; cbn [run exec].
  2: { intros [= <- <-]. exists 0. split; [lia | by constructor]. }
  destruct (co_config s Hok id p Hp) as (cfg & Hcfg & <-). rewrite Hcfg.
  destruct (budgetResetTarget (Some cfg) now) as [target|] eqn:Ht.
  2: { intros [= <- <-]. exists 0. split; [lia | by eapply track_early]. }
  cbn [run exec window]. unfold on_budgets.
  destruct (FlushBudgetUsage _ _ _ _ _) as [[[]|e] d1] eqn:Hf; cbn [run].
  2: { intros [= <- <-]. exists 0. split; [lia | by eapply track_flush_failed]. }
  cbn [exec]. unfold on_budgets.
  change (budgets (s <| budgets := d1 |>)) with d1.
  destruct (ResetBudgetWindow _ _ _) as [[[]|e] d2] eqn:Hr.
  2: { intros [= <- <-]. exists 0. split; [lia | by eapply track_reset_failed]. }
  pose proof (roll_cell (s <| budgets := d2 |>) p target cfg n (co_valid s Hok _ _ Hp)) as Hroll.
  intros Hrun. assert (E : (n', s') = (add64 n 1, on_cell p (fun _ => rolled_cell target cfg) (s <| budgets := d2 |>))).
  { refine (eq_trans (eq_sym Hrun) _). exact Hroll. }
  injection E as -> ->. exists 1. split.
  - unfold add64. apply wrap64_small. unfold in_int64, MinInt64. lia.
  - by eapply track_done.
Qed.

(** The window of a budget is over, and where the window that contains [now] starts. *)
Definition over (now : Z) (cfg : Budget) : Prop :=
  0 < cfg.(BudgetParseDuration) <= now - cfg.(LastBudgetRefreshAt).
Definition window_start (now : Z) (cfg : Budget) (target : Z) : Prop :=
  exists k, 1 <= k /\ target = cfg.(LastBudgetRefreshAt) + k * cfg.(BudgetParseDuration) /\
    target <= now /\
    (now - cfg.(LastBudgetRefreshAt) <= MaxInt64 -> now < target + cfg.(BudgetParseDuration)).

(** One of the two statements of the roll of a cell fails on the table [d]. *)
Definition roll_fails (now : Z) (clock : string -> Z) (d : Db) (id : string) (b : Cell) (cfg : Budget) : Prop :=
  (exists e d1, FlushBudgetUsage id b.(WindowCost) b.(WindowReqs) (clock id) d = (Err e, d1)) \/
  (exists target d1 e d2, window_start now cfg target /\
     FlushBudgetUsage id b.(WindowCost) b.(WindowReqs) (clock id) d = (Ok tt, d1) /\
     ResetBudgetWindow id target d1 = (Err e, d2)).

(** The two results of a visit that finds the table [d]. *)
Definition kept now clock (d : Db) s s' (id : string) (b : Cell) : Prop :=
  entry s' id = Some b /\ forall cfg, b.(Config) = Some cfg ->
    (over now cfg -> roll_fails now clock d id b cfg) /\
    (~ over now cfg -> tbl s'.(budgets) id = tbl s.(budgets) id).
Definition closed now s' (id : string) (b : Cell) : Prop :=
  exists cfg target, b.(Config) = Some cfg /\ over now cfg /\ window_start now cfg target /\
    entry s' id = Some (rolled_cell target cfg) /\
    forall r, tbl s'.(budgets) id = Some r ->
      r.(STotalCost) = 0 /\ r.(SRequestCount) = 0 /\ r.(SLastBudgetRefreshAt) = target.

(** The durations of some budgets are [time.Duration]s. *)
Definition durations_ok (ids : list string) s : Prop :=
  forall id b cfg, id ∈ ids -> entry s id = Some b -> b.(Config) = Some cfg -> in_int64 cfg.(BudgetParseDuration).

Lemma budgetResetTarget_over cfg now : in_int64 cfg.(BudgetParseDuration) ->
  match budgetResetTarget (Some cfg) now with
  | None => ~ over now cfg
  | Some target => over now cfg /\ window_start now cfg target
  end.
Proof.
  intros Hd. pose proof (budgetResetTarget_spec cfg now Hd) as Ht. cbv zeta in Ht. unfold over, window_start.
  destruct (budgetResetTarget (Some cfg) now) as [t|]; [|lia].
  destruct Ht as (? & ? & k & ? & ? & ? & ?). split; [lia|]. by exists k.
Qed.

(** A visit of a cached budget, as the two results see it. *)
Lemma kept_early now clock s id p cfg b :
  s.(BudgetMap) !! id = Some p -> (get s p).(Config) = Some cfg -> entry s id = Some b ->
  ~ over now cfg -> kept now clock s.(budgets) s s id b.
Proof.
  intros Hp Hc Hb Hover. split; [done|]. intros cfg' Hcfg.
  rewrite (entry_Some _ _ _ Hp) in Hb. injection Hb as <-. rewrite Hc in Hcfg. injection Hcfg as <-. done.
Qed.

Lemma kept_failed now clock s d' id p cfg b :
  s.(BudgetMap) !! id = Some p -> (get s p).(Config) = Some cfg -> entry s id = Some b ->
  over now cfg -> roll_fails now clock s.(budgets) id (get s p) cfg ->
  kept now clock s.(budgets) s (s <| budgets := d' |>) id b.
Proof.
  intros Hp Hc Hb Hover Hfail. split; [done|]. intros cfg' Hcfg.
  rewrite (entry_Some _ _ _ Hp) in Hb. injection Hb as <-. rewrite Hc in Hcfg. injection Hcfg as <-. done.
Qed.

Lemma track_outcome_spec now clock s id k s' :
  cache_ok s -> durations_ok [id] s -> track_outcome now clock s id k s' ->
  cache_ok s' /\ frame [id] s s' /\
  forall b, entry s id = Some b ->
    k = 0 /\ kept now clock s.(budgets) s s' id b \/ k = 1 /\ closed now s' id b.
Proof.
  intros Hok Hdur Ho.
  assert (Htarget : forall p cfg, s.(BudgetMap) !! id = Some p -> (get s p).(Config) = Some cfg ->
    match budgetResetTarget (Some cfg) now with
    | None => ~ over now cfg | Some target => over now cfg /\ window_start now cfg target end).
  { intros p cfg Hp Hc. apply budgetResetTarget_over.
    apply (Hdur id (get s p)); [by left | by apply entry_Some | done]. }
  destruct Ho as [Hp|p cfg Hp Hc Ht|p cfg t e d' Hp Hc Ht Hf|p cfg t e d1 d' Hp Hc Ht Hf Hr|p cfg t d1 d' Hp Hc Ht Hf Hr];
    try (specialize (Htarget p cfg Hp Hc); rewrite Ht in Htarget).
  - splits; [done | apply frame_refl|]. intros b. unfold entry. by rewrite Hp.
  - splits; [done | apply frame_refl|]. intros b Hb. left. split; [done|]. by eapply kept_early.
  - assert (Hfail : roll_fails now clock s.(budgets) id (get s p) cfg) by (left; by exists e, d').
    apply flush_row in Hf as (Hd & Hoth & Hid); [|by apply co_db]. splits.
    + eapply cache_ok_row; [done|done|done|done|]. intros r. rewrite Hid. intros Hr Hcl.
      by apply (co_row s Hok id).
    + constructor; [done|done| |done]. intros j Hj. apply Hoth. set_solver.
    + intros b Hb. left. split; [done|]. destruct Htarget. by eapply kept_failed.
  - assert (Hfail : roll_fails now clock s.(budgets) id (get s p) cfg)
      by (right; exists t, d1, e, d'; by destruct Htarget).
    apply flush_row in Hf as (Hd1 & Hoth1 & Hid1); [|by apply co_db].
    apply reset_row in Hr as (Hd & Hoth & Hid); [|done]. splits.
    + eapply cache_ok_row; [done|done|done| |].
      * intros j Hj. rewrite Hoth by done. by apply Hoth1.
      * intros r. rewrite Hid, Hid1. intros (r0 & _ & ->)%fmap_Some _. done.
    + constructor; [done|done| |done]. intros j Hj. cbn. rewrite Hoth by set_solver. apply Hoth1. set_solver.
    + intros b Hb. left. split; [done|]. destruct Htarget. by eapply kept_failed.
  - apply flush_row in Hf as (Hd1 & Hoth1 & Hid1); [|by apply co_db].
    apply reset_row in Hr as (Hd & Hoth & Hid); [|done].
    pose proof (entry_on_cell s id p (fun _ => rolled_cell t cfg) d') as Hent.
    splits.
    + apply (cache_ok_update s id); [done|done|done| | |].
      * intros j Hj. rewrite Hoth by done. by apply Hoth1.
      * destruct (co_config s Hok _ _ Hp) as (cfg' & Hcfg & Hid'). exists (rolled_config t cfg).
        split; [done|]. rewrite Hc in Hcfg. injection Hcfg as <-. exact Hid'.
      * intros r. rewrite Hid. intros (r0 & _ & ->)%fmap_Some _. done.
    + constructor; [done| | |done].
      * intros j Hj. rewrite Hent by done. rewrite decide_False by set_solver. done.
      * intros j Hj. cbn. rewrite Hoth by set_solver. apply Hoth1. set_solver.
    + intros b Hb. right. split; [done|]. rewrite (entry_Some _ _ _ Hp) in Hb. injection Hb as <-.
      exists cfg, t. destruct Htarget. splits; [done|done|done| |].
      * rewrite Hent by done. by rewrite decide_True.
      * intros r. cbn. rewrite Hid. intros (r0 & _ & ->)%fmap_Some. done.
Qed.

(** The loop: [before] are the entries visited before one, and the run on them leaves the table
    its visit finds. *)
Definition table_after now clock (n : Z) (before : list string) s : Db :=
  (run exec (for_each (track_entry now clock) before n) s).2.(budgets).

Definition visit_result now clock (n : Z) (order rolled : list string) s s' (id : string) (b : Cell) : Prop :=
  (id ∉ rolled /\ exists before after, order = (before ++ id :: after)%list /\
     kept now clock (table_after now clock n before s) s s' id b) \/
  (id ∈ rolled /\ closed now s' id b).

Lemma track_loop now clock order : forall s n m s',
  cache_ok s -> durations_ok order s ->
  NoDup order -> 0 <= n -> n + Z.of_nat (List.length order) <= MaxInt64 ->
  run exec (for_each (track_entry now clock) order n) s = (m, s') ->
  cache_ok s' /\ frame order s s' /\ exists rolled,
    m = n + Z.of_nat (List.length rolled) /\ NoDup rolled /\ rolled ⊆ order /\
    forall id b, id ∈ order -> entry s id = Some b -> visit_result now clock n order rolled s s' id b.
Proof.
  induction order as [|x order IH]; intros s n m s' Hok Hdur Hnd Hn Hlen Hrun.
  - injection Hrun as <- <-. splits; [done | apply frame_refl |]. exists [].
    splits; [simpl; lia | constructor | done | by intros ? ? ?%not_elem_of_nil].
  - rewrite run_for_each in Hrun. cbn [List.length] in Hlen.
    destruct (run exec (track_entry now clock n x) s) as [n1 s1] eqn:Hx0.
    pose proof Hx0 as Hx. apply track_entry_outcome in Hx as (k & -> & Ho); [|done|lia].
    destruct (track_outcome_spec _ _ _ _ _ _ Hok ltac:(intros id b cfg ->%list_elem_of_singleton; apply Hdur; left) Ho)
      as (Hok1 & Hf1 & He1).
    assert (Hk : k = 0 \/ k = 1) by (destruct Ho; auto).
    apply NoDup_cons in Hnd as [Hx Hnd].
    assert (Hdur1 : durations_ok order s1).
    { intros id b cfg Hid. rewrite (fr_entry _ _ _ Hf1) by set_solver. apply Hdur. by right. }
    apply IH in Hrun as (Hok2 & Hf2 & rolled & -> & Hnd2 & Hsub & He2); [|done|done|done|lia|lia].
    splits; [done | exact (frame_trans _ _ _ _ _ Hf1 Hf2) |].
    assert (Hxr : x ∉ rolled) by set_solver.
    assert (Hrest : forall id b, id ∈ order -> entry s id = Some b ->
      visit_result now clock n (x :: order) rolled s s' id b).
    { intros id b Hid Hb.
      destruct (He2 id b) as [(Hn2 & before & after & -> & Hkept)|Hcl]; [done| | | by right].
      - rewrite (fr_entry _ _ _ Hf1); [done | set_solver].
      - left. split; [done|]. exists (x :: before), after. split; [done|].
        unfold kept in *. rewrite <- (fr_row _ _ _ Hf1) by set_solver.
        unfold table_after in *. rewrite run_for_each, Hx0. exact Hkept. }
    assert (Hfirst : forall b, entry s x = Some b ->
      k = 0 /\ kept now clock (table_after now clock n [] s) s s' x b \/ k = 1 /\ closed now s' x b).
    { intros b Hb. unfold kept, closed. rewrite (fr_entry _ _ _ Hf2 x Hx), (fr_row _ _ _ Hf2 x Hx).
      by apply He1. }
    exists (if decide (k = 1) then x :: rolled else rolled).
    destruct Hk as [-> | ->]; [rewrite decide_False by lia | rewrite decide_True by done].
    + splits; [lia | done | set_solver |]. intros id b [->|Hid]%elem_of_cons Hb; [|by apply Hrest].
      destruct (Hfirst b Hb) as [[_ ?]|[[=] _]]. left. split; [done|]. by exists [], order.
    + splits; [cbn [List.length]; lia | by constructor | set_solver |].
      intros id b [->|Hid]%elem_of_cons Hb.
      * right. split; [by left|]. by destruct (Hfirst b Hb) as [[[=] _]|[_ ?]].
      * destruct (Hrest id b Hid Hb) as [[? ?]|[? ?]]; [left | right]; (split; [set_solver | done]).
Qed.

(** C11: The roll.  A visited budget whose window is not over keeps its cell and its row.  One
    whose window is over is closed and counted: its counters and the row's totals are zero, and
    both take the start of the current window, a whole number of windows after the old one and not
    in the future.  It stays exactly as it was, spend included, only when the flush of its totals
    or the reset of its row fails on the table its visit finds.  Budgets that were not visited are
    untouched. *)
Theorem trackBudgetWindow_spec now clock order s n s' :
  cache_ok s -> durations_ok order s -> NoDup order -> Z.of_nat (List.length order) <= MaxInt64 ->
  run exec (trackBudgetWindow now clock order) s = (n, s') ->
  cache_ok s' /\ frame order s s' /\ exists rolled,
    n = Z.of_nat (List.length rolled) /\ NoDup rolled /\ rolled ⊆ order /\
    forall id b, id ∈ order -> entry s id = Some b -> visit_result now clock 0 order rolled s s' id b.
Proof. intros Hok Hdur Hnd Hlen Hrun. apply (track_loop now clock order s 0); [done|done|done|lia|lia|done]. Qed.
End jobs.

(** ** A concrete cache *)

Definition day : Z := 86400000000000.
Definition demo_row (id : string) (total reqs : Z) : StoreBudget :=
  mkStoreBudget id id 1000 BudgetUnitNanoUSD "1d" true total reqs "bound" 0 day 0 0 0.
Definition demo_cell (id : string) (total reqs flushed flushed_reqs : Z) : Cell :=
  mkCell (Some (ToCore (demo_row id flushed flushed_reqs))) total reqs flushed flushed_reqs.

(** Two budgets with spend the table does not know yet; the next statements fail as told. *)
Definition demo (fs : list bool) : GovState (MemTable StoreBudget) MemHistory :=
  mkGovState [demo_cell "b1" 700 3 500 2; demo_cell "b2" 40 1 0 0]
    (<["b1" := 0%nat]> {["b2" := 1%nat]})
    (mkMemTable (<["b1" := demo_row "b1" 500 2]> {["b2" := demo_row "b2" 0 0]}) fs)
    (NewUsageBuffer 0) ([], []).

Lemma demo_map fs id p : BudgetMap (demo fs) !! id = Some p ->
  id = "b1" /\ p = 0%nat \/ id = "b2" /\ p = 1%nat.
Proof. cbn. rewrite lookup_insert_Some, lookup_singleton_Some. naive_solver. Qed.

Lemma demo_ok fs : cache_ok (demo fs).
Proof.
  constructor.
  - intros id p [[-> ->]|[-> ->]]%demo_map; cbn; lia.
  - intros id1 id2 p [[-> ->]|[-> ->]]%demo_map [[-> E]|[-> E]]%demo_map; done.
  - intros id p [[-> ->]|[-> ->]]%demo_map; eexists; by split.
  - intros id r. cbn [budgets demo rows].
    intros [[<- <-]|[_ [<- <-]%lookup_singleton_Some]]%lookup_insert_Some; done.
  - intros id p r [[-> ->]|[-> ->]]%demo_map _ [Hc _]; vm_compute in Hc; discriminate Hc.
Qed.

(** The first statement succeeds, the second fails. *)
Lemma flushBudgetUsage_spec_witness :
  let '(n, s') := run exec (flushBudgetUsage (fun _ => 7) ["b1"; "b2"]) (demo [false; true]) in
  n = 1 /\ pending s' "b1" = false /\ pending s' "b2" = true /\ cache_ok s' /\
  n = Z.of_nat (List.length (flushed_ids (demo [false; true]) s' ["b1"; "b2"])).
Proof.
  destruct (run exec (flushBudgetUsage (fun _ => 7) ["b1"; "b2"]) (demo [false; true])) as [n s'] eqn:Hr.
  assert (Hnd : NoDup ["b1"; "b2"]) by (apply (bool_decide_unpack _); vm_compute; exact I).
  destruct (flushBudgetUsage_spec (fun _ => 7) ["b1"; "b2"] (demo [false; true]) n s'
    (demo_ok _) Hnd ltac:(cbn; unfold MaxInt64; lia) Hr) as (Hok & _ & _ & Hn).
  vm_compute in Hr. injection Hr as <- <-. splits; [reflexivity | reflexivity | reflexivity | exact Hok | exact Hn].
Defined.

(** A day later both windows are over; the reset of the second one fails. *)
Lemma trackBudgetWindow_spec_witness :
  let '(n, s') := run exec (trackBudgetWindow (day + 5) (fun _ => 7) ["b1"; "b2"])
    (demo [false; false; false; true]) in
  n = 1 /\ entry s' "b1" = Some (rolled_cell day (ToCore (demo_row "b1" 500 2))) /\
  entry s' "b2" = Some (demo_cell "b2" 40 1 0 0) /\ cache_ok s'.
Proof.
  destruct (run exec (trackBudgetWindow (day + 5) (fun _ => 7) ["b1"; "b2"])
    (demo [false; false; false; true])) as [n s'] eqn:Hr.
  assert (Hnd : NoDup ["b1"; "b2"]) by (apply (bool_decide_unpack _); vm_compute; exact I).
  assert (Hdur : durations_ok ["b1"; "b2"] (demo [false; false; false; true])).
  { intros id b cfg [->|[->|[]%not_elem_of_nil]%elem_of_cons]%elem_of_cons Hb Hc; vm_compute in Hb;
      injection Hb as <-; vm_compute in Hc; injection Hc as <-; vm_compute; split; congruence. }
  destruct (trackBudgetWindow_spec _ _ _ (demo [false; false; false; true]) n s'
    (demo_ok _) Hdur Hnd ltac:(cbn; unfold MaxInt64; lia) Hr) as (Hok & _ & _).
  vm_compute in Hr. injection Hr as <- <-. splits; [reflexivity | reflexivity | reflexivity | exact Hok].
Defined.
