(* ===== verification/BudgetSync.v ===== *)
(** * Synchronisation and request hooks, run alone

    What one synchronisation of the cache with the table does, why a restart loses no spend that
    was flushed, and what the two request hooks decide and record. *)

From S2P Require Import Prelude GoBase Float64 Errors Catalog Money Pricing Duration Context Gorm Atomic StoreBudget Usage Budget BudgetJobs.
Local Open Scope Z_scope.

Section sync.
Context {Db UDb : Type} `{Gorm Db StoreBudget} `{!GormLaws Db StoreBudget} `{UsageTable UDb}.
Implicit Types s : GovState Db UDb.

(** ** Rows as they are read *)

(** [r'] is the row [r] as gorm returns it. *)
Definition read_row (r r' : StoreBudget) : Prop := AfterFind r = Ok r'.

Lemma after_find_all_spec rows rows' :
  after_find_all rows = Ok rows' <-> Forall2 read_row rows rows'.
Proof.
  unfold after_find_all.
  assert (Hgen : forall acc, foldM (fun out b => match AfterFind b with
                   | Ok b' => Ok (out ++ [b'])%list | Err e => Err e end) acc rows = Ok rows' <->
                 exists tl, rows' = (acc ++ tl)%list /\ Forall2 read_row rows tl).
  { induction rows as [|r rows IH]; intros acc; cbn [foldM].
    - split.
      + intros [= <-]. exists []. rewrite app_nil_r. auto.
      + intros (tl & -> & Hf). apply Forall2_nil_inv_l in Hf as ->. by rewrite app_nil_r.
    - destruct (AfterFind r) as [r'|e] eqn:Hr.
      + rewrite IH. split.
        * intros (tl & -> & Hf). exists (r' :: tl). rewrite <- app_assoc. split; [done|]. by constructor.
        * intros (tl & -> & Hf). apply Forall2_cons_inv_l in Hf as (x & tl' & Hx & Hf & ->).
          unfold read_row in Hx. rewrite Hr in Hx. injection Hx as <-.
          exists tl'. rewrite <- app_assoc. by split.
      + split; [done|]. intros (tl & _ & Hf). apply Forall2_cons_inv_l in Hf as (x & tl' & Hx & _).
        unfold read_row in Hx. congruence. }
  rewrite (Hgen []). split; [by intros (tl & -> & ?) | by exists rows'].
Qed.

(** The hook sets the parsed duration only. *)
Lemma read_row_spec r r' :
  read_row r r' -> r' = r <| SBudgetParseDuration := r'.(SBudgetParseDuration) |>.
Proof.
  unfold read_row, AfterFind. destruct (is_empty _); [by intros [= <-]|].
  destruct (ParseDuration _); [by intros [= <-] | done].
Qed.

Lemma read_row_totals r r' : read_row r r' ->
  r'.(SID) = r.(SID) /\ r'.(STotalCost) = r.(STotalCost) /\ r'.(SRequestCount) = r.(SRequestCount).
Proof. intros ->%read_row_spec. done. Qed.

(** ** Loading the cache *)

(** The pointers of the cache are valid and not shared, and configurations carry their keys. *)
Record map_ok s : Prop := mkMapOk {
  mo_valid id p : s.(BudgetMap) !! id = Some p -> (p < List.length s.(heap))%nat;
  mo_inj id1 id2 p : s.(BudgetMap) !! id1 = Some p -> s.(BudgetMap) !! id2 = Some p -> id1 = id2;
  mo_config id p : s.(BudgetMap) !! id = Some p ->
    exists cfg, (get s p).(Config) = Some cfg /\ cfg.(BID) = id
}.

Lemma cache_ok_map s : cache_ok s -> map_ok s.
Proof. intros [? ? ? ? ?]. by constructor. Qed.

(** [UpsertBudget] on one key of the map. *)
Definition upserted (b : Budget) (old : option Cell) : Cell :=
  match old with Some c => c <| Config := Some b |> | None => seeded b end.

Lemma get_alloc s c id q :
  get (s <| heap ::= fun h => (h ++ [c])%list |> <| BudgetMap ::= <[id := List.length s.(heap)]> |>) q
  = if decide (q = List.length s.(heap)) then c else get s q.
Proof.
  unfold get. change (heap (_ <| BudgetMap ::= _ |>)) with (heap s ++ [c])%list.
  destruct (decide (q = _)) as [->|Hne]; [by rewrite list_lookup_middle|].
  destruct (decide (q < List.length (heap s))%nat).
  - by rewrite lookup_app_l.
  - rewrite !lookup_ge_None_2; [done | lia |]. rewrite length_app. cbn. lia.
Qed.

Lemma UpsertBudget_run s b s' :
  map_ok s -> run exec (UpsertBudget (Some b)) s = (tt, s') ->
  map_ok s' /\ budgets s' = budgets s /\ usage s' = usage s /\
  forall id, entry s' id = if decide (id = b.(BID)) then Some (upserted b (entry s id)) else entry s id.
Proof.
  intros [Hv Hi Hc]. unfold UpsertBudget. cbn [run exec].
  destruct (BudgetMap s !! BID b) as [p|] eqn:Hp; cbn [run exec]; intros [= <-].
  - pose proof (Hv _ _ Hp) as Hlen.
    assert (Hget : forall q, get (on_cell p (fun c => c <| Config := Some b |>) s) q
                   = if decide (q = p) then get s p <| Config := Some b |> else get s q).
    { intros q. by rewrite get_on_cell. }
    splits; [|done|done|].
    + constructor; [intros j q Hj; rewrite length_on_cell; by apply (Hv j) | exact Hi |].
      intros j q Hj. change (BudgetMap (on_cell _ _ _)) with (BudgetMap s) in Hj. rewrite Hget.
      destruct (decide (q = p)) as [->|]; [|by apply Hc].
      exists b. split; [done|]. exact (Hi _ _ _ Hp Hj).
    + intros j. unfold entry. change (BudgetMap (on_cell _ _ _)) with (BudgetMap s).
      destruct (decide (j = BID b)) as [->|Hne].
      * rewrite Hp. cbn [fmap option_fmap option_map]. rewrite Hget. by rewrite decide_True.
      * destruct (BudgetMap s !! j) as [q|] eqn:Hq; [|done]. cbn [fmap option_fmap option_map].
        rewrite Hget, decide_False; [done|]. intros ->. apply Hne. exact (Hi _ _ _ Hq Hp).
  - match goal with |- map_ok ?x /\ _ => set (s' := x) end.
    assert (Hmap : BudgetMap s' = <[BID b := List.length (heap s)]> (BudgetMap s)) by done.
    assert (Hget : forall q, get s' q = if decide (q = List.length (heap s)) then seeded b else get s q).
    { intros q. apply get_alloc. }
    splits; [|done|done|].
    + constructor.
      * intros j q. rewrite Hmap. change (heap s') with (heap s ++ [seeded b])%list.
        rewrite length_app. cbn [List.length].
        intros [[_ <-]|[_ Hj%Hv]]%lookup_insert_Some; lia.
      * intros j1 j2 q. rewrite Hmap.
        intros [[<- <-]|[Hn1 H1]]%lookup_insert_Some [[<- E]|[Hn2 H2]]%lookup_insert_Some;
          [done | apply Hv in H2; lia | apply Hv in H1; lia | by eapply Hi].
      * intros j q. rewrite Hmap, Hget. intros [[<- <-]|[Hn Hj]]%lookup_insert_Some.
        -- rewrite decide_True by done. by exists b.
        -- rewrite decide_False by (apply Hv in Hj; lia). by apply Hc.
    + intros j. unfold entry. rewrite Hmap. destruct (decide (j = BID b)) as [->|Hne].
      * rewrite lookup_insert_eq, Hp. cbn [fmap option_fmap option_map]. rewrite Hget. by rewrite decide_True.
      * rewrite lookup_insert_ne by done. destruct (BudgetMap s !! j) as [q|] eqn:Hq; [|done].
        cbn [fmap option_fmap option_map]. rewrite Hget, decide_False by (apply Hv in Hq; lia). done.
Qed.

Lemma upsert_loop_run data : forall s s',
  map_ok s -> NoDup (map BID data) ->
  run exec (for_each (fun _ b => UpsertBudget (Some b)) data tt) s = (tt, s') ->
  map_ok s' /\ budgets s' = budgets s /\ usage s' = usage s /\
  (forall b, In b data -> entry s' b.(BID) = Some (upserted b (entry s b.(BID)))) /\
  (forall id, id ∉ map BID data -> entry s' id = entry s id).
Proof.
  induction data as [|b data IH]; intros s s' Hok Hnd Hrun.
  - injection Hrun as <-. done.
  - rewrite run_for_each in Hrun. destruct (run exec (UpsertBudget (Some b)) s) as [[] s1] eqn:Hb.
    destruct (UpsertBudget_run _ _ _ Hok Hb) as (Hok1 & Hd1 & Hu1 & He1).
    cbn [map] in Hnd. apply NoDup_cons in Hnd as [Hnb Hnd].
    destruct (IH _ _ Hok1 Hnd Hrun) as (Hok2 & Hd2 & Hu2 & Hin & Hout).
    splits; [done | congruence | congruence | |].
    + intros c [<-|Hc].
      * rewrite Hout by done. rewrite He1. by rewrite decide_True.
      * rewrite Hin by done. rewrite He1, decide_False; [done|]. intros E. apply Hnb. rewrite <- E.
        apply list_elem_of_In, in_map_iff. eauto.
    + cbn [map]. intros id [Hne Hid]%not_elem_of_cons. rewrite Hout by done.
      rewrite He1. by rewrite decide_False.
Qed.

Lemma delete_loop_run (ids order : list string) : forall s s',
  map_ok s ->
  run exec (for_each (fun _ id =>
    v <~ MapLoad id;;
    match v with
    | None => Ret tt
    | Some _ => if bool_decide (id ∈ ids) then Ret tt else DeleteBudget id
    end) order tt) s = (tt, s') ->
  map_ok s' /\ budgets s' = budgets s /\ usage s' = usage s /\
  (forall id, id ∈ ids \/ id ∉ order -> entry s' id = entry s id) /\
  (forall id, id ∉ ids -> id ∈ order -> entry s' id = None).
Proof.
  induction order as [|x order IH]; intros s s' Hok Hrun.
  - injection Hrun as <-. splits; try done. by intros ? ? ?%not_elem_of_nil.
  - rewrite run_for_each in Hrun.
    destruct (run exec _ s) as [[] s1] eqn:Hx in Hrun.
    assert (H1 : map_ok s1 /\ budgets s1 = budgets s /\ usage s1 = usage s /\
      forall id, entry s1 id = if decide (id = x /\ id ∉ ids) then None else entry s id).
    { revert Hx. cbn [run exec]. destruct (BudgetMap s !! x) as [p|] eqn:Hp.
      - destruct (bool_decide _) eqn:Hb; zbool; [intros [= <-] | intros [= E]].
        + splits; [done|done|done|]. intros id. rewrite decide_False; [done|]. by intros [-> ?].
        + destruct Hok as [Hv Hi Hc].
          assert (Hm : BudgetMap s1 = delete x (BudgetMap s)) by by rewrite <- E.
          assert (Hh : heap s1 = heap s) by by rewrite <- E.
          assert (Hg : forall q, get s1 q = get s q) by by intros q; unfold get; rewrite Hh.
          splits; [| by rewrite <- E | by rewrite <- E |].
          * constructor; [intros j q|intros j1 j2 q|intros j q]; rewrite Hm, ?Hh, ?Hg;
              rewrite !lookup_delete_Some; naive_solver.
          * intros id. unfold entry. rewrite Hm. destruct (decide (id = x /\ id ∉ ids)) as [[-> _]|Hne].
            -- by rewrite lookup_delete_eq.
            -- rewrite lookup_delete_ne; [destruct (BudgetMap s !! id); [cbn; by rewrite Hg | done]|].
               intros <-. by apply Hne.
      - intros [= <-]. splits; [done|done|done|]. intros id.
        destruct (decide (id = x /\ id ∉ ids)) as [[-> _]|]; [|done]. unfold entry. by rewrite Hp. }
    destruct H1 as (Hok1 & Hd1 & Hu1 & He1).
    destruct (IH _ _ Hok1 Hrun) as (Hok2 & Hd2 & Hu2 & Hkeep & Hdel).
    splits; [done | congruence | congruence | |].
    + intros id Hid. rewrite Hkeep by set_solver. rewrite He1, decide_False; [done | set_solver].
    + intros id Hid Hin. destruct (decide (id ∈ order)) as [Ho|Ho]; [by apply Hdel|].
      rewrite Hkeep by auto. rewrite He1, decide_True; [done|]. set_solver.
Qed.

(** The configuration of a synchronised entry and its totals. *)
Lemma upserted_totals row row' old :
  read_row row row' ->
  let c := upserted (ToCore row') old in
  c.(Config) = Some (ToCore row') /\
  match old with
  | Some b => c.(WindowCost) = b.(WindowCost) /\ c.(WindowReqs) = b.(WindowReqs) /\
      c.(LastFlushed) = b.(LastFlushed) /\ c.(LastReqs) = b.(LastReqs)
  | None => c.(WindowCost) = row.(STotalCost) /\ c.(WindowReqs) = row.(SRequestCount) /\
      c.(LastFlushed) = row.(STotalCost) /\ c.(LastReqs) = row.(SRequestCount)
  end.
Proof.
  intros (_ & Ht & Hr)%read_row_totals. destruct old; cbn; rewrite <- ?Ht, <- ?Hr; done.
Qed.

(** The list read from the table is the table. *)
Lemma ListBudgets_spec d res d' :
  db_ok d -> ListBudgets d = (res, d') ->
  db_ok d' /\ (forall id, tbl d' id = tbl d id) /\
  forall rows', res = Ok rows' ->
    NoDup (map BID (map ToCore rows')) /\
    (forall id, tbl d id = None -> id ∉ map BID (map ToCore rows')) /\
    (forall id r, tbl d id = Some r -> exists r', read_row r r' /\ In (ToCore r') (map ToCore rows') /\ r'.(SID) = id).
Proof.
  intros Hok. unfold ListBudgets. destruct (db_find d) as [[rows|e] d1] eqn:Hf.
  - intros [= <- <-]. destruct (find_state _ _ _ Hok Hf) as [Hok1 Ht]. splits; [done|done|].
    intros rows' Hres. destruct (after_find_all rows) as [rs|] eqn:Ha; [|done]. injection Hres as ->.
    apply after_find_all_spec in Ha. destruct (find_rows _ _ _ Hok Hf) as [Hnd Hrows].
    assert (Hids : map BID (map ToCore rows') = map key rows).
    { rewrite map_map. clear -Ha. induction Ha as [|r r' l l' (Hid & _)%read_row_totals _ IH]; [done|].
      cbn [map]. f_equal; [exact Hid | exact IH]. }
    splits.
    + by rewrite Hids.
    + rewrite Hids. intros id Hid (r & Hk & Hr)%list_elem_of_In%in_map_iff.
      apply Hrows in Hr. congruence.
    + intros id r Hr. pose proof (tbl_key d id r Hok Hr) as <-.
      assert (Hin : In r rows) by by apply Hrows.
      apply list_elem_of_In, list_elem_of_lookup in Hin as [i Hi].
      destruct (Forall2_lookup_l _ _ _ _ _ Ha Hi) as (r' & Hr' & Hrr). exists r'. splits; [done| |].
      * apply in_map, list_elem_of_In, list_elem_of_lookup. eauto.
      * by apply read_row_totals in Hrr as [-> _].
  - intros [= <- <-]. destruct (find_state _ _ _ Hok Hf) as [Hok1 Ht]. by splits.
Qed.

(** What a complete synchronisation leaves under each ID. *)
Definition synced s s' (id : string) : Prop :=
  match tbl s.(budgets) id with
  | None => entry s' id = None
  | Some row => exists row', read_row row row' /\ entry s' id = Some (upserted (ToCore row') (entry s id))
  end.

Lemma entry_None s id : entry s id = None <-> s.(BudgetMap) !! id = None.
Proof. unfold entry. by destruct (BudgetMap s !! id). Qed.

Lemma syncBudget_run order s res s' :
  map_ok s -> db_ok s.(budgets) -> (forall id, entry s id <> None -> id ∈ order) ->
  run exec (syncBudget order) s = (res, s') ->
  map_ok s' /\ db_ok s'.(budgets) /\ (forall id, tbl s'.(budgets) id = tbl s.(budgets) id) /\
  match res with
  | Err _ => forall id, entry s' id = entry s id
  | Ok _ => forall id, synced s s' id
  end.
Proof.
  intros Hmo Hdb Hord. unfold syncBudget. cbn [run exec]. unfold on_budgets.
  destruct (ListBudgets (budgets s)) as [r d'] eqn:Hl.
  destruct (ListBudgets_spec _ _ _ Hdb Hl) as (Hdb' & Ht & Hrows). cbn [run].
  set (s1 := s <| budgets := d' |>).
  assert (He1 : forall id, entry s1 id = entry s id) by done.
  assert (Hmo1 : map_ok s1) by (destruct Hmo; by constructor).
  destruct r as [rows'|e]; [|intros [= <- <-]; by splits].
  destruct (Hrows _ eq_refl) as (Hnd & Hnone & Hsome). clear Hrows.
  unfold LoadBudgets. unfold mbind, prog_mbind. rewrite !(run_bind exec).
  destruct (run exec _ s1) as [[] s2] eqn:H2.
  destruct (upsert_loop_run _ _ _ Hmo1 Hnd H2) as (Hmo2 & Hd2 & _ & Hin & Hout).
  destruct (run exec _ s2) as [[] s3] eqn:H3.
  destruct (delete_loop_run _ _ _ _ Hmo2 H3) as (Hmo3 & Hd3 & _ & Hkeep & Hdel).
  intros [= <- <-].
  assert (Hd : budgets s3 = d') by (rewrite Hd3, Hd2; done).
  splits; [done | by rewrite Hd | by rewrite Hd |].
  intros id. unfold synced. destruct (tbl (budgets s) id) as [row|] eqn:Hrow.
  - destruct (Hsome _ _ Hrow) as (row' & Hrr & Hi & Hid). exists row'. split; [done|].
    apply Hin in Hi as He. change (BID (ToCore row')) with (SID row') in He. rewrite Hid in He.
    rewrite Hkeep, He; [done|]. left. apply list_elem_of_In, in_map_iff. by exists (ToCore row').
  - specialize (Hnone _ Hrow). destruct (decide (id ∈ order)) as [Ho|Ho]; [by apply Hdel|].
    rewrite Hkeep by auto. rewrite Hout by done. rewrite He1.
    destruct (entry s id) eqn:E; [|done]. exfalso. apply Ho, Hord. congruence.
Qed.

(** C12: A synchronisation that reads the table makes the cache the image of the table: exactly
    the budgets of the table are cached, with the configuration of their rows; a budget that was
    cached keeps its counters, spend not yet flushed included, and a new one starts from the
    totals of its row.  One that fails leaves every entry as it was.  The table is only read. *)
Theorem syncBudget_spec order s res s' :
  cache_ok s -> (forall id, entry s id <> None -> id ∈ order) ->
  run exec (syncBudget order) s = (res, s') ->
  cache_ok s' /\ (forall id, tbl s'.(budgets) id = tbl s.(budgets) id) /\
  match res with
  | Err _ => forall id, entry s' id = entry s id
  | Ok _ => forall id, synced s s' id
  end.
Proof.
  intros Hok Hord Hrun. pose proof (co_db s Hok) as Hdb.
  destruct (syncBudget_run _ _ _ _ (cache_ok_map s Hok) Hdb Hord Hrun) as ([Hv Hi Hc] & Hdb' & Ht & Hres).
  splits; [|done|done]. constructor; [done|done|done|done|].
  intros id p r Hp Hr Hcl. rewrite Ht in Hr.
  assert (He' : entry s' id = Some (get s' p)) by by apply entry_Some.
  assert (Hold : forall b, entry s id = Some b -> clean b ->
    r.(STotalCost) = b.(WindowCost) /\ r.(SRequestCount) = b.(WindowReqs)).
  { unfold entry. intros b Hb Hcb. destruct (BudgetMap s !! id) as [q|] eqn:Hq; [|done].
    injection Hb as <-. by apply (co_row s Hok id). }
  destruct res as [n|e].
  - specialize (Hres id). unfold synced in Hres. rewrite Hr in Hres.
    destruct Hres as (row' & Hrr & He). rewrite He' in He. injection He as He.
    pose proof (upserted_totals _ _ (entry s id) Hrr) as [_ Hu]. rewrite <- He in Hu.
    destruct (entry s id) as [b|] eqn:Eb.
    + destruct Hu as (Hc1 & Hc2 & Hc3 & Hc4). rewrite Hc1, Hc2. apply Hold; [done|].
      destruct Hcl as [Hcl1 Hcl2]. split; congruence.
    + destruct Hu as (Hc1 & Hc2 & _). by rewrite Hc1, Hc2.
  - rewrite Hres in He'. by apply (Hold (get s' p)).
Qed.

(** A restart loses no flushed spend.  When nothing is pending (as after a flush whose
    statements succeeded, which is the last thing the job does at shutdown), a new process that
    synchronises an empty cache with the table resumes every budget the table still has with the
    totals, in nanodollars and in requests, of its open window. *)
Theorem restart_resumes s s0 order n s1 id b :
  cache_ok s -> pending s id = false -> entry s id = Some b -> tbl s.(budgets) id <> None ->
  s0.(heap) = [] -> s0.(BudgetMap) = ∅ -> s0.(budgets) = s.(budgets) ->
  run exec (syncBudget order) s0 = (Ok n, s1) ->
  exists b', entry s1 id = Some b' /\ clean b' /\
    b'.(WindowCost) = b.(WindowCost) /\ b'.(WindowReqs) = b.(WindowReqs).
Proof.
  intros Hok Hpend Hb Hrow Hh Hm Hd Hrun.
  assert (Hmo : map_ok s0).
  { constructor; rewrite Hm; intros *; rewrite lookup_empty; done. }
  assert (Hdb : db_ok (budgets s0)) by (rewrite Hd; by apply co_db).
  assert (He0 : forall j, entry s0 j = None) by (intros j; apply entry_None; by rewrite Hm).
  destruct (syncBudget_run _ _ _ _ Hmo Hdb (fun j Hj => False_ind _ (Hj (He0 j))) Hrun)
    as (_ & _ & _ & Hs).
  specialize (Hs id). unfold synced in Hs. rewrite Hd, He0 in Hs.
  destruct (tbl (budgets s) id) as [row|] eqn:Hr; [|done]. destruct Hs as (row' & Hrr & He).
  pose proof (upserted_totals _ _ None Hrr) as [_ (H1 & H2 & H3 & H4)].
  unfold pending in Hpend. rewrite Hb in Hpend. zbool.
  assert (Hrt : STotalCost row = WindowCost b /\ SRequestCount row = WindowReqs b).
  { unfold entry in Hb. destruct (BudgetMap s !! id) as [p|] eqn:Hp; [|done]. injection Hb as <-.
    by apply (co_row s Hok id). }
  destruct Hrt as [<- <-]. exists (upserted (ToCore row') None). splits; [done| |done|done].
  split; congruence.
Qed.
End sync.

(** ** Concrete runs *)

(** The cache of [demo] after the table lost "b2" and gained "b3". *)
Definition demo_changed : GovState (MemTable StoreBudget) MemHistory :=
  let s := demo [] in
  s <| budgets := mkMemTable (<["b1" := demo_row "b1" 500 2]> {["b3" := demo_row "b3" 90 4]}) [] |>.

Lemma demo_changed_ok : cache_ok demo_changed.
Proof.
  destruct (demo_ok []) as [Hv Hi Hc _ _]. constructor; [exact Hv | exact Hi | exact Hc | |].
  - change (map_Forall (fun id r => key r = id)
      (<["b1" := demo_row "b1" 500 2]> {["b3" := demo_row "b3" 90 4]} : gmap string StoreBudget)).
    intros id r.
    intros [[<- <-]|[_ [<- <-]%lookup_singleton_Some]]%lookup_insert_Some; done.
  - intros id p r [[-> ->]|[-> ->]]%(demo_map []) _ [Hcl _]; vm_compute in Hcl; discriminate Hcl.
Qed.

Lemma demo_changed_order id : entry demo_changed id <> None -> id ∈ ["b2"; "b1"].
Proof.
  intros Hne. apply dec_stable. intros Hid. apply Hne, entry_None.
  change (BudgetMap demo_changed) with (<["b1" := 0%nat]> {["b2" := 1%nat]} : gmap string nat).
  rewrite lookup_insert_ne by (intros <-; apply Hid; by right; left).
  apply lookup_singleton_ne. intros <-. apply Hid. by left.
Qed.

Lemma syncBudget_spec_witness :
  let '(res, s') := run exec (syncBudget ["b2"; "b1"]) demo_changed in
  res = Ok 2 /\ WindowCost <$> entry s' "b1" = Some 700 /\ entry s' "b2" = None /\
  WindowCost <$> entry s' "b3" = Some 90 /\ cache_ok s'.
Proof.
  destruct (run exec (syncBudget ["b2"; "b1"]) demo_changed) as [res s'] eqn:Hr.
  destruct (syncBudget_spec _ _ _ _ demo_changed_ok demo_changed_order Hr) as (Hok & _).
  vm_compute in Hr. injection Hr as <- <-. splits; [reflexivity..|exact Hok].
Defined.

(** A cache whose budgets are flushed, and the process that follows it. *)
Definition demo_flushed : GovState (MemTable StoreBudget) MemHistory :=
  (run exec (flushBudgetUsage (fun _ => 7) ["b1"; "b2"]) (demo [])).2.

Lemma demo_flushed_ok : cache_ok demo_flushed.
Proof.
  unfold demo_flushed. destruct (run exec _ (demo [])) as [n s'] eqn:Hr.
  assert (Hnd : NoDup ["b1"; "b2"]) by (apply (bool_decide_unpack _); vm_compute; exact I).
  by destruct (flush_loop _ ["b1"; "b2"] _ 0 _ _ (demo_ok []) Hnd
    ltac:(lia) ltac:(cbn; unfold MaxInt64; lia) Hr) as (Hok & _).
Qed.

Lemma restart_resumes_witness :
  let s0 := mkGovState [] ∅ (budgets demo_flushed) (NewUsageBuffer 0) ([], []) in
  let '(res, s1) := run exec (syncBudget []) s0 in
  res = Ok 2 /\ exists b', entry s1 "b1" = Some b' /\ clean b' /\ b'.(WindowCost) = 700 /\ b'.(WindowReqs) = 3.
Proof.
  intros s0. destruct (run exec (syncBudget []) s0) as [res s1] eqn:Hr.
  assert (Hres : res = Ok 2) by (vm_compute in Hr; injection Hr as <- _; reflexivity). subst res.
  split; [reflexivity|].
  assert (Hb : exists b, entry demo_flushed "b1" = Some b /\ b.(WindowCost) = 700 /\ b.(WindowReqs) = 3).
  { eexists. split; [vm_compute; reflexivity|]. split; reflexivity. }
  destruct Hb as (b & Hb & <- & <-).
  exact (restart_resumes demo_flushed s0 [] 2 s1 "b1" b demo_flushed_ok
    ltac:(vm_compute; reflexivity) Hb ltac:(vm_compute; discriminate) eq_refl eq_refl eq_refl Hr).
Defined.
