(* ===== verification/BudgetHooks.v ===== *)
(** * The budget hooks of a request, run alone

    What the pre-call hook decides and what the post-call hook records. *)

From S2P Require Import Prelude GoBase Float64 Errors Catalog Money Pricing Duration Context Gorm Atomic StoreBudget Usage Budget BudgetJobs.
Local Open Scope Z_scope.

(** ** Reference definitions *)

(** An enforced budget whose limit is spent. *)
Definition exhausted (b : Cell) : bool :=
  match b.(Config) with
  | None => false
  | Some cfg => negb (cfg.(BudgetLimit) =? 0) && deref true cfg.(Enforce) && (cfg.(BudgetLimit) <=? b.(WindowCost))
  end.

(** A cell after one request that cost [nano]. *)
Definition charged (nano : Z) (b : Cell) : Cell :=
  b <| WindowCost := add64 b.(WindowCost) nano |> <| WindowReqs := add64 b.(WindowReqs) 1 |>.

Section hooks.
Context {Db UDb : Type} `{Gorm Db StoreBudget} `{!GormLaws Db StoreBudget} `{UsageTable UDb}.
Implicit Types s : GovState Db UDb.

Lemma CheckBudgetUsage_run s p : run exec (CheckBudgetUsage p) s = (negb (exhausted (get s p)), s).
Proof.
  unfold CheckBudgetUsage, exhausted. cbn [run exec]. destruct (Config (get s p)) as [cfg|]; [|done].
  destruct (BudgetLimit cfg =? 0); [done|]. cbn [negb andb].
  destruct (deref true (Enforce cfg)); cbn [run exec negb andb window]; [|done].
  by rewrite Z.leb_antisym, negb_involutive.
Qed.

(** The budget hook changes nothing and lets a request pass exactly when its key names a
    budget that is cached and not exhausted: not (limit set, enforcement not switched off and the
    spend of the window at or over the limit).  An unnamed or unknown budget is a configuration
    error, an exhausted one a refusal. *)
Theorem BudgetHook_spec rctx s :
  run exec (BudgetHook_Execute rctx) s =
    (if is_empty rctx.(BudgetRef) then Some (NewInvalidBudget "budget reference not set on virtual key")
     else match entry s rctx.(BudgetRef) with
          | None => Some (NewInvalidBudget rctx.(BudgetRef))
          | Some b => if exhausted b
              then Some (NewBudgetExceeded "Budget exceeded for the DiffractLLM API key used") else None
          end, s).
Proof.
  unfold BudgetHook_Execute. destruct (is_empty _); [done|].
  unfold mbind, prog_mbind, entry. rewrite (run_bind exec). cbn [run exec LookupBudget act].
  destruct (BudgetMap s !! BudgetRef rctx) as [p|]; [|done].
  rewrite (run_bind exec), CheckBudgetUsage_run. cbn [fmap option_fmap option_map].
  by destruct (exhausted (get s p)).
Qed.

Lemma RecordUsage_run s p spend :
  (p < List.length s.(heap))%nat ->
  run exec (RecordUsage p spend) s = (tt, on_cell p (charged spend) s).
Proof.
  intros Hp. unfold RecordUsage. cbn [run exec window]. rewrite on_cell_twice.
  rewrite !get_on_cell by done. rewrite !decide_True by done. cbn [WindowReqs set_window field_upd].
  f_equal. by apply on_cell_ext.
Qed.

Lemma append_run {A} (t : gprog A) r s :
  run exec (stored <~ BufferAppend r;;
            (if stored then Ret 0 else act BufferDropped) ≫= fun _ => t) s
  = run exec t (s <| usage := Append r (usage s) |>).
Proof.
  unfold mbind, prog_mbind, Append. cbn [run exec]. unfold on_usage.
  destruct (append_locked r (usage s)) as [[] ub]; [done|].
  rewrite (run_bind exec). cbn [run exec act]. unfold on_usage.
  reflexivity.
Qed.

(** What requests rely on in the cache: its pointers are valid and not shared. *)
Record cells_ok s : Prop := mkCellsOk {
  ce_valid id p : s.(BudgetMap) !! id = Some p -> (p < List.length s.(heap))%nat;
  ce_inj id1 id2 p : s.(BudgetMap) !! id1 = Some p -> s.(BudgetMap) !! id2 = Some p -> id1 = id2
}.

Lemma cache_cells s : cache_ok s -> cells_ok s.
Proof. intros Hok. constructor; [apply (co_valid s Hok) | apply (co_inj s Hok)]. Qed.

(** The state after a request with usage [u] has been recorded. *)
Definition recorded (rctx : DiffractLLMContext) (u : Usage) s : GovState Db UDb :=
  let nano := ToNanoUSD rctx.(Cost) in
  let s1 := s <| usage := Append (usage_record rctx u nano) s.(usage) |> in
  match s.(BudgetMap) !! rctx.(BudgetRef) with
  | Some p => on_cell p (charged nano) s1
  | None => s1
  end.

Lemma RecordHook_run rctx s : cells_ok s ->
  run exec (RecordHook_Execute rctx) s =
    (None, match rctx.(Usage_) with None => s | Some u => recorded rctx u s end).
Proof.
  intros Hok. unfold RecordHook_Execute, recorded. destruct (Usage_ rctx) as [u|]; [|done].
  rewrite append_run. set (s1 := s <| usage := _ |>).
  unfold mbind, prog_mbind. rewrite (run_bind exec). cbn [run exec LookupBudget act].
  change (BudgetMap s1) with (BudgetMap s).
  destruct (BudgetMap s !! BudgetRef rctx) as [p|] eqn:Hp; [|done].
  rewrite (run_bind exec), RecordUsage_run; [done | exact (ce_valid s Hok _ _ Hp)].
Qed.

Lemma recorded_spec rctx u s : cells_ok s ->
  let nano := ToNanoUSD rctx.(Cost) in let s' := recorded rctx u s in
  cells_ok s' /\ s'.(usage) = Append (usage_record rctx u nano) s.(usage) /\
  s'.(BudgetMap) = s.(BudgetMap) /\ s'.(budgets) = s.(budgets) /\ s'.(usage_history) = s.(usage_history) /\
  forall id, entry s' id = if decide (id = rctx.(BudgetRef)) then charged nano <$> entry s id else entry s id.
Proof.
  intros [Hv Hi]. cbn zeta. unfold recorded.
  destruct (BudgetMap s !! BudgetRef rctx) as [p|] eqn:Hp.
  - pose proof (Hv _ _ Hp) as Hlen. set (s1 := s <| usage := _ |>).
    assert (Hget : forall q, get (on_cell p (charged (ToNanoUSD (Cost rctx))) s1) q
      = if decide (q = p) then charged (ToNanoUSD (Cost rctx)) (get s p) else get s q) by (intros q; by rewrite get_on_cell).
    splits; try done.
    + constructor; [|exact Hi]. intros id q Hq. rewrite length_on_cell. by apply (Hv id).
    + intros id. unfold entry. change (BudgetMap (on_cell p _ s1)) with (BudgetMap s).
      destruct (decide (id = BudgetRef rctx)) as [->|Hne].
      * rewrite Hp. cbn [fmap option_fmap option_map]. rewrite Hget. by rewrite decide_True.
      * destruct (BudgetMap s !! id) as [q|] eqn:Hq; [|done]. cbn [fmap option_fmap option_map].
        rewrite Hget, decide_False; [done|]. intros ->. by apply Hne, (Hi _ _ p).
  - splits; try done. intros id. destruct (decide (id = BudgetRef rctx)) as [->|Hne]; [|done].
    unfold entry. change (BudgetMap (s <| usage := _ |>)) with (BudgetMap s). by rewrite Hp.
Qed.

(** The record hook.  A request without a usage record leaves everything alone.  Otherwise
    its record, with the cost in nano-dollars, goes through the usage buffer (kept, or counted as
    dropped when the buffer is full); if its budget is cached, that budget is charged the cost
    and one request; no other budget, configuration, or row changes. *)
Theorem RecordHook_spec rctx s :
  cache_ok s ->
  exists s', run exec (RecordHook_Execute rctx) s = (None, s') /\
  match rctx.(Usage_) with
  | None => s' = s
  | Some u =>
      let nano := ToNanoUSD rctx.(Cost) in
      s'.(usage) = Append (usage_record rctx u nano) s.(usage) /\
      s'.(BudgetMap) = s.(BudgetMap) /\ s'.(budgets) = s.(budgets) /\
      s'.(usage_history) = s.(usage_history) /\
      forall id, entry s' id =
        if decide (id = rctx.(BudgetRef)) then charged nano <$> entry s id else entry s id
  end.
Proof.
  intros Hok%cache_cells. rewrite RecordHook_run by done. eexists. split; [reflexivity|].
  destruct (Usage_ rctx) as [u|]; [|done]. apply recorded_spec, Hok.
Qed.
End hooks.

(** A third request on the budget of 1000 nano-dollars, 700 of them spent, exhausts it. *)
Lemma RecordHook_spec_witness :
  let rctx := NewContext <| BudgetRef := "b1" |> <| Usage_ := Some Usage0 |>
                         <| Cost := f64_div (f64_of_Z 3) (f64_of_Z 10000000) |> in
  exists s', run exec (RecordHook_Execute rctx) (demo []) = (None, s') /\
    (exhausted <$> entry (demo []) "b1") = Some false /\ (exhausted <$> entry s' "b1") = Some true.
Proof.
  intros rctx. destruct (RecordHook_spec rctx (demo []) (demo_ok [])) as (s' & Hr & _).
  exists s'. split; [exact Hr|]. vm_compute in Hr. injection Hr as <-. split; reflexivity.
Defined.
