(* ===== verification/BudgetRace.v ===== *)
(** * Budgets under concurrency

    Any number of requests, synchronisations and admin updates run against the one background
    thread that flushes and rolls budgets, in any interleaving of their atomic operations. *)

From S2P Require Import Prelude GoBase Float64 Errors Catalog Money Pricing Duration Context Gorm Atomic StoreBudget Usage Budget BudgetJobs.
Local Open Scope Z_scope.

(** ** Threads *)

Definition discard {A} (t : gprog A) : gprog () := prog_bind (fun _ => Ret tt) t.

(** What one tick of the [budget_flush_roll] job is given: the time, the clock of its statements
    and the orders in which [Range] visits the map. *)
Record tick : Type := mkTick {
  t_now : Z;
  t_clock : string -> Z;
  t_flush_order : list string;
  t_roll_order : list string
}.

(** The [budget_flush_roll] job: each tick flushes, then rolls. *)
Definition budget_flush_roll (ticks : list tick) : gprog () :=
  for_each (fun _ t =>
    prog_bind (fun _ => discard (trackBudgetWindow t.(t_now) t.(t_clock) t.(t_roll_order)))
      (flushBudgetUsage t.(t_clock) t.(t_flush_order))) ticks tt.

(** Everything else that touches the shared state. *)
Inductive other_thread : gprog () -> Prop :=
| request_check rctx : other_thread (discard (BudgetHook_Execute rctx))
| request_record rctx : other_thread (discard (RecordHook_Execute rctx))
| budget_sync order : other_thread (discard (syncBudget order))
| admin_upsert b : other_thread (UpsertBudget b)
| admin_delete id : other_thread (DeleteBudget id)
| usage_flush uuid at_ : other_thread (discard (flushUsageHistory uuid at_)).

(** ** Accounts of a trace *)

(** What an operation adds to the spend of the budget [p]. *)
Definition added (p : nat) (e : event ans) : Z :=
  match e with
  | existT (AddWindow q CostCounter n) _ => if Nat.eqb q p then n else 0
  | _ => 0
  end.

(** What the requests recorded against [p]: the additions of every thread but the first. *)
Fixpoint recorded (p : nat) (tr : list (nat * event ans)) : Z :=
  match tr with
  | [] => 0
  | (0%nat, _) :: tr' => recorded p tr'
  | (_, e) :: tr' => added p e + recorded p tr'
  end.

(** The totals the job closed windows of [p] at: what the first thread took off its counter. *)
Fixpoint closings (p : nat) (tr : list (nat * event ans)) : list Z :=
  match tr with
  | [] => []
  | (0%nat, existT (AddWindow q CostCounter n) _) :: tr' =>
      if Nat.eqb q p then (- n) :: closings p tr' else closings p tr'
  | _ :: tr' => closings p tr'
  end.

Definition sum (l : list Z) : Z := foldr Z.add 0 l.

(** ** Threads that only add spend *)

Definition adds_only (o : op) : Prop :=
  match o with AddWindow _ CostCounter n => 0 <= n | _ => True end.

Fixpoint always {A} (P : op -> Prop) (t : gprog A) : Prop :=
  match t with Ret _ => True | Act o k => P o /\ forall a, always P (k a) end.

Lemma always_bind {A B} P (t : gprog A) (f : A -> gprog B) :
  always P t -> (forall a, always P (f a)) -> always P (prog_bind f t).
Proof. intros Ht Hf. induction t as [a|o k IH]; simpl in *; [apply Hf|]. destruct Ht. eauto. Qed.

Lemma always_for_each {X A} P (body : A -> X -> gprog A) l a :
  (forall a x, always P (body a x)) -> always P (for_each body l a).
Proof. intros Hb. revert a. induction l as [|x l IH]; intros a; [exact I|]. by apply always_bind. Qed.

Ltac go_always :=
  repeat match goal with
  | |- always _ (prog_bind _ _) => apply always_bind
  | |- always _ (mbind _ _) => apply always_bind
  | |- always _ (for_each _ _ _) => apply always_for_each
  | |- always _ (Act _ _) => split; [try exact I|]
  | |- always _ (Ret _) => exact I
  | |- always _ (act _) => split; [try exact I|]
  | |- always _ (match ?x with _ => _ end) => destruct x
  | |- forall _, _ => intros ?
  end; try done.

Lemma other_thread_adds t : other_thread t -> always adds_only t.
Proof.
  intros []; unfold discard, BudgetHook_Execute, RecordHook_Execute, syncBudget, LoadBudgets,
    UpsertBudget, DeleteBudget, LookupBudget, CheckBudgetUsage, RecordUsage, flushUsageHistory; go_always.
  apply ToNanoUSD_bounds.
Qed.

(** ** The job, seen from the spend of one budget *)

(** Where the job is with the budget [p]: the total it last loaded, and whether a closing flush
    and a reset with that total went through. *)
Inductive stage : Type :=
| Idle
| Loaded (c : Z)
| Flushed (id : string) (c : Z)
| WasReset (id : string) (c : Z).

Definition stage_total (g : stage) : Z :=
  match g with Idle => 0 | Loaded c | Flushed _ c | WasReset _ c => c end.

(** How an operation of the job with its answer moves the stage. *)
Definition stage_after (p : nat) (o : op) : ans o -> stage -> stage :=
  match o return ans o -> stage -> stage with
  | LoadWindow q CostCounter => fun a g => if Nat.eqb q p then Loaded a else g
  | AddWindow q CostCounter _ => fun _ g => if Nat.eqb q p then Idle else g
  | DbFlush id cost _ _ => fun a g =>
      match g, a with
      | Loaded c, Ok _ => if cost =? c then Flushed id c else g
      | _, _ => g
      end
  | DbReset id _ => fun a g =>
      match g, a with
      | Flushed id' c, Ok _ => if String.eqb id id' then WasReset id c else g
      | _, _ => g
      end
  | _ => fun _ g => g
  end.

(** The job takes off [p] exactly the total it loaded, after both statements went through. *)
Definition stage_allows (p : nat) (o : op) (g : stage) : Prop :=
  match o with
  | AddWindow q CostCounter n => q = p -> exists id c, g = WasReset id c /\ n = wrap64 (- c)
  | _ => True
  end.

Fixpoint job_ok {A} (p : nat) (g : stage) (t : gprog A) : Prop :=
  match t with
  | Ret _ => True
  | Act o k => stage_allows p o g /\ forall a, job_ok p (stage_after p o a g) (k a)
  end.

Lemma job_ok_bind {A B} p (t : gprog A) (f : A -> gprog B) g :
  job_ok p g t -> (forall a g', job_ok p g' (f a)) -> job_ok p g (prog_bind f t).
Proof.
  intros Ht Hf. revert g Ht. induction t as [a|o k IH]; intros g; simpl; [auto|].
  intros [Ha Hk]. split; [done|]. intros a. apply IH, Hk.
Qed.

Lemma job_ok_for_each {X A} p (body : A -> X -> gprog A) l a g :
  (forall a x g', job_ok p g' (body a x)) -> job_ok p g (for_each body l a).
Proof.
  intros Hb. revert a g. induction l as [|x l IH]; intros a g; [exact I|].
  by apply job_ok_bind.
Qed.

(** Loads, flags and flushes are always allowed. *)
Ltac go_job :=
  repeat match goal with
  | |- job_ok _ _ (Act _ _) => split; [try exact I|]
  | |- job_ok _ _ (Ret _) => exact I
  | |- forall _, _ => intros ?
  | |- job_ok _ _ (match ?x with _ => _ end) => destruct x eqn:?
  end.

Lemma flush_entry_job p clock n id g : job_ok p g (flush_entry clock n id).
Proof. unfold flush_entry. go_job. Qed.

Lemma track_entry_job p now clock n id g : job_ok p g (track_entry now clock n id).
Proof.
  unfold track_entry. go_job; intros ->. eexists _, _. split; cycle 1; [reflexivity|].
  cbn [stage_after]. rewrite Nat.eqb_refl, Z.eqb_refl. by rewrite String.eqb_refl.
Qed.

Lemma budget_flush_roll_job p ticks g : job_ok p g (budget_flush_roll ticks).
Proof.
  apply job_ok_for_each. intros _ t g'. apply job_ok_bind.
  - apply job_ok_for_each. intros. apply flush_entry_job.
  - intros _ g2. unfold discard. apply job_ok_bind; [|done].
    apply job_ok_for_each. intros. apply track_entry_job.
Qed.

(** ** Accounting *)

Section race.
Context {Db UDb : Type} `{Gorm Db StoreBudget} `{UsageTable UDb}.
Implicit Types s : GovState Db UDb.

Definition spend s (p : nat) : Z := (get s p).(WindowCost).

Lemma get_alloc_heap s c m p :
  (p < List.length s.(heap))%nat ->
  get (s <| heap ::= fun h => (h ++ [c])%list |> <| BudgetMap ::= m |>) p = get s p.
Proof. intros Hp. unfold get. cbn. by rewrite lookup_app_l. Qed.

(** Only additions move the spend of an allocated budget; nothing deallocates it. *)
Lemma exec_spend o s p :
  (p < List.length s.(heap))%nat ->
  (p < List.length (heap (exec o s).2))%nat /\
  spend (exec o s).2 p = match o with
    | AddWindow q CostCounter n => if Nat.eqb q p then add64 (spend s p) n else spend s p
    | _ => spend s p
    end.
Proof.
  intros Hp. unfold spend.
  assert (Hcell : forall q f, (p < List.length (heap (on_cell q f s)))%nat /\
    get (on_cell q f s) p = if decide (p = q) then f (get s p) else get s p).
  { intros q f. rewrite length_on_cell. split; [done|].
    destruct (decide (p = q)) as [->|Hne]; [rewrite get_on_cell by done; by rewrite decide_True|].
    unfold get. rewrite heap_on_cell. by rewrite list_lookup_alter_ne by congruence. }
  destruct o as [q|q cfg|q c|q c n|q c|q c n|id|id b|id|id c r t|id t| |r| | |rs]; cbn [exec snd];
    try (split; [done|reflexivity]).
  - destruct (Hcell q (fun b => b <| Config := cfg |>)) as [Hl Hg]. split; [done|].
    rewrite Hg. by case_decide.
  - destruct (Hcell q (set_window c (add64 (window c (get s q)) n))) as [Hl Hg]. split; [done|].
    rewrite Hg. destruct c; cbn.
    + destruct (Nat.eqb_spec q p) as [->|Hne]; [by rewrite decide_True|].
      by rewrite decide_False by congruence.
    + by case_decide.
  - destruct (Hcell q (set_last c n)) as [Hl Hg]. split; [done|].
    rewrite Hg. case_decide; [by destruct c | done].
  - destruct (BudgetMap s !! id); cbn [snd]; [done|]. rewrite get_alloc_heap by done. split; [|done].
    cbn. rewrite length_app. cbn. lia.
  - unfold on_budgets. by destruct (FlushBudgetUsage _ _ _ _ _).
  - unfold on_budgets. by destruct (ResetBudgetWindow _ _ _).
  - unfold on_budgets. by destruct (ListBudgets _).
  - unfold on_usage. by destruct (append_locked _ _).
  - unfold on_history. by destruct (BulkInsertUsageHistory _ _).
Qed.

(** One operation of the job.  [g] is its stage at [p]. *)
Lemma job_step p g o s :
  let x := (exec o s).1 in let s1 := (exec o s).2 in
  (p < List.length s.(heap))%nat -> stage_allows p o g ->
  0 <= stage_total g <= spend s p -> spend s p <= MaxInt64 ->
  0 <= stage_total (stage_after p o x g) <= spend s1 p /\
  spend s1 p = spend s p - sum (closings p [(0%nat, existT o x)]).
Proof.
  intros x s1 Hp Ha Hg Hmax. destruct (exec_spend o s p Hp) as [_ Hs1]. subst x s1.
  assert (Hsame : forall g', 0 <= stage_total g' <= spend s p -> spend (exec o s).2 p = spend s p ->
    0 <= stage_total g' <= spend (exec o s).2 p /\ spend (exec o s).2 p = spend s p - sum []).
  { intros g' ? ->. cbn. lia. }
  destruct o as [q|q cfg|q c|q c n|q c|q c n|id|id b|id|id c r t|id t| |r| | |rs];
    try (apply Hsame; [exact Hg | exact Hs1]).
  - destruct c; [|apply Hsame; [exact Hg | exact Hs1]].
    apply Hsame; [|exact Hs1]. cbn. destruct (Nat.eqb_spec q p) as [->|]; [|done]. cbn. unfold spend in *. lia.
  - destruct c; [|apply Hsame; [exact Hg | exact Hs1]]. rewrite Hs1. cbn [stage_after closings].
    destruct (Nat.eqb_spec q p) as [->|].
    + destruct (Ha eq_refl) as (id & c & -> & ->). cbn [stage_total] in *.
      rewrite (wrap64_small (- c)) by (unfold in_int64, MinInt64, MaxInt64 in *; lia).
      unfold add64. rewrite wrap64_small by (unfold in_int64, MinInt64, MaxInt64 in *; lia). cbn. lia.
    + cbn. lia.
  - apply Hsame; [|exact Hs1]. cbn [stage_after]. destruct g; try exact Hg. case_match; [|exact Hg].
    by case_match.
  - apply Hsame; [|exact Hs1]. cbn [stage_after]. destruct g; try exact Hg. case_match; [|exact Hg].
    by case_match.
Qed.

(** One operation of another thread. *)
Lemma other_step p o s :
  (p < List.length s.(heap))%nat -> adds_only o -> 0 <= spend s p ->
  spend s p + added p (existT o (exec o s).1) <= MaxInt64 ->
  spend (exec o s).2 p = spend s p + added p (existT o (exec o s).1).
Proof.
  intros Hp Ha Hnn Hmax. destruct (exec_spend o s p Hp) as [_ ->].
  destruct o as [q|q cfg|q c|q c n|q c|q c n|id|id b|id|id c r t|id t| |r| | |rs];
    try destruct c; cbn in *; try lia.
  destruct (Nat.eqb q p); [|lia]. unfold add64. apply wrap64_small.
  unfold in_int64, MinInt64, MaxInt64 in *. lia.
Qed.

Lemma added_nonneg p o (a : ans o) : adds_only o -> 0 <= added p (existT o a).
Proof. destruct o as [| | |q [] n| | | | | | | | | | | |]; cbn; try lia. case_match; lia. Qed.

(** A pool is the job and other threads; a step keeps it so. *)
Definition pool_ok p (g : stage) (pool : list (gprog ())) : Prop :=
  exists t0 others, pool = t0 :: others /\ job_ok p g t0 /\ Forall (always adds_only) others.

Inductive pool_case p g s (pool1 : list (gprog ())) s1 : list (nat * event ans) -> Prop :=
| case_idle : s1 = s -> pool_ok p g pool1 -> pool_case p g s pool1 s1 []
| case_job o : s1 = (exec o s).2 -> stage_allows p o g ->
    pool_ok p (stage_after p o (exec o s).1 g) pool1 ->
    pool_case p g s pool1 s1 [(0%nat, existT o (exec o s).1)]
| case_other i o : s1 = (exec o s).2 -> adds_only o -> pool_ok p g pool1 ->
    pool_case p g s pool1 s1 [(Datatypes.S i, existT o (exec o s).1)].

Lemma pool_step_case p g i pool s pool1 s1 tr1 :
  pool_ok p g pool -> pool_step exec i pool s = (pool1, s1, tr1) -> pool_case p g s pool1 s1 tr1.
Proof.
  intros (t0 & others & -> & Hjob & Hoth). unfold pool_step.
  destruct i as [|i]; cbn [lookup list_lookup].
  - destruct t0 as [|o k].
    + intros [= <- <- <-]. apply case_idle; [done|]. by exists (Ret a), others.
    + destruct (exec o s) as [x s'] eqn:He. intros [= <- <- <-]. destruct Hjob as [Ha Hk].
      replace x with (exec o s).1 by by rewrite He. apply case_job; [by rewrite He | done |].
      exists (k (exec o s).1), others. split; [by rewrite He|]. by split.
  - change ((t0 :: others) !! Datatypes.S i) with (others !! i).
    destruct (others !! i) as [[|o k]|] eqn:Hi.
    + intros [= <- <- <-]. apply case_idle; [done|]. by exists t0, others.
    + destruct (exec o s) as [x s'] eqn:He. intros [= <- <- <-].
      pose proof (Forall_lookup_1 _ _ _ _ Hoth Hi) as [Ha Hk].
      replace x with (exec o s).1 by by rewrite He. apply case_other; [by rewrite He | done |].
      exists t0, (<[i := k (exec o s).1]> others). split; [by rewrite He|]. split; [done|].
      by apply Forall_insert.
    + intros [= <- <- <-]. apply case_idle; [done|]. by exists t0, others.
Qed.

Lemma recorded_app p tr1 tr2 : recorded p (tr1 ++ tr2) = recorded p tr1 + recorded p tr2.
Proof. induction tr1 as [|[[|i] e] tr1 IH]; cbn [recorded app]; lia. Qed.

Lemma closings_cons p e tr : closings p (e :: tr) = (closings p [e] ++ closings p tr)%list.
Proof. destruct e as [[|i] [[] a]]; cbn; try done. destruct c; [|done]. by case_match. Qed.

Lemma closings_app p tr1 tr2 : closings p (tr1 ++ tr2) = (closings p tr1 ++ closings p tr2)%list.
Proof.
  induction tr1 as [|e tr1 IH]; [done|]. rewrite <- app_comm_cons.
  rewrite closings_cons, IH, app_assoc. by rewrite <- closings_cons.
Qed.

Lemma closings_other p i e : closings p [(Datatypes.S i, e)] = [].
Proof. by destruct e. Qed.

Lemma sum_app l1 l2 : sum (l1 ++ l2) = sum l1 + sum l2.
Proof. unfold sum. induction l1 as [|x l1 IH]; cbn; lia. Qed.

(** The statements of the job that went through. *)
Definition flushed_in (tr : list (nat * event ans)) (id : string) (c : Z) : Prop :=
  exists reqs now, In (0%nat, existT (DbFlush id c reqs now) (Ok tt)) tr.
Definition reset_in (tr : list (nat * event ans)) (id : string) : Prop :=
  exists target, In (0%nat, existT (DbReset id target) (Ok tt)) tr.

Definition evidence (tr : list (nat * event ans)) (g : stage) : Prop :=
  match g with
  | Flushed id c => flushed_in tr id c
  | WasReset id c => flushed_in tr id c /\ reset_in tr id
  | _ => True
  end.

Lemma evidence_app tr tr' g : evidence tr g -> evidence (tr ++ tr') g.
Proof.
  unfold evidence, flushed_in, reset_in.
  destruct g; [done | done | |]; intros; repeat setoid_rewrite in_app_iff; naive_solver.
Qed.

Lemma evidence_step p tr o (x : ans o) g :
  evidence tr g -> evidence (tr ++ [(0%nat, existT o x)]) (stage_after p o x g).
Proof.
  intros Hev. assert (Happ := evidence_app tr [(0%nat, existT o x)] g Hev).
  destruct o as [q|q cfg|q c|q c n|q c|q c n|id|id b|id|id c r t|id t| |r| | |rs]; try exact Happ.
  - cbn. destruct c; [|exact Happ]. by destruct (Nat.eqb q p).
  - cbn. destruct c; [|exact Happ]. by destruct (Nat.eqb q p).
  - cbn [stage_after]. destruct g as [|c'|id' c'|id' c']; try exact Happ.
    destruct x as [[]|e]; [|exact Happ]. destruct (Z.eqb_spec c c') as [->|]; [|exact Happ].
    exists r, t. apply in_app_iff. right. by left.
  - cbn [stage_after]. destruct g as [|c'|id' c'|id' c']; try exact Happ.
    destruct x as [[]|e]; [|exact Happ]. destruct (String.eqb_spec id id') as [->|]; [|exact Happ].
    split; [exact Happ|]. exists t. apply in_app_iff. right. by left.
Qed.

(** The spend that others record never decreases. *)
Lemma recorded_nonneg p sch : forall g pool s pool' s' tr,
  pool_ok p g pool -> interleave exec sch pool s = (pool', s', tr) -> 0 <= recorded p tr.
Proof.
  induction sch as [|i sch IH]; intros g pool s pool' s' tr Hok; simpl; [by intros [= _ _ <-]|].
  destruct (pool_step exec i pool s) as [[pool1 s1] tr1] eqn:Hstep.
  destruct (interleave exec sch pool1 s1) as [[pool2 s2] tr2] eqn:Hrest. intros [= _ _ <-].
  rewrite recorded_app.
  destruct (pool_step_case _ _ _ _ _ _ _ _ Hok Hstep) as [_ Hok1|o _ _ Hok1|j o _ Ha Hok1];
    pose proof (IH _ _ _ _ _ _ Hok1 Hrest); cbn [recorded]; [lia|lia|].
  pose proof (added_nonneg p o (exec o s).1 Ha). lia.
Qed.

Lemma spend_loop p sch : forall g pool s pool' s' tr0 tr,
  pool_ok p g pool -> interleave exec sch pool s = (pool', s', tr) ->
  (p < List.length s.(heap))%nat -> 0 <= stage_total g <= spend s p ->
  spend s p + recorded p tr <= MaxInt64 -> evidence tr0 g ->
  spend s' p = spend s p + recorded p tr - sum (closings p tr) /\ 0 <= spend s' p /\
  forall c, In c (closings p tr) -> exists id, flushed_in (tr0 ++ tr) id c /\ reset_in (tr0 ++ tr) id.
Proof.
  induction sch as [|i sch IH]; intros g pool s pool' s' tr0 tr Hok; simpl.
  { intros [= <- <- <-] Hp Hg Hmax _. cbn. splits; [lia|lia|done]. }
  destruct (pool_step exec i pool s) as [[pool1 s1] tr1] eqn:Hstep.
  destruct (interleave exec sch pool1 s1) as [[pool2 s2] tr2] eqn:Hrest.
  intros [= <- <- <-] Hp Hg Hmax Hev. rewrite recorded_app in *.
  destruct (pool_step_case _ _ _ _ _ _ _ _ Hok Hstep) as [E Hok1|o E Ha Hok1|j o E Ha Hok1]; subst s1.
  - cbn [recorded app] in *. rewrite Z.add_0_l in *. eapply IH; eauto.
  - pose proof (recorded_nonneg _ _ _ _ _ _ _ _ Hok1 Hrest) as Hr2.
    destruct (exec_spend o s p Hp) as [Hp1 _]. cbn [recorded] in Hmax.
    destruct (job_step p g o s Hp Ha Hg ltac:(lia)) as [Hg1 Hs1].
    assert (Hcl : forall c, In c (closings p [(0%nat, existT o (exec o s).1)]) ->
      0 <= c /\ exists id, flushed_in tr0 id c /\ reset_in tr0 id).
    { intros c. destruct o; try done. destruct c0; [|done]. cbn. destruct (Nat.eqb_spec p0 p) as [->|]; [|done].
      intros [<-|[]]. destruct (Ha eq_refl) as (id & c & -> & ->). cbn in Hg.
      rewrite wrap64_small by (unfold in_int64, MinInt64, MaxInt64 in *; lia).
      rewrite Z.opp_involutive. split; [lia|]. exists id. exact Hev. }
    pose proof (evidence_step p tr0 o (exec o s).1 g Hev) as Hev1.
    rewrite closings_app, sum_app. cbn [recorded].
    assert (Hmax1 : spend (exec o s).2 p + recorded p tr2 <= MaxInt64).
    { assert (0 <= sum (closings p [(0%nat, existT o (exec o s).1)])); [|lia].
      revert Hcl. generalize (closings p [(0%nat, existT o (exec o s).1)]) as l.
      induction l as [|c l IHl]; intros Hcl; cbn; [lia|].
      pose proof (Hcl c (or_introl eq_refl)) as [? _].
      assert (0 <= sum l) by (apply IHl; intros c' ?; apply Hcl; by right). unfold sum in *. lia. }
    destruct (IH _ _ _ _ _ _ _ Hok1 Hrest Hp1 Hg1 Hmax1 Hev1) as (Hs & H0s & Hcs).
    splits; [lia | done |]. intros c [Hc|Hc]%in_app_iff.
    + destruct (Hcl c Hc) as (_ & id & (r & t & Hf) & (t' & Hr)).
      exists id. split; [exists r, t | exists t']; apply in_app_iff; by left.
    + destruct (Hcs c Hc) as (id & Hf & Hr). exists id. by rewrite <- app_assoc in Hf, Hr.
  - pose proof (recorded_nonneg _ _ _ _ _ _ _ _ Hok1 Hrest) as Hr2.
    destruct (exec_spend o s p Hp) as [Hp1 _]. cbn [recorded] in Hmax.
    pose proof (added_nonneg p o (exec o s).1 Ha) as Hadd.
    pose proof (other_step p o s Hp Ha ltac:(lia) ltac:(lia)) as Hs1.
    rewrite closings_app, closings_other. cbn [recorded]. rewrite app_nil_l.
    pose proof (evidence_app tr0 [(Datatypes.S j, existT o (exec o s).1)] g Hev) as Hev1.
    destruct (IH _ _ _ _ _ _ _ Hok1 Hrest Hp1 ltac:(lia) ltac:(lia) Hev1) as (Hs & H0s & Hcs).
    splits; [lia | done |]. intros c Hc.
    destruct (Hcs c Hc) as (id & Hf & Hr). exists id. by rewrite <- app_assoc in Hf, Hr.
Qed.

(** C4: Every nano-dollar is accounted for, whatever the interleaving.  Let the flush-and-roll job
    run against any requests, synchronisations and admin updates, under any schedule, stopped
    anywhere.  Then the spend on the open window of a budget is what it was, plus everything
    recorded since, minus the totals of the windows the job closed: spend recorded between the
    job's load and its subtraction is neither lost nor counted twice.  The counter never becomes
    negative, and each closed total was first accepted by the database as the final total of its
    window, whose row was then reset. *)
Theorem spend_accounted ticks others sch s pool' s' tr p :
  Forall other_thread others ->
  (p < List.length s.(heap))%nat -> 0 <= spend s p -> spend s p + recorded p tr <= MaxInt64 ->
  interleave exec sch (budget_flush_roll ticks :: others) s = (pool', s', tr) ->
  spend s' p = spend s p + recorded p tr - sum (closings p tr) /\ 0 <= spend s' p /\
  forall c, In c (closings p tr) -> exists id, flushed_in tr id c /\ reset_in tr id.
Proof.
  intros Hoth Hp H0s Hmax Hrun.
  apply (spend_loop p sch Idle (budget_flush_roll ticks :: others) s pool' s' [] tr);
    [|done|done|simpl; lia|done|done].
  exists (budget_flush_roll ticks), others. split; [done|]. split; [apply budget_flush_roll_job|].
  eapply Forall_impl; [exact Hoth | exact other_thread_adds].
Qed.
End race.

(** ** Concrete interleavings *)

(** A request that cost 300 nano-dollars. *)
Definition demo_request : DiffractLLMContext :=
  NewContext <| BudgetRef := "b1" |> <| Usage_ := Some Usage0 |>
             <| Cost := f64_div (f64_of_Z 3) (f64_of_Z 10000000) |>.

Definition demo_tick (now : Z) : tick := mkTick now (fun _ => now) ["b1"] ["b1"].

(** "b1" has a window of one day that ended five nanoseconds ago, and 700 of it are spent. *)
Definition race_start : GovState (MemTable StoreBudget) MemHistory :=
  mkGovState [demo_cell "b1" 700 3 700 3] {["b1" := 0%nat]}
    (mkMemTable {["b1" := demo_row "b1" 700 3]} []) (NewUsageBuffer 0) ([], []).

(** The job closes the window while the request records: the job has loaded the total (its ninth
    operation) when the request adds 300, which stay in the new window. *)
Lemma spend_accounted_witness :
  let '(pool', s', tr) := interleave exec (repeat 0%nat 9 ++ repeat 1%nat 4 ++ repeat 0%nat 9)%list
    [budget_flush_roll [demo_tick (day + 5)]; discard (RecordHook_Execute demo_request)] race_start in
  forallb finished pool' = true /\ recorded 0 tr = 300 /\ closings 0 tr = [700] /\ spend s' 0 = 300 /\
  spend s' 0 = spend race_start 0 + recorded 0 tr - sum (closings 0 tr).
Proof.
  destruct (interleave exec _ _ race_start) as [[pool' s'] tr] eqn:Hrun.
  assert (Hf : forallb finished pool' = true) by (vm_compute in Hrun; by simplify_eq).
  assert (Hr : recorded 0 tr = 300) by (vm_compute in Hrun; by simplify_eq).
  assert (Hc : closings 0 tr = [700]) by (vm_compute in Hrun; by simplify_eq).
  assert (Hs : spend s' 0 = 300) by (vm_compute in Hrun; by simplify_eq).
  assert (Ho : Forall other_thread [discard (RecordHook_Execute demo_request)]).
  { apply Forall_singleton. apply request_record. }
  destruct (spend_accounted _ _ _ race_start _ _ _ 0 Ho Nat.lt_0_1 ltac:(vm_compute; discriminate)
    ltac:(rewrite Hr; vm_compute; discriminate) Hrun) as (He & _).
  splits; [exact Hf | exact Hr | exact Hc | exact Hs | exact He].
Defined.

(** A synchronisation that read the table before the job rolled the window puts the old start of
    the window back into the cache.  The next tick of the job closes the window of the same day
    a second time, and the 300 nano-dollars spent in it no longer count against its limit. *)
Example stale_sync_reopens_window :
  let '(pool', s', tr) := interleave exec
      (repeat 1%nat 1 ++ repeat 0%nat 17 ++ repeat 2%nat 4 ++ repeat 1%nat 3 ++ repeat 0%nat 30)%list
    [budget_flush_roll [demo_tick (day + 5); demo_tick (day + 10 * Second)];
     discard (syncBudget ["b1"]); discard (RecordHook_Execute demo_request)] race_start in
  (forallb finished pool', recorded 0 tr, closings 0 tr, spend s' 0,
   flat_map (fun e => match e.2 with existT (DbReset _ t) (Ok _) => [t] | _ => [] end) tr)
  = (true, 300, [700; 300], 0, [day; day]).
Proof. vm_compute. reflexivity. Qed.
