(* ===== verification/UsageFlush.v ===== *)
(** * The usage history

    No usage record is lost or written twice: the buffer is a queue under every interleaving, and
    a flush moves its whole content to the history or leaves it where it was. *)

From S2P Require Import Prelude GoBase Float64 Errors Catalog Money Pricing Duration Context Gorm Atomic StoreBudget Usage Budget BudgetJobs.
Local Open Scope Z_scope.

(** The records that found a place in the buffer during a trace, the ones taken out, and the
    refusals. *)
Definition stored (e : nat * event ans) : list UsageRecord :=
  match e.2 with existT (BufferAppend r) true => [r] | _ => [] end.
Definition drained (e : nat * event ans) : list UsageRecord :=
  match e.2 with existT BufferDrain l => l | _ => [] end.
Definition written (e : nat * event ans) : list StoreUsageRecord :=
  match e.2 with existT (DbInsertUsage rs) (Ok _) => rs | _ => [] end.

Section flush.
Context {Db UDb : Type} `{Gorm Db StoreBudget} `{UsageTable UDb} `{!UsageTableLaws UDb}.
Implicit Types s : GovState Db UDb.

Lemma bulk_insert_spec rs d res d' :
  BulkInsertUsageHistory rs d = (res, d') ->
  history d' ≡ₚ history d ++ match res with Ok _ => rs | Err _ => [] end.
Proof.
  unfold BulkInsertUsageHistory. destruct rs as [|r rs].
  - intros [= <- <-]. by rewrite app_nil_r.
  - destruct res as [u|e]; intros Hc; [by eapply create_all|].
    rewrite app_nil_r. by eapply create_none.
Qed.

(** Effects of one operation on the buffer and the history. *)
Lemma exec_usage i o s :
  let e := (i, existT o (exec o s).1) in let s1 := (exec o s).2 in
  (records s.(usage) ++ stored e = drained e ++ records s1.(usage))%list /\
  history s1.(usage_history) ≡ₚ history s.(usage_history) ++ written e /\
  (buffer_ok s.(usage) -> buffer_ok s1.(usage)).
Proof.
  assert (Hsame : forall s1, usage s1 = usage s -> usage_history s1 = usage_history s ->
    (records s.(usage) ++ [] = [] ++ records s1.(usage))%list /\
    history s1.(usage_history) ≡ₚ history s.(usage_history) ++ [] /\
    (buffer_ok s.(usage) -> buffer_ok s1.(usage))).
  { intros s1 -> ->. by rewrite !app_nil_r. }
  destruct o as [q|q cfg|q c|q c n|q c|q c n|id|id b|id|id c r t|id t| |r| | |rs]; cbn [exec fst snd];
    try (apply Hsame; reflexivity).
  - cbn. destruct (BudgetMap s !! id); apply Hsame; reflexivity.
  - unfold on_budgets. destruct (FlushBudgetUsage _ _ _ _ _). apply Hsame; reflexivity.
  - unfold on_budgets. destruct (ResetBudgetWindow _ _ _). apply Hsame; reflexivity.
  - unfold on_budgets. destruct (ListBudgets _). apply Hsame; reflexivity.
  - unfold on_usage. pose proof (append_locked_spec r (usage s)) as Ha.
    destruct (append_locked r (usage s)) as [b ub]. destruct Ha as (Hr & _ & _ & Hok).
    cbn. rewrite app_nil_r. unfold stored. cbn. rewrite Hr. by destruct b.
  - cbn. by rewrite !app_nil_r.
  - cbn. rewrite !app_nil_r. splits; [done|done|]. unfold buffer_ok, Buffer_Len. cbn. lia.
  - unfold on_history. destruct (BulkInsertUsageHistory rs (usage_history s)) as [res d'] eqn:Hb.
    apply bulk_insert_spec in Hb. cbn. rewrite app_nil_r. unfold written. cbn. by destruct res.
Qed.

Lemma flat_map_snoc {A B} (f : A -> list B) l x : flat_map f (l ++ [x]) = (flat_map f l ++ f x)%list.
Proof. rewrite flat_map_app. cbn. by rewrite app_nil_r. Qed.

(** C37: The usage buffer is a queue and the history a set of rows under every interleaving of any
    threads: what was buffered, followed by what was appended, is what was drained, followed by
    what is still buffered; the history has gained exactly the rows whose insert succeeded; and
    the buffer never exceeds its capacity. *)
Theorem usage_queue {A} sch (pool pool' : list (gprog A)) s s' tr :
  interleave exec sch pool s = (pool', s', tr) ->
  (records s.(usage) ++ flat_map stored tr = flat_map drained tr ++ records s'.(usage))%list /\
  history s'.(usage_history) ≡ₚ history s.(usage_history) ++ flat_map written tr /\
  (buffer_ok s.(usage) -> buffer_ok s'.(usage)).
Proof.
  intros Hrun.
  refine (interleave_inv exec (fun tr s' =>
    (records s.(usage) ++ flat_map stored tr = flat_map drained tr ++ records s'.(usage))%list /\
    history s'.(usage_history) ≡ₚ history s.(usage_history) ++ flat_map written tr /\
    (buffer_ok s.(usage) -> buffer_ok s'.(usage))) _ sch pool pool' [] s s' tr _ Hrun).
  - clear Hrun tr. intros tr s1 i o (Hq & Hh & Hb).
    destruct (exec_usage i o s1) as (Hq1 & Hh1 & Hb1). rewrite !flat_map_snoc. splits.
    + rewrite app_assoc, Hq, <- !app_assoc. f_equal. exact Hq1.
    + etransitivity; [exact Hh1|]. rewrite Hh, <- app_assoc. done.
    + auto.
  - cbn. rewrite !app_nil_r. auto.
Qed.

(** Putting back what was drained, when nobody else appends, restores the buffer. *)
Lemma reappend_run l : forall s,
  Z.of_nat (List.length (records s.(usage)) + List.length l) <= maxCapacity s.(usage) ->
  exists s', run exec (for_each (fun _ r =>
      stored <~ BufferAppend r;; if stored then Ret tt else do BufferDropped;; Ret tt) l tt) s = (tt, s') /\
    s' = s <| usage ::= fun u => u <| records ::= fun old => (old ++ l)%list |> |>.
Proof.
  induction l as [|r l IH]; intros s Hlen.
  - exists s. split; [done|]. destruct s as [h m d u uh]. cbn. destruct u. cbn. by rewrite app_nil_r.
  - rewrite run_for_each. cbn [run exec]. unfold on_usage, append_locked.
    cbn [List.length] in Hlen. destruct (_ <=? _) eqn:Hfull; zbool; [lia|]. cbn [run].
    destruct (IH (s <| usage := usage s <| records ::= fun l0 => (l0 ++ [r])%list |> |>)) as (s' & Hr & ->).
    { cbn. rewrite length_app. cbn. lia. }
    eexists. split; [exact Hr|]. destruct s as [h m d u uh]. cbn. destruct u. cbn. by rewrite <- app_assoc.
Qed.

(** One flush of the usage history moves every buffered record to the history, once, and
    empties the buffer; or, when the insert fails, leaves buffer, history and drop count exactly
    as they were. *)
Theorem flushUsageHistory_spec uuid at_ s res s' :
  buffer_ok s.(usage) -> run exec (flushUsageHistory uuid at_) s = (res, s') ->
  match res with
  | Ok n => n = Buffer_Len s.(usage) /\ records s'.(usage) = [] /\
      exists rows, history s'.(usage_history) ≡ₚ history s.(usage_history) ++ rows /\
        map record_of rows = records s.(usage)
  | Err _ => s'.(usage) = s.(usage) /\ history s'.(usage_history) ≡ₚ history s.(usage_history)
  end /\ DroppedCount s'.(usage) = DroppedCount s.(usage) /\
  s'.(heap) = s.(heap) /\ s'.(BudgetMap) = s.(BudgetMap) /\ s'.(budgets) = s.(budgets).
Proof.
  intros [_ Hcap]. unfold flushUsageHistory. cbn [run exec]. unfold on_usage, Drain, Buffer_Len in *.
  destruct s as [h m d [l cap dr] uh]. cbn in Hcap |- *.
  destruct l as [|r l].
  - intros [= <- <-]. cbn. splits; try done. exists []. by rewrite app_nil_r.
  - cbn [run exec]. unfold on_history. cbn [usage_history].
    set (rows := imap _ (r :: l)).
    assert (Hrows : map record_of rows = r :: l).
    { apply list_eq. intros i. rewrite list_lookup_fmap. subst rows. rewrite list_lookup_imap.
      destruct ((r :: l) !! i) as [x|]; [|done]. cbn. by rewrite record_of_store. }
    destruct (BulkInsertUsageHistory rows uh) as [[u|e] uh'] eqn:Hb; apply bulk_insert_spec in Hb.
    + intros [= <- <-]. cbn. splits; try done. by exists rows.
    + cbn [run]. unfold mbind, prog_mbind. rewrite (run_bind exec).
      match goal with |- context [run exec (for_each ?b ?xs tt) ?st] =>
        destruct (reappend_run xs st) as (s1 & Hr & ->); [cbn in *; lia|];
        change (run exec (for_each b xs tt) st = (tt, st <| usage ::= fun u => u <| records ::= fun old => (old ++ xs)%list |> |>)) in Hr;
        rewrite Hr end.
      intros [= <- <-]. cbn. rewrite app_nil_r in Hb. done.
Qed.
End flush.

(** ** Concrete runs *)

Definition demo_record (id : string) : UsageRecord := mkUsageRecord "c" "b1" "openai" id id 1 2 10 200 5 0.

(** Two records are buffered, the buffer holds three, and the next insert fails or not. *)
Definition demo_usage (fails : bool) : GovState (MemTable StoreBudget) MemHistory :=
  mkGovState [] ∅ (mkMemTable ∅ [])
    (mkUsageBuffer [demo_record "m1"; demo_record "m2"] 3 0) ([], [fails]).

(** Two requests append while a flush fails: the record of the first takes the place of the last
    one put back, which is dropped and counted. *)
Lemma usage_queue_witness :
  let flush := prog_bind (fun _ => Ret tt) (flushUsageHistory (fun _ => "u") (fun _ => 9)) in
  let append id := prog_bind (fun _ => Ret tt) (act (BufferAppend (demo_record id))) in
  let '(pool', s', tr) := interleave exec [0; 1; 2; 0; 0; 0; 0; 0]%nat
    [flush; append "m3"; append "m4"] (demo_usage true) in
  forallb finished pool' = true /\
  records s'.(usage) = [demo_record "m3"; demo_record "m4"; demo_record "m1"] /\
  DroppedCount s'.(usage) = 1 /\
  (records (usage (demo_usage true)) ++ flat_map stored tr = flat_map drained tr ++ records s'.(usage))%list.
Proof.
  intros flush append. destruct (interleave exec _ _ (demo_usage true)) as [[pool' s'] tr] eqn:Hrun.
  destruct (usage_queue _ _ _ _ _ _ Hrun) as (Hq & _).
  assert (Hf : forallb finished pool' = true) by (vm_compute in Hrun; by simplify_eq).
  assert (Hr : records s'.(usage) = [demo_record "m3"; demo_record "m4"; demo_record "m1"])
    by (vm_compute in Hrun; by simplify_eq).
  assert (Hd : DroppedCount s'.(usage) = 1) by (vm_compute in Hrun; by simplify_eq).
  splits; [exact Hf | exact Hr | exact Hd | exact Hq].
Defined.

Lemma flushUsageHistory_spec_witness :
  let '(res, s') := run exec (flushUsageHistory (fun _ => "u") (fun _ => 9)) (demo_usage false) in
  res = Ok 2 /\ records s'.(usage) = [] /\
  exists rows, history s'.(usage_history) ≡ₚ history (usage_history (demo_usage false)) ++ rows /\
    map record_of rows = [demo_record "m1"; demo_record "m2"].
Proof.
  destruct (run exec _ (demo_usage false)) as [res s'] eqn:Hrun.
  assert (Hres : res = Ok 2) by (vm_compute in Hrun; by simplify_eq). subst res.
  assert (Hok : buffer_ok (usage (demo_usage false))) by (split; vm_compute; congruence).
  destruct (flushUsageHistory_spec _ _ _ _ _ Hok Hrun) as ((_ & Hr & Hrows) & _).
  splits; [reflexivity | exact Hr | exact Hrows].
Defined.
