(* ===== verification/Governance.v ===== *)
(** * Authentication and model access ([internal/governance], [dbstore/virtualkeys.go])

    The cache of virtual keys is one atomic pointer to an immutable map; writers replace it under
    a mutex, so each of its operations is one step from snapshot to snapshot.  A [nil] pointer is
    [None].  A stored key is the row as gorm returns it, its API key decrypted. *)

From S2P Require Import Prelude GoBase Float64 Errors Catalog VirtualKey KeyFormat Credential Context Headers.

(** ** Rows *)

Record StoreVirtualKey : Type := mkStoreVirtualKey {
  SVKID : string;
  SVKKeyHash : string;
  SVKAPIKey : string;
  SVKDisplayPrefix : string;
  SVKClientID : string;
  SVKBudgetID : string;
  SVKMode : string;
  SVKProviderConfigs : list ProviderConfig;
  SVKLoadBalancer : string;
  SVKIsActive : bool;
  SVKCreatedAt : Z;
  SVKUpdatedAt : Z;
  SVKExpiresAt : option Z
}.

Inductive ToCoreError : Type :=
| BadEnum (e : ParseError)
| BadConfigs (e : ConfigError).

Definition StoreVirtualKey_ToCore (key : StoreVirtualKey) : result ToCoreError VirtualKey :=
  match ParseVKMode key.(SVKMode) with
  | Err e => Err (BadEnum e)
  | Ok mode =>
  match ParseLBKind key.(SVKLoadBalancer) with
  | Err e => Err (BadEnum e)
  | Ok loadBalancer =>
  match CompileProviderConfigs mode key.(SVKProviderConfigs) with
  | Err e => Err (BadConfigs e)
  | Ok providerConfigs =>
      Ok (mkVirtualKey key.(SVKID) key.(SVKAPIKey) key.(SVKClientID) key.(SVKBudgetID)
            key.(SVKIsActive) key.(SVKExpiresAt) mode loadBalancer providerConfigs)
  end end end.

(** ** The cache *)

Definition KeyCache : Type := option (gmap string VirtualKey).

Definition KeyCache_Loaded (c : KeyCache) : bool := match c with Some _ => true | None => false end.

Definition LookupVkey (c : KeyCache) (key : string) : option VirtualKey :=
  match c with None => None | Some m => m !! key end.

Definition LoadVirtualKeys (vdata : list VirtualKey) : KeyCache :=
  Some (foldl (fun m vkey => <[vkey.(VKKey) := vkey]> m) ∅ vdata).

Definition KeyCache_clone (c : KeyCache) : gmap string VirtualKey :=
  match c with None => ∅ | Some m => m end.

Definition UpsertVirtualKey (key : option VirtualKey) (c : KeyCache) : KeyCache :=
  match key with
  | None => c
  | Some key => Some (<[key.(VKKey) := key]> (KeyCache_clone c))
  end.

(** The map is searched in the order [order], which Go leaves open. *)
Fixpoint first_with_id (order : list string) (m : gmap string VirtualKey) (id : string) : option string :=
  match order with
  | [] => None
  | k :: order' =>
      match m !! k with
      | Some entry => if String.eqb entry.(VKID) id then Some k else first_with_id order' m id
      | None => first_with_id order' m id
      end
  end.

Definition DeleteVirtualKeyByID (order : list string) (id : string) (c : KeyCache) : bool * KeyCache :=
  let next := KeyCache_clone c in
  match first_with_id order next id with
  | Some key => (true, Some (delete key next))
  | None => (false, c)
  end.

(** ** Synchronisation *)

Inductive SyncError : Type :=
| SyncList (cause : string)
| SyncToCore (id : string) (cause : ToCoreError)
| SyncValidate (id : string) (cause : VKError).

(** [rows] is what [ListVirtualKeys] returned. *)
Definition syncVirtualKey (rows : result string (list StoreVirtualKey)) (c : KeyCache) :
    result SyncError Z * KeyCache :=
  match rows with
  | Err e => (Err (SyncList e), c)
  | Ok vkeydetail =>
      match foldM (fun tempVkey row =>
        match StoreVirtualKey_ToCore row with
        | Err e => Err (SyncToCore row.(SVKID) e)
        | Ok virtualKey =>
            match VirtualKey_Validate (Some virtualKey) with
            | Err e => Err (SyncValidate row.(SVKID) e)
            | Ok _ => Ok (tempVkey ++ [virtualKey])%list
            end
        end) [] vkeydetail with
      | Err e => (Err e, c)
      | Ok tempVkey => (Ok (Z.of_nat (List.length tempVkey)), LoadVirtualKeys tempVkey)
      end
  end.

(** ** Authentication *)

(** [rctx.Request.Header.Get]. *)
Definition request_header (rctx : DiffractLLMContext) (name : string) : string :=
  match rctx.(Request) with
  | Some r => deref "" (r.(RHeader) !! CanonicalHeaderKey name)
  | None => ""
  end.

Definition extractKey (rctx : DiffractLLMContext) : string :=
  let v := TrimSpace (request_header rctx "x-diffract-key") in
  if negb (is_empty v) then v
  else
    match cut_prefix "Bearer " (request_header rctx "Authorization") with
    | Some after => TrimSpace after
    | None =>
        let anthropicKey := TrimSpace (request_header rctx "x-api-key") in
        if negb (is_empty anthropicKey) then anthropicKey
        else
          let geminikey := TrimSpace (request_header rctx "x-goog-api-key") in
          if negb (is_empty geminikey) then geminikey else ""
    end.

Definition expired (now : Z) (vk : VirtualKey) : bool :=
  match vk.(VKExpiresAt) with Some t => time_after now t | None => false end.

Definition ValidatevKeyAuth (now : Z) (c : KeyCache) (rctx : DiffractLLMContext) :
    option DiffractLLMError * DiffractLLMContext :=
  let key := extractKey rctx in
  if is_empty key then
    (Some (NewAuthFailed "missing api key — provide x-diffract-key or Authorization: Bearer <key> or x-api-key or x-goog-api-key"), rctx)
  else if negb (ValidateKeySignature key) then
    (Some (NewAuthFailed "Invalid DiffractLLM API key format"), rctx)
  else
    match LookupVkey c key with
    | None => (Some (NewAuthFailed "DiffractLLM API key not recognised"), rctx)
    | Some vk =>
        if negb vk.(VKIsActive) || expired now vk then
          (Some (NewAuthFailed "Invalid DiffractLLM API key"), rctx)
        else
          (None, rctx <| ClientID := vk.(VKClientID) |> <| VirtualKeyID := vk.(VKID) |>
                      <| VirtualKeyPolicy := Some vk |> <| BudgetRef := vk.(VKBudgetID) |>
                      <| AuthFrozen := true |>)
    end.

(** ** Model access *)

(** The catalog, as far as the hook needs it. *)
Class ModelLookup (C : Type) := {
  Ready : C -> bool;
  HasModel : C -> Provider -> string -> bool
}.

Section model_access.
Context {C : Type} `{ModelLookup C}.

(** The hook holds an interface that may be nil. *)
Definition catalogReady (catalog : option C) : bool :=
  match catalog with Some c => Ready c | None => false end.
Definition catalogHas (catalog : option C) (provider : Provider) (modelName : string) : bool :=
  match catalog with Some c => HasModel c provider modelName | None => false end.

Definition modelInCatalog (catalog : option C) (virtualKey : VirtualKey) (modelName : string) : bool :=
  existsb (fun config =>
    IsModelAllowed (Some config) (mkCatalogKey config.(PCProvider) modelName ModelTypeUnknown)
    && catalogHas catalog config.(PCProvider) modelName) virtualKey.(ProviderConfigs).

Definition ModelAccess_Execute (catalog : option C) (rctx : DiffractLLMContext) :
    option DiffractLLMError * DiffractLLMContext :=
  match rctx.(VirtualKeyPolicy) with
  | None => (Some (NewAuthFailed "virtual key policy is missing"), rctx)
  | Some virtualKey =>
      let requested := TrimSpace rctx.(RequestedModel) in
      if is_empty requested then (Some (NewMissingParameter "model"), rctx)
      else
        let '(providerName, modelName) := ParseModelString requested in
        let modelType := RequestKind_ModelType rctx.(RequestKind_) in
        if negb (is_empty providerName) then
          match VirtualKey_ProviderConfig virtualKey providerName with
          | None => (Some (NewForbidden ("provider " ++ providerName ++ " is not permitted for this key")), rctx)
          | Some config =>
              let requestedKey := mkCatalogKey config.(PCProvider) modelName modelType in
              if negb (IsModelAllowed (Some config) requestedKey) then
                (Some (NewForbidden "requested provider/model is not permitted"), rctx)
              else if catalogReady catalog && negb (catalogHas catalog config.(PCProvider) modelName) then
                (Some (NewInvalidParameter "model" ("unknown model " ++ SlashKey requestedKey)), rctx)
              else (None, rctx <| Modelkey := requestedKey |>)
          end
        else
          let requestedKey := mkCatalogKey "" requested modelType in
          if IsModelKeyAllowed virtualKey requestedKey then
            if catalogReady catalog && negb (modelInCatalog catalog virtualKey requested) then
              (Some (NewInvalidParameter "model" ("unknown model " ++ requested)), rctx)
            else (None, rctx <| Modelkey := requestedKey |>)
          else (Some (NewForbidden "requested model is not permitted"), rctx)
  end.
End model_access.

(** ** Authentication: properties *)

(** When a request is authenticated as [vk]. *)
Definition authenticates (now : Z) (c : KeyCache) (rctx : DiffractLLMContext) (vk : VirtualKey) : Prop :=
  ValidateKeySignature (extractKey rctx) = true /\ LookupVkey c (extractKey rctx) = Some vk /\
  vk.(VKIsActive) = true /\ (forall t, vk.(VKExpiresAt) = Some t -> (now <= t)%Z).

Lemma expired_false now vk :
  expired now vk = false <-> forall t, vk.(VKExpiresAt) = Some t -> (now <= t)%Z.
Proof.
  unfold expired, time_after. destruct (VKExpiresAt vk) as [t|]; [|naive_solver].
  rewrite Z.ltb_ge. naive_solver.
Qed.

Lemma ValidatevKeyAuth_cases now c rctx :
  (exists vk, authenticates now c rctx vk /\
     ValidatevKeyAuth now c rctx = (None, rctx <| ClientID := vk.(VKClientID) |> <| VirtualKeyID := vk.(VKID) |>
       <| VirtualKeyPolicy := Some vk |> <| BudgetRef := vk.(VKBudgetID) |> <| AuthFrozen := true |>)) \/
  ((forall vk, ~ authenticates now c rctx vk) /\
   exists msg, ValidatevKeyAuth now c rctx = (Some (NewAuthFailed msg), rctx)).
Proof.
  unfold ValidatevKeyAuth, authenticates.
  destruct (is_empty (extractKey rctx)) eqn:He.
  { right. split; [|by eexists]. apply is_empty_true in He. rewrite He. by intros vk [[=] _]. }
  destruct (ValidateKeySignature _) eqn:Hs; cbn [negb].
  2: { right. split; [|by eexists]. by intros vk [[=] _]. }
  destruct (LookupVkey c _) as [vk|] eqn:Hl.
  2: { right. split; [|by eexists]. by intros vk (_ & [=] & _). }
  destruct (VKIsActive vk) eqn:Ha; cbn [negb orb].
  2: { right. split; [|by eexists]. intros vk' (_ & [= <-] & Hact & _). congruence. }
  destruct (expired now vk) eqn:Hx.
  - right. split; [|by eexists]. intros vk' (_ & [= <-] & _ & Hexp). apply expired_false in Hexp. congruence.
  - left. exists vk. split; [|done]. splits; try done. by apply expired_false.
Qed.

(** *** The key a request presents *)

(** The key a request presents, by the headers clients send it in: the gateway's own header, then
    a bearer token, then the header of Anthropic's clients, then that of Gemini's.  Blanks around
    a key do not count.  A bearer token, even a blank one, shadows the headers after it. *)
Inductive presents (rctx : DiffractLLMContext) : string -> Prop :=
  | presents_own k :
      k = TrimSpace (request_header rctx "x-diffract-key") -> k <> "" -> presents rctx k
  | presents_bearer k token :
      TrimSpace (request_header rctx "x-diffract-key") = "" ->
      request_header rctx "Authorization" = "Bearer " ++ token ->
      k = TrimSpace token -> k <> "" -> presents rctx k
  | presents_anthropic k :
      TrimSpace (request_header rctx "x-diffract-key") = "" ->
      (forall token, request_header rctx "Authorization" <> "Bearer " ++ token) ->
      k = TrimSpace (request_header rctx "x-api-key") -> k <> "" -> presents rctx k
  | presents_gemini k :
      TrimSpace (request_header rctx "x-diffract-key") = "" ->
      (forall token, request_header rctx "Authorization" <> "Bearer " ++ token) ->
      TrimSpace (request_header rctx "x-api-key") = "" ->
      k = TrimSpace (request_header rctx "x-goog-api-key") -> k <> "" -> presents rctx k.

(** A text the generator of keys can return. *)
Definition issuable (k : string) : Prop :=
  exists raw hash prefix, GenerateVirtualKey (Some raw) = Some (k, hash, prefix).

(** A key that may be used: active, and not past its expiry. *)
Definition in_force (now : Z) (vk : VirtualKey) : Prop :=
  vk.(VKIsActive) = true /\ forall t, vk.(VKExpiresAt) = Some t -> (now <= t)%Z.

(** What the answer to a request means: the entry it is admitted as, or why it is refused. *)
Inductive auth_answer (now : Z) (c : KeyCache) (rctx : DiffractLLMContext) : option DiffractLLMError -> option VirtualKey -> Prop :=
  | no_key : (forall k, ~ presents rctx k) ->
      auth_answer now c rctx
        (Some (NewAuthFailed "missing api key — provide x-diffract-key or Authorization: Bearer <key> or x-api-key or x-goog-api-key")) None
  | not_a_key k : presents rctx k -> ~ issuable k ->
      auth_answer now c rctx (Some (NewAuthFailed "Invalid DiffractLLM API key format")) None
  | unknown_key k : presents rctx k -> issuable k ->
      (forall m, c = Some m -> m !! k = None) ->
      auth_answer now c rctx (Some (NewAuthFailed "DiffractLLM API key not recognised")) None
  | lapsed_key k m vk : presents rctx k -> issuable k -> c = Some m -> m !! k = Some vk ->
      ~ in_force now vk ->
      auth_answer now c rctx (Some (NewAuthFailed "Invalid DiffractLLM API key")) None
  | admitted k m vk : presents rctx k -> issuable k -> c = Some m -> m !! k = Some vk ->
      in_force now vk ->
      auth_answer now c rctx None (Some vk).

Lemma presents_unique rctx k k' : presents rctx k -> presents rctx k' -> k = k'.
Proof.
  intros [] []; subst; try done; try congruence.
  all: match goal with
       | H : ?h = "Bearer " ++ _, H' : ?h = "Bearer " ++ _ |- _ =>
           rewrite H in H'; apply cut_prefix_Some in H'; rewrite cut_prefix_app in H'; congruence
       | H : ?h = "Bearer " ++ ?t, H' : forall t, ?h <> "Bearer " ++ t |- _ => by destruct (H' t)
       end.
Qed.

Lemma extractKey_presents rctx :
  if is_empty (extractKey rctx) then forall k, ~ presents rctx k else presents rctx (extractKey rctx).
Proof.
  assert (Hp : extractKey rctx <> "" -> presents rctx (extractKey rctx)).
  { unfold extractKey.
    destruct (is_empty (TrimSpace (request_header rctx "x-diffract-key"))) eqn:E1; cbn [negb].
    2: { intros ?. by apply presents_own. }
    apply is_empty_true in E1. destruct (cut_prefix _ _) as [token|] eqn:E2.
    { apply cut_prefix_Some in E2. intros ?. by eapply presents_bearer. }
    assert (Hb : forall token, request_header rctx "Authorization" <> "Bearer " ++ token)
      by (intros token E; rewrite E, cut_prefix_app in E2; done).
    destruct (is_empty (TrimSpace (request_header rctx "x-api-key"))) eqn:E3; cbn [negb].
    2: { intros ?. by apply presents_anthropic. }
    apply is_empty_true in E3.
    destruct (is_empty (TrimSpace (request_header rctx "x-goog-api-key"))) eqn:E4; cbn [negb]; [done|].
    intros ?. by apply presents_gemini. }
  destruct (is_empty (extractKey rctx)) eqn:E.
  2: { apply Hp. by apply is_empty_false. }
  apply is_empty_true in E. intros k Hk. revert E. unfold extractKey.
  destruct Hk as [k -> Hne|k token -> -> -> Hne|k -> Hb -> Hne|k -> Hb -> -> Hne]; cbn [is_empty negb].
  - by rewrite (proj2 (is_empty_false _) Hne).
  - by rewrite cut_prefix_app.
  - destruct (cut_prefix _ _) as [token|] eqn:E2; [by apply cut_prefix_Some, Hb in E2|].
    by rewrite (proj2 (is_empty_false _) Hne).
  - destruct (cut_prefix _ _) as [token|] eqn:E2; [by apply cut_prefix_Some, Hb in E2|].
    by rewrite (proj2 (is_empty_false _) Hne).
Qed.

Lemma ValidateKeySignature_issuable k : ValidateKeySignature k = true <-> issuable k.
Proof.
  split.
  - intros (raw & _ & H)%ValidateKeySignature_spec. by eexists _, _, _.
  - intros (raw & hash & prefix & H). by eapply GenerateVirtualKey_valid.
Qed.

Lemma auth_answer_unique now c rctx err who err2 who2 :
  auth_answer now c rctx err who -> auth_answer now c rctx err2 who2 -> err2 = err /\ who2 = who.
Proof.
  intros [] []; try done;
    try (match goal with
         | H : forall k, ~ presents rctx k, H' : presents rctx _ |- _ => by destruct (H _ H')
         end);
    match goal with
    | H : presents rctx ?k, H' : presents rctx ?k' |- _ =>
        pose proof (presents_unique _ _ _ H H'); subst; simplify_eq; try done
    end;
    match goal with
    | H : forall m, _ -> _, H' : ?m !! _ = Some _ |- _ => rewrite (H m) in H' by done; done
    end.
Qed.

Lemma in_force_spec now vk : negb vk.(VKIsActive) || expired now vk = false <-> in_force now vk.
Proof. unfold in_force. rewrite orb_false_iff, negb_false_iff, expired_false. done. Qed.

(** C10: Authentication.  A request passes exactly when the key it presents (in the gateway's own
    header, as a bearer token, or in the header of Anthropic's or Gemini's clients, in this order)
    is one the generator can issue whose cached entry is active and not expired; then the context
    carries the client, key, budget and policy of that entry and nothing else changes.  Every
    other request is refused with an authentication error that says why (no key, not the form of
    a key, unknown, or inactive or expired), and its context is untouched. *)
Theorem ValidatevKeyAuth_spec now c rctx err rctx' :
  ValidatevKeyAuth now c rctx = (err, rctx') ->
  exists who, auth_answer now c rctx err who /\
    (forall err2 who2, auth_answer now c rctx err2 who2 -> err2 = err /\ who2 = who) /\
    rctx' = match who with
            | Some vk => rctx <| ClientID := vk.(VKClientID) |> <| VirtualKeyID := vk.(VKID) |>
                <| VirtualKeyPolicy := Some vk |> <| BudgetRef := vk.(VKBudgetID) |> <| AuthFrozen := true |>
            | None => rctx
            end.
Proof.
  intros Hrun.
  enough (Ha : exists who, auth_answer now c rctx err who /\ rctx' = match who with
            | Some vk => rctx <| ClientID := vk.(VKClientID) |> <| VirtualKeyID := vk.(VKID) |>
                <| VirtualKeyPolicy := Some vk |> <| BudgetRef := vk.(VKBudgetID) |> <| AuthFrozen := true |>
            | None => rctx
            end).
  { destruct Ha as (who & Ha & ->). exists who. splits; try done.
    intros err2 who2. by apply auth_answer_unique. }
  revert Hrun. unfold ValidatevKeyAuth. pose proof (extractKey_presents rctx) as Hk.
  destruct (is_empty (extractKey rctx)).
  { intros [= <- <-]. exists None. split; [by apply no_key | done]. }
  destruct (ValidateKeySignature (extractKey rctx)) eqn:Hs; cbn [negb].
  2: { intros [= <- <-]. exists None. split; [|done]. apply (not_a_key _ _ _ _ Hk).
       rewrite <- ValidateKeySignature_issuable. congruence. }
  apply ValidateKeySignature_issuable in Hs. destruct (LookupVkey c _) as [vk|] eqn:Hl.
  2: { intros [= <- <-]. exists None. split; [|done]. apply (unknown_key _ _ _ _ Hk Hs).
       by intros m ->. }
  destruct c as [m|]; [|done]. cbn in Hl.
  destruct (negb vk.(VKIsActive) || expired now vk) eqn:Hx; intros [= <- <-].
  - exists None. split; [|done]. apply (lapsed_key _ _ _ _ m vk Hk Hs); [done..|].
    rewrite <- in_force_spec. congruence.
  - exists (Some vk). split; [|done]. apply (admitted _ _ _ _ m vk Hk Hs); [done..|]. by apply in_force_spec.
Qed.

(** ** The cache: properties *)

(** Entries are stored under their keys and no two of them have the same ID. *)
Definition cache_unique (c : KeyCache) : Prop :=
  forall k1 k2 v1 v2, LookupVkey c k1 = Some v1 -> LookupVkey c k2 = Some v2 ->
    v1.(VKKey) = k1 /\ (v1.(VKID) = v2.(VKID) -> k1 = k2).

Lemma LookupVkey_clone c k : KeyCache_clone c !! k = LookupVkey c k.
Proof. destruct c; [done|]. apply lookup_empty. Qed.

Lemma first_with_id_spec order m id :
  match first_with_id order m id with
  | Some k => exists v, m !! k = Some v /\ v.(VKID) = id
  | None => forall k v, k ∈ order -> m !! k = Some v -> v.(VKID) <> id
  end.
Proof.
  induction order as [|k order IH]; cbn; [by intros ? ? ?%not_elem_of_nil|].
  destruct (m !! k) as [entry|] eqn:Hk.
  - destruct (String.eqb_spec entry.(VKID) id) as [He|He]; [by exists entry|].
    destruct (first_with_id order m id); [done|].
    intros k' v [->|Hin]%elem_of_cons Hv; [congruence | by eapply IH].
  - destruct (first_with_id order m id); [done|].
    intros k' v [->|Hin]%elem_of_cons Hv; [congruence | by eapply IH].
Qed.

Lemma DeleteVirtualKeyByID_cases order id c deleted c' :
  DeleteVirtualKeyByID order id c = (deleted, c') ->
  (deleted = true /\ exists key v, LookupVkey c key = Some v /\ v.(VKID) = id /\
     forall k, LookupVkey c' k = if decide (key = k) then None else LookupVkey c k) \/
  (deleted = false /\ c' = c /\ forall k v, k ∈ order -> LookupVkey c k = Some v -> v.(VKID) <> id).
Proof.
  unfold DeleteVirtualKeyByID. pose proof (first_with_id_spec order (KeyCache_clone c) id) as Hf.
  destruct (first_with_id _ _ _) as [key|].
  - destruct Hf as (v & Hv & Hid). rewrite LookupVkey_clone in Hv. intros [= <- <-]. left. split; [done|].
    exists key, v. splits; [done..|]. intros k. cbn. rewrite lookup_delete. by rewrite LookupVkey_clone.
  - intros [= <- <-]. right. splits; [done..|]. intros k v Hin Hv. apply (Hf k v Hin). by rewrite LookupVkey_clone.
Qed.

(** Revocation takes effect at once.  In a cache whose entries have distinct IDs, deleting a
    key by ID (in whatever order the map is searched) removes its entry and no other; from then
    on no request authenticates as that key, and every other key authenticates as before.  The
    deletion reports whether the key was cached. *)
Theorem DeleteVirtualKeyByID_spec order id c deleted c' now rctx vk :
  cache_unique c -> (forall k v, LookupVkey c k = Some v -> k ∈ order) ->
  DeleteVirtualKeyByID order id c = (deleted, c') ->
  cache_unique c' /\
  (deleted = true <-> exists k v, LookupVkey c k = Some v /\ v.(VKID) = id) /\
  (authenticates now c' rctx vk <-> authenticates now c rctx vk /\ vk.(VKID) <> id).
Proof.
  intros Hu Hord Hdel.
  destruct (DeleteVirtualKeyByID_cases order id c deleted c' Hdel)
    as [(-> & key & v & Hv & Hid & Hl)|(-> & -> & Hno)].
  - splits.
    + intros k1 k2 v1 v2. rewrite !Hl. repeat case_decide; try done. apply Hu.
    + split; [|done]. intros _. by exists key, v.
    + unfold authenticates. rewrite Hl. case_decide as Hk.
      * split; [by intros (_ & [=] & _)|]. intros ((_ & Hvk & _) & Hne). subst key. congruence.
      * split; [|tauto]. intros Ha. split; [done|]. destruct Ha as (_ & Hvk & _). intros E.
        apply Hk. destruct (Hu _ _ _ _ Hv Hvk) as [_ Hkk]. apply Hkk. congruence.
  - splits; [done | |].
    + split; [done|]. intros (k & v & Hv & Hid). exfalso. exact (Hno k v (Hord _ _ Hv) Hv Hid).
    + split; [|tauto]. intros Ha. split; [done|]. destruct Ha as (_ & Hvk & _).
      exact (Hno _ _ (Hord _ _ Hvk) Hvk).
Qed.

(** ** Model access: properties *)

Section model_access_props.
Context {C : Type} `{ModelLookup C}.

(** The key a request asks for. *)
Definition requested_key (rctx : DiffractLLMContext) : CatalogKey :=
  let requested := TrimSpace rctx.(RequestedModel) in
  let '(provider, name) := ParseModelString requested in
  mkCatalogKey provider (if is_empty provider then requested else name)
    (RequestKind_ModelType rctx.(RequestKind_)).

(** Whether a ready catalog knows the model, at the named provider or at one the key permits. *)
Definition known (catalog : option C) (vk : VirtualKey) (key : CatalogKey) : bool :=
  negb (catalogReady catalog) ||
  (if is_empty key.(KProvider) then modelInCatalog catalog vk key.(ModelName)
   else catalogHas catalog key.(KProvider) key.(ModelName)).

Definition permitted (catalog : option C) (rctx : DiffractLLMContext) (vk : VirtualKey) : bool :=
  let key := requested_key rctx in IsModelKeyAllowed vk key && known catalog vk key.

Lemma IsModelKeyAllowed_named vk p name mt :
  is_empty p = false ->
  IsModelKeyAllowed vk (mkCatalogKey p name mt)
  = IsModelAllowed (VirtualKey_ProviderConfig vk p) (mkCatalogKey p name mt).
Proof. intros Hp. unfold IsModelKeyAllowed. cbn [KProvider]. by rewrite Hp. Qed.

(** The hook on a request with a policy and a model. *)
Lemma ModelAccess_run catalog rctx vk :
  rctx.(VirtualKeyPolicy) = Some vk -> TrimSpace rctx.(RequestedModel) <> "" ->
  if permitted catalog rctx vk
  then ModelAccess_Execute catalog rctx = (None, rctx <| Modelkey := requested_key rctx |>)
  else exists e, ModelAccess_Execute catalog rctx = (Some e, rctx) /\ IsClient e = true.
Proof.
  unfold ModelAccess_Execute, permitted, requested_key, known. intros ->.
  rewrite <- is_empty_false. intros ->.
  destruct (ParseModelString _) as [p name]. destruct (is_empty p) eqn:Hp; cbn [negb KProvider ModelName].
  - apply is_empty_true in Hp. subst p. cbn [is_empty].
    destruct (IsModelKeyAllowed vk _); cbn [andb]; [|by eexists].
    destruct (catalogReady catalog); cbn [negb andb orb]; [|done].
    by destruct (modelInCatalog _ _ _); [|eexists].
  - rewrite Hp, IsModelKeyAllowed_named by done.
    destruct (VirtualKey_ProviderConfig vk p) as [config|] eqn:Hc; [|by eexists].
    rewrite (proj2 (find_config_elem _ _ _ Hc)).
    destruct (IsModelAllowed _ _); cbn [negb andb]; [|by eexists].
    destruct (catalogReady catalog); cbn [negb andb orb]; [|done].
    by destruct (catalogHas _ _ _); [|eexists].
Qed.

(** Model access.  A request passes exactly when it has a policy, names a model, the policy
    allows that model (at the named provider, or at one of its providers when none is named) and
    a catalog that is loaded knows it; its route key is then the one requested.  Every other
    request is refused with a client error, and its context is untouched. *)
Theorem ModelAccess_spec (catalog : option C) rctx :
  match ModelAccess_Execute catalog rctx with
  | (None, rctx') => rctx' = rctx <| Modelkey := requested_key rctx |> /\
      TrimSpace rctx.(RequestedModel) <> "" /\
      exists vk, rctx.(VirtualKeyPolicy) = Some vk /\ permitted catalog rctx vk = true
  | (Some e, rctx') => rctx' = rctx /\ IsClient e = true /\
      (TrimSpace rctx.(RequestedModel) = "" \/ rctx.(VirtualKeyPolicy) = None \/
       exists vk, rctx.(VirtualKeyPolicy) = Some vk /\ permitted catalog rctx vk = false)
  end.
Proof.
  destruct (VirtualKeyPolicy rctx) as [vk|] eqn:Hvk.
  2: { unfold ModelAccess_Execute. rewrite Hvk. auto. }
  destruct (decide (TrimSpace rctx.(RequestedModel) = "")) as [He|He].
  { unfold ModelAccess_Execute. rewrite Hvk, He. cbn [is_empty]. splits; auto. }
  pose proof (ModelAccess_run catalog rctx vk Hvk He) as Hrun.
  destruct (permitted catalog rctx vk) eqn:Hp; [rewrite Hrun; eauto|].
  destruct Hrun as (e & -> & Hc). eauto 10.
Qed.
End model_access_props.

(** ** Synchronisation: properties *)

(** A row that can be served, and the key it is served as. *)
Definition served (row : StoreVirtualKey) (vk : VirtualKey) : Prop :=
  StoreVirtualKey_ToCore row = Ok vk /\ vk.(LoadBalancer) = LBRoundRobin /\ vk.(ProviderConfigs) <> [].

Lemma served_key row vk : served row vk ->
  vk.(VKKey) = row.(SVKAPIKey) /\ vk.(VKID) = row.(SVKID) /\ vk.(VKIsActive) = row.(SVKIsActive).
Proof.
  intros [H _]. revert H. unfold StoreVirtualKey_ToCore. repeat case_match; try done. by intros [= <-].
Qed.

Definition sync_row (tempVkey : list VirtualKey) (row : StoreVirtualKey) : result SyncError (list VirtualKey) :=
  match StoreVirtualKey_ToCore row with
  | Err e => Err (SyncToCore row.(SVKID) e)
  | Ok virtualKey =>
      match VirtualKey_Validate (Some virtualKey) with
      | Err e => Err (SyncValidate row.(SVKID) e)
      | Ok _ => Ok (tempVkey ++ [virtualKey])%list
      end
  end.

Lemma sync_row_spec acc row :
  match sync_row acc row with
  | Ok acc' => exists vk, served row vk /\ acc' = (acc ++ [vk])%list
  | Err _ => forall vk, ~ served row vk
  end.
Proof.
  unfold sync_row, served. destruct (StoreVirtualKey_ToCore row) as [vk|e]; [|by intros vk [[=] _]].
  destruct (VirtualKey_Validate (Some vk)) as [[]|e] eqn:Hv.
  - exists vk. split; [|done]. split; [done|]. by apply VirtualKey_Validate_Ok.
  - intros vk' [[= <-] Hok]. apply VirtualKey_Validate_Ok in Hok. congruence.
Qed.

Lemma sync_rows_spec rows : forall acc,
  match foldM sync_row acc rows with
  | Ok vks => exists l, Forall2 served rows l /\ vks = (acc ++ l)%list
  | Err _ => exists row, row ∈ rows /\ forall vk, ~ served row vk
  end.
Proof.
  induction rows as [|row rows IH]; intros acc; cbn [foldM].
  - exists []. by rewrite app_nil_r.
  - pose proof (sync_row_spec acc row) as Hr. destruct (sync_row acc row) as [acc'|e].
    + destruct Hr as (vk & Hs & ->). specialize (IH (acc ++ [vk])%list).
      destruct (foldM _ _ rows) as [vks|e].
      * destruct IH as (l & Hl & ->). exists (vk :: l). rewrite <- app_assoc. split; [by constructor | done].
      * destruct IH as (row' & Hin & Hn). exists row'. split; [by right | done].
    + exists row. split; [by left | done].
Qed.

Lemma LoadVirtualKeys_lookup l : NoDup (map VKKey l) ->
  forall k vk, LookupVkey (LoadVirtualKeys l) k = Some vk <-> vk ∈ l /\ vk.(VKKey) = k.
Proof.
  cbn. intros Hnd k vk.
  assert (Hgen : forall (m : gmap string VirtualKey),
    (forall v, v ∈ l -> m !! v.(VKKey) = None) ->
    foldl (fun m v => <[v.(VKKey) := v]> m) m l !! k = Some vk <->
    m !! k = Some vk \/ vk ∈ l /\ vk.(VKKey) = k).
  { revert Hnd. induction l as [|v l IH]; intros Hnd m Hm; cbn.
    - split; [auto | by intros [?|[?%not_elem_of_nil _]]].
    - cbn in Hnd. apply NoDup_cons in Hnd as [Hv Hnd]. rewrite IH; [|done|].
      + rewrite lookup_insert_Some, elem_of_cons. split.
        * intros [[[<- <-]|[_ ?]]|[? ?]]; auto.
        * intros [Hk|[[->|Hin] <-]]; [|auto|auto].
          left. right. split; [|done]. intros <-. rewrite Hm in Hk; [done | by left].
      + intros w Hw. rewrite lookup_insert_ne; [apply Hm; by right|].
        intros E. apply Hv. rewrite E. apply list_elem_of_In, in_map. by apply list_elem_of_In. }
  rewrite Hgen by (intros; apply lookup_empty). rewrite lookup_empty. naive_solver.
Qed.

Lemma syncVirtualKey_Ok rows c n c' :
  syncVirtualKey rows c = (Ok n, c') ->
  exists l, rows = Ok l /\ n = Z.of_nat (List.length l) /\ (forall row, row ∈ l -> exists vk, served row vk) /\
    (NoDup (map SVKAPIKey l) -> forall k vk,
       LookupVkey c' k = Some vk <-> exists row, row ∈ l /\ row.(SVKAPIKey) = k /\ served row vk).
Proof.
  unfold syncVirtualKey. destruct rows as [l|e]; [|done].
  fold sync_row. pose proof (sync_rows_spec l []) as Hl. destruct (foldM sync_row [] l) as [vks|e]; [|done].
  destruct Hl as (vks' & Hf & ->). rewrite app_nil_l. intros [= <- <-].
  exists l. splits; [done | by rewrite (Forall2_length _ _ _ Hf) | |].
  - intros row [i Hi]%list_elem_of_lookup. destruct (Forall2_lookup_l _ _ _ _ _ Hf Hi) as (vk & _ & ?). eauto.
  - intros Hnd k vk.
    assert (Hkeys : map VKKey vks' = map SVKAPIKey l).
    { clear -Hf. induction Hf as [|row vk l vks (Hk & _)%served_key _ IH]; [done|]. cbn. by rewrite Hk, IH. }
    rewrite LoadVirtualKeys_lookup by (by rewrite Hkeys). split.
    + intros [[i Hi]%list_elem_of_lookup <-].
      destruct (Forall2_lookup_r _ _ _ _ _ Hf Hi) as (row & Hrow & Hs). exists row.
      splits; [by eapply list_elem_of_lookup_2 | by destruct (served_key _ _ Hs) | done].
    + intros (row & [i Hi]%list_elem_of_lookup & <- & Hs).
      destruct (Forall2_lookup_l _ _ _ _ _ Hf Hi) as (vk' & Hvk & Hs').
      assert (vk' = vk) as -> by (destruct Hs, Hs'; congruence).
      split; [by eapply list_elem_of_lookup_2 | by destruct (served_key _ _ Hs)].
Qed.

(** A synchronisation of the virtual keys is all or nothing.  When every row of the table can
    be served (its enumerations parse, its configurations compile, its load balancer is
    implemented), the cache becomes exactly the table: a key looks up to the compiled policy of
    its row, and keys without a row are gone.  When one row cannot be served, or the table cannot
    be read, the cache stays as it is. *)
Theorem syncVirtualKey_spec rows c res c' :
  syncVirtualKey rows c = (res, c') ->
  match res with
  | Err _ => c' = c /\ (is_ok rows = false \/ exists l row, rows = Ok l /\ row ∈ l /\ forall vk, ~ served row vk)
  | Ok n => exists l, rows = Ok l /\ n = Z.of_nat (List.length l) /\ (forall row, row ∈ l -> exists vk, served row vk) /\
      (NoDup (map SVKAPIKey l) -> forall k vk,
         LookupVkey c' k = Some vk <-> exists row, row ∈ l /\ row.(SVKAPIKey) = k /\ served row vk)
  end.
Proof.
  intros Hs. destruct res as [n|e]; [by apply (syncVirtualKey_Ok rows c)|]. revert Hs.
  unfold syncVirtualKey. destruct rows as [l|e']; [|intros [= <- <-]; auto].
  fold sync_row. pose proof (sync_rows_spec l []) as Hl. destruct (foldM sync_row [] l) as [vks|e']; [done|].
  intros [= _ <-]. split; [done|]. right. destruct Hl as (row & Hin & Hn). by exists l, row.
Qed.

(** ** Concrete caches *)

Definition row_example (id key lb : string) : StoreVirtualKey :=
  mkStoreVirtualKey id "" key "" "client" "budget" "weighted" stored_example lb true 0 0 None.

Lemma syncVirtualKey_spec_witness :
  let rows := [row_example "vk1" "k1" "round_robin"; row_example "vk2" "k2" "round_robin"] in
  let '(res, c') := syncVirtualKey (Ok rows) None in
  res = Ok 2%Z /\ forall k vk, LookupVkey c' k = Some vk <->
    exists row, row ∈ rows /\ row.(SVKAPIKey) = k /\ served row vk.
Proof.
  intros rows. destruct (syncVirtualKey (Ok rows) None) as [res c'] eqn:Hs.
  assert (Hres : res = Ok 2%Z) by (vm_compute in Hs; by simplify_eq). subst res. split; [reflexivity|].
  destruct (syncVirtualKey_spec _ _ _ _ Hs) as (l & [= <-] & _ & _ & Hl).
  apply Hl. apply (bool_decide_unpack _). vm_compute. exact I.
Defined.

(** The creation of a key accepts any load balancer that parses; a row with one that is not
    implemented stops the synchronisation of every key. *)
Example unimplemented_balancer_blocks_sync c :
  syncVirtualKey (Ok [row_example "vk1" "k1" "round_robin"; row_example "vk2" "k2" "least_connection"]) c
  = (Err (SyncValidate "vk2" (LBNotImplemented "least_connection")), c).
Proof. vm_compute. reflexivity. Qed.

(** A cache with two keys the generator can return. *)
Definition cached_key : string := "dk-000000000000000000IV3Z".
Definition cache_example : KeyCache :=
  Some (<[cached_key := key_example <| VKKey := cached_key |>]>
         {["other" := key_example <| VKKey := "other" |> <| VKID := "vk2" |>]}).
Definition request_example : DiffractLLMContext :=
  NewContext <| Request := Some (mkHTTPRequest "POST" "/" {["X-Diffract-Key" := cached_key ++ " "]}) |>.

Lemma cache_example_lookup k v : LookupVkey cache_example k = Some v ->
  k = cached_key /\ v = key_example <| VKKey := cached_key |> \/
  k = "other" /\ v = key_example <| VKKey := "other" |> <| VKID := "vk2" |>.
Proof.
  cbn [LookupVkey cache_example].
  intros [[<- <-]|[_ [<- <-]%lookup_singleton_Some]]%lookup_insert_Some; auto.
Qed.

(** A request of Gemini's client, whose key is in the last of the headers. *)
Definition gemini_request : DiffractLLMContext :=
  NewContext <| Request := Some (mkHTTPRequest "POST" "/" {["X-Goog-Api-Key" := cached_key]}) |>.

Lemma ValidatevKeyAuth_spec_witness :
  (ValidatevKeyAuth 0 cache_example gemini_request).1 = None /\
  exists who, auth_answer 0 cache_example gemini_request None who /\
    (forall err2 who2, auth_answer 0 cache_example gemini_request err2 who2 -> err2 = None /\ who2 = who) /\
    (ValidatevKeyAuth 0 cache_example gemini_request).2
    = match who with
      | Some vk => gemini_request <| ClientID := vk.(VKClientID) |> <| VirtualKeyID := vk.(VKID) |>
          <| VirtualKeyPolicy := Some vk |> <| BudgetRef := vk.(VKBudgetID) |> <| AuthFrozen := true |>
      | None => gemini_request
      end.
Proof.
  split; [vm_compute; reflexivity|].
  apply (ValidatevKeyAuth_spec 0 cache_example gemini_request None
           (ValidatevKeyAuth 0 cache_example gemini_request).2).
  vm_compute. reflexivity.
Defined.

(** The key authenticates until it is revoked. *)
Lemma DeleteVirtualKeyByID_spec_witness :
  (ValidatevKeyAuth 0 cache_example request_example).1 = None /\
  let '(deleted, c') := DeleteVirtualKeyByID ["other"; cached_key] "vk" cache_example in
  deleted = true /\ forall vk, authenticates 0 c' request_example vk <->
    authenticates 0 cache_example request_example vk /\ vk.(VKID) <> "vk".
Proof.
  split; [vm_compute; reflexivity|].
  destruct (DeleteVirtualKeyByID ["other"; cached_key] "vk" cache_example) as [deleted c'] eqn:Hd.
  assert (Hdel : deleted = true) by (vm_compute in Hd; by simplify_eq).
  assert (Hu : cache_unique cache_example).
  { intros k1 k2 v1 v2 [[-> ->]|[-> ->]]%cache_example_lookup [[-> ->]|[-> ->]]%cache_example_lookup;
      (split; [reflexivity|]); first [reflexivity | intros E; vm_compute in E; discriminate E]. }
  assert (Hord : forall k v, LookupVkey cache_example k = Some v -> k ∈ ["other"; cached_key]).
  { intros k v [[-> _]|[-> _]]%cache_example_lookup; [by right; left | by left]. }
  split; [exact Hdel|]. intros vk.
  exact (proj2 (proj2 (DeleteVirtualKeyByID_spec ["other"; cached_key] "vk" cache_example deleted c' 0
    request_example vk Hu Hord Hd))).
Defined.
