(* ===== verification/StoreCatalog.v ===== *)
(** * Providers, models and prices in the database

    The rows of [internal/dbstore/model_metadata.go], [internal/dbstore/pricing.go] and
    [internal/dbstore/provider.go] that the model catalog is loaded from, their conversions and
    the two bulk synchronisations.  A table written with ON CONFLICT is the class [UpsertTable];
    the reading of the clock and the UUIDs are arguments. *)

From S2P Require Import Prelude GoBase Float64 Catalog Pricing Credential.

(** ** Tables with ON CONFLICT

    [conflict_key] is the value of the columns of the unique index that the clause names and
    [assign] the effect of its DO UPDATE on an existing row.  The rows of one statement have
    different keys. *)

Class Conflict (K Row : Type) := { conflict_key : Row -> K; assign : Row -> Row -> Row }.

Class UpsertTable (Db K Row : Type) := {
  utbl : Db -> K -> option Row;
  create_or_update : list Row -> Z -> Db -> result string () * Db
}.

Definition row_with {K Row} `{Conflict K Row} `{EqDecision K} (rs : list Row) (k : K) : option Row :=
  List.find (fun r => bool_decide (conflict_key r = k)) rs.

Class UpsertLaws (Db K Row : Type) `{Conflict K Row} `{EqDecision K} `{UpsertTable Db K Row} := {
  upsert_ok rs n d u d' : NoDup (map conflict_key rs) -> create_or_update rs n d = (Ok u, d') ->
    forall k, utbl d' k = match row_with rs k with
                          | Some r => Some (match utbl d k with Some old => assign old r | None => r end)
                          | None => utbl d k
                          end;
  upsert_err rs n d e d' : create_or_update rs n d = (Err e, d') -> forall k, utbl d' k = utbl d k
}.

(** ** Rows *)

Record StoreProvider : Type := mkStoreProvider {
  SPID : string;
  SPName : string;
  SPIsConfigured : bool;
  SPNetwork : NetworkConfig;
  SPProxy : option ProxyConfig
}.

Definition ToUpstream (s : StoreProvider) : Upstream :=
  mkUpstream s.(SPName) s.(SPNetwork) s.(SPProxy).

Record StoreModelMetadata : Type := mkStoreModelMetadata {
  MMID : string;
  MMProviderID : string;
  MMProvider : StoreProvider;
  MMModelName : string;
  MMModelType : string;
  MMBaseModel : string;
  MMCapabilities : list string;
  MMContextWindow : Z;
  MMMaxInputTokens : Z;
  MMMaxOutputTokens : Z;
  MMLongContextThreshold : Z;
  MMSourceRawKey : string;
  MMCreatedAt : Z;
  MMUpdatedAt : Z
}.

Definition Metadata_ToCore (s : StoreModelMetadata) : ModelMetadata :=
  mkModelMetadata s.(MMID) s.(MMProvider).(SPName) (ParseModelType s.(MMModelType)) s.(MMModelName)
    s.(MMBaseModel) (ParseCapabilityStrings s.(MMCapabilities))
    (mkModelLimits s.(MMContextWindow) s.(MMMaxInputTokens) s.(MMMaxOutputTokens)
       s.(MMLongContextThreshold))
    s.(MMSourceRawKey).

Definition StoreProvider0 : StoreProvider := mkStoreProvider "" "" false NetworkConfig0 None.

Definition newStoreModelMetadata (uuid : string) (md : ModelMetadata) (providerID : string) (now : Z)
    : StoreModelMetadata :=
  mkStoreModelMetadata uuid providerID StoreProvider0 md.(MModelName) (ModelType_String md.(MModelType))
    md.(BaseModel) (Capability_String md.(MCapability)) md.(Limits).(ContextWindow)
    md.(Limits).(MaxInputTokens) md.(Limits).(MaxOutputTokens) md.(Limits).(LongContextThreshold)
    md.(SourceRawKey) now now.

Record StoreModelPricing : Type := mkStoreModelPricing {
  MPID : string;
  MPRawKey : string;
  MPProviderID : string;
  MPProvider : StoreProvider;
  MPModelName : string;
  MPSelectorKey : string;
  MPModelType : string;
  MPPricing : Pricing;
  HeadlineInputCostPerToken : option f64;
  HeadlineOutputCostPerToken : option f64;
  MPCreatedAt : Z;
  MPUpdatedAt : Z
}.

Definition Pricing_ToCore (s : StoreModelPricing) : PricingVariant :=
  mkPricingVariant s.(MPID) s.(MPRawKey) (mkSelectorSet s.(MPSelectorKey)) s.(MPProvider).(SPName)
    (ParseModelType s.(MPModelType)) s.(MPModelName) s.(MPPricing).

Definition newStoreModelPricing (uuid : string) (variant : PricingVariant) (providerID : string) (now : Z)
    : StoreModelPricing :=
  mkStoreModelPricing uuid variant.(VRawKey) providerID StoreProvider0 variant.(VModelName)
    (CanonicalKey variant.(Selectors)) (ModelType_String variant.(VModelType)) variant.(VPricing)
    (variant.(VPricing) InputCostPerToken) (variant.(VPricing) OutputCostPerToken) now now.

Record StoreCustomModelPricing : Type := mkStoreCustomModelPricing {
  SCID : string;
  SCName : string;
  SCModelName : string;
  SCModelType : string;
  SCScopeType : ScopeType;
  SCScopeVirtualkeyID : option string;
  SCScopeProviderID : option string;
  SCScopeProvider : option StoreProvider;
  ScopeRef : string;
  SCPricing : Pricing;
  SCCreatedAt : Z;
  SCUpdatedAt : Z
}.
#[export] Instance StoreCustomModelPricing_eta : Eta StoreCustomModelPricing := fun o =>
  mkStoreCustomModelPricing (SCID o) (SCName o) (SCModelName o) (SCModelType o) (SCScopeType o)
    (SCScopeVirtualkeyID o) (SCScopeProviderID o) (SCScopeProvider o) (ScopeRef o) (SCPricing o)
    (SCCreatedAt o) (SCUpdatedAt o).

(** The hook gorm runs before it writes an override. *)
Definition Custom_BeforeSave (o : StoreCustomModelPricing) : result string StoreCustomModelPricing :=
  if String.eqb o.(SCScopeType) ScopeProvider_ then
    match o.(SCScopeProviderID) with
    | None => Err "scope_provider_id required when scope_type=provider"
    | Some id => Ok (o <| ScopeRef := id |>)
    end
  else if String.eqb o.(SCScopeType) ScopeVirtualKey then
    match o.(SCScopeVirtualkeyID) with
    | None => Err "scope_virtual_key_id required when scope_type=virtualkey"
    | Some id => Ok (o <| ScopeRef := id |>)
    end
  else if String.eqb o.(SCScopeType) ScopeGlobal then Ok (o <| ScopeRef := "" |>)
  else Err "invalid scope_type".

Definition Custom_ToCore (o : StoreCustomModelPricing) : CustomPricing :=
  mkCustomPricing o.(SCID) o.(SCName) o.(SCModelName) (ParseModelType o.(SCModelType)) o.(SCPricing)
    o.(SCScopeType) o.(SCScopeVirtualkeyID) (SPName <$> o.(SCScopeProvider)).

(** ** Bulk synchronisation *)

(** [s.ProviderIDs(nil)] from the rows of the table of providers. *)
Definition ProviderIDs (providers : result string (list StoreProvider)) : result string (gmap Provider string) :=
  match providers with
  | Err e => Err ("load providers: " ++ e)
  | Ok ps => Ok (foldl (fun ids p => <[p.(SPName) := p.(SPID)]> ids) ∅ ps)
  end.

(** The loop that turns the feed's entries into rows: entries of unknown providers and repeated
    keys are left out (and only counted in the log).  [key_of] is the key of an entry, [row] the
    row made of it, [rs] and [seen] the rows and the keys so far. *)
Section rows_of.
Context {Item Row Key : Type} `{Countable Key}.
Variables (provider_of : Item -> Provider) (key_of : Item -> Key) (row : nat -> Item -> string -> Row).

Fixpoint rows_of (ids : gmap Provider string) (i : nat) (items : list Item) (rs : list Row)
    (seen : gset Key) : list Row :=
  match items with
  | [] => rs
  | x :: items' =>
      match ids !! provider_of x with
      | None => rows_of ids (S i) items' rs seen
      | Some providerID =>
          if decide (key_of x ∈ seen) then rows_of ids (S i) items' rs seen
          else rows_of ids (S i) items' (rs ++ [row i x providerID])%list ({[key_of x]} ∪ seen)
      end
  end.
End rows_of.

(** The index of the table of metadata and the columns its upsert assigns. *)
Definition metadata_index : Type := string * string * string.
#[export] Instance Metadata_conflict : Conflict metadata_index StoreModelMetadata := {
  conflict_key r := (r.(MMProviderID), r.(MMModelName), r.(MMModelType));
  assign old r :=
    mkStoreModelMetadata old.(MMID) old.(MMProviderID) old.(MMProvider) old.(MMModelName)
      old.(MMModelType) r.(MMBaseModel) r.(MMCapabilities) r.(MMContextWindow) r.(MMMaxInputTokens)
      r.(MMMaxOutputTokens) r.(MMLongContextThreshold) r.(MMSourceRawKey) old.(MMCreatedAt)
      r.(MMUpdatedAt)
}.

#[export] Instance Pricing_conflict : Conflict string StoreModelPricing := {
  conflict_key := MPRawKey;
  assign old r :=
    mkStoreModelPricing old.(MPID) old.(MPRawKey) r.(MPProviderID) old.(MPProvider) r.(MPModelName)
      r.(MPSelectorKey) r.(MPModelType) r.(MPPricing) r.(HeadlineInputCostPerToken)
      r.(HeadlineOutputCostPerToken) old.(MPCreatedAt) r.(MPUpdatedAt)
}.

Section sync.
Context (uuid : nat -> string) (now : Z) (providers : result string (list StoreProvider)).

Definition metadata_rows (ids : gmap Provider string) (models : list ModelMetadata) : list StoreModelMetadata :=
  rows_of MProvider ModelMetadata_CatalogKey
    (fun i md providerID => newStoreModelMetadata (uuid i) md providerID now) ids 0 models [] ∅.

Definition BulkSyncModelMetadata {Db} `{UpsertTable Db metadata_index StoreModelMetadata}
    (models : list ModelMetadata) (d : Db) : result string () * Db :=
  match models with
  | [] => (Ok tt, d)
  | _ =>
      match ProviderIDs providers with
      | Err e => (Err ("metadata sync: " ++ e), d)
      | Ok ids =>
          match metadata_rows ids models with
          | [] => (Ok tt, d)
          | rs => match create_or_update rs 500 d with
                  | (Ok _, d) => (Ok tt, d)
                  | (Err e, d) => (Err ("model metadata upsert: " ++ e), d)
                  end
          end
      end
  end.

Definition pricing_rows (ids : gmap Provider string) (variants : list PricingVariant) : list StoreModelPricing :=
  rows_of VProvider VRawKey
    (fun i v providerID => newStoreModelPricing (uuid i) v providerID now) ids 0 variants [] ∅.

Definition BulkSyncModelPricing {Db} `{UpsertTable Db string StoreModelPricing}
    (variants : list PricingVariant) (d : Db) : result string () * Db :=
  match variants with
  | [] => (Ok tt, d)
  | _ =>
      match ProviderIDs providers with
      | Err e => (Err ("pricing sync: " ++ e), d)
      | Ok ids =>
          match pricing_rows ids variants with
          | [] => (Ok tt, d)
          | rs => match create_or_update rs 500 d with
                  | (Ok _, d) => (Ok tt, d)
                  | (Err e, d) => (Err ("model pricing upsert: " ++ e), d)
                  end
          end
      end
  end.
End sync.

(** ** What the synchronisations write *)

(** The first entry with the key [k] whose provider is known, its position and its provider ID. *)
Section first_of.
Context {Item Key : Type} `{EqDecision Key}.
Variables (provider_of : Item -> Provider) (key_of : Item -> Key).

Fixpoint first_of (ids : gmap Provider string) (i : nat) (items : list Item) (k : Key)
    : option (nat * Item * string) :=
  match items with
  | [] => None
  | x :: items' =>
      match ids !! provider_of x with
      | Some pid => if decide (key_of x = k) then Some (i, x, pid) else first_of ids (S i) items' k
      | None => first_of ids (S i) items' k
      end
  end.
End first_of.

Section rows_of_spec.
Context {Item Row Key K : Type} `{Countable Key} `{Conflict K Row} `{EqDecision K}.
Variables (provider_of : Item -> Provider) (key_of : Item -> Key) (row : nat -> Item -> string -> Row).
Variables (ids : gmap Provider string) (index : Key -> K) (known : Key -> Prop).
Hypothesis row_key : forall i x p, ids !! provider_of x = Some p -> conflict_key (row i x p) = index (key_of x).
Hypothesis row_known : forall x p, ids !! provider_of x = Some p -> known (key_of x).
Hypothesis index_inj : forall k k', known k -> known k' -> index k = index k' -> k = k'.

Lemma row_with_app rs rs' k :
  row_with (rs ++ rs') k = match row_with rs k with Some r => Some r | None => row_with rs' k end.
Proof. unfold row_with. induction rs as [|r rs IH]; [done|]. cbn. by case_bool_decide. Qed.

Lemma row_with_snoc rs i x p k : ids !! provider_of x = Some p ->
  row_with (rs ++ [row i x p]) k =
    match row_with rs k with
    | Some r => Some r
    | None => if decide (index (key_of x) = k) then Some (row i x p) else None
    end.
Proof.
  intros Hp. rewrite row_with_app. unfold row_with at 2. cbn. rewrite (row_key _ _ _ Hp).
  destruct (row_with rs k); [done|]. by case_bool_decide; case_decide.
Qed.

Definition rows_ok (rs : list Row) (seen : gset Key) : Prop :=
  NoDup (map conflict_key rs) /\
  (forall k, k ∈ seen -> known k) /\
  (forall r, In r rs -> exists k, k ∈ seen /\ conflict_key r = index k).

(** The rows have different keys, and hold for a key the first entry that has it. *)
Lemma rows_of_spec i items rs seen :
  rows_ok rs seen ->
  let out := rows_of provider_of key_of row ids i items rs seen in
  NoDup (map conflict_key out) /\
  (forall k, known k -> row_with out (index k) =
     match row_with rs (index k) with
     | Some r => Some r
     | None => if decide (k ∈ seen) then None
               else (fun e => row e.1.1 e.1.2 e.2) <$> first_of provider_of key_of ids i items k
     end).
Proof.
  revert i rs seen. induction items as [|x items IH]; intros i rs seen (Hnd & Hseen & Hrs).
  { cbn [rows_of first_of]. split; [done|]. intros k Hk. destruct (row_with rs (index k)); [done|]. by destruct (decide (k ∈ seen)). }
  cbn [rows_of first_of]. destruct (ids !! provider_of x) as [p|] eqn:Hp; [|by apply IH].
  destruct (decide (key_of x ∈ seen)) as [Hin|Hnin].
  - destruct (IH (S i) rs seen) as [H1 H2]; [done|]. split; [done|]. intros k Hk.
    rewrite (H2 k Hk). destruct (row_with rs (index k)); [done|].
    destruct (decide (key_of x = k)) as [<-|]; [|done]. by destruct (decide (key_of x ∈ seen)).
  - destruct (IH (S i) (rs ++ [row i x p])%list ({[key_of x]} ∪ seen)) as [H1 H2].
    + split; [|split].
      * rewrite map_app. apply NoDup_app. splits; [done| |apply NoDup_singleton].
        intros c Hc Hc'. apply list_elem_of_singleton in Hc'. subst c. rewrite (row_key _ _ _ Hp) in Hc.
        apply list_elem_of_In, in_map_iff in Hc as (r & Hr & Hinr).
        destruct (Hrs r Hinr) as (k & Hk & Hck). apply Hnin.
        rewrite <- (index_inj k (key_of x)); [done|by apply Hseen|by eapply row_known|congruence].
      * intros k [->%elem_of_singleton|]%elem_of_union; [by eapply row_known | by apply Hseen].
      * intros r [Hr|[<-|[]]]%in_app_or.
        -- destruct (Hrs r Hr) as (k & ? & ?). exists k. split; [set_solver|done].
        -- exists (key_of x). split; [set_solver | by apply row_key].
    + split; [done|]. intros k Hk. rewrite (H2 k Hk), row_with_snoc by done.
      destruct (row_with rs (index k)); [done|].
      destruct (decide (key_of x = k)) as [<-|Hne].
      * rewrite decide_True by done. by rewrite decide_False.
      * rewrite decide_False by (intros E; apply Hne, index_inj; [by eapply row_known|done|done]).
        destruct (decide (k ∈ seen)); [rewrite decide_True by set_solver | rewrite decide_False by set_solver]; done.
Qed.
End rows_of_spec.

Definition as_variant (uuid : nat -> string) (now : Z) (e : nat * PricingVariant * string) : StoreModelPricing :=
  newStoreModelPricing (uuid e.1.1) e.1.2 e.2 now.

Lemma pricing_rows_spec uuid now ids variants :
  NoDup (map MPRawKey (pricing_rows uuid now ids variants)) /\ forall k, row_with (pricing_rows uuid now ids variants) k =
    as_variant uuid now <$> first_of VProvider VRawKey ids 0 variants k.
Proof.
  pose proof (rows_of_spec VProvider VRawKey (fun i v p => newStoreModelPricing (uuid i) v p now)
    ids (fun k => k) (fun _ => True)) as Hspec.
  destruct (Hspec ltac:(done) ltac:(done) ltac:(done) 0%nat variants [] ∅) as [H1 H2].
  { split; [constructor|split; [done|]]. intros r []. }
  split; [exact H1|]. intros k. unfold pricing_rows. rewrite H2 by done. cbn [row_with List.find].
  rewrite decide_False by set_solver. done.
Qed.

(** Synchronising the feed of prices writes, for every raw key, the first of the feed's
    variants with that key whose provider is known, on top of the row's ID and creation time if
    the key is there already; every other row, and the whole table when the statement fails or the
    providers cannot be read, is left as it was. *)
Theorem BulkSyncModelPricing_spec {Db} `{UpsertTable Db string StoreModelPricing}
    `{!UpsertLaws Db string StoreModelPricing} uuid now providers
    variants (d d' : Db) res :
  BulkSyncModelPricing uuid now providers variants d = (res, d') ->
  forall k, utbl d' k =
    match res, ProviderIDs providers with
    | Ok _, Ok ids =>
        match as_variant uuid now <$> first_of VProvider VRawKey ids 0 variants k with
        | Some r => Some (match utbl d k with Some old => assign old r | None => r end)
        | None => utbl d k
        end
    | _, _ => utbl d k
    end.
Proof.
  unfold BulkSyncModelPricing. intros Hrun k.
  destruct variants as [|v vs]; [injection Hrun as <- <-; by destruct (ProviderIDs providers)|].
  destruct (ProviderIDs providers) as [ids|e]; [|injection Hrun as <- <-; done].
  destruct (pricing_rows_spec uuid now ids (v :: vs)) as [Hnd Hrow].
  rewrite <- Hrow. destruct (pricing_rows uuid now ids (v :: vs)) as [|r rs].
  { injection Hrun as <- <-. done. }
  destruct (create_or_update (r :: rs) 500 d) as [[[]|e] d1] eqn:Hc; injection Hrun as <- <-.
  - exact (upsert_ok _ _ _ _ _ Hnd Hc k).
  - exact (upsert_err _ _ _ _ _ Hc k).
Qed.

(** ** A table in memory, with faults *)

Section mem_upsert.
Context {K Row : Type} `{Countable K} `{Conflict K Row}.

Definition MemUpsert : Type := gmap K Row * list bool.

Definition upsert_row (m : gmap K Row) (r : Row) : gmap K Row :=
  <[conflict_key r := match m !! conflict_key r with Some old => assign old r | None => r end]> m.

#[local] Instance MemUpsertTable : UpsertTable MemUpsert K Row := {
  utbl d k := d.1 !! k;
  create_or_update rs _ d :=
    match d.2 with
    | true :: fs => (Err "database is locked", (d.1, fs))
    | fs => (Ok tt, (foldl upsert_row d.1 rs, tail fs))
    end
}.

Lemma upsert_rows_lookup rs m k : NoDup (map conflict_key rs) ->
  foldl upsert_row m rs !! k =
    match row_with rs k with
    | Some r => Some (match m !! k with Some old => assign old r | None => r end)
    | None => m !! k
    end.
Proof.
  revert m. induction rs as [|r rs IH]; intros m Hnd; [done|].
  cbn [map] in Hnd. apply NoDup_cons in Hnd as [Hr Hnd]. cbn [foldl]. rewrite (IH _ Hnd).
  unfold upsert_row, row_with. cbn [List.find]. case_bool_decide as Hk.
  - subst k. rewrite lookup_insert_eq.
    assert (Hnone : List.find (fun r0 => bool_decide (conflict_key r0 = conflict_key r)) rs = None).
    { destruct (List.find _ rs) as [r0|] eqn:Hf; [|done]. apply find_some in Hf as [Hin He].
      case_bool_decide as E; [|done]. exfalso. apply Hr. rewrite <- E.
      apply list_elem_of_In. by apply in_map. }
    by rewrite Hnone.
  - rewrite lookup_insert_ne by done. done.
Qed.

#[local] Instance MemUpsertLaws : UpsertLaws MemUpsert K Row.
Proof.
  split; intros rs n [m fs] ? d'; cbn.
  - intros Hnd. destruct fs as [|[] fs]; intros [=]; subst d'; intros k; by apply upsert_rows_lookup.
  - destruct fs as [|[] fs]; intros [=]; by subst d'.
Qed.
End mem_upsert.
Arguments MemUpsert K Row {_ _}.
#[export] Existing Instances MemUpsertTable MemUpsertLaws.

(** Three variants, one of a provider that is not registered and one a repetition: one row. *)
Lemma BulkSyncModelPricing_spec_witness :
  let v p m := mkPricingVariant "" "gpt-4" (mkSelectorSet "") p ModelTypeChat m Pricing0 in
  let vs := [v "mars" "a"; v "openai" "b"; v "openai" "c"] in
  let ps := Ok [mkStoreProvider "p1" "openai" true NetworkConfig0 None] in
  let d : MemUpsert string StoreModelPricing := (∅, []) in
  let out := BulkSyncModelPricing (fun _ => "u") 5 ps vs d in
  is_ok out.1 = true /\ (MPModelName <$> utbl out.2 "gpt-4") = Some "b" /\
  (MPModelName <$> utbl out.2 "gpt-5") = None.
Proof.
  intros v vs ps d out.
  assert (Hspec := BulkSyncModelPricing_spec (fun _ => "u") 5 ps vs d out.2 out.1 (surjective_pairing out)).
  split; [reflexivity|]. rewrite !Hspec. split; reflexivity.
Defined.
