(* ===== verification/ModelCatalog.v ===== *)
(** * The model catalog ([internal/modelcatalog/modelcatalog.go])

    Three snapshots behind atomic pointers, each rebuilt from the database and replaced whole: a
    load is one step from state to state, and a reader sees one snapshot.  A [nil] pointer is
    [None]. *)

From S2P Require Import Prelude GoBase Float64 Errors Catalog Pricing VirtualKey Context Governance Credential StoreCatalog.

(** ** Snapshots *)

Record ModelSnapshot : Type := mkModelSnapshot {
  entries : list ModelMetadata;
  metadata : gmap CatalogKey ModelMetadata;
  byProvider : gmap Provider (gset string)
}.

Record BasePricingSnapshot : Type := mkBasePricingSnapshot {
  base : gmap CatalogKey PricingVariant;
  variants : gmap CatalogKey (list PricingVariant)
}.

(** The first loop of [newBasePricingSnapshot], for one row. *)
Definition add_variant (s : BasePricingSnapshot) (variant : PricingVariant) : BasePricingSnapshot :=
  let key := PricingVariant_CatalogKey variant in
  let replace :=
    match s.(base) !! key with
    | None => true
    | Some existing => Selector_IsEmpty variant.(Selectors) && negb (Selector_IsEmpty existing.(Selectors))
    end in
  mkBasePricingSnapshot
    (if replace then <[key := variant]> s.(base) else s.(base))
    (<[key := (default [] (s.(variants) !! key) ++ [variant])%list]> s.(variants)).

Definition newBasePricingSnapshot (rows : list PricingVariant) : BasePricingSnapshot :=
  let snapshot := foldl add_variant (mkBasePricingSnapshot ∅ ∅) rows in
  mkBasePricingSnapshot snapshot.(base)
    (filter (fun kb => (2 <= List.length kb.2)%nat) snapshot.(variants)).

Definition Base_find (s : BasePricingSnapshot) (key : CatalogKey) (selectorKey : string) : option PricingVariant :=
  match s.(variants) !! key ≫= List.find (fun v => String.eqb (CanonicalKey v.(Selectors)) selectorKey) with
  | Some variant => Some variant
  | None => s.(base) !! key
  end.

Definition Base_Len (s : BasePricingSnapshot) : nat := size s.(base).

Record ModelCatalog : Type := mkModelCatalog {
  models : option ModelSnapshot;
  basePricing : option BasePricingSnapshot;
  customPricing : option (gmap CatalogKey CustomScopePricing)
}.
#[export] Instance ModelCatalog_eta : Eta ModelCatalog := fun c =>
  mkModelCatalog (models c) (basePricing c) (customPricing c).

Definition NewModelCatalog : ModelCatalog := mkModelCatalog None None None.

(** ** Loading

    The arguments are what the store's List methods returned. *)

Definition add_model (s : ModelSnapshot) (md : ModelMetadata) : ModelSnapshot :=
  mkModelSnapshot s.(entries) (<[ModelMetadata_CatalogKey md := md]> s.(metadata))
    (<[md.(MProvider) := {[md.(MModelName)]} ∪ default ∅ (s.(byProvider) !! md.(MProvider))]> s.(byProvider)).

Definition loadModels (rows : result string (list StoreModelMetadata)) (c : ModelCatalog)
    : result string () * ModelCatalog :=
  match rows with
  | Err e => (Err ("load model metadata: " ++ e), c)
  | Ok rows =>
      let ms := map Metadata_ToCore rows in
      (Ok tt, c <| models := Some (foldl add_model (mkModelSnapshot ms ∅ ∅) ms) |>)
  end.

Definition loadBasePricing (rows : result string (list StoreModelPricing)) (c : ModelCatalog)
    : result string () * ModelCatalog :=
  match rows with
  | Err e => (Err ("load base pricing: " ++ e), c)
  | Ok rows => (Ok tt, c <| basePricing := Some (newBasePricingSnapshot (map Pricing_ToCore rows)) |>)
  end.

Definition CustomScopePricing0 : CustomScopePricing := mkCustomScopePricing None ∅ ∅.

Definition add_custom (temp : gmap CatalogKey CustomScopePricing) (cp : CustomPricing)
    : gmap CatalogKey CustomScopePricing :=
  let ck := CustomPricing_CustomPricingKey cp in
  let scoped := default CustomScopePricing0 (temp !! ck) in
  let scoped :=
    if String.eqb cp.(CPScopeType) ScopeGlobal then scoped <| Global := Some cp |>
    else if String.eqb cp.(CPScopeType) ScopeProvider_ then
      match cp.(ScopeProvider) with
      | Some p => scoped <| ByProvider ::= <[p := cp]> |>
      | None => scoped
      end
    else if String.eqb cp.(CPScopeType) ScopeVirtualKey then
      match cp.(ScopeVirtualkeyID) with
      | Some id => scoped <| ByVirtualKey ::= <[id := cp]> |>
      | None => scoped
      end
    else scoped in
  <[ck := scoped]> temp.

Definition loadCustomPricing (rows : result string (list StoreCustomModelPricing)) (c : ModelCatalog)
    : result string () * ModelCatalog :=
  match rows with
  | Err e => (Err ("load custom pricing: " ++ e), c)
  | Ok rows => (Ok tt, c <| customPricing := Some (foldl add_custom ∅ (map Custom_ToCore rows)) |>)
  end.

(** The three loads one after the other, each with what its query returned; the first error
    stops. *)
Definition loadAll (ms : result string (list StoreModelMetadata)) (ps : result string (list StoreModelPricing))
    (cs : result string (list StoreCustomModelPricing)) (c : ModelCatalog) : result string () * ModelCatalog :=
  match loadModels ms c with
  | (Err e, c) => (Err e, c)
  | (Ok _, c) =>
      match loadBasePricing ps c with
      | (Err e, c) => (Err e, c)
      | (Ok _, c) => loadCustomPricing cs c
      end
  end.

(** ** Queries *)

Definition Lookup (c : ModelCatalog) (key : CatalogKey) : option ModelMetadata :=
  snap ← c.(models); snap.(metadata) !! key.

Definition Catalog_Ready (c : ModelCatalog) : bool :=
  match c.(models), c.(basePricing) with
  | Some snap, Some b => (0 <? List.length snap.(entries))%nat && (0 <? Base_Len b)%nat
  | _, _ => false
  end.

Definition Catalog_HasModel (c : ModelCatalog) (provider : Provider) (modelName : string) : bool :=
  match c.(models) with
  | None => false
  | Some snap =>
      match snap.(byProvider) !! provider with
      | None => false
      | Some names => bool_decide (modelName ∈ names)
      end
  end.

Definition ModelsForProvider (c : ModelCatalog) (provider : Provider) : list string :=
  match c.(models) with
  | None => []
  | Some snap => map MModelName (List.filter (fun md => String.eqb md.(MProvider) provider) snap.(entries))
  end.

Definition Models (c : ModelCatalog) (provider : Provider) : list ModelMetadata :=
  match c.(models) with
  | None => []
  | Some snap => List.filter (fun md => is_empty provider || String.eqb md.(MProvider) provider) snap.(entries)
  end.

Definition ModelCount (c : ModelCatalog) (provider : Provider) : nat :=
  match c.(models) with
  | None => 0%nat
  | Some snap => size (default ∅ (snap.(byProvider) !! provider))
  end.

Definition BasePrice (c : ModelCatalog) (key : CatalogKey) : option Pricing :=
  snap ← c.(basePricing); VPricing <$> Base_find snap key EmptySelectorKey.

Definition ResolvePrice (c : ModelCatalog) (virtualKeyID : string) (key : CatalogKey) (selectorKey : string)
    : option Pricing :=
  match c.(basePricing) ≫= (fun b => Base_find b key selectorKey) with
  | None => None
  | Some bp =>
      match c.(customPricing) ≫= (fun m => m !! CatalogKey_CustomPricingKey key) with
      | None => Some bp.(VPricing)
      | Some scoped =>
          match scoped.(ByVirtualKey) !! virtualKeyID with
          | Some vkPrice => Some (MergePricing bp.(VPricing) vkPrice.(CPPricing))
          | None =>
              match scoped.(ByProvider) !! key.(KProvider) with
              | Some provPrice => Some (MergePricing bp.(VPricing) provPrice.(CPPricing))
              | None =>
                  match scoped.(Global) with
                  | Some g => Some (MergePricing bp.(VPricing) g.(CPPricing))
                  | None => Some bp.(VPricing)
                  end
              end
          end
      end
  end.

(** The catalog is what the model access hook consults. *)
#[export] Instance Catalog_ModelLookup : ModelLookup ModelCatalog := {
  Ready := Catalog_Ready;
  HasModel := Catalog_HasModel
}.

(** ** What a price is resolved to *)

Definition rows_for (rows : list PricingVariant) (key : CatalogKey) : list PricingVariant :=
  List.filter (fun v => bool_decide (PricingVariant_CatalogKey v = key)) rows.

(** The first row without selectors, or the first row if all have some. *)
Definition base_row (bucket : list PricingVariant) : option PricingVariant :=
  match List.find (fun v => Selector_IsEmpty v.(Selectors)) bucket with
  | Some v => Some v
  | None => hd_error bucket
  end.

Lemma base_row_snoc b v :
  base_row (b ++ [v]) =
    match base_row b with
    | None => Some v
    | Some e => if Selector_IsEmpty v.(Selectors) && negb (Selector_IsEmpty e.(Selectors)) then Some v else Some e
    end.
Proof.
  unfold base_row. rewrite find_app. cbn [List.find].
  destruct (List.find _ b) as [e|] eqn:He.
  - apply find_some in He as [_ ->]. by rewrite andb_false_r.
  - destruct b as [|e b]; [by destruct (Selector_IsEmpty _)|]. cbn in He |- *.
    destruct (Selector_IsEmpty (Selectors e)); [done|]. by destruct (Selector_IsEmpty (Selectors v)).
Qed.

Lemma rows_for_snoc rows v key :
  rows_for (rows ++ [v]) key =
    (rows_for rows key ++ (if bool_decide (PricingVariant_CatalogKey v = key) then [v] else []))%list.
Proof. unfold rows_for. rewrite List.filter_app. cbn. by case_bool_decide. Qed.

Lemma add_variants_lookup rows key :
  let s := foldl add_variant (mkBasePricingSnapshot ∅ ∅) rows in
  s.(base) !! key = base_row (rows_for rows key) /\
  s.(variants) !! key = match rows_for rows key with [] => None | b => Some b end.
Proof.
  cbn zeta. induction rows as [|v rows [IHb IHv]] using rev_ind; [done|].
  rewrite foldl_app, rows_for_snoc. cbn [foldl add_variant base variants].
  destruct (decide (PricingVariant_CatalogKey v = key)) as [<-|Hne].
  - rewrite bool_decide_true by done. rewrite base_row_snoc, lookup_insert_eq, IHv, IHb. split.
    + destruct (base_row _) as [e|] eqn:He; [|by rewrite lookup_insert_eq].
      destruct (_ && _); [by rewrite lookup_insert_eq | by rewrite IHb].
    + by destruct (rows_for rows _).
  - rewrite bool_decide_false by done. rewrite app_nil_r, lookup_insert_ne by done. split; [|done].
    destruct (match _ with Some _ => _ | None => _ end); [by rewrite lookup_insert_ne | done].
Qed.

Lemma Base_find_rows rows key selectorKey :
  Base_find (newBasePricingSnapshot rows) key selectorKey =
    let bucket := rows_for rows key in
    match (if (2 <=? List.length bucket)%nat
           then List.find (fun v => String.eqb (CanonicalKey v.(Selectors)) selectorKey) bucket else None) with
    | Some variant => Some variant
    | None => base_row bucket
    end.
Proof.
  unfold Base_find, newBasePricingSnapshot. cbn [base variants].
  destruct (add_variants_lookup rows key) as [Hb Hv]. rewrite Hb, map_lookup_filter, Hv.
  destruct (rows_for rows key) as [|v [|w b]]; [done|done|].
  cbn [mbind option_bind]. rewrite option_guard_True by (cbn; lia). done.
Qed.

(** The base of a lookup without selectors. *)
Lemma Base_find_empty rows key :
  Base_find (newBasePricingSnapshot rows) key EmptySelectorKey = base_row (rows_for rows key).
Proof.
  rewrite Base_find_rows. cbn zeta. destruct (_ <=? _)%nat; [|done].
  unfold base_row. change (fun v => Selector_IsEmpty v.(Selectors))
    with (fun v => String.eqb (CanonicalKey v.(Selectors)) EmptySelectorKey).
  by destruct (List.find _ _).
Qed.

(** The override in force for a scope: the last row that has it. *)
Definition in_scope (key : CatalogKey) (scope : ScopeType) (cp : CustomPricing) : bool :=
  bool_decide (CustomPricing_CustomPricingKey cp = CatalogKey_CustomPricingKey key)
  && String.eqb cp.(CPScopeType) scope.

Definition vk_override (cps : list CustomPricing) (id : string) (key : CatalogKey) : option CustomPricing :=
  List.find (fun cp => in_scope key ScopeVirtualKey cp && bool_decide (cp.(ScopeVirtualkeyID) = Some id)) (rev cps).
Definition provider_override (cps : list CustomPricing) (key : CatalogKey) : option CustomPricing :=
  List.find (fun cp => in_scope key ScopeProvider_ cp && bool_decide (cp.(ScopeProvider) = Some key.(KProvider))) (rev cps).
Definition global_override (cps : list CustomPricing) (key : CatalogKey) : option CustomPricing :=
  List.find (in_scope key ScopeGlobal) (rev cps).

(** The most specific one: of the virtual key, of the provider, global. *)
Definition override_for (cps : list CustomPricing) (id : string) (key : CatalogKey) : option CustomPricing :=
  match vk_override cps id key with
  | Some cp => Some cp
  | None => match provider_override cps key with Some cp => Some cp | None => global_override cps key end
  end.

Lemma add_custom_step temp cp id key :
  let s := default CustomScopePricing0 (temp !! CatalogKey_CustomPricingKey key) in
  let s' := default CustomScopePricing0 (add_custom temp cp !! CatalogKey_CustomPricingKey key) in
  s'.(ByVirtualKey) !! id =
    (if in_scope key ScopeVirtualKey cp && bool_decide (cp.(ScopeVirtualkeyID) = Some id)
     then Some cp else s.(ByVirtualKey) !! id) /\
  s'.(ByProvider) !! key.(KProvider) =
    (if in_scope key ScopeProvider_ cp && bool_decide (cp.(ScopeProvider) = Some key.(KProvider))
     then Some cp else s.(ByProvider) !! key.(KProvider)) /\
  s'.(Global) = (if in_scope key ScopeGlobal cp then Some cp else s.(Global)).
Proof.
  unfold add_custom, in_scope. cbn zeta.
  destruct (decide (CustomPricing_CustomPricingKey cp = CatalogKey_CustomPricingKey key)) as [->|Hne].
  2: { rewrite bool_decide_false, lookup_insert_ne by done. done. }
  rewrite bool_decide_true, lookup_insert_eq by done. cbn [default Datatypes.id andb].
  set (s := default _ _). clearbody s.
  destruct (String.eqb_spec cp.(CPScopeType) ScopeGlobal) as [->|_]; [done|].
  destruct (String.eqb_spec cp.(CPScopeType) ScopeProvider_) as [->|_].
  { cbn. destruct (ScopeProvider cp) as [p|]; [|by rewrite bool_decide_false]. cbn.
    case_bool_decide as E; [injection E as ->; by rewrite lookup_insert_eq|].
    rewrite lookup_insert_ne by congruence. done. }
  destruct (String.eqb_spec cp.(CPScopeType) ScopeVirtualKey) as [_|_]; [|done].
  cbn. destruct (ScopeVirtualkeyID cp) as [i|]; [|by rewrite bool_decide_false]. cbn.
  case_bool_decide as E; [injection E as ->; by rewrite lookup_insert_eq|].
  rewrite lookup_insert_ne by congruence. done.
Qed.

Lemma add_custom_lookup cps id key :
  let s := default CustomScopePricing0 (foldl add_custom ∅ cps !! CatalogKey_CustomPricingKey key) in
  s.(ByVirtualKey) !! id = vk_override cps id key /\
  s.(ByProvider) !! key.(KProvider) = provider_override cps key /\
  s.(Global) = global_override cps key.
Proof.
  cbn zeta. unfold vk_override, provider_override, global_override.
  induction cps as [|cp cps (IHv & IHp & IHg)] using rev_ind; [done|].
  rewrite foldl_app, !find_rev_snoc. cbn [foldl].
  destruct (add_custom_step (foldl add_custom ∅ cps) cp id key) as (-> & -> & ->).
  by rewrite IHv, IHp, IHg.
Qed.

Lemma loadAll_Ok ms ps cs c :
  loadAll (Ok ms) (Ok ps) (Ok cs) c =
    (Ok tt, mkModelCatalog
      (Some (foldl add_model (mkModelSnapshot (map Metadata_ToCore ms) ∅ ∅) (map Metadata_ToCore ms)))
      (Some (newBasePricingSnapshot (map Pricing_ToCore ps)))
      (Some (foldl add_custom ∅ (map Custom_ToCore cs)))).
Proof. reflexivity. Qed.

Lemma ResolvePrice_snapshots m b cps id key selectorKey :
  ResolvePrice (mkModelCatalog m (Some b) (Some cps)) id key selectorKey =
    match Base_find b key selectorKey with
    | None => None
    | Some bp =>
        let s := default CustomScopePricing0 (cps !! CatalogKey_CustomPricingKey key) in
        Some match (match s.(ByVirtualKey) !! id with
                    | Some cp => Some cp
                    | None => match s.(ByProvider) !! key.(KProvider) with Some cp => Some cp | None => s.(Global) end
                    end) with
             | Some cp => MergePricing bp.(VPricing) cp.(CPPricing)
             | None => bp.(VPricing)
             end
    end.
Proof.
  unfold ResolvePrice. cbn zeta. cbn [basePricing customPricing mbind option_bind].
  destruct (Base_find b key selectorKey); [|done].
  destruct (cps !! _) as [s|]; cbn [default Datatypes.id]; [|cbn [CustomScopePricing0 ByVirtualKey ByProvider Global]; by rewrite !lookup_empty].
  destruct (ByVirtualKey s !! id); [done|]. destruct (ByProvider s !! KProvider key); [done|].
  by destruct (Global s).
Qed.

(** The base a request is billed by: the first row with its selectors, or else the row that goes
    without selectors. *)
Definition selected_row (bucket : list PricingVariant) (selectorKey : string) : option PricingVariant :=
  match List.find (fun v => String.eqb (CanonicalKey v.(Selectors)) selectorKey) bucket with
  | Some v => Some v
  | None => base_row bucket
  end.

Lemma Base_find_selected rows key selectorKey :
  Base_find (newBasePricingSnapshot rows) key selectorKey = selected_row (rows_for rows key) selectorKey.
Proof.
  rewrite Base_find_rows. cbn zeta. destruct (rows_for rows key) as [|v [|w b]]; [done| |done].
  unfold selected_row, base_row. cbn. destruct (String.eqb _ selectorKey); [|done]. by destruct (Selector_IsEmpty _).
Qed.

(** C40: What a request is billed at.  After the catalog is loaded from the database, the price of
    a model for the selectors of a request (its image size, say) is field by field the operator's
    override where one is in force and sets the field, and the feed's base price otherwise; a model
    without a base row has no price, whatever the overrides.  The base is the first row with those
    very selectors, or else the first row without selectors, or else the first row; the override in
    force is the last one stored for the virtual key, or else for the provider, or else global,
    all for the same model and model type, whatever the selectors. *)
Theorem ResolvePrice_spec c ms ps cs virtualKeyID key selectorKey f :
  let c' := (loadAll (Ok ms) (Ok ps) (Ok cs) c).2 in
  (fun p => p f) <$> ResolvePrice c' virtualKeyID key selectorKey =
  (fun row => match override_for (map Custom_ToCore cs) virtualKeyID key with
              | Some cp => cp.(CPPricing) f <||> row.(VPricing) f
              | None => row.(VPricing) f
              end) <$> selected_row (rows_for (map Pricing_ToCore ps) key) selectorKey.
Proof.
  cbn zeta. rewrite loadAll_Ok. cbn [snd]. rewrite ResolvePrice_snapshots, Base_find_selected.
  destruct (selected_row _ _) as [row|]; [|done]. cbn zeta.
  destruct (add_custom_lookup (map Custom_ToCore cs) virtualKeyID key) as (-> & -> & ->).
  fold (override_for (map Custom_ToCore cs) virtualKeyID key). cbn [fmap option_fmap option_map].
  destruct (override_for _ _ _); [|done]. by rewrite MergePricing_spec.
Qed.

(** *** Witness: a price for a size beside the plain one, and an override of the input price *)

Definition priced_row (id sel : string) (input output : Z) : StoreModelPricing :=
  mkStoreModelPricing id ("gpt-4" ++ sel) "p1" (mkStoreProvider "p1" "openai" true NetworkConfig0 None) "gpt-4" sel "chat"
    (set_field InputCostPerToken (Some (f64_of_Z input)) (set_field OutputCostPerToken (Some (f64_of_Z output)) Pricing0))
    None None 0 0.
Definition size_selector : string := "{'size':'1024x1024'}".
Definition global_input (input : Z) : StoreCustomModelPricing :=
  mkStoreCustomModelPricing "c1" "list" "gpt-4" "chat" ScopeGlobal None None None ""
    (set_field InputCostPerToken (Some (f64_of_Z input)) Pricing0) 0 0.

Definition sized_catalog : ModelCatalog :=
  (loadAll (Ok []) (Ok [priced_row "b1" "{}" 1 2; priced_row "b2" size_selector 9 8]) (Ok [global_input 99]) NewModelCatalog).2.
Definition gpt_4 : CatalogKey := mkCatalogKey "openai" "gpt-4" ModelTypeChat.

Lemma ResolvePrice_spec_witness :
  ((fun p => p OutputCostPerToken) <$> ResolvePrice sized_catalog "vk" gpt_4 size_selector) = Some (Some (f64_of_Z 8)) /\
  ((fun p => p InputCostPerToken) <$> ResolvePrice sized_catalog "vk" gpt_4 size_selector) = Some (Some (f64_of_Z 99)) /\
  ((fun p => p OutputCostPerToken) <$> ResolvePrice sized_catalog "vk" gpt_4 "{'size':'nope'}") = Some (Some (f64_of_Z 2)) /\
  ((fun p => p OutputCostPerToken) <$> ResolvePrice sized_catalog "vk" gpt_4 EmptySelectorKey) = Some (Some (f64_of_Z 2)).
Proof.
  unfold sized_catalog. split; [|split; [|split]]; rewrite ResolvePrice_spec; vm_compute; reflexivity.
Defined.

(** ** What the catalog knows *)

Lemma add_models_lookup ms s provider name :
  let s' := foldl add_model s ms in
  s'.(entries) = s.(entries) /\
  (name ∈ default ∅ (s'.(byProvider) !! provider) <->
     name ∈ default ∅ (s.(byProvider) !! provider) \/
     exists md, In md ms /\ md.(MProvider) = provider /\ md.(MModelName) = name).
Proof.
  cbn zeta. revert s. induction ms as [|md ms IH]; intros s; cbn [foldl].
  { split; [done|]. split; [by left | intros [?|(md & [] & _)]; done]. }
  destruct (IH (add_model s md)) as [He Hn]. rewrite He, Hn. split; [done|].
  cbn [add_model byProvider].
  destruct (decide (md.(MProvider) = provider)) as [<-|Hne].
  - rewrite lookup_insert_eq. cbn [default Datatypes.id]. split.
    + intros [[->%elem_of_singleton|Hin]%elem_of_union|(m & Hin & Hm)]; [| by left |].
      * right. exists md. split; [by left|done].
      * right. exists m. split; [by right|done].
    + intros [Hin|(m & [<-|Hin] & Hp & Hm)]; [left; set_solver | left; set_solver | right; by exists m].
  - rewrite lookup_insert_ne by done. split.
    + intros [Hin|(m & Hin & Hm)]; [by left | right; exists m; split; [by right|done]].
    + intros [Hin|(m & [<-|Hin] & Hp & Hm)]; [by left | done | right; by exists m].
Qed.

(** The catalog lists a model for a provider exactly when a row does. *)
Lemma HasModel_spec c ms ps cs provider name :
  HasModel (loadAll (Ok ms) (Ok ps) (Ok cs) c).2 provider name = true <->
  exists row, In row ms /\ row.(MMProvider).(SPName) = provider /\ row.(MMModelName) = name.
Proof.
  rewrite loadAll_Ok. cbn [snd HasModel Catalog_ModelLookup]. unfold Catalog_HasModel. cbn [models].
  set (l := map Metadata_ToCore ms).
  destruct (add_models_lookup l (mkModelSnapshot l ∅ ∅) provider name) as [_ Hn].
  cbn [byProvider] in Hn. rewrite lookup_empty in Hn. cbn [default Datatypes.id] in Hn.
  assert (Hrow : (exists md, In md l /\ md.(MProvider) = provider /\ md.(MModelName) = name) <->
    exists row, In row ms /\ row.(MMProvider).(SPName) = provider /\ row.(MMModelName) = name).
  { unfold l. split.
    - intros (md & (row & <- & Hin)%in_map_iff & Hp). by exists row.
    - intros (row & Hin & Hp). exists (Metadata_ToCore row). split; [by apply in_map|done]. }
  rewrite <- Hrow.
  destruct (byProvider _ !! provider) as [names|]; cbn [default Datatypes.id] in Hn.
  - rewrite bool_decide_eq_true. rewrite Hn. set_solver.
  - split; [done|]. intros H. exfalso. assert (name ∈ (∅ : gset string)) as H' by (apply Hn; by right). set_solver.
Qed.
