(* ===== verification/Chat.v ===== *)
(** * Chat completions, as the gateway holds them ([core/kind-chat-completion.go])

    The request, response and stream records every SDK's wire format is translated to.  A nil
    slice is the empty list, a pointer an [option]; a field of type [any] is the JSON value in
    it; [json.RawMessage] is its bytes. *)

From S2P Require Import Prelude GoBase Float64 Errors Pricing.

(** A value of type [any] read from JSON. *)
Inductive JSON : Type :=
| JBool (b : bool)
| JNumber (x : f64)
| JString (s : string)
| JArray (l : list (option JSON))
| JObject (fields : list (string * option JSON)).

Definition RoleSystem : string := "system".
Definition RoleDeveloper : string := "developer".
Definition RoleUser : string := "user".
Definition RoleAssistant : string := "assistant".
Definition RoleTool : string := "tool".
Definition RoleFunction : string := "function".

Definition ContentText : string := "text".
Definition ContentImageURL : string := "image_url".
Definition ContentInputAudio : string := "input_audio".
Definition ContentRefusal : string := "refusal".
Definition ContentInputFile : string := "file".

Definition FinishStop : string := "stop".
Definition FinishLength : string := "length".
Definition FinishToolCalls : string := "tool_calls".
Definition FinishContentFilter : string := "content_filter".
Definition FinishRefusal : string := "refusal".

Definition ToolChoiceNone : string := "none".
Definition ToolChoiceAuto : string := "auto".
Definition ToolChoiceRequired : string := "required".
Definition ToolChoiceFunction : string := "function".
Definition ToolChoiceCustom : string := "custom".
Definition ToolChoiceAllowedTools : string := "allowed_tools".
Definition ToolTypeFunction : string := "function".
Definition ToolTypeCustom : string := "custom".

Inductive ChatStreamEventType : Type := StreamEventNone | StreamEventDelta | StreamEventComplete | StreamEventError.

Record ChatImageURL : Type := mkChatImageURL {
  img_URL : string;
  img_Detail : option string
}.

Record ChatInputAudio : Type := mkChatInputAudio {
  ina_Data : string;
  ina_Format : option string
}.

Record ChatInputFile : Type := mkChatInputFile {
  file_FileID : option string;
  file_FileName : option string;
  file_FileData : option string;
  file_FileType : option string
}.

Record ChatPromptCacheBreakpoint : Type := mkChatPromptCacheBreakpoint {
  pcb_Mode : option string
}.

Record ChatContentPart : Type := mkChatContentPart {
  part_Type : string;
  part_Text : option string;
  part_ImageURL : option ChatImageURL;
  part_InputAudio : option ChatInputAudio;
  part_Refusal : option string;
  part_File : option ChatInputFile;
  part_PromptCacheBreakpoint : option ChatPromptCacheBreakpoint
}.

Definition ChatContent : Type := list ChatContentPart.

(** [json.Unmarshal] of a string and of a list of parts are the arguments. *)
Section content.
Variable (unmarshal_string : string -> result string string).
Variable (unmarshal_parts : string -> result string (list ChatContentPart)).

(** The new content, or the old one where the method leaves it alone. *)
Definition ChatContent_UnmarshalJSON (c : ChatContent) (b : string) : result string ChatContent :=
  let b := TrimSpace b in
  if is_empty b || String.eqb b "null" then Ok c
  else if has_prefix (chr 34) b then
    match unmarshal_string b with
    | Err e => Err e
    | Ok s => Ok [mkChatContentPart ContentText (Some s) None None None None None]
    end
  else unmarshal_parts b.
End content.

Record ToolFunctionCall : Type := mkToolFunctionCall {
  tfc_Name : option string;
  tfc_Arguments : string
}.

Record ToolCustomCall : Type := mkToolCustomCall {
  tcc_Input : string;
  tcc_Name : string
}.

Record ToolCall : Type := mkToolCall {
  tc_Index : option Z;
  tc_Type : option string;
  tc_ID : option string;
  tc_Function : option ToolFunctionCall;
  tc_Custom : option ToolCustomCall
}.

Record ChatAssistantAudio : Type := mkChatAssistantAudio {
  aud_ID : string;
  aud_ExpiresAt : Z;
  aud_Data : string;
  aud_Transcript : string
}.

Record ChatAudioParams : Type := mkChatAudioParams {
  ap_Format : string;
  ap_Voice : string
}.

Record DiffractLLMChatMessage : Type := mkDiffractLLMChatMessage {
  msg_Name : option string;
  msg_Role : string;
  msg_Content : ChatContent;
  msg_Refusal : option string;
  msg_ToolCallID : option string;
  msg_ToolCalls : list ToolCall;
  msg_Audio : option ChatAssistantAudio;
  msg_Reasoning : option string
}.

Record ChatPrediction : Type := mkChatPrediction {
  pred_Type : string;
  pred_Content : option JSON
}.

Record ChatStreamOptions : Type := mkChatStreamOptions {
  so_IncludeUsage : option bool;
  so_IncludeObfuscation : option bool
}.
#[export] Instance ChatStreamOptions_eta : Eta ChatStreamOptions := fun r =>
  mkChatStreamOptions (so_IncludeUsage r) (so_IncludeObfuscation r).

Record ChatPromptCacheOptions : Type := mkChatPromptCacheOptions {
  pco_Mode : option string;
  pco_TTL : option string
}.

Record ChatToolUserLocation : Type := mkChatToolUserLocation {
  loc_Type : option string;
  loc_City : option string;
  loc_Country : option string;
  loc_Region : option string;
  loc_Timezone : option string
}.

Record ChatWebSearchOptions : Type := mkChatWebSearchOptions {
  wso_SearchContextSize : option string;
  wso_UserLocation : option ChatToolUserLocation
}.

Record ChatToolChoiceFunction : Type := mkChatToolChoiceFunction {
  tcf_Name : string
}.

Record ChatToolChoiceCustom : Type := mkChatToolChoiceCustom {
  tccu_Name : string
}.

Record ChatToolChoiceAllowedTool : Type := mkChatToolChoiceAllowedTool {
  tcat_Type : string;
  tcat_Function : option ChatToolChoiceFunction;
  tcat_Custom : option ChatToolChoiceCustom
}.

Record ChatToolChoiceAllowedTools : Type := mkChatToolChoiceAllowedTools {
  tcats_Mode : string;
  tcats_Tools : list ChatToolChoiceAllowedTool
}.

Record ChatToolChoice : Type := mkChatToolChoice {
  tch_Type : string;
  tch_Function : option ChatToolChoiceFunction;
  tch_Custom : option ChatToolChoiceCustom;
  tch_AllowedTools : option ChatToolChoiceAllowedTools
}.

Record ChatToolFunction : Type := mkChatToolFunction {
  tf_Name : string;
  tf_Description : option string;
  tf_Parameters : string;
  tf_Strict : option bool
}.

Record ChatToolCustomGrammar : Type := mkChatToolCustomGrammar {
  tcg_Syntax : string;
  tcg_Definition : string
}.

Record ChatToolCustomFormat : Type := mkChatToolCustomFormat {
  tcfmt_Type : string;
  tcfmt_Grammar : option ChatToolCustomGrammar
}.

Record ChatToolCustom : Type := mkChatToolCustom {
  tcu_Name : string;
  tcu_Description : option string;
  tcu_Format : option ChatToolCustomFormat
}.

Record ChatTool : Type := mkChatTool {
  tool_Type : string;
  tool_Function : option ChatToolFunction;
  tool_Custom : option ChatToolCustom
}.

Record Mode : Type := mkMode {
  mo_Mode : string
}.

Record ChatModerationPolicy : Type := mkChatModerationPolicy {
  modp_Input : option Mode;
  modp_Output : option Mode
}.

Record ChatModerationRequest : Type := mkChatModerationRequest {
  modr_Model : string;
  modr_Policy : option ChatModerationPolicy
}.

Record DiffractLLMChatParameters : Type := mkDiffractLLMChatParameters {
  p_Store : option bool;
  p_ReasoningEffort : option string;
  p_Metadata : option (gmap string JSON);
  p_FrequencyPenalty : option f64;
  p_LogitBias : option (gmap string f64);
  p_LogProbs : option bool;
  p_TopLogprobs : option Z;
  p_MaxCompletionTokens : option Z;
  p_Modalities : list string;
  p_Moderation : option ChatModerationRequest;
  p_N : option Z;
  p_ParallelToolCalls : option bool;
  p_PresencePenalty : option f64;
  p_Seed : option Z;
  p_ServiceTier : option string;
  p_Stop : list string;
  p_Stream : option bool;
  p_TopP : option f64;
  p_User : option string;
  p_Prediction : option ChatPrediction;
  p_Audio : option ChatAudioParams;
  p_ResponseFormat : option JSON;
  p_StreamOptions : option ChatStreamOptions;
  p_Temperature : option f64;
  p_PromptCacheKey : option string;
  p_PromptCacheOptions : option ChatPromptCacheOptions;
  p_PromptCacheRetention : option string;
  p_WebSearchOptions : option ChatWebSearchOptions;
  p_SafetyIdentifier : option string;
  p_ToolChoice : option ChatToolChoice;
  p_Tools : list ChatTool
}.
#[export] Instance DiffractLLMChatParameters_eta : Eta DiffractLLMChatParameters := fun r =>
  mkDiffractLLMChatParameters (p_Store r) (p_ReasoningEffort r) (p_Metadata r) (p_FrequencyPenalty r) (p_LogitBias r)
    (p_LogProbs r) (p_TopLogprobs r) (p_MaxCompletionTokens r) (p_Modalities r)
    (p_Moderation r) (p_N r) (p_ParallelToolCalls r) (p_PresencePenalty r) (p_Seed r)
    (p_ServiceTier r) (p_Stop r) (p_Stream r) (p_TopP r) (p_User r) (p_Prediction r)
    (p_Audio r) (p_ResponseFormat r) (p_StreamOptions r) (p_Temperature r)
    (p_PromptCacheKey r) (p_PromptCacheOptions r) (p_PromptCacheRetention r)
    (p_WebSearchOptions r) (p_SafetyIdentifier r) (p_ToolChoice r) (p_Tools r).

Record DiffractLLMChatCompletionRequest : Type := mkDiffractLLMChatCompletionRequest {
  req_Model : string;
  req_Messages : list DiffractLLMChatMessage;
  req_Parameters : option DiffractLLMChatParameters;
  req_Raw : string
}.
#[export] Instance DiffractLLMChatCompletionRequest_eta : Eta DiffractLLMChatCompletionRequest := fun r =>
  mkDiffractLLMChatCompletionRequest (req_Model r) (req_Messages r) (req_Parameters r) (req_Raw r).

Definition Request_IsStreaming (r : DiffractLLMChatCompletionRequest) : bool :=
  match r.(req_Parameters) with
  | Some p => match p.(p_Stream) with Some b => b | None => false end
  | None => false
  end.

Record ChatLogProb : Type := mkChatLogProb {
  lp_Token : string;
  lp_LogProb : f64;
  lp_Bytes : list Z
}.

Record ChatContentLogProb : Type := mkChatContentLogProb {
  clp_Bytes : list Z;
  clp_LogProb : f64;
  clp_Token : string;
  clp_TopLogProbs : list ChatLogProb
}.

Record ChatLogProbs : Type := mkChatLogProbs {
  lps_Content : list ChatContentLogProb;
  lps_Refusal : list ChatContentLogProb
}.

Record ChatResponseChoice : Type := mkChatResponseChoice {
  ch_Index : Z;
  ch_Message : DiffractLLMChatMessage;
  ch_FinishReason : option string;
  ch_LogProbs : option ChatLogProbs
}.

Record ChatResponseEnvelope : Type := mkChatResponseEnvelope {
  env_ID : string;
  env_Object : string;
  env_Created : Z;
  env_Model : string;
  env_ServiceTier : option string;
  env_SystemFingerprint : string;
  env_Metadata : option (gmap string JSON);
  env_Moderation : option JSON;
  env_Usage : option Usage;
  env_Raw : string
}.
#[export] Instance ChatResponseEnvelope_eta : Eta ChatResponseEnvelope := fun r =>
  mkChatResponseEnvelope (env_ID r) (env_Object r) (env_Created r) (env_Model r) (env_ServiceTier r)
    (env_SystemFingerprint r) (env_Metadata r) (env_Moderation r) (env_Usage r) (env_Raw r).

Record DiffractLLMChatCompletionResponse : Type := mkDiffractLLMChatCompletionResponse {
  res_Envelope : ChatResponseEnvelope;
  res_Choices : list ChatResponseChoice
}.
#[export] Instance DiffractLLMChatCompletionResponse_eta : Eta DiffractLLMChatCompletionResponse := fun r =>
  mkDiffractLLMChatCompletionResponse (res_Envelope r) (res_Choices r).

Record ChatMessageDelta : Type := mkChatMessageDelta {
  dl_Role : option string;
  dl_Content : option string;
  dl_Refusal : option string;
  dl_Reasoning : option string;
  dl_ToolCalls : list ToolCall;
  dl_Audio : option ChatAssistantAudio
}.

Record ChatStreamChoice : Type := mkChatStreamChoice {
  sch_Index : Z;
  sch_Delta : ChatMessageDelta;
  sch_FinishReason : option string;
  sch_LogProbs : option ChatLogProbs
}.

Record DiffractLLMChatCompletionStreamResponse : Type := mkDiffractLLMChatCompletionStreamResponse {
  chunk_Envelope : ChatResponseEnvelope;
  chunk_Type : ChatStreamEventType;
  chunk_Choices : list ChatStreamChoice;
  chunk_Error : option DiffractLLMError;
  chunk_Obfuscation : option string
}.
#[export] Instance DiffractLLMChatCompletionStreamResponse_eta : Eta DiffractLLMChatCompletionStreamResponse := fun r =>
  mkDiffractLLMChatCompletionStreamResponse (chunk_Envelope r) (chunk_Type r) (chunk_Choices r) (chunk_Error r) (chunk_Obfuscation r).

