(* ===== verification/OpenAI.v ===== *)
(** * The OpenAI adapter ([internal/providers/openai])

    The wire records and their conversion to and from the gateway's, the error format, and the
    settings of a call.  JSON encoding and decoding is sonic's, outside the repository: the class
    [Sonic] lists the instances of it that the adapter uses, [None] or [Err] when it fails. *)

From S2P Require Import Prelude GoBase Float64 Errors Catalog Pricing Credential Context Chat.
From Stdlib Require Import Ascii.

(** ** Wire records ([types.go]) *)

Record OpenAIChatCompletionRequest : Type := mkOpenAIRequest {
  oreq_Model : string;
  oreq_Messages : list DiffractLLMChatMessage;
  oreq_MaxTokens : option Z;
  oreq_Parameters : DiffractLLMChatParameters
}.
#[export] Instance OpenAIRequest_eta : Eta OpenAIChatCompletionRequest := fun r =>
  mkOpenAIRequest (oreq_Model r) (oreq_Messages r) (oreq_MaxTokens r) (oreq_Parameters r).

Definition OpenAIRequest_IsStreaming (r : OpenAIChatCompletionRequest) : bool :=
  match r.(oreq_Parameters).(p_Stream) with Some b => b | None => false end.

Record openAIChatPromptTokensDetails : Type := mkPromptDetails {
  pd_CachedTokens : Z;
  pd_CacheWriteTokens : Z;
  pd_AudioTokens : Z;
  pd_ImageTokens : Z;
  pd_TextTokens : Z
}.

Record openAIChatCompletionTokensDetails : Type := mkCompletionDetails {
  cd_ReasoningTokens : Z;
  cd_AudioTokens : Z;
  cd_TextTokens : Z;
  cd_AcceptedPredictionTokens : Z;
  cd_RejectedPredictionTokens : Z
}.

Record OpenAIChatCompletionUsage : Type := mkOpenAIUsage {
  ou_PromptTokens : Z;
  ou_CompletionTokens : Z;
  ou_TotalTokens : Z;
  ou_PromptTokensDetails : option openAIChatPromptTokensDetails;
  ou_CompletionTokensDetails : option openAIChatCompletionTokensDetails
}.
#[export] Instance OpenAIUsage_eta : Eta OpenAIChatCompletionUsage := fun u =>
  mkOpenAIUsage (ou_PromptTokens u) (ou_CompletionTokens u) (ou_TotalTokens u)
    (ou_PromptTokensDetails u) (ou_CompletionTokensDetails u).

(** The outer [usage] hides the one of the embedded response. *)
Record OpenAIChatCompletionResponse : Type := mkOpenAIResponse {
  ores_Response : DiffractLLMChatCompletionResponse;
  ores_Usage : option OpenAIChatCompletionUsage
}.

Record OpenAIChatCompletionStreamResponse : Type := mkOpenAIStreamResponse {
  ochunk_Response : DiffractLLMChatCompletionStreamResponse;
  ochunk_Usage : option OpenAIChatCompletionUsage
}.

Record OpenAIErrorBody : Type := mkOpenAIErrorBody {
  oe_Message : string;
  oe_Type : string;
  oe_Code : string;
  oe_Param : string;
  oe_InnerError : string
}.
#[export] Instance OpenAIErrorBody_eta : Eta OpenAIErrorBody := fun b =>
  mkOpenAIErrorBody (oe_Message b) (oe_Type b) (oe_Code b) (oe_Param b) (oe_InnerError b).

Record OpenAIErrorResponse : Type := mkOpenAIErrorResponse { oer_Error : option OpenAIErrorBody }.

(** ** JSON

    [unmarshal_error] is what is left in the error record after a decoding whose own error is
    ignored. *)
Class Sonic : Type := {
  marshal_request : OpenAIChatCompletionRequest -> result string string;
  unmarshal_request : string -> result string OpenAIChatCompletionRequest;
  marshal_response : option OpenAIChatCompletionResponse -> result string string;
  unmarshal_response : string -> result string OpenAIChatCompletionResponse;
  marshal_chunk : option OpenAIChatCompletionStreamResponse -> result string string;
  unmarshal_chunk : string -> result string OpenAIChatCompletionStreamResponse;
  marshal_error : option OpenAIErrorResponse -> result string string;
  unmarshal_error : string -> OpenAIErrorResponse
}.

(** ** Usage *)

Definition ToDMChatCompletionUsage (u : option OpenAIChatCompletionUsage) : option Usage :=
  match u with
  | None => None
  | Some u =>
      let out := Usage0 <| InputTokens := u.(ou_PromptTokens) |>
                        <| OutputTokens := u.(ou_CompletionTokens) |> in
      let out := match u.(ou_PromptTokensDetails) with
                 | Some d => out <| CachedInputTokens := d.(pd_CachedTokens) |>
                                 <| InputAudioTokens := d.(pd_AudioTokens) |>
                                 <| InputImageTokens := d.(pd_ImageTokens) |>
                                 <| CacheCreationTokens := d.(pd_CacheWriteTokens) |>
                 | None => out
                 end in
      let out := match u.(ou_CompletionTokensDetails) with
                 | Some d => out <| ReasoningTokens := d.(cd_ReasoningTokens) |>
                                 <| OutputAudioTokens := d.(cd_AudioTokens) |>
                                 <| AcceptedPredictionTokens := d.(cd_AcceptedPredictionTokens) |>
                                 <| RejectedPredictionTokens := d.(cd_RejectedPredictionTokens) |>
                 | None => out
                 end in
      Some (out <| TotalTokens := u.(ou_TotalTokens) |>)
  end.

Definition ToOpenAIChatCompletionUsage (u : option Usage) : option OpenAIChatCompletionUsage :=
  match u with
  | None => None
  | Some u =>
      let out := mkOpenAIUsage u.(InputTokens) u.(OutputTokens) u.(TotalTokens) None None in
      let out := if (out.(ou_TotalTokens) =? 0)%Z
                 then out <| ou_TotalTokens := add64 u.(InputTokens) u.(OutputTokens) |> else out in
      let out := if (0 <? u.(CachedInputTokens))%Z || (0 <? u.(CacheCreationTokens))%Z
                    || (0 <? u.(InputAudioTokens))%Z || (0 <? u.(InputImageTokens))%Z
                 then out <| ou_PromptTokensDetails := Some (mkPromptDetails u.(CachedInputTokens)
                        u.(CacheCreationTokens) u.(InputAudioTokens) u.(InputImageTokens) 0) |>
                 else out in
      Some (if (0 <? u.(ReasoningTokens))%Z || (0 <? u.(OutputAudioTokens))%Z
               || (0 <? u.(AcceptedPredictionTokens))%Z || (0 <? u.(RejectedPredictionTokens))%Z
            then out <| ou_CompletionTokensDetails := Some (mkCompletionDetails u.(ReasoningTokens)
                   u.(OutputAudioTokens) 0 u.(AcceptedPredictionTokens) u.(RejectedPredictionTokens)) |>
            else out)
  end.

(** ** Requests and responses *)

Definition DiffractLLMChatParameters0 : DiffractLLMChatParameters :=
  mkDiffractLLMChatParameters None None None None None None None None [] None None None None None
    None [] None None None None None None None None None None None None None None [].

Definition ToDMChatCompletionRequest (r : OpenAIChatCompletionRequest) (rctx : DiffractLLMContext)
    : DiffractLLMContext * DiffractLLMChatCompletionRequest :=
  (rctx <| RequestedModel := r.(oreq_Model) |>,
   mkDiffractLLMChatCompletionRequest r.(oreq_Model) r.(oreq_Messages) (Some r.(oreq_Parameters))
     (default "" rctx.(BodyBytes))).

Definition ToOpenAIChatCompletionRequest (req : DiffractLLMChatCompletionRequest) (model : string)
    : OpenAIChatCompletionRequest :=
  let model := if is_empty model then req.(req_Model) else model in
  mkOpenAIRequest model req.(req_Messages) None (default DiffractLLMChatParameters0 req.(req_Parameters)).

Definition ToDMChatCompletionResponse (r : OpenAIChatCompletionResponse) : DiffractLLMChatCompletionResponse :=
  r.(ores_Response) <| res_Envelope ::= fun e => e <| env_Usage := ToDMChatCompletionUsage r.(ores_Usage) |> |>.

Definition ToOpenAIChatCompletionResponse (res : option DiffractLLMChatCompletionResponse)
    : option OpenAIChatCompletionResponse :=
  (fun res => mkOpenAIResponse res (ToOpenAIChatCompletionUsage res.(res_Envelope).(env_Usage))) <$> res.

Definition objectChatCompletionChunk : string := "chat.completion.chunk".

Definition streamEventType (c : OpenAIChatCompletionStreamResponse) : ChatStreamEventType :=
  let r := c.(ochunk_Response) in
  if negb (String.eqb r.(chunk_Envelope).(env_Object) objectChatCompletionChunk) then StreamEventError
  else match r.(chunk_Choices), c.(ochunk_Usage) with
       | [], Some _ => StreamEventComplete
       | _, _ => StreamEventDelta
       end.

Definition ToDMChatCompletionStreamResponse (c : OpenAIChatCompletionStreamResponse)
    : DiffractLLMChatCompletionStreamResponse :=
  c.(ochunk_Response)
    <| chunk_Envelope ::= fun e => e <| env_Usage := ToDMChatCompletionUsage c.(ochunk_Usage) |> |>
    <| chunk_Type := streamEventType c |>.

Definition ToOpenAIChatCompletionStreamResponse (c : option DiffractLLMChatCompletionStreamResponse)
    : option OpenAIChatCompletionStreamResponse :=
  (fun c => mkOpenAIStreamResponse c (ToOpenAIChatCompletionUsage c.(chunk_Envelope).(env_Usage))) <$> c.

(** ** Payloads *)

Definition ChatStreamOptions0 : ChatStreamOptions := mkChatStreamOptions None None.

(** The body of an upstream request.  The wire request shares the [StreamOptions] object of the
    parameters, so a streaming call writes to it: the second component is the caller's request
    afterwards. *)
Definition BuildChatCompletionPayload `{Sonic} (req : option DiffractLLMChatCompletionRequest)
    (model : string) (stream : bool)
    : result DiffractLLMError string * option DiffractLLMChatCompletionRequest :=
  match req with
  | None => (Err (NewInvalidRequestBody "chat request is required" None), None)
  | Some req =>
      let wire := ToOpenAIChatCompletionRequest req model in
      let '(wire, req) :=
        if stream then
          let with_usage o := o <| so_IncludeUsage := Some true |> in
          let o := with_usage (default ChatStreamOptions0 wire.(oreq_Parameters).(p_StreamOptions)) in
          (wire <| oreq_Parameters ::= fun p =>
             p <| p_Stream := Some true |> <| p_StreamOptions := Some o |> |>,
           req <| req_Parameters ::= fmap (fun p => p <| p_StreamOptions ::= fmap with_usage |>) |>)
        else (wire, req) in
      match marshal_request wire with
      | Ok body => (Ok body, Some req)
      | Err cause => (Err (NewInternalError "openai" "marshalling chat request" (Some cause)), Some req)
      end
  end.

(** ** Errors *)

Definition ToOpenAIError (e : option DiffractLLMError) : option OpenAIErrorResponse :=
  match e with
  | None => None
  | Some e =>
      let body := mkOpenAIErrorBody e.(Message) e.(Type_) e.(Code) "" "" in
      let body := if negb (is_empty e.(ProviderErrorType)) then body <| oe_Type := e.(ProviderErrorType) |> else body in
      let body := if negb (is_empty e.(ProviderErrorCode)) then body <| oe_Code := e.(ProviderErrorCode) |> else body in
      let body := match e.(Param) with Some p => body <| oe_Param := p |> | None => body end in
      Some (mkOpenAIErrorResponse (Some (body <| oe_InnerError := e.(ProviderErrorDetail) |>)))
  end.

Definition ParseError `{Sonic} (provider : Provider) (safeURL : string) (status : Z) (body : string)
    : DiffractLLMError :=
  let e := (unmarshal_error body).(oer_Error) in
  let msg := match e with
             | Some b => if negb (is_empty b.(oe_Message)) then b.(oe_Message) else body
             | None => body
             end in
  let out := NewUpstreamError provider safeURL status msg None <| Message := msg |> in
  match e with
  | None => out
  | Some b =>
      let out := out <| ProviderErrorType := b.(oe_Type) |> <| ProviderErrorCode := b.(oe_Code) |> in
      let out := if negb (is_empty b.(oe_Param)) then out <| Param := Some b.(oe_Param) |> else out in
      if negb (is_empty b.(oe_InnerError)) && negb (String.eqb b.(oe_InnerError) "null")
      then out <| ProviderErrorDetail := b.(oe_InnerError) |> else out
  end.

(** ** The settings of a call ([openai.go]) *)

Definition openAIPaths : gmap RequestKind string := {[ ChatRequest := "/v1/chat/completions" ]}.
Definition PathFor (k : RequestKind) : option string := openAIPaths !! k.

Definition ProviderHeaders (stream : bool) : gmap string string :=
  let headers := {[ "Content-Type" := "application/json" ]} in
  if stream then <["Cache-Control" := "no-cache"]> (<["Accept" := "text/event-stream"]> headers)
  else headers.

Record ChatCompletionConfig : Type := mkChatCompletionConfig {
  cfg_Provider : Provider;
  cfg_URL : string;
  cfg_Model : string;
  cfg_Request : option DiffractLLMChatCompletionRequest;
  cfg_Headers : gmap string string
}.

(** [strings.TrimRight(s, "/")]. *)
Fixpoint trim_slashes (s : string) : string :=
  match s with
  | EmptyString => EmptyString
  | String c s' =>
      match trim_slashes s' with
      | EmptyString => if Ascii.eqb c "/"%char then EmptyString else String c EmptyString
      | t => String c t
      end
  end.

Definition endpoint (cred : Credential) (k : RequestKind) : result string string :=
  if is_empty cred.(Endpoint) then Err "endpoint is required"
  else match PathFor k with
       | None => Err ("unsupported request kind " ++ k)
       | Some path => Ok (trim_slashes cred.(Endpoint) ++ path)
       end.

Definition AuthInjection (cred : Credential) (headers : gmap string string) : result string (gmap string string) :=
  if is_empty cred.(APIKey) then Err "missing api key"
  else Ok (<["Authorization" := "Bearer " ++ cred.(APIKey)]> headers).

(** [net/url]: the parts of a URL the gateway touches and the rest; [Parse] fails or gives one. *)
Record URL : Type := mkURL {
  U_User : option string;
  U_RawQuery : string;
  U_ForceQuery : bool;
  U_Fragment : string;
  U_rest : string
}.
Class NetURL : Type := { url_Parse : string -> option URL; url_String : URL -> string }.

(** [core.SanitizeBackendURL] ([backend-url.go]). *)
Definition SanitizeBackendURL `{NetURL} (raw : string) : string :=
  match url_Parse raw with
  | None => ""
  | Some u => url_String (mkURL None "" false "" u.(U_rest))
  end.

Definition chatConfig `{NetURL} (rctx : DiffractLLMContext)
    (req : option DiffractLLMChatCompletionRequest) (cred : option Credential) (stream : bool)
    : DiffractLLMContext * result DiffractLLMError ChatCompletionConfig :=
  match req, cred with
  | None, _ => (rctx, Err (NewInvalidRequestBody "chat request is required" None))
  | Some _, None => (rctx, Err (NewInternalError "openai" "credential is required" None))
  | Some _, Some c =>
      let model := CheckModelAlias cred rctx.(Modelkey).(ModelName) in
      match endpoint c ChatRequest with
      | Err e => (rctx, Err (NewInternalError "openai" "building url" (Some e)))
      | Ok url =>
          match AuthInjection c (ProviderHeaders stream) with
          | Err e => (rctx, Err (NewUpstreamAuth "openai" (SanitizeBackendURL url) e))
          | Ok headers =>
              (rctx <| UpstreamModel := model.(AModelID) |>,
               Ok (mkChatCompletionConfig ProviderOpenAI url model.(AModelID) req headers))
          end
      end
  end.

(** ** Properties *)

(** The token counts an OpenAI usage record can carry. *)
Definition usage_counts_of (u : Usage) : list Z :=
  [InputTokens u; OutputTokens u; CachedInputTokens u; CacheCreationTokens u; InputAudioTokens u;
   InputImageTokens u; ReasoningTokens u; OutputAudioTokens u; AcceptedPredictionTokens u;
   RejectedPredictionTokens u].

(** Usage survives the gateway.  Printing a usage record in the OpenAI format and reading it
    back keeps every token count the format can carry, and nothing else is made up; the total is
    filled in when it is missing.  The service tier is not carried: it comes back as standard. *)
Theorem usage_roundtrip u :
  Forall (fun n => (0 <= n)%Z) (usage_counts_of u) ->
  exists v, ToDMChatCompletionUsage (ToOpenAIChatCompletionUsage (Some u)) = Some v /\
    usage_counts_of v = usage_counts_of u /\
    v.(TotalTokens) = (if (u.(TotalTokens) =? 0)%Z then add64 u.(InputTokens) u.(OutputTokens)
                       else u.(TotalTokens)) /\
    v = Usage0 <| InputTokens := u.(InputTokens) |> <| OutputTokens := u.(OutputTokens) |>
               <| TotalTokens := v.(TotalTokens) |> <| CachedInputTokens := u.(CachedInputTokens) |>
               <| CacheCreationTokens := u.(CacheCreationTokens) |>
               <| InputAudioTokens := u.(InputAudioTokens) |> <| InputImageTokens := u.(InputImageTokens) |>
               <| ReasoningTokens := u.(ReasoningTokens) |> <| OutputAudioTokens := u.(OutputAudioTokens) |>
               <| AcceptedPredictionTokens := u.(AcceptedPredictionTokens) |>
               <| RejectedPredictionTokens := u.(RejectedPredictionTokens) |>.
Proof.
  unfold usage_counts_of. rewrite !Forall_cons. intros (_ & _ & H1 & H2 & H3 & H4 & H5 & H6 & H7 & H8 & _).
  assert (Hp : ((0 <? CachedInputTokens u)%Z || (0 <? CacheCreationTokens u)%Z
      || (0 <? InputAudioTokens u)%Z || (0 <? InputImageTokens u)%Z) = false ->
    CachedInputTokens u = 0%Z /\ CacheCreationTokens u = 0%Z /\ InputAudioTokens u = 0%Z /\ InputImageTokens u = 0%Z).
  { intros E. zbool. lia. }
  assert (Hc : ((0 <? ReasoningTokens u)%Z || (0 <? OutputAudioTokens u)%Z
      || (0 <? AcceptedPredictionTokens u)%Z || (0 <? RejectedPredictionTokens u)%Z) = false ->
    ReasoningTokens u = 0%Z /\ OutputAudioTokens u = 0%Z /\ AcceptedPredictionTokens u = 0%Z /\ RejectedPredictionTokens u = 0%Z).
  { intros E. zbool. lia. }
  unfold ToOpenAIChatCompletionUsage. cbn [ou_TotalTokens].
  match goal with |- context [if ?b || (0 <? InputImageTokens u)%Z then _ else _] =>
    destruct (b || (0 <? InputImageTokens u)%Z) end;
  match goal with |- context [if ?b || (0 <? RejectedPredictionTokens u)%Z then _ else _] =>
    destruct (b || (0 <? RejectedPredictionTokens u)%Z) end;
  try (destruct (Hp eq_refl) as (-> & -> & -> & ->)); try (destruct (Hc eq_refl) as (-> & -> & -> & ->));
  destruct (TotalTokens u =? 0)%Z; eexists; (split; [reflexivity|]); splits; reflexivity.
Qed.

Lemma usage_roundtrip_witness :
  let u := Usage0 <| InputTokens := 12%Z |> <| OutputTokens := 5%Z |> <| CachedInputTokens := 8%Z |> in
  exists v, ToDMChatCompletionUsage (ToOpenAIChatCompletionUsage (Some u)) = Some v /\
    usage_counts_of v = usage_counts_of u /\ v.(TotalTokens) = 17%Z.
Proof.
  intros u. destruct (usage_roundtrip u) as (v & Hv & Hc & Ht & _).
  { unfold usage_counts_of. repeat constructor; vm_compute; discriminate. }
  exists v. splits; [exact Hv|exact Hc|rewrite Ht; reflexivity].
Defined.

(** The request that goes upstream.  Its body is the client's request with the model replaced
    by the deployment's (when there is one); a streaming call asks for the stream and for its
    usage and keeps the other stream option.  The client's [max_tokens] is the one field that is
    lost. *)
Theorem upstream_request `{Sonic} (r : OpenAIChatCompletionRequest) rctx model stream :
  let req := (ToDMChatCompletionRequest r rctx).2 in
  let wire := r <| oreq_Model := if is_empty model then r.(oreq_Model) else model |>
                <| oreq_MaxTokens := None |> in
  let wire := if stream : bool
    then wire <| oreq_Parameters ::= fun p => p <| p_Stream := Some true |>
      <| p_StreamOptions := Some (mkChatStreamOptions (Some true) (p.(p_StreamOptions) ≫= so_IncludeObfuscation)) |> |>
    else wire in
  (BuildChatCompletionPayload (Some req) model stream).1 =
    match marshal_request wire with
    | Ok body => Ok body
    | Err cause => Err (NewInternalError "openai" "marshalling chat request" (Some cause))
    end.
Proof.
  cbn zeta. unfold BuildChatCompletionPayload, ToDMChatCompletionRequest, ToOpenAIChatCompletionRequest.
  cbn [snd req_Model req_Messages req_Parameters]. destruct stream.
  - destruct r as [m ms mt ps]. cbn [oreq_Parameters oreq_Model oreq_Messages default].
    match goal with |- (match marshal_request ?a with _ => _ end).1 = match marshal_request ?b with _ => _ end =>
      replace b with a; [by destruct (marshal_request a)|] end.
    destruct ps as [? ? ? ? ? ? ? ? ? ? ? ? ? ? ? ? ? ? ? ? ? ? so]. by destruct so as [[]|].
  - cbn. by destruct (marshal_request _).
Qed.

(** The finding of [upstream_request] by itself: a limit the client sets with [max_tokens] never
    reaches the provider. *)
Lemma max_tokens_dropped r rctx model :
  (ToOpenAIChatCompletionRequest (ToDMChatCompletionRequest r rctx).2 model).(oreq_MaxTokens) = None.
Proof. done. Qed.

(** Nor does the service tier of a response reach the bill. *)
Lemma service_tier_not_billed r u :
  (ToDMChatCompletionResponse r).(res_Envelope).(env_Usage) = Some u -> u.(Tier) = TierStandard.
Proof.
  unfold ToDMChatCompletionResponse. cbn [res_Envelope field_upd env_Usage].
  destruct (ores_Usage r) as [w|]; [|done]. intros [= <-].
  cbn [Tier field_upd]. destruct (ou_PromptTokensDetails w), (ou_CompletionTokensDetails w); done.
Qed.
