(* ===== verification/Sse.v ===== *)
(** * Reading a provider's event stream ([internal/providers/openai/handler.go])

    [bufio.Scanner] over the response body, and what each of its lines makes the reading goroutine
    do.  The body is a text and what ended it. *)

From S2P Require Import Prelude GoBase Float64 Errors Catalog Pricing Headers Context Chat OpenAI.
From Stdlib Require Import Ascii.

(** ** [bufio.Scanner] with [ScanLines] *)

Definition maxTokenSize : Z := 1024 * 1024.
Definition ErrTooLong : string := "bufio.Scanner: token too long".
Definition cr : ascii := ascii_of_nat 13.

(** The line without a trailing carriage return. *)
Fixpoint dropCR (s : string) : string :=
  match s with
  | EmptyString => EmptyString
  | String c EmptyString => if Ascii.eqb c cr then EmptyString else s
  | String c s' => String c (dropCR s')
  end.

(** The tokens and the error that ends the scan.  [eager] tells whether the body reports its end
    together with its last bytes, which matters for a last line that fills the buffer exactly. *)
Section scan.
Variables (ending : option string) (eager : bool) (max : Z).

Fixpoint scan_lines (parts : list string) : list string * option string :=
  match parts with
  | [] => ([], ending)
  | [last] =>
      if is_empty last then ([], ending)
      else if (max <? Z.of_nat (String.length last))%Z || ((max =? Z.of_nat (String.length last))%Z && negb eager)
      then ([], Some ErrTooLong)
      else ([dropCR last], ending)
  | line :: parts' =>
      if (max <=? Z.of_nat (String.length line))%Z then ([], Some ErrTooLong)
      else let '(ls, e) := scan_lines parts' in (dropCR line :: ls, e)
  end.
End scan.

Definition newline : ascii := ascii_of_nat 10.

(** A body as the goroutine finds it. *)
Record StreamSource : Type := mkStreamSource {
  ss_data : string;
  (** [None] is the end of the stream, an error its text and whether it is the idle timeout. *)
  ss_error : option (string * bool);
  ss_eager : bool
}.

Definition Scan (src : StreamSource) : list string * option string :=
  scan_lines (fst <$> src.(ss_error)) src.(ss_eager) maxTokenSize (split_byte newline src.(ss_data)).

(** ** Frames *)

Inductive frame : Type :=
| Skip
| Done
| Emit (chunk : DiffractLLMChatCompletionStreamResponse)
| EmitError (err : DiffractLLMError).

Section frames.
Context `{Sonic}.
Variables (provider : Provider) (safeURL : string) (passthrough : bool).

(** The body of the loop for one line. *)
Definition frame_of (line : string) : frame :=
  let line := TrimSpace line in
  if is_empty line || has_prefix ":" line then Skip
  else
    match cut_prefix "data:" line with
    | None => Skip
    | Some rest =>
        let delta := TrimSpace rest in
        if is_empty delta then Skip
        else if String.eqb delta "[DONE]" then Done
        else
          match unmarshal_chunk delta with
          | Err e => EmitError (NewUpstreamError provider safeURL StatusBadGateway
                                  "invalid OpenAI SSE data frame" (Some e))
          | Ok wire =>
              let r := wire.(ochunk_Response) in
              if negb (String.eqb r.(chunk_Envelope).(env_Object) objectChatCompletionChunk) then
                if is_empty r.(chunk_Envelope).(env_Object) && (List.length r.(chunk_Choices) =? 0)%nat
                   && match r.(chunk_Error) with None => true | Some _ => false end
                then Skip
                else EmitError (ParseError provider safeURL StatusBadGateway delta)
              else
                let chunk := ToDMChatCompletionStreamResponse wire in
                Emit (if passthrough then chunk <| chunk_Envelope ::= fun e => e <| env_Raw := delta |> |>
                      else chunk)
          end
    end.

Definition error_event (err : DiffractLLMError) : DiffractLLMChatCompletionStreamResponse :=
  mkDiffractLLMChatCompletionStreamResponse
    (mkChatResponseEnvelope "" "" 0 "" None "" None None None "") StreamEventError [] (Some err) None.

(** What the goroutine sends when nobody cancels the request: the chunks in order and, unless the
    stream ended with [DONE], one error.  [lines] and [sc_err] are the scan's. *)
Fixpoint stream_events (idle : bool) (lines : list string) (sc_err : option string)
    : list DiffractLLMChatCompletionStreamResponse :=
  match lines with
  | line :: lines' =>
      match frame_of line with
      | Skip => stream_events idle lines' sc_err
      | Done => []
      | Emit chunk => chunk :: stream_events idle lines' sc_err
      | EmitError err => [error_event err]
      end
  | [] =>
      let cause := default "stream ended before [DONE]" sc_err in
      [error_event
         (match sc_err with
          | Some _ => if idle then NewUpstreamTimeout provider safeURL (Some cause)
                      else NewUpstreamUnavailable provider safeURL (Some cause)
          | None => NewUpstreamUnavailable provider safeURL (Some cause)
          end)]
  end.
End frames.

(** [errors.Is(err, dataplane.ErrStreamIdle)]: the scan's error is the body's own. *)
Definition is_idle (src : StreamSource) (sc_err : option string) : bool :=
  match src.(ss_error), sc_err with
  | Some (e, idle), Some e' => idle && negb (String.eqb e' ErrTooLong)
  | _, _ => false
  end.

Definition events_of `{Sonic} (provider : Provider) (safeURL : string) (passthrough : bool)
    (src : StreamSource) : list DiffractLLMChatCompletionStreamResponse :=
  let '(lines, sc_err) := Scan src in
  stream_events provider safeURL passthrough (is_idle src sc_err) lines sc_err.

(** ** Properties *)

Section spec.
Context `{Sonic}.
Variables (provider : Provider) (safeURL : string) (passthrough : bool).
Local Abbreviation frame_of := (frame_of provider safeURL passthrough).

(** The chunks of the lines before the first one that ends the stream, and that one. *)
Fixpoint relayed (lines : list string) : list DiffractLLMChatCompletionStreamResponse :=
  match lines with
  | [] => []
  | line :: lines' =>
      match frame_of line with
      | Skip => relayed lines'
      | Emit chunk => chunk :: relayed lines'
      | Done | EmitError _ => []
      end
  end.

Fixpoint final_frame (lines : list string) : frame :=
  match lines with
  | [] => Skip
  | line :: lines' =>
      match frame_of line with
      | Skip | Emit _ => final_frame lines'
      | f => f
      end
  end.

Lemma frame_of_type line chunk : frame_of line = Emit chunk ->
  chunk.(chunk_Type) = StreamEventDelta \/ chunk.(chunk_Type) = StreamEventComplete.
Proof.
  unfold Sse.frame_of. cbv zeta. repeat case_match; try discriminate; intros [= <-];
    cbn [chunk_Type field_upd ToDMChatCompletionStreamResponse];
    match goal with H : negb _ = false |- _ => unfold streamEventType; rewrite H end; repeat case_match; auto.
Qed.

Lemma relayed_types lines : Forall (fun c => c.(chunk_Type) <> StreamEventError) (relayed lines).
Proof.
  induction lines as [|line lines IH]; [constructor|]. cbn [relayed].
  destruct (frame_of line) as [| |chunk|err] eqn:Hf; [done|constructor| |constructor].
  constructor; [|done]. apply frame_of_type in Hf as [->| ->]; done.
Qed.

(** A truncated stream is never mistaken for a complete one.  What the goroutine relays of a
    provider's event stream is the chunks up to the line that ends it, in order; then nothing if
    that line is [DONE], and exactly one error if it is a bad or error frame, or if the body ended
    or failed before any such line.  No chunk before it is an error. *)
Theorem stream_events_spec idle lines sc_err :
  Forall (fun c => c.(chunk_Type) <> StreamEventError) (relayed lines) /\
  stream_events provider safeURL passthrough idle lines sc_err =
    (relayed lines ++
     match final_frame lines with
     | Done => []
     | EmitError err => [error_event err]
     | _ =>
         [error_event
            (match sc_err with
             | Some e => if idle then NewUpstreamTimeout provider safeURL (Some e)
                         else NewUpstreamUnavailable provider safeURL (Some e)
             | None => NewUpstreamUnavailable provider safeURL (Some "stream ended before [DONE]")
             end)]
     end)%list.
Proof.
  split; [apply relayed_types|].
  induction lines as [|line lines IH]; [by destruct sc_err|]. cbn [stream_events relayed final_frame].
  destruct (frame_of line); cbn [app]; [exact IH | done | by f_equal | done].
Qed.

(** A stream that goes silent in the middle of a frame is reported as a bad frame of the provider
    (502) and not as the timeout it was (504): the scanner hands out the partial line first. *)
Example midframe_timeout_misreported e :
  unmarshal_chunk "{" = Err e ->
  let src := mkStreamSource "data: {" (Some ("stream idle timeout", true)) false in
  map (fun c => StatusCode <$> c.(chunk_Error)) (events_of provider safeURL passthrough src) = [Some StatusBadGateway] /\
  map (fun c => StatusCode <$> c.(chunk_Error))
    (events_of provider safeURL passthrough (mkStreamSource (": ping" ++ String newline "")
       (Some ("stream idle timeout", true)) false)) = [Some StatusGatewayTimeout].
Proof.
  intros He src. split; [|reflexivity].
  unfold events_of, src. replace (Scan _) with (["data: {"], Some "stream idle timeout") by reflexivity.
  cbn [stream_events]. unfold Sse.frame_of. cbv zeta.
  replace (TrimSpace "data: {") with "data: {" by reflexivity. cbn [is_empty has_prefix cut_prefix].
  replace (TrimSpace " {") with "{" by reflexivity. cbn. by rewrite He.
Qed.
End spec.
