(* ===== verification/Providers.v ===== *)
(** * Providers and their calls ([internal/providers], [providers/openai/handler.go],
    [providers/azure])

    The interface the server calls a provider through and its registry, and the two
    implementations.  The transport is that of [Transport]; what its response bodies contain, the
    URL functions of [net/url] and Azure's identity library are parameters.  A nil dereference is
    [None]. *)

From S2P Require Import Prelude GoBase Float64 Errors Catalog Credential Context Config Headers Transport Chat OpenAI Sse.
From Stdlib Require Import Ascii.

(** ** The interface *)

(** What the receiving loop of a stream sees: the chunks it receives, each with whether the
    request was cancelled when it looked, and whether it was once the channel had been closed. *)
Record ChunkStream : Type := mkChunkStream {
  received : list (option DiffractLLMChatCompletionStreamResponse * bool);
  cancelled_at_end : bool
}.

Abbreviation outcome A := (option (DiffractLLMContext * result DiffractLLMError A)) (only parsing).

Record ProviderInstance : Type := mkProviderInstance {
  ProviderName : Provider;
  ChatCompletion : DiffractLLMContext -> option DiffractLLMChatCompletionRequest -> option Credential ->
    outcome DiffractLLMChatCompletionResponse;
  ChatCompletionStream : DiffractLLMContext -> option DiffractLLMChatCompletionRequest -> option Credential ->
    outcome ChunkStream
}.

(** ** The registry *)

Definition Registry : Type := gmap Provider ProviderInstance.

Definition NewUnsupportedOperation (k : RequestKind) (provider : Provider) : DiffractLLMError :=
  NewInternalError "provider" (provider ++ " does not support " ++ k) None.

Definition NewRegistry : Registry := ∅.
Definition Register (p : ProviderInstance) (pi : Registry) : Registry := <[p.(ProviderName) := p]> pi.
Definition Registry_Has (pi : Registry) (provider : Provider) : bool :=
  match pi !! provider with Some _ => true | None => false end.
Definition Registry_Len (pi : Registry) : nat := size pi.
Definition Registry_Get (pi : Registry) (provider : Provider) : result DiffractLLMError ProviderInstance :=
  match pi !! provider with
  | None => Err (NewInternalError "provider" ("provider " ++ provider ++ " is not registered") None)
  | Some p => Ok p
  end.

(** ** URLs ([net/url]) *)

Definition unreserved (c : ascii) : bool :=
  let n := N_of_ascii c in
  ((48 <=? n)%N && (n <=? 57)%N) || ((65 <=? n)%N && (n <=? 90)%N) || ((97 <=? n)%N && (n <=? 122)%N)
  || existsb (Ascii.eqb c) ["-"; "_"; "."; "~"]%char.

Definition upper_hex (n : N) : ascii := ascii_of_N (if (n <? 10)%N then 48 + n else 55 + n).

Fixpoint url_escape (keep : ascii -> option string) (s : string) : string :=
  match s with
  | EmptyString => EmptyString
  | String c s' =>
      let n := N_of_ascii c in
      match keep c with
      | Some t => t ++ url_escape keep s'
      | None => String "%" (String (upper_hex (n / 16)) (String (upper_hex (n mod 16)) (url_escape keep s')))
      end
  end.

Definition PathEscape : string -> string :=
  url_escape (fun c => if unreserved c || existsb (Ascii.eqb c) ["$"; "&"; "+"; ":"; "="; "@"]%char
                       then Some (String c "") else None).
Definition QueryEscape : string -> string :=
  url_escape (fun c => if unreserved c then Some (String c "")
                       else if Ascii.eqb c " " then Some "+" else None).

(** ** Calls over the transport *)

Section calls.
Context `{Sonic}.
Variables (d : UpstreamConfig) (upstreams : option (gmap Provider Upstream)).
Context `{NetURL}.
Variable net : Z -> attempt_outcome.

(** What reading the body of a response gives. *)
Variable body_of : TransportResult -> StreamSource.

Definition maxProviderErrorBodyBytes : Z := Z.shiftl 1 20.

(** [io.ReadAll(body)]. *)
Definition read_all (src : StreamSource) : result string string :=
  match src.(ss_error) with Some (e, _) => Err e | None => Ok src.(ss_data) end.

(** The limit of one byte more than allowed hides an error that comes after it. *)
Definition readProviderErrorBody (src : StreamSource) : result string string :=
  if (maxProviderErrorBodyBytes <? Z.of_nat (String.length src.(ss_data)))%Z
  then Err "provider error response exceeds size limit"
  else read_all src.

Definition transport_request (cfg : ChatCompletionConfig) (body : string) (stream : bool) : TransportRequest :=
  mkTransportRequest "POST" cfg.(cfg_URL) body (map_to_list cfg.(cfg_Headers)) stream.

Definition HandleChatCompletion (rctx : DiffractLLMContext) (cfg : ChatCompletionConfig)
    : outcome DiffractLLMChatCompletionResponse :=
  let safeURL := SanitizeBackendURL cfg.(cfg_URL) in
  match (BuildChatCompletionPayload cfg.(cfg_Request) cfg.(cfg_Model) false).1 with
  | Err e => Some (rctx, Err e)
  | Ok body =>
      match ServeHTTP d upstreams safeURL net rctx (transport_request cfg body false) with
      | (rctx, _, Some derr) => Some (rctx, Err derr)
      | (rctx, None, None) => None
      | (rctx, Some res, None) =>
          match read_all (body_of res) with
          | Err e => Some (rctx, Err (NewUpstreamError cfg.(cfg_Provider) safeURL StatusBadGateway
                                        "reading response" (Some e)))
          | Ok respBody =>
              if negb (res.(TStatus) =? StatusOK)%Z
              then Some (rctx, Err (ParseError cfg.(cfg_Provider) safeURL res.(TStatus) respBody))
              else
                match unmarshal_response respBody with
                | Err e => Some (rctx, Err (NewUpstreamError cfg.(cfg_Provider) safeURL StatusBadGateway
                                              "unmarshalling response" (Some e)))
                | Ok wire =>
                    let wire := mkOpenAIResponse
                      (wire.(ores_Response) <| res_Envelope ::= fun e => e <| env_Raw := respBody |> |>)
                      wire.(ores_Usage) in
                    Some (rctx, Ok (ToDMChatCompletionResponse wire))
                end
          end
      end
  end.

(** [observe] is what the loop at the other end of the channel sees of the events sent. *)
Variable observe : list DiffractLLMChatCompletionStreamResponse -> ChunkStream.

Definition HandleChatCompletionStream (rctx : DiffractLLMContext) (cfg : ChatCompletionConfig)
    : outcome ChunkStream :=
  let safeURL := SanitizeBackendURL cfg.(cfg_URL) in
  match (BuildChatCompletionPayload cfg.(cfg_Request) cfg.(cfg_Model) true).1 with
  | Err e => Some (rctx, Err e)
  | Ok body =>
      match ServeHTTP d upstreams safeURL net rctx (transport_request cfg body true) with
      | (rctx, _, Some derr) => Some (rctx, Err derr)
      | (rctx, None, None) => None
      | (rctx, Some res, None) =>
          if negb (res.(TStatus) =? StatusOK)%Z then
            match readProviderErrorBody (body_of res) with
            | Err e => Some (rctx, Err (NewUpstreamError cfg.(cfg_Provider) safeURL res.(TStatus)
                                          "reading streaming error response" (Some e)))
            | Ok respBody => Some (rctx, Err (ParseError cfg.(cfg_Provider) safeURL res.(TStatus) respBody))
            end
          else
            let passthrough := String.eqb rctx.(SDKProvider) ProviderOpenAI in
            Some (rctx, Ok (observe (events_of cfg.(cfg_Provider) safeURL passthrough (body_of res))))
      end
  end.

(** ** OpenAI *)

Definition with_config {A} (r : DiffractLLMContext * result DiffractLLMError ChatCompletionConfig)
    (k : DiffractLLMContext -> ChatCompletionConfig -> outcome A) : outcome A :=
  match r with
  | (rctx, Err e) => Some (rctx, Err e)
  | (rctx, Ok cfg) => k rctx cfg
  end.

Definition OpenAIProvider : ProviderInstance :=
  mkProviderInstance ProviderOpenAI
    (fun rctx req cred => with_config (chatConfig rctx req cred false) HandleChatCompletion)
    (fun rctx req cred => with_config (chatConfig rctx req cred true) HandleChatCompletionStream).

(** ** Azure *)

(** A token for the settings of a credential, from Azure's identity library. *)
Variable azure_token : AzureSettings -> result string string.

Definition resolveAlias (rctx : DiffractLLMContext) (req : option DiffractLLMChatCompletionRequest)
    (cred : option Credential) : result DiffractLLMError Alias :=
  match req with
  | None => Err (NewInvalidRequestBody "chat request is required" None)
  | Some _ =>
      match cred ≫= (fun c => c.(Settings).(Azure)) with
      | None => Err (NewInternalError "azure-provider" "azure credential settings are required" None)
      | Some _ => Ok (CheckModelAlias cred rctx.(Modelkey).(ModelName))
      end
  end.

Definition unsupportedProtocol (protocol : EndpointProtocol) : DiffractLLMError :=
  NewInternalError "azure-provider" ("protocol " ++ protocol ++ " is not supported yet") None.

Definition Azure_AuthInjection (cred : Credential) (headers : gmap string string)
    : result string (gmap string string) :=
  match cred.(Settings).(Azure) with
  | None => Err "azure settings not found"
  | Some settings =>
      if String.eqb settings.(AuthMode) AzureAuthKeyMode then
        if is_empty cred.(APIKey) then Err ("azure : api key is required for " ++ settings.(AuthMode))
        else Ok (<["api-key" := cred.(APIKey)]> headers)
      else if String.eqb settings.(AuthMode) AzureAuthServicePrincipal
              || String.eqb settings.(AuthMode) AzureDefaultCredential then
        match azure_token settings with
        | Err e => Err e
        | Ok token => Ok (<["Authorization" := "Bearer " ++ token]> headers)
        end
      else Err "unknow setting found for azure provider"
  end.

Definition azure_url (cred : Credential) (alias : Alias) (path : string) : string :=
  let ep := trim_slashes cred.(Endpoint) in
  if String.eqb alias.(RouteStyle) AzureRouteDeployment
  then ep ++ "/openai/deployments/" ++ PathEscape alias.(AModelID) ++ default path (cut_prefix "/v1" path)
       ++ "?api-version=" ++ QueryEscape alias.(APIVersion)
  else ep ++ "/openai" ++ path.

Definition openaichatConfig (rctx : DiffractLLMContext) (req : option DiffractLLMChatCompletionRequest)
    (cred : Credential) (alias : Alias) (stream : bool)
    : DiffractLLMContext * result DiffractLLMError ChatCompletionConfig :=
  match PathFor ChatRequest with
  | None => (rctx, Err (NewInternalError "azure-provider" ("unsupported request kind " ++ ChatRequest) None))
  | Some path =>
      let requestURL := azure_url cred alias path in
      match Azure_AuthInjection cred (ProviderHeaders stream) with
      | Err e => (rctx, Err (NewUpstreamAuth "azure" (SanitizeBackendURL requestURL) e))
      | Ok headers =>
          (rctx <| UpstreamModel := alias.(AModelID) |>,
           Ok (mkChatCompletionConfig ProviderAzure requestURL alias.(AModelID) req headers))
      end
  end.

Definition azure_call {A} (handle : DiffractLLMContext -> ChatCompletionConfig -> outcome A) (stream : bool)
    (rctx : DiffractLLMContext) (req : option DiffractLLMChatCompletionRequest) (cred : option Credential)
    : outcome A :=
  match resolveAlias rctx req cred, cred with
  | Err e, _ => Some (rctx, Err e)
  | Ok _, None => None
  | Ok alias, Some c =>
      let protocol := Alias_Protocol (Some alias) rctx.(Modelkey).(ModelName) in
      if String.eqb protocol ProtocolOpenAI
      then with_config (openaichatConfig rctx req c alias stream) handle
      else Some (rctx, Err (unsupportedProtocol protocol))
  end.

Definition AzureProvider : ProviderInstance :=
  mkProviderInstance ProviderAzure (azure_call HandleChatCompletion false)
    (azure_call HandleChatCompletionStream true).
End calls.

(** ** What the server relies on *)

(** The fields of the context that a call may write. *)
Definition mask (c : DiffractLLMContext) : DiffractLLMContext :=
  c <| UpstreamStatus := 0%Z |> <| UpstreamAttempts := 0%Z |> <| TTFB := 0%Z |>
    <| UpstreamModel := "" |> <| Marks := [] |> <| metadata := ∅ |>.

Definition chunk_wf (x : option DiffractLLMChatCompletionStreamResponse * bool) : Prop :=
  x.2 = false -> forall c, x.1 = Some c -> c.(chunk_Type) = StreamEventError -> is_Some c.(chunk_Error).

(** A provider always answers, writes nothing else of the context, and an error chunk has its
    error. *)
Class ProviderLaws (p : ProviderInstance) : Prop := {
  chat_answers rctx req cred : exists rctx' res,
    ChatCompletion p rctx (Some req) (Some cred) = Some (rctx', res) /\ mask rctx' = mask rctx;
  stream_answers rctx req cred : exists rctx' res,
    ChatCompletionStream p rctx (Some req) (Some cred) = Some (rctx', res) /\ mask rctx' = mask rctx /\
    match res with Ok s => Forall chunk_wf s.(received) | Err _ => True end
}.

Lemma mask_capture rctx h : mask (captureResponseHeaders rctx h) = mask rctx.
Proof.
  unfold captureResponseHeaders. generalize UpstreamHeaders. intros l. revert rctx.
  induction l as [|uh l IH]; intros rctx; [done|]. cbn [foldl]. rewrite IH. by destruct (negb _).
Qed.

Lemma mask_attempt c n o rctx : mask (attempt_step c n o rctx).1 = mask rctx.
Proof.
  unfold attempt_step. destruct o as [cause|cause dn slept|st h b ttfb now slept]; [done| |].
  - destruct dn; [done|]. destruct (_ <? _)%Z; [by destruct slept|done].
  - destruct (_ && _); [by destruct slept|]. cbn [fst]. by rewrite mask_capture.
Qed.

Lemma mask_attempts fuel c net attempt rctx lastErr :
  mask (attempts_loop fuel c net attempt rctx lastErr).1.1 = mask rctx.
Proof.
  revert attempt rctx lastErr. induction fuel as [|fuel IH]; intros attempt rctx lastErr; [done|].
  cbn [attempts_loop]. destruct (_ <=? _)%Z; [|done].
  pose proof (mask_attempt c attempt (net attempt) rctx) as Hm.
  destruct (attempt_step c attempt (net attempt) rctx) as [rctx' [err|[r|e]]]; cbn [fst] in *; [|done|done].
  by rewrite IH.
Qed.

(** The retries of every provider's configuration leave room for the first attempt. *)
Definition retries_ok (d : UpstreamConfig) (upstreams : option (gmap Provider Upstream)) : Prop :=
  (0 <= d.(UMaxRetries))%Z /\
  forall m p u, upstreams = Some m -> m !! p = Some u ->
    (compareConfig d.(UMaxRetries) u.(Network).(MaxRetries) < MaxInt64)%Z.

Lemma maxAttempts_positive d upstreams m p u provider safeURL streaming :
  retries_ok d upstreams -> upstreams = Some m -> m !! p = Some u ->
  (1 <= (make_call d u.(Network) provider safeURL streaming).(call_maxAttempts))%Z.
Proof.
  intros [Hd Hm] Hu Hp. specialize (Hm m p u Hu Hp). unfold compareConfig in Hm. cbn [make_call call_maxAttempts].
  assert (Hadd : forall r, (0 <= r)%Z -> (r < MaxInt64)%Z -> (1 <= add64 1 r)%Z).
  { intros r H0 H1. unfold add64. rewrite wrap64_small; [lia|]. unfold in_int64, MinInt64, MaxInt64 in *. lia. }
  destruct u.(Network).(MaxRetries) as [r|]; [destruct (Z.ltb_spec 0 r)|]; apply Hadd; lia.
Qed.

(** A call returns a response or an error, not both. *)
Lemma ServeHTTP_answers d upstreams safeURL net rctx req :
  retries_ok d upstreams ->
  exists rctx', mask rctx' = mask rctx /\
    ((exists r, ServeHTTP d upstreams safeURL net rctx req = (rctx', Some r, None)) \/
     (exists e, ServeHTTP d upstreams safeURL net rctx req = (rctx', None, Some e))).
Proof.
  intros Hok. unfold ServeHTTP. destruct upstreams as [m|] eqn:Hu; [|eauto 10].
  destruct (m !! KProvider (Modelkey rctx)) as [u|] eqn:Hp; [|eauto 10].
  set (c := make_call _ _ _ _ _).
  assert (Hc : (1 <= c.(call_maxAttempts))%Z) by (by eapply maxAttempts_positive).
  pose proof (mask_attempts (Z.to_nat (call_maxAttempts c)) c net 1 rctx None) as Hm.
  destruct (attempts_loop_spec (Z.to_nat (call_maxAttempts c)) c net 1 rctx None) as (n & Hn & _ & _ & Hf);
    [lia|lia|].
  destruct (attempts_loop _ _ _ _ _ _) as [[rctx' res] err]. cbn [fst] in Hm. exists rctx'. split; [done|].
  unfold finished in Hf. destruct (net n) as [cause|cause dn slept|st h b ttfb now slept].
  - destruct Hf as (_ & -> & ->). eauto.
  - destruct Hf as (_ & -> & ->). eauto.
  - destruct Hf as (_ & _ & Hf). destruct (_ && _).
    + destruct Hf as [-> ->]. eauto.
    + destruct Hf as (-> & _ & ->). eauto.
Qed.

Section laws.
Context `{Sonic}.
Variables (d : UpstreamConfig) (upstreams : option (gmap Provider Upstream)).
Context `{NetURL}.
Variable net : Z -> attempt_outcome.
Variable body_of : TransportResult -> StreamSource.
Variable observe : list DiffractLLMChatCompletionStreamResponse -> ChunkStream.
Variable azure_token : AzureSettings -> result string string.
Hypothesis retries : retries_ok d upstreams.
(** Until the request is cancelled, the loop receives what the goroutine sends ([StreamRun] shows
    that every run of the two is like that). *)
Hypothesis observed : forall evs,
  Forall (fun x => x.2 = false -> forall c, x.1 = Some c -> c ∈ evs) (observe evs).(received).

Lemma events_wf provider safeURL passthrough src :
  Forall (fun c => c.(chunk_Type) = StreamEventError -> is_Some c.(chunk_Error))
    (events_of provider safeURL passthrough src).
Proof.
  unfold events_of. destruct (Scan src) as [lines sc_err]. induction lines as [|line lines IH]; cbn [stream_events].
  { repeat constructor. by eexists. }
  destruct (frame_of provider safeURL passthrough line) as [| |chunk|err] eqn:Hf; [done|constructor| |].
  - constructor; [|done]. apply frame_of_type in Hf as [->| ->]; done.
  - repeat constructor. by eexists.
Qed.

Lemma HandleChatCompletion_answers rctx cfg : exists rctx' res,
  HandleChatCompletion d upstreams net body_of rctx cfg = Some (rctx', res) /\ mask rctx' = mask rctx.
Proof.
  unfold HandleChatCompletion. destruct (BuildChatCompletionPayload _ _ _).1 as [body|e]; [|eauto].
  destruct (ServeHTTP_answers d upstreams (SanitizeBackendURL (cfg_URL cfg)) net rctx (transport_request cfg body false) retries)
    as (rctx' & Hm & [[r ->]|[e ->]]); [|eauto].
  destruct (read_all _); [|eauto]. destruct (negb _); [eauto|]. destruct (unmarshal_response _); eauto.
Qed.

Lemma HandleChatCompletionStream_answers rctx cfg : exists rctx' res,
  HandleChatCompletionStream d upstreams net body_of observe rctx cfg = Some (rctx', res) /\
  mask rctx' = mask rctx /\ match res with Ok s => Forall chunk_wf s.(received) | Err _ => True end.
Proof.
  unfold HandleChatCompletionStream. destruct (BuildChatCompletionPayload _ _ _).1 as [body|e]; [|eauto 10].
  destruct (ServeHTTP_answers d upstreams (SanitizeBackendURL (cfg_URL cfg)) net rctx (transport_request cfg body true) retries)
    as (rctx' & Hm & [[r ->]|[e ->]]); [|eauto 10].
  destruct (negb _); [destruct (readProviderErrorBody _); eauto 10|].
  eexists _, _. split; [reflexivity|]. split; [done|]. eapply Forall_impl; [apply observed|].
  intros x Hx Hg c Hc Ht. pose proof (events_wf (cfg_Provider cfg) (SanitizeBackendURL (cfg_URL cfg))
    (String.eqb (SDKProvider rctx') ProviderOpenAI) (body_of r)) as Hw.
  rewrite Forall_forall in Hw. exact (Hw c (Hx Hg c Hc) Ht).
Qed.

Lemma chatConfig_mask rctx req cred stream : mask (chatConfig rctx req cred stream).1 = mask rctx.
Proof.
  unfold chatConfig. destruct req, cred; try done. destruct (endpoint _ _); [|done].
  by destruct (AuthInjection _ _).
Qed.

#[export] Instance OpenAIProvider_laws :
  ProviderLaws (OpenAIProvider d upstreams net body_of observe).
Proof.
  split; intros rctx req cred; cbn [ChatCompletion ChatCompletionStream OpenAIProvider].
  - pose proof (chatConfig_mask rctx (Some req) (Some cred) false) as Hm.
    destruct (chatConfig _ _ _ _) as [rctx1 [cfg|e]]; cbn [with_config fst] in *; [|eauto].
    destruct (HandleChatCompletion_answers rctx1 cfg) as (rctx2 & res & Hr & Hm2).
    exists rctx2, res. split; [done|congruence].
  - pose proof (chatConfig_mask rctx (Some req) (Some cred) true) as Hm.
    destruct (chatConfig _ _ _ _) as [rctx1 [cfg|e]]; cbn [with_config fst] in *; [|eauto 10].
    destruct (HandleChatCompletionStream_answers rctx1 cfg) as (rctx2 & res & Hr & Hm2 & Hw).
    exists rctx2, res. splits; [done|congruence|done].
Qed.

Lemma openaichatConfig_mask rctx req cred alias stream :
  mask (openaichatConfig azure_token rctx req cred alias stream).1 = mask rctx.
Proof.
  unfold openaichatConfig. destruct (PathFor _); [|done]. by destruct (Azure_AuthInjection _ _ _).
Qed.

Lemma azure_call_answers {A} (P : A -> Prop) (handle : DiffractLLMContext -> ChatCompletionConfig -> outcome A) stream :
  (forall rctx cfg, exists rctx' res, handle rctx cfg = Some (rctx', res) /\ mask rctx' = mask rctx /\
     match res with Ok a => P a | Err _ => True end) ->
  forall rctx req cred, exists rctx' res,
    azure_call azure_token handle stream rctx (Some req) (Some cred) = Some (rctx', res) /\
    mask rctx' = mask rctx /\ match res with Ok a => P a | Err _ => True end.
Proof.
  intros Hh rctx req cred. unfold azure_call. destruct (resolveAlias _ _ _) as [alias|e]; [|eauto 10].
  destruct (String.eqb _ _); [|eauto 10].
  pose proof (openaichatConfig_mask rctx (Some req) cred alias stream) as Hm.
  destruct (openaichatConfig _ _ _ _ _ _) as [rctx1 [cfg|e]]; cbn [with_config fst] in *; [|eauto 10].
  destruct (Hh rctx1 cfg) as (rctx2 & res & Hr & Hm2 & Hw). exists rctx2, res. splits; [done|congruence|done].
Qed.

#[export] Instance AzureProvider_laws :
  ProviderLaws (AzureProvider d upstreams net body_of observe azure_token).
Proof.
  split; intros rctx req cred; cbn [ChatCompletion ChatCompletionStream AzureProvider].
  - destruct (azure_call_answers (fun _ => True) (HandleChatCompletion d upstreams net body_of) false)
      with rctx req cred as (rctx' & res & Hr & Hm & _); [|eauto].
    intros r cfg. destruct (HandleChatCompletion_answers r cfg) as (r' & res & Hr & Hm).
    exists r', res. splits; [done|done|by destruct res].
  - apply azure_call_answers. intros r cfg. apply HandleChatCompletionStream_answers.
Qed.
End laws.
