(* ===== verification/Server.v ===== *)
(** * Serving a request ([internal/server/handlers.go], [chat.go], [utils.go])

    The handler of every model endpoint: authentication, body, parsing, admission hooks, routing,
    price, provider call, response, and the deferred hooks and release.  The world [W] is the
    state the hooks share with the rest of the gateway; [None] is a panic. *)

From S2P Require Import Prelude GoBase Float64 Errors Catalog Money Pricing VirtualKey Credential Config Context KeyFormat Hooks Selection Governance ModelCatalog Chat OpenAI Providers.

(** ** Routes ([providers/descriptors.go]) *)

(** The functions of a route, each with the JSON encoding of what it returns ([None] where that
    fails). *)
Record RouteDescriptor : Type := mkRouteDescriptor {
  SDK : Provider;
  Method : string;
  Path : string;
  DRequestKind : string;
  Wire : Type;
  (** [sonic.Unmarshal(body, desc.NewRequest())]. *)
  Parse : string -> result string Wire;
  ToDiffract : Wire -> DiffractLLMContext -> DiffractLLMContext * DiffractLLMChatCompletionRequest;
  FromDiffract : DiffractLLMChatCompletionResponse -> result string string;
  FromDiffractStream : DiffractLLMChatCompletionStreamResponse -> string * result string string;
  FromDiffractError : DiffractLLMError -> string * result string string;
  StreamDone : string * string;
  AddToRoute : bool
}.

Definition OpenAIChatRoute `{Sonic} : RouteDescriptor :=
  {| SDK := ProviderOpenAI;
     Method := "POST";
     Path := "/v1/chat/completions";
     DRequestKind := ChatRequest;
     Wire := OpenAIChatCompletionRequest;
     Parse := unmarshal_request;
     ToDiffract := ToDMChatCompletionRequest;
     FromDiffract res := marshal_response (ToOpenAIChatCompletionResponse (Some res));
     FromDiffractStream chunk := ("", marshal_chunk (ToOpenAIChatCompletionStreamResponse (Some chunk)));
     FromDiffractError err := ("", marshal_error (ToOpenAIError (Some err)));
     StreamDone := ("", "[DONE]");
     AddToRoute := true |}.

Definition ok_value {E A} (r : result E A) : option A := match r with Ok a => Some a | Err _ => None end.

(** ** Responses ([utils.go]) *)

Definition price (rctx : DiffractLLMContext) (pricing : option Pricing) : DiffractLLMContext :=
  match rctx.(Usage_), pricing with
  | Some usage, Some pricing => rctx <| Cost := FromNanoUSD (ToNanoUSD (CalculateCost pricing usage)) |>
  | _, _ => rctx
  end.

(** Whether an error is returned comes last. *)
Definition writeSSE (rctx : DiffractLLMContext) (event : string) (payload : result string string)
    : option (DiffractLLMContext * bool) :=
  match payload with
  | Err _ => Some (rctx, true)
  | Ok body => WriteSSE rctx event body
  end.

Definition writeErr (desc : RouteDescriptor) (rctx : DiffractLLMContext) (err : DiffractLLMError)
    : option DiffractLLMContext :=
  let rctx := rctx <| ResponseStatus := err.(StatusCode) |> <| CError := Some err |> in
  Context_JSON rctx err.(StatusCode) (ok_value (FromDiffractError desc err).2).

(** ** Chat completions ([chat.go]) *)

Definition statusClientClosed : Z := 499.

(** What the receiving loop does with one chunk: go on, or stop with [StreamAborted] or an error
    of the stream.  [gone] tells whether the request is cancelled when the loop looks, [first] is
    the time of the first token. *)
Inductive verdict : Type := Continue | Stop.

Definition client_gone (rctx : DiffractLLMContext) : DiffractLLMContext :=
  rctx <| StreamAborted := true |> <| ResponseStatus := statusClientClosed |>.

Definition on_chunk (desc : RouteDescriptor) (first : Z) (rctx : DiffractLLMContext)
    (chunk : option DiffractLLMChatCompletionStreamResponse) (gone : bool)
    : option (DiffractLLMContext * verdict) :=
  if gone then Some (client_gone rctx, Stop)
  else
    match chunk with
    | None => Some (rctx, Continue)
    | Some chunk =>
        match chunk.(chunk_Type), chunk.(chunk_Error) with
        | StreamEventError, None => None
        | StreamEventError, Some e =>
            let '(event, payload) := FromDiffractError desc e in
            '(rctx, _) ← writeSSE rctx event payload;
            Some (rctx <| CError := Some e |> <| ResponseStatus := e.(StatusCode) |>, Stop)
        | _, _ =>
            let rctx := match chunk.(chunk_Envelope).(env_Usage) with
                        | None => rctx
                        | Some usage =>
                            let newer := match rctx.(Usage_) with
                                         | None => true
                                         | Some u => (u.(OutputTokens) <=? usage.(OutputTokens))%Z
                                         end in
                            if newer then rctx <| Usage_ := Some usage |> else rctx
                        end in
            let rctx := match chunk.(chunk_Choices) with
                        | c :: _ => match c.(sch_FinishReason) with
                                    | Some reason => rctx <| StreamFinishReason := reason |>
                                    | None => rctx
                                    end
                        | [] => rctx
                        end in
            let rctx := if (rctx.(StreamChunks) =? 0)%Z then Mark rctx StageFirstToken first else rctx in
            let rctx := rctx <| StreamChunks ::= fun n => wrap32 (n + 1) |> in
            let '(event, payload) := FromDiffractStream desc chunk in
            '(rctx, err) ← writeSSE rctx event payload;
            if err : bool then Some (client_gone rctx, Stop) else Some (rctx, Continue)
        end
    end.

(** The [for] loop over the channel, and whether it was left by [return]. *)
Fixpoint chunk_loop (desc : RouteDescriptor) (first : Z) (rctx : DiffractLLMContext)
    (chunks : list (option DiffractLLMChatCompletionStreamResponse * bool))
    : option (DiffractLLMContext * verdict) :=
  match chunks with
  | [] => Some (rctx, Continue)
  | (chunk, gone) :: chunks' =>
      '(rctx, v) ← on_chunk desc first rctx chunk gone;
      match v with
      | Stop => Some (rctx, Stop)
      | Continue => chunk_loop desc first rctx chunks'
      end
  end.

(** After the channel is closed; [gone] tells whether the request is cancelled by then. *)
Definition stream_end (desc : RouteDescriptor) (rctx : DiffractLLMContext) (gone : bool)
    : option DiffractLLMContext :=
  if gone then Some (client_gone rctx)
  else
    let '(event, payload) := desc.(StreamDone) in
    '(rctx, err) ← WriteSSE rctx event payload;
    if err : bool then Some (client_gone rctx) else Some (rctx <| RequestCompleted := true |>).

Definition stream_headers (rctx : DiffractLLMContext) : option DiffractLLMContext :=
  rctx ← SetHeader rctx "Content-Type" "text/event-stream";
  rctx ← SetHeader rctx "Cache-Control" "no-cache";
  rctx ← SetHeader rctx "Connection" "keep-alive";
  rctx ← SetHeader rctx "X-Accel-Buffering" "no";
  w ← rctx.(Writer);
  let rctx := rctx <| Writer := Some (WriteHeader w StatusOK) |> <| ResponseStatus := StatusOK |> in
  Some (Flush rctx).

Definition chatCompletion (desc : RouteDescriptor) (provider : ProviderInstance) (cred : Credential)
    (pricing : Pricing) (req : DiffractLLMChatCompletionRequest) (first : Z) (rctx : DiffractLLMContext)
    : option DiffractLLMContext :=
  if Request_IsStreaming req then
    w ← rctx.(Writer);
    if negb w.(WFlusher) then
      writeErr desc rctx (NewInternalError "server-handler" "client does not support streaming" None)
    else
      '(rctx, res) ← ChatCompletionStream provider rctx (Some req) (Some cred);
      match res with
      | Err err => writeErr desc rctx err
      | Ok stream =>
          rctx ← stream_headers rctx;
          '(rctx, v) ← chunk_loop desc first rctx stream.(received);
          rctx ← match v with
                 | Stop => Some rctx
                 | Continue => stream_end desc rctx stream.(cancelled_at_end)
                 end;
          Some (price rctx (Some pricing))
      end
  else
    '(rctx, res) ← ChatCompletion provider rctx (Some req) (Some cred);
    match res with
    | Err err => writeErr desc rctx err
    | Ok upstreamRes =>
        let rctx := rctx <| Usage_ := upstreamRes.(res_Envelope).(env_Usage) |> in
        let rctx := price rctx (Some pricing) in
        let rctx := rctx <| ResponseStatus := StatusOK |> in
        rctx ← Context_JSON rctx StatusOK (ok_value (FromDiffract desc upstreamRes));
        Some (rctx <| RequestCompleted := true |>)
    end.

(** ** The handler ([handlers.go]) *)

(** A request as it arrives: its declared length (-1 if chunked), the bytes the client sends and
    the error that ends them. *)
Record Incoming : Type := mkIncoming {
  in_ctx : Z;
  in_request : HTTPRequest;
  in_length : Z;
  in_body : string;
  in_error : option string;
  in_writer : ResponseWriter
}.

(** The body's reader gives its bytes and then its error; the limit hides an error that comes
    after it. *)
Definition readBody (maxBodySize : Z) (r : Incoming) : result DiffractLLMError string :=
  let maxBody := wrap64 (Z.shiftl maxBodySize 10) in
  if (maxBody <? r.(in_length))%Z then Err (NewPayloadTooLarge maxBody)
  else
    let buf := str_take (Z.to_nat maxBody) r.(in_body) in
    let rest := str_drop (Z.to_nat maxBody) r.(in_body) in
    let full := (maxBody <=? Z.of_nat (String.length buf))%Z in
    match (if full then None else r.(in_error)) with
    | Some cause => Err (NewInvalidRequestBody "reading body" (Some cause))
    | None => if full && negb (is_empty rest) then Err (NewPayloadTooLarge maxBody) else Ok buf
    end.

(** ** The server *)

Section server.
Context {W Src : Type} `{CredentialSource Src}.

Record DiffractLLMServer : Type := mkServer {
  MaxBodySizeKB : Z;
  CtxPool : list DiffractLLMContext;
  HookEngine_ : HookEngine W;
  selectionEngine : SelectionEngine Src;
  ProviderRegistry : Registry
}.
#[export] Instance Server_eta : Eta DiffractLLMServer := fun s =>
  mkServer (MaxBodySizeKB s) (CtxPool s) (HookEngine_ s) (selectionEngine s) (ProviderRegistry s).

(** The choices and clock readings of one request. *)
Record RequestEnv : Type := mkRequestEnv {
  which : option nat;
  clock : nat -> Z;
  rnd : f64;
  elapsed : nat -> Z
}.

(** The caches the handler reads. *)
Variables (key_cache : W -> KeyCache) (catalog : W -> ModelCatalog).

Record Routed : Type := mkRouted {
  ad_request : DiffractLLMChatCompletionRequest;
  ad_provider : ProviderInstance;
  ad_credential : Credential;
  ad_pricing : Pricing
}.

(** The part of the handler before the provider call; every [writeErr; return] of it is an [Err]. *)
Definition route (ds : DiffractLLMServer) (desc : RouteDescriptor) (env : RequestEnv) (r : Incoming)
    (st : W * DiffractLLMContext)
    : option (SelectionEngine Src * (W * DiffractLLMContext) * result DiffractLLMError Routed) :=
  let '(w, rctx) := st in
  let se := ds.(selectionEngine) in
  match ValidatevKeyAuth (env.(clock) 1%nat) (key_cache w) rctx with
  | (Some authErr, rctx) => Some (se, (w, rctx), Err authErr)
  | (None, rctx) =>
      let rctx := Mark rctx StageAuth (env.(clock) 2%nat) in
      match readBody ds.(MaxBodySizeKB) r with
      | Err err => Some (se, (w, rctx), Err err)
      | Ok body =>
          let rctx := Mark (rctx <| BodyBytes := Some body |>) StageReadBody (env.(clock) 3%nat) in
          match Parse desc body with
          | Err cause => Some (se, (w, rctx), Err (NewInvalidRequestBody "parsing request" (Some cause)))
          | Ok payload =>
              let '(rctx, dfRequest) := ToDiffract desc payload rctx in
              let rctx := Mark rctx StageParse (env.(clock) 4%nat) in
              '((w, rctx), err) ← RunPreCallHooks env.(elapsed) ds.(HookEngine_) (w, rctx);
              match err with
              | Some err => Some (se, (w, rctx), Err err)
              | None =>
                  let rctx := Mark rctx StageAdmission (env.(clock) 5%nat) in
                  '(se, rctx, cred) ← Resolve env.(rnd) se rctx;
                  match cred with
                  | Err err => Some (se, (w, rctx), Err err)
                  | Ok cred =>
                      match ResolvePrice (catalog w) rctx.(VirtualKeyID) rctx.(Modelkey) EmptySelectorKey with
                      | None => Some (se, (w, rctx), Err (NewUnpricedModel (SlashKey rctx.(Modelkey))))
                      | Some pricing =>
                          let rctx := rctx <| Pricing_ := Some pricing |> in
                          match Registry_Get ds.(ProviderRegistry) rctx.(Modelkey).(KProvider) with
                          | Err dErr => Some (se, (w, rctx), Err dErr)
                          | Ok provInstance =>
                              '((w, rctx), err) ← RunPreProviderHooks env.(elapsed) ds.(HookEngine_) (w, rctx);
                              match err with
                              | Some err => Some (se, (w, rctx), Err err)
                              | None =>
                                  Some (se, (w, Mark rctx StageRouting (env.(clock) 6%nat)),
                                    Ok (mkRouted dfRequest provInstance cred pricing))
                              end
                          end
                      end
                  end
              end
          end
      end
  end.

(** The rest of the handler, down to the deferred functions. *)
Definition respond (ds : DiffractLLMServer) (desc : RouteDescriptor) (env : RequestEnv)
    (st : W * DiffractLLMContext) (a : result DiffractLLMError Routed) : option (W * DiffractLLMContext) :=
  match a with
  | Err err => rctx ← writeErr desc st.2 err; Some (st.1, rctx)
  | Ok a =>
      rctx ← (if String.eqb desc.(DRequestKind) ChatRequest
              then chatCompletion desc a.(ad_provider) a.(ad_credential) a.(ad_pricing) a.(ad_request)
                     (env.(clock) 7%nat) st.2
              else writeErr desc st.2 (NewInternalError "server handler" "unknown request kind" None));
      RunPostProviderHooks env.(elapsed) ds.(HookEngine_) (st.1, rctx)
  end.

(** The server and the world afterwards, and the context as it was released. *)
Definition GenericRequestHandler (ds : DiffractLLMServer) (desc : RouteDescriptor) (env : RequestEnv)
    (r : Incoming) (w : W) : option (DiffractLLMServer * W * DiffractLLMContext) :=
  let '(pool, rctx) := Pool_Acquire ds.(CtxPool) env.(which) r.(in_ctx) r.(in_request) r.(in_writer) in
  let rctx := rctx <| RequestID := deref "" (r.(in_writer).(WHeader) !! "X-Request-Id") |>
                   <| SDKProvider := desc.(SDK) |> <| RequestKind_ := desc.(DRequestKind) |>
                   <| StartedAt := env.(clock) 0%nat |> in
  '(se, st, a) ← route ds desc env r (w, rctx);
  st ← respond ds desc env st a;
  '(w, rctx) ← RunPostCallHooks env.(elapsed) ds.(HookEngine_) st;
  Some (ds <| CtxPool := Pool_Release pool rctx |> <| selectionEngine := se |>, w, rctx).
End server.
Arguments DiffractLLMServer : clear implicits.
