(* ===== verification/ServerChat.v ===== *)
(** * Chat completions: what a call does to the context

    Whatever the provider and the client do, the response is written through the context's own
    writer, nothing of the request's identity changes, and the cost is the price of the usage. *)

From S2P Require Import Prelude GoBase Float64 Errors Catalog Money Pricing Credential Context Chat OpenAI Providers Server.

(** ** Writing *)

(** The context up to what a response writes. *)
Definition wmask (c : DiffractLLMContext) : DiffractLLMContext :=
  c <| Writer := None |> <| ResponseBytes := 0%Z |> <| ResponseBody := None |> <| aborted := false |>
    <| ResponseStatus := 0%Z |> <| CError := None |>.

Definition writes (c c' : DiffractLLMContext) : Prop := is_Some c'.(Writer) /\ wmask c' = wmask c.

Lemma writes_trans a b c : writes a b -> writes b c -> writes a c.
Proof. intros [_ H1] [H2 H3]. split; [done|congruence]. Qed.

Lemma Write_writes c p : is_Some c.(Writer) ->
  exists c' n err, Context_Write c p = Some (c', n, err) /\ writes c c'.
Proof.
  intros [w Hw]. unfold Context_Write. rewrite Hw. cbn [mbind option_bind].
  destruct (writer_Write w p) as [[w' n] err]. eexists _, _, _. split; [reflexivity|]. split; [by eexists|done].
Qed.

Lemma Flush_writes c : is_Some c.(Writer) -> writes c (Flush c).
Proof.
  intros [w Hw]. unfold Flush. rewrite Hw. destruct (WFlusher w); (split; [|done]); [by eexists | by rewrite Hw].
Qed.

Lemma SetHeader_writes c k v : is_Some c.(Writer) -> exists c', SetHeader c k v = Some c' /\ writes c c'.
Proof.
  intros [w Hw]. unfold SetHeader. rewrite Hw. eexists. split; [reflexivity|]. split; [by eexists|done].
Qed.

Lemma JSON_writes c code data : is_Some c.(Writer) ->
  exists c', Context_JSON c code data = Some c' /\ writes c c'.
Proof.
  intros Hw. unfold Context_JSON. destruct data as [data|]; [|by exists c].
  destruct (SetHeader_writes (c <| ResponseBody := Some data |>) "Content-Type"
    "application/json; charset=utf-8" ltac:(exact Hw)) as (c1 & -> & [w1 Hw1] & Hm1).
  cbn [mbind option_bind]. rewrite Hw1. cbn [mbind option_bind].
  destruct (Write_writes (c1 <| Writer := Some (WriteHeader w1 code) |>) data) as (c2 & n & err & -> & Hs & Hm2);
    [by eexists|].
  cbn [mbind option_bind]. eexists. split; [reflexivity|]. split; [done|].
  change (wmask (c2 <| aborted := true |>)) with (wmask c2). rewrite Hm2. exact Hm1.
Qed.

Lemma WriteSSE_writes c event body : is_Some c.(Writer) ->
  exists c' err, WriteSSE c event body = Some (c', err) /\ writes c c'.
Proof.
  intros Hw. unfold WriteSSE. destruct (Write_writes c (sse_frame event body) Hw) as (c1 & n & err & -> & H1).
  cbn [mbind option_bind]. destruct err; eexists _, _; (split; [reflexivity|]); [done|].
  eapply writes_trans; [exact H1|]. apply Flush_writes, H1.
Qed.

Lemma writeSSE_writes c event payload : is_Some c.(Writer) ->
  exists c' err, writeSSE c event payload = Some (c', err) /\ writes c c'.
Proof.
  intros Hw. unfold writeSSE. destruct payload as [body|e]; [by apply WriteSSE_writes|].
  eexists _, _. split; [reflexivity|]. by split.
Qed.

Lemma writeErr_writes desc c e : is_Some c.(Writer) ->
  exists c', writeErr desc c e = Some c' /\ writes c c'.
Proof.
  intros Hw. unfold writeErr. destruct (JSON_writes (c <| ResponseStatus := StatusCode e |> <| CError := Some e |>)
    (StatusCode e) (ok_value (FromDiffractError desc e).2) ltac:(exact Hw)) as (c' & Hc & Hs & Hm). by exists c'.
Qed.

Lemma stream_headers_writes c : is_Some c.(Writer) -> exists c', stream_headers c = Some c' /\ writes c c'.
Proof.
  intros Hw. unfold stream_headers.
  destruct (SetHeader_writes c "Content-Type" "text/event-stream" Hw) as (c1 & -> & H1).
  destruct (SetHeader_writes c1 "Cache-Control" "no-cache" (proj1 H1)) as (c2 & E2 & H2).
  destruct (SetHeader_writes c2 "Connection" "keep-alive" (proj1 H2)) as (c3 & E3 & H3).
  destruct (SetHeader_writes c3 "X-Accel-Buffering" "no" (proj1 H3)) as (c4 & E4 & [w Hw4] & H4).
  cbn [mbind option_bind]. rewrite E2. cbn [mbind option_bind]. rewrite E3. cbn [mbind option_bind].
  rewrite E4. cbn [mbind option_bind]. rewrite Hw4. cbn [mbind option_bind].
  eexists. split; [reflexivity|].
  eapply writes_trans; [exact H1|]. eapply writes_trans; [exact H2|]. eapply writes_trans; [exact H3|].
  eapply writes_trans; [|apply Flush_writes; by eexists]. split; [by eexists|]. exact H4.
Qed.

(** ** Calling *)

(** The context up to what a chat completion writes. *)
Definition cmask (c : DiffractLLMContext) : DiffractLLMContext :=
  wmask (mask c) <| Usage_ := None |> <| Cost := f64_zero |> <| StreamChunks := 0%Z |>
    <| StreamFinishReason := "" |> <| StreamAborted := false |> <| RequestCompleted := false |>.

Lemma writes_cmask c c' : writes c c' -> cmask c' = cmask c.
Proof. intros [_ H]. exact (f_equal cmask H). Qed.
Lemma writes_usage c c' : writes c c' -> c'.(Usage_) = c.(Usage_) /\ c'.(Cost) = c.(Cost).
Proof. intros [_ H]. split; [exact (f_equal Usage_ H) | exact (f_equal Cost H)]. Qed.

(** [called c c']: a call in progress turned [c] into [c'], before the price is known. *)
Definition called (c c' : DiffractLLMContext) : Prop :=
  is_Some c'.(Writer) /\ cmask c' = cmask c /\ c'.(Cost) = c.(Cost).

Lemma called_trans a b c : called a b -> called b c -> called a c.
Proof. intros (_ & H1 & H2) (H3 & H4 & H5). unfold called. splits; [done|congruence|congruence]. Qed.

Lemma writes_called c c' : writes c c' -> called c c'.
Proof. intros H. unfold called. splits; [apply H | by apply writes_cmask | by apply writes_usage]. Qed.

Lemma mask_called c c' : is_Some c.(Writer) -> mask c' = mask c -> called c c' /\ c'.(Usage_) = c.(Usage_).
Proof.
  intros [w Hw] H. assert (E : c'.(Writer) = c.(Writer)) by exact (f_equal Writer H).
  unfold called. splits; [by rewrite E; eexists | exact (f_equal cmask H) | exact (f_equal Cost H) | exact (f_equal Usage_ H)].
Qed.

(** A step that keeps the writer and everything [called] asks for. *)
Ltac same_called := split; [assumption | split; reflexivity].

Lemma on_chunk_called desc first c chunk gone :
  is_Some c.(Writer) -> chunk_wf (chunk, gone) ->
  exists c' v, on_chunk desc first c chunk gone = Some (c', v) /\ called c c'.
Proof.
  intros Hw Hwf. unfold on_chunk. destruct gone; [eexists _, _; split; [reflexivity|]; same_called|].
  destruct chunk as [chunk|]; [|eexists _, _; split; [reflexivity|]; same_called].
  set (c1 := match env_Usage _ with Some _ => _ | None => _ end).
  assert (H1 : called c c1).
  { unfold c1. destruct (env_Usage (chunk_Envelope chunk)) as [u|]; [|same_called].
    destruct (Usage_ c) as [u0|]; [destruct (_ <=? _)%Z|]; same_called. }
  set (c2 := match chunk_Choices chunk with
             | ch :: _ => match sch_FinishReason ch with
                          | Some reason => c1 <| StreamFinishReason := reason |>
                          | None => c1
                          end
             | [] => c1
             end).
  assert (H2 : called c1 c2).
  { unfold c2. pose proof (proj1 H1). destruct (chunk_Choices chunk) as [|ch ?]; [same_called|].
    destruct (sch_FinishReason ch); same_called. }
  set (c3 := if (StreamChunks c2 =? 0)%Z then Mark c2 StageFirstToken first else c2).
  assert (H3 : called c2 c3).
  { pose proof (proj1 H2). unfold c3. destruct (StreamChunks c2 =? 0)%Z; same_called. }
  set (c4 := c3 <| StreamChunks ::= fun n => wrap32 (n + 1) |>).
  assert (H4 : called c c4).
  { eapply called_trans; [exact H1|]. eapply called_trans; [exact H2|]. eapply called_trans; [exact H3|].
    pose proof (proj1 H3). same_called. }
  clearbody c4. clear H1 H2 H3.
  assert (Hok : exists c' v, ('(event, payload) ← Some (FromDiffractStream desc chunk);
      '(rctx, err) ← writeSSE c4 event payload;
      if err : bool then Some (client_gone rctx, Stop) else Some (rctx, Continue)) = Some (c', v) /\ called c c').
  { cbn [mbind option_bind]. destruct (FromDiffractStream desc chunk) as [event payload].
    destruct (writeSSE_writes c4 event payload (proj1 H4)) as (c5 & err & -> & H5). cbn [mbind option_bind].
    apply writes_called in H5. assert (Hc5 : called c c5) by (by eapply called_trans).
    destruct err; eexists _, _; (split; [reflexivity|]); [|done].
    eapply called_trans; [exact Hc5|]. pose proof (proj1 Hc5). same_called. }
  cbn [mbind option_bind] in Hok.
  destruct (chunk_Type chunk) eqn:Ht; try exact Hok.
  destruct (Hwf eq_refl chunk eq_refl Ht) as [e ->].
  destruct (FromDiffractError desc e) as [event payload].
  destruct (writeSSE_writes c event payload Hw) as (c5 & err & -> & H5). cbn [mbind option_bind].
  apply writes_called in H5. eexists _, _. split; [reflexivity|].
  eapply called_trans; [exact H5|]. pose proof (proj1 H5). same_called.
Qed.

Lemma chunk_loop_called desc first c chunks :
  is_Some c.(Writer) -> Forall chunk_wf chunks ->
  exists c' v, chunk_loop desc first c chunks = Some (c', v) /\ called c c'.
Proof.
  intros Hw Hwf. revert c Hw. induction Hwf as [|[chunk gone] chunks Hc _ IH]; intros c Hw; cbn [chunk_loop].
  { eexists _, _. split; [reflexivity|]. same_called. }
  destruct (on_chunk_called desc first c chunk gone Hw Hc) as (c1 & v & -> & H1). cbn [mbind option_bind].
  destruct v; [|eauto]. destruct (IH c1 (proj1 H1)) as (c2 & v & -> & H2). eauto using called_trans.
Qed.

Lemma stream_end_called desc c gone : is_Some c.(Writer) ->
  exists c', stream_end desc c gone = Some c' /\ called c c'.
Proof.
  intros Hw. unfold stream_end. destruct gone; [eexists; split; [reflexivity|]; same_called|].
  destruct (StreamDone desc) as [event payload].
  destruct (WriteSSE_writes c event payload Hw) as (c1 & err & -> & H1). cbn [mbind option_bind].
  apply writes_called in H1. pose proof (proj1 H1).
  destruct err; (eexists; split; [reflexivity|]); (eapply called_trans; [exact H1|]); same_called.
Qed.

(** ** The price *)

(** The cost recorded is that of the usage recorded. *)
Definition billed (pricing : Pricing) (c : DiffractLLMContext) : Prop :=
  c.(Cost) = match c.(Usage_) with
             | None => f64_zero
             | Some u => FromNanoUSD (ToNanoUSD (CalculateCost pricing u))
             end.

Lemma price_billed pricing c : c.(Cost) = f64_zero -> billed pricing (price c (Some pricing)).
Proof. intros H. unfold billed, price. by destruct (Usage_ c) eqn:E; cbn [Usage_ Cost field_upd]; rewrite E. Qed.

Lemma price_masks pricing c : cmask (price c (Some pricing)) = cmask c /\
  (price c (Some pricing)).(Writer) = c.(Writer).
Proof. unfold price. by destruct (Usage_ c). Qed.

(** A chat completion never panics, keeps the identity of the request, and records the price of
    the usage it recorded; a call the provider refuses records neither. *)
Lemma chatCompletion_spec desc p `{!ProviderLaws p} cred pricing req first c :
  is_Some c.(Writer) -> c.(Usage_) = None -> c.(Cost) = f64_zero ->
  exists c', chatCompletion desc p cred pricing req first c = Some c' /\
    is_Some c'.(Writer) /\ cmask c' = cmask c /\ billed pricing c'.
Proof.
  intros Hw Hu Hc. unfold chatCompletion.
  assert (Herr : forall c1 e, called c c1 -> c1.(Usage_) = None -> exists c', writeErr desc c1 e = Some c' /\
    is_Some c'.(Writer) /\ cmask c' = cmask c /\ billed pricing c').
  { intros c1 e (Hw1 & Hm1 & Hc1) Hu1. destruct (writeErr_writes desc c1 e Hw1) as (c2 & Hr & H2). exists c2.
    destruct (writes_usage _ _ H2) as [HU HC].
    splits; [done|apply H2|rewrite (writes_cmask _ _ H2); congruence|]. unfold billed. rewrite HU, Hu1, HC. congruence. }
  destruct (Request_IsStreaming req).
  - destruct Hw as [w Hw]. rewrite Hw. cbn [mbind option_bind].
    destruct (negb (WFlusher w)). { apply Herr; [|done]. unfold called. splits; [by eexists|done|done]. }
    destruct (stream_answers c req cred) as (c1 & res & -> & Hm & Hres). cbn [mbind option_bind].
    destruct (mask_called c c1) as [H1 HU1]; [by eexists|done|].
    destruct res as [stream|e]; [|apply Herr; [done|congruence]].
    destruct (stream_headers_writes c1 (proj1 H1)) as (c2 & -> & H2). cbn [mbind option_bind].
    apply writes_called in H2.
    destruct (chunk_loop_called desc first c2 (received stream) (proj1 H2) Hres) as (c3 & v & -> & H3).
    cbn [mbind option_bind].
    assert (Hend : exists c4, match v with Continue => stream_end desc c3 (cancelled_at_end stream)
        | Stop => Some c3 end = Some c4 /\ called c3 c4).
    { destruct v; [by apply stream_end_called, H3 | exists c3; split; [done|]].
      pose proof (proj1 H3). same_called. }
    destruct Hend as (c4 & He & H4).
    assert (H04 : called c c4) by eauto using called_trans.
    exists (price c4 (Some pricing)). rewrite He. cbn [mbind option_bind].
    destruct (price_masks pricing c4) as [Hm4 Hw4]. destruct H04 as (Hw04 & Hm04 & Hc04).
    splits; [done|by rewrite Hw4|congruence|apply price_billed; congruence].
  - destruct (chat_answers c req cred) as (c1 & res & -> & Hm). cbn [mbind option_bind].
    destruct (mask_called c c1 Hw Hm) as [(Hw1 & Hm1 & Hc1) HU1].
    destruct res as [resp|e]; [|apply Herr; [unfold called; splits; done|congruence]].
    set (c2 := c1 <| Usage_ := env_Usage (res_Envelope resp) |>).
    destruct (price_masks pricing c2) as [Hm3 Hw3].
    pose proof (price_billed pricing c2 ltac:(cbn; congruence)) as Hb.
    set (c3 := price c2 (Some pricing)) in *. clearbody c3.
    destruct (JSON_writes (c3 <| ResponseStatus := StatusOK |>) StatusOK (ok_value (FromDiffract desc resp)))
      as (c4 & -> & H4); [cbn; by rewrite Hw3|].
    cbn [mbind option_bind]. eexists. split; [reflexivity|].
    destruct (writes_usage _ _ H4) as [HU HC]. cbn [Usage_ Cost field_upd] in HU, HC.
    splits; [apply H4| |].
    + change (cmask (c4 <| RequestCompleted := true |>)) with (cmask c4).
      rewrite (writes_cmask _ _ H4). change (cmask (c3 <| ResponseStatus := StatusOK |>)) with (cmask c3).
      rewrite Hm3. exact Hm1.
    + unfold billed in *. change (Usage_ (c4 <| RequestCompleted := true |>)) with (Usage_ c4).
      change (Cost (c4 <| RequestCompleted := true |>)) with (Cost c4). rewrite HU, HC. exact Hb.
Qed.
