(* ===== verification/Gateway.v ===== *)
(** * The gateway put together ([governance/hooks.go], [server.go], [handlers.go])

    The server as [NewDiffractLLMServer] builds it, with the hooks governance registers, and what
    the handler of a model endpoint does with a request from beginning to end. *)

From S2P Require Import Prelude GoBase Float64 Errors Catalog Money Pricing VirtualKey Credential Config Context KeyFormat Hooks Selection Gorm Atomic StoreBudget Usage Budget BudgetJobs BudgetHooks Governance ModelCatalog Chat OpenAI Providers Server ServerChat.

Section gateway.
Context {Db UDb : Type} `{Gorm Db StoreBudget} `{!GormLaws Db StoreBudget} `{UsageTable UDb}.
Context {Src : Type} `{CredentialSource Src} `{!CredentialSourceLaws Src}.
(** The state of the post-call hooks others register, such as the metrics engine. *)
Context {M : Type}.

(** What a request shares with the rest of the gateway. *)
Record World : Type := mkWorld {
  gov : GovState Db UDb;
  keys : KeyCache;
  cat : ModelCatalog;
  metrics : M
}.
#[export] Instance World_eta : Eta World := fun w => mkWorld (gov w) (keys w) (cat w) (metrics w).

(** ** The hooks governance registers *)

Definition model_access_hook : Hook World :=
  mkHook "model-access" (fun w rctx =>
    let '(err, rctx) := ModelAccess_Execute (Some w.(cat)) rctx in (w, rctx, err)).

Definition budget_hook : Hook World :=
  mkHook "budget" (fun w rctx =>
    let '(err, s) := run exec (BudgetHook_Execute rctx) w.(gov) in (w <| gov := s |>, rctx, err)).

Definition record_hook : Hook World :=
  mkHook "record_usage" (fun w rctx =>
    let '(err, s) := run exec (RecordHook_Execute rctx) w.(gov) in (w <| gov := s |>, rctx, err)).

(** A call whose error is dropped. *)
Definition ignore_err {E A} (r : result E A) (old : A) : A := match r with Ok a => a | Err _ => old end.

Definition RegisterHooks (engine : HookEngine World) : HookEngine World :=
  let engine := ignore_err (AddPreCallHook engine model_access_hook) engine in
  let engine := ignore_err (AddPreCallHook engine budget_hook) engine in
  ignore_err (AddPostProviderHook engine record_hook) engine.

Definition NewDiffractLLMServer (config : ServerConfig) (se : SelectionEngine Src) (registry : Registry) :
    DiffractLLMServer World Src :=
  mkServer config.(MaxBodySize) [] (RegisterHooks NewHookEngine) se registry.

Abbreviation Server := (DiffractLLMServer World Src).
Abbreviation serve := (GenericRequestHandler keys cat).
Abbreviation decide_route := (route keys cat).

(** ** Well-formed servers *)

(** A context as the pool hands it out. *)
Definition pristine (c : DiffractLLMContext) : Prop :=
  c.(Usage_) = None /\ c.(Cost) = f64_zero /\ (forall s, logged s c.(HookLog_) []).

(** The hooks of governance in their stages and any hooks after the call that only observe. *)
Record server_ok (ds : Server) (observers : list (Hook World)) : Prop := mkServerOk {
  so_hooks : Hooks.engine_ok ds.(HookEngine_) [model_access_hook; budget_hook] [] [record_hook] observers;
  so_observers : Forall (fun h => forall s k c, observes (fun w => gov w = s /\ keys w = k /\ cat w = c) h) observers;
  so_pool : Forall pristine ds.(CtxPool);
  so_selection : Selection.engine_ok ds.(selectionEngine);
  so_providers n p : ds.(ProviderRegistry) !! n = Some p -> ProviderLaws p
}.

(** Every key the cache serves has an ID and names its providers. *)
Definition keys_ok (c : KeyCache) : Prop :=
  forall k vk, LookupVkey c k = Some vk ->
    vk.(VKID) <> "" /\ Forall (fun cfg => cfg.(PCProvider) <> "") vk.(ProviderConfigs).

Definition world_ok (w : World) : Prop := cells_ok w.(gov) /\ keys_ok w.(keys).

(** Decoding a request records the model it names and nothing else. *)
Class RouteLaws (desc : RouteDescriptor) : Type := {
  wire_model : Wire desc -> string;
  ToDiffract_context p c : (ToDiffract desc p c).1 = c <| RequestedModel := wire_model p |>
}.

(** ** What a request needs to reach a provider *)

Definition model_ok (w : World) (c : DiffractLLMContext) (vk : VirtualKey) : bool :=
  negb (is_empty (TrimSpace c.(RequestedModel))) && permitted (Some w.(cat)) c vk.

Definition budget_ok (w : World) (id : string) : bool :=
  negb (is_empty id) && match entry w.(gov) id with Some b => negb (exhausted b) | None => false end.

(** The context once the request is decoded, as far as routing reads it. *)
Definition asking {desc} `{!RouteLaws desc} (c : DiffractLLMContext) (p : Wire desc) : DiffractLLMContext :=
  c <| RequestedModel := wire_model p |>.

(** The request [p] of the client behind [c] is admitted under the key [vk]. *)
Record admissible (ds : Server) (desc : RouteDescriptor) `{!RouteLaws desc} (env : RequestEnv) (r : Incoming)
    (w : World) (c : DiffractLLMContext) (vk : VirtualKey) (p : Wire desc) : Prop := mkAdmissible {
  ad_auth : authenticates (env.(clock) 1%nat) w.(keys) c vk;
  ad_body : exists body, readBody ds.(MaxBodySizeKB) r = Ok body /\ Parse desc body = Ok p;
  ad_model : model_ok w (asking c p) vk = true;
  ad_budget : budget_ok w vk.(VKBudgetID) = true
}.

(** The providers a request for [key] may be routed to, and whether one of them has a credential
    for it, a price and an implementation. *)
Definition eligible (key : CatalogKey) (vk : VirtualKey) (cfg : ProviderConfig) : Prop :=
  cfg ∈ vk.(ProviderConfigs) /\ (key.(KProvider) = "" \/ key.(KProvider) = cfg.(PCProvider)).

Definition servable (ds : Server) (w : World) (vk : VirtualKey) (key : CatalogKey) (cfg : ProviderConfig) : Prop :=
  is_Some (ResolvePrice w.(cat) vk.(VKID) (config_key key cfg) EmptySelectorKey) /\
  is_Some (ds.(ProviderRegistry) !! cfg.(PCProvider)).

Definition candidates (ds : Server) (key : CatalogKey) (cfg : ProviderConfig) : list Credential :=
  Candidates ds.(selectionEngine).(providerplane) (config_key key cfg).

(** ** The hooks, run *)

Lemma strip_eq c1 c2 : strip c1 = strip c2 -> c2 = c1 <| HookLog_ := c2.(HookLog_) |>.
Proof. intros E. destruct c1, c2. injection E. intros; subst; reflexivity. Qed.

Lemma log_blind_upd (hook : Hook World) :
  (forall w c l, hook.(Execute) w (c <| HookLog_ := l |>) =
     let '(w', c', e) := hook.(Execute) w c in (w', c' <| HookLog_ := l |>, e)) ->
  keeps_log hook -> log_blind hook.
Proof.
  intros Hu Hk w c1 c2 E%strip_eq. rewrite E, Hu. specialize (Hk w c1).
  destruct (Execute hook w c1) as [[w' c'] e]. by splits.
Qed.

Lemma ModelAccess_log (catalog : option ModelCatalog) c l :
  ModelAccess_Execute catalog (c <| HookLog_ := l |>) =
    ((ModelAccess_Execute catalog c).1, (ModelAccess_Execute catalog c).2 <| HookLog_ := l |>) /\
  (ModelAccess_Execute catalog c).2.(HookLog_) = c.(HookLog_).
Proof.
  unfold ModelAccess_Execute. set (c' := c <| HookLog_ := l |>).
  change (VirtualKeyPolicy c') with (VirtualKeyPolicy c). change (RequestedModel c') with (RequestedModel c).
  change (RequestKind_ c') with (RequestKind_ c).
  destruct (VirtualKeyPolicy c) as [vk|]; [|done]. destruct (is_empty (TrimSpace _)); [done|].
  destruct (ParseModelString _) as [p n]. destruct (is_empty p); cbn [negb].
  - destruct (IsModelKeyAllowed _ _); [|done]. by destruct (catalogReady catalog && _).
  - destruct (VirtualKey_ProviderConfig _ _); [|done]. destruct (negb _); [done|]. by destruct (_ && _).
Qed.

Lemma model_access_blind : log_blind model_access_hook.
Proof.
  apply log_blind_upd.
  - intros w c l. cbn [Execute model_access_hook]. rewrite (proj1 (ModelAccess_log _ c l)).
    by destruct (ModelAccess_Execute _ c).
  - intros w c. cbn [Execute model_access_hook]. pose proof (proj2 (ModelAccess_log (Some w.(cat)) c (HookLog_ c))) as E.
    by destruct (ModelAccess_Execute _ c).
Qed.

Lemma budget_blind : log_blind budget_hook.
Proof.
  apply log_blind_upd; intros w c; cbn [Execute budget_hook].
  - intros l. change (BudgetHook_Execute (c <| HookLog_ := l |>)) with (BudgetHook_Execute c).
    by destruct (run exec (BudgetHook_Execute c) (gov w)).
  - by destruct (run exec (BudgetHook_Execute c) (gov w)).
Qed.

Lemma record_blind : log_blind record_hook.
Proof.
  apply log_blind_upd; intros w c; cbn [Execute record_hook].
  - intros l. change (RecordHook_Execute (c <| HookLog_ := l |>)) with (RecordHook_Execute c).
    by destruct (run exec (RecordHook_Execute c) (gov w)).
  - by destruct (run exec (RecordHook_Execute c) (gov w)).
Qed.

Lemma exec_governance w c vk : c.(VirtualKeyPolicy) = Some vk ->
  exists k err, (exec_pre [model_access_hook; budget_hook] (w, c)).1 = ((w, c <| Modelkey := k |>), err) /\
    match err with
    | None => model_ok w c vk = true /\ budget_ok w c.(BudgetRef) = true /\ k = requested_key c
    | Some _ => model_ok w c vk && budget_ok w c.(BudgetRef) = false
    end.
Proof.
  intros Hvk. cbn [exec_pre Execute model_access_hook budget_hook fst snd].
  assert (Hsame : c = c <| Modelkey := Modelkey c |>) by (by destruct c).
  unfold model_ok. destruct (is_empty (TrimSpace (RequestedModel c))) eqn:He; cbn [negb andb].
  { exists (Modelkey c). rewrite <- Hsame. unfold ModelAccess_Execute. rewrite Hvk, He. cbn. eexists. by split. }
  pose proof (ModelAccess_run (Some (cat w)) c vk Hvk ltac:(by apply is_empty_false)) as Hrun.
  destruct (permitted _ c vk).
  2: { destruct Hrun as (e & -> & _). exists (Modelkey c). rewrite <- Hsame. cbn. eexists. by split. }
  rewrite Hrun. cbn [fst snd]. set (c1 := c <| Modelkey := requested_key c |>).
  unfold BudgetHook_Execute, budget_ok. change (BudgetRef c1) with (BudgetRef c).
  assert (Hw : w <| gov := gov w |> = w) by (by destruct w).
  destruct (is_empty (BudgetRef c)); cbn [negb andb].
  { cbn [run fst snd]. exists (requested_key c). rewrite Hw. eexists. by split. }
  unfold mbind, prog_mbind, entry. rewrite (run_bind exec). cbn [run exec LookupBudget act].
  destruct (BudgetMap (gov w) !! BudgetRef c) as [q|]; cbn [fmap option_fmap option_map].
  2: { cbn [run fst snd]. exists (requested_key c). rewrite Hw. eexists. by split. }
  rewrite (run_bind exec), CheckBudgetUsage_run.
  destruct (exhausted (get (gov w) q)); cbn [negb run fst snd]; exists (requested_key c); rewrite Hw; eexists; by split.
Qed.

Lemma pre_call_run elapsed ds observers w c vk :
  server_ok ds observers -> (forall s, logged s c.(HookLog_) []) -> c.(VirtualKeyPolicy) = Some vk ->
  exists k l err, RunPreCallHooks elapsed ds.(HookEngine_) (w, c)
      = Some ((w, c <| Modelkey := k |> <| HookLog_ := l |>), err) /\
    log_frame PreCall c.(HookLog_) l /\
    match err with
    | None => model_ok w c vk = true /\ budget_ok w c.(BudgetRef) = true /\ k = requested_key c
    | Some _ => model_ok w c vk && budget_ok w c.(BudgetRef) = false
    end.
Proof.
  intros Hds Hlog Hvk. destruct (so_hooks _ _ Hds) as (Hh & _).
  destruct (exec_governance w c vk Hvk) as (k & err & He & Hres).
  assert (Hb : Forall log_blind [model_access_hook; budget_hook])
    by (repeat constructor; [apply model_access_blind | apply budget_blind]).
  pose proof (run_pre_spec elapsed PreCall 0 [model_access_hook; budget_hook] w c c [] Hb (Hlog _) eq_refl) as Hr.
  specialize (Hr ltac:(cbn; unfold maxHooks; lia)).
  destruct (exec_pre _ _) as [[[w1 c1] err1] t]. injection He as -> -> ->.
  destruct Hr as (c2 & Hr & Hs & _). exists k, c2.(HookLog_), err.
  unfold RunPreCallHooks. rewrite (holds_take _ _ _ Hh), Hr. splits; [|by apply (run_pre_frame _ _ _ _ _ _ _
    (Forall_impl _ _ _ Hb log_blind_keeps) Hr)|done].
  do 3 f_equal. exact (strip_eq _ _ (eq_sym Hs)).
Qed.

(** ** Routing *)

Record after_routing (c c' : DiffractLLMContext) : Prop := mkAfterRouting {
  ar_writer : c'.(Writer) = c.(Writer);
  ar_usage : c'.(Usage_) = c.(Usage_);
  ar_cost : c'.(Cost) = c.(Cost);
  ar_logs s : s <> PreCall -> logged s c'.(HookLog_) [];
  ar_slots s : List.length (stage_results s c'.(HookLog_)) = maxHooks
}.

(** What a decision to serve, and one not to, mean. *)
Definition decision (ds : Server) (desc : RouteDescriptor) `{!RouteLaws desc} (env : RequestEnv) (r : Incoming)
    (w : World) (c c' : DiffractLLMContext) (res : result DiffractLLMError Routed) : Prop :=
  match res with
  | Ok a => exists vk p cfg, admissible ds desc env r w c vk p /\
      let key := requested_key (asking c p) in
      eligible key vk cfg /\ a.(ad_credential) ∈ candidates ds key cfg /\
      ResolvePrice w.(cat) vk.(VKID) (config_key key cfg) EmptySelectorKey = Some a.(ad_pricing) /\
      ds.(ProviderRegistry) !! cfg.(PCProvider) = Some a.(ad_provider) /\
      (c'.(ClientID), c'.(VirtualKeyID), c'.(BudgetRef), c'.(Modelkey))
        = (vk.(VKClientID), vk.(VKID), vk.(VKBudgetID), config_key key cfg)
  | Err e => forall vk p, admissible ds desc env r w c vk p ->
      let key := requested_key (asking c p) in
      (forall cfg, eligible key vk cfg -> candidates ds key cfg = []) \/
      (exists cfg, eligible key vk cfg /\ candidates ds key cfg <> [] /\ ~ servable ds w vk key cfg)
  end.

Lemma requested_key_named c : TrimSpace c.(RequestedModel) <> "" -> (requested_key c).(ModelName) <> "".
Proof.
  intros He. unfold requested_key. pose proof (ParseModelString_spec (TrimSpace (RequestedModel c))) as Hp.
  destruct (ParseModelString _) as [q name]. cbn [ModelName].
  destruct (is_empty q) eqn:Hq; [done|]. apply is_empty_false in Hq. by destruct Hp as [[-> _]|(_ & Hn & _)].
Qed.

Lemma authenticates_unique now k c vk vk' : authenticates now k c vk -> authenticates now k c vk' -> vk' = vk.
Proof. intros (_ & E1 & _) (_ & E2 & _). congruence. Qed.

Lemma route_run ds observers desc `{!RouteLaws desc} env r w c :
  server_ok ds observers -> keys_ok w.(keys) -> (forall s, logged s c.(HookLog_) []) ->
  exists se c' res, decide_route ds desc env r (w, c) = Some (se, (w, c'), res) /\
    Selection.engine_ok se /\ after_routing c c' /\ decision ds desc env r w c c' res.
Proof.
  intros Hds Hkeys Hlog. unfold route.
  assert (Hslots : forall s, List.length (stage_results s c.(HookLog_)) = maxHooks) by (intros s; apply (Hlog s)).
  assert (Hstay : forall c1 : DiffractLLMContext, c1.(Writer) = c.(Writer) -> c1.(Usage_) = c.(Usage_) -> c1.(Cost) = c.(Cost) ->
    c1.(HookLog_) = c.(HookLog_) -> after_routing c c1).
  { intros c1 E1 E2 E3 E4. by constructor; rewrite ?E4. }
  pose proof (so_selection _ _ Hds) as Hse.
  destruct (ValidatevKeyAuth_cases (clock env 1%nat) (keys w) c) as [(vk & Ha & ->)|(Hn & msg & ->)].
  2: { eexists _, _, _. split; [reflexivity|]. splits; [done|by apply Hstay|]. intros vk p Hadm.
       by destruct (Hn vk (ad_auth _ _ _ _ _ _ _ _ Hadm)). }
  destruct (Hkeys _ _ (proj1 (proj2 Ha))) as [Hid Hnames].
  destruct (readBody _ r) as [body|e] eqn:Hbody.
  2: { eexists _, _, _. split; [reflexivity|]. splits; [done|by apply Hstay|]. intros vk' p Hadm.
       destruct (ad_body _ _ _ _ _ _ _ _ Hadm) as (b & Hb & _). congruence. }
  destruct (Parse desc body) as [p|e] eqn:Hparse.
  2: { eexists _, _, _. split; [reflexivity|]. splits; [done|by apply Hstay|]. intros vk' p Hadm.
       destruct (ad_body _ _ _ _ _ _ _ _ Hadm) as (b & Hb & Hp). congruence. }
  assert (Hunique : forall vk' p', admissible ds desc env r w c vk' p' -> vk' = vk /\ p' = p).
  { intros vk' p' Hadm. destruct (ad_body _ _ _ _ _ _ _ _ Hadm) as (b & Hb & Hp).
    split; [exact (authenticates_unique _ _ _ _ _ Ha (ad_auth _ _ _ _ _ _ _ _ Hadm)) | congruence]. }
  match goal with |- context [ToDiffract desc p ?x] => pose proof (ToDiffract_context p x) as Hto;
    destruct (ToDiffract desc p x) as [c1 req] end.
  cbn [fst] in Hto. subst c1. match goal with |- context [RunPreCallHooks _ _ (w, ?x)] => set (c2 := x) end.
  destruct (pre_call_run (elapsed env) ds observers w c2 vk Hds Hlog eq_refl) as (k & l & err & -> & Hf & Hres).
  cbn [mbind option_bind].
  assert (Hafter : forall c3 : DiffractLLMContext, c3.(Writer) = c.(Writer) -> c3.(Usage_) = c.(Usage_) -> c3.(Cost) = c.(Cost) ->
    c3.(HookLog_) = l -> after_routing c c3).
  { intros c3 E1 E2 E3 E4. constructor; try done; rewrite E4; intros s.
    - intros Hs. by apply (log_frame_logged PreCall s c2.(HookLog_) l [] Hf Hs).
    - by rewrite (log_frame_length PreCall s _ _ Hf). }
  destruct err as [e|].
  { eexists _, _, _. split; [reflexivity|]. splits; [done|by apply Hafter|]. intros vk' p' Hadm.
    destruct (Hunique vk' p' Hadm) as [-> ->]. destruct Hadm as [_ _ Hm Hb]. exfalso.
    change (model_ok w c2 vk && budget_ok w (VKBudgetID vk) = false) in Hres.
    change (model_ok w c2 vk = true) in Hm. rewrite Hm, Hb in Hres. discriminate Hres. }
  destruct Hres as (Hm & Hb & ->).
  assert (Hadm : admissible ds desc env r w c vk p) by (constructor; [exact Ha|eauto|exact Hm|exact Hb]).
  match goal with |- context [Resolve _ _ ?x] => set (c3 := x) end.
  assert (Hname : c3.(Modelkey).(ModelName) <> "").
  { apply (requested_key_named c2). apply is_empty_false. unfold model_ok in Hm. by apply andb_prop in Hm as [?%negb_true_iff _]. }
  destruct (Resolve_run (rnd env) (selectionEngine ds) c3 vk Hse Hid eq_refl Hnames Hname)
    as (se & c4 & res & -> & Hse' & Hpp & Hresolved).
  cbn [mbind option_bind].
  change (requested_key c2) with (requested_key (asking c p)) in *.
  destruct res as [cred|e].
  2: { destruct Hresolved as [-> Hnone]. eexists _, _, _. split; [reflexivity|]. splits; [done|by apply Hafter|].
       intros vk' p' Hadm'. destruct (Hunique vk' p' Hadm') as [-> ->]. left. intros cfg [Hin He]. by apply Hnone. }
  destruct Hresolved as (cfg & Hin & He & -> & Hcand & Hcp & _).
  change (Modelkey c3) with (requested_key (asking c p)) in *.
  set (key := requested_key (asking c p)) in *.
  assert (Hel : eligible key vk cfg) by by split.
  assert (Hrefuse : forall c4 : DiffractLLMContext, ~ servable ds w vk key cfg ->
    decision ds desc env r w c c4 (Err (NewUnpricedModel ""))).
  { intros c4 Hs vk' p' Hadm'. destruct (Hunique vk' p' Hadm') as [-> ->]. right. exists cfg. splits; [done| |done].
    intros Hnil. unfold candidates in Hnil. fold key in Hnil. rewrite Hnil in Hcand. by apply elem_of_nil in Hcand. }
  match goal with |- context [ResolvePrice _ (VirtualKeyID ?x) (Modelkey ?x) _] =>
    change (VirtualKeyID x) with (VKID vk); change (Modelkey x) with (config_key key cfg) end.
  destruct (ResolvePrice (cat w) (VKID vk) (config_key key cfg) EmptySelectorKey) as [pricing|] eqn:Hprice.
  2: { eexists _, _, _. split; [reflexivity|]. splits; [done|by apply Hafter|]. apply (Hrefuse c3).
       intros [[x Hx] _]. congruence. }
  unfold Registry_Get. match goal with |- context [ProviderRegistry ds !! KProvider (Modelkey ?x)] =>
    change (KProvider (Modelkey x)) with (PCProvider cfg) end.
  destruct (ProviderRegistry ds !! PCProvider cfg) as [inst|] eqn:Hreg.
  2: { eexists _, _, _. split; [reflexivity|]. splits; [done|by apply Hafter|]. apply (Hrefuse c3).
       intros [_ [x Hx]]. congruence. }
  unfold RunPreProviderHooks. destruct (so_hooks _ _ Hds) as (_ & Hpp' & _). rewrite (holds_take _ _ _ Hpp').
  cbn [map run_pre mbind option_bind]. eexists _, _, _. split; [reflexivity|]. splits; [done|by apply Hafter|].
  exists vk, p, cfg. by splits.
Qed.

(** ** Answering *)

(** The state after the record hook. *)
Definition settled (c : DiffractLLMContext) (w : World) : World :=
  w <| gov := match c.(Usage_) with None => gov w | Some u => recorded c u (gov w) end |>.

Lemma post_provider_run elapsed ds observers w c :
  server_ok ds observers -> cells_ok w.(gov) -> logged PostProvider c.(HookLog_) [] ->
  exists l, RunPostProviderHooks elapsed ds.(HookEngine_) (w, c) = Some (settled c w, c <| HookLog_ := l |>) /\
    log_frame PostProvider c.(HookLog_) l.
Proof.
  intros Hds Hcells Hl. destruct (so_hooks _ _ Hds) as (_ & _ & Hh & _).
  assert (Hb : Forall log_blind [record_hook]) by (repeat constructor; apply record_blind).
  pose proof (run_post_spec elapsed PostProvider 0 [record_hook] w c c [] Hb Hl eq_refl) as Hr.
  specialize (Hr ltac:(cbn; unfold maxHooks; lia)).
  unfold RunPostProviderHooks. rewrite (holds_take _ _ _ Hh).
  cbn [exec_post Execute record_hook fst snd] in Hr. rewrite RecordHook_run in Hr by done. cbn [exec_post] in Hr.
  destruct Hr as (c2 & Hr & Hs & _). rewrite Hr. exists c2.(HookLog_). split.
  - unfold settled. do 2 f_equal. exact (strip_eq _ _ (eq_sym Hs)).
  - exact (run_post_frame _ _ _ _ _ _ (Forall_impl _ _ _ Hb log_blind_keeps) Hr).
Qed.

(** What the rest of the handler keeps of a context. *)
Definition rmask (c : DiffractLLMContext) : DiffractLLMContext := strip (cmask c).

Lemma cmask_log c c' : cmask c' = cmask c -> c'.(HookLog_) = c.(HookLog_).
Proof. intros E. exact (f_equal HookLog_ E). Qed.

Lemma respond_run ds observers desc env w c a :
  server_ok ds observers -> cells_ok w.(gov) -> is_Some c.(Writer) -> c.(Usage_) = None -> c.(Cost) = f64_zero ->
  logged PostProvider c.(HookLog_) [] ->
  match a with Ok a => ProviderLaws a.(ad_provider) | Err _ => True end ->
  exists c' l, respond ds desc env (w, c) a = Some (settled c' w, c' <| HookLog_ := l |>) /\
    cmask c' = cmask c /\ (l = c.(HookLog_) \/ log_frame PostProvider c.(HookLog_) l) /\
    (c'.(Usage_) = None \/ exists ok, a = Ok ok /\ billed ok.(ad_pricing) c').
Proof.
  intros Hds Hcells Hw Hu Hc Hl Hlaws. unfold respond. cbn [fst snd].
  destruct a as [a|e].
  2: { destruct (writeErr_writes desc c e Hw) as (c1 & -> & H1'). cbn [mbind option_bind].
       destruct (writes_usage _ _ H1') as [HU _]. pose proof (writes_cmask _ _ H1') as Hm.
       exists c1, c.(HookLog_). unfold settled. rewrite HU, Hu. splits; auto.
       do 2 f_equal; [by destruct w|]. rewrite <- (cmask_log _ _ Hm). by destruct c1. }
  assert (Hbody : exists c1, (if String.eqb (DRequestKind desc) ChatRequest
      then chatCompletion desc (ad_provider a) (ad_credential a) (ad_pricing a) (ad_request a) (clock env 7%nat) c
      else writeErr desc c (NewInternalError "server handler" "unknown request kind" None)) = Some c1 /\
      cmask c1 = cmask c /\ billed (ad_pricing a) c1).
  { destruct (String.eqb _ _).
    - destruct (chatCompletion_spec desc (ad_provider a) (ad_credential a) (ad_pricing a) (ad_request a)
        (clock env 7%nat) c Hw Hu Hc) as (c1 & H1' & _ & Hm & Hb). eauto.
    - destruct (writeErr_writes desc c (NewInternalError "server handler" "unknown request kind" None) Hw)
        as (c1 & H1' & H2). exists c1. destruct (writes_usage _ _ H2) as [HU HC].
      splits; [done | by apply writes_cmask |]. unfold billed. rewrite HU, Hu. congruence. }
  destruct Hbody as (c1 & -> & Hm & Hb). cbn [mbind option_bind].
  destruct (post_provider_run (elapsed env) ds observers w c1 Hds Hcells) as (l & Hr & Hf).
  { by rewrite (cmask_log _ _ Hm). }
  exists c1, l. rewrite (cmask_log _ _ Hm) in Hf. splits; eauto.
Qed.

(** ** One request from beginning to end *)

(** The context a request starts with and the pool it leaves. *)
Definition arrival (ds : Server) (desc : RouteDescriptor) (env : RequestEnv) (r : Incoming) :
    list DiffractLLMContext * DiffractLLMContext :=
  let '(pool, rctx) := Pool_Acquire ds.(CtxPool) env.(which) r.(in_ctx) r.(in_request) r.(in_writer) in
  (pool, rctx <| RequestID := deref "" (r.(in_writer).(WHeader) !! "X-Request-Id") |>
              <| SDKProvider := desc.(SDK) |> <| RequestKind_ := desc.(DRequestKind) |>
              <| StartedAt := env.(clock) 0%nat |>).

Lemma NewContext_pristine : pristine NewContext.
Proof. unfold pristine. splits; [done|done|]. by intros []. Qed.

Lemma Context_reset_pristine c :
  (forall s, List.length (stage_results s c.(HookLog_)) = maxHooks) -> pristine (Context_reset c).
Proof. intros Hs. unfold pristine. splits; [done|done|]. intros s. specialize (Hs s). by destruct s. Qed.

Lemma arrival_spec ds desc env r : Forall pristine ds.(CtxPool) ->
  let '(pool, c) := arrival ds desc env r in
  Forall pristine pool /\ pristine c /\ is_Some c.(Writer) /\ c.(Request) = Some r.(in_request) /\
  c.(RequestKind_) = desc.(DRequestKind).
Proof.
  intros Hp. unfold arrival, Pool_Acquire.
  assert (Hc : exists pool c, match env.(which) ≫= (fun i => (fun rc => (i, rc)) <$> CtxPool ds !! i) with
      | Some (i, rc) => (delete i (CtxPool ds), rc) | None => (CtxPool ds, NewContext) end = (pool, c) /\
      Forall pristine pool /\ pristine c).
  { destruct (which env) as [i|]; cbn [mbind option_bind];
      [|exists (CtxPool ds), NewContext; splits; [done|done|apply NewContext_pristine]].
    destruct (CtxPool ds !! i) as [rc|] eqn:Hi; cbn [fmap option_fmap option_map];
      [|exists (CtxPool ds), NewContext; splits; [done|done|apply NewContext_pristine]].
    exists (delete i (CtxPool ds)), rc. splits; [done|by apply Forall_delete|exact (Forall_lookup_1 _ _ _ _ Hp Hi)]. }
  destruct Hc as (pool & c & -> & Hpool & Hc). cbn zeta. splits; [done|exact Hc|by eexists|done|done].
Qed.

(** The bill of a request that reached a provider. *)
Definition billed_to (ds : Server) (desc : RouteDescriptor) `{!RouteLaws desc} (env : RequestEnv) (r : Incoming)
    (w : World) (c : DiffractLLMContext) (u : Usage) : Prop :=
  exists vk p cfg pricing, let c0 := (arrival ds desc env r).2 in
    let key := requested_key (asking c0 p) in
    admissible ds desc env r w c0 vk p /\ eligible key vk cfg /\
    ResolvePrice w.(cat) vk.(VKID) (config_key key cfg) EmptySelectorKey = Some pricing /\
    c.(Cost) = FromNanoUSD (ToNanoUSD (CalculateCost pricing u)) /\
    (c.(ClientID), c.(VirtualKeyID), c.(BudgetRef), c.(Modelkey))
      = (vk.(VKClientID), vk.(VKID), vk.(VKBudgetID), config_key key cfg).

Lemma settled_log c l w : settled (c <| HookLog_ := l |>) w = settled c w.
Proof. done. Qed.

Lemma settled_ok c w : world_ok w -> world_ok (settled c w).
Proof.
  intros [Hc Hk]. split; [|exact Hk]. unfold settled. cbn [gov field_upd].
  destruct (Usage_ c) as [u|]; [apply recorded_spec, Hc | exact Hc].
Qed.

Lemma post_call_run elapsed ds observers w c :
  server_ok ds observers -> logged PostCall c.(HookLog_) [] ->
  exists w' l, RunPostCallHooks elapsed ds.(HookEngine_) (w, c) = Some (w', c <| HookLog_ := l |>) /\
    (gov w' = gov w /\ keys w' = keys w /\ cat w' = cat w) /\ log_frame PostCall c.(HookLog_) l.
Proof.
  intros Hds Hl. destruct (so_hooks _ _ Hds) as (_ & _ & _ & Hh). unfold RunPostCallHooks.
  rewrite (holds_take _ _ _ Hh). destruct Hh as (Hn & Hle & _).
  apply (run_post_observers elapsed (fun w' => gov w' = gov w /\ keys w' = keys w /\ cat w' = cat w) _ _ _ _ _ []);
    [|done|done|cbn [List.length]; lia].
  eapply Forall_impl; [exact (so_observers _ _ Hds)|]. intros h Hobs. apply (Hobs (gov w) (keys w) (cat w)).
Qed.

Lemma serve_run ds observers desc `{!RouteLaws desc} env r w :
  server_ok ds observers -> world_ok w ->
  exists ds' w' c, serve ds desc env r w = Some (ds', w', c) /\
    server_ok ds' observers /\ ds'.(CtxPool) = Context_reset c :: (arrival ds desc env r).1 /\
    world_ok w' /\ (gov w' = gov (settled c w) /\ keys w' = keys w /\ cat w' = cat w) /\
    match c.(Usage_) with None => True | Some u => billed_to ds desc env r w c u end.
Proof.
  intros Hds Hw. unfold GenericRequestHandler.
  pose proof (arrival_spec ds desc env r (so_pool _ _ Hds)) as Harr.
  unfold billed_to. unfold arrival in *.
  destruct (Pool_Acquire _ _ _ _ _) as [pool rctx]. set (c0 := rctx <| RequestID := _ |> <| SDKProvider := _ |>
    <| RequestKind_ := _ |> <| StartedAt := _ |>) in *. cbn [fst snd].
  destruct Harr as (Hpool & (Hu0 & Hc0 & Hlog0) & Hwr0 & _).
  destruct (route_run ds observers desc env r w c0 Hds (proj2 Hw) Hlog0) as (se & c1 & res & -> & Hse & Hafter & Hdec).
  cbn [mbind option_bind]. destruct Hafter as [Hwr1 Hu1 Hc1 Hl1 Hs1].
  destruct (respond_run ds observers desc env w c1 res Hds (proj1 Hw)) as (c2 & l2 & -> & Hm2 & Hl2 & Hbill);
    [by rewrite Hwr1|congruence|congruence|by apply Hl1| |].
  { destruct res as [a|e]; [|done]. destruct Hdec as (vk & p & cfg & _ & _ & _ & _ & Hreg & _).
    exact (so_providers _ _ Hds _ _ Hreg). }
  cbn [mbind option_bind]. set (c3 := c2 <| HookLog_ := l2 |>).
  assert (Hl3 : logged PostCall l2 [] /\ forall s, List.length (stage_results s l2) = maxHooks).
  { destruct Hl2 as [->|Hf]; [by split; [apply Hl1|]|]. split.
    - by apply (log_frame_logged _ _ _ _ _ Hf), Hl1.
    - intros s. by rewrite (log_frame_length _ s _ _ Hf). }
  destruct Hl3 as [Hpost Hslots].
  destruct (post_call_run (elapsed env) ds observers (settled c2 w) c3 Hds Hpost) as (w' & l4 & -> & Hobs & Hf4).
  cbn [mbind option_bind]. eexists _, w', _. split; [reflexivity|].
  destruct (settled_ok c2 w Hw) as [Hcells Hkeys]. destruct Hobs as (Hg & Hk & Hcat). splits.
  - destruct Hds as [H1' H2 H3 H4 H5]. constructor; [exact H1'|exact H2| |exact Hse|exact H5].
    constructor; [|exact Hpool]. apply Context_reset_pristine. intros s.
    change (List.length (stage_results s l4) = maxHooks). by rewrite (log_frame_length _ s _ _ Hf4).
  - done.
  - split; [by rewrite Hg|by rewrite Hk].
  - exact Hg.
  - exact Hk.
  - exact Hcat.
  - change (Usage_ (c3 <| HookLog_ := l4 |>)) with (Usage_ c2).
    destruct (Usage_ c2) as [u|] eqn:Hu2; [|done]. destruct Hbill as [[=]|(a & -> & Hb)].
    destruct Hdec as (vk & p & cfg & Hadm & Hel & _ & Hprice & _ & Hid). exists vk, p, cfg, (ad_pricing a).
    splits; [done|done|done| |].
    + unfold billed in Hb. rewrite Hu2 in Hb. exact Hb.
    + rewrite <- Hid. exact (f_equal (fun c => (ClientID c, VirtualKeyID c, BudgetRef c, Modelkey c)) Hm2).
Qed.

(** C6: The gate.  For any lawful server and any request, the part of the handler before the
    provider call decides without panicking.  It decides to call a provider only if the client's
    key authenticates, the body is read and decodes, the key's policy and the catalog admit the
    model, the key's budget is known and not exhausted; the provider called is one the key
    configures (the one the client named, if any), the credential is a current candidate for the
    model there, and the price is the one resolved for the key.  Conversely such a request is
    refused only when no eligible provider has a candidate, or one that has is unpriced or not
    registered. *)
Theorem route_spec ds observers desc `{!RouteLaws desc} env r w :
  server_ok ds observers -> world_ok w ->
  let c := (arrival ds desc env r).2 in
  exists se c' res, decide_route ds desc env r (w, c) = Some (se, (w, c'), res) /\
    match res with
    | Ok a => exists vk p cfg, admissible ds desc env r w c vk p /\
        eligible (requested_key (asking c p)) vk cfg /\
        a.(ad_credential) ∈ candidates ds (requested_key (asking c p)) cfg /\
        ResolvePrice w.(cat) vk.(VKID) c'.(Modelkey) EmptySelectorKey = Some a.(ad_pricing) /\
        ds.(ProviderRegistry) !! c'.(Modelkey).(KProvider) = Some a.(ad_provider) /\
        c'.(Modelkey) = config_key (requested_key (asking c p)) cfg /\ c'.(BudgetRef) = vk.(VKBudgetID)
    | Err e => forall vk p, admissible ds desc env r w c vk p ->
        let key := requested_key (asking c p) in
        (forall cfg, eligible key vk cfg -> candidates ds key cfg = []) \/
        (exists cfg, eligible key vk cfg /\ candidates ds key cfg <> [] /\ ~ servable ds w vk key cfg)
    end.
Proof.
  intros Hds [_ Hkeys]. cbn zeta. pose proof (arrival_spec ds desc env r (so_pool _ _ Hds)) as Harr.
  destruct (arrival ds desc env r) as [pool c]. cbn [snd]. destruct Harr as (_ & (_ & _ & Hlog) & _).
  destruct (route_run ds observers desc env r w c Hds Hkeys Hlog) as (se & c' & res & Hr & _ & _ & Hdec).
  exists se, c', res. split; [done|]. destruct res as [a|e]; [|exact Hdec].
  destruct Hdec as (vk & p & cfg & Hadm & Hel & Hcand & Hprice & Hreg & [= _ _ Hb Hk]).
  exists vk, p, cfg. rewrite Hk. by splits.
Qed.

(** Serving a request.  The handler never panics, whatever the request, the provider's
    answer and the client's connection; it leaves the server well formed, with the context of the
    request back in the pool, and the keys and the catalog as they were.  A request that used
    nothing changes no budget and leaves no record.  One with usage was admitted, and is charged
    to its key exactly the price, in whole nano-dollars, of that usage at the rates resolved for
    the key and the model routed to: its record goes to the usage buffer and its budget, and only
    that one, is charged the amount and one request. *)
Theorem serve_bills ds observers desc `{!RouteLaws desc} env r w :
  server_ok ds observers -> world_ok w ->
  exists ds' w' c, serve ds desc env r w = Some (ds', w', c) /\
    server_ok ds' observers /\ ds'.(CtxPool) = Context_reset c :: (arrival ds desc env r).1 /\
    world_ok w' /\ keys w' = keys w /\ cat w' = cat w /\
    match c.(Usage_) with
    | None => gov w' = gov w
    | Some u => billed_to ds desc env r w c u /\
        usage (gov w') = Append (usage_record c u (ToNanoUSD c.(Cost))) (usage (gov w)) /\
        forall id, entry (gov w') id =
          if decide (id = c.(BudgetRef)) then charged (ToNanoUSD c.(Cost)) <$> entry (gov w) id
          else entry (gov w) id
    end.
Proof.
  intros Hds Hw. destruct (serve_run ds observers desc env r w Hds Hw)
    as (ds' & w' & c & Hs & Hds' & Hp & Hw' & (Hg & Hk & Hc) & Hb).
  exists ds', w', c. splits; try done. unfold settled in Hg. cbn [gov field_upd] in Hg. rewrite Hg.
  destruct (Usage_ c) as [u|]; [|done].
  destruct (recorded_spec c u (gov w) (proj1 Hw)) as (_ & Hu & _ & _ & _ & He). by splits.
Qed.

(** ** Requests in a row *)

Record Arrival : Type := mkArrival {
  at_desc : RouteDescriptor;
  at_laws :: RouteLaws at_desc;
  at_env : RequestEnv;
  at_request : Incoming
}.

(** The released contexts, in order. *)
Fixpoint serve_all (l : list Arrival) (ds : Server) (w : World) :
    option (Server * World * list DiffractLLMContext) :=
  match l with
  | [] => Some (ds, w, [])
  | a :: l' =>
      '(ds, w, c) ← serve ds a.(at_desc) a.(at_env) a.(at_request) w;
      '(ds, w, cs) ← serve_all l' ds w;
      Some (ds, w, c :: cs)
  end.

(** A budget after the requests [cs]. *)
Definition charge_request (id : string) (b : Cell) (c : DiffractLLMContext) : Cell :=
  match c.(Usage_) with
  | Some _ => if decide (id = c.(BudgetRef)) then charged (ToNanoUSD c.(Cost)) b else b
  | None => b
  end.

(** C5: Any number of requests one after the other.  None of them panics, the server stays
    well formed, and every budget ends up charged with exactly the requests of its keys that used
    something. *)
Theorem serve_all_spec l ds observers w :
  server_ok ds observers -> world_ok w ->
  exists ds' w' cs, serve_all l ds w = Some (ds', w', cs) /\ List.length cs = List.length l /\
    server_ok ds' observers /\ world_ok w' /\ keys w' = keys w /\ cat w' = cat w /\
    forall id, entry (gov w') id = (fun b => foldl (charge_request id) b cs) <$> entry (gov w) id.
Proof.
  revert ds w. induction l as [|a l IH]; intros ds w Hds Hw; cbn [serve_all].
  { exists ds, w, []. splits; try done. intros id. by destruct (entry (gov w) id). }
  destruct (serve_run ds observers (at_desc a) (at_env a) (at_request a) w Hds Hw)
    as (ds1 & w1 & c & -> & Hds1 & _ & Hw1 & (Hg & Hk & Hc) & _).
  cbn [mbind option_bind]. destruct (IH ds1 w1 Hds1 Hw1) as (ds2 & w2 & cs & -> & Hlen & Hds2 & Hw2 & Hk2 & Hc2 & He).
  cbn [mbind option_bind]. exists ds2, w2, (c :: cs). splits; try done; [cbn; congruence|congruence|congruence|].
  intros id. rewrite He, Hg. unfold settled, charge_request at 2. cbn [gov field_upd foldl].
  destruct (Usage_ c) as [u|] eqn:Hu; [|by destruct (entry (gov w) id); cbn; rewrite ?Hu].
  destruct (recorded_spec c u (gov w) (proj1 Hw)) as (_ & _ & _ & _ & _ & ->).
  destruct (decide (id = BudgetRef c)) as [->|Hne]; destruct (entry (gov w) _); cbn; rewrite ?Hu; try done.
Qed.

(** ** Servers as they are built *)

Lemma RegisterHooks_ok :
  Hooks.engine_ok (RegisterHooks NewHookEngine) [model_access_hook; budget_hook] [] [record_hook] [].
Proof. unfold Hooks.engine_ok, holds. splits; try done; unfold maxHooks; cbn; lia. Qed.

Lemma NewServer_ok config se registry : Selection.engine_ok se ->
  (forall n p, registry !! n = Some p -> ProviderLaws p) -> server_ok (NewDiffractLLMServer config se registry) [].
Proof. intros Hse Hp. constructor; [apply RegisterHooks_ok | done | constructor | exact Hse | exact Hp]. Qed.

End gateway.
Arguments World : clear implicits.

#[export] Instance OpenAIChatRoute_laws `{Sonic} : RouteLaws OpenAIChatRoute.
Proof. unshelve econstructor; [exact oreq_Model | done]. Defined.

(** ** A gateway with one provider *)

#[local] Instance toy_sonic : Sonic :=
  {| marshal_request _ := Ok "{}";
     unmarshal_request body := if is_empty body then Err "unexpected end of JSON input"
                               else Ok (mkOpenAIRequest body [] None DiffractLLMChatParameters0);
     marshal_response _ := Ok "{}"; unmarshal_response _ := Err "not JSON";
     marshal_chunk _ := Ok "{}"; unmarshal_chunk _ := Err "not JSON";
     marshal_error _ := Ok "{}"; unmarshal_error _ := mkOpenAIErrorResponse None |}.

(** A provider whose every answer used 1000 input tokens. *)
Definition metered_response : DiffractLLMChatCompletionResponse :=
  mkDiffractLLMChatCompletionResponse
    (mkChatResponseEnvelope "r1" "chat.completion" 0 "gpt-4o" None "" None None
       (Some (Usage0 <| InputTokens := 1000%Z |>)) "") [].
Definition metered_provider : ProviderInstance :=
  mkProviderInstance ProviderOpenAI (fun c _ _ => Some (c, Ok metered_response))
    (fun c _ _ => Some (c, Err (NewInternalError "metered" "no streams" None))).

#[local] Instance metered_laws : ProviderLaws metered_provider.
Proof. split; intros c req cred; eexists _, _; by splits. Qed.

(** Half of 2^-10 dollars per thousand input tokens, for one model. *)
Definition toy_catalog : ModelCatalog :=
  mkModelCatalog None (Some (newBasePricingSnapshot
    [mkPricingVariant "p1" "openai/o1" (mkSelectorSet "") ProviderOpenAI ModelTypeChat "o1"
       (fun f => match f with InputCostPerToken => Some (f64_dyadic 1 (-20)) | _ => None end)])) None.

Definition toy_world : World (MemTable StoreBudget) MemHistory () :=
  mkWorld (demo []) (Some {[cached_key := key_example <| VKKey := cached_key |> <| VKBudgetID := "b2" |>]})
    toy_catalog tt.

Definition toy_server : DiffractLLMServer (World (MemTable StoreBudget) MemHistory ()) PlaneAt :=
  NewDiffractLLMServer (mkServerConfig 8080 64 "" "" false "" []) (NewSelectionEngine plane_now)
    (Register metered_provider NewRegistry).

(** A request for [model] that presents the key [key]. *)
Definition toy_arrival (key model : string) : Arrival :=
  mkArrival OpenAIChatRoute _ (mkRequestEnv None (fun _ => 0%Z) f64_zero (fun _ => 0%Z))
    (mkIncoming 1 (mkHTTPRequest "POST" "/openai/v1/chat/completions" {["X-Diffract-Key" := key]})
       (Z.of_nat (String.length model)) model None (mkResponseWriter ∅ None "" None true 0)).

Lemma toy_server_ok : server_ok toy_server [].
Proof.
  apply NewServer_ok; [by eexists|]. intros n p Hp. unfold ProviderRegistry, toy_server, NewDiffractLLMServer, Register, NewRegistry in Hp.
  apply lookup_insert_Some in Hp as [[_ <-]|[_ Hp]]; [exact metered_laws | discriminate Hp].
Qed.

Lemma toy_world_ok : world_ok toy_world.
Proof.
  split; [exact (cache_cells _ (demo_ok []))|]. intros k vk Hk. cbn [keys toy_world LookupVkey] in Hk.
  apply lookup_singleton_Some in Hk as [_ <-]. split; [done|].
  refine (bool_decide_unpack _ _). vm_compute. exact I.
Qed.

(** What a run of requests shows of a budget: its spend, its requests, and the statuses sent. *)
Definition toy_run (l : list Arrival) : option (option (Z * Z) * list Z) :=
  '(_, w, cs) ← serve_all l toy_server toy_world;
  Some ((fun b => (WindowCost b, WindowReqs b)) <$> entry (gov w) "b2", map ResponseStatus cs).

(** A request that is served, one with an unknown key, one for a blocked model, one without a
    body, and one that finds the budget of 1000 nano-dollars exhausted by the first: one request
    is charged, 1000/2^20 dollars on top of the 40 nano-dollars before. *)
Example toy_run_value :
  toy_run [toy_arrival cached_key "o1"; toy_arrival "dk-0" "o1"; toy_arrival cached_key "gpt-3.5";
           toy_arrival cached_key ""; toy_arrival cached_key "openai/o1"]
  = Some (Some (953714, 2), [200; 401; 403; 400; 400])%Z.
Proof. vm_compute. reflexivity. Qed.

Lemma route_spec_witness :
  let a := toy_arrival cached_key "openai/o1" in
  let c := (arrival toy_server (at_desc a) (at_env a) (at_request a)).2 in
  exists se c' ok, route keys cat toy_server (at_desc a) (at_env a) (at_request a) (toy_world, c)
    = Some (se, (toy_world, c'), Ok ok) /\ c'.(Modelkey) = mkCatalogKey "openai" "o1" ModelTypeChat.
Proof.
  intros a c. destruct (route_spec toy_server [] (at_desc a) (at_env a) (at_request a) toy_world
    toy_server_ok toy_world_ok) as (se & c' & res & Hr & Hres).
  destruct res as [ok|e]; [|vm_compute in Hr; discriminate Hr]. exists se, c', ok. split; [exact Hr|].
  assert (Hk : Some (Modelkey c') = Some (mkCatalogKey "openai" "o1" ModelTypeChat)).
  { transitivity ((fun x => Modelkey x.1.2.2) <$> route keys cat toy_server (at_desc a) (at_env a) (at_request a) (toy_world, c));
      [exact (eq_sym (f_equal (fmap (fun x => Modelkey x.1.2.2)) Hr)) | vm_compute; reflexivity]. }
  by injection Hk.
Defined.

Lemma serve_bills_witness :
  let a := toy_arrival cached_key "o1" in
  exists ds' w' c u, GenericRequestHandler keys cat toy_server (at_desc a) (at_env a) (at_request a) toy_world
      = Some (ds', w', c) /\ c.(Usage_) = Some u /\
    billed_to toy_server (at_desc a) (at_env a) (at_request a) toy_world c u /\
    entry (gov w') "b1" = entry (gov toy_world) "b1".
Proof.
  intros a. destruct (serve_bills toy_server [] (at_desc a) (at_env a) (at_request a) toy_world
    toy_server_ok toy_world_ok) as (ds' & w' & c & Hs & _ & _ & _ & _ & _ & Hb).
  assert (Hc : ((fun x => (Usage_ x.2, BudgetRef x.2)) <$> GenericRequestHandler keys cat toy_server (at_desc a) (at_env a)
    (at_request a) toy_world) = Some (Some (Usage0 <| InputTokens := 1000%Z |>), "b2")) by (vm_compute; reflexivity).
  rewrite Hs in Hc. injection Hc as Hu Href. rewrite Hu in Hb. destruct Hb as (Hb & _ & He).
  exists ds', w', c, (Usage0 <| InputTokens := 1000%Z |>). split; [exact Hs|]. split; [exact Hu|]. split; [exact Hb|].
  rewrite He, Href. reflexivity.
Defined.

Lemma serve_all_spec_witness :
  exists ds' w' cs, serve_all [toy_arrival cached_key "o1"; toy_arrival "dk-0" "o1"] toy_server toy_world
    = Some (ds', w', cs) /\ List.length cs = 2 /\ server_ok ds' [] /\
    forall id, entry (gov w') id = (fun b => foldl (charge_request id) b cs) <$> entry (gov toy_world) id.
Proof.
  destruct (serve_all_spec [toy_arrival cached_key "o1"; toy_arrival "dk-0" "o1"] toy_server [] toy_world
    toy_server_ok toy_world_ok) as (ds' & w' & cs & Hs & Hl & Hok & _ & _ & _ & He).
  exists ds', w', cs. by splits.
Defined.
