(* ===== verification/StreamRun.v ===== *)
(** * Streaming: the goroutine, the channel and the receiving loop

    [HandleChatCompletionStream] starts a goroutine that sends the events of a stream over a
    buffered channel and closes it; [chatCompletion] receives until the channel is closed, and
    drains it when it stops early.  Here the two run concurrently, with a cancellation of the
    request at any moment. *)

From S2P Require Import Prelude GoBase Errors Context Chat OpenAI Sse Providers Server ServerChat.
From stdpp Require Import relations.

(** The capacity of the channel. *)
Definition streamBuffer : nat := 256.

Abbreviation event := DiffractLLMChatCompletionStreamResponse (only parsing).

(** Where the receiver is: in the [range] loop, holding a received chunk, in [awaitStreamEnd], or
    returned. *)
Inductive receiver : Type :=
| Receiving
| Holding (e : event)
| Draining
| Returned.

(** [todo] are the events the goroutine has not sent, [looked] the chunks the loop has examined,
    each with whether the request was cancelled at that moment. *)
Record Pipe : Type := mkPipe {
  todo : list event;
  chan : list event;
  closed : bool;
  cancelled : bool;
  recv : receiver;
  rctx : DiffractLLMContext;
  looked : list (option event * bool);
  end_look : bool
}.
#[export] Instance Pipe_eta : Eta Pipe := fun p =>
  mkPipe (todo p) (chan p) (closed p) (cancelled p) (recv p) (rctx p) (looked p) (end_look p).

Definition start (evs : list event) (c : DiffractLLMContext) : Pipe :=
  mkPipe evs [] false false Receiving c [] false.

Section run.
Variables (desc : RouteDescriptor) (first : Z).

Inductive pipe_step : Pipe -> Pipe -> Prop :=
(** The request is cancelled by the client or by a shutdown. *)
| step_cancel p : p.(cancelled) = false -> pipe_step p (p <| cancelled := true |>)
(** [responseChan <- chunk]. *)
| step_send p e rest :
    p.(closed) = false -> p.(todo) = e :: rest -> (List.length p.(chan) < streamBuffer)%nat ->
    pipe_step p (p <| todo := rest |> <| chan := (p.(chan) ++ [e])%list |>)
(** The goroutine returns: at the end, or because the request is cancelled. *)
| step_close p :
    p.(closed) = false -> (p.(todo) = [] \/ p.(cancelled) = true) -> pipe_step p (p <| closed := true |>)
(** A cancellation cuts the response in the middle of a frame, which is reported as invalid. *)
| step_stray p e :
    p.(closed) = false -> p.(cancelled) = true -> (List.length p.(chan) < streamBuffer)%nat ->
    pipe_step p (p <| chan := (p.(chan) ++ [e])%list |> <| closed := true |>)
(** [for chunk := range streamResCh]. *)
| step_receive p e rest :
    p.(recv) = Receiving -> p.(chan) = e :: rest ->
    pipe_step p (p <| chan := rest |> <| recv := Holding e |>)
(** The body of the loop. *)
| step_chunk p e c v :
    p.(recv) = Holding e -> on_chunk desc first p.(rctx) (Some e) p.(cancelled) = Some (c, v) ->
    pipe_step p (p <| recv := match v with Continue => Receiving | Stop => Draining end |> <| rctx := c |>
                   <| looked := (p.(looked) ++ [(Some e, p.(cancelled))])%list |>)
(** [awaitStreamEnd]. *)
| step_drain p e rest :
    p.(recv) = Draining -> p.(chan) = e :: rest -> pipe_step p (p <| chan := rest |>)
| step_drained p :
    p.(recv) = Draining -> p.(chan) = [] -> p.(closed) = true -> pipe_step p (p <| recv := Returned |>)
(** After the loop. *)
| step_end p c :
    p.(recv) = Receiving -> p.(chan) = [] -> p.(closed) = true ->
    stream_end desc p.(rctx) p.(cancelled) = Some c ->
    pipe_step p (p <| recv := Returned |> <| rctx := c |> <| end_look := p.(cancelled) |>).

(** ** Refinement of the sequential loop *)

Definition relayed_as (l : list event) : list (option event * bool) := map (fun e => (Some e, false)) l.

(** What the loop has examined: events of the stream in order, and then at most one chunk after a
    cancellation. *)
Definition examined (evs : list event) (l : list (option event * bool)) : Prop :=
  exists pre tail, l = (relayed_as pre ++ tail)%list /\ pre `prefix_of` evs /\
    (tail = [] \/ exists e, tail = [(Some e, true)]).

Lemma chunk_loop_snoc c l x c1 :
  chunk_loop desc first c l = Some (c1, Continue) ->
  chunk_loop desc first c (l ++ [x]) = on_chunk desc first c1 x.1 x.2.
Proof.
  revert c. induction l as [|[chunk gone] l IH]; intros c; cbn [chunk_loop app].
  - intros [= <-]. destruct x as [chunk gone]. cbn [fst snd].
    by destruct (on_chunk _ _ _ _ _) as [[c2 []]|].
  - destruct (on_chunk desc first c chunk gone) as [[c2 []]|]; cbn [mbind option_bind]; [apply IH|done|done].
Qed.

(** The loop after the chunks [l], with what follows it. *)
Definition loop_result (c : DiffractLLMContext) (l : list (option event * bool)) (gone : bool) :
    option DiffractLLMContext :=
  '(rctx, v) ← chunk_loop desc first c l;
  match v with Stop => Some rctx | Continue => stream_end desc rctx gone end.

(** The events in flight, in order. *)
Definition in_flight (p : Pipe) : list event :=
  (match p.(recv) with Holding e => [e] | _ => [] end ++ p.(chan) ++ p.(todo))%list.

Record pipe_inv (evs : list event) (c : DiffractLLMContext) (p : Pipe) : Prop := mkPipeInv {
  pi_loop : match p.(recv) with
            | Receiving | Holding _ => chunk_loop desc first c p.(looked) = Some (p.(rctx), Continue)
            | Draining => chunk_loop desc first c p.(looked) = Some (p.(rctx), Stop)
            | Returned => loop_result c p.(looked) p.(end_look) = Some p.(rctx) /\ p.(closed) = true
            end;
  pi_examined : examined evs p.(looked);
  (** Before a cancellation nothing is lost: what the loop has not examined is on its way. *)
  pi_flight : p.(cancelled) = false ->
    exists pre, p.(looked) = relayed_as pre /\
      match p.(recv) with
      | Receiving | Holding _ => evs = (pre ++ in_flight p)%list /\ (p.(closed) = true -> p.(todo) = [])
      | Draining => True
      | Returned => (evs = pre /\ p.(end_look) = false) \/
          exists c', chunk_loop desc first c p.(looked) = Some (c', Stop)
      end;
  pi_live : match p.(recv) with Receiving | Holding _ => exists pre, p.(looked) = relayed_as pre | _ => True end
}.

Lemma start_inv evs c : pipe_inv evs c (start evs c).
Proof.
  constructor; cbn; [done| | |by exists []].
  - exists [], []. splits; [done|apply prefix_nil|by left].
  - intros _. exists []. splits; done.
Qed.

(** What [on_chunk] does when it sees the cancellation. *)
Lemma on_chunk_gone c chunk : on_chunk desc first c chunk true = Some (client_gone c, Stop).
Proof. done. Qed.

Lemma relayed_as_snoc l e : relayed_as (l ++ [e]) = (relayed_as l ++ [(Some e, false)])%list.
Proof. unfold relayed_as. by rewrite map_app. Qed.

Lemma relayed_as_inj l1 l2 : relayed_as l1 = relayed_as l2 -> l1 = l2.
Proof.
  revert l2. induction l1 as [|e l1 IH]; intros [|e2 l2]; try done. intros [= <- Hl]. f_equal. by apply IH.
Qed.

Lemma pipe_step_inv evs c p p' : pipe_inv evs c p -> pipe_step p p' -> pipe_inv evs c p'.
Proof.
  intros [Hloop Hex Hfl Hlive] Hs. destruct Hs as
    [p Hc|p e rest Hcl Htodo _|p Hcl Hor|p e Hcl Hc _|p e rest Hr Hch|p e c1 v Hr Hon|p e rest Hr Hch
    |p Hr Hch Hcl|p c1 Hr Hch Hcl Hend]; constructor; cbn [todo chan closed cancelled recv rctx looked end_look field_upd]; try done.
  - intros Hc. destruct (Hfl Hc) as (pre & Hl & Hm). exists pre. split; [done|].
    unfold in_flight in *. cbn [todo chan recv field_upd]. rewrite Htodo in Hm.
    destruct (recv p); try done; destruct Hm as [-> Hm]; rewrite <- ?app_assoc; (split; [done|congruence]).
  - by destruct (recv p); try done; split; [apply Hloop|].
  - intros Hc. destruct (Hfl Hc) as (pre & Hl & Hm). exists pre. split; [done|].
    destruct Hor as [Ht|]; [|congruence]. unfold in_flight in *. cbn [todo chan recv field_upd].
    destruct (recv p); try done; by split; [apply Hm|].
  - by destruct (recv p); try done; split; [apply Hloop|].
  - congruence.
  - by rewrite Hr in Hloop.
  - intros Hc. destruct (Hfl Hc) as (pre & Hl & Hm). exists pre. split; [done|].
    unfold in_flight in *. cbn [todo chan recv field_upd]. by rewrite Hr, Hch in Hm.
  - by rewrite Hr in Hlive.
  - rewrite Hr in Hloop. pose proof (chunk_loop_snoc _ _ (Some e, cancelled p) _ Hloop) as Hsn.
    cbn [fst snd] in Hsn. rewrite Hon in Hsn. by destruct v.
  - rewrite Hr in Hlive. destruct Hlive as [pre0 Hl0]. destruct (cancelled p) eqn:Hc.
    + exists pre0, [(Some e, true)]. splits; [by rewrite Hl0| |eauto].
      destruct Hex as (pre & tail & Hl & Hpre & [->|[e' ->]]).
      * rewrite app_nil_r, Hl0 in Hl. by apply relayed_as_inj in Hl as ->.
      * exfalso. rewrite Hl0 in Hl. assert (Hin : (Some e', true) ∈ relayed_as pre0) by (rewrite Hl; set_solver).
        unfold relayed_as in Hin. apply list_elem_of_In, in_map_iff in Hin as (? & [=] & _).
    + destruct (Hfl eq_refl) as (pre & Hl & Hm). rewrite Hr in Hm. destruct Hm as [Hevs _].
      exists (pre ++ [e])%list, []. rewrite relayed_as_snoc, app_nil_r, Hl. splits; [done| |by left].
      unfold in_flight in Hevs. rewrite Hr in Hevs. rewrite Hevs, app_assoc. apply prefix_app_r. done.
  - intros Hc. destruct (Hfl Hc) as (pre & Hl & Hm). exists (pre ++ [e])%list.
    rewrite relayed_as_snoc, Hl, Hc. split; [done|]. destruct v; [|done].
    unfold in_flight in *. cbn [todo chan recv field_upd]. rewrite Hr in Hm. destruct Hm as [-> Hm].
    split; [|done]. by rewrite <- !app_assoc.
  - destruct v; [|done]. rewrite Hr in Hlive. destruct Hlive as [pre Hl]. destruct (cancelled p) eqn:Hc; [done|].
    exists (pre ++ [e])%list. by rewrite relayed_as_snoc, Hl.
  - intros Hc. destruct (Hfl Hc) as (pre & Hl & Hm). exists pre. split; [done|]. by rewrite Hr.
  - rewrite Hr in Hloop. split; [|done]. unfold loop_result. by rewrite Hloop.
  - intros Hc. destruct (Hfl Hc) as (pre & Hl & _). exists pre. rewrite Hr in Hloop. eauto.
  - rewrite Hr in Hloop. split; [|done]. unfold loop_result. by rewrite Hloop.
  - intros Hc. destruct (Hfl Hc) as (pre & Hl & Hm). exists pre. rewrite Hr in Hm. split; [done|]. left.
    destruct Hm as [-> Ht]. unfold in_flight. rewrite Hr, Hch, (Ht Hcl), !app_nil_r. done.
Qed.

Lemma reachable_inv evs c p : star pipe_step (start evs c) p -> pipe_inv evs c p.
Proof.
  intros Hr. apply (star_inv pipe_step (pipe_inv evs c) (start evs c) p); [|apply start_inv|exact Hr].
  intros a b Ha Hs. by apply (pipe_step_inv evs c a).
Qed.

(** C34: Whatever the interleaving of the goroutine, the loop and a cancellation, when the
    handler is through with a stream the goroutine has closed the channel, so that the context is
    never recycled under it; and the outcome is that of the sequential loop run over the events
    of the stream in order, cut short at most by one chunk examined after the cancellation.  A
    stream that is not cancelled loses nothing: the loop saw every event, unless it stopped by
    itself at an error or a failed write. *)
Theorem stream_refines evs c p :
  star pipe_step (start evs c) p -> p.(recv) = Returned ->
  p.(closed) = true /\ loop_result c p.(looked) p.(end_look) = Some p.(rctx) /\ examined evs p.(looked) /\
  (p.(cancelled) = false ->
     (p.(looked) = relayed_as evs /\ p.(end_look) = false) \/
     exists c', chunk_loop desc first c p.(looked) = Some (c', Stop)).
Proof.
  intros [Hloop Hex Hfl _]%reachable_inv Hr. rewrite Hr in Hloop, Hfl. destruct Hloop as [Hl Hc].
  splits; try done. intros Hn. destruct (Hfl Hn) as (pre & Hlk & [[-> He]|Hs]); [left|right]; done.
Qed.

(** ** Progress and termination *)

(** The writer of the context is there, and before a cancellation every error event carries its
    error. *)
Definition event_wf (e : event) : Prop := e.(chunk_Type) = StreamEventError -> is_Some e.(chunk_Error).

Record pipe_live (p : Pipe) : Prop := mkPipeLive {
  pl_writer : is_Some p.(rctx).(Writer);
  pl_events : p.(cancelled) = false -> Forall event_wf (in_flight p);
  pl_bound : (List.length p.(chan) <= streamBuffer)%nat
}.

Lemma chunk_step_called p e : pipe_live p -> p.(recv) = Holding e ->
  exists c v, on_chunk desc first p.(rctx) (Some e) p.(cancelled) = Some (c, v) /\ is_Some c.(Writer).
Proof.
  intros [Hw He _] Hr. destruct (on_chunk_called desc first (rctx p) (Some e) (cancelled p) Hw) as (c & v & Hc & Hw' & _).
  { intros Hg c [= <-]. specialize (He Hg). unfold in_flight in He. rewrite Hr in He. by apply Forall_inv in He. }
  by exists c, v.
Qed.

Lemma pipe_step_live p p' : pipe_live p -> pipe_step p p' -> pipe_live p'.
Proof.
  intros Hlive Hs. pose proof Hlive as [Hw He Hb]. unfold in_flight in He. destruct Hs as
    [p Hc|p e rest Hcl Htodo Hlt|p Hcl Hor|p e Hcl Hc Hlt|p e rest Hr Hch|p e c1 v Hr Hon|p e rest Hr Hch
    |p Hr Hch Hcl|p c1 Hr Hch Hcl Hend]; constructor; unfold in_flight;
    cbn [todo chan closed cancelled recv rctx field_upd]; try done.
  - intros Hc. specialize (He Hc). rewrite Htodo in He. by rewrite <- app_assoc.
  - rewrite length_app. cbn. lia.
  - congruence.
  - rewrite length_app. cbn. lia.
  - intros Hc. specialize (He Hc). by rewrite Hr, Hch in He.
  - rewrite Hch in Hb. cbn in Hb. lia.
  - destruct (chunk_step_called p e Hlive Hr) as (c & v' & Hc & Hw'). congruence.
  - intros Hc. specialize (He Hc). rewrite Hr in He. apply Forall_app in He as [_ He]. by destruct v.
  - intros Hc. specialize (He Hc). rewrite Hr. rewrite Hr, Hch in He. exact (Forall_inv_tail He).
  - rewrite Hch in Hb. cbn in Hb. lia.
  - intros Hc. specialize (He Hc). by rewrite Hr in He.
  - destruct (stream_end_called desc (rctx p) (cancelled p) Hw) as (c & Hc & Hw' & _). congruence.
  - intros Hc. specialize (He Hc). by rewrite Hr in He.
Qed.

(** A bound on the steps left. *)
Definition steps_left (p : Pipe) : nat :=
  (if p.(cancelled) then 0 else 1) + (if p.(closed) then 0 else 4) + 4 * List.length p.(todo) + 3 * List.length p.(chan) +
  match p.(recv) with Returned => 0 | Receiving | Draining => 1 | Holding _ => 2 end.

Lemma steps_left_decreases p p' : pipe_step p p' -> (steps_left p' < steps_left p)%nat.
Proof.
  intros Hs. unfold steps_left. destruct Hs as
    [p Hc|p e rest Hcl Htodo _|p Hcl Hor|p e Hcl Hc _|p e rest Hr Hch|p e c1 v Hr Hon|p e rest Hr Hch
    |p Hr Hch Hcl|p c1 Hr Hch Hcl Hend]; cbn [todo chan closed cancelled recv field_upd];
    rewrite ?Hc, ?Hcl, ?Htodo, ?Hr, ?Hch, ?length_app; cbn [List.length]; try lia.
  destruct v; lia.
Qed.

Lemma pipe_progress p : pipe_live p -> p.(recv) = Returned \/ exists p', pipe_step p p'.
Proof.
  intros Hlive. destruct (recv p) as [|e| |] eqn:Hr; [| |  |by left]; right.
  2: { destruct (chunk_step_called p e Hlive Hr) as (c & v & Hc & _). eexists. by eapply step_chunk. }
  all: destruct (chan p) as [|e rest] eqn:Hch; [|eexists; first [by eapply step_receive | by eapply step_drain]].
  all: destruct (closed p) eqn:Hcl.
  1: destruct (stream_end_called desc (rctx p) (cancelled p) (pl_writer p Hlive)) as (c & Hc & _);
     eexists; by eapply step_end.
  2: by eexists; eapply step_drained.
  all: destruct (todo p) as [|e rest] eqn:Ht; [eexists; eapply step_close; [done|by left]|].
  all: eexists; eapply step_send; [done|exact Ht|rewrite Hch; cbn; unfold streamBuffer; lia].
Qed.

(** C35: Streaming never deadlocks and never runs on: however the two sides and a cancellation
    are scheduled, a run takes at most [4 n + 6] steps for a stream of [n] events, and a run that
    cannot go on is one in which the handler has returned — the loop that stops early drains the
    channel, so the goroutine is never left blocked on it. *)
Theorem stream_terminates evs c n p :
  is_Some c.(Writer) -> Forall event_wf evs -> nsteps pipe_step n (start evs c) p ->
  (n <= 4 * List.length evs + 6)%nat /\ ((forall p', ~ pipe_step p p') -> p.(recv) = Returned).
Proof.
  intros Hw Hevs Hs.
  assert (Hstart : pipe_live (start evs c)) by (constructor; [done|done|cbn; lia]).
  assert (Hm : forall a m, pipe_live a -> nsteps pipe_step m a p -> pipe_live p /\ (steps_left p + m <= steps_left a)%nat).
  { intros a m Ha Hn. induction Hn as [a|m a b q Hab _ IH]; [split; [done|lia]|].
    destruct (IH Hs (pipe_step_live a b Ha Hab)) as [Hq Hle].
    pose proof (steps_left_decreases a b Hab). split; [done|lia]. }
  destruct (Hm _ _ Hstart Hs) as [Hlive Hle]. split; [cbn in Hle; lia|].
  intros Hstuck. destruct (pipe_progress p Hlive) as [|[p' Hp']]; [done|]. by destruct (Hstuck p').
Qed.

End run.

(** ** A stream of one chunk *)

Definition plain_route : RouteDescriptor :=
  {| SDK := ""; Method := "POST"; Path := "/"; DRequestKind := ""; Wire := ();
     Parse _ := Err "unused"; ToDiffract _ c := (c, mkDiffractLLMChatCompletionRequest "" [] None "");
     FromDiffract _ := Ok "{}"; FromDiffractStream _ := ("", Ok "{}"); FromDiffractError _ := ("", Ok "{}");
     StreamDone := ("", "[DONE]"); AddToRoute := false |}.

Definition empty_envelope : ChatResponseEnvelope := mkChatResponseEnvelope "" "" 0 "" None "" None None None "".
Definition one_chunk : event := mkDiffractLLMChatCompletionStreamResponse empty_envelope StreamEventDelta [] None None.
Definition client : DiffractLLMContext := NewContext <| Writer := Some (mkResponseWriter ∅ None "" None true 0) |>.

(** The chunk is sent and received before the request is cancelled; the loop notices at the end. *)
Lemma cancelled_run : exists p, star (pipe_step plain_route 0) (start [one_chunk] client) p /\
  p.(recv) = Returned /\ p.(cancelled) = true /\ p.(looked) = relayed_as [one_chunk] /\
  p.(rctx).(StreamAborted) = true.
Proof.
  eexists. split.
  { eapply star_step; [by eapply step_send; [..|cbn; unfold streamBuffer; lia]|].
    eapply star_step; [by eapply step_receive|].
    eapply star_step; [by eapply step_chunk|].
    eapply star_step; [by apply step_cancel|].
    eapply star_step; [by eapply step_close; [|right]|].
    eapply star_step; [by eapply step_end|]. apply star_refl. }
  repeat split.
Qed.

Lemma stream_refines_witness : exists p, star (pipe_step plain_route 0) (start [one_chunk] client) p /\
  p.(recv) = Returned /\ p.(closed) = true /\
  loop_result plain_route 0 client p.(looked) p.(end_look) = Some p.(rctx).
Proof.
  destruct cancelled_run as (p & Hs & Hr & _). exists p. split; [exact Hs|]. split; [exact Hr|].
  destruct (stream_refines plain_route 0 [one_chunk] client p Hs Hr) as (Hc & Hl & _). exact (conj Hc Hl).
Defined.

Lemma stream_terminates_witness :
  nsteps (pipe_step plain_route 0) 1 (start [one_chunk] client) (start [one_chunk] client <| cancelled := true |>) /\
  (1 <= 4 * 1 + 6)%nat.
Proof.
  assert (Hs : nsteps (pipe_step plain_route 0) 1 (start [one_chunk] client) (start [one_chunk] client <| cancelled := true |>)).
  { apply nsteps_once, step_cancel. reflexivity. }
  split; [exact Hs|].
  exact (proj1 (stream_terminates plain_route 0 [one_chunk] client 1 _ ltac:(by eexists)
    ltac:(by repeat constructor) Hs)).
Defined.
