(* ===== verification/KeyStore.v ===== *)
(** * Virtual keys in the database ([internal/dbstore/virtualkeys.go])

    The transactions that create, activate, revoke, rotate, reroute and delete a virtual key over
    the tables of keys and budgets, each any [Gorm] table.  A row is what gorm returns, its API key
    decrypted ([Secrets]).  A transaction that fails leaves the database as it was, and so does one
    whose COMMIT fails ([commit]). *)

From S2P Require Import Prelude GoBase Float64 Errors Catalog VirtualKey GoCrypto KeyFormat Duration Context Governance Gorm StoreBudget.

#[export] Instance StoreVirtualKey_eta : Eta StoreVirtualKey := fun k =>
  mkStoreVirtualKey (SVKID k) (SVKKeyHash k) (SVKAPIKey k) (SVKDisplayPrefix k) (SVKClientID k) (SVKBudgetID k)
    (SVKMode k) (SVKProviderConfigs k) (SVKLoadBalancer k) (SVKIsActive k) (SVKCreatedAt k) (SVKUpdatedAt k)
    (SVKExpiresAt k).
#[export] Instance StoreVirtualKey_key : Keyed StoreVirtualKey := SVKID.

Inductive KeyStoreError : Type :=
| KeyNotFound (id : string) (cause : DbError)
| KeyListFailed (cause : DbError)
| KeyBudgetNotFound (id : string) (cause : QueryError)
| CheckingBudget (id : string) (cause : DbError)
| BudgetTaken (id : string)
| KeyStatement (op : string) (cause : DbError)
| KeyRevoked (id : string)
| ModeRequired
| LoadBalancerRequired
| KeyBadEnum (cause : ParseError)
| KeyBadConfigs (cause : ConfigError)
| GenerateFailed
| CommitFailed
(** An index out of range. *)
| KeyPanic.

(** [core.VirtualKeyRequest]. *)
Record VirtualKeyRequest : Type := mkVirtualKeyRequest {
  VRClientID : string;
  VRBudgetID : string;
  VRExpiresAt : option Z;
  VRMode : option VKMode;
  VRLoadBalancer : option LBKind;
  VRProviderConfigs : list ProviderConfig
}.

Record UpdateVirtualKeyRoutingRequest : Type := mkUpdateVirtualKeyRoutingRequest {
  URMode : option VKMode;
  URProviderConfigs : option (list ProviderConfig);
  URLoadBalancer : option LBKind
}.

Section store.
Context {KDb BDb : Type} `{Gorm KDb StoreVirtualKey} `{Gorm BDb StoreBudget}.

Record StoreDb : Type := mkStoreDb { vkeys : KDb; sbudgets : BDb }.

(** A sequence of statements. *)
Definition tx : Type -> Type := Tx StoreDb KeyStoreError.

Definition on_keys {A} (wrap : DbError -> KeyStoreError) (f : KDb -> result DbError A * KDb) : tx A := fun d =>
  match f d.(vkeys) with
  | (Ok a, k) => (Ok a, mkStoreDb k d.(sbudgets))
  | (Err e, k) => (Err (wrap e), mkStoreDb k d.(sbudgets))
  end.
Definition on_budgets {A} (wrap : DbError -> KeyStoreError) (f : BDb -> result DbError A * BDb) : tx A := fun d =>
  match f d.(sbudgets) with
  | (Ok a, b) => (Ok a, mkStoreDb d.(vkeys) b)
  | (Err e, b) => (Err (wrap e), mkStoreDb d.(vkeys) b)
  end.

(** [s.DB.Transaction(..)]. *)
Definition Transaction {A} : bool -> tx A -> tx A := Tx_transaction CommitFailed.

(** ** Queries *)

Definition GetVirtualKey (id : string) : tx StoreVirtualKey := on_keys (KeyNotFound id) (db_first id).
Definition ListVirtualKeys : tx (list StoreVirtualKey) := on_keys KeyListFailed db_find.
Definition ListActiveVirtualKeys : tx (list StoreVirtualKey) :=
  keys ← ListVirtualKeys; mret (filter (fun k => k.(SVKIsActive) = true) keys).

(** The number of other active keys on a budget. *)
Definition count_bound (budgetID id : string) : tx nat :=
  keys ← on_keys (CheckingBudget budgetID) db_find;
  mret (List.length (filter (fun k => k.(SVKBudgetID) = budgetID /\ k.(SVKIsActive) = true /\ k.(SVKID) <> id) keys)).

(** A row of the budgets, through the hook gorm runs on it. *)
Definition first_budget (id : string) : tx StoreBudget :=
  b ← on_budgets (fun e => KeyBudgetNotFound id (QueryFailed e)) (db_first id);
  match AfterFind b with Ok b' => mret b' | Err e => tx_fail (KeyBudgetNotFound id e) end.

(** ** Changes *)

(** The columns of [tx.Save(&key)]. *)
Definition save_row (k r : StoreVirtualKey) : StoreVirtualKey := k <| SVKID := r.(SVKID) |>.

Definition set_active (now : Z) (active : bool) (k : StoreVirtualKey) : StoreVirtualKey :=
  k <| SVKIsActive := active |> <| SVKUpdatedAt := now |>.
Definition set_status (now : Z) (status : string) (b : StoreBudget) : StoreBudget :=
  b <| SStatus := status |> <| SUpdatedAt := now |>.

Definition update_key (op id : string) (f : StoreVirtualKey -> StoreVirtualKey) : tx Z :=
  on_keys (KeyStatement op) (db_update id f).
Definition update_status (now : Z) (id status : string) : tx Z :=
  on_budgets (KeyStatement "status") (db_update id (set_status now status)).

Definition SetVirtualKeyActive (commit : bool) (now : Z) (id : string) (active : bool) : tx StoreVirtualKey :=
  _ ← Transaction commit (
    key ← GetVirtualKey id;
    if Bool.eqb key.(SVKIsActive) active then mret tt
    else
      bound ← (if active then count_bound key.(SVKBudgetID) id else mret O);
      if (0 <? bound)%nat then tx_fail (BudgetTaken key.(SVKBudgetID))
      else
        _ ← update_key "is_active" id (set_active now active);
        _ ← update_status now key.(SVKBudgetID) (if active then "bound" else "released");
        mret tt);
  GetVirtualKey id.

Definition RevokeVirtualKey (commit : bool) (now : Z) (id : string) : tx () :=
  Transaction commit (
    key ← GetVirtualKey id;
    _ ← update_key "revoke" id (set_active now false);
    _ ← update_status now key.(SVKBudgetID) "released";
    mret tt).

(** [raw] are the random bytes. *)
Definition RotateVirtualKey (commit : bool) (now : Z) (raw : option (list Byte.byte)) (id : string) :
    tx (StoreVirtualKey * string) :=
  match GenerateVirtualKey raw with
  | None => tx_fail GenerateFailed
  | Some (apiKey, hash, prefix) =>
      _ ← Transaction commit (
        key ← GetVirtualKey id;
        if negb key.(SVKIsActive) then tx_fail (KeyRevoked id)
        else
          let key := key <| SVKAPIKey := apiKey |> <| SVKKeyHash := hash |> <| SVKDisplayPrefix := prefix |>
                         <| SVKUpdatedAt := now |> in
          update_key "save" id (save_row key));
      row ← GetVirtualKey id;
      mret (row, apiKey)
  end.

(** [configs[0].Weight = 1]; an empty slice panics ([None]). *)
Definition weigh_first (configs : list ProviderConfig) : option (list ProviderConfig) :=
  match configs with
  | [] => None
  | c :: rest => Some (c <| Weight := f64_of_Z 1 |> :: rest)
  end.

Definition direct_weight (mode : VKMode) (configs : list ProviderConfig) : option (list ProviderConfig) :=
  if (mode =? VKDirect)%Z then weigh_first configs else Some configs.

Definition UpdateVirtualKeyRouting (commit : bool) (now : Z) (keyID : string)
    (request : UpdateVirtualKeyRoutingRequest) : tx StoreVirtualKey :=
  _ ← Transaction commit (
    key ← GetVirtualKey keyID;
    let mode := match request.(URMode) with Some m => VKMode_String m | None => key.(SVKMode) end in
    let configs := default key.(SVKProviderConfigs) request.(URProviderConfigs) in
    let lb := match request.(URLoadBalancer) with Some l => LBKind_String l | None => key.(SVKLoadBalancer) end in
    match ParseVKMode mode with
    | Err e => tx_fail (KeyBadEnum e)
    | Ok m =>
        match CompileProviderConfigs m configs with
        | Err e => tx_fail (KeyBadConfigs e)
        | Ok _ =>
            match direct_weight m configs with
            | None => tx_fail KeyPanic
            | Some configs =>
                match ParseLBKind lb with
                | Err e => tx_fail (KeyBadEnum e)
                | Ok _ =>
                    let key := key <| SVKMode := mode |> <| SVKProviderConfigs := configs |>
                                   <| SVKLoadBalancer := lb |> <| SVKUpdatedAt := now |> in
                    update_key "save" keyID (save_row key)
                end
            end
        end
    end);
  GetVirtualKey keyID.

(** The row inserted for a request; [uuid] is the new primary key. *)
Definition new_key (uuid : string) (now : Z) (secret : string * string * string) (budgetID : string)
    (payload : VirtualKeyRequest) (mode : VKMode) (lb : LBKind) (configs : list ProviderConfig) : StoreVirtualKey :=
  let '(apiKey, hash, prefix) := secret in
  mkStoreVirtualKey uuid hash apiKey prefix payload.(VRClientID) budgetID (VKMode_String mode) configs
    (LBKind_String lb) true now now payload.(VRExpiresAt).

Definition CreateVirtualKeyTx (commit : bool) (uuid : string) (now : Z) (raw : option (list Byte.byte))
    (payload : VirtualKeyRequest) : tx (StoreVirtualKey * StoreBudget * string) :=
  match payload.(VRMode), payload.(VRLoadBalancer) with
  | None, _ => tx_fail ModeRequired
  | Some _, None => tx_fail LoadBalancerRequired
  | Some mode, Some lb =>
      match CompileProviderConfigs mode payload.(VRProviderConfigs) with
      | Err e => tx_fail (KeyBadConfigs e)
      | Ok _ =>
          match direct_weight mode payload.(VRProviderConfigs), GenerateVirtualKey raw with
          | None, _ => tx_fail KeyPanic
          | Some _, None => tx_fail GenerateFailed
          | Some configs, Some secret =>
              budget ← Transaction commit (
                budget ← first_budget payload.(VRBudgetID);
                if String.eqb budget.(SStatus) "bound" then tx_fail (BudgetTaken payload.(VRBudgetID))
                else
                  _ ← update_status now budget.(SID) "bound";
                  _ ← on_keys (KeyStatement "insert")
                        (db_create (new_key uuid now secret budget.(SID) payload mode lb configs));
                  mret (set_status now "bound" budget));
              row ← GetVirtualKey uuid;
              mret (row, budget, secret.1.1)
          end
      end
  end.

Definition DeleteVirtualKey (commit : bool) (now : Z) (id : string) : tx () :=
  Transaction commit (
    key ← GetVirtualKey id;
    _ ← on_keys (KeyStatement "delete") (db_delete id);
    _ ← update_status now key.(SVKBudgetID) "released";
    mret tt).

(** ** What a statement does *)

Context `{!GormLaws KDb StoreVirtualKey} `{!GormLaws BDb StoreBudget}.

Definition store_ok (d : StoreDb) : Prop := db_ok d.(vkeys) /\ db_ok d.(sbudgets).

(** Nothing a query can see has changed. *)
Definition same_db (d d' : StoreDb) : Prop :=
  store_ok d' /\ (forall j, tbl d'.(vkeys) j = tbl d.(vkeys) j) /\ (forall j, tbl d'.(sbudgets) j = tbl d.(sbudgets) j).

Lemma same_refl d : store_ok d -> same_db d d.
Proof. by split. Qed.
Lemma same_trans a b c : same_db a b -> same_db b c -> same_db a c.
Proof. intros (_ & K1 & B1) (O2 & K2 & B2). split; [done|]. split; intros j; [by rewrite K2|by rewrite B2]. Qed.

Lemma GetVirtualKey_spec id d res d' : store_ok d -> GetVirtualKey id d = (res, d') ->
  same_db d d' /\ match res with Ok k => tbl d.(vkeys) id = Some k | Err _ => True end.
Proof.
  intros [Hk Hb]. unfold GetVirtualKey, on_keys.
  destruct (db_first id (vkeys d)) as [[k|e] k'] eqn:Hf; intros [= <- <-];
    destruct (first_state _ _ _ _ Hk Hf) as [Hk' Hs]; (split; [by split|]); [|done].
  exact (first_row _ _ _ _ Hk Hf).
Qed.

Lemma count_bound_spec b id d res d' : store_ok d -> count_bound b id d = (res, d') ->
  same_db d d' /\ match res with
  | Ok O => forall j k, tbl d.(vkeys) j = Some k -> k.(SVKIsActive) = true -> k.(SVKBudgetID) = b -> j = id
  | _ => True
  end.
Proof.
  intros [Hk Hb]. unfold count_bound, mbind, Tx_bind, on_keys.
  destruct (db_find (vkeys d)) as [[rs|e] k'] eqn:Hf; intros [= <- <-];
    destruct (find_state _ _ _ Hk Hf) as [Hk' Hs]; (split; [by split|]); [|done].
  destruct (List.length _) eqn:Hlen; [|done]. intros j k Hj Ha Hbk.
  destruct (find_rows _ _ _ Hk Hf) as [_ Hin]. pose proof (tbl_key _ _ _ Hk Hj) as Hkey.
  destruct (decide (j = id)) as [|Hne]; [done|]. exfalso. apply nil_length_inv in Hlen.
  apply (filter_nil_not_elem_of _ _ k Hlen); [|apply list_elem_of_In, Hin; by rewrite Hkey].
  splits; [done|done|]. change (key k) with (SVKID k) in Hkey. congruence.
Qed.

Lemma update_key_spec op id f d res d' :
  store_ok d -> (forall r, (f r).(SVKID) = r.(SVKID)) -> update_key op id f d = (res, d') ->
  store_ok d' /\ (forall j, tbl d'.(sbudgets) j = tbl d.(sbudgets) j) /\
  match res with
  | Ok _ => forall j, tbl d'.(vkeys) j = if decide (j = id) then f <$> tbl d.(vkeys) j else tbl d.(vkeys) j
  | Err _ => forall j, tbl d'.(vkeys) j = tbl d.(vkeys) j
  end.
Proof.
  intros [Hk Hb] Hf. unfold update_key, on_keys.
  destruct (db_update id f (vkeys d)) as [[n|e] k'] eqn:Hu; intros [= <- <-].
  - destruct (update_ok _ _ _ _ _ Hk Hf Hu) as (Hk' & Hl & _). by split.
  - destruct (update_err _ _ _ _ _ Hk Hu) as (Hk' & Hl). by split.
Qed.

Lemma set_status_key now status (r : StoreBudget) : key (set_status now status r) = key r.
Proof. reflexivity. Qed.

Lemma update_status_spec now id status d res d' :
  store_ok d -> update_status now id status d = (res, d') ->
  store_ok d' /\ (forall j, tbl d'.(vkeys) j = tbl d.(vkeys) j) /\
  match res with
  | Ok _ => forall j, tbl d'.(sbudgets) j =
      if decide (j = id) then set_status now status <$> tbl d.(sbudgets) j else tbl d.(sbudgets) j
  | Err _ => forall j, tbl d'.(sbudgets) j = tbl d.(sbudgets) j
  end.
Proof.
  intros [Hk Hb]. unfold update_status, on_budgets.
  destruct (db_update id _ (sbudgets d)) as [[n|e] k'] eqn:Hu; intros [= <- <-].
  - destruct (update_ok _ _ _ _ _ Hb (set_status_key now status) Hu) as (Hk' & Hl & _). by split.
  - destruct (update_err _ _ _ _ _ Hb Hu) as (Hk' & Hl). by split.
Qed.

Lemma first_budget_spec id d res d' : store_ok d -> first_budget id d = (res, d') ->
  same_db d d' /\ match res with
  | Ok b => b.(SID) = id /\ exists r, tbl d.(sbudgets) id = Some r /\ b.(SStatus) = r.(SStatus)
  | Err _ => True
  end.
Proof.
  intros [Hk Hb]. unfold first_budget, mbind, Tx_bind, on_budgets.
  destruct (db_first id (sbudgets d)) as [[b|e] b'] eqn:Hf;
    destruct (first_state _ _ _ _ Hb Hf) as [Hb' Hs]; [|intros [= <- <-]; split; [by split|done]].
  pose proof (first_row _ _ _ _ Hb Hf) as Hr. pose proof (tbl_key _ _ _ Hb Hr) as Hkey.
  unfold AfterFind. destruct (is_empty _); [intros [= <- <-]; split; [by split|eauto]|].
  destruct (ParseDuration _); intros [= <- <-]; (split; [by split|]); [|done]. eauto.
Qed.

Lemma Transaction_cases {A} commit (t : tx A) d res d' : Transaction commit t d = (res, d') ->
  (exists e, res = Err e /\ d' = d) \/ exists a, res = Ok a /\ t d = (Ok a, d').
Proof. apply Tx_transaction_cases. Qed.

(** ** Which key a budget is bound to *)

(** The budget of an active key, and the status of a budget. *)
Definition active (d : StoreDb) (id : string) : option string :=
  match tbl d.(vkeys) id with
  | Some k => if k.(SVKIsActive) then Some k.(SVKBudgetID) else None
  | None => None
  end.
Definition status (d : StoreDb) (id : string) : option string := SStatus <$> tbl d.(sbudgets) id.

(** Two states that bind alike, one in which key [id] has been bound to budget [b], and one in
    which it has been released from it. *)
Definition binds_as (d d' : StoreDb) : Prop :=
  (forall j, active d' j = active d j) /\ (forall b, status d' b = status d b).
Definition bound_to (id b : string) (d d' : StoreDb) : Prop :=
  (forall j, active d' j = if decide (j = id) then Some b else active d j) /\
  (forall c, status d' c = if decide (c = b) then (fun _ => "bound") <$> status d c else status d c).
Definition released_from (id b : string) (d d' : StoreDb) : Prop :=
  (forall j, active d' j = if decide (j = id) then None else active d j) /\
  (forall c, status d' c = if decide (c = b) then (fun _ => "released") <$> status d c else status d c).

(** At most one active key per budget, and the budget of an active key is marked as bound. *)
Record bound_ok (d : StoreDb) : Prop := mkBoundOk {
  bo_store : store_ok d;
  bo_one i j b : active d i = Some b -> active d j = Some b -> i = j;
  bo_status i b s : active d i = Some b -> status d b = Some s -> s = "bound"
}.

Lemma bound_ok_same d d' : bound_ok d -> store_ok d' -> binds_as d d' -> bound_ok d'.
Proof.
  intros [Ho H1 H2] Hd [Ha Hs]. constructor; [done| |].
  - intros i j b. rewrite !Ha. apply H1.
  - intros i b s. rewrite Ha, Hs. apply H2.
Qed.

Lemma bound_ok_bind id b d d' : bound_ok d -> store_ok d' -> bound_to id b d d' ->
  (forall j, active d j = Some b -> j = id) -> bound_ok d'.
Proof.
  intros [Ho H1 H2] Hd [Ha Hs] Honly. constructor; [done| |].
  - intros i j c. rewrite !Ha. repeat case_decide; subst; try done.
    + intros [= <-] Hj. by rewrite (Honly j Hj).
    + intros Hi [= <-]. by rewrite (Honly i Hi).
    + apply H1.
  - intros i c s. rewrite Ha, Hs. repeat case_decide; subst; try done.
    + intros _. destruct (status d b); cbn; congruence.
    + congruence.
    + intros _. destruct (status d b); cbn; congruence.
    + apply H2.
Qed.

Lemma bound_ok_release id b d d' : bound_ok d -> store_ok d' -> released_from id b d d' ->
  active d id = Some b -> bound_ok d'.
Proof.
  intros [Ho H1 H2] Hd [Ha Hs] Hact. constructor; [done| |].
  - intros i j c. rewrite !Ha. repeat case_decide; subst; try done. apply H1.
  - intros i c s. rewrite Ha, Hs. repeat case_decide; subst; try done; [|apply H2].
    intros Hi. assert (i = id) by (by apply (H1 i id b)). done.
Qed.

(** A budget that is marked as bound has its active key. *)
Definition bound_held (d : StoreDb) : Prop :=
  forall b, status d b = Some "bound" -> exists j, active d j = Some b.

Lemma bound_held_bind id b d d' : bound_held d -> bound_to id b d d' ->
  (forall c, active d id = Some c -> c = b) -> bound_held d'.
Proof.
  intros Hh [Ha Hs] Hid c. rewrite Hs. case_decide as Hc; [subst c|].
  - intros _. exists id. by rewrite Ha, decide_True.
  - intros (j & Hj)%Hh. exists j. rewrite Ha, decide_False; [done|]. intros ->. by apply Hc, Hid.
Qed.

Lemma bound_held_release id b d d' : bound_held d -> released_from id b d d' ->
  active d id = Some b -> bound_held d'.
Proof.
  intros Hh [Ha Hs] Hid c. rewrite Hs. case_decide as Hc.
  - by destruct (status d c).
  - intros (j & Hj)%Hh. exists j. rewrite Ha, decide_False; [done|]. intros ->. congruence.
Qed.

Lemma same_binds d d' : same_db d d' -> binds_as d d'.
Proof. intros (_ & Hk & Hb). unfold binds_as, active, status. split; intros j; by rewrite ?Hk, ?Hb. Qed.

Lemma binds_trans a b c : binds_as a b -> binds_as b c -> binds_as a c.
Proof. intros [A1 S1] [A2 S2]. split; intros j; [by rewrite A2|by rewrite S2]. Qed.

(** A change that keeps the binding sound: none, a new binding of a budget no other key has, or the
    release of an active key. *)
Definition sound_change (d d' : StoreDb) : Prop :=
  store_ok d' /\
  (binds_as d d' \/
   (exists id b, bound_to id b d d' /\ active d id = None /\ forall j, active d j = Some b -> j = id) \/
   (exists id b, released_from id b d d' /\ active d id = Some b)).

Lemma sound_change_ok d d' : bound_ok d -> sound_change d d' -> bound_ok d'.
Proof.
  intros Hd [Ho [Hs|[(id & b & Hb & _ & Honly)|(id & b & Hr & Ha)]]].
  - by apply (bound_ok_same d).
  - by apply (bound_ok_bind id b d).
  - by apply (bound_ok_release id b d).
Qed.

Lemma sound_change_held d d' : bound_held d -> sound_change d d' -> bound_held d'.
Proof.
  intros Hd [Ho [[Ha Hs]|[(id & b & Hb & Hn & _)|(id & b & Hr & Ha)]]].
  - intros b. rewrite Hs. intros (j & Hj)%Hd. exists j. by rewrite Ha.
  - apply (bound_held_bind id b d); [done|done|]. by rewrite Hn.
  - by apply (bound_held_release id b d).
Qed.

Lemma sound_change_same d d' : same_db d d' -> sound_change d d'.
Proof. intros Hs. split; [apply Hs | left; by apply same_binds]. Qed.

Lemma sound_change_trans d d1 d2 : sound_change d d1 -> same_db d1 d2 -> sound_change d d2.
Proof.
  intros [_ Hc] Hs. split; [apply Hs|]. destruct (same_binds _ _ Hs) as [Ha Hst].
  destruct Hc as [[A1 S1]|[(id & b & [A1 S1] & Hn & Honly)|(id & b & [A1 S1] & Hact)]].
  - left. split; intros j; [by rewrite Ha|by rewrite Hst].
  - right; left. exists id, b. split; [|done]. split; intros j; [by rewrite Ha|by rewrite Hst].
  - right; right. exists id, b. split; [|done]. split; intros j; [by rewrite Ha|by rewrite Hst].
Qed.

(** The two statements that switch a key on or off. *)
Lemma switch_effect op op_id now act k d d1 d2 n1 n2 :
  store_ok d -> tbl d.(vkeys) op_id = Some k ->
  update_key op op_id (set_active now act) d = (Ok n1, d1) ->
  update_status now k.(SVKBudgetID) (if act then "bound" else "released") d1 = (Ok n2, d2) ->
  store_ok d2 /\ (if act then bound_to else released_from) op_id k.(SVKBudgetID) d d2.
Proof.
  intros Hd Hk Hu Hs. destruct (update_key_spec op op_id (set_active now act) _ _ _ Hd ltac:(done) Hu) as (Hd1 & Hb1 & Hk1).
  destruct (update_status_spec _ _ _ _ _ _ Hd1 Hs) as (Hd2 & Hk2 & Hb2). split; [done|].
  assert (Hact : forall j, active d2 j = if decide (j = op_id) then (if act then Some k.(SVKBudgetID) else None) else active d j).
  { intros j. unfold active. rewrite Hk2, Hk1. destruct (decide (j = op_id)) as [->|]; [|done].
    rewrite Hk. cbn [fmap option_fmap option_map]. by destruct act. }
  assert (Hst : forall c, status d2 c = if decide (c = k.(SVKBudgetID))
      then (fun _ => if act then "bound" else "released") <$> status d c else status d c).
  { intros c. unfold status. rewrite Hb2, Hb1. case_decide; [|done]. by destruct (tbl (sbudgets d) c). }
  by destruct act.
Qed.

(** A transaction, and what only reads after it. *)
Lemma transaction_sound {A} commit (t : tx A) d res d' :
  store_ok d -> (forall a d1, t d = (Ok a, d1) -> sound_change d d1) ->
  Transaction commit t d = (res, d') -> sound_change d d'.
Proof.
  intros Hd Hok [(e & -> & ->)|(a & -> & Ht)]%Transaction_cases; [by apply sound_change_same, same_refl|eauto].
Qed.

Lemma read_after {A B} (m : tx A) (f : A -> tx B) d res d' :
  (forall r d1, m d = (r, d1) -> sound_change d d1) ->
  (forall a d1 r d2, store_ok d1 -> f a d1 = (r, d2) -> same_db d1 d2) ->
  (m ≫= f) d = (res, d') -> sound_change d d'.
Proof.
  intros Hm Hf. unfold mbind, Tx_bind. destruct (m d) as [[a|e] d1] eqn:Ht.
  - intros Hr. pose proof (Hm _ _ eq_refl) as Hc. eapply sound_change_trans; [exact Hc|].
    eapply Hf; [exact (proj1 Hc)|exact Hr].
  - intros [= <- <-]. by apply (Hm _ _ eq_refl).
Qed.

Lemma get_same id d r d' : store_ok d -> GetVirtualKey id d = (r, d') -> same_db d d'.
Proof. intros Hd Hg. by apply (GetVirtualKey_spec id d r d' Hd). Qed.

Lemma SetVirtualKeyActive_sound commit now id act d res d' :
  store_ok d -> SetVirtualKeyActive commit now id act d = (res, d') -> sound_change d d'.
Proof.
  intros Hd. unfold SetVirtualKeyActive. apply read_after; [|by intros _ d1 r d2; apply get_same].
  intros r d1. apply transaction_sound; [done|]. clear r d1. intros a d1 Ht.
  apply tx_bind_Ok in Ht as (k & d2 & Hg & Ht). destruct (GetVirtualKey_spec _ _ _ _ Hd Hg) as [Hs2 Hk].
  destruct (Bool.eqb (SVKIsActive k) act) eqn:He; [injection Ht as _ <-; by apply sound_change_same|].
  apply tx_bind_Ok in Ht as (n & d3 & Hn & Ht).
  assert (H3 : same_db d d3 /\ (act = true -> n = O -> forall j, active d j = Some (SVKBudgetID k) -> j = id)).
  { destruct act; [|injection Hn as _ <-; by split].
    destruct (count_bound_spec _ _ _ _ _ (proj1 Hs2) Hn) as [Hs3 Hz]. split; [by eapply same_trans|].
    intros _ -> j. rewrite <- (proj1 (same_binds _ _ Hs2) j). unfold active.
    destruct (tbl (vkeys d2) j) as [k'|] eqn:Hj; [|done]. destruct (SVKIsActive k') eqn:Ha; [|done].
    intros [= Hb]. by apply (Hz j k'). }
  destruct H3 as [Hs3 Hz]. destruct (0 <? n)%nat eqn:Hpos; [done|].
  apply tx_bind_Ok in Ht as (n1 & d4 & Hu & Ht). apply tx_bind_Ok in Ht as (n2 & d5 & Hst & [= _ <-]).
  assert (Hk3 : tbl (vkeys d3) id = Some k) by (by rewrite (proj1 (proj2 Hs3))).
  destruct (switch_effect _ _ _ _ _ _ _ _ _ _ (proj1 Hs3) Hk3 Hu Hst) as [Hd5 Heff]. split; [done|]. right.
  destruct (same_binds _ _ Hs3) as [Ha3 Hst3]. destruct act; [left|right]; exists id, (SVKBudgetID k).
  - split; [|split; [unfold active; rewrite Hk; by destruct (SVKIsActive k)
                    |apply Hz; [done|by apply Nat.ltb_ge, Nat.le_0_r in Hpos]]].
    split; [intros j; rewrite <- Ha3; apply Heff | intros c; rewrite <- Hst3; apply Heff].
  - split; [|unfold active; rewrite Hk; by destruct (SVKIsActive k)].
    split; [intros j; rewrite <- Ha3; apply Heff | intros c; rewrite <- Hst3; apply Heff].
Qed.

(** A row that is there is active. *)
Definition not_inactive (d : StoreDb) (id : string) : Prop :=
  forall k, tbl d.(vkeys) id = Some k -> k.(SVKIsActive) = true.

Lemma RevokeVirtualKey_sound commit now id d res d' :
  store_ok d -> not_inactive d id -> RevokeVirtualKey commit now id d = (res, d') -> sound_change d d'.
Proof.
  intros Hd Hact. unfold RevokeVirtualKey. apply transaction_sound; [done|]. intros a d1 Ht.
  apply tx_bind_Ok in Ht as (k & d2 & Hg & Ht). destruct (GetVirtualKey_spec _ _ _ _ Hd Hg) as [Hs2 Hk].
  apply tx_bind_Ok in Ht as (n1 & d4 & Hu & Ht). apply tx_bind_Ok in Ht as (n2 & d5 & Hst & [= _ <-]).
  assert (Hk2 : tbl (vkeys d2) id = Some k) by (by rewrite (proj1 (proj2 Hs2))).
  destruct (switch_effect _ _ _ false _ _ _ _ _ _ (proj1 Hs2) Hk2 Hu Hst) as [Hd5 Heff]. split; [done|].
  destruct (same_binds _ _ Hs2) as [Ha2 Hst2]. right; right. exists id, (SVKBudgetID k). split.
  - split; [intros j; rewrite <- Ha2; apply Heff | intros c; rewrite <- Hst2; apply Heff].
  - unfold active. by rewrite Hk, (Hact k Hk).
Qed.

Lemma DeleteVirtualKey_sound commit now id d res d' :
  store_ok d -> not_inactive d id -> DeleteVirtualKey commit now id d = (res, d') -> sound_change d d'.
Proof.
  intros Hd Hact. unfold DeleteVirtualKey. apply transaction_sound; [done|]. intros a d1 Ht.
  apply tx_bind_Ok in Ht as (k & d2 & Hg & Ht). destruct (GetVirtualKey_spec _ _ _ _ Hd Hg) as [Hs2 Hk].
  apply tx_bind_Ok in Ht as (n1 & d4 & Hdel & Ht). apply tx_bind_Ok in Ht as (n2 & d5 & Hst & [= _ <-]).
  unfold on_keys in Hdel. destruct (db_delete id (vkeys d2)) as [[u|e] kd] eqn:Hdb; [|done]. injection Hdel as -> <-.
  destruct Hs2 as ([Hok Hob] & Hks & Hbs). destruct (delete_ok _ _ _ _ Hok Hdb) as (Hok' & Hl & _).
  assert (Hd4 : store_ok (mkStoreDb kd (sbudgets d2))) by by split.
  destruct (update_status_spec _ _ _ _ _ _ Hd4 Hst) as (Hd5 & Hk5 & Hb5). split; [done|].
  right; right. exists id, (SVKBudgetID k). split; [split|unfold active; by rewrite Hk, (Hact k Hk)].
  - intros j. unfold active. rewrite Hk5. cbn [vkeys]. rewrite Hl, Hks. by case_decide.
  - intros c. unfold status. rewrite Hb5. cbn [sbudgets]. rewrite Hbs. case_decide; [|done].
    by destruct (tbl (sbudgets d) c).
Qed.

(** A save that keeps the key's budget and activity. *)
Lemma save_sound id k' k d d' n :
  store_ok d -> tbl d.(vkeys) id = Some k -> k'.(SVKIsActive) = k.(SVKIsActive) -> k'.(SVKBudgetID) = k.(SVKBudgetID) ->
  update_key "save" id (save_row k') d = (Ok n, d') -> sound_change d d'.
Proof.
  intros Hd Hk Ha Hb Hu.
  destruct (update_key_spec "save" id (save_row k') _ _ _ Hd ltac:(done) Hu) as (Hd' & Hbs & Hks). split; [done|].
  left. split; [|intros c; unfold status; by rewrite Hbs].
  intros j. unfold active. rewrite Hks. destruct (decide (j = id)) as [->|]; [|done]. rewrite Hk.
  cbn [fmap option_fmap option_map]. change (SVKIsActive (save_row k' k)) with (SVKIsActive k').
  change (SVKBudgetID (save_row k' k)) with (SVKBudgetID k'). by rewrite Ha, Hb.
Qed.

Lemma sound_after_same d d1 d2 : same_db d d1 -> sound_change d1 d2 -> sound_change d d2.
Proof.
  intros Hs [Ho Hc]. split; [done|]. destruct (same_binds _ _ Hs) as [Ha Hst].
  destruct Hc as [[A1 S1]|[(id & b & [A1 S1] & Hn & Honly)|(id & b & [A1 S1] & Hact)]].
  - left. split; intros j; [by rewrite A1|by rewrite S1].
  - right; left. exists id, b. split; [|split; [by rewrite <- Ha|by intros j; rewrite <- Ha; apply Honly]].
    split; intros j; [by rewrite A1, Ha|by rewrite S1, Hst].
  - right; right. exists id, b. split; [|by rewrite <- Ha].
    split; intros j; [by rewrite A1, Ha|by rewrite S1, Hst].
Qed.

Lemma RotateVirtualKey_sound commit now raw id d res d' :
  store_ok d -> RotateVirtualKey commit now raw id d = (res, d') -> sound_change d d'.
Proof.
  intros Hd. unfold RotateVirtualKey. destruct (GenerateVirtualKey raw) as [[[apiKey hash] prefix]|].
  2: { intros [= <- <-]. by apply sound_change_same, same_refl. }
  apply read_after.
  - intros r d1. apply transaction_sound; [done|]. clear r d1. intros a d1 Ht.
    apply tx_bind_Ok in Ht as (k & d2 & Hg & Ht). destruct (GetVirtualKey_spec _ _ _ _ Hd Hg) as [Hs2 Hk].
    destruct (negb (SVKIsActive k)); [done|]. apply (sound_after_same _ _ _ Hs2).
    assert (Hk2 : tbl (vkeys d2) id = Some k) by (by rewrite (proj1 (proj2 Hs2))).
    by eapply (save_sound id _ k _ _ _ (proj1 Hs2) Hk2); [..|exact Ht].
  - intros _ d1 r d2 Hd1. unfold mbind, Tx_bind.
    destruct (GetVirtualKey id d1) as [[k|e] d3] eqn:Hg; intros [= _ <-]; by eapply get_same.
Qed.

Lemma UpdateVirtualKeyRouting_sound commit now id request d res d' :
  store_ok d -> UpdateVirtualKeyRouting commit now id request d = (res, d') -> sound_change d d'.
Proof.
  intros Hd. unfold UpdateVirtualKeyRouting. apply read_after; [|by intros _ d1 r d2; apply get_same].
  intros r d1. apply transaction_sound; [done|]. clear r d1. intros a d1 Ht.
  apply tx_bind_Ok in Ht as (k & d2 & Hg & Ht). destruct (GetVirtualKey_spec _ _ _ _ Hd Hg) as [Hs2 Hk].
  destruct (ParseVKMode _) as [m|]; [|done]. destruct (CompileProviderConfigs m _); [|done].
  destruct (direct_weight m _) as [configs|]; [|done]. destruct (ParseLBKind _); [|done].
  apply (sound_after_same _ _ _ Hs2).
  assert (Hk2 : tbl (vkeys d2) id = Some k) by (by rewrite (proj1 (proj2 Hs2))).
  by eapply (save_sound id _ k _ _ _ (proj1 Hs2) Hk2); [..|exact Ht].
Qed.

(** ** Creation *)

(** What the statements of a creation leave behind. *)
Lemma insert_effect uuid now secret payload mode lb configs d d' r :
  store_ok d ->
  (budget ← first_budget payload.(VRBudgetID);
   if String.eqb budget.(SStatus) "bound" then tx_fail (BudgetTaken payload.(VRBudgetID))
   else
     _ ← update_status now budget.(SID) "bound";
     _ ← on_keys (KeyStatement "insert") (db_create (new_key uuid now secret budget.(SID) payload mode lb configs));
     mret (set_status now "bound" budget)) d = (Ok r, d') ->
  let row := new_key uuid now secret payload.(VRBudgetID) payload mode lb configs in
  store_ok d' /\ bound_to uuid payload.(VRBudgetID) d d' /\ tbl d.(vkeys) uuid = None /\
  (forall j, tbl d'.(vkeys) j = if decide (j = uuid) then Some row else tbl d.(vkeys) j) /\
  exists s, status d payload.(VRBudgetID) = Some s /\ s <> "bound".
Proof.
  intros Hd Ht. apply tx_bind_Ok in Ht as (b & d1 & Hb & Ht).
  destruct (first_budget_spec _ _ _ _ Hd Hb) as [Hs1 (Hid & rb & Hrb & Hst)]. rewrite Hid in Ht.
  destruct (String.eqb_spec (SStatus b) "bound") as [|Hne]; [done|].
  apply tx_bind_Ok in Ht as (n & d2 & Hu & Ht). apply tx_bind_Ok in Ht as ([] & d3 & Hc & [= _ <-]).
  destruct (update_status_spec _ _ _ _ _ _ (proj1 Hs1) Hu) as ([Hk2 Hb2] & Hks2 & Hbs2).
  set (row := new_key uuid now secret (VRBudgetID payload) payload mode lb configs) in *.
  assert (Hkey : key row = uuid) by (unfold row, new_key; by destruct secret as [[? ?] ?]).
  assert (Hrow : row.(SVKIsActive) = true /\ row.(SVKBudgetID) = VRBudgetID payload)
    by (unfold row, new_key; by destruct secret as [[? ?] ?]).
  unfold on_keys in Hc. destruct (db_create row (vkeys d2)) as [[u|e] kd] eqn:Hdb; [|done]. injection Hc as -> <-.
  destruct (create_ok _ _ _ _ Hk2 Hdb) as (Hk3 & Hnone & Hl). rewrite Hkey in Hl, Hnone.
  destruct Hs1 as (_ & Hks1 & Hbs1).
  assert (Hrows : forall j, tbl kd j = if decide (j = uuid) then Some row else tbl d.(vkeys) j)
    by (intros j; rewrite Hl, Hks2, Hks1; done).
  cbn zeta. fold row. splits; [by split| |by rewrite <- Hks1, <- Hks2|done|exists (SStatus rb); split; [unfold status; by rewrite Hrb|by rewrite <- Hst]].
  split.
  - intros j. unfold active. cbn [vkeys]. rewrite Hrows. case_decide; [|done]. by rewrite (proj1 Hrow), (proj2 Hrow).
  - intros c. unfold status. cbn [sbudgets]. rewrite Hbs2, Hbs1. case_decide; [|done]. by destruct (tbl (sbudgets d) c).
Qed.

Lemma unbound_has_no_key d b s : bound_ok d -> status d b = Some s -> s <> "bound" -> forall j, active d j <> Some b.
Proof. intros Hd Hs Hne j Ha. apply Hne. exact (bo_status d Hd j b s Ha Hs). Qed.

Lemma CreateVirtualKeyTx_sound commit uuid now raw payload d res d' :
  bound_ok d -> CreateVirtualKeyTx commit uuid now raw payload d = (res, d') -> sound_change d d'.
Proof.
  intros Hd. pose proof (bo_store d Hd) as Ho. unfold CreateVirtualKeyTx.
  assert (Hfail : forall e, (Err e, d) = (res, d') -> sound_change d d')
    by (intros e [= _ <-]; by apply sound_change_same, same_refl).
  destruct (VRMode payload) as [mode|]; [|apply Hfail]. destruct (VRLoadBalancer payload) as [lb|]; [|apply Hfail].
  destruct (CompileProviderConfigs _ _); [|apply Hfail]. destruct (direct_weight _ _) as [configs|]; [|apply Hfail].
  destruct (GenerateVirtualKey raw) as [secret|]; [|apply Hfail]. clear Hfail. apply read_after.
  - intros r d1. apply transaction_sound; [done|]. clear r d1. intros b d1 Ht.
    destruct (insert_effect uuid now secret payload mode lb configs d d1 b Ho Ht) as (Hd1 & Heff & Hnone & _ & s & Hs & Hne).
    split; [done|]. right; left. exists uuid, (VRBudgetID payload). split; [exact Heff|].
    split; [unfold active; by rewrite Hnone|].
    intros j Hj. by destruct (unbound_has_no_key d _ s Hd Hs Hne j).
  - intros b d1 r d2 Hd1. unfold mbind, Tx_bind.
    destruct (GetVirtualKey uuid d1) as [[k|e] d3] eqn:Hg; intros [= _ <-]; by eapply get_same.
Qed.

(** C36: Creating a virtual key.  On success the key did not exist, its budget existed and
    had no active key, the key returned in the clear is well formed, its row is stored active
    with its hash, and the budget is now bound to it; no other key or budget is touched.  A
    failure changes nothing at all, with one exception: when the row cannot be read back after
    the commit the caller gets an error although the key is active and the budget bound. *)
Theorem CreateVirtualKeyTx_spec commit uuid now raw payload d res d' :
  bound_ok d -> CreateVirtualKeyTx commit uuid now raw payload d = (res, d') ->
  let b := payload.(VRBudgetID) in
  match res with
  | Ok (row, budget, apiKey) => exists mode lb configs hash prefix,
      payload.(VRMode) = Some mode /\ payload.(VRLoadBalancer) = Some lb /\
      row = new_key uuid now (apiKey, hash, prefix) b payload mode lb configs /\
      ValidateKeySignature apiKey = true /\ GenerateVirtualKey raw = Some (apiKey, hash, prefix) /\
      tbl d.(vkeys) uuid = None /\
      (forall j, tbl d'.(vkeys) j = if decide (j = uuid) then Some row else tbl d.(vkeys) j) /\
      (forall j, active d j <> Some b) /\ bound_to uuid b d d' /\ status d' b = Some "bound"
  | Err e => same_db d d' \/ exists cause, e = KeyNotFound uuid cause /\ bound_to uuid b d d'
  end.
Proof.
  intros Hd. pose proof (bo_store d Hd) as Ho. unfold CreateVirtualKeyTx. cbn zeta.
  assert (Hfail : forall e, (Err e, d) = (res, d') -> exists e', res = Err e' /\ same_db d d')
    by (intros e [= <- <-]; exists e; split; [done|by apply same_refl]).
  destruct (VRMode payload) as [mode|] eqn:Hmode; [|intros (e0 & -> & Hs)%Hfail; by left].
  destruct (VRLoadBalancer payload) as [lb|] eqn:Hlb; [|intros (e0 & -> & Hs)%Hfail; by left].
  destruct (CompileProviderConfigs _ _); [|intros (e0 & -> & Hs)%Hfail; by left].
  destruct (direct_weight _ _) as [configs|]; [|intros (e0 & -> & Hs)%Hfail; by left].
  destruct (GenerateVirtualKey raw) as [[[apiKey hash] prefix]|] eqn:Hgen; [|intros (e0 & -> & Hs)%Hfail; by left].
  unfold mbind, Tx_bind at 1. destruct (Transaction _ _ d) as [[b|e] d1] eqn:Ht.
  2: { intros [= <- <-]. apply Transaction_cases in Ht as [(? & _ & ->)|(? & [=] & _)]. left. by apply same_refl. }
  apply Transaction_cases in Ht as [(? & [=] & _)|(b' & [= <-] & Ht)].
  destruct (insert_effect uuid now _ payload mode lb configs d d1 b Ho Ht) as (Hd1 & Heff & Hnone & Hrows & s & Hs & Hne).
  unfold Tx_bind. destruct (GetVirtualKey uuid d1) as [[k|e] d2] eqn:Hg; intros [= <- <-];
    destruct (GetVirtualKey_spec _ _ _ _ Hd1 Hg) as [Hs2 Hk]; destruct (same_binds _ _ Hs2) as [Ha2 Hst2];
    assert (Heff2 : bound_to uuid (VRBudgetID payload) d d2)
      by (split; [intros j; rewrite Ha2; apply Heff | intros c; rewrite Hst2; apply Heff]).
  - rewrite Hrows, decide_True in Hk by done. injection Hk as <-.
    exists mode, lb, configs, hash, prefix. splits; try done.
    + by apply (GenerateVirtualKey_valid raw apiKey hash prefix).
    + intros j. rewrite (proj1 (proj2 Hs2)). apply Hrows.
    + by apply (unbound_has_no_key d _ s).
    + rewrite (proj2 Heff2), decide_True by done. by rewrite Hs.
  - right. unfold GetVirtualKey, on_keys in Hg.
    destruct (db_first uuid (vkeys d1)) as [[k|c] kd]; [done|]. injection Hg as <- _. by exists c.
Qed.

(** ** The binding of budgets *)

(** The operations; a key is revoked or deleted while it is active. *)
Inductive key_step : StoreDb -> StoreDb -> Prop :=
| ks_create commit uuid now raw payload d res d' :
    CreateVirtualKeyTx commit uuid now raw payload d = (res, d') -> key_step d d'
| ks_active commit now id act d res d' : SetVirtualKeyActive commit now id act d = (res, d') -> key_step d d'
| ks_revoke commit now id d res d' :
    not_inactive d id -> RevokeVirtualKey commit now id d = (res, d') -> key_step d d'
| ks_delete commit now id d res d' :
    not_inactive d id -> DeleteVirtualKey commit now id d = (res, d') -> key_step d d'
| ks_rotate commit now raw id d res d' : RotateVirtualKey commit now raw id d = (res, d') -> key_step d d'
| ks_route commit now id request d res d' :
    UpdateVirtualKeyRouting commit now id request d = (res, d') -> key_step d d'.

Lemma key_step_sound d d' : bound_ok d -> key_step d d' -> sound_change d d'.
Proof.
  intros Hd Hstep. pose proof (bo_store d Hd) as Ho. destruct Hstep.
  - by eapply CreateVirtualKeyTx_sound.
  - by eapply SetVirtualKeyActive_sound.
  - by eapply RevokeVirtualKey_sound.
  - by eapply DeleteVirtualKey_sound.
  - by eapply RotateVirtualKey_sound.
  - by eapply UpdateVirtualKeyRouting_sound.
Qed.

(** C14: Whatever sequence of these operations is run (a key being revoked or deleted while it is
    active; see [revoking_inactive_key_frees_budget]), failing statements and commits
    included, no budget ever has two active keys, and the budgets that are marked as bound are
    exactly those of the active keys: the budget of an active key is bound, and a budget whose key
    was revoked, deactivated or deleted is not. *)
Theorem budget_bound_once d d' :
  bound_ok d -> bound_held d -> star key_step d d' ->
  (forall i j b, active d' i = Some b -> active d' j = Some b -> i = j) /\
  (forall b s, status d' b = Some s -> s = "bound" <-> exists i, active d' i = Some b).
Proof.
  intros Hd Hh Hs. assert (Hok : bound_ok d' /\ bound_held d').
  { apply (star_inv key_step (fun d => bound_ok d /\ bound_held d) d d'); [|done|done].
    clear. intros d d' [Hd Hh] Hstep%key_step_sound; [|done].
    split; [by apply (sound_change_ok d) | by apply (sound_change_held d)]. }
  destruct Hok as [Hok Hheld]. split; [exact (bo_one d' Hok)|]. intros b s Hst. split.
  - intros ->. by apply Hheld.
  - intros (i & Hi). exact (bo_status d' Hok i b s Hi Hst).
Qed.

End store.
Arguments StoreDb : clear implicits.
Arguments mkStoreDb {KDb BDb}.

(** ** A revoked key and its successor on one budget *)

Definition stored_key (id : string) (on : bool) : StoreVirtualKey :=
  mkStoreVirtualKey id ("hash-" ++ id) ("dk-" ++ id) "dk-" "client" "b1" "direct" [] "round_robin" on 0 0 None.
Definition two_keys : StoreDb (MemTable StoreVirtualKey) (MemTable StoreBudget) :=
  mkStoreDb (mkMemTable {["k1" := stored_key "k1" false; "k2" := stored_key "k2" true]} [])
    (mkMemTable {["b1" := mkStoreBudget "b1" "" 1000 BudgetUnitNanoUSD "24h" true 0 0 "bound" 0 0 0 0 0]} []).

Lemma two_keys_active i b : active two_keys i = Some b -> i = "k2" /\ b = "b1".
Proof.
  unfold active. cbn [vkeys two_keys]. change (tbl (mkMemTable ?m []) i) with (m !! i).
  destruct (_ !! i) as [k|] eqn:Hk; [|done].
  apply lookup_insert_Some in Hk as [[<- <-]|[_ [<- <-]%lookup_singleton_Some]]; [done|]. by intros [= <-].
Qed.

Lemma two_keys_ok : bound_ok two_keys.
Proof.
  constructor.
  - split; cbn; intros i r; cbn [rows]; [|by intros [<- <-]%lookup_singleton_Some].
    intros [[<- <-]|[_ [<- <-]%lookup_singleton_Some]]%lookup_insert_Some; done.
  - intros i j b [-> _]%two_keys_active [-> _]%two_keys_active. done.
  - intros i b s [-> ->]%two_keys_active. vm_compute. by intros [= <-].
Qed.

Definition direct_request : VirtualKeyRequest :=
  mkVirtualKeyRequest "client" "b1" None (Some VKDirect) (Some LBRoundRobin)
    [mkProviderConfig "openai" ["*"] [] f64_zero ∅ ∅ false].

(** While "k2" is active its budget cannot be given away; once "k2" is revoked it can. *)
Lemma CreateVirtualKeyTx_spec_witness :
  (exists e, (CreateVirtualKeyTx true "k3" 5 (Some (repeat Byte.x00 14)) direct_request two_keys).1 = Err e) /\
  let d := (RevokeVirtualKey true 4 "k2" two_keys).2 in
  exists row budget apiKey d', CreateVirtualKeyTx true "k3" 5 (Some (repeat Byte.x00 14)) direct_request d
      = (Ok (row, budget, apiKey), d') /\
    ValidateKeySignature apiKey = true /\ bound_to "k3" "b1" d d'.
Proof.
  split; [eexists; vm_compute; reflexivity|]. intros d.
  assert (Hd : bound_ok d).
  { apply (sound_change_ok two_keys d two_keys_ok).
    apply (RevokeVirtualKey_sound true 4 "k2" two_keys (RevokeVirtualKey true 4 "k2" two_keys).1 d (bo_store _ two_keys_ok));
      [|by destruct (RevokeVirtualKey true 4 "k2" two_keys)].
    intros k Hk. vm_compute in Hk. by injection Hk as <-. }
  destruct (CreateVirtualKeyTx true "k3" 5 (Some (repeat Byte.x00 14)) direct_request d) as [res d'] eqn:Hc.
  assert (Hres : exists row budget apiKey, res = Ok (row, budget, apiKey)).
  { change res with (res, d').1. rewrite <- Hc. vm_compute. eexists _, _, _. reflexivity. }
  destruct Hres as (row & budget & apiKey & ->). exists row, budget, apiKey, d'. split; [reflexivity|].
  destruct (CreateVirtualKeyTx_spec true "k3" 5 _ direct_request d _ d' Hd Hc)
    as (mode & lb & configs & hash & prefix & _ & _ & _ & Hv & _ & _ & _ & _ & Hb & _). exact (conj Hv Hb).
Defined.

Lemma two_keys_held : bound_held two_keys.
Proof.
  intros b Hb. exists "k2". destruct (decide (b = "b1")) as [->|Hne]; [vm_compute; reflexivity|].
  exfalso. revert Hb. unfold status, two_keys. cbn [sbudgets].
  change (tbl (mkMemTable ?m []) b) with (m !! b). by rewrite lookup_singleton_ne by congruence.
Qed.

(** Rotating the active key keeps its budget; revoking it then frees the budget. *)
Lemma budget_bound_once_witness :
  let d1 := (RotateVirtualKey true 7 (Some (repeat Byte.x00 14)) "k2" two_keys).2 in
  let d2 := (RevokeVirtualKey true 8 "k2" d1).2 in
  active d1 "k2" = Some "b1" /\ status d1 "b1" = Some "bound" /\
  status d2 "b1" = Some "released" /\ forall i, active d2 i <> Some "b1".
Proof.
  intros d1 d2. split; [vm_compute; reflexivity|]. split; [vm_compute; reflexivity|].
  split; [vm_compute; reflexivity|]. intros i Hi.
  destruct (budget_bound_once two_keys d2 two_keys_ok two_keys_held) as [_ H2].
  { eapply star_step; [eapply (ks_rotate true 7 (Some (repeat Byte.x00 14)) "k2" two_keys
      (RotateVirtualKey true 7 (Some (repeat Byte.x00 14)) "k2" two_keys).1 d1)|].
    { by destruct (RotateVirtualKey true 7 (Some (repeat Byte.x00 14)) "k2" two_keys). }
    eapply star_step; [|apply star_refl].
    eapply (ks_revoke true 8 "k2" d1 (RevokeVirtualKey true 8 "k2" d1).1 d2).
    - intros k Hk. vm_compute in Hk. by injection Hk as <-.
    - by destruct (RevokeVirtualKey true 8 "k2" d1). }
  assert (Hs : status d2 "b1" = Some "released") by (vm_compute; reflexivity).
  destruct (H2 "b1" "released" Hs) as [_ Hx]. discriminate (Hx (ex_intro _ i Hi)).
Defined.

(** The guard of [ks_revoke] is needed and the code has none: revoking the key that is already
    inactive releases the budget of its successor, and the next key is bound to the same budget. *)
Example revoking_inactive_key_frees_budget :
  let d1 := (RevokeVirtualKey true 4 "k1" two_keys).2 in
  let d2 := (CreateVirtualKeyTx true "k3" 5 (Some (repeat Byte.x00 14)) direct_request d1).2 in
  active d2 "k2" = Some "b1" /\ active d2 "k3" = Some "b1".
Proof. vm_compute. split; reflexivity. Qed.
