(* ===== verification/KeyAdmin.v ===== *)
(** * Administration of virtual keys ([internal/server/admin-handlers.go])

    The handlers that create, reroute, switch, revoke, rotate and list virtual keys.  Each runs its
    transaction on the tables ([KeyStore]) and then brings the cache in line ([Governance]), so the
    question is what the cache admits compared with what the table says.  A handler takes the body
    as gin decoded it; the answer is the status with the body written. *)

From S2P Require Import Prelude GoBase Float64 Errors Catalog VirtualKey GoCrypto KeyFormat Duration Context Governance Gorm StoreBudget KeyStore.

Definition StatusCreated : Z := 201.
Definition StatusAccepted : Z := 202.
Definition StatusNoContent : Z := 204.
Definition StatusConflict : Z := 409.

(** ** Views *)

(** A time that was not set is [None]. *)
Record VirtualKeyResponse : Type := mkVirtualKeyResponse {
  KRID : string;
  KRDisplayPrefix : string;
  KRClientID : string;
  KRBudgetID : string;
  KRMode : VKMode;
  KRLoadBalancer : LBKind;
  KRProviderConfigs : list ProviderConfig;
  KRIsActive : bool;
  KRExpiresAt : option Z;
  KRCreatedAt : Z;
  KRUpdatedAt : Z
}.

Definition ToResponse (key : StoreVirtualKey) : result ParseError VirtualKeyResponse :=
  match ParseVKMode key.(SVKMode) with
  | Err e => Err e
  | Ok mode =>
  match ParseLBKind key.(SVKLoadBalancer) with
  | Err e => Err e
  | Ok loadBalancer =>
      Ok (mkVirtualKeyResponse key.(SVKID) key.(SVKDisplayPrefix) key.(SVKClientID) key.(SVKBudgetID)
            mode loadBalancer key.(SVKProviderConfigs) key.(SVKIsActive) key.(SVKExpiresAt)
            key.(SVKCreatedAt) key.(SVKUpdatedAt))
  end end.

(** The view a handler writes when it drops the error of [ToResponse]. *)
Definition view (key : StoreVirtualKey) : option VirtualKeyResponse :=
  match ToResponse key with Ok r => Some r | Err _ => None end.

Inductive KeyBody : Type :=
| KNothing
| KMessage (msg : string)
| KCause (e : KeyStoreError)
| KView (key : option VirtualKeyResponse)
| KSecret (apiKey : string) (key : option VirtualKeyResponse)
| KList (virtual_keys : list VirtualKeyResponse) (skipped_ids : list string).

Definition stored_not_live : Z * KeyBody := (StatusInternalServerError, KMessage "stored, not yet live").

Section handlers.
Context {KDb BDb : Type} `{Gorm KDb StoreVirtualKey} `{Gorm BDb StoreBudget}.
Abbreviation Db := (StoreDb KDb BDb).

(** What the handlers share: the tables and the cache. *)
Record KeyAdmin : Type := mkKeyAdmin { adb : Db; acache : KeyCache }.

(** A handler over a decoded body. *)
Definition bound {A} (body : result string A) (f : A -> KeyAdmin -> (Z * KeyBody) * KeyAdmin) (s : KeyAdmin) :
    (Z * KeyBody) * KeyAdmin :=
  match body with
  | Err msg => ((StatusBadRequest, KMessage msg), s)
  | Ok payload => f payload s
  end.

(** A store call, its error answered with [code]. *)
Definition stored {A} (t : tx A) (failed : KeyStoreError -> Z * KeyBody)
    (f : A -> KeyAdmin -> (Z * KeyBody) * KeyAdmin) (s : KeyAdmin) : (Z * KeyBody) * KeyAdmin :=
  match t s.(adb) with
  | (Err e, d) => (failed e, mkKeyAdmin d s.(acache))
  | (Ok a, d) => f a (mkKeyAdmin d s.(acache))
  end.

Definition bad_request (e : KeyStoreError) : Z * KeyBody := (StatusBadRequest, KCause e).
Definition key_not_found (_ : KeyStoreError) : Z * KeyBody := (StatusNotFound, KMessage "virtual key not found").

(** The row goes live, with the answer [ans], or cannot be compiled. *)
Definition publish (row : StoreVirtualKey) (forget : KeyCache -> KeyCache) (ans : Z * KeyBody) (s : KeyAdmin) :
    (Z * KeyBody) * KeyAdmin :=
  match StoreVirtualKey_ToCore row with
  | Err _ => (stored_not_live, s)
  | Ok vk => (ans, mkKeyAdmin s.(adb) (UpsertVirtualKey (Some vk) (forget s.(acache))))
  end.

Definition forget_id (order : list string) (id : string) (c : KeyCache) : KeyCache :=
  (DeleteVirtualKeyByID order id c).2.

Definition getVirtualKey (id : string) : KeyAdmin -> (Z * KeyBody) * KeyAdmin :=
  stored (GetVirtualKey id) key_not_found (fun row s =>
    match ToResponse row with
    | Err _ => ((StatusInternalServerError, KMessage "rendering virtual key"), s)
    | Ok resp => ((StatusOK, KView (Some resp)), s)
    end).

Definition createVirtualKey (commit : bool) (uuid : string) (now : Z) (raw : option (list Byte.byte))
    (body : result string VirtualKeyRequest) : KeyAdmin -> (Z * KeyBody) * KeyAdmin :=
  bound body (fun payload =>
    stored (CreateVirtualKeyTx commit uuid now raw payload) bad_request (fun result =>
      let '(row, budget, apiKey) := result in
      publish row id (StatusCreated, KSecret apiKey (view row)))).

Definition updateVirtualKeyRouting (commit : bool) (now : Z) (keyID : string)
    (body : result string UpdateVirtualKeyRoutingRequest) : KeyAdmin -> (Z * KeyBody) * KeyAdmin :=
  bound body (fun payload =>
    stored (UpdateVirtualKeyRouting commit now keyID payload) bad_request (fun row =>
      publish row id (StatusOK, KView (view row)))).

(** The body is [{"is_active": b}]. *)
Definition setVirtualKeyStatus (order : list string) (commit : bool) (now : Z) (keyID : string)
    (body : result string bool) : KeyAdmin -> (Z * KeyBody) * KeyAdmin :=
  bound body (fun is_active =>
    stored (SetVirtualKeyActive commit now keyID is_active) bad_request (fun row s =>
      if is_active then publish row id (StatusOK, KView (view row)) s
      else ((StatusOK, KView (view row)), mkKeyAdmin s.(adb) (forget_id order keyID s.(acache))))).

Definition revokeVirtualKey (order : list string) (commit : bool) (now : Z) (keyID : string) :
    KeyAdmin -> (Z * KeyBody) * KeyAdmin :=
  stored (RevokeVirtualKey commit now keyID) key_not_found (fun _ s =>
    ((StatusNoContent, KNothing), mkKeyAdmin s.(adb) (forget_id order keyID s.(acache)))).

Definition rotateVirtualKey (order : list string) (commit : bool) (now : Z) (raw : option (list Byte.byte))
    (keyID : string) : KeyAdmin -> (Z * KeyBody) * KeyAdmin :=
  stored (RotateVirtualKey commit now raw keyID) bad_request (fun res =>
    let '(row, apiKey) := res in
    publish row (forget_id order keyID) (StatusOK, KSecret apiKey (view row))).

(** The rows of the listing, active keys first. *)
Definition active_first (rows : list StoreVirtualKey) : list StoreVirtualKey :=
  (List.filter SVKIsActive rows ++ List.filter (fun r => negb r.(SVKIsActive)) rows)%list.

Definition render (acc : list VirtualKeyResponse * list string) (row : StoreVirtualKey) :
    list VirtualKeyResponse * list string :=
  match ToResponse row with
  | Err _ => (acc.1, (acc.2 ++ [row.(SVKID)])%list)
  | Ok resp => ((acc.1 ++ [resp])%list, acc.2)
  end.

Definition listVirtualKeys : KeyAdmin -> (Z * KeyBody) * KeyAdmin :=
  stored ListVirtualKeys (fun _ => (StatusInternalServerError, KMessage "listing virtual keys")) (fun rows s =>
    let '(out, skipped) := foldl render ([], []) (active_first rows) in ((StatusOK, KList out skipped), s)).

(** The job of [Governance]. *)
Definition sync_job (s : KeyAdmin) : result SyncError Z * KeyAdmin :=
  let '(rows, d) := ListVirtualKeys s.(adb) in
  let '(res, c) := syncVirtualKey (match rows with Ok l => Ok l | Err _ => Err "failed to list virtual keys" end)
                     s.(acache) in
  (res, mkKeyAdmin d c).
End handlers.
Arguments KeyAdmin : clear implicits.
Arguments mkKeyAdmin {KDb BDb}.

(** ** What an operation does to the rows *)

Section effects.
Context {KDb BDb : Type} `{Gorm KDb StoreVirtualKey} `{Gorm BDb StoreBudget}.
Context `{!GormLaws KDb StoreVirtualKey} `{!GormLaws BDb StoreBudget}.
Abbreviation Db := (StoreDb KDb BDb).

(** Every row but that of [id] is as it was. *)
Definition others_same (id : string) (d d' : Db) : Prop :=
  store_ok d' /\ forall j, j <> id -> tbl d'.(vkeys) j = tbl d.(vkeys) j.

Lemma same_others id d d' : same_db d d' -> others_same id d d'.
Proof. intros (Ho & Hk & _). by split. Qed.

Lemma others_trans id a b c : others_same id a b -> others_same id b c -> others_same id a c.
Proof. intros [_ H1] [O H2]. split; [done|]. intros j Hj. by rewrite H2, H1. Qed.

Lemma update_others op id f d n d' : store_ok d -> (forall r, (f r).(SVKID) = r.(SVKID)) ->
  update_key op id f d = (Ok n, d') ->
  others_same id d d' /\ tbl d'.(vkeys) id = f <$> tbl d.(vkeys) id.
Proof.
  intros Hd Hf Hu. destruct (update_key_spec op id f d (Ok n) d' Hd Hf Hu) as (Ho & _ & Hl).
  split; [|by rewrite Hl, decide_True]. split; [done|]. intros j Hj. by rewrite Hl, decide_False.
Qed.

Lemma status_others now b s id d n d' : store_ok d -> update_status now b s d = (Ok n, d') ->
  others_same id d d' /\ tbl d'.(vkeys) id = tbl d.(vkeys) id.
Proof.
  intros Hd Hu. destruct (update_status_spec now b s d (Ok n) d' Hd Hu) as (Ho & Hk & _).
  split; [|apply Hk]. by split.
Qed.

(** A committed transaction followed by reading the row back. *)
Lemma commit_then_get {A} commit (t : tx A) id d r d' :
  store_ok d -> (_ ← Transaction commit t; GetVirtualKey id) d = (Ok r, d') ->
  exists a d1, t d = (Ok a, d1) /\ (store_ok d1 -> same_db d1 d' /\ tbl d'.(vkeys) id = Some r).
Proof.
  intros Hd Ht. apply tx_bind_Ok in Ht as (a & d1 & Ht & Hg).
  apply Transaction_cases in Ht as [(e & [=] & _)|(a' & [= <-] & Ht)]. exists a, d1. split; [done|].
  intros Hd1. destruct (GetVirtualKey_spec id d1 (Ok r) d' Hd1 Hg) as [Hs Hr]. split; [done|].
  destruct Hs as (_ & Hk & _). by rewrite Hk.
Qed.

Lemma SetVirtualKeyActive_rows commit now id act d row d' :
  store_ok d -> SetVirtualKeyActive commit now id act d = (Ok row, d') ->
  others_same id d d' /\ tbl d'.(vkeys) id = Some row /\ row.(SVKIsActive) = act /\
  exists old, tbl d.(vkeys) id = Some old /\ row.(SVKAPIKey) = old.(SVKAPIKey).
Proof.
  intros Hd Ht. apply (commit_then_get _ _ _ _ _ _ Hd) in Ht as (a & d1 & Ht & Hget).
  apply tx_bind_Ok in Ht as (k & d2 & Hg & Ht). destruct (GetVirtualKey_spec _ _ _ _ Hd Hg) as [Hs2 Hk].
  assert (Hk2 : tbl (vkeys d2) id = Some k) by (by rewrite (proj1 (proj2 Hs2))).
  destruct (Bool.eqb (SVKIsActive k) act) eqn:He.
  - injection Ht as _ <-. destruct (Hget (proj1 Hs2)) as [Hs Hrow].
    rewrite (proj1 (proj2 Hs)), Hk2 in Hrow. injection Hrow as <-.
    splits; [|by rewrite (proj1 (proj2 Hs))|by apply Bool.eqb_prop|by exists k].
    apply same_others. by eapply same_trans.
  - apply tx_bind_Ok in Ht as (n & d3 & Hn & Ht).
    assert (Hs3 : same_db d2 d3).
    { destruct act; [|injection Hn as _ <-; apply same_refl, Hs2]. by apply (count_bound_spec _ _ _ _ _ (proj1 Hs2) Hn). }
    destruct (0 <? n)%nat; [done|].
    apply tx_bind_Ok in Ht as (n1 & d4 & Hu & Ht). apply tx_bind_Ok in Ht as (n2 & d5 & Hst & [= _ <-]).
    destruct (update_others _ _ (set_active now act) _ _ _ (proj1 Hs3) ltac:(done) Hu) as [Ho4 Hr4].
    destruct (status_others _ _ _ id _ _ _ (proj1 Ho4) Hst) as [Ho5 Hr5].
    destruct (Hget (proj1 Ho5)) as [Hs Hrow].
    assert (Hd5 : tbl (vkeys d5) id = Some (set_active now act k))
      by (by rewrite Hr5, Hr4, (proj1 (proj2 Hs3)), Hk2).
    pose proof Hrow as Hrow'. rewrite (proj1 (proj2 Hs)), Hd5 in Hrow'. injection Hrow' as <-.
    splits; [|done|done|by exists k].
    eapply others_trans; [apply same_others; exact (same_trans _ _ _ Hs2 Hs3)|].
    eapply others_trans; [exact Ho4|]. eapply others_trans; [exact Ho5|]. by apply same_others.
Qed.

Lemma RevokeVirtualKey_rows commit now id d u d' :
  store_ok d -> RevokeVirtualKey commit now id d = (Ok u, d') ->
  others_same id d d' /\ forall row, tbl d'.(vkeys) id = Some row -> row.(SVKIsActive) = false /\
    exists old, tbl d.(vkeys) id = Some old /\ row.(SVKAPIKey) = old.(SVKAPIKey).
Proof.
  intros Hd [(e & [=] & _)|(a & _ & Ht)]%Transaction_cases.
  apply tx_bind_Ok in Ht as (k & d2 & Hg & Ht). destruct (GetVirtualKey_spec _ _ _ _ Hd Hg) as [Hs2 Hk].
  apply tx_bind_Ok in Ht as (n1 & d4 & Hu & Ht). apply tx_bind_Ok in Ht as (n2 & d5 & Hst & [= _ <-]).
  assert (Hk2 : tbl (vkeys d2) id = Some k) by (by rewrite (proj1 (proj2 Hs2))).
  destruct (update_others _ _ (set_active now false) _ _ _ (proj1 Hs2) ltac:(done) Hu) as [Ho4 Hr4].
  destruct (status_others _ _ _ id _ _ _ (proj1 Ho4) Hst) as [Ho5 Hr5]. split.
  - eapply others_trans; [by apply same_others|]. by eapply others_trans.
  - intros row. rewrite Hr5, Hr4, Hk2. intros [= <-]. split; [done|]. by exists k.
Qed.

Lemma RotateVirtualKey_rows commit now raw id d row apiKey d' :
  store_ok d -> RotateVirtualKey commit now raw id d = (Ok (row, apiKey), d') ->
  others_same id d d' /\ tbl d'.(vkeys) id = Some row /\ row.(SVKAPIKey) = apiKey /\ row.(SVKIsActive) = true /\
  exists hash prefix, GenerateVirtualKey raw = Some (apiKey, hash, prefix).
Proof.
  intros Hd. unfold RotateVirtualKey. destruct (GenerateVirtualKey raw) as [[[key hash] prefix]|]; [|done].
  intros Ht. apply tx_bind_Ok in Ht as (u & d1 & Ht & Hr). apply tx_bind_Ok in Hr as (row' & d3 & Hr & [= -> -> ->]).
  apply Transaction_cases in Ht as [(e & [=] & _)|(a' & _ & Ht)].
  apply tx_bind_Ok in Ht as (k & d2 & Hg & Ht). destruct (GetVirtualKey_spec _ _ _ _ Hd Hg) as [Hs2 Hk].
  assert (Hk2 : tbl (vkeys d2) id = Some k) by (by rewrite (proj1 (proj2 Hs2))).
  destruct (SVKIsActive k) eqn:Hact; [|done]. cbn [negb] in Ht.
  match type of Ht with update_key _ _ (save_row ?k') _ = _ => set (k1 := k') in Ht end.
  destruct (update_others "save" id (save_row k1) _ _ _ (proj1 Hs2) ltac:(done) Ht) as [Ho4 Hr4].
  destruct (GetVirtualKey_spec _ _ _ _ (proj1 Ho4) Hr) as [Hs Hrow]. rewrite Hr4, Hk2 in Hrow.
  injection Hrow as <-. splits; [|by rewrite (proj1 (proj2 Hs)), Hr4, Hk2|done|done|by eauto].
  eapply others_trans; [by apply same_others|]. eapply others_trans; [done|]. by apply same_others.
Qed.

Lemma UpdateVirtualKeyRouting_rows commit now id request d row d' :
  store_ok d -> UpdateVirtualKeyRouting commit now id request d = (Ok row, d') ->
  others_same id d d' /\ tbl d'.(vkeys) id = Some row /\
  exists old, tbl d.(vkeys) id = Some old /\ row.(SVKAPIKey) = old.(SVKAPIKey) /\ row.(SVKIsActive) = old.(SVKIsActive).
Proof.
  intros Hd Ht. apply (commit_then_get _ _ _ _ _ _ Hd) in Ht as (a & d1 & Ht & Hget).
  apply tx_bind_Ok in Ht as (k & d2 & Hg & Ht). destruct (GetVirtualKey_spec _ _ _ _ Hd Hg) as [Hs2 Hk].
  assert (Hk2 : tbl (vkeys d2) id = Some k) by (by rewrite (proj1 (proj2 Hs2))).
  cbn zeta in Ht. destruct (ParseVKMode _) as [m|]; [|done]. destruct (CompileProviderConfigs m _); [|done].
  destruct (direct_weight m _) as [configs|]; [|done]. destruct (ParseLBKind _); [|done].
  match type of Ht with update_key _ _ (save_row ?k') _ = _ => set (k1 := k') in Ht end.
  destruct (update_others "save" id (save_row k1) _ _ _ (proj1 Hs2) ltac:(done) Ht) as [Ho4 Hr4].
  destruct (Hget (proj1 Ho4)) as [Hs Hrow]. pose proof Hrow as Hrow'.
  rewrite (proj1 (proj2 Hs)), Hr4, Hk2 in Hrow'. injection Hrow' as <-. splits; [|done|by exists k].
  eapply others_trans; [by apply same_others|]. eapply others_trans; [done|]. by apply same_others.
Qed.

Lemma CreateVirtualKeyTx_rows commit uuid now raw payload d row budget apiKey d' :
  store_ok d -> CreateVirtualKeyTx commit uuid now raw payload d = (Ok (row, budget, apiKey), d') ->
  others_same uuid d d' /\ tbl d'.(vkeys) uuid = Some row /\ tbl d.(vkeys) uuid = None /\
  row.(SVKAPIKey) = apiKey /\ row.(SVKIsActive) = true /\
  exists hash prefix, GenerateVirtualKey raw = Some (apiKey, hash, prefix).
Proof.
  intros Hd. unfold CreateVirtualKeyTx. destruct (VRMode payload) as [mode|]; [|done].
  destruct (VRLoadBalancer payload) as [lb|]; [|done]. destruct (CompileProviderConfigs _ _); [|done].
  destruct (direct_weight _ _) as [configs|]; [|done].
  destruct (GenerateVirtualKey raw) as [[[key hash] prefix]|]; [|done]. intros Ht.
  apply tx_bind_Ok in Ht as (b & d1 & Ht & Hr). apply tx_bind_Ok in Hr as (row' & d3 & Hr & [= -> <- <- ->]).
  apply Transaction_cases in Ht as [(e & [=] & _)|(b' & _ & Ht)].
  destruct (insert_effect uuid now _ payload mode lb configs d d1 b' Hd Ht) as (Hd1 & _ & Hnone & Hrows & _).
  destruct (GetVirtualKey_spec _ _ _ _ Hd1 Hr) as [Hs Hrow].
  assert (Ho : others_same uuid d d1) by (split; [done|]; intros j Hj; by rewrite Hrows, decide_False).
  rewrite Hrows, decide_True in Hrow by done. injection Hrow as <-.
  splits; [eapply others_trans; [done|by apply same_others]| |done|done|done|by eauto].
  by rewrite (proj1 (proj2 Hs)), Hrows, decide_True.
Qed.

(** ** The cache against the table *)

(** The table holds [vk], compiled, under the secret [k]. *)
Definition held (d : Db) (k : string) (vk : VirtualKey) : Prop :=
  exists row, tbl d.(vkeys) vk.(VKID) = Some row /\ StoreVirtualKey_ToCore row = Ok vk /\ vk.(VKKey) = k.

(** For the keys whose ID satisfies [P]: what is cached is held, and what is held active is cached. *)
Record coherent_for (P : string -> Prop) (d : Db) (c : KeyCache) : Prop := mkCoherent {
  co_store : store_ok d;
  co_cached k vk : LookupVkey c k = Some vk -> P vk.(VKID) -> held d k vk;
  co_live k vk : held d k vk -> vk.(VKIsActive) = true -> P vk.(VKID) -> LookupVkey c k = Some vk
}.
Definition coherent : Db -> KeyCache -> Prop := coherent_for (fun _ => True).

(** No two rows have the same secret. *)
Definition secrets_distinct (d : Db) : Prop :=
  forall i j r r', tbl d.(vkeys) i = Some r -> tbl d.(vkeys) j = Some r' -> r.(SVKAPIKey) = r'.(SVKAPIKey) -> i = j.

Lemma ToCore_fields row vk : StoreVirtualKey_ToCore row = Ok vk ->
  vk.(VKKey) = row.(SVKAPIKey) /\ vk.(VKID) = row.(SVKID) /\ vk.(VKIsActive) = row.(SVKIsActive).
Proof. unfold StoreVirtualKey_ToCore. repeat case_match; try done. by intros [= <-]. Qed.

Lemma row_id d id row : store_ok d -> tbl d.(vkeys) id = Some row -> row.(SVKID) = id.
Proof. intros [Hk _]. apply (tbl_key _ _ _ Hk). Qed.

(** Only the row of [id] may have changed. *)
Lemma coherent_others id d d' c : coherent d c -> others_same id d d' -> coherent_for (fun j => j <> id) d' c.
Proof.
  intros [_ Hc Hl] [Ho Hs]. constructor; [done| |].
  - intros k vk Hk Hne. destruct (Hc k vk Hk I) as (row & Hr & Hrest). exists row. by rewrite Hs.
  - intros k vk (row & Hr & Hrest) Ha Hne. apply Hl; [|done|done]. exists row. by rewrite <- Hs.
Qed.

(** The entry of a changed row is put in place. *)
Lemma coherent_upsert id d c row vk :
  coherent_for (fun j => j <> id) d c -> secrets_distinct d -> tbl d.(vkeys) id = Some row ->
  (forall k v, LookupVkey c k = Some v -> v.(VKID) = id -> k = row.(SVKAPIKey)) ->
  StoreVirtualKey_ToCore row = Ok vk -> coherent d (UpsertVirtualKey (Some vk) c).
Proof.
  intros [Ho Hc Hl] Hd Hrow Hid Hcore. destruct (ToCore_fields _ _ Hcore) as (Hkey & Hvid & _).
  pose proof (row_id d id row Ho Hrow) as Hrid.
  assert (Hlook : forall k, LookupVkey (UpsertVirtualKey (Some vk) c) k
    = if decide (VKKey vk = k) then Some vk else LookupVkey c k).
  { intros k. cbn [UpsertVirtualKey LookupVkey]. by rewrite lookup_insert, LookupVkey_clone. }
  constructor; [done| |]; intros k v.
  - rewrite Hlook. case_decide as Hk.
    + intros [= <-] _. exists row. by rewrite Hvid, Hrid.
    + intros Hv _. apply Hc; [done|]. intros Heq. apply Hk. rewrite Hkey. symmetry. by apply (Hid k v).
  - intros Hh Ha _. rewrite Hlook. destruct (decide (VKID v = id)) as [Hv|Hv].
    + destruct Hh as (r & Hr & Hcr & Hk). rewrite Hv, Hrow in Hr. injection Hr as <-.
      assert (v = vk) as -> by congruence. by rewrite decide_True.
    + case_decide as Hk; [|by apply Hl]. exfalso. apply Hv. destruct Hh as (r & Hr & Hcr & Hk').
      apply (Hd _ _ _ _ Hr Hrow). destruct (ToCore_fields _ _ Hcr) as (<- & _). congruence.
Qed.

Definition covers (order : list string) (c : KeyCache) : Prop :=
  forall k v, LookupVkey c k = Some v -> k ∈ order.

(** The entry of a changed row is taken out. *)
Lemma forget_others id order d d' c :
  coherent d c -> covers order c -> others_same id d d' ->
  coherent_for (fun j => j <> id) d' (forget_id order id c) /\
  (forall k v, LookupVkey (forget_id order id c) k = Some v -> v.(VKID) <> id).
Proof.
  intros Hco Hord Hs. pose proof (coherent_others id d d' c Hco Hs) as [Ho Hc Hl]. unfold forget_id.
  destruct (DeleteVirtualKeyByID order id c) as [deleted c'] eqn:Hdel. cbn [snd].
  destruct (DeleteVirtualKeyByID_cases order id c deleted c' Hdel)
    as [(_ & key & v0 & Hv0 & Hid0 & Hlook)|(_ & -> & Hno)].
  2: { split; [done|]. intros k v Hv. exact (Hno k v (Hord k v Hv) Hv). }
  assert (Hother : forall k v, LookupVkey c' k = Some v -> VKID v <> id).
  { intros k v. rewrite Hlook. case_decide as Hk; [done|]. intros Hv Hid. apply Hk.
    destruct (co_cached _ _ _ Hco _ _ Hv0 I) as (r0 & Hr0 & Hc0 & Hk0).
    destruct (co_cached _ _ _ Hco _ _ Hv I) as (r1 & Hr1 & Hc1 & Hk1). rewrite Hid, <- Hid0 in Hr1. congruence. }
  split; [|done]. constructor; [done| |].
  - intros k v Hv Hne. apply Hc; [|done]. revert Hv. rewrite Hlook. by case_decide.
  - intros k v Hh Ha Hne. rewrite Hlook. case_decide as Hk; [|by apply Hl].
    exfalso. apply Hne. pose proof (Hl k v Hh Ha Hne) as Hv. rewrite <- Hk, Hv0 in Hv. congruence.
Qed.

Lemma coherent_forget id order d d' c :
  coherent d c -> covers order c -> others_same id d d' ->
  (forall row, tbl d'.(vkeys) id = Some row -> row.(SVKIsActive) = false) ->
  coherent d' (forget_id order id c).
Proof.
  intros Hco Hord Hs Hoff. destruct (forget_others id order d d' c Hco Hord Hs) as [[Ho Hc Hl] Hno].
  constructor; [done| |].
  - intros k v Hv _. apply Hc; [done|]. by eapply Hno.
  - intros k v Hh Ha _. apply Hl; [done|done|]. intros Hid. destruct Hh as (r & Hr & Hcr & _).
    rewrite Hid in Hr. destruct (ToCore_fields _ _ Hcr) as (_ & _ & Hact). rewrite (Hoff r Hr) in Hact. congruence.
Qed.

Lemma distinct_change id d d' :
  secrets_distinct d -> others_same id d d' ->
  (forall row, tbl d'.(vkeys) id = Some row ->
     (exists old, tbl d.(vkeys) id = Some old /\ row.(SVKAPIKey) = old.(SVKAPIKey)) \/
     (forall j r, tbl d.(vkeys) j = Some r -> r.(SVKAPIKey) <> row.(SVKAPIKey))) ->
  secrets_distinct d'.
Proof.
  intros Hd [_ Hs] Hid.
  assert (Hclash : forall j r r', j <> id -> tbl d'.(vkeys) j = Some r -> tbl d'.(vkeys) id = Some r' ->
    r.(SVKAPIKey) <> r'.(SVKAPIKey)).
  { intros j r r' Hj Hr Hr' Heq. rewrite Hs in Hr by done. destruct (Hid r' Hr') as [(old & Hold & Hk)|Hf].
    - apply Hj, (Hd _ _ _ _ Hr Hold). congruence.
    - exact (Hf j r Hr Heq). }
  intros i j r r' Hr Hr' Heq. destruct (decide (i = id)) as [->|Hi], (decide (j = id)) as [->|Hj]; [done| | |].
  - by destruct (Hclash j r' r Hj Hr' Hr).
  - by destruct (Hclash i r r' Hi Hr Hr').
  - rewrite Hs in Hr, Hr' by done. by eapply Hd.
Qed.

Lemma coherent_same d d' c : coherent d c -> same_db d d' -> coherent d' c.
Proof.
  intros [_ Hc Hl] (Ho & Hk & _). constructor; [done| |].
  - intros k v Hv _. destruct (Hc k v Hv I) as (row & Hr & Hrest). exists row. by rewrite Hk.
  - intros k v (row & Hr & Hrest) Ha _. apply Hl; [|done|done]. exists row. by rewrite <- Hk.
Qed.

(** ** The handlers keep the cache coherent *)

Definition consistent (s : KeyAdmin KDb BDb) : Prop := coherent s.(adb) s.(acache) /\ secrets_distinct s.(adb).

(** A secret drawn for [raw] is not in the table (it has 14 random bytes; [key_hash] is unique). *)
Definition fresh (s : KeyAdmin KDb BDb) (raw : option (list Byte.byte)) : Prop :=
  forall apiKey hash prefix, GenerateVirtualKey raw = Some (apiKey, hash, prefix) ->
    forall j r, tbl s.(adb).(vkeys) j = Some r -> r.(SVKAPIKey) <> apiKey.

(** A request to the administration and its answer. *)
Inductive key_request (s : KeyAdmin KDb BDb) : Z * KeyBody -> KeyAdmin KDb BDb -> Prop :=
| kr_get id a s' : getVirtualKey id s = (a, s') -> key_request s a s'
| kr_list a s' : listVirtualKeys s = (a, s') -> key_request s a s'
| kr_create commit uuid now raw body a s' : fresh s raw ->
    createVirtualKey commit uuid now raw body s = (a, s') -> key_request s a s'
| kr_route commit now id body a s' : updateVirtualKeyRouting commit now id body s = (a, s') -> key_request s a s'
| kr_status order commit now id body a s' : covers order s.(acache) ->
    setVirtualKeyStatus order commit now id body s = (a, s') -> key_request s a s'
| kr_revoke order commit now id a s' : covers order s.(acache) ->
    revokeVirtualKey order commit now id s = (a, s') -> key_request s a s'
| kr_rotate order commit now raw id a s' : covers order s.(acache) -> fresh s raw ->
    rotateVirtualKey order commit now raw id s = (a, s') -> key_request s a s'.

(** A success that leaves the state consistent, or an error that does not touch the cache. *)
Definition outcome (c : KeyCache) (a : Z * KeyBody) (s' : KeyAdmin KDb BDb) : Prop :=
  ((a.1 < 400)%Z /\ consistent s') \/ ((400 <= a.1)%Z /\ s'.(acache) = c).

Lemma stored_cases {A} (t : tx A) failed f (s : KeyAdmin KDb BDb) a s' : stored t failed f s = (a, s') ->
  (exists e d, t s.(adb) = (Err e, d) /\ a = failed e /\ s' = mkKeyAdmin d s.(acache)) \/
  (exists x d, t s.(adb) = (Ok x, d) /\ f x (mkKeyAdmin d s.(acache)) = (a, s')).
Proof. unfold stored. destruct (t (adb s)) as [[x|e] d]; [eauto|]. intros [= <- <-]. left. by eexists _, _. Qed.

Lemma bound_cases {A} (body : result string A) f (s : KeyAdmin KDb BDb) a s' : bound body f s = (a, s') ->
  (exists msg, a = (StatusBadRequest, KMessage msg) /\ s' = s) \/ (exists x, body = Ok x /\ f x s = (a, s')).
Proof. unfold bound. destruct body as [x|e]; [eauto|]. intros [= <- <-]. left. by eexists. Qed.

Lemma publish_outcome id row forget ans d c a s' :
  publish row forget ans (mkKeyAdmin d c) = (a, s') -> (ans.1 < 400)%Z ->
  coherent_for (fun j => j <> id) d (forget c) -> secrets_distinct d -> tbl d.(vkeys) id = Some row ->
  (forall k v, LookupVkey (forget c) k = Some v -> v.(VKID) = id -> k = row.(SVKAPIKey)) ->
  outcome c a s'.
Proof.
  intros Hp Hans Hco Hd Hrow Hid. unfold publish in Hp.
  destruct (StoreVirtualKey_ToCore row) as [vk|e] eqn:Hcore; injection Hp as <- <-.
  - left. split; [done|]. split; [|done]. by eapply coherent_upsert.
  - right. done.
Qed.

(** The entry of a key whose secret did not change is where the new one goes. *)
Lemma same_secret_entry d c id old row k v : coherent d c -> tbl d.(vkeys) id = Some old ->
  row.(SVKAPIKey) = old.(SVKAPIKey) -> LookupVkey c k = Some v -> v.(VKID) = id -> k = row.(SVKAPIKey).
Proof.
  intros Hco Hold Hk Hv Hid. destruct (co_cached _ _ _ Hco _ _ Hv I) as (r & Hr & Hc & <-).
  rewrite Hid, Hold in Hr. injection Hr as <-. rewrite Hk. by destruct (ToCore_fields _ _ Hc).
Qed.

Lemma create_outcome commit uuid now raw body s a s' : consistent s -> fresh s raw ->
  createVirtualKey commit uuid now raw body s = (a, s') -> outcome s.(acache) a s'.
Proof.
  intros [Hco Hd] Hfresh [(msg & -> & ->)|(payload & _ & Ht)]%bound_cases; [by right|].
  apply stored_cases in Ht as [(e & d & _ & -> & ->)|([[row budget] apiKey] & d & Ht & Hp)]; [by right|].
  destruct (CreateVirtualKeyTx_rows _ _ _ _ _ _ _ _ _ _ (co_store _ _ _ Hco) Ht)
    as (Ho & Hrow & Hnone & Hkey & _ & hash & prefix & Hgen).
  eapply (publish_outcome uuid); [exact Hp|done|by eapply coherent_others| |done|].
  - apply (distinct_change uuid (adb s)); [done..|]. intros row' Hrow'. rewrite Hrow in Hrow'. injection Hrow' as <-.
    right. intros j r Hr. rewrite Hkey. by eapply Hfresh.
  - intros k v Hv Hid. destruct (co_cached _ _ _ Hco _ _ Hv I) as (r & Hr & _). rewrite Hid, Hnone in Hr. done.
Qed.

Lemma route_outcome commit now id body s a s' : consistent s ->
  updateVirtualKeyRouting commit now id body s = (a, s') -> outcome s.(acache) a s'.
Proof.
  intros [Hco Hd] [(msg & -> & ->)|(payload & _ & Ht)]%bound_cases; [by right|].
  apply stored_cases in Ht as [(e & d & _ & -> & ->)|(row & d & Ht & Hp)]; [by right|].
  destruct (UpdateVirtualKeyRouting_rows _ _ _ _ _ _ _ (co_store _ _ _ Hco) Ht) as (Ho & Hrow & old & Hold & Hkey & _).
  eapply (publish_outcome id); [exact Hp|done|by eapply coherent_others| |done|].
  - apply (distinct_change id (adb s)); [done..|]. intros row' Hrow'. rewrite Hrow in Hrow'. injection Hrow' as <-. eauto.
  - intros k v. by apply (same_secret_entry (adb s) _ id old).
Qed.

Lemma status_outcome order commit now id body s a s' : consistent s -> covers order s.(acache) ->
  setVirtualKeyStatus order commit now id body s = (a, s') -> outcome s.(acache) a s'.
Proof.
  intros [Hco Hd] Hord [(msg & -> & ->)|(act & _ & Ht)]%bound_cases; [by right|].
  apply stored_cases in Ht as [(e & d & _ & -> & ->)|(row & d & Ht & Hp)]; [by right|].
  destruct (SetVirtualKeyActive_rows _ _ _ _ _ _ _ (co_store _ _ _ Hco) Ht) as (Ho & Hrow & Hact & old & Hold & Hkey).
  assert (Hd' : secrets_distinct d).
  { apply (distinct_change id (adb s)); [done..|]. intros row' Hrow'. rewrite Hrow in Hrow'. injection Hrow' as <-. eauto. }
  destruct act.
  - eapply (publish_outcome id); [exact Hp|done|by eapply coherent_others|done|done|].
    intros k v. by apply (same_secret_entry (adb s) _ id old).
  - injection Hp as <- <-. left. split; [done|]. split; [|done]. apply (coherent_forget id order (adb s) d); [done..|].
    intros row'. rewrite Hrow. by intros [= <-].
Qed.

Lemma revoke_outcome order commit now id s a s' : consistent s -> covers order s.(acache) ->
  revokeVirtualKey order commit now id s = (a, s') -> outcome s.(acache) a s'.
Proof.
  intros [Hco Hd] Hord [(e & d & _ & -> & ->)|(u & d & Ht & [= <- <-])]%stored_cases; [by right|].
  destruct (RevokeVirtualKey_rows _ _ _ _ _ _ (co_store _ _ _ Hco) Ht) as (Ho & Hoff).
  left. split; [done|]. split.
  - apply (coherent_forget id order (adb s) d); [done..|]. intros row Hr. apply (Hoff row Hr).
  - apply (distinct_change id (adb s) d); [done..|]. intros row Hr. left. apply (Hoff row Hr).
Qed.

Lemma rotate_outcome order commit now raw id s a s' : consistent s -> covers order s.(acache) -> fresh s raw ->
  rotateVirtualKey order commit now raw id s = (a, s') -> outcome s.(acache) a s'.
Proof.
  intros [Hco Hd] Hord Hfresh [(e & d & _ & -> & ->)|([row apiKey] & d & Ht & Hp)]%stored_cases; [by right|].
  destruct (RotateVirtualKey_rows _ _ _ _ _ _ _ _ (co_store _ _ _ Hco) Ht) as (Ho & Hrow & Hkey & _ & hash & prefix & Hgen).
  destruct (forget_others id order (adb s) d (acache s) Hco Hord Ho) as [Hco' Hno].
  eapply (publish_outcome id); [exact Hp|done|exact Hco'| |done|].
  - apply (distinct_change id (adb s)); [done..|]. intros row' Hrow'. rewrite Hrow in Hrow'. injection Hrow' as <-.
    right. intros j r Hr. rewrite Hkey. by eapply Hfresh.
  - intros k v Hv Hid. by destruct (Hno k v Hv).
Qed.

Lemma consistent_same s d : consistent s -> same_db s.(adb) d -> consistent (mkKeyAdmin d s.(acache)).
Proof.
  intros [Hco Hd] Hs. split; [by eapply coherent_same|]. intros i j r r'. cbn [adb]. rewrite !(proj1 (proj2 Hs)). apply Hd.
Qed.

Lemma list_same d res d' : store_ok d -> ListVirtualKeys d = (res, d') -> same_db d d'.
Proof.
  intros [Hk Hb]. unfold ListVirtualKeys, on_keys. destruct (db_find (vkeys d)) as [[rs|e] k'] eqn:Hf;
    intros [= <- <-]; destruct (find_state _ _ _ Hk Hf) as [Hk' Hs]; by split.
Qed.

Lemma read_outcome {A} (t : tx A) failed (f : A -> Z * KeyBody) s a s' :
  consistent s -> (forall e, 400 <= (failed e).1)%Z ->
  (forall res d, t s.(adb) = (res, d) -> same_db s.(adb) d) ->
  stored t failed (fun x s => (f x, s)) s = (a, s') -> outcome s.(acache) a s'.
Proof.
  intros Hs Hf Ht [(e & d & _ & -> & ->)|(x & d & Hx & [= <- <-])]%stored_cases; [by right|].
  destruct (Z.lt_ge_cases (f x).1 400); [left|by right]. split; [done|]. by eapply consistent_same, Ht.
Qed.

Lemma key_request_outcome s a s' : consistent s -> key_request s a s' -> outcome s.(acache) a s'.
Proof.
  intros Hs Hr. pose proof (co_store _ _ _ (proj1 Hs)) as Ho. destruct Hr.
  - apply (read_outcome (GetVirtualKey id) key_not_found (fun row => match ToResponse row with
      | Err _ => (StatusInternalServerError, KMessage "rendering virtual key")
      | Ok resp => (StatusOK, KView (Some resp)) end)); [done|done| |].
    + intros res d. by apply get_same.
    + rewrite <- H1. unfold getVirtualKey, stored. destruct (GetVirtualKey id (adb s)) as [[row|e] d]; [|done].
      by destruct (ToResponse row).
  - apply (read_outcome ListVirtualKeys (fun _ => (StatusInternalServerError, KMessage "listing virtual keys"))
      (fun rows => let '(out, skipped) := foldl render ([], []) (active_first rows) in (StatusOK, KList out skipped)));
      [done|done| |].
    + intros res d. by apply list_same.
    + rewrite <- H1. unfold listVirtualKeys, stored. destruct (ListVirtualKeys (adb s)) as [[row|e] d]; [|done].
      by destruct (foldl _ _ _).
  - by eapply create_outcome.
  - by eapply route_outcome.
  - by eapply status_outcome.
  - by eapply revoke_outcome.
  - by eapply rotate_outcome.
Qed.

(** A run of the synchronisation, whatever it starts from, and whether or not it succeeds. *)
Lemma sync_job_coherent s res s' : store_ok s.(adb) -> secrets_distinct s.(adb) -> sync_job s = (res, s') ->
  same_db s.(adb) s'.(adb) /\ match res with Ok _ => consistent s' | Err _ => s'.(acache) = s.(acache) end.
Proof.
  intros Ho Hd. unfold sync_job. destruct (ListVirtualKeys (adb s)) as [rows d] eqn:Hl.
  pose proof (list_same _ _ _ Ho Hl) as Hs. destruct (syncVirtualKey _ (acache s)) as [r c] eqn:Hy.
  intros [= <- <-]. split; [done|]. destruct r as [n|e].
  2: { cbn [acache]. revert Hy. unfold syncVirtualKey. destruct rows as [l|]; [|by intros [= _ <-]].
       destruct (foldM _ _ l); [done|]. by intros [= _ <-]. }
  destruct (syncVirtualKey_Ok _ _ _ _ Hy) as (l & Hrows & _ & Hserved & Hlook).
  destruct rows as [l'|]; [|done]. injection Hrows as ->. pose proof Ho as [Hk Hb].
  revert Hl. unfold ListVirtualKeys, on_keys. destruct (db_find (vkeys (adb s))) as [[rs|e] k'] eqn:Hf; [|done].
  intros [= -> Hdk]. destruct (find_rows _ _ _ Hk Hf) as [Hnd Hin].
  assert (Hkeys : forall row, row ∈ l -> tbl d.(vkeys) row.(SVKID) = Some row).
  { intros row Hr. rewrite (proj1 (proj2 Hs)). by apply Hin, list_elem_of_In. }
  assert (Hdd : secrets_distinct d) by (intros i j r r'; rewrite !(proj1 (proj2 Hs)); apply Hd).
  assert (Hdist : NoDup (map SVKAPIKey l)).
  { apply (NoDup_fmap_2_strong SVKAPIKey); [|exact (NoDup_fmap_1 _ _ Hnd)].
    intros x y Hx Hy' Heq. pose proof (Hdd _ _ _ _ (Hkeys x Hx) (Hkeys y Hy') Heq) as Hid.
    pose proof (Hkeys x Hx) as Hx'. rewrite Hid, (Hkeys y Hy') in Hx'. by injection Hx'. }
  specialize (Hlook Hdist). split; [|exact Hdd]. constructor; [apply Hs| |]; intros k v; cbn [acache adb].
  - rewrite Hlook. intros (row & Hrow & Hk1 & Hsv) _. destruct (served_key _ _ Hsv) as (Hkey & Hid & _).
    exists row. rewrite Hid, Hkey. splits; [by apply Hkeys|apply Hsv|done].
  - intros (row & Hrow & Hc & <-) _ _. apply Hlook. exists row. destruct (ToCore_fields _ _ Hc) as (Hkey & Hid & _).
    assert (Hel : row ∈ l).
    { apply list_elem_of_In, Hin. rewrite <- (proj1 (proj2 Hs)).
      change (key row) with (SVKID row). by rewrite <- Hid. }
    splits; [done|done|]. destruct (Hserved row Hel) as (v' & Hs'). assert (v' = v) as <- by (destruct Hs'; congruence). done.
Qed.

(** ** What the cache admits *)

(** One step of the administration: a request that was not answered with an error, or a run of the
    synchronisation. *)
Inductive admin_step : KeyAdmin KDb BDb -> KeyAdmin KDb BDb -> Prop :=
| as_request s a s' : key_request s a s' -> (a.1 < 400)%Z -> admin_step s s'
| as_sync s res s' : sync_job s = (res, s') -> admin_step s s'.

Lemma admin_step_consistent s s' : consistent s -> admin_step s s' -> consistent s'.
Proof.
  intros Hs Hstep. destruct Hstep as [s a s' Hr Ha|s res s' Hy].
  - destruct (key_request_outcome s a s' Hs Hr) as [[_ Hc]|[Hge _]]; [done|lia].
  - destruct (sync_job_coherent s res s' (co_store _ _ _ (proj1 Hs)) (proj2 Hs) Hy) as [Hsame Hres].
    destruct res; [done|]. pose proof (consistent_same s _ Hs Hsame) as Hc. rewrite <- Hres in Hc.
    by destruct s'.
Qed.

(** C15: From a cache that agrees with the table, any sequence of administrative requests that
    are not answered with an error, interleaved with synchronisations that succeed or fail, leads
    to a cache that admits exactly what the table says: a request authenticates as [vk] if and
    only if its key is well formed and the table holds an active row with that secret, not
    expired, which compiles to [vk].  In particular a key that was revoked, deactivated or rotated
    away is refused from then on.  A request answered with an error never changes the cache. *)
Theorem cache_is_table s s' now rctx vk :
  consistent s -> star admin_step s s' ->
  (authenticates now s'.(acache) rctx vk <->
     ValidateKeySignature (extractKey rctx) = true /\ held s'.(adb) (extractKey rctx) vk /\
     vk.(VKIsActive) = true /\ (forall t, vk.(VKExpiresAt) = Some t -> (now <= t)%Z)) /\
  (forall a s'', key_request s' a s'' -> (400 <= a.1)%Z -> s''.(acache) = s'.(acache)).
Proof.
  intros Hs Hstar.
  assert (Hs' : consistent s') by (apply (star_inv admin_step consistent s s'); [apply admin_step_consistent|done|done]).
  split.
  - unfold authenticates. split; intros (Hv & Hl & Ha & He); splits; try done.
    + by apply (co_cached _ _ _ (proj1 Hs')).
    + by apply (co_live _ _ _ (proj1 Hs')).
  - intros a s'' Hr Ha. destruct (key_request_outcome s' a s'' Hs' Hr) as [[Hlt _]|[_ Hc]]; [lia|done].
Qed.

(** Every row of the listing is shown, or named as unreadable, active keys first. *)
Lemma render_spec rows out skipped :
  foldl render (out, skipped) rows =
    ((out ++ omap view rows)%list, (skipped ++ map SVKID (List.filter (fun r => negb (is_ok (ToResponse r))) rows))%list).
Proof.
  revert out skipped. induction rows as [|r rows IH]; intros out skipped; cbn [foldl omap list_omap List.filter map];
    [by rewrite !app_nil_r|].
  unfold render at 2, view. destruct (ToResponse r); cbn [is_ok negb fst snd map]; rewrite IH, <- app_assoc; done.
Qed.

End effects.

(** ** A table with one key *)

Abbreviation MemAdmin := (KeyAdmin (MemTable StoreVirtualKey) (MemTable StoreBudget)).

Definition admin_row : StoreVirtualKey :=
  mkStoreVirtualKey "k2" "hash" cached_key "dk-" "client" "b1" "direct"
    [mkProviderConfig "openai" ["*"] [] f64_zero ∅ ∅ false] "round_robin" true 0 0 None.
Definition one_key (faults : list bool) : MemAdmin :=
  mkKeyAdmin (mkStoreDb (mkMemTable {["k2" := admin_row]} faults)
    (mkMemTable {["b1" := mkStoreBudget "b1" "" 1000 BudgetUnitNanoUSD "24h" true 0 0 "bound" 0 0 0 0 0]} [])) None.
(** The cache is loaded; then the next statements on the keys fail as [faults] says. *)
Definition loaded (faults : list bool) : MemAdmin := (sync_job (one_key (false :: faults))).2.

Lemma one_key_ok faults : store_ok (one_key faults).(adb) /\ secrets_distinct (one_key faults).(adb).
Proof.
  assert (Hrow : forall i r, ({["k2" := admin_row]} : gmap string StoreVirtualKey) !! i = Some r -> i = "k2" /\ r = admin_row)
    by (intros i r [<- <-]%lookup_singleton_Some; done).
  split; [split; cbn; intros i r; cbn [rows]; by intros [<- <-]%lookup_singleton_Some|].
  intros i j r r' Hi Hj _. destruct (Hrow i r Hi) as [-> _], (Hrow j r' Hj) as [-> _]. done.
Qed.

Lemma loaded_consistent faults : consistent (loaded faults).
Proof.
  destruct (one_key_ok (false :: faults)) as [Ho Hd].
  destruct (sync_job (one_key (false :: faults))) as [res s'] eqn:Hs.
  destruct (sync_job_coherent _ res s' Ho Hd Hs) as [_ Hc].
  assert (Hres : res = Ok 1%Z) by (change res with (res, s').1; rewrite <- Hs; reflexivity).
  rewrite Hres in Hc. unfold loaded. by rewrite Hs.
Qed.

Lemma loaded_covers faults : covers [cached_key] (loaded faults).(acache).
Proof.
  intros k v Hv. destruct (co_cached _ _ _ (proj1 (loaded_consistent faults)) _ _ Hv I) as (row & Hr & Hc & <-).
  change (tbl (vkeys (adb (loaded faults))) (VKID v)) with (({["k2" := admin_row]} : gmap string StoreVirtualKey) !! VKID v) in Hr.
  apply lookup_singleton_Some in Hr as [_ <-]. destruct (ToCore_fields _ _ Hc) as (-> & _). by apply list_elem_of_singleton.
Qed.

(** The key authenticates until it is revoked. *)
Lemma cache_is_table_witness :
  (exists vk, authenticates 0 (loaded []).(acache) request_example vk) /\
  let '(a, s') := revokeVirtualKey [cached_key] true 4 "k2" (loaded []) in
  a = (StatusNoContent, KNothing) /\ forall vk, ~ authenticates 0 s'.(acache) request_example vk.
Proof.
  split.
  - destruct (StoreVirtualKey_ToCore admin_row) as [vk|e] eqn:Hc; [|vm_compute in Hc; done]. exists vk.
    destruct (cache_is_table (loaded []) (loaded []) 0 request_example vk (loaded_consistent []) (star_refl _ _)) as [Hiff _].
    destruct (ToCore_fields _ _ Hc) as (Hk & Hid & Ha). apply Hiff. splits; [vm_compute; reflexivity| |by rewrite Ha|].
    + exists admin_row. rewrite Hk, Hid. splits; [reflexivity|exact Hc|vm_compute; reflexivity].
    + intros t Ht. assert (Hx : VKExpiresAt vk = None) by (vm_compute in Hc; injection Hc as <-; reflexivity). congruence.
  - destruct (revokeVirtualKey [cached_key] true 4 "k2" (loaded [])) as [a s'] eqn:Hr.
    assert (Ha : a = (StatusNoContent, KNothing)) by (change a with (a, s').1; rewrite <- Hr; vm_compute; reflexivity).
    split; [exact Ha|]. intros vk Hauth.
    destruct (cache_is_table (loaded []) s' 0 request_example vk (loaded_consistent [])) as [Hiff _].
    { eapply star_step; [|apply star_refl]. eapply (as_request _ a s'); [|by rewrite Ha].
      eapply (kr_revoke _ [cached_key] true 4 "k2"); [apply loaded_covers|exact Hr]. }
    destruct (proj1 Hiff Hauth) as (_ & (row & Hrow & Hc & Hk) & Hact & _).
    assert (Hs' : s'.(adb).(vkeys) = (revokeVirtualKey [cached_key] true 4 "k2" (loaded [])).2.(adb).(vkeys)) by by rewrite Hr.
    destruct (ToCore_fields _ _ Hc) as (_ & _ & Hra). rewrite Hs' in Hrow.
    change (({["k2" := set_active 4 false admin_row]} : gmap string StoreVirtualKey) !! VKID vk = Some row) in Hrow.
    apply lookup_singleton_Some in Hrow as [_ <-]. rewrite Hra in Hact. vm_compute in Hact. done.
Defined.

(** The secret of the key that is cached, and whether its entry is active. *)
Definition admitted (c : KeyCache) : option bool := VKIsActive <$> LookupVkey c cached_key.

(** A deactivation whose last statement, the reading back of the row, fails: the answer is an
    error, the row is inactive, and the cache still admits the key. *)
Example failed_reread_keeps_key_live :
  let '(a, s') := setVirtualKeyStatus [cached_key] true 4 "k2" (Ok false) (loaded [false; false; true]) in
  a.1 = StatusBadRequest /\ SVKIsActive <$> tbl s'.(adb).(vkeys) "k2" = Some false /\ admitted s'.(acache) = Some true.
Proof. vm_compute. splits; reflexivity. Qed.

(** A synchronisation that has read the table before the key is revoked and stores the cache
    afterwards: the revoked key is admitted again. *)
Example stale_sync_revives_revoked_key :
  let s := loaded [] in
  let '(rows, d) := ListVirtualKeys s.(adb) in
  let '(a, s1) := revokeVirtualKey [cached_key] true 4 "k2" (mkKeyAdmin d s.(acache)) in
  let '(_, c) := syncVirtualKey (match rows with Ok l => Ok l | Err _ => Err "" end) s1.(acache) in
  a.1 = StatusNoContent /\ admitted s1.(acache) = None /\
  SVKIsActive <$> tbl s1.(adb).(vkeys) "k2" = Some false /\ admitted c = Some true.
Proof. vm_compute. splits; reflexivity. Qed.
