(* ===== verification/Base64.v ===== *)
(** * Base64 of the Go standard library — [encoding/base64], [StdEncoding]

    The encoder and the (lenient) decoder of the alphabet with padding, on byte values, with the
    round trip.  The decoder skips line ends and does not check the unused bits of the last
    quantum, as Go's does. *)

From S2P Require Import Prelude GoBase GoCrypto.
From Stdlib Require Import Ascii.
Local Open Scope Z_scope.

Definition byte_ascii (z : Z) : ascii := Ascii.ascii_of_N (Z.to_N z).
Definition bytes_string (l : list Z) : string := foldr (fun z s => String (byte_ascii z) s) "" l.

Definition b64_alphabet : string := "ABCDEFGHIJKLMNOPQRSTUVWXYZabcdefghijklmnopqrstuvwxyz0123456789+/".

Definition b64_char (v : Z) : ascii := default "A"%char (String.get (Z.to_nat v) b64_alphabet).

Fixpoint index_of (c : ascii) (s : string) (i : Z) : option Z :=
  match s with
  | "" => None
  | String d s' => if Ascii.eqb c d then Some i else index_of c s' (i + 1)
  end.
Definition b64_val (c : ascii) : option Z := index_of c b64_alphabet 0.

(** [StdEncoding.EncodeToString]. *)
Fixpoint b64_encode (l : list Z) : string :=
  match l with
  | [] => ""
  | [a] => String (b64_char (a / 4)) (String (b64_char (a mod 4 * 16)) "==")
  | [a; b] => String (b64_char (a / 4)) (String (b64_char (a mod 4 * 16 + b / 16))
                (String (b64_char (b mod 16 * 4)) "="))
  | a :: b :: c :: rest =>
      String (b64_char (a / 4)) (String (b64_char (a mod 4 * 16 + b / 16))
        (String (b64_char (b mod 16 * 4 + c / 64)) (String (b64_char (c mod 64)) (b64_encode rest))))
  end.

Fixpoint strip_eol (s : string) : string :=
  match s with
  | "" => ""
  | String c s' => if Ascii.eqb c "010"%char || Ascii.eqb c "013"%char then strip_eol s' else String c (strip_eol s')
  end.

(** The quanta of the input without line ends. *)
Fixpoint b64_quanta (s : string) : option (list Z) :=
  match s with
  | "" => Some []
  | String c1 (String c2 (String c3 (String c4 rest))) =>
      v1 ← b64_val c1; v2 ← b64_val c2;
      if Ascii.eqb c3 "=" then
        if Ascii.eqb c4 "=" && String.eqb rest "" then Some [v1 * 4 + v2 / 16] else None
      else
        v3 ← b64_val c3;
        if Ascii.eqb c4 "=" then
          if String.eqb rest "" then Some [v1 * 4 + v2 / 16; v2 mod 16 * 16 + v3 / 4] else None
        else
          v4 ← b64_val c4; l ← b64_quanta rest;
          Some (v1 * 4 + v2 / 16 :: v2 mod 16 * 16 + v3 / 4 :: v3 mod 4 * 64 + v4 :: l)
  | _ => None
  end.

(** [StdEncoding.DecodeString]. *)
Definition b64_decode (s : string) : option (list Z) := b64_quanta (strip_eol s).

Example b64_check : b64_encode (string_bytes "any carnal pleas") = "YW55IGNhcm5hbCBwbGVhcw==".
Proof. vm_compute. reflexivity. Qed.

(** ** Round trip *)

Definition is_byte (z : Z) : Prop := 0 <= z < 256.

(** What holds of each character of the alphabet. *)
Definition b64_good (v : Z) : bool :=
  match b64_val (b64_char v) with Some w => w =? v | None => false end
  && negb (Ascii.eqb (b64_char v) "=") && negb (Ascii.eqb (b64_char v) "010"%char)
  && negb (Ascii.eqb (b64_char v) "013"%char).

Lemma b64_all_good : forallb b64_good (map Z.of_nat (seq 0 64)) = true.
Proof. vm_compute. reflexivity. Qed.

Lemma b64_char_good v : 0 <= v < 64 ->
  b64_val (b64_char v) = Some v /\ Ascii.eqb (b64_char v) "=" = false /\
  Ascii.eqb (b64_char v) "010"%char = false /\ Ascii.eqb (b64_char v) "013"%char = false.
Proof.
  intros Hv. pose proof (proj1 (forallb_forall _ _) b64_all_good v) as H.
  assert (Hin : In v (map Z.of_nat (seq 0 64))).
  { apply in_map_iff. exists (Z.to_nat v). split; [lia|]. apply in_seq. lia. }
  specialize (H Hin). unfold b64_good in H. rewrite !andb_true_iff, !negb_true_iff in H.
  destruct H as [[[H ?] ?] ?]. splits; try done. destruct (b64_val (b64_char v)) as [w|]; [|done].
  by apply Z.eqb_eq in H as ->.
Qed.

Ltac sextets :=
  repeat match goal with
  | |- context [b64_val (b64_char ?v)] =>
      let H := fresh in assert (H : 0 <= v < 64) by (unfold is_byte in *; Z.to_euclidean_division_equations; lia);
      let E1 := fresh in let E2 := fresh in
      destruct (b64_char_good v H) as (E1 & E2 & _); rewrite E1, ?E2; clear H E1 E2
  end.

(** Induction on a list three elements at a time. *)
Lemma by_threes {A} (P : list A -> Prop) :
  P [] -> (forall a, P [a]) -> (forall a b, P [a; b]) -> (forall a b c l, P l -> P (a :: b :: c :: l)) -> forall l, P l.
Proof.
  intros H0 H1 H2 H3. fix IH 1. intros [|a [|b [|c l]]]; [exact H0|apply H1|apply H2|apply H3, IH].
Qed.

Lemma strip_encode l : Forall is_byte l -> strip_eol (b64_encode l) = b64_encode l.
Proof.
  assert (Hkeep : forall v s, 0 <= v < 64 -> strip_eol (String (b64_char v) s) = String (b64_char v) (strip_eol s)).
  { intros v s Hv. cbn [strip_eol]. destruct (b64_char_good v Hv) as (_ & _ & -> & ->). done. }
  induction l as [|a|a b|a b c l IH] using by_threes; intros Hl; cbn [b64_encode]; [done|..];
    repeat match goal with H : Forall _ (_ :: _) |- _ => apply Forall_cons in H as [? ?] end;
    unfold is_byte in *; rewrite !Hkeep by (Z.to_euclidean_division_equations; lia); [done|done|].
  by rewrite IH.
Qed.

Lemma b64_roundtrip l : Forall is_byte l -> b64_decode (b64_encode l) = Some l.
Proof.
  intros Hl. unfold b64_decode. rewrite strip_encode by done. revert Hl.
  induction l as [|a|a b|a b c l IH] using by_threes; intros Hl; cbn [b64_encode b64_quanta]; [done|..];
    repeat match goal with H : Forall _ (_ :: _) |- _ => apply Forall_cons in H as [? ?] end;
    sextets; cbn [mbind option_bind Ascii.eqb String.eqb andb Bool.eqb].
  - do 2 f_equal. unfold is_byte in *. Z.to_euclidean_division_equations; lia.
  - unfold is_byte in *. repeat f_equal; Z.to_euclidean_division_equations; lia.
  - rewrite IH by done. cbn [mbind option_bind]. unfold is_byte in *.
    repeat f_equal; Z.to_euclidean_division_equations; lia.
Qed.

(** ** Bytes of strings *)

Lemma string_bytes_byte s : Forall is_byte (string_bytes s).
Proof.
  induction s as [|c s IH]; constructor; [|done]. unfold is_byte. pose proof (Ascii.N_ascii_bounded c). lia.
Qed.

Lemma bytes_string_bytes s : bytes_string (string_bytes s) = s.
Proof.
  induction s as [|c s IH]; [done|]. cbn [string_bytes bytes_string foldr]. fold (bytes_string (string_bytes s)).
  rewrite IH. unfold byte_ascii. by rewrite N2Z.id, Ascii.ascii_N_embedding.
Qed.

Lemma string_bytes_string l : Forall is_byte l -> string_bytes (bytes_string l) = l.
Proof.
  induction 1 as [|z l Hz _ IH]; [done|]. cbn [bytes_string foldr string_bytes]. fold (bytes_string l).
  rewrite IH. f_equal. unfold byte_ascii, is_byte in *. rewrite Ascii.N_ascii_embedding by lia. lia.
Qed.

Lemma b64_encode_nonempty l : l <> [] -> b64_encode l <> "".
Proof. by destruct l as [|a [|b [|c l]]]. Qed.
