(* ===== verification/Secrets.v ===== *)
(** * Secrets at rest ([internal/dbstore/utils.go] and the hooks of the rows)

    API keys are stored sealed with AES-GCM under the passkey of the configuration, the nonce in
    front, in base64.  gorm runs [BeforeSave] on a row it writes and [AfterFind] on a row it reads;
    a read for display replaces the secrets by a mask instead of decrypting them.  The cipher is
    the interface [AesGcm], with the law that opening what was sealed gives the plaintext; the
    random nonce is an argument, [None] when the source of randomness fails. *)

From S2P Require Import Prelude GoBase GoCrypto Base64 Credential VirtualKey Governance KeyStore StoreCatalog.

#[export] Instance ProxyConfig_eta : Eta ProxyConfig := fun p => mkProxyConfig (PType p) (PURL p) (Username p) (Password p).
#[export] Instance StoreProvider_eta : Eta StoreProvider := fun s =>
  mkStoreProvider (SPID s) (SPName s) (SPIsConfigured s) (SPNetwork s) (SPProxy s).

Definition SecretMask : string := "*********".

(** ** The cipher *)

Definition gcmNonceSize : nat := 12.

Class AesGcm := {
  gcm_seal : string -> string -> string -> string;
  gcm_open : string -> string -> string -> option string
}.
Class AesGcmLaws `{AesGcm} := {
  open_seal key nonce plaintext : gcm_open key nonce (gcm_seal key nonce plaintext) = Some plaintext
}.

(** [aes.NewCipher] takes keys of 16, 24 or 32 bytes. *)
Definition aes_key_size (key : string) : bool :=
  let n := String.length key in (n =? 16)%nat || (n =? 24)%nat || (n =? 32)%nat.

Inductive SecretError : Type :=
| BadKeySize
| NoRandomness
| BadBase64
| CiphertextTooShort
| AuthenticationFailed.

(** ** Optional strings *)

Definition optKey (k : string) : option string := if is_empty k then None else Some k.

Lemma deref_optKey k : deref "" (optKey k) = k.
Proof. unfold optKey. destruct (is_empty k) eqn:He; [|done]. by apply is_empty_true in He as ->. Qed.

Section cipher.
Context `{AesGcm}.

Definition encryptKey (Passkey : string) (nonce : option string) (APIKey : string) : result SecretError string :=
  if negb (aes_key_size Passkey) then Err BadKeySize
  else
    match nonce with
    | None => Err NoRandomness
    | Some nonce => Ok (b64_encode (string_bytes (nonce ++ gcm_seal Passkey nonce APIKey)))
    end.

Definition decryptKey (Passkey : string) (encryptedAPIKey : string) : result SecretError string :=
  match b64_decode encryptedAPIKey with
  | None => Err BadBase64
  | Some data =>
      if negb (aes_key_size Passkey) then Err BadKeySize
      else if (List.length data <? gcmNonceSize)%nat then Err CiphertextTooShort
      else
        match gcm_open Passkey (bytes_string (take gcmNonceSize data)) (bytes_string (drop gcmNonceSize data)) with
        | None => Err AuthenticationFailed
        | Some plaintext => Ok plaintext
        end
  end.

(** A field that is left alone when it is empty. *)
Definition encrypt_set (Passkey : string) (nonce : option string) (field : string) : result SecretError string :=
  if is_empty field then Ok field else encryptKey Passkey nonce field.
Definition decrypt_set (Passkey : string) (field : string) : result SecretError string :=
  if is_empty field then Ok field else decryptKey Passkey field.
Definition mask_set (field : string) : string := if is_empty field then field else SecretMask.

(** ** Virtual keys *)

Definition Key_BeforeSave (Passkey : string) (nonce : option string) (key : StoreVirtualKey) :
    result SecretError StoreVirtualKey :=
  apiKey ← encryptKey Passkey nonce key.(SVKAPIKey); Ok (key <| SVKAPIKey := apiKey |>).

Definition Key_AfterFind (mask : bool) (Passkey : string) (key : StoreVirtualKey) : result SecretError StoreVirtualKey :=
  if is_empty key.(SVKAPIKey) then Ok key
  else if mask then Ok (key <| SVKAPIKey := SecretMask |>)
  else apiKey ← decryptKey Passkey key.(SVKAPIKey); Ok (key <| SVKAPIKey := apiKey |>).

(** ** Providers: the user and password of the proxy *)

Definition on_secrets (f : nat -> string -> result SecretError string) (s : StoreProvider) : result SecretError StoreProvider :=
  match s.(SPProxy) with
  | None => Ok s
  | Some proxy =>
      user ← f 0%nat proxy.(Username); password ← f 1%nat proxy.(Password);
      Ok (s <| SPProxy := Some (proxy <| Username := user |> <| Password := password |>) |>)
  end.

Definition Provider_BeforeSave (Passkey : string) (nonce : nat -> option string) : StoreProvider -> result SecretError StoreProvider :=
  on_secrets (fun i => encrypt_set Passkey (nonce i)).
Definition Provider_AfterFind (mask : bool) (Passkey : string) : StoreProvider -> result SecretError StoreProvider :=
  on_secrets (fun _ field => if mask then Ok (mask_set field) else decrypt_set Passkey field).

(** ** Round trips *)

Context `{!AesGcmLaws}.

Lemma string_bytes_app a b : string_bytes (a ++ b) = (string_bytes a ++ string_bytes b)%list.
Proof. induction a as [|c a IH]; [done|]. cbn. by f_equal. Qed.
Lemma string_bytes_length s : List.length (string_bytes s) = String.length s.
Proof. induction s as [|c s IH]; [done|]. cbn. by f_equal. Qed.

Lemma decrypt_encrypt Passkey nonce APIKey e : String.length nonce = gcmNonceSize ->
  encryptKey Passkey (Some nonce) APIKey = Ok e -> decryptKey Passkey e = Ok APIKey.
Proof.
  intros Hn. unfold encryptKey, decryptKey. destruct (negb (aes_key_size Passkey)) eqn:Hk; [done|]. intros [= <-].
  rewrite b64_roundtrip by apply string_bytes_byte. rewrite string_bytes_app, length_app, string_bytes_length, Hn.
  destruct (_ <? _)%nat eqn:Hlt; [apply Nat.ltb_lt in Hlt; lia|].
  rewrite take_app_length', drop_app_length' by (by rewrite string_bytes_length).
  by rewrite !bytes_string_bytes, open_seal.
Qed.

Lemma encrypt_nonempty Passkey nonce APIKey e : String.length nonce = gcmNonceSize ->
  encryptKey Passkey (Some nonce) APIKey = Ok e -> is_empty e = false.
Proof.
  intros Hn. unfold encryptKey. destruct (negb _); [done|]. intros [= <-].
  destruct (is_empty _) eqn:He; [|done]. apply is_empty_true in He. exfalso. revert He. apply b64_encode_nonempty.
  intros Hnil. apply (f_equal List.length) in Hnil. rewrite string_bytes_app, length_app, string_bytes_length, Hn in Hnil.
  cbn in Hnil. lia.
Qed.

Lemma set_roundtrip Passkey nonce field e : String.length nonce = gcmNonceSize ->
  encrypt_set Passkey (Some nonce) field = Ok e -> decrypt_set Passkey e = Ok field /\ mask_set e = mask_set field.
Proof.
  intros Hn. unfold encrypt_set, decrypt_set, mask_set. destruct (is_empty field) eqn:He.
  - intros [= <-]. by rewrite He.
  - intros Henc. rewrite (encrypt_nonempty _ _ _ _ Hn Henc). split; [by eapply decrypt_encrypt|done].
Qed.

Lemma Key_roundtrip Passkey nonce key saved : String.length nonce = gcmNonceSize ->
  Key_BeforeSave Passkey (Some nonce) key = Ok saved ->
  Key_AfterFind false Passkey saved = Ok key /\
  Key_AfterFind true Passkey saved = Ok (key <| SVKAPIKey := SecretMask |>).
Proof.
  intros Hn. unfold Key_BeforeSave. destruct (encryptKey _ _ _) as [e|] eqn:He; [|done]. cbn. intros [= <-].
  pose proof (encrypt_nonempty _ _ _ _ Hn He) as Hne. pose proof (decrypt_encrypt _ _ _ _ Hn He) as Hd.
  destruct key. unfold Key_AfterFind. cbn in *. rewrite Hne, Hd. done.
Qed.

Definition mask_proxy (p : ProxyConfig) : ProxyConfig := p <| Username := mask_set p.(Username) |> <| Password := mask_set p.(Password) |>.

Lemma Provider_roundtrip Passkey nonce s saved : (forall i, exists n, nonce i = Some n /\ String.length n = gcmNonceSize) ->
  Provider_BeforeSave Passkey nonce s = Ok saved ->
  Provider_AfterFind false Passkey saved = Ok s /\
  Provider_AfterFind true Passkey saved = Ok (s <| SPProxy := mask_proxy <$> s.(SPProxy) |>).
Proof.
  intros Hn. unfold Provider_BeforeSave, Provider_AfterFind, on_secrets.
  destruct (SPProxy s) as [proxy|] eqn:Hp; [|intros [= <-]; rewrite Hp; by destruct s; cbn in *; subst].
  destruct (Hn 0%nat) as (n0 & -> & Hn0), (Hn 1%nat) as (n1 & -> & Hn1).
  destruct (encrypt_set Passkey (Some n0) _) as [u|] eqn:Hu; [|done].
  destruct (encrypt_set Passkey (Some n1) _) as [w|] eqn:Hw; [|done]. cbn. intros [= <-].
  destruct (set_roundtrip _ _ _ _ Hn0 Hu) as [Hdu Heu], (set_roundtrip _ _ _ _ Hn1 Hw) as [Hdw Hew].
  cbn. rewrite Hdu. cbn. rewrite Hdw. unfold mask_proxy. cbn. rewrite Heu, Hew.
  by destruct s, proxy; cbn in *; subst.
Qed.
End cipher.
