(* ===== verification/CredentialStore.v ===== *)
(** * Credentials in the database ([internal/dbstore/credentials.go], [provider.go])

    The rows of provider credentials, their conversion from and to the credentials the gateway
    routes with, the partial update, and the operations on the tables of credentials and providers.
    A row is what gorm returns, its secrets decrypted; [Credential_BeforeSave] and
    [Credential_AfterFind] say what is on disk ([Secrets]).  Foreign rows ([Provider]) are loaded
    with a query of their own.  A validation takes the iteration order of the aliases. *)

From S2P Require Import Prelude GoBase Catalog Credential VirtualKey Governance Gorm KeyStore StoreCatalog Secrets.

#[export] Instance AzureSettings_eta : Eta AzureSettings := fun a =>
  mkAzureSettings (AuthMode a) (TenantID a) (AzClientID a) (ClientSecret a) (Scopes a).
#[export] Instance StoreProvider_key : Keyed StoreProvider := SPID.

Record StoreCredential : Type := mkStoreCredential {
  CRID : string;
  CRProviderID : string;
  CRProvider : StoreProvider;
  CRName : string;
  CRAPIKey : option string;
  CREnabled : bool;
  CRExpiryAt : option Z;
  CRAllowedModels : list string;
  CRBlockedModels : list string;
  CREndpoint : string;
  CRAliases : gmap string Alias;
  CRAzureAuthMode : option string;
  CRAzureTenantID : option string;
  CRAzureClientID : option string;
  CRAzureClientSecret : option string;
  CRAzureScopes : list string;
  CRCreatedAt : Z;
  CRUpdatedAt : Z
}.
#[export] Instance StoreCredential_eta : Eta StoreCredential := fun c =>
  mkStoreCredential (CRID c) (CRProviderID c) (CRProvider c) (CRName c) (CRAPIKey c) (CREnabled c) (CRExpiryAt c)
    (CRAllowedModels c) (CRBlockedModels c) (CREndpoint c) (CRAliases c) (CRAzureAuthMode c) (CRAzureTenantID c)
    (CRAzureClientID c) (CRAzureClientSecret c) (CRAzureScopes c) (CRCreatedAt c) (CRUpdatedAt c).
#[export] Instance StoreCredential_key : Keyed StoreCredential := CRID.

(** ** Secrets *)

(** The secrets of the row, in the order of [secrets()]. *)
Definition on_credential_secrets (f : nat -> string -> result SecretError string) (s : StoreCredential) :
    result SecretError StoreCredential :=
  let opt i (field : option string) :=
    match field with None => Ok None | Some v => match f i v with Ok w => Ok (Some w) | Err e => Err e end end in
  apiKey ← opt 0%nat s.(CRAPIKey); secret ← opt 1%nat s.(CRAzureClientSecret);
  Ok (s <| CRAPIKey := apiKey |> <| CRAzureClientSecret := secret |>).

Definition Credential_BeforeSave `{AesGcm} (Passkey : string) (nonce : nat -> option string) :
    StoreCredential -> result SecretError StoreCredential :=
  on_credential_secrets (fun i => encryptKey Passkey (nonce i)).
Definition Credential_AfterFind `{AesGcm} (mask : bool) (Passkey : string) :
    StoreCredential -> result SecretError StoreCredential :=
  on_credential_secrets (fun _ field => if mask then Ok SecretMask else decryptKey Passkey field).

(** ** Conversions *)

Definition Credential_ToCore (s : StoreCredential) : Credential :=
  mkCredential s.(CRID) s.(CRProvider).(SPName) s.(CRName) (deref "" s.(CRAPIKey)) s.(CREnabled) s.(CRExpiryAt)
    s.(CRAllowedModels) s.(CRBlockedModels) s.(CREndpoint) s.(CRAliases)
    (mkCredentialSettings
      (if String.eqb s.(CRProvider).(SPName) ProviderAzure then
         match s.(CRAzureAuthMode) with
         | Some mode => Some (mkAzureSettings mode (deref "" s.(CRAzureTenantID)) (deref "" s.(CRAzureClientID))
                          (deref "" s.(CRAzureClientSecret)) s.(CRAzureScopes))
         | None => None
         end
       else None)).

Definition applyAzureSettings (row : StoreCredential) (cred : Credential) : StoreCredential :=
  match cred.(Settings).(Azure) with
  | None => row
  | Some azure =>
      row <| CRAzureAuthMode := optKey azure.(AuthMode) |> <| CRAzureTenantID := optKey azure.(TenantID) |>
          <| CRAzureClientID := optKey azure.(AzClientID) |> <| CRAzureClientSecret := optKey azure.(ClientSecret) |>
          <| CRAzureScopes := azure.(Scopes) |>
  end.

Definition newStoreCredential (uuid : string) (cred : Credential) (providerID : string) (now : Z) : StoreCredential :=
  applyAzureSettings
    (mkStoreCredential uuid providerID StoreProvider0 cred.(CName) (optKey cred.(APIKey)) cred.(Enabled)
      cred.(ExpiryAt) cred.(CAllowedModels) cred.(CBlockedModels) cred.(Endpoint) cred.(Aliases)
      None None None None [] now now) cred.

(** The default of the column [enabled] is true: a row created with false takes it. *)
Definition StoreCredential_defaults (s : StoreCredential) : StoreCredential :=
  s <| CREnabled := or_default negb true s.(CREnabled) |>.

(** ** Partial updates *)

Record UpdateCredentialRequest : Type := mkUpdateCredentialRequest {
  UCName : option string;
  UCAPIKey : option string;
  UCEnabled : option bool;
  UCExpiryAt : option Z;
  UCAllowedModels : option (list string);
  UCBlockedModels : option (list string);
  UCEndpoint : option string;
  UCAliases : option (gmap string Alias);
  UCSettings : option CredentialSettings
}.

(** The secret of a request, unless it is empty or the mask. *)
Definition given (secret : string) : bool := negb (is_empty secret) && negb (String.eqb secret SecretMask).

Definition applyTo_azure (azure : AzureSettings) (cred : Credential) : Credential :=
  let azure :=
    if negb (given azure.(ClientSecret)) then
      match cred.(Settings).(Azure) with
      | Some old => azure <| ClientSecret := old.(ClientSecret) |>
      | None => azure
      end
    else azure in
  cred <| Settings := mkCredentialSettings (Some azure) |>.

Definition if_set {A} (o : option A) (f : A -> Credential -> Credential) (cred : Credential) : Credential :=
  match o with Some v => f v cred | None => cred end.

(** The assignments of [applyTo] before the settings, in order. *)
Definition assignments (r : UpdateCredentialRequest) : list (Credential -> Credential) :=
  [if_set r.(UCName) (fun v cred => cred <| CName := v |>);
   if_set r.(UCEnabled) (fun v cred => cred <| Enabled := v |>);
   if_set r.(UCExpiryAt) (fun v cred => cred <| ExpiryAt := Some v |>);
   if_set r.(UCAllowedModels) (fun v cred => cred <| CAllowedModels := v |>);
   if_set r.(UCBlockedModels) (fun v cred => cred <| CBlockedModels := v |>);
   if_set r.(UCEndpoint) (fun v cred => cred <| Endpoint := v |>);
   if_set r.(UCAliases) (fun v cred => cred <| Aliases := v |>);
   if_set r.(UCAPIKey) (fun v cred => if given v then cred <| APIKey := v |> else cred)].

Definition applyTo (r : UpdateCredentialRequest) (cred : Credential) : Credential :=
  if_set (r.(UCSettings) ≫= Azure) applyTo_azure (foldl (fun cred f => f cred) cred (assignments r)).

(** ** Operations *)

Inductive CredentialStoreError : Type :=
| CredNotFound (id : string) (cause : DbError)
| CredNone (id : string)
| CredListFailed (cause : DbError)
| ProviderNotFound (name : Provider)
| CredInvalid (cause : CredentialError)
| CredStatement (op : string) (cause : DbError)
| CredCommitFailed.

Section store.
Context {CDb PDb : Type} `{Gorm CDb StoreCredential} `{Gorm PDb StoreProvider}.

Record CredDb : Type := mkCredDb { creds : CDb; provs : PDb }.
Definition ctx : Type -> Type := Tx CredDb CredentialStoreError.

Definition on_creds {A} (wrap : DbError -> CredentialStoreError) (f : CDb -> result DbError A * CDb) : ctx A := fun d =>
  match f d.(creds) with
  | (Ok a, c) => (Ok a, mkCredDb c d.(provs))
  | (Err e, c) => (Err (wrap e), mkCredDb c d.(provs))
  end.
Definition on_provs {A} (wrap : DbError -> CredentialStoreError) (f : PDb -> result DbError A * PDb) : ctx A := fun d =>
  match f d.(provs) with
  | (Ok a, p) => (Ok a, mkCredDb d.(creds) p)
  | (Err e, p) => (Err (wrap e), mkCredDb d.(creds) p)
  end.

Definition with_provider (ps : list StoreProvider) (row : StoreCredential) : StoreCredential :=
  row <| CRProvider := default StoreProvider0 (List.find (fun p => String.eqb p.(SPID) row.(CRProviderID)) ps) |>.

(** [Preload("Provider")], which asks nothing when there is no row. *)
Definition preload (wrap : DbError -> CredentialStoreError) (rows : list StoreCredential) : ctx (list StoreCredential) :=
  match rows with [] => mret [] | _ => ps ← on_provs wrap db_find; mret (map (with_provider ps) rows) end.
Definition preload1 (wrap : DbError -> CredentialStoreError) (row : StoreCredential) : ctx StoreCredential :=
  ps ← on_provs wrap db_find; mret (with_provider ps row).

(** [Where("name = ?", provider).First(&row)]. *)
Definition resolveProvider (provider : Provider) : ctx StoreProvider :=
  ps ← on_provs (fun _ => ProviderNotFound provider) db_find;
  match List.find (fun p => String.eqb p.(SPName) provider) ps with
  | Some p => mret p
  | None => tx_fail (ProviderNotFound provider)
  end.

Definition GetCredential (id : string) : ctx StoreCredential :=
  row ← on_creds (CredNotFound id) (db_first id); preload1 (CredNotFound id) row.

Definition ListCredentials : ctx (list StoreCredential) :=
  rows ← on_creds CredListFailed db_find; preload CredListFailed rows.

(** The JOIN keeps the rows of the named provider. *)
Definition ListCredentialsByProvider (provider : Provider) : ctx (list StoreCredential) :=
  rows ← ListCredentials; mret (List.filter (fun r => String.eqb r.(CRProvider).(SPName) provider) rows).

Definition CreateCredential (commit : bool) (uuid : string) (now : Z) (order : list (string * Alias)) (cred : Credential) :
    ctx StoreCredential :=
  match Credential_Validate order cred with
  | Err e => tx_fail (CredInvalid e)
  | Ok _ =>
      _ ← Tx_transaction CredCommitFailed commit (
        provider ← resolveProvider cred.(CProvider);
        on_creds (CredStatement "create") (db_create
          (StoreCredential_defaults (newStoreCredential uuid cred provider.(SPID) now))));
      GetCredential uuid
  end.

(** The columns of the UPDATE. *)
Definition update_columns (next row : StoreCredential) : StoreCredential :=
  row <| CRName := next.(CRName) |> <| CRAPIKey := next.(CRAPIKey) |> <| CREnabled := next.(CREnabled) |>
      <| CRExpiryAt := next.(CRExpiryAt) |> <| CRAllowedModels := next.(CRAllowedModels) |>
      <| CRBlockedModels := next.(CRBlockedModels) |> <| CREndpoint := next.(CREndpoint) |>
      <| CRAliases := next.(CRAliases) |> <| CRAzureAuthMode := next.(CRAzureAuthMode) |>
      <| CRAzureTenantID := next.(CRAzureTenantID) |> <| CRAzureClientID := next.(CRAzureClientID) |>
      <| CRAzureClientSecret := next.(CRAzureClientSecret) |> <| CRAzureScopes := next.(CRAzureScopes) |>
      <| CRUpdatedAt := next.(CRUpdatedAt) |>.

Definition UpdateCredential (commit : bool) (uuid : string) (now : Z) (order : list (string * Alias)) (id : string)
    (req : UpdateCredentialRequest) : ctx StoreCredential :=
  _ ← Tx_transaction CredCommitFailed commit (
    existing ← GetCredential id;
    let candidate := applyTo req (Credential_ToCore existing) in
    match Credential_Validate order candidate with
    | Err e => tx_fail (CredInvalid e)
    | Ok _ =>
        let next := newStoreCredential uuid candidate existing.(CRProviderID) now <| CRID := existing.(CRID) |>
                      <| CRCreatedAt := existing.(CRCreatedAt) |> in
        on_creds (CredStatement "update") (db_update id (update_columns next))
    end);
  GetCredential id.

Definition DeleteCredential (id : string) : ctx () :=
  n ← on_creds (CredStatement "delete") (db_delete id);
  if (n =? 0)%Z then tx_fail (CredNone id) else mret tt.

(** *** The statements with the hooks gorm runs

    What is on disk: a row is sealed before it is inserted and opened after it is read. *)

Definition create_sealed `{AesGcm} (Passkey : string) (nonce : nat -> option string) (row : StoreCredential) (d : CDb) :
    result (SecretError + DbError) () * CDb :=
  match Credential_BeforeSave Passkey nonce row with
  | Err e => (Err (inl e), d)
  | Ok sealed =>
      match db_create (StoreCredential_defaults sealed) d with
      | (Ok u, d') => (Ok u, d')
      | (Err e, d') => (Err (inr e), d')
      end
  end.

Definition first_opened `{AesGcm} (mask : bool) (Passkey id : string) (d : CDb) :
    result (SecretError + DbError) StoreCredential * CDb :=
  match db_first id d with
  | (Err e, d') => (Err (inr e), d')
  | (Ok row, d') => (match Credential_AfterFind mask Passkey row with Ok r => Ok r | Err e => Err (inl e) end, d')
  end.

(** ** Providers *)

Definition ListProviders : ctx (list StoreProvider) := on_provs CredListFailed db_find.

Definition UpdateProviderConfig (commit : bool) (provider : Provider) (network : NetworkConfig) (proxy : option ProxyConfig) :
    ctx () :=
  Tx_transaction CredCommitFailed commit (
    row ← resolveProvider provider;
    _ ← on_provs (CredStatement "update provider")
          (db_update row.(SPID) (fun r => r <| SPNetwork := network |> <| SPProxy := proxy |> <| SPIsConfigured := true |>));
    mret tt).
End store.
Arguments CredDb : clear implicits.
Arguments mkCredDb {CDb PDb}.

(** ** Conversions: properties *)

Lemma Validate_settings order cred : Credential_Validate order cred = Ok () ->
  match cred.(Settings).(Azure) with
  | Some azure => cred.(CProvider) = ProviderAzure /\ azure_ok azure
  | None => cred.(CProvider) <> ProviderAzure
  end.
Proof.
  unfold Credential_Validate, mbind, result_bind, Settings_IsEmpty. repeat (case_match; [done|]).
  destruct (validate_aliases order); [|done].
  destruct (String.eqb_spec (CProvider cred) ProviderAzure); simpl; destruct (Azure (Settings cred)) eqn:Haz; simpl;
    rewrite ?Settings_Validate_spec, ?Haz; naive_solver.
Qed.

Lemma azure_mode_set azure : azure_ok azure -> optKey azure.(AuthMode) = Some azure.(AuthMode).
Proof. by intros [(-> & _)|[(-> & _)|(-> & _)]]. Qed.

(** The columns of [next] read back with the provider [p]. *)
Lemma ToCore_columns next row p cred uuid pid now :
  next = newStoreCredential uuid cred pid now <| CRID := row.(CRID) |> <| CRCreatedAt := row.(CRCreatedAt) |> ->
  match cred.(Settings).(Azure) with
  | Some azure => cred.(CProvider) = ProviderAzure /\ azure_ok azure
  | None => cred.(CProvider) <> ProviderAzure
  end ->
  p.(SPName) = cred.(CProvider) ->
  Credential_ToCore (update_columns next row <| CRProvider := p |>) = cred <| CID := row.(CRID) |>.
Proof.
  intros -> Hset Hp. destruct cred as [cid prov name key en ex al bl ep ali [[azure|]]]; destruct row; cbn in *.
  - destruct Hset as [-> Hok]. unfold newStoreCredential, applyAzureSettings, Credential_ToCore, update_columns. cbn.
    rewrite Hp, (azure_mode_set _ Hok). cbn. rewrite !deref_optKey. by destruct azure.
  - unfold newStoreCredential, applyAzureSettings, Credential_ToCore, update_columns. cbn. rewrite Hp, deref_optKey.
    by destruct (String.eqb_spec prov ProviderAzure).
Qed.

Lemma ToCore_new cred uuid now p :
  match cred.(Settings).(Azure) with
  | Some azure => cred.(CProvider) = ProviderAzure /\ azure_ok azure
  | None => cred.(CProvider) <> ProviderAzure
  end ->
  p.(SPName) = cred.(CProvider) ->
  Credential_ToCore (newStoreCredential uuid cred p.(SPID) now <| CRProvider := p |>) = cred <| CID := uuid |>.
Proof.
  intros Hset Hp. set (row := newStoreCredential uuid cred (SPID p) now).
  assert (Hrow : row.(CRID) = uuid).
  { unfold row, newStoreCredential, applyAzureSettings. by destruct (Azure (Settings cred)). }
  pose proof (ToCore_columns (row <| CRID := row.(CRID) |> <| CRCreatedAt := row.(CRCreatedAt) |>)
    row p cred uuid (SPID p) now eq_refl Hset Hp) as H. rewrite Hrow in H. by rewrite <- H.
Qed.

(** A client that sends back, as an update, everything it was shown. *)
Definition echo (c : Credential) : UpdateCredentialRequest :=
  mkUpdateCredentialRequest (Some c.(CName)) (Some c.(APIKey)) (Some c.(Enabled)) c.(ExpiryAt)
    (Some c.(CAllowedModels)) (Some c.(CBlockedModels)) (Some c.(Endpoint)) (Some c.(Aliases)) (Some c.(Settings)).

(** A credential as it is shown: the secrets it has are masked. *)
Definition shown (c : Credential) : Credential :=
  c <| APIKey := mask_set c.(APIKey) |>
    <| Settings := mkCredentialSettings ((fun a => a <| ClientSecret := mask_set a.(ClientSecret) |>) <$> c.(Settings).(Azure)) |>.

Lemma mask_not_given s : given (mask_set s) = false.
Proof. unfold mask_set. destruct (is_empty s) eqn:He; [|done]. unfold given. by rewrite He. Qed.

Lemma applyTo_echo c : applyTo (echo (shown c)) c = c.
Proof.
  destruct c as [cid prov name key en ex al bl ep ali [[azure|]]]; unfold applyTo, echo, shown; cbn;
    rewrite mask_not_given; [|by destruct ex].
  unfold applyTo_azure. cbn. rewrite mask_not_given. destruct azure, ex; done.
Qed.

Lemma defaults_enabled s : StoreCredential_defaults s = s <| CREnabled := true |>.
Proof. unfold StoreCredential_defaults, or_default. by destruct (CREnabled s). Qed.

Section roundtrip.
Context `{AesGcm} `{!AesGcmLaws}.

(** The hooks leave the other columns alone. *)
Lemma on_secrets_enabled f s saved b :
  on_credential_secrets f s = Ok saved ->
  on_credential_secrets f (s <| CREnabled := b |>) = Ok (saved <| CREnabled := b |>).
Proof.
  unfold on_credential_secrets. destruct s as [? ? ? ? [k|] ? ? ? ? ? ? ? ? ? [a|] ? ? ?]; cbn;
    repeat match goal with
    | |- context [match f ?i ?v with _ => _ end] => destruct (f i v); [|done]; cbn
    end; by intros [= <-].
Qed.

Lemma on_secrets_key f s saved : on_credential_secrets f s = Ok saved -> saved.(CRID) = s.(CRID).
Proof.
  unfold on_credential_secrets. destruct s as [? ? ? ? [k|] ? ? ? ? ? ? ? ? ? [a|] ? ? ?]; cbn;
    repeat match goal with
    | |- context [match f ?i ?v with _ => _ end] => destruct (f i v); [|done]; cbn
    end; by intros [= <-].
Qed.

Lemma on_secrets_roundtrip f g s saved :
  (forall i v w, f i v = Ok w -> g i w = Ok v) ->
  on_credential_secrets f s = Ok saved -> on_credential_secrets g saved = Ok s.
Proof.
  intros Hfg. unfold on_credential_secrets.
  destruct (CRAPIKey s) as [k|] eqn:Hk, (CRAzureClientSecret s) as [a|] eqn:Ha;
    destruct s; cbn in *; subst;
    repeat match goal with
    | |- context [match f ?i ?v with _ => _ end] => destruct (f i v) eqn:?; [|done]; cbn
    end; intros [= <-]; cbn;
    repeat match goal with H : f _ _ = Ok _ |- _ => apply Hfg in H; rewrite ?H; cbn end; done.
Qed.

Lemma Credential_masked Passkey nonce s saved : Credential_BeforeSave Passkey nonce s = Ok saved ->
  Credential_AfterFind true Passkey saved = Ok (s <| CRAPIKey := (fun _ => SecretMask) <$> s.(CRAPIKey) |>
    <| CRAzureClientSecret := (fun _ => SecretMask) <$> s.(CRAzureClientSecret) |>).
Proof.
  unfold Credential_BeforeSave, Credential_AfterFind, on_credential_secrets.
  destruct (CRAPIKey s) as [k|] eqn:Hk, (CRAzureClientSecret s) as [a|] eqn:Ha;
    destruct s; cbn in *; subst;
    repeat match goal with
    | |- context [encryptKey ?p ?n ?v] => destruct (encryptKey p n v); [|done]; cbn
    end; by intros [= <-].
Qed.

(** A row read for display is the displayed credential. *)
Lemma ToCore_masked cred uuid now p :
  match cred.(Settings).(Azure) with
  | Some azure => cred.(CProvider) = ProviderAzure /\ azure_ok azure
  | None => cred.(CProvider) <> ProviderAzure
  end ->
  p.(SPName) = cred.(CProvider) ->
  let row := newStoreCredential uuid cred p.(SPID) now in
  Credential_ToCore (row <| CRAPIKey := (fun _ => SecretMask) <$> row.(CRAPIKey) |>
    <| CRAzureClientSecret := (fun _ => SecretMask) <$> row.(CRAzureClientSecret) |> <| CRProvider := p |>)
  = shown (cred <| CID := uuid |>).
Proof.
  intros Hset Hp. destruct cred as [cid prov name key en ex al bl ep ali [[azure|]]]; cbn in *.
  - destruct Hset as [-> Hok].
    unfold shown, newStoreCredential, applyAzureSettings, Credential_ToCore. cbn. rewrite Hp, (azure_mode_set _ Hok).
    cbn. rewrite !deref_optKey. unfold mask_set, optKey. destruct azure; cbn.
    by destruct (is_empty key) eqn:E1, (is_empty ClientSecret) eqn:E2; cbn;
      rewrite ?(proj1 (is_empty_true _) E1), ?(proj1 (is_empty_true _) E2).
  - unfold shown, newStoreCredential, applyAzureSettings, Credential_ToCore. cbn. rewrite Hp.
    unfold mask_set, optKey. destruct (String.eqb_spec prov ProviderAzure); [done|].
    by destruct (is_empty key) eqn:E1; cbn; rewrite ?(proj1 (is_empty_true _) E1).
Qed.

Context {CDb : Type} `{Gorm CDb StoreCredential} `{!GormLaws CDb StoreCredential}.

Lemma create_sealed_row Passkey nonce row (d d' : CDb) u :
  db_ok d -> create_sealed Passkey nonce row d = (Ok u, d') ->
  exists saved, Credential_BeforeSave Passkey nonce row = Ok saved /\ db_ok d' /\
    tbl d row.(CRID) = None /\
    forall j, tbl d' j = if decide (j = row.(CRID)) then Some (saved <| CREnabled := true |>) else tbl d j.
Proof.
  intros Hd. unfold create_sealed. destruct (Credential_BeforeSave _ _ _) as [saved|] eqn:Hs; [|done].
  destruct (db_create _ d) as [[u'|] d1] eqn:Hc; [|done]. intros [= _ <-].
  destruct (create_ok _ _ _ _ Hd Hc) as (Hd1 & Hn & Ht). exists saved. rewrite defaults_enabled in *.
  change (key (saved <| CREnabled := true |>)) with (CRID saved) in *.
  rewrite (on_secrets_key (fun i => encryptKey Passkey (nonce i)) _ _ Hs) in *. done.
Qed.

(** C33: The life of a credential in the database.  A valid credential whose row is inserted (its
    secrets sealed under the passkey) is read back the same, field by field, under its new ID,
    except that it is enabled whether it was or not: the column's default replaces the false.
    Read for display it shows no secret, only a mask where there is one.  A read fails only when
    the database does, never on a secret.  A client that sends the displayed credential back as an
    update changes nothing, so a mask never overwrites a secret. *)
Theorem credential_roundtrip Passkey nonce order cred uuid p now (d d1 : CDb) :
  (forall i, exists n, nonce i = Some n /\ String.length n = gcmNonceSize) ->
  db_ok d -> Credential_Validate order cred = Ok () -> p.(SPName) = cred.(CProvider) ->
  create_sealed Passkey nonce (newStoreCredential uuid cred p.(SPID) now) d = (Ok (), d1) ->
  let stored := cred <| CID := uuid |> <| Enabled := true |> in
  (forall mask res d2, first_opened mask Passkey uuid d1 = (res, d2) ->
     match res with
     | Ok row => Credential_ToCore (row <| CRProvider := p |>) = (if mask then shown stored else stored)
     | Err e => exists cause, e = inr cause
     end) /\
  tbl d uuid = None /\ (forall j, j <> uuid -> tbl d1 j = tbl d j) /\
  applyTo (echo (shown stored)) stored = stored.
Proof.
  intros Hn Hd Hval Hp Hcreate stored. pose proof (Validate_settings _ _ Hval) as Hset.
  destruct (create_sealed_row _ _ _ _ _ _ Hd Hcreate) as (saved & Hs & Hd1 & Hnone & Hl).
  set (new := newStoreCredential uuid cred (SPID p) now) in *.
  assert (Hid : CRID new = uuid) by (unfold new, newStoreCredential, applyAzureSettings; cbn; by destruct (Azure (Settings cred))).
  rewrite Hid in *.
  splits; [|done|intros j Hj; by rewrite Hl, decide_False|apply applyTo_echo].
  intros mask res d2. unfold first_opened. destruct (db_first uuid d1) as [[row|e] d3] eqn:Hf; [|intros [= <- _]; by eexists].
  pose proof (first_row _ _ _ _ Hd1 Hf) as Hrow. rewrite Hl, decide_True in Hrow by done.
  assert (row = saved <| CREnabled := true |>) as -> by congruence.
  assert (Hs' : Credential_BeforeSave Passkey nonce (new <| CREnabled := true |>) = Ok (saved <| CREnabled := true |>))
    by (by apply on_secrets_enabled).
  assert (Hen : forall r, Credential_ToCore (r <| CREnabled := true |> <| CRProvider := p |>)
                = Credential_ToCore (r <| CRProvider := p |>) <| Enabled := true |>) by done.
  destruct mask.
  - rewrite (Credential_masked _ _ _ _ Hs'). intros [= <- _].
    pose proof (ToCore_masked cred uuid now p Hset Hp) as Hm. cbv zeta in Hm. fold new in Hm.
    transitivity (shown (cred <| CID := uuid |>) <| Enabled := true |>); [rewrite <- Hm|]; reflexivity.
  - assert (Hopen : Credential_AfterFind false Passkey (saved <| CREnabled := true |>) = Ok (new <| CREnabled := true |>)).
    { apply (on_secrets_roundtrip (fun i => encryptKey Passkey (nonce i)) (fun _ field => decryptKey Passkey field));
        [|exact Hs']. intros i v w. destruct (Hn i) as (n & -> & Hlen). by apply decrypt_encrypt. }
    rewrite Hopen. intros Hres. assert (res = Ok (new <| CREnabled := true |>)) as -> by congruence.
    rewrite Hen. unfold new. by rewrite (ToCore_new cred uuid now p Hset Hp).
Qed.
End roundtrip.

(** *** Witness: an Azure credential under a cipher that does not hide *)

#[local] Instance plain_cipher : AesGcm := {| gcm_seal _ _ p := p; gcm_open _ _ c := Some c |}.
#[local] Instance plain_cipher_laws : AesGcmLaws.
Proof. by constructor. Qed.

Definition demo_passkey : string := "0123456789abcdef".
Definition demo_nonce (i : nat) : option string := Some (if (i =? 0)%nat then "nonce-zero-0" else "nonce-one-1-").
Definition demo_provider : StoreProvider := mkStoreProvider "p1" ProviderAzure true NetworkConfig0 None.
Definition demo_credential : Credential := azure_credential <| Enabled := false |>.
Definition demo_disk : MemTable StoreCredential :=
  (create_sealed demo_passkey demo_nonce (newStoreCredential "c1" demo_credential "p1" 7) (mkMemTable ∅ [])).2.

(** A credential created disabled is read back enabled; the key on disk is not the key. *)
Lemma credential_roundtrip_witness :
  (exists saved key, tbl demo_disk "c1" = Some saved /\ saved.(CRAPIKey) = Some key /\ key <> "key") /\
  (exists row, (first_opened false demo_passkey "c1" demo_disk).1 = Ok row /\
     Credential_ToCore (row <| CRProvider := demo_provider |>) = azure_credential) /\
  (exists row, (first_opened true demo_passkey "c1" demo_disk).1 = Ok row /\
     APIKey (Credential_ToCore (row <| CRProvider := demo_provider |>)) = SecretMask).
Proof.
  destruct (credential_roundtrip demo_passkey demo_nonce (map_to_list demo_credential.(Aliases)) demo_credential "c1"
    demo_provider 7 (mkMemTable ∅ []) demo_disk) as (Hread & _).
  - intros i. unfold demo_nonce. eexists. split; [reflexivity|]. destruct (i =? 0)%nat; reflexivity.
  - intros i r. cbn. by rewrite lookup_empty.
  - vm_compute. reflexivity.
  - reflexivity.
  - vm_compute. reflexivity.
  - split; [eexists _, _; split; [vm_compute; reflexivity|]; split; [reflexivity|discriminate]|]. split.
    + destruct (first_opened false demo_passkey "c1" demo_disk) as [[row|e] d2] eqn:Hf.
      * exists row. split; [reflexivity|]. exact (Hread false _ _ Hf).
      * vm_compute in Hf. discriminate Hf.
    + destruct (first_opened true demo_passkey "c1" demo_disk) as [[row|e] d2] eqn:Hf.
      * exists row. split; [reflexivity|]. by rewrite (Hread true _ _ Hf).
      * vm_compute in Hf. discriminate Hf.
Defined.

(** The assignments leave the ID, the provider and the settings alone. *)
Lemma assignments_keep {T} (proj : Credential -> T) r c :
  (forall c v, proj (c <| CName := v |>) = proj c) -> (forall c v, proj (c <| Enabled := v |>) = proj c) ->
  (forall c v, proj (c <| ExpiryAt := v |>) = proj c) -> (forall c v, proj (c <| CAllowedModels := v |>) = proj c) ->
  (forall c v, proj (c <| CBlockedModels := v |>) = proj c) -> (forall c v, proj (c <| Endpoint := v |>) = proj c) ->
  (forall c v, proj (c <| Aliases := v |>) = proj c) -> (forall c v, proj (c <| APIKey := v |>) = proj c) ->
  proj (foldl (fun cred f => f cred) c (assignments r)) = proj c.
Proof.
  intros H1 H2 H3 H4 H5 H6 H7 H8.
  assert (Hset : forall A (o : option A) f x, (forall v y, proj (f v y) = proj y) -> proj (if_set o f x) = proj x)
    by (intros A [v|] f x Hf; [apply Hf|done]).
  unfold assignments. cbn [foldl]. rewrite !Hset; try done. intros v y. by destruct (given v).
Qed.

Lemma assignments_fixed r c : Settings (foldl (fun cred f => f cred) c (assignments r)) = Settings c.
Proof. by apply (assignments_keep Settings). Qed.

Lemma applyTo_CProvider r c : CProvider (applyTo r c) = CProvider c.
Proof. unfold applyTo. destruct (_ ≫= _); by apply (assignments_keep CProvider). Qed.
Lemma applyTo_CID r c : CID (applyTo r c) = CID c.
Proof. unfold applyTo. destruct (_ ≫= _); by apply (assignments_keep CID). Qed.

(** ** A credential that cannot change its mode

    The secret of a service principal survives every update that does not name another one, and
    the other modes take no secret: such an update is always refused. *)
Lemma principal_stays cred azure order r azure' :
  Credential_Validate order cred = Ok () -> cred.(Settings).(Azure) = Some azure ->
  azure.(AuthMode) = AzureAuthServicePrincipal ->
  r.(UCSettings) = Some (mkCredentialSettings (Some azure')) -> azure'.(AuthMode) <> AzureAuthServicePrincipal ->
  forall order', Credential_Validate order' (applyTo r cred) <> Ok ().
Proof.
  intros Hval Haz Hmode Hr Hmode' order' Hok. pose proof (Validate_settings _ _ Hval) as Hset. rewrite Haz in Hset.
  destruct Hset as [_ [(Hm & _)|[(_ & _ & _ & Hsec)|(Hm & _)]]]; [by rewrite Hmode in Hm| |by rewrite Hmode in Hm].
  apply Validate_settings in Hok.
  assert (Happ : exists c, (applyTo r cred).(Settings).(Azure) =
    Some (if negb (given azure'.(ClientSecret)) then azure' <| ClientSecret := azure.(ClientSecret) |> else azure') /\ c = cred).
  { exists cred. split; [|done]. unfold applyTo. rewrite Hr. cbn [mbind option_bind Azure if_set]. unfold applyTo_azure.
    rewrite assignments_fixed, Haz. destruct (negb _); reflexivity. }
  destruct Happ as (_ & Happ & _). rewrite Happ in Hok. destruct Hok as [_ Hok].
  destruct (given (ClientSecret azure')) eqn:Hg; cbn [negb] in Hok.
  - assert (ClientSecret azure' <> "") by (intros He; unfold given in Hg; by rewrite He in Hg).
    destruct Hok as [(_ & _ & _ & ?)|[(? & _)|(_ & ? & _)]]; done.
  - destruct Hok as [(_ & _ & _ & ?)|[(? & _)|(_ & ? & _)]]; done.
Qed.
