(* ===== verification/CredentialAdmin.v ===== *)
(** * Administration of credentials ([internal/server/admin-handlers.go], [dbstore/dbsource.go])

    The handlers that create, update and delete credentials.  Each changes the tables
    ([CredentialStore]) and then the plane requests are routed with ([ProviderPlane]).  The plane
    starts as the image of the tables and no job refreshes it, so it is right only as long as the
    handlers keep it so. *)

From S2P Require Import Prelude GoBase Errors Catalog Credential VirtualKey Governance Gorm KeyStore StoreCatalog Secrets CredentialStore ProviderPlane KeyAdmin.

Inductive CredBody : Type :=
| CNothing
| CMessage (msg : string)
| CCause (e : CredentialStoreError)
| CView (cred : Credential)
| CViews (creds : list Credential).

Section handlers.
Context {CDb PDb : Type} `{Gorm CDb StoreCredential} `{Gorm PDb StoreProvider}.
Abbreviation Db := (CredDb CDb PDb).

Record CredAdmin : Type := mkCredAdmin { cdb : Db; cplane : ProviderPlane }.

(** [DBSource.Load] and the plane built from it. *)
Definition Load : ctx (list Upstream * list Credential) :=
  providers ← ListProviders; credentials ← ListCredentials;
  mret (map ToUpstream providers, map Credential_ToCore credentials).

Definition boot (d : Db) : result CredentialStoreError CredAdmin :=
  match Load d with
  | (Ok (_, creds), d') => Ok (mkCredAdmin d' (NewProviderPlane creds))
  | (Err e, _) => Err e
  end.

Definition cred_stored {A} (t : ctx A) (failed : CredentialStoreError -> Z * CredBody)
    (f : A -> CredAdmin -> (Z * CredBody) * CredAdmin) (s : CredAdmin) : (Z * CredBody) * CredAdmin :=
  match t s.(cdb) with
  | (Err e, d) => (failed e, mkCredAdmin d s.(cplane))
  | (Ok a, d) => f a (mkCredAdmin d s.(cplane))
  end.

Definition cred_bad_request (e : CredentialStoreError) : Z * CredBody := (StatusBadRequest, CCause e).
Definition cred_not_found (_ : CredentialStoreError) : Z * CredBody := (StatusNotFound, CMessage "credential not found").

(** The credential of a row goes live and is shown, read again for display. *)
Definition go_live (order : list (string * Alias)) (code : Z) (unrendered : string) (row : StoreCredential) (s : CredAdmin) :
    (Z * CredBody) * CredAdmin :=
  match UpsertCredential order s.(cplane) (Credential_ToCore row) with
  | Err _ => ((StatusInternalServerError, CMessage "stored, not yet live"), s)
  | Ok plane =>
      cred_stored (GetCredential row.(CRID)) (fun _ => (StatusInternalServerError, CMessage unrendered))
        (fun safe s => ((code, CView (shown (Credential_ToCore safe))), s)) (mkCredAdmin s.(cdb) plane)
  end.

Definition createCredential (commit : bool) (uuid : string) (now : Z) (order order' : list (string * Alias))
    (providername : Provider) (body : result string Credential) (s : CredAdmin) : (Z * CredBody) * CredAdmin :=
  match body with
  | Err msg => ((StatusBadRequest, CMessage msg), s)
  | Ok payload =>
      cred_stored (CreateCredential commit uuid now order (payload <| CProvider := providername |>)) cred_bad_request
        (go_live order' StatusCreated "created, could not render") s
  end.

Definition updateCredential (commit : bool) (uuid : string) (now : Z) (order order' : list (string * Alias))
    (id : string) (body : result string UpdateCredentialRequest) (s : CredAdmin) : (Z * CredBody) * CredAdmin :=
  match body with
  | Err msg => ((StatusBadRequest, CMessage msg), s)
  | Ok payload =>
      cred_stored (UpdateCredential commit uuid now order id payload) cred_bad_request
        (go_live order' StatusOK "updated, could not render") s
  end.

Definition deleteCredential (providername : Provider) (id : string) : CredAdmin -> (Z * CredBody) * CredAdmin :=
  cred_stored (GetCredential id) cred_not_found (fun row s =>
    let provider := (Credential_ToCore row).(CProvider) in
    if negb (String.eqb provider providername) then ((StatusNotFound, CMessage "credential not found"), s)
    else
      cred_stored (DeleteCredential id) (fun e => (StatusNotFound, CCause e)) (fun _ s =>
        match RemoveCredential s.(cplane) provider id with
        | Err _ => ((StatusInternalServerError, CMessage "deleted, still live"), s)
        | Ok plane => ((StatusNoContent, CNothing), mkCredAdmin s.(cdb) plane)
        end) s).

Definition listCredentials (providername : Provider) : CredAdmin -> (Z * CredBody) * CredAdmin :=
  cred_stored (ListCredentialsByProvider providername)
    (fun _ => (StatusInternalServerError, CMessage "listing credentials"))
    (fun rows s => ((StatusOK, CViews (map (fun r => shown (Credential_ToCore r)) rows)), s)).
End handlers.
Arguments CredAdmin : clear implicits.
Arguments mkCredAdmin {CDb PDb}.

(** ** What the statements do *)

Section effects.
Context {CDb PDb : Type} `{Gorm CDb StoreCredential} `{Gorm PDb StoreProvider}.
Context `{!GormLaws CDb StoreCredential} `{!GormLaws PDb StoreProvider}.
Abbreviation Db := (CredDb CDb PDb).

Definition cred_ok (d : Db) : Prop := db_ok d.(creds) /\ db_ok d.(provs).
Definition cred_same (d d' : Db) : Prop :=
  cred_ok d' /\ (forall j, tbl d'.(creds) j = tbl d.(creds) j) /\ (forall j, tbl d'.(provs) j = tbl d.(provs) j).

Lemma cred_same_trans a b c : cred_same a b -> cred_same b c -> cred_same a c.
Proof. intros (_ & C1 & P1) (O & C2 & P2). split; [done|]. split; intros j; [by rewrite C2|by rewrite P2]. Qed.

(** A row with its provider. *)
Definition joined (d : Db) (r : StoreCredential) : StoreCredential :=
  r <| CRProvider := default StoreProvider0 (tbl d.(provs) r.(CRProviderID)) |>.

(** The credential the tables hold for a provider and an ID. *)
Definition serves (d : Db) (p : Provider) (id : string) : option Credential :=
  r ← tbl d.(creds) id;
  let c := Credential_ToCore (joined d r) in if String.eqb c.(CProvider) p then Some c else None.

Lemma serves_same d d' p id : cred_same d d' -> serves d' p id = serves d p id.
Proof.
  intros (_ & Hc & Hp). unfold serves, joined. rewrite Hc. destruct (tbl (creds d) id) as [r|]; [|done]. cbn.
  by rewrite Hp.
Qed.

Lemma provs_read {A} wrap (f : PDb -> result DbError A * PDb) d res d' :
  cred_ok d -> (forall x r y, db_ok x -> f x = (r, y) -> db_ok y /\ forall j, tbl y j = tbl x j) ->
  on_provs wrap f d = (res, d') -> cred_same d d'.
Proof.
  intros [Hc Hp] Hf. unfold on_provs. destruct (f (provs d)) as [[a|e] y] eqn:Hx; intros [= <- <-];
    destruct (Hf _ _ _ Hp Hx); by split.
Qed.

Lemma find_provider (d : PDb) ps d' i : db_ok d -> db_find d = (Ok ps, d') ->
  List.find (fun p => String.eqb p.(SPID) i) ps = tbl d i.
Proof.
  intros Hd Hf. destruct (find_rows _ _ _ Hd Hf) as [_ Hin].
  destruct (List.find _ ps) as [p|] eqn:Hp.
  - apply List.find_some in Hp as [Hp Hi]. apply String.eqb_eq in Hi. apply Hin in Hp.
    change (key p) with (SPID p) in Hp. by rewrite Hi in Hp.
  - destruct (tbl d i) as [p|] eqn:Ht; [|done]. exfalso. pose proof (tbl_key _ _ _ Hd Ht) as Hk.
    assert (Hps : In p ps) by (apply Hin; by rewrite Hk).
    pose proof (List.find_none _ _ Hp p Hps) as Hne. cbn beta in Hne. change (SPID p) with (key p) in Hne.
    by rewrite Hk, String.eqb_refl in Hne.
Qed.

Lemma preload1_spec wrap r d row d' : cred_ok d -> preload1 wrap r d = (Ok row, d') ->
  cred_same d d' /\ row = joined d r.
Proof.
  intros [Hc Hp] Ht. apply tx_bind_Ok in Ht as (ps & d1 & Ht & [= <- <-]). unfold on_provs in Ht.
  destruct (db_find (provs d)) as [[ps'|e] p'] eqn:Hf; [|done]. injection Ht as -> <-.
  destruct (find_state _ _ _ Hp Hf) as [Hp' Hs]. split; [by split|].
  unfold with_provider, joined. by rewrite (find_provider _ _ _ _ Hp Hf).
Qed.

Lemma GetCredential_spec id d row d' : cred_ok d -> GetCredential id d = (Ok row, d') ->
  cred_same d d' /\ exists r, tbl d.(creds) id = Some r /\ row = joined d r /\ row.(CRID) = id.
Proof.
  intros [Hc Hp] Ht. apply tx_bind_Ok in Ht as (r & d1 & Ht & Hpre). unfold on_creds in Ht.
  destruct (db_first id (creds d)) as [[r'|e] c'] eqn:Hf; [|done]. injection Ht as -> <-.
  destruct (first_state _ _ _ _ Hc Hf) as [Hc' Hs]. pose proof (first_row _ _ _ _ Hc Hf) as Hr.
  assert (H1 : cred_same d (mkCredDb c' d.(provs))) by (by split).
  destruct (preload1_spec _ _ _ _ _ (proj1 H1) Hpre) as [H2 ->].
  split; [by eapply cred_same_trans|]. exists r. splits; [done|done|]. exact (tbl_key _ _ _ Hc Hr).
Qed.

Lemma resolveProvider_spec name d p d' : cred_ok d -> resolveProvider name d = (Ok p, d') ->
  cred_same d d' /\ tbl d.(provs) p.(SPID) = Some p /\ p.(SPName) = name.
Proof.
  intros [Hc Hp] Ht. apply tx_bind_Ok in Ht as (ps & d1 & Ht & Hr). unfold on_provs in Ht.
  destruct (db_find (provs d)) as [[ps'|e] p'] eqn:Hf; [|done]. injection Ht as -> <-.
  destruct (find_state _ _ _ Hp Hf) as [Hp' Hs]. destruct (find_rows _ _ _ Hp Hf) as [_ Hin].
  destruct (List.find _ ps) as [q|] eqn:Hq; [|done]. injection Hr as -> <-. apply List.find_some in Hq as [Hq Hn].
  split; [by split|]. split; [by apply Hin in Hq|by apply String.eqb_eq].
Qed.

(** Only the credential row of [id] may have changed. *)
Definition cred_others (id : string) (d d' : Db) : Prop :=
  cred_ok d' /\ (forall j, j <> id -> tbl d'.(creds) j = tbl d.(creds) j) /\ (forall j, tbl d'.(provs) j = tbl d.(provs) j).

Lemma serves_others id d d' p j : cred_others id d d' -> j <> id -> serves d' p j = serves d p j.
Proof.
  intros (_ & Hc & Hp) Hj. unfold serves, joined. rewrite Hc by done. destruct (tbl (creds d) j) as [r|]; [|done]. cbn.
  by rewrite Hp.
Qed.

Lemma others_same_l id a b c : cred_same a b -> cred_others id b c -> cred_others id a c.
Proof. intros (_ & C1 & P1) (O & C2 & P2). split; [done|]. split; [intros j Hj; by rewrite C2, C1|intros j; by rewrite P2]. Qed.
Lemma others_same_r id a b c : cred_others id a b -> cred_same b c -> cred_others id a c.
Proof. intros (_ & C1 & P1) (O & C2 & P2). split; [done|]. split; [intros j Hj; by rewrite C2, C1|intros j; by rewrite P2]. Qed.

Lemma CreateCredential_rows commit uuid now order cred d row d' :
  cred_ok d -> CreateCredential commit uuid now order cred d = (Ok row, d') ->
  cred_others uuid d d' /\ tbl d.(creds) uuid = None /\
  (exists r, tbl d'.(creds) uuid = Some r /\ row = joined d' r) /\
  row.(CRID) = uuid /\ Credential_ToCore row = cred <| CID := uuid |> <| Enabled := true |>.
Proof.
  intros Hd. unfold CreateCredential. destruct (Credential_Validate order cred) as [[]|] eqn:Hval; [|done]. intros Ht.
  apply tx_bind_Ok in Ht as (u & d1 & Ht & Hg). apply Tx_transaction_cases in Ht as [(e & [=] & _)|(a & _ & Ht)].
  apply tx_bind_Ok in Ht as (p & d2 & Hr & Ht). destruct (resolveProvider_spec _ _ _ _ Hd Hr) as (Hs2 & Hp & Hname).
  unfold on_creds in Ht. rewrite defaults_enabled in Ht.
  set (new := newStoreCredential uuid cred (SPID p) now <| CREnabled := true |>) in Ht.
  destruct (db_create new (creds d2)) as [[u'|e] c'] eqn:Hc; [|done]. injection Ht as _ <-.
  destruct Hs2 as ([Hco Hpo] & Hcs & Hps). destruct (create_ok _ _ _ _ Hco Hc) as (Hc' & Hnone & Hl).
  assert (Hkey : key new = uuid) by (unfold new, newStoreCredential, applyAzureSettings; cbn; by destruct (Azure (Settings cred))).
  rewrite Hkey in Hnone, Hl.
  assert (H1 : cred_others uuid d (mkCredDb c' (provs d2))).
  { split; [by split|]. split; [|done]. intros j Hj. cbn [creds]. by rewrite Hl, decide_False, Hcs. }
  destruct (GetCredential_spec uuid _ _ _ (proj1 H1) Hg) as (Hs & r & Hrow & -> & Hid).
  cbn [creds] in Hrow. rewrite Hl, decide_True in Hrow by done. injection Hrow as <-.
  assert (Hj : joined (mkCredDb c' (provs d2)) new = new <| CRProvider := p |>).
  { unfold joined. cbn [provs]. assert (Hpid : CRProviderID new = SPID p)
      by (unfold new, newStoreCredential, applyAzureSettings; cbn; by destruct (Azure (Settings cred))).
    by rewrite Hpid, Hps, Hp. }
  splits; [by eapply others_same_r|by rewrite <- Hcs| |done|].
  - exists new. split; [by rewrite (proj1 (proj2 Hs)); cbn [creds]; rewrite Hl, decide_True|].
    unfold joined. by rewrite (proj2 (proj2 Hs)).
  - rewrite Hj. rewrite <- (ToCore_new cred uuid now p (Validate_settings _ _ Hval) Hname). done.
Qed.

Lemma update_columns_key next r : key (update_columns next r) = key r.
Proof. unfold update_columns. cbn. reflexivity. Qed.

Lemma joined_update d next r : joined d (update_columns next r) =
  update_columns next r <| CRProvider := default StoreProvider0 (tbl d.(provs) r.(CRProviderID)) |>.
Proof. reflexivity. Qed.

Lemma UpdateCredential_rows commit uuid now order id req d row d' :
  cred_ok d -> UpdateCredential commit uuid now order id req d = (Ok row, d') ->
  cred_others id d d' /\ (exists r, tbl d'.(creds) id = Some r /\ row = joined d' r) /\ row.(CRID) = id /\
  exists old, serves d old.(CProvider) id = Some old /\ Credential_ToCore row = applyTo req old.
Proof.
  intros Hd Ht. apply tx_bind_Ok in Ht as (u & d1 & Ht & Hg).
  apply Tx_transaction_cases in Ht as [(e & [=] & _)|(a & _ & Ht)].
  apply tx_bind_Ok in Ht as (ex & d2 & Hex & Ht). destruct (GetCredential_spec _ _ _ _ Hd Hex) as (Hs2 & r0 & Hr0 & -> & Hid0).
  cbn zeta in Ht. set (old := Credential_ToCore (joined d r0)) in Ht. set (cand := applyTo req old) in Ht.
  destruct (Credential_Validate order cand) as [[]|] eqn:Hval; [|done]. unfold on_creds in Ht.
  set (next := newStoreCredential uuid cand _ now <| CRID := _ |> <| CRCreatedAt := _ |>) in Ht.
  assert (Hnext : next = newStoreCredential uuid cand r0.(CRProviderID) now <| CRID := r0.(CRID) |>
    <| CRCreatedAt := r0.(CRCreatedAt) |>) by reflexivity. clearbody next.
  destruct (db_update id (update_columns next) (creds d2)) as [[n|e] c'] eqn:Hu; [|done]. injection Ht as _ <-.
  destruct Hs2 as ([Hco Hpo] & Hcs & Hps).
  destruct (update_ok _ _ _ _ _ Hco (update_columns_key next) Hu) as (Hc' & Hl & _).
  assert (H1 : cred_others id d (mkCredDb c' (provs d2))).
  { split; [by split|]. split; [|done]. intros j Hj. cbn [creds]. by rewrite Hl, decide_False, Hcs. }
  destruct (GetCredential_spec id _ _ _ (proj1 H1) Hg) as (Hs & r & Hrow & -> & Hid).
  cbn [creds] in Hrow. rewrite Hl, decide_True, Hcs, Hr0 in Hrow by done. cbn [fmap option_fmap option_map] in Hrow. injection Hrow as <-.
  assert (Holdid : CID old = id) by exact Hid0.
  assert (Hcand : CProvider cand = CProvider old /\ CID cand = CID old) by (split; [apply applyTo_CProvider|apply applyTo_CID]).
  splits; [by eapply others_same_r| |done|].
  - exists (update_columns next r0). split.
    + rewrite (proj1 (proj2 Hs)). cbn [creds]. by rewrite Hl, decide_True, Hcs, Hr0.
    + unfold joined. by rewrite (proj2 (proj2 Hs)).
  - exists old. split.
    + unfold serves. rewrite Hr0. cbn [mbind option_bind]. fold old. by rewrite String.eqb_refl.
    + rewrite joined_update. cbn [provs]. rewrite (ToCore_columns next r0 _ cand uuid (CRProviderID r0) now Hnext
        (Validate_settings _ _ Hval)) by (rewrite (proj1 Hcand), Hps; reflexivity).
      change (CRID r0) with (CID old). rewrite <- (proj2 Hcand). fold cand. generalize cand. by intros [].
Qed.

Lemma DeleteCredential_rows id d u d' : cred_ok d -> DeleteCredential id d = (Ok u, d') ->
  cred_others id d d' /\ tbl d'.(creds) id = None.
Proof.
  intros [Hc Hp] Ht. apply tx_bind_Ok in Ht as (n & d1 & Ht & Hr). unfold on_creds in Ht.
  destruct (db_delete id (creds d)) as [[m|e] c'] eqn:Hd; [|done]. injection Ht as -> <-.
  destruct (n =? 0)%Z; [done|]. injection Hr as _ <-. destruct (delete_ok _ _ _ _ Hc Hd) as (Hc' & Hl & _).
  split; [split; [by split|]; split; [|done]|]; cbn [creds]; [intros j Hj; by rewrite Hl, decide_False|by rewrite Hl, decide_True].
Qed.

Lemma DeleteCredential_err id d e d' : cred_ok d -> DeleteCredential id d = (Err e, d') -> cred_same d d'.
Proof.
  intros [Hc Hp]. unfold DeleteCredential, mbind, Tx_bind, on_creds.
  destruct (db_delete id (creds d)) as [[m|x] c'] eqn:Hd.
  - destruct (Z.eqb_spec m 0) as [->|]; [|done]. intros [= _ <-]. destruct (delete_ok _ _ _ _ Hc Hd) as (Hc' & Hl & Hn).
    split; [by split|]. split; [|done]. intros j. cbn [creds]. rewrite Hl. case_decide as Hj; [|done]. subst j.
    by destruct (tbl (creds d) id).
  - intros [= _ <-]. destruct (delete_err _ _ _ _ Hc Hd). by split.
Qed.

(** ** The plane against the tables *)

Definition plane_is_table (d : Db) (plane : ProviderPlane) : Prop :=
  forall p id, find_cred plane p id = serves d p id.
Definition cred_consistent (s : CredAdmin CDb PDb) : Prop := cred_ok s.(cdb) /\ plane_is_table s.(cdb) s.(cplane) /\ plane_ok s.(cplane).

Lemma serves_row d p id r : tbl d.(creds) id = Some r ->
  serves d p id = if String.eqb (CProvider (Credential_ToCore (joined d r))) p then Some (Credential_ToCore (joined d r)) else None.
Proof. intros Hr. unfold serves. by rewrite Hr. Qed.

Lemma serves_elsewhere d p q id c : serves d p id = Some c -> q <> p -> serves d q id = None.
Proof.
  unfold serves. destruct (tbl (creds d) id) as [r|]; [|done]. cbn [mbind option_bind].
  destruct (String.eqb_spec (CProvider (Credential_ToCore (joined d r))) p) as [<-|]; [|done]. intros _ Hq.
  destruct (String.eqb_spec (CProvider (Credential_ToCore (joined d r))) q); [congruence|done].
Qed.

Lemma plane_same d d' plane : plane_is_table d plane -> cred_same d d' -> plane_is_table d' plane.
Proof. intros Hp Hs p id. by rewrite (serves_same d d' p id Hs). Qed.

Lemma list_spec wrap d rows d' : cred_ok d ->
  (rows ← on_creds wrap db_find; preload wrap rows) d = (Ok rows, d') ->
  cred_same d d' /\ exists rs, rows = map (joined d) rs /\ NoDup (map CRID rs) /\
    (forall r, In r rs <-> tbl d.(creds) r.(CRID) = Some r).
Proof.
  intros [Hc Hp] Ht. apply tx_bind_Ok in Ht as (rs & d1 & Ht & Hpre). unfold on_creds in Ht.
  destruct (db_find (creds d)) as [[rs'|e] c'] eqn:Hf; [|done]. injection Ht as -> <-.
  destruct (find_state _ _ _ Hc Hf) as [Hc' Hs]. destruct (find_rows _ _ _ Hc Hf) as [Hnd Hin].
  destruct rs as [|r0 rs].
  { injection Hpre as <- <-. split; [by split|]. by exists []. }
  apply tx_bind_Ok in Hpre as (ps & d2 & Hpre & [= <- <-]). unfold on_provs in Hpre. cbn [provs creds] in Hpre.
  destruct (db_find (provs d)) as [[ps'|e] p'] eqn:Hfp; [|done]. injection Hpre as -> <-.
  destruct (find_state _ _ _ Hp Hfp) as [Hp' Hsp]. split; [by split|]. exists (r0 :: rs). splits; [|done|done].
  change (map (with_provider ps) (r0 :: rs) = map (joined d) (r0 :: rs)). apply map_ext. intros r. unfold with_provider, joined. by rewrite (find_provider _ _ _ _ Hp Hfp).
Qed.

Lemma boot_plane_ok cs : NoDup (map CID cs) -> plane_ok (NewProviderPlane cs).
Proof.
  intros Hnd. apply (plane_ok_step None); [done|]. apply (step_replace None cs).
  apply (NoDup_fmap_1 snd). change (snd <$> map ?f cs) with (map snd (map f cs)). by rewrite map_map.
Qed.

Lemma boot_consistent d s : cred_ok d -> boot d = Ok s -> cred_consistent s /\ cred_same d s.(cdb).
Proof.
  intros Hd. unfold boot. destruct (Load d) as [[[ups cs]|e] d'] eqn:Hl; [|done]. intros [= <-].
  apply tx_bind_Ok in Hl as (ps & d1 & Hps & Hl). apply tx_bind_Ok in Hl as (rows & d2 & Hrows & [= _ <- <-]).
  assert (H1 : cred_same d d1).
  { apply (provs_read (A := list StoreProvider) CredListFailed db_find d (Ok ps) d1 Hd); [|exact Hps].
    intros x r y Hx Hf. exact (find_state _ _ _ Hx Hf). }
  destruct (list_spec _ _ _ _ (proj1 H1) Hrows) as (H2 & rs & -> & Hnd & Hin).
  assert (H3 : cred_same d d2) by by eapply cred_same_trans.
  split; [|exact H3]. split; [apply H3|]. cbn [cdb cplane].
  assert (Hids : map CID (map Credential_ToCore (map (joined d1) rs)) = map CRID rs) by (by rewrite !map_map).
  split; [|by apply boot_plane_ok; rewrite Hids]. intros p id.
  rewrite (serves_same d1 d2 p id H2). unfold find_cred, NewProviderPlane. cbn [Plane_Credentials].
  rewrite find_build. destruct (List.find _ _) as [c|] eqn:Hf.
  - apply List.find_some in Hf as [Hc Hpi]. apply andb_true_iff in Hpi as [Hp Hi]. apply String.eqb_eq in Hp, Hi.
    rewrite map_map in Hc. apply in_map_iff in Hc as (r & <- & Hr). apply Hin in Hr.
    assert (Hid : CRID r = id) by exact Hi. rewrite Hid in Hr. rewrite (serves_row _ _ _ _ Hr), Hp.
    by rewrite String.eqb_refl.
  - destruct (tbl (creds d1) id) as [r|] eqn:Hr; [|by unfold serves; rewrite Hr].
    rewrite (serves_row _ _ _ _ Hr). assert (Hk : CRID r = id) by exact (tbl_key _ _ _ (proj1 (proj1 H1)) Hr).
    assert (Hc : In (Credential_ToCore (joined d1 r)) (map Credential_ToCore (map (joined d1) rs))).
    { rewrite map_map. apply in_map_iff. exists r. split; [done|]. apply Hin. by rewrite Hk. }
    pose proof (List.find_none _ _ Hf _ Hc) as Hn. cbn beta in Hn.
    change (CID (Credential_ToCore (joined d1 r))) with (CRID r) in Hn. rewrite Hk, String.eqb_refl, andb_true_r in Hn.
    by rewrite Hn.
Qed.

(** ** The handlers *)

Definition cred_outcome (plane : ProviderPlane) (a : Z * CredBody) (s' : CredAdmin CDb PDb) : Prop :=
  ((a.1 < 400)%Z /\ cred_consistent s') \/ ((400 <= a.1)%Z /\ (s'.(cplane) = plane \/ cred_consistent s')).

Lemma cred_stored_cases {A} (t : ctx A) failed f (s : CredAdmin CDb PDb) a s' : cred_stored t failed f s = (a, s') ->
  (exists e d, t s.(cdb) = (Err e, d) /\ a = failed e /\ s' = mkCredAdmin d s.(cplane)) \/
  (exists x d, t s.(cdb) = (Ok x, d) /\ f x (mkCredAdmin d s.(cplane)) = (a, s')).
Proof. unfold cred_stored. destruct (t (cdb s)) as [[x|e] d]; [eauto|]. intros [= <- <-]. left. by eexists _, _. Qed.

Lemma GetCredential_state id d res d' : cred_ok d -> GetCredential id d = (res, d') -> cred_same d d'.
Proof.
  intros [Hc Hp]. unfold GetCredential, mbind, Tx_bind, on_creds.
  destruct (db_first id (creds d)) as [[r|e] c'] eqn:Hf; destruct (first_state _ _ _ _ Hc Hf) as [Hc' Hs];
    [|intros [= _ <-]; by split].
  unfold preload1, mbind, Tx_bind, on_provs. cbn [provs creds]. destruct (db_find (provs d)) as [[ps|e] p'] eqn:Hfp;
    destruct (find_state _ _ _ Hp Hfp) as [Hp' Hsp]; intros [= _ <-]; by split.
Qed.

Lemma go_live_outcome order code unrendered row s d id a s' :
  cred_consistent s -> cred_others id s.(cdb) d -> (code < 400)%Z -> row.(CRID) = id ->
  (exists r, tbl d.(creds) id = Some r /\ row = joined d r) ->
  (forall p, p <> CProvider (Credential_ToCore row) -> serves s.(cdb) p id = None) ->
  go_live order code unrendered row (mkCredAdmin d s.(cplane)) = (a, s') -> cred_outcome s.(cplane) a s'.
Proof.
  intros (Ho & Hp & Hok) Hoth Hcode Hid (r & Hr & Hrow) Hold. unfold go_live. cbn [cplane cdb].
  destruct (UpsertCredential order (cplane s) (Credential_ToCore row)) as [plane|e] eqn:Hu;
    [|intros [= <- <-]; right; split; [done|by left]].
  assert (Hnew : plane_is_table d plane).
  { intros p j. rewrite (find_cred_upsert _ _ _ _ p j Hu). change (CID (Credential_ToCore row)) with (CRID row). rewrite Hid.
    destruct (String.eqb_spec id j) as [<-|Hj]; [|rewrite andb_false_r, Hp; symmetry; by apply (serves_others id)].
    rewrite andb_true_r, (serves_row d p id r Hr), <- Hrow.
    destruct (String.eqb_spec (CProvider (Credential_ToCore row)) p) as [|Hne]; [done|]. rewrite Hp. by apply Hold. }
  assert (Hok' : plane_ok plane) by (eapply plane_ok_step; [exact Hok|by eapply step_upsert]).
  intros [(e & d2 & Hg & -> & ->)|(safe & d2 & Hg & [= <- <-])]%cred_stored_cases; cbn [cdb cplane] in *;
    pose proof (GetCredential_state _ _ _ _ (proj1 Hoth) Hg) as Hs.
  - right. split; [done|]. right. split; [apply Hs|split; [by eapply plane_same|done]].
  - left. split; [done|]. split; [apply Hs|split; [by eapply plane_same|done]].
Qed.

(** A request to the administration and its answer. *)
Inductive cred_request (s : CredAdmin CDb PDb) : Z * CredBody -> CredAdmin CDb PDb -> Prop :=
| cq_create commit uuid now order order' name body a s' :
    createCredential commit uuid now order order' name body s = (a, s') -> cred_request s a s'
| cq_update commit uuid now order order' id body a s' :
    updateCredential commit uuid now order order' id body s = (a, s') -> cred_request s a s'
| cq_delete name id a s' : deleteCredential name id s = (a, s') -> cred_request s a s'
| cq_list name a s' : listCredentials name s = (a, s') -> cred_request s a s'.

Lemma create_cred_outcome commit uuid now order order' name body s a s' : cred_consistent s ->
  createCredential commit uuid now order order' name body s = (a, s') -> cred_outcome s.(cplane) a s'.
Proof.
  intros Hs. unfold createCredential. destruct body as [payload|msg]; [|intros [= <- <-]; right; split; [done|by left]].
  intros [(e & d & _ & -> & ->)|(row & d & Ht & Hg)]%cred_stored_cases; [right; split; [done|by left]|].
  destruct (CreateCredential_rows _ _ _ _ _ _ _ _ (proj1 Hs) Ht) as (Hoth & Hnone & Hrow & Hid & _).
  eapply (go_live_outcome order' StatusCreated _ row s d uuid); [done|exact Hoth|done|exact Hid|exact Hrow| |exact Hg].
  intros p _. unfold serves. by rewrite Hnone.
Qed.

Lemma update_cred_outcome commit uuid now order order' id body s a s' : cred_consistent s ->
  updateCredential commit uuid now order order' id body s = (a, s') -> cred_outcome s.(cplane) a s'.
Proof.
  intros Hs. unfold updateCredential. destruct body as [payload|msg]; [|intros [= <- <-]; right; split; [done|by left]].
  intros [(e & d & _ & -> & ->)|(row & d & Ht & Hg)]%cred_stored_cases; [right; split; [done|by left]|].
  destruct (UpdateCredential_rows _ _ _ _ _ _ _ _ _ (proj1 Hs) Ht) as (Hoth & Hrow & Hid & old & Hold & Hnew).
  eapply (go_live_outcome order' StatusOK _ row s d id); [done|exact Hoth|done|exact Hid|exact Hrow| |exact Hg].
  intros p Hp. eapply serves_elsewhere; [exact Hold|]. by rewrite Hnew, applyTo_CProvider in Hp.
Qed.

Lemma delete_cred_outcome name id s a s' : cred_consistent s ->
  deleteCredential name id s = (a, s') -> cred_outcome s.(cplane) a s'.
Proof.
  intros Hs [(e & d & _ & -> & ->)|(row & d & Ht & Hr)]%cred_stored_cases; [right; split; [done|by left]|].
  destruct (GetCredential_spec _ _ _ _ (proj1 Hs) Ht) as (Hs2 & r & Hrow & -> & Hid). cbn zeta in Hr.
  destruct (negb _); [injection Hr as <- <-; right; split; [done|by left]|].
  apply cred_stored_cases in Hr as [(e & d2 & _ & -> & ->)|(u & d2 & Hd & Hr)]; [right; split; [done|by left]|].
  cbn [cdb cplane] in *. destruct (DeleteCredential_rows _ _ _ _ (proj1 Hs2) Hd) as (Hoth & Hgone).
  set (prov := CProvider (Credential_ToCore (joined (cdb s) r))) in Hr.
  pose proof (find_cred_remove (cplane s) prov id) as Hrm.
  destruct (RemoveCredential (cplane s) prov id) as [plane|e] eqn:Hremove; injection Hr as <- <-; [|right; split; [done|by left]].
  destruct Hrm as [_ Hrm]. left. split; [done|]. split; [apply Hoth|]. cbn [cdb cplane].
  split; [|eapply plane_ok_step; [apply Hs|by eapply step_remove]]. intros p j. rewrite Hrm.
  destruct (String.eqb_spec id j) as [<-|Hj].
  - assert (Hnone : serves d2 p id = None) by (unfold serves; by rewrite Hgone). rewrite Hnone, andb_true_r.
    destruct (String.eqb_spec prov p) as [|Hne]; [done|]. rewrite (proj1 (proj2 Hs)), (serves_row _ _ _ _ Hrow). fold prov.
    by destruct (String.eqb_spec prov p).
  - rewrite andb_false_r, (proj1 (proj2 Hs)), (serves_others id d d2 p j Hoth) by done. symmetry. by apply serves_same.
Qed.

Lemma list_cred_outcome name s a s' : cred_consistent s ->
  listCredentials name s = (a, s') -> cred_outcome s.(cplane) a s'.
Proof.
  intros Hs [(e & d & _ & -> & ->)|(rows & d & Ht & [= <- <-])]%cred_stored_cases; [right; split; [done|by left]|].
  apply tx_bind_Ok in Ht as (rs & d1 & Ht & [= _ <-]). destruct (list_spec _ _ _ _ (proj1 Hs) Ht) as (Hsame & _).
  left. split; [done|]. split; [apply Hsame|]. split; [exact (plane_same _ _ _ (proj1 (proj2 Hs)) Hsame)|apply Hs].
Qed.

Lemma cred_request_outcome s a s' : cred_consistent s -> cred_request s a s' -> cred_outcome s.(cplane) a s'.
Proof.
  intros Hs Hr. destruct Hr.
  - by eapply create_cred_outcome.
  - by eapply update_cred_outcome.
  - by eapply delete_cred_outcome.
  - by eapply list_cred_outcome.
Qed.

Inductive cred_step : CredAdmin CDb PDb -> CredAdmin CDb PDb -> Prop :=
| cs_request s a s' : cred_request s a s' -> (a.1 < 400)%Z -> cred_step s s'.

Lemma candidates_find plane now key c : plane_ok plane ->
  c ∈ Plane_Candidates now plane key <->
  find_cred plane key.(KProvider) c.(CID) = Some c /\ usable now key.(ModelName) c = true.
Proof.
  intros Hok. destruct (plane_ok_bucket plane key.(KProvider) Hok) as [_ Hnd].
  assert (Hc : Plane_Candidates now plane key
    = List.filter (usable now key.(ModelName)) (Plane_Credentials plane key.(KProvider))) by (by destruct plane).
  rewrite Hc, list_elem_of_In, List.filter_In, <- list_elem_of_In. unfold find_cred.
  split; intros [Hin Hu]; (split; [|done]); [by apply find_in_unique|by apply find_in_elem in Hin as [? _]].
Qed.

(** A creation that succeeds. *)
Lemma created_serves commit uuid now order order' name body s a s' : cred_consistent s ->
  createCredential commit uuid now order order' name body s = (a, s') -> (a.1 < 400)%Z ->
  exists payload, body = Ok payload /\
    serves s'.(cdb) name uuid = Some (payload <| CProvider := name |> <| CID := uuid |> <| Enabled := true |>).
Proof.
  intros Hs. unfold createCredential. destruct body as [payload|msg]; [|by intros [= <- <-]].
  intros [(e & d & _ & -> & ->)|(row & d & Ht & Hg)]%cred_stored_cases Ha; [done|].
  destruct (CreateCredential_rows _ _ _ _ _ _ _ _ (proj1 Hs) Ht) as (Hoth & _ & (r & Hr & Hrow) & _ & Hcore).
  exists payload. split; [done|]. revert Hg. unfold go_live. cbn [cplane cdb].
  destruct (UpsertCredential order' (cplane s) (Credential_ToCore row)) as [plane|e]; [|by intros [= <- <-]].
  intros [(e & d2 & Hg & -> & ->)|(safe & d2 & Hg & [= <- <-])]%cred_stored_cases; [done|]. cbn [cdb] in *.
  rewrite (serves_same d d2) by exact (GetCredential_state _ _ _ _ (proj1 Hoth) Hg).
  rewrite (serves_row _ _ _ _ Hr), <- Hrow, Hcore. by rewrite String.eqb_refl.
Qed.

(** C16: From the start of the gateway on, through any sequence of administrative requests on
    credentials that are not answered with an error, requests are routed to exactly the
    credentials of the tables: a credential is a candidate for a model of a provider if and only
    if the tables hold it for that provider, with these very fields, and it is usable for the
    model at that moment.  A creation that is not answered with an error leaves the tables holding
    the credential of the request, enabled even when the request said otherwise (so that it is
    routed to).  A request answered with an error leaves the plane as it was, or still the image
    of the tables. *)
Theorem plane_follows_tables d s0 s now key c :
  cred_ok d -> boot d = Ok s0 -> star cred_step s0 s ->
  (c ∈ Plane_Candidates now s.(cplane) key <->
     serves s.(cdb) key.(KProvider) c.(CID) = Some c /\ usable now key.(ModelName) c = true) /\
  (forall commit uuid t order order' name body a s',
     createCredential commit uuid t order order' name body s = (a, s') -> (a.1 < 400)%Z ->
     exists payload, body = Ok payload /\
       serves s'.(cdb) name uuid = Some (payload <| CProvider := name |> <| CID := uuid |> <| Enabled := true |>)) /\
  (forall a s', cred_request s a s' -> (400 <= a.1)%Z ->
     s'.(cplane) = s.(cplane) \/ plane_is_table s'.(cdb) s'.(cplane)).
Proof.
  intros Hd Hboot Hstar. assert (Hs : cred_consistent s).
  { apply (star_inv cred_step cred_consistent s0 s); [|by eapply boot_consistent|done].
    clear. intros s s' Hs Hstep. destruct Hstep as [s a s' Hr Ha].
    destruct (cred_request_outcome s a s' Hs Hr) as [[_ Hc]|[Hge _]]; [done|lia]. }
  splits.
  - rewrite candidates_find by apply Hs. by rewrite (proj1 (proj2 Hs)).
  - intros *. by apply created_serves.
  - intros a s' Hr Ha. destruct (cred_request_outcome s a s' Hs Hr) as [[Hlt _]|[_ [?|Hc]]]; [lia|by left|right; apply Hc].
Qed.
End effects.

(** ** Two tables in memory *)

Abbreviation MemCredAdmin := (CredAdmin (MemTable StoreCredential) (MemTable StoreProvider)).

Definition cred_tables (f : list bool) : CredDb (MemTable StoreCredential) (MemTable StoreProvider) :=
  mkCredDb (mkMemTable ∅ f) (mkMemTable {["p1" := mkStoreProvider "p1" ProviderAzure false NetworkConfig0 None]} []).

Lemma cred_tables_ok f : cred_ok (cred_tables f).
Proof. split; cbn; intros i r; cbn [rows]; [by rewrite lookup_empty|]. by intros [<- <-]%lookup_singleton_Some. Qed.

(** A credential that is created is routed to; one that is disabled no longer is. *)
Lemma plane_follows_tables_witness :
  match boot (cred_tables []) with
  | Ok s0 =>
      let order := map_to_list azure_credential.(Aliases) in
      let '(a1, s1) := createCredential true "c1" 7 order order ProviderAzure (Ok azure_credential) s0 in
      let disable := mkUpdateCredentialRequest None None (Some false) None None None None None None in
      let '(a2, s2) := updateCredential true "x" 8 order order "c1" (Ok disable) s1 in
      let key := mkCatalogKey ProviderAzure "gpt-4o" ModelTypeChat in
      a1 = (StatusCreated, CView (shown azure_credential)) /\ a2.1 = StatusOK /\
      azure_credential ∈ Plane_Candidates 0 s1.(cplane) key /\ azure_credential ∉ Plane_Candidates 0 s2.(cplane) key
  | Err _ => False
  end.
Proof.
  destruct (boot (cred_tables [])) as [s0|e] eqn:Hb; [|vm_compute in Hb; done]. cbn zeta.
  set (order := map_to_list azure_credential.(Aliases)).
  destruct (createCredential true "c1" 7 order order ProviderAzure (Ok azure_credential) s0) as [a1 s1] eqn:H1.
  set (disable := mkUpdateCredentialRequest None None (Some false) None None None None None None).
  destruct (updateCredential true "x" 8 order order "c1" (Ok disable) s1) as [a2 s2] eqn:H2.
  pose proof Hb as Hb'. vm_compute in Hb'. injection Hb' as Hs0.
  pose proof H1 as H1'. rewrite <- Hs0 in H1'. vm_compute in H1'. injection H1' as Ha1 Hs1.
  pose proof H2 as H2'. rewrite <- Hs1 in H2'. vm_compute in H2'. injection H2' as Ha2 Hs2.
  assert (Hstep1 : cred_step s0 s1) by (eapply cs_request; [by eapply cq_create|by rewrite <- Ha1]).
  assert (Hstep2 : cred_step s1 s2) by (eapply cs_request; [by eapply cq_update|by rewrite <- Ha2]).
  splits; [rewrite <- Ha1; vm_compute; reflexivity|by rewrite <- Ha2| |].
  - apply (plane_follows_tables (cred_tables []) s0 s1 0 _ azure_credential (cred_tables_ok []) Hb).
    { eapply star_step; [exact Hstep1|apply star_refl]. }
    rewrite <- Hs1. vm_compute. split; reflexivity.
  - intros Hin. apply (plane_follows_tables (cred_tables []) s0 s2 0 _ azure_credential (cred_tables_ok []) Hb) in Hin as [Hserv _].
    + rewrite <- Hs2 in Hserv. vm_compute in Hserv. done.
    + eapply star_step; [exact Hstep1|]. eapply star_step; [exact Hstep2|apply star_refl].
Defined.

(** The default of the column turns a credential that is created disabled into one that requests
    are routed to. *)
Example created_disabled_is_live :
  match boot (cred_tables []) with
  | Ok s0 =>
      let cred := azure_credential <| Enabled := false |> in
      let order := map_to_list cred.(Aliases) in
      let '(a, s) := createCredential true "c1" 7 order order ProviderAzure (Ok cred) s0 in
      a.1 = StatusCreated /\
      map CID (Plane_Candidates 0 s.(cplane) (mkCatalogKey ProviderAzure "gpt-4o" ModelTypeChat)) = ["c1"]
  | Err _ => False
  end.
Proof. vm_compute. split; reflexivity. Qed.
