(* ===== verification/MetricsEvent.v ===== *)
(** * Metrics events ([internal/metrics-engine/events.go], [event-pool.go])

    The event a finished request leaves behind: its data, how it is filled from the context, the
    classification of the outcome, the timeline of the stages and the capture of payloads.  The
    clock and the UUID are arguments; JSON values are their text.  A Go panic is [None]. *)

From S2P Require Import Prelude GoBase Float64 Errors Catalog Money Pricing VirtualKey Credential Config Context Headers.
Local Open Scope Z_scope.

Definition SchemaVersion : Z := 1.
Definition KindLLM : string := "llm".

Definition ResultOK : string := "ok".
Definition ResultRejected : string := "rejected".
Definition ResultUpstreamError : string := "upstream_error".
Definition ResultGatewayError : string := "gateway_error".
Definition ResultClientAbort : string := "client_abort".

Definition PayloadNone : string := "none".
Definition PayloadReady : string := "ready".
Definition PayloadTruncated : string := "truncated".
Definition PayloadDropped : string := "dropped".

Record EventGovernance : Type := mkEventGovernance {
  GClientID : string; GVirtualKeyID : string; GBudgetID : string
}.

Record Outcome : Type := mkOutcome {
  OResult : string;
  OHTTPStatus : Z;
  OUpstreamHTTPStatus : Z;
  OErrorCode : string;
  OErrorCategory : string;
  OErrorMessage : string
}.

Record StageSpan : Type := mkStageSpan { SName : string; SStartUS : Z; SEndUS : Z; SDurationUS : Z }.

Record Timing : Type := mkTiming {
  TStart : Z;
  TTotalUS : Z;
  TTTFBUS : Z;
  TTTFTUS : Z;
  TStages : list StageSpan
}.

Record Attempt : Type := mkAttempt {
  AOffsetUS : Z; AElapsedUS : Z; AHTTPStatus : Z; AEnd : string; AError : string
}.

Record Routing : Type := mkRouting {
  RMode : VKMode;
  RCredentialID : string;
  RCredentialName : string;
  RAttemptCount : Z;
  RAttempts : list Attempt
}.

Record LLM : Type := mkLLM {
  LRequestedModel : string;
  LProvider : string;
  LModel : string;
  LUpstreamModel : string;
  LStream : bool;
  LParams : option string;
  LUsage : option Usage;
  LPricing : option Pricing;
  LFinishReason : string;
  LToolCalls : list string
}.

Record Payload : Type := mkPayload {
  PClientRequest : option string;
  PNormalizedRequest : option string;
  PProviderRequest : option string;
  PProviderResponse : option string;
  PNormalizedResponse : option string;
  PClientResponse : option string
}.

Record Event : Type := mkEvent {
  ESchemaVersion : Z;
  EID : string;
  EvRequestID : string;
  EKind : string;
  ERequestKind : option RequestKind;
  ERequestEndpoint : string;
  ECostNanoUSD : Z;
  EGovernance : option EventGovernance;
  EOutcome : option Outcome;
  ETiming : option Timing;
  ERouting : option Routing;
  ELLM : option LLM;
  EHeaders : option (gmap string string);
  EPayloadState : string;
  EPayload : option Payload
}.
#[export] Instance Event_eta : Eta Event := fun e =>
  mkEvent (ESchemaVersion e) (EID e) (EvRequestID e) (EKind e) (ERequestKind e) (ERequestEndpoint e) (ECostNanoUSD e)
    (EGovernance e) (EOutcome e) (ETiming e) (ERouting e) (ELLM e) (EHeaders e) (EPayloadState e) (EPayload e).

(** [Event{}], which [releaseEvent] puts back into the pool; a struct field that is not filled yet
    is [None]. *)
Definition Event0 : Event := mkEvent 0 "" "" "" None "" 0 None None None None None None "" None.

(** ** Outcome *)

Definition classify (rctx : DiffractLLMContext) : string :=
  if rctx.(StreamAborted) then ResultClientAbort
  else
    match rctx.(CError) with
    | None => if rctx.(RequestCompleted) then ResultOK else ResultGatewayError
    | Some e =>
        if IsClient e then ResultRejected
        else if IsProvider e then ResultUpstreamError
        else ResultGatewayError
    end.

Definition outcome_of (rctx : DiffractLLMContext) : Outcome :=
  let o := mkOutcome (classify rctx) rctx.(ResponseStatus) rctx.(UpstreamStatus) "" "" "" in
  match rctx.(CError) with
  | None => o
  | Some e => mkOutcome (classify rctx) rctx.(ResponseStatus) rctx.(UpstreamStatus) e.(Code) e.(ErrorCategory) e.(Message)
  end.

(** ** Timeline *)

(** [Duration.Microseconds]. *)
Definition Microseconds (d : Z) : Z := Z.quot d 1000.

Definition span (name : string) (start stop : Z) : StageSpan :=
  mkStageSpan name (Microseconds start) (Microseconds stop) (Microseconds (wrap64 (stop - start))).

(** The loop over the marks: the spans so far and the end of the last one. *)
Definition stage_step (acc : list StageSpan * Z) (mark : string * Z) : list StageSpan * Z :=
  if mark.2 =? 0 then acc else ((acc.1 ++ [span mark.1 acc.2 mark.2])%list, mark.2).

Definition stages (marks : list Z) (total : Z) : list StageSpan :=
  let '(out, prev) := foldl stage_step ([], 0) (zip StageNames marks) in
  match out with
  | [] => out
  | _ => if prev <? total then (out ++ [span "response" prev total])%list else out
  end.

(** ** Filling *)

Definition timing_of (now : Z) (rctx : DiffractLLMContext) : Timing :=
  let total := time_sub now rctx.(StartedAt) in
  mkTiming rctx.(StartedAt) (Microseconds total) (Microseconds rctx.(TTFB))
    (Microseconds (default 0 (rctx.(Marks) !! stage_index StageFirstToken))) (stages rctx.(Marks) total).

Definition routing_of (rctx : DiffractLLMContext) : option Routing :=
  match rctx.(SelectedCredential) with
  | None => None
  | Some cred =>
      Some (mkRouting (match rctx.(VirtualKeyPolicy) with Some vk => vk.(Mode) | None => 0 end)
              cred.(CID) cred.(CName) rctx.(UpstreamAttempts) [])
  end.

(** The captured headers are added to the map of the event. *)
Definition fill_headers (rctx : DiffractLLMContext) (headers : option (gmap string string)) : option (gmap string string) :=
  foldl (fun headers uh =>
    match Context_Get rctx uh.2 with
    | None => headers
    | Some v => Some (<[uh.1 := match v with AnyString s => s | AnyInt _ => "" end]> (default ∅ headers))
    end) headers UpstreamHeaders.

Definition llm_of (rctx : DiffractLLMContext) : LLM :=
  mkLLM rctx.(RequestedModel) rctx.(Modelkey).(KProvider) rctx.(Modelkey).(ModelName) rctx.(UpstreamModel)
    ((0 <? rctx.(StreamChunks)) || rctx.(StreamAborted) || negb (is_empty rctx.(StreamFinishReason)))
    None rctx.(Usage_) rctx.(Pricing_) rctx.(StreamFinishReason) [].

(** [e.fill(rctx)]: what is not assigned stays as it was in [e]. *)
Definition fill (uuid : string) (now : Z) (rctx : DiffractLLMContext) (e : Event) : Event :=
  let e := e <| ESchemaVersion := SchemaVersion |> <| EID := uuid |> <| EvRequestID := rctx.(RequestID) |>
             <| EKind := KindLLM |> <| ERequestKind := Some rctx.(RequestKind_) |>
             <| ERequestEndpoint := match rctx.(Request) with Some r => r.(RPath) | None => e.(ERequestEndpoint) end |>
             <| ECostNanoUSD := ToNanoUSD rctx.(Cost) |>
             <| EGovernance := Some (mkEventGovernance rctx.(ClientID) rctx.(VirtualKeyID) rctx.(BudgetRef)) |>
             <| EOutcome := Some (outcome_of rctx) |> <| ETiming := Some (timing_of now rctx) |> in
  e <| ERouting := match routing_of rctx with Some r => Some r | None => e.(ERouting) end |>
    <| EHeaders := fill_headers rctx e.(EHeaders) |> <| ELLM := Some (llm_of rctx) |>
    <| EPayloadState := PayloadNone |>.

(** ** Payloads *)

(** The bytes kept and whether they were cut; a negative bound of the slice panics. *)
Definition clip (b : option string) (limit : Z) : option (option string * bool) :=
  let s := default "" b in
  if (String.length s =? 0)%nat then Some (None, false)
  else if limit <? Z.of_nat (String.length s) then
    if limit <? 0 then None else Some (Some (String.substring 0 (Z.to_nat limit) s), true)
  else Some (Some s, false).

(** Whether the configuration asks for the payload of an event with this result. *)
Definition captures (mode result : string) : bool :=
  if String.eqb mode PayloadModeFull then true
  else if String.eqb mode PayloadModeErrorsOnly
  then negb (String.eqb result ResultOK || String.eqb result ResultClientAbort)
  else false.

Definition capturePayload (config : MetricsEngineConfig) (rctx : DiffractLLMContext) (e : Event) : option Event :=
  if negb (captures config.(PayloadMode) (match e.(EOutcome) with Some o => o.(OResult) | None => "" end)) then Some e
  else
    let limit := wrap64 (config.(PayloadMaxKB) * 1024) in
    '(req, reqCut) ← clip rctx.(BodyBytes) limit;
    '(res, resCut) ← clip rctx.(ResponseBody) limit;
    match req, res with
    | None, None => Some e
    | _, _ =>
        Some (e <| EPayload := Some (mkPayload req None None None None res) |>
                <| EPayloadState := if reqCut || resCut then PayloadTruncated else PayloadReady |>)
    end.

(** What [AddEvent] stores for a request: the event filled into a cleared one, with its payload. *)
Definition event_of (config : MetricsEngineConfig) (uuid : string) (now : Z) (rctx : DiffractLLMContext) : option Event :=
  capturePayload config rctx (fill uuid now rctx Event0).

(** ** Properties *)

Lemma stage_steps_spec marks out prev :
  let acc := foldl stage_step (out, prev) marks in
  exists tail, acc.1 = (out ++ tail)%list /\
    (forall i s t, tail !! i = Some s -> tail !! (S i) = Some t -> t.(SStartUS) = s.(SEndUS)) /\
    match tail with
    | [] => acc.2 = prev
    | s :: _ => s.(SStartUS) = Microseconds prev /\ SEndUS <$> last tail = Some (Microseconds acc.2)
    end /\
    map SName tail = map fst (List.filter (fun m => negb (m.2 =? 0)) marks).
Proof.
  cbn zeta in *. revert out prev. induction marks as [|[name m] marks IH]; intros out prev; cbn [foldl List.filter].
  { exists []. by rewrite app_nil_r. }
  change (stage_step (out, prev) (name, m)) with
    (if m =? 0 then (out, prev) else ((out ++ [span name prev m])%list, m)). cbn [fst snd]. destruct (Z.eqb_spec m 0) as [->|Hm]; cbn [negb].
  { exact (IH out prev). }
  destruct (IH (out ++ [span name prev m])%list m) as (tail & Hout & Hlink & Hends & Hnames). cbn zeta in *.
  exists (span name prev m :: tail). splits.
  - by rewrite Hout, <- app_assoc.
  - intros [|i] s t; cbn [lookup list_lookup]; [|by apply Hlink]. intros [= <-] Ht.
    destruct tail as [|s' tail]; [done|]. cbn in Ht. injection Ht as <-. by destruct Hends as [-> _].
  - done.
  - destruct tail as [|s' tail]; [by rewrite Hends|]. by destruct Hends as [_ Hl].
  - cbn [map fst]. by rewrite Hnames.
Qed.

(** The timeline: one span per stage that was reached, in order, each starting where the one before
    it ended, from the arrival of the request on; the time after the last mark, if there is any, is
    the span of the response. *)
Lemma stages_contiguous marks total :
  let l := stages marks total in
  (forall i s t, l !! i = Some s -> l !! (S i) = Some t -> t.(SStartUS) = s.(SEndUS)) /\
  (forall s, l !! 0%nat = Some s -> s.(SStartUS) = 0) /\
  (exists rest, map SName l = (map fst (List.filter (fun m => negb (m.2 =? 0)%Z) (zip StageNames marks)) ++ rest)%list /\
     (rest = [] \/ (rest = ["response"] /\ SEndUS <$> last l = Some (Microseconds total)))).
Proof.
  cbn zeta. unfold stages. destruct (stage_steps_spec (zip StageNames marks) [] 0) as (tail & Hout & Hlink & Hends & Hnames).
  cbn zeta in *. destruct (foldl stage_step ([], 0) _) as [out prev]. cbn [fst snd app] in *. subst out.
  destruct tail as [|s tail]; [splits; [done|done|]; exists []; rewrite app_nil_r; auto|].
  destruct Hends as [Hstart Hlast]. destruct (prev <? total); [|splits; [done|by intros ? [= <-]|]; exists []; rewrite app_nil_r; auto].
  splits.
  - intros i x y Hx Hy. destruct (decide (S i < List.length (s :: tail))%nat) as [Hi|Hi].
    + rewrite lookup_app_l in Hx, Hy by lia. by eapply Hlink.
    + assert (HSi : S i = List.length (s :: tail)).
      { apply lookup_lt_Some in Hy. rewrite length_app in Hy. cbn in Hy. cbn in *. lia. }
      rewrite HSi, lookup_app_r, Nat.sub_diag in Hy by lia. cbn in Hy. injection Hy as <-.
      rewrite lookup_app_l in Hx by lia. rewrite last_lookup, <- HSi in Hlast. cbn [Nat.pred] in Hlast.
      rewrite Hx in Hlast. by injection Hlast as ->.
  - intros x. cbn. by intros [= <-].
  - exists ["response"]. rewrite map_app, Hnames, last_snoc. auto.
Qed.
