(* ===== verification/MetricsEngine.v ===== *)
(** * The metrics engine ([internal/metrics-engine/EventsBuffer.go], [metrics-engine.go])

    Requests put their events, taken from a pool, into a bounded buffer; a job drains it and writes
    the batch to the store, which it retries and in the end gives up.  Events are pointers that are
    recycled, so they are references into a heap here, and the run is a step relation: any number
    of requests and the one flush interleave at their locked sections.  The store is an interface:
    a write is all or nothing. *)

From S2P Require Import Prelude GoBase Float64 Errors Catalog Money Pricing VirtualKey Credential Config Context Headers MetricsEvent.
Local Open Scope Z_scope.

(** ** The store *)

Class EventStore (Db Row : Type) := {
  (** The rows a table ([true] the payloads) gets for an event. *)
  event_rows : bool -> Event -> list Row;
  stored_rows : Db -> bool -> list Row;
  Write : list Event -> Db -> result string () * Db
}.
Class EventStoreLaws (Db Row : Type) `{EventStore Db Row} := {
  write_ok es d d' : Write es d = (Ok (), d') ->
    forall t, stored_rows d' t = (stored_rows d t ++ concat (map (event_rows t) es))%list;
  write_err es d e d' : Write es d = (Err e, d') -> forall t, stored_rows d' t = stored_rows d t
}.

(** ** The buffer *)

Definition DefaultEventsBufferCapacity : Z := 5000.
Definition maxWriteAttempts : Z := 3.

Definition ref := nat.

Record EventsBuffer : Type := mkEventsBuffer { events : list ref; ecapacity : Z; edropped : Z }.
#[export] Instance EventsBuffer_eta : Eta EventsBuffer := fun b => mkEventsBuffer (events b) (ecapacity b) (edropped b).

Definition NewEventsBuffer (maxCapacity : Z) : EventsBuffer :=
  mkEventsBuffer [] (if maxCapacity <=? 0 then DefaultEventsBufferCapacity else maxCapacity) 0.

Definition Events_Append (e : ref) (b : EventsBuffer) : bool * EventsBuffer :=
  if b.(ecapacity) <=? Z.of_nat (List.length b.(events)) then (false, b <| edropped := add64 b.(edropped) 1 |>)
  else (true, b <| events ::= fun l => (l ++ [e])%list |>).

Definition Events_Drain (b : EventsBuffer) : list ref * EventsBuffer := (b.(events), b <| events := [] |>).

(** ** The engine *)

Section engine.
Context {Db Row : Type} `{EventStore Db Row}.
Variable config : MetricsEngineConfig.

(** [pool] are the references of the event pool, [adding] those a request goroutine has taken,
    [writing] the batch the flush is writing.  [accepted] and [batches] record the history: the
    events that found a place in the buffer, and the batches the flush is done with, each with
    whether it was written. *)
Record Engine : Type := mkEngine {
  heap : gmap ref Event;
  pool : list ref;
  adding : list ref;
  buffer : EventsBuffer;
  writing : option (list ref);
  retry : list ref;
  attempts : Z;
  lost : Z;
  store : Db;
  accepted : list Event;
  batches : list (bool * list Event)
}.
#[export] Instance Engine_eta : Eta Engine := fun m =>
  mkEngine (heap m) (pool m) (adding m) (buffer m) (writing m) (retry m) (attempts m) (lost m) (store m)
    (accepted m) (batches m).

Definition NewMetricsEngine (d : Db) : Engine :=
  mkEngine ∅ [] [] (NewEventsBuffer config.(BufferCapacity)) None [] 0 0 d [] [].

(** The event behind a reference. *)
Definition deref_event (h : gmap ref Event) (r : ref) : Event := default Event0 (h !! r).

(** [releaseEvent]: the event is cleared and back in the pool. *)
Definition releaseEvent (r : ref) (m : Engine) : Engine :=
  m <| heap ::= <[r := Event0]> |> <| pool ::= cons r |>.
Definition releaseAll (rs : list ref) (m : Engine) : Engine := foldl (fun m r => releaseEvent r m) m rs.

(** The end of a write of the batch [es]. *)
Definition write_done (es : list ref) (res : result string ()) (d : Db) (m : Engine) : Engine :=
  let contents := map (deref_event m.(heap)) es in
  let m := m <| writing := None |> <| store := d |> in
  match res with
  | Ok _ => releaseAll es (m <| attempts := 0 |> <| batches ::= fun l => (l ++ [(true, contents)])%list |>)
  | Err _ =>
      if m.(attempts) + 1 <? maxWriteAttempts then m <| attempts ::= Z.add 1 |> <| retry := es |>
      else
        releaseAll es (m <| attempts := 0 |> <| lost ::= fun n => add64 n (Z.of_nat (List.length es)) |>
          <| batches ::= fun l => (l ++ [(false, contents)])%list |>)
  end.

Inductive engine_step : Engine -> Engine -> Prop :=
(** [acquireEvent], from the pool or a new one, filled with the request of the goroutine;
    a request that never started leaves no event. *)
| es_acquire m r uuid now rctx e pool' :
    rctx.(StartedAt) <> zero_time ->
    (m.(pool) ≡ₚ r :: pool' \/ (m.(heap) !! r = None /\ pool' = m.(pool))) ->
    capturePayload config rctx (fill uuid now rctx (deref_event m.(heap) r)) = Some e ->
    engine_step m (m <| heap ::= <[r := e]> |> <| pool := pool' |> <| adding ::= cons r |>)
(** [b.Append(e)], and the release of an event that found no place. *)
| es_append m r adding' ok b :
    m.(adding) ≡ₚ r :: adding' -> Events_Append r m.(buffer) = (ok, b) ->
    engine_step m
      (if ok then m <| adding := adding' |> <| buffer := b |>
                    <| accepted ::= fun l => (l ++ [deref_event m.(heap) r])%list |>
       else releaseEvent r (m <| adding := adding' |> <| buffer := b |>))
(** The flush takes the batch to retry and what has come in since. *)
| es_drain m drained b :
    m.(writing) = None -> Events_Drain m.(buffer) = (drained, b) ->
    let es := (m.(retry) ++ drained)%list in
    engine_step m (m <| retry := [] |> <| buffer := b |> <| writing := if (List.length es =? 0)%nat then None else Some es |>)
| es_write m es res d :
    m.(writing) = Some es -> Write (map (deref_event m.(heap)) es) m.(store) = (res, d) ->
    engine_step m (write_done es res d m).

(** ** The invariant *)

(** The references between the requests and the store, in the order they were accepted. *)
Definition in_flight (m : Engine) : list ref := (default [] m.(writing) ++ m.(retry) ++ m.(buffer).(events))%list.

(** Every reference has one owner, and what is in the pool is cleared. *)
Record owned (m : Engine) : Prop := mkOwned {
  ow_one : NoDup (m.(pool) ++ m.(adding) ++ in_flight m)%list;
  ow_alloc r : r ∈ (m.(pool) ++ m.(adding) ++ in_flight m)%list -> is_Some (m.(heap) !! r);
  ow_clear r : r ∈ m.(pool) -> m.(heap) !! r = Some Event0
}.

(** What a request can leave behind. *)
Definition made (e : Event) : Prop := exists uuid now rctx, event_of config uuid now rctx = Some e.

Record engine_inv (d0 : Db) (m : Engine) : Prop := mkEngineInv {
  ei_owned : owned m;
  ei_made r : r ∈ m.(adding) -> made (deref_event m.(heap) r);
  ei_accepted : m.(accepted) = (concat (map snd m.(batches)) ++ map (deref_event m.(heap)) (in_flight m))%list;
  ei_from : Forall made m.(accepted);
  ei_stored t : stored_rows m.(store) t =
    (stored_rows d0 t ++ concat (map (event_rows t) (concat (map snd (List.filter fst m.(batches))))))%list;
  ei_lost : m.(lost) = wrap64 (Z.of_nat (List.length (concat (map snd (List.filter (fun b => negb b.1) m.(batches))))));
  ei_capacity : Z.of_nat (List.length m.(buffer).(events)) <= m.(buffer).(ecapacity) /\ 0 < m.(buffer).(ecapacity);
  ei_attempts : 0 <= m.(attempts) < maxWriteAttempts;
  ei_single : is_Some m.(writing) -> m.(retry) = []
}.

(** ** Releases *)

Lemma releaseAll_spec rs m : exists h p,
  releaseAll rs m = m <| heap := h |> <| pool := p |> /\ p ≡ₚ (rs ++ m.(pool))%list /\
  forall r, h !! r = if decide (r ∈ rs) then Some Event0 else m.(heap) !! r.
Proof.
  revert m. induction rs as [|r rs IH]; intros m.
  - exists m.(heap), m.(pool). splits; [by destruct m|done|]. intros r. rewrite decide_False by (apply not_elem_of_nil). done.
  - destruct (IH (releaseEvent r m)) as (h & p & Heq & Hp & Hh). exists h, p. cbn [releaseAll foldl].
    fold (releaseAll rs (releaseEvent r m)). splits; [by rewrite Heq; destruct m| |].
    + rewrite Hp. destruct m. cbn. by rewrite Permutation_middle.
    + intros q. rewrite Hh. change (heap (releaseEvent r m)) with (<[r := Event0]> m.(heap)).
      rewrite lookup_insert. repeat case_decide; try done; subst; set_solver.
Qed.

Lemma deref_same (h h' : gmap ref Event) l : (forall r, r ∈ l -> h' !! r = h !! r) ->
  map (deref_event h') l = map (deref_event h) l.
Proof.
  intros Hl. apply map_ext_in. intros r Hr. unfold deref_event. by rewrite Hl by by apply list_elem_of_In.
Qed.

(** ** Ownership *)

(** The references a state owns. *)
Definition refs (m : Engine) : list ref := (m.(pool) ++ m.(adding) ++ in_flight m)%list.

Lemma owned_perm m m' : owned m -> refs m' ≡ₚ refs m ->
  (forall r, r ∈ refs m -> is_Some (m'.(heap) !! r)) -> (forall r, r ∈ m'.(pool) -> m'.(heap) !! r = Some Event0) -> owned m'.
Proof.
  intros [H1 H2 H3] Hp Ha Hc. constructor.
  - fold (refs m'). by rewrite Hp.
  - intros r. fold (refs m'). rewrite Hp. apply Ha.
  - done.
Qed.

Lemma owned_disjoint m r : owned m -> r ∈ m.(pool) \/ r ∈ m.(adding) -> r ∉ in_flight m.
Proof.
  intros [H1 _ _]. apply NoDup_app in H1 as (_ & Hp & H1). apply NoDup_app in H1 as (_ & Ha & _).
  intros [Hr|Hr] Hf; [apply (Hp r Hr)|by apply (Ha r Hr)]. rewrite elem_of_app. by right.
Qed.

Lemma owned_pool_adding m r : owned m -> r ∈ m.(pool) -> r ∉ m.(adding).
Proof. intros [H1 _ _]. apply NoDup_app in H1 as (_ & Hp & _). intros Hr Hf. apply (Hp r Hr). rewrite elem_of_app. by left. Qed.

(** ** The steps keep the invariant *)

Lemma acquire_inv d0 m r uuid now rctx e pool' : engine_inv d0 m ->
  (m.(pool) ≡ₚ r :: pool' \/ (m.(heap) !! r = None /\ pool' = m.(pool))) ->
  capturePayload config rctx (fill uuid now rctx (deref_event m.(heap) r)) = Some e ->
  engine_inv d0 (m <| heap ::= <[r := e]> |> <| pool := pool' |> <| adding ::= cons r |>).
Proof.
  intros Hi Hr He. pose proof (ei_owned _ _ Hi) as Ho. set (m' := m <| heap ::= _ |> <| pool := _ |> <| adding ::= _ |>).
  assert (Hheap : heap m' = <[r := e]> (heap m)) by reflexivity.
  assert (Hfl : in_flight m' = in_flight m) by reflexivity.
  assert (Hclean : deref_event (heap m) r = Event0).
  { unfold deref_event. destruct Hr as [Hp|[-> _]]; [|done]. rewrite (ow_clear m Ho r); [done|]. rewrite Hp. by left. }
  assert (Hnew : r ∉ in_flight m /\ r ∉ adding m).
  { destruct Hr as [Hp|[Hn _]].
    - assert (Hin : r ∈ pool m) by (rewrite Hp; by left).
      split; [by apply owned_disjoint; [|left]|by apply owned_pool_adding].
    - split; intros Hin; destruct (ow_alloc m Ho r) as [x Hx]; rewrite ?elem_of_app; auto; congruence. }
  assert (Hother : forall q, q <> r -> heap m' !! q = heap m !! q) by (intros q Hq; by rewrite Hheap, lookup_insert_ne).
  assert (Hderef : map (deref_event (heap m')) (in_flight m) = map (deref_event (heap m)) (in_flight m)).
  { apply deref_same. intros q Hq. apply Hother. intros ->. exact (proj1 Hnew Hq). }
  constructor; rewrite ?Hfl, ?Hderef; try apply Hi.
  - constructor; rewrite ?Hfl.
    + change (NoDup (pool' ++ (r :: adding m) ++ in_flight m)%list). pose proof (ow_one m Ho) as Hnd.
      destruct Hr as [Hp|[Hn ->]].
      * revert Hnd. rewrite Hp. by rewrite <- app_comm_cons, Permutation_middle, app_assoc, <- app_assoc.
      * rewrite <- app_comm_cons, <- Permutation_middle. apply NoDup_cons. split; [|done]. intros Hin.
        destruct (ow_alloc m Ho r Hin) as [x Hx]. congruence.
    + intros q Hq. rewrite Hheap. destruct (decide (q = r)) as [->|Hne]; [rewrite lookup_insert_eq; by eexists|].
      rewrite lookup_insert_ne by done. apply (ow_alloc m Ho).
      change (q ∈ (pool' ++ (r :: adding m) ++ in_flight m)%list) in Hq.
      destruct Hr as [Hp|[Hn ->]]; [rewrite Hp|]; set_solver.
    + intros q Hq. change (pool m') with pool' in Hq. rewrite Hother.
      * apply (ow_clear m Ho). destruct Hr as [Hp|[Hn ->]]; [rewrite Hp; by right|done].
      * intros ->. destruct Hr as [Hp|[Hn ->]].
        -- pose proof (ow_one m Ho) as Hnd. rewrite Hp in Hnd. by apply NoDup_app in Hnd as ([Hni _]%NoDup_cons & _).
        -- rewrite (ow_clear m Ho r Hq) in Hn. done.
  - intros q Hq. change (adding m') with (r :: adding m) in Hq. rewrite Hheap. unfold deref_event.
    apply elem_of_cons in Hq as [->|Hq].
    + rewrite lookup_insert_eq. exists uuid, now, rctx. unfold event_of. by rewrite <- Hclean.
    + rewrite lookup_insert_ne by (intros ->; exact (proj2 Hnew Hq)). by apply (ei_made _ _ Hi).
Qed.

(** The events between the requests and the store read the same after a step that leaves their
    references alone. *)
Lemma flight_same m m' l : (forall r, r ∈ l -> heap m' !! r = heap m !! r) ->
  in_flight m' = l -> map (deref_event (heap m')) (in_flight m') = map (deref_event (heap m)) l.
Proof. intros Hl ->. by apply deref_same. Qed.

Lemma release_owned m rs h p m' : owned m -> heap m' = h -> pool m' = p ->
  p ≡ₚ (rs ++ pool m)%list -> (forall r, h !! r = if decide (r ∈ rs) then Some Event0 else heap m !! r) ->
  (rs ++ adding m' ++ in_flight m')%list ≡ₚ (adding m ++ in_flight m)%list -> owned m'.
Proof.
  intros Ho Hh Hp Hperm Hlook Hrest.
  assert (Hrefs : refs m' ≡ₚ refs m).
  { unfold refs. rewrite Hp, Hperm, <- Hrest. rewrite <- app_assoc. apply Permutation_app_swap_app. }
  apply (owned_perm m); [done|done| |].
  - intros r Hr. rewrite Hh, Hlook. case_decide; [by eexists|]. by apply (ow_alloc m Ho).
  - intros r Hr. rewrite Hh, Hlook. case_decide; [done|]. apply (ow_clear m Ho).
    rewrite Hp, Hperm in Hr. apply elem_of_app in Hr as [Hr|Hr]; done.
Qed.

Lemma append_inv d0 m r adding' ok b : engine_inv d0 m ->
  m.(adding) ≡ₚ r :: adding' -> Events_Append r m.(buffer) = (ok, b) ->
  engine_inv d0
    (if ok then m <| adding := adding' |> <| buffer := b |>
                  <| accepted ::= fun l => (l ++ [deref_event m.(heap) r])%list |>
     else releaseEvent r (m <| adding := adding' |> <| buffer := b |>)).
Proof.
  intros Hi Had Happ. pose proof (ei_owned _ _ Hi) as Ho. unfold Events_Append in Happ.
  assert (Hin : r ∈ adding m) by (rewrite Had; by left).
  assert (Hrest : forall q, q ∈ adding' -> q ∈ adding m) by (intros q Hq; rewrite Had; by right).
  assert (Hnf : r ∉ in_flight m) by (apply owned_disjoint; auto).
  assert (Hna : r ∉ adding').
  { pose proof (ow_one m Ho) as Hnd. apply NoDup_app in Hnd as (_ & _ & Hnd). apply NoDup_app in Hnd as (Hnd & _ & _).
    rewrite Had in Hnd. by apply NoDup_cons in Hnd as [Hnd _]. }
  destruct (Z.leb_spec (ecapacity (buffer m)) (Z.of_nat (List.length (events (buffer m))))) as [Hfull|Hroom];
    injection Happ as <- <-; cbn iota.
  - set (m' := releaseEvent _ _).
    assert (Hfl : in_flight m' = in_flight m) by reflexivity.
    assert (Hheap : heap m' = <[r := Event0]> (heap m)) by reflexivity.
    assert (Hderef : map (deref_event (heap m')) (in_flight m) = map (deref_event (heap m)) (in_flight m)).
    { apply deref_same. intros q Hq. rewrite Hheap. apply lookup_insert_ne. intros ->. exact (Hnf Hq). }
    constructor; rewrite ?Hfl, ?Hderef; try apply Hi.
    + apply (release_owned m [r] (heap m') (pool m')); try done.
      * intros q. rewrite Hheap, lookup_insert. repeat case_decide; try done; set_solver.
      * rewrite Hfl. change (adding m') with adding'. by rewrite Had.
    + intros q Hq. rewrite Hheap. change (adding m') with adding' in Hq. unfold deref_event.
      rewrite lookup_insert_ne by (intros ->; exact (Hna Hq)). apply (ei_made _ _ Hi). auto.
  - set (m' := m <| adding := _ |> <| buffer := _ |> <| accepted ::= _ |>).
    assert (Hfl : in_flight m' = (in_flight m ++ [r])%list).
    { unfold in_flight, m'. cbn. by rewrite <- !app_assoc. }
    constructor; rewrite ?Hfl; try apply Hi.
    + apply (owned_perm m); [done| |apply (ow_alloc m Ho)|apply (ow_clear m Ho)].
      unfold refs. rewrite Hfl. change (pool m') with (pool m). change (adding m') with adding'. rewrite Had.
      apply Permutation_app_head. by rewrite (app_assoc adding'), Permutation_app_comm.
    + intros q Hq. apply (ei_made _ _ Hi). auto.
    + change (accepted m') with (accepted m ++ [deref_event (heap m) r])%list. rewrite (ei_accepted _ _ Hi), map_app, app_assoc. done.
    + change (accepted m') with (accepted m ++ [deref_event (heap m) r])%list. apply Forall_app. split; [apply Hi|].
      constructor; [|done]. by apply (ei_made _ _ Hi).
    + change (Z.of_nat (List.length (events (buffer m) ++ [r])) <= ecapacity (buffer m) /\ 0 < ecapacity (buffer m)).
      rewrite length_app. pose proof (ei_capacity _ _ Hi). cbn [List.length]. lia.
Qed.

Lemma drain_inv d0 m drained b : engine_inv d0 m ->
  m.(writing) = None -> Events_Drain m.(buffer) = (drained, b) ->
  let es := (m.(retry) ++ drained)%list in
  engine_inv d0 (m <| retry := [] |> <| buffer := b |> <| writing := if (List.length es =? 0)%nat then None else Some es |>).
Proof.
  intros Hi Hw [= <- <-]. cbn zeta. pose proof (ei_owned _ _ Hi) as Ho. set (m' := m <| retry := _ |> <| buffer := _ |> <| writing := _ |>).
  assert (Hfl : in_flight m' = in_flight m).
  { unfold in_flight, m'. cbn. rewrite Hw. cbn. rewrite !app_nil_r. by destruct (retry m ++ events (buffer m))%list. }
  constructor; rewrite ?Hfl; try apply Hi.
  - apply (owned_perm m); [done| |apply (ow_alloc m Ho)|apply (ow_clear m Ho)]. unfold refs. by rewrite Hfl.
  - split; [|apply Hi]. cbn. pose proof (ei_capacity _ _ Hi). lia.
  - done.
Qed.

(** A batch that is done with, written or given up. *)
Lemma settled_inv d0 m m1 es w : engine_inv d0 m -> m.(writing) = Some es ->
  heap m1 = heap m -> pool m1 = pool m -> adding m1 = adding m -> buffer m1 = buffer m -> writing m1 = None ->
  retry m1 = retry m -> attempts m1 = 0 -> accepted m1 = accepted m ->
  let contents := map (deref_event (heap m)) es in
  batches m1 = (batches m ++ [(w, contents)])%list ->
  lost m1 = (if w then lost m else add64 (lost m) (Z.of_nat (List.length es))) ->
  (forall t, stored_rows (store m1) t =
     (stored_rows (store m) t ++ if w then concat (map (event_rows t) contents) else [])%list) ->
  engine_inv d0 (releaseAll es m1).
Proof.
  intros Hi Hw Hh Hp Ha Hb Hw1 Hr Hat Hac contents Hbat Hlost Hst. pose proof (ei_owned _ _ Hi) as Ho.
  assert (Hr0 : retry m = []) by (apply (ei_single _ _ Hi); by rewrite Hw).
  assert (Hfl0 : in_flight m = (es ++ events (buffer m))%list) by (unfold in_flight; by rewrite Hw, Hr0).
  pose proof (ow_one m Ho) as Hnd. rewrite Hfl0 in Hnd. apply NoDup_app in Hnd as (_ & _ & Hnd).
  apply NoDup_app in Hnd as (_ & Hda & Hnd). apply NoDup_app in Hnd as (_ & Hde & _).
  destruct (releaseAll_spec es m1) as (h & p & -> & Hperm & Hlook). rewrite Hp in Hperm. rewrite Hh in Hlook. set (m' := m1 <| heap := h |> <| pool := p |>).
  assert (Hfl : in_flight m' = events (buffer m)).
  { change (in_flight m') with (in_flight m1). unfold in_flight. by rewrite Hw1, Hr, Hr0, Hb. }
  assert (Hkeep : forall r, r ∉ es -> h !! r = heap m !! r) by (intros r Hn; by rewrite Hlook, decide_False).
  assert (Hderef : map (deref_event h) (events (buffer m)) = map (deref_event (heap m)) (events (buffer m))).
  { apply deref_same. intros r Hin. apply Hkeep. intros Hes. exact (Hde r Hes Hin). }
  assert (Hev : accepted m = (concat (map snd (batches m)) ++ contents ++ map (deref_event (heap m)) (events (buffer m)))%list).
  { rewrite (ei_accepted _ _ Hi), Hfl0, map_app. done. }
  constructor; rewrite ?Hfl.
  - apply (release_owned m es h p); try done. rewrite Hfl, Hfl0. change (adding m') with (adding m1). rewrite Ha.
    apply Permutation_app_swap_app.
  - intros r Hin. change (adding m') with (adding m1) in Hin. rewrite Ha in Hin. unfold deref_event. change (heap m') with h.
    rewrite Hkeep; [by apply (ei_made _ _ Hi)|]. intros Hes. apply (Hda r Hin). apply elem_of_app. by left.
  - change (accepted m1 = (concat (map snd (batches m1)) ++ map (deref_event h) (events (buffer m)))%list).
    by rewrite Hac, Hev, Hbat, Hderef, map_app, concat_app, <- app_assoc; cbn; rewrite app_nil_r.
  - change (Forall made (accepted m1)). rewrite Hac. apply Hi.
  - intros t. change (store m') with (store m1). change (batches m') with (batches m1).
    rewrite Hst, (ei_stored _ _ Hi), Hbat, List.filter_app, map_app, concat_app, map_app, concat_app, <- app_assoc.
    destruct w; cbn; by rewrite ?app_nil_r.
  - change (lost m') with (lost m1). change (batches m') with (batches m1).
    rewrite Hlost, (ei_lost _ _ Hi), Hbat, List.filter_app, map_app, concat_app, length_app.
    destruct w; cbn; rewrite ?app_nil_r; [by rewrite Nat.add_0_r|]. unfold contents, add64. rewrite length_map, wrap64_add_l. f_equal. lia.
  - change (buffer m') with (buffer m1). rewrite Hb. apply Hi.
  - change (attempts m') with (attempts m1). rewrite Hat. by unfold maxWriteAttempts.
  - change (writing m') with (writing m1). rewrite Hw1. by intros [? ?].
Qed.

Lemma write_inv `{!EventStoreLaws Db Row} d0 m es res d : engine_inv d0 m ->
  m.(writing) = Some es -> Write (map (deref_event m.(heap)) es) m.(store) = (res, d) ->
  engine_inv d0 (write_done es res d m).
Proof.
  intros Hi Hw Hwr. unfold write_done. destruct res as [[]|e]; cbn zeta iota.
  - apply (settled_inv d0 m _ es true); try done. by eapply write_ok.
  - pose proof (write_err _ _ _ _ Hwr) as Hst. pose proof (ei_attempts _ _ Hi) as Hat. change (attempts (_ <| store := d |>)) with (attempts m).
    destruct (Z.ltb_spec (attempts m + 1) maxWriteAttempts) as [Hlt|Hge].
    + assert (Hr0 : retry m = []) by (apply (ei_single _ _ Hi); by rewrite Hw).
      set (m' := _ <| retry := es |>).
      assert (Hfl : in_flight m' = in_flight m) by (unfold in_flight, m'; cbn; by rewrite Hw, Hr0).
      constructor; rewrite ?Hfl; try apply Hi.
      * apply (owned_perm m); [apply Hi|unfold refs; by rewrite Hfl|apply (ow_alloc m), Hi|apply (ow_clear m), Hi].
      * intros t. change (store m') with d. rewrite Hst. apply Hi.
      * change (0 <= 1 + attempts m < maxWriteAttempts). lia.
      * by intros [? ?].
    + apply (settled_inv d0 m _ es false); try done. intros t. rewrite app_nil_r. apply Hst.
Qed.

Lemma step_inv `{!EventStoreLaws Db Row} d0 m m' : engine_inv d0 m -> engine_step m m' -> engine_inv d0 m'.
Proof. 
  intros Hi Hs. destruct Hs as [m r uuid now rctx e pool' Hst Hr He|m r adding' ok b Ha Happ|m drained b Hw Hd|m es res d Hw Hwr];
    [by eapply acquire_inv|by eapply append_inv|by eapply drain_inv|by eapply write_inv].
Qed.

Lemma new_inv d : engine_inv d (NewMetricsEngine d).
Proof.
  constructor; cbn; try done.
  - constructor; cbn; [constructor|intros r []%not_elem_of_nil|intros r []%not_elem_of_nil].
  - intros r []%not_elem_of_nil.
  - intros t. by rewrite app_nil_r.
  - destruct (Z.leb_spec (BufferCapacity config) 0); unfold DefaultEventsBufferCapacity; lia.
Qed.

(** ** Properties *)

(** C27: whatever the interleaving of the requests with the flush, no event is lost unseen,
    written twice or mixed with another: the events that found a place are, in their order, those of
    the batches the flush is done with and those still in flight, the tables hold exactly the rows of
    the batches that were written, the counter (an [int64]) says how many the flush gave up, each event is what
    one request left behind although the records are recycled, and the buffer stays in its bound. *)
Theorem events_conserved `{!EventStoreLaws Db Row} d m : rtc engine_step (NewMetricsEngine d) m ->
  m.(accepted) = (concat (map snd m.(batches)) ++ map (deref_event m.(heap)) (in_flight m))%list /\
  Forall made m.(accepted) /\
  (forall t, stored_rows m.(store) t =
    (stored_rows d t ++ concat (map (event_rows t) (concat (map snd (List.filter fst m.(batches))))))%list) /\
  m.(lost) = wrap64 (Z.of_nat (List.length (concat (map snd (List.filter (fun b => negb b.1) m.(batches)))))) /\
  NoDup (m.(pool) ++ m.(adding) ++ in_flight m)%list /\
  Z.of_nat (List.length m.(buffer).(events)) <= m.(buffer).(ecapacity) /\
  0 <= m.(attempts) < maxWriteAttempts.
Proof.
  intros Hrun. assert (Hi : engine_inv d m).
  { eapply (rtc_ind_l (fun m0 => engine_inv d m0 -> engine_inv d m)); [done| |exact Hrun|apply new_inv].
    intros m0 m1 Hs _ IH H0. apply IH. by eapply step_inv. }
  destruct Hi as [Ho Hm Ha Hf Hs Hl Hc Hat Hsg]. splits; try done; try apply Ho; try apply Hc; lia.
Qed.
End engine.

(** *** Witness: two requests around one flush *)

#[local] Instance toy_store : EventStore (list Event) Event := {|
  event_rows t e := if t then [] else [e];
  stored_rows d t := if t then [] else d;
  Write es d := (Ok (), (d ++ es)%list)
|}.
#[local] Instance toy_store_laws : EventStoreLaws (list Event) Event.
Proof.
  split; [|done]. intros es d d' Hw t. injection Hw as <-. destruct t; cbn.
  - induction es; [done|]. by cbn.
  - f_equal. induction es as [|e es IH]; [done|]. cbn. by rewrite <- IH.
Qed.

Definition small_config : MetricsEngineConfig :=
  mkMetricsEngineConfig true "" 1 0 0 0 0 0 0 0 PayloadModeFull 1.
Definition demo_request (id : string) : DiffractLLMContext :=
  NewContext <| RequestID := id |> <| StartedAt := 0 |> <| RequestCompleted := true |> <| BodyBytes := Some "{}" |>.
Definition demo_event (id : string) : Event := default Event0 (event_of small_config "u" 0 (demo_request id)).

(** The buffer has room for one event: the second request's is dropped, and its record is used
    again for the third request's. *)
Lemma events_conserved_witness : exists m,
  rtc (engine_step small_config) (NewMetricsEngine small_config []) m /\
  m.(store) = [demo_event "first"] /\ m.(buffer).(events) = [0%nat] /\ m.(buffer).(edropped) = 1 /\
  m.(accepted) = [demo_event "first"; demo_event "third"].
Proof.
  assert (Hrun : exists m, rtc (engine_step small_config) (NewMetricsEngine small_config []) m /\
    m.(batches) = [(true, [demo_event "first"])] /\ in_flight m = [0%nat] /\ deref_event m.(heap) 0%nat = demo_event "third" /\
    m.(buffer).(events) = [0%nat] /\ m.(buffer).(edropped) = 1).
  { eexists. split.
    - eapply rtc_l; [apply (es_acquire small_config _ 0%nat "u" 0 (demo_request "second") (demo_event "second") []);
        [done|right; split; reflexivity|vm_compute; reflexivity]|].
      eapply rtc_l; [apply (es_acquire small_config _ 1%nat "u" 0 (demo_request "first") (demo_event "first") []);
        [done|right; split; reflexivity|vm_compute; reflexivity]|].
      eapply rtc_l; [eapply (es_append small_config _ 1%nat [0%nat] true); [reflexivity|reflexivity]|]. cbn iota.
      eapply rtc_l; [eapply (es_append small_config _ 0%nat [] false); [reflexivity|reflexivity]|]. cbn iota.
      eapply rtc_l; [apply (es_drain small_config _ [1%nat]); reflexivity|].
      eapply rtc_l; [eapply (es_write small_config _ [1%nat]); reflexivity|].
      eapply rtc_l; [apply (es_acquire small_config _ 0%nat "u" 0 (demo_request "third") (demo_event "third") [1%nat]);
        [done|left; apply perm_swap|vm_compute; reflexivity]|].
      eapply rtc_l; [eapply (es_append small_config _ 0%nat [] true); [reflexivity|reflexivity]|]. cbn iota. apply rtc_refl.
    - splits; vm_compute; reflexivity. }
  destruct Hrun as (m & Hrun & Hb & Hf & Hd & He & Hdr). exists m.
  destruct (events_conserved small_config [] m Hrun) as (Hacc & _ & Hst & _).
  split; [exact Hrun|]. split; [|split; [exact He|split; [exact Hdr|]]].
  - specialize (Hst false). rewrite Hb in Hst. exact Hst.
  - rewrite Hacc, Hb, Hf. cbn [map]. rewrite Hd. reflexivity.
Defined.
