(* ===== verification/EventRows.v ===== *)
(** * Events as rows ([internal/metrics-engine/duckdb-events.go], [utils.go])

    The columns of the tables of events and payloads, and the row an event becomes.  A cell is a
    driver value or NULL ([None]).  The JSON encoder (sonic) and [json.Valid] are parameters. *)

From S2P Require Import Prelude GoBase Float64 Catalog Money Pricing VirtualKey Context MetricsEvent.
Local Open Scope Z_scope.

Inductive Value : Type :=
| VInt (n : Z)
| VString (s : string)
| VBool (b : bool)
| VTime (t : Z)
| VRaw (json : string).
#[export] Instance Value_eq_dec : EqDecision Value.
Proof. solve_decision. Defined.

Abbreviation Cell := (option Value).
Abbreviation Cells := (list (option Value)).

(** [sonic.Marshal] at the types of the JSON columns, and [json.Valid]. *)
Class Json := {
  marshal_stages : list StageSpan -> result string string;
  marshal_attempts : list Attempt -> result string string;
  marshal_strings : list string -> result string string;
  marshal_pricing : option Pricing -> result string string;
  marshal_usage : Usage -> result string string;
  marshal_headers : option (gmap string string) -> result string string;
  json_valid : string -> bool
}.

(** ** Columns *)

Definition colSchemaVersion : nat := 0.
Definition colID : nat := 1.
Definition colRequestID : nat := 2.
Definition colKind : nat := 3.
Definition colRequestKind : nat := 4.
Definition colRequestEndpoint : nat := 5.
Definition colCostNanoUSD : nat := 6.
Definition colGovernanceClientID : nat := 7.
Definition colGovernanceVirtualKeyID : nat := 8.
Definition colGovernanceBudgetID : nat := 9.
Definition colOutcomeResult : nat := 10.
Definition colOutcomeHTTPStatus : nat := 11.
Definition colOutcomeUpstreamHTTPStatus : nat := 12.
Definition colOutcomeErrorCode : nat := 13.
Definition colOutcomeErrorCategory : nat := 14.
Definition colOutcomeErrorMessage : nat := 15.
Definition colStartedAt : nat := 16.
Definition colTimingTotalUS : nat := 17.
Definition colTimingTTFBUS : nat := 18.
Definition colTimingTTFTUS : nat := 19.
Definition colTimingStages : nat := 20.
Definition colRoutingMode : nat := 21.
Definition colRoutingCredentialID : nat := 22.
Definition colRoutingCredentialName : nat := 23.
Definition colRoutingAttempts : nat := 24.
Definition colRoutingAttemptList : nat := 25.
Definition colLLMRequestedModel : nat := 26.
Definition colLLMProvider : nat := 27.
Definition colLLMModel : nat := 28.
Definition colLLMUpstreamModel : nat := 29.
Definition colLLMStream : nat := 30.
Definition colLLMFinishReason : nat := 31.
Definition colLLMToolCalls : nat := 32.
Definition colLLMParams : nat := 33.
Definition colLLMPricing : nat := 34.
Definition colUsageTier : nat := 35.
Definition colUsageInputTokens : nat := 36.
Definition colUsageOutputTokens : nat := 37.
Definition colUsageTotalTokens : nat := 38.
Definition colUsageCachedInputTokens : nat := 39.
Definition colUsageCacheCreationTokens : nat := 40.
Definition colUsageReasoningTokens : nat := 41.
Definition colUsageDetail : nat := 42.
Definition colHeaders : nat := 43.
Definition colPayloadState : nat := 44.
Definition numEventCols : nat := 45.

Definition eventColumnNames : list string :=
  ["schema_version"; "id"; "request_id"; "kind"; "request_kind";
   "request_endpoint"; "cost_nano_usd"; "governance_client_id"; "governance_virtual_key_id"; "governance_budget_id";
   "outcome_result"; "outcome_http_status"; "outcome_upstream_http_status"; "outcome_error_code"; "outcome_error_category";
   "outcome_error_message"; "started_at"; "timing_total_us"; "timing_ttfb_us"; "timing_ttft_us";
   "timing_stages"; "routing_mode"; "routing_credential_id"; "routing_credential_name"; "routing_attempts";
   "routing_attempt_list"; "llm_requested_model"; "llm_provider"; "llm_model"; "llm_upstream_model";
   "llm_stream"; "llm_finish_reason"; "llm_tool_calls"; "llm_params"; "llm_pricing";
   "usage_tier"; "usage_input_tokens"; "usage_output_tokens"; "usage_total_tokens"; "usage_cached_input_tokens";
   "usage_cache_creation_tokens"; "usage_reasoning_tokens"; "usage_detail"; "headers"; "payload_state"].

(** The columns declared NOT NULL in [migrations/0001_init.sql], the primary key with them. *)
Definition required_columns : list string :=
  ["schema_version"; "id"; "kind"; "request_endpoint"; "cost_nano_usd"; "outcome_result"; "outcome_http_status";
   "started_at"; "timing_total_us"; "payload_state"].

Definition eventPayloadColNames : list string :=
  ["id"; "started_at"; "client_request"; "normalized_request"; "provider_request"; "provider_response";
   "normalized_response"; "client_response"].

(** ** Values *)

Definition nullCheck (s : string) : Cell := if is_empty s then None else Some (VString s).
Definition nz (v : Z) : Cell := if v =? 0 then None else Some (VInt v).
Definition rawJSON (b : option string) : Cell :=
  let s := default "" b in if is_empty s then None else Some (VRaw s).
Definition bodyJSON `{Json} (b : option string) : Cell :=
  let s := default "" b in
  if is_empty s then None else if json_valid s then Some (VRaw s) else Some (VString s).

(** The closure [js]: a value that could not be encoded adds an error. *)
Definition js (r : result string string) : Cell * list string :=
  match r with
  | Err e => (None, [e])
  | Ok s => (if String.eqb s "null" || String.eqb s "[]" || String.eqb s "{}" then None else Some (VRaw s), [])
  end.

(** [dst[col] = v] and [dst[col] = js(v)]. *)
Definition put (col : nat) (v : Cell) (row : Cells * list string) : Cells * list string :=
  (<[col := v]> row.1, row.2).
Definition put_js (col : nat) (r : result string string) (row : Cells * list string) : Cells * list string :=
  (<[col := (js r).1]> row.1, (row.2 ++ (js r).2)%list).

Section rows.
Context `{Json}.

Definition usage_cells (u : Usage) (row : Cells * list string) : Cells * list string :=
  let row := put colUsageTier (Some (VString (ServiceTier_String u.(Tier)))) row in
  let row := put colUsageInputTokens (nz u.(InputTokens)) row in
  let row := put colUsageOutputTokens (nz u.(OutputTokens)) row in
  let row := put colUsageTotalTokens (nz u.(TotalTokens)) row in
  let row := put colUsageCachedInputTokens (nz u.(CachedInputTokens)) row in
  let row := put colUsageCacheCreationTokens (nz u.(CacheCreationTokens)) row in
  let row := put colUsageReasoningTokens (nz u.(ReasoningTokens)) row in
  put_js colUsageDetail (marshal_usage u) row.

Definition llm_cells (l : LLM) (row : Cells * list string) : Cells * list string :=
  let row := put colLLMRequestedModel (nullCheck l.(LRequestedModel)) row in
  let row := put colLLMProvider (nullCheck l.(LProvider)) row in
  let row := put colLLMModel (nullCheck l.(LModel)) row in
  let row := put colLLMUpstreamModel (nullCheck l.(LUpstreamModel)) row in
  let row := put colLLMStream (Some (VBool l.(LStream))) row in
  let row := put colLLMFinishReason (nullCheck l.(LFinishReason)) row in
  let row := put_js colLLMToolCalls (marshal_strings l.(LToolCalls)) row in
  let row := put colLLMParams (rawJSON l.(LParams)) row in
  let row := put_js colLLMPricing (marshal_pricing l.(LPricing)) row in
  match l.(LUsage) with Some u => usage_cells u row | None => row end.

Definition routing_cells (rt : Routing) (row : Cells * list string) : Cells * list string :=
  let row := put colRoutingMode (Some (VString (VKMode_String rt.(RMode)))) row in
  let row := put colRoutingCredentialID (nullCheck rt.(RCredentialID)) row in
  let row := put colRoutingCredentialName (nullCheck rt.(RCredentialName)) row in
  let row := put colRoutingAttempts (nz rt.(RAttemptCount)) row in
  put_js colRoutingAttemptList (marshal_attempts rt.(RAttempts)) row.

Definition Outcome0 : Outcome := mkOutcome "" 0 0 "" "" "".
Definition Timing0 : Timing := mkTiming zero_time 0 0 0 [].
Definition Governance0 : EventGovernance := mkEventGovernance "" "" "".

(** The row and the errors of the encoder. *)
Definition event_cells (e : Event) (dst : Cells) : Cells * list string :=
  let o := default Outcome0 e.(EOutcome) in
  let t := default Timing0 e.(ETiming) in
  let g := default Governance0 e.(EGovernance) in
  let row := (map (fun _ => None) dst, []) in
  let row := put colSchemaVersion (Some (VInt e.(ESchemaVersion))) row in
  let row := put colID (Some (VString e.(EID))) row in
  let row := put colRequestID (nullCheck e.(EvRequestID)) row in
  let row := put colKind (Some (VString e.(EKind))) row in
  let row := put colRequestKind (nullCheck (default "" e.(ERequestKind))) row in
  let row := put colRequestEndpoint (Some (VString e.(ERequestEndpoint))) row in
  let row := put colCostNanoUSD (Some (VInt e.(ECostNanoUSD))) row in
  let row := put colGovernanceClientID (nullCheck g.(GClientID)) row in
  let row := put colGovernanceVirtualKeyID (nullCheck g.(GVirtualKeyID)) row in
  let row := put colGovernanceBudgetID (nullCheck g.(GBudgetID)) row in
  let row := put colOutcomeResult (Some (VString o.(OResult))) row in
  let row := put colOutcomeHTTPStatus (Some (VInt o.(OHTTPStatus))) row in
  let row := put colOutcomeUpstreamHTTPStatus (nz o.(OUpstreamHTTPStatus)) row in
  let row := put colOutcomeErrorCode (nullCheck o.(OErrorCode)) row in
  let row := put colOutcomeErrorCategory (nullCheck o.(OErrorCategory)) row in
  let row := put colOutcomeErrorMessage (nullCheck o.(OErrorMessage)) row in
  let row := put colStartedAt (Some (VTime t.(TStart))) row in
  let row := put colTimingTotalUS (Some (VInt t.(TTotalUS))) row in
  let row := put colTimingTTFBUS (nz t.(TTTFBUS)) row in
  let row := put colTimingTTFTUS (nz t.(TTTFTUS)) row in
  let row := put_js colTimingStages (marshal_stages t.(TStages)) row in
  let row := match e.(ERouting) with Some rt => routing_cells rt row | None => row end in
  let row := match e.(ELLM) with Some l => llm_cells l row | None => row end in
  let row := put_js colHeaders (marshal_headers e.(EHeaders)) row in
  put colPayloadState (Some (VString e.(EPayloadState))) row.

(** [errors.Join(errs...)] is nil when there is none. *)
Definition toAppenderValues (e : Event) (dst : Cells) : result (list string) Cells :=
  let row := event_cells e dst in match row.2 with [] => Ok row.1 | errs => Err errs end.

Definition toPayloadValues (e : Event) (p : Payload) : Cells :=
  [Some (VString e.(EID)); Some (VTime (default Timing0 e.(ETiming)).(TStart)); bodyJSON p.(PClientRequest);
   bodyJSON p.(PNormalizedRequest); bodyJSON p.(PProviderRequest); bodyJSON p.(PProviderResponse);
   bodyJSON p.(PNormalizedResponse); bodyJSON p.(PClientResponse)].

(** ** What a row holds

    The reference: the cell of each column by its name, NULL where the event has no such part. *)

Definition opt_cell {A} (o : option A) (f : A -> Cell) : Cell := o ≫= f.

Definition event_columns (e : Event) : list (string * Cell) :=
  let o := default Outcome0 e.(EOutcome) in
  let t := default Timing0 e.(ETiming) in
  let g := default Governance0 e.(EGovernance) in
  let usage := e.(ELLM) ≫= LUsage in
  [("schema_version", Some (VInt e.(ESchemaVersion)));
   ("id", Some (VString e.(EID)));
   ("request_id", nullCheck e.(EvRequestID));
   ("kind", Some (VString e.(EKind)));
   ("request_kind", nullCheck (default "" e.(ERequestKind)));
   ("request_endpoint", Some (VString e.(ERequestEndpoint)));
   ("cost_nano_usd", Some (VInt e.(ECostNanoUSD)));
   ("governance_client_id", nullCheck g.(GClientID));
   ("governance_virtual_key_id", nullCheck g.(GVirtualKeyID));
   ("governance_budget_id", nullCheck g.(GBudgetID));
   ("outcome_result", Some (VString o.(OResult)));
   ("outcome_http_status", Some (VInt o.(OHTTPStatus)));
   ("outcome_upstream_http_status", nz o.(OUpstreamHTTPStatus));
   ("outcome_error_code", nullCheck o.(OErrorCode));
   ("outcome_error_category", nullCheck o.(OErrorCategory));
   ("outcome_error_message", nullCheck o.(OErrorMessage));
   ("started_at", Some (VTime t.(TStart)));
   ("timing_total_us", Some (VInt t.(TTotalUS)));
   ("timing_ttfb_us", nz t.(TTTFBUS));
   ("timing_ttft_us", nz t.(TTTFTUS));
   ("timing_stages", (js (marshal_stages t.(TStages))).1);
   ("routing_mode", opt_cell e.(ERouting) (fun r => Some (VString (VKMode_String r.(RMode)))));
   ("routing_credential_id", opt_cell e.(ERouting) (fun r => nullCheck r.(RCredentialID)));
   ("routing_credential_name", opt_cell e.(ERouting) (fun r => nullCheck r.(RCredentialName)));
   ("routing_attempts", opt_cell e.(ERouting) (fun r => nz r.(RAttemptCount)));
   ("routing_attempt_list", opt_cell e.(ERouting) (fun r => (js (marshal_attempts r.(RAttempts))).1));
   ("llm_requested_model", opt_cell e.(ELLM) (fun l => nullCheck l.(LRequestedModel)));
   ("llm_provider", opt_cell e.(ELLM) (fun l => nullCheck l.(LProvider)));
   ("llm_model", opt_cell e.(ELLM) (fun l => nullCheck l.(LModel)));
   ("llm_upstream_model", opt_cell e.(ELLM) (fun l => nullCheck l.(LUpstreamModel)));
   ("llm_stream", opt_cell e.(ELLM) (fun l => Some (VBool l.(LStream))));
   ("llm_finish_reason", opt_cell e.(ELLM) (fun l => nullCheck l.(LFinishReason)));
   ("llm_tool_calls", opt_cell e.(ELLM) (fun l => (js (marshal_strings l.(LToolCalls))).1));
   ("llm_params", opt_cell e.(ELLM) (fun l => rawJSON l.(LParams)));
   ("llm_pricing", opt_cell e.(ELLM) (fun l => (js (marshal_pricing l.(LPricing))).1));
   ("usage_tier", opt_cell usage (fun u => Some (VString (ServiceTier_String u.(Tier)))));
   ("usage_input_tokens", opt_cell usage (fun u => nz u.(InputTokens)));
   ("usage_output_tokens", opt_cell usage (fun u => nz u.(OutputTokens)));
   ("usage_total_tokens", opt_cell usage (fun u => nz u.(TotalTokens)));
   ("usage_cached_input_tokens", opt_cell usage (fun u => nz u.(CachedInputTokens)));
   ("usage_cache_creation_tokens", opt_cell usage (fun u => nz u.(CacheCreationTokens)));
   ("usage_reasoning_tokens", opt_cell usage (fun u => nz u.(ReasoningTokens)));
   ("usage_detail", opt_cell usage (fun u => (js (marshal_usage u)).1));
   ("headers", (js (marshal_headers e.(EHeaders))).1);
   ("payload_state", Some (VString e.(EPayloadState)))].

Definition row_errors (e : Event) : list string :=
  ((js (marshal_stages (default Timing0 e.(ETiming)).(TStages))).2 ++
   match e.(ERouting) with Some r => (js (marshal_attempts r.(RAttempts))).2 | None => [] end ++
   match e.(ELLM) with
   | Some l => (js (marshal_strings l.(LToolCalls))).2 ++ (js (marshal_pricing l.(LPricing))).2 ++
       match l.(LUsage) with Some u => (js (marshal_usage u)).2 | None => [] end
   | None => []
   end ++ (js (marshal_headers e.(EHeaders))).2)%list.

Lemma cleared (dst : Cells) : map (fun _ => None : Cell) dst = replicate (List.length dst) None.
Proof. induction dst as [|c dst IH]; [done|]. cbn. by rewrite IH. Qed.

Lemma put_errs col v row : (put col v row).2 = row.2.
Proof. done. Qed.
Lemma put_js_errs col r row : (put_js col r row).2 = (row.2 ++ (js r).2)%list.
Proof. done. Qed.
Create Rewrite HintDb errs.
Hint Rewrite put_errs put_js_errs : errs.

Lemma event_cells_values e dst : List.length dst = numEventCols -> (event_cells e dst).1 = map snd (event_columns e).
Proof.
  intros Hlen. unfold event_cells. rewrite cleared, Hlen. unfold event_columns.
  destruct (ERouting e) as [rt|], (ELLM e) as [l|]; cbn [mbind option_bind]; try reflexivity;
    unfold llm_cells; destruct (LUsage l) as [u|]; reflexivity.
Qed.

Lemma event_cells_errs e dst : (event_cells e dst).2 = row_errors e.
Proof.
  unfold event_cells, row_errors. cbn zeta.
  destruct (ERouting e) as [rt|], (ELLM e) as [l|]; unfold llm_cells, routing_cells; cbn zeta;
    try (destruct (LUsage l) as [u|]; unfold usage_cells; cbn zeta); autorewrite with errs; cbn [snd];
    by rewrite ?app_nil_r, ?app_nil_l, <- ?app_assoc.
Qed.

Lemma appender_values e dst : List.length dst = numEventCols ->
  toAppenderValues e dst = match row_errors e with [] => Ok (map snd (event_columns e)) | errs => Err errs end.
Proof. intros Hlen. unfold toAppenderValues. by rewrite event_cells_values, event_cells_errs. Qed.

Lemma required_present e name : name ∈ required_columns -> exists v, (name, Some v) ∈ event_columns e.
Proof.
  intros Hname.
  repeat (apply elem_of_cons in Hname as [->|Hname]; [eexists; unfold event_columns; by repeat constructor|]).
  by apply not_elem_of_nil in Hname.
Qed.

(** Every row has one cell per column, by name what the reference says; the columns the schema
    requires are never NULL, and what the row buffer held before does not matter. *)
Lemma appender_row e dst row : List.length dst = numEventCols -> toAppenderValues e dst = Ok row ->
  zip eventColumnNames row = event_columns e /\ List.length row = numEventCols /\
  forall name, name ∈ required_columns -> exists v, (name, Some v) ∈ zip eventColumnNames row.
Proof.
  intros Hlen. rewrite appender_values by done. destruct (row_errors e); [|done]. intros Hrow.
  assert (Hr : row = map snd (event_columns e)) by congruence.
  assert (Hzip : zip eventColumnNames row = event_columns e) by by rewrite Hr.
  splits; [done|by rewrite Hr|]. intros name. rewrite Hzip. apply required_present.
Qed.

End rows.
