(* ===== verification/DuckDB.v ===== *)
(** * The metrics store ([internal/metrics-engine/duckdb.go])

    The write of a batch, in one transaction over two appenders, the retention and the migrations.
    The driver is an interface with laws: what a transaction shows inside, what is visible outside
    of it, and what an appender holds.  [duck_events] discharges the interface the metrics engine
    is verified against. *)

From S2P Require Import Prelude GoBase Float64 Pricing GoCrypto Transport Context MetricsEvent EventRows MetricsEngine.
Local Open Scope Z_scope.

Definition events_table : string := "events".
Definition payloads_table : string := "event_payloads".

(** ** The driver *)

Class Duck (Db Txn App : Type) := {
  duck_rows : Db -> string -> list Cells;
  (** Whether the connection is a [driver.ConnBeginTx]. *)
  begins : Db -> bool;
  BeginTx : Db -> result string Txn;
  NewAppender : string -> list string -> Txn -> result string App * Txn;
  AppendRow : Cells -> App -> Txn -> result string App * Txn;
  CloseAppender : App -> Txn -> result string () * Txn;
  (** [DELETE FROM table WHERE started_at < before]. *)
  DeleteBefore : string -> Z -> Txn -> result string Z * Txn;
  Commit : Txn -> result Txn Db * string;
  Rollback : Txn -> Db
}.

(** The column [started_at] of a row of a table. *)
Definition started_at (table : string) (row : Cells) : option Z :=
  match row !! (if String.eqb table payloads_table then 1%nat else colStartedAt) with
  | Some (Some (VTime t)) => Some t
  | _ => None
  end.
Definition started_before (table : string) (before : Z) (row : Cells) : bool :=
  match started_at table row with Some t => t <? before | None => false end.

Class DuckLaws (Db Txn App : Type) `{Duck Db Txn App} := {
  inside : Txn -> string -> list Cells;
  outside : Txn -> string -> list Cells;
  app_table : App -> string;
  app_rows : App -> list Cells;
  pending a tb := if String.eqb tb (app_table a) then app_rows a else [];
  begin_ok d t tb : BeginTx d = Ok t -> inside t tb = duck_rows d tb /\ outside t tb = duck_rows d tb;
  appender_quiet table cols t res t' tb : NewAppender table cols t = (res, t') -> outside t' tb = outside t tb;
  appender_ok table cols t a t' : NewAppender table cols t = (Ok a, t') ->
    app_table a = table /\ app_rows a = [] /\ forall tb, inside t' tb = inside t tb;
  append_quiet r a t res t' tb : AppendRow r a t = (res, t') -> outside t' tb = outside t tb;
  (** The appender may write rows through at any time. *)
  append_ok r a t a' t' : AppendRow r a t = (Ok a', t') -> app_table a' = app_table a /\
    forall tb, (inside t' tb ++ pending a' tb = inside t tb ++ pending a tb ++ if String.eqb tb (app_table a) then [r] else [])%list;
  close_quiet a t res t' tb : CloseAppender a t = (res, t') -> outside t' tb = outside t tb;
  close_ok a t u t' tb : CloseAppender a t = (Ok u, t') -> inside t' tb = (inside t tb ++ pending a tb)%list;
  delete_quiet table before t res t' tb : DeleteBefore table before t = (res, t') -> outside t' tb = outside t tb;
  delete_ok table before t n t' : DeleteBefore table before t = (Ok n, t') ->
    n = Z.of_nat (List.length (List.filter (started_before table before) (inside t table))) /\
    forall tb, inside t' tb =
      if String.eqb tb table then List.filter (fun r => negb (started_before table before r)) (inside t tb) else inside t tb;
  commit_ok t d e tb : Commit t = (Ok d, e) -> duck_rows d tb = inside t tb;
  commit_err t t' e tb : Commit t = (Err t', e) -> outside t' tb = outside t tb;
  rollback_ok t tb : duck_rows (Rollback t) tb = outside t tb
}.

(** ** Write *)

Section write.
Context {Db Txn App : Type} `{Duck Db Txn App} `{Json}.

(** The statements of a transaction: an error ends it. *)
Definition Stmt (A : Type) : Type := Txn -> result string A * Txn.
#[export] Instance Stmt_ret : MRet Stmt := fun A a t => (Ok a, t).
#[export] Instance Stmt_bind : MBind Stmt := fun A B f m t =>
  match m t with (Ok a, t') => f a t' | (Err e, t') => (Err e, t') end.

Definition fail {A} (msg : string) : Stmt A := fun t => (Err msg, t).
Definition wrapped {A} (msg : string) (m : Stmt A) : Stmt A := fun t =>
  match m t with (Ok a, t') => (Ok a, t') | (Err e, t') => (Err (msg ++ ": " ++ e), t') end.

(** [m], after whose error the appender is closed. *)
Definition or_close {A} (a : App) (m : Stmt A) : Stmt A := fun t =>
  match m t with (Ok x, t') => (Ok x, t') | (Err e, t') => (Err e, (CloseAppender a t').2) end.

(** The loop over the events, with the row buffer they share. *)
Fixpoint append_events (es : list Event) (row : Cells) (a : App) : Stmt App :=
  match es with
  | [] => mret a
  | e :: es =>
      match toAppenderValues e row with
      | Err errs => or_close a (fail ("event values " ++ e.(EID) ++ ": " ++ join "; " errs))
      | Ok row =>
          a' ← or_close a (wrapped ("append event row " ++ e.(EID)) (AppendRow row a));
          append_events es row a'
      end
  end.

Fixpoint append_payloads (es : list Event) (a : App) : Stmt App :=
  match es with
  | [] => mret a
  | e :: es =>
      match e.(EPayload) with
      | None => append_payloads es a
      | Some p =>
          a' ← or_close a (wrapped ("append payload row " ++ e.(EID)) (AppendRow (toPayloadValues e p) a));
          append_payloads es a'
      end
  end.

Definition has_payload (e : Event) : bool := match e.(EPayload) with Some _ => true | None => false end.

Definition write_batch (es : list Event) : Stmt () :=
  app ← wrapped "init events appender" (NewAppender events_table eventColumnNames);
  app ← append_events es (replicate (List.length eventColumnNames) None) app;
  _ ← wrapped "close events appender" (CloseAppender app);
  if existsb has_payload es then
    app ← wrapped "init payload appender" (NewAppender payloads_table eventPayloadColNames);
    app ← append_payloads es app;
    wrapped "close payload appender" (CloseAppender app)
  else mret tt.

(** A transaction: it is rolled back unless its COMMIT succeeds. *)
Definition in_tx {A} (failed : string) (m : Stmt A) (t : Txn) : result string A * Db :=
  match m t with
  | (Err e, t') => (Err e, Rollback t')
  | (Ok a, t') =>
      match Commit t' with
      | (Ok d, _) => (Ok a, d)
      | (Err t'', e) => (Err (failed ++ ": " ++ e), Rollback t'')
      end
  end.

Definition DuckDB_Write (es : list Event) (d : Db) : result string () * Db :=
  match es with
  | [] => (Ok tt, d)
  | _ =>
      if negb (begins d) then (Err "duckdb conn does not support ConnBeginTx", d)
      else
        match BeginTx d with
        | Err e => (Err ("begin metrics tx: " ++ e), d)
        | Ok t => in_tx "commit metrics tx" (write_batch es) t
        end
  end.

(** The rows of an event in each table. *)
Definition duck_event_rows (payloads : bool) (e : Event) : list Cells :=
  if payloads then match e.(EPayload) with Some p => [toPayloadValues e p] | None => [] end
  else [map snd (event_columns e)].

#[export] Instance duck_events : EventStore Db Cells := {|
  event_rows := duck_event_rows;
  stored_rows d t := duck_rows d (if t then payloads_table else events_table);
  Write := DuckDB_Write
|}.

(** ** Retention *)

(** [Prune]: the numbers of rows deleted from the two tables. *)
Definition Prune (before : Z) (d : Db) : result string (Z * Z) * Db :=
  match BeginTx d with
  | Err e => (Err ("begin prune transaction: " ++ e), d)
  | Ok t =>
      in_tx "commit prune transaction failed"
        (n ← wrapped "prune events" (DeleteBefore events_table before);
         k ← wrapped "prune event payloads" (DeleteBefore payloads_table before);
         mret (n, k)) t
  end.
End write.

(** ** What a write does *)

Section laws.
Context {Db Txn App : Type} `{DuckLaws Db Txn App} `{Json}.

Definition quiet {A} (m : Stmt (Txn := Txn) A) : Prop := forall t res t' tb, m t = (res, t') -> outside t' tb = outside t tb.

Lemma quiet_ret {A} (a : A) : quiet (mret a).
Proof. by intros t res t' tb [= _ <-]. Qed.
Lemma quiet_fail {A} msg : quiet (fail (A := A) msg).
Proof. by intros t res t' tb [= _ <-]. Qed.
Lemma quiet_bind {A B} (m : Stmt A) (f : A -> Stmt B) : quiet m -> (forall a, quiet (f a)) -> quiet (m ≫= f).
Proof.
  intros Hm Hf t res t' tb. unfold mbind, Stmt_bind. destruct (m t) as [[a|e] t1] eqn:Ht.
  - intros Hr. by rewrite (Hf _ _ _ _ tb Hr), (Hm _ _ _ tb Ht).
  - intros [= _ <-]. by apply (Hm _ _ _ tb Ht).
Qed.
Lemma quiet_wrapped {A} msg (m : Stmt A) : quiet m -> quiet (wrapped msg m).
Proof. intros Hm t res t' tb. unfold wrapped. destruct (m t) as [[a|e] t1] eqn:Ht; intros [= _ <-]; by apply (Hm _ _ _ tb Ht). Qed.
Lemma quiet_close {A} a (m : Stmt A) : quiet m -> quiet (or_close a m).
Proof.
  intros Hm t res t' tb. unfold or_close. destruct (m t) as [[x|e] t1] eqn:Ht; intros [= _ <-]; [by apply (Hm _ _ _ tb Ht)|].
  destruct (CloseAppender a t1) as [r t2] eqn:Hc. cbn [snd]. by rewrite (close_quiet _ _ _ _ tb Hc), (Hm _ _ _ tb Ht).
Qed.

Create HintDb quiet.
Hint Resolve quiet_ret quiet_fail quiet_bind quiet_wrapped quiet_close : quiet.
Hint Extern 1 (quiet (AppendRow _ _)) => (intros ? ? ? ?; apply append_quiet) : quiet.
Hint Extern 1 (quiet (CloseAppender _)) => (intros ? ? ? ?; apply close_quiet) : quiet.
Hint Extern 1 (quiet (NewAppender _ _)) => (intros ? ? ? ?; apply appender_quiet) : quiet.
Hint Extern 1 (quiet (DeleteBefore _ _)) => (intros ? ? ? ?; apply delete_quiet) : quiet.

Lemma append_events_quiet es row a : quiet (append_events es row a).
Proof.
  revert row a. induction es as [|e es IH]; intros row a; cbn [append_events]; [eauto with quiet|].
  destruct (toAppenderValues e row); eauto with quiet.
Qed.
Lemma append_payloads_quiet es a : quiet (append_payloads es a).
Proof.
  revert a. induction es as [|e es IH]; intros a; cbn [append_payloads]; [eauto with quiet|].
  destruct (EPayload e); eauto with quiet.
Qed.
Hint Resolve append_events_quiet append_payloads_quiet : quiet.

Lemma write_batch_quiet es : quiet (write_batch es).
Proof. unfold write_batch. destruct (existsb _ es); eauto 10 with quiet. Qed.

(** *** Successful statements *)

Lemma stmt_bind_Ok {A B} (m : Stmt A) (f : A -> Stmt B) (t : Txn) b t' :
  (m ≫= f) t = (Ok b, t') -> exists a t1, m t = (Ok a, t1) /\ f a t1 = (Ok b, t').
Proof. unfold mbind, Stmt_bind. destruct (m t) as [[a|e] t1]; [eauto|done]. Qed.
Lemma wrapped_Ok {A} msg (m : Stmt A) (t : Txn) a t' : wrapped msg m t = (Ok a, t') -> m t = (Ok a, t').
Proof. unfold wrapped. by destruct (m t) as [[x|e] t1]. Qed.
Lemma or_close_Ok {A} x (m : Stmt A) (t : Txn) a t' : or_close x m t = (Ok a, t') -> m t = (Ok a, t').
Proof. unfold or_close. by destruct (m t) as [[y|e] t1]. Qed.

Definition added (a a' : App) (t t' : Txn) (rows : list Cells) : Prop :=
  app_table a' = app_table a /\
  forall tb, (inside t' tb ++ pending a' tb = inside t tb ++ pending a tb ++ if String.eqb tb (app_table a) then rows else [])%list.

Lemma added_trans a b c t u v rs ss : added a b t u rs -> added b c u v ss -> added a c t v (rs ++ ss).
Proof.
  intros [Hab Eab] [Hbc Ebc]. split; [by rewrite Hbc|]. intros tb. rewrite Ebc, app_assoc, Eab, Hab.
  destruct (String.eqb tb (app_table a)); by rewrite ?app_nil_r, <- ?app_assoc.
Qed.

Lemma added_none a t : added a a t t [].
Proof. split; [done|]. intros tb. by destruct (String.eqb tb (app_table a)); rewrite app_nil_r. Qed.

Lemma append_one msg r a t a' t' : or_close a (wrapped msg (AppendRow r a)) t = (Ok a', t') -> added a a' t t' [r].
Proof. intros Ha%or_close_Ok%wrapped_Ok. exact (append_ok _ _ _ _ _ Ha). Qed.

Lemma append_events_ok es row a t a' t' : List.length row = numEventCols -> append_events es row a t = (Ok a', t') ->
  added a a' t t' (concat (map (duck_event_rows false) es)).
Proof.
  revert row a t. induction es as [|e es IH]; intros row a t Hlen; cbn [append_events map concat].
  { intros [= <- <-]. apply added_none. }
  destruct (toAppenderValues e row) as [row'|errs] eqn:Hrow; [|by intros Hr%or_close_Ok].
  intros (a1 & t1 & Ha & Hes)%stmt_bind_Ok. apply append_one in Ha.
  destruct (appender_row e row row' Hlen Hrow) as (Hzip & Hlen' & _). apply IH in Hes; [|done].
  assert (Hr' : row' = map snd (event_columns e)).
  { rewrite <- Hzip. symmetry. apply (snd_zip eventColumnNames row'). rewrite Hlen'. done. }
  rewrite Hr' in Ha. exact (added_trans _ _ _ _ _ _ _ _ Ha Hes).
Qed.

Lemma append_payloads_ok es a t a' t' : append_payloads es a t = (Ok a', t') ->
  added a a' t t' (concat (map (duck_event_rows true) es)).
Proof.
  revert a t. induction es as [|e es IH]; intros a t; cbn [append_payloads map concat].
  { intros [= <- <-]. apply added_none. }
  unfold duck_event_rows at 1. destruct (EPayload e) as [p|]; [|apply IH].
  intros (a1 & t1 & Ha & Hes)%stmt_bind_Ok. apply append_one in Ha. exact (added_trans _ _ _ _ _ _ _ _ Ha (IH _ _ Hes)).
Qed.

(** An appender over its life: created, filled, closed. *)
Lemma appender_life table a a' t0 t t' t'' rows u : (forall tb, inside t tb = inside t0 tb) ->
  app_table a = table -> app_rows a = [] -> added a a' t t' rows -> CloseAppender a' t' = (Ok u, t'') ->
  forall tb, inside t'' tb = (inside t0 tb ++ if String.eqb tb table then rows else [])%list.
Proof.
  intros Ht Htab Hrows [Htab' Hadd] Hc tb. rewrite (close_ok _ _ _ _ tb Hc), Hadd, Ht.
  unfold pending at 1. rewrite Hrows, Htab. by destruct (String.eqb tb table).
Qed.

Lemma write_batch_ok es t u t' : write_batch es t = (Ok u, t') -> forall tb,
  inside t' tb = (inside t tb ++ (if String.eqb tb events_table then concat (map (duck_event_rows false) es) else []) ++
    if String.eqb tb payloads_table then concat (map (duck_event_rows true) es) else [])%list.
Proof.
  unfold write_batch.
  intros (a & t1 & Ha%wrapped_Ok & (a1 & t2 & Hev & ([] & t3 & Hc%wrapped_Ok & Hp)%stmt_bind_Ok)%stmt_bind_Ok)%stmt_bind_Ok tb.
  destruct (appender_ok _ _ _ _ _ Ha) as (Htab & Hrows & Hsame). apply append_events_ok in Hev; [|done].
  pose proof (appender_life _ _ _ _ _ _ _ _ _ Hsame Htab Hrows Hev Hc) as Eev.
  destruct (existsb has_payload es) eqn:Hany.
  - apply stmt_bind_Ok in Hp as (b & t4 & Hb%wrapped_Ok & (b1 & t5 & Hpay & Hc'%wrapped_Ok)%stmt_bind_Ok).
    destruct (appender_ok _ _ _ _ _ Hb) as (Htab' & Hrows' & Hsame'). apply append_payloads_ok in Hpay.
    rewrite (appender_life _ _ _ _ _ _ _ _ _ Hsame' Htab' Hrows' Hpay Hc'), Eev. by rewrite app_assoc.
  - injection Hp as _ <-. rewrite Eev. assert (Hnone : concat (map (duck_event_rows true) es) = []).
    { clear -Hany. induction es as [|e es IH]; [done|]. cbn in Hany |- *. apply orb_false_elim in Hany as [He Hes].
      unfold has_payload in He. destruct (EPayload e); [done|]. by apply IH. }
    rewrite Hnone. by destruct (String.eqb tb payloads_table); rewrite app_nil_r.
Qed.

(** A transaction that is not committed leaves nothing, one that is leaves what its statements did. *)
Lemma in_tx_cases {A} failed (m : Stmt A) d t res d' : quiet m -> BeginTx d = Ok t -> in_tx failed m t = (res, d') ->
  (exists e, res = Err e /\ forall tb, duck_rows d' tb = duck_rows d tb) \/
  (exists a t', res = Ok a /\ m t = (Ok a, t') /\ forall tb, duck_rows d' tb = inside t' tb).
Proof.
  intros Hq Hb. unfold in_tx. destruct (m t) as [[a|e] t1] eqn:Hm.
  - destruct (Commit t1) as [[d1|t2] e] eqn:Hc; intros [= <- <-].
    + right. exists a, t1. splits; [done|done|]. intros tb. by apply (commit_ok _ _ _ tb Hc).
    + left. eexists. split; [done|]. intros tb.
      by rewrite rollback_ok, (commit_err _ _ _ tb Hc), (Hq _ _ _ tb Hm), (proj2 (begin_ok _ _ tb Hb)).
  - intros [= <- <-]. left. eexists. split; [done|]. intros tb.
    by rewrite rollback_ok, (Hq _ _ _ tb Hm), (proj2 (begin_ok _ _ tb Hb)).
Qed.

Lemma DuckDB_Write_cases es d res d' : DuckDB_Write es d = (res, d') ->
  (exists e, res = Err e /\ forall tb, duck_rows d' tb = duck_rows d tb) \/
  (res = Ok tt /\ forall tb, duck_rows d' tb =
    (duck_rows d tb ++ (if String.eqb tb events_table then concat (map (duck_event_rows false) es) else []) ++
     if String.eqb tb payloads_table then concat (map (duck_event_rows true) es) else [])%list).
Proof.
  unfold DuckDB_Write. destruct es as [|e es].
  { intros [= <- <-]. right. split; [done|]. intros tb. cbn [map concat].
    by destruct (String.eqb tb events_table), (String.eqb tb payloads_table); rewrite app_nil_r. }
  destruct (begins d); cbn [negb]; [|intros [= <- <-]; left; by eexists].
  destruct (BeginTx d) as [t|m] eqn:Hb; [|intros [= <- <-]; left; by eexists].
  intros [(msg & -> & Hd)|([] & t' & -> & Hm & Hd)]%(in_tx_cases _ _ d); [left; by eexists| |apply write_batch_quiet|done].
  right. split; [done|]. intros tb. by rewrite Hd, (write_batch_ok _ _ _ _ Hm), (proj1 (begin_ok _ _ tb Hb)).
Qed.

(** What was written could be encoded. *)
Lemma append_events_encode es row a t a' t' : List.length row = numEventCols -> append_events es row a t = (Ok a', t') ->
  forall e, e ∈ es -> row_errors e = [].
Proof.
  revert row a t. induction es as [|e0 es IH]; intros row a t Hlen; cbn [append_events]; [intros _ e He; by apply not_elem_of_nil in He|].
  destruct (toAppenderValues e0 row) as [row'|errs] eqn:Hrow; [|by intros Hr%or_close_Ok].
  intros (a1 & t1 & _ & Hes)%stmt_bind_Ok e [->|He]%elem_of_cons.
  - rewrite appender_values in Hrow by done. by destruct (row_errors e0).
  - destruct (appender_row _ _ _ Hlen Hrow) as (_ & Hlen' & _). by eapply IH.
Qed.

Lemma DuckDB_Write_encode es d d' : DuckDB_Write es d = (Ok tt, d') -> forall e, e ∈ es -> row_errors e = [].
Proof.
  unfold DuckDB_Write. destruct es as [|e0 es]; [intros _ e He; by apply not_elem_of_nil in He|].
  destruct (begins d); cbn [negb]; [|done]. destruct (BeginTx d) as [t|m] eqn:Hb; [|done].
  intros [(msg & [=] & _)|([] & t' & _ & Hm & _)]%(in_tx_cases _ _ d); [|apply write_batch_quiet|done].
  unfold write_batch in Hm. apply stmt_bind_Ok in Hm as (a & t1 & _ & (a1 & t2 & Hev & _)%stmt_bind_Ok).
  refine (append_events_encode _ _ _ _ _ _ _ Hev). done.
Qed.

#[export] Instance duck_events_laws : EventStoreLaws Db Cells.
Proof.
  split.
  - intros es d d' [(e & [=] & _)|[_ Hd]]%DuckDB_Write_cases t. unfold stored_rows, event_rows. cbn [duck_events].
    rewrite Hd. destruct t; [done|]. by rewrite String.eqb_refl, app_nil_r.
  - intros es d e d' [(m & _ & Hd)|[[=] _]]%DuckDB_Write_cases t. apply Hd.
Qed.

(** ** Properties *)

Lemma event_rows_list es : concat (map (duck_event_rows false) es) = map (fun e => map snd (event_columns e)) es.
Proof. induction es as [|e es IH]; [done|]. cbn [map concat duck_event_rows app]. by rewrite IH. Qed.
Lemma payload_rows_list es :
  concat (map (duck_event_rows true) es) = omap (fun e => toPayloadValues e <$> e.(EPayload)) es.
Proof.
  induction es as [|e es IH]; [done|]. cbn [map concat omap list_omap]. unfold duck_event_rows at 1.
  destruct (EPayload e); cbn [fmap option_fmap option_map app]; by rewrite IH.
Qed.

(** C28: a batch is written all or nothing.  Either the call fails and every table is as it was,
    or the table of events has gained, in order, one row per event whose cells are, column by
    column, the event's data with no required column NULL, the table of payloads one row per event
    that has a payload, and no other table changed. *)
Theorem DuckDB_Write_spec es d res d' : DuckDB_Write es d = (res, d') ->
  (exists e, res = Err e /\ forall tb, duck_rows d' tb = duck_rows d tb) \/
  (res = Ok tt /\
   (exists rows, duck_rows d' events_table = (duck_rows d events_table ++ rows)%list /\
      List.Forall2 (fun e row => zip eventColumnNames row = event_columns e /\
        forall name, name ∈ required_columns -> exists v, (name, Some v) ∈ zip eventColumnNames row) es rows) /\
   duck_rows d' payloads_table =
     (duck_rows d payloads_table ++ omap (fun e => toPayloadValues e <$> e.(EPayload)) es)%list /\
   forall tb, tb <> events_table -> tb <> payloads_table -> duck_rows d' tb = duck_rows d tb).
Proof.
  intros [Hf|[-> Hd]]%DuckDB_Write_cases; [by left|]. right. rewrite event_rows_list, payload_rows_list in Hd. splits; [done| | |].
  - exists (map (fun e => map snd (event_columns e)) es). split; [rewrite Hd; f_equal; apply app_nil_r|].
    clear. induction es as [|e es IH]; constructor; [|apply IH].
    assert (Hrow : zip eventColumnNames (map snd (event_columns e)) = event_columns e) by reflexivity.
    split; [done|]. intros name. rewrite Hrow. apply required_present.
  - by rewrite Hd.
  - intros tb Hev Hp. rewrite Hd. apply String.eqb_neq in Hev, Hp. by rewrite Hev, Hp, !app_nil_r.
Qed.

Lemma Prune_cases before d res d' : Prune before d = (res, d') ->
  (exists e, res = Err e /\ forall tb, duck_rows d' tb = duck_rows d tb) \/
  (exists n k, res = Ok (n, k) /\ forall tb, duck_rows d' tb =
     if String.eqb tb events_table || String.eqb tb payloads_table
     then List.filter (fun r => negb (started_before tb before r)) (duck_rows d tb) else duck_rows d tb).
Proof.
  unfold Prune. destruct (BeginTx d) as [t|m] eqn:Hb; [|intros [= <- <-]; left; by eexists].
  intros [(msg & -> & Hd)|([n k] & t' & -> & Hm & Hd)]%(in_tx_cases _ _ d); [left; by eexists| | |done].
  - right. exists n, k. split; [done|]. intros tb. rewrite Hd.
    apply stmt_bind_Ok in Hm as (n' & t1 & Hev%wrapped_Ok & (k' & t2 & Hp%wrapped_Ok & [= -> -> ->])%stmt_bind_Ok).
    rewrite (proj2 (delete_ok _ _ _ _ _ Hp)), (proj2 (delete_ok _ _ _ _ _ Hev)), (proj1 (begin_ok _ _ tb Hb)).
    destruct (String.eqb_spec tb payloads_table) as [Ht|Ht], (String.eqb_spec tb events_table) as [He|He];
      [rewrite Ht in He; discriminate He|by rewrite Ht|by rewrite He|done].
  - eauto 10 with quiet.
Qed.
End laws.

(** ** A database in memory

    Its appenders buffer until they are closed, which fails when an ID would be stored twice. *)

Abbreviation MemDuck := (gmap string (list Cells)).
Definition mem_rows (d : MemDuck) (tb : string) : list Cells := default [] (d !! tb).

(** The ID of a row: the second column of an event, the first of a payload. *)
Definition row_id (tb : string) (row : Cells) : Cell := default None (row !! (if String.eqb tb payloads_table then 0 else 1)%nat).

Record MemTxn : Type := mkMemTxn { mt_base : MemDuck; mt_now : MemDuck }.

#[export] Instance mem_duck : Duck MemDuck MemTxn (string * list Cells) := {|
  duck_rows := mem_rows;
  begins _ := true;
  BeginTx d := Ok (mkMemTxn d d);
  NewAppender table _ t := (Ok (table, []), t);
  AppendRow r a t := (Ok (a.1, a.2 ++ [r])%list, t);
  CloseAppender a t :=
    let rows := (mem_rows t.(mt_now) a.1 ++ a.2)%list in
    if bool_decide (NoDup (map (row_id a.1) rows)) then (Ok tt, mkMemTxn t.(mt_base) (<[a.1 := rows]> t.(mt_now)))
    else (Err "Duplicate key", t);
  DeleteBefore table before t :=
    let rows := mem_rows t.(mt_now) table in
    (Ok (Z.of_nat (List.length (List.filter (started_before table before) rows))),
     mkMemTxn t.(mt_base) (<[table := List.filter (fun r => negb (started_before table before r)) rows]> t.(mt_now)));
  Commit t := (Ok t.(mt_now), "");
  Rollback t := t.(mt_base)
|}.

Lemma mem_rows_insert d tb rows tb' : mem_rows (<[tb := rows]> d) tb' = if String.eqb tb' tb then rows else mem_rows d tb'.
Proof.
  unfold mem_rows. destruct (String.eqb_spec tb' tb) as [->|Hne]; [by rewrite lookup_insert_eq|].
  by rewrite lookup_insert_ne.
Qed.

#[export] Instance mem_duck_laws : DuckLaws MemDuck MemTxn (string * list Cells).
Proof.
  refine {| inside t := mem_rows t.(mt_now); outside t := mem_rows t.(mt_base); app_table := fst; app_rows := snd |}.
  - by intros d t tb [= <-].
  - by intros table cols t res t' tb [= _ <-].
  - by intros table cols t a t' [= <- <-].
  - by intros r a t res t' tb [= _ <-].
  - intros r [ta ra] t a' t' [= <- <-]. cbn. split; [done|]. intros tb. by destruct (String.eqb tb ta); rewrite ?app_nil_r.
  - intros a t res t' tb. cbn. case_bool_decide; by intros [= _ <-].
  - intros [ta ra] t u t' tb. cbn. case_bool_decide; intros [=]; subst. cbn. rewrite mem_rows_insert.
    destruct (String.eqb_spec tb ta) as [->|]; [done|]. by rewrite app_nil_r.
  - by intros table before t res t' tb [= _ <-].
  - intros table before t n t' [= <- <-]. split; [done|]. intros tb. cbn. rewrite mem_rows_insert.
    by destruct (String.eqb_spec tb table) as [->|].
  - by intros t d e tb [= <- _].
  - done.
  - done.
Defined.

(** *** Witness: two events, and a batch that repeats an ID *)

#[local] Instance null_json : Json := {|
  marshal_stages _ := Ok "[]"; marshal_attempts _ := Ok "[]"; marshal_strings _ := Ok "null"; marshal_pricing _ := Ok "null";
  marshal_usage _ := Ok "{}"; marshal_headers _ := Ok "null"; json_valid s := String.eqb s "{}"
|}.

Definition plain_event (id : string) : Event := Event0 <| EID := id |> <| EKind := KindLLM |> <| EPayloadState := PayloadNone |>.
Definition loud_event (id body : string) : Event :=
  plain_event id <| EPayload := Some (mkPayload (Some body) None None None None None) |> <| EPayloadState := PayloadReady |>.

Lemma DuckDB_Write_spec_witness :
  let '(r1, d1) := DuckDB_Write [plain_event "a"; loud_event "b" "{}"] (∅ : MemDuck) in
  let '(r2, d2) := DuckDB_Write [plain_event "c"; loud_event "b" "cut"] d1 in
  r1 = Ok tt /\ List.length (duck_rows d1 events_table) = 2%nat /\
  duck_rows d1 payloads_table = [[Some (VString "b"); Some (VTime zero_time); Some (VRaw "{}"); None; None; None; None; None]] /\
  (exists e, r2 = Err e) /\ duck_rows d2 events_table = duck_rows d1 events_table.
Proof.
  destruct (DuckDB_Write [plain_event "a"; loud_event "b" "{}"] (∅ : MemDuck)) as [r1 d1] eqn:H1.
  destruct (DuckDB_Write [plain_event "c"; loud_event "b" "cut"] d1) as [r2 d2] eqn:H2.
  assert (E1 : r1 = Ok tt) by (apply (f_equal fst) in H1; vm_compute in H1; congruence).
  destruct (DuckDB_Write_spec _ _ _ _ H1) as [(e & He & _)|(_ & (rows & Hrows & Hall) & Hp & _)]; [congruence|].
  destruct (DuckDB_Write_spec _ _ _ _ H2) as [(e & He & Hsame)|(He & _)].
  - split; [exact E1|]. split; [|split; [|split]].
    + rewrite Hrows, length_app, <- (Forall2_length _ _ _ Hall). reflexivity.
    + rewrite Hp. reflexivity.
    + exists e. exact He.
    + apply Hsame.
  - exfalso. apply (f_equal snd) in H1. cbn [snd] in H1. rewrite <- H1 in H2. apply (f_equal fst) in H2. vm_compute in H2. congruence.
Defined.
