(* ===== verification/Migrations.v ===== *)
(** * Schema migrations of the metrics store ([internal/metrics-engine/duckdb.go], [utils.go])

    The scripts embedded in the binary are numbered from 1 without gaps; each runs once, in its own
    transaction together with the row that records it, and one that was edited after it ran stops
    the start.  The database is an interface: the scripts it ran and the rows it recorded. *)

From S2P Require Import Prelude GoBase GoCrypto Transport Gorm.
From Stdlib Require Import Ascii.
From stdpp Require Import sorting.
Local Open Scope Z_scope.

(** ** File names *)

(** [filepath.Base]. *)
Fixpoint strip_slashes (rev : string) : string :=
  match rev with String "/"%char r => strip_slashes r | _ => rev end.
Definition Base (path : string) : string :=
  if is_empty path then "."
  else
    let p := srev (strip_slashes (srev path)) in
    if is_empty p then "/" else List.last (split_byte "/"%char p) "".

Inductive MigrateError : Type :=
| BadFilename (base : string)
| BadNumber (base : string)
| SchemaTable (msg : string)
| ReadApplied (msg : string)
| OutOfSequence (expected version : Z) (base : string)
| ChecksumMismatch (version : Z) (name : string)
| ScriptFailed (name msg : string)
| RecordFailed (msg : string)
| NotCommitted.

Definition parseVersion (path : string) : result MigrateError Z :=
  let base := Base path in
  match cut_byte "_"%char base with
  | None => Err (BadFilename base)
  | Some (number, _) => match Atoi number with None => Err (BadNumber base) | Some version => Ok version end
  end.

Definition sha256Hex (data : string) : string := EncodeToString (Sum256 data).

(** ** The database *)

Class MigrationDb (Db : Type) := {
  (** [CREATE TABLE IF NOT EXISTS schema_migrations]. *)
  ensure_table : Db -> result string () * Db;
  (** [SELECT version, checksum FROM schema_migrations]. *)
  select_applied : Db -> result string (list (Z * string));
  exec_script : string -> Db -> result string () * Db;
  insert_applied : Z -> string -> string -> Db -> result string () * Db
}.

Class MigrationDbLaws (Db : Type) `{MigrationDb Db} := {
  executed : Db -> list string;
  recorded : Db -> list (Z * string);
  ensure_same d r d' : ensure_table d = (r, d') -> executed d' = executed d /\ recorded d' = recorded d;
  select_rows d l : select_applied d = Ok l -> l ≡ₚ recorded d;
  exec_ok sql d u d' : exec_script sql d = (Ok u, d') ->
    executed d' = (executed d ++ [sql])%list /\ recorded d' = recorded d;
  insert_ok v n c d u d' : insert_applied v n c d = (Ok u, d') ->
    executed d' = executed d /\ recorded d' = (recorded d ++ [(v, c)])%list
}.

(** ** Migrate *)

Section migrate.
Context {Db : Type} `{MigrationDb Db}.

(** A statement, its error wrapped. *)
Definition stmt (wrap : string -> MigrateError) (f : Db -> result string () * Db) : Tx Db MigrateError () := fun d =>
  match f d with (Ok _, d') => (Ok tt, d') | (Err msg, d') => (Err (wrap msg), d') end.

Definition path_le (a b : string * string) : Prop := String.leb a.1 b.1 = true.
#[export] Instance path_le_dec a b : Decision (path_le a b).
Proof. unfold path_le. apply _. Defined.

(** The numbers of the files are 1, 2, 3, .. *)
Fixpoint check_sequence (expected : Z) (files : list (string * string)) : result MigrateError () :=
  match files with
  | [] => Ok tt
  | (f, _) :: files =>
      version ← parseVersion f;
      if version =? expected then check_sequence (expected + 1) files
      else Err (OutOfSequence expected version (Base f))
  end.

(** One file; [commit] says whether its transaction could be begun and committed. *)
Definition migrate_file (commit : Z -> bool) (applied : gmap Z string) (file : string * string) : Tx Db MigrateError () :=
  let '(f, sql) := file in
  let version := match parseVersion f with Ok v => v | Err _ => 0 end in
  let name := Base f in
  let checksum := sha256Hex sql in
  match applied !! version with
  | Some old => if negb (String.eqb old checksum) then tx_fail (ChecksumMismatch version name) else mret tt
  | None =>
      Tx_transaction NotCommitted (commit version) (
        _ ← stmt (ScriptFailed name) (exec_script sql);
        stmt RecordFailed (insert_applied version name checksum))
  end.

Fixpoint migrate_files (commit : Z -> bool) (applied : gmap Z string) (files : list (string * string)) : Tx Db MigrateError () :=
  match files with
  | [] => mret tt
  | file :: files => _ ← migrate_file commit applied file; migrate_files commit applied files
  end.

Definition applied_map (rows : list (Z * string)) : gmap Z string := foldl (fun m r => <[r.1 := r.2]> m) ∅ rows.

(** What is left to run, from the rows of the table. *)
Definition migrate_from (commit : Z -> bool) (files : list (string * string)) : Tx Db MigrateError () := fun d =>
  match select_applied d with
  | Err msg => (Err (ReadApplied msg), d)
  | Ok rows =>
      match check_sequence 1 files with
      | Err e => (Err e, d)
      | Ok _ => migrate_files commit (applied_map rows) files d
      end
  end.

Definition Migrate (commit : Z -> bool) (embedded : list (string * string)) : Tx Db MigrateError () :=
  _ ← stmt SchemaTable ensure_table; migrate_from commit (merge_sort path_le embedded).
End migrate.

(** ** What a migration does *)

Section laws.
Context {Db : Type} `{MigrationDbLaws Db}.

(** A file that passed the check with its number. *)
Fixpoint numbered (n : Z) (files : list (string * string)) : list (Z * string) :=
  match files with [] => [] | (_, sql) :: files => (n, sql) :: numbered (n + 1) files end.

(** The scripts that have not run. *)
Definition pending (applied : gmap Z string) (files : list (Z * string)) : list (Z * string) :=
  List.filter (fun f => negb (bool_decide (is_Some (applied !! f.1)))) files.

(** What running some scripts leaves. *)
Definition ran (scripts : list (Z * string)) (d d' : Db) : Prop :=
  executed d' = (executed d ++ map snd scripts)%list /\
  recorded d' = (recorded d ++ map (fun f => (f.1, sha256Hex f.2)) scripts)%list.

Lemma ran_none d d' : executed d' = executed d -> recorded d' = recorded d -> ran [] d d'.
Proof. intros He Hr. split; cbn; by rewrite app_nil_r. Qed.
Lemma ran_trans a b d1 d2 d3 : ran a d1 d2 -> ran b d2 d3 -> ran (a ++ b) d1 d3.
Proof. intros [E1 R1] [E2 R2]. split; [rewrite E2, E1|rewrite R2, R1]; by rewrite <- app_assoc, map_app. Qed.

Lemma migrate_file_cases commit applied f sql v d res d' : parseVersion f = Ok v ->
  migrate_file commit applied (f, sql) d = (res, d') ->
  (exists e, res = Err e /\ ran [] d d') \/
  (res = Ok tt /\ ran (pending applied [(v, sql)]) d d' /\ (applied !! v = None \/ applied !! v = Some (sha256Hex sql))).
Proof.
  intros Hv. unfold migrate_file. rewrite Hv. unfold pending. cbn [List.filter fst]. destruct (applied !! v) as [old|] eqn:Ha.
  - rewrite bool_decide_true by done. cbn [negb]. destruct (String.eqb_spec old (sha256Hex sql)) as [->|Hne]; cbn [negb];
      intros [= <- <-]; [right; auto using ran_none|left; eauto using ran_none].
  - rewrite bool_decide_false by by intros []. cbn [negb].
    intros [(e & -> & ->)|(u & -> & Ht)]%Tx_transaction_cases; [left; eauto using ran_none|right].
    apply tx_bind_Ok in Ht as (u' & d1 & Hx & Hi). unfold stmt in Hx, Hi.
    destruct (exec_script sql d) as [[x|] d1'] eqn:Hex; [|done]. injection Hx as _ <-.
    destruct (insert_applied v (Base f) (sha256Hex sql) d1') as [[y|] d2'] eqn:Hin; [|done]. injection Hi as <- <-.
    destruct (exec_ok _ _ _ _ Hex) as [E1 R1], (insert_ok _ _ _ _ _ _ Hin) as [E2 R2]. splits; [done| |by left].
    split; [by rewrite E2, E1|by rewrite R2, R1].
Qed.

Lemma migrate_files_cases commit applied files n d res d' : check_sequence n files = Ok tt ->
  migrate_files commit applied files d = (res, d') ->
  (exists e k, res = Err e /\ ran (take k (pending applied (numbered n files))) d d') \/
  (res = Ok tt /\ ran (pending applied (numbered n files)) d d' /\
   forall v sql, (v, sql) ∈ numbered n files -> applied !! v = None \/ applied !! v = Some (sha256Hex sql)).
Proof.
  revert n d. induction files as [|[f sql] files IH]; intros n d; cbn [check_sequence migrate_files numbered].
  { intros _ [= <- <-]. right. splits; [done|by apply ran_none|]. intros v sql Hin. by apply not_elem_of_nil in Hin. }
  destruct (parseVersion f) as [v|e] eqn:Hv; [|done]. cbn [mbind result_bind]. destruct (Z.eqb_spec v n) as [->|]; [|done].
  intros Hseq. unfold mbind, Tx_bind. destruct (migrate_file commit applied (f, sql) d) as [[u|e] d1] eqn:Hf.
  - apply (migrate_file_cases _ _ _ _ _ _ _ _ Hv) in Hf as [(e & [=] & _)|(_ & Hran & Hold)].
    intros Hm. assert (Hsplit : pending applied ((n, sql) :: numbered (n + 1) files) =
      (pending applied [(n, sql)] ++ pending applied (numbered (n + 1) files))%list).
    { unfold pending. cbn [List.filter]. by destruct (negb _). }
    destruct (IH _ _ Hseq Hm) as [(e & k & -> & Hr)|(-> & Hr & Hall)]; [left; exists e, (List.length (pending applied [(n, sql)]) + k)%nat|right];
      rewrite Hsplit.
    + split; [done|]. rewrite take_app_add. by apply (ran_trans _ _ _ d1).
    + splits; [done|by apply (ran_trans _ _ _ d1)|]. intros v sql' [[= -> ->]|Hin]%elem_of_cons; auto.
  - apply (migrate_file_cases _ _ _ _ _ _ _ _ Hv) in Hf as [(e' & [= <-] & Hran)|([=] & _)].
    intros [= <- <-]. left. by exists e, 0%nat.
Qed.

Lemma applied_map_spec rows v c : NoDup (map fst rows) -> applied_map rows !! v = Some c <-> (v, c) ∈ rows.
Proof.
  induction rows as [|[w x] rows IH] using rev_ind; [intros _; split; [done|intros Hin; by apply not_elem_of_nil in Hin]|].
  unfold applied_map. rewrite foldl_app, map_app, NoDup_app. cbn [foldl map fst snd]. fold (applied_map rows).
  intros (Hnd & Hdis & _). rewrite lookup_insert, elem_of_app, list_elem_of_singleton. case_decide as Hw.
  - subst w. split; [intros [= ->]; by right|]. intros [Hin|[= ->]]; [|done].
    exfalso. apply (Hdis v); [|by left]. apply list_elem_of_In, (in_map fst rows (v, c)), list_elem_of_In, Hin.
  - rewrite IH by done. split; [by left|]. intros [Hin|[= -> ->]]; done.
Qed.

(** The scripts whose numbers the table has not recorded. *)
Definition todo (d : Db) (files : list (string * string)) : list (Z * string) :=
  List.filter (fun f => negb (bool_decide (f.1 ∈ map fst (recorded d)))) (numbered 1 files).

Lemma todo_pending d rows files : NoDup (map fst (recorded d)) -> rows ≡ₚ recorded d ->
  pending (applied_map rows) (numbered 1 files) = todo d files.
Proof.
  intros Hnd Hp. assert (Hnd' : NoDup (map fst rows)) by by rewrite Hp.
  unfold pending, todo. apply List.filter_ext. intros [v sql]. cbn [fst]. f_equal. apply bool_decide_ext. split.
  - intros [c Hc]. apply applied_map_spec in Hc; [|done]. rewrite Hp in Hc.
    apply list_elem_of_In, in_map_iff. exists (v, c). split; [done|by apply list_elem_of_In].
  - intros Hin. apply list_elem_of_In, in_map_iff in Hin as ([w c] & Hw & Hin). cbn in Hw. subst w. exists c.
    apply applied_map_spec; [done|]. rewrite Hp. by apply list_elem_of_In.
Qed.

Lemma Migrate_cases commit embedded d res d' : NoDup (map fst (recorded d)) -> Migrate commit embedded d = (res, d') ->
  let files := merge_sort path_le embedded in
  (exists e k, res = Err e /\ ran (take k (todo d files)) d d') \/
  (res = Ok tt /\ ran (todo d files) d d' /\
   forall v sql c, (v, sql) ∈ numbered 1 files -> (v, c) ∈ recorded d -> c = sha256Hex sql).
Proof.
  intros Hnd. unfold Migrate, mbind, Tx_bind, stmt. destruct (ensure_table d) as [[u|msg] d1] eqn:He;
    destruct (ensure_same _ _ _ He) as [E1 R1]; [|intros [= <- <-]; left; by exists (SchemaTable msg), 0%nat; split; [|apply ran_none]].
  set (files := merge_sort path_le embedded). unfold migrate_from.
  destruct (select_applied d1) as [rows|msg] eqn:Hsel; [|intros [= <- <-]; left; by exists (ReadApplied msg), 0%nat; split; [|apply ran_none]].
  pose proof (select_rows _ _ Hsel) as Hp. rewrite R1 in Hp.
  destruct (check_sequence 1 files) as [[]|e] eqn:Hseq; [|intros [= <- <-]; left; by exists e, 0%nat; split; [|apply ran_none]].
  intros Hm. assert (H01 : ran [] d d1) by by apply ran_none.
  destruct (migrate_files_cases _ _ _ _ _ _ _ Hseq Hm) as [(e & k & -> & Hr)|(-> & Hr & Hold)]; rewrite (todo_pending d) in Hr by done.
  - left. exists e, k. split; [done|]. exact (ran_trans [] _ _ _ _ H01 Hr).
  - right. splits; [done|exact (ran_trans [] _ _ _ _ H01 Hr)|]. intros v sql c Hin Hc.
    assert (Hlook : applied_map rows !! v = Some c) by (apply applied_map_spec; by rewrite Hp).
    destruct (Hold v sql Hin) as [Hn|Hs]; congruence.
Qed.

Lemma numbered_ge n files v : v ∈ map fst (numbered n files) -> n <= v.
Proof.
  revert n. induction files as [|[f sql] files IH]; intros n; cbn [numbered map]; [intros Hin; by apply not_elem_of_nil in Hin|].
  intros [->|Hin]%elem_of_cons; [cbn; lia|]. apply IH in Hin. lia.
Qed.
Lemma numbered_NoDup n files : NoDup (map fst (numbered n files)).
Proof.
  revert n. induction files as [|[f sql] files IH]; intros n; cbn [numbered map fst]; constructor; [|apply IH].
  intros Hin%numbered_ge. lia.
Qed.

Lemma todo_fresh d files k : NoDup (map fst (recorded d)) ->
  NoDup (map fst (recorded d) ++ map fst (take k (todo d files))).
Proof.
  intros Hnd. apply NoDup_app. splits; [done| |].
  - intros v Hv Hin. apply list_elem_of_In, in_map_iff in Hin as ([w sql] & Hw & Hin). cbn in Hw. subst w.
    apply list_elem_of_In, (subseteq_take k), list_elem_of_In in Hin. apply filter_In in Hin as [_ Hn].
    rewrite bool_decide_true in Hn by done. done.
  - assert (Hsub : NoDup (map fst (todo d files))).
    { unfold todo. pose proof (numbered_NoDup 1 files) as Hn. induction (numbered 1 files) as [|f l IH]; [constructor|].
      cbn [map List.filter] in Hn |- *. apply NoDup_cons in Hn as [Hf Hl]. destruct (negb _); [|by apply IH].
      cbn [map]. apply NoDup_cons. split; [|by apply IH]. contradict Hf.
      apply list_elem_of_In, in_map_iff in Hf as (g & Hg & Hin). apply filter_In in Hin as [Hin _].
      apply list_elem_of_In, in_map_iff. by exists g. }
    rewrite <- firstn_map. eapply sublist_NoDup; [exact Hsub|apply sublist_take].
Qed.

Lemma filter_none {A} (f : A -> bool) l : (forall x, x ∈ l -> f x = false) -> List.filter f l = [].
Proof.
  intros Hf. induction l as [|x l IH]; [done|]. cbn. rewrite Hf by by left. apply IH. intros y Hy. apply Hf. by right.
Qed.

(** ** Properties *)

(** C32: Whatever fails on the way, a migration runs scripts only in the order of their
    numbers, each together with the row that records it, and none that is recorded: the scripts
    run are a first part of those that were still to do.  When it succeeds all of them have run,
    every embedded script is recorded with its checksum, in particular none was edited since it
    ran, and the next start runs nothing. *)
Theorem Migrate_spec commit embedded d res d' : NoDup (map fst (recorded d)) -> Migrate commit embedded d = (res, d') ->
  let files := merge_sort path_le embedded in
  (exists k, ran (take k (todo d files)) d d') /\ NoDup (map fst (recorded d')) /\
  (res = Ok tt ->
     ran (todo d files) d d' /\
     (forall v sql, (v, sql) ∈ numbered 1 files -> (v, sha256Hex sql) ∈ recorded d') /\
     (forall commit' res' d'', Migrate commit' embedded d' = (res', d'') ->
        executed d'' = executed d' /\ recorded d'' = recorded d')).
Proof.
  intros Hnd Hm files. pose proof (Migrate_cases _ _ _ _ _ Hnd Hm) as Hc. cbn zeta in Hc. fold files in Hc.
  assert (Hran : exists k, ran (take k (todo d files)) d d').
  { destruct Hc as [(e & k & _ & Hr)|(_ & Hr & _)]; [by exists k|]. exists (List.length (todo d files)). by rewrite take_ge. }
  assert (Hnd' : NoDup (map fst (recorded d'))).
  { destruct Hran as (k & _ & ->). rewrite map_app, map_map. cbn [fst]. apply todo_fresh, Hnd. }
  splits; [done|done|]. intros ->. destruct Hc as [(e & k & [=] & _)|(_ & Hr & Hsum)].
  assert (Hall : forall v sql, (v, sql) ∈ numbered 1 files -> (v, sha256Hex sql) ∈ recorded d').
  { intros v sql Hin. destruct Hr as [_ ->]. apply elem_of_app. destruct (decide (v ∈ map fst (recorded d))) as [Hv|Hv].
    - left. apply list_elem_of_In, in_map_iff in Hv as ([w c] & Hw & Hv). cbn in Hw. subst w. apply list_elem_of_In in Hv.
      by rewrite <- (Hsum v sql c Hin Hv).
    - right. apply list_elem_of_In, in_map_iff. exists (v, sql). split; [done|]. apply filter_In.
      split; [by apply list_elem_of_In|]. cbn [fst]. by rewrite bool_decide_false. }
  splits; [done|done|]. intros commit' res' d'' Hm'.
  assert (Hnone : todo d' files = []).
  { unfold todo. apply filter_none. intros [v sql] Hin. cbn [fst]. rewrite bool_decide_true; [done|].
    apply list_elem_of_In, in_map_iff. exists (v, sha256Hex sql). split; [done|]. by apply list_elem_of_In, Hall. }
  pose proof (Migrate_cases _ _ _ _ _ Hnd' Hm') as Hc'. cbn zeta in Hc'. fold files in Hc'. rewrite Hnone in Hc'.
  assert (Hr' : ran [] d' d'') by (destruct Hc' as [(e & k & _ & Hr')|(_ & Hr' & _)]; [by rewrite take_nil in Hr'|done]).
  destruct Hr' as [-> ->]. by rewrite !app_nil_r.
Qed.
End laws.

(** ** Witness: two scripts, the second of which fails the first time *)

Record MemMigrations : Type := mkMemMigrations { mm_executed : list string; mm_recorded : list (Z * string); mm_broken : bool }.

#[local] Instance mem_migrations : MigrationDb MemMigrations := {|
  ensure_table d := (Ok tt, d);
  select_applied d := Ok d.(mm_recorded);
  exec_script sql d :=
    if d.(mm_broken) && contains sql "INDEX" then (Err "Parser Error", d)
    else (Ok tt, mkMemMigrations (d.(mm_executed) ++ [sql]) d.(mm_recorded) d.(mm_broken));
  insert_applied v _ c d := (Ok tt, mkMemMigrations d.(mm_executed) (d.(mm_recorded) ++ [(v, c)]) d.(mm_broken))
|}.
#[local] Instance mem_migrations_laws : MigrationDbLaws MemMigrations.
Proof.
  refine {| executed := mm_executed; recorded := mm_recorded |}.
  - by intros d r d' [= _ <-].
  - by intros d l [= <-].
  - intros sql d u d'. cbn. destruct (_ && _); by intros [= _ <-].
  - by intros v n c d u d' [= _ <-].
Defined.

Definition demo_files : list (string * string) :=
  [("migrations/0002_index.sql", "CREATE INDEX"); ("migrations/0001_init.sql", "CREATE TABLE")].

Lemma Migrate_spec_witness :
  let '(r1, d1) := Migrate (fun _ => true) demo_files (mkMemMigrations [] [] true) in
  let '(r2, d2) := Migrate (fun _ => true) demo_files (mkMemMigrations d1.(mm_executed) d1.(mm_recorded) false) in
  r1 = Err (ScriptFailed "0002_index.sql" "Parser Error") /\ d1.(mm_executed) = ["CREATE TABLE"] /\
  r2 = Ok tt /\ d2.(mm_executed) = ["CREATE TABLE"; "CREATE INDEX"] /\
  forall commit' res' d'', Migrate commit' demo_files d2 = (res', d'') -> d''.(mm_executed) = d2.(mm_executed).
Proof.
  destruct (Migrate (fun _ => true) demo_files (mkMemMigrations [] [] true)) as [r1 d1] eqn:H1.
  assert (E1 : (r1, d1) = (Err (ScriptFailed "0002_index.sql" "Parser Error"),
    mkMemMigrations ["CREATE TABLE"] [(1, sha256Hex "CREATE TABLE")] true)) by (rewrite <- H1; vm_compute; reflexivity).
  injection E1 as -> ->.
  destruct (Migrate (fun _ => true) demo_files (mkMemMigrations _ _ false)) as [r2 d2] eqn:H2.
  assert (E2 : r2 = Ok tt /\ d2.(mm_executed) = ["CREATE TABLE"; "CREATE INDEX"]).
  { split; [apply (f_equal fst) in H2|apply (f_equal (fun p => mm_executed p.2)) in H2]; cbn [fst snd] in H2; rewrite <- H2;
      vm_compute; reflexivity. }
  destruct E2 as [E2 E3]. split; [reflexivity|]. split; [reflexivity|]. split; [exact E2|]. split; [exact E3|].
  destruct (Migrate_spec (fun _ => true) demo_files (mkMemMigrations ["CREATE TABLE"] [(1, sha256Hex "CREATE TABLE")] false) r2 d2)
    as (_ & _ & Hdone).
  - cbn. apply NoDup_singleton.
  - exact H2.
  - intros commit' res' d'' Hm. exact (proj1 (proj2 (proj2 (Hdone E2)) commit' res' d'' Hm)).
Defined.
