(* ===== verification/MetricsReads.v ===== *)
(** * Reading the metrics store ([internal/metrics-engine/duckdb-reads.go])

    The queries over the tables of events and payloads and what the code makes of their rows: the
    overview, the two time series, the page of the request log and the detail of a request.  A
    query reads a table, which may fail; its WHERE, GROUP BY and ORDER BY are functions of the rows
    as the SQL text says.  Times are in nanoseconds, stored to the microsecond.  A panic (an index
    out of range) is [None]. *)

From S2P Require Import Prelude GoBase Float64 Catalog Money Pricing VirtualKey Context MetricsEvent EventRows MetricsEngine DuckDB.
From stdpp Require Import sorting.
Local Open Scope Z_scope.

(** ** Cells *)

Definition cell (col : nat) (row : Cells) : Cell := default None (row !! col).

(** [coalesce(column, ..)]. *)
Definition text (c : Cell) : string := match c with Some (VString s) => s | _ => "" end.
Definition number (c : Cell) : Z := match c with Some (VInt n) => n | _ => 0 end.
Definition flag (c : Cell) : bool := match c with Some (VBool b) => b | _ => false end.
(** [coalesce(column::VARCHAR, '')] of a JSON column. *)
Definition json_text (c : Cell) : string := match c with Some (VRaw s) => s | _ => "" end.

(** [epoch_us], and [UnixMicro] of a parameter. *)
Definition UnixMicro (t : Z) : Z := t / 1000.
Definition start_us (row : Cells) : Z := match cell colStartedAt row with Some (VTime t) => UnixMicro t | _ => 0 end.

(** [outcome_result NOT IN ('ok', 'client_abort')] and [outcome_result = 'client_abort']. *)
Definition isError (row : Cells) : bool :=
  let r := text (cell colOutcomeResult row) in negb (String.eqb r "ok" || String.eqb r "client_abort").
Definition isCancelled (row : Cells) : bool := String.eqb (text (cell colOutcomeResult row)) "client_abort".
Definition isOk (row : Cells) : bool := String.eqb (text (cell colOutcomeResult row)) "ok".

(** [started_at >= from AND started_at < to]. *)
Definition started_in (from to : Z) (row : Cells) : bool :=
  (UnixMicro from <=? start_us row) && (start_us row <? UnixMicro to).

(** [count( * ) FILTER (..)] and the sum of a column. *)
Definition count {A} (f : A -> bool) (l : list A) : Z := Z.of_nat (List.length (List.filter f l)).
Fixpoint total {A} (f : A -> Z) (l : list A) : Z := match l with [] => 0 | r :: l => f r + total f l end.

Definition billed_tokens (row : Cells) : Z :=
  number (cell colUsageInputTokens row) + number (cell colUsageOutputTokens row).
Definition cost (row : Cells) : Z := number (cell colCostNanoUSD row).

(** A BIGINT, or the error of the conversion. *)
Definition bigint (z : Z) : result string Z :=
  if (MinInt64 <=? z) && (z <=? MaxInt64) then Ok z else Err "Conversion Error".

Definition usd (nano : Z) : f64 := f64_div (f64_of_Z nano) (f64_of_Z 1000000000).
Definition ms (us : Z) : f64 := f64_div (f64_of_Z us) (f64_of_Z 1000).

Class DuckRead (Db : Type) := {
  (** The rows of a table, as a query sees them. *)
  read_table : string -> Db -> result string (list Cells);
  (** [quantile_cont(column, p)]; no value when no row is left. *)
  quantile_cont : f64 -> list Z -> option f64
}.

Inductive ReadFailure : Type :=
| ErrNotFound
| QueryFailed (what msg : string)
| DecodeFailed (what msg : string).

(** ** Overview *)

Record OverviewTiles : Type := mkOverviewTiles {
  TRequests : Z;
  TErrors : Z;
  TCancelled : Z;
  ErrorRate : f64;
  P95LatencyMS : f64;
  P99LatencyMS : f64;
  TTotalTokens : Z;
  TSpendUSD : f64
}.

Section reads.
Context {Db : Type} `{DuckRead Db}.

Definition p95 : f64 := f64_div (f64_of_Z 95) (f64_of_Z 100).
Definition p99 : f64 := f64_div (f64_of_Z 99) (f64_of_Z 100).

Definition routed (row : Cells) : bool := match cell colRoutingCredentialID row with Some _ => true | None => false end.

Definition GetOverviewTiles (from to : Z) (d : Db) : result ReadFailure OverviewTiles :=
  match read_table events_table d with
  | Err e => Err (QueryFailed "overview tiles" e)
  | Ok rows =>
      let rows := List.filter (started_in from to) rows in
      let latencies := map (fun r => number (cell colTimingTotalUS r)) (List.filter routed rows) in
      match bigint (total billed_tokens rows), bigint (total cost rows) with
      | Ok tokens, Ok nano =>
          let requests := Z.of_nat (List.length rows) in
          let errors := count isError rows in
          Ok (mkOverviewTiles requests errors (count isCancelled rows)
                (if 0 <? requests then f64_div (f64_of_Z errors) (f64_of_Z requests) else f64_zero)
                (f64_div (default f64_zero (quantile_cont p95 latencies)) (f64_of_Z 1000))
                (f64_div (default f64_zero (quantile_cont p99 latencies)) (f64_of_Z 1000))
                tokens (usd nano))
      | Err e, _ | _, Err e => Err (QueryFailed "overview tiles" e)
      end
  end.

(** ** Time series *)

Record ProviderCount : Type := mkProviderCount { PcProvider : string; PcSuccess : Z }.
Record TimePoint : Type := mkTimePoint { TpT : Z; TpErrors : Z; TpCancelled : Z; TpProviders : list ProviderCount }.
Record TimeSummary : Type := mkTimeSummary { TsFrom : Z; TsTo : Z; TsBucket : Z; TsPoints : list TimePoint }.
Record SpendPoint : Type := mkSpendPoint { SpT : Z; SpSpendUSD : f64 }.
Record BudgetSpend : Type := mkBudgetSpend { BsBudgetID : string; BsFrom : Z; BsTo : Z; BsBucket : Z; BsPoints : list SpendPoint }.

(** The first bucket's start and the number of buckets; a bucket is at least a microsecond. *)
Definition bucketStart (from to bucket : Z) : option (Z * Z) :=
  let b := Z.quot bucket 1000 in
  if b =? 0 then None
  else
    let start := Z.quot (UnixMicro from) b * b * 1000 in
    Some (start, Z.quot (wrap64 (time_sub to start + bucket - 1)) bucket).

(** [make([]T, n)] filled with the start of each bucket; a negative length panics. *)
Definition points {A} (mk : Z -> A) (start n bucket : Z) : option (list A) :=
  if n <? 0 then None else Some (map (fun i => mk (start + Z.of_nat i * bucket)) (seq 0 (Z.to_nat n))).

(** [(epoch_us(started_at) - start) // bucket]. *)
Definition bucket_of_row (start bucket : Z) (row : Cells) : Z := Z.quot (start_us row - UnixMicro start) (Z.quot bucket 1000).

(** The groups of a query, in the order of their keys. *)
Definition key_le (a b : Z * string) : Prop := a.1 < b.1 \/ (a.1 = b.1 /\ String.leb a.2 b.2 = true).
#[export] Instance key_le_dec a b : Decision (key_le a b).
Proof. unfold key_le. apply _. Defined.
Definition groups (key : Cells -> Z * string) (rows : list Cells) : list (Z * string) :=
  merge_sort key_le (remove_dups (map key rows)).

Definition has_key (key : Cells -> Z * string) (k : Z * string) (row : Cells) : bool := bool_decide (key row = k).

(** [s.Points[idx]], updated. *)
Definition at_index {A} (f : A -> A) (i : Z) (l : list A) : option (list A) :=
  if (i <? 0) || (Z.of_nat (List.length l) <=? i) then None else Some (alter f (Z.to_nat i) l).

Fixpoint foldO {S A} (f : S -> A -> option S) (s : S) (l : list A) : option S :=
  match l with [] => Some s | a :: l => s ← f s a; foldO f s l end.

Definition add_group (key : Cells -> Z * string) (rows : list Cells) (ps : list TimePoint) (k : Z * string) : option (list TimePoint) :=
  let group := List.filter (has_key key k) rows in
  let ok := count isOk group in
  at_index (fun p => mkTimePoint p.(TpT) (p.(TpErrors) + count isError group) (p.(TpCancelled) + count isCancelled group)
    (if (0 <? ok) && negb (is_empty k.2) then (p.(TpProviders) ++ [mkProviderCount k.2 ok])%list else p.(TpProviders))) k.1 ps.

Definition summary_key (start bucket : Z) (row : Cells) : Z * string := (bucket_of_row start bucket row, text (cell colLLMProvider row)).

Definition GetRequestSummaryByTime (from to bucket : Z) (d : Db) : option (result ReadFailure TimeSummary) :=
  '(start, n) ← bucketStart from to bucket;
  ps ← points (fun t => mkTimePoint t 0 0 []) start n bucket;
  match read_table events_table d with
  | Err e => Some (Err (QueryFailed "request summary" e))
  | Ok rows =>
      let rows := List.filter (started_in from to) rows in
      let key := summary_key start bucket in
      ps ← foldO (add_group key rows) ps (groups key rows);
      Some (Ok (mkTimeSummary from to bucket ps))
  end.

Definition set_spend (key : Cells -> Z * string) (rows : list Cells) (ps : list SpendPoint) (k : Z * string) :
    option (list SpendPoint) :=
  at_index (fun p => mkSpendPoint p.(SpT) (usd (total cost (List.filter (has_key key k) rows)))) k.1 ps.

(** The conversion of a group's sum fails the query. *)
Definition sums_fit (key : Cells -> Z * string) (rows : list Cells) : bool :=
  forallb (fun k => is_ok (bigint (total cost (List.filter (has_key key k) rows)))) (groups key rows).

Definition GetBudgetSpendByTime (budgetID : string) (from to bucket : Z) (d : Db) : option (result ReadFailure BudgetSpend) :=
  '(start, n) ← bucketStart from to bucket;
  ps ← points (fun t => mkSpendPoint t f64_zero) start n bucket;
  match read_table events_table d with
  | Err e => Some (Err (QueryFailed "budget spend" e))
  | Ok rows =>
      let rows := List.filter (fun r => bool_decide (cell colGovernanceBudgetID r = Some (VString budgetID)) && started_in from to r) rows in
      let key r := (bucket_of_row start bucket r, "") in
      if negb (sums_fit key rows) then Some (Err (QueryFailed "budget spend" "Conversion Error"))
      else
        ps ← foldO (set_spend key rows) ps (groups key rows);
        Some (Ok (mkBudgetSpend budgetID from to bucket ps))
  end.
End reads.

(** ** Groups *)

Lemma total_app {A} (f : A -> Z) l1 l2 : total f (l1 ++ l2)%list = total f l1 + total f l2.
Proof. induction l1 as [|a l1 IH]; [done|]. cbn. rewrite IH. lia. Qed.
Lemma total_ext {A} (f g : A -> Z) l : (forall a, a ∈ l -> f a = g a) -> total f l = total g l.
Proof.
  intros Hfg. induction l as [|a l IH]; [done|]. cbn. rewrite (Hfg a), IH; [done| |by left]. intros b Hb. apply Hfg. by right.
Qed.
Lemma total_add {A} (f g : A -> Z) l : total (fun a => f a + g a) l = total f l + total g l.
Proof. induction l as [|a l IH]; [done|]. cbn. rewrite IH. lia. Qed.
Lemma total_zero {A} (l : list A) : total (fun _ => 0) l = 0.
Proof. by induction l. Qed.
Lemma count_total {A} (f : A -> bool) l : count f l = total (fun a => if f a then 1 else 0) l.
Proof. unfold count. induction l as [|a l IH]; [done|]. cbn. destruct (f a); cbn [List.length]; lia. Qed.
Lemma total_filter {A} (f : A -> Z) (p : A -> bool) l : total f (List.filter p l) = total (fun a => if p a then f a else 0) l.
Proof. induction l as [|a l IH]; [done|]. cbn. destruct (p a); cbn; rewrite IH; lia. Qed.
Lemma filter_filter {A} (f g : A -> bool) l : List.filter f (List.filter g l) = List.filter (fun x => g x && f x) l.
Proof. induction l as [|a l IH]; [done|]. cbn. destruct (g a); cbn; [destruct (f a)|]; by rewrite IH. Qed.
Lemma count_filter {A} (f g : A -> bool) l : count f (List.filter g l) = count (fun x => g x && f x) l.
Proof. unfold count. by rewrite filter_filter. Qed.

Lemma total_at {A} `{EqDecision A} (v : Z) (k : A) (p : A -> bool) ks : NoDup ks -> k ∈ ks ->
  total (fun x => if bool_decide (k = x) then v else 0) (List.filter p ks) = if p k then v else 0.
Proof.
  assert (Hout : forall l, k ∉ l -> total (fun x => if bool_decide (k = x) then v else 0) (List.filter p l) = 0).
  { intros l Hl. etransitivity; [|apply (total_zero (List.filter p l))]. apply total_ext. intros x Hx.
    rewrite bool_decide_false; [done|]. intros ->. apply Hl. apply list_elem_of_In in Hx. apply list_elem_of_In. by apply filter_In in Hx as [Hx _]. }
  induction ks as [|x ks IH]; [intros _ Hk; by apply not_elem_of_nil in Hk|]. intros [Hx Hnd]%NoDup_cons [->|Hk]%elem_of_cons; cbn [List.filter].
  - destruct (p x); cbn; [|by apply Hout]. rewrite bool_decide_true by done. rewrite Hout by done. lia.
  - assert (k <> x) by (intros ->; done). destruct (p x); cbn; [rewrite bool_decide_false by done|]; rewrite IH by done; lia.
Qed.

(** Summing over the groups whose key satisfies [p] is summing over the rows whose key does. *)
Lemma total_groups (key : Cells -> Z * string) (g : Cells -> Z) (p : Z * string -> bool) rows ks : NoDup ks ->
  (forall r, r ∈ rows -> key r ∈ ks) ->
  total (fun k => total g (List.filter (has_key key k) rows)) (List.filter p ks) = total g (List.filter (fun r => p (key r)) rows).
Proof.
  intros Hnd. induction rows as [|r rows IH]; intros Hin; cbn [List.filter]; [apply total_zero|].
  rewrite (total_ext _ (fun k => (if bool_decide (key r = k) then g r else 0) + total g (List.filter (has_key key k) rows))).
  - rewrite total_add, IH by (intros r' Hr'; apply Hin; by right). rewrite total_at by (try done; apply Hin; by left).
    destruct (p (key r)); cbn; lia.
  - intros k _. cbn [List.filter]. unfold has_key at 1. by destruct (bool_decide (key r = k)).
Qed.

Lemma count_groups (key : Cells -> Z * string) (e : Cells -> bool) (p : Z * string -> bool) rows ks : NoDup ks ->
  (forall r, r ∈ rows -> key r ∈ ks) ->
  total (fun k => count e (List.filter (has_key key k) rows)) (List.filter p ks) = count (fun r => p (key r) && e r) rows.
Proof.
  intros Hnd Hin. rewrite (total_ext _ (fun k => total (fun r => if e r then 1 else 0) (List.filter (has_key key k) rows)))
    by (intros k _; apply count_total).
  rewrite total_groups, total_filter, count_total by done. apply total_ext. intros r _. by destruct (p (key r)).
Qed.

Lemma groups_spec key rows : NoDup (groups key rows) /\ forall k, k ∈ groups key rows <-> exists r, r ∈ rows /\ key r = k.
Proof.
  unfold groups. split.
  - rewrite merge_sort_Permutation. apply NoDup_remove_dups.
  - intros k. rewrite merge_sort_Permutation, elem_of_remove_dups, list_elem_of_In, in_map_iff. setoid_rewrite <- list_elem_of_In. naive_solver.
Qed.

Lemma at_index_spec {A} (f : A -> A) i l : 0 <= i < Z.of_nat (List.length l) -> at_index f i l = Some (alter f (Z.to_nat i) l).
Proof.
  intros Hi. unfold at_index. destruct (Z.ltb_spec i 0); [lia|]. destruct (Z.leb_spec (Z.of_nat (List.length l)) i); [lia|]. done.
Qed.

Definition of_point (i : nat) (k : Z * string) : bool := k.1 =? Z.of_nat i.

(** The providers a point lists. *)
Definition listed (key : Cells -> Z * string) (rows : list Cells) (k : Z * string) : option ProviderCount :=
  let ok := count isOk (List.filter (has_key key k) rows) in
  if (0 <? ok) && negb (is_empty k.2) then Some (mkProviderCount k.2 ok) else None.

Lemma add_groups_spec key rows ks ps : (forall k, k ∈ ks -> 0 <= k.1 < Z.of_nat (List.length ps)) ->
  exists ps', foldO (add_group key rows) ps ks = Some ps' /\ List.length ps' = List.length ps /\
    forall i p, ps !! i = Some p -> ps' !! i = Some (mkTimePoint p.(TpT)
      (p.(TpErrors) + total (fun k => count isError (List.filter (has_key key k) rows)) (List.filter (of_point i) ks))
      (p.(TpCancelled) + total (fun k => count isCancelled (List.filter (has_key key k) rows)) (List.filter (of_point i) ks))
      (p.(TpProviders) ++ omap (listed key rows) (List.filter (of_point i) ks))).
Proof.
  revert ps. induction ks as [|k ks IH]; intros ps Hks; cbn [foldO List.filter].
  { exists ps. splits; [done|done|]. intros i p ->. cbn. rewrite app_nil_r, !Z.add_0_r. by destruct p. }
  assert (Hk : 0 <= k.1 < Z.of_nat (List.length ps)) by (apply Hks; by left).
  destruct (add_group key rows ps k) as [ps1|] eqn:Hstep; unfold add_group in Hstep; rewrite at_index_spec in Hstep by done; [|done].
  cbn [mbind option_bind]. injection Hstep as <-. set (f := fun p : TimePoint => _).
  destruct (IH (alter f (Z.to_nat k.1) ps)) as (ps' & -> & Hlen & Hps').
  { intros k' Hk'. rewrite length_alter. apply Hks. by right. }
  exists ps'. splits; [done|by rewrite Hlen, length_alter|]. intros i p Hp. destruct (of_point i k) eqn:Hof; unfold of_point in Hof;
    [apply Z.eqb_eq in Hof as Hi|apply Z.eqb_neq in Hof as Hi].
  - rewrite (Hps' i (f p)) by (rewrite Hi, Nat2Z.id, list_lookup_alter_eq, Hp; done). f_equal. unfold f.
    cbn [TpT TpErrors TpCancelled TpProviders total omap list_omap]. unfold listed at 2.
    f_equal; [by rewrite Z.add_assoc|by rewrite Z.add_assoc|]. by destruct ((0 <? _) && _); rewrite <- ?app_assoc.
  - apply Hps'. rewrite list_lookup_alter_ne by lia. done.
Qed.

(** ** Buckets *)

(** A range the engine lets through: after the epoch, with buckets of whole microseconds. *)
Record proper (from to bucket : Z) : Prop := mkProper {
  pr_from : 0 <= from;
  pr_to : from <= to;
  pr_bucket : 0 < bucket;
  pr_micro : bucket mod 1000 = 0;
  pr_fits : to - from + 2 * bucket <= MaxInt64
}.

Lemma bucketStart_spec from to bucket : proper from to bucket -> exists S n,
  bucketStart from to bucket = Some (S * 1000, n) /\ S * 1000 <= from < S * 1000 + bucket /\
  0 <= n /\ n * bucket < to - from + 2 * bucket /\ to <= S * 1000 + n * bucket /\
  forall row, started_in from to row = true -> forall i, bucket_of_row (S * 1000) bucket row = i <->
    S + i * (bucket / 1000) <= start_us row < S + (i + 1) * (bucket / 1000).
Proof.
  intros [Hfrom Hto Hb Hmod Hfit]. set (b := bucket / 1000).
  assert (Hbb : bucket = b * 1000) by (unfold b; pose proof (Z.div_mod bucket 1000); lia).
  assert (Hquot : Z.quot bucket 1000 = b) by (rewrite Z.quot_div_nonneg by lia; done).
  assert (Hfus : 0 <= UnixMicro from) by (unfold UnixMicro; apply Z.div_pos; lia).
  assert (Hus : UnixMicro from * 1000 <= from < UnixMicro from * 1000 + 1000)
    by (unfold UnixMicro; pose proof (Z.div_mod from 1000); pose proof (Z.mod_pos_bound from 1000); lia).
  set (q := UnixMicro from / b). assert (Hq : q * b <= UnixMicro from < q * b + b)
    by (unfold q; pose proof (Z.div_mod (UnixMicro from) b); pose proof (Z.mod_pos_bound (UnixMicro from) b); nia).
  exists (q * b), (Z.quot (to - q * b * 1000 + bucket - 1) bucket).
  assert (Hstart : q * b * 1000 <= from < q * b * 1000 + bucket) by nia.
  assert (Hsub : in_int64 (to - q * b * 1000)) by (unfold in_int64, MinInt64, MaxInt64 in *; nia).
  set (n := Z.quot _ bucket).
  assert (Hn : n = (to - q * b * 1000 + bucket - 1) / bucket) by (unfold n; rewrite Z.quot_div_nonneg by nia; done).
  assert (Hnb : n * bucket <= to - q * b * 1000 + bucket - 1 < n * bucket + bucket).
  { rewrite Hn. pose proof (Z.div_mod (to - q * b * 1000 + bucket - 1) bucket).
    pose proof (Z.mod_pos_bound (to - q * b * 1000 + bucket - 1) bucket). lia. }
  splits; [|lia|lia|rewrite Hn; apply Z.div_pos; lia|lia|lia|].
  - unfold bucketStart. rewrite Hquot. destruct (Z.eqb_spec b 0); [lia|]. rewrite Z.quot_div_nonneg by lia. fold q.
    rewrite time_sub_exact by done. rewrite wrap64_small by (unfold in_int64, MinInt64, MaxInt64 in *; lia). done.
  - intros row Hr i. unfold started_in in Hr. apply andb_prop in Hr as [Hlo%Z.leb_le Hhi%Z.ltb_lt].
    unfold bucket_of_row. rewrite Hquot. replace (UnixMicro (q * b * 1000)) with (q * b) by (unfold UnixMicro; by rewrite Z.div_mul).
    rewrite Z.quot_div_nonneg by lia. pose proof (Z.div_mod (start_us row - q * b) b) as Hdm.
    pose proof (Z.mod_pos_bound (start_us row - q * b) b) as Hmb. split; [intros <-; lia|]. intros Hi.
    symmetry. apply (Z.div_unique _ _ i (start_us row - q * b - i * b)); lia.
Qed.

Lemma bucket_index from to bucket S n row : proper from to bucket -> bucketStart from to bucket = Some (S * 1000, n) ->
  started_in from to row = true -> 0 <= bucket_of_row (S * 1000) bucket row < n.
Proof.
  intros Hp Hs Hr. destruct (bucketStart_spec _ _ _ Hp) as (S' & n' & Hs' & HS & Hn & _ & Hto & Hb). rewrite Hs in Hs'.
  injection Hs' as HSS ->. assert (S = S') as -> by lia. destruct (Hb row Hr (bucket_of_row (S' * 1000) bucket row)) as [Hi _].
  specialize (Hi eq_refl). unfold started_in in Hr. apply andb_prop in Hr as [Hlo%Z.leb_le Hhi%Z.ltb_lt].
  destruct Hp as [Hf Ht Hbk Hmod _]. assert (Hbb : bucket = bucket / 1000 * 1000) by (pose proof (Z.div_mod bucket 1000); lia).
  set (b := bucket / 1000) in *. unfold UnixMicro in Hlo, Hhi.
  pose proof (Z.div_mod from 1000) as Hd1. pose proof (Z.mod_pos_bound from 1000) as Hm1.
  pose proof (Z.div_mod to 1000) as Hd2. pose proof (Z.mod_pos_bound to 1000) as Hm2. nia.
Qed.

Lemma points_spec {A} (mk : Z -> A) start n bucket : 0 <= n -> exists ps, points mk start n bucket = Some ps /\
  Z.of_nat (List.length ps) = n /\ forall i p, ps !! i = Some p <-> p = mk (start + Z.of_nat i * bucket) /\ Z.of_nat i < n.
Proof.
  intros Hn. unfold points. destruct (Z.ltb_spec n 0); [lia|]. eexists. split; [reflexivity|]. rewrite length_map, length_seq.
  split; [lia|]. intros i p. change (map ?f ?l) with (f <$> l). rewrite list_lookup_fmap, fmap_Some.
  setoid_rewrite lookup_seq. split; [intros (x & [-> Hx] & ->); split; [done|lia]|intros [-> Hi]; exists i; split; [lia|done]].
Qed.

(** ** Properties *)

(** Whether an event falls into the bucket that starts at [t]. *)
Definition in_bucket (t bucket : Z) (row : Cells) : bool :=
  (UnixMicro t <=? start_us row) && (start_us row <? UnixMicro (t + bucket)).

Lemma in_bucket_of from to bucket S n row i : proper from to bucket -> bucketStart from to bucket = Some (S * 1000, n) ->
  started_in from to row = true ->
  (bucket_of_row (S * 1000) bucket row =? i) = in_bucket (S * 1000 + i * bucket) bucket row.
Proof.
  intros Hp Hs Hr. destruct (bucketStart_spec _ _ _ Hp) as (S' & n' & Hs' & _ & _ & _ & _ & Hb). rewrite Hs in Hs'.
  injection Hs' as HSS ->. assert (S = S') as -> by lia. pose proof (Hb row Hr i) as Hi.
  pose proof (pr_micro _ _ _ Hp) as Hmod. assert (Hbb : bucket = bucket / 1000 * 1000) by (pose proof (Z.div_mod bucket 1000); lia).
  unfold in_bucket, UnixMicro. set (b := bucket / 1000) in *.
  replace ((S' * 1000 + i * bucket) / 1000) with (S' + i * b) by (rewrite Hbb; replace (S' * 1000 + i * (b * 1000)) with ((S' + i * b) * 1000) by lia; by rewrite Z.div_mul).
  replace ((S' * 1000 + i * bucket + bucket) / 1000) with (S' + (i + 1) * b)
    by (rewrite Hbb; replace (S' * 1000 + i * (b * 1000) + b * 1000) with ((S' + (i + 1) * b) * 1000) by lia; by rewrite Z.div_mul).
  destruct (Z.eqb_spec (bucket_of_row (S' * 1000) bucket row) i) as [Heq|Hne].
  - apply Hi in Heq. symmetry. apply andb_true_intro. split; [apply Z.leb_le|apply Z.ltb_lt]; lia.
  - symmetry. apply not_true_is_false. intros [H1%Z.leb_le H2%Z.ltb_lt]%andb_prop. apply Hne, Hi. lia.
Qed.

Lemma count_ext {A} (f g : A -> bool) l : (forall a, a ∈ l -> f a = g a) -> count f l = count g l.
Proof. intros Hfg. rewrite !count_total. apply total_ext. intros a Ha. by rewrite Hfg. Qed.

Lemma total_partition {A} (g : A -> Z) (e : A -> bool) rows n : (forall r, r ∈ rows -> 0 <= g r < Z.of_nat n) ->
  total (fun i => count (fun r => (g r =? Z.of_nat i) && e r) rows) (seq 0 n) = count e rows.
Proof.
  induction rows as [|r rows IH]; intros Hg; [apply total_zero|].
  rewrite (total_ext _ (fun i => (if bool_decide (Z.to_nat (g r) = i) then if e r then 1 else 0 else 0) +
    count (fun r => (g r =? Z.of_nat i) && e r) rows)).
  - rewrite total_add, IH by (intros r' Hr'; apply Hg; by right).
    assert (Hr : 0 <= g r < Z.of_nat n) by (apply Hg; by left).
    pose proof (total_at (if e r then 1 else 0) (Z.to_nat (g r)) (fun _ => true) (seq 0 n) (NoDup_seq 0 n)) as Ht.
    assert (Hall : List.filter (fun _ : nat => true) (seq 0 n) = seq 0 n).
    { clear. induction (seq 0 n) as [|x l IHl]; [done|]. cbn. by rewrite IHl. }
    rewrite Hall in Ht. rewrite Ht by (apply elem_of_seq; lia). rewrite !count_total. cbn [total]. done.
  - intros i _. rewrite !count_total. cbn [total]. f_equal. assert (Hr : 0 <= g r) by (apply (Hg r); by left).
    destruct (Z.eqb_spec (g r) (Z.of_nat i)) as [Hi|Hi]; cbn [andb].
    + rewrite bool_decide_true by lia. done.
    + rewrite bool_decide_false by lia. done.
Qed.

Lemma count_pos {A} (f : A -> bool) l : 0 < count f l -> exists a, a ∈ l /\ f a = true.
Proof.
  unfold count. destruct (List.filter f l) as [|a l'] eqn:Hf; [done|]. intros _. exists a.
  assert (Hin : In a (List.filter f l)) by (rewrite Hf; by left). apply filter_In in Hin as [Hin Ha].
  split; [by apply list_elem_of_In|done].
Qed.

Lemma total_lookup {A} (f : A -> Z) (g : nat -> Z) l k : (forall i a, l !! i = Some a -> f a = g (k + i)%nat) ->
  total f l = total g (seq k (List.length l)).
Proof.
  revert k. induction l as [|a l IH]; intros k Hfg; [done|]. cbn. rewrite (Hfg 0%nat a) by done. rewrite Nat.add_0_r.
  f_equal. apply IH. intros i b Hb. rewrite (Hfg (S i) b) by done. f_equal. lia.
Qed.

Lemma listed_spec key rows k pc : listed key rows k = Some pc <->
  k.2 <> "" /\ 0 < pc.(PcSuccess) /\ pc = mkProviderCount k.2 (count (fun r => has_key key k r && isOk r) rows).
Proof.
  unfold listed. rewrite count_filter. set (ok := count _ rows). destruct (Z.ltb_spec 0 ok) as [Hok|Hok]; cbn [andb].
  - destruct (is_empty k.2) eqn:He; cbn [negb].
    + apply is_empty_true in He. naive_solver.
    + apply is_empty_false in He. split; [by intros [= <-]|]. by intros (_ & _ & ->).
  - split; [done|]. intros (_ & Hpos & ->). cbn in Hpos. lia.
Qed.

Section properties.
Context {Db : Type} `{DuckRead Db}.

Lemma summary_points from to bucket d rows : proper from to bucket ->
  read_table events_table d = Ok rows ->
  exists ps first, GetRequestSummaryByTime from to bucket d = Some (Ok (mkTimeSummary from to bucket ps)) /\
    first <= from < first + bucket /\ to <= first + Z.of_nat (List.length ps) * bucket /\
    Z.of_nat (List.length ps) * bucket < to - from + 2 * bucket /\
    (forall i p, ps !! i = Some p ->
       let here r := started_in from to r && in_bucket p.(TpT) bucket r in
       p.(TpT) = first + Z.of_nat i * bucket /\
       p.(TpErrors) = count (fun r => here r && isError r) rows /\
       p.(TpCancelled) = count (fun r => here r && isCancelled r) rows /\
       forall pc, pc ∈ p.(TpProviders) <-> pc.(PcProvider) <> "" /\ 0 < pc.(PcSuccess) /\
         pc.(PcSuccess) = count (fun r => here r && (String.eqb (text (cell colLLMProvider r)) pc.(PcProvider) && isOk r)) rows) /\
    forall tiles, GetOverviewTiles from to d = Ok tiles ->
      total TpErrors ps = tiles.(TErrors) /\ total TpCancelled ps = tiles.(TCancelled).
Proof.
  intros Hp Hread. destruct (bucketStart_spec _ _ _ Hp) as (S & n & Hs & HS & Hn & Hsize & Hto & _).
  destruct (points_spec (fun t => mkTimePoint t 0 0 []) (S * 1000) n bucket Hn) as (ps0 & Hpts & Hlen & Hps0).
  set (inr := List.filter (started_in from to) rows). set (key := summary_key (S * 1000) bucket).
  destruct (groups_spec key inr) as [Hnd Hgr].
  assert (Hinr : forall r, r ∈ inr -> started_in from to r = true)
    by (intros r Hr; apply list_elem_of_In in Hr; by apply filter_In in Hr as [_ Hr]).
  destruct (add_groups_spec key inr (groups key inr) ps0) as (ps & Hfold & Hl & Hps).
  { intros k (r & Hr & <-)%Hgr. rewrite Hlen. cbn. by apply (bucket_index from to); [| |apply Hinr]. }
  exists ps, (S * 1000).
  assert (Hpoint : forall i p, ps !! i = Some p -> p.(TpT) = S * 1000 + Z.of_nat i * bucket /\
    (forall e, count (fun r => (started_in from to r && in_bucket p.(TpT) bucket r) && e r) rows =
       count (fun r => (bucket_of_row (S * 1000) bucket r =? Z.of_nat i) && e r) inr) /\
    p.(TpErrors) = count (fun r => (bucket_of_row (S * 1000) bucket r =? Z.of_nat i) && isError r) inr /\
    p.(TpCancelled) = count (fun r => (bucket_of_row (S * 1000) bucket r =? Z.of_nat i) && isCancelled r) inr /\
    p.(TpProviders) = omap (listed key inr) (List.filter (of_point i) (groups key inr))).
  { intros i p Hi. destruct (lookup_lt_is_Some_2 ps0 i) as [p0 Hp0]; [rewrite <- Hl; by eapply lookup_lt_Some|].
    pose proof (Hps i p0 Hp0) as Hq. rewrite Hi in Hq. injection Hq as ->. apply Hps0 in Hp0 as [-> Hlt].
    cbn [TpT TpErrors TpCancelled TpProviders]. splits; [done| | | |done].
    - intros e. unfold inr. rewrite count_filter. apply count_ext. intros r _.
      destruct (started_in from to r) eqn:Hr; [|done]. cbn [andb]. by rewrite (in_bucket_of from to bucket S n).
    - by rewrite count_groups by (try done; intros r Hr; apply Hgr; eauto).
    - by rewrite count_groups by (try done; intros r Hr; apply Hgr; eauto). }
  splits; [|lia|lia|rewrite Hl, Hlen; lia|rewrite Hl, Hlen; lia| |].
  - unfold GetRequestSummaryByTime. rewrite Hs. cbn [mbind option_bind]. rewrite Hpts. cbn [mbind option_bind].
    rewrite Hread. fold inr key. by rewrite Hfold.
  - intros i p Hi. destruct (Hpoint i p Hi) as (HT & Hc & HE & HC & HP). cbn zeta. splits; [done|by rewrite Hc|by rewrite Hc|].
    intros [pp c]. cbn [PcProvider PcSuccess]. rewrite Hc, HP, list_elem_of_omap.
    assert (Hkey : count (fun r => (bucket_of_row (S * 1000) bucket r =? Z.of_nat i) && (String.eqb (text (cell colLLMProvider r)) pp && isOk r)) inr =
      count (fun r => has_key key (Z.of_nat i, pp) r && isOk r) inr).
    { apply count_ext. intros r _. rewrite andb_assoc. f_equal. unfold has_key, key, summary_key.
      destruct (Z.eqb_spec (bucket_of_row (S * 1000) bucket r) (Z.of_nat i)) as [->|Hne], (String.eqb_spec (text (cell colLLMProvider r)) pp) as [->|Hne'];
        cbn [andb]; symmetry; first [by apply bool_decide_true|apply bool_decide_false; congruence]. }
    rewrite Hkey. split.
    + intros (k & Hk & Hl'). apply list_elem_of_In, filter_In in Hk as [_ Hk]. apply Z.eqb_eq in Hk. destruct k as [ki kp]. cbn in Hk. subst ki.
      apply listed_spec in Hl' as (Hne & Hpos & Heq). cbn in Hne, Hpos. injection Heq as -> ->. done.
    + intros (Hne & Hpos & ->). exists (Z.of_nat i, pp). split; [|by apply listed_spec].
      destruct (count_pos _ _ Hpos) as (r & Hr & Hk). apply andb_prop in Hk as [Hk _]. apply bool_decide_eq_true in Hk.
      apply list_elem_of_In, filter_In. split; [|apply Z.eqb_refl]. apply list_elem_of_In, Hgr. eauto.
  - intros tiles. unfold GetOverviewTiles. rewrite Hread. fold inr. destruct (bigint (total billed_tokens inr)), (bigint (total cost inr)); try done.
    intros [= <-]. cbn [TErrors TCancelled].
    split; rewrite (total_lookup _ (fun i => count (fun r => (bucket_of_row (S * 1000) bucket r =? Z.of_nat i) && _ r) inr) ps 0)
      by (intros i p Hi; by apply Hpoint); apply total_partition; intros r Hr; rewrite Hl, Hlen;
      (apply (bucket_index from to); [done|done|by apply Hinr]).
Qed.
Lemma summary_series from to bucket d rows : proper from to bucket -> read_table events_table d = Ok rows ->
  exists ps, GetRequestSummaryByTime from to bucket d = Some (Ok (mkTimeSummary from to bucket ps)) /\
    Z.of_nat (List.length ps) * bucket < to - from + 2 * bucket.
Proof. intros Hp Hr. destruct (summary_points from to bucket d rows Hp Hr) as (ps & first & Hq & _ & _ & Hl & _). eauto. Qed.

Lemma summary_failed from to bucket d msg : proper from to bucket -> read_table events_table d = Err msg ->
  exists m, GetRequestSummaryByTime from to bucket d = Some (Err (QueryFailed "request summary" m)).
Proof.
  intros Hp Hread. destruct (bucketStart_spec _ _ _ Hp) as (S & n & Hs & _ & Hn & _).
  destruct (points_spec (fun t => mkTimePoint t 0 0 []) (S * 1000) n bucket Hn) as (ps0 & Hpts & _).
  unfold GetRequestSummaryByTime. rewrite Hs. cbn [mbind option_bind]. rewrite Hpts, Hread. cbn [mbind option_bind]. eauto.
Qed.

(** C31: The time series of the request log.  For a range after the epoch and a bucket of
    whole microseconds the query never indexes out of its points, which cover the range without
    gaps and number at most two more than the buckets that fit; each point counts exactly the
    events of the range that started in its bucket, errors and cancellations apart from the
    successes, which are listed by provider; and the points add up to the overview of the range. *)
Theorem GetRequestSummaryByTime_spec from to bucket d rows : proper from to bucket ->
  read_table events_table d = Ok rows ->
  exists ps first, GetRequestSummaryByTime from to bucket d = Some (Ok (mkTimeSummary from to bucket ps)) /\
    first <= from < first + bucket /\ to <= first + Z.of_nat (List.length ps) * bucket /\
    Z.of_nat (List.length ps) * bucket < to - from + 2 * bucket /\
    (forall i p, ps !! i = Some p ->
       let here r := started_in from to r && in_bucket p.(TpT) bucket r in
       p.(TpT) = first + Z.of_nat i * bucket /\
       p.(TpErrors) = count (fun r => here r && isError r) rows /\
       p.(TpCancelled) = count (fun r => here r && isCancelled r) rows /\
       forall pc, pc ∈ p.(TpProviders) <-> pc.(PcProvider) <> "" /\ 0 < pc.(PcSuccess) /\
         pc.(PcSuccess) = count (fun r => here r && (String.eqb (text (cell colLLMProvider r)) pc.(PcProvider) && isOk r)) rows) /\
    forall tiles, GetOverviewTiles from to d = Ok tiles ->
      total TpErrors ps = tiles.(TErrors) /\ total TpCancelled ps = tiles.(TCancelled).
Proof. exact (summary_points from to bucket d rows). Qed.
End properties.

(** *** Witness: two events in two buckets *)

#[export] Instance mem_read : DuckRead MemDuck := {| read_table tb d := Ok (mem_rows d tb); quantile_cont _ _ := None |}.

Definition demo_row (start : Z) (provider result : string) : Cells :=
  <[colStartedAt := Some (VTime start)]> (<[colLLMProvider := nullCheck provider]>
    (<[colOutcomeResult := Some (VString result)]> (replicate numEventCols None))).
Definition demo_store : MemDuck :=
  {[events_table := [demo_row (70 * Second) "openai" "ok"; demo_row (130 * Second) "" "rejected"; demo_row (500 * Second) "" "rejected"]]}.

Lemma GetRequestSummaryByTime_spec_witness : exists p1 p2,
  GetRequestSummaryByTime (60 * Second) (180 * Second) Minute demo_store =
    Some (Ok (mkTimeSummary (60 * Second) (180 * Second) Minute [p1; p2])) /\
  p1.(TpProviders) = [mkProviderCount "openai" 1] /\ p1.(TpErrors) = 0 /\ p2.(TpErrors) = 1 /\
  total TpErrors [p1; p2] = 1.
Proof.
  destruct (GetRequestSummaryByTime_spec (60 * Second) (180 * Second) Minute demo_store (mem_rows demo_store events_table))
    as (ps & first & Hq & _ & _ & _ & _ & Htiles).
  - split; vm_compute; congruence.
  - reflexivity.
  - assert (Hps : exists p1 p2, ps = [p1; p2] /\ p1.(TpProviders) = [mkProviderCount "openai" 1] /\ p1.(TpErrors) = 0 /\ p2.(TpErrors) = 1).
    { pose proof Hq as Hc. vm_compute in Hc. injection Hc as <-. do 2 eexists. repeat split; reflexivity. }
    destruct Hps as (p1 & p2 & -> & H1 & H2 & H3). exists p1, p2. split; [exact Hq|]. split; [exact H1|]. split; [exact H2|]. split; [exact H3|].
    destruct (GetOverviewTiles (60 * Second) (180 * Second) demo_store) as [tiles|e] eqn:Ht; [|vm_compute in Ht; discriminate Ht].
    rewrite (proj1 (Htiles _ eq_refl)). apply (f_equal (fun r => match r with Ok t => TErrors t | Err _ => 0 end)) in Ht.
    vm_compute in Ht. symmetry. exact Ht.
Defined.
