(* ===== verification/MetricsDetail.v ===== *)
(** * Single requests in the metrics store ([internal/metrics-engine/duckdb-reads.go])

    The pages of the request log, the keys that spent most, and the detail and the payload of one
    request.  The rows are those the store wrote, whose required columns are never NULL
    ([EventRows.required_present]).  Decoding JSON (sonic) is a parameter. *)

From stdpp Require Import sorting.
From S2P Require Import Prelude GoBase Float64 Catalog Money Pricing VirtualKey Context MetricsEvent EventRows MetricsEngine DuckDB MetricsReads.
Local Open Scope Z_scope.

(** [sonic.UnmarshalString] at the types of the JSON columns. *)
Class JsonDecode := {
  unmarshal_headers : string -> result string (gmap string string);
  unmarshal_stages : string -> result string (list StageSpan);
  unmarshal_pricing : string -> result string Pricing;
  unmarshal_usage : string -> result string Usage
}.
(** What was encoded decodes, prices and usage when they are plain: JSON does not keep the sign of
    a zero. *)
Class JsonLaws `{Json} `{JsonDecode} := {
  plain_pricing : Pricing -> Prop;
  plain_usage : Usage -> Prop;
  pricing_back p s : plain_pricing p -> marshal_pricing (Some p) = Ok s -> unmarshal_pricing s = Ok p;
  no_pricing s : marshal_pricing None = Ok s -> s = "null";
  usage_back u s : plain_usage u -> marshal_usage u = Ok s -> unmarshal_usage s = Ok u;
  pricing_nonempty p s : marshal_pricing p = Ok s -> s <> "";
  usage_nonempty u s : marshal_usage u = Ok s -> s <> "";
  no_headers s : marshal_headers None = Ok s -> s = "null";
  headers_back h s : marshal_headers (Some h) = Ok s -> unmarshal_headers s = Ok h;
  stages_back l s : marshal_stages l = Ok s -> unmarshal_stages s = Ok l;
  marshal_nonempty h s : marshal_headers h = Ok s -> s <> "";
  stages_nonempty l s : marshal_stages l = Ok s -> s <> "";
  null_headers h s : marshal_headers h = Ok s -> s = "null" \/ s = "[]" \/ s = "{}" -> default ∅ h = ∅;
  null_stages l s : marshal_stages l = Ok s -> s = "null" \/ s = "[]" \/ s = "{}" -> l = []
}.

(** ** The request log *)

Record RequestLogRow : Type := mkRequestLogRow {
  RlID : string;
  RlStartedAt : Z;
  RlRequestKind : string;
  RlProvider : string;
  RlModel : string;
  RlLatencyMS : f64;
  RlInputTokens : Z;
  RlOutputTokens : Z;
  RlCostUSD : f64;
  RlHTTPStatus : Z;
  RlResult : string;
  RlClientID : string
}.
Record RequestLogPage : Type := mkRequestLogPage { PgTotal : Z; PgRows : list RequestLogRow }.

(** [coalesce(llm_model, llm_requested_model, '')]. *)
Definition model_of (row : Cells) : string :=
  match cell colLLMModel row with Some _ => text (cell colLLMModel row) | None => text (cell colLLMRequestedModel row) end.

Definition log_row (row : Cells) : RequestLogRow :=
  mkRequestLogRow (text (cell colID row)) (start_us row * 1000) (text (cell colRequestKind row))
    (text (cell colLLMProvider row)) (model_of row) (ms (number (cell colTimingTotalUS row)))
    (number (cell colUsageInputTokens row)) (number (cell colUsageOutputTokens row)) (usd (cost row))
    (number (cell colOutcomeHTTPStatus row)) (text (cell colOutcomeResult row)) (text (cell colGovernanceClientID row)).

(** [ORDER BY started_at DESC, id DESC]. *)
Definition later (a b : Cells) : Prop :=
  start_us b < start_us a \/
  (start_us a = start_us b /\ String.leb (text (cell colID b)) (text (cell colID a)) = true).
#[export] Instance later_dec a b : Decision (later a b).
Proof. unfold later. apply _. Defined.

Section reads.
Context {Db : Type} `{DuckRead Db}.

(** [LIMIT limit OFFSET offset]; every row carries the number of all rows. *)
Definition GetRequestLogsByTime (from to offset limit : Z) (d : Db) : result ReadFailure RequestLogPage :=
  match read_table events_table d with
  | Err e => Err (QueryFailed "request logs" e)
  | Ok rows =>
      let rows := merge_sort later (List.filter (started_in from to) rows) in
      let page := take (Z.to_nat limit) (drop (Z.to_nat offset) rows) in
      Ok (mkRequestLogPage (match page with [] => 0 | _ => Z.of_nat (List.length rows) end) (map log_row page))
  end.

(** ** Top keys *)

Record VirtualKeyUsage : Type := mkVirtualKeyUsage {
  KuVirtualKeyID : string;
  KuClientID : string;
  KuRequests : Z;
  KuErrors : Z;
  KuTokens : Z;
  KuSpendNano : Z;
  KuLastUsed : Z
}.
Definition KuSpendUSD (k : VirtualKeyUsage) : f64 := usd k.(KuSpendNano).

(** The group of a key; [any_value] is some client of the group. *)
Definition key_usage (any_value : list string -> string) (rows : list Cells) (id : string) : VirtualKeyUsage :=
  let g := List.filter (fun r => bool_decide (cell colGovernanceVirtualKeyID r = Some (VString id))) rows in
  mkVirtualKeyUsage id (any_value (map (fun r => text (cell colGovernanceClientID r)) g)) (Z.of_nat (List.length g))
    (count isError g) (total billed_tokens g) (total cost g) (match map start_us g with [] => 0 | t :: ts => foldr Z.max t ts end * 1000).

(** [ORDER BY 6 DESC, 3 DESC, 1]. *)
Definition spends_more (a b : VirtualKeyUsage) : Prop :=
  b.(KuSpendNano) < a.(KuSpendNano) \/
  (a.(KuSpendNano) = b.(KuSpendNano) /\ (b.(KuRequests) < a.(KuRequests) \/
     (a.(KuRequests) = b.(KuRequests) /\ String.leb a.(KuVirtualKeyID) b.(KuVirtualKeyID) = true))).
#[export] Instance spends_more_dec a b : Decision (spends_more a b).
Proof. unfold spends_more. apply _. Defined.

Definition key_ids (rows : list Cells) : list string :=
  remove_dups (omap (fun r => match cell colGovernanceVirtualKeyID r with Some (VString id) => Some id | _ => None end) rows).

Definition GetTopVirtualKeys (any_value : list string -> string) (from to limit : Z) (d : Db) : result ReadFailure (list VirtualKeyUsage) :=
  match read_table events_table d with
  | Err e => Err (QueryFailed "top virtual keys" e)
  | Ok rows =>
      let rows := List.filter (started_in from to) rows in
      let all := map (key_usage any_value rows) (key_ids rows) in
      if forallb (fun k => is_ok (bigint k.(KuTokens)) && is_ok (bigint k.(KuSpendNano))) all
      then Ok (take (Z.to_nat limit) (merge_sort spends_more all))
      else Err (QueryFailed "top virtual keys" "Conversion Error")
  end.

(** ** The detail of a request *)

Record DetailError : Type := mkDetailError { DeCode : string; DeCategory : string; DeMessage : string }.
Record DetailModel : Type := mkDetailModel {
  DmRequested : string; DmProvider : string; DmModel : string; DmUpstream : string; DmStream : bool; DmFinishReason : string }.
Record DetailTokens : Type := mkDetailTokens {
  DtInput : Z; DtOutput : Z; DtCachedInput : Z; DtCacheCreation : Z; DtReasoning : Z; DtBilled : Z }.
Record DetailContext : Type := mkDetailContext {
  DcVirtualKeyID : string; DcClientID : string; DcBudgetID : string; DcCredential : string; DcRoutingMode : string }.
Record DetailUpstream : Type := mkDetailUpstream {
  DuHTTPStatus : Z; DuAttempts : Z; DuRequestID : string; DuHeaders : gmap string string }.
Record DetailCost : Type := mkDetailCost { DkTotalUSD : f64; DkLines : list CostLine }.

Record RequestDetail : Type := mkRequestDetail {
  RdID : string;
  RdRequestID : string;
  RdStartedAt : Z;
  RdRequestKind : string;
  RdEndpoint : string;
  RdResult : string;
  RdHTTPStatus : Z;
  RdLatencyMS : f64;
  RdTTFBMS : f64;
  RdTTFTMS : f64;
  RdError : option DetailError;
  RdModel : DetailModel;
  RdTokens : DetailTokens;
  RdContext : DetailContext;
  RdUpstream : DetailUpstream;
  RdPipeline : list StageSpan;
  RdCost : DetailCost;
  RdPayloadState : string
}.

(** [cmp.Or]. *)
Definition cmp_Or (a b : string) : string := if is_empty a then b else a.

(** [e != (DetailError{})]. *)
Definition detail_error (code category message : string) : option DetailError :=
  if is_empty code && is_empty category && is_empty message then None else Some (mkDetailError code category message).

Definition header_of (h : gmap string string) (name : string) : string := default "" (h !! name).

(** A JSON column, decoded unless it is empty. *)
Definition decode {A} (what : string) (f : string -> result string A) (none : A) (s : string) : result ReadFailure A :=
  if is_empty s then Ok none else match f s with Ok a => Ok a | Err e => Err (DecodeFailed what e) end.

Definition detail_of_row `{JsonDecode} (row : Cells) : result ReadFailure RequestDetail :=
  let input := number (cell colUsageInputTokens row) in
  let output := number (cell colUsageOutputTokens row) in
  let pricing := json_text (cell colLLMPricing row) in
  let usage := json_text (cell colUsageDetail row) in
  headers ← decode "headers" unmarshal_headers ∅ (json_text (cell colHeaders row));
  pipeline ← decode "stages" unmarshal_stages [] (json_text (cell colTimingStages row));
  lines ← (if negb (is_empty pricing) && negb (is_empty usage) then
             match unmarshal_pricing pricing with
             | Err e => Err (DecodeFailed "pricing" e)
             | Ok p => match unmarshal_usage usage with Err e => Err (DecodeFailed "usage" e) | Ok u => Ok (CostBreakdown p u) end
             end
           else Ok []);
  Ok (mkRequestDetail (text (cell colID row)) (text (cell colRequestID row)) (start_us row * 1000)
        (text (cell colRequestKind row)) (text (cell colRequestEndpoint row)) (text (cell colOutcomeResult row))
        (number (cell colOutcomeHTTPStatus row)) (ms (number (cell colTimingTotalUS row)))
        (ms (number (cell colTimingTTFBUS row))) (ms (number (cell colTimingTTFTUS row)))
        (detail_error (text (cell colOutcomeErrorCode row)) (text (cell colOutcomeErrorCategory row)) (text (cell colOutcomeErrorMessage row)))
        (mkDetailModel (text (cell colLLMRequestedModel row)) (text (cell colLLMProvider row)) (text (cell colLLMModel row))
           (text (cell colLLMUpstreamModel row)) (flag (cell colLLMStream row)) (text (cell colLLMFinishReason row)))
        (mkDetailTokens input output (number (cell colUsageCachedInputTokens row)) (number (cell colUsageCacheCreationTokens row))
           (number (cell colUsageReasoningTokens row)) (add64 input output))
        (mkDetailContext (text (cell colGovernanceVirtualKeyID row)) (text (cell colGovernanceClientID row))
           (text (cell colGovernanceBudgetID row)) (text (cell colRoutingCredentialName row)) (text (cell colRoutingMode row)))
        (mkDetailUpstream (number (cell colOutcomeUpstreamHTTPStatus row)) (number (cell colRoutingAttempts row))
           (cmp_Or (header_of headers "x-request-id") (header_of headers "apim-request-id")) headers)
        pipeline (mkDetailCost (usd (cost row)) lines) (text (cell colPayloadState row))).

(** [WHERE id = $1]. *)
Definition with_id (col : nat) (id : string) (row : Cells) : bool := bool_decide (cell col row = Some (VString id)).

Definition GetRequestDetailByID `{JsonDecode} (id : string) (d : Db) : result ReadFailure RequestDetail :=
  match read_table events_table d with
  | Err e => Err (QueryFailed "request detail" e)
  | Ok rows =>
      match List.find (with_id colID id) rows with
      | None => Err ErrNotFound
      | Some row => detail_of_row row
      end
  end.

(** A body column as VARCHAR: JSON text as it is, a string in its JSON form. *)
Definition body_text (quote : string -> string) (c : Cell) : option string :=
  match c with Some (VRaw s) => Some s | Some (VString s) => Some (quote s) | _ => None end.

Definition GetPayloadByID (quote : string -> string) (id : string) (d : Db) : result ReadFailure Payload :=
  match read_table payloads_table d with
  | Err e => Err (QueryFailed "payload" e)
  | Ok rows =>
      match List.find (with_id 0 id) rows with
      | None => Err ErrNotFound
      | Some row =>
          let b i := body_text quote (cell i row) in
          Ok (mkPayload (b 2%nat) (b 3%nat) (b 4%nat) (b 5%nat) (b 6%nat) (b 7%nat))
      end
  end.
End reads.

(** ** What is read of what was written *)

Class DuckReadLaws (Db Txn App : Type) `{DuckRead Db} `{DuckLaws Db Txn App} := {
  read_ok tb d l : read_table tb d = Ok l -> l ≡ₚ duck_rows d tb
}.

Section roundtrip.
Context `{JsonLaws}.

Definition usage_of (e : Event) : option Usage := e.(ELLM) ≫= LUsage.
Definition of_opt {A B} (b : B) (o : option A) (f : A -> B) : B := match o with Some a => f a | None => b end.

(** The lines of the bill, of the price and the usage when the event has both. *)
Definition event_lines (e : Event) : list CostLine :=
  match e.(ELLM) ≫= LPricing, usage_of e with
  | Some p, Some u =>
      match (js (marshal_pricing (Some p))).1, (js (marshal_usage u)).1 with
      | Some _, Some _ => CostBreakdown p u
      | _, _ => []
      end
  | _, _ => []
  end.

(** The detail, straight from the event. *)
Definition event_detail (e : Event) : RequestDetail :=
  let o := default Outcome0 e.(EOutcome) in
  let t := default Timing0 e.(ETiming) in
  let g := default Governance0 e.(EGovernance) in
  let headers := default ∅ e.(EHeaders) in
  let tokens f := of_opt 0 (usage_of e) f in
  mkRequestDetail e.(EID) e.(EvRequestID) (UnixMicro t.(TStart) * 1000) (default "" e.(ERequestKind)) e.(ERequestEndpoint)
    o.(OResult) o.(OHTTPStatus) (ms t.(TTotalUS)) (ms t.(TTTFBUS)) (ms t.(TTTFTUS))
    (detail_error o.(OErrorCode) o.(OErrorCategory) o.(OErrorMessage))
    (mkDetailModel (of_opt "" e.(ELLM) LRequestedModel) (of_opt "" e.(ELLM) LProvider) (of_opt "" e.(ELLM) LModel)
       (of_opt "" e.(ELLM) LUpstreamModel) (of_opt false e.(ELLM) LStream) (of_opt "" e.(ELLM) LFinishReason))
    (mkDetailTokens (tokens InputTokens) (tokens OutputTokens) (tokens CachedInputTokens) (tokens CacheCreationTokens)
       (tokens ReasoningTokens) (add64 (tokens InputTokens) (tokens OutputTokens)))
    (mkDetailContext g.(GVirtualKeyID) g.(GClientID) g.(GBudgetID) (of_opt "" e.(ERouting) RCredentialName)
       (of_opt "" e.(ERouting) (fun r => VKMode_String r.(RMode))))
    (mkDetailUpstream o.(OUpstreamHTTPStatus) (of_opt 0 e.(ERouting) RAttemptCount)
       (cmp_Or (header_of headers "x-request-id") (header_of headers "apim-request-id")) headers)
    t.(TStages) (mkDetailCost (usd e.(ECostNanoUSD)) (event_lines e)) e.(EPayloadState).

Lemma text_nullCheck s : text (nullCheck s) = s.
Proof. unfold nullCheck. destruct (is_empty s) eqn:He; [|done]. by apply is_empty_true in He as ->. Qed.
Lemma number_nz n : number (nz n) = n.
Proof. unfold nz. by destruct (Z.eqb_spec n 0) as [->|]. Qed.
Create Rewrite HintDb cells.
Hint Rewrite text_nullCheck number_nz : cells.

Lemma js_cases r s : r = Ok s ->
  (js r = (None, []) /\ (s = "null" \/ s = "[]" \/ s = "{}")) \/ js r = (Some (VRaw s), []).
Proof.
  intros ->. unfold js. destruct (String.eqb_spec s "null"); [by left; auto|]. destruct (String.eqb_spec s "[]"); [by left; auto|].
  destruct (String.eqb_spec s "{}"); [by left; auto|]. by right.
Qed.

Lemma js_ok r : (js r).2 = [] -> exists s, r = Ok s.
Proof. destruct r as [s|e]; [eauto|done]. Qed.

Lemma json_text_empty s : s <> "" -> is_empty s = false.
Proof. by intros Hs%is_empty_false. Qed.

Lemma decode_headers o : (js (marshal_headers o)).2 = [] ->
  decode "headers" unmarshal_headers ∅ (json_text (js (marshal_headers o)).1) = Ok (default ∅ o).
Proof.
  intros (s & Hs)%js_ok. destruct o as [h|]; [|by rewrite Hs, (no_headers _ Hs)].
  destruct (js_cases _ _ Hs) as [[-> Hn]| ->]; cbn [fst json_text]; unfold decode.
  - cbn. by rewrite <- (null_headers _ _ Hs Hn).
  - by rewrite (json_text_empty _ (marshal_nonempty _ _ Hs)), (headers_back _ _ Hs).
Qed.

Lemma decode_stages l : (js (marshal_stages l)).2 = [] ->
  decode "stages" unmarshal_stages [] (json_text (js (marshal_stages l)).1) = Ok l.
Proof.
  intros (s & Hs)%js_ok. destruct (js_cases _ _ Hs) as [[-> Hn]| ->]; cbn [fst json_text]; unfold decode.
  - cbn. by rewrite (null_stages _ _ Hs Hn).
  - by rewrite (json_text_empty _ (stages_nonempty _ _ Hs)), (stages_back _ _ Hs).
Qed.

(** An event whose price and usage are plain. *)
Definition plain_event_values (e : Event) : Prop :=
  (forall p, e.(ELLM) ≫= LPricing = Some p -> plain_pricing p) /\ (forall u, usage_of e = Some u -> plain_usage u).

Definition stored_pricing (e : Event) : Cell := opt_cell e.(ELLM) (fun l => (js (marshal_pricing l.(LPricing))).1).
Definition stored_usage (e : Event) : Cell := opt_cell (usage_of e) (fun u => (js (marshal_usage u)).1).

Lemma row_errors_nil e : row_errors e = [] ->
  (js (marshal_stages (default Timing0 e.(ETiming)).(TStages))).2 = [] /\ (js (marshal_headers e.(EHeaders))).2 = [] /\
  (forall l, e.(ELLM) = Some l -> (js (marshal_pricing l.(LPricing))).2 = [] /\
     forall u, l.(LUsage) = Some u -> (js (marshal_usage u)).2 = []).
Proof.
  unfold row_errors. intros [Hs [_ [Hl Hh]%app_eq_nil]%app_eq_nil]%app_eq_nil. splits; [done|done|]. intros l Hll. rewrite Hll in Hl.
  apply app_eq_nil in Hl as [_ [Hp Hu]%app_eq_nil]. split; [done|]. intros u Hlu. by rewrite Hlu in Hu.
Qed.

Lemma decode_lines e : row_errors e = [] -> plain_event_values e ->
  (if negb (is_empty (json_text (stored_pricing e))) && negb (is_empty (json_text (stored_usage e))) then
     match unmarshal_pricing (json_text (stored_pricing e)) with
     | Err m => Err (DecodeFailed "pricing" m)
     | Ok p =>
         match unmarshal_usage (json_text (stored_usage e)) with
         | Err m => Err (DecodeFailed "usage" m)
         | Ok u => Ok (CostBreakdown p u)
         end
     end
   else Ok []) = Ok (event_lines e).
Proof.
  intros (_ & _ & Hl)%row_errors_nil. unfold stored_pricing, stored_usage, event_lines, plain_event_values, usage_of.
  destruct (ELLM e) as [l|]; cbn [mbind option_bind opt_cell]; [|done]. destruct (Hl l eq_refl) as [(sp & Hsp)%js_ok Hu]. intros [Hpp Hpu].
  destruct (LUsage l) as [u|]; cbn [opt_cell mbind option_bind]; [|rewrite andb_comm; by destruct (LPricing l)].
  pose proof (Hu u eq_refl) as (su & Hsu)%js_ok.
  destruct (LPricing l) as [p|]; [|by rewrite Hsp, (no_pricing _ Hsp)].
  destruct (js_cases _ _ Hsp) as [[-> _]| ->]; cbn [fst json_text]; [done|]. rewrite (json_text_empty _ (pricing_nonempty _ _ Hsp)).
  destruct (js_cases _ _ Hsu) as [[-> _]| ->]; cbn [fst json_text]; [done|]. rewrite (json_text_empty _ (usage_nonempty _ _ Hsu)).
  cbn [negb andb]. by rewrite (pricing_back _ _ (Hpp p eq_refl) Hsp), (usage_back _ _ (Hpu u eq_refl) Hsu).
Qed.

Ltac read_cells := repeat
  match goal with
  | |- context [cell ?c (map snd (event_columns ?e))] =>
      let p := eval hnf in (event_columns e !! c) in
      match p with Some (_, ?v) => change (cell c (map snd (event_columns e))) with v end
  end.

Lemma detail_of_event e : row_errors e = [] -> plain_event_values e ->
  detail_of_row (map snd (event_columns e)) = Ok (event_detail e).
Proof.
  intros He Hp. destruct (row_errors_nil e He) as (Hs & Hh & _). unfold detail_of_row, start_us, cost. read_cells.
  rewrite (decode_headers _ Hh), (decode_stages _ Hs). cbn [mbind result_bind].
  change (opt_cell (ELLM e) (fun l => (js (marshal_pricing (LPricing l))).1)) with (stored_pricing e).
  change (opt_cell (ELLM e ≫= LUsage) (fun u => (js (marshal_usage u)).1)) with (stored_usage e).
  rewrite (decode_lines e He Hp). cbn [mbind result_bind]. unfold event_detail, usage_of. autorewrite with cells.
  destruct (ERouting e) as [rt|], (ELLM e) as [l|]; cbn [mbind option_bind opt_cell of_opt]; try destruct (LUsage l) as [u|];
    cbn [mbind option_bind opt_cell of_opt]; autorewrite with cells; reflexivity.
Qed.
End roundtrip.

Section stored.
Context {Db Txn App : Type} `{DuckReadLaws Db Txn App} `{JsonLaws}.

Lemma find_only (rows : list Cells) row : NoDup (map (cell colID) rows) -> row ∈ rows ->
  forall id, cell colID row = Some (VString id) -> List.find (with_id colID id) rows = Some row.
Proof.
  intros Hnd Hin id Hid. induction rows as [|r rows IH]; [by apply not_elem_of_nil in Hin|]. cbn [List.find map] in *.
  apply NoDup_cons in Hnd as [Hr Hnd]. apply elem_of_cons in Hin as [->|Hin].
  - unfold with_id. by rewrite bool_decide_true.
  - unfold with_id at 1. rewrite bool_decide_false; [by apply IH|]. intros Hr'. apply Hr.
    apply list_elem_of_In, in_map_iff. exists row. split; [by rewrite Hid|by apply list_elem_of_In].
Qed.

(** C30: What the store shows of a request is what the request left behind.  After a batch was
    written, and as long as the IDs of the table are distinct, asking for the ID of any event of
    the batch yields exactly that event, field by field, its start to the microsecond and the cost
    itemised from its own usage and price, or the error of the query; and asking for an ID that no
    row has yields [ErrNotFound]. *)
Theorem detail_roundtrip es d d' id : DuckDB_Write es d = (Ok tt, d') ->
  NoDup (map (cell colID) (duck_rows d' events_table)) ->
  (forall e, e ∈ es -> e.(EID) = id -> plain_event_values e ->
     GetRequestDetailByID id d' = Ok (event_detail e) \/
     exists msg, GetRequestDetailByID id d' = Err (QueryFailed "request detail" msg)) /\
  ((forall row, row ∈ duck_rows d' events_table -> cell colID row <> Some (VString id)) ->
     GetRequestDetailByID id d' = Err ErrNotFound \/
     exists msg, GetRequestDetailByID id d' = Err (QueryFailed "request detail" msg)).
Proof.
  intros Hw Hnd. pose proof (DuckDB_Write_encode _ _ _ Hw) as Henc.
  assert (Hrows : exists l, duck_rows d' events_table = (l ++ map (fun e => map snd (event_columns e)) es)%list).
  { destruct (DuckDB_Write_cases _ _ _ _ Hw) as [(m & [=] & _)|(_ & Hd)]. exists (duck_rows d events_table).
    rewrite Hd, event_rows_list. f_equal. apply app_nil_r. }
  destruct Hrows as [l Hrows]. unfold GetRequestDetailByID.
  destruct (read_table events_table d') as [rows|msg] eqn:Hread; [|split; right; by exists msg].
  pose proof (read_ok _ _ _ Hread) as Hperm. split.
  - intros e He Hid Hplain. left. rewrite (find_only rows (map snd (event_columns e))).
    + by apply detail_of_event; [apply Henc|].
    + by rewrite Hperm.
    + rewrite Hperm, Hrows, elem_of_app. right. apply list_elem_of_In, in_map_iff. exists e. split; [done|by apply list_elem_of_In].
    + by rewrite <- Hid.
  - intros Hno. left. destruct (List.find (with_id colID id) rows) as [row|] eqn:Hf; [|done]. exfalso.
    apply List.find_some in Hf as [Hin Hw']. apply (Hno row); [rewrite <- Hperm; by apply list_elem_of_In|].
    by apply bool_decide_eq_true in Hw'.
Qed.
End stored.

(** *** Witness: a rejected request, under an encoder of empty values *)

#[export] Instance mem_read_laws : DuckReadLaws MemDuck MemTxn (string * list Cells).
Proof. constructor. by intros tb d l [= <-]. Qed.

#[local] Instance tiny_json : Json := {|
  marshal_stages l := match l with [] => Ok "[]" | _ => Err "unsupported" end;
  marshal_attempts l := match l with [] => Ok "[]" | _ => Err "unsupported" end;
  marshal_strings l := match l with [] => Ok "[]" | _ => Err "unsupported" end;
  marshal_pricing p := match p with None => Ok "null" | _ => Err "unsupported" end;
  marshal_usage _ := Err "unsupported";
  marshal_headers h := match h with None => Ok "null" | Some h => if decide (h = ∅) then Ok "{}" else Err "unsupported" end;
  json_valid _ := true
|}.
#[local] Instance tiny_decode : JsonDecode := {|
  unmarshal_headers s := Ok ∅; unmarshal_stages s := Ok []; unmarshal_pricing _ := Err "unsupported"; unmarshal_usage _ := Err "unsupported"
|}.
#[local] Instance tiny_laws : JsonLaws.
Proof.
  refine {| plain_pricing _ := False; plain_usage _ := False |}; cbn; try done.
  - by intros s [= <-].
  - by intros p s; destruct p; intros [= <-].
  - by intros s [= <-].
  - intros h s. case_decide as Hh; [subst h|]; by intros [= <-].
  - by intros [|x l] s [= <-].
  - intros [h|] s; [case_decide|]; by intros [= <-].
  - by intros [|x l] s [= <-].
  - intros [h|] s; [case_decide as Hh; [subst h|]|]; by intros [= <-].
  - by intros [|x l] s; intros [= <-].
Qed.

Definition refused : Event :=
  Event0 <| EID := "e1" |> <| EKind := KindLLM |> <| ERequestEndpoint := "/v1/chat/completions" |>
         <| EGovernance := Some (mkEventGovernance "" "vk1" "b1") |>
         <| EOutcome := Some (mkOutcome ResultRejected 429 0 "budget_exceeded" "client" "budget exceeded") |>
         <| ETiming := Some (mkTiming 1500 42 0 0 []) |> <| EPayloadState := PayloadNone |>.

Lemma detail_roundtrip_witness :
  let '(res, d) := DuckDB_Write [refused] (∅ : MemDuck) in
  res = Ok tt /\ GetRequestDetailByID "e1" d = Ok (event_detail refused) /\
  RdStartedAt (event_detail refused) = 1000 /\ GetRequestDetailByID "e2" d = Err ErrNotFound.
Proof.
  destruct (DuckDB_Write [refused] (∅ : MemDuck)) as [res d] eqn:Hw.
  assert (Hres : res = Ok tt) by (apply (f_equal fst) in Hw; vm_compute in Hw; congruence). subst res.
  assert (Hd : duck_rows d events_table = [map snd (event_columns refused)])
    by (transitivity (duck_rows (DuckDB_Write [refused] (∅ : MemDuck)).2 events_table); [rewrite Hw; reflexivity|vm_compute; reflexivity]).
  assert (Hd' : d = (DuckDB_Write [refused] (∅ : MemDuck)).2) by (rewrite Hw; reflexivity).
  split; [reflexivity|]. split; [|split; [reflexivity|]].
  - destruct (detail_roundtrip [refused] ∅ d "e1" Hw) as [Hin _]; [rewrite Hd; apply NoDup_singleton|].
    destruct (Hin refused) as [Hok|(msg & Hmsg)]; [apply list_elem_of_singleton; reflexivity|reflexivity|split; intros x Hx; discriminate Hx|exact Hok|].
    rewrite Hd' in Hmsg. vm_compute in Hmsg. discriminate Hmsg.
  - destruct (detail_roundtrip [refused] ∅ d "e2" Hw) as [_ Hno]; [rewrite Hd; apply NoDup_singleton|].
    destruct Hno as [Hok|(msg & Hmsg)]; [|exact Hok|rewrite Hd' in Hmsg; vm_compute in Hmsg; discriminate Hmsg]. intros row Hrow. rewrite Hd in Hrow.
    apply list_elem_of_singleton in Hrow. subst row. discriminate.
Defined.
