(* ===== verification/MetricsQueries.v ===== *)
(** * Queries on the metrics ([metrics-engine.go], [internal/server/metrics-handlers.go])

    The guards the engine puts before each query of the store, the width of the buckets of a time
    series, and the handlers of the metrics endpoints with the status each outcome is answered
    with.  The query parameters come as gin hands them over; the two times come parsed, or not
    ([None]).  A panic is [None]. *)

From S2P Require Import Prelude GoBase Float64 Errors Config Transport MetricsEvent MetricsEngine EventRows DuckDB MetricsReads MetricsDetail KeyAdmin.
Local Open Scope Z_scope.

Definition minRange : Z := Hour.
Definition day : Z := 24 * Hour.
Definition maxTopLimit : Z := 50.

Inductive MetricsError : Type :=
| RangeTooShort
| RangeTooLong
| BadPage
| BadLimit
| IDRequired
| BudgetIDRequired
| StoreFailed (e : ReadFailure).

(** [errors.Is(err, ErrInvalidQuery)]. *)
Definition invalid_query (e : MetricsError) : bool := match e with StoreFailed _ => false | _ => true end.

Definition bucketFor (r : Z) : Z :=
  if 365 * day <=? r then 30 * day
  else if 90 * day <=? r then 7 * day
  else if 30 * day <=? r then 3 * day
  else if 7 * day <=? r then day
  else if 3 * day <=? r then 8 * Hour
  else if day <=? r then Hour
  else if 2 * Hour <=? r then 10 * Minute
  else Minute.

Section queries.
Context {Db : Type} `{DuckRead Db} `{JsonDecode}.
Variable config : MetricsEngineConfig.

Definition checkRange (from to : Z) : option MetricsError :=
  if time_sub to from <? minRange then Some RangeTooShort
  else if config.(MaxWindow) <? time_sub to from then Some RangeTooLong
  else None.

(** A query of the store behind a guard. *)
Definition guarded {A} (guard : option MetricsError) (q : option (result ReadFailure A)) : option (result MetricsError A) :=
  match guard with
  | Some e => Some (Err e)
  | None => match q with None => None | Some (Ok a) => Some (Ok a) | Some (Err e) => Some (Err (StoreFailed e)) end
  end.

(** The first guard that fails. *)
Definition or_else (a b : option MetricsError) : option MetricsError := match a with Some e => Some e | None => b end.
Definition unless (c : bool) (e : MetricsError) : option MetricsError := if c then None else Some e.

Definition Engine_GetOverviewTiles (from to : Z) (d : Db) : option (result MetricsError OverviewTiles) :=
  guarded (checkRange from to) (Some (GetOverviewTiles from to d)).

Definition Engine_GetRequestSummaryByTime (from to : Z) (d : Db) : option (result MetricsError TimeSummary) :=
  guarded (checkRange from to) (GetRequestSummaryByTime from to (bucketFor (time_sub to from)) d).

Definition Engine_GetRequestLogsByTime (from to offset limit : Z) (d : Db) : option (result MetricsError RequestLogPage) :=
  guarded (or_else (checkRange from to) (unless ((0 <=? offset) && (1 <=? limit) && (limit <=? config.(MaxPage))) BadPage))
    (Some (GetRequestLogsByTime from to offset limit d)).

Definition Engine_GetRequestDetailByID (id : string) (d : Db) : option (result MetricsError RequestDetail) :=
  guarded (unless (negb (is_empty id)) IDRequired) (Some (GetRequestDetailByID id d)).

Definition Engine_GetPayloadByID (quote : string -> string) (id : string) (d : Db) : option (result MetricsError Payload) :=
  guarded (unless (negb (is_empty id)) IDRequired) (Some (GetPayloadByID quote id d)).

Definition Engine_GetTopVirtualKeys (any_value : list string -> string) (from to limit : Z) (d : Db) :
    option (result MetricsError (list VirtualKeyUsage)) :=
  guarded (or_else (checkRange from to) (unless ((1 <=? limit) && (limit <=? maxTopLimit)) BadLimit))
    (Some (GetTopVirtualKeys any_value from to limit d)).

Definition Engine_GetBudgetSpendByTime (budgetID : string) (from to : Z) (d : Db) : option (result MetricsError BudgetSpend) :=
  guarded (or_else (unless (negb (is_empty budgetID)) BudgetIDRequired) (checkRange from to))
    (GetBudgetSpendByTime budgetID from to (bucketFor (time_sub to from)) d).

(** ** Handlers *)

Definition defaultMetricsPageSize : string := "50".
Definition defaultMetricsTopLimit : string := "10".

Inductive MetricsBody : Type :=
| MMessage (msg : string)
| MCause (e : MetricsError)
| MTiles (t : OverviewTiles)
| MSummary (s : TimeSummary)
| MPage (p : RequestLogPage)
| MDetail (d : RequestDetail)
| MPayload (p : Payload)
| MKeys (rows : list VirtualKeyUsage)
| MSpend (s : BudgetSpend).

Definition deadline_exceeded : string := "context deadline exceeded".

Definition metricsErr (e : MetricsError) : Z * MetricsBody :=
  if invalid_query e then (StatusBadRequest, MCause e)
  else
    match e with
    | StoreFailed ErrNotFound => (StatusNotFound, MMessage "request not found")
    | StoreFailed (QueryFailed _ msg) =>
        if String.eqb msg deadline_exceeded then (StatusGatewayTimeout, MMessage "metrics query timed out")
        else (StatusInternalServerError, MMessage "metrics query failed")
    | _ => (StatusInternalServerError, MMessage "metrics query failed")
    end.

Definition answer {A} (body : A -> MetricsBody) (r : option (result MetricsError A)) : option (Z * MetricsBody) :=
  match r with None => None | Some (Ok a) => Some (StatusOK, body a) | Some (Err e) => Some (metricsErr e) end.

(** [timeRange], around the rest of a handler. *)
Definition with_range (from to : option Z) (f : Z -> Z -> option (Z * MetricsBody)) : option (Z * MetricsBody) :=
  match from, to with
  | None, _ => Some (StatusBadRequest, MMessage "from must be an RFC3339 time")
  | _, None => Some (StatusBadRequest, MMessage "to must be an RFC3339 time")
  | Some from, Some to => f from to
  end.

(** [strconv.Atoi(c.DefaultQuery(name, ..))]. *)
Definition with_number (name : string) (param : option string) (dflt : string) (f : Z -> option (Z * MetricsBody)) : option (Z * MetricsBody) :=
  match Atoi (default dflt param) with
  | None => Some (StatusBadRequest, MMessage (name ++ " must be a number"))
  | Some n => f n
  end.

(** [requireMetrics]: the engine may be disabled. *)
Definition requireMetrics (metrics : option Db) (f : Db -> option (Z * MetricsBody)) : option (Z * MetricsBody) :=
  match metrics with None => Some (StatusServiceUnavailable, MMessage "metrics engine is disabled") | Some d => f d end.

Definition getMetricsStats (from to : option Z) (d : Db) : option (Z * MetricsBody) :=
  with_range from to (fun from to => answer MTiles (Engine_GetOverviewTiles from to d)).

Definition getMetricsRequestSummary (from to : option Z) (d : Db) : option (Z * MetricsBody) :=
  with_range from to (fun from to => answer MSummary (Engine_GetRequestSummaryByTime from to d)).

Definition listMetricsRequests (from to : option Z) (offset limit : option string) (d : Db) : option (Z * MetricsBody) :=
  with_range from to (fun from to =>
    with_number "offset" offset "0" (fun offset =>
      with_number "limit" limit defaultMetricsPageSize (fun limit =>
        answer MPage (Engine_GetRequestLogsByTime from to offset limit d)))).

Definition getMetricsRequest (id : string) (d : Db) : option (Z * MetricsBody) :=
  answer MDetail (Engine_GetRequestDetailByID id d).

Definition getMetricsRequestPayload (quote : string -> string) (id : string) (d : Db) : option (Z * MetricsBody) :=
  answer MPayload (Engine_GetPayloadByID quote id d).

Definition getMetricsTopVirtualKeys (any_value : list string -> string) (from to : option Z) (limit : option string) (d : Db) :
    option (Z * MetricsBody) :=
  with_range from to (fun from to =>
    with_number "limit" limit defaultMetricsTopLimit (fun limit =>
      answer MKeys (Engine_GetTopVirtualKeys any_value from to limit d))).

Definition getMetricsBudgetSpend (budgetID : string) (from to : option Z) (d : Db) : option (Z * MetricsBody) :=
  with_range from to (fun from to => answer MSpend (Engine_GetBudgetSpendByTime budgetID from to d)).

(** ** Properties *)

Lemma checkRange_none from to : checkRange from to = None <-> minRange <= time_sub to from <= config.(MaxWindow).
Proof.
  unfold checkRange. destruct (Z.ltb_spec (time_sub to from) minRange), (Z.ltb_spec config.(MaxWindow) (time_sub to from)); split; intros; try done; lia.
Qed.
End queries.

Lemma Hour_ns : Hour = 3600000000000. Proof. reflexivity. Qed.
Lemma Minute_ns : Minute = 60000000000. Proof. reflexivity. Qed.
Lemma day_ns : day = 86400000000000. Proof. reflexivity. Qed.

Lemma bucketFor_spec r : Hour <= r -> 0 < bucketFor r <= 30 * day /\ bucketFor r mod 1000 = 0 /\ (r < 365 * day -> r < 145 * bucketFor r).
Proof.
  unfold bucketFor. rewrite Hour_ns, Minute_ns, day_ns. intros Hr.
  repeat match goal with |- context [?a <=? ?b] => destruct (Z.leb_spec a b) end;
    (split; [lia|split; [reflexivity|lia]]).
Qed.

(** A difference that is not saturated is exact. *)
Lemma time_sub_inside t u : MinInt64 < time_sub t u < MaxInt64 -> time_sub t u = t - u.
Proof.
  unfold time_sub. destruct (Z.ltb_spec (t - u) MinInt64), (Z.ltb_spec MaxInt64 (t - u)); intros; try done; lia.
Qed.

Section bounds.
Context {Db : Type} `{DuckRead Db}.

(** A range the engine accepts, after the epoch, is one the store handles. *)
Lemma accepted_proper config from to : checkRange config from to = None -> 0 <= from ->
  config.(MaxWindow) + 60 * day <= MaxInt64 ->
  proper from to (bucketFor (time_sub to from)) /\ time_sub to from = to - from /\ Hour <= to - from.
Proof.
  intros Hc%checkRange_none Hf Hm. unfold minRange in Hc. destruct (bucketFor_spec (time_sub to from)) as (Hb & Hmod & _); [lia|].
  rewrite Hour_ns, day_ns in *.
  assert (Hex : time_sub to from = to - from) by (apply time_sub_inside; unfold MinInt64; lia).
  rewrite Hex in *. split; [|split; [done|lia]]. by constructor; [| lia | lia | |lia].
Qed.

(** A time series asked for over HTTP.  For a range after the epoch the handler never
    panics, whatever the times, and what it answers is decided by the range alone: below an hour or
    beyond the configured window it is refused as a bad request, otherwise it is served or the query
    itself failed; and a served series has at most 147 points when the range is below a year, and
    never more than the range has buckets plus two. *)
Theorem getMetricsRequestSummary_spec config from to d : 0 <= from -> config.(MaxWindow) + 60 * day <= MaxInt64 ->
  exists code body, getMetricsRequestSummary config (Some from) (Some to) d = Some (code, body) /\
    (code = StatusBadRequest <-> ~ (minRange <= time_sub to from <= config.(MaxWindow))) /\
    (code <> StatusBadRequest -> (code = StatusOK /\ exists s, body = MSummary s) \/ code = StatusGatewayTimeout \/ code = StatusInternalServerError) /\
    forall s, body = MSummary s ->
      Z.of_nat (List.length s.(TsPoints)) * bucketFor (to - from) < to - from + 2 * bucketFor (to - from) /\
      (to - from < 365 * day -> Z.of_nat (List.length s.(TsPoints)) < 147).
Proof.
  intros Hf Hm. unfold getMetricsRequestSummary, with_range, Engine_GetRequestSummaryByTime, guarded.
  destruct (checkRange config from to) as [e|] eqn:Hc.
  - exists StatusBadRequest, (MCause e). assert (He : invalid_query e = true).
    { unfold checkRange in Hc. repeat case_match; by simplify_eq. }
    splits; [unfold answer, metricsErr; by rewrite He| |done|done]. split; [|done]. intros _ Hr%checkRange_none. by rewrite Hr in Hc.
  - destruct (accepted_proper config from to Hc Hf Hm) as (Hp & Hex & Hhour). rewrite Hex in *.
    pose proof Hc as Hr%checkRange_none. rewrite Hex in Hr. destruct (bucketFor_spec (to - from) Hhour) as (Hb & _ & Hyear).
    destruct (read_table events_table d) as [rows|msg] eqn:Hread.
    + destruct (summary_series from to (bucketFor (to - from)) d rows Hp Hread) as (ps & Hq & Hlen). rewrite Hq.
      eexists _, _. split; [reflexivity|]. split; [split; [done|intros []; done]|]. split; [left; eauto|].
      intros s [= <-]. cbn [TsPoints]. split; [done|]. intros Hlt. specialize (Hyear Hlt). nia.
    + destruct (summary_failed from to (bucketFor (to - from)) d msg Hp Hread) as (m & Hq). rewrite Hq. cbn [answer]. unfold metricsErr. cbn [invalid_query].
      destruct (String.eqb m deadline_exceeded); eexists _, _; (split; [reflexivity|]); (split; [split; [done|intros []; done]|]);
        (split; [by right; auto|]); done.
Qed.
End bounds.

Definition demo_config : MetricsEngineConfig :=
  mkMetricsEngineConfig true "" 5000 (5 * Second) (24 * Hour) 90 7 (5 * Second) 200 (2160 * Hour) "" 0.

Lemma getMetricsRequestSummary_spec_witness : exists s,
  getMetricsRequestSummary demo_config (Some (60 * Second)) (Some (60 * Second + 2 * Hour)) demo_store = Some (StatusOK, MSummary s) /\
  Z.of_nat (List.length s.(TsPoints)) < 147.
Proof.
  destruct (getMetricsRequestSummary_spec demo_config (60 * Second) (60 * Second + 2 * Hour) demo_store)
    as (code & body & Hq & _ & _ & Hlen); [vm_compute; congruence|vm_compute; congruence|].
  assert (Hc : exists s, Some (code, body) = Some (StatusOK, MSummary s)) by (rewrite <- Hq; vm_compute; eauto).
  destruct Hc as (s & [= -> ->]). exists s. split; [exact Hq|]. apply (Hlen s eq_refl). reflexivity.
Defined.
