(* ===== verification/Worker.v ===== *)
(** * Background jobs ([internal/worker/worker.go])

    A group of named jobs.  Starting it runs the jobs marked for it once, one after the other, and
    then gives each job a goroutine that runs it at every tick of its timer, when it is triggered,
    and a last time when the group is stopped.  The goroutines, the owner that starts and stops the
    group and the callers of [Add], [Trigger] and [Stats] interleave at the locked sections and at
    the operations on channels.

    [Run] and the clock are free: a run ends with any outcome, at any time. *)

From stdpp Require Import sorting.
From S2P Require Import Prelude GoBase Context.
Local Open Scope Z_scope.

Section worker.
Variable Value : Type.

(** A nil map is [None]. *)
Definition Detail : Type := option (gmap string Value).

Record JobStats : Type := mkJobStats {
  Name : string;
  Interval : Z;
  Running : bool;
  LastRunAt : Z;
  LastSuccessAt : Z;
  LastDuration : Z;
  LastError : string;
  ConsecutiveFailures : Z;
  LastDetail : Detail
}.
#[export] Instance JobStats_eta : Eta JobStats := fun s =>
  mkJobStats (Name s) (Interval s) (Running s) (LastRunAt s) (LastSuccessAt s) (LastDuration s) (LastError s)
    (ConsecutiveFailures s) (LastDetail s).
Definition JobStats0 : JobStats := mkJobStats "" 0 false zero_time zero_time 0 "" 0 None.

(** A job as its owner makes it; [JobHasRun]: its [Run] is not nil. *)
Record Job : Type := mkJob {
  JobName : string;
  JobInterval : Z;
  RunAtStart : bool;
  RunAtStop : bool;
  JobHasRun : bool
}.

(** A job of the group, with its statistics and its channel of capacity one. *)
Record JobState : Type := mkJobState { job : Job; stats : JobStats; trigger : bool }.
#[export] Instance JobState_eta : Eta JobState := fun s => mkJobState (job s) (stats s) (trigger s).

Inductive WorkerError : Type :=
| NilJob
| NoName
| NoRun (name : string)
| BadInterval (name : string)
| AddAfterStart
| DuplicateJob (name : string)
| NoJobNamed (name : string).

Definition validate (j : option Job) : result WorkerError Job :=
  match j with
  | None => Err NilJob
  | Some j =>
      if is_empty j.(JobName) then Err NoName
      else if negb j.(JobHasRun) then Err (NoRun j.(JobName))
      else if j.(JobInterval) <=? 0 then Err (BadInterval j.(JobName))
      else Ok j
  end.

Definition markRunning (j : Job) (start : Z) (s : JobStats) : JobStats :=
  s <| Name := j.(JobName) |> <| Interval := j.(JobInterval) |> <| Running := true |> <| LastRunAt := start |>.

Definition markDone (start : Z) (detail : Detail) (err : option string) (took : Z) (s : JobStats) : JobStats :=
  let s := s <| Running := false |> <| LastDuration := took |> <| LastDetail := detail |> in
  match err with
  | Some msg => s <| LastError := msg |> <| ConsecutiveFailures ::= fun n => add64 n 1 |>
  | None => s <| LastSuccessAt := start |> <| LastError := "" |> <| ConsecutiveFailures := 0 |>
  end.

(** How [Run] ends, and what [exec] makes of it: a panic is an error without detail. *)
Inductive RunOutcome : Type :=
| Returned (detail : Detail) (err : option string)
| Panicked (p : string).
Definition run_result (o : RunOutcome) : Detail * option string :=
  match o with Returned d e => (d, e) | Panicked p => (None, Some ("panic: " ++ p)) end.

(** ** Groups *)

(** Where a job's goroutine is: before it has read the stop channel, in its [select], in a run, in
    the run at the stop.  A nil channel is [None]. *)
Inductive phase : Type :=
| Entered
| Waiting (ch : option nat)
| Executing (ch : option nat) (start : Z)
| Draining (start : Z).

(** Where the owner of the group is: in none of its calls; in [Start], with the jobs left to run
    and the run it is in; about to give up; launching the goroutines; waiting in [Shutdown]. *)
Inductive control : Type :=
| Idle
| Starting (todo : list string)
| StartRun (name : string) (todo : list string) (start : Z)
| StartFailing
| Launching (todo : list string)
| Stopping.

(** What happened to the group. *)
Inductive occurrence : Type :=
| StartCalled
| Began (name : string) (start : Z)
| Ended (name : string) (start took : Z) (res : Detail * option string)
| StopClosed
| ShutdownReturned (ok : bool).

(** [batch] is the sorted slice [jobs] of the last [Start], [log] the history, newest first. *)
Record Group : Type := mkGroup {
  jobs : gmap string JobState;
  started : bool;
  stop : option nat;
  closed : gset nat;
  loops : gmap nat (string * phase);
  fresh_id : nat;
  owner : control;
  batch : list string;
  log : list occurrence
}.
#[export] Instance Group_eta : Eta Group := fun g =>
  mkGroup (jobs g) (started g) (stop g) (closed g) (loops g) (fresh_id g) (owner g) (batch g) (log g).

Definition NewGroup : Group := mkGroup ∅ false None ∅ ∅ 0 Idle [] [].

(** One job of [Add]. *)
Definition add_job (g : Group) (j : option Job) : result WorkerError Group :=
  j ← validate j;
  match g.(jobs) !! j.(JobName) with
  | Some _ => Err (DuplicateJob j.(JobName))
  | None =>
      let s := JobStats0 <| Name := j.(JobName) |> <| Interval := j.(JobInterval) |> in
      Ok (g <| jobs ::= <[j.(JobName) := mkJobState j s false]> |>)
  end.

(** The jobs before one that is refused stay. *)
Fixpoint add_jobs (js : list (option Job)) (g : Group) : result WorkerError () * Group :=
  match js with
  | [] => (Ok tt, g)
  | j :: js => match add_job g j with Ok g' => add_jobs js g' | Err e => (Err e, g) end
  end.

Definition Add (js : list (option Job)) (g : Group) : result WorkerError () * Group :=
  if g.(started) then (Err AddAfterStart, g) else add_jobs js g.

(** The send does not block: a trigger that is already there is enough. *)
Definition Trigger (name : string) (g : Group) : result WorkerError () * Group :=
  match g.(jobs) !! name with
  | None => (Err (NoJobNamed name), g)
  | Some j => (Ok tt, g <| jobs ::= <[name := j <| trigger := true |>]> |>)
  end.

Definition name_le (a b : string) : Prop := String.leb a b = true.
#[export] Instance name_le_dec a b : Decision (name_le a b).
Proof. unfold name_le. apply _. Defined.

Definition sorted_names (g : Group) : list string := merge_sort name_le (elements (dom g.(jobs))).

Definition Stats (g : Group) : list JobStats := omap (fun n => stats <$> g.(jobs) !! n) (sorted_names g).

Definition on_stats (f : Job -> JobStats -> JobStats) (n : string) (g : Group) : Group :=
  g <| jobs ::= alter (fun j => j <| stats ::= f j.(job) |>) n |>.

(** The two ends of [exec]. *)
Definition exec_begin (n : string) (start : Z) (g : Group) : Group :=
  on_stats (fun j => markRunning j start) n g <| log ::= cons (Began n start) |>.
Definition exec_end (n : string) (start took : Z) (o : RunOutcome) (g : Group) : Group :=
  let '(detail, err) := run_result o in
  on_stats (fun _ => markDone start detail err took) n g <| log ::= cons (Ended n start took (detail, err)) |>.

Definition set_loop (i : nat) (n : string) (ph : phase) (g : Group) : Group := g <| loops ::= <[i := (n, ph)]> |>.

Definition has_flag (f : Job -> bool) (g : Group) (n : string) : bool :=
  match g.(jobs) !! n with Some j => f j.(job) | None => false end.

(** Callers of the group. *)
Inductive caller_step : Group -> Group -> Prop :=
| ws_add js g : caller_step g (Add js g).2
| ws_trigger n g : caller_step g (Trigger n g).2.

(** The owner.  [Start]: its first locked section; the jobs to run at the start, in turn; the
    goroutines.  [Shutdown]: [close(g.stop)], then the wait for the goroutines. *)
Inductive owner_step : Group -> Group -> Prop :=
| ws_start g : g.(owner) = Idle -> g.(started) = false ->
    owner_step g (g <| started := true |> <| stop := Some g.(fresh_id) |> <| fresh_id ::= S |>
      <| batch := sorted_names g |> <| owner := Starting (sorted_names g) |> <| log ::= cons StartCalled |>)
| ws_start_skip g n todo : g.(owner) = Starting (n :: todo) -> has_flag RunAtStart g n = false ->
    owner_step g (g <| owner := Starting todo |>)
| ws_start_begin g n todo start : g.(owner) = Starting (n :: todo) -> has_flag RunAtStart g n = true ->
    owner_step g (exec_begin n start g <| owner := StartRun n todo start |>)
| ws_start_end g n todo start took o : g.(owner) = StartRun n todo start ->
    owner_step g (exec_end n start took o g <| owner := match (run_result o).2 with Some _ => StartFailing | None => Starting todo end |>)
| ws_start_failed g : g.(owner) = StartFailing ->
    owner_step g (g <| started := false |> <| stop := None |> <| owner := Idle |>)
| ws_start_ran g : g.(owner) = Starting [] -> owner_step g (g <| owner := Launching g.(batch) |>)
| ws_launch g n todo : g.(owner) = Launching (n :: todo) ->
    owner_step g (set_loop g.(fresh_id) n Entered g <| fresh_id ::= S |> <| owner := Launching todo |>)
| ws_launched g : g.(owner) = Launching [] -> owner_step g (g <| owner := Idle |>)
| ws_shutdown g c : g.(owner) = Idle -> g.(started) = true -> g.(stop) = Some c ->
    owner_step g (g <| started := false |> <| closed ::= union {[c]} |> <| owner := Stopping |> <| log ::= cons StopClosed |>)
| ws_stopped g : g.(owner) = Stopping -> g.(loops) = ∅ ->
    owner_step g (g <| owner := Idle |> <| log ::= cons (ShutdownReturned true) |>)
| ws_timeout g : g.(owner) = Stopping ->
    owner_step g (g <| owner := Idle |> <| log ::= cons (ShutdownReturned false) |>).

(** A goroutine: it reads [g.stop], then selects among its timer, its trigger and that channel. *)
Inductive loop_step : Group -> Group -> Prop :=
| ws_enter g i n : g.(loops) !! i = Some (n, Entered) -> loop_step g (set_loop i n (Waiting g.(stop)) g)
| ws_tick g i n ch start : g.(loops) !! i = Some (n, Waiting ch) ->
    loop_step g (set_loop i n (Executing ch start) (exec_begin n start g))
| ws_triggered g i n ch start j : g.(loops) !! i = Some (n, Waiting ch) -> g.(jobs) !! n = Some j -> j.(trigger) = true ->
    loop_step g (set_loop i n (Executing ch start) (exec_begin n start (g <| jobs ::= <[n := j <| trigger := false |>]> |>)))
| ws_end g i n ch start took o : g.(loops) !! i = Some (n, Executing ch start) ->
    loop_step g (set_loop i n (Waiting ch) (exec_end n start took o g))
| ws_stop g i n c start : g.(loops) !! i = Some (n, Waiting (Some c)) -> c ∈ g.(closed) ->
    has_flag RunAtStop g n = true -> loop_step g (set_loop i n (Draining start) (exec_begin n start g))
| ws_leave g i n c : g.(loops) !! i = Some (n, Waiting (Some c)) -> c ∈ g.(closed) ->
    has_flag RunAtStop g n = false -> loop_step g (g <| loops ::= delete i |>)
| ws_drained g i n start took o : g.(loops) !! i = Some (n, Draining start) ->
    loop_step g (exec_end n start took o g <| loops ::= delete i |>).

Inductive worker_step : Group -> Group -> Prop :=
| ws_caller g g' : caller_step g g' -> worker_step g g'
| ws_owner g g' : owner_step g g' -> worker_step g g'
| ws_loop g g' : loop_step g g' -> worker_step g g'.

(** An owner starts a group only when no goroutine of an earlier start is left; the components of
    the gateway make a new group whenever they start. *)
Definition owned_step (g g' : Group) : Prop :=
  worker_step g g' /\ (g.(owner) = Idle -> g'.(owner) <> Idle -> g.(started) = false -> g.(loops) = ∅).

(** ** The statistics of a job, as a function of what happened *)

Definition touches (n : string) (o : occurrence) : bool :=
  match o with Began m _ | Ended m _ _ _ => String.eqb m n | _ => false end.

(** The runs of a job that ended, the newest first: start, duration, result. *)
Definition run_of (n : string) (o : occurrence) : option (Z * Z * (Detail * option string)) :=
  match o with Ended m s t r => if String.eqb m n then Some (s, t, r) else None | _ => None end.
Definition runs_of (n : string) (l : list occurrence) : list (Z * Z * (Detail * option string)) := omap (run_of n) l.

Definition begin_of (n : string) (o : occurrence) : option Z :=
  match o with Began m s => if String.eqb m n then Some s else None | _ => None end.
Definition last_begin (n : string) (l : list occurrence) : option Z := head (omap (begin_of n) l).

(** Is a run of the job under way? *)
Fixpoint in_run (n : string) (l : list occurrence) : bool :=
  match l with
  | [] => false
  | o :: l => if touches n o then match o with Began _ _ => true | _ => false end else in_run n l
  end.

Definition succeeded (r : Z * Z * (Detail * option string)) : bool := match r.2.2 with None => true | Some _ => false end.

(** The failures since the last success. *)
Fixpoint trailing_failures (rs : list (Z * Z * (Detail * option string))) : nat :=
  match rs with [] => 0 | r :: rs => if succeeded r then 0 else S (trailing_failures rs) end.

Definition stats_of (j : Job) (l : list occurrence) : JobStats :=
  let rs := runs_of j.(JobName) l in
  mkJobStats j.(JobName) j.(JobInterval) (in_run j.(JobName) l) (default zero_time (last_begin j.(JobName) l))
    (from_option (fun r => r.1.1) zero_time (List.find succeeded rs))
    (from_option (fun r => r.1.2) 0 (head rs))
    (from_option (fun r => default "" r.2.2) "" (head rs))
    (wrap64 (Z.of_nat (trailing_failures rs)))
    (from_option (fun r => r.2.1) None (head rs)).

Lemma stats_of_other j o l : touches j.(JobName) o = false -> stats_of j (o :: l) = stats_of j l.
Proof.
  intros Ht. unfold stats_of, runs_of, last_begin. cbn [in_run omap list_omap]. rewrite Ht.
  destruct o; cbn [run_of begin_of touches] in *; rewrite ?Ht; done.
Qed.

Lemma stats_of_began j s l : stats_of j (Began j.(JobName) s :: l) = markRunning j s (stats_of j l).
Proof.
  unfold stats_of, runs_of, last_begin. cbn [in_run omap list_omap run_of begin_of touches]. by rewrite String.eqb_refl.
Qed.

Lemma stats_of_ended j s t d e l : stats_of j (Ended j.(JobName) s t (d, e) :: l) = markDone s d e t (stats_of j l).
Proof.
  unfold stats_of, runs_of, last_begin. cbn [in_run omap list_omap run_of begin_of touches]. rewrite String.eqb_refl.
  destruct e; cbn; [|reflexivity]. unfold markDone, add64. cbn. f_equal.
  rewrite wrap64_add_l. f_equal. lia.
Qed.

Lemma stats_of_untouched j l : Forall (fun o => touches j.(JobName) o = false) l ->
  stats_of j l = JobStats0 <| Name := j.(JobName) |> <| Interval := j.(JobInterval) |>.
Proof. induction 1 as [|o l Ho _ IH]; [done|]. by rewrite stats_of_other. Qed.

(** ** Invariants of every run *)

(** The jobs of a group are known by their names and have the statistics of their runs; a name that
    is not there never ran. *)
Record jobs_ok (g : Group) : Prop := mkJobsOk {
  jo_stats n j : g.(jobs) !! n = Some j -> j.(job).(JobName) = n /\ j.(stats) = stats_of j.(job) g.(log);
  jo_absent n : g.(jobs) !! n = None -> Forall (fun o => touches n o = false) g.(log)
}.

Lemma jobs_ok_same g g' : g'.(jobs) = g.(jobs) -> g'.(log) = g.(log) -> jobs_ok g -> jobs_ok g'.
Proof. intros Hj Hl [Hs Ha]. by split; rewrite Hj, Hl. Qed.

Lemma jobs_ok_log g g' o : g'.(jobs) = g.(jobs) -> g'.(log) = o :: g.(log) -> (forall n, touches n o = false) -> jobs_ok g -> jobs_ok g'.
Proof.
  intros Hj Hl Ho [Hs Ha]. split; rewrite Hj, Hl; intros n.
  - intros j Hn. rewrite stats_of_other by done. by apply Hs.
  - intros Hn. constructor; auto.
Qed.

Lemma jobs_ok_run g g' f n o j0 : g.(jobs) !! n = Some j0 -> g'.(jobs) = (on_stats f n g).(jobs) -> g'.(log) = o :: g.(log) ->
  (forall m, touches m o = String.eqb n m) ->
  (forall j, j.(JobName) = n -> stats_of j (o :: g.(log)) = f j (stats_of j g.(log))) -> jobs_ok g -> jobs_ok g'.
Proof.
  intros Hn Hj Hl Ho Hf [Hs Ha]. split; rewrite Hj, Hl; intros m; cbn [on_stats jobs field_upd].
  - intros j. destruct (decide (m = n)) as [->|Hne].
    + rewrite lookup_alter_eq, Hn. cbn. intros [= <-]. destruct (Hs n j0 Hn) as [Hnm Hst]. cbn. by rewrite Hf, Hst.
    + rewrite lookup_alter_ne by done. intros Hm. destruct (Hs m j Hm) as [Hnm Hst]. split; [done|].
      rewrite stats_of_other; [done|]. rewrite Ho, Hnm. by apply String.eqb_neq.
  - destruct (decide (m = n)) as [->|Hne]; [by rewrite lookup_alter_eq, Hn|].
    rewrite lookup_alter_ne by done. intros Hm. constructor; [|by apply Ha]. rewrite Ho. by apply String.eqb_neq.
Qed.

Lemma exec_begin_ok n s g j : g.(jobs) !! n = Some j -> jobs_ok g -> jobs_ok (exec_begin n s g).
Proof.
  intros Hn. eapply jobs_ok_run; [exact Hn|reflexivity|reflexivity|done|]. intros i <-. apply stats_of_began.
Qed.

Lemma exec_end_ok n s t o g j : g.(jobs) !! n = Some j -> jobs_ok g -> jobs_ok (exec_end n s t o g).
Proof.
  unfold exec_end. destruct (run_result o) as [d e]. intros Hn. eapply jobs_ok_run; [exact Hn|reflexivity|reflexivity|done|].
  intros i <-. apply stats_of_ended.
Qed.

Lemma trigger_ok n j b g : g.(jobs) !! n = Some j -> jobs_ok g -> jobs_ok (g <| jobs ::= <[n := j <| trigger := b |>]> |>).
Proof.
  intros Hn [Hs Ha]. split; cbn [jobs log field_upd]; intros m.
  - intros i [[-> <-]|[Hne Hm]]%lookup_insert_Some; [by destruct (Hs _ _ Hn)|by apply Hs].
  - intros [Hm Hne]%lookup_insert_None. by apply Ha.
Qed.

Lemma add_job_ok g j g' : add_job g j = Ok g' -> jobs_ok g -> jobs_ok g' /\ g.(jobs) ⊆ g'.(jobs) /\
  g' = g <| jobs := g'.(jobs) |>.
Proof.
  unfold add_job. destruct (validate j) as [k|e]; cbn [mbind result_bind]; [|done].
  destruct (jobs g !! JobName k) eqn:Hk; [done|]. intros [= <-] [Hs Ha]. splits; [|cbn; by apply insert_subseteq|done].
  split; cbn [jobs log field_upd]; intros m.
  - intros i [[<- <-]|[Hne Hm]]%lookup_insert_Some; [|by apply Hs]. cbn. split; [done|]. symmetry. by apply stats_of_untouched, Ha.
  - intros [Hm Hne]%lookup_insert_None. by apply Ha.
Qed.

Lemma same_ok g : jobs_ok g -> jobs_ok g /\ g.(jobs) ⊆ g.(jobs) /\ g = g <| jobs := g.(jobs) |>.
Proof. intros Hg. split; [done|split; [reflexivity|by destruct g]]. Qed.

Lemma add_jobs_ok js g : jobs_ok g -> jobs_ok (add_jobs js g).2 /\ g.(jobs) ⊆ (add_jobs js g).2.(jobs) /\
  (add_jobs js g).2 = g <| jobs := (add_jobs js g).2.(jobs) |>.
Proof.
  revert g. induction js as [|j js IH]; intros g Hg; cbn [add_jobs]; [by apply same_ok|].
  destruct (add_job g j) as [g1|e] eqn:Ha; [|by apply same_ok].
  destruct (add_job_ok _ _ _ Ha Hg) as (Hok & Hsub & Heq). destruct (IH g1 Hok) as (H1 & H2 & H3).
  splits; [done|by etrans|]. rewrite H3 at 1. rewrite Heq at 1. by destruct g.
Qed.

Lemma Add_ok js g : jobs_ok g -> jobs_ok (Add js g).2 /\ g.(jobs) ⊆ (Add js g).2.(jobs) /\
  (Add js g).2 = g <| jobs := (Add js g).2.(jobs) |>.
Proof. unfold Add. intros Hg. destruct (started g); [by apply same_ok|]. by apply add_jobs_ok. Qed.

(** ** What callers change *)

(** The jobs that were there are still the same ones. *)
Definition grows (g : Group) (J : gmap string JobState) : Prop :=
  forall n j, g.(jobs) !! n = Some j -> exists j', J !! n = Some j' /\ j'.(job) = j.(job).

Lemma trigger_grows g n j b : g.(jobs) !! n = Some j -> grows g (<[n := j <| trigger := b |>]> g.(jobs)).
Proof.
  intros Hn m i Hm. destruct (decide (m = n)) as [->|Hne].
  - rewrite lookup_insert_eq. eexists. split; [done|]. cbn. congruence.
  - rewrite lookup_insert_ne by done. eauto.
Qed.

Lemma caller_frame g g' : caller_step g g' -> jobs_ok g ->
  exists J, g' = g <| jobs := J |> /\ jobs_ok g' /\ grows g J.
Proof.
  intros [js g0|n g0] Hg.
  - destruct (Add_ok js g0 Hg) as (Hok & Hsub & Heq). eexists. split; [exact Heq|]. split; [done|].
    intros n j Hn. exists j. split; [|done]. by apply (lookup_weaken _ _ _ _ Hn).
  - unfold Trigger. destruct (jobs g0 !! n) as [j|] eqn:Hn; cbn [snd].
    + eexists. split; [reflexivity|]. split; [by apply trigger_ok|]. by apply trigger_grows.
    + exists g0.(jobs). split; [by destruct g0|]. split; [done|]. intros m i Hm. eauto.
Qed.

Lemma grows_flag g J f n : grows g J -> is_Some (g.(jobs) !! n) -> has_flag f (g <| jobs := J |>) n = has_flag f g n.
Proof. intros Hg [j Hn]. destruct (Hg n j Hn) as (j' & Hn' & Hj). unfold has_flag. cbn. by rewrite Hn, Hn', Hj. Qed.

Lemma grows_some g J n : grows g J -> is_Some (g.(jobs) !! n) -> is_Some (J !! n).
Proof. intros Hg [j Hn]. destruct (Hg n j Hn) as (j' & Hn' & _). eauto. Qed.

Lemma on_stats_some f n g m : is_Some ((on_stats f n g).(jobs) !! m) <-> is_Some (g.(jobs) !! m).
Proof. cbn. by rewrite lookup_alter_is_Some. Qed.

Lemma on_stats_flag h f n g m : has_flag h (on_stats f n g) m = has_flag h g m.
Proof.
  unfold has_flag. cbn. destruct (decide (m = n)) as [->|Hne]; [rewrite lookup_alter_eq|by rewrite lookup_alter_ne].
  by destruct (jobs g !! n).
Qed.

Lemma exec_begin_frame n s g : exec_begin n s g =
  g <| jobs := (on_stats (fun j => markRunning j s) n g).(jobs) |> <| log ::= cons (Began n s) |>.
Proof. reflexivity. Qed.

Lemma exec_end_frame n s t o g : exists f, exec_end n s t o g =
  g <| jobs := (on_stats f n g).(jobs) |> <| log ::= cons (Ended n s t (run_result o)) |>.
Proof. unfold exec_end. destruct (run_result o) as [d e]. by eexists. Qed.

(** ** Names and channels *)

Record group_ok (g : Group) : Prop := mkGroupOk {
  go_jobs : jobs_ok g;
  go_loop_ids i : is_Some (g.(loops) !! i) -> (i < g.(fresh_id))%nat;
  go_closed_ids c : c ∈ g.(closed) -> (c < g.(fresh_id))%nat;
  go_stop_id c : g.(stop) = Some c -> (c < g.(fresh_id))%nat;
  (** The group is started with a channel that is open: closing it does not panic. *)
  go_stop : g.(started) = true -> exists c, g.(stop) = Some c /\ c ∉ g.(closed);
  go_batch n : n ∈ g.(batch) -> is_Some (g.(jobs) !! n);
  go_owner : match g.(owner) with
             | Starting todo | Launching todo => forall n, n ∈ todo -> n ∈ g.(batch)
             | StartRun n todo _ => forall m, m ∈ n :: todo -> m ∈ g.(batch)
             | _ => True
             end;
  go_loops i n ph : g.(loops) !! i = Some (n, ph) -> is_Some (g.(jobs) !! n)
}.

Lemma sorted_names_spec g n : n ∈ sorted_names g <-> is_Some (g.(jobs) !! n).
Proof. unfold sorted_names. by rewrite (merge_sort_Permutation name_le), elem_of_elements, elem_of_dom. Qed.

Lemma jobs_group g J : group_ok g -> jobs_ok (g <| jobs := J |>) -> grows g J -> group_ok (g <| jobs := J |>).
Proof. intros [Hj Hl Hc Hi Hst Hb Ho Hn] Hok Hg. constructor; cbn; try done; intros; eapply grows_some; eauto. Qed.

Lemma caller_ok g g' : caller_step g g' -> group_ok g -> group_ok g'.
Proof. intros Hs Hg. destruct (caller_frame g g' Hs (go_jobs g Hg)) as (J & -> & Hok & Hgr). by apply jobs_group. Qed.

(** Rules for the two ends of a run and for the table of goroutines. *)
Lemma exec_begin_group n s g : n ∈ g.(batch) \/ is_Some (g.(jobs) !! n) -> group_ok g -> group_ok (exec_begin n s g).
Proof.
  intros Hn [Hj Hl Hc Hi Hst Hb Ho Hnm]. assert (Hs : is_Some (g.(jobs) !! n)) by (destruct Hn; auto). destruct Hs as [j Hnj].
  constructor; cbn; try done; [by eapply exec_begin_ok|..]; intros; rewrite lookup_alter_is_Some; eauto.
Qed.

Lemma exec_end_group n s t o g : is_Some (g.(jobs) !! n) -> group_ok g -> group_ok (exec_end n s t o g).
Proof.
  intros [j Hn] [Hj Hl Hc Hi Hst Hb Ho Hnm]. pose proof (exec_end_ok n s t o g j Hn Hj) as Hok.
  destruct (exec_end_frame n s t o g) as [f Hf]. rewrite Hf in *.
  constructor; cbn; try done; intros; rewrite lookup_alter_is_Some; eauto.
Qed.

Lemma set_loop_group i n ph g : (i < g.(fresh_id))%nat -> is_Some (g.(jobs) !! n) -> group_ok g -> group_ok (set_loop i n ph g).
Proof.
  intros Hi Hn [Hj Hl Hc Hsi Hst Hb Ho Hnm]. constructor; cbn; try done.
  - by eapply jobs_ok_same, Hj.
  - intros k [x [[<- _]|[_ Hk]]%lookup_insert_Some]; eauto.
  - intros k m p [[_ [= <- _]]|[_ Hk]]%lookup_insert_Some; eauto.
Qed.

Lemma delete_loop_group i g : group_ok g -> group_ok (g <| loops ::= delete i |>).
Proof.
  intros [Hj Hl Hc Hsi Hst Hb Ho Hnm]. constructor; cbn; try done.
  - by eapply jobs_ok_same, Hj.
  - intros k [x [_ Hk]%lookup_delete_Some]; eauto.
  - intros k m p [_ Hk]%lookup_delete_Some; eauto.
Qed.

Lemma loop_ok g g' : loop_step g g' -> group_ok g -> group_ok g'.
Proof.
  intros Hs Hg. pose proof Hg as [Hj Hl _ _ _ _ _ Hnm].
  destruct Hs as [g i n Hi|g i n ch s Hi|g i n ch s j Hi Hn Ht|g i n ch s t o Hi|g i n c s Hi Hc Hf|g i n c Hi Hc Hf|g i n s t o Hi];
    pose proof (Hl i (mk_is_Some _ _ Hi)) as Hlt; pose proof (Hnm _ _ _ Hi) as Hsn.
  - by apply set_loop_group.
  - apply set_loop_group; [done| |]; [by apply on_stats_some|]. apply exec_begin_group; auto.
  - pose proof (trigger_grows g n j false Hn) as Hgr. apply set_loop_group; [done| |].
    { apply on_stats_some. by eapply grows_some. }
    apply exec_begin_group; [right; by eapply grows_some|]. apply jobs_group; [done| |done]. by apply trigger_ok.
  - destruct (exec_end_frame n s t o g) as [f Hf]. apply set_loop_group; [by rewrite Hf| |by apply exec_end_group].
    rewrite Hf. by apply on_stats_some.
  - apply set_loop_group; [done| |]; [by apply on_stats_some|]. apply exec_begin_group; auto.
  - by apply delete_loop_group.
  - by apply delete_loop_group, exec_end_group.
Qed.

Lemma group_owner_ok g w : group_ok g ->
  match w with
  | Starting todo | Launching todo => forall n, n ∈ todo -> n ∈ g.(batch)
  | StartRun n todo _ => forall m, m ∈ n :: todo -> m ∈ g.(batch)
  | _ => True
  end -> group_ok (g <| owner := w |>).
Proof. intros [Hj Hl Hc Hi Hst Hb Ho Hn] Hw. constructor; cbn; try done. by eapply jobs_ok_same, Hj. Qed.

Lemma owner_ok g g' : owner_step g g' -> group_ok g -> group_ok g'.
Proof.
  intros Hs Hg. pose proof Hg as [Hj Hl Hc Hi Hst Hb Ho Hn].
  destruct Hs as [g Hw Hs|g n todo Hw Hf|g n todo s Hw Hf|g n todo s t o Hw|g Hw|g Hw|g n todo Hw|g Hw|g c Hw Hs Hc'|g Hw Hlp|g Hw];
    rewrite Hw in Ho.
  - constructor; cbn; try done.
    + by eapply (jobs_ok_log g), Hj.
    + intros i Hs'%Hl. lia.
    + intros c Hc'%Hc. lia.
    + intros c [= <-]. lia.
    + intros _. eexists. split; [done|]. intros Hc'%Hc. lia.
    + by intros n Hn'%sorted_names_spec.
  - apply group_owner_ok; [done|]. intros m Hm. apply Ho. by right.
  - apply group_owner_ok; [|exact Ho]. apply exec_begin_group; [|done]. left. apply Ho. by left.
  - apply group_owner_ok; [|destruct (run_result o) as [d [e|]]; [done|]].
    + apply exec_end_group; [|done]. apply Hb, Ho. by left.
    + destruct (exec_end_frame n s t o g) as [f ->]. intros m Hm. apply Ho. by right.
  - constructor; cbn; try done. by eapply jobs_ok_same, Hj.
  - by apply group_owner_ok.
  - assert (Hnm : is_Some (g.(jobs) !! n)) by (apply Hb, Ho; by left).
    constructor; cbn; [by eapply jobs_ok_same, Hj| | | |done|done| |].
    + intros i [x [[<- _]|[_ Hk]]%lookup_insert_Some]; [lia|]. pose proof (Hl i (mk_is_Some _ _ Hk)). lia.
    + intros c Hc'%Hc. lia.
    + intros c Hc'%Hi. lia.
    + intros m Hm. apply Ho. by right.
    + intros k m p [[_ [= <- _]]|[_ Hk]]%lookup_insert_Some; eauto.
  - by apply group_owner_ok.
  - constructor; cbn; try done; [by eapply (jobs_ok_log g), Hj|]. intros d [->%elem_of_singleton|Hd]%elem_of_union; auto.
  - constructor; cbn; try done. by eapply (jobs_ok_log g), Hj.
  - constructor; cbn; try done. by eapply (jobs_ok_log g), Hj.
Qed.

Lemma worker_ok g g' : group_ok g -> worker_step g g' -> group_ok g'.
Proof. intros Hg Hw. destruct Hw; eauto using caller_ok, owner_ok, loop_ok. Qed.

Lemma new_group_ok : group_ok NewGroup.
Proof. constructor; cbn; try done; [by intros i [x Hx%lookup_empty_Some]|by intros n Hn%elem_of_nil]. Qed.

(** ** One run of a job at a time *)

(** The events since the last one with a property. *)
Fixpoint since (p : occurrence -> bool) (l : list occurrence) : list occurrence :=
  match l with [] => [] | o :: l => if p o then [] else o :: since p l end.
Definition is_start (o : occurrence) : bool := match o with StartCalled => true | _ => false end.
Definition is_close (o : occurrence) : bool := match o with StopClosed => true | _ => false end.

(** The runs at the start of the jobs [done], all of them without error. *)
Inductive start_ran (f : string -> bool) : list string -> list occurrence -> Prop :=
| sr_none : start_ran f [] []
| sr_skip n ns l : f n = false -> start_ran f ns l -> start_ran f (ns ++ [n]) l
| sr_ok n ns l s t d : f n = true -> start_ran f ns l ->
    start_ran f (ns ++ [n]) (Ended n s t (d, None) :: Began n s :: l).

(** A run of the job that began and ended since the stop channel was closed. *)
Definition drained (n : string) (l : list occurrence) : Prop :=
  exists s t r, [Ended n s t r; Began n s] `sublist_of` since is_close l.

Definition is_running (ph : phase) : bool := match ph with Executing _ _ | Draining _ => true | _ => false end.

(** A goroutine or [Start] is running the job. *)
Definition executing (n : string) (g : Group) : Prop :=
  (exists todo s, g.(owner) = StartRun n todo s) \/
  (exists i ph, g.(loops) !! i = Some (n, ph) /\ is_running ph = true).

Definition has_loop (n : string) (g : Group) : Prop := exists i ph, g.(loops) !! i = Some (n, ph).

Definition owner_state (g : Group) : Prop :=
  match g.(owner) with
  | Idle => g.(started) = true -> forall n, n ∈ g.(batch) -> has_loop n g
  | Starting todo => g.(loops) = ∅ /\ g.(started) = true /\
      exists ns, g.(batch) = (ns ++ todo)%list /\ start_ran (has_flag RunAtStart g) ns (since is_start g.(log))
  | StartRun n todo s => g.(loops) = ∅ /\ g.(started) = true /\ has_flag RunAtStart g n = true /\
      exists ns l, g.(batch) = (ns ++ n :: todo)%list /\ start_ran (has_flag RunAtStart g) ns l /\
        since is_start g.(log) = Began n s :: l
  | StartFailing => g.(loops) = ∅ /\ g.(started) = true /\
      exists ns n todo s t d e l, g.(batch) = (ns ++ n :: todo)%list /\ has_flag RunAtStart g n = true /\
        start_ran (has_flag RunAtStart g) ns l /\ since is_start g.(log) = Ended n s t (d, Some e) :: Began n s :: l
  | Launching todo => g.(started) = true /\
      exists ns, g.(batch) = (ns ++ todo)%list /\ (forall n, n ∈ ns -> has_loop n g) /\ (forall n, n ∈ todo -> ~ has_loop n g) /\
        exists new l, since is_start g.(log) = (new ++ l)%list /\ start_ran (has_flag RunAtStart g) g.(batch) l
  | Stopping => g.(started) = false /\ (exists c, g.(stop) = Some c /\ c ∈ g.(closed)) /\
      forall n, n ∈ g.(batch) -> has_flag RunAtStop g n = true ->
        (exists i ph, g.(loops) !! i = Some (n, ph) /\
           match ph with Draining s => [Began n s] `sublist_of` since is_close g.(log) | _ => True end) \/ drained n g.(log)
  end.

Record group_owned (g : Group) : Prop := mkGroupOwned {
  gw_nodup : NoDup g.(batch) /\ Sorted name_le g.(batch);
  gw_one i j n p q : g.(loops) !! i = Some (n, p) -> g.(loops) !! j = Some (n, q) -> i = j;
  gw_batch i n p : g.(loops) !! i = Some (n, p) -> n ∈ g.(batch);
  gw_chan i n p : g.(loops) !! i = Some (n, p) ->
    match p with
    | Entered => is_Some g.(stop)
    | Waiting ch | Executing ch _ => ch = g.(stop) /\ is_Some g.(stop)
    | Draining _ => exists c, g.(stop) = Some c /\ c ∈ g.(closed)
    end;
  gw_running n : executing n g <-> in_run n g.(log) = true;
  gw_owner : owner_state g
}.

Lemma start_ran_ext (f h : string -> bool) ns l : (forall n, n ∈ ns -> f n = h n) -> start_ran f ns l -> start_ran h ns l.
Proof.
  intros Hext Hr. induction Hr as [|n ns l Hf _ IH|n ns l s t d Hf _ IH]; [constructor|constructor|constructor];
    try (rewrite <- Hext; [done|set_solver]); apply IH; set_solver.
Qed.

(** What the goroutine of job [n] does: from a phase, with the occurrences, to a phase or its end. *)
Inductive move (g : Group) (n : string) : phase -> list occurrence -> option phase -> Prop :=
| mv_enter : move g n Entered [] (Some (Waiting g.(stop)))
| mv_begin ch s : move g n (Waiting ch) [Began n s] (Some (Executing ch s))
| mv_end ch s t r : move g n (Executing ch s) [Ended n s t r] (Some (Waiting ch))
| mv_stop c s : c ∈ g.(closed) -> move g n (Waiting (Some c)) [Began n s] (Some (Draining s))
| mv_leave c : c ∈ g.(closed) -> has_flag RunAtStop g n = false -> move g n (Waiting (Some c)) [] None
| mv_drained s t r : move g n (Draining s) [Ended n s t r] None.

Definition moved (i : nat) (n : string) (q : option phase) (l : gmap nat (string * phase)) : gmap nat (string * phase) :=
  match q with Some p => <[i := (n, p)]> l | None => delete i l end.

(** [g'] is [g] with other jobs of the same kind, another table of goroutines and more history. *)
Record same_owner (g g' : Group) : Prop := mkSameOwner {
  so_started : g'.(started) = g.(started);
  so_stop : g'.(stop) = g.(stop);
  so_closed : g'.(closed) = g.(closed);
  so_owner : g'.(owner) = g.(owner);
  so_batch : g'.(batch) = g.(batch);
  so_flag f n : is_Some (g.(jobs) !! n) -> has_flag f g' n = has_flag f g n
}.

Lemma loop_frame g g' : loop_step g g' -> exists i n p new q,
  g.(loops) !! i = Some (n, p) /\ move g n p new q /\ same_owner g g' /\
  g'.(loops) = moved i n q g.(loops) /\ g'.(log) = (new ++ g.(log))%list.
Proof.
  intros Hs. destruct Hs as [g i n Hi|g i n ch s Hi|g i n ch s j Hi Hn Ht|g i n ch s t o Hi|g i n c s Hi Hc Hf|g i n c Hi Hc Hf|g i n s t o Hi];
    try (destruct (exec_end_frame n s t o g) as [f Hfr]; rewrite Hfr); eexists i, n, _, _, _; (split; [exact Hi|]).
  1: split; [apply mv_enter|]. 2-3: split; [apply mv_begin|]. 4: split; [apply mv_end|].
  5: split; [by apply mv_stop|]. 6: split; [by apply (mv_leave g n c)|]. 7: split; [apply mv_drained|].
  all: (split; [split; try done; intros h m Hm|split; reflexivity]).
  - by apply (on_stats_flag h).
  - etrans; [by apply (on_stats_flag h)|]. by apply grows_flag; [apply trigger_grows|].
  - by apply (on_stats_flag h f n g).
  - by apply (on_stats_flag h).
  - by apply (on_stats_flag h f n g).
Qed.

Lemma lookup_moved i n q l j m p : moved i n q l !! j = Some (m, p) <->
  (j = i /\ m = n /\ q = Some p) \/ (j <> i /\ l !! j = Some (m, p)).
Proof.
  destruct q as [p'|]; cbn.
  - rewrite lookup_insert_Some. naive_solver.
  - rewrite lookup_delete_Some. naive_solver.
Qed.

Lemma loops_empty g i x : g.(loops) = ∅ -> g.(loops) !! i = Some x -> False.
Proof. intros ->. by rewrite lookup_empty. Qed.

(** While there are goroutines, [Start] runs no job itself. *)
Lemma executing_loop g i n p : group_owned g -> g.(loops) !! i = Some (n, p) ->
  (executing n g <-> is_running p = true) /\ forall m todo s, g.(owner) <> StartRun m todo s.
Proof.
  intros [_ Hone _ _ _ Ho] Hi.
  assert (Hnr : forall m todo s, g.(owner) <> StartRun m todo s).
  { intros m todo s Hw. unfold owner_state in Ho. rewrite Hw in Ho. destruct Ho as (He & _). by eapply loops_empty. }
  split; [|done]. split.
  - intros [(todo & s & Hw)|(j & q & Hj & Hq)]; [by apply Hnr in Hw|].
    pose proof (Hone _ _ _ _ _ Hi Hj) as <-. congruence.
  - intros Hr. right. eauto.
Qed.

Lemma in_run_other n l new : Forall (fun o => touches n o = false) new -> in_run n (new ++ l) = in_run n l.
Proof. induction 1 as [|o new Ho _ IH]; [done|]. cbn. by rewrite Ho. Qed.

Lemma move_other g n p new q m : move g n p new q -> m <> n -> Forall (fun o => touches m o = false) new.
Proof. intros Hm Hne. destruct Hm; repeat constructor; cbn; apply String.eqb_neq; congruence. Qed.

Lemma move_running g n p new q l : move g n p new q -> in_run n l = is_running p ->
  in_run n (new ++ l) = match q with Some p' => is_running p' | None => false end.
Proof. intros Hm. destruct Hm; cbn; rewrite ?String.eqb_refl; done. Qed.

Lemma move_since g n p new q l pr : move g n p new q -> (forall m s, pr (Began m s) = false) ->
  (forall m s t r, pr (Ended m s t r) = false) -> since pr (new ++ l) = (new ++ since pr l)%list.
Proof. intros Hm Hb He. destruct Hm; cbn; rewrite ?Hb, ?He; done. Qed.

(** A goroutine only ends when its channel is closed. *)
Lemma move_open g i n p new : group_ok g -> group_owned g -> g.(loops) !! i = Some (n, p) -> g.(started) = true ->
  ~ move g n p new None.
Proof.
  intros Hok Hg Hi Hs Hm. destruct (go_stop g Hok Hs) as (c & Hc & Hn). pose proof (gw_chan g Hg _ _ _ Hi) as Hch.
  inversion Hm; subst; rewrite Hc in Hch; [destruct Hch as [[= ->] _]|destruct Hch as (c' & [= <-] & Hin)]; done.
Qed.

Lemma drained_more n new l : Forall (fun o => is_close o = false) new -> drained n l -> drained n (new ++ l).
Proof.
  intros Hn (s & t & r & Hs). exists s, t, r. induction Hn as [|o new Ho _ IH]; [done|]. cbn. rewrite Ho. by apply sublist_cons.
Qed.

Lemma loop_owner_state g g' i n p new q : group_ok g -> group_owned g ->
  g.(loops) !! i = Some (n, p) -> move g n p new q -> same_owner g g' ->
  g'.(loops) = moved i n q g.(loops) -> g'.(log) = (new ++ g.(log))%list -> owner_state g'.
Proof.
  intros Hok Hg Hi Hm [Hst Hsp Hcl How Hba Hfl] Hlp Hlg. pose proof (gw_owner g Hg) as Ho. unfold owner_state in *.
  assert (Hkeep : forall m, g.(started) = true -> has_loop m g -> has_loop m g').
  { intros m Hs (j & r & Hj). destruct q as [p'|]; [|by destruct (move_open g i n p new Hok Hg Hi Hs)].
    destruct (decide (j = i)) as [->|Hne]; [|exists j, r; rewrite Hlp; apply lookup_moved; by right].
    assert (m = n) as -> by congruence. exists i, p'. rewrite Hlp. apply lookup_moved. by left. }
  assert (Hback : forall m, has_loop m g' -> has_loop m g).
  { intros m (j & r & Hj). rewrite Hlp in Hj. apply lookup_moved in Hj as [(-> & -> & _)|(_ & Hj)]; [by exists i, p|by exists j, r]. }
  assert (Hsame : forall f m, m ∈ g.(batch) -> has_flag f g' m = has_flag f g m).
  { intros f m Hb. by apply Hfl, (go_batch g Hok). }
  rewrite How. destruct (owner g) as [|todo|m todo s| |todo|] eqn:Hw; try (by destruct Ho as (He & _); destruct (loops_empty _ _ _ He Hi)).
  - rewrite Hst, Hba. eauto.
  - destruct Ho as (Hs & ns & Hb & Hin & Hout & new0 & l & Hl & Hr). rewrite Hst, Hba, Hlg. split; [done|].
    exists ns. splits; [done|by eauto|by intros m Hm0 Hh; apply (Hout m Hm0), Hback|].
    rewrite (move_since _ _ _ _ _ _ _ Hm), Hl by done. exists (new ++ new0)%list, l. rewrite <- app_assoc. split; [done|].
    eapply start_ran_ext, Hr. intros m Hb'. by rewrite Hsame.
  - destruct Ho as (Hs & Hc & Hd). rewrite Hst, Hsp, Hcl, Hba, Hlg. splits; [done|done|]. intros m Hb Hf. rewrite Hsame in Hf by done.
    rewrite (move_since _ _ _ _ _ _ _ Hm) by done.
    destruct (Hd m Hb Hf) as [(j & r & Hj & Hr)|Hdr]; [|right; apply drained_more; [by destruct Hm; repeat constructor|done]].
    destruct (decide (j = i)) as [->|Hne].
    + assert (m = n) as -> by congruence. assert (r = p) as -> by congruence.
      destruct Hm as [|ch s|ch s t r|c s Hin|c Hin Hnf|s t r]; [left|left|left|left|congruence|right].
      1-4: (eexists i, _; split; [rewrite Hlp; apply lookup_moved; by left|]); try done. { cbn. apply sublist_skip, sublist_nil_l. }
      exists s, t, r. rewrite (move_since g n (Draining s) [Ended n s t r] None (log g) is_close (mv_drained g n s t r)) by done.
      by apply sublist_skip.
    + left. exists j, r. split; [rewrite Hlp; apply lookup_moved; by right|]. destruct r; try done. by apply sublist_inserts_l.
Qed.

Lemma loop_owned g g' : group_ok g -> group_owned g -> loop_step g g' -> group_owned g'.
Proof.
  intros Hok Hg Hs. destruct (loop_frame g g' Hs) as (i & n & p & new & q & Hi & Hm & Hso & Hlp & Hlg).
  pose proof (loop_owner_state g g' i n p new q Hok Hg Hi Hm Hso Hlp Hlg) as Hown.
  destruct (executing_loop g i n p Hg Hi) as [Hex Hnr].
  destruct Hg as [Hnd Hone Hba Hch Hrun Ho]. destruct Hso as [Hst Hsp Hcl How Hb Hfl]. constructor; try done.
  - by rewrite Hb.
  - intros j k m p1 p2. rewrite Hlp, !lookup_moved.
    intros [(-> & -> & _)|[Hj1 Hj2]] [(-> & Hmn & _)|[Hk1 Hk2]]; try done; subst; [|exfalso; by eauto|by eauto].
    exfalso. apply Hk1. by eauto.
  - intros j m r. rewrite Hlp, Hb, lookup_moved. intros [(-> & -> & _)|[_ Hj]]; eauto.
  - intros j m r. rewrite Hlp, lookup_moved, Hsp, Hcl. intros [(-> & -> & ->)|[_ Hj]]; [|exact (Hch _ _ _ Hj)].
    specialize (Hch _ _ _ Hi). inversion Hm; subst; try done. destruct Hch as [<- _]. eauto.
  - intros m. rewrite Hlg. assert (Hnr' : forall x todo s, g'.(owner) <> StartRun x todo s) by (by rewrite How).
    destruct (decide (m = n)) as [->|Hne].
    + assert (Hip : in_run n (log g) = is_running p).
      { apply eq_true_iff_eq. rewrite <- Hrun. exact Hex. }
      rewrite (move_running _ _ _ _ _ _ Hm Hip). split.
      * intros [(todo & s & Hw)|(j & r & Hj & Hr)]; [by apply Hnr' in Hw|]. rewrite Hlp in Hj.
        apply lookup_moved in Hj as [(-> & _ & ->)|[Hne Hj]]; [done|]. by destruct (Hne (Hone _ _ _ _ _ Hj Hi)).
      * destruct q as [p'|]; [|done]. intros Hr. right. exists i, p'. split; [|done]. rewrite Hlp. apply lookup_moved. by left.
    + rewrite in_run_other by (by eapply move_other). rewrite <- Hrun. unfold executing. rewrite How, Hlp.
      f_equiv. split; intros (j & r & Hj & Hr); exists j, r; (split; [|done]).
      * apply lookup_moved in Hj as [(_ & ? & _)|[_ Hj]]; [done|done].
      * apply lookup_moved. right. split; [|done]. intros ->. congruence.
Qed.

Lemma owned_same g g' : group_owned g -> g'.(batch) = g.(batch) -> g'.(loops) = g.(loops) -> g'.(stop) = g.(stop) ->
  g.(closed) ⊆ g'.(closed) -> (forall n, in_run n g'.(log) = in_run n g.(log)) ->
  (forall n todo s, g.(owner) = StartRun n todo s <-> g'.(owner) = StartRun n todo s) -> owner_state g' -> group_owned g'.
Proof.
  intros [Hnd Hone Hba Hch Hrun _] Hb Hl Hs Hc Hr Ho Hown. constructor; rewrite ?Hb, ?Hl, ?Hs; try done.
  - intros i n p Hi. specialize (Hch i n p Hi). destruct p; try done. destruct Hch as (c & ? & ?). exists c. split; [done|by apply Hc].
  - intros n. rewrite Hr, <- Hrun. unfold executing. rewrite Hl. by setoid_rewrite Ho.
Qed.

Lemma caller_owned g g' : group_ok g -> group_owned g -> caller_step g g' -> group_owned g'.
Proof.
  intros Hok Hg Hs. destruct (caller_frame g g' Hs (go_jobs g Hok)) as (J & Heq & _ & Hgr).
  assert (Hsame : forall f m, m ∈ g.(batch) -> has_flag f g' m = has_flag f g m).
  { intros f m Hm. rewrite Heq. by apply grows_flag, (go_batch g Hok). }
  assert (Hran : forall ns l, (forall n, n ∈ ns -> n ∈ g.(batch)) -> start_ran (has_flag RunAtStart g) ns l ->
    start_ran (has_flag RunAtStart g') ns l).
  { intros ns l Hns. apply start_ran_ext. intros n Hn. by rewrite Hsame by auto. }
  apply (owned_same g); [done|by rewrite Heq..|]. pose proof (gw_owner g Hg) as Ho. unfold owner_state in *.
  assert (Hfr : g'.(owner) = g.(owner) /\ g'.(loops) = g.(loops) /\ g'.(started) = g.(started) /\ g'.(stop) = g.(stop) /\
    g'.(closed) = g.(closed) /\ g'.(batch) = g.(batch) /\ g'.(log) = g.(log)) by (by rewrite Heq).
  destruct Hfr as (Hfo & Hfl & Hfs & Hfp & Hfc & Hfb & Hfg). unfold has_loop in *. rewrite Hfo, Hfl, Hfs, Hfp, Hfc, Hfb, Hfg. clear Heq.
  destruct (owner g) as [|todo|m todo s| |todo|].
  - done.
  - destruct Ho as (He & Hs' & ns & Hba & Hr). splits; try done. exists ns. split; [done|]. apply Hran; [|done]. rewrite Hba. set_solver.
  - destruct Ho as (He & Hs' & Hf & ns & l & Hba & Hr & Hl). splits; try done.
    + rewrite Hsame; [done|]. rewrite Hba. set_solver.
    + exists ns, l. splits; try done. apply Hran; [|done]. rewrite Hba. set_solver.
  - destruct Ho as (He & Hs' & ns & n & todo & s & t & d & e & l & Hba & Hf & Hr & Hl). splits; try done.
    exists ns, n, todo, s, t, d, e, l. splits; try done; [rewrite Hsame; [done|]; rewrite Hba; set_solver|].
    apply Hran; [|done]. rewrite Hba. set_solver.
  - destruct Ho as (Hs' & ns & Hba & Hin & Hout & new & l & Hl & Hr). split; [done|]. exists ns. splits; try done.
    exists new, l. split; [done|]. by apply Hran.
  - destruct Ho as (Hs' & Hc & Hd). splits; try done. intros n Hn. rewrite Hsame by done. by apply Hd.
Qed.

(** Rules for the runs of [Start]. *)
Lemma in_run_began n s l m : in_run m (Began n s :: l) = if String.eqb n m then true else in_run m l.
Proof. done. Qed.
Lemma in_run_ended n s t r l m : in_run m (Ended n s t r :: l) = if String.eqb n m then false else in_run m l.
Proof. done. Qed.

Lemma owned_no_loops g : NoDup g.(batch) /\ Sorted name_le g.(batch) -> g.(loops) = ∅ ->
  (forall n, (exists todo s, g.(owner) = StartRun n todo s) <-> in_run n g.(log) = true) -> owner_state g -> group_owned g.
Proof.
  intros Hnd He Hr Ho. constructor; rewrite ?He; try done.
  intros n. rewrite <- Hr. unfold executing. rewrite He. split; [|by left].
  intros [Hx|(i & p & Hi & _)]; [done|by rewrite lookup_empty in Hi].
Qed.

Lemma not_in_run g n : group_owned g -> g.(loops) = ∅ -> (forall todo s, g.(owner) <> StartRun n todo s) -> in_run n g.(log) = false.
Proof.
  intros Hg He Hn. apply not_true_is_false. rewrite <- (gw_running g Hg).
  intros [(todo & s & Hw)|(i & p & Hi & _)]; [by apply (Hn todo s)|by destruct (loops_empty _ _ _ He Hi)].
Qed.

#[local] Instance name_le_total : Total name_le.
Proof. intros a b. unfold name_le. destruct (String.leb_total a b); auto. Qed.

Lemma sorted_names_nodup g : NoDup (sorted_names g) /\ Sorted name_le (sorted_names g).
Proof.
  unfold sorted_names. split; [|apply Sorted_merge_sort, _].
  rewrite (merge_sort_Permutation name_le). apply NoDup_elements.
Qed.

(** The steps of [Start] before the goroutines. *)
Lemma start_owned g : group_owned g -> g.(owner) = Idle -> g.(loops) = ∅ ->
  group_owned (g <| started := true |> <| stop := Some g.(fresh_id) |> <| fresh_id ::= S |>
      <| batch := sorted_names g |> <| owner := Starting (sorted_names g) |> <| log ::= cons StartCalled |>).
Proof.
  intros Hg Hw He. apply owned_no_loops; [apply sorted_names_nodup|done| |].
  - intros n. cbn. rewrite not_in_run by (try done; by rewrite Hw). split; [intros (? & ? & ?)|]; done.
  - split; [done|split; [done|]]. exists []. split; [done|constructor].
Qed.

Lemma start_begin_owned g n todo s : group_owned g -> g.(owner) = Starting (n :: todo) -> has_flag RunAtStart g n = true ->
  group_owned (exec_begin n s g <| owner := StartRun n todo s |>).
Proof.
  intros Hg Hw Hf. pose proof (gw_owner g Hg) as Ho. unfold owner_state in Ho. rewrite Hw in Ho. destruct Ho as (He & Hs & ns & Hb & Hr).
  apply owned_no_loops; [apply (gw_nodup g Hg)|done| |].
  - intros m. cbn. destruct (String.eqb_spec n m) as [->|Hne].
    + split; [done|]. intros _. eauto.
    + rewrite not_in_run by (try done; by rewrite Hw). split; [|done]. intros (? & ? & [=]); done.
  - split; [done|]. split; [done|]. split; [etrans; [apply on_stats_flag|done]|]. exists ns, (since is_start g.(log)). splits; [done| |done].
    eapply start_ran_ext, Hr. intros m _. symmetry. apply (on_stats_flag RunAtStart).
Qed.

Lemma start_end_owned g n todo s t o : group_owned g -> g.(owner) = StartRun n todo s ->
  group_owned (exec_end n s t o g <| owner := match (run_result o).2 with Some _ => StartFailing | None => Starting todo end |>).
Proof.
  intros Hg Hw. pose proof (gw_owner g Hg) as Ho. unfold owner_state in Ho. rewrite Hw in Ho.
  destruct Ho as (He & Hs & Hf & ns & l & Hb & Hr & Hl). destruct (exec_end_frame n s t o g) as [f Hfr]. rewrite Hfr.
  assert (Hrun : forall m, in_run m (Ended n s t (run_result o) :: log g) = false).
  { intros m. rewrite in_run_ended. destruct (String.eqb_spec n m) as [->|Hne]; [done|]. apply not_true_is_false. rewrite <- (gw_running g Hg).
    intros [(x & y & Hx)|(i & p & Hi & _)]; [congruence|by destruct (loops_empty _ _ _ He Hi)]. }
  assert (Hran : start_ran (has_flag RunAtStart (on_stats f n g)) ns l).
  { eapply start_ran_ext, Hr. intros m _. symmetry. apply (on_stats_flag RunAtStart). }
  apply owned_no_loops; [apply (gw_nodup g Hg)|done| |].
  - intros m. cbn [log field_upd]. rewrite Hrun. split; [|done]. intros (x & y & Hx). by destruct (run_result o) as [d [e|]].
  - destruct (run_result o) as [d [e|]]; (split; [done|split; [done|]]).
    + exists ns, n, todo, s, t, d, e, l. split; [done|]. split; [etrans; [apply on_stats_flag|done]|]. split; [done|].
      cbn. by rewrite Hl.
    + exists (ns ++ [n])%list. split; [cbn; by rewrite <- app_assoc|]. cbn [log field_upd since is_start]. rewrite Hl.
      apply sr_ok; [|done]. etrans; [apply on_stats_flag|done].
Qed.

Lemma launch_owned g n todo : group_ok g -> group_owned g -> g.(owner) = Launching (n :: todo) ->
  group_owned (set_loop g.(fresh_id) n Entered g <| fresh_id ::= S |> <| owner := Launching todo |>).
Proof.
  intros Hok Hg Hw. pose proof (gw_owner g Hg) as Ho. unfold owner_state in Ho. rewrite Hw in Ho.
  destruct Ho as (Hs & ns & Hb & Hin & Hout & new & l & Hl & Hr). destruct Hg as [Hnd Hone Hba Hch Hrun _].
  assert (Hno : forall i p, g.(loops) !! i = Some (n, p) -> False) by (intros i p Hi; apply (Hout n); [by left|by exists i, p]).
  assert (Hlt : forall i x, g.(loops) !! i = Some x -> i <> g.(fresh_id)).
  { intros i x Hi. pose proof (go_loop_ids g Hok i (mk_is_Some _ _ Hi)). lia. }
  constructor; cbn [set_loop batch loops stop closed owner log field_upd]; try done.
  - intros i j m p q [[<- [= <- <-]]|[Hne Hi]]%lookup_insert_Some [[<- Hx]|[Hne' Hj]]%lookup_insert_Some; try done;
      [by destruct (Hno _ _ Hj)|simplify_eq; by destruct (Hno _ _ Hi)|by eapply Hone].
  - intros i m p [[<- [= <- <-]]|[Hne Hi]]%lookup_insert_Some; [rewrite Hb; set_solver|by eapply Hba].
  - intros i m p [[<- [= <- <-]]|[Hne Hi]]%lookup_insert_Some; [|exact (Hch _ _ _ Hi)].
    destruct (go_stop g Hok Hs) as (c & Hc & _). eauto.
  - intros m. rewrite <- Hrun. unfold executing. rewrite Hw. cbn [set_loop loops owner field_upd].
    split; (intros [(x & y & Hx)|(i & p & Hi & Hp)]; [done|right]).
    + apply lookup_insert_Some in Hi as [[_ [= <- <-]]|[_ Hi]]; [done|eauto].
    + exists i, p. split; [|done]. rewrite lookup_insert_ne; [done|]. intros <-. by apply Hlt in Hi.
  - split; [done|]. exists (ns ++ [n])%list. split; [cbn; by rewrite <- app_assoc|]. split; [|split].
    + intros m [Hm| ->%list_elem_of_singleton]%elem_of_app.
      * destruct (Hin m Hm) as (i & p & Hi). exists i, p. cbn. rewrite lookup_insert_ne; [done|]. intros <-. by apply Hlt in Hi.
      * exists g.(fresh_id), Entered. cbn. by rewrite lookup_insert_eq.
    + intros m Hm (i & p & Hi). cbn in Hi. apply lookup_insert_Some in Hi as [[_ [= <- <-]]|[_ Hi]].
      * destruct Hnd as [Hnd _]. rewrite Hb in Hnd. apply NoDup_app in Hnd as (_ & _ & [Hnd _]%NoDup_cons). done.
      * apply (Hout m); [by right|by exists i, p].
    + by exists new, l.
Qed.

Lemma owner_owned g g' : group_ok g -> group_owned g -> owner_step g g' ->
  (g.(owner) = Idle -> g'.(owner) <> Idle -> g.(started) = false -> g.(loops) = ∅) -> group_owned g'.
Proof.
  intros Hok Hg Hs Hcl. pose proof (gw_owner g Hg) as Ho. unfold owner_state in Ho.
  destruct Hs as [g Hw Hs|g n todo Hw Hf|g n todo s Hw Hf|g n todo s t o Hw|g Hw|g Hw|g n todo Hw|g Hw|g c Hw Hs Hc'|g Hw Hlp|g Hw];
    rewrite Hw in Ho.
  - apply start_owned; [done|done|]. by apply Hcl.
  - destruct Ho as (He & Hs & ns & Hb & Hr). apply (owned_same g); try done; [intros m x s; by rewrite Hw|].
    split; [done|split; [done|]]. exists (ns ++ [n])%list. split; [cbn; by rewrite <- app_assoc|]. by apply sr_skip.
  - by apply start_begin_owned.
  - by eapply start_end_owned.
  - destruct Ho as (He & _). apply owned_no_loops; [apply (gw_nodup g Hg)|done| |done].
    intros n. cbn. rewrite not_in_run by (try done; by rewrite Hw). split; [intros (? & ? & ?)|]; done.
  - destruct Ho as (He & Hs & ns & Hb & Hr). rewrite app_nil_r in Hb. apply (owned_same g); try done; [intros m x s; by rewrite Hw|].
    split; [done|]. exists []. split; [done|]. split; [by intros n Hn%elem_of_nil|]. split; [intros n Hn (i & p & Hi); by destruct (loops_empty _ _ _ He Hi)|].
    exists [], (since is_start g.(log)). split; [done|]. cbn. rewrite Hb. exact Hr.
  - by apply launch_owned.
  - destruct Ho as (Hs & ns & Hb & Hin & _). rewrite app_nil_r in Hb. apply (owned_same g); try done; [intros m x s; by rewrite Hw|].
    intros _ n Hn. cbn in Hn. rewrite Hb in Hn. exact (Hin n Hn).
  - apply (owned_same g); try done; [cbn; set_solver|intros m x s; by rewrite Hw|].
    split; [done|]. split; [exists c; split; [done|cbn; set_solver]|]. intros n Hn _. left. destruct (Ho Hs n Hn) as (i & p & Hi).
    exists i, p. split; [done|]. destruct p as [|ch|ch x|x]; try done. destruct (gw_chan g Hg _ _ _ Hi) as (c1 & Hc1 & Hin).
    destruct (go_stop g Hok Hs) as (c2 & Hc2 & Hnin). congruence.
  - destruct Ho as (Hs & _). apply (owned_same g); try done; [intros m x s; by rewrite Hw|]. intros Hx. cbn in Hx. congruence.
  - destruct Ho as (Hs & _). apply (owned_same g); try done; [intros m x s; by rewrite Hw|]. intros Hx. cbn in Hx. congruence.
Qed.

(** Every state an owner can bring a group to. *)
Lemma owned_reachable g : star owned_step NewGroup g -> group_ok g /\ group_owned g.
Proof.
  intros Hr. refine (star_inv owned_step (fun g => group_ok g /\ group_owned g) NewGroup g _ _ Hr).
  - intros a b [Hok Hg] [Hw Hcl]. split; [by eapply worker_ok|].
    destruct Hw; [by eapply caller_owned|by eapply owner_owned|by eapply loop_owned].
  - split; [apply new_group_ok|]. apply owned_no_loops; [split; constructor|done| |done]. cbn. intros n. split; [intros (? & ? & ?)|]; done.
Qed.

(** ** Properties *)

Definition running_job (n : string) (x : nat * (string * phase)) : Prop := x.2.1 = n /\ is_running x.2.2 = true.
#[local] Instance running_job_dec n x : Decision (running_job n x).
Proof. unfold running_job. apply _. Defined.

(** How many runs of a job are under way. *)
Definition executions (n : string) (g : Group) : nat :=
  match g.(owner) with StartRun m _ _ => if String.eqb m n then 1 else 0 | _ => 0 end +
  size (filter (running_job n) g.(loops)).

Lemma executions_spec n g : group_owned g -> (executions n g <= 1)%nat /\ (executions n g = 1%nat <-> executing n g).
Proof.
  intros Hg. set (m := filter (running_job n) g.(loops)).
  assert (Hm : m = ∅ \/ exists i p, g.(loops) !! i = Some (n, p) /\ is_running p = true /\ m = {[i := (n, p)]}).
  { destruct (map_choose_or_empty m) as [(i & [n' p] & Hi)|He]; [|by left]. right.
    apply map_lookup_filter_Some in Hi as [Hi [Hn Hp]]. cbn in Hn, Hp. subst n'. exists i, p. splits; [done|done|].
    apply map_eq. intros j. destruct (decide (j = i)) as [->|Hne].
    - rewrite lookup_singleton_eq. by apply map_lookup_filter_Some.
    - rewrite lookup_singleton_ne by done. apply map_lookup_filter_None. right. intros [n' q] Hj [Hn _]. cbn in Hn. subst n'.
      apply Hne. by eapply (gw_one g Hg). }
  unfold executions. fold m. destruct Hm as [Hm|(i & p & Hi & Hp & Hm)]; rewrite Hm.
  - rewrite map_size_empty, Nat.add_0_r.
    assert (Hno : executing n g -> exists todo s, g.(owner) = StartRun n todo s).
    { intros [Hx|(i & p & Hi & Hp)]; [done|]. assert (Hl : m !! i = Some (n, p)) by by apply map_lookup_filter_Some.
      by rewrite Hm, lookup_empty in Hl. }
    destruct (owner g) as [| |k todo s| | |] eqn:Hw; try (split; [lia|]; split; [done|]; intros Hx; destruct (Hno Hx) as (? & ? & ?); done).
    destruct (String.eqb_spec k n) as [->|Hne]; (split; [lia|]; split; [|]); try done.
    + intros _. left. eauto.
    + intros Hx. destruct (Hno Hx) as (? & ? & [=]). done.
  - rewrite map_size_singleton. destruct (executing_loop g i n p Hg Hi) as [Hex Hnr].
    destruct (owner g) as [| |k todo s| | |] eqn:Hw; try (split; [lia|]; split; [intros _; by apply Hex|done]).
    by destruct (Hnr k todo s).
Qed.

(** Which step reports a complete shutdown. *)
Lemma stopped_step g g' : worker_step g g' -> g'.(log) = ShutdownReturned true :: g.(log) ->
  jobs_ok g -> g.(owner) = Stopping /\ g.(loops) = ∅ /\ g'.(loops) = ∅ /\ g'.(batch) = g.(batch).
Proof.
  intros Hw Hl Hj. assert (Hne : forall (A : Type) (l : list A) x, l = x :: l -> False).
  { intros A l x Hx. apply (f_equal List.length) in Hx. cbn in Hx. lia. }
  destruct Hw as [g g' Hs|g g' Hs|g g' Hs].
  - destruct (caller_frame g g' Hs Hj) as (J & -> & _ & _). by destruct (Hne _ _ _ Hl).
  - destruct Hs; try (by destruct (Hne _ _ _ Hl)); try (by inversion Hl).
    destruct (exec_end_frame n start took o g) as [f Hf]. rewrite Hf in Hl. by inversion Hl.
  - destruct (loop_frame g g' Hs) as (i & n & p & new & q & Hi & Hm & _ & _ & Hlg). rewrite Hlg in Hl.
    destruct Hm; try (by destruct (Hne _ _ _ Hl)); by inversion Hl.
Qed.

(** What a complete shutdown leaves. *)
Lemma stopped_drained g g' : group_ok g -> group_owned g -> worker_step g g' -> g'.(log) = ShutdownReturned true :: g.(log) ->
  g'.(loops) = ∅ /\ forall n, n ∈ g'.(batch) -> has_flag RunAtStop g n = true -> drained n g.(log).
Proof.
  intros Hok Hg Hw Hl. destruct (stopped_step g g' Hw Hl (go_jobs g Hok)) as (Ho & He & He' & Hb). split; [done|].
  intros n Hn Hf. rewrite Hb in Hn. pose proof (gw_owner g Hg) as Hs. unfold owner_state in Hs. rewrite Ho in Hs.
  destruct Hs as (_ & _ & Hd). destruct (Hd n Hn Hf) as [(i & p & Hi & _)|Hdr]; [|done]. by destruct (loops_empty _ _ _ He Hi).
Qed.

(** A trigger that was accepted stays until a run of the job begins. *)
Lemma trigger_kept g g' n j : group_ok g -> worker_step g g' -> g.(jobs) !! n = Some j -> j.(trigger) = true ->
  (exists j', g'.(jobs) !! n = Some j' /\ j'.(trigger) = true) \/ exists s, g'.(log) = Began n s :: g.(log).
Proof.
  intros Hok Hw Hn Ht. assert (Hst : forall f m, exists j', (on_stats f m g).(jobs) !! n = Some j' /\ j'.(trigger) = true).
  { intros f m. cbn. destruct (decide (n = m)) as [->|Hne]; [rewrite lookup_alter_eq, Hn|rewrite lookup_alter_ne by done]; eauto. }
  destruct Hw as [g g' Hs|g g' Hs|g g' Hs]; [left|left|].
  - destruct Hs as [js g|m g].
    + destruct (Add_ok js g (go_jobs g Hok)) as (_ & Hsub & _). exists j. split; [|done]. by apply (lookup_weaken _ _ _ _ Hn).
    + unfold Trigger. destruct (jobs g !! m) as [k|] eqn:Hm; cbn; [|eauto].
      destruct (decide (n = m)) as [->|Hne]; [rewrite lookup_insert_eq; eauto|rewrite lookup_insert_ne by done; eauto].
  - destruct Hs; try (by exists j); [apply Hst|]. destruct (exec_end_frame n0 start took o g) as [f ->]. apply Hst.
  - destruct Hs as [g i m Hi|g i m ch s Hi|g i m ch s k Hi Hm Hk|g i m ch s t o Hi|g i m c s Hi Hc Hf|g i m c Hi Hc Hf|g i m s t o Hi];
      try (destruct (exec_end_frame m s t o g) as [f ->]); try (left; apply Hst); try (left; by exists j).
    destruct (decide (n = m)) as [->|Hne]; [right; by exists s|left]. cbn. rewrite lookup_alter_ne, lookup_insert_ne by done. eauto.
Qed.

(** C24: A group of jobs whose owner starts it anew only when the goroutines of the last start
    are gone, under every interleaving of the owner, the goroutines and the callers.  Closing the
    stop channel never panics; no job ever runs twice at a time and [Running] says whether it runs;
    the statistics are those of its runs; and when [Shutdown] reports success no goroutine is left
    and every job marked for it ran once more, from start to end, after the channel was closed. *)
Theorem Group_spec g : star owned_step NewGroup g ->
  (g.(started) = true -> exists c, g.(stop) = Some c /\ c ∉ g.(closed)) /\
  (forall n, (executions n g <= 1)%nat) /\
  (forall n j, g.(jobs) !! n = Some j ->
     j.(stats) = stats_of j.(job) g.(log) /\ (j.(stats).(Running) = true <-> executions n g = 1%nat)) /\
  (forall g', owned_step g g' -> g'.(log) = ShutdownReturned true :: g.(log) ->
     g'.(loops) = ∅ /\ forall n, n ∈ g'.(batch) -> has_flag RunAtStop g n = true -> drained n g.(log)).
Proof.
  intros [Hok Hg]%owned_reachable. split; [apply (go_stop g Hok)|]. split; [intros n; by apply executions_spec|]. split.
  - intros n j Hn. destruct (jo_stats g (go_jobs g Hok) n j Hn) as [Hnm Hst]. split; [done|].
    rewrite Hst. cbn [stats_of Running]. rewrite Hnm, <- (gw_running g Hg). symmetry. by apply executions_spec.
  - intros g' [Hw _] Hl. by apply stopped_drained.
Qed.

(** [Start] runs the jobs marked for it one after the other in the order of their names,
    with no goroutine yet.  When it gives up, the last of these runs failed and those before it
    succeeded, the jobs after it did not run, and the group is left stopped with no goroutine; when
    it goes on to launch, every marked job has run without error.  Once it has launched them all,
    every job has its goroutine. *)
Theorem Start_spec g : star owned_step NewGroup g ->
  (g.(owner) = StartFailing ->
     g.(loops) = ∅ /\
     (exists ns n todo s t d e l, g.(batch) = (ns ++ n :: todo)%list /\ has_flag RunAtStart g n = true /\
        start_ran (has_flag RunAtStart g) ns l /\ since is_start g.(log) = Ended n s t (d, Some e) :: Began n s :: l) /\
     forall g', owner_step g g' -> g'.(owner) = Idle /\ g'.(started) = false /\ g'.(stop) = None /\ g'.(loops) = ∅) /\
  (g.(owner) = Starting [] -> start_ran (has_flag RunAtStart g) g.(batch) (since is_start g.(log))) /\
  (g.(owner) = Launching [] -> forall n, n ∈ g.(batch) -> has_loop n g) /\
  NoDup g.(batch) /\ Sorted name_le g.(batch).
Proof.
  intros [Hok Hg]%owned_reachable. pose proof (gw_owner g Hg) as Ho. unfold owner_state in Ho. split; [|split; [|split]].
  - intros Hw. rewrite Hw in Ho. destruct Ho as (He & _ & Hf). split; [done|]. split; [done|].
    intros g' Hs. inversion Hs; subst; try congruence. cbn. done.
  - intros Hw. rewrite Hw in Ho. destruct Ho as (_ & _ & ns & Hb & Hr). by rewrite Hb, app_nil_r.
  - intros Hw. rewrite Hw in Ho. destruct Ho as (_ & ns & Hb & Hin & _). by rewrite Hb, app_nil_r.
  - apply (gw_nodup g Hg).
Qed.

(** The goroutines of a group on their own leave its owner where it is. *)
Lemma loops_owner g g' : star loop_step g g' -> g'.(owner) = g.(owner) /\ g'.(batch) = g.(batch) /\ g'.(started) = g.(started).
Proof.
  induction 1 as [g|g1 g2 g3 Hs _ (IHo & IHb & IHs)]; [done|].
  destruct (loop_frame g1 g2 Hs) as (i & n & p & new & q & _ & _ & [Hst _ _ How Hba _] & _). rewrite IHo, IHb, IHs. done.
Qed.

Lemma loops_owned g g' : group_ok g -> group_owned g -> star loop_step g g' -> group_ok g' /\ group_owned g'.
Proof. intros Hok Hg. induction 1; [done|]. apply IHstar; [by eapply loop_ok|by eapply loop_owned]. Qed.

(** While [Shutdown] waits one goroutine after the other ends. *)
Lemma stop_one g i x : group_owned g -> g.(owner) = Stopping -> g.(loops) !! i = Some x ->
  exists g', star loop_step g g' /\ g'.(loops) = delete i g.(loops).
Proof.
  intros Hg Hw Hi. destruct x as [n p]. pose proof (gw_owner g Hg) as Ho. unfold owner_state in Ho. rewrite Hw in Ho.
  destruct Ho as (_ & (c & Hc & Hin) & _).
  assert (Hdrain : forall a s, a.(loops) !! i = Some (n, Draining s) -> exists b, star loop_step a b /\ b.(loops) = delete i a.(loops)).
  { intros a s Hl. eexists. split; [eapply star_step; [by apply (ws_drained a i n s 0 (Returned None None))|apply star_refl]|].
    destruct (exec_end_frame n s 0 (Returned None None) a) as [f Hf]. by rewrite Hf. }
  assert (Hwait : forall a, a.(loops) !! i = Some (n, Waiting (Some c)) -> c ∈ a.(closed) ->
    exists b, star loop_step a b /\ b.(loops) = delete i a.(loops)).
  { intros a Hl Hca. destruct (has_flag RunAtStop a n) eqn:Hf.
    - destruct (Hdrain (set_loop i n (Draining 0) (exec_begin n 0 a)) 0) as (b & Hs & Hbl); [cbn; by rewrite lookup_insert_eq|].
      exists b. split; [eapply star_step; [by apply (ws_stop a i n c 0)|exact Hs]|rewrite Hbl; cbn; by rewrite delete_insert_eq].
    - eexists. split; [eapply star_step; [by apply (ws_leave a i n c)|apply star_refl]|done]. }
  pose proof (gw_chan g Hg _ _ _ Hi) as Hch. destruct p as [|ch|ch s|s]; [| | |by eapply Hdrain].
  - destruct (Hwait (set_loop i n (Waiting g.(stop)) g)) as (b & Hs & Hbl); [cbn; by rewrite lookup_insert_eq, Hc|done|].
    exists b. split; [eapply star_step; [by apply ws_enter|exact Hs]|rewrite Hbl; cbn; by rewrite delete_insert_eq].
  - destruct Hch as [-> _]. apply Hwait; [by rewrite Hi, Hc|done].
  - destruct Hch as [-> _]. destruct (exec_end_frame n s 0 (Returned None None) g) as [f Hf].
    destruct (Hwait (set_loop i n (Waiting g.(stop)) (exec_end n s 0 (Returned None None) g))) as (b & Hs & Hbl);
      rewrite ?Hf in *; [cbn; by rewrite lookup_insert_eq, Hc|done|].
    exists b. split; [|rewrite Hbl; cbn; by rewrite delete_insert_eq].
    eapply star_step; [by apply (ws_end g i n g.(stop) s 0 (Returned None None))|]. by rewrite Hf.
Qed.

Lemma loops_stop g : group_ok g -> group_owned g -> g.(owner) = Stopping -> exists g', star loop_step g g' /\ g'.(loops) = ∅.
Proof.
  remember (size g.(loops)) as k eqn:Hk. revert g Hk. induction k as [|k IH]; intros g Hk Hok Hg Hw.
  { symmetry in Hk. apply map_size_empty_inv in Hk. exists g. split; [apply star_refl|done]. }
  destruct (map_choose_or_empty g.(loops)) as [(i & x & Hi)|He]; [|rewrite He, map_size_empty in Hk; done].
  destruct (stop_one g i x Hg Hw Hi) as (g1 & Hs & Hl). destruct (loops_owned g g1 Hok Hg Hs) as [Hok1 Hg1].
  destruct (IH g1) as (g2 & Hs2 & He); [rewrite Hl, map_size_delete, Hi; cbn; lia|done|done|by rewrite (proj1 (loops_owner _ _ Hs))|].
  exists g2. split; [by eapply star_trans|done].
Qed.

(** A step of an owner that is inside one of its calls, and how a [Start] can go through. *)
Definition busy_step (g g' : Group) : Prop := g.(owner) <> Idle /\ owner_step g g'.

Lemma starts_run g todo : g.(owner) = Starting todo -> exists g', star busy_step g g' /\ g'.(owner) = Starting [] /\ g'.(started) = g.(started).
Proof.
  revert g. induction todo as [|n todo IH]; intros g Hw; [exists g; split; [apply star_refl|done]|].
  destruct (has_flag RunAtStart g n) eqn:Hf.
  - set (g1 := exec_begin n 0 g <| owner := StartRun n todo 0 |>).
    set (g2 := exec_end n 0 0 (Returned None None) g1 <| owner := Starting todo |>).
    destruct (IH g2) as (g' & Hs & Ho & Hst); [done|]. exists g'. split; [|split; [done|]].
    + eapply star_step; [split; [by rewrite Hw|by apply (ws_start_begin g n todo 0)]|].
      eapply star_step; [split; [done|by apply (ws_start_end g1 n todo 0 0 (Returned None None))]|]. exact Hs.
    + rewrite Hst. unfold g2, g1. destruct (exec_end_frame n 0 0 (Returned None None) (exec_begin n 0 g <| owner := StartRun n todo 0 |>)) as [f Hq].
      by rewrite Hq.
  - destruct (IH (g <| owner := Starting todo |>)) as (g' & Hs & Ho & Hst); [done|]. exists g'. split; [|done].
    eapply star_step; [split; [by rewrite Hw|by apply (ws_start_skip g n todo)]|exact Hs].
Qed.

Lemma launches_run g todo : g.(owner) = Launching todo -> exists g', star busy_step g g' /\ g'.(owner) = Idle /\ g'.(started) = g.(started).
Proof.
  revert g. induction todo as [|n todo IH]; intros g Hw.
  - eexists. split; [eapply star_step; [split; [by rewrite Hw|by apply ws_launched]|apply star_refl]|done].
  - destruct (IH (set_loop g.(fresh_id) n Entered g <| fresh_id ::= S |> <| owner := Launching todo |>)) as (g' & Hs & Ho & Hst); [done|].
    exists g'. split; [|done]. eapply star_step; [split; [by rewrite Hw|by apply ws_launch]|exact Hs].
Qed.

Lemma start_completes g : g.(owner) = Idle -> g.(started) = false ->
  exists g1 g2, owner_step g g1 /\ g1.(owner) <> Idle /\ star busy_step g1 g2 /\ g2.(owner) = Idle /\ g2.(started) = true.
Proof.
  intros Hw Hs. set (g1 := g <| started := true |> <| stop := Some g.(fresh_id) |> <| fresh_id ::= S |>
    <| batch := sorted_names g |> <| owner := Starting (sorted_names g) |> <| log ::= cons StartCalled |>).
  destruct (starts_run g1 (sorted_names g)) as (g2 & Hr & Ho & Hst); [done|].
  destruct (launches_run (g2 <| owner := Launching g2.(batch) |>) g2.(batch)) as (g3 & Hr3 & Ho3 & Hst3); [done|].
  exists g1, g3. split; [by apply ws_start|]. split; [done|]. split; [|split; [done|]].
  - eapply star_trans; [exact Hr|]. eapply star_step; [split; [by rewrite Ho|by apply ws_start_ran]|exact Hr3].
  - rewrite Hst3. cbn. by rewrite Hst.
Qed.

(** C25: A [Shutdown] that waits can always complete: from every such state there are steps of
    the goroutines, each run ending, after which none is left and [Shutdown] reports success. *)
Theorem Shutdown_completes g : star owned_step NewGroup g -> g.(owner) = Stopping ->
  exists g', star owned_step g g' /\ g'.(owner) = Idle /\ g'.(loops) = ∅ /\ head g'.(log) = Some (ShutdownReturned true).
Proof.
  intros Hr Hw. destruct (owned_reachable g Hr) as [Hok Hg]. destruct (loops_stop g Hok Hg Hw) as (g' & Hs & He).
  assert (Hlift : star owned_step g g').
  { clear Hr Hok Hg He. induction Hs as [g|g1 g2 g3 Hs _ IH]; [apply star_refl|]. eapply star_step; [split; [by apply ws_loop|by rewrite Hw]|].
    apply IH. rewrite <- Hw. apply (loops_owner g1 g2). eapply star_step; [exact Hs|apply star_refl]. }
  assert (Ho : g'.(owner) = Stopping) by (rewrite <- Hw; apply (loops_owner g g' Hs)).
  eexists. split; [eapply star_trans; [exact Hlift|]; eapply star_step; [split; [by apply ws_owner, ws_stopped|by rewrite Ho]|apply star_refl]|]. done.
Qed.
End worker.

(** ** Runs: a job that panics in its last run, and one that fails at the start *)

Ltac run_to c := eapply star_step; [split; [c; try (vm_compute; reflexivity)|intros; first [done|vm_compute; reflexivity]]|].
Definition flush_job : Job := mkJob "flush" 5 true true true.

Lemma Group_spec_witness : exists g, star (owned_step Z) (NewGroup Z) g /\ (executions Z "flush" g <= 1)%nat /\
  drained Z "flush" g.(log Z) /\ from_option (fun j => (ConsecutiveFailures Z (stats Z j), LastSuccessAt Z (stats Z j))) (0, 0) (g.(jobs Z) !! "flush") = (1, 10).
Proof.
  assert (Hr : exists g, star (owned_step Z) (NewGroup Z) g /\ owned_step Z g (g <| owner Z := Idle |> <| log Z ::= cons (ShutdownReturned Z true) |>) /\
    "flush" ∈ g.(batch Z) /\ has_flag Z RunAtStop g "flush" = true /\
    from_option (fun j => (ConsecutiveFailures Z (stats Z j), LastSuccessAt Z (stats Z j))) (0, 0) (g.(jobs Z) !! "flush") = (1, 10)).
  { eexists. split.
    - run_to ltac:(apply ws_caller, (ws_add Z [Some flush_job])). run_to ltac:(apply ws_owner, ws_start).
      run_to ltac:(eapply ws_owner, (ws_start_begin Z _ "flush" [] 10)). run_to ltac:(eapply ws_owner, (ws_start_end Z _ "flush" [] 10 1 (Returned Z None None))).
      run_to ltac:(apply ws_owner, ws_start_ran). run_to ltac:(eapply ws_owner, (ws_launch Z _ "flush" [])). run_to ltac:(apply ws_owner, ws_launched).
      run_to ltac:(eapply ws_loop, (ws_enter Z _ 1 "flush")). run_to ltac:(eapply ws_owner, (ws_shutdown Z _ 0)).
      run_to ltac:(eapply ws_loop, (ws_stop Z _ 1 "flush" 0 20)). run_to ltac:(eapply ws_loop, (ws_drained Z _ 1 "flush" 20 3 (Panicked Z "nil map"))).
      apply star_refl.
    - split; [split; [apply ws_owner, ws_stopped; vm_compute; reflexivity|done]|]. split; [vm_compute; constructor|]. split; vm_compute; reflexivity. }
  destruct Hr as (g & Hr & Hs & Hb & Hf & Hst). exists g. split; [exact Hr|].
  destruct (Group_spec Z g Hr) as (_ & Hex & _ & Hstop). destruct (Hstop _ Hs eq_refl) as [_ Hd]. split; [apply Hex|]. split; [|exact Hst].
  apply (Hd "flush"); [exact Hb|exact Hf].
Defined.

Lemma Start_spec_witness : exists g, star (owned_step Z) (NewGroup Z) g /\ g.(owner Z) = StartFailing /\ g.(loops Z) = ∅ /\
  (forall g', owner_step Z g g' -> g'.(started Z) = false) /\ g.(batch Z) = ["flush"].
Proof.
  assert (Hr : exists g, star (owned_step Z) (NewGroup Z) g /\ g.(owner Z) = StartFailing /\ g.(batch Z) = ["flush"]).
  { eexists. split.
    - run_to ltac:(apply ws_caller, (ws_add Z [Some flush_job])). run_to ltac:(apply ws_owner, ws_start).
      run_to ltac:(eapply ws_owner, (ws_start_begin Z _ "flush" [] 10)).
      run_to ltac:(eapply ws_owner, (ws_start_end Z _ "flush" [] 10 1 (Returned Z None (Some "no database")))). apply star_refl.
    - split; vm_compute; reflexivity. }
  destruct Hr as (g & Hr & Hw & Hb). exists g. destruct (Start_spec Z g Hr) as (Hf & _). destruct (Hf Hw) as (He & _ & Hs).
  split; [exact Hr|]. split; [exact Hw|]. split; [exact He|]. split; [|exact Hb]. intros g' Hg'. apply (Hs g' Hg').
Defined.

Lemma Shutdown_completes_witness : exists g g', star (owned_step Z) (NewGroup Z) g /\ g.(owner Z) = Stopping /\ size g.(loops Z) = 1%nat /\
  star (owned_step Z) g g' /\ g'.(loops Z) = ∅.
Proof.
  assert (Hr : exists g, star (owned_step Z) (NewGroup Z) g /\ g.(owner Z) = Stopping /\ size g.(loops Z) = 1%nat).
  { eexists. split.
    - run_to ltac:(apply ws_caller, (ws_add Z [Some (mkJob "flush" 5 false true true)])). run_to ltac:(apply ws_owner, ws_start).
      run_to ltac:(eapply ws_owner, (ws_start_skip Z _ "flush" [])).
      run_to ltac:(apply ws_owner, ws_start_ran). run_to ltac:(eapply ws_owner, (ws_launch Z _ "flush" [])). run_to ltac:(apply ws_owner, ws_launched).
      run_to ltac:(eapply ws_loop, (ws_enter Z _ 1 "flush")). run_to ltac:(eapply ws_loop, (ws_tick Z _ 1 "flush" (Some 0%nat) 10)).
      run_to ltac:(eapply ws_owner, (ws_shutdown Z _ 0)). apply star_refl.
    - split; vm_compute; reflexivity. }
  destruct Hr as (g & Hr & Hw & Hn). destruct (Shutdown_completes Z g Hr Hw) as (g' & Hs & _ & He & _). exists g, g'.
  split; [exact Hr|]. split; [exact Hw|]. split; [exact Hn|]. split; [exact Hs|exact He].
Defined.
