(* ===== verification/PricingSource.v ===== *)
(** * The feed of models and prices ([internal/modelcatalog/pricing-source.go])

    How a feed is turned into the entries of the catalog: the checks of a row, what the key of a row
    says about its model, and the two lists built from the rows.  The tokens of the JSON decoder are
    a parameter ([FeedDecoder]): a feed is the sequence of keys and values it yields. *)

From Stdlib Require Import Ascii.
From stdpp Require Import sorting.
From S2P Require Import Prelude GoBase Float64 GoCrypto Catalog Pricing.
Local Open Scope Z_scope.

Definition pricingURL : string := "https://getbifrost.ai/datasheet".
Definition maxFeedInBytes : Z := Z.shiftl 32 20.

(** ** Markers in keys *)

Definition digit (c : ascii) : bool :=
  let n := Ascii.nat_of_ascii c in (48 <=? n)%nat && (n <=? 57)%nat.
Definition digits_only (s : string) : bool := forallb digit (String.list_ascii_of_string s).

(** [(\d+|max)]. *)
Definition amount (s : string) : bool := String.eqb s "max" || (negb (is_empty s) && digits_only s).

(** [^(\d+|max)-x-(\d+|max)$], with its groups. *)
Definition sizeMarker (s : string) : option (string * string) :=
  match cut_byte "-"%char s with
  | Some (a, rest) =>
      match cut_prefix "x-" rest with
      | Some b => if amount a && amount b then Some (a, b) else None
      | None => None
      end
  | None => None
  end.

(** [^(\d+|max)-steps$], with its group. *)
Definition stepsMarker (s : string) : option string :=
  match cut_byte "-"%char s with
  | Some (a, rest) => if String.eqb rest "steps" && amount a then Some a else None
  | None => None
  end.

Definition qualityMarkers : list string := ["low"; "medium"; "high"; "standard"; "hd"; "auto"].

Definition providerAliases (p : string) : option Provider :=
  if String.eqb p "azure_text" then Some "azure"
  else if String.eqb p "fireworks_ai-embedding-models" then Some "fireworks_ai"
  else if String.eqb p "text-completion-openai" then Some "openai"
  else if String.eqb p "text-completion-inception" then Some "inception"
  else if String.eqb p "amazon_nova" then Some "amazon-nova"
  else None.

Definition isQualityMarker (parts : list string) : bool :=
  match parts with
  | p0 :: p1 :: _ :: _ => bool_decide (p0 ∈ qualityMarkers) && bool_decide (is_Some (sizeMarker p1))
  | _ => false
  end.

(** ** Rows *)

(** The flags of a row, in the order [capabilities] looks at them. *)
Inductive SupportFlag : Type :=
| SupportsFunctionCalling | SupportsParallelFunctionCalling | SupportsToolChoice | SupportsReasoning
| SupportsVision | SupportsImageInput | SupportsAudioInput | SupportsAudioOutput | SupportsPDFInput
| SupportsVideoInput | SupportsPromptCaching | SupportsResponseSchema | SupportsSystemMessages
| SupportsNativeStreaming | SupportsWebSearch | SupportsComputerUse | SupportsAssistantPrefill
| SupportsEmbeddingImageInput.

Definition flag_bits : list (SupportFlag * Capability) :=
  [(SupportsFunctionCalling, CapFunctionCalling); (SupportsParallelFunctionCalling, CapParallelToolCalls);
   (SupportsToolChoice, CapToolChoice); (SupportsReasoning, CapReasoning); (SupportsVision, CapVision);
   (SupportsImageInput, CapImageInput); (SupportsAudioInput, CapAudioInput); (SupportsAudioOutput, CapAudioOutput);
   (SupportsPDFInput, CapPDFInput); (SupportsVideoInput, CapVideoInput); (SupportsPromptCaching, CapPromptCaching);
   (SupportsResponseSchema, CapResponseSchema); (SupportsSystemMessages, CapSystemMessages);
   (SupportsNativeStreaming, CapStreaming); (SupportsWebSearch, CapWebSearch); (SupportsComputerUse, CapComputerUse);
   (SupportsAssistantPrefill, CapAssistantPrefill); (SupportsEmbeddingImageInput, CapEmbeddingImageInput)].

Record SearchContextCost : Type := mkSearchContextCost { ScLow : option f64; ScMedium : option f64; ScHigh : option f64 }.

Record SourceSchema : Type := mkSourceSchema {
  diffracModelType : ModelType;
  diffractProvider : Provider;
  diffractSelectorSet : SelectorSet;
  diffractCapabilities : Capability;
  diffractModelName : string;
  diffractRawKey : string;
  Mode : string;
  SsProvider : string;
  SsBaseModel : string;
  SsMaxInputTokens : Z;
  SsMaxOutputTokens : Z;
  SsMaxTokens : Z;
  SsLongContextThreshold : Z;
  SearchContext : option SearchContextCost;
  Supports : SupportFlag -> option bool;
  SsPricing : Pricing
}.
#[export] Instance SourceSchema_eta : Eta SourceSchema := fun s =>
  mkSourceSchema (diffracModelType s) (diffractProvider s) (diffractSelectorSet s) (diffractCapabilities s)
    (diffractModelName s) (diffractRawKey s) (Mode s) (SsProvider s) (SsBaseModel s) (SsMaxInputTokens s)
    (SsMaxOutputTokens s) (SsMaxTokens s) (SsLongContextThreshold s) (SearchContext s) (Supports s) (SsPricing s).

Definition supported (supports : SupportFlag -> option bool) : Capability :=
  foldl (fun capability e => if default false (supports e.1) then Z.lor capability e.2 else capability) 0 flag_bits.
Definition capabilities (s : SourceSchema) : Capability := supported s.(Supports).

Inductive RowError : Type :=
| RowDecode (msg : string)
| ControlRow
| UnknownMode (mode : string)
| NoProvider.

(** [errors.Is(err, errControlRow)]. *)
Definition is_control (e : RowError) : bool := match e with ControlRow | UnknownMode _ => true | _ => false end.

(** The costs of a search, which the feed nests. *)
Definition with_search_context (aux : SourceSchema) : SourceSchema :=
  match aux.(SearchContext) with
  | Some c =>
      aux <| SsPricing ::= set_field SearchContextCostPerQueryHigh c.(ScHigh) |>
        <| SsPricing ::= set_field SearchContextCostPerQueryLow c.(ScLow) |>
        <| SsPricing ::= set_field SearchContextCostPerQueryMedium c.(ScMedium) |>
  | None => aux
  end.

(** [UnmarshalJSON], of a row whose fields are decoded. *)
Definition unmarshal_row (decoded : result string SourceSchema) : result RowError SourceSchema :=
  match decoded with
  | Err e => Err (RowDecode e)
  | Ok aux =>
      if is_empty (TrimSpace aux.(Mode)) then Err ControlRow
      else
        let modeltype := ParseModelType aux.(Mode) in
        if decide (modeltype = ModelTypeUnknown) then Err (UnknownMode aux.(Mode))
        else
          let rawProvider := TrimSpace aux.(SsProvider) in
          if is_empty rawProvider then Err NoProvider
          else
            let aux := aux <| diffracModelType := modeltype |> <| diffractProvider := default rawProvider (providerAliases rawProvider) |> in
            let aux := with_search_context aux in
            Ok (aux <| diffractCapabilities := capabilities aux |>)
  end.

(** ** Keys *)

Inductive FeedError : Type :=
| StartToken (msg : string)
| KeyToken (msg : string)
| KeyNotString (type : string)
| BadRow (key : string) (msg : string)
| BadRowContent (key : string) (e : RowError)
| DuplicateMarker (kind key : string)
| EmptyModelName (key : string)
| BadSelectors (key msg : string)
| EndToken (msg : string).

(** The loop over the parts of an image model's key. *)
Fixpoint walk (raw : string) (parts : list string) (values : gmap string string) (consumed : bool) :
    result FeedError (list string * gmap string string * bool) :=
  match parts with
  | head :: ((_ :: _) as rest) =>
      match sizeMarker head with
      | Some (a, b) =>
          match values !! "size" with
          | Some _ => Err (DuplicateMarker "size" raw)
          | None => walk raw rest (<["size" := a ++ "x" ++ b]> values) true
          end
      | None =>
          match stepsMarker head with
          | Some n =>
              match values !! "steps" with
              | Some _ => Err (DuplicateMarker "steps" raw)
              | None => walk raw rest (<["steps" := n]> values) true
              end
          | None =>
              if isQualityMarker parts then
                match values !! "quality" with
                | Some _ => Err (DuplicateMarker "quality" raw)
                | None => walk raw rest (<["quality" := head]> values) true
                end
              else Ok (parts, values, consumed)
          end
      end
  | _ => Ok (parts, values, consumed)
  end.

(** The provider in front of a key. *)
Definition drop_provider (schema : SourceSchema) (parts : list string) : list string :=
  match parts with
  | p0 :: ((_ :: _) as rest) =>
      if String.eqb p0 schema.(SsProvider) || String.eqb p0 schema.(diffractProvider) then rest else parts
  | _ => parts
  end.

(** The provider after the markers. *)
Definition drop_inner (schema : SourceSchema) (consumed : bool) (parts : list string) : list string :=
  match parts with
  | p0 :: ((_ :: _) as rest) => if consumed && String.eqb p0 schema.(diffractProvider) then rest else parts
  | _ => parts
  end.

(** The name of the model and the selectors in a key. *)
Definition parse_key (schema : SourceSchema) (raw : string) : result FeedError (string * gmap string string) :=
  let parts := drop_provider schema (split_byte "/"%char raw) in
  '(parts, values, consumed) ← (if decide (schema.(diffracModelType) = ModelTypeImageGeneration)
                                then walk raw parts ∅ false else Ok (parts, ∅, false));
  let modelName := join "/" (drop_inner schema consumed parts) in
  if is_empty modelName then Err (EmptyModelName raw) else Ok (modelName, values).

(** ** The feed *)

(** A feed as the decoder reads it: the token that opens it, its keys with their values, and the
    token that closes it.  A value is what its fields decode to, or the error of a value that is
    not JSON at all. *)
Inductive FeedEntry : Type :=
| FKeyError (msg : string)
| FKeyOther (type : string)
| FBroken (key msg : string)
| FRow (key : string) (decoded : result string SourceSchema).
Record Feed : Type := mkFeed { fd_open : result string (); fd_entries : list FeedEntry; fd_close : result string () }.

(** The decoder over the bytes of a body, which may end in an error: what it yields and how many
    bytes it has read; and the JSON form of a string. *)
Class FeedDecoder := {
  stream : string -> option string -> Feed;
  consumed_bytes : string -> option string -> Z;
  quote : string -> string
}.

Definition entry_le (a b : string * string) : Prop := String.leb a.1 b.1 = true.
#[export] Instance entry_le_dec a b : Decision (entry_le a b).
Proof. unfold entry_le. apply _. Defined.

(** [json.Marshal] of a map: its entries in the order of the keys. *)
Definition marshal_map `{FeedDecoder} (values : gmap string string) : string :=
  "{" ++ join "," (map (fun e => quote e.1 ++ ":" ++ quote e.2) (merge_sort entry_le (map_to_list values))) ++ "}".

Definition blank (s : string) : bool := is_empty (TrimSpace s).

Definition NewSelectorSet `{FeedDecoder} (values : gmap string string) : result string SelectorSet :=
  if bool_decide (values = ∅) then Ok (mkSelectorSet EmptySelectorKey)
  else if existsb (fun e => blank e.1 || blank e.2) (map_to_list values) then Err "selector name and value are required"
  else Ok (mkSelectorSet (marshal_map values)).

Record CatalogSource : Type := mkCatalogSource {
  URL : string;
  ModelsCatalog : list ModelMetadata;
  PricingCatalog : list PricingVariant;
  TotalModels : Z;
  TotalUnknown : Z;
  TotalSourceCount : Z;
  Digest : string
}.
#[export] Instance CatalogSource_eta : Eta CatalogSource := fun c =>
  mkCatalogSource (URL c) (ModelsCatalog c) (PricingCatalog c) (TotalModels c) (TotalUnknown c) (TotalSourceCount c) (Digest c).
Definition NewCatalogSource (url : string) : CatalogSource := mkCatalogSource url [] [] 0 0 0 "".

Section feed.
Context `{FeedDecoder}.

(** A row that was decoded, under its key. *)
Definition place_row (key : string) (schema : SourceSchema) : result FeedError SourceSchema :=
  let schema := schema <| diffractRawKey := key |> in
  '(modelName, values) ← parse_key schema key;
  match NewSelectorSet values with
  | Err e => Err (BadSelectors key e)
  | Ok selectors => Ok (schema <| diffractSelectorSet := selectors |> <| diffractModelName := modelName |>)
  end.

(** The loop over the entries: the counts of the source and the rows so far. *)
Fixpoint parse_entries (es : list FeedEntry) (results : list SourceSchema) (c : CatalogSource) :
    result FeedError (list SourceSchema) * CatalogSource :=
  match es with
  | [] => (Ok results, c)
  | FKeyError msg :: _ => (Err (KeyToken msg), c)
  | FKeyOther type :: _ => (Err (KeyNotString type), c)
  | FBroken key msg :: _ => (Err (BadRow key msg), c <| TotalSourceCount ::= Z.add 1 |>)
  | FRow key decoded :: es =>
      let c := c <| TotalSourceCount ::= Z.add 1 |> in
      match unmarshal_row decoded with
      | Err e => if is_control e then parse_entries es results (c <| TotalUnknown ::= Z.add 1 |>) else (Err (BadRowContent key e), c)
      | Ok schema =>
          match place_row key schema with
          | Err e => (Err e, c)
          | Ok schema => parse_entries es (results ++ [schema])%list c
          end
      end
  end.

Definition modelParser (f : Feed) (c : CatalogSource) : result FeedError (list SourceSchema) * CatalogSource :=
  match f.(fd_open) with
  | Err msg => (Err (StartToken msg), c)
  | Ok _ =>
      match parse_entries f.(fd_entries) [] c with
      | (Err e, c) => (Err e, c)
      | (Ok results, c) => (match f.(fd_close) with Err msg => Err (EndToken msg) | Ok _ => Ok results end, c)
      end
  end.

Definition row_key (row : SourceSchema) : CatalogKey :=
  mkCatalogKey row.(diffractProvider) row.(diffractModelName) row.(diffracModelType).

Definition metadata_of (row : SourceSchema) : ModelMetadata :=
  mkModelMetadata "" row.(diffractProvider) row.(diffracModelType) row.(diffractModelName) row.(SsBaseModel) row.(diffractCapabilities)
    (mkModelLimits row.(SsMaxTokens) row.(SsMaxInputTokens) row.(SsMaxOutputTokens) row.(SsLongContextThreshold)) row.(diffractRawKey).

Definition variant_of (row : SourceSchema) : PricingVariant :=
  mkPricingVariant "" row.(diffractRawKey) row.(diffractSelectorSet) row.(diffractProvider) row.(diffracModelType) row.(diffractModelName) row.(SsPricing).

Fixpoint build_rows (rows : list SourceSchema) (seen : gset CatalogKey) (c : CatalogSource) : CatalogSource :=
  match rows with
  | [] => c
  | row :: rows =>
      let '(seen, c) := if decide (row_key row ∈ seen) then (seen, c)
                        else ({[row_key row]} ∪ seen, c <| ModelsCatalog ::= fun l => (l ++ [metadata_of row])%list |>) in
      build_rows rows seen (c <| PricingCatalog ::= fun l => (l ++ [variant_of row])%list |>)
  end.

Definition build (rows : list SourceSchema) (c : CatalogSource) : CatalogSource :=
  let c := build_rows rows ∅ (c <| ModelsCatalog := [] |> <| PricingCatalog := [] |>) in
  c <| TotalModels := Z.of_nat (List.length c.(ModelsCatalog)) |>.

Inductive FetchError : Type :=
| RequestFailed (url msg : string)
| BadStatus (url status : string)
| TooLarge (url : string)
| FeedFailed (e : FeedError).

(** What the server sent: the status, and the bytes of the body up to an error or the end. *)
Record FeedResponse : Type := mkFeedResponse { fr_code : Z; fr_status : string; fr_body : string; fr_error : option string }.

(** [io.LimitReader]. *)
Definition limit_reader (n : Z) (body : string) (err : option string) : string * option string :=
  if n <=? Z.of_nat (String.length body) then (String.substring 0 (Z.to_nat n) body, None) else (body, err).

Definition Fetch (send : string -> result string FeedResponse) (c : CatalogSource) :
    result FetchError (list ModelMetadata * list PricingVariant) * CatalogSource :=
  let url := if is_empty c.(URL) then pricingURL else c.(URL) in
  match send url with
  | Err e => (Err (RequestFailed url e), c)
  | Ok r =>
      if negb (r.(fr_code) =? 200) then (Err (BadStatus url r.(fr_status)), c)
      else
        let '(body, err) := limit_reader (maxFeedInBytes + 1) r.(fr_body) r.(fr_error) in
        let '(parsed, c) := modelParser (stream body err) c in
        let count := consumed_bytes body err in
        if maxFeedInBytes <? count then (Err (TooLarge url), c)
        else
          match parsed with
          | Err e => (Err (FeedFailed e), c)
          | Ok rows =>
              let c := build rows (c <| Digest := EncodeToString (Sum256 (String.substring 0 (Z.to_nat count) body)) |>) in
              (Ok (c.(ModelsCatalog), c.(PricingCatalog)), c)
          end
  end.
End feed.

(** ** What a key says *)

(** A part of a key that is a marker, with the selector it gives. *)
Definition marker_of (part : string) (kv : string * string) : Prop :=
  (exists a b, sizeMarker part = Some (a, b) /\ kv = ("size", a ++ "x" ++ b)) \/
  (exists n, stepsMarker part = Some n /\ kv = ("steps", n)) \/
  (part ∈ qualityMarkers /\ kv = ("quality", part)).

Lemma isQualityMarker_head p ps : isQualityMarker (p :: ps) = true -> p ∈ qualityMarkers.
Proof. destruct ps as [|q [|r ps]]; try done. cbn [isQualityMarker]. intros H. zbool. done. Qed.

(** The markers that [walk] takes off [parts]. *)
Definition walked (values : gmap string string) (consumed : bool) (parts rest : list string) (values' : gmap string string) (consumed' : bool) : Prop :=
  exists marks kvs, parts = (marks ++ rest)%list /\ Forall2 marker_of marks kvs /\ NoDup (map fst kvs) /\
    (forall k, k ∈ map fst kvs -> values !! k = None) /\ values' = (list_to_map kvs ∪ values) /\
    consumed' = consumed || negb (bool_decide (marks = [])).

Lemma walked_none values consumed parts : walked values consumed parts parts values consumed.
Proof.
  exists [], []. split; [done|]. split; [constructor|]. split; [constructor|]. split; [intros k Hk; by apply elem_of_nil in Hk|].
  split; [symmetry; apply (left_id_L ∅ _)|by destruct consumed].
Qed.

Lemma walked_one values consumed head parts rest k v values' consumed' : marker_of head (k, v) -> values !! k = None ->
  walked (<[k := v]> values) true parts rest values' consumed' -> walked values consumed (head :: parts) rest values' consumed'.
Proof.
  intros Hm Hk (marks & kvs & -> & Hf & Hnd & Hnone & -> & ->). exists (head :: marks), ((k, v) :: kvs).
  assert (Hnk : k ∉ map fst kvs) by (intros Hin%Hnone; by rewrite lookup_insert_eq in Hin).
  split; [done|]. split; [by constructor|]. split; [by constructor|]. split; [|split; [|by destruct consumed]].
  - intros k' [->|Hin]%elem_of_cons; [done|]. specialize (Hnone k' Hin). by apply lookup_insert_None in Hnone as [? _].
  - cbn. rewrite <- insert_union_l, insert_union_r; [done|]. by apply not_elem_of_list_to_map_1.
Qed.

Lemma walk_spec raw parts values consumed rest values' consumed' :
  walk raw parts values consumed = Ok (rest, values', consumed') -> walked values consumed parts rest values' consumed'.
Proof.
  revert values consumed. induction parts as [|head parts IH]; intros values consumed; cbn [walk];
    [intros [= <- <- <-]; apply walked_none|].
  destruct parts as [|next parts]; [intros [= <- <- <-]; apply walked_none|].
  destruct (sizeMarker head) as [[a b]|] eqn:Hsz.
  - destruct (values !! "size") eqn:Hv; [done|]. intros Hw%IH. eapply walked_one; [left; eauto|done|exact Hw].
  - destruct (stepsMarker head) as [n|] eqn:Hst.
    + destruct (values !! "steps") eqn:Hv; [done|]. intros Hw%IH. eapply walked_one; [right; left; eauto|done|exact Hw].
    + destruct (isQualityMarker _) eqn:Hq; [|intros [= <- <- <-]; apply walked_none]. apply isQualityMarker_head in Hq.
      destruct (values !! "quality") eqn:Hv; [done|]. intros Hw%IH. eapply walked_one; [right; right; eauto|done|exact Hw].
Qed.

Lemma drop_provider_spec schema parts : exists pre, parts = (pre ++ drop_provider schema parts)%list /\
  (pre = [] \/ exists p, pre = [p] /\ (p = schema.(SsProvider) \/ p = schema.(diffractProvider))) /\
  (parts <> [] -> drop_provider schema parts <> []).
Proof.
  destruct parts as [|p0 [|p1 rest]]; [by exists []; auto..|]. cbn [drop_provider].
  destruct (_ || _) eqn:Hp; [|by exists []; auto]. exists [p0]. splits; [done| |done]. right. exists p0. split; [done|].
  apply orb_true_iff in Hp as [?%String.eqb_eq|?%String.eqb_eq]; auto.
Qed.

Lemma drop_inner_spec schema consumed parts : exists mid, parts = (mid ++ drop_inner schema consumed parts)%list /\
  (mid = [] \/ (mid = [schema.(diffractProvider)] /\ consumed = true)) /\ (parts <> [] -> drop_inner schema consumed parts <> []).
Proof.
  destruct parts as [|p0 [|p1 rest]]; [by exists []; auto..|]. cbn [drop_inner].
  destruct consumed; [|by exists []; auto]. cbn [andb]. destruct (String.eqb_spec p0 schema.(diffractProvider)) as [->|]; [|by exists []; auto].
  exists [schema.(diffractProvider)]. splits; auto.
Qed.

Lemma split_byte_nonempty sep s : split_byte sep s <> [].
Proof. destruct s as [|c s]; cbn; [done|]. destruct (Ascii.eqb c sep); [done|]. by destruct (split_byte sep s). Qed.

Lemma parse_key_named schema raw modelName values : parse_key schema raw = Ok (modelName, values) -> modelName <> "".
Proof.
  unfold parse_key. destruct (if decide _ then _ else _) as [[[parts vals] consumed]|e]; cbn [mbind result_bind]; [|done].
  destruct (is_empty _) eqn:He; [done|]. intros [= <- <-] Hx. by rewrite Hx in He.
Qed.

(** What the key of a row says.  A key is read without losing a part: it is, joined with
    slashes, the provider's name or nothing, then markers, then the provider's name again or
    nothing, and the name of the model, which is not empty.  Only the keys of image models have
    markers, no two of them of one kind, and the selectors are what the markers say. *)
Theorem parse_key_spec schema raw modelName values : parse_key schema raw = Ok (modelName, values) ->
  exists pre marks mid parts kvs,
    raw = join "/" (pre ++ marks ++ mid ++ parts)%list /\ modelName = join "/" parts /\ modelName <> "" /\
    (pre = [] \/ exists p, pre = [p] /\ (p = schema.(SsProvider) \/ p = schema.(diffractProvider))) /\
    (mid = [] \/ (mid = [schema.(diffractProvider)] /\ marks <> [])) /\
    (marks <> [] -> schema.(diffracModelType) = ModelTypeImageGeneration) /\
    Forall2 marker_of marks kvs /\ NoDup (map fst kvs) /\ values = list_to_map kvs.
Proof.
  unfold parse_key. destruct (drop_provider_spec schema (split_byte "/"%char raw)) as (pre & Hpre & Hp & Hne).
  destruct (if decide _ then _ else _) as [[[parts vals] consumed]|e] eqn:Hw; cbn [mbind result_bind]; [|done]. intros Hk.
  destruct (drop_inner_spec schema consumed parts) as (mid & Hmid & Hm & _).
  destruct (is_empty _) eqn:He; [done|]. injection Hk as <- <-.
  assert (Hmk : exists marks kvs, drop_provider schema (split_byte "/"%char raw) = (marks ++ parts)%list /\ Forall2 marker_of marks kvs /\
    NoDup (map fst kvs) /\ vals = list_to_map kvs /\ (consumed = true -> marks <> []) /\
    (marks <> [] -> schema.(diffracModelType) = ModelTypeImageGeneration)).
  { destruct (decide _) as [Ht|Ht].
    - apply walk_spec in Hw as (marks & kvs & Hd & Hf & Hnd & _ & -> & ->). exists marks, kvs. splits; try done.
      + by rewrite map_union_empty.
      + cbn. intros Hb. by zbool.
    - injection Hw as <- <- <-. exists [], []. splits; try done; constructor. }
  destruct Hmk as (marks & kvs & Hd & Hf & Hnd & -> & Hc & Ht). exists pre, marks, mid, (drop_inner schema consumed parts), kvs.
  splits; try done.
  - rewrite <- Hmid, <- Hd, <- Hpre. symmetry. apply (join_split_byte "/"%char).
  - intros Hx. by rewrite Hx in He.
  - destruct Hm as [->|[-> Hcs]]; [by left|right; auto].
Qed.

(** *** The grammar of a key

    A key, split at its slashes, is the provider's name (if more follows), then the markers of an
    image model, as many as there are, then the provider's name again (if there was a marker and
    more follows), and the name of the model. *)

(** A marker at the head of some parts: a size, a number of steps, or a quality in front of a size. *)
Inductive head_marker : list string -> string * string -> Prop :=
| hm_size head rest a b : sizeMarker head = Some (a, b) -> head_marker (head :: rest) ("size", a ++ "x" ++ b)
| hm_steps head rest n : sizeMarker head = None -> stepsMarker head = Some n -> head_marker (head :: rest) ("steps", n)
| hm_quality head size last rest : sizeMarker head = None -> stepsMarker head = None -> head ∈ qualityMarkers ->
    is_Some (sizeMarker size) -> head_marker (head :: size :: last :: rest) ("quality", head).

(** Markers are taken while one is there and another part follows it. *)
Inductive takes_markers : list string -> list (string * string) -> list string -> Prop :=
| tm_take head next rest kv kvs left : head_marker (head :: next :: rest) kv ->
    takes_markers (next :: rest) kvs left -> takes_markers (head :: next :: rest) (kv :: kvs) left
| tm_stop parts : (forall head next rest kv, parts = head :: next :: rest -> ~ head_marker parts kv) ->
    takes_markers parts [] parts.

(** The provider's name in front of [parts], when more follows it. *)
Definition named_first (names : list string) (parts rest : list string) : Prop :=
  exists p, p ∈ names /\ rest <> [] /\ parts = p :: rest.
Definition drops (allowed : Prop) (names : list string) (parts rest : list string) : Prop :=
  (allowed /\ named_first names parts rest) \/ ((allowed -> forall r, ~ named_first names parts r) /\ rest = parts).

(** The name and the markers of a key of a model of this type, whose row names the provider [raw]
    and which belongs to [provider]. *)
Definition key_reads (type : ModelType) (raw : string) (provider : Provider) (key name : string)
    (kvs : list (string * string)) : Prop :=
  exists parts left rest,
    drops True [raw; provider] (split_byte "/"%char key) parts /\
    (if decide (type = ModelTypeImageGeneration) then takes_markers parts kvs left else kvs = [] /\ left = parts) /\
    drops (kvs <> []) [provider] left rest /\ name = join "/" rest.

Lemma head_marker_walk head next rest :
  match sizeMarker head with
  | Some (a, b) => forall kv, head_marker (head :: next :: rest) kv <-> kv = ("size", a ++ "x" ++ b)
  | None =>
      match stepsMarker head with
      | Some n => forall kv, head_marker (head :: next :: rest) kv <-> kv = ("steps", n)
      | None =>
          if isQualityMarker (head :: next :: rest) then forall kv, head_marker (head :: next :: rest) kv <-> kv = ("quality", head)
          else forall kv, ~ head_marker (head :: next :: rest) kv
      end
  end.
Proof.
  destruct (sizeMarker head) as [[a b]|] eqn:Hs.
  { intros kv. split; [inversion 1; congruence|intros ->; by apply hm_size]. }
  destruct (stepsMarker head) as [n|] eqn:Hn.
  { intros kv. split; [inversion 1; congruence|intros ->; by apply hm_steps]. }
  destruct (isQualityMarker (head :: next :: rest)) eqn:Hq.
  - destruct rest as [|last rest]; [done|]. cbn [isQualityMarker] in Hq. zbool.
    intros kv. split; [inversion 1; congruence|intros ->]. by apply hm_quality.
  - intros kv Hm. inversion Hm as [| |? ? ? ? _ _ Hin Hsz]; [congruence..|]. subst. cbn [isQualityMarker] in Hq.
    rewrite !bool_decide_eq_true_2 in Hq by done. done.
Qed.

(** Markers can always be taken, whether or not one comes twice. *)
Lemma takes_markers_total parts : exists kvs left, takes_markers parts kvs left.
Proof.
  induction parts as [|head parts IH]; [exists [], []; apply tm_stop; done|].
  destruct parts as [|next rest]; [exists [], [head]; apply tm_stop; intros ? ? ? ? [=]|].
  destruct IH as (kvs & left & Ht). pose proof (head_marker_walk head next rest) as Hm.
  assert (Hgo : (exists kv, head_marker (head :: next :: rest) kv) \/ forall kv, ~ head_marker (head :: next :: rest) kv).
  { destruct (sizeMarker head) as [[a b]|]; [left; eexists; by apply Hm|].
    destruct (stepsMarker head) as [n|]; [left; eexists; by apply Hm|].
    destruct (isQualityMarker _); [left; eexists; by apply Hm|by right]. }
  destruct Hgo as [[kv Hkv]|Hno].
  - exists (kv :: kvs), left. by apply tm_take.
  - exists [], (head :: next :: rest). apply tm_stop. intros ? ? ? kv _. apply Hno.
Qed.

(** What the loop makes of the markers, those it has already taken being [values]. *)
Definition walk_result (raw : string) (parts : list string) (values : gmap string string) (consumed : bool)
    (res : result FeedError (list string * gmap string string * bool)) : Prop :=
  match res with
  | Ok (rest, values', consumed') => exists kvs, takes_markers parts kvs rest /\ NoDup (map fst kvs) /\
      (forall k, k ∈ map fst kvs -> values !! k = None) /\ values' = (list_to_map kvs ∪ values) /\
      consumed' = consumed || negb (bool_decide (kvs = []))
  | Err e => exists kind kvs1 v kvs2 left, e = DuplicateMarker kind raw /\
      takes_markers parts (kvs1 ++ (kind, v) :: kvs2)%list left /\ NoDup (map fst kvs1) /\
      (forall k, k ∈ map fst kvs1 -> values !! k = None) /\ (kind ∈ map fst kvs1 \/ is_Some (values !! kind))
  end.

Lemma walk_result_take raw head next rest values consumed k v res : head_marker (head :: next :: rest) (k, v) ->
  values !! k = None -> walk_result raw (next :: rest) (<[k := v]> values) true res ->
  walk_result raw (head :: next :: rest) values consumed res.
Proof.
  intros Hm Hk. destruct res as [[[rest' values'] consumed']|e]; cbn [walk_result].
  - intros (kvs & Ht & Hnd & Hnone & -> & ->). exists ((k, v) :: kvs).
    assert (Hnk : k ∉ map fst kvs) by (intros Hin%Hnone; by rewrite lookup_insert_eq in Hin).
    split; [by apply tm_take|]. split; [by constructor|]. split; [|split; [|by destruct consumed]].
    + intros k' [->|Hin]%elem_of_cons; [done|]. specialize (Hnone k' Hin). by apply lookup_insert_None in Hnone as [? _].
    + cbn. rewrite <- insert_union_l, insert_union_r; [done|]. by apply not_elem_of_list_to_map_1.
  - intros (kind & kvs1 & w & kvs2 & left & -> & Ht & Hnd & Hnone & Hdup). exists kind, ((k, v) :: kvs1), w, kvs2, left.
    assert (Hnk : k ∉ map fst kvs1) by (intros Hin%Hnone; by rewrite lookup_insert_eq in Hin).
    split; [done|]. split; [by apply tm_take|]. split; [by constructor|]. split.
    + intros k' [->|Hin]%elem_of_cons; [done|]. specialize (Hnone k' Hin). by apply lookup_insert_None in Hnone as [? _].
    + destruct Hdup as [Hin|Hin]; [left; by right|]. destruct (decide (kind = k)) as [->|Hne]; [left; by left|].
      rewrite lookup_insert_ne in Hin by congruence. by right.
Qed.

Lemma walk_result_dup raw head next rest values consumed k v : head_marker (head :: next :: rest) (k, v) ->
  is_Some (values !! k) -> walk_result raw (head :: next :: rest) values consumed (Err (DuplicateMarker k raw)).
Proof.
  intros Hm Hk. destruct (takes_markers_total (next :: rest)) as (kvs & left & Ht).
  exists k, [], v, kvs, left. split; [done|]. split; [by apply tm_take|]. split; [constructor|]. split; [|by right].
  intros k' Hk'. by apply elem_of_nil in Hk'.
Qed.

Lemma walk_reads raw parts values consumed : walk_result raw parts values consumed (walk raw parts values consumed).
Proof.
  revert values consumed. induction parts as [|head parts IH]; intros values consumed.
  { cbn. exists []. split; [by apply tm_stop|]. splits; [constructor|by intros k Hk%elem_of_nil|symmetry; apply (left_id_L ∅ _)|by destruct consumed]. }
  assert (Hstop : (forall kv, ~ head_marker (head :: parts) kv) \/ parts = [] ->
    walk_result raw (head :: parts) values consumed (Ok (head :: parts, values, consumed))).
  { intros Hno. exists []. split; [apply tm_stop; intros h n r kv He; destruct Hno as [Hno| ->]; [apply Hno|by injection He]|].
    splits; [constructor|by intros k Hk%elem_of_nil|symmetry; apply (left_id_L ∅ _)|by destruct consumed]. }
  destruct parts as [|next rest]; cbn [walk]; [apply Hstop; by right|].
  pose proof (head_marker_walk head next rest) as Hm.
  assert (Hgo : forall k v, head_marker (head :: next :: rest) (k, v) ->
    walk_result raw (head :: next :: rest) values consumed
      match values !! k with Some _ => Err (DuplicateMarker k raw) | None => walk raw (next :: rest) (<[k := v]> values) true end).
  { intros k v Hkv. destruct (values !! k) as [w|] eqn:Hk.
    - by eapply walk_result_dup.
    - eapply walk_result_take; [exact Hkv|done|apply IH]. }
  destruct (sizeMarker head) as [[a b]|]; [apply Hgo; by apply Hm|].
  destruct (stepsMarker head) as [n|]; [apply Hgo; by apply Hm|].
  destruct (isQualityMarker _); [apply Hgo; by apply Hm|]. apply Hstop. by left.
Qed.

Lemma drop_provider_drops schema parts :
  drops True [schema.(SsProvider); schema.(diffractProvider)] parts (drop_provider schema parts).
Proof.
  unfold drops, named_first. destruct parts as [|p0 [|p1 rest]]; cbn [drop_provider].
  - right. split; [|done]. intros _ r (p & _ & _ & [=]).
  - right. split; [|done]. intros _ r (p & _ & Hr & [= <- <-]). done.
  - destruct (_ || _) eqn:Hp.
    + left. split; [done|]. exists p0. split; [|done]. apply orb_true_iff in Hp as [E%String.eqb_eq|E%String.eqb_eq]; rewrite E; set_solver.
    + right. split; [|done]. apply orb_false_iff in Hp as [H1%String.eqb_neq H2%String.eqb_neq].
      intros _ r (p & Hin & _ & [= <- _]). set_solver.
Qed.

Lemma drop_inner_drops schema consumed (P : Prop) parts : (consumed = true <-> P) ->
  drops P [schema.(diffractProvider)] parts (drop_inner schema consumed parts).
Proof.
  intros HP. unfold drops, named_first. destruct parts as [|p0 [|p1 rest]]; cbn [drop_inner].
  - right. split; [|done]. intros _ r (p & _ & _ & [=]).
  - right. split; [|done]. intros _ r (p & _ & Hr & [= <- <-]). done.
  - destruct consumed; cbn [andb].
    + destruct (String.eqb_spec p0 schema.(diffractProvider)) as [->|Hne].
      * left. split; [by apply HP|]. exists schema.(diffractProvider). set_solver.
      * right. split; [|done]. intros _ r (p & Hin & _ & [= <- _]). set_solver.
    + right. split; [|done]. intros Hx. by apply HP in Hx.
Qed.

(** The key of a row is read by this grammar; it is refused for a marker that comes twice, the first
    such one, or for a name that is empty. *)
Lemma parse_key_reads schema raw :
  let reads := key_reads schema.(diffracModelType) schema.(SsProvider) schema.(diffractProvider) raw in
  match parse_key schema raw with
  | Ok (name, values) => exists kvs, reads name kvs /\ NoDup (map fst kvs) /\ values = list_to_map kvs /\ name <> ""
  | Err e =>
      (e = EmptyModelName raw /\ exists kvs, reads "" kvs /\ NoDup (map fst kvs)) \/
      exists kind kvs1 v kvs2 name, e = DuplicateMarker kind raw /\ reads name (kvs1 ++ (kind, v) :: kvs2)%list /\
        NoDup (map fst kvs1) /\ kind ∈ map fst kvs1
  end.
Proof.
  cbn zeta. unfold parse_key. pose proof (drop_provider_drops schema (split_byte "/"%char raw)) as Hpre.
  set (parts := drop_provider schema (split_byte "/"%char raw)) in *.
  set (ty := diffracModelType schema).
  assert (Hw : match (if decide (ty = ModelTypeImageGeneration) then walk raw parts ∅ false else Ok (parts, ∅, false)) with
    | Ok (rest, values, consumed) => exists kvs,
        (if decide (ty = ModelTypeImageGeneration) then takes_markers parts kvs rest else kvs = [] /\ rest = parts) /\
        NoDup (map fst kvs) /\ values = list_to_map kvs /\ (consumed = true <-> kvs <> [])
    | Err e => exists kind kvs1 v kvs2 left, e = DuplicateMarker kind raw /\
        (if decide (ty = ModelTypeImageGeneration) then takes_markers parts (kvs1 ++ (kind, v) :: kvs2)%list left
         else (kvs1 ++ (kind, v) :: kvs2)%list = [] /\ left = parts) /\ NoDup (map fst kvs1) /\ kind ∈ map fst kvs1
    end).
  { destruct (decide (ty = ModelTypeImageGeneration)).
    - pose proof (walk_reads raw parts ∅ false) as Hr. destruct (walk raw parts ∅ false) as [[[rest values] consumed]|err]; cbn in Hr.
      + destruct Hr as (kvs & Ht & Hnd & _ & -> & ->). exists kvs. splits; [done|done|by rewrite map_union_empty|].
        rewrite negb_true_iff, bool_decide_eq_false. done.
      + destruct Hr as (kind & kvs1 & v & kvs2 & left & -> & Ht & Hnd & _ & Hdup). exists kind, kvs1, v, kvs2, left.
        splits; try done. destruct Hdup as [|Hx]; [done|]. rewrite lookup_empty in Hx. by destruct Hx.
    - exists []. split; [done|]. split; [constructor|]. split; [done|]. split; [done|by intros Hx; destruct Hx]. }
  destruct (if decide (ty = _) then walk raw parts ∅ false else _) as [[[left values] consumed]|e]; cbn [mbind result_bind].
  - destruct Hw as (kvs & Ht & Hnd & -> & Hc). pose proof (drop_inner_drops schema consumed _ left Hc) as Hin.
    assert (Hreads : key_reads ty (SsProvider schema) (diffractProvider schema) raw (join "/" (drop_inner schema consumed left)) kvs)
      by (by exists parts, left, (drop_inner schema consumed left)).
    destruct (is_empty _) eqn:He.
    + apply is_empty_true in He. rewrite He in Hreads. left. split; [done|]. by exists kvs.
    + apply is_empty_false in He. by exists kvs.
  - destruct Hw as (kind & kvs1 & v & kvs2 & left & -> & Ht & Hnd & Hin). right.
    set (kvs := (kvs1 ++ (kind, v) :: kvs2)%list) in *.
    pose proof (drop_inner_drops schema true (kvs <> []) left) as Hd.
    exists kind, kvs1, v, kvs2, (join "/" (drop_inner schema true left)). split; [done|]. split; [|done].
    exists parts, left, (drop_inner schema true left). split; [done|]. split; [done|]. split; [|done].
    apply Hd. split; [|done]. intros _ Hx. unfold kvs in Hx. by destruct kvs1.
Qed.

(** ** What a feed becomes *)

Section feed_spec.
Context `{FeedDecoder}.

(** A row that is not one of a model: it names no mode, or one the gateway does not know. *)
Definition control (aux : SourceSchema) : Prop :=
  TrimSpace aux.(Mode) = "" \/ ParseModelType aux.(Mode) = ModelTypeUnknown.

(** The provider a row belongs to. *)
Definition row_provider (aux : SourceSchema) (provider : Provider) : Prop :=
  TrimSpace aux.(SsProvider) <> "" /\
  provider = default (TrimSpace aux.(SsProvider)) (providerAliases (TrimSpace aux.(SsProvider))).

(** The markers and the name in the key of a row. *)
Definition row_key_reads (aux : SourceSchema) (provider : Provider) : string -> string -> list (string * string) -> Prop :=
  key_reads (ParseModelType aux.(Mode)) aux.(SsProvider) provider.

(** What the row of a model becomes: its type, provider, name and selectors are those of its mode,
    its provider and its key; the rest is as it was decoded. *)
Record row_becomes (key : string) (aux row : SourceSchema) : Prop := mkRowBecomes {
  rb_model : ~ control aux;
  rb_key : row.(diffractRawKey) = key;
  rb_type : row.(diffracModelType) = ParseModelType aux.(Mode);
  rb_provider : row_provider aux row.(diffractProvider);
  rb_name : row.(diffractModelName) <> "" /\
    exists kvs, row_key_reads aux row.(diffractProvider) key row.(diffractModelName) kvs /\ NoDup (map fst kvs) /\
      NewSelectorSet (list_to_map kvs) = Ok row.(diffractSelectorSet);
  rb_capabilities : row.(diffractCapabilities) = supported aux.(Supports);
  rb_limits : (row.(SsBaseModel), row.(SsMaxTokens), row.(SsMaxInputTokens), row.(SsMaxOutputTokens), row.(SsLongContextThreshold))
    = (aux.(SsBaseModel), aux.(SsMaxTokens), aux.(SsMaxInputTokens), aux.(SsMaxOutputTokens), aux.(SsLongContextThreshold));
  rb_pricing : row.(SsPricing) = (with_search_context aux).(SsPricing)
}.

(** The entries of a feed: rows of models, in order, and rows that are skipped. *)
Inductive reads_feed : list FeedEntry -> list SourceSchema -> nat -> Prop :=
| rf_nil : reads_feed [] [] 0
| rf_control key aux es rows n : control aux -> reads_feed es rows n ->
    reads_feed (FRow key (Ok aux) :: es) rows (S n)
| rf_row key aux row es rows n : row_becomes key aux row -> reads_feed es rows n ->
    reads_feed (FRow key (Ok aux) :: es) (row :: rows) n.

(** Why an entry has a feed refused. *)
Inductive bad_entry : FeedEntry -> FeedError -> Prop :=
| be_key msg : bad_entry (FKeyError msg) (KeyToken msg)
| be_other type : bad_entry (FKeyOther type) (KeyNotString type)
| be_broken key msg : bad_entry (FBroken key msg) (BadRow key msg)
| be_fields key msg : bad_entry (FRow key (Err msg)) (BadRowContent key (RowDecode msg))
| be_provider key aux : ~ control aux -> TrimSpace aux.(SsProvider) = "" ->
    bad_entry (FRow key (Ok aux)) (BadRowContent key NoProvider)
| be_marker key aux provider name kvs1 kind v kvs2 : ~ control aux -> row_provider aux provider ->
    row_key_reads aux provider key name (kvs1 ++ (kind, v) :: kvs2) -> NoDup (map fst kvs1) -> kind ∈ map fst kvs1 ->
    bad_entry (FRow key (Ok aux)) (DuplicateMarker kind key)
| be_name key aux provider kvs : ~ control aux -> row_provider aux provider ->
    row_key_reads aux provider key "" kvs -> NoDup (map fst kvs) ->
    bad_entry (FRow key (Ok aux)) (EmptyModelName key)
| be_selectors key aux provider name kvs msg : ~ control aux -> row_provider aux provider ->
    row_key_reads aux provider key name kvs -> NoDup (map fst kvs) -> NewSelectorSet (list_to_map kvs) = Err msg ->
    bad_entry (FRow key (Ok aux)) (BadSelectors key msg).

Lemma with_search_context_keeps aux : exists p, with_search_context aux = aux <| SsPricing := p |>.
Proof. unfold with_search_context. destruct (SearchContext aux); [|exists (SsPricing aux); by destruct aux]. by eexists. Qed.

(** A row that is decoded, as [UnmarshalJSON] leaves it. *)
Lemma unmarshal_row_cases aux :
  (control aux /\ exists e, unmarshal_row (Ok aux) = Err e /\ is_control e = true) \/
  (~ control aux /\ TrimSpace aux.(SsProvider) = "" /\ unmarshal_row (Ok aux) = Err NoProvider) \/
  (~ control aux /\ exists provider, row_provider aux provider /\
     unmarshal_row (Ok aux) = Ok (aux <| diffracModelType := ParseModelType aux.(Mode) |> <| diffractProvider := provider |>
       <| SsPricing := (with_search_context aux).(SsPricing) |> <| diffractCapabilities := supported aux.(Supports) |>)).
Proof.
  unfold unmarshal_row, control, row_provider. destruct (is_empty (TrimSpace (Mode aux))) eqn:Hm.
  { apply is_empty_true in Hm. left. split; [by left|]. by exists ControlRow. }
  apply is_empty_false in Hm. destruct (decide _) as [Ht|Ht].
  { left. split; [by right|]. by eexists. }
  assert (Hc : ~ (TrimSpace (Mode aux) = "" \/ ParseModelType (Mode aux) = ModelTypeUnknown)) by tauto.
  destruct (is_empty (TrimSpace (SsProvider aux))) eqn:Hp.
  { apply is_empty_true in Hp. right; left. done. }
  apply is_empty_false in Hp. right; right. split; [done|]. eexists. split; [done|]. f_equal.
  unfold with_search_context. destruct aux as [? ? ? ? ? ? ? ? ? ? ? ? ? [c|] ? ?]; reflexivity.
Qed.

Lemma place_row_cases key aux provider : ~ control aux -> row_provider aux provider ->
  let schema := aux <| diffracModelType := ParseModelType aux.(Mode) |> <| diffractProvider := provider |>
    <| SsPricing := (with_search_context aux).(SsPricing) |> <| diffractCapabilities := supported aux.(Supports) |> in
  match place_row key schema with
  | Ok row => row_becomes key aux row
  | Err e => bad_entry (FRow key (Ok aux)) e
  end.
Proof.
  intros Hc Hp schema. unfold place_row.
  pose proof (parse_key_reads (schema <| diffractRawKey := key |>) key) as Hk. cbv zeta in Hk.
  change (diffracModelType (schema <| diffractRawKey := key |>)) with (ParseModelType aux.(Mode)) in Hk.
  change (SsProvider (schema <| diffractRawKey := key |>)) with (SsProvider aux) in Hk.
  change (diffractProvider (schema <| diffractRawKey := key |>)) with provider in Hk.
  destruct (parse_key _ key) as [[name values]|e]; cbn [mbind result_bind].
  - destruct Hk as (kvs & Hr & Hnd & -> & Hne). destruct (NewSelectorSet _) as [sel|msg] eqn:Hs; [|by eapply be_selectors].
    constructor; try done. split; [done|]. by exists kvs.
  - destruct Hk as [[-> (kvs & Hr & Hnd)]|(kind & kvs1 & v & kvs2 & name & -> & Hr & Hnd & Hin)];
      [by eapply be_name|by eapply be_marker].
Qed.

(** The loop reads a feed to its end or to its first bad entry. *)
Lemma parse_entries_reads es results c :
  match parse_entries es results c with
  | (Ok rows, c') => exists new n, reads_feed es new n /\ rows = (results ++ new)%list /\
      c' = c <| TotalSourceCount ::= Z.add (Z.of_nat (List.length es)) |> <| TotalUnknown ::= Z.add (Z.of_nat n) |>
  | (Err e, c') => (exists before entry after rows n, es = (before ++ entry :: after)%list /\ reads_feed before rows n /\ bad_entry entry e) /\
      (c'.(ModelsCatalog), c'.(PricingCatalog), c'.(Digest)) = (c.(ModelsCatalog), c.(PricingCatalog), c.(Digest))
  end.
Proof.
  revert results c. induction es as [|entry es IH]; intros results c; cbn [parse_entries].
  { exists [], 0%nat. rewrite app_nil_r. split; [constructor|]. split; [done|]. by destruct c. }
  assert (Hbad : forall e c', bad_entry entry e ->
    (c'.(ModelsCatalog), c'.(PricingCatalog), c'.(Digest)) = (c.(ModelsCatalog), c.(PricingCatalog), c.(Digest)) ->
    (exists before en after rows n, entry :: es = (before ++ en :: after)%list /\ reads_feed before rows n /\ bad_entry en e) /\
    (c'.(ModelsCatalog), c'.(PricingCatalog), c'.(Digest)) = (c.(ModelsCatalog), c.(PricingCatalog), c.(Digest))).
  { intros e c' He Hc'. split; [|done]. exists [], entry, es, [], 0%nat. split; [done|]. split; [constructor|done]. }
  destruct entry as [msg|type|key msg|key decoded];
    [apply Hbad; [constructor|done]|apply Hbad; [constructor|done]|apply Hbad; [constructor|by destruct c]|].
  set (c1 := c <| TotalSourceCount ::= Z.add 1 |>).
  destruct decoded as [aux|msg]; [|cbn; apply Hbad; [constructor|by destruct c]].
  destruct (unmarshal_row_cases aux) as [[Hc (e & -> & He)]|[(Hc & Hp & ->)|[Hc (provider & Hp & ->)]]].
  - rewrite He. specialize (IH results (c1 <| TotalUnknown ::= Z.add 1 |>)). destruct (parse_entries es results _) as [[rows|e'] c'].
    + destruct IH as (new & n & Hr & -> & ->). exists new, (S n). split; [by apply rf_control|]. split; [done|].
      destruct c. unfold c1. cbn [List.length]. cbn. f_equal; lia.
    + destruct IH as [(before & en & after & rows & n & -> & Hr & Hb) Hsame]. split; [|rewrite Hsame; by destruct c].
      exists (FRow key (Ok aux) :: before), en, after, rows, (S n). split; [done|]. split; [by apply rf_control|done].
  - apply Hbad; [by constructor|by destruct c].
  - pose proof (place_row_cases key aux provider Hc Hp) as Hpl. cbv zeta in Hpl.
    destruct (place_row key _) as [row|e]; [|apply Hbad; [done|by destruct c]].
    specialize (IH (results ++ [row])%list c1). destruct (parse_entries es _ c1) as [[rows|e'] c'].
    + destruct IH as (new & n & Hr & -> & ->). exists (row :: new), n. split; [by eapply rf_row|].
      split; [by rewrite <- app_assoc|]. destruct c. unfold c1. cbn [List.length]. cbn. f_equal; lia.
    + destruct IH as [(before & en & after & rows & n & -> & Hr & Hb) Hsame]. split; [|rewrite Hsame; by destruct c].
      exists (FRow key (Ok aux) :: before), en, after, (row :: rows), n. split; [done|]. split; [by eapply rf_row|done].
Qed.

Lemma reads_feed_length es rows n : reads_feed es rows n -> List.length es = (List.length rows + n)%nat.
Proof. induction 1; cbn [List.length]; lia. Qed.

Lemma reads_feed_row es rows n row : reads_feed es rows n -> row ∈ rows ->
  exists key aux, FRow key (Ok aux) ∈ es /\ row_becomes key aux row.
Proof.
  induction 1 as [|key aux es rows n Hc Hr IH|key aux row' es rows n Hb Hr IH]; [by intros ?%elem_of_nil| |].
  - intros (k & a & Hin & Hx)%IH. exists k, a. split; [by right|done].
  - intros [->|Hin]%elem_of_cons; [exists key, aux; split; [by left|done]|].
    destruct (IH Hin) as (k & a & Hin' & Hx). exists k, a. split; [by right|done].
Qed.

(** [m] is the entry of the first row with its key, a key that is not in [seen]. *)
Definition first_row (seen : gset CatalogKey) (rows : list SourceSchema) (m : ModelMetadata) : Prop :=
  exists pre row post, rows = (pre ++ row :: post)%list /\ m = metadata_of row /\ row_key row ∉ seen /\
    forall r, r ∈ pre -> row_key r <> row_key row.

Lemma first_row_cons seen row rows m : first_row seen (row :: rows) m <->
  (m = metadata_of row /\ row_key row ∉ seen) \/ first_row ({[row_key row]} ∪ seen) rows m.
Proof.
  split.
  - intros (pre & r & post & Hr & -> & Hs & Hpre). destruct pre as [|p pre]; injection Hr as -> ->; [by left|right].
    exists pre, r, post. splits; [done|done| |intros x Hx; apply Hpre; by right].
    intros [Hx%elem_of_singleton|Hx]%elem_of_union; [|done]. apply (Hpre p); [by left|done].
  - intros [[-> Hs]|(pre & r & post & -> & -> & Hs & Hpre)]; [by exists [], row, rows; splits; try done; intros x Hx; apply elem_of_nil in Hx|].
    exists (row :: pre), r, post. splits; [done|done|set_solver|]. intros x [->|Hx]%elem_of_cons; [intros Hx; apply Hs; rewrite Hx; set_solver|auto].
Qed.

Lemma first_row_seen seen row rows m : row_key row ∈ seen -> first_row seen (row :: rows) m <-> first_row seen rows m.
Proof. intros Hin. rewrite first_row_cons. replace ({[row_key row]} ∪ seen) with seen by set_solver. naive_solver. Qed.

(** The entries of the two lists. *)
Lemma build_rows_spec rows seen c : 
  let c' := build_rows rows seen c in
  (forall k, k ∈ seen <-> k ∈ map ModelMetadata_CatalogKey c.(ModelsCatalog)) ->
  NoDup (map ModelMetadata_CatalogKey c.(ModelsCatalog)) ->
  NoDup (map ModelMetadata_CatalogKey c'.(ModelsCatalog)) /\
  c'.(PricingCatalog) = (c.(PricingCatalog) ++ map variant_of rows)%list /\
  (forall m, m ∈ c'.(ModelsCatalog) <-> m ∈ c.(ModelsCatalog) \/ first_row seen rows m) /\
  (c'.(TotalUnknown), c'.(TotalSourceCount), c'.(Digest), c'.(URL)) = (c.(TotalUnknown), c.(TotalSourceCount), c.(Digest), c.(URL)).
Proof.
  cbn zeta. revert seen c. induction rows as [|row rows IH]; intros seen c Hseen Hnd; cbn [build_rows].
  { rewrite app_nil_r. splits; try done. intros m. split; [by left|]. intros [Hm|(pre & r & post & Hr & _)]; [done|by destruct pre]. }
  destruct (decide _) as [Hin|Hnin].
  - destruct (IH seen (c <| PricingCatalog ::= fun l => (l ++ [variant_of row])%list |>)) as (H1 & H2 & H3 & H4); [done|done|].
    splits; try done; [rewrite H2; cbn; by rewrite <- app_assoc|]. intros m. rewrite H3, first_row_seen by done. done.
  - destruct (IH ({[row_key row]} ∪ seen) (c <| ModelsCatalog ::= fun l => (l ++ [metadata_of row])%list |>
      <| PricingCatalog ::= fun l => (l ++ [variant_of row])%list |>)) as (H1 & H2 & H3 & H4).
    + intros k. cbn. rewrite map_app. cbn [map]. rewrite elem_of_app, <- Hseen, list_elem_of_singleton, elem_of_union, elem_of_singleton. change (ModelMetadata_CatalogKey (metadata_of row)) with (row_key row). tauto.
    + cbn. rewrite map_app. apply NoDup_app. splits; [done| |apply NoDup_singleton].
      intros k Hk ->%list_elem_of_singleton. by apply Hnin, Hseen.
    + splits; try done; [rewrite H2; cbn; by rewrite <- app_assoc|]. intros m. rewrite H3, first_row_cons. cbn.
      rewrite elem_of_app, list_elem_of_singleton. naive_solver.
Qed.

(** Every row has an entry of its key. *)
Lemma first_row_exists seen rows row : row ∈ rows -> row_key row ∉ seen -> exists m, first_row seen rows m /\ ModelMetadata_CatalogKey m = row_key row.
Proof.
  revert seen. induction rows as [|r rows IH]; intros seen Hr Hs; [by apply elem_of_nil in Hr|].
  destruct (decide (row_key r = row_key row)) as [He|Hne].
  - exists (metadata_of r). split; [|exact He]. apply first_row_cons. left. split; [done|]. by rewrite He.
  - apply elem_of_cons in Hr as [->|Hr]; [done|]. destruct (IH ({[row_key r]} ∪ seen)) as (m & Hm & Hk); [done|set_solver|].
    exists m. split; [|done]. apply first_row_cons. by right.
Qed.

Lemma build_spec rows c : let c' := build rows c in
  c'.(PricingCatalog) = map variant_of rows /\
  NoDup (map ModelMetadata_CatalogKey c'.(ModelsCatalog)) /\
  (forall m, m ∈ c'.(ModelsCatalog) <-> first_row ∅ rows m) /\
  (forall v, v ∈ c'.(PricingCatalog) -> PricingVariant_CatalogKey v ∈ map ModelMetadata_CatalogKey c'.(ModelsCatalog)) /\
  c'.(TotalModels) = Z.of_nat (List.length c'.(ModelsCatalog)) /\
  (c'.(TotalUnknown), c'.(TotalSourceCount), c'.(Digest), c'.(URL)) = (c.(TotalUnknown), c.(TotalSourceCount), c.(Digest), c.(URL)).
Proof.
  cbn zeta. unfold build. destruct (build_rows_spec rows ∅ (c <| ModelsCatalog := [] |> <| PricingCatalog := [] |>)) as (H1 & H2 & H3 & H4);
    [cbn; set_solver|constructor|]. set (c1 := build_rows rows ∅ _) in *.
  assert (Hm : forall m, m ∈ c1.(ModelsCatalog) <-> first_row ∅ rows m).
  { intros m. rewrite H3. cbn. split; [intros [Hx|]; [by apply elem_of_nil in Hx|done]|by right]. }
  cbn. splits; [exact H2|exact H1|exact Hm| |done|exact H4].
  intros v Hv. rewrite H2 in Hv. cbn in Hv. apply list_elem_of_fmap in Hv as (row & -> & Hr).
  destruct (first_row_exists ∅ rows row Hr) as (m & Hf & Hk); [set_solver|]. change (PricingVariant_CatalogKey (variant_of row)) with (row_key row).
  rewrite <- Hk. apply list_elem_of_fmap. exists m. split; [done|by apply Hm].
Qed.

(** Why a feed is refused. *)
Inductive feed_refused (url : string) (send : string -> result string FeedResponse) : FetchError -> Prop :=
| fr_request msg : send url = Err msg -> feed_refused url send (RequestFailed url msg)
| fr_bad_status r : send url = Ok r -> r.(fr_code) <> 200 -> feed_refused url send (BadStatus url r.(fr_status))
| fr_too_large r body err : send url = Ok r -> r.(fr_code) = 200 ->
    limit_reader (maxFeedInBytes + 1) r.(fr_body) r.(fr_error) = (body, err) -> maxFeedInBytes < consumed_bytes body err ->
    feed_refused url send (TooLarge url)
| fr_content r body err e : send url = Ok r -> r.(fr_code) = 200 ->
    limit_reader (maxFeedInBytes + 1) r.(fr_body) r.(fr_error) = (body, err) -> consumed_bytes body err <= maxFeedInBytes ->
    (let f := stream body err in
     (exists msg, f.(fd_open) = Err msg /\ e = StartToken msg) \/
     (f.(fd_open) = Ok tt /\ exists before entry after rows n,
        f.(fd_entries) = (before ++ entry :: after)%list /\ reads_feed before rows n /\ bad_entry entry e) \/
     (f.(fd_open) = Ok tt /\ exists rows n msg, reads_feed f.(fd_entries) rows n /\ f.(fd_close) = Err msg /\ e = EndToken msg)) ->
    feed_refused url send (FeedFailed e).

(** C22: What becomes of a feed.  It is accepted only when the server answered 200, at most 32 MiB
    were read, the feed is closed, and every entry is either the row of a model, which becomes a row
    whose type, provider, name and selectors are read off its mode, provider and key, or a row
    without a known mode, which is counted as unknown; then the prices are one per row, in order,
    the models are one per provider, name and type, the first row that names it, every price
    belongs to a model of the list, and the digest is that of what was read.  Otherwise it is
    refused, the catalog keeping its lists, and the reason is the one stated: the request, the
    status, the size, or the first entry that cannot be used (a key that is no text, a row that
    does not decode, one without provider, a marker that comes twice, an empty name). *)
Theorem Fetch_spec send url res c' : Fetch send (NewCatalogSource url) = (res, c') ->
  let url' := if is_empty url then pricingURL else url in
  match res with
  | Err e => feed_refused url' send e /\ c'.(ModelsCatalog) = [] /\ c'.(PricingCatalog) = [] /\ c'.(Digest) = ""
  | Ok (models, variants) =>
      exists r body err rows unknown, send url' = Ok r /\ r.(fr_code) = 200 /\
        limit_reader (maxFeedInBytes + 1) r.(fr_body) r.(fr_error) = (body, err) /\ consumed_bytes body err <= maxFeedInBytes /\
        let f := stream body err in
        f.(fd_open) = Ok tt /\ f.(fd_close) = Ok tt /\ reads_feed f.(fd_entries) rows unknown /\
        c'.(ModelsCatalog) = models /\ c'.(PricingCatalog) = variants /\
        variants = map variant_of rows /\
        c'.(TotalSourceCount) = Z.of_nat (List.length f.(fd_entries)) /\ c'.(TotalUnknown) = Z.of_nat unknown /\
        c'.(TotalModels) = Z.of_nat (List.length models) /\
        NoDup (map ModelMetadata_CatalogKey models) /\
        (forall m, m ∈ models <-> first_row ∅ rows m) /\
        (forall v, v ∈ variants -> PricingVariant_CatalogKey v ∈ map ModelMetadata_CatalogKey models) /\
        c'.(Digest) = EncodeToString (Sum256 (String.substring 0 (Z.to_nat (consumed_bytes body err)) body))
  end.
Proof.
  cbv zeta. unfold Fetch, modelParser. cbn [URL NewCatalogSource]. set (url' := if is_empty url then pricingURL else url).
  destruct (send url') as [r|msg] eqn:Hsend; [|intros [= <- <-]; split; [by constructor|done]].
  destruct (Z.eqb_spec (fr_code r) 200) as [Hcode|Hcode]; cbn [negb]; [|intros [= <- <-]; split; [by constructor|done]].
  destruct (limit_reader _ _ _) as [body err] eqn:Hl. set (f := stream body err).
  assert (Hrefuse : forall e c0, (c0.(ModelsCatalog), c0.(PricingCatalog), c0.(Digest)) = ([], [], "") ->
    ((exists msg, f.(fd_open) = Err msg /\ e = StartToken msg) \/
     (f.(fd_open) = Ok tt /\ exists before entry after rows n,
        f.(fd_entries) = (before ++ entry :: after)%list /\ reads_feed before rows n /\ bad_entry entry e) \/
     (f.(fd_open) = Ok tt /\ exists rows n msg, reads_feed f.(fd_entries) rows n /\ f.(fd_close) = Err msg /\ e = EndToken msg)) ->
    (if maxFeedInBytes <? consumed_bytes body err then (Err (TooLarge url'), c0) else (Err (FeedFailed e), c0)) = (res, c') ->
    match res with
    | Err e => feed_refused url' send e /\ c'.(ModelsCatalog) = [] /\ c'.(PricingCatalog) = [] /\ c'.(Digest) = ""
    | Ok _ => False
    end).
  { intros e c0 [= H1 H2 H3] Hwhy. destruct (Z.ltb_spec maxFeedInBytes (consumed_bytes body err)) as [Hb|Hb]; intros [= <- <-].
    - split; [by eapply fr_too_large|done].
    - split; [by eapply fr_content|done]. }
  destruct (fd_open f) as [[]|msg] eqn:Hopen.
  2: { intros Hr. apply (Hrefuse (StartToken msg)) in Hr; [by destruct res|done|left; by exists msg]. }
  pose proof (parse_entries_reads (fd_entries f) [] (NewCatalogSource url)) as Hp.
  destruct (parse_entries _ _ _) as [[rows|e] c1].
  2: { destruct Hp as [Hbad Hsame]. intros Hr.
       apply (Hrefuse e) in Hr; [by destruct res|exact Hsame|right; left; by split]. }
  destruct Hp as (new & n & Hreads & -> & ->). change ([] ++ new)%list with new.
  destruct (fd_close f) as [[]|msg] eqn:Hclose.
  2: { intros Hr. apply (Hrefuse (EndToken msg)) in Hr; [by destruct res|done|right; right; split; [done|by exists new, n, msg]]. }
  destruct (Z.ltb_spec maxFeedInBytes (consumed_bytes body err)) as [Hb|Hb].
  { intros [= <- <-]. split; [by eapply fr_too_large|done]. }
  match goal with |- context [build new ?c] => set (c0 := c); destruct (build_spec new c0) as (Hv & Hnd & Hm & Hvm & Ht & Hcs) end.
  remember (build new c0) as cb eqn:Hbuilt. injection Hcs as Hu Hsc Hdg _. intros [= <- <-].
  exists r, body, err, new, n. splits; try done.
  - rewrite Hsc. apply Z.add_0_r.
  - rewrite Hu. apply Z.add_0_r.
Qed.
End feed_spec.

(** ** Feeds *)

Definition feed_row (mode provider : string) : SourceSchema :=
  mkSourceSchema ModelTypeUnknown "" (mkSelectorSet "") 0 "" "" mode provider "" 0 0 0 0 None (fun _ => None) Pricing0.

Lemma parse_key_spec_witness :
  let schema := feed_row "image_generation" "azure_text" <| diffracModelType := ModelTypeImageGeneration |> <| diffractProvider := "azure" |> in
  parse_key schema "azure/hd/1024-x-max/azure/dall-e/3" = Ok ("dall-e/3", <["size" := "1024xmax"]> {["quality" := "hd"]}) /\
  exists marks kvs, Forall2 marker_of marks kvs /\ (list_to_map kvs : gmap string string) !! "size" = Some "1024xmax".
Proof.
  intros schema. assert (Hk : parse_key schema "azure/hd/1024-x-max/azure/dall-e/3" = Ok ("dall-e/3", <["size" := "1024xmax"]> {["quality" := "hd"]}))
    by (vm_compute; reflexivity). split; [exact Hk|].
  destruct (parse_key_spec schema _ _ _ Hk) as (pre & marks & mid & parts & kvs & _ & _ & _ & _ & _ & _ & Hf & Hnd & Hv).
  exists marks, kvs. split; [exact Hf|]. rewrite <- Hv. reflexivity.
Defined.

#[local] Instance demo_decoder : FeedDecoder := {
  stream _ _ := mkFeed (Ok tt) [FRow "openai/gpt-4" (Ok (feed_row "chat" "openai")); FRow "spec" (Ok (feed_row "" "openai"));
    FRow "gpt-4" (Ok (feed_row "chat" "openai"))] (Ok tt);
  consumed_bytes body _ := Z.of_nat (String.length body);
  quote s := s
}.

(** Two prices of one model, and a row that is not one of a model; from a server that answers 503
    the same feed is refused. *)
Lemma Fetch_spec_witness :
  (exists models variants c',
    Fetch (fun _ => Ok (mkFeedResponse 200 "200 OK" "feed" None)) (NewCatalogSource "") = (Ok (models, variants), c') /\
    NoDup (map ModelMetadata_CatalogKey models) /\ List.length variants = 2%nat /\ c'.(TotalUnknown) = 1) /\
  exists c', Fetch (fun _ => Ok (mkFeedResponse 503 "503 Unavailable" "feed" None)) (NewCatalogSource "")
    = (Err (BadStatus pricingURL "503 Unavailable"), c') /\ c'.(PricingCatalog) = [].
Proof.
  split.
  - destruct (Fetch (fun _ => Ok (mkFeedResponse 200 "200 OK" "feed" None)) (NewCatalogSource "")) as [[[models variants]|e] c'] eqn:Hf;
      [|apply (f_equal (fun x => is_ok x.1)) in Hf; vm_compute in Hf; discriminate Hf].
    exists models, variants, c'. split; [reflexivity|].
    destruct (Fetch_spec _ "" _ c' Hf) as (r & body & err & rows & n & _ & _ & _ & _ & _ & _ & Hr & _ & _ & Hv & _ & Hu & _ & Hnd & _).
    split; [exact Hnd|].
    assert (Hcount : List.length variants = 2%nat /\ TotalUnknown c' = 1).
    { apply (f_equal (fun x => (match x.1 with Ok (_, v) => List.length v | Err _ => 0%nat end, x.2.(TotalUnknown)))) in Hf.
      cbn [fst snd] in Hf. rewrite <- (f_equal fst Hf : _ = List.length variants), <- (f_equal snd Hf : _ = TotalUnknown c').
      vm_compute. split; reflexivity. }
    exact Hcount.
  - destruct (Fetch (fun _ => Ok (mkFeedResponse 503 "503 Unavailable" "feed" None)) (NewCatalogSource "")) as [res c'] eqn:Hf.
    assert (Hres : res = Err (BadStatus pricingURL "503 Unavailable")) by (change res with (res, c').1; rewrite <- Hf; reflexivity).
    subst res. exists c'. split; [reflexivity|]. exact (proj1 (proj2 (proj2 (Fetch_spec _ "" _ c' Hf)))).
Defined.
