(* ===== verification/CustomPricing.v ===== *)
(** * Operator prices ([internal/dbstore/pricing.go], [internal/server/admin-handlers.go])

    The overrides an operator puts on the prices of the feed: the statements that store them and
    the handlers that change them and reload the catalog from the table. *)

From S2P Require Import Prelude GoBase Errors Catalog Credential Money Pricing VirtualKey Governance Gorm KeyStore StoreCatalog ModelCatalog Secrets CredentialStore ProviderPlane KeyAdmin CredentialAdmin.

#[export] Instance StoreCustomModelPricing_key : Keyed StoreCustomModelPricing := SCID.
#[export] Instance StoreModelPricing_key : Keyed StoreModelPricing := MPID.

Record CustomPricingRequest : Type := mkCustomPricingRequest {
  CqName : string;
  CqModelName : string;
  CqModelType : string;
  CqPricing : Pricing;
  CqScopeType : ScopeType;
  CqScopeVirtualkeyID : option string;
  CqScopeProvider : option Provider
}.

Inductive CustomPricingError : Type :=
| InvalidModelType (t : string)
| BaseCheckFailed (model : string) (cause : DbError)
| NoBasePrice (model type : string)
| ScopeProviderRequired
| ScopeProviderUnknown (name : Provider)
| ScopeVirtualKeyRequired
| InvalidScope (scope : string)
| CreateFailed (cause : DbError)
| ReloadFailed (cause : DbError)
| OverrideNotFound (id : string) (cause : DbError)
| OverrideNone (id : string)
| UpdateFailed (id : string) (cause : DbError)
| DeleteFailed (id : string) (cause : DbError)
| ListFailed (cause : DbError)
| PriceCommitFailed.

(** ** Statements *)

Section store.
Context {ODb BDb PDb : Type} `{Gorm ODb StoreCustomModelPricing} `{Gorm BDb StoreModelPricing} `{Gorm PDb StoreProvider}.

(** The tables of overrides, of base prices and of providers. *)
Record PriceDb : Type := mkPriceDb { overrides : ODb; base_prices : BDb; price_provs : PDb }.
Definition ptx : Type -> Type := Tx PriceDb CustomPricingError.

Definition on_overrides {A} (wrap : DbError -> CustomPricingError) (f : ODb -> result DbError A * ODb) : ptx A := fun d =>
  match f d.(overrides) with
  | (Ok a, o) => (Ok a, mkPriceDb o d.(base_prices) d.(price_provs))
  | (Err e, o) => (Err (wrap e), mkPriceDb o d.(base_prices) d.(price_provs))
  end.
Definition on_base {A} (wrap : DbError -> CustomPricingError) (f : BDb -> result DbError A * BDb) : ptx A := fun d =>
  match f d.(base_prices) with
  | (Ok a, b) => (Ok a, mkPriceDb d.(overrides) b d.(price_provs))
  | (Err e, b) => (Err (wrap e), mkPriceDb d.(overrides) b d.(price_provs))
  end.
Definition on_providers {A} (wrap : DbError -> CustomPricingError) (f : PDb -> result DbError A * PDb) : ptx A := fun d =>
  match f d.(price_provs) with
  | (Ok a, p) => (Ok a, mkPriceDb d.(overrides) d.(base_prices) p)
  | (Err e, p) => (Err (wrap e), mkPriceDb d.(overrides) d.(base_prices) p)
  end.

(** A row with its provider, found among [ps]. *)
Definition with_scope_provider (ps : list StoreProvider) (row : StoreCustomModelPricing) : StoreCustomModelPricing :=
  row <| SCScopeProvider := i ← row.(SCScopeProviderID); List.find (fun p => String.eqb p.(SPID) i) ps |>.

(** [Preload("ScopeProvider")], which asks nothing when no row names a provider. *)
Definition preload_scope (wrap : DbError -> CustomPricingError) (rows : list StoreCustomModelPricing) : ptx (list StoreCustomModelPricing) :=
  if existsb (fun r => bool_decide (is_Some r.(SCScopeProviderID))) rows
  then ps ← on_providers wrap db_find; mret (map (with_scope_provider ps) rows)
  else mret (map (with_scope_provider []) rows).

Definition first_override (wrap : DbError -> CustomPricingError) (id : string) : ptx StoreCustomModelPricing :=
  row ← on_overrides wrap (db_first id);
  rows ← preload_scope wrap [row];
  mret (List.hd row rows).

(** The query counts the base rows of the model, of one provider if it names one. *)
Definition hasBasePricing (modelName modelType : string) (provider : option Provider) : ptx bool :=
  rows ← on_base (BaseCheckFailed modelName) db_find;
  let rows := List.filter (fun r => String.eqb r.(MPModelName) modelName && String.eqb r.(MPModelType) modelType) rows in
  match provider with
  | None => mret (negb (Nat.eqb (List.length rows) 0))
  | Some name =>
      ps ← on_providers (BaseCheckFailed modelName) db_find;
      mret (existsb (fun r => existsb (fun p => String.eqb p.(SPID) r.(MPProviderID) && String.eqb p.(SPName) name) ps) rows)
  end.

(** The scope of the new row. *)
Definition scope_of (b : CustomPricingRequest) (payload : StoreCustomModelPricing) : ptx StoreCustomModelPricing :=
  if String.eqb b.(CqScopeType) ScopeGlobal then mret payload
  else if String.eqb b.(CqScopeType) ScopeProvider_ then
    match b.(CqScopeProvider) with
    | None => tx_fail ScopeProviderRequired
    | Some name =>
        ps ← on_providers (fun _ => ScopeProviderUnknown name) db_find;
        match List.find (fun p => String.eqb p.(SPName) name) ps with
        | None => tx_fail (ScopeProviderUnknown name)
        | Some p => mret (payload <| SCScopeProviderID := Some p.(SPID) |>)
        end
    end
  else if String.eqb b.(CqScopeType) ScopeVirtualKey then
    match b.(CqScopeVirtualkeyID) with
    | None | Some "" => tx_fail ScopeVirtualKeyRequired
    | Some id => mret (payload <| SCScopeVirtualkeyID := Some id |>)
    end
  else tx_fail (InvalidScope b.(CqScopeType)).

(** [DB.Create], with the hook. *)
Definition create_override (payload : StoreCustomModelPricing) : ptx () :=
  match Custom_BeforeSave payload with
  | Err e => tx_fail (CreateFailed e)
  | Ok row => on_overrides CreateFailed (db_create row)
  end.

Definition CreateCustomPricing (uuid : string) (now : Z) (b : CustomPricingRequest) : ptx StoreCustomModelPricing :=
  if decide (ParseModelType b.(CqModelType) = ModelTypeUnknown) then tx_fail (InvalidModelType b.(CqModelType))
  else
    hasBase ← hasBasePricing b.(CqModelName) b.(CqModelType)
                (if String.eqb b.(CqScopeType) ScopeProvider_ then b.(CqScopeProvider) else None);
    if negb hasBase then tx_fail (NoBasePrice b.(CqModelName) b.(CqModelType))
    else
      payload ← scope_of b (mkStoreCustomModelPricing uuid b.(CqName) b.(CqModelName) b.(CqModelType) b.(CqScopeType)
                              None None None "" Pricing0 now now);
      _ ← create_override (payload <| SCPricing := b.(CqPricing) |>);
      first_override ReloadFailed uuid.

Definition GetCustomPricing (id : string) : ptx StoreCustomModelPricing := first_override (OverrideNotFound id) id.

Definition ListCustomPricing : ptx (list StoreCustomModelPricing) :=
  rows ← on_overrides ListFailed db_find; preload_scope ListFailed rows.

(** [DB.Save] writes every column but the primary key. *)
Definition saved_columns (row r : StoreCustomModelPricing) : StoreCustomModelPricing := row <| SCID := r.(SCID) |>.

Definition UpdateCustomPricing (commit : bool) (now : Z) (id : string) (pricing : Pricing) : ptx StoreCustomModelPricing :=
  Tx_transaction PriceCommitFailed commit (
    row ← on_overrides (OverrideNotFound id) (db_first id);
    match Custom_BeforeSave (row <| SCPricing ::= fun p => MergePricing p pricing |> <| SCUpdatedAt := now |>) with
    | Err e => tx_fail (UpdateFailed id e)
    | Ok row =>
        _ ← on_overrides (UpdateFailed id) (db_update id (saved_columns row));
        first_override (OverrideNotFound id) id
    end).

Definition DeleteCustomPricing (id : string) : ptx () :=
  n ← on_overrides (DeleteFailed id) (db_delete id);
  if (n =? 0)%Z then tx_fail (OverrideNone id) else mret tt.

Record CustomPricingFilters : Type := mkCustomPricingFilters {
  FScopeType : string;
  FVirtualKeyID : string;
  FProvider : string;
  FModelName : string
}.

Definition matches (filter value : string) : bool := is_empty filter || String.eqb value filter.

Definition ListCustomPricingFiltered (f : CustomPricingFilters) : ptx (list StoreCustomModelPricing) :=
  rows ← ListCustomPricing;
  mret (List.filter (fun r => matches f.(FScopeType) r.(SCScopeType) && matches f.(FModelName) r.(SCModelName)
    && (is_empty f.(FVirtualKeyID) || bool_decide (r.(SCScopeVirtualkeyID) = Some f.(FVirtualKeyID)))
    && (is_empty f.(FProvider) || bool_decide ((SPName <$> r.(SCScopeProvider)) = Some f.(FProvider)))) rows).

(** ** Handlers *)

Inductive PriceBody : Type :=
| PNothing
| PMessage (msg : string)
| PCause (e : CustomPricingError)
| PView (p : CustomPricing)
| PViews (ps : list CustomPricing).

Record PriceAdmin : Type := mkPriceAdmin { pdb : PriceDb; pcat : ModelCatalog }.

Definition price_stored {A} (t : ptx A) (failed : CustomPricingError -> Z * PriceBody)
    (f : A -> PriceAdmin -> (Z * PriceBody) * PriceAdmin) (s : PriceAdmin) : (Z * PriceBody) * PriceAdmin :=
  match t s.(pdb) with
  | (Err e, d) => (failed e, mkPriceAdmin d s.(pcat))
  | (Ok a, d) => f a (mkPriceAdmin d s.(pcat))
  end.

(** [ReloadCustomPricing], and what follows when it succeeds. *)
Definition reload (failed : string) (answer : Z * PriceBody) (s : PriceAdmin) : (Z * PriceBody) * PriceAdmin :=
  price_stored ListCustomPricing (fun _ => (StatusInternalServerError, PMessage failed))
    (fun rows s => (answer, mkPriceAdmin s.(pdb) (loadCustomPricing (Ok rows) s.(pcat)).2)) s.

Definition price_bad_request (e : CustomPricingError) : Z * PriceBody := (StatusBadRequest, PCause e).

Definition createCustomPricing (uuid : string) (now : Z) (body : result string CustomPricingRequest) (s : PriceAdmin) :
    (Z * PriceBody) * PriceAdmin :=
  match body with
  | Err msg => ((StatusBadRequest, PMessage msg), s)
  | Ok payload =>
      price_stored (CreateCustomPricing uuid now payload) price_bad_request
        (fun row => reload "stored, not yet live" (StatusCreated, PView (Custom_ToCore row))) s
  end.

Definition updateCustomPricing (commit : bool) (now : Z) (id : string) (body : result string Pricing) (s : PriceAdmin) :
    (Z * PriceBody) * PriceAdmin :=
  match body with
  | Err msg => ((StatusBadRequest, PMessage msg), s)
  | Ok payload =>
      price_stored (UpdateCustomPricing commit now id payload) price_bad_request
        (fun row => reload "stored, not yet live" (StatusOK, PView (Custom_ToCore row))) s
  end.

Definition deleteCustomPricing (id : string) : PriceAdmin -> (Z * PriceBody) * PriceAdmin :=
  price_stored (DeleteCustomPricing id) (fun e => (StatusNotFound, PCause e))
    (fun _ => reload "deleted, still live" (StatusNoContent, PNothing)).

Definition listCustomPricing (f : CustomPricingFilters) : PriceAdmin -> (Z * PriceBody) * PriceAdmin :=
  price_stored (ListCustomPricingFiltered f) (fun _ => (StatusInternalServerError, PMessage "listing custom pricing"))
    (fun rows s => ((StatusOK, PViews (map Custom_ToCore rows)), s)).
End store.
Arguments PriceDb : clear implicits.
Arguments mkPriceDb {ODb BDb PDb}.
Arguments PriceAdmin : clear implicits.
Arguments mkPriceAdmin {ODb BDb PDb}.

(** ** What the statements do *)

Section effects.
Context {ODb BDb PDb : Type} `{Gorm ODb StoreCustomModelPricing} `{Gorm BDb StoreModelPricing} `{Gorm PDb StoreProvider}.
Context `{!GormLaws ODb StoreCustomModelPricing} `{!GormLaws BDb StoreModelPricing} `{!GormLaws PDb StoreProvider}.
Abbreviation Db := (PriceDb ODb BDb PDb).

Definition price_ok (d : Db) : Prop := db_ok d.(overrides) /\ db_ok d.(base_prices) /\ db_ok d.(price_provs).
Definition price_same (d d' : Db) : Prop :=
  price_ok d' /\ (forall j, tbl d'.(overrides) j = tbl d.(overrides) j) /\ (forall j, tbl d'.(price_provs) j = tbl d.(price_provs) j).

Lemma price_same_refl d : price_ok d -> price_same d d.
Proof. by split. Qed.
Lemma price_same_trans a b c : price_same a b -> price_same b c -> price_same a c.
Proof. intros (_ & O1 & P1) (Ok & O2 & P2). split; [done|]. split; intros j; [by rewrite O2, O1|by rewrite P2, P1]. Qed.

(** Statements that keep the tables well formed, and those that only read. *)
Definition keeps_ok {A} (m : ptx A) : Prop := forall (d : Db) r d', price_ok d -> m d = (r, d') -> price_ok d'.
Definition reads {A} (m : ptx A) : Prop := forall (d : Db) r d', price_ok d -> m d = (r, d') -> price_same d d'.

Lemma reads_keeps {A} (m : ptx A) : reads m -> keeps_ok m.
Proof. intros Hr d r d' Hd Hm. by destruct (Hr d r d' Hd Hm). Qed.
Lemma reads_ret {A} (a : A) : reads (mret a).
Proof. intros d r d' Hd [= <- <-]. by apply price_same_refl. Qed.
Lemma reads_fail {A} e : reads (tx_fail e : ptx A).
Proof. intros d r d' Hd [= <- <-]. by apply price_same_refl. Qed.
Lemma reads_bind {A B} (m : ptx A) (f : A -> ptx B) : reads m -> (forall a, reads (f a)) -> reads (m ≫= f).
Proof.
  intros Hm Hf d r d' Hd. unfold mbind, Tx_bind. destruct (m d) as [[a|e] d1] eqn:Hm1.
  - intros Hf1. pose proof (Hm _ _ _ Hd Hm1) as H1'. eapply price_same_trans; [exact H1'|]. exact (Hf a _ _ _ (proj1 H1') Hf1).
  - intros [= <- <-]. exact (Hm _ _ _ Hd Hm1).
Qed.

Lemma reads_overrides {A} wrap (f : ODb -> result DbError A * ODb) :
  (forall d r d', db_ok d -> f d = (r, d') -> db_ok d' /\ forall j, tbl d' j = tbl d j) -> reads (on_overrides wrap f).
Proof.
  intros Hf d r d' (Ho & Hb & Hp). unfold on_overrides. destruct (f (overrides d)) as [[a|e] o] eqn:Hx; intros [= <- <-];
    destruct (Hf _ _ _ Ho Hx); by split.
Qed.
Lemma reads_base {A} wrap (f : BDb -> result DbError A * BDb) :
  (forall d r d', db_ok d -> f d = (r, d') -> db_ok d' /\ forall j, tbl d' j = tbl d j) -> reads (on_base wrap f).
Proof.
  intros Hf d r d' (Ho & Hb & Hp). unfold on_base. destruct (f (base_prices d)) as [[a|e] o] eqn:Hx; intros [= <- <-];
    destruct (Hf _ _ _ Hb Hx); by split.
Qed.
Lemma reads_providers {A} wrap (f : PDb -> result DbError A * PDb) :
  (forall d r d', db_ok d -> f d = (r, d') -> db_ok d' /\ forall j, tbl d' j = tbl d j) -> reads (on_providers wrap f).
Proof.
  intros Hf d r d' (Ho & Hb & Hp). unfold on_providers. destruct (f (price_provs d)) as [[a|e] o] eqn:Hx; intros [= <- <-];
    destruct (Hf _ _ _ Hp Hx); by split.
Qed.

Lemma reads_find_overrides wrap : reads (on_overrides wrap db_find).
Proof. apply reads_overrides. intros d r d' Hd. by apply find_state. Qed.
Lemma reads_first wrap id : reads (on_overrides wrap (db_first id)).
Proof. apply reads_overrides. intros d r d' Hd. by apply first_state. Qed.
Lemma reads_find_base wrap : reads (on_base wrap db_find).
Proof. apply reads_base. intros d r d' Hd. by apply find_state. Qed.
Lemma reads_find_providers wrap : reads (on_providers wrap db_find).
Proof. apply reads_providers. intros d r d' Hd. by apply find_state. Qed.
#[local] Hint Resolve reads_ret reads_fail reads_bind reads_find_overrides reads_first reads_find_base reads_find_providers : reads.
Ltac reading := repeat (case_match || apply reads_bind || intros); eauto with reads.

Lemma preload_reads wrap rows : reads (preload_scope wrap rows).
Proof. unfold preload_scope. reading. Qed.
#[local] Hint Resolve preload_reads : reads.
Lemma first_override_reads wrap id : reads (first_override wrap id).
Proof. unfold first_override. reading. Qed.
Lemma hasBase_reads m t p : reads (hasBasePricing m t p).
Proof. unfold hasBasePricing. reading. Qed.
Lemma scope_of_reads b payload : reads (scope_of b payload).
Proof. unfold scope_of. reading. Qed.
Lemma ListCustomPricing_reads : reads ListCustomPricing.
Proof. unfold ListCustomPricing. reading. Qed.
Lemma ListFiltered_reads f : reads (ListCustomPricingFiltered f).
Proof. unfold ListCustomPricingFiltered. apply reads_bind; [apply ListCustomPricing_reads|reading]. Qed.

(** A row with its provider. *)
Definition scope_joined (d : Db) (r : StoreCustomModelPricing) : StoreCustomModelPricing :=
  r <| SCScopeProvider := i ← r.(SCScopeProviderID); tbl d.(price_provs) i |>.

(** The rows of the table of overrides, each once, in some order. *)
Definition all_rows (d : Db) (rs : list StoreCustomModelPricing) : Prop :=
  NoDup (map SCID rs) /\ forall r, In r rs <-> tbl d.(overrides) r.(SCID) = Some r.

Lemma ListCustomPricing_rows d rows d' : price_ok d -> ListCustomPricing d = (Ok rows, d') ->
  price_same d d' /\ exists rs, all_rows d rs /\ rows = map (scope_joined d) rs.
Proof.
  intros Hd Hl. split; [exact (ListCustomPricing_reads _ _ _ Hd Hl)|]. destruct Hd as (Ho & Hb & Hp).
  apply tx_bind_Ok in Hl as (rs & d1 & Hf & Hl). unfold on_overrides in Hf.
  destruct (db_find (overrides d)) as [[rs'|e] o] eqn:Hx; [|done]. injection Hf as -> <-.
  exists rs. split; [exact (find_rows _ _ _ Ho Hx)|]. unfold preload_scope in Hl.
  destruct (existsb _ rs) eqn:Hex.
  - apply tx_bind_Ok in Hl as (ps & d2 & Hf & [= <- _]). unfold on_providers in Hf. cbn [price_provs] in Hf.
    destruct (db_find (price_provs d)) as [[ps'|e] p] eqn:Hy; [|done]. injection Hf as -> _.
    apply map_ext. intros r. unfold with_scope_provider, scope_joined. destruct (SCScopeProviderID r) as [i|]; [|done]. cbn.
    by rewrite (find_provider _ _ _ _ Hp Hy).
  - injection Hl as <- _. apply map_ext_in. intros r Hr. unfold with_scope_provider, scope_joined.
    destruct (SCScopeProviderID r) as [i|] eqn:Hi; [|done]. exfalso. assert (Ht : existsb (fun r => bool_decide (is_Some (SCScopeProviderID r))) rs = true).
    { apply existsb_exists. exists r. split; [done|]. rewrite Hi. by apply bool_decide_eq_true. }
    congruence.
Qed.

(** The catalog has the overrides of the table. *)
Definition live (s : PriceAdmin ODb BDb PDb) : Prop :=
  exists rs, all_rows s.(pdb) rs /\
    s.(pcat).(customPricing) = Some (foldl add_custom ∅ (map Custom_ToCore (map (scope_joined s.(pdb)) rs))).

Lemma live_same s s' : price_same s.(pdb) s'.(pdb) -> s'.(pcat) = s.(pcat) -> live s -> live s'.
Proof.
  intros (_ & Ho & Hp) Hc (rs & [Hnd Hin] & Hcp). exists rs. rewrite Hc. split.
  - split; [done|]. intros r. by rewrite Ho.
  - rewrite Hcp, (map_ext (scope_joined s'.(pdb)) (scope_joined s.(pdb))); [done|]. intros r. unfold scope_joined.
    by destruct (SCScopeProviderID r); cbn; rewrite ?Hp.
Qed.

(** A request whose answer says that the table has a change the catalog does not know. *)
Definition stale (a : Z * PriceBody) : bool :=
  match a with
  | (_, PMessage m) => String.eqb m "stored, not yet live" || String.eqb m "deleted, still live"
  | (_, PCause (ReloadFailed _)) => true
  | _ => false
  end.

Definition price_outcome (s : PriceAdmin ODb BDb PDb) (a : Z * PriceBody) (s' : PriceAdmin ODb BDb PDb) : Prop :=
  price_ok s'.(pdb) /\ s'.(pcat).(basePricing) = s.(pcat).(basePricing) /\
  (stale a = true \/ live s' \/ (price_same s.(pdb) s'.(pdb) /\ s'.(pcat) = s.(pcat))).

Lemma unchanged_outcome s a d : price_same s.(pdb) d -> price_outcome s a (mkPriceAdmin d s.(pcat)).
Proof. intros Hs. split; [apply Hs|]. split; [done|]. right. by right. Qed.

Lemma stale_outcome s a d : stale a = true -> price_ok d -> price_outcome s a (mkPriceAdmin d s.(pcat)).
Proof. intros Ha Hd. split; [done|]. split; [done|]. by left. Qed.

Lemma reload_outcome failed answer s d a s' : price_ok d -> stale (StatusInternalServerError, PMessage failed) = true ->
  reload failed answer (mkPriceAdmin d s.(pcat)) = (a, s') -> price_outcome s a s'.
Proof.
  intros Hd Hf. unfold reload, price_stored. cbn [pdb pcat]. destruct (ListCustomPricing d) as [[rows|e] d'] eqn:Hl; intros [= <- <-].
  - destruct (ListCustomPricing_rows _ _ _ Hd Hl) as [(Hd' & Ho & Hp) (rs & [Hnd Hin] & ->)]. split; [done|]. split; [done|]. right. left.
    apply (live_same (mkPriceAdmin d (loadCustomPricing (Ok (map (scope_joined d) rs)) (pcat s)).2)); [by split|done|].
    by exists rs.
  - apply stale_outcome; [done|]. by destruct (ListCustomPricing_reads _ _ _ Hd Hl).
Qed.

Lemma create_override_ok payload : keeps_ok (create_override payload).
Proof.
  unfold create_override. destruct (Custom_BeforeSave payload) as [row|e]; [|apply reads_keeps, reads_fail].
  intros d r d' (Ho & Hb & Hp). unfold on_overrides. destruct (db_create row (overrides d)) as [[u|e] o] eqn:Hx; intros [= <- <-];
    (split; [|by split]); cbn; [by destruct (create_ok _ _ _ _ Ho Hx)|by destruct (create_err _ _ _ _ Ho Hx)].
Qed.
Lemma create_override_err payload d e d' : price_ok d -> create_override payload d = (Err e, d') -> price_same d d' /\ exists c, e = CreateFailed c.
Proof.
  unfold create_override. destruct (Custom_BeforeSave payload) as [row|x]; [|intros Hd [= <- <-]; split; [by apply price_same_refl|eauto]].
  intros (Ho & Hb & Hp). unfold on_overrides. destruct (db_create row (overrides d)) as [[u|x] o] eqn:Hx; intros [= <- <-].
  destruct (create_err _ _ _ _ Ho Hx) as [Ho' Hsame]. split; [|eauto]. by split.
Qed.

Lemma bind_Err {A B} (m : ptx A) (f : A -> ptx B) (d : Db) e d' : (m ≫= f) d = (Err e, d') ->
  m d = (Err e, d') \/ exists a d1, m d = (Ok a, d1) /\ f a d1 = (Err e, d').
Proof. unfold mbind, Tx_bind. destruct (m d) as [[a|x] d1]; [eauto|]. intros [= -> ->]. by left. Qed.

Lemma keeps_bind {A B} (m : ptx A) (f : A -> ptx B) : keeps_ok m -> (forall a, keeps_ok (f a)) -> keeps_ok (m ≫= f).
Proof.
  intros Hm Hf d r d' Hd. unfold mbind, Tx_bind. destruct (m d) as [[a|e] d1] eqn:Hx; [|intros [= _ <-]; exact (Hm _ _ _ Hd Hx)].
  apply Hf. exact (Hm _ _ _ Hd Hx).
Qed.

Lemma CreateCustomPricing_ok uuid now b : keeps_ok (CreateCustomPricing uuid now b).
Proof.
  unfold CreateCustomPricing. destruct (decide _); [apply reads_keeps, reads_fail|].
  apply keeps_bind; [apply reads_keeps, hasBase_reads|]. intros hasBase. destruct (negb hasBase); [apply reads_keeps, reads_fail|].
  apply keeps_bind; [apply reads_keeps, scope_of_reads|]. intros payload.
  apply keeps_bind; [apply create_override_ok|]. intros u. apply reads_keeps, first_override_reads.
Qed.

(** A creation that fails changed nothing, unless it could not read the new row again. *)
Lemma CreateCustomPricing_err uuid now b d e d' : price_ok d -> CreateCustomPricing uuid now b d = (Err e, d') ->
  price_same d d' \/ exists c, e = ReloadFailed c.
Proof.
  intros Hd. unfold CreateCustomPricing. destruct (decide _); [intros [= _ <-]; left; by apply price_same_refl|].
  intros [Ht|(hasBase & d1 & H1' & Ht)]%bind_Err; [left; exact (hasBase_reads _ _ _ _ _ _ Hd Ht)|].
  pose proof (hasBase_reads _ _ _ _ _ _ Hd H1') as S1. destruct (negb hasBase); [injection Ht as _ <-; by left|].
  apply bind_Err in Ht as [Ht|(payload & d2 & H2' & Ht)].
  { left. eapply price_same_trans; [exact S1|]. exact (scope_of_reads _ _ _ _ _ (proj1 S1) Ht). }
  pose proof (scope_of_reads _ _ _ _ _ (proj1 S1) H2') as S2. pose proof (price_same_trans _ _ _ S1 S2) as S12.
  apply bind_Err in Ht as [Ht|(u & d3 & H3' & Ht)].
  { left. eapply price_same_trans; [exact S12|]. by destruct (create_override_err _ _ _ _ (proj1 S12) Ht). }
  right. revert Ht. unfold first_override. intros [Ht|(row & d4 & H4' & Ht)]%bind_Err.
  - unfold on_overrides in Ht. destruct (db_first uuid (overrides d3)) as [[r|c] o]; simplify_eq; eauto.
  - apply bind_Err in Ht as [Ht|(rows & d5 & _ & [=])]. unfold preload_scope in Ht. destruct (existsb _ _); [|done].
    apply bind_Err in Ht as [Ht|(ps & d5 & _ & [=])]. unfold on_providers in Ht.
    destruct (db_find (price_provs d4)) as [[r|c] o]; simplify_eq; eauto.
Qed.

Lemma saved_columns_key row r : key (saved_columns row r) = key r.
Proof. reflexivity. Qed.

Lemma UpdateCustomPricing_ok commit now id p : keeps_ok (UpdateCustomPricing commit now id p).
Proof.
  intros d r d' Hd [(e & _ & ->)|(a & _ & Ht)]%Tx_transaction_cases; [done|].
  refine ((_ : keeps_ok _) d (Ok a) d' Hd Ht). clear. apply keeps_bind; [apply reads_keeps, reads_first|]. intros row.
  destruct (Custom_BeforeSave _) as [row'|e]; [|apply reads_keeps, reads_fail].
  apply keeps_bind; [|intros u; apply reads_keeps, first_override_reads].
  intros d0 r0 d1 (Ho & Hb & Hp). unfold on_overrides.
  destruct (db_update id (saved_columns row') (overrides d0)) as [[n|e] o] eqn:Hx; intros [= <- <-]; (split; [|by split]); cbn.
  - destruct (update_ok _ _ _ _ _ Ho (saved_columns_key row') Hx) as [Ho' _]. exact Ho'.
  - destruct (update_err _ _ _ _ _ Ho Hx) as [Ho' _]. exact Ho'.
Qed.

Lemma DeleteCustomPricing_cases id d res d' : price_ok d -> DeleteCustomPricing id d = (res, d') ->
  price_ok d' /\ (is_ok res = true \/ price_same d d').
Proof.
  intros (Ho & Hb & Hp). unfold DeleteCustomPricing, mbind, Tx_bind, on_overrides.
  destruct (db_delete id (overrides d)) as [[n|e] o] eqn:Hx.
  - destruct (delete_ok _ _ _ _ Ho Hx) as (Ho' & Hl & Hn). destruct (Z.eqb_spec n 0) as [->|_]; intros [= <- <-]; [|split; [by split|by left]].
    split; [by split|]. right. split; [by split|]. split; [|done]. intros j. cbn [overrides]. rewrite Hl. case_decide as Hj; [|done]. subst j.
    by destruct (tbl (overrides d) id).
  - intros [= <- <-]. destruct (delete_err _ _ _ _ Ho Hx) as [Ho' Hsame]. split; [by split|]. right. by split.
Qed.

(** The requests of the administration, each with its answer. *)
Inductive price_request (s : PriceAdmin ODb BDb PDb) (a : Z * PriceBody) (s' : PriceAdmin ODb BDb PDb) : Prop :=
| pq_create uuid now body : createCustomPricing uuid now body s = (a, s') -> price_request s a s'
| pq_update commit now id body : updateCustomPricing commit now id body s = (a, s') -> price_request s a s'
| pq_delete id : deleteCustomPricing id s = (a, s') -> price_request s a s'
| pq_list f : listCustomPricing f s = (a, s') -> price_request s a s'.

Lemma price_stored_cases {A} (t : ptx A) failed f (s : PriceAdmin ODb BDb PDb) a s' : price_stored t failed f s = (a, s') ->
  (exists e d, t s.(pdb) = (Err e, d) /\ a = failed e /\ s' = mkPriceAdmin d s.(pcat)) \/
  exists x d, t s.(pdb) = (Ok x, d) /\ f x (mkPriceAdmin d s.(pcat)) = (a, s').
Proof. unfold price_stored. destruct (t (pdb s)) as [[x|e] d]; [eauto 10|]. intros [= <- <-]. left. eauto. Qed.

Lemma price_request_outcome s a s' : price_ok s.(pdb) -> price_request s a s' -> price_outcome s a s'.
Proof.
  intros Hs Hr. destruct Hr as [uuid now body Hr|commit now id body Hr|id Hr|f Hr].
  - unfold createCustomPricing in Hr. destruct body as [b|msg]; [|injection Hr as <- <-; destruct s; apply unchanged_outcome, price_same_refl, Hs].
    apply price_stored_cases in Hr as [(e & d & Ht & -> & ->)|(row & d & Ht & Hr)].
    + destruct (CreateCustomPricing_err _ _ _ _ _ _ Hs Ht) as [Hd|[c ->]]; [by apply unchanged_outcome|].
      apply stale_outcome; [done|]. exact (CreateCustomPricing_ok _ _ _ _ _ _ Hs Ht).
    + eapply reload_outcome, Hr; [exact (CreateCustomPricing_ok _ _ _ _ _ _ Hs Ht)|done].
  - unfold updateCustomPricing in Hr. destruct body as [b|msg]; [|injection Hr as <- <-; destruct s; apply unchanged_outcome, price_same_refl, Hs].
    apply price_stored_cases in Hr as [(e & d & Ht & -> & ->)|(row & d & Ht & Hr)].
    + apply unchanged_outcome. apply Tx_transaction_cases in Ht as [(e' & _ & ->)|(x & [=] & _)]. by apply price_same_refl.
    + eapply reload_outcome, Hr; [exact (UpdateCustomPricing_ok _ _ _ _ _ _ _ Hs Ht)|done].
  - unfold deleteCustomPricing in Hr. apply price_stored_cases in Hr as [(e & d & Ht & -> & ->)|(u & d & Ht & Hr)];
      destruct (DeleteCustomPricing_cases _ _ _ _ Hs Ht) as [Hd Hsame].
    + destruct Hsame as [|Hsame]; [done|]. by apply unchanged_outcome.
    + by eapply reload_outcome, Hr.
  - unfold listCustomPricing in Hr. apply price_stored_cases in Hr as [(e & d & Ht & -> & ->)|(rows & d & Ht & [= <- <-])];
      apply unchanged_outcome; exact (ListFiltered_reads _ _ _ _ Hs Ht).
Qed.

(** Any number of requests one after the other. *)
Inductive price_run : PriceAdmin ODb BDb PDb -> list (Z * PriceBody) -> PriceAdmin ODb BDb PDb -> Prop :=
| pr_none s : price_run s [] s
| pr_request s a s1 l s2 : price_request s a s1 -> price_run s1 l s2 -> price_run s (a :: l) s2.

Lemma price_run_live s l s' : price_run s l s' -> Forall (fun a => stale a = false) l -> price_ok s.(pdb) -> live s ->
  price_ok s'.(pdb) /\ live s' /\ s'.(pcat).(basePricing) = s.(pcat).(basePricing).
Proof.
  induction 1 as [s|s a s1 l s2 Hr _ IH]; intros Hf Hok Hl; [done|]. apply Forall_cons in Hf as [Ha Hf].
  destruct (price_request_outcome _ _ _ Hok Hr) as (Hok1 & Hb & [Hst|Hc]); [congruence|].
  destruct (IH Hf Hok1) as (H1' & H2' & H3'); [|by rewrite H3'].
  destruct Hc as [?|[Hsame Hcat]]; [done|by eapply live_same].
Qed.

(** C20: What requests are billed at is what the table of operator prices says.  After any
    requests of the administration none of whose answers says that the change is not live yet, the
    price of a model is, field by field, that of the override in force in the table where it sets
    the field, and the base price elsewhere; the base prices are not touched. *)
Theorem prices_are_table s0 l s virtualKeyID key selectorKey base f :
  price_ok s0.(pdb) -> live s0 -> price_run s0 l s -> Forall (fun a => stale a = false) l ->
  (s0.(pcat).(basePricing) ≫= fun b => Base_find b key selectorKey) = Some base ->
  exists rs, all_rows s.(pdb) rs /\
    (fun p => p f) <$> ResolvePrice s.(pcat) virtualKeyID key selectorKey =
    Some (match override_for (map Custom_ToCore (map (scope_joined s.(pdb)) rs)) virtualKeyID key with
          | Some cp => cp.(CPPricing) f <||> base.(VPricing) f
          | None => base.(VPricing) f
          end).
Proof.
  intros Hok Hl Hr Hf Hbase. destruct (price_run_live _ _ _ Hr Hf Hok Hl) as (_ & (rs & Hrs & Hc) & Hb). exists rs. split; [done|].
  destruct (basePricing (pcat s0)) as [b|] eqn:Hb0; [|done]. cbn in Hbase.
  destruct (pcat s) as [m b' c]. cbn in Hc, Hb. subst b' c. rewrite ResolvePrice_snapshots, Hbase. cbn zeta.
  destruct (add_custom_lookup (map Custom_ToCore (map (scope_joined (pdb s)) rs)) virtualKeyID key) as (-> & -> & ->).
  fold (override_for (map Custom_ToCore (map (scope_joined (pdb s)) rs)) virtualKeyID key). cbn [fmap option_fmap option_map].
  destruct (override_for _ _ _); [|done]. by rewrite MergePricing_spec.
Qed.
End effects.

(** ** Three tables in memory *)

Abbreviation MemPriceAdmin := (PriceAdmin (MemTable StoreCustomModelPricing) (MemTable StoreModelPricing) (MemTable StoreProvider)).

Definition gpt_price : StoreModelPricing :=
  mkStoreModelPricing "b1" "gpt-4" "p1" (mkStoreProvider "p1" "openai" true NetworkConfig0 None) "gpt-4" "{}" "chat" Pricing0 None None 0 0.

Definition price_tables (fo : list bool) : PriceDb (MemTable StoreCustomModelPricing) (MemTable StoreModelPricing) (MemTable StoreProvider) :=
  mkPriceDb (mkMemTable ∅ fo) (mkMemTable {["b1" := gpt_price]} []) (mkMemTable {["p1" := mkStoreProvider "p1" "openai" true NetworkConfig0 None]} []).

Definition demo_admin (fo : list bool) : MemPriceAdmin :=
  mkPriceAdmin (price_tables fo) (loadAll (Ok []) (Ok [gpt_price]) (Ok []) NewModelCatalog).2.

Definition half_price : CustomPricingRequest :=
  mkCustomPricingRequest "half" "gpt-4" "chat" sample_price ScopeGlobal None None.

Lemma demo_admin_ok fo : price_ok (demo_admin fo).(pdb) /\ live (demo_admin fo).
Proof.
  split.
  - repeat split; cbn; intros i r; cbn [rows]; [by rewrite lookup_empty|by intros [<- <-]%lookup_singleton_Some..].
  - exists []. split; [split; [constructor|]|reflexivity]. intros r. cbn. rewrite lookup_empty. split; [done|by intros [=]].
Qed.

Lemma prices_are_table_witness :
  let '(a, s) := createCustomPricing "o1" 5 (Ok half_price) (demo_admin []) in
  a.1 = StatusCreated /\ exists rs, all_rows s.(pdb) rs /\
  (fun p => p InputCostPerToken) <$> ResolvePrice s.(pcat) "vk" (mkCatalogKey "openai" "gpt-4" ModelTypeChat) EmptySelectorKey =
  Some (match override_for (map Custom_ToCore (map (scope_joined s.(pdb)) rs)) "vk" (mkCatalogKey "openai" "gpt-4" ModelTypeChat) with
        | Some cp => cp.(CPPricing) InputCostPerToken
        | None => None
        end).
Proof.
  destruct (createCustomPricing "o1" 5 (Ok half_price) (demo_admin [])) as [a s] eqn:Hc. destruct (demo_admin_ok []) as [Hok Hl].
  assert (Ha : a.1 = StatusCreated /\ stale a = false).
  { pose proof (f_equal fst Hc) as Hx. cbn [fst] in Hx. subst a. split; vm_compute; reflexivity. }
  destruct Ha as [Ha Hst]. split; [exact Ha|].
  destruct (prices_are_table (demo_admin []) [a] s "vk" (mkCatalogKey "openai" "gpt-4" ModelTypeChat) EmptySelectorKey (Pricing_ToCore gpt_price) InputCostPerToken Hok Hl)
    as (rs & Hrs & Hp).
  - eapply pr_request; [eapply pq_create; exact Hc|constructor].
  - constructor; [exact Hst|constructor].
  - vm_compute. reflexivity.
  - exists rs. split; [exact Hrs|]. rewrite Hp. destruct (override_for _ _ _) as [cp|]; [|reflexivity]. by destruct (CPPricing cp InputCostPerToken).
Defined.

(** When the new row cannot be read again the creation is answered with an error, but it is stored
    and the catalog does not know it. *)
Lemma failed_reread_stores_price :
  let '(a, s) := createCustomPricing "o1" 5 (Ok half_price) (demo_admin [false; true]) in
  a = (StatusBadRequest, PCause (ReloadFailed "database is locked")) /\
  (SCName <$> tbl s.(pdb).(overrides) "o1") = Some "half" /\ s.(pcat) = (demo_admin []).(pcat).
Proof. vm_compute. repeat split. Qed.
