(* ===== verification/CatalogSync.v ===== *)
(** * Synchronising the catalog ([internal/modelcatalog/modelcatalog.go])

    The job [catalog_sync]: the feed is fetched ([PricingSource]), written to the tables
    ([StoreCatalog]) and the catalog reloaded from them ([ModelCatalog]); and how the catalog
    starts.  The tables are those of [StoreCatalog] with a query that lists their rows, each with
    its provider. *)

From S2P Require Import Prelude GoBase Float64 Catalog Credential Pricing StoreCatalog ModelCatalog PricingSource.

Definition JobCatalogSync : string := "catalog_sync".

(** [Preload("Provider").Find(&rows)] of the two tables, and of the operator prices. *)
Class CatalogQueries (MDb BDb CDb : Type) := {
  list_metadata : MDb -> result string (list StoreModelMetadata);
  list_pricing : BDb -> result string (list StoreModelPricing);
  list_custom : CDb -> result string (list StoreCustomModelPricing)
}.

Inductive CatalogSyncError : Type :=
| FetchCatalog (e : FetchError)
| WriteMetadata (msg : string)
| WritePricing (msg : string)
| LoadCatalog (msg : string).

Record SyncDetail : Type := mkSyncDetail {
  models_fetched : Z;
  variants_fetched : Z;
  models_unknown : Z;
  sync_digest : string
}.

Section sync.
Context {MDb BDb CDb : Type} `{UpsertTable MDb metadata_index StoreModelMetadata} `{UpsertTable BDb string StoreModelPricing}
  `{CatalogQueries MDb BDb CDb} `{FeedDecoder}.

Record SyncState : Type := mkSyncState { mdb : MDb; bdb : BDb; cdb : CDb; catalog : ModelCatalog }.
#[export] Instance SyncState_eta : Eta SyncState := fun s => mkSyncState (mdb s) (bdb s) (cdb s) (catalog s).

(** One load of the catalog. *)
Definition load (f : ModelCatalog -> result string () * ModelCatalog) (s : SyncState) : result CatalogSyncError () * SyncState :=
  match f s.(catalog) with
  | (Ok _, c) => (Ok tt, s <| catalog := c |>)
  | (Err e, c) => (Err (LoadCatalog e), s <| catalog := c |>)
  end.

(** [loadModels], [loadBasePricing] and [loadCustomPricing], the first error stopping. *)
Definition load_all (s : SyncState) : result CatalogSyncError () * SyncState :=
  match load (loadModels (list_metadata s.(mdb))) s with
  | (Err e, s) => (Err e, s)
  | (Ok _, s) =>
      match load (loadBasePricing (list_pricing s.(bdb))) s with
      | (Err e, s) => (Err e, s)
      | (Ok _, s) => load (loadCustomPricing (list_custom s.(cdb))) s
      end
  end.

(** [providers1] and [providers2] are what the two writes read of the table of providers,
    [uuid1], [now1], [uuid2] and [now2] the identifiers and times of their rows. *)
Definition syncCatalog (url : string) (send : string -> result string FeedResponse)
    (providers1 providers2 : result string (list StoreProvider)) (uuid1 uuid2 : nat -> string) (now1 now2 : Z)
    (s : SyncState) : result CatalogSyncError SyncDetail * SyncState :=
  match Fetch send (NewCatalogSource url) with
  | (Err e, _) => (Err (FetchCatalog e), s)
  | (Ok (models, variants), src) =>
      match BulkSyncModelMetadata uuid1 now1 providers1 models s.(mdb) with
      | (Err e, m) => (Err (WriteMetadata e), s <| mdb := m |>)
      | (Ok _, m) =>
          match BulkSyncModelPricing uuid2 now2 providers2 variants s.(bdb) with
          | (Err e, b) => (Err (WritePricing e), s <| mdb := m |> <| bdb := b |>)
          | (Ok _, b) =>
              match load_all (s <| mdb := m |> <| bdb := b |>) with
              | (Err e, s) => (Err e, s)
              | (Ok _, s) =>
                  (Ok (mkSyncDetail (Z.of_nat (List.length models)) (Z.of_nat (List.length variants)) src.(TotalUnknown) src.(Digest)), s)
              end
          end
      end
  end.

(** [ModelCatalog.Start] up to the start of its group: the job runs at the start when nothing is
    stored yet. *)
Definition Catalog_Start (s : SyncState) : result CatalogSyncError bool * SyncState :=
  match load_all s with
  | (Err e, s) => (Err e, s)
  | (Ok _, s) => (Ok (negb (Catalog_Ready s.(catalog))), s)
  end.

(** ** What a synchronisation does *)

Lemma load_all_Ok s u s' : load_all s = (Ok u, s') ->
  exists ms bs cs, list_metadata s.(mdb) = Ok ms /\ list_pricing s.(bdb) = Ok bs /\ list_custom s.(cdb) = Ok cs /\
    s' = s <| catalog := (loadAll (Ok ms) (Ok bs) (Ok cs) s.(catalog)).2 |>.
Proof.
  unfold load_all, load. destruct (list_metadata (mdb s)) as [ms|e]; cbn; [|done].
  destruct (list_pricing (bdb s)) as [bs|e]; cbn; [|done]. destruct (list_custom (cdb s)) as [cs|e]; cbn; [|done].
  intros [= _ <-]. by exists ms, bs, cs.
Qed.

(** A synchronisation that fails before the loads leaves the catalog alone. *)
Lemma syncCatalog_err url send p1 p2 u1 u2 n1 n2 s e s' : syncCatalog url send p1 p2 u1 u2 n1 n2 s = (Err e, s') ->
  (exists msg, e = LoadCatalog msg) \/ s'.(catalog) = s.(catalog).
Proof.
  unfold syncCatalog. destruct (Fetch _ _) as [[[models variants]|x] src]; [|intros [= _ <-]; by right].
  destruct (BulkSyncModelMetadata _ _ _ _ _) as [[u|x] m]; [|intros [= _ <-]; by right].
  destruct (BulkSyncModelPricing _ _ _ _ _) as [[v|x] b]; [|intros [= _ <-]; by right].
  unfold load_all, load. repeat case_match; intros Hq; simplify_eq; eauto.
Qed.
End sync.
Arguments SyncState : clear implicits.
Arguments mkSyncState {MDb BDb CDb}.

(** ** From the feed to the bill *)

(** A row with its provider. *)
Definition attach (ps : list StoreProvider) (r : StoreModelPricing) : StoreModelPricing :=
  mkStoreModelPricing r.(MPID) r.(MPRawKey) r.(MPProviderID)
    (default StoreProvider0 (List.find (fun p => String.eqb p.(SPID) r.(MPProviderID)) ps)) r.(MPModelName) r.(MPSelectorKey)
    r.(MPModelType) r.(MPPricing) r.(HeadlineInputCostPerToken) r.(HeadlineOutputCostPerToken) r.(MPCreatedAt) r.(MPUpdatedAt).

Section bill.
Context {MDb BDb CDb : Type} `{UpsertTable MDb metadata_index StoreModelMetadata} `{UpsertTable BDb string StoreModelPricing}
  `{CatalogQueries MDb BDb CDb} `{FeedDecoder} `{!UpsertLaws BDb string StoreModelPricing}.

(** The providers do not change meanwhile; the table of prices is listed completely. *)
Variable providers : list StoreProvider.
Hypothesis provider_ids : NoDup (map SPID providers).
Hypothesis listing : forall (d : BDb) rows, list_pricing d = Ok rows ->
  exists rs, rows = map (attach providers) rs /\ forall r, In r rs <-> utbl d r.(MPRawKey) = Some r.

Definition keyed (d : BDb) : Prop := forall k r, utbl d k = Some r -> r.(MPRawKey) = k.

Lemma ProviderIDs_find ps ids name pid : ProviderIDs (Ok ps) = Ok ids -> ids !! name = Some pid ->
  exists p, p ∈ ps /\ p.(SPName) = name /\ p.(SPID) = pid.
Proof.
  cbn. intros [= <-]. assert (Hg : forall l (m : gmap Provider string), (foldl (fun ids p => <[p.(SPName) := p.(SPID)]> ids) m l) !! name = Some pid ->
    m !! name = Some pid \/ exists p, p ∈ l /\ p.(SPName) = name /\ p.(SPID) = pid).
  { induction l as [|p l IH]; intros m; cbn [foldl]; [auto|]. intros [[[<- <-]|[_ Hm]]%lookup_insert_Some|(q & Hq & Hn)]%IH; [|by left|].
    - right. exists p. split; [by left|done].
    - right. exists q. split; [by right|done]. }
  intros [Hm|Hp]%Hg; [by rewrite lookup_empty in Hm|done].
Qed.

Lemma find_by_id p : p ∈ providers -> List.find (fun q => String.eqb q.(SPID) p.(SPID)) providers = Some p.
Proof.
  intros Hp. clear listing. induction providers as [|q ps IH]; [by apply elem_of_nil in Hp|]. cbn [map] in provider_ids.
  apply NoDup_cons in provider_ids as [Hq Hnd]. cbn [List.find]. apply elem_of_cons in Hp as [->|Hp]; [by rewrite String.eqb_refl|].
  destruct (String.eqb_spec (SPID q) (SPID p)) as [He|_]; [|by apply IH]. exfalso. apply Hq. rewrite He.
  by apply (list_elem_of_fmap_2 SPID).
Qed.

(** The row a variant of the feed ends up in. *)
Lemma synced_row uuid now variants d u d' i v pid : keyed d ->
  BulkSyncModelPricing uuid now (Ok providers) variants d = (Ok u, d') ->
  (forall ids, ProviderIDs (Ok providers) = Ok ids -> first_of VProvider VRawKey ids 0 variants v.(VRawKey) = Some (i, v, pid)) ->
  exists r, utbl d' v.(VRawKey) = Some r /\ r.(MPRawKey) = v.(VRawKey) /\ r.(MPProviderID) = pid /\
    r.(MPModelName) = v.(VModelName) /\ r.(MPSelectorKey) = CanonicalKey v.(Selectors) /\
    r.(MPModelType) = ModelType_String v.(VModelType) /\ r.(MPPricing) = v.(VPricing).
Proof.
  intros Hk Hs Hf. pose proof (BulkSyncModelPricing_spec _ _ _ _ _ _ _ Hs v.(VRawKey)) as Hu.
  destruct (ProviderIDs (Ok providers)) as [ids|e] eqn:Hids; [|done]. rewrite (Hf ids eq_refl) in Hu. cbn [fmap option_fmap option_map] in Hu.
  destruct (utbl d (VRawKey v)) as [old|] eqn:Hold; eexists; (split; [exact Hu|]); cbn; splits; try done. by apply Hk.
Qed.

(** C21: From the feed to the bill.  After a synchronisation that succeeded, the base price of
    a model is the price its row of the feed says, for every row of a registered provider that is
    the first with its key and the only stored row of its model. *)
Theorem sync_bills_feed url send uuid1 uuid2 now1 now2 (s : SyncState MDb BDb CDb) detail s' models variants src ids i v pid :
  keyed s.(bdb) ->
  syncCatalog url send (Ok providers) (Ok providers) uuid1 uuid2 now1 now2 s = (Ok detail, s') ->
  Fetch send (NewCatalogSource url) = (Ok (models, variants), src) ->
  ProviderIDs (Ok providers) = Ok ids ->
  first_of VProvider VRawKey ids 0 variants v.(VRawKey) = Some (i, v, pid) ->
  ids !! v.(VProvider) = Some pid ->
  (forall k r, utbl s'.(bdb) k = Some r ->
     PricingVariant_CatalogKey (Pricing_ToCore (attach providers r)) = PricingVariant_CatalogKey v -> k = v.(VRawKey)) ->
  BasePrice s'.(catalog) (PricingVariant_CatalogKey v) = Some v.(VPricing) /\
  detail.(variants_fetched) = Z.of_nat (List.length variants) /\ detail.(models_unknown) = src.(TotalUnknown).
Proof.
  intros Hk Hs Hfetch Hids Hfirst Hpid Honly. unfold syncCatalog in Hs. rewrite Hfetch in Hs.
  destruct (BulkSyncModelMetadata _ _ _ _ _) as [[u1|x] m] eqn:Hm; [|done].
  destruct (BulkSyncModelPricing _ _ _ _ _) as [[u2|x] b] eqn:Hb; [|done].
  destruct (load_all _) as [[u3|x] s2] eqn:Hl; [|done]. injection Hs as <- <-. split; [|done].
  apply load_all_Ok in Hl as (ms & bs & cs & Hms & Hbs & Hcs & ->). cbn [bdb mdb cdb catalog field_upd] in *.
  destruct (listing _ _ Hbs) as (rs & -> & Hin).
  destruct (synced_row _ _ _ _ _ _ i v pid Hk Hb) as (r & Hr & Hrk & Hrp & Hrn & Hrs & Hrt & Hrpr).
  { intros ids' Hi'. rewrite Hids in Hi'. injection Hi' as <-. done. }
  destruct (ProviderIDs_find _ _ _ _ Hids Hpid) as (p & Hp & Hpn & Hpi).
  assert (Hcore : PricingVariant_CatalogKey (Pricing_ToCore (attach providers r)) = PricingVariant_CatalogKey v).
  { unfold PricingVariant_CatalogKey, Pricing_ToCore, attach. cbn. rewrite Hrp, <- Hpi, find_by_id by done. cbn.
    by rewrite Hpn, Hrn, Hrt, ParseModelType_String. }
  assert (Hrows : forall w, w ∈ rows_for (map Pricing_ToCore (map (attach providers) rs)) (PricingVariant_CatalogKey v) -> VPricing w = VPricing v).
  { intros w Hw. unfold rows_for in Hw. apply list_elem_of_In, filter_In in Hw as [Hw Hkey]. apply bool_decide_eq_true in Hkey.
    rewrite map_map in Hw. apply in_map_iff in Hw as (r' & <- & Hr'). apply Hin in Hr'. pose proof (Honly _ _ Hr' Hkey) as He.
    rewrite He in Hr'. rewrite Hr in Hr'. injection Hr' as <-. exact Hrpr. }
  rewrite loadAll_Ok. cbn [snd]. unfold BasePrice. cbn [basePricing mbind option_bind]. rewrite Base_find_empty.
  assert (Hrin : Pricing_ToCore (attach providers r) ∈ rows_for (map Pricing_ToCore (map (attach providers) rs)) (PricingVariant_CatalogKey v)).
  { unfold rows_for. apply list_elem_of_In, filter_In. split; [|by apply bool_decide_eq_true]. rewrite map_map.
    apply in_map_iff. exists r. split; [done|]. apply Hin. by rewrite Hrk. }
  unfold base_row. destruct (List.find _ _) as [w|] eqn:Hf.
  - apply find_some in Hf as [Hw _]. cbn. f_equal. apply Hrows. by apply list_elem_of_In.
  - destruct (rows_for _ _) as [|w ws]; [by apply elem_of_nil in Hrin|]. cbn. f_equal. apply Hrows. by left.
Qed.
End bill.

(** ** A feed of one row, tables in memory *)

#[local] Instance one_row_feed : FeedDecoder := {
  stream _ _ := mkFeed (Ok tt) [FRow "openai/gpt-4" (Ok (feed_row "chat" "openai" <| SsPricing := sample_price |>))] (Ok tt);
  consumed_bytes body _ := Z.of_nat (String.length body);
  quote s := s
}.

Definition one_provider : list StoreProvider := [mkStoreProvider "p1" "openai" true NetworkConfig0 None].

#[local] Instance mem_queries : CatalogQueries (MemUpsert metadata_index StoreModelMetadata) (MemUpsert string StoreModelPricing) unit := {
  list_metadata d := Ok (map snd (map_to_list d.1));
  list_pricing d := Ok (map (attach one_provider) (map snd (List.filter (fun kr => String.eqb kr.1 kr.2.(MPRawKey)) (map_to_list d.1))));
  list_custom _ := Ok []
}.

Definition empty_tables : SyncState (MemUpsert metadata_index StoreModelMetadata) (MemUpsert string StoreModelPricing) unit :=
  mkSyncState (∅, []) (∅, []) tt NewModelCatalog.
Definition serve_feed (_ : string) : result string FeedResponse := Ok (mkFeedResponse 200 "200 OK" "feed" None).

Definition gpt4_variant : PricingVariant :=
  mkPricingVariant "" "openai/gpt-4" (mkSelectorSet "{}") "openai" ModelTypeChat "gpt-4" sample_price.

Lemma sync_bills_feed_witness :
  let '(res, s') := syncCatalog "" serve_feed (Ok one_provider) (Ok one_provider) (fun _ => "u") (fun _ => "w") 5 6 empty_tables in
  is_ok res = true /\ BasePrice s'.(catalog) (mkCatalogKey "openai" "gpt-4" ModelTypeChat) = Some sample_price.
Proof.
  destruct (syncCatalog _ _ _ _ _ _ _ _ _) as [res s'] eqn:Hs.
  assert (Hok : is_ok res = true) by (apply (f_equal (fun x => is_ok x.1)) in Hs; cbn [fst] in Hs; rewrite <- Hs; vm_compute; reflexivity).
  split; [exact Hok|]. destruct res as [detail|]; [|discriminate Hok].
  destruct (Fetch serve_feed (NewCatalogSource "")) as [[[models variants]|e] src] eqn:Hf;
    [|apply (f_equal (fun x => is_ok x.1)) in Hf; vm_compute in Hf; discriminate Hf].
  assert (Hv : variants = [gpt4_variant]).
  { transitivity (match (Fetch serve_feed (NewCatalogSource "")).1 with Ok (_, vs) => vs | Err _ => [] end); [by rewrite Hf|vm_compute; reflexivity]. }
  assert (Hdom : dom s'.(bdb).1 = {["openai/gpt-4"]}).
  { transitivity (dom (syncCatalog "" serve_feed (Ok one_provider) (Ok one_provider) (fun _ => "u") (fun _ => "w") 5 6 empty_tables).2.(bdb).1); [by rewrite Hs|vm_compute; reflexivity]. }
  refine (proj1 (sync_bills_feed one_provider _ _ "" serve_feed (fun _ => "u") (fun _ => "w") 5 6 empty_tables detail s' models variants src
    {["openai" := "p1"]} 0 gpt4_variant "p1" _ Hs Hf eq_refl _ eq_refl _)).
  - apply NoDup_singleton.
  - intros d rows [= <-]. eexists. split; [reflexivity|]. intros r. rewrite in_map_iff. split.
    + intros ([k r'] & <- & [Hin Hk]%filter_In). cbn in Hk. apply String.eqb_eq in Hk. subst k.
      apply list_elem_of_In, elem_of_map_to_list in Hin. exact Hin.
    + intros Hr. cbn in Hr. exists (MPRawKey r, r). split; [done|]. apply filter_In.
      split; [by apply list_elem_of_In, elem_of_map_to_list|apply String.eqb_refl].
  - intros k r Hr. cbn in Hr. by rewrite lookup_empty in Hr.
  - rewrite Hv. vm_compute. reflexivity.
  - intros k r Hr _. change ((bdb s').1 !! k = Some r) in Hr. apply elem_of_dom_2 in Hr. rewrite Hdom in Hr. by apply elem_of_singleton in Hr.
Defined.
