(* ===== verification/Lifecycle.v ===== *)
(** * The life of the gateway ([internal/gateway/gateway.go])

    Initialising, starting and stopping the parts: the store, the metrics store, the groups of jobs
    of the catalog, of governance and of the metrics engine ([Worker]), and the HTTP server.

    The gateway's own calls are relations between the states before and after them; within them and
    between them the goroutines of every group, callers that trigger jobs and the server's own
    goroutine take any number of steps. *)

From S2P Require Import Prelude GoBase Context Worker.
Local Open Scope Z_scope.

Section lifecycle.
Variable Value : Type.
#[local] Arguments mkGroup {Value}.
#[local] Arguments jobs {Value} _.
#[local] Arguments started {Value} _.
#[local] Arguments loops {Value} _.
#[local] Arguments owner {Value} _.
#[local] Arguments batch {Value} _.
#[local] Arguments log {Value} _.
#[local] Arguments add_jobs {Value} _ _.
#[local] Arguments Add {Value} _ _.
#[local] Arguments Trigger {Value} _ _.
#[local] Arguments owner_step {Value} _ _.
#[local] Arguments loop_step {Value} _ _.
#[local] Arguments caller_step {Value} _ _.
#[local] Arguments worker_step {Value} _ _.
#[local] Arguments owned_step {Value} _ _.
#[local] Arguments has_flag {Value} _ _ _.
#[local] Arguments drained {Value} _ _.
#[local] Arguments NewGroup {Value}.
#[local] Arguments ShutdownReturned {Value} _.
Abbreviation Group := (Worker.Group Value).

(** ** Groups that run side by side *)

Abbreviation Groups := (gmap nat Group).

(** The goroutines of the jobs, and callers that trigger a job. *)
Inductive background : Groups -> Groups -> Prop :=
| bg_loop i g g' gs : gs !! i = Some g -> loop_step g g' -> background gs (<[i := g']> gs)
| bg_trigger i g n gs : gs !! i = Some g -> background gs (<[i := (Trigger n g).2]> gs).

(** A step while a call of the owner of group [i] is under way: that call's own or another's. *)
Inductive during (i : nat) : Groups -> Groups -> Prop :=
| during_owner g g' gs : gs !! i = Some g -> g.(owner) <> Idle -> owner_step g g' -> during i gs (<[i := g']> gs)
| during_background gs gs' : background gs gs' -> during i gs gs'.

(** [Group.Start] on group [i] and whether it reported success. *)
Inductive start_call (i : nat) : Groups -> bool -> Groups -> Prop :=
| StartCall g g1 gs gs' g2 : gs !! i = Some g -> g.(owner) = Idle -> g.(started) = false ->
    owner_step g g1 -> star (during i) (<[i := g1]> gs) gs' -> gs' !! i = Some g2 -> g2.(owner) = Idle ->
    start_call i gs g2.(started) gs'.

(** [Group.Shutdown]; it reports success at once when the group is not started. *)
Inductive shutdown_call (i : nat) : Groups -> bool -> Groups -> Prop :=
| ShutdownSkip g gs : gs !! i = Some g -> g.(started) = false -> shutdown_call i gs true gs
| ShutdownCall g g1 gs gs' g2 g3 ok : gs !! i = Some g -> g.(owner) = Idle -> g.(started) = true ->
    owner_step g g1 -> star (during i) (<[i := g1]> gs) gs' -> gs' !! i = Some g2 -> g2.(owner) = Stopping ->
    owner_step g2 g3 -> g3.(log) = ShutdownReturned ok :: g2.(log) ->
    shutdown_call i gs ok (<[i := g3]> gs').

(** ** The gateway *)

Inductive Component : Type := CatalogJobs | GovernanceJobs | MetricsJobs.
#[export] Instance Component_eq_dec : EqDecision Component.
Proof. solve_decision. Defined.

(** What the gateway reads of its configuration. *)
Record GwConfig : Type := mkGwConfig { SyncInterval : Z; FlushInterval : Z; MetricsEnabled : bool }.

Inductive GwError : Type :=
| ConfigFailed (msg : string)
| SourceFailed (msg : string)
| SeedFailed (msg : string)
| SnapshotFailed (msg : string)
| MetricsStoreFailed (msg : string)
| MetricsHooksFailed (msg : string)
| AlreadyRunning
| NotInitialized
| CatalogLoadFailed (msg : string)
| JobRefused (c : Component) (e : WorkerError)
| JobFailedAtStart (c : Component)
| HttpFailed (msg : string)
| HttpShutdownFailed (msg : string)
| JobsDidNotStop (c : Component)
| MetricsCloseFailed (msg : string)
| StoreCloseFailed (msg : string).

(** The HTTP server: [startOnce] is used, [httpServer] is set, its [Serve] goroutine runs, it is
    ready, [cancelBase] was called. *)
Record HttpServer : Type := mkHttpServer {
  startOnce : bool;
  httpServer : bool;
  serving : bool;
  isReady : bool;
  cancelled : bool
}.
#[export] Instance HttpServer_eta : Eta HttpServer := fun v =>
  mkHttpServer (startOnce v) (httpServer v) (serving v) (isReady v) (cancelled v).
Definition HttpServer0 : HttpServer := mkHttpServer false false false false false.

(** [source] is not nil, [metrics_set]: the gateway has a metrics engine; [workers c]: the group of
    the component; [closes] and [metrics_closes] count how often the two stores were closed. *)
Record Gw : Type := mkGw {
  gwcfg : option GwConfig;
  source : bool;
  server : option HttpServer;
  metrics_set : bool;
  isRunning : bool;
  cancelWork : bool;
  catalog_group : option nat;
  governance_group : option nat;
  metrics_group : option nat;
  groups : Groups;
  fresh_group : nat;
  closes : nat;
  metrics_closes : nat
}.
#[export] Instance Gw_eta : Eta Gw := fun s =>
  mkGw (gwcfg s) (source s) (server s) (metrics_set s) (isRunning s) (cancelWork s) (catalog_group s) (governance_group s)
    (metrics_group s) (groups s) (fresh_group s) (closes s) (metrics_closes s).

Definition NewGateway : Gw := mkGw None false None false false false None None None ∅ 0 0 0.

Definition workers (c : Component) (s : Gw) : option nat :=
  match c with CatalogJobs => s.(catalog_group) | GovernanceJobs => s.(governance_group) | MetricsJobs => s.(metrics_group) end.

(** A component's new group. *)
Definition with_group (c : Component) (g : Group) (s : Gw) : Gw :=
  let i := s.(fresh_group) in
  let s := s <| groups ::= <[i := g]> |> <| fresh_group ::= S |> in
  match c with
  | CatalogJobs => s <| catalog_group := Some i |>
  | GovernanceJobs => s <| governance_group := Some i |>
  | MetricsJobs => s <| metrics_group := Some i |>
  end.

(** How the calls of [Initialize] end. *)
Record InitEnv : Type := mkInitEnv {
  ie_config : result string GwConfig;
  ie_source : result string ();
  ie_seed : result string ();
  ie_snapshot : result string ();
  ie_metrics : result string ();
  ie_hooks : result string ()
}.

Definition Initialize (env : InitEnv) (s : Gw) : result GwError () * Gw :=
  match env.(ie_config) with
  | Err e => (Err (ConfigFailed e), s)
  | Ok cfg =>
      let s := s <| gwcfg := Some cfg |> in
      match env.(ie_source) with
      | Err e => (Err (SourceFailed e), s)
      | Ok _ =>
          let s := s <| source := true |> in
          match env.(ie_seed), env.(ie_snapshot) with
          | Err e, _ => (Err (SeedFailed e), s)
          | Ok _, Err e => (Err (SnapshotFailed e), s)
          | Ok _, Ok _ =>
              let s := s <| server := Some HttpServer0 |> in
              if cfg.(MetricsEnabled) then
                match env.(ie_metrics) with
                | Err e => (Err (MetricsStoreFailed e), s)
                | Ok _ =>
                    let s := s <| metrics_set := true |> in
                    match env.(ie_hooks) with Err e => (Err (MetricsHooksFailed e), s) | Ok _ => (Ok tt, s) end
                end
              else (Ok tt, s)
          end
      end
  end.

(** Between its calls: steps of the jobs, and a server that stops serving by itself. *)
Inductive gw_background : Gw -> Gw -> Prop :=
| gb_jobs s gs : background s.(groups) gs -> gw_background s (s <| groups := gs |>)
| gb_serve s v : s.(server) = Some v -> v.(serving) = true ->
    gw_background s (s <| server := Some (v <| serving := false |> <| isReady := false |>) |>).

(** ** Start *)

Definition act : Type := Gw -> result GwError () -> Gw -> Prop.

(** One call after the other, the first error returned. *)
Definition seq (a b : act) : act := fun s r s' =>
  (exists e, r = Err e /\ a s (Err e) s') \/ (exists s1, a s (Ok tt) s1 /\ b s1 r s').
Definition nop : act := fun s r s' => r = Ok tt /\ s' = s.

(** A component with its jobs: a new group, the jobs added, the group started. *)
Inductive start_group (c : Component) (js : list (option Job)) : act :=
| sg_refused s e g : Add js NewGroup = (Err e, g) -> start_group c js s (Err (JobRefused c e)) (with_group c g s)
| sg_started s g gs (ok : bool) s' : Add js NewGroup = (Ok tt, g) ->
    start_call s.(fresh_group) (with_group c g s).(groups) ok gs ->
    star gw_background (with_group c g s <| groups := gs |>) s' ->
    start_group c js s (if ok then Ok tt else Err (JobFailedAtStart c)) s'.

Definition catalog_jobs (cfg : GwConfig) (firstBoot : bool) : list (option Job) :=
  [Some (mkJob "catalog_sync" cfg.(SyncInterval) firstBoot false true)].
Definition governance_jobs : list (option Job) :=
  [Some (mkJob "budget_sync" (10 * Second) true false true); Some (mkJob "virtual_keys_sync" (10 * Second) true false true);
   Some (mkJob "usage_flush" (10 * Second) false true true); Some (mkJob "budget_flush_roll" (10 * Second) false true true)].
Definition metrics_jobs (cfg : GwConfig) : list (option Job) :=
  [Some (mkJob "events_flush" cfg.(FlushInterval) false true true)].

(** [ModelCatalog.Start]: the tables are loaded first, which a closed store refuses. *)
Inductive start_catalog (cfg : GwConfig) : act :=
| sc_load_fails s msg : start_catalog cfg s (Err (CatalogLoadFailed msg)) s
| sc_loaded s firstBoot r s' : s.(source) = true -> start_group CatalogJobs (catalog_jobs cfg firstBoot) s r s' ->
    start_catalog cfg s r s'.

(** [DiffractLLMServer.Start], given what the routes and the listener answer. *)
Definition server_Start (routes listen : option string) (v : HttpServer) : option string * HttpServer :=
  if v.(startOnce) then (None, v)
  else
    let v := v <| startOnce := true |> in
    match routes with
    | Some e => (Some e, v)
    | None =>
        let v := v <| httpServer := true |> in
        match listen with
        | Some e => (Some e, v)
        | None => (None, v <| isReady := true |> <| serving := true |>)
        end
    end.

Inductive start_http : act :=
| sh_start s v routes listen err v' : s.(server) = Some v -> server_Start routes listen v = (err, v') ->
    start_http s (match err with Some e => Err (HttpFailed e) | None => Ok tt end) (s <| server := Some v' |>).

Definition run_started : act := fun s r s' => r = Ok tt /\ s' = s <| isRunning := true |>.

Definition Gw_Start : act := fun s r s' =>
  if s.(isRunning) then r = Err AlreadyRunning /\ s' = s
  else
    match s.(server), s.(gwcfg) with
    | Some _, Some cfg =>
        seq (start_catalog cfg) (seq (start_group GovernanceJobs governance_jobs)
          (seq (if s.(metrics_set) then start_group MetricsJobs (metrics_jobs cfg) else nop)
            (seq start_http run_started))) (s <| cancelWork := true |>) r s'
    | _, _ => r = Err NotInitialized /\ s' = s
    end.

(** ** Stop *)

(** A part of [Stop] and the errors it joins to those before. *)
Definition stop_act : Type := Gw -> list GwError -> Gw -> Prop.
Definition both (a b : stop_act) : stop_act := fun s es s' => exists s1 e1 e2, a s e1 s1 /\ b s1 e2 s' /\ es = (e1 ++ e2)%list.
Definition when (f : Gw -> bool) (a : stop_act) : stop_act := fun s es s' => if f s then a s es s' else es = [] /\ s' = s.

(** [DiffractLLMServer.Shutdown]: the server stops taking connections; when its requests do not end
    within the grace they are cancelled. *)
Definition server_Shutdown (in_time : bool) (err : option string) (v : HttpServer) : option string * HttpServer :=
  if negb v.(httpServer) then (None, v)
  else (err, v <| isReady := false |> <| serving := false |> <| cancelled ::= orb (negb in_time) |>).

Inductive stop_http : stop_act :=
| st_http s v in_time err res v' s' : s.(server) = Some v -> server_Shutdown in_time err v = (res, v') ->
    star gw_background (s <| server := Some v' |>) s' ->
    stop_http s (match res with Some e => [HttpShutdownFailed e] | None => [] end) s'.

Inductive stop_group (c : Component) : stop_act :=
| st_group s i ok gs s' : workers c s = Some i -> shutdown_call i s.(groups) ok gs ->
    star gw_background (s <| groups := gs |>) s' ->
    stop_group c s (if ok then [] else [JobsDidNotStop c]) s'.

(** [MetricsEngine.Shutdown]: the group, if it was started, then the store; one error is kept. *)
Inductive stop_metrics : stop_act :=
| st_metrics s es s1 cerr : when (fun s => bool_decide (is_Some (workers MetricsJobs s))) (stop_group MetricsJobs) s es s1 ->
    stop_metrics s (match es, cerr with [], Some e => [MetricsCloseFailed e] | _, _ => es end)
      (s1 <| metrics_closes ::= S |> <| metrics_set := false |>).

Inductive close_store : stop_act :=
| st_close s cerr : close_store s (match cerr with Some e => [StoreCloseFailed e] | None => [] end)
    (s <| closes ::= S |> <| source := false |>).

Definition stopped : stop_act := fun s es s' => es = [] /\ s' = s <| isRunning := false |>.
Definition cancel : stop_act := fun s es s' => es = [] /\ s' = s <| cancelWork := false |>.

Definition Gw_Stop : stop_act :=
  both (when isRunning stop_http)
  (both (when metrics_set stop_metrics)
  (both (when isRunning (both (stop_group GovernanceJobs) (stop_group CatalogJobs)))
  (both stopped (both (when source close_store) cancel)))).

(** ** What is shown *)

(** The names of the components whose jobs are reported, and what the status says. *)
Definition Gw_Stats (s : Gw) : option (list (Component * list (JobStats Value))) :=
  if negb s.(isRunning) then None
  else
    let jobs_of c := match workers c s with
                | Some i => match s.(groups) !! i with Some g => Stats Value g | None => [] end
                | None => []
                end in
    Some ([(GovernanceJobs, jobs_of GovernanceJobs); (CatalogJobs, jobs_of CatalogJobs)] ++
          (if s.(metrics_set) then [(MetricsJobs, jobs_of MetricsJobs)] else []))%list.

(** ** Groups on their own *)

#[local] Arguments group_ok {Value} _.
#[local] Arguments group_owned {Value} _.
#[local] Arguments stop {Value} _.
#[local] Arguments closed {Value} _.

(** A group its owner brought about, as [Worker] has it. *)
Definition reached (g : Group) : Prop := star owned_step NewGroup g.

Lemma reached_ok g : reached g -> group_ok g /\ group_owned g.
Proof. apply owned_reachable. Qed.

(** A group in which no goroutine is left and none will start by itself. *)
Definition quiet (g : Group) : Prop := g.(owner) = Idle /\ g.(started) = false /\ g.(loops) = ∅.

(** What steps of others leave of a group. *)
Record kept (g g' : Group) : Prop := mkKept {
  kp_started : g'.(started) = g.(started);
  kp_owner : g'.(owner) = g.(owner);
  kp_batch : g'.(batch) = g.(batch);
  kp_flag f n : is_Some (g.(jobs) !! n) -> has_flag f g' n = has_flag f g n;
  kp_jobs n : is_Some (g.(jobs) !! n) -> is_Some (g'.(jobs) !! n);
  kp_loops : g.(loops) = ∅ -> g'.(loops) = ∅ /\ g'.(log) = g.(log)
}.

Lemma kept_refl g : kept g g.
Proof. by constructor. Qed.

Lemma kept_trans a b c : kept a b -> kept b c -> kept a c.
Proof.
  intros [H1 H2 H3 H4 H5 H6] [G1 G2 G3 G4 G5 G6]. constructor; try congruence; [intros; rewrite G4; auto|auto|].
  intros Ha. destruct (H6 Ha) as [Hb Hl]. destruct (G6 Hb) as [Hc Hl2]. split; congruence.
Qed.

Lemma loop_jobs (g g' : Group) n : loop_step g g' -> is_Some (g.(jobs) !! n) -> is_Some (g'.(jobs) !! n).
Proof.
  intros Hs Hn. destruct Hs as [g i m Hi|g i m ch s Hi|g i m ch s k Hi Hm Hk|g i m ch s t o Hi|g i m c s Hi Hc Hf|g i m c Hi Hc Hf|g i m s t o Hi];
    try (destruct (exec_end_frame Value m s t o g) as [f ->]); cbn; rewrite ?lookup_alter_is_Some; try done.
  destruct (decide (n = m)) as [->|Hne]; [rewrite lookup_insert_eq|rewrite lookup_insert_ne by done]; eauto.
Qed.

Lemma loop_kept (g g' : Group) : loop_step g g' -> kept g g'.
Proof.
  intros Hs. destruct (loop_frame Value g g' Hs) as (i & n & p & new & q & Hi & _ & [Hst _ _ How Hba Hfl] & _ & _).
  constructor; try done; [intros m; by apply loop_jobs|]. intros He. by rewrite He, lookup_empty in Hi.
Qed.

Lemma trigger_kept_by (g : Group) n : kept g (Trigger n g).2.
Proof.
  unfold Trigger. destruct (jobs g !! n) as [j|] eqn:Hn; [|apply kept_refl]. constructor; try done; cbn.
  - intros f m Hm. by apply (grows_flag Value g); [apply trigger_grows|].
  - intros m Hm. destruct (decide (m = n)) as [->|Hne]; [rewrite lookup_insert_eq|rewrite lookup_insert_ne by done]; eauto.
Qed.

Lemma reached_step (g g' : Group) : reached g -> worker_step g g' ->
  (g.(owner) = Idle -> g'.(owner) <> Idle -> g.(started) = false -> g.(loops) = ∅) -> reached g'.
Proof. intros Hr Hw Hc. eapply star_trans; [exact Hr|]. eapply star_step; [split; [exact Hw|exact Hc]|apply star_refl]. Qed.

Lemma reached_kept (g g' : Group) : reached g -> worker_step g g' -> kept g g' -> reached g'.
Proof. intros Hr Hw Hk. apply (reached_step g); [done|done|]. rewrite (kp_owner _ _ Hk). done. Qed.

Lemma kept_quiet g g' : kept g g' -> quiet g -> quiet g'.
Proof. intros Hk (Ho & Hs & Hl). split; [by rewrite (kp_owner _ _ Hk)|]. split; [by rewrite (kp_started _ _ Hk)|]. by apply (kp_loops _ _ Hk). Qed.

(** The jobs [ns], which run at the stop, belong to the start of a group. *)
Definition carries (ns : list string) (g : Group) : Prop :=
  forall n, n ∈ ns -> is_Some (g.(jobs) !! n) /\ n ∈ g.(batch) /\ has_flag RunAtStop g n = true.

Lemma kept_carries ns g g' : kept g g' -> carries ns g -> carries ns g'.
Proof.
  intros Hk Hc n Hn. destruct (Hc n Hn) as (Hj & Hb & Hf). split; [by apply (kp_jobs _ _ Hk)|].
  split; [by rewrite (kp_batch _ _ Hk)|]. by rewrite (kp_flag _ _ Hk).
Qed.

(** ** All groups *)

Definition all_reached (gs : Groups) : Prop := forall i g, gs !! i = Some g -> reached g.

(** Groups that go on, all but [i] without a call of their owner. *)
Record steady (i : option nat) (gs gs' : Groups) : Prop := mkSteady {
  sd_dom j : is_Some (gs !! j) <-> is_Some (gs' !! j);
  sd_reached : all_reached gs -> all_reached gs';
  sd_kept j g : i <> Some j -> gs !! j = Some g -> exists g', gs' !! j = Some g' /\ kept g g'
}.

Lemma steady_refl i gs : steady i gs gs.
Proof. constructor; [done|done|]. intros j g _ Hj. exists g. split; [done|apply kept_refl]. Qed.

Lemma steady_trans i a b c : steady i a b -> steady i b c -> steady i a c.
Proof.
  intros [H1 H2 H3] [G1 G2 G3]. constructor; [intros j; by rewrite H1|auto|]. intros j g Hi Hj.
  destruct (H3 j g Hi Hj) as (g1 & Hj1 & Hk1). destruct (G3 j g1 Hi Hj1) as (g2 & Hj2 & Hk2). exists g2. split; [done|by eapply kept_trans].
Qed.

Lemma steady_weaken i gs gs' : steady None gs gs' -> steady i gs gs'.
Proof. intros [H1 H2 H3]. constructor; [done|done|]. intros j g _. by apply H3. Qed.

Lemma steady_star i (R : Groups -> Groups -> Prop) : (forall a b, R a b -> steady i a b) -> forall a b, star R a b -> steady i a b.
Proof. intros Hr a b. induction 1; [apply steady_refl|]. eapply steady_trans; eauto. Qed.

(** One group moves. *)
Lemma steady_insert i o g g' gs : gs !! i = Some g -> (reached g -> reached g') -> (o = Some i \/ kept g g') -> steady o gs (<[i := g']> gs).
Proof.
  intros Hi Hr Hk. constructor.
  - intros j. destruct (decide (j = i)) as [->|Hne]; [rewrite lookup_insert_eq, Hi|by rewrite lookup_insert_ne]. split; eauto.
  - intros Ha j h. destruct (decide (j = i)) as [->|Hne]; [rewrite lookup_insert_eq; intros [= <-]; eauto|rewrite lookup_insert_ne by done; apply Ha].
  - intros j h Ho Hj. destruct (decide (j = i)) as [->|Hne]; [|exists h; rewrite lookup_insert_ne by done; split; [done|apply kept_refl]].
    rewrite Hi in Hj. injection Hj as <-. exists g'. rewrite lookup_insert_eq. split; [done|]. by destruct Hk as [->|Hk].
Qed.

Lemma background_steady gs gs' : background gs gs' -> steady None gs gs'.
Proof.
  intros [i g g' gs0 Hi Hs|i g n gs0 Hi].
  - pose proof (loop_kept _ _ Hs) as Hk. apply (steady_insert i None g g'); [done| |by right]. intros Hr. apply (reached_kept g); [done|by apply ws_loop|done].
  - pose proof (trigger_kept_by g n) as Hk. apply (steady_insert i None g); [done| |by right].
    intros Hr. apply (reached_kept g); [done|by apply ws_caller, ws_trigger|done].
Qed.

Lemma during_steady i gs gs' : during i gs gs' -> steady (Some i) gs gs'.
Proof.
  intros [g g' gs0 Hi Ho Hs|gs0 gs1 Hb]; [|by apply steady_weaken, background_steady].
  apply (steady_insert i _ g); [done| |by left]. intros Hr. apply (reached_step g); [done|by apply ws_owner|]. done.
Qed.

Lemma during_inv i (I : Group -> Prop) :
  (forall g g', reached g -> I g -> g.(owner) <> Idle -> owner_step g g' -> I g') -> (forall g g', kept g g' -> I g -> I g') ->
  forall gs gs', star (during i) gs gs' -> all_reached gs -> forall g, gs !! i = Some g -> I g ->
  exists g', gs' !! i = Some g' /\ I g'.
Proof.
  intros Ho Hk gs gs' Hs. induction Hs as [gs|gs gs1 gs2 Hd Hs IH]; intros Ha g Hi HI; [by exists g|].
  pose proof (sd_reached _ _ _ (during_steady i gs gs1 Hd) Ha) as Ha1.
  assert (Hn : exists g1, gs1 !! i = Some g1 /\ I g1) by
    (destruct Hd as [g0 g' gs Hi0 Hne Hst|gs gs1 Hb];
      [rewrite Hi in Hi0; injection Hi0 as <-; exists g'; rewrite lookup_insert_eq; split; [done|by apply (Ho g); [apply (Ha i)|..]]
      |destruct (sd_kept _ _ _ (background_steady _ _ Hb) i g) as (g1 & Hi1 & Hk1); [done|done|]; exists g1; split; [done|by apply (Hk g)]]).
  destruct Hn as (g1 & Hi1 & HI1). by apply (IH Ha1 g1).
Qed.

(** ** The two calls *)

(** Inside [Start], and after it. *)
Definition start_phase (ns : list string) (g : Group) : Prop :=
  carries ns g /\
  match g.(owner) with
  | Idle => g.(started) = false -> g.(loops) = ∅
  | Stopping => False
  | _ => g.(started) = true
  end.


Lemma busy_static (g g' : Group) : owner_step g g' -> g.(owner) <> Idle ->
  g'.(batch) = g.(batch) /\ (forall f n, has_flag f g' n = has_flag f g n) /\ (forall n, is_Some (g.(jobs) !! n) -> is_Some (g'.(jobs) !! n)).
Proof.
  intros Hs Ho. destruct Hs as [g Hw Hs|g n todo Hw Hf|g n todo s Hw Hf|g n todo s t o Hw|g Hw|g Hw|g n todo Hw|g Hw|g c Hw Hs Hc'|g Hw Hlp|g Hw];
    try done; try (destruct (exec_end_frame Value n s t o g) as [f ->]); (split; [done|]; split; [|cbn; intros m; rewrite ?lookup_alter_is_Some; done]).
  - intros f m. by apply (on_stats_flag Value f).
  - intros h m. by apply (on_stats_flag Value h).
Qed.

Lemma busy_carries ns (g g' : Group) : owner_step g g' -> g.(owner) <> Idle -> carries ns g -> carries ns g'.
Proof.
  intros Hs Ho Hc n Hn. destruct (busy_static g g' Hs Ho) as (Hb & Hf & Hj). destruct (Hc n Hn) as (H1 & H2 & H3).
  split; [auto|]. split; [by rewrite Hb|by rewrite Hf].
Qed.

Lemma start_phase_busy ns g g' : reached g -> start_phase ns g -> g.(owner) <> Idle -> owner_step g g' -> start_phase ns g'.
Proof.
  intros Hr [Hc Hp] Ho Hs. split; [by eapply busy_carries|]. destruct (reached_ok g Hr) as [Hok Hg]. pose proof (gw_owner Value g Hg) as Hst.
  unfold owner_state in Hst.
  destruct Hs as [g Hw Hs|g n todo Hw Hf|g n todo s Hw Hf|g n todo s t o Hw|g Hw|g Hw|g n todo Hw|g Hw|g c Hw Hs Hc'|g Hw Hlp|g Hw];
    rewrite Hw in Hp, Hst; try done.
  - destruct (exec_end_frame Value n s t o g) as [f Hf]. cbn [owner]. rewrite Hf. by destruct (run_result Value o).2.
  - intros _. apply Hst.
  - cbn. intros Hf. cbn in Hf. congruence.
Qed.

Lemma start_phase_kept ns g g' : kept g g' -> start_phase ns g -> start_phase ns g'.
Proof.
  intros Hk [Hc Hp]. split; [by eapply kept_carries|]. rewrite (kp_owner _ _ Hk), (kp_started _ _ Hk).
  destruct (owner g); try done. intros Hs. by apply (kp_loops _ _ Hk), Hp.
Qed.

Lemma started_from_idle (g g1 : Group) : owner_step g g1 -> g.(owner) = Idle -> g.(started) = false ->
  exists todo, g1.(owner) = Starting todo /\ g1.(started) = true /\ g1.(jobs) = g.(jobs) /\ g1.(batch) = sorted_names Value g.
Proof. intros Hs Ho Hst. destruct Hs; try congruence. eexists. done. Qed.

Lemma start_call_spec ns i gs ok gs' g : start_call i gs ok gs' -> all_reached gs -> gs !! i = Some g -> g.(loops) = ∅ ->
  (forall n, n ∈ ns -> is_Some (g.(jobs) !! n) /\ has_flag RunAtStop g n = true) ->
  steady (Some i) gs gs' /\ exists g', gs' !! i = Some g' /\ g'.(owner) = Idle /\ g'.(started) = ok /\ carries ns g' /\
    (ok = false -> g'.(loops) = ∅).
Proof.
  intros [g0 g1 gs0 gs1 g2 Hi Ho Hst Hs Hd Hi2 Ho2] Ha Hi0 Hl Hns. rewrite Hi in Hi0. injection Hi0 as ->.
  assert (H1 : steady (Some i) gs0 (<[i := g1]> gs0)).
  { apply (steady_insert i _ g); [done| |by left]. intros Hr. apply (reached_step g); [done|by apply ws_owner|]. done. }
  assert (Hall : steady (Some i) gs0 gs1).
  { eapply steady_trans; [exact H1|]. by apply (steady_star _ (during i)); [apply during_steady|]. }
  split; [done|]. exists g2. split; [done|]. split; [done|]. split; [done|].
  destruct (started_from_idle g g1 Hs Ho Hst) as (todo & How & Hst1 & Hj & Hb).
  destruct (during_inv i (start_phase ns)) with (gs := <[i := g1]> gs0) (gs' := gs1) (g := g1) as (g2' & Hi2' & Hc & Hp).
  - intros a b Hr HI Hne. by apply start_phase_busy.
  - intros a b. by apply start_phase_kept.
  - done.
  - by apply H1.
  - by rewrite lookup_insert_eq.
  - split; [|by rewrite How]. intros n Hn. destruct (Hns n Hn) as [Hn1 Hn2]. rewrite Hj, Hb, sorted_names_spec. split; [done|].
    split; [done|]. unfold has_flag. by rewrite Hj.
  - rewrite Hi2 in Hi2'. injection Hi2' as <-. split; [done|]. by rewrite Ho2 in Hp.
Qed.

(** Inside [Shutdown]. *)
Definition stop_phase (ns : list string) (g : Group) : Prop := carries ns g /\ (g.(owner) = Stopping \/ g.(owner) = Idle) /\ g.(started) = false.

Lemma stop_phase_busy ns g g' : reached g -> stop_phase ns g -> g.(owner) <> Idle -> owner_step g g' -> stop_phase ns g'.
Proof.
  intros _ (Hc & Hp & Hst) Ho Hs. split; [by eapply busy_carries|]. destruct Hp as [Hp|Hp]; [|done].
  destruct Hs; try congruence; cbn; auto.
Qed.

Lemma stop_phase_kept ns g g' : kept g g' -> stop_phase ns g -> stop_phase ns g'.
Proof. intros Hk (Hc & Hp & Hst). split; [by eapply kept_carries|]. by rewrite (kp_owner _ _ Hk), (kp_started _ _ Hk). Qed.

(** The jobs [ns] have run to their end since their group was told to stop, and no goroutine is left. *)
Definition finished (ns : list string) (g : Group) : Prop := quiet g /\ forall n, n ∈ ns -> drained n g.(log).

Lemma kept_finished ns g g' : kept g g' -> finished ns g -> finished ns g'.
Proof.
  intros Hk [Hq Hd]. split; [by eapply kept_quiet|]. intros n Hn. destruct Hq as (_ & _ & Hl).
  destruct (kp_loops _ _ Hk Hl) as [_ Hlog]. rewrite Hlog. by apply Hd.
Qed.

Lemma stopping_from_idle (g g1 : Group) : owner_step g g1 -> g.(owner) = Idle -> g.(started) = true ->
  g1.(owner) = Stopping /\ g1.(started) = false /\ g1.(jobs) = g.(jobs) /\ g1.(batch) = g.(batch).
Proof. intros Hs Ho Hst. destruct Hs; congruence || done. Qed.

Lemma idle_from_stopping (g g1 : Group) ok : owner_step g g1 -> g.(owner) = Stopping -> g1.(log) = ShutdownReturned ok :: g.(log) ->
  g1.(owner) = Idle /\ g1.(batch) = g.(batch) /\ g1.(started) = g.(started).
Proof. intros Hs Ho Hl. destruct Hs; congruence || done. Qed.

Lemma shutdown_call_spec ns i gs ok gs' g : shutdown_call i gs ok gs' -> all_reached gs -> gs !! i = Some g -> g.(owner) = Idle ->
  steady (Some i) gs gs' /\ exists g', gs' !! i = Some g' /\ g'.(owner) = Idle /\ g'.(started) = false /\
    (ok = true -> g.(started) = true -> carries ns g -> finished ns g') /\ (g.(started) = false -> g' = g /\ ok = true).
Proof.
  intros Hsh Ha Hi Ho. destruct Hsh as [g0 gs Hi0 Hst|g0 g1 gs gs1 g2 g3 ok Hi0 Ho0 Hst Hs Hd Hi2 Ho2 Hs3 Hl]; rewrite Hi in Hi0; injection Hi0 as <-.
  { split; [apply steady_refl|]. exists g. split; [done|]. split; [done|]. split; [done|]. split; [congruence|done]. }
  assert (H1 : steady (Some i) gs (<[i := g1]> gs)).
  { apply (steady_insert i _ g); [done| |by left]. intros Hr. apply (reached_step g); [done|by apply ws_owner|]. congruence. }
  assert (Hall : steady (Some i) gs gs1).
  { eapply steady_trans; [exact H1|]. by apply (steady_star _ (during i)); [apply during_steady|]. }
  pose proof (stopping_from_idle g g1 Hs Ho0 Hst) as Hg1.
  destruct Hg1 as (Ho1 & Hst1 & Hj1 & Hb1).
  assert (Hr2 : reached g2) by (by apply (sd_reached _ _ _ Hall Ha i)).
  pose proof (idle_from_stopping g2 g3 ok Hs3 Ho2 Hl) as Ho3.
  destruct Ho3 as (Ho3 & Hb3 & Hst3).
  assert (Hph : forall ks, carries ks g -> stop_phase ks g2).
  { intros ks Hc. destruct (during_inv i (stop_phase ks)) with (gs := <[i := g1]> gs) (gs' := gs1) (g := g1) as (g2' & Hi2' & HI).
    - intros a b Hr HI Hne. by apply stop_phase_busy.
    - intros a b. by apply stop_phase_kept.
    - done.
    - by apply H1.
    - by rewrite lookup_insert_eq.
    - split; [|auto]. intros n Hn. destruct (Hc n Hn) as (? & ? & ?). unfold has_flag. by rewrite Hj1, Hb1.
    - by rewrite Hi2 in Hi2'; injection Hi2' as <-. }
  split.
  - eapply steady_trans; [exact Hall|]. apply (steady_insert i _ g2); [done| |by left]. intros _.
    apply (reached_step g2); [done|by apply ws_owner|congruence].
  - exists g3. rewrite lookup_insert_eq. split; [done|]. split; [done|]. split; [rewrite Hst3; by apply (Hph []); intros n Hn%elem_of_nil|]. split; [|congruence].
    intros -> _ Hc. destruct (reached_ok g2 Hr2) as [Hok Hg].
    destruct (stopped_drained Value g2 g3 Hok Hg (ws_owner Value _ _ Hs3) Hl) as [He Hdr]. destruct (Hph ns Hc) as (Hc2 & _ & Hst2).
    split; [split; [done|]; split; [congruence|done]|]. intros n Hn. destruct (Hc2 n Hn) as (_ & Hnb & Hf).
    rewrite <- Hb3 in Hnb. destruct (Hdr n Hnb Hf) as (s & t & r & Hsub). exists s, t, r. rewrite Hl. by apply sublist_cons.
Qed.

(** ** The gateway's state *)

Definition stop_jobs (c : Component) : list string :=
  match c with CatalogJobs => [] | GovernanceJobs => ["usage_flush"; "budget_flush_roll"] | MetricsJobs => ["events_flush"] end.

Definition active (c : Component) (s : Gw) : Prop := match c with MetricsJobs => s.(metrics_set) = true | _ => True end.

(** The jobs of the component run; they have all ended, those that flush having run a last time. *)
Definition up (c : Component) (s : Gw) : Prop :=
  exists i g, workers c s = Some i /\ s.(groups) !! i = Some g /\ g.(started) = true /\ carries (stop_jobs c) g.
Definition finished_work (c : Component) (s : Gw) : Prop :=
  exists i g, workers c s = Some i /\ s.(groups) !! i = Some g /\ finished (stop_jobs c) g.

(** All groups are quiet but those in [P]. *)
Definition quiet_but (P : nat -> Prop) (s : Gw) : Prop := forall i g, s.(groups) !! i = Some g -> P i \/ quiet g.

Record gw_wf (s : Gw) : Prop := mkGwWf {
  wf_reached : all_reached s.(groups);
  wf_idle i g : s.(groups) !! i = Some g -> (i < s.(fresh_group))%nat /\ g.(owner) = Idle;
  wf_workers c i : workers c s = Some i -> is_Some (s.(groups) !! i);
  wf_distinct c d i : workers c s = Some i -> workers d s = Some i -> c = d
}.

(** A server that goes on, or stops serving. *)
Definition server_goes (o o' : option HttpServer) : Prop :=
  match o, o' with
  | None, None => True
  | Some v, Some v' => v'.(startOnce) = v.(startOnce) /\ v'.(httpServer) = v.(httpServer) /\ (v'.(serving) = true -> v.(serving) = true)
  | _, _ => False
  end.

Lemma server_goes_refl o : server_goes o o.
Proof. destruct o; cbn; auto. Qed.

(** The rest of the gateway. *)
Record same_base (s s' : Gw) : Prop := mkSameBase {
  sb_cfg : s'.(gwcfg) = s.(gwcfg);
  sb_source : s'.(source) = s.(source);
  sb_metrics : s'.(metrics_set) = s.(metrics_set);
  sb_running : s'.(isRunning) = s.(isRunning);
  sb_closes : s'.(closes) = s.(closes);
  sb_mcloses : s'.(metrics_closes) = s.(metrics_closes);
  sb_server : server_goes s.(server) s'.(server)
}.

Lemma same_base_refl s : same_base s s.
Proof. constructor; try done. apply server_goes_refl. Qed.
Lemma same_base_trans a b c : same_base a b -> same_base b c -> same_base a c.
Proof.
  intros [H1 H2 H3 H4 H5 H6 H7] [G1 G2 G3 G4 G5 G6 G7]. constructor; try congruence. clear - H7 G7. unfold server_goes in *.
  destruct (server a), (server b), (server c); try done. destruct H7 as (? & ? & ?), G7 as (? & ? & ?). split; [congruence|]. split; [congruence|auto].
Qed.

(** The jobs go on while the gateway does nothing, or is in a call on group [o]. *)
Record goes (o : option nat) (s s' : Gw) : Prop := mkGoes {
  gs_base : same_base s s';
  gs_workers c : workers c s' = workers c s;
  gs_fresh : s'.(fresh_group) = s.(fresh_group);
  gs_groups : steady o s.(groups) s'.(groups)
}.

Lemma goes_refl o s : goes o s s.
Proof. constructor; [apply same_base_refl|done|done|apply steady_refl]. Qed.
Lemma goes_trans o a b c : goes o a b -> goes o b c -> goes o a c.
Proof.
  intros [H1 H2 H3 H4] [G1 G2 G3 G4]. constructor; [by eapply same_base_trans|intros d; by rewrite G2|congruence|by eapply steady_trans].
Qed.
Lemma goes_weaken o s s' : goes None s s' -> goes o s s'.
Proof. intros [H1 H2 H3 H4]. constructor; try done. by apply steady_weaken. Qed.

Lemma gw_background_goes s s' : gw_background s s' -> goes None s s'.
Proof.
  intros [s0 gs Hb|s0 v Hv _]; (apply mkGoes; [|by intros []|done|]).
  - constructor; try done. apply server_goes_refl.
  - by apply background_steady.
  - constructor; try done. cbn. rewrite Hv. by split; [|split].
  - apply steady_refl.
Qed.
Lemma gw_backgrounds_go s s' : star gw_background s s' -> goes None s s'.
Proof. induction 1; [apply goes_refl|]. eapply goes_trans; [by apply gw_background_goes|done]. Qed.

Lemma goes_wf o s s' : gw_wf s -> goes o s s' ->
  (forall i, o = Some i -> forall g, s'.(groups) !! i = Some g -> g.(owner) = Idle) -> gw_wf s'.
Proof.
  intros [Ha Hi Hw Hd] [_ Hgw Hf Hg] Hidle. constructor.
  - by apply (sd_reached _ _ _ Hg).
  - intros i g Hl. destruct (proj2 (sd_dom _ _ _ Hg i) (ex_intro _ g Hl)) as [g0 Hl0]. rewrite Hf. split; [by eapply Hi|].
    destruct (decide (o = Some i)) as [->|Hne]; [by eapply Hidle|]. destruct (sd_kept _ _ _ Hg i g0 Hne Hl0) as (g1 & Hl1 & Hk).
    rewrite Hl in Hl1. injection Hl1 as <-. rewrite (kp_owner _ _ Hk). by eapply Hi.
  - intros c i. rewrite Hgw. intros Hc. apply (sd_dom _ _ _ Hg). by eapply Hw.
  - intros c d i. rewrite !Hgw. apply Hd.
Qed.

Lemma goes_wf_none s s' : gw_wf s -> goes None s s' -> gw_wf s'.
Proof. intros Hw Hg. by apply (goes_wf None s). Qed.

Lemma goes_up o c s s' : goes o s s' -> (forall i, workers c s = Some i -> o <> Some i) -> up c s -> up c s'.
Proof.
  intros [_ Hgw _ Hg] Ho (i & g & Hw & Hl & Hs & Hc). destruct (sd_kept _ _ _ Hg i g (Ho i Hw) Hl) as (g' & Hl' & Hk).
  exists i, g'. rewrite Hgw, (kp_started _ _ Hk). split; [done|]. split; [done|]. split; [done|by eapply kept_carries].
Qed.

Lemma goes_finished o c s s' : goes o s s' -> (forall i, workers c s = Some i -> o <> Some i) -> finished_work c s -> finished_work c s'.
Proof.
  intros [_ Hgw _ Hg] Ho (i & g & Hw & Hl & Hf). destruct (sd_kept _ _ _ Hg i g (Ho i Hw) Hl) as (g' & Hl' & Hk).
  exists i, g'. rewrite Hgw. split; [done|]. split; [done|by eapply kept_finished].
Qed.

Lemma goes_quiet o (P : nat -> Prop) s s' : goes o s s' -> (forall i, o = Some i -> P i) -> quiet_but P s -> quiet_but P s'.
Proof.
  intros [_ _ _ Hg] Ho Hq i g Hl. destruct (proj2 (sd_dom _ _ _ Hg i) (ex_intro _ g Hl)) as [g0 Hl0].
  destruct (decide (o = Some i)) as [He|Hne]; [left; by apply Ho|]. destruct (sd_kept _ _ _ Hg i g0 Hne Hl0) as (g1 & Hl1 & Hk).
  rewrite Hl in Hl1. injection Hl1 as <-. destruct (Hq i g0 Hl0) as [?|Hq0]; [by left|right; by eapply kept_quiet].
Qed.

(** ** A component that starts *)

Definition provides (c : Component) (js : list (option Job)) : Prop :=
  forall n, n ∈ stop_jobs c -> exists j, In (Some j) js /\ j.(JobName) = n /\ j.(RunAtStop) = true.

Lemma new_reached js : reached (Add js NewGroup).2.
Proof. eapply star_step; [split; [apply ws_caller, ws_add|]|apply star_refl]. intros _. cbn. done. Qed.

Lemma new_quiet js : quiet (Add js NewGroup).2.
Proof.
  destruct (Add_ok Value js NewGroup) as (_ & _ & Heq); [apply (reached_ok NewGroup), star_refl|].
  unfold quiet. rewrite Heq. done.
Qed.

Lemma add_job_has (g g' : Group) j : add_job Value g (Some j) = Ok g' -> g'.(jobs) !! j.(JobName) = Some (mkJobState Value j (JobStats0 Value <| Name Value := j.(JobName) |> <| Worker.Interval Value := j.(JobInterval) |>) false).
Proof.
  unfold add_job. destruct (validate (Some j)) as [j'|e] eqn:Hv; cbn [mbind result_bind]; [|done].
  assert (j' = j) as -> by (unfold validate in Hv; repeat case_match; congruence).
  destruct (jobs g !! JobName j); [done|]. intros [= <-]. cbn. by rewrite lookup_insert_eq.
Qed.

Lemma add_jobs_has js (g g' : Group) j : jobs_ok Value g -> add_jobs js g = (Ok tt, g') -> In (Some j) js ->
  exists js', g'.(jobs) !! j.(JobName) = Some js' /\ js'.(job Value) = j.
Proof.
  revert g. induction js as [|o js IH]; intros g Hok Hadd Hin; [done|]. cbn in Hadd.
  destruct (add_job Value g o) as [g1|e] eqn:Ho; [|done]. destruct (add_job_ok Value g o g1 Ho Hok) as (Hok1 & _ & _).
  destruct Hin as [->|Hin]; [|by apply (IH g1)].
  destruct (add_jobs_ok Value js g1 Hok1) as (_ & Hsub & _). rewrite Hadd in Hsub. cbn in Hsub.
  eexists. split; [by apply (lookup_weaken _ _ _ _ (add_job_has _ _ _ Ho))|done].
Qed.

Lemma added c js (g : Group) : Add js NewGroup = (Ok tt, g) -> provides c js ->
  forall n, n ∈ stop_jobs c -> is_Some (g.(jobs) !! n) /\ has_flag RunAtStop g n = true.
Proof.
  intros Hadd Hp n Hn. destruct (Hp n Hn) as (j & Hin & <- & Hf).
  destruct (add_jobs_has js NewGroup g j) as (k & Hk & Hj); [apply (reached_ok NewGroup), star_refl|exact Hadd|done|].
  split; [eauto|]. unfold has_flag. by rewrite Hk, Hj.
Qed.

Lemma with_group_workers c g s d : workers d (with_group c g s) = if decide (d = c) then Some s.(fresh_group) else workers d s.
Proof. by destruct c, d. Qed.

(** What holds while the gateway starts: the components in [D] are up, and nothing else runs if
    nothing ran before. *)
Record starting (tidy : Prop) (D : list Component) (s : Gw) : Prop := mkStarting {
  sg_wf : gw_wf s;
  sg_up d : d ∈ D -> up d s;
  sg_quiet : tidy -> quiet_but (fun i => exists d, d ∈ D /\ workers d s = Some i) s
}.

Lemma starting_goes tidy D s s' : goes None s s' -> starting tidy D s -> starting tidy D s'.
Proof.
  intros Hg [Hw Hu Hq]. constructor; [by eapply goes_wf_none|intros d Hd; by apply (goes_up None d s); [|done|apply Hu]|].
  intros Ht. pose proof (goes_quiet None _ s s' Hg ltac:(done) (Hq Ht)) as Hq'. intros i g Hi. destruct (Hq' i g Hi) as [(d & Hd & Hwk)|]; [|by right].
  left. exists d. by rewrite (gs_workers _ _ _ Hg).
Qed.

(** The new group, before it starts. *)
Lemma starting_new tidy D c js s : starting tidy D s -> c ∉ D ->
  let s1 := with_group c (Add js NewGroup).2 s in
  starting tidy D s1 /\ same_base s s1 /\ s1.(groups) !! s.(fresh_group) = Some (Add js NewGroup).2 /\ workers c s1 = Some s.(fresh_group).
Proof.
  intros [[Ha Hi Hw Hd] Hu Hq] Hc. cbn zeta. set (g := (Add js NewGroup).2).
  assert (Hg : (with_group c g s).(groups) = <[s.(fresh_group) := g]> s.(groups)) by (by destruct c).
  assert (Hf : (with_group c g s).(fresh_group) = S s.(fresh_group)) by (by destruct c).
  assert (Hnone : s.(groups) !! s.(fresh_group) = None).
  { destruct (groups s !! fresh_group s) as [h|] eqn:Hx; [|done]. destruct (Hi _ _ Hx). lia. }
  assert (Hne : forall d i, workers d s = Some i -> i <> s.(fresh_group)).
  { intros d i Hdi ->. destruct (Hw d _ Hdi) as [h Hh]. by rewrite Hnone in Hh. }
  split; [|split; [destruct c; (constructor; try done; apply server_goes_refl)|]]; [|split; [by rewrite Hg, lookup_insert_eq|rewrite with_group_workers; by destruct (decide (c = c))]].
  constructor.
  - constructor.
    + intros i h. rewrite Hg. destruct (decide (i = s.(fresh_group))) as [->|Hn]; [rewrite lookup_insert_eq|rewrite lookup_insert_ne by done; apply Ha].
      intros [= <-]. apply new_reached.
    + intros i h. rewrite Hg, Hf. destruct (decide (i = s.(fresh_group))) as [->|Hn]; [rewrite lookup_insert_eq|rewrite lookup_insert_ne by done].
      * intros [= <-]. split; [lia|]. apply new_quiet.
      * intros Hl. destruct (Hi i h Hl). split; [lia|done].
    + intros d i. rewrite with_group_workers, Hg. destruct (decide (d = c)) as [->|Hn]; [intros [= <-]; rewrite lookup_insert_eq; eauto|].
      intros Hl. rewrite lookup_insert_ne by (apply not_eq_sym; eauto). by eapply Hw.
    + intros d e i. rewrite !with_group_workers. destruct (decide (d = c)) as [->|Hn1], (decide (e = c)) as [->|Hn2]; try done.
      * intros [= <-] Hx. by destruct (Hne _ _ Hx).
      * intros Hx [= <-]. by destruct (Hne _ _ Hx).
      * apply Hd.
  - intros d Hdd. destruct (Hu d Hdd) as (i & h & Hwk & Hl & Hr). exists i, h. rewrite with_group_workers.
    destruct (decide (d = c)) as [->|_]; [done|]. split; [done|]. split; [|done]. rewrite Hg. rewrite lookup_insert_ne; [done|apply not_eq_sym; eauto].
  - intros Ht i h. rewrite Hg. destruct (decide (i = s.(fresh_group))) as [->|Hn].
    + rewrite lookup_insert_eq. intros [= <-]. right. apply new_quiet.
    + rewrite lookup_insert_ne by done. intros Hl. destruct (Hq Ht i h Hl) as [(d & Hdd & Hwk)|]; [left|by right].
      exists d. split; [done|]. rewrite with_group_workers. by destruct (decide (d = c)) as [->|_].
Qed.

Lemma start_group_starting tidy D c js s r s' : starting tidy D s -> c ∉ D -> provides c js -> start_group c js s r s' ->
  same_base s s' /\ starting tidy (if is_ok r then c :: D else D) s' /\ (forall d, d <> c -> workers d s' = workers d s).
Proof.
  intros Hst Hc Hp Hsg. destruct Hsg as [s e g Hadd|s g gs ok s' Hadd Hcall Hbg].
  - destruct (starting_new tidy D c js s Hst Hc) as (H1 & H2 & _ & _). rewrite Hadd in H1, H2. cbn in H1, H2. split; [done|]. split; [done|].
    intros d Hd. rewrite with_group_workers. by destruct (decide (d = c)).
  - destruct (starting_new tidy D c js s Hst Hc) as (H1 & H2 & Hl & Hwc). rewrite Hadd in H1, H2, Hl, Hwc. cbn [snd] in H1, H2, Hl, Hwc.
    set (s1 := with_group c g s) in *. pose proof (gw_backgrounds_go _ _ Hbg) as Hgo.
    pose proof (new_quiet js) as Hgq. rewrite Hadd in Hgq.
    destruct (start_call_spec (stop_jobs c) _ _ _ _ g Hcall (wf_reached _ (sg_wf _ _ _ H1)) Hl) as (Hsd & g2 & Hl2 & Ho2 & Hs2 & Hca2 & Hq2);
      [apply Hgq|by eapply added|].
    assert (Hgm : goes (Some s.(fresh_group)) s1 (s1 <| groups := gs |>)) by (constructor; [constructor; try done; apply server_goes_refl|done|done|done]).
    assert (Hne : forall d i, d ∈ D -> workers d s1 = Some i -> Some s.(fresh_group) <> Some i).
    { intros d i Hd Hwd [= <-]. apply Hc. by rewrite (wf_distinct _ (sg_wf _ _ _ H1) c d _ Hwc Hwd). }
    split; [|split].
    + eapply same_base_trans; [exact H2|]. eapply same_base_trans; [apply (gs_base _ _ _ Hgm)|apply (gs_base _ _ _ Hgo)].
    + apply (starting_goes tidy _ (s1 <| groups := gs |>)); [done|]. constructor.
      * apply (goes_wf _ s1 _ (sg_wf _ _ _ H1) Hgm). intros i [= <-] h. cbn. rewrite Hl2. by intros [= <-].
      * intros d Hd. assert (Hd' : d = c /\ ok = true \/ d ∈ D) by (destruct ok; cbn in Hd; [apply elem_of_cons in Hd; naive_solver|by right]).
        destruct Hd' as [[-> ->]|Hd']; [|apply (goes_up _ d s1 _ Hgm); [intros i; by apply Hne|by apply (sg_up _ _ _ H1)]].
        exists s.(fresh_group), g2. done.
      * intros Ht i h Hi. destruct (decide (i = s.(fresh_group))) as [->|Hn].
        -- cbn in Hi. rewrite Hl2 in Hi. injection Hi as <-. destruct ok; [left; exists c; split; [apply elem_of_cons; by left|exact Hwc]|].
           right. split; [done|]. split; [done|]. by apply Hq2.
        -- destruct (goes_quiet _ (fun i => i = s.(fresh_group) \/ exists d, d ∈ D /\ workers d s1 = Some i) s1 _ Hgm) with (i := i) (g := h) as [[?|(d & Hd & Hwd)]|]; try done.
           ++ intros j [= <-]. by left.
           ++ intros j k Hj. destruct (sg_quiet _ _ _ H1 Ht j k Hj); [left; by right|by right].
           ++ left. exists d. split; [|exact Hwd]. destruct ok; cbn; [apply elem_of_cons; by right|done].
           ++ by right.
    + intros d Hd. rewrite (gs_workers _ _ _ Hgo). change (workers d s1 = workers d s). unfold s1. rewrite with_group_workers. by destruct (decide (d = c)).
Qed.

Lemma catalog_provides cfg b : provides CatalogJobs (catalog_jobs cfg b).
Proof. intros n Hn%elem_of_nil. done. Qed.
Lemma governance_provides : provides GovernanceJobs governance_jobs.
Proof.
  intros n Hn. apply elem_of_cons in Hn as [->|Hn%list_elem_of_singleton].
  - exists (mkJob "usage_flush" (10 * Second) false true true). cbn. auto.
  - subst. exists (mkJob "budget_flush_roll" (10 * Second) false true true). cbn. auto 6.
Qed.
Lemma metrics_provides cfg : provides MetricsJobs (metrics_jobs cfg).
Proof. intros n Hn%list_elem_of_singleton. subst. exists (mkJob "events_flush" cfg.(FlushInterval) false true true). cbn. auto. Qed.

(** No group runs but those of the components of a running gateway. *)
Definition tidy (s : Gw) : Prop :=
  quiet_but (fun i => s.(isRunning) = true /\ exists c, active c s /\ workers c s = Some i) s.

Record gw_ok (s : Gw) : Prop := mkGwOk {
  ok_wf : gw_wf s;
  ok_running : s.(isRunning) = true ->
    s.(source) = true /\ is_Some s.(server) /\ is_Some s.(gwcfg) /\ forall c, active c s -> up c s;
  ok_serving v : s.(server) = Some v -> v.(serving) = true -> s.(isRunning) = true /\ v.(httpServer) = true;
  ok_closes : (s.(closes) + Nat.b2n s.(source) <= 1)%nat;
  ok_metrics : (s.(metrics_closes) + Nat.b2n s.(metrics_set) <= 1)%nat
}.

(** ** Start *)

(** The results of a start after which no job runs unless the gateway does. *)
Definition leaves_nothing (r : result GwError ()) : bool :=
  match r with
  | Err (JobFailedAtStart c) | Err (JobRefused c _) => bool_decide (c = CatalogJobs)
  | Err (HttpFailed _) => false
  | _ => true
  end.

(** The jobs of the components after a start that did not succeed. *)
Definition leftover (r : result GwError ()) (c : Component) : Prop :=
  match r with
  | Err (JobFailedAtStart d) | Err (JobRefused d _) =>
      match d with CatalogJobs => False | GovernanceJobs => c = CatalogJobs | MetricsJobs => c <> MetricsJobs end
  | Err (HttpFailed _) => True
  | _ => False
  end.

Lemma server_startable v routes listen err v' : server_Start routes listen v = (err, v') -> v.(serving) = true \/ v.(serving) = false ->
  v'.(startOnce) = true /\ (v'.(serving) = true -> v.(serving) = true \/ (err = None /\ v'.(httpServer) = true)).
Proof.
  unfold server_Start. intros Hs _. destruct (startOnce v) eqn:Ho; [injection Hs as <- <-; auto|].
  destruct routes; [injection Hs as <- <-; cbn; auto|]. destruct listen; injection Hs as <- <-; cbn; auto.
Qed.

Lemma start_http_starting t D s r s' : starting t D s -> start_http s r s' ->
  starting t D s' /\ (forall c, workers c s' = workers c s) /\ (r = Ok tt \/ exists e, r = Err (HttpFailed e)) /\
  s'.(isRunning) = s.(isRunning) /\ s'.(source) = s.(source) /\ s'.(metrics_set) = s.(metrics_set) /\ s'.(gwcfg) = s.(gwcfg) /\
  s'.(closes) = s.(closes) /\ s'.(metrics_closes) = s.(metrics_closes) /\
  exists v v', s.(server) = Some v /\ s'.(server) = Some v' /\
    (v'.(serving) = true -> v.(serving) = true \/ (r = Ok tt /\ v'.(httpServer) = true)).
Proof.
  intros [[H1 H2 H3 H4] Hu Hq] Hs. destruct Hs as [s v routes listen err v' Hv Hst].
  split; [constructor; [constructor|..]; done|]. split; [done|]. split; [destruct err; eauto|]. do 6 (split; [done|]). exists v, v'.
  split; [done|]. split; [done|]. destruct (server_startable v routes listen err v' Hst) as [_ Hx]; [destruct (serving v); auto|].
  intros Hsv. destruct (Hx Hsv) as [|[-> ?]]; auto.
Qed.

Lemma start_metrics_starting t D cfg s r s' : starting t D s -> MetricsJobs ∉ D ->
  (if s.(metrics_set) then start_group MetricsJobs (metrics_jobs cfg) else nop) s r s' ->
  same_base s s' /\ starting t (if is_ok r && s.(metrics_set) then MetricsJobs :: D else D) s' /\ (forall d, d <> MetricsJobs -> workers d s' = workers d s).
Proof.
  intros Hst Hd Hs. destruct (metrics_set s); rewrite ?andb_true_r, ?andb_false_r.
  - by apply (start_group_starting t D MetricsJobs (metrics_jobs cfg)); [..|apply metrics_provides|].
  - destruct Hs as [-> ->]. split; [apply same_base_refl|done].
Qed.

(** Before the server is started: the components in [D] are up, the rest is as it was. *)
Record stage (s : Gw) (D : list Component) (sx : Gw) : Prop := mkStage {
  st_base : same_base s sx;
  st_starting : starting (tidy s) D sx
}.

Lemma stage_group s D sx c js r s' : stage s D sx -> c ∉ D -> provides c js -> start_group c js sx r s' ->
  stage s (if is_ok r then c :: D else D) s'.
Proof.
  intros [Hb Hs] Hc Hp Hg. destruct (start_group_starting _ D c js sx r s' Hs Hc Hp Hg) as (Hb' & Hs' & _).
  constructor; [by eapply same_base_trans|done].
Qed.

Lemma stage_catalog s sx cfg r s' : stage s [] sx -> start_catalog cfg sx r s' -> stage s (if is_ok r then [CatalogJobs] else []) s' /\
  (is_ok r = true -> s.(source) = true).
Proof.
  intros Hst Hs. destruct Hs as [sx msg|sx b r s' Hsrc Hg]; [done|]. split; [|intros _; by rewrite <- (sb_source _ _ (st_base _ _ _ Hst))].
  eapply (stage_group s [] sx CatalogJobs); [done|set_solver|apply catalog_provides|exact Hg].
Qed.

Lemma stage_metrics s D sx cfg r s' : stage s D sx -> MetricsJobs ∉ D ->
  (if s.(metrics_set) then start_group MetricsJobs (metrics_jobs cfg) else nop) sx r s' ->
  stage s (if is_ok r && s.(metrics_set) then MetricsJobs :: D else D) s'.
Proof.
  intros Hst Hd Hs. destruct (metrics_set s); rewrite ?andb_true_r, ?andb_false_r.
  - by apply (stage_group s D sx MetricsJobs (metrics_jobs cfg)); [..|apply metrics_provides|].
  - by destruct Hs as [-> ->].
Qed.

Lemma stage_begin s : gw_ok s -> s.(isRunning) = false -> stage s [] (s <| cancelWork := true |>).
Proof.
  intros Hok Hr. constructor; [constructor; try done; apply server_goes_refl|]. destruct (ok_wf s Hok).
  constructor; [by constructor|by intros d Hd%elem_of_nil|]. intros Ht i g Hi. destruct (Ht i g Hi) as [[Hx _]|]; [congruence|by right].
Qed.

(** A start that stops in a stage. *)
Lemma stage_ok s D s' : gw_ok s -> s.(isRunning) = false -> stage s D s' -> gw_ok s' /\ s'.(isRunning) = false /\ (D = [] -> tidy s -> tidy s').
Proof.
  intros [Hwf _ Hserv Hc Hm] Hr [[B1 B2 B3 B4 B5 B6 B7] [Hw Hu Hq]]. split; [|split; [by rewrite B4|]].
  - constructor; [done|by rewrite B4, Hr| |by rewrite B5, B2|by rewrite B6, B3]. intros v' Hv' Hs. rewrite Hv' in B7.
    destruct (server s) as [v|] eqn:Hv; [|done]. destruct B7 as (_ & _ & Hx). destruct (Hserv v eq_refl (Hx Hs)). congruence.
  - intros -> Ht i g Hi. destruct (Hq Ht i g Hi) as [(d & Hd%elem_of_nil & _)|]; [done|by right].
Qed.

(** How a start can go: refused, or given up after the components in [D], or through. *)
Inductive start_case (s : Gw) : result GwError () -> Gw -> Prop :=
| case_running : s.(isRunning) = true -> start_case s (Err AlreadyRunning) s
| case_uninitialized : s.(isRunning) = false -> start_case s (Err NotInitialized) s
| case_jobs D e s' : s.(isRunning) = false -> stage s D s' -> (leaves_nothing (Err e) = true -> D = []) ->
    (forall c, leftover (Err e) c -> active c s -> c ∈ D) -> start_case s (Err e) s'
| case_http D r s1 s2 s' : s.(isRunning) = false -> s.(source) = true -> is_Some s.(gwcfg) -> stage s D s1 ->
    (forall c, c ∈ D <-> active c s) -> start_http s1 r s2 -> s' = (if is_ok r then s2 <| isRunning := true |> else s2) -> start_case s r s'.

Lemma Gw_Start_case s r s' : gw_ok s -> Gw_Start s r s' -> start_case s r s'.
Proof.
  intros Hok Hs. unfold Gw_Start in Hs. destruct (isRunning s) eqn:Hr; [destruct Hs as [-> ->]; by constructor|].
  destruct (server s) as [v|] eqn:Hv; [|destruct Hs as [-> ->]; by constructor].
  destruct (gwcfg s) as [cfg|] eqn:Hcfg; [|destruct Hs as [-> ->]; by constructor].
  pose proof (stage_begin s Hok Hr) as H0. set (s0 := s <| cancelWork := true |>) in *.
  destruct Hs as [(e & -> & Hs)|(s1 & H1 & Hs)].
  { destruct (stage_catalog s s0 cfg _ _ H0 Hs) as [Hst _]. apply (case_jobs s [] e); [done|done|done|].
    destruct Hs as [? ?|? ? ? ? _ Hg]; [done|]. inversion Hg as [|? ? ? ok]; subst; [done|]. by destruct ok; simplify_eq. }
  destruct (stage_catalog s s0 cfg _ _ H0 H1) as [Hst1 Hsrc]. cbn [is_ok] in Hst1.
  assert (Hg : GovernanceJobs ∉ [CatalogJobs]) by set_solver.
  destruct Hs as [(e & -> & Hs)|(s2 & H2 & Hs)].
  { apply (case_jobs s [CatalogJobs] e); [done|by apply (stage_group s [CatalogJobs] s1 GovernanceJobs _ _ _ Hst1 Hg governance_provides Hs)| |];
      (inversion Hs as [|? ? ? ok]; subst; [|destruct ok; simplify_eq]); try done; cbn; set_solver. }
  pose proof (stage_group s [CatalogJobs] s1 GovernanceJobs _ _ _ Hst1 Hg governance_provides H2) as Hst2. cbn [is_ok] in Hst2.
  assert (Hm : MetricsJobs ∉ [GovernanceJobs; CatalogJobs]) by set_solver. change (metrics_set s0) with (metrics_set s) in Hs.
  destruct Hs as [(e & -> & Hs)|(s3 & H3 & Hs)].
  { apply (case_jobs s [GovernanceJobs; CatalogJobs] e); [done|by apply (stage_metrics s _ s2 cfg _ _ Hst2 Hm Hs)| |];
      (destruct (metrics_set s); [|by destruct Hs]); (inversion Hs as [|? ? ? ok]; subst; [|destruct ok; simplify_eq]); try done;
      cbn; intros [] ? _; try done; set_solver. }
  pose proof (stage_metrics s _ s2 cfg _ _ Hst2 Hm H3) as Hst3. cbn [is_ok andb] in Hst3.
  assert (HD : forall c, c ∈ (if metrics_set s then [MetricsJobs; GovernanceJobs; CatalogJobs] else [GovernanceJobs; CatalogJobs]) <-> active c s).
  { intros c. destruct c, (metrics_set s) eqn:Hms; cbn; rewrite ?Hms; set_solver. }
  specialize (Hsrc eq_refl). assert (Hc : is_Some (gwcfg s)) by (by rewrite Hcfg).
  destruct Hs as [(e & -> & Hs)|(s4 & H4 & -> & ->)].
  - by apply (case_http s _ (Err e) s3 s' s' Hr Hsrc Hc Hst3 HD Hs).
  - by apply (case_http s _ (Ok tt) s3 s4 _ Hr Hsrc Hc Hst3 HD H4).
Qed.

Lemma Gw_Start_ok s r s' : gw_ok s -> Gw_Start s r s' ->
  gw_ok s' /\ s'.(isRunning) = is_ok r || s.(isRunning) /\ (leaves_nothing r = true -> tidy s -> tidy s') /\
  (s.(isRunning) = false -> forall c, leftover r c -> active c s -> up c s').
Proof.
  intros Hok Hs. destruct (Gw_Start_case s r s' Hok Hs) as [Hr|Hr|D e s' Hr Hst Hl Hlo|D r s1 s2 s' Hr Hsrc Hcfg Hst HD Hh ->].
  - rewrite Hr. done.
  - rewrite Hr. done.
  - destruct (stage_ok s D s' Hok Hr Hst) as (Hok' & Hr' & Ht). rewrite Hr, Hr'. split; [done|]. split; [done|].
    split; [intros Hx; apply Ht; by apply Hl|]. intros _ c Hc Ha. apply (sg_up _ _ _ (st_starting _ _ _ Hst)). by apply Hlo.
  - destruct Hst as [[B1 B2 B3 B4 B5 B6 B7] Hst].
    destruct (start_http_starting _ _ _ _ _ Hst Hh) as ([Hw Hu Hq] & Hwk & Hcase & C1 & C2 & C3 & C4 & C5 & C6 & v & v' & Hv & Hv' & Hsv).
    assert (Hv0 : forall w, s1.(server) = Some w -> w.(serving) = true -> False).
    { intros w Hw1 Hsw. rewrite Hw1 in B7. destruct (server s) as [u|] eqn:Hus; [|done]. destruct B7 as (_ & _ & Hx).
      destruct (ok_serving s Hok u Hus (Hx Hsw)). congruence. }
    assert (Hact : forall c, active c s2 <-> active c s) by (intros []; cbn; rewrite ?C3, ?B3; done).
    assert (Hup : forall c, active c s -> up c s2) by (intros c Hc; by apply Hu, HD).
    destruct Hcase as [->|[e ->]]; cbn [is_ok orb].
    + split; [|split; [done|split; [|done]]].
      * constructor.
        -- destruct Hw. by constructor.
        -- intros _. cbn. rewrite C2, B2, C4, B1, Hv'. split; [done|]. split; [eauto|]. split; [done|]. intros c Hc.
           destruct (Hup c) as (i & g & Hi & Hg); [apply Hact; by destruct c|]. exists i, g. by destruct c.
        -- cbn. rewrite Hv'. intros w [= <-] Hsw. split; [done|]. destruct (Hsv Hsw) as [Hx|[_ Hx]]; [by destruct (Hv0 v Hv Hx)|done].
        -- cbn. rewrite C5, C2, B5, B2. apply (ok_closes s Hok).
        -- cbn. rewrite C6, C3, B6, B3. apply (ok_metrics s Hok).
      * intros _ Ht i g Hi. destruct (Hq Ht i g Hi) as [(c & Hc & Hwc)|]; [left|by right]. split; [done|]. exists c.
        split; [|by destruct c]. apply HD, Hact in Hc. by destruct c.
    + rewrite Hr. split; [|split; [by rewrite C1, B4|split; [done|]]].
      * constructor; [done|by rewrite C1, B4, Hr| |by rewrite C5, C2, B5, B2; apply (ok_closes s Hok)|by rewrite C6, C3, B6, B3; apply (ok_metrics s Hok)].
        rewrite Hv'. intros w [= <-] Hsw. destruct (Hsv Hsw) as [Hx|[Hx _]]; [by destruct (Hv0 v Hv Hx)|done].
      * intros _ c _ Hc. by apply Hup.
Qed.

(** ** Stop *)

Lemma stop_group_spec c s es s' : gw_wf s -> stop_group c s es s' ->
  same_base s s' /\ gw_wf s' /\ (forall d, workers d s' = workers d s) /\
  (forall d, d <> c -> (up d s -> up d s') /\ (finished_work d s -> finished_work d s')) /\
  (es = [] -> up c s -> finished_work c s') /\
  (forall P, es = [] -> quiet_but P s -> (up c s \/ quiet_but (fun _ => False) s) -> quiet_but (fun i => P i /\ workers c s <> Some i) s').
Proof.
  intros Hw Hs. destruct Hs as [s i ok gs s' Hc Hcall Hbg]. destruct (wf_workers s Hw c i Hc) as [g Hi].
  destruct (wf_idle s Hw i g Hi) as [_ Ho]. pose proof (gw_backgrounds_go _ _ Hbg) as Hgo.
  assert (Hd : forall ns, steady (Some i) s.(groups) gs /\ exists g', gs !! i = Some g' /\ g'.(owner) = Idle /\ g'.(started) = false /\
    (ok = true -> g.(started) = true -> carries ns g -> finished ns g') /\ (g.(started) = false -> g' = g /\ ok = true)) by
    (intros ns; by apply shutdown_call_spec; [|apply (wf_reached s Hw)|..]).
  destruct (Hd (stop_jobs c)) as (Hsd & g' & Hi' & Ho' & Hst' & Hfin & Hskip).
  set (s1 := s <| groups := gs |>) in *.
  assert (Hgm : goes (Some i) s s1) by (constructor; [constructor; try done; apply server_goes_refl|done|done|done]).
  assert (Hw1 : gw_wf s1) by (apply (goes_wf _ s s1 Hw Hgm); intros j [= <-] h; cbn; rewrite Hi'; by intros [= <-]).
  assert (Hne : forall d, d <> c -> forall j, workers d s = Some j -> Some i <> Some j).
  { intros d Hdc j Hj [= <-]. by destruct (Hdc (wf_distinct s Hw d c i Hj Hc)). }
  assert (Hdone : (if ok then [] else [JobsDidNotStop c]) = [] -> ok = true) by (by destruct ok).
  split; [eapply same_base_trans; [apply (gs_base _ _ _ Hgm)|apply (gs_base _ _ _ Hgo)]|]. split; [by eapply goes_wf_none|].
  split; [intros d; by rewrite (gs_workers _ _ _ Hgo)|]. split; [|split].
  - intros d Hdc. split; intros Hx.
    + apply (goes_up None d s1 s' Hgo); [done|]. apply (goes_up _ d s s1 Hgm); [by apply Hne|done].
    + apply (goes_finished None d s1 s' Hgo); [done|]. apply (goes_finished _ d s s1 Hgm); [by apply Hne|done].
  - intros Hok (j & h & Hj & Hl & Hst & Hca). rewrite Hc in Hj. injection Hj as <-. rewrite Hi in Hl. injection Hl as <-.
    apply (goes_finished None c s1 s' Hgo); [done|]. exists i, g'. split; [done|]. split; [done|]. by apply Hfin; [apply Hdone|..].
  - intros P Hok Hq Hcase. apply (goes_quiet None _ s1 s' Hgo); [done|]. intros j h Hj.
    destruct (decide (j = i)) as [->|Hn].
    + right. cbn in Hj. rewrite Hi' in Hj. injection Hj as <-. destruct Hcase as [(k & h & Hk & Hl & Hst & Hca)|Hall].
      * rewrite Hc in Hk. injection Hk as <-. rewrite Hi in Hl. injection Hl as <-. by apply Hfin; [apply Hdone|..].
      * destruct (Hall i g Hi) as [[]|Hqg]. destruct (Hskip (proj1 (proj2 Hqg))) as [-> _]. done.
    + destruct (goes_quiet (Some i) (fun k => k = i \/ P k) s s1 Hgm) with (i := j) (g := h) as [[?|Hp]|]; try done.
      * intros k [= <-]. by left.
      * intros k m Hk. destruct (Hq k m Hk); [left; by right|by right].
      * left. split; [done|]. rewrite Hc. congruence.
      * by right.
Qed.

(** While the gateway stops: the groups of [R] were told to; [fine]: without an error so far. *)
Record halting (s0 : Gw) (fine : Prop) (R : list Component) (s : Gw) : Prop := mkHalting {
  ht_wf : gw_wf s;
  ht_workers d : workers d s = workers d s0;
  ht_up d : d ∉ R -> up d s0 -> up d s;
  ht_finished : fine -> forall d, d ∈ R -> up d s0 -> finished_work d s;
  ht_quiet : fine -> tidy s0 -> quiet_but (fun i => s0.(isRunning) = true /\ exists c, active c s0 /\ workers c s0 = Some i /\ c ∉ R) s
}.

Lemma halting_goes s0 fine R s s' : goes None s s' -> halting s0 fine R s -> halting s0 fine R s'.
Proof.
  intros Hg [H1 H2 H3 H4 H5]. constructor.
  - by eapply goes_wf_none.
  - intros d. by rewrite (gs_workers _ _ _ Hg).
  - intros d Hd Hu. apply (goes_up None d s s' Hg); [done|by apply H3].
  - intros Hf d Hd Hu. apply (goes_finished None d s s' Hg); [done|by apply H4].
  - intros Hf Ht. by apply (goes_quiet None _ s s' Hg); [|apply H5].
Qed.

Lemma halting_begin s : gw_ok s -> halting s True [] s.
Proof.
  intros Hok. constructor; [apply (ok_wf s Hok)|done|done|by intros _ d Hd%elem_of_nil|].
  intros _ Ht i g Hi. destruct (Ht i g Hi) as [(Hr & c & Hc & Hw)|]; [left|by right]. split; [done|]. exists c.
  split; [done|]. split; [done|]. by intros Hx%elem_of_nil.
Qed.

Lemma halting_stop s0 fine R s c es s' : gw_ok s0 -> halting s0 fine R s -> c ∉ R -> active c s0 -> stop_group c s es s' ->
  same_base s s' /\ halting s0 (fine /\ es = []) (c :: R) s'.
Proof.
  intros Hok [H1 H2 H3 H4 H5] Hc Ha Hs. destruct (stop_group_spec c s es s' H1 Hs) as (Hb & Hw & Hwk & Hkeep & Hfin & Hq). split; [done|].
  constructor; [done|intros d; by rewrite Hwk| | |].
  - intros d Hd Hu. apply not_elem_of_cons in Hd as [Hd1 Hd2]. by apply (Hkeep d Hd1), H3.
  - intros [Hf He] d Hd Hu. destruct (decide (d = c)) as [->|Hn]; [by apply Hfin, H3|].
    apply elem_of_cons in Hd as [|Hd]; [done|]. by apply (Hkeep d Hn), H4.
  - intros [Hf He] Ht i g Hi. destruct (Hq _ He (H5 Hf Ht)) with (i := i) (g := g) as [[(Hr & d & Hd & Hwd & Hnd) Hni]|Hx]; [|done| |by right].
    + destruct (isRunning s0) eqn:Hr.
      * left. apply H3; [done|]. by destruct (ok_running s0 Hok Hr) as (_ & _ & _ & Hup); apply Hup.
      * right. intros i' g' Hi'. destruct (H5 Hf Ht i' g' Hi') as [[? _]|]; [done|by right].
    + left. split; [done|]. exists d. split; [done|]. split; [done|]. apply not_elem_of_cons. split; [|done].
      intros ->. apply Hni. by rewrite H2.
Qed.

(** The server of the gateway serves no more. *)
Definition silent (s : Gw) : Prop := forall v, s.(server) = Some v -> v.(serving) = false.

Lemma silent_same s s' : same_base s s' -> silent s -> silent s'.
Proof.
  intros Hb Hs v Hv. pose proof (sb_server _ _ Hb) as Hg. rewrite Hv in Hg. destruct (server s) as [u|] eqn:Hu; [|done].
  destruct Hg as (_ & _ & Hx). destruct (serving v) eqn:Hsv; [|done]. rewrite <- (Hs u Hu). symmetry. by apply Hx.
Qed.

Lemma stop_http_spec s es s' : gw_ok s -> stop_http s es s' -> goes None s s' /\ silent s'.
Proof.
  intros Hok Hs. destruct Hs as [s v in_time err res v' s' Hv Hsh Hbg]. pose proof (gw_backgrounds_go _ _ Hbg) as Hgo.
  assert (Hv' : v'.(startOnce) = v.(startOnce) /\ v'.(httpServer) = v.(httpServer) /\ v'.(serving) = false).
  { unfold server_Shutdown in Hsh. destruct (httpServer v) eqn:Hh; cbn in Hsh; injection Hsh as <- <-; [done|]. split; [done|]. split; [done|].
    destruct (serving v) eqn:Hsv; [|done]. destruct (ok_serving s Hok v Hv Hsv). congruence. }
  destruct Hv' as (E1 & E2 & E3). assert (Hgm : goes None s (s <| server := Some v' |>)).
  { constructor; [constructor; try done|by intros []|done|apply steady_refl]. cbn. rewrite Hv. split; [done|]. split; [done|]. by rewrite E3. }
  split; [by eapply goes_trans|]. apply (silent_same _ _ (gs_base _ _ _ Hgo)). cbn. by intros w [= <-].
Qed.

Lemma halting_metrics s0 s es s' : gw_ok s0 -> halting s0 True [] s -> s0.(metrics_set) = true -> stop_metrics s es s' ->
  exists s1, same_base s s1 /\ halting s0 (es = []) [MetricsJobs] s1 /\ s' = s1 <| metrics_closes ::= S |> <| metrics_set := false |>.
Proof.
  intros Hok Hh Hm Hs. destruct Hs as [s es s1 cerr Hs]. exists s1. unfold when in Hs.
  destruct (workers MetricsJobs s) as [i|] eqn:Hwk; cbn [bool_decide] in Hs.
  - rewrite bool_decide_eq_true_2 in Hs by (by eexists).
    destruct (halting_stop s0 True [] s MetricsJobs es s1 Hok Hh) as [Hb [H1 H2 H3 H4 H5]]; [by intros Hx%elem_of_nil|done|done|]. split; [done|].
    split; [|done]. assert (Hes : match es, cerr with [], Some e => [MetricsCloseFailed e] | _, _ => es end = [] -> True /\ es = []) by
      (destruct es; [done|]; by destruct cerr).
    constructor; [done|done|done|by intros Hf%Hes; apply H4|by intros Hf%Hes; apply H5].
  - rewrite bool_decide_eq_false_2 in Hs by (by intros []). destruct Hs as [-> ->]. split; [apply same_base_refl|]. split; [|done].
    assert (Hno : forall d i, workers d s0 = Some i -> d <> MetricsJobs) by (intros d i Hd ->; rewrite (ht_workers _ _ _ _ Hh) in Hwk; congruence).
    destruct Hh as [H1 H2 H3 H4 H5]. constructor; [done|done| | |].
    + intros d Hd Hu. apply H3; [by intros Hx%elem_of_nil|done].
    + intros Hf d Hd%list_elem_of_singleton (i & g & Hi & _). by destruct (Hno d i Hi).
    + intros Hf Ht i g Hi. destruct (H5 I Ht i g Hi) as [(Hr & d & Hd & Hwd & _)|]; [left|by right]. split; [done|]. exists d.
      split; [done|]. split; [done|]. rewrite list_elem_of_singleton. by eapply Hno.
Qed.

Definition told (s : Gw) : list Component :=
  (if s.(isRunning) then [CatalogJobs; GovernanceJobs] else []) ++ (if s.(metrics_set) then [MetricsJobs] else []).

Lemma told_active s c : s.(isRunning) = true -> active c s -> c ∈ told s.
Proof. intros Hr Ha. unfold told. rewrite Hr. destruct c; cbn in Ha; rewrite ?Ha; set_solver. Qed.

(** The metrics engine, if there is one. *)
Lemma halting_when_metrics s0 s es s' : gw_ok s0 -> same_base s0 s -> halting s0 True [] s -> when metrics_set stop_metrics s es s' ->
  halting s0 (es = []) (if s0.(metrics_set) then [MetricsJobs] else []) s' /\ (silent s -> silent s') /\
  s'.(source) = s.(source) /\ s'.(closes) = s.(closes) /\ s'.(isRunning) = s.(isRunning) /\ s'.(metrics_set) = false /\
  s'.(metrics_closes) = (s.(metrics_closes) + Nat.b2n s0.(metrics_set))%nat.
Proof.
  intros Hok Hb Hh Hs. unfold when in Hs. rewrite (sb_metrics _ _ Hb) in Hs. destruct (metrics_set s0) eqn:Hm.
  - destruct (halting_metrics s0 s es s' Hok Hh Hm Hs) as (s1 & Hb1 & [H1 H2 H3 H4 H5] & ->). split.
    { constructor; [destruct H1; by constructor|done| | |done].
      - intros d Hd Hu. destruct (H3 d Hd Hu) as (i & g & Hx). exists i, g. by destruct d.
      - intros Hf d Hd Hu. destruct (H4 Hf d Hd Hu) as (i & g & Hx). exists i, g. by destruct d. }
    pose proof Hb1 as [B1 B2 B3 B4 B5 B6 B7]. split; [intros Hx; exact (silent_same _ _ Hb1 Hx)|]. cbn.
    rewrite B2, B5, B4, B6. splits; try done; lia.
  - destruct Hs as [-> ->]. split; [|split; [done|]].
    + destruct Hh as [H1 H2 H3 H4 H5]. constructor; [done|done|done|by intros _; apply H4|by intros _; apply H5].
    + rewrite (sb_metrics _ _ Hb), Hm. cbn. splits; try done; lia.
Qed.

Lemma halting_when_running s0 fine R s es s' : gw_ok s0 -> s.(isRunning) = s0.(isRunning) -> halting s0 fine R s ->
  GovernanceJobs ∉ R -> CatalogJobs ∉ R -> when isRunning (both (stop_group GovernanceJobs) (stop_group CatalogJobs)) s es s' ->
  same_base s s' /\ halting s0 (fine /\ es = []) ((if s0.(isRunning) then [CatalogJobs; GovernanceJobs] else []) ++ R) s'.
Proof.
  intros Hok Hr Hh Hg Hc Hs. unfold when in Hs. rewrite Hr in Hs. destruct (isRunning s0).
  - destruct Hs as (s1 & e1 & e2 & H1 & H2 & ->). destruct (halting_stop _ _ _ _ _ _ _ Hok Hh Hg I H1) as [Hb1 Hh1].
    destruct (halting_stop _ _ _ _ CatalogJobs e2 s' Hok Hh1) as [Hb2 [G1 G2 G3 G4 G5]]; [|done|done|].
    { apply not_elem_of_cons. split; [done|exact Hc]. }
    split; [by eapply same_base_trans|]. assert (Hf : fine /\ (e1 ++ e2)%list = [] -> (fine /\ e1 = []) /\ e2 = []) by
      (intros [? Hx]; apply app_eq_nil in Hx; naive_solver).
    constructor; [done|done|done|by intros Hx%Hf; apply G4|by intros Hx%Hf; apply G5].
  - destruct Hs as [-> ->]. split; [apply same_base_refl|]. destruct Hh as [G1 G2 G3 G4 G5].
    constructor; [done|done|done|by intros [Hx _]; apply G4|by intros [Hx _]; apply G5].
Qed.

(** The state of the gateway just before it closes the store. *)
Lemma Gw_Stop_case s es s' : gw_ok s -> Gw_Stop s es s' -> exists s1 e2,
  halting s (es = []) (told s) s1 /\ (s.(isRunning) = true -> silent s1) /\ s1.(source) = s.(source) /\ s1.(closes) = s.(closes) /\
  s1.(isRunning) = false /\ s1.(metrics_set) = false /\ s1.(metrics_closes) = (s.(metrics_closes) + Nat.b2n s.(metrics_set))%nat /\
  both (when source close_store) cancel s1 e2 s' /\ (es = [] -> e2 = []) /\
  (forall v, s1.(server) = Some v -> v.(serving) = true -> exists w, s.(server) = Some w /\ w.(serving) = true).
Proof.
  intros Hok (sa & e1 & er & H1 & (sb & e2 & er2 & H2 & (sc & e3 & er3 & H3 & (sd & e4 & e5 & [-> Hd] & H5 & ->) & ->) & ->) & ->).
  assert (Ha : goes None s sa /\ (s.(isRunning) = true -> silent sa)).
  { unfold when in H1. destruct (isRunning s); [|by destruct H1 as [-> ->]; split; [apply goes_refl|]].
    destruct (stop_http_spec s e1 sa Hok H1). auto. }
  destruct Ha as [Hga Hsa]. pose proof (halting_goes s True [] s sa Hga (halting_begin s Hok)) as Hha.
  destruct (halting_when_metrics s sa e2 sb Hok (gs_base _ _ _ Hga) Hha H2) as (Hhb & Hsb & B1 & B2 & B3 & B4 & B5).
  pose proof (gs_base _ _ _ Hga) as [A1 A2 A3 A4 A5 A6 A7].
  assert (Hng : GovernanceJobs ∉ (if s.(metrics_set) then [MetricsJobs] else [])) by (destruct (metrics_set s); set_solver).
  assert (Hnc : CatalogJobs ∉ (if s.(metrics_set) then [MetricsJobs] else [])) by (destruct (metrics_set s); set_solver).
  destruct (halting_when_running s _ _ sb e3 sc Hok (eq_trans B3 A4) Hhb Hng Hnc H3) as [Hbc [C1 C2 C3 C4 C5]].
  pose proof Hbc as [D1 D2 D3 D4 D5 D6 D7].
  exists sd, e5. subst sd. cbn [source closes isRunning metrics_set metrics_closes server].
  assert (Hf : (e1 ++ e2 ++ e3 ++ [] ++ e5)%list = [] -> (e2 = [] /\ e3 = []) /\ e5 = []).
  { intros Hx. repeat (apply app_eq_nil in Hx as [? Hx]). naive_solver. }
  splits.
  - constructor; [destruct C1; by constructor|exact C2| | |intros Hx%Hf; exact (C5 (proj1 Hx))].
    + intros d Hd Hu. destruct (C3 d Hd Hu) as (i & g & Hx). exists i, g. by destruct d.
    + intros Hx%Hf d Hd Hu. destruct (C4 (proj1 Hx) d Hd Hu) as (i & g & Hy). exists i, g. by destruct d.
  - intros Hr. exact (silent_same _ _ Hbc (Hsb (Hsa Hr))).
  - change (source sc = source s). congruence.
  - change (closes sc = closes s). congruence.
  - done.
  - change (metrics_set sc = false). congruence.
  - change (metrics_closes sc = (metrics_closes s + Nat.b2n (metrics_set s))%nat). rewrite D6, B5, A6. done.
  - exact H5.
  - intros Hx. by apply Hf in Hx as [_ ?].
  - intros v Hv Hsv. destruct (server s) as [w|] eqn:Hw.
    + exists w. split; [done|]. destruct (serving w) eqn:Hsw; [done|].
      assert (Hs0 : silent s) by (intros u Hu; congruence).
      pose proof (silent_same _ _ Hbc (Hsb (silent_same _ _ (gs_base _ _ _ Hga) Hs0)) v Hv). congruence.
    + assert (Hs0 : silent s) by (intros u Hu; congruence).
      pose proof (silent_same _ _ Hbc (Hsb (silent_same _ _ (gs_base _ _ _ Hga) Hs0)) v Hv). congruence.
Qed.

(** Closing the store and forgetting the context. *)
Lemma closing s e s' : both (when source close_store) cancel s e s' ->
  s' = (if s.(source) then s <| closes ::= S |> <| source := false |> else s) <| cancelWork := false |>.
Proof.
  intros (s1 & e1 & e2 & H1 & [-> ->] & _). unfold when in H1. destruct (source s); [by destruct H1 as [s cerr]|]. by destruct H1 as [_ ->].
Qed.

Lemma Gw_Stop_ok s es s' : gw_ok s -> Gw_Stop s es s' ->
  gw_ok s' /\ s'.(isRunning) = false /\ s'.(source) = false /\ s'.(metrics_set) = false /\ (es = [] -> tidy s -> tidy s').
Proof.
  intros Hok Hs. destruct (Gw_Stop_case s es s' Hok Hs) as (s1 & e2 & [W _ _ _ Hq] & Hsil & E1 & E2 & E3 & E4 & E5 & Hc & _ & Hsv).
  rewrite (closing _ _ _ Hc). assert (Hg : forall x, x = (if s1.(source) then s1 <| closes ::= S |> <| source := false |> else s1) <| cancelWork := false |> ->
    x.(groups) = s1.(groups) /\ x.(isRunning) = false /\ x.(source) = false /\ x.(metrics_set) = false /\ x.(server) = s1.(server) /\
    x.(fresh_group) = s1.(fresh_group) /\ (forall c, workers c x = workers c s1) /\ x.(closes) = (s1.(closes) + Nat.b2n s1.(source))%nat /\ x.(metrics_closes) = s1.(metrics_closes)).
  { intros x ->. destruct (source s1) eqn:Hsrc; cbn; rewrite ?E3, ?E4, ?Hsrc; splits; try done; try (by intros []); lia. }
  destruct (Hg _ eq_refl) as (G1 & G2 & G3 & G4 & G5 & G6 & G7 & G8 & G9). clear Hg. set (x := _ <| cancelWork := false |>) in *. clearbody x.
  split; [|splits; try done].
  - constructor.
    + destruct W as [W1 W2 W3 W4]. constructor; [by rewrite G1|intros i g; rewrite G1, G6; apply W2|intros c i; rewrite G7, G1; apply W3|intros c d i; rewrite !G7; apply W4].
    + congruence.
    + rewrite G5. intros v Hv Hs'. destruct (Hsv v Hv Hs') as (w & Hw & Hsw). destruct (ok_serving s Hok w Hw Hsw) as [Hr _].
      pose proof (Hsil Hr v Hv). congruence.
    + rewrite G8, G3, E1, E2. cbn. pose proof (ok_closes s Hok). lia.
    + rewrite G9, G4, E5. cbn. pose proof (ok_metrics s Hok). lia.
  - intros He Ht i g. rewrite G1. intros Hi. right. destruct (Hq He Ht i g Hi) as [(Hr & c & Ha & _ & Hn)|]; [|done].
    destruct Hn. by apply told_active.
Qed.

(** ** The calls can complete *)

Lemma during_loops i gs (g g' : Group) : star loop_step g g' -> star (during i) (<[i := g]> gs) (<[i := g']> gs).
Proof.
  induction 1 as [g|g1 g2 g3 Hs _ IH]; [apply star_refl|]. eapply star_step; [|exact IH].
  rewrite <- (insert_insert_eq gs i g2 g1). apply during_background, (bg_loop i g1); [by rewrite lookup_insert_eq|done].
Qed.

Lemma during_busy i gs (g g' : Group) : star (busy_step Value) g g' -> star (during i) (<[i := g]> gs) (<[i := g']> gs).
Proof.
  induction 1 as [g|g1 g2 g3 [Ho Hs] _ IH]; [apply star_refl|]. eapply star_step; [|exact IH].
  rewrite <- (insert_insert_eq gs i g2 g1). apply (during_owner i g1); [by rewrite lookup_insert_eq|done|done].
Qed.

Lemma start_call_completes i gs g : gs !! i = Some g -> g.(owner) = Idle -> g.(started) = false -> exists gs', start_call i gs true gs'.
Proof.
  intros Hi Ho Hs. destruct (start_completes Value g Ho Hs) as (g1 & g2 & H1 & _ & H2 & Ho2 & Hs2).
  exists (<[i := g2]> gs). rewrite <- Hs2. by apply (StartCall i g g1 gs _ g2); [..|apply during_busy|rewrite lookup_insert_eq|].
Qed.

Lemma shutdown_call_completes i gs g : all_reached gs -> gs !! i = Some g -> g.(owner) = Idle -> exists gs', shutdown_call i gs true gs'.
Proof.
  intros Ha Hi Ho. destruct (started g) eqn:Hs; [|exists gs; by apply (ShutdownSkip i g)].
  destruct (reached_ok g (Ha i g Hi)) as [Hok Hg]. destruct (go_stop Value g Hok Hs) as (c & Hc & Hnc).
  pose proof (ws_shutdown Value g c Ho Hs Hc) as H1. match type of H1 with owner_step _ ?x => set (g1 := x) in H1 end.
  assert (Hr1 : reached g1) by (apply (reached_step g); [by apply (Ha i)|by apply ws_owner|congruence]).
  destruct (reached_ok g1 Hr1) as [Hok1 Hg1]. destruct (loops_stop Value g1 Hok1 Hg1 eq_refl) as (g2 & H2 & He).
  destruct (loops_owner Value g1 g2 H2) as [Ho2 _]. eexists.
  by apply (ShutdownCall i g g1 gs (<[i := g2]> gs) g2 (g2 <| owner := Idle |> <| log ::= cons (ShutdownReturned true) |>));
    [..|apply during_loops|rewrite lookup_insert_eq| |apply ws_stopped|].
Qed.

Lemma stop_group_completes c s i : gw_wf s -> workers c s = Some i -> exists s', stop_group c s [] s'.
Proof.
  intros Hw Hc. destruct (wf_workers s Hw c i Hc) as [g Hi]. destruct (wf_idle s Hw i g Hi) as [_ Ho].
  destruct (shutdown_call_completes i s.(groups) g (wf_reached s Hw) Hi Ho) as [gs Hs].
  eexists. by apply (st_group c s i true gs _ Hc Hs), star_refl.
Qed.

Lemma start_group_completes c js s g : Add js NewGroup = (Ok tt, g) ->
  exists gs, start_group c js s (Ok tt) (with_group c g s <| groups := gs |>).
Proof.
  intros Hadd. pose proof (new_quiet js) as (Ho & Hs & _). rewrite Hadd in Ho, Hs.
  destruct (start_call_completes s.(fresh_group) (with_group c g s).(groups) g) as [gs Hc]; [|done|done|].
  - destruct c; cbn; by rewrite lookup_insert_eq.
  - exists gs. by apply (sg_started c js s g gs true); [| |apply star_refl].
Qed.

Lemma one_job_added (j : Job) : validate (Some j) = Ok j -> exists g : Group, Add [Some j] NewGroup = (Ok tt, g).
Proof. intros Hv. unfold Add. cbn [started NewGroup add_jobs]. unfold add_job. rewrite Hv. cbn. by eexists. Qed.

Lemma governance_added : exists g : Group, Add governance_jobs NewGroup = (Ok tt, g).
Proof. eexists. reflexivity. Qed.

Lemma gw_starts s cfg v : s.(isRunning) = false -> s.(gwcfg) = Some cfg -> s.(server) = Some v -> s.(source) = true ->
  0 < cfg.(SyncInterval) -> 0 < cfg.(FlushInterval) -> v.(startOnce) = false ->
  exists s' v', Gw_Start s (Ok tt) s' /\ s'.(server) = Some v' /\ v'.(serving) = true.
Proof.
  intros Hr Hcfg Hv Hsrc Hsi Hfi Hon. unfold Gw_Start. rewrite Hr, Hv, Hcfg. set (s0 := s <| cancelWork := true |>).
  destruct (one_job_added (mkJob "catalog_sync" cfg.(SyncInterval) false false true)) as [g1 H1]; [unfold validate; cbn; by rewrite (proj2 (Z.leb_gt _ _) Hsi)|].
  destruct (start_group_completes CatalogJobs (catalog_jobs cfg false) s0 g1 H1) as [gs1 S1]. set (s1 := _ <| groups := gs1 |>) in S1.
  destruct governance_added as [g2 H2]. destruct (start_group_completes GovernanceJobs governance_jobs s1 g2 H2) as [gs2 S2]. set (s2 := _ <| groups := gs2 |>) in S2.
  destruct (one_job_added (mkJob "events_flush" cfg.(FlushInterval) false true true)) as [g3 H3]; [unfold validate; cbn; by rewrite (proj2 (Z.leb_gt _ _) Hfi)|].
  assert (S3 : exists s3, (if s.(metrics_set) then start_group MetricsJobs (metrics_jobs cfg) else nop) s2 (Ok tt) s3 /\ s3.(server) = Some v).
  { destruct (metrics_set s); [|by exists s2]. destruct (start_group_completes MetricsJobs (metrics_jobs cfg) s2 g3 H3) as [gs3 S3]. by eexists. }
  destruct S3 as (s3 & S3 & Hv3). set (v' := v <| startOnce := true |> <| httpServer := true |> <| isReady := true |> <| serving := true |>).
  exists (s3 <| server := Some v' |> <| isRunning := true |>), v'. split; [|done].
  right. exists s1. split; [by apply (sc_loaded cfg s0 false)|]. right. exists s2. split; [done|]. right. exists s3. split; [done|].
  right. exists (s3 <| server := Some v' |>). split; [|done].
  apply (sh_start s3 v None None None v' Hv3). unfold server_Start. by rewrite Hon.
Qed.

Lemma workers_up c s : up c s -> exists i, workers c s = Some i.
Proof. intros (i & g & Hi & _). eauto. Qed.

Lemma gw_stops s : gw_ok s -> s.(isRunning) = true -> exists s', Gw_Stop s [] s'.
Proof.
  intros Hok Hr. destruct (ok_running s Hok Hr) as (Hsrc & [v Hv] & _ & Hup). pose proof (ok_wf s Hok) as Hw.
  destruct (server_Shutdown true None v) as [res v'] eqn:Hsh. assert (res = None) as -> by (unfold server_Shutdown in Hsh; destruct (httpServer v); cbn in Hsh; congruence).
  set (s1 := s <| server := Some v' |>). assert (H1 : stop_http s [] s1) by (by apply (st_http s v true None None v'); [..|apply star_refl]).
  destruct (stop_http_spec s [] s1 Hok H1) as [Hg1 _]. pose proof (goes_wf_none _ _ Hw Hg1) as Hw1.
  assert (H2 : exists s2, when metrics_set stop_metrics s1 [] s2 /\ gw_wf s2 /\ (forall d, workers d s2 = workers d s) /\ s2.(isRunning) = true).
  { unfold when. change (metrics_set s1) with (metrics_set s). destruct (metrics_set s) eqn:Hm.
    - destruct (workers_up MetricsJobs s) as [i Hi]; [by apply Hup|]. destruct (stop_group_completes MetricsJobs s1 i Hw1 Hi) as [s2 S2].
      destruct (stop_group_spec MetricsJobs s1 [] s2 Hw1 S2) as (Hb & [W1 W2 W3 W4] & Hwk & _). exists (s2 <| metrics_closes ::= S |> <| metrics_set := false |>).
      split; [|split; [by constructor|split; [exact Hwk|by rewrite <- Hr; apply (sb_running _ _ Hb)]]].
      apply (st_metrics s1 [] s2 None). unfold when. rewrite bool_decide_eq_true_2; [exact S2|by exists i].
    - by exists s1. }
  destruct H2 as (s2 & H2 & Hw2 & Hk2 & Hr2).
  destruct (workers_up GovernanceJobs s) as [ig Hig]; [by apply Hup|]. destruct (workers_up CatalogJobs s) as [ic Hic]; [by apply Hup|].
  destruct (stop_group_completes GovernanceJobs s2 ig Hw2) as [s3 H3]; [by rewrite Hk2|].
  destruct (stop_group_spec _ _ _ _ Hw2 H3) as (_ & Hw3 & Hk3 & _).
  destruct (stop_group_completes CatalogJobs s3 ic Hw3) as [s4 H4]; [by rewrite Hk3, Hk2|].
  eexists. exists s1, [], []. split; [unfold when; by rewrite Hr|]. split; [|done]. exists s2, [], []. split; [done|]. split; [|done].
  exists s4, [], []. split; [unfold when; rewrite Hr2; by exists s3, [], []|]. split; [|done].
  set (s5 := s4 <| isRunning := false |>). exists s5, [], []. split; [done|]. split; [|done].
  exists (if s5.(source) then s5 <| closes ::= S |> <| source := false |> else s5), [], [].
  split; [|split; [split; reflexivity|done]]. unfold when. destruct (source s5); [exact (st_close s5 None)|done].
Qed.

(** ** Runs of the gateway *)

Inductive gw_op : Type := DidStart (r : result GwError ()) | DidStop (es : list GwError).

(** A gateway that was initialised, well or not, and the calls made on it since, newest first. *)
Inductive gw_run : list gw_op -> Gw -> Prop :=
| gr_init env : gw_run [] (Initialize env NewGateway).2
| gr_background l s s' : gw_run l s -> gw_background s s' -> gw_run l s'
| gr_start l s r s' : gw_run l s -> Gw_Start s r s' -> gw_run (DidStart r :: l) s'
| gr_stop l s es s' : gw_run l s -> Gw_Stop s es s' -> gw_run (DidStop es :: l) s'.

(** Calls that leave no job behind. *)
Definition clean (o : gw_op) : Prop := match o with DidStart r => leaves_nothing r = true | DidStop es => es = [] end.

Lemma init_ok env : gw_ok (Initialize env NewGateway).2 /\ tidy (Initialize env NewGateway).2.
Proof.
  assert (Hx : forall s, s.(groups) = ∅ -> s.(isRunning) = false -> (forall c, workers c s = None) -> (s.(server) = None \/ s.(server) = Some HttpServer0) ->
    s.(closes) = 0%nat -> s.(metrics_closes) = 0%nat -> gw_ok s /\ tidy s).
  { intros s Hg Hr Hw Hv Hc Hm. split; [constructor|].
    - constructor; intros *; rewrite ?Hg, ?lookup_empty, ?Hw; done.
    - congruence.
    - intros v. destruct Hv as [Hv|Hv]; rewrite Hv; [done|]. by intros [= <-].
    - rewrite Hc. destruct (source s); cbn; lia.
    - rewrite Hm. destruct (metrics_set s); cbn; lia.
    - intros i g. by rewrite Hg, lookup_empty. }
  unfold Initialize. destruct (ie_config env) as [cfg|]; [|apply Hx; try done; [by intros []|by left]].
  destruct (ie_source env); [|apply Hx; try done; [by intros []|by left]].
  destruct (ie_seed env), (ie_snapshot env); try (apply Hx; try done; [by intros []|by left]).
  destruct (MetricsEnabled cfg); [destruct (ie_metrics env); [destruct (ie_hooks env)|]|]; apply Hx; try done; try (by intros []); by right.
Qed.

Lemma background_ok s s' : gw_ok s -> gw_background s s' -> gw_ok s' /\ (tidy s -> tidy s').
Proof.
  intros Hok Hs. pose proof (gw_background_goes _ _ Hs) as Hg. pose proof (gs_base _ _ _ Hg) as [B1 B2 B3 B4 B5 B6 B7].
  assert (Ha : forall c, active c s' <-> active c s) by (intros []; cbn; rewrite ?B3; done). split.
  - constructor.
    + eapply goes_wf_none; [apply (ok_wf s Hok)|done].
    + rewrite B4. intros Hr. destruct (ok_running s Hok Hr) as (H1 & H2 & H3 & H4). rewrite B2, B1. split; [done|]. split; [|split; [done|]].
      * destruct H2 as [v Hv]. rewrite Hv in B7. destruct (server s'); [eauto|done].
      * intros c Hc. apply (goes_up None c s); [done|done|]. by apply H4, Ha.
    + intros v' Hv' Hsv. rewrite Hv' in B7. destruct (server s) as [v|] eqn:Hv; [|done]. destruct B7 as (_ & Hh & Hx). rewrite B4, Hh.
      apply (ok_serving s Hok v Hv), Hx, Hsv.
    + rewrite B5, B2. apply (ok_closes s Hok).
    + rewrite B6, B3. apply (ok_metrics s Hok).
  - intros Ht. pose proof (goes_quiet None _ s s' Hg ltac:(done) Ht) as Hq. intros i g Hi. destruct (Hq i g Hi) as [(Hr & c & Hc & Hw)|]; [left|by right].
    rewrite B4. split; [done|]. exists c. rewrite (gs_workers _ _ _ Hg). split; [by apply Ha|done].
Qed.

Lemma run_ok l s : gw_run l s -> gw_ok s /\ (Forall clean l -> tidy s).
Proof.
  induction 1 as [env|l s s' _ [IH1 IH2] Hb|l s r s' _ [IH1 IH2] Hs|l s es s' _ [IH1 IH2] Hs].
  - destruct (init_ok env). auto.
  - destruct (background_ok s s' IH1 Hb). auto.
  - destruct (Gw_Start_ok s r s' IH1 Hs) as (Hok & _ & Ht & _). split; [done|]. intros [Hc Hl]%Forall_cons. auto.
  - destruct (Gw_Stop_ok s es s' IH1 Hs) as (Hok & _ & _ & _ & Ht). split; [done|]. intros [Hc Hl]%Forall_cons. auto.
Qed.

(** C7: What holds of the gateway whenever none of its calls is under way, however starts and
    stops succeed or fail and whatever the jobs do meanwhile.  While it runs its store is open and
    the jobs of every component it has run; the server serves only then; each of the two stores is
    closed at most once; every group of jobs is used as a group may be used, and no two components
    share one. *)
Theorem Gateway_keeps l s : gw_run l s ->
  (s.(isRunning) = true -> s.(source) = true /\ forall c, active c s -> up c s) /\
  (forall v, s.(server) = Some v -> v.(serving) = true -> s.(isRunning) = true) /\
  (s.(closes) + Nat.b2n s.(source) <= 1)%nat /\ (s.(metrics_closes) + Nat.b2n s.(metrics_set) <= 1)%nat /\
  (forall i g, s.(groups) !! i = Some g -> reached g /\ g.(owner) = Idle) /\
  (forall c d i, workers c s = Some i -> workers d s = Some i -> c = d).
Proof.
  intros Hr. destruct (run_ok l s Hr) as [Hok _]. split; [|split; [|split; [|split; [|split]]]].
  - intros Hx. destruct (ok_running s Hok Hx) as (H1 & _ & _ & H2). auto.
  - intros v Hv Hs. by apply (ok_serving s Hok v).
  - apply (ok_closes s Hok).
  - apply (ok_metrics s Hok).
  - intros i g Hi. split; [by apply (wf_reached s (ok_wf s Hok) i)|by apply (wf_idle s (ok_wf s Hok) i)].
  - apply (wf_distinct s (ok_wf s Hok)).
Qed.



(** Neither is a specification nothing meets: once initialised, with intervals that are positive and
    a server that was not started before, some run of [Start] succeeds and serves; and from every
    state in which the gateway runs some run of [Stop] ends without an error. *)
Theorem Gateway_live l s : gw_run l s ->
  (forall cfg v, s.(isRunning) = false -> s.(gwcfg) = Some cfg -> s.(server) = Some v -> s.(source) = true ->
     0 < cfg.(SyncInterval) -> 0 < cfg.(FlushInterval) -> v.(startOnce) = false ->
     exists s' v', Gw_Start s (Ok tt) s' /\ s'.(server) = Some v' /\ v'.(serving) = true) /\
  (s.(isRunning) = true -> exists s', Gw_Stop s [] s' /\ s'.(source) = false).
Proof.
  intros Hr. destruct (run_ok l s Hr) as [Hok _]. split; [intros cfg v; apply gw_starts|].
  intros Hx. destruct (gw_stops s Hok Hx) as [s' Hs]. exists s'. split; [done|]. by apply (Gw_Stop_ok s [] s' Hok Hs).
Qed.

(** A start that fails at the listener leaves the jobs of the components running, and the stop that
    follows closes the store under them: [Stop] stops groups only of a gateway that runs. *)
Lemma failed_start_leaks l s e s1 es s2 : gw_run l s -> s.(isRunning) = false -> Gw_Start s (Err (HttpFailed e)) s1 -> Gw_Stop s1 es s2 ->
  up CatalogJobs s2 /\ up GovernanceJobs s2 /\ s2.(source) = false.
Proof.
  intros Hr Hn H1 H2. destruct (run_ok l s Hr) as [Hok _]. destruct (Gw_Start_ok _ _ _ Hok H1) as (Hok1 & Hr1 & _ & Hleft). rewrite Hn in Hr1. cbn in Hr1.
  destruct (Gw_Stop_case s1 es s2 Hok1 H2) as (s3 & e2 & [_ _ Hup _ _] & _ & E1 & _ & _ & _ & _ & Hc & _).
  destruct (Gw_Stop_ok s1 es s2 Hok1 H2) as (_ & _ & Hsrc & _ & _). rewrite (closing _ _ _ Hc) in *.
  assert (Hk : forall c, c <> MetricsJobs -> up c s3).
  { intros c Hc'. apply Hup; [unfold told; rewrite Hr1; destruct c, (metrics_set s1); set_solver|]. apply Hleft; [done|done|by destruct c]. }
  assert (Hk2 : forall c, c <> MetricsJobs -> up c ((if s3.(source) then s3 <| closes ::= S |> <| source := false |> else s3) <| cancelWork := false |>)).
  { intros c Hc'. destruct (Hk c Hc') as (i & g & Hx). exists i, g. by destruct c, (source s3). }
  split; [by apply Hk2|]. split; [by apply Hk2|done].
Qed.

(** And a start that is tried again succeeds without a listener. *)
Lemma retried_start_is_deaf l s v s' : gw_run l s -> s.(isRunning) = false -> s.(server) = Some v -> v.(startOnce) = true ->
  Gw_Start s (Ok tt) s' -> s'.(isRunning) = true /\ silent s'.
Proof.
  intros Hr Hn Hv Hon Hs. destruct (run_ok l s Hr) as [Hok _]. destruct (Gw_Start_ok _ _ _ Hok Hs) as (_ & Hr' & _). split; [done|].
  remember (Ok tt) as r eqn:Hok_r. destruct (Gw_Start_case _ _ _ Hok Hs) as [| | |D r s1 s2 s' _ _ _ Hst _ Hh ->]; [done|done|done|subst r]. cbn [is_ok].
  pose proof (sb_server _ _ (st_base _ _ _ Hst)) as Hg. inversion Hh as [s0 v1 routes listen err v' Hv1 Hsv Hr1 Hs1 Hs2]; subst.
  rewrite Hv, Hv1 in Hg. destruct Hg as (E1 & _ & E3). unfold server_Start in Hsv. rewrite E1, Hon in Hsv. injection Hsv as <- <-.
  cbn. intros w [= <-]. destruct (serving v1) eqn:Hx; [|done]. destruct (ok_serving s Hok v Hv (E3 eq_refl)). congruence.
Qed.
End lifecycle.

(** ** A gateway with metrics, started and stopped *)

Definition demo_config : GwConfig := mkGwConfig 3600000000000 1000000000 true.
Definition demo_init : InitEnv := mkInitEnv (Ok demo_config) (Ok tt) (Ok tt) (Ok tt) (Ok tt) (Ok tt).
Definition initialised : Gw Z := (Initialize Z demo_init (NewGateway Z)).2.

Lemma demo_started : exists s, gw_run Z [DidStart (Ok tt)] s /\ isRunning Z s = true /\ metrics_set Z s = true.
Proof.
  assert (Hr0 : gw_run Z [] initialised) by apply gr_init.
  destruct (run_ok Z [] initialised Hr0) as [Hok _].
  destruct (gw_starts Z initialised demo_config HttpServer0) as (s & v & Hs & _); try reflexivity.
  exists s. split; [exact (gr_start Z [] initialised (Ok tt) s Hr0 Hs)|]. destruct (Gw_Start_ok Z _ _ _ Hok Hs) as (_ & Hr & _). split; [exact Hr|].
  remember (Ok tt) as r eqn:Hq. destruct (Gw_Start_case Z _ _ _ Hok Hs) as [| | |D r s1 s2 s' _ _ _ Hst _ Hh ->]; [done|done|done|subst r].
  destruct (start_http_starting Z _ _ _ _ _ (st_starting Z _ _ _ Hst) Hh) as (_ & _ & _ & _ & _ & E & _). cbn. rewrite E. apply (st_base Z _ _ _ Hst).
Qed.

Lemma Gateway_keeps_witness : exists s, gw_run Z [DidStart (Ok tt)] s /\ up Z CatalogJobs s /\ up Z MetricsJobs s /\ source Z s = true /\ (closes Z s = 0)%nat.
Proof.
  destruct demo_started as (s & Hr & Hrun & Hm). destruct (Gateway_keeps Z _ s Hr) as (Hup & _ & Hc & _). destruct (Hup Hrun) as [Hsrc Hu].
  exists s. split; [exact Hr|]. split; [exact (Hu CatalogJobs I)|]. split; [exact (Hu MetricsJobs Hm)|]. split; [exact Hsrc|].
  rewrite Hsrc in Hc. cbn in Hc. lia.
Defined.


Lemma Gateway_live_witness : gw_run Z [] initialised /\ exists s s', Gw_Start Z initialised (Ok tt) s /\ Gw_Stop Z s [] s' /\ source Z s' = false.
Proof.
  assert (Hr0 : gw_run Z [] initialised) by apply gr_init. split; [exact Hr0|].
  destruct (Gateway_live Z [] initialised Hr0) as [Hgo _].
  destruct (Hgo demo_config HttpServer0) as (s & v & Hs & _); try reflexivity. exists s.
  assert (Hr : gw_run Z [DidStart (Ok tt)] s) by exact (gr_start Z [] initialised (Ok tt) s Hr0 Hs).
  destruct (Gateway_live Z _ s Hr) as [_ Hstop]. destruct (run_ok Z [] initialised Hr0) as [Hok _].
  destruct (Gw_Start_ok Z _ _ _ Hok Hs) as (_ & Hrun & _). destruct (Hstop Hrun) as (s' & Hs' & Hsrc). exists s'. split; [exact Hs|]. split; [exact Hs'|exact Hsrc].
Defined.
