(* ===== verification/BudgetAdmin.v ===== *)
(** * Administration of budgets ([internal/server/admin-handlers.go])

    The handlers that show, create, change and delete budgets.  Each runs its statements on the
    table ([StoreBudget]) and then changes the cache ([Budget]); the counters of spend live in the
    cache only.  [BudgetRace] has the same changes of the cache interleaved with requests and
    jobs. *)

From S2P Require Import Prelude GoBase Float64 Errors Catalog Money Pricing Duration Context Gorm Atomic StoreBudget Usage Budget BudgetJobs BudgetSync BudgetHooks VirtualKey Governance KeyStore KeyAdmin.
Local Open Scope Z_scope.

Inductive BudgetBody : Type :=
| BNothing
| BMessage (msg : string)
| BCause (e : StoreError)
| BView (b : Budget)
| BViews (bs : list Budget).

Section handlers.
Context {Db UDb : Type} `{Gorm Db StoreBudget} `{UsageTable UDb}.
Abbreviation State := (GovState Db UDb).

(** A call of the store, its error answered with [failed]. *)
Definition budget_stored {A} (t : Db -> result StoreError A * Db) (failed : StoreError -> Z * BudgetBody)
    (f : A -> State -> (Z * BudgetBody) * State) (s : State) : (Z * BudgetBody) * State :=
  match t s.(budgets) with
  | (Err e, d) => (failed e, s <| budgets := d |>)
  | (Ok a, d) => f a (s <| budgets := d |>)
  end.

(** The row goes into the cache and is shown. *)
Definition upsert_and_show (code : Z) (row : StoreBudget) (s : State) : (Z * BudgetBody) * State :=
  ((code, BView (ToCore row)), (run exec (UpsertBudget (Some (ToCore row))) s).2).

Definition getBudget (id : string) : State -> (Z * BudgetBody) * State :=
  budget_stored (GetBudget id) (fun _ => (StatusNotFound, BMessage "budget not found"))
    (fun row s => ((StatusOK, BView (ToCore row)), s)).

Definition createBudget (uuid : string) (now : Z) (body : result string Budget) (s : State) : (Z * BudgetBody) * State :=
  match body with
  | Err msg => ((StatusBadRequest, BMessage msg), s)
  | Ok payload =>
      budget_stored (CreateBudget uuid now payload) (fun e => (StatusBadRequest, BCause e)) (upsert_and_show StatusCreated) s
  end.

Definition updateBudget (id : string) (now : Z) (body : result string Budget) (s : State) : (Z * BudgetBody) * State :=
  match body with
  | Err msg => ((StatusBadRequest, BMessage msg), s)
  | Ok payload =>
      budget_stored (UpdateBudget id now payload) (fun e => (StatusBadRequest, BCause e)) (upsert_and_show StatusOK) s
  end.

Definition deleteBudget (id : string) : State -> (Z * BudgetBody) * State :=
  budget_stored (DeleteBudgetRow id) (fun e => (StatusConflict, BCause e))
    (fun _ s => ((StatusNoContent, BNothing), (run exec (DeleteBudget id) s).2)).

Definition listBudgets : State -> (Z * BudgetBody) * State :=
  budget_stored ListBudgets (fun _ => (StatusInternalServerError, BMessage "listing budgets"))
    (fun rows s => ((StatusOK, BViews (map ToCore rows)), s)).

(** ** What requests leave *)

(** What the table says of a budget: what an administrator sets, and the start of its window. *)
Definition terms (b : Budget) : string * string * Z * string * string * option bool * Z :=
  (b.(BID), b.(BName), b.(BudgetLimit), b.(BudgetUnit), b.(BudgetDuration), b.(Enforce), b.(LastBudgetRefreshAt)).

(** The length of the window a row asks for. *)
Definition row_duration (r : StoreBudget) (d : Z) : Prop :=
  r.(SBudgetDuration) = "" /\ d = 0 \/ r.(SBudgetDuration) <> "" /\ ParseDuration r.(SBudgetDuration) = Ok d.

(** What requests and jobs count. *)
Definition ledger (b : Cell) : Z * Z * Z * Z := (b.(WindowCost), b.(WindowReqs), b.(LastFlushed), b.(LastReqs)).

(** The cache enforces the terms of the table.  The window of a budget has the length its row asks
    for, unless the budget is among [fresh]: then its length is zero. *)
Definition terms_live (fresh : gset string) (s : State) : Prop := forall id,
  match tbl s.(budgets) id with
  | None => entry s id = None
  | Some r => exists b cfg, entry s id = Some b /\ b.(Config) = Some cfg /\ terms cfg = terms (ToCore r) /\
      if decide (id ∈ fresh) then cfg.(BudgetParseDuration) = 0 else row_duration r cfg.(BudgetParseDuration)
  end.

(** An update that is answered with this error may have changed the row: the row is read before
    and after the statement, and either reading can fail. *)
Definition unclear (a : Z * BudgetBody) : bool :=
  match a.2 with BCause (BudgetNotFound _ _) => a.1 =? StatusBadRequest | _ => false end.

(** A request, as the handler reads it: the path, the clock and the identifier generator at the
    time, the decoded body. *)
Inductive BudgetCall : Type :=
| CGet (id : string)
| CList
| CCreate (uuid : string) (now : Z) (body : result string Budget)
| CUpdate (id : string) (now : Z) (body : result string Budget)
| CDelete (id : string).

Definition serve_budget (c : BudgetCall) : State -> (Z * BudgetBody) * State :=
  match c with
  | CGet id => getBudget id
  | CList => listBudgets
  | CCreate uuid now body => createBudget uuid now body
  | CUpdate id now body => updateBudget id now body
  | CDelete id => deleteBudget id
  end.

(** The budgets whose window has no length yet: those created since they were last updated. *)
Definition fresh_step (c : BudgetCall) (a : Z * BudgetBody) (fresh : gset string) : gset string :=
  match c with
  | CCreate uuid _ _ => if a.1 =? StatusCreated then {[ uuid ]} ∪ fresh else fresh
  | CUpdate id _ _ => if a.1 =? StatusOK then fresh ∖ {[ id ]} else fresh
  | _ => fresh
  end.

Fixpoint fresh_after (cs : list BudgetCall) (l : list (Z * BudgetBody)) (fresh : gset string) : gset string :=
  match cs, l with
  | c :: cs', a :: l' => fresh_after cs' l' (fresh_step c a fresh)
  | _, _ => fresh
  end.

Fixpoint serve_budgets (cs : list BudgetCall) (s : State) : list (Z * BudgetBody) * State :=
  match cs with
  | [] => ([], s)
  | c :: cs' =>
      let '(a, s1) := serve_budget c s in
      let '(l, s2) := serve_budgets cs' s1 in
      (a :: l, s2)
  end.

Definition deletes (c : BudgetCall) (id : string) : bool :=
  match c with CDelete j => String.eqb j id | _ => false end.

Context `{!GormLaws Db StoreBudget}.

Definition same_tbl (d d' : Db) : Prop := db_ok d' /\ forall id, tbl d' id = tbl d id.

Record admin_ok (s : State) : Prop := mkAdminOk { ao_map : map_ok s; ao_db : db_ok s.(budgets) }.

(** What a request that is not unclear does to a state whose cache is live. *)
Record administered (c : BudgetCall) (a : Z * BudgetBody) (s s' : State) : Prop := mkAdministered {
  ad_ok : admin_ok s';
  ad_live fresh : terms_live fresh s -> terms_live (fresh_step c a fresh) s';
  ad_ledger id b : deletes c id = false -> entry s id = Some b -> exists b', entry s' id = Some b' /\ ledger b' = ledger b;
  ad_usage : s'.(usage) = s.(usage)
}.

Lemma admin_ok_budgets s d : admin_ok s -> db_ok d -> admin_ok (s <| budgets := d |>).
Proof. intros [[Hv Hi Hc] _] Hd. by constructor. Qed.

Lemma administered_read c a s d : (forall fresh, fresh_step c a fresh = fresh) ->
  admin_ok s -> same_tbl s.(budgets) d -> administered c a s (s <| budgets := d |>).
Proof.
  intros Hf Hok [Hd Ht]. constructor; [by apply admin_ok_budgets| | |done].
  - intros fresh Hl id. rewrite Hf. specialize (Hl id). cbn. by rewrite Ht.
  - intros id b _ Hb. by exists b.
Qed.

(** [UpsertBudget] of a row of the new table [d]. *)
Lemma administered_upsert c a s d row : admin_ok s -> db_ok d -> (forall id, id <> row.(SID) -> tbl d id = tbl s.(budgets) id) ->
  (forall fresh id, id <> row.(SID) -> id ∈ fresh_step c a fresh <-> id ∈ fresh) ->
  (exists r, tbl d row.(SID) = Some r /\ terms (ToCore r) = terms (ToCore row) /\
     forall fresh, if decide (row.(SID) ∈ fresh_step c a fresh) then row.(SBudgetParseDuration) = 0
       else row_duration r row.(SBudgetParseDuration)) ->
  administered c a s (run exec (UpsertBudget (Some (ToCore row))) (s <| budgets := d |>)).2.
Proof.
  intros Hok Hd Hother Hfresh (r & Hr & Hterms & Hdur). pose proof (admin_ok_budgets s d Hok Hd) as [Hm _].
  destruct (run exec (UpsertBudget (Some (ToCore row))) (s <| budgets := d |>)) as [[] s'] eqn:Hrun. cbn [snd].
  destruct (UpsertBudget_run _ _ _ Hm Hrun) as (Hm' & Hb & Hu & He). cbn in Hb, Hu.
  constructor; [constructor; [done|by rewrite Hb]| |intros id b _ Hb0|done].
  - intros fresh Hl id. specialize (Hl id). rewrite Hb, He. change (BID (ToCore row)) with (SID row).
    destruct (decide (id = row.(SID))) as [->|Hne].
    + rewrite Hr. eexists _, (ToCore row). split; [reflexivity|]. split; [|split; [done|apply Hdur]]. by destruct (entry _ _).
    + rewrite Hother by done. destruct (tbl (budgets s) id) as [r0|]; [|exact Hl].
      destruct Hl as (b & cfg & He0 & Hcfg & Ht & Hd0). exists b, cfg. split; [done|]. split; [done|]. split; [done|].
      pose proof (Hfresh fresh id Hne). repeat case_decide; tauto.
  - rewrite He. change (entry (s <| budgets := d |>) id) with (entry s id).
    destruct (decide _) as [->|]; [|by exists b]. rewrite Hb0. by eexists.
Qed.

(** ** The statements *)

Lemma read_row_terms r r' : read_row r r' -> terms (ToCore r') = terms (ToCore r) /\ r'.(SID) = r.(SID).
Proof. intros Hr. rewrite (read_row_spec r r' Hr). done. Qed.

Lemma read_row_duration r r' : read_row r r' -> row_duration r r'.(SBudgetParseDuration).
Proof.
  unfold read_row, AfterFind, row_duration. destruct (is_empty (SBudgetDuration r)) eqn:He.
  - apply is_empty_true in He. intros [= <-]. by left.
  - apply is_empty_false in He. destruct (ParseDuration _) as [d|]; [|done]. intros [= <-]. by right.
Qed.

Lemma GetBudget_cases id d res d' : db_ok d -> GetBudget id d = (res, d') -> same_tbl d d' /\
  match res with
  | Ok row => exists r, tbl d id = Some r /\ read_row r row
  | Err e => exists c, e = BudgetNotFound id c
  end.
Proof.
  intros Hd. unfold GetBudget. destruct (db_first id d) as [[r|e] d1] eqn:Hf; intros [= <- <-]; (split; [by eapply first_state|]); [|eauto].
  destruct (AfterFind r) as [row|e] eqn:Ha; [|eauto]. exists r. split; [by eapply first_row|done].
Qed.

Lemma CreateBudget_cases uuid now b d res d' : db_ok d -> CreateBudget uuid now b d = (res, d') ->
  match res with
  | Ok row => db_ok d' /\ row.(SID) = uuid /\ row.(SBudgetParseDuration) = 0 /\ tbl d uuid = None /\ forall id, tbl d' id = if decide (id = uuid) then Some row else tbl d id
  | Err e => same_tbl d d' /\ (forall i c, e <> BudgetNotFound i c)
  end.
Proof.
  intros Hd. unfold CreateBudget.
  assert (Hsame : same_tbl d d) by done.
  destruct (_ <=? 0); [by intros [= <- <-]|]. destruct (is_empty _); [by intros [= <- <-]|].
  destruct (ParseDuration _); [|by intros [= <- <-]].
  match goal with |- context [db_create ?r d] => set (row := r) end.
  destruct (db_create row d) as [[u|e] d1] eqn:Hc; intros [= <- <-].
  - destruct (create_ok _ _ _ _ Hd Hc) as (Hd1 & Hn & Ht). done.
  - split; [by eapply create_err|done].
Qed.

Lemma UpdateBudget_cases id now b d res d' : db_ok d -> UpdateBudget id now b d = (res, d') ->
  match res with
  | Ok row => db_ok d' /\ row.(SID) = id /\ (forall j, j <> id -> tbl d' j = tbl d j) /\
      exists r, tbl d' id = Some r /\ terms (ToCore r) = terms (ToCore row) /\ row_duration r row.(SBudgetParseDuration)
  | Err e => db_ok d' /\ ((exists i c, e = BudgetNotFound i c) \/ same_tbl d d')
  end.
Proof.
  intros Hd. unfold UpdateBudget. destruct (GetBudget id d) as [[existing|e] d1] eqn:Hg.
  2: { intros [= <- <-]. destruct (GetBudget_cases _ _ _ _ Hd Hg) as [[Hd1 _] (c & ->)]. eauto. }
  destruct (GetBudget_cases _ _ _ _ Hd Hg) as [[Hd1 Ht1] (r & Hr & Hrr)]. pose proof (read_row_terms _ _ Hrr) as [Hterms Hid].
  pose proof (tbl_key d id r Hd Hr) as Hk. change (key r) with (SID r) in Hk.
  destruct (budget_updates existing b) as [[upd|]|e] eqn:Hu.
  - destruct (db_update id _ d1) as [[n|e] d2] eqn:Hup.
    + edestruct (update_ok id (fun r : StoreBudget => upd r <| SUpdatedAt := now |>) d1 n d2 Hd1) as (Hd2 & Ht2 & _); [|exact Hup|].
      { intros sb. unfold budget_updates in Hu. case_match; [|done]. destruct (_ || _ || _); [|done].
        injection Hu as <-. change (key sb) with (SID sb). cbn. repeat case_match; reflexivity. }
      intros Hg2. destruct (GetBudget_cases _ _ _ _ Hd2 Hg2) as [[Hd3 Ht3] Hres]. destruct res as [row|e]; [|eauto].
      destruct Hres as (r2 & Hr2 & Hrr2). pose proof (read_row_terms _ _ Hrr2) as [Hterms2 Hid2].
      split; [done|]. split; [rewrite Hid2; exact (tbl_key d2 id r2 Hd2 Hr2)|]. split.
      * intros j Hj. by rewrite Ht3, Ht2, decide_False, Ht1.
      * exists r2. rewrite Ht3. split; [done|]. split; [done|]. by apply read_row_duration.
    + intros [= <- <-]. destruct (update_err id _ d1 e d2 Hd1 Hup) as [Hd2 Ht2]. split; [done|]. right. split; [done|]. intros j. by rewrite Ht2.
  - intros [= <- <-]. split; [done|]. split; [congruence|]. split; [intros j _; apply Ht1|]. exists r. rewrite Ht1.
    split; [done|]. split; [done|]. by apply read_row_duration.
  - intros [= <- <-]. split; [done|]. by right.
Qed.

Lemma DeleteBudgetRow_cases id d res d' : db_ok d -> DeleteBudgetRow id d = (res, d') ->
  match res with
  | Ok _ => db_ok d' /\ forall j, tbl d' j = if decide (j = id) then None else tbl d j
  | Err e => same_tbl d d'
  end.
Proof.
  intros Hd. unfold DeleteBudgetRow. destruct (GetBudget id d) as [[b|e] d1] eqn:Hg;
    destruct (GetBudget_cases _ _ _ _ Hd Hg) as [[Hd1 Ht1] _]; [|by intros [= <- <-]].
  destruct (String.eqb _ _); [by intros [= <- <-]|]. destruct (db_delete id d1) as [[n|e] d2] eqn:Hx; intros [= <- <-].
  - destruct (delete_ok id d1 n d2 Hd1 Hx) as (Hd2 & Ht2 & _). split; [done|]. intros j. rewrite Ht2. by destruct (decide (j = id)).
  - destruct (delete_err id d1 e d2 Hd1 Hx) as [Hd2 Ht2]. split; [done|]. intros j. by rewrite Ht2.
Qed.

Lemma administered_delete a s d id : admin_ok s -> db_ok d -> (forall j, tbl d j = if decide (j = id) then None else tbl s.(budgets) j) ->
  administered (CDelete id) a s (run exec (DeleteBudget id) (s <| budgets := d |>)).2.
Proof.
  intros [[Hv Hi Hc] _] Hd Ht. remember ((run exec (DeleteBudget id) (s <| budgets := d |>)).2) as s' eqn:Hs'. cbn in Hs'.
  assert (Hm : BudgetMap s' = delete id (BudgetMap s)) by (by rewrite Hs'). assert (Hh : forall p, get s' p = get s p) by (by rewrite Hs').
  assert (Hb : budgets s' = d) by (by rewrite Hs'). assert (Hu : usage s' = usage s) by (by rewrite Hs'). assert (Hp : heap s' = heap s) by (by rewrite Hs').
  clear Hs'.
  assert (He : forall j, entry s' j = if decide (j = id) then None else entry s j).
  { intros j. unfold entry. rewrite Hm. destruct (decide (j = id)) as [->|Hne]; [by rewrite lookup_delete_eq|].
    rewrite lookup_delete_ne by congruence. destruct (BudgetMap s !! j); cbn; by rewrite ?Hh. }
  constructor; [constructor| | |done].
  - constructor; [intros j p|intros j k p|intros j p]; rewrite Hm, ?Hp, ?Hh, !lookup_delete_Some.
    + intros [_ Hj]. exact (Hv j p Hj).
    + intros [_ Hj] [_ Hk]. by eapply Hi.
    + intros [_ Hj]. exact (Hc j p Hj).
  - by rewrite Hb.
  - intros fresh Hl j. specialize (Hl j). rewrite Hb, Ht, He. by destruct (decide (j = id)).
  - intros j b Hj Hbj. cbn in Hj. apply String.eqb_neq in Hj. exists b. by rewrite He, decide_False by congruence.
Qed.

(** ** Requests *)

Lemma serve_budget_ok c s a s' : serve_budget c s = (a, s') -> admin_ok s -> admin_ok s' /\ (unclear a = false -> administered c a s s').
Proof.
  intros Hr Hok. pose proof (ao_db s Hok) as Hd.
  assert (Hgo : administered c a s s' -> admin_ok s' /\ (unclear a = false -> administered c a s s')) by (intros Hx; split; [apply Hx|done]).
  assert (Hself : (forall fresh, fresh_step c a fresh = fresh) -> administered c a s s)
    by (intros Hf; constructor; [done|intros fresh; by rewrite Hf|intros; by eexists|done]).
  destruct c as [id| |uuid now body|id now body|id]; cbn [serve_budget] in Hr.
  - unfold getBudget, budget_stored in Hr. destruct (GetBudget id (budgets s)) as [res d] eqn:Hg.
    destruct (GetBudget_cases _ _ _ _ Hd Hg) as [Hs _]. apply Hgo. destruct res; injection Hr as <- <-; by apply administered_read.
  - unfold listBudgets, budget_stored in Hr. destruct (ListBudgets (budgets s)) as [res d] eqn:Hg.
    destruct (ListBudgets_spec _ _ _ Hd Hg) as (Hd1 & Ht1 & _). apply Hgo. destruct res; injection Hr as <- <-; by apply administered_read.
  - unfold createBudget in Hr. destruct body as [payload|msg]; [|injection Hr as <- <-; by apply Hgo, Hself].
    unfold budget_stored, upsert_and_show in Hr. destruct (CreateBudget uuid now payload (budgets s)) as [res d] eqn:Hc.
    pose proof (CreateBudget_cases _ _ _ _ _ _ Hd Hc) as Hcase. apply Hgo. destruct res as [row|e]; injection Hr as <- <-.
    + destruct Hcase as (Hd1 & Hid & Hpd & _ & Ht).
      apply administered_upsert; [done|done|intros id Hne; by rewrite Ht, decide_False by congruence| |].
      * intros fresh id Hne. cbn. set_solver.
      * exists row. rewrite Ht, decide_True by done. split; [done|]. split; [done|]. intros fresh.
        rewrite decide_True; [done|]. cbn. set_solver.
    + apply administered_read; [done|done|apply Hcase].
  - unfold updateBudget in Hr. destruct body as [payload|msg]; [|injection Hr as <- <-; by apply Hgo, Hself].
    unfold budget_stored, upsert_and_show in Hr. destruct (UpdateBudget id now payload (budgets s)) as [res d] eqn:Hc.
    pose proof (UpdateBudget_cases _ _ _ _ _ _ Hd Hc) as Hcase. destruct res as [row|e]; injection Hr as <- <-.
    + destruct Hcase as (Hd1 & Hid & Ht & r & Hr & Hterms & Hdur). apply Hgo.
      apply administered_upsert; rewrite ?Hid; [done|done|done| |].
      * intros fresh j Hne. cbn. set_solver.
      * exists r. split; [done|]. split; [done|]. intros fresh. rewrite decide_False; [done|]. cbn. set_solver.
    + destruct Hcase as [Hd1 [(i & x & ->)|Hs]]; [split; [by apply admin_ok_budgets|done]|]. apply Hgo. by apply administered_read.
  - unfold deleteBudget, budget_stored in Hr. destruct (DeleteBudgetRow id (budgets s)) as [res d] eqn:Hc.
    pose proof (DeleteBudgetRow_cases _ _ _ _ Hd Hc) as Hcase. apply Hgo. destruct res as [u|e]; injection Hr as <- <-.
    + destruct Hcase. by apply administered_delete.
    + by apply administered_read.
Qed.

Lemma serve_budgets_ok cs : forall s l s', serve_budgets cs s = (l, s') -> admin_ok s -> Forall (fun a => unclear a = false) l ->
  admin_ok s' /\ (forall fresh, terms_live fresh s -> terms_live (fresh_after cs l fresh) s') /\ s'.(usage) = s.(usage) /\
  forall id b, Forall (fun c => deletes c id = false) cs -> entry s id = Some b ->
    exists b', entry s' id = Some b' /\ ledger b' = ledger b.
Proof.
  induction cs as [|c cs IH]; intros s l s'; cbn [serve_budgets].
  - intros [= <- <-] Hok _. split; [done|]. split; [done|]. split; [done|]. intros id b _ Hb. by exists b.
  - destruct (serve_budget c s) as [a s1] eqn:Hc. destruct (serve_budgets cs s1) as [l' s2] eqn:Hcs.
    intros [= <- <-] Hok Hcl. apply Forall_cons in Hcl as [Ha Hl].
    destruct (serve_budget_ok c s a s1 Hc Hok) as [Hok1 [_ Hlive Hled Hu]]; [done|].
    destruct (IH _ _ _ Hcs Hok1 Hl) as (Hok2 & Hlive2 & Hu2 & Hled2). split; [done|]. split; [intros fresh Hf; by apply Hlive2, Hlive|]. split; [congruence|].
    intros id b Hdel Hb. apply Forall_cons in Hdel as [Hd Hds]. destruct (Hled id b Hd Hb) as (b1 & Hb1 & Hl1).
    destruct (Hled2 id b1 Hds Hb1) as (b2 & Hb2 & Hl2). exists b2. split; [done|congruence].
Qed.

(** C13: After any sequence of requests of the administration, none of them an update whose
    row could not be read, the cache holds what the table says: each budget of the table is cached
    with its limit, unit, enforcement, duration and start of window, and no other is.  The length
    of the window is the duration parsed, except for a budget these requests created and did not
    update since: its window has length zero (and so is never over) until it is updated or
    synchronised.  What was counted for a cached budget that no request deletes is untouched. *)
Theorem budgets_are_table fresh cs s l s' :
  serve_budgets cs s = (l, s') -> map_ok s -> db_ok s.(budgets) -> terms_live fresh s -> Forall (fun a => unclear a = false) l ->
  terms_live (fresh_after cs l fresh) s' /\ map_ok s' /\ db_ok s'.(budgets) /\ s'.(usage) = s.(usage) /\
  forall id b, Forall (fun c => deletes c id = false) cs -> entry s id = Some b ->
    exists b', entry s' id = Some b' /\ ledger b' = ledger b.
Proof.
  intros Hs Hm Hd Hlive Hcl. destruct (serve_budgets_ok cs s l s' Hs (mkAdminOk s Hm Hd) Hcl) as (Hok & Hl & Hu & Hled).
  split; [by apply Hl|]. split; [apply Hok|]. split; [apply Hok|]. by split.
Qed.
End handlers.

(** The first budget gets another limit, the second is refused its deletion (it is bound), a
    third is created. *)
Lemma budgets_are_table_witness :
  let cs := [CUpdate "b1" 9 (Ok (mkBudget "" "" 2000 "" "" 0 None 0 0 "" 0 0 0)); CDelete "b2";
             CCreate "b3" 10 (Ok (mkBudget "" "team" 50 "" "1h" 0 None 0 0 "" 0 0 0))] in
  let '(l, s') := serve_budgets cs (demo []) in
  map fst l = [StatusOK; StatusConflict; StatusCreated] /\
  terms_live (fresh_after cs l ∅) s' /\ fresh_after cs l ∅ = {[ "b3" ]} /\
  exists b', entry s' "b1" = Some b' /\ ledger b' = (700, 3, 500, 2).
Proof.
  intros cs. destruct (serve_budgets cs (demo [])) as [l s'] eqn:Hs.
  assert (Hl : l = (serve_budgets cs (demo [])).1) by (by rewrite Hs). vm_compute in Hl. subst l.
  split; [reflexivity|].
  assert (Hlive : terms_live ∅ (demo [])).
  { assert (Hrow : forall id, row_duration (demo_row id 0 0) day) by (intros id; right; split; [done|vm_compute; done]).
    intros id. unfold tbl. cbn.
    destruct (decide (id = "b1")) as [->|H1]; [eexists _, _; split; [reflexivity|split; [reflexivity|split; [reflexivity|exact (Hrow "b1")]]]|].
    destruct (decide (id = "b2")) as [->|H2]; [eexists _, _; split; [reflexivity|split; [reflexivity|split; [reflexivity|exact (Hrow "b2")]]]|].
    rewrite !lookup_insert_ne, lookup_singleton_ne by congruence. unfold entry. cbn.
    by rewrite lookup_insert_ne, lookup_singleton_ne by congruence. }
  destruct (budgets_are_table ∅ cs (demo []) _ s' Hs (cache_ok_map _ (demo_ok [])) (co_db _ (demo_ok [])) Hlive) as (Hl & _ & _ & _ & Hled).
  { repeat constructor. }
  split; [exact Hl|]. split; [vm_compute; reflexivity|].
  apply (Hled "b1" (demo_cell "b1" 700 3 500 2)); [repeat constructor|reflexivity].
Defined.
