(* ===== verification/ProviderAdmin.v ===== *)
(** * Administration of providers ([internal/server/admin-handlers.go], [dbstore/provider.go])

    The handlers that show and replace the network and proxy settings of a provider.  A change is
    written to the table ([CredentialStore]) and then the whole map of clients is built again from
    the table and swapped in ([Network.Replace]); requests to a provider use the client of the
    map.  A row is shown with the secrets of its proxy masked ([Secrets]). *)

From S2P Require Import Prelude GoBase Errors Catalog Credential VirtualKey Governance Gorm KeyStore StoreCatalog Secrets CredentialStore ModelCatalog Config Transport Network Providers KeyAdmin CredentialAdmin.

(** ** Settings *)

Record updateProviderRequest : Type := mkUpdateProviderRequest {
  UPNetwork : NetworkConfig;
  UPProxy : option ProxyConfig;
  ConfirmUnsafe : bool
}.

Inductive SettingsError : Type :=
| RequestTimeoutNotPositive
| RetryBackoffNotPositive
| MaxConnsNotPositive
| ProxyURLRequired (type : string)
| ProxyURLNotEmpty
| UnknownProxy (type : string).

Definition not_positive (o : option Z) : bool := match o with Some v => (v <=? 0)%Z | None => false end.

Definition unsafe (n : NetworkConfig) : bool := n.(AllowPrivateNetwork) || n.(InsecureSkipVerify).

(** A provider as it is shown. *)
Record ProviderRow : Type := mkProviderRow {
  ShownRow : StoreProvider;
  AdapterEnabled : bool;
  ShownModels : nat
}.

Inductive ProviderBody : Type :=
| PMessage (msg : string)
| PCause (e : CredentialStoreError)
| PRefused (e : SettingsError)
| PView (r : ProviderRow)
| PViews (rs : list ProviderRow)
| PSettings (effective : NetworkConfig) (proxy : option ProxyConfig) (overrides : NetworkConfig).

(** What [AfterFind] leaves of a row read with [maskSecrets] ([Secrets.Provider_roundtrip]). *)
Definition redact (row : StoreProvider) : StoreProvider := row <| SPProxy := mask_proxy <$> row.(SPProxy) |>.

(** [upstreamMap], and the loop of [updateProvider]. *)
Definition upstreams_of (rows : list StoreProvider) : gmap Provider Upstream :=
  foldl (fun m r => <[r.(SPName) := ToUpstream r]> m) ∅ rows.

Section handlers.
Context {CDb PDb : Type} `{Gorm CDb StoreCredential} `{Gorm PDb StoreProvider}.
Abbreviation Db := (CredDb CDb PDb).

(** As in [Network]. *)
Variable url_parses : string -> bool.
Variable socks5_builds : string -> option (string * string) -> bool.
(** The defaults of the configuration, the adapters of this build and the catalog at the time. *)
Variable defaults : UpstreamConfig.
Variable registry : Registry.
Variable catalog : ModelCatalog.

Record ProviderAdmin : Type := mkProviderAdmin { padb : Db; live : TransportState }.

Definition client_of : Upstream -> result ClientError Client := newClient url_parses socks5_builds defaults.
Definition swap : TransportState -> gmap Provider Upstream -> TransportState * list Provider :=
  Replace url_parses socks5_builds defaults.

(** The providers of the boot snapshot and the transport [Initialize] builds from them. *)
Definition boot_transport (d : Db) : result CredentialStoreError ProviderAdmin :=
  match Load d with
  | (Ok (upstreams, _), d') =>
      let config := foldl (fun m u => <[u.(UProvider) := u]> m) ∅ upstreams in
      Ok (mkProviderAdmin d' (NewTransport url_parses socks5_builds defaults config))
  | (Err e, _) => Err e
  end.

Definition ListProvidersRedacted : ctx (CDb := CDb) (PDb := PDb) (list StoreProvider) := rows ← ListProviders; mret (map redact rows).
Definition GetProviderRedacted (name : Provider) : ctx (CDb := CDb) (PDb := PDb) StoreProvider := row ← resolveProvider name; mret (redact row).

Definition annotate (row : StoreProvider) : ProviderRow :=
  mkProviderRow row (Registry_Has registry row.(SPName)) (ModelCount catalog row.(SPName)).

Definition provider_stored {A} (t : ctx A) (failed : CredentialStoreError -> Z * ProviderBody)
    (f : A -> ProviderAdmin -> (Z * ProviderBody) * ProviderAdmin) (s : ProviderAdmin) : (Z * ProviderBody) * ProviderAdmin :=
  match t s.(padb) with
  | (Err e, d) => (failed e, mkProviderAdmin d s.(live))
  | (Ok a, d) => f a (mkProviderAdmin d s.(live))
  end.

Definition provider_not_found (_ : CredentialStoreError) : Z * ProviderBody := (StatusNotFound, PMessage "provider not found").

Definition listProviders : ProviderAdmin -> (Z * ProviderBody) * ProviderAdmin :=
  provider_stored ListProvidersRedacted (fun _ => (StatusInternalServerError, PMessage "listing providers"))
    (fun rows s => ((StatusOK, PViews (map annotate rows)), s)).

Definition getProvider (name : Provider) : ProviderAdmin -> (Z * ProviderBody) * ProviderAdmin :=
  provider_stored (GetProviderRedacted name) provider_not_found (fun row s => ((StatusOK, PView (annotate row)), s)).

Definition getProviderSettings (name : Provider) : ProviderAdmin -> (Z * ProviderBody) * ProviderAdmin :=
  provider_stored (GetProviderRedacted name) provider_not_found (fun row s =>
    ((StatusOK, PSettings (EffectiveNetwork defaults row.(SPNetwork)) row.(SPProxy) row.(SPNetwork)), s)).

Definition validateProviderSettings (payload : updateProviderRequest) : result SettingsError () :=
  if not_positive payload.(UPNetwork).(RequestTimeout) then Err RequestTimeoutNotPositive
  else if not_positive payload.(UPNetwork).(RetryBackoff) then Err RetryBackoffNotPositive
  else if not_positive payload.(UPNetwork).(MaxConnsPerHost) then Err MaxConnsNotPositive
  else match payload.(UPProxy) with
  | None => Ok ()
  | Some p =>
      if String.eqb p.(PType) ProxyHTTP || String.eqb p.(PType) ProxySOCKS5 then
        if negb (url_parses p.(PURL)) || is_empty p.(PURL) then Err (ProxyURLRequired p.(PType)) else Ok ()
      else if String.eqb p.(PType) ProxyEnvironment then
        if is_empty p.(PURL) then Ok () else Err ProxyURLNotEmpty
      else Err (UnknownProxy p.(PType))
  end.

Definition not_live : Z * ProviderBody := (StatusInternalServerError, PMessage "stored, not yet live").
Definition previous_runs : Z * ProviderBody := (StatusInternalServerError, PMessage "stored, still running the previous config").
Definition unrendered : Z * ProviderBody := (StatusInternalServerError, PMessage "updated, could not render").

(** The rows become the live map, and the row of the provider is shown. *)
Definition swap_and_show (name : Provider) (rows : list StoreProvider) (s : ProviderAdmin) : (Z * ProviderBody) * ProviderAdmin :=
  let '(t, failed) := swap s.(live) (upstreams_of rows) in
  let s := mkProviderAdmin s.(padb) t in
  if bool_decide (name ∈ failed) then (previous_runs, s)
  else provider_stored (GetProviderRedacted name) (fun _ => unrendered) (fun row s => ((StatusOK, PView (annotate row)), s)) s.

Definition updateProvider (commit : bool) (name : Provider) (body : result string updateProviderRequest) (s : ProviderAdmin) :
    (Z * ProviderBody) * ProviderAdmin :=
  let refuse b := ((StatusBadRequest, b), s) in
  match body with
  | Err msg => refuse (PMessage msg)
  | Ok payload =>
      if negb (Registry_Has registry name) then refuse (PMessage "provider has no registered adapter in this build")
      else if NetworkConfig_IsZero payload.(UPNetwork) && is_none payload.(UPProxy) then
        refuse (PMessage "empty settings; PUT replaces the whole config")
      else if unsafe payload.(UPNetwork) && negb payload.(ConfirmUnsafe) then
        refuse (PMessage "allow_private_network and insecure_skip_verify require confirm_unsafe")
      else match validateProviderSettings payload with
      | Err e => refuse (PRefused e)
      | Ok _ =>
          provider_stored (UpdateProviderConfig commit name payload.(UPNetwork) payload.(UPProxy)) (fun e => (StatusBadRequest, PCause e))
            (fun _ => provider_stored ListProviders (fun _ => not_live) (swap_and_show name)) s
      end
  end.

(** ** Requests *)

Inductive ProviderCall : Type :=
| PcList
| PcGet (name : Provider)
| PcSettings (name : Provider)
| PcUpdate (commit : bool) (name : Provider) (body : result string updateProviderRequest).

Definition serve_provider (c : ProviderCall) : ProviderAdmin -> (Z * ProviderBody) * ProviderAdmin :=
  match c with
  | PcList => listProviders
  | PcGet name => getProvider name
  | PcSettings name => getProviderSettings name
  | PcUpdate commit name body => updateProvider commit name body
  end.

Fixpoint serve_providers (cs : list ProviderCall) (s : ProviderAdmin) : list (Z * ProviderBody) * ProviderAdmin :=
  match cs with
  | [] => ([], s)
  | c :: cs' =>
      let '(a, s1) := serve_provider c s in
      let '(l, s2) := serve_providers cs' s1 in
      (a :: l, s2)
  end.
End handlers.
Arguments ProviderAdmin : clear implicits.
Arguments mkProviderAdmin {CDb PDb}.

(** ** The table and the live map *)

Section properties.
Context {CDb PDb : Type} `{Gorm CDb StoreCredential} `{Gorm PDb StoreProvider}.
Context `{!GormLaws CDb StoreCredential} `{!GormLaws PDb StoreProvider}.
Abbreviation Db := (CredDb CDb PDb).
Abbreviation State := (ProviderAdmin CDb PDb).
Variable url_parses : string -> bool.
Variable socks5_builds : string -> option (string * string) -> bool.
Variable defaults : UpstreamConfig.
Variable registry : Registry.
Variable catalog : ModelCatalog.
Abbreviation client_of := (client_of url_parses socks5_builds defaults).
Abbreviation swap := (swap url_parses socks5_builds defaults).
Abbreviation serve_provider := (serve_provider url_parses socks5_builds defaults registry catalog).
Abbreviation serve_providers := (serve_providers url_parses socks5_builds defaults registry catalog).

Definition named (d : Db) (p : Provider) (r : StoreProvider) : Prop := tbl d.(provs) r.(SPID) = Some r /\ r.(SPName) = p.

(** The unique index of the table: a name has one row. *)
Definition names_unique (d : Db) : Prop := forall p r r', named d p r -> named d p r' -> r = r'.

Definition client_in (t : TransportState) (p : Provider) : option providerTransport := t.(ts_providers) ≫= (fun m => m !! p).

(** Requests to [p] use the settings of its row; it has no client only when it has no row or none
    can be built from the row. *)
Definition agrees (d : Db) (t : TransportState) (p : Provider) : Prop :=
  match client_in t p with
  | Some pt => exists r, named d p r /\ pt.(pt_upstream) = ToUpstream r /\ client_of (ToUpstream r) = Ok pt.(pt_client)
  | None => forall r, named d p r -> is_ok (client_of (ToUpstream r)) = false
  end.

Record provider_ok (s : State) : Prop := mkProviderOk {
  po_db : cred_ok s.(padb);
  po_unique : names_unique s.(padb)
}.

Definition is_live (s : State) : Prop := forall p, agrees s.(padb) s.(live) p.

Lemma named_same d d' p r : cred_same d d' -> named d' p r <-> named d p r.
Proof. intros (_ & _ & Hp). unfold named. by rewrite Hp. Qed.

Lemma names_same d d' : cred_same d d' -> names_unique d -> names_unique d'.
Proof. intros Hs Hu p r r' Hr Hr'. apply (Hu p); by apply (named_same d d'). Qed.

Lemma agrees_same d d' t p : cred_same d d' -> agrees d t p -> agrees d' t p.
Proof.
  intros Hs. unfold agrees. destruct (client_in t p) as [pt|].
  - intros (r & Hr & Hrest). exists r. split; [by apply (named_same d d')|done].
  - intros Hn r Hr. apply Hn. by apply (named_same d d').
Qed.

Lemma ListProviders_rows d rows d' : cred_ok d -> ListProviders d = (Ok rows, d') ->
  cred_same d d' /\ forall r, In r rows <-> tbl d.(provs) r.(SPID) = Some r.
Proof.
  intros [Hc Hp] Ht. unfold ListProviders, on_provs in Ht.
  destruct (db_find (provs d)) as [[ps|e] p'] eqn:Hf; [|done]. injection Ht as <- <-.
  destruct (find_state _ _ _ Hp Hf) as [Hp' Hs]. destruct (find_rows _ _ _ Hp Hf) as [_ Hin]. by split.
Qed.

Lemma ListProviders_same d res d' : cred_ok d -> ListProviders d = (res, d') -> cred_same d d'.
Proof.
  intros [Hc Hp] Ht. unfold ListProviders, on_provs in Ht.
  destruct (db_find (provs d)) as [[ps|e] p'] eqn:Hf; destruct (find_state _ _ _ Hp Hf); injection Ht as <- <-; by split.
Qed.

Lemma GetProviderRedacted_rows name d res d' : cred_ok d -> GetProviderRedacted name d = (res, d') ->
  cred_same d d' /\ forall row, res = Ok row -> exists r, named d name r /\ row = redact r.
Proof.
  intros Hd Ht. unfold GetProviderRedacted, mbind, Tx_bind in Ht.
  assert (Hsame : forall x y, resolveProvider name d = (x, y) -> cred_same d y).
  { intros x y. unfold resolveProvider, mbind, Tx_bind, on_provs. destruct Hd as [Hc Hp].
    destruct (db_find (provs d)) as [[ps|e] p'] eqn:Hf; destruct (find_state _ _ _ Hp Hf); [|intros [= _ <-]; by split].
    destruct (List.find _ ps); intros [= _ <-]; by split. }
  destruct (resolveProvider name d) as [[r|e] d1] eqn:Hr; injection Ht as <- <-; (split; [by eapply Hsame|]); [|done].
  destruct (resolveProvider_spec name d r d1 Hd Hr) as (_ & Htbl & Hname). intros row [= <-]. by exists r.
Qed.

(** The new row of a change of settings. *)
Definition with_settings (network : NetworkConfig) (proxy : option ProxyConfig) (r : StoreProvider) : StoreProvider :=
  r <| SPNetwork := network |> <| SPProxy := proxy |> <| SPIsConfigured := true |>.

Record changed (name : Provider) (network : NetworkConfig) (proxy : option ProxyConfig) (d d' : Db) : Prop := mkChanged {
  ch_ok : cred_ok d';
  ch_row : exists r, named d name r /\ named d' name (with_settings network proxy r);
  ch_other p r : p <> name -> named d' p r <-> named d p r;
  ch_unique : names_unique d -> names_unique d'
}.

Lemma UpdateProviderConfig_rows commit name network proxy d res d' : cred_ok d -> names_unique d ->
  UpdateProviderConfig commit name network proxy d = (res, d') ->
  match res with Ok _ => changed name network proxy d d' | Err _ => d' = d end.
Proof.
  intros Hd Hu Ht. apply Tx_transaction_cases in Ht as [(e & -> & ->)|([] & -> & Ht)]; [done|].
  apply tx_bind_Ok in Ht as (row & d1 & Hr & Ht). destruct (resolveProvider_spec _ _ _ _ Hd Hr) as (Hs & Hrow & Hname).
  apply tx_bind_Ok in Ht as (n & d2 & Hup & [= <-]). unfold on_provs in Hup.
  destruct (db_update (SPID row) _ (provs d1)) as [[n'|e] p'] eqn:Hx; [|done]. injection Hup as _ <-.
  destruct Hs as ([Hc1 Hp1] & Hcs & Hps).
  destruct (update_ok _ (with_settings network proxy) _ _ p' Hp1 ltac:(done) Hx) as (Hp2 & Hl & _).
  assert (Hlook : forall i, tbl p' i = if decide (i = row.(SPID)) then Some (with_settings network proxy row) else tbl d.(provs) i).
  { intros i. rewrite Hl. destruct (decide (i = SPID row)) as [->|]; [by rewrite Hps, Hrow|apply Hps]. }
  assert (Hnew : forall p r, named (mkCredDb (creds d1) p') p r <->
    (p = name /\ r = with_settings network proxy row) \/ (p <> name /\ named d p r)).
  { intros p r. unfold named. cbn [provs]. rewrite Hlook. destruct (decide (SPID r = SPID row)) as [Hi|Hi].
    - split; [intros [[= <-] <-]; left; by split|]. intros [[-> ->]|[Hne [Hx2 Hn2]]]; [by split|].
      exfalso. apply Hne. rewrite Hi in Hx2. congruence.
    - split; [|intros [[-> ->]|[_ ?]]; [done|done]]. intros [Hx2 Hn2]. right. split; [|done]. intros ->.
      apply Hi. f_equal. by apply (Hu name). }
  constructor; [by split| | |].
  - exists row. split; [done|]. apply Hnew. by left.
  - intros p r Hne. rewrite Hnew. naive_solver.
  - intros _ p r r' [[-> ->]|[? ?]]%Hnew [[? ->]|[? ?]]%Hnew; [done|done|done|]. by apply (Hu p).
Qed.

Lemma upstreams_lookup rows (m : gmap Provider Upstream) p : foldl (fun m r => <[r.(SPName) := ToUpstream r]> m) m rows !! p =
  match List.find (fun r => String.eqb r.(SPName) p) (List.rev rows) with Some r => Some (ToUpstream r) | None => m !! p end.
Proof.
  revert m. induction rows as [|r rows IH]; intros m; [done|]. cbn [foldl List.rev]. rewrite IH, find_app.
  destruct (List.find _ (rev rows)); [done|]. cbn. destruct (String.eqb_spec (SPName r) p) as [->|Hne].
  - by rewrite lookup_insert_eq.
  - by rewrite lookup_insert_ne.
Qed.

Lemma upstreams_named d rows p : (forall r, In r rows <-> tbl d.(provs) r.(SPID) = Some r) -> names_unique d ->
  match upstreams_of rows !! p with
  | Some u => exists r, named d p r /\ u = ToUpstream r
  | None => forall r, ~ named d p r
  end.
Proof.
  intros Hin Hu. unfold upstreams_of. rewrite upstreams_lookup, lookup_empty.
  destruct (List.find _ _) as [r|] eqn:Hf.
  - apply List.find_some in Hf as [Hr Hn]. apply String.eqb_eq in Hn. rewrite <- List.in_rev in Hr. exists r.
    split; [|done]. split; [by apply Hin|done].
  - intros r [Hr Hn]. apply Hin in Hr. rewrite List.in_rev in Hr. pose proof (List.find_none _ _ Hf r Hr) as Hne. cbn in Hne.
    by rewrite Hn, String.eqb_refl in Hne.
Qed.

Lemma client_in_Some t m p : t.(ts_providers) = Some m -> client_in t p = m !! p.
Proof. intros E. unfold client_in. by rewrite E. Qed.

(** Building the map again makes a provider agree with the table, unless its client cannot be
    built and it did not agree before. *)
Lemma swap_agrees d t rows t' failed p : (forall r, In r rows <-> tbl d.(provs) r.(SPID) = Some r) -> names_unique d ->
  swap t (upstreams_of rows) = (t', failed) -> (agrees d t p \/ p ∉ failed) -> agrees d t' p.
Proof.
  intros Hin Hu Hswap Hor. pose proof (upstreams_named d rows p Hin Hu) as Hcfg.
  pose proof (Replace_spec url_parses socks5_builds defaults t (upstreams_of rows)) as Hr.
  unfold ProviderAdmin.swap in Hswap. rewrite Hswap in Hr. cbn zeta in Hr.
  destruct Hr as (m & Hm & Hnone & Hsome & Hfail & _). unfold agrees. rewrite (client_in_Some _ _ p Hm).
  destruct (m !! p) as [pt|] eqn:Hp.
  - destruct (Hsome p pt Hp) as (u & Hc & Hcase). rewrite Hc in Hcfg. destruct Hcfg as (r & Hr & ->).
    unfold client_of. destruct (newClient _ _ _ (ToUpstream r)) as [c|e] eqn:Hn.
    + destruct Hcase as (Hcl & Hup & _). exists r. rewrite Hn, Hcl, Hup. done.
    + assert (Hpf : p ∈ failed) by (apply Hfail; exists (ToUpstream r); rewrite Hn; done).
      destruct Hor as [Ha|?]; [|done]. unfold agrees in Ha. change (client_in t p = Some pt) in Hcase. by rewrite Hcase in Ha.
  - apply Hnone in Hp. intros r Hr. destruct (upstreams_of rows !! p) as [u|]; [|by destruct (Hcfg r)].
    destruct Hcfg as (r' & Hr' & ->). rewrite (Hu p r r' Hr Hr'). apply Hp.
Qed.

Lemma boot_live d s : cred_ok d -> names_unique d -> boot_transport url_parses socks5_builds defaults d = Ok s ->
  provider_ok s /\ is_live s /\ cred_same d s.(padb) /\
  forall p pt, client_in s.(live) p = Some pt -> client_of pt.(pt_upstream) = Ok pt.(pt_client).
Proof.
  intros Hd Hu. unfold boot_transport. destruct (Load d) as [[[ups cs]|e] d'] eqn:Hl; [|done]. intros [= <-].
  apply tx_bind_Ok in Hl as (rows & d1 & Hps & Hl). apply tx_bind_Ok in Hl as (crows & d2 & Hc & [= <- _ <-]).
  destruct (ListProviders_rows d rows d1 Hd Hps) as (Hs1 & Hin).
  destruct (list_spec _ _ _ _ (proj1 Hs1) Hc) as (Hs2 & _).
  assert (Hs : cred_same d d2) by by eapply cred_same_trans.
  assert (Hcfg : foldl (fun m u => <[u.(UProvider) := u]> m) ∅ (map ToUpstream rows) = upstreams_of rows).
  { by rewrite foldl_map. }
  rewrite Hcfg. pose proof (fun p => build_loop_lookup url_parses socks5_builds defaults (map_to_list (upstreams_of rows)) 0 p
    (NoDup_fst_map_to_list _)) as Hb.
  unfold NewTransport, buildProviders. destruct (build_loop _ _ _ _ _) as [m n].
  assert (Hin' : forall p u, (p, u) ∈ map_to_list (upstreams_of rows) <-> upstreams_of rows !! p = Some u) by (intros; apply elem_of_map_to_list).
  cbn [padb live]. splits.
  - constructor; [apply Hs|by apply (names_same d)].
  - intros p. apply (agrees_same d); [done|]. unfold agrees, client_in. cbn. specialize (Hb p).
    pose proof (upstreams_named d rows p Hin Hu) as Hn. destruct (m !! p) as [pt|].
    + destruct Hb as (u & Hu'%Hin' & Hok & Hup & _). rewrite Hu' in Hn. destruct Hn as (r & Hr & ->). exists r. done.
    + intros r Hr. destruct (upstreams_of rows !! p) as [u|] eqn:Hp; [|by destruct (Hn r)].
      destruct Hn as (r' & Hr' & ->). rewrite (Hu p r r' Hr Hr'). apply Hb. by apply Hin'.
  - done.
  - intros p pt Hpt. unfold client_in in Hpt. cbn in Hpt. specialize (Hb p). rewrite Hpt in Hb.
    destruct Hb as (u & _ & Hok & -> & _). done.
Qed.

(** ** The handlers *)

Lemma provider_stored_cases {A} (t : ctx A) failed f (s : State) a s' : provider_stored t failed f s = (a, s') ->
  (exists e d, t s.(padb) = (Err e, d) /\ a = failed e /\ s' = mkProviderAdmin d s.(live)) \/
  (exists x d, t s.(padb) = (Ok x, d) /\ f x (mkProviderAdmin d s.(live)) = (a, s')).
Proof. unfold provider_stored. destruct (t (padb s)) as [[x|e] d]; [eauto|]. intros [= <- <-]. left. by eexists _, _. Qed.

(** What a request does: requests that are not updates, or refused ones, leave the table and the
    map of clients; an update changes the row and builds the map again. *)
Inductive provider_effect (c : ProviderCall) (s : State) (a : Z * ProviderBody) (s' : State) : Prop :=
| pe_read : cred_same s.(padb) s'.(padb) -> s'.(live) = s.(live) ->
    (forall commit name body, c = PcUpdate commit name body -> a.1 = StatusBadRequest /\ s' = s) -> provider_effect c s a s'
| pe_update commit name payload d1 : c = PcUpdate commit name (Ok payload) ->
    unsafe payload.(UPNetwork) && negb payload.(ConfirmUnsafe) = false -> validateProviderSettings url_parses payload = Ok () ->
    changed name payload.(UPNetwork) payload.(UPProxy) s.(padb) d1 -> cred_same d1 s'.(padb) ->
    (a = not_live /\ s'.(live) = s.(live) \/
     exists rows failed, (forall r, In r rows <-> tbl d1.(provs) r.(SPID) = Some r) /\ swap s.(live) (upstreams_of rows) = (s'.(live), failed) /\
       (a = previous_runs \/ (name ∉ failed /\ (a = unrendered \/
          exists r, named d1 name r /\ a = (StatusOK, PView (annotate registry catalog (redact r))))))) -> provider_effect c s a s'.

Lemma read_effect {A} c (t : ctx A) failed f (s : State) a s' : (forall commit name body, c <> PcUpdate commit name body) ->
  (forall res d, t s.(padb) = (res, d) -> cred_same s.(padb) d) -> (forall x s1, (f x s1).2 = s1) ->
  provider_stored t failed f s = (a, s') -> provider_effect c s a s'.
Proof.
  intros Hc Ht Hf [(e & d & Hx & -> & ->)|(x & d & Hx & Hfx)]%provider_stored_cases; pose proof (Ht _ _ Hx) as Hs.
  - apply pe_read; [done|done|]. intros commit name body ->. by destruct (Hc commit name body).
  - pose proof (Hf x (mkProviderAdmin d s.(live))) as He. rewrite Hfx in He. cbn in He. subst s'.
    apply pe_read; [done|done|]. intros commit name body ->. by destruct (Hc commit name body).
Qed.

Lemma serve_effect c s a s' : provider_ok s -> serve_provider c s = (a, s') -> provider_effect c s a s'.
Proof.
  intros [Hd Hu] Hs. destruct c as [|name|name|commit name body]; cbn [ProviderAdmin.serve_provider] in Hs.
  - eapply read_effect; [done| | |exact Hs]; [|done]. intros res d. unfold ListProvidersRedacted, mbind, Tx_bind.
    destruct (ListProviders (padb s)) as [[rows|e] d1] eqn:Hl; intros [= _ <-]; by eapply ListProviders_same.
  - eapply read_effect; [done| | |exact Hs]; [|done]. intros res d Hg. by eapply GetProviderRedacted_rows.
  - eapply read_effect; [done| | |exact Hs]; [|done]. intros res d Hg. by eapply GetProviderRedacted_rows.
  - assert (Hself : cred_same s.(padb) s.(padb)) by done.
    assert (Href : forall b, ((StatusBadRequest, b), s) = (a, s') -> provider_effect (PcUpdate commit name body) s a s').
    { intros b [= <- <-]. apply pe_read; [done|done|]. by intros. }
    unfold updateProvider in Hs. destruct body as [payload|msg]; [|by eapply Href].
    destruct (negb (Registry_Has _ _)); [by eapply Href|]. destruct (NetworkConfig_IsZero _ && _); [by eapply Href|].
    destruct (unsafe _ && _) eqn:Hunsafe; [by eapply Href|].
    destruct (validateProviderSettings _ _) as [[]|e] eqn:Hval; [|by eapply Href].
    apply provider_stored_cases in Hs as [(e & d & Hx & -> & ->)|([] & d1 & Hx & Hs)];
      pose proof (UpdateProviderConfig_rows _ _ _ _ _ _ _ Hd Hu Hx) as Hch; cbn beta iota in Hch.
    { subst d. eapply Href. by destruct s. }
    apply provider_stored_cases in Hs as [(e & d2 & Hx2 & -> & ->)|(rows & d2 & Hx2 & Hs)]; cbn [padb live] in *.
    { eapply pe_update; [done|done|done|exact Hch| |left; done]. eapply ListProviders_same; [apply (ch_ok _ _ _ _ _ Hch)|exact Hx2]. }
    destruct (ListProviders_rows _ _ _ (ch_ok _ _ _ _ _ Hch) Hx2) as (Hs2 & Hin).
    unfold swap_and_show in Hs. cbn [live padb] in Hs. destruct (ProviderAdmin.swap _ _ _ _ _) as [t failed] eqn:Hswap.
    destruct (bool_decide (name ∈ failed)) eqn:Hfail.
    { injection Hs as <- <-. eapply pe_update; [done|done|done|exact Hch|exact Hs2|]. right. exists rows, failed. auto. }
    apply bool_decide_eq_false in Hfail.
    apply provider_stored_cases in Hs as [(e & d3 & Hx3 & -> & ->)|(row & d3 & Hx3 & Hs)]; cbn [padb live] in *.
    + eapply pe_update; [done|done|done|exact Hch| |]; [eapply cred_same_trans; [exact Hs2|exact (proj1 (GetProviderRedacted_rows _ _ _ _ (proj1 Hs2) Hx3))]|].
      right. exists rows, failed. split; [done|]. split; [exact Hswap|]. right. split; [done|]. by left.
    + injection Hs as <- <-. destruct (GetProviderRedacted_rows _ _ _ _ (proj1 Hs2) Hx3) as (Hs3 & Hrow).
      destruct (Hrow row eq_refl) as (r & Hr & ->).
      eapply pe_update; [done|done|done|exact Hch|by eapply cred_same_trans|]. right. exists rows, failed.
      split; [done|]. split; [done|]. right. split; [done|]. right. exists r. split; [by apply (named_same d1 d2)|done].
Qed.

Lemma effect_ok c s a s' : provider_ok s -> provider_effect c s a s' -> provider_ok s'.
Proof.
  intros [Hd Hu] [Hs _ _|commit name payload d1 _ _ _ Hch Hs _]; constructor; try apply Hs.
  - by eapply names_same.
  - eapply names_same; [exact Hs|]. by apply (ch_unique _ _ _ _ _ Hch).
Qed.

Lemma effect_live c s a s' : provider_ok s -> provider_effect c s a s' -> a <> not_live -> a <> previous_runs -> is_live s -> is_live s'.
Proof.
  intros [Hd Hu] [Hs Hl _|commit name payload d1 _ _ _ Hch Hs Hcase] Hn1 Hn2 Hlive p.
  - rewrite Hl. apply (agrees_same s.(padb)); [done|apply Hlive].
  - destruct Hcase as [[? _]|(rows & failed & Hin & Hswap & Hcase)]; [done|].
    destruct Hcase as [?|[Hnf _]]; [done|]. apply (agrees_same d1); [done|].
    apply (swap_agrees d1 s.(live) rows _ failed p Hin (ch_unique _ _ _ _ _ Hch Hu) Hswap).
    destruct (decide (p = name)) as [->|Hne]; [by right|]. left. specialize (Hlive p). unfold agrees in *.
    destruct (client_in (live s) p) as [pt|].
    + destruct Hlive as (r & Hr & Hrest). exists r. split; [by apply (ch_other _ _ _ _ _ Hch)|done].
    + intros r Hr. apply Hlive. by apply (ch_other _ _ _ _ _ Hch) in Hr.
Qed.

(** Requests none of which left the old map in place. *)
Definition went_live (l : list (Z * ProviderBody)) : Prop := Forall (fun a => a <> not_live /\ a <> previous_runs) l.

Lemma serve_providers_ok (P : State -> Prop) cs :
  (forall c s a s', c ∈ cs -> provider_ok s -> serve_provider c s = (a, s') -> provider_effect c s a s' -> P s -> P s') ->
  forall s l s', serve_providers cs s = (l, s') -> provider_ok s -> P s -> provider_ok s' /\ P s'.
Proof.
  induction cs as [|c cs IH]; intros Hstep s l s'; cbn [ProviderAdmin.serve_providers]; [by intros [= _ <-]|].
  destruct (serve_provider c s) as [a s1] eqn:Hc. destruct (serve_providers cs s1) as [l' s2] eqn:Hcs. intros [= _ <-] Hok HP.
  pose proof (serve_effect _ _ _ _ Hok Hc) as He. eapply IH; [|exact Hcs|by eapply effect_ok|].
  - intros c' s3 a3 s4 Hin. apply Hstep. by right.
  - eapply (Hstep c); [left|exact Hok|exact Hc|exact He|exact HP].
Qed.

Lemma serve_providers_live cs : forall s l s', serve_providers cs s = (l, s') -> provider_ok s -> went_live l -> is_live s ->
  provider_ok s' /\ is_live s'.
Proof.
  induction cs as [|c cs IH]; intros s l s'; cbn [ProviderAdmin.serve_providers]; [by intros [= _ <-]|].
  destruct (serve_provider c s) as [a s1] eqn:Hc. destruct (serve_providers cs s1) as [l' s2] eqn:Hcs. intros [= <- <-] Hok Hw HP.
  pose proof (serve_effect _ _ _ _ Hok Hc) as He. apply Forall_cons in Hw as [[Hn1 Hn2] Hw].
  eapply IH; [exact Hcs|by eapply effect_ok|done|by eapply effect_live].
Qed.

(** C17: Settings go live.  From the boot of the gateway on, after any requests of the
    administration none of which was answered as stored but not running, every provider is served
    with the settings of its row: its client is the one built from that row, and it has none only
    when none can be built.  An update answered 200 stored exactly the settings it was given and
    shows the row with the secrets of the proxy masked; one answered 400 changed nothing. *)
Theorem settings_live d s0 cs l s : cred_ok d -> names_unique d ->
  boot_transport url_parses socks5_builds defaults d = Ok s0 -> serve_providers cs s0 = (l, s) -> went_live l ->
  (forall p, agrees s.(padb) s.(live) p) /\
  forall commit name payload a s', serve_provider (PcUpdate commit name (Ok payload)) s = (a, s') ->
    (a.1 = StatusOK -> exists r, named s'.(padb) name r /\ r.(SPNetwork) = payload.(UPNetwork) /\ r.(SPProxy) = payload.(UPProxy) /\
      agrees s'.(padb) s'.(live) name /\ a.2 = PView (annotate registry catalog (redact r))) /\
    (a.1 = StatusBadRequest -> s' = s).
Proof.
  intros Hd Hu Hb Hs Hw. destruct (boot_live d s0 Hd Hu Hb) as (Hok0 & Hlive0 & _).
  destruct (serve_providers_live cs s0 l s Hs Hok0 Hw Hlive0) as [Hok Hlive]. split; [exact Hlive|].
  intros commit name payload a s' Hserve. pose proof (serve_effect _ _ _ _ Hok Hserve) as He.
  pose proof (effect_live _ _ _ _ Hok He) as Hl.
  destruct He as [_ _ Href|commit' name' payload' d1 [= <- <- <-] _ _ Hch Hsame Hcase].
  { destruct (Href _ _ _ eq_refl) as [H1 ->]. rewrite H1. done. }
  destruct Hcase as [[-> _]|(rows & failed & _ & _ & [->|[_ [->|(r & Hr & ->)]]])]; [done|done|done|].
  split; [|done]. intros _. destruct (ch_row _ _ _ _ _ Hch) as (r0 & _ & Hnew).
  pose proof (ch_unique _ _ _ _ _ Hch (po_unique _ Hok) _ _ _ Hr Hnew) as ->.
  exists (with_settings (UPNetwork payload) (UPProxy payload) r0).
  split; [by apply (named_same d1)|]. split; [done|]. split; [done|]. split; [by apply Hl|done].
Qed.

(** ** Unsafe settings *)

Lemma newClient_verify u c : client_of u = Ok c -> c.(SkipVerify) = u.(Network).(InsecureSkipVerify).
Proof.
  unfold client_of, newClient. destruct (Proxy u) as [p|]; [|by intros [= <-]]. unfold applyProxy.
  destruct (String.eqb _ ProxyEnvironment); [by intros [= <-]|].
  destruct (String.eqb _ ProxyHTTP); [destruct (negb _); [done|]; by intros [= <-]|].
  destruct (String.eqb _ ProxySOCKS5); [|done]. destruct (negb _); [done|]. by intros [= <-].
Qed.

Definition all_safe (d : Db) : Prop := forall p r, named d p r -> unsafe r.(SPNetwork) = false.

(** No client of the map was built from unsafe settings. *)
Definition clients_safe (t : TransportState) : Prop := forall p pt, client_in t p = Some pt ->
  client_of pt.(pt_upstream) = Ok pt.(pt_client) /\ unsafe pt.(pt_upstream).(Network) = false.

Definition confirms (c : ProviderCall) : bool := match c with PcUpdate _ _ (Ok payload) => payload.(ConfirmUnsafe) | _ => false end.

Lemma all_safe_same d d' : cred_same d d' -> all_safe d -> all_safe d'.
Proof. intros Hs Ha p r Hr. apply (Ha p). by apply (named_same d d'). Qed.

Lemma all_safe_changed name network proxy d d' : changed name network proxy d d' -> names_unique d -> unsafe network = false ->
  all_safe d -> all_safe d'.
Proof.
  intros Hch Hu Hn Ha p r Hr. destruct (decide (p = name)) as [->|Hne].
  - destruct (ch_row _ _ _ _ _ Hch) as (r0 & _ & Hnew). by rewrite (ch_unique _ _ _ _ _ Hch Hu _ _ _ Hr Hnew).
  - apply (Ha p). by apply (ch_other _ _ _ _ _ Hch).
Qed.

Lemma swap_safe d t rows t' failed : (forall r, In r rows <-> tbl d.(provs) r.(SPID) = Some r) -> names_unique d ->
  swap t (upstreams_of rows) = (t', failed) -> all_safe d -> clients_safe t -> clients_safe t'.
Proof.
  intros Hin Hu Hswap Ha Hc p pt. pose proof (upstreams_named d rows p Hin Hu) as Hcfg.
  pose proof (Replace_spec url_parses socks5_builds defaults t (upstreams_of rows)) as Hr.
  unfold ProviderAdmin.swap in Hswap. rewrite Hswap in Hr. cbn zeta in Hr. destruct Hr as (m & Hm & _ & Hsome & _).
  rewrite (client_in_Some _ _ p Hm). intros Hp. destruct (Hsome p pt Hp) as (u & Hcu & Hcase).
  rewrite Hcu in Hcfg. destruct Hcfg as (r & Hr & ->). unfold client_of.
  destruct (newClient _ _ _ (ToUpstream r)) as [c|e] eqn:Hn; [|by apply (Hc p)].
  destruct Hcase as (-> & -> & _). split; [done|]. by apply (Ha p).
Qed.

(** The client checks the addresses of its targets: it never connects to a blocked one, directly or
    through a SOCKS5 proxy. *)
Definition checks_targets (c : Client) : Prop :=
  match c.(Via) with
  | NoProxy => forall address ip,
      guardedControl (negb c.(DialGuarded)) address (Ok ()) (Some ip) = Ok () -> isBlockedIP ip = false
  | ViaSOCKS5 _ _ guarded => forall (Conn : Type) direct split host ips (dial : Addr -> result string Conn) dialled r,
      guardedProxyDial (negb guarded) direct split host ips dial = (dialled, r) ->
      Forall (fun ip => isBlockedIP ip = false) dialled /\
      forall conn, r = Ok conn -> exists ip, ip ∈ dialled /\ dial ip = Ok conn
  | FromEnvironment | ViaHTTP _ _ _ => False
  end.

(** The proxies that resolve the target themselves. *)
Definition resolving_proxy (proxy : option ProxyConfig) : Prop :=
  exists p, proxy = Some p /\ (p.(PType) = ProxyHTTP \/ p.(PType) = ProxyEnvironment).

Lemma newClient_checks u c : client_of u = Ok c -> u.(Network).(AllowPrivateNetwork) = false ->
  checks_targets c \/ resolving_proxy u.(Proxy) /\ c.(DialGuarded) = false.
Proof.
  unfold client_of, newClient. intros Hn Hp. rewrite Hp in Hn. destruct u.(Proxy) as [p|] eqn:Hu.
  2: { injection Hn as <-. left. unfold checks_targets. cbn. intros address ip. unfold guardedControl.
       by destruct (isBlockedIP ip). }
  unfold applyProxy in Hn. destruct (String.eqb_spec (PType p) ProxyEnvironment) as [He|He].
  { injection Hn as <-. right. split; [exists p; by split; [|right]|done]. }
  destruct (String.eqb_spec (PType p) ProxyHTTP) as [Hh|Hh].
  { destruct (negb _); [done|]. injection Hn as <-. right. split; [exists p; by split; [|left]|done]. }
  destruct (String.eqb _ ProxySOCKS5); [|done]. destruct (negb (socks5_builds _ _)); [done|]. injection Hn as <-.
  left. unfold checks_targets. cbn. intros Conn direct split host ips dial dialled r. unfold guardedProxyDial.
  destruct split as [[]|e]; [|by intros [= <- <-]]. destruct ips as [ips|e]; [|by intros [= <- <-]].
  destruct (dial_loop_guarded dial ips None) as [H1 H2].
  assert (Hall : Forall (fun ip => isBlockedIP ip = false) (dial_loop dial ips None).1)
    by (eapply Forall_impl; [exact H1|]; by intros x [? _]).
  destruct (dial_loop dial ips None) as [l [conn|[e|]]]; intros [= <- <-]; cbn in *; (split; [done|]); try done.
  intros c [= <-]. by apply H2.
Qed.

(** C18: Unsafe settings take a confirmation.  If no provider is allowed to reach private
    networks or to skip the verification of certificates at boot, and no request confirms such
    settings, then whatever the requests the table never holds such settings, no client ever skips
    the verification, and every client that resolves its targets itself, directly or behind a
    SOCKS5 proxy, refuses to connect to an address of a private network.  The only clients without
    this check are those of an HTTP or environment proxy, which resolves the target: such a proxy
    takes no confirmation ([unconfirmed_proxy_is_unchecked]). *)
Theorem unsafe_needs_confirmation d s0 cs l s : cred_ok d -> names_unique d -> all_safe d ->
  boot_transport url_parses socks5_builds defaults d = Ok s0 -> serve_providers cs s0 = (l, s) ->
  Forall (fun c => confirms c = false) cs ->
  all_safe s.(padb) /\
  forall p pt, client_in s.(live) p = Some pt ->
    let c := pt.(pt_client) in
    c.(SkipVerify) = false /\
    (checks_targets c \/ resolving_proxy pt.(pt_upstream).(Proxy) /\ c.(DialGuarded) = false).
Proof.
  intros Hd Hu Ha Hb Hs Hconf. destruct (boot_live d s0 Hd Hu Hb) as (Hok0 & Hlive0 & Hsame0 & Hbuilt).
  assert (Hc0 : clients_safe s0.(live)).
  { intros p pt Hpt. split; [by eapply Hbuilt|]. specialize (Hlive0 p). unfold agrees in Hlive0. rewrite Hpt in Hlive0.
    destruct Hlive0 as (r & Hr & -> & _). apply (Ha p). by apply (named_same d _) in Hr. }
  destruct (serve_providers_ok (fun s => all_safe s.(padb) /\ clients_safe s.(live)) cs) with (2 := Hs) as (_ & Hall & Hcl);
    [|done|split; [by eapply all_safe_same|done]|].
  - intros c s1 a s2 Hin [_ Hu1] _ He [Ha1 Hc1]. rewrite Forall_forall in Hconf. specialize (Hconf c Hin).
    destruct He as [Hsame Hl _|commit name payload d1 -> Hun _ Hch Hsame Hcase].
    { split; [by eapply all_safe_same|by rewrite Hl]. }
    cbn in Hconf. rewrite Hconf, andb_true_r in Hun.
    pose proof (all_safe_changed _ _ _ _ _ Hch Hu1 Hun Ha1) as Ha2. split; [by eapply all_safe_same|].
    destruct Hcase as [[_ ->]|(rows & failed & Hrows & Hswap & _)]; [done|].
    by apply (swap_safe d1 s1.(live) rows _ failed Hrows (ch_unique _ _ _ _ _ Hch Hu1) Hswap).
  - split; [done|]. intros p pt Hpt c. destruct (Hcl p pt Hpt) as [Hok Hsafe]. apply orb_false_iff in Hsafe as [Hpriv Hskip].
    split; [unfold c; by rewrite (newClient_verify _ _ Hok)|].
    by apply (newClient_checks _ _ Hok).
Qed.
End properties.

(** ** Examples *)

Abbreviation MemProviders := (CredDb (MemTable StoreCredential) (MemTable StoreProvider)).

Definition proxied : updateProviderRequest :=
  mkUpdateProviderRequest (NetworkConfig0 <| MaxConnsPerHost := Some 8%Z |>)
    (Some (mkProxyConfig ProxyHTTP "http://proxy:3128" "user" "secret")) false.

Definition demo_adapters : Registry := Register (mkProviderInstance ProviderAzure (fun _ _ _ => None) (fun _ _ _ => None)) NewRegistry.
Abbreviation demo_boot := (boot_transport (fun _ => true) (fun _ _ => true) DefaultConfig.(Upstream_)).
Abbreviation demo_serve := (serve_provider (fun _ => true) (fun _ _ => true) DefaultConfig.(Upstream_) demo_adapters NewModelCatalog).
Abbreviation demo_serves := (serve_providers (fun _ => true) (fun _ _ => true) DefaultConfig.(Upstream_) demo_adapters NewModelCatalog).

Lemma cred_tables_unique f : names_unique (cred_tables f).
Proof. intros p r r' [Hr _] [Hr' _]. cbn in Hr, Hr'. apply lookup_singleton_Some in Hr as [_ <-], Hr' as [_ <-]. done. Qed.

(** A proxy is set; the row is shown with its user and password masked. *)
Lemma settings_live_witness :
  match demo_boot (cred_tables []) with
  | Ok s0 =>
      let '(a, s) := demo_serve (PcUpdate true ProviderAzure (Ok proxied)) s0 in
      a.1 = StatusOK /\ exists r, named s.(padb) ProviderAzure r /\ r.(SPProxy) = proxied.(UPProxy) /\
        a.2 = PView (annotate demo_adapters NewModelCatalog (redact r)) /\
        (Password <$> (redact r).(SPProxy)) = Some SecretMask
  | Err _ => False
  end.
Proof.
  destruct (demo_boot (cred_tables [])) as [s0|e] eqn:Hb; [|vm_compute in Hb; done].
  destruct (demo_serve (PcUpdate true ProviderAzure (Ok proxied)) s0) as [a s] eqn:Hs.
  assert (Ha : a.1 = StatusOK).
  { pose proof Hb as Hb'. vm_compute in Hb'. injection Hb' as Hb'. rewrite <- Hb' in Hs.
    apply (f_equal fst) in Hs. apply (f_equal fst) in Hs. cbn [fst] in Hs. rewrite <- Hs. vm_compute. reflexivity. }
  split; [exact Ha|].
  destruct (settings_live (fun _ => true) (fun _ _ => true) DefaultConfig.(Upstream_) demo_adapters NewModelCatalog
    (cred_tables []) s0 [] [] s0 (cred_tables_ok []) (cred_tables_unique []) Hb eq_refl) as [_ Hgo]; [constructor|].
  destruct (Hgo true ProviderAzure proxied a s Hs) as [Hok _]. destruct (Hok Ha) as (r & Hr & _ & Hp & _ & Hv).
  exists r. split; [exact Hr|]. split; [exact Hp|]. split; [exact Hv|]. unfold redact. cbn. rewrite Hp. reflexivity.
Defined.

Lemma unsafe_needs_confirmation_witness :
  match demo_boot (cred_tables []) with
  | Ok s0 =>
      let bad := mkUpdateProviderRequest (NetworkConfig0 <| InsecureSkipVerify := true |>) None false in
      let '(l, s) := demo_serves [PcUpdate true ProviderAzure (Ok bad); PcUpdate true ProviderAzure (Ok proxied)] s0 in
      map fst l = [StatusBadRequest; StatusOK] /\
      forall pt, client_in s.(live) ProviderAzure = Some pt -> pt.(pt_client).(SkipVerify) = false
  | Err _ => False
  end.
Proof.
  destruct (demo_boot (cred_tables [])) as [s0|e] eqn:Hb; [|vm_compute in Hb; done]. cbn zeta.
  set (cs := [_; _]). destruct (demo_serves cs s0) as [l s] eqn:Hs. split.
  { pose proof Hb as Hb'. vm_compute in Hb'. injection Hb' as Hb'. rewrite <- Hb' in Hs.
    apply (f_equal fst) in Hs. cbn [fst] in Hs. rewrite <- Hs. vm_compute. reflexivity. }
  intros pt Hpt.
  destruct (unsafe_needs_confirmation (fun _ => true) (fun _ _ => true) DefaultConfig.(Upstream_) demo_adapters NewModelCatalog
    (cred_tables []) s0 cs l s (cred_tables_ok []) (cred_tables_unique [])) as [_ H]; [|exact Hb|exact Hs| |exact (proj1 (H _ pt Hpt))].
  - intros p r [Hr _]. cbn in Hr. apply lookup_singleton_Some in Hr as [_ <-]. reflexivity.
  - repeat constructor.
Defined.

(** A request that confirms nothing gives a provider an HTTP proxy, and its client checks nothing. *)
Example unconfirmed_proxy_is_unchecked :
  match demo_boot (cred_tables []) with
  | Ok s0 =>
      let '(a, s) := demo_serve (PcUpdate true ProviderAzure (Ok proxied)) s0 in
      proxied.(ConfirmUnsafe) = false /\ a.1 = StatusOK /\
      ((fun pt => (pt.(pt_client).(DialGuarded), pt.(pt_client).(Via))) <$> client_in s.(live) ProviderAzure)
      = Some (false, ViaHTTP "http://proxy:3128" "user" "secret")
  | Err _ => False
  end.
Proof. vm_compute. split; [reflexivity|]. split; reflexivity. Qed.

(** The settings that are shown are not the settings to send back: the masked password of the
    proxy, sent back with another setting changed, is stored as the password. *)
Example echoed_proxy_loses_password :
  match demo_boot (cred_tables []) with
  | Ok s0 =>
      let s1 := (demo_serve (PcUpdate true ProviderAzure (Ok proxied)) s0).2 in
      match demo_serve (PcSettings ProviderAzure) s1 with
      | ((_, PSettings _ proxy overrides), s2) =>
          let echo := mkUpdateProviderRequest (overrides <| MaxConnsPerHost := Some 9%Z |>) proxy false in
          let '(a, s3) := demo_serve (PcUpdate true ProviderAzure (Ok echo)) s2 in
          a.1 = StatusOK /\ (Password <$> (tbl s3.(padb).(provs) "p1" ≫= SPProxy)) = Some SecretMask
      | _ => False
      end
  | Err _ => False
  end.
Proof. vm_compute. split; reflexivity. Qed.
