(* ===== verification/ModelPages.v ===== *)
(** * Listings of models and readiness ([internal/server/admin-handlers.go])

    The two listings of models, one of them in pages, and the readiness probe.  [sort.Slice] may
    order equal elements in any way: it is a class with the law of its documentation. *)

From stdpp Require Import sorting.
From S2P Require Import Prelude GoBase Float64 Errors Catalog Pricing VirtualKey Context Hooks Governance KeyStore StoreCatalog ModelCatalog Config Transport Providers KeyAdmin.
From Stdlib Require Import Sorted Ascii.

(** ** [sort.Slice] *)

Class SortSlice := sort_slice : forall {A : Type}, (A -> A -> bool) -> list A -> list A.

Definition weak_order {A} (less : A -> A -> bool) : Prop :=
  (forall x y, less x y = true -> less y x = false) /\
  (forall x y z, less y x = false -> less z y = false -> less z x = false).

Class SortSliceLaws `{SortSlice} := {
  sort_slice_perm {A} (less : A -> A -> bool) l : sort_slice less l ≡ₚ l;
  sort_slice_sorted {A} (less : A -> A -> bool) l : weak_order less -> Sorted (fun x y => less y x = false) (sort_slice less l)
}.

(** The slice expression [l[lo:hi]]; it panics outside of the slice. *)
Definition slice {A} (l : list A) (lo hi : Z) : option (list A) :=
  if (0 <=? lo)%Z && (lo <=? hi)%Z && (hi <=? Z.of_nat (List.length l))%Z
  then Some (take (Z.to_nat (hi - lo)) (drop (Z.to_nat lo) l)) else None.

(** ** The handlers *)

Record modelOption : Type := mkModelOption { MOID : string; MOModelName : string; MOModelType : string }.

(** The names of the registered adapters, sorted. *)
Definition name_before (a b : string) : bool := String.ltb a b.
Definition Registry_Providers `{SortSlice} (pi : Registry) : list Provider := sort_slice name_before (map_to_list pi).*1.

Definition positive_or (z : Z) (text : string) : Z := match Atoi text with Some n => if (0 <? n)%Z then n else z | None => z end.

Definition pageParams (limit_text offset_text : string) (def max : Z) : Z * Z :=
  let limit := positive_or def limit_text in
  let limit := if (max <? limit)%Z then max else limit in
  (limit, positive_or 0%Z offset_text).

Inductive ModelsBody : Type :=
| LMessage (msg : string)
| LOptions (out : list modelOption)
| LPage (models : list (ModelMetadata * option Pricing)) (total limit offset : Z).

Definition by_model_name (a b : ModelMetadata) : bool := name_before a.(MModelName) b.(MModelName).
Definition by_option_name (a b : modelOption) : bool := name_before a.(MOModelName) b.(MOModelName).

Section handlers.
Context `{SortSlice}.
Variable registry : Registry.
Variable catalog : ModelCatalog.

Definition listModels (provider : Provider) : Z * ModelsBody :=
  let runnable : gset string := list_to_set (Registry_Providers registry) in
  let out := List.filter (fun e => bool_decide (e.(MProvider) ∈ runnable)) (Models catalog provider) in
  (StatusOK, LOptions (sort_slice by_option_name
    (map (fun e => mkModelOption e.(MID) e.(MModelName) (ModelType_String e.(MModelType))) out))).

(** [None] is a panic. *)
Definition listModelCatalog (provider : Provider) (limit_text offset_text : string) : option (Z * ModelsBody) :=
  if is_empty provider then Some (StatusBadRequest, LMessage "provider is required")
  else if negb (Registry_Has registry provider) then
    Some (StatusBadRequest, LMessage "provider has no registered adapter in this build")
  else
    let '(limit, offset) := pageParams limit_text offset_text 100 500 in
    let entries := sort_slice by_model_name (Models catalog provider) in
    let total := Z.of_nat (List.length entries) in
    let offset := if (total <? offset)%Z then total else offset in
    let end_ := add64 offset limit in
    let end_ := if (total <? end_)%Z then total else end_ in
    window ← slice entries offset end_;
    Some (StatusOK, LPage (map (fun md => (md, BasePrice catalog (ModelMetadata_CatalogKey md))) window) total limit offset).
End handlers.

(** ** Readiness *)

(** [Governance.Ready]: the cache of keys of a governance that was made, and whether it has one of
    budgets. *)
Definition Governance_Ready (governance : option (KeyCache * bool)) : bool :=
  match governance with Some (keys, budgets) => KeyCache_Loaded keys && budgets | None => false end.

Definition handleReady {Hk : Type} (listening : bool) (catalog : ModelCatalog) (registry : Registry)
    (governance : option (KeyCache * bool)) (hooks : HookEngine Hk) : Z * (string * list (string * bool)) :=
  let checks := [("listening", listening); ("catalog", Catalog_Ready catalog);
                 ("adapters", (0 <? Registry_Len registry)%nat); ("governance", Governance_Ready governance);
                 ("hooks", (0 <? Registered hooks)%nat)] in
  if existsb (fun c => negb c.2) checks then (StatusServiceUnavailable, ("not ready", checks))
  else (StatusOK, ("ready", checks)).

(** ** The order of names *)

Lemma ascii_compare_N a b : Ascii.compare a b = N.compare (N_of_ascii a) (N_of_ascii b).
Proof. reflexivity. Qed.

Lemma ltb_trichotomy a : forall b, String.ltb a b = true \/ a = b \/ String.ltb b a = true.
Proof.
  intros b. unfold String.ltb. destruct (String.compare a b) eqn:Hc; [|by left|].
  - right. left. by apply String.compare_eq_iff.
  - right. right. rewrite String.compare_antisym, Hc. done.
Qed.

Lemma ltb_asym a b : String.ltb a b = true -> String.ltb b a = false.
Proof. unfold String.ltb. rewrite (String.compare_antisym b a). by destruct (String.compare a b). Qed.

Lemma ltb_trans a : forall b c, String.ltb a b = true -> String.ltb b c = true -> String.ltb a c = true.
Proof.
  unfold String.ltb. induction a as [|x a IH]; intros [|y b] [|z c]; cbn; try done.
  rewrite !ascii_compare_N. destruct (N.compare_spec (N_of_ascii x) (N_of_ascii y)) as [Hxy|Hxy|Hxy]; [| |done].
  - rewrite Hxy. destruct (N.compare_spec (N_of_ascii y) (N_of_ascii z)); [apply IH|done|done].
  - intros _. destruct (N.compare_spec (N_of_ascii y) (N_of_ascii z)) as [Hyz|Hyz|Hyz]; [| |done]; intros _;
      by rewrite (proj2 (N.compare_lt_iff _ _)) by lia.
Qed.

Lemma ltb_weak_order {A} (f : A -> string) : weak_order (fun x y => String.ltb (f x) (f y)).
Proof.
  split; [intros x y; apply ltb_asym|]. intros x y z Hyx Hzy. destruct (String.ltb (f z) (f x)) eqn:Hzx; [|done].
  destruct (ltb_trichotomy (f x) (f y)) as [Hxy|[Hxy|Hxy]]; [|congruence|congruence].
  pose proof (ltb_trans _ _ _ Hzx Hxy). congruence.
Qed.

(** ** Pages *)

Lemma slice_take {A} (l : list A) lo hi : (0 <= lo <= hi)%Z -> (hi <= Z.of_nat (List.length l))%Z ->
  slice l lo hi = Some (take (Z.to_nat (hi - lo)) (drop (Z.to_nat lo) l)).
Proof.
  intros [H0 H1] H2. unfold slice. by rewrite (proj2 (Z.leb_le 0 lo)), (proj2 (Z.leb_le lo hi)), (proj2 (Z.leb_le hi _)) by done.
Qed.

Lemma positive_or_spec z text : (Z.min 1 z <= positive_or z text)%Z /\
  (forall n, Atoi text = Some n -> (0 < n)%Z -> positive_or z text = n) /\
  (z = 0%Z -> forall n, Atoi text = Some n -> (0 <= n)%Z -> positive_or z text = n).
Proof.
  unfold positive_or. destruct (Atoi text) as [m|]; [|by splits; try lia].
  destruct (Z.ltb_spec 0 m); (split; [lia|split; [|intros ->]; intros n [= <-] ?; lia]).
Qed.

Lemma pageParams_spec lt ot : let '(limit, offset) := pageParams lt ot 100 500 in
  (1 <= limit <= 500)%Z /\ (0 <= offset)%Z /\
  (forall n, Atoi lt = Some n -> (0 < n <= 500)%Z -> limit = n) /\ (forall n, Atoi ot = Some n -> (0 <= n)%Z -> offset = n).
Proof.
  unfold pageParams. cbn zeta. pose proof (positive_or_spec 100 lt) as (Hl & Hln & _). pose proof (positive_or_spec 0 ot) as (Ho & _ & Hon).
  splits; [| |lia| |].
  - destruct (Z.ltb_spec 500 (positive_or 100 lt)); lia.
  - destruct (Z.ltb_spec 500 (positive_or 100 lt)); lia.
  - intros n Hn Hb. rewrite (Hln n Hn) by lia. destruct (Z.ltb_spec 500 n); lia.
  - intros n Hn Hb. by apply Hon.
Qed.

Lemma take_drop_pages {A} (l : list A) L n : (List.length l <= n * L)%nat ->
  List.concat (map (fun k => take L (drop (k * L) l)) (seq 0 n)) = l.
Proof.
  revert l. induction n as [|n IH]; intros l Hl.
  { destruct l; [done|cbn in Hl; lia]. }
  cbn [seq map List.concat]. rewrite Nat.mul_0_l, drop_0. rewrite <- seq_shift, map_map.
  rewrite (map_ext _ (fun k => take L (drop (k * L) (drop L l)))) by (intros k; rewrite drop_drop; do 2 f_equal; lia).
  rewrite IH by (rewrite length_drop; lia). apply take_drop.
Qed.

Section pages.
Context `{SortSliceLaws}.

Definition page_of (r : option (Z * ModelsBody)) : list ModelMetadata :=
  match r with Some (_, LPage models _ _ _) => map fst models | _ => [] end.

(** One page is the window of the sorted models that its parameters name. *)
Lemma listModelCatalog_window registry catalog p lt ot : Registry_Has registry p = true -> is_empty p = false ->
  (Z.of_nat (List.length (Models catalog p)) <= 2 ^ 48)%Z ->
  let all := sort_slice by_model_name (Models catalog p) in
  let '(limit, from) := pageParams lt ot 100 500 in
  let offset := Z.min (Z.of_nat (List.length all)) from in
  listModelCatalog registry catalog p lt ot = Some (StatusOK,
    LPage (map (fun md => (md, BasePrice catalog (ModelMetadata_CatalogKey md))) (take (Z.to_nat limit) (drop (Z.to_nat offset) all)))
      (Z.of_nat (List.length all)) limit offset).
Proof.
  intros Hreg Hp Hlen all. pose proof (pageParams_spec lt ot) as Hpar. unfold listModelCatalog. rewrite Hp, Hreg. cbn [negb].
  destruct (pageParams lt ot 100 500) as [limit from]. destruct Hpar as (Hl & Ho & _). cbn zeta. fold all.
  assert (Hall : List.length all = List.length (Models catalog p)) by (unfold all; by rewrite sort_slice_perm).
  assert (Hoff : (if (Z.of_nat (List.length all) <? from)%Z then Z.of_nat (List.length all) else from) = Z.min (Z.of_nat (List.length all)) from)
    by (destruct (Z.ltb_spec (Z.of_nat (List.length all)) from); lia).
  rewrite Hoff. set (offset := Z.min _ _). assert (Hofs : (0 <= offset <= Z.of_nat (List.length all))%Z) by lia.
  assert (Hadd : add64 offset limit = (offset + limit)%Z) by (apply wrap64_small; unfold in_int64, MinInt64, MaxInt64; lia).
  rewrite Hadd. set (end_ := if (_ <? _)%Z then _ else _).
  assert (Hend : end_ = Z.min (Z.of_nat (List.length all)) (offset + limit))
    by (unfold end_; destruct (Z.ltb_spec (Z.of_nat (List.length all)) (offset + limit)); lia).
  rewrite slice_take by lia. cbn [mbind option_bind]. do 4 f_equal.
  rewrite Hend. destruct (Z.le_ge_cases (offset + limit) (Z.of_nat (List.length all))).
  - f_equal. lia.
  - rewrite !take_ge; [done| |]; rewrite length_drop; lia.
Qed.

(** C23: The catalog of a provider is shown whole, in order and in pages of at most 500
    models.  Any parameters give a page, without a panic; consecutive pages of a size, as many as
    needed, make up exactly the models of the provider, each once, sorted by name. *)
Theorem pages_cover registry catalog p : Registry_Has registry p = true -> is_empty p = false ->
  (Z.of_nat (List.length (Models catalog p)) <= 2 ^ 48)%Z ->
  exists all, all ≡ₚ Models catalog p /\
  Sorted (fun x y => String.ltb y.(MModelName) x.(MModelName) = false) all /\
  (forall lt ot, exists models limit offset,
    listModelCatalog registry catalog p lt ot = Some (StatusOK, LPage models (Z.of_nat (List.length all)) limit offset) /\
    (List.length models <= 500)%nat /\ (1 <= limit <= 500)%Z /\ (0 <= offset <= Z.of_nat (List.length all))%Z /\
    Forall (fun mp => mp.2 = BasePrice catalog (ModelMetadata_CatalogKey mp.1)) models) /\
  (forall size lt (ots : nat -> string) n, Atoi lt = Some (Z.of_nat size) -> (0 < size <= 500)%nat ->
    (forall k, (k < n)%nat -> Atoi (ots k) = Some (Z.of_nat (k * size))) -> (List.length all <= n * size)%nat ->
    List.concat (map (fun k => page_of (listModelCatalog registry catalog p lt (ots k))) (seq 0 n)) = all).
Proof.
  intros Hreg Hp Hlen. exists (sort_slice by_model_name (Models catalog p)).
  split; [apply sort_slice_perm|]. split; [apply sort_slice_sorted, (ltb_weak_order MModelName)|].
  pose proof (fun lt ot => listModelCatalog_window registry catalog p lt ot Hreg Hp Hlen) as Hw. cbn zeta in Hw.
  set (all := sort_slice by_model_name (Models catalog p)) in *. split.
  - intros lt ot. specialize (Hw lt ot). pose proof (pageParams_spec lt ot) as Hpar.
    destruct (pageParams lt ot 100 500) as [limit from]. destruct Hpar as (Hl & Ho & _).
    eexists _, _, _. split; [exact Hw|]. split; [rewrite length_map, length_take; lia|]. split; [lia|]. split; [lia|].
    apply Forall_forall. intros mp (md & <- & _)%list_elem_of_In%in_map_iff. done.
  - intros size lt ots n Hlt Hsize Hots Hn. rewrite <- (take_drop_pages all size n Hn) at 1. f_equal.
    apply map_ext_in. intros k [_ Hk]%in_seq. specialize (Hw lt (ots k)). pose proof (pageParams_spec lt (ots k)) as Hpar.
    destruct (pageParams lt (ots k) 100 500) as [limit from]. destruct Hpar as (_ & _ & Hl & Ho).
    rewrite (Hl _ Hlt), (Ho _ (Hots k Hk)) in Hw by lia. rewrite Hw. cbn [page_of]. rewrite map_map, map_id, Nat2Z.id.
    destruct (Nat.le_ge_cases (k * size) (List.length all)).
    + do 2 f_equal. lia.
    + rewrite !drop_ge by lia. done.
Qed.
End pages.

(** ** An example *)

(** A sort that keeps the order of equal elements. *)
#[local] Instance stable_sort : SortSlice := fun A less l => @merge_sort A (fun x y => less y x = false) (fun x y => decide (less y x = false)) l.
#[local] Instance stable_sort_laws : SortSliceLaws.
Proof.
  constructor; [intros; apply merge_sort_Permutation|]. intros A less l [Hasym _]. apply Sorted_merge_sort.
  intros x y. destruct (less y x) eqn:Hl; [right; by apply Hasym|by left].
Qed.

Definition three_models : ModelCatalog :=
  let model name := mkModelMetadata name ProviderOpenAI ModelTypeChat name "" 0 (mkModelLimits 0 0 0 0) "" in
  mkModelCatalog (Some (mkModelSnapshot [model "o3"; model "gpt-4o"; model "gpt-5"] ∅ ∅)) None None.

Definition openai_adapter : Registry := Register (mkProviderInstance ProviderOpenAI (fun _ _ _ => None) (fun _ _ _ => None)) NewRegistry.

Lemma pages_cover_witness :
  let page ot := page_of (listModelCatalog openai_adapter three_models ProviderOpenAI "2" ot) in
  map MModelName (page "0" ++ page "2") = ["gpt-4o"; "gpt-5"; "o3"] /\
  (page "0" ++ page "2")%list ≡ₚ Models three_models ProviderOpenAI.
Proof.
  intros page. split; [reflexivity|].
  destruct (pages_cover openai_adapter three_models ProviderOpenAI eq_refl eq_refl) as (all & Hperm & _ & _ & Hpages);
    [vm_compute; congruence|].
  specialize (Hpages 2%nat "2" (fun k => match k with 0%nat => "0" | _ => "2" end) 2%nat eq_refl).
  rewrite <- Hperm at 1. rewrite <- Hpages; [reflexivity|lia| |].
  - intros [|[|k]] Hk; [reflexivity|reflexivity|lia].
  - rewrite (Permutation_length Hperm). vm_compute. lia.
Defined.
