(* ===== verification/RowTypes.v ===== *)
(** * Types of the metrics tables ([internal/metrics-engine/migrations/0001_init.sql])

    The columns of the two tables with the types their schema declares, and the theorem that every
    row the gateway writes has them.  A JSON column takes a valid text as it is and quotes a
    string. *)

From S2P Require Import Prelude GoBase Float64 Catalog Money Pricing VirtualKey Credential Context MetricsEvent Config EventRows MetricsEngine DuckDB.
Local Open Scope Z_scope.

(** ** The schema *)

Inductive ColumnType : Type := INTEGER | BIGINT | VARCHAR | TIMESTAMPTZ | JSON | BOOLEAN.

Record Column : Type := mkColumn { CoName : string; CoType : ColumnType; CoNotNull : bool }.

Definition column (name : string) (t : ColumnType) : Column := mkColumn name t false.
Definition not_null (name : string) (t : ColumnType) : Column := mkColumn name t true.

Definition events_schema : list Column :=
  [not_null "schema_version" INTEGER; not_null "id" VARCHAR; column "request_id" VARCHAR; not_null "kind" VARCHAR;
   column "request_kind" VARCHAR; not_null "request_endpoint" VARCHAR; not_null "cost_nano_usd" BIGINT;
   column "governance_client_id" VARCHAR; column "governance_virtual_key_id" VARCHAR; column "governance_budget_id" VARCHAR;
   not_null "outcome_result" VARCHAR; not_null "outcome_http_status" INTEGER; column "outcome_upstream_http_status" INTEGER;
   column "outcome_error_code" VARCHAR; column "outcome_error_category" VARCHAR; column "outcome_error_message" VARCHAR;
   not_null "started_at" TIMESTAMPTZ; not_null "timing_total_us" BIGINT; column "timing_ttfb_us" BIGINT;
   column "timing_ttft_us" BIGINT; column "timing_stages" JSON;
   column "routing_mode" VARCHAR; column "routing_credential_id" VARCHAR; column "routing_credential_name" VARCHAR;
   column "routing_attempts" INTEGER; column "routing_attempt_list" JSON;
   column "llm_requested_model" VARCHAR; column "llm_provider" VARCHAR; column "llm_model" VARCHAR;
   column "llm_upstream_model" VARCHAR; column "llm_stream" BOOLEAN; column "llm_finish_reason" VARCHAR;
   column "llm_tool_calls" JSON; column "llm_params" JSON; column "llm_pricing" JSON;
   column "usage_tier" VARCHAR; column "usage_input_tokens" BIGINT; column "usage_output_tokens" BIGINT;
   column "usage_total_tokens" BIGINT; column "usage_cached_input_tokens" BIGINT; column "usage_cache_creation_tokens" BIGINT;
   column "usage_reasoning_tokens" BIGINT; column "usage_detail" JSON;
   column "headers" JSON; not_null "payload_state" VARCHAR].

Definition payloads_schema : list Column :=
  [not_null "id" VARCHAR; not_null "started_at" TIMESTAMPTZ; column "client_request" JSON; column "normalized_request" JSON;
   column "provider_request" JSON; column "provider_response" JSON; column "normalized_response" JSON;
   column "client_response" JSON].

(** The code appends by the names of its own lists. *)
Lemma schema_names : map CoName events_schema = eventColumnNames /\ map CoName payloads_schema = eventPayloadColNames.
Proof. split; reflexivity. Qed.

Definition in_int32 (n : Z) : Prop := - 2 ^ 31 <= n < 2 ^ 31.

Lemma zero32 : in_int32 0.
Proof. unfold in_int32. lia. Qed.
Lemma zero64 : in_int64 0.
Proof. unfold in_int64, MinInt64, MaxInt64. lia. Qed.

Section types.
Context `{Json}.

(** The encoder writes valid JSON. *)
Class EncoderLaws := {
  stages_valid x s : marshal_stages x = Ok s -> json_valid s = true;
  attempts_valid x s : marshal_attempts x = Ok s -> json_valid s = true;
  strings_valid x s : marshal_strings x = Ok s -> json_valid s = true;
  pricing_valid x s : marshal_pricing x = Ok s -> json_valid s = true;
  usage_valid x s : marshal_usage x = Ok s -> json_valid s = true;
  headers_valid x s : marshal_headers x = Ok s -> json_valid s = true
}.
Context `{!EncoderLaws}.

Definition has_type (t : ColumnType) (v : Value) : Prop :=
  match t, v with
  | INTEGER, VInt n => in_int32 n
  | BIGINT, VInt n => in_int64 n
  | VARCHAR, VString _ | TIMESTAMPTZ, VTime _ | BOOLEAN, VBool _ | JSON, VString _ => True
  | JSON, VRaw s => json_valid s = true
  | _, _ => False
  end.

Definition cell_typed (c : Column) (v : option Value) : Prop :=
  match v with None => c.(CoNotNull) = false | Some x => has_type c.(CoType) x end.
Definition row_typed (schema : list Column) (row : list (option Value)) : Prop := List.Forall2 cell_typed schema row.

Lemma typed_some c v : has_type c.(CoType) v -> cell_typed c (Some v).
Proof. done. Qed.
Lemma typed_nullCheck name s : cell_typed (column name VARCHAR) (nullCheck s).
Proof. unfold nullCheck. by destruct (is_empty s). Qed.
Lemma typed_nz32 name v : in_int32 v -> cell_typed (column name INTEGER) (nz v).
Proof. unfold nz. by destruct (v =? 0). Qed.
Lemma typed_nz64 name v : in_int64 v -> cell_typed (column name BIGINT) (nz v).
Proof. unfold nz. by destruct (v =? 0). Qed.
Lemma typed_js name r : (forall s, r = Ok s -> json_valid s = true) -> cell_typed (column name JSON) (js r).1.
Proof. intros Hr. unfold js. destruct r as [s|e]; [|done]. destruct (_ || _ || _); [done|]. by apply Hr. Qed.
Lemma typed_body name b : cell_typed (column name JSON) (bodyJSON b).
Proof. unfold bodyJSON. destruct (is_empty _); [done|]. by destruct (json_valid _) eqn:Hv. Qed.
Lemma typed_opt name t {A} (o : option A) f : (forall x, o = Some x -> cell_typed (column name t) (f x)) ->
  cell_typed (column name t) (opt_cell o f).
Proof. intros Hf. destruct o as [x|]; [by apply Hf|done]. Qed.

(** ** Events of requests *)

Record usage_ranged (u : Usage) : Prop := mkUsageRanged {
  ur_input : in_int64 u.(InputTokens);
  ur_output : in_int64 u.(OutputTokens);
  ur_total : in_int64 u.(TotalTokens);
  ur_cached : in_int64 u.(CachedInputTokens);
  ur_creation : in_int64 u.(CacheCreationTokens);
  ur_reasoning : in_int64 u.(ReasoningTokens)
}.

(** The counters of a request are values of their Go types, and its statuses and number of
    attempts small. *)
Record ranged (rctx : DiffractLLMContext) : Prop := mkRanged {
  rg_status : in_int32 rctx.(ResponseStatus);
  rg_upstream : in_int32 rctx.(UpstreamStatus);
  rg_attempts : in_int32 rctx.(UpstreamAttempts);
  rg_ttfb : in_int64 rctx.(TTFB);
  rg_marks : Forall in_int64 rctx.(Marks);
  rg_usage u : rctx.(Usage_) = Some u -> usage_ranged u
}.

Lemma Microseconds_int64 d : in_int64 d -> in_int64 (Microseconds d).
Proof.
  unfold Microseconds, in_int64, MinInt64, MaxInt64. intros Hd. pose proof (Z.quot_rem' d 1000).
  pose proof (Z.rem_bound_abs d 1000). lia.
Qed.

(** The types hold of the event of a request. *)
Record event_typed (e : Event) : Prop := mkEventTyped {
  et_version : in_int32 e.(ESchemaVersion);
  et_cost : in_int64 e.(ECostNanoUSD);
  et_status o : e.(EOutcome) = Some o -> in_int32 o.(OHTTPStatus) /\ in_int32 o.(OUpstreamHTTPStatus);
  et_timing t : e.(ETiming) = Some t -> in_int64 t.(TTotalUS) /\ in_int64 t.(TTTFBUS) /\ in_int64 t.(TTTFTUS);
  et_routing r : e.(ERouting) = Some r -> in_int32 r.(RAttemptCount);
  et_llm l : e.(ELLM) = Some l -> l.(LParams) = None /\ forall u, l.(LUsage) = Some u -> usage_ranged u
}.

Lemma fill_typed uuid now rctx : ranged rctx -> event_typed (fill uuid now rctx Event0).
Proof.
  intros Hr. constructor; cbn.
  - unfold in_int32, SchemaVersion. lia.
  - pose proof (ToNanoUSD_bounds (Cost rctx)). unfold in_int64, MinInt64. lia.
  - intros o [= <-]. unfold outcome_of. destruct (CError rctx); (split; [apply Hr|apply Hr]).
  - intros t [= <-]. cbn. splits; apply Microseconds_int64; [apply time_sub_bounds|apply Hr|].
    destruct (Marks rctx !! _) as [m|] eqn:Hm; cbn; [|apply zero64].
    exact (Forall_lookup_1 _ _ _ _ (rg_marks _ Hr) Hm).
  - unfold routing_of. intros r. destruct (SelectedCredential rctx); [|done]. intros [= <-]. apply Hr.
  - intros l [= <-]. cbn. split; [done|]. apply Hr.
Qed.

Lemma event_of_typed config uuid now rctx e : ranged rctx -> event_of config uuid now rctx = Some e -> event_typed e.
Proof.
  intros Hr. unfold event_of. pose proof (fill_typed uuid now rctx Hr) as Ht. generalize dependent (fill uuid now rctx Event0). intros e0 Ht.
  unfold capturePayload. destruct (negb _); [by intros [= <-]|]. cbn zeta.
  destruct (clip (BodyBytes rctx) _) as [[req c1]|]; cbn; [|by intros [=]]. destruct (clip (ResponseBody rctx) _) as [[res c2]|]; cbn; [|by intros [=]].
  destruct req, res; intros [= <-]; [| | |done]; destruct Ht; constructor; assumption.
Qed.

(** ** Rows *)

Ltac typed_cell :=
  first [ apply typed_nullCheck | apply typed_body
        | apply typed_js; intros; eauto using stages_valid, attempts_valid, strings_valid, pricing_valid, usage_valid, headers_valid
        | apply typed_nz32; solve [auto] | apply typed_nz64; solve [auto] | apply typed_some; solve [done | auto] ].

Lemma event_row_typed e : event_typed e -> row_typed events_schema (map snd (event_columns e)).
Proof.
  intros [Hv Hc Hs Ht Hrt Hl]. unfold event_columns, events_schema. cbn [map snd].
  assert (Ho : in_int32 (default Outcome0 (EOutcome e)).(OHTTPStatus) /\ in_int32 (default Outcome0 (EOutcome e)).(OUpstreamHTTPStatus))
    by (destruct (EOutcome e) as [o|]; [by apply Hs|split; apply zero32]). destruct Ho as [Ho1 Ho2].
  assert (Hti : let t := default Timing0 (ETiming e) in in_int64 t.(TTotalUS) /\ in_int64 t.(TTTFBUS) /\ in_int64 t.(TTTFTUS))
    by (destruct (ETiming e) as [t|]; [by apply Ht|cbn; splits; apply zero64]). destruct Hti as (Ht1 & Ht2 & Ht3).
  assert (Hu : forall u, ELLM e ≫= LUsage = Some u -> usage_ranged u)
    by (intros u; destruct (ELLM e) as [l|]; [by apply Hl|done]).
  repeat (constructor; [solve [typed_cell | apply typed_opt; intros x Hx; typed_cell |
    apply typed_opt; intros x Hx; destruct (Hu x Hx); typed_cell |
    apply typed_opt; intros x Hx; specialize (Hrt x Hx); typed_cell |
    apply typed_opt; intros x Hx; destruct (Hl x Hx) as [-> _]; done]|]). constructor.
Qed.

Lemma payload_row_typed e p : row_typed payloads_schema (toPayloadValues e p).
Proof. unfold toPayloadValues, payloads_schema. repeat (constructor; [typed_cell|]). constructor. Qed.
End types.

(** ** Databases *)

Section databases.
Context {Db Txn App : Type} `{DuckLaws Db Txn App} `{Json} `{!EncoderLaws}.

Definition db_typed (d : Db) : Prop :=
  Forall (row_typed events_schema) (duck_rows d events_table) /\ Forall (row_typed payloads_schema) (duck_rows d payloads_table).

(** What the engine does to the database: batches of events of requests, and the pruning. *)
Inductive metrics_step (d d' : Db) : Prop :=
| ms_write es res :
    Forall (fun e => exists config uuid now rctx, ranged rctx /\ event_of config uuid now rctx = Some e) es ->
    DuckDB_Write es d = (res, d') -> metrics_step d d'
| ms_prune before res : Prune before d = (res, d') -> metrics_step d d'.

Lemma batch_typed es : Forall event_typed es ->
  Forall (row_typed events_schema) (concat (map (duck_event_rows false) es)) /\
  Forall (row_typed payloads_schema) (concat (map (duck_event_rows true) es)).
Proof.
  induction 1 as [|e es He _ [IH1 IH2]]; [done|]. cbn [map concat]. rewrite !Forall_app. unfold duck_event_rows at 1 3. splits; try done.
  - constructor; [by apply event_row_typed|done].
  - destruct (EPayload e) as [p|]; [|done]. constructor; [apply payload_row_typed|done].
Qed.

Lemma metrics_step_typed d d' : metrics_step d d' -> db_typed d -> db_typed d'.
Proof.
  intros [es res Hes Hw|before res Hp] [He Hpl].
  - destruct (DuckDB_Write_cases es d res d' Hw) as [(e & _ & Hd)|[_ Hd]]; [split; by rewrite Hd|].
    assert (Ht : Forall event_typed es).
    { eapply Forall_impl; [exact Hes|]. intros e (config & uuid & now & rctx & Hr & Hev). by eapply event_of_typed. }
    destruct (batch_typed es Ht). split; rewrite Hd; cbn; rewrite ?app_nil_r; by apply Forall_app.
  - destruct (Prune_cases before d res d' Hp) as [(e & _ & Hd)|(n & k & _ & Hd)]; split; rewrite Hd; try done; cbn;
      apply Forall_forall; intros r [Hr _]%list_elem_of_In%List.filter_In; apply list_elem_of_In in Hr; revert r Hr; by apply Forall_forall.
Qed.

(** C29: The metrics tables stay well typed.  However batches of events of requests are written
    and old ones pruned, failing calls included, each row of the tables of events and payloads has
    one cell per declared column, of the declared type: integers of the declared width, valid JSON
    or a string where JSON is declared, and no NULL where the column is declared NOT NULL. *)
Theorem tables_typed d d' : db_typed d -> star metrics_step d d' -> db_typed d'.
Proof. intros Hd. apply star_inv; [|done]. intros a b Ha Hs. by eapply metrics_step_typed. Qed.
End databases.

(** ** A batch in memory *)

#[local] Instance plain_json : Json := {|
  marshal_stages _ := Ok "[]"; marshal_attempts _ := Ok "[]"; marshal_strings _ := Ok "null"; marshal_pricing _ := Ok "null";
  marshal_usage _ := Ok "{}"; marshal_headers _ := Ok "null"; json_valid s := bool_decide (s ∈ ["[]"; "null"; "{}"])
|}.
#[local] Instance plain_laws : EncoderLaws.
Proof. constructor; by intros x s [= <-]. Qed.

Lemma tables_typed_witness :
  let '(r1, d1) := DuckDB_Write [demo_event "a"] (∅ : MemDuck) in
  let '(r2, d2) := Prune 5 d1 in
  r1 = Ok tt /\ List.length (duck_rows d1 events_table) = 1%nat /\ db_typed d1 /\ db_typed d2.
Proof.
  destruct (DuckDB_Write [demo_event "a"] (∅ : MemDuck)) as [r1 d1] eqn:H1. destruct (Prune 5 d1) as [r2 d2] eqn:H2.
  assert (Hs1 : metrics_step (∅ : MemDuck) d1).
  { eapply (ms_write _ _ [demo_event "a"] r1); [|exact H1]. constructor; [|constructor].
    exists small_config, "u", 0, (demo_request "a"). split; [|vm_compute; reflexivity].
    constructor; [apply zero32|apply zero32|apply zero32|apply zero64| |by intros u [=]].
    exact (Forall_replicate in_int64 NumStages 0 zero64). }
  assert (Hs2 : metrics_step d1 d2) by exact (ms_prune d1 d2 5 r2 H2).
  assert (H0 : db_typed (∅ : MemDuck)) by (split; constructor).
  split; [apply (f_equal fst) in H1; vm_compute in H1; congruence|].
  split; [apply (f_equal snd) in H1; cbn [snd] in H1; rewrite <- H1; vm_compute; reflexivity|].
  split; apply (tables_typed (∅ : MemDuck) _ H0).
  - eapply star_step; [exact Hs1|apply star_refl].
  - eapply star_step; [exact Hs1|]. eapply star_step; [exact Hs2|apply star_refl].
Defined.
