(* ===== verification/AzureAuth.v ===== *)
(** * Entra credentials of Azure ([internal/providers/azure/azure-auth.go])

    The credentials that fetch tokens are built once per settings and shared by all requests
    through a [sync.Map] keyed by a digest of the settings.  [azureTokenCredential] is one call
    alone; [token_step] interleaves any number of them, each loading, building and storing at its
    own pace.  The identity library is a record of functions, one per call as its answers may
    change. *)

From S2P Require Import Prelude GoBase GoCrypto Catalog Credential Migrations.
From Stdlib Require Import Ascii.

(** ** The identity library *)

Record Entra (Cred : Type) : Type := mkEntra {
  NewClientSecretCredential : string -> string -> string -> result string Cred;
  NewManagedIdentityCredential : string -> result string Cred;
  NewDefaultAzureCredential : result string Cred;
  GetToken : Cred -> list string -> result string string
}.
Arguments mkEntra {Cred}.
Arguments NewClientSecretCredential {Cred}.
Arguments NewManagedIdentityCredential {Cred}.
Arguments NewDefaultAzureCredential {Cred}.
Arguments GetToken {Cred}.

(** Who a credential authenticates as, and what the library documents of the credentials it builds:
    each authenticates as what it was built for. *)
Inductive Principal : Type :=
| ServicePrincipal (tenant client secret : string)
| ManagedIdentity (client : string)
| DefaultIdentity.

Record lawful {Cred : Type} (as_ : Cred -> Principal) (env : Entra Cred) : Prop := mkLawful {
  law_secret tenant client secret cred :
    NewClientSecretCredential env tenant client secret = Ok cred -> as_ cred = ServicePrincipal tenant client secret;
  law_managed client cred : NewManagedIdentityCredential env client = Ok cred -> as_ cred = ManagedIdentity client;
  law_default cred : NewDefaultAzureCredential env = Ok cred -> as_ cred = DefaultIdentity
}.

(** ** The key of the cache *)

Definition NUL : string := String "000"%char "".

Definition cache_text (settings : AzureSettings) : string :=
  join NUL [settings.(AuthMode); settings.(TenantID); settings.(AzClientID); settings.(ClientSecret); join "," settings.(Scopes)].
Definition cache_key (settings : AzureSettings) : string := sha256Hex (cache_text settings).

Section calls.
Context {Cred : Type}.
Implicit Types env : Entra Cred.

Definition build_credential env (settings : AzureSettings) : result string Cred :=
  if String.eqb settings.(AuthMode) AzureAuthServicePrincipal then
    NewClientSecretCredential env settings.(TenantID) settings.(AzClientID) settings.(ClientSecret)
  else if String.eqb settings.(AuthMode) AzureDefaultCredential then
    if negb (is_empty settings.(AzClientID)) then NewManagedIdentityCredential env settings.(AzClientID)
    else NewDefaultAzureCredential env
  else Err ("azure-provider : " ++ settings.(AuthMode) ++ " unknown settings found").

Definition token_scopes (settings : AzureSettings) : list string :=
  match settings.(Scopes) with [] => [DefaultAzureScope] | scopes => scopes end.

Definition get_token env (settings : AzureSettings) (cred : Cred) : result string string :=
  match GetToken env cred (token_scopes settings) with
  | Err e => Err ("azure : acquiring entra token : " ++ e)
  | Ok token => Ok token
  end.

(** [CredentialCache.LoadOrStore]: the value that is kept. *)
Definition load_or_store (key : string) (cred : Cred) (cache : gmap string Cred) : Cred * gmap string Cred :=
  match cache !! key with Some kept => (kept, cache) | None => (cred, <[key := cred]> cache) end.

(** A call alone. *)
Definition azureTokenCredential env (settings : AzureSettings) (cache : gmap string Cred) : result string string * gmap string Cred :=
  match cache !! cache_key settings with
  | Some cred => (get_token env settings cred, cache)
  | None =>
      match build_credential env settings with
      | Err e => (Err e, cache)
      | Ok cred => let '(kept, cache) := load_or_store (cache_key settings) cred cache in (get_token env settings kept, cache)
      end
  end.

(** ** Calls that interleave

    The library answers as it likes at each call, within its laws. *)

Variable as_ : Cred -> Principal.

Inductive TokenCall : Type :=
| TcLoading
| TcMissed
| TcBuilt (cred : Cred)
| TcReady (cred : Cred)
| TcDone (answer : result string string).

Record TokenState : Type := mkTokenState { cache : gmap string Cred; token_calls : gmap nat (AzureSettings * TokenCall) }.
#[local] Instance TokenState_eta : Eta TokenState := fun s => mkTokenState (cache s) (token_calls s).

Definition at_phase (i : nat) (settings : AzureSettings) (ph : TokenCall) (s : TokenState) : TokenState :=
  s <| token_calls ::= <[i := (settings, ph)]> |>.

Inductive token_step : TokenState -> TokenState -> Prop :=
| tk_call s i settings : s.(token_calls) !! i = None -> token_step s (at_phase i settings TcLoading s)
| tk_hit s i settings cred : s.(token_calls) !! i = Some (settings, TcLoading) ->
    s.(cache) !! cache_key settings = Some cred -> token_step s (at_phase i settings (TcReady cred) s)
| tk_miss s i settings : s.(token_calls) !! i = Some (settings, TcLoading) ->
    s.(cache) !! cache_key settings = None -> token_step s (at_phase i settings TcMissed s)
| tk_build s i settings env cred : s.(token_calls) !! i = Some (settings, TcMissed) -> lawful as_ env ->
    build_credential env settings = Ok cred -> token_step s (at_phase i settings (TcBuilt cred) s)
| tk_refused s i settings env e : s.(token_calls) !! i = Some (settings, TcMissed) -> lawful as_ env ->
    build_credential env settings = Err e -> token_step s (at_phase i settings (TcDone (Err e)) s)
| tk_store s i settings cred kept c : s.(token_calls) !! i = Some (settings, TcBuilt cred) ->
    load_or_store (cache_key settings) cred s.(cache) = (kept, c) ->
    token_step s (at_phase i settings (TcReady kept) (s <| cache := c |>))
| tk_token s i settings env cred : s.(token_calls) !! i = Some (settings, TcReady cred) -> lawful as_ env ->
    token_step s (at_phase i settings (TcDone (get_token env settings cred)) s).

Definition no_calls : TokenState := mkTokenState ∅ ∅.

(** ** Identities *)

Fixpoint has_nul (s : string) : bool :=
  match s with "" => false | String c s' => Ascii.eqb c "000"%char || has_nul s' end.

(** The texts of the identity hold no NUL, which separates them in the text that is digested. *)
Definition plain (s : AzureSettings) : bool :=
  negb (has_nul s.(AuthMode)) && negb (has_nul s.(TenantID)) && negb (has_nul s.(AzClientID)) && negb (has_nul s.(ClientSecret)).

Definition identity (s : AzureSettings) : string * string * string * string := (s.(AuthMode), s.(TenantID), s.(AzClientID), s.(ClientSecret)).

(** Two texts with the same SHA-256. *)
Definition collision (a b : string) : Prop := a <> b /\ sha256Hex a = sha256Hex b.

Lemma cut_nul a b r q : has_nul a = false -> has_nul b = false -> (a ++ NUL ++ r = b ++ NUL ++ q)%string -> a = b /\ r = q.
Proof.
  revert b. induction a as [|c a IH]; intros [|d b]; cbn; intros Ha Hb Heq.
  - by injection Heq.
  - apply orb_false_iff in Hb as [Hd _]. injection Heq as <- _. by rewrite Ascii.eqb_refl in Hd.
  - apply orb_false_iff in Ha as [Hc _]. injection Heq as -> _. by rewrite Ascii.eqb_refl in Hc.
  - apply orb_false_iff in Ha as [_ Ha], Hb as [_ Hb]. injection Heq as <- Heq. by destruct (IH b Ha Hb Heq) as [-> ->].
Qed.

Lemma same_text s s' : plain s = true -> plain s' = true -> cache_text s = cache_text s' -> identity s = identity s'.
Proof.
  unfold plain. rewrite !andb_true_iff, !negb_true_iff. intros [[[H1 H2] H3] H4] [[[G1 G2] G3] G4] Ht.
  unfold cache_text, join in Ht.
  apply cut_nul in Ht as [E1 Ht]; [|done|done]. apply cut_nul in Ht as [E2 Ht]; [|done|done].
  apply cut_nul in Ht as [E3 Ht]; [|done|done]. apply cut_nul in Ht as [E4 _]; [|done|done].
  unfold identity. by rewrite E1, E2, E3, E4.
Qed.

(** Who settings stand for. *)
Definition principal_of (s : AzureSettings) : option Principal :=
  if String.eqb s.(AuthMode) AzureAuthServicePrincipal then
    Some (ServicePrincipal s.(TenantID) s.(AzClientID) s.(ClientSecret))
  else if String.eqb s.(AuthMode) AzureDefaultCredential then
    Some (if is_empty s.(AzClientID) then DefaultIdentity else ManagedIdentity s.(AzClientID))
  else None.

Lemma identity_principal s s' : identity s = identity s' -> principal_of s = principal_of s'.
Proof. unfold identity, principal_of. by intros [= -> -> -> ->]. Qed.

Lemma built_principal env s cred : lawful as_ env -> build_credential env s = Ok cred -> principal_of s = Some (as_ cred).
Proof.
  intros [Hsec Hman Hdef]. unfold build_credential, principal_of.
  destruct (String.eqb _ AzureAuthServicePrincipal); [by intros ->%Hsec|].
  destruct (String.eqb _ AzureDefaultCredential); [|done].
  destruct (is_empty (AzClientID s)); cbn [negb]; [by intros ->%Hdef|by intros ->%Hman].
Qed.

(** A credential that one of the calls built under a key. *)
Definition of_key (calls : gmap nat (AzureSettings * TokenCall)) (key : string) (cred : Cred) : Prop :=
  exists j settings ph, calls !! j = Some (settings, ph) /\ cache_key settings = key /\ principal_of settings = Some (as_ cred).

Record token_ok (s : TokenState) : Prop := mkTokenOk {
  to_cache key cred : s.(cache) !! key = Some cred -> of_key s.(token_calls) key cred;
  to_built i settings cred : s.(token_calls) !! i = Some (settings, TcBuilt cred) -> principal_of settings = Some (as_ cred);
  to_ready i settings cred : s.(token_calls) !! i = Some (settings, TcReady cred) -> s.(cache) !! cache_key settings = Some cred
}.

(** A call that moves on keeps its settings. *)
Definition keeps_settings (s : TokenState) (i : nat) (settings : AzureSettings) : Prop :=
  forall settings' ph, s.(token_calls) !! i = Some (settings', ph) -> settings' = settings.

Lemma of_key_phase s i settings ph key cred : keeps_settings s i settings -> of_key s.(token_calls) key cred ->
  of_key (<[i := (settings, ph)]> s.(token_calls)) key cred.
Proof.
  intros Hk (j & st & ph' & Hj & Hrest). destruct (decide (j = i)) as [->|Hne].
  - pose proof (Hk _ _ Hj) as ->. exists i, settings, ph. by rewrite lookup_insert_eq.
  - exists j, st, ph'. by rewrite lookup_insert_ne by congruence.
Qed.

(** A call moves on: what is left to show of its new phase. *)
Lemma token_ok_phase s c i settings ph : token_ok s -> keeps_settings s i settings ->
  (forall key cred, s.(cache) !! key = Some cred -> c !! key = Some cred) ->
  (forall key cred, c !! key = Some cred -> of_key (<[i := (settings, ph)]> s.(token_calls)) key cred) ->
  match ph with
  | TcBuilt cred => principal_of settings = Some (as_ cred)
  | TcReady cred => c !! cache_key settings = Some cred
  | _ => True
  end ->
  token_ok (at_phase i settings ph (s <| cache := c |>)).
Proof.
  intros [Hc Hb Hr] Hk Hgrow Hnew Hph. constructor; cbn [cache token_calls at_phase]; [exact Hnew| |];
    intros j settings' cred Hj; unfold at_phase in Hj; cbn in Hj; apply lookup_insert_Some in Hj as [[-> [= <- ->]]|[Hne Hj]]; eauto.
Qed.

Lemma load_or_store_spec key cred (c : gmap string Cred) kept c' : load_or_store key cred c = (kept, c') ->
  c' !! key = Some kept /\ (forall k x, c !! k = Some x -> c' !! k = Some x) /\
  (forall k x, c' !! k = Some x -> c !! k = Some x \/ (k = key /\ x = cred)).
Proof.
  unfold load_or_store. destruct (c !! key) as [x|] eqn:Hk; intros [= <- <-]; [by eauto|]. split; [by rewrite lookup_insert_eq|]. split.
  - intros k y Hy. rewrite lookup_insert_ne by congruence. done.
  - intros k y [[<- <-]|[_ Hy]]%lookup_insert_Some; auto.
Qed.

Lemma token_step_ok s s' : token_ok s -> token_step s s' -> token_ok s'.
Proof.
  intros Hok Hs. pose proof (to_cache s Hok) as Hcache.
  assert (Hkeep : forall i settings ph, s.(token_calls) !! i = Some (settings, ph) -> keeps_settings s i settings)
    by (intros i settings ph Hi st ph' Hi'; congruence).
  assert (Hplain : forall i settings ph, keeps_settings s i settings ->
    match ph with TcBuilt cred => principal_of settings = Some (as_ cred)
                | TcReady cred => s.(cache) !! cache_key settings = Some cred | _ => True end ->
    token_ok (at_phase i settings ph s)).
  { intros i settings ph Hk Hph. apply (token_ok_phase s (cache s)); auto. intros key cred Hc. apply of_key_phase; auto. }
  destruct Hs as [s i settings Hi|s i settings cred Hi Hc|s i settings Hi Hc|s i settings env cred Hi Hl Hb|s i settings env e Hi Hl Hb|s i settings cred kept c Hi Hl|s i settings env cred Hi Hl].
  - apply Hplain; [|done]. intros st ph Hst. congruence.
  - apply Hplain; eauto.
  - apply Hplain; eauto.
  - apply Hplain; [eauto|]. by eapply built_principal.
  - apply Hplain; eauto.
  - destruct (load_or_store_spec _ _ _ _ _ Hl) as (Hkept & Hgrow & Hnew). apply token_ok_phase; eauto.
    intros key x Hx. destruct (Hnew key x Hx) as [Hold|[-> ->]]; [apply of_key_phase; eauto|].
    exists i, settings, (TcReady kept). rewrite lookup_insert_eq. splits; try done. by apply (to_built s Hok i).
  - apply Hplain; eauto.
Qed.

Lemma tokens_reachable s : star token_step no_calls s -> token_ok s.
Proof.
  apply star_inv; [intros a b Ha Hb; by eapply token_step_ok|]. constructor; cbn; intros *; by rewrite lookup_empty.
Qed.

(** A call alone is a run of its steps. *)
Lemma call_alone env settings (c : gmap string Cred) (calls : gmap nat (AzureSettings * TokenCall)) i answer c' :
  lawful as_ env -> calls !! i = None -> azureTokenCredential env settings c = (answer, c') ->
  exists s', star token_step (mkTokenState c calls) s' /\ s'.(cache) = c' /\ s'.(token_calls) !! i = Some (settings, TcDone answer).
Proof.
  intros Hlaw Hi Hrun. assert (Hcall := tk_call (mkTokenState c calls) i settings Hi). set (s1 := at_phase i settings TcLoading _) in Hcall.
  assert (H1 : s1.(token_calls) !! i = Some (settings, TcLoading)) by apply lookup_insert_eq.
  unfold azureTokenCredential in Hrun. destruct (c !! cache_key settings) as [cred|] eqn:Hc.
  - injection Hrun as <- <-. eexists. split.
    + eapply star_step; [exact Hcall|]. eapply star_step; [eapply (tk_hit s1 i settings cred H1 Hc)|].
      eapply star_step; [|apply star_refl]. eapply (tk_token _ i settings env cred); [apply lookup_insert_eq|exact Hlaw].
    + split; [reflexivity|apply lookup_insert_eq].
  - pose proof (tk_miss s1 i settings H1 Hc) as Hmiss. set (s2 := at_phase i settings TcMissed s1) in Hmiss.
    assert (H2 : s2.(token_calls) !! i = Some (settings, TcMissed)) by apply lookup_insert_eq.
    destruct (build_credential env settings) as [cred|e] eqn:Hb.
    + destruct (load_or_store (cache_key settings) cred c) as [kept c1] eqn:Hl. injection Hrun as <- <-.
      eexists. split.
      * eapply star_step; [exact Hcall|]. eapply star_step; [exact Hmiss|]. eapply star_step; [exact (tk_build s2 i settings env cred H2 Hlaw Hb)|].
        eapply star_step; [eapply (tk_store _ i settings cred kept c1); [apply lookup_insert_eq|exact Hl]|].
        eapply star_step; [|apply star_refl]. eapply (tk_token _ i settings env kept); [apply lookup_insert_eq|exact Hlaw].
      * split; [reflexivity|apply lookup_insert_eq].
    + injection Hrun as <- <-. eexists. split.
      * eapply star_step; [exact Hcall|]. eapply star_step; [exact Hmiss|]. eapply star_step; [exact (tk_refused s2 i settings env e H2 Hlaw Hb)|apply star_refl].
      * split; [reflexivity|apply lookup_insert_eq].
Qed.

(** The settings stand for the principal of the credential, unless SHA-256 collides on their text
    and that of a call. *)
Definition right_principal (s : TokenState) (settings : AzureSettings) (cred : Cred) : Prop :=
  principal_of settings = Some (as_ cred) \/
  exists j settings' ph, s.(token_calls) !! j = Some (settings', ph) /\ collision (cache_text settings') (cache_text settings).

Definition all_plain (s : TokenState) : Prop :=
  forall j settings ph, s.(token_calls) !! j = Some (settings, ph) -> plain settings = true.

Lemma cached_principal s settings cred : token_ok s -> all_plain s -> plain settings = true ->
  s.(cache) !! cache_key settings = Some cred -> right_principal s settings cred.
Proof.
  intros Hok Hall Hp Hc. destruct (to_cache s Hok _ _ Hc) as (j & st & ph & Hj & Hkey & Hpr).
  destruct (decide (cache_text st = cache_text settings)) as [Ht|Ht].
  - left. rewrite <- Hpr. symmetry. apply identity_principal, same_text; [by eapply Hall|done|done].
  - right. exists j, st, ph. done.
Qed.

(** C19: No token under another identity.  However calls interleave, their settings holding no NUL,
    a credential a call asks for its token authenticates as the principal of the call's own
    settings (the service principal with this tenant, client and secret, this managed identity, or
    the default one), unless SHA-256 collides on these settings and those of another call; calls
    with settings of one digest share one credential, whichever was stored first.  A further call
    that is answered with a token got it from such a credential, for the scopes of its own
    settings. *)
Theorem token_identity s : star token_step no_calls s -> all_plain s ->
  (forall i settings cred, s.(token_calls) !! i = Some (settings, TcReady cred) ->
     right_principal s settings cred /\
     forall j settings2 cred2, s.(token_calls) !! j = Some (settings2, TcReady cred2) -> cache_key settings2 = cache_key settings -> cred2 = cred) /\
  (forall env settings token c', lawful as_ env -> plain settings = true ->
     azureTokenCredential env settings s.(cache) = (Ok token, c') ->
     exists cred, right_principal s settings cred /\ GetToken env cred (token_scopes settings) = Ok token).
Proof.
  intros Hs Hall. pose proof (tokens_reachable s Hs) as Hok. split.
  - intros i settings cred Hi. pose proof (to_ready s Hok i settings cred Hi) as Hc. split.
    + apply cached_principal; [done|done|by eapply Hall|done].
    + intros j settings2 cred2 Hj Hk. pose proof (to_ready s Hok j settings2 cred2 Hj) as Hc2. rewrite Hk, Hc in Hc2. congruence.
  - intros env settings token c' Hlaw Hp Hrun.
    assert (Hget : forall cred, get_token env settings cred = Ok token -> GetToken env cred (token_scopes settings) = Ok token).
    { intros cred. unfold get_token. destruct (GetToken env cred _); [|done]. by intros [= ->]. }
    unfold azureTokenCredential in Hrun. destruct (s.(cache) !! cache_key settings) as [cred|] eqn:Hc.
    + injection Hrun as Ha <-. exists cred. split; [by apply cached_principal|by apply Hget].
    + destruct (build_credential env settings) as [cred|e] eqn:Hb; [|done].
      unfold load_or_store in Hrun. rewrite Hc in Hrun. injection Hrun as Ha <-.
      exists cred. split; [left; by eapply built_principal|by apply Hget].
Qed.
End calls.

(** ** Two requests that race *)

Definition demo_entra : Entra Principal :=
  mkEntra (fun tenant client secret => Ok (ServicePrincipal tenant client secret)) (fun client => Ok (ManagedIdentity client))
    (Ok DefaultIdentity)
    (fun cred scopes => Ok ("token for " ++ join "," scopes)).
Definition principal (secret : string) : AzureSettings := mkAzureSettings AzureAuthServicePrincipal "t" "c" secret [].

Lemma demo_lawful : lawful (fun cred => cred) demo_entra.
Proof. constructor; cbn; congruence. Qed.

(** Both find nothing and build; the second is given what the first stored. *)
Lemma token_identity_witness :
  exists s cred, star (token_step (fun cred => cred)) no_calls s /\
  s.(token_calls) !! 1%nat = Some (principal "s", TcReady cred) /\ s.(token_calls) !! 2%nat = Some (principal "s", TcReady cred) /\
  cred = ServicePrincipal "t" "c" "s" /\ right_principal (fun cred => cred) s (principal "s") cred.
Proof.
  set (cred := ServicePrincipal "t" "c" "s").
  assert (Hrun : exists s, star (token_step (fun cred => cred)) no_calls s /\ s.(token_calls) !! 1%nat = Some (principal "s", TcReady cred) /\
    s.(token_calls) !! 2%nat = Some (principal "s", TcReady cred) /\ all_plain s).
  { eexists. split.
    - eapply star_step; [by apply (tk_call _ _ 1 (principal "s"))|]. eapply star_step; [by apply (tk_call _ _ 2 (principal "s"))|].
      eapply star_step; [by apply (tk_miss _ _ 1 (principal "s"))|]. eapply star_step; [by apply (tk_miss _ _ 2 (principal "s"))|].
      eapply star_step; [apply (tk_build _ _ 1 (principal "s") demo_entra cred); [reflexivity|exact demo_lawful|reflexivity]|].
      eapply star_step; [apply (tk_build _ _ 2 (principal "s") demo_entra cred); [reflexivity|exact demo_lawful|reflexivity]|].
      eapply star_step; [eapply (tk_store _ _ 1 (principal "s") cred); reflexivity|].
      eapply star_step; [eapply (tk_store _ _ 2 (principal "s") cred cred); [reflexivity|]|apply star_refl].
      unfold load_or_store, at_phase. cbn -[cache_key]. rewrite lookup_insert_eq. reflexivity.
    - split; [reflexivity|]. split; [reflexivity|]. intros j st ph. unfold at_phase. cbn -[cache_key].
      rewrite !lookup_insert_Some, lookup_empty. intros Hj. naive_solver. }
  destruct Hrun as (s & Hs & H1 & H2 & Hall). exists s, cred. split; [exact Hs|]. split; [exact H1|]. split; [exact H2|].
  split; [reflexivity|].
  destruct (token_identity (fun cred => cred) s Hs Hall) as [Hid _]. exact (proj1 (Hid 1%nat _ _ H1)).
Defined.

(** The settings are joined without escaping: two that hold the separator share a credential. *)
Example nul_shares_key :
  let a := mkAzureSettings AzureAuthServicePrincipal ("t" ++ NUL ++ "c") "d" "s" [] in
  let b := mkAzureSettings AzureAuthServicePrincipal "t" ("c" ++ NUL ++ "d") "s" [] in
  cache_text a = cache_text b /\ identity a <> identity b.
Proof. split; [reflexivity|discriminate]. Qed.
