(* ===== verification/StoreModels.v ===== *)
(** * Models and prices row by row ([internal/dbstore/model_metadata.go], [pricing.go])

    The statements that create, read, change and delete one row of the tables of models and of base
    prices.  Both tables have a foreign key to the providers, and their statements differ only in
    the row: they are written once, for a table of rows [Row] next to the table of providers. *)

From S2P Require Import Prelude GoBase Float64 Catalog Credential Pricing VirtualKey Governance Gorm KeyStore StoreCatalog Secrets CredentialStore CustomPricing.

#[export] Instance StoreModelMetadata_key : Keyed StoreModelMetadata := MMID.

Inductive ModelRowError : Type :=
| NoProvider (name : Provider)
| RowCreate (what : string) (cause : DbError)
| RowCommit
| RowNotFound (id : string) (cause : DbError)
| RowNone (id : string)
| RowUpdate (id : string) (cause : DbError)
| RowDelete (id : string) (cause : DbError)
| RowList (cause : DbError).

(** ** A table with its providers *)

Section rows.
Context {Row Db PDb : Type} `{Keyed Row} `{Gorm Db Row} `{Gorm PDb StoreProvider}.
(** The foreign key of a row and the row with the provider it is preloaded with. *)
Variable provider_id : Row -> string.
Variable set_provider : StoreProvider -> Row -> Row.

Record RowDb : Type := mkRowDb { main : Db; row_provs : PDb }.
Definition rtx : Type -> Type := Tx RowDb ModelRowError.

Definition on_main {A} (wrap : DbError -> ModelRowError) (f : Db -> result DbError A * Db) : rtx A := fun d =>
  match f d.(main) with (Ok a, m) => (Ok a, mkRowDb m d.(row_provs)) | (Err e, m) => (Err (wrap e), mkRowDb m d.(row_provs)) end.
Definition on_row_provs {A} (wrap : DbError -> ModelRowError) (f : PDb -> result DbError A * PDb) : rtx A := fun d =>
  match f d.(row_provs) with (Ok a, p) => (Ok a, mkRowDb d.(main) p) | (Err e, p) => (Err (wrap e), mkRowDb d.(main) p) end.

Definition preloaded (ps : list StoreProvider) (row : Row) : Row :=
  set_provider (default StoreProvider0 (List.find (fun p => String.eqb p.(SPID) (provider_id row)) ps)) row.

Definition row_provider (name : Provider) : rtx StoreProvider :=
  ps ← on_row_provs (fun _ => NoProvider name) db_find;
  match List.find (fun p => String.eqb p.(SPName) name) ps with Some p => mret p | None => tx_fail (NoProvider name) end.

Definition get_row (id : string) : rtx Row :=
  row ← on_main (RowNotFound id) (db_first id);
  ps ← on_row_provs (RowNotFound id) db_find;
  mret (preloaded ps row).

Definition list_rows : rtx (list Row) :=
  rows ← on_main RowList db_find;
  match rows with
  | [] => mret []
  | _ => ps ← on_row_provs RowList db_find; mret (map (preloaded ps) rows)
  end.

(** [make] is the new row for the ID of its provider. *)
Definition create_row (commit : bool) (what : string) (name : Provider) (make : string -> Row) : rtx Row :=
  payload ← Tx_transaction RowCommit commit (
    provider ← row_provider name;
    _ ← on_main (RowCreate what) (db_create (make provider.(SPID)));
    mret (make provider.(SPID)));
  get_row (key payload).

Definition update_row (id : string) (upd : Row -> Row) : rtx Row :=
  n ← on_main (RowUpdate id) (db_update id upd);
  if (n =? 0)%Z then tx_fail (RowNone id) else get_row id.

Definition delete_row (id : string) : rtx () :=
  n ← on_main (RowDelete id) (db_delete id);
  if (n =? 0)%Z then tx_fail (RowNone id) else mret tt.
End rows.
Arguments RowDb : clear implicits.
Arguments mkRowDb {Db PDb}.

(** ** Models *)

Section metadata.
Context {Db PDb : Type} `{Gorm Db StoreModelMetadata} `{Gorm PDb StoreProvider}.
Abbreviation mtx := (rtx (Db := Db) (PDb := PDb)).

Definition metadata_with_provider (p : StoreProvider) (r : StoreModelMetadata) : StoreModelMetadata :=
  mkStoreModelMetadata r.(MMID) r.(MMProviderID) p r.(MMModelName) r.(MMModelType) r.(MMBaseModel) r.(MMCapabilities)
    r.(MMContextWindow) r.(MMMaxInputTokens) r.(MMMaxOutputTokens) r.(MMLongContextThreshold) r.(MMSourceRawKey) r.(MMCreatedAt) r.(MMUpdatedAt).

Definition GetModelMetadata : string -> mtx StoreModelMetadata := get_row MMProviderID metadata_with_provider.
Definition ListModelMetadata : mtx (list StoreModelMetadata) := list_rows MMProviderID metadata_with_provider.

Definition CreateModelMetadata (commit : bool) (uuid : string) (now : Z) (md : ModelMetadata) : mtx StoreModelMetadata :=
  create_row MMProviderID metadata_with_provider commit (md.(MProvider) ++ "/" ++ md.(MModelName)) md.(MProvider)
    (fun providerID => newStoreModelMetadata uuid md providerID now).

(** The columns of the UPDATE. *)
Definition metadata_columns (now : Z) (md : ModelMetadata) (r : StoreModelMetadata) : StoreModelMetadata :=
  mkStoreModelMetadata r.(MMID) r.(MMProviderID) r.(MMProvider) r.(MMModelName) (ModelType_String md.(MModelType)) md.(BaseModel)
    (Capability_String md.(MCapability)) md.(Limits).(ContextWindow) md.(Limits).(MaxInputTokens) md.(Limits).(MaxOutputTokens)
    md.(Limits).(LongContextThreshold) r.(MMSourceRawKey) r.(MMCreatedAt) now.

Definition UpdateModelMetadata (id : string) (now : Z) (md : ModelMetadata) : mtx StoreModelMetadata :=
  update_row MMProviderID metadata_with_provider id (metadata_columns now md).
Definition DeleteModelMetadata : string -> mtx () := delete_row.

Definition ModelNamesByProvider (name : Provider) : mtx (list string) :=
  row ← row_provider name;
  rows ← on_main RowList db_find;
  mret (map MMModelName (List.filter (fun r => String.eqb r.(MMProviderID) row.(SPID)) rows)).
End metadata.

(** ** Prices *)

Section pricing.
Context {Db PDb : Type} `{Gorm Db StoreModelPricing} `{Gorm PDb StoreProvider}.
Abbreviation btx := (rtx (Db := Db) (PDb := PDb)).

Definition pricing_with_provider (p : StoreProvider) (r : StoreModelPricing) : StoreModelPricing :=
  mkStoreModelPricing r.(MPID) r.(MPRawKey) r.(MPProviderID) p r.(MPModelName) r.(MPSelectorKey) r.(MPModelType) r.(MPPricing)
    r.(HeadlineInputCostPerToken) r.(HeadlineOutputCostPerToken) r.(MPCreatedAt) r.(MPUpdatedAt).

Definition ListModelPricing : btx (list StoreModelPricing) := list_rows MPProviderID pricing_with_provider.
Definition GetModelPricing : string -> btx StoreModelPricing := get_row MPProviderID pricing_with_provider.

Definition CreateModelPricing (commit : bool) (uuid : string) (now : Z) (variant : PricingVariant) : btx StoreModelPricing :=
  create_row MPProviderID pricing_with_provider commit variant.(VRawKey) variant.(VProvider)
    (fun providerID => newStoreModelPricing uuid variant providerID now).

Definition pricing_columns (now : Z) (pricing : Pricing) (r : StoreModelPricing) : StoreModelPricing :=
  mkStoreModelPricing r.(MPID) r.(MPRawKey) r.(MPProviderID) r.(MPProvider) r.(MPModelName) r.(MPSelectorKey) r.(MPModelType) pricing
    (pricing InputCostPerToken) (pricing OutputCostPerToken) r.(MPCreatedAt) now.

Definition UpdateModelPricingRates (id : string) (now : Z) (pricing : Pricing) : btx StoreModelPricing :=
  update_row MPProviderID pricing_with_provider id (pricing_columns now pricing).
Definition DeleteModelPricing : string -> btx () := delete_row.
End pricing.

(** ** What the statements do *)

Section effects.
Context {Row Db PDb : Type} `{Keyed Row} `{GormRow : !Gorm Db Row} `{GormP : !Gorm PDb StoreProvider}.
Context `{!GormLaws Db Row} `{!GormLaws PDb StoreProvider}.
Variable provider_id : Row -> string.
Variable set_provider : StoreProvider -> Row -> Row.

Definition rowdb_ok (d : RowDb Db PDb) : Prop := db_ok d.(main) /\ db_ok d.(row_provs).
Definition same_rows (d d' : RowDb Db PDb) : Prop :=
  rowdb_ok d' /\ (forall i, tbl d'.(main) i = tbl d.(main) i) /\ (forall i, tbl d'.(row_provs) i = tbl d.(row_provs) i).

Definition row_joined (d : RowDb Db PDb) (r : Row) : Row :=
  set_provider (default StoreProvider0 (tbl d.(row_provs) (provider_id r))) r.

Lemma same_rows_trans a b c : same_rows a b -> same_rows b c -> same_rows a c.
Proof. intros (_ & M1 & P1) (Ho & M2 & P2). split; [done|]. split; intros i; [by rewrite M2|by rewrite P2]. Qed.

Lemma preloaded_joined (d : RowDb Db PDb) ps p' row : db_ok d.(row_provs) -> db_find d.(row_provs) = (Ok ps, p') ->
  preloaded provider_id set_provider ps row = row_joined d row.
Proof.
  intros Hp Hf. unfold preloaded, row_joined. f_equal. destruct (find_rows _ _ _ Hp Hf) as [_ Hin].
  destruct (List.find _ ps) as [p|] eqn:Hx.
  - apply List.find_some in Hx as [Hx Hi]. apply String.eqb_eq in Hi. apply Hin in Hx. change (key p) with (SPID p) in Hx. by rewrite <- Hi, Hx.
  - destruct (tbl (row_provs d) (provider_id row)) as [p|] eqn:Ht; [|done]. exfalso. pose proof (tbl_key _ _ _ Hp Ht) as Hk.
    assert (Hps : In p ps) by (apply Hin; by rewrite Hk). pose proof (List.find_none _ _ Hx p Hps) as Hne. cbn beta in Hne.
    change (SPID p) with (key p) in Hne. by rewrite Hk, String.eqb_refl in Hne.
Qed.

Lemma get_row_spec id d row d' : rowdb_ok d -> get_row provider_id set_provider id d = (Ok row, d') ->
  same_rows d d' /\ exists r, tbl d.(main) id = Some r /\ row = row_joined d r.
Proof.
  intros [Hm Hp] Ht. apply tx_bind_Ok in Ht as (r & d1 & Hr & Ht). unfold on_main in Hr.
  destruct (db_first id (main d)) as [[r'|e] m] eqn:Hf; [|done]. injection Hr as -> <-.
  destruct (first_state _ _ _ _ Hm Hf) as [Hm' Hs]. pose proof (first_row _ _ _ _ Hm Hf) as Hrow.
  apply tx_bind_Ok in Ht as (ps & d2 & Hps & [= <- <-]). unfold on_row_provs in Hps. cbn [row_provs main] in Hps.
  destruct (db_find (row_provs d)) as [[ps'|e] p'] eqn:Hfp; [|done]. injection Hps as -> <-.
  destruct (find_state _ _ _ Hp Hfp) as [Hp' Hsp]. split; [by split|]. exists r. split; [done|by eapply preloaded_joined].
Qed.

(** A row that is created is there, under a new ID, with its provider, and is what is returned. *)
Lemma create_row_spec commit what name make d row d' : rowdb_ok d ->
  create_row provider_id set_provider commit what name make d = (Ok row, d') ->
  exists p, tbl d.(row_provs) p.(SPID) = Some p /\ p.(SPName) = name /\ rowdb_ok d' /\
    let r := make p.(SPID) in
    tbl d.(main) (key r) = None /\ row = row_joined d r /\
    (forall i, tbl d'.(main) i = if decide (i = key r) then Some r else tbl d.(main) i) /\
    (forall i, tbl d'.(row_provs) i = tbl d.(row_provs) i).
Proof.
  intros [Hm Hp] Ht. apply tx_bind_Ok in Ht as (r & d1 & Ht & Hg).
  apply Tx_transaction_cases in Ht as [(e & [=] & _)|(a & [= <-] & Ht)].
  apply tx_bind_Ok in Ht as (p & d2 & Hpr & Ht). apply tx_bind_Ok in Hpr as (ps & d3 & Hps & Hfind). unfold on_row_provs in Hps.
  destruct (db_find (row_provs d)) as [[ps'|e] p'] eqn:Hfp; [|done]. injection Hps as -> <-.
  destruct (find_state _ _ _ Hp Hfp) as [Hp' Hsp]. destruct (find_rows _ _ _ Hp Hfp) as [_ Hin].
  destruct (List.find _ ps) as [q|] eqn:Hq; [|done]. injection Hfind as -> <-. apply List.find_some in Hq as [Hq Hn]. apply String.eqb_eq in Hn.
  apply Hin in Hq. change (key p) with (SPID p) in Hq. apply tx_bind_Ok in Ht as ([] & d4 & Hcr & Hret). unfold on_main in Hcr. cbn [main row_provs] in Hcr.
  destruct (db_create (make (SPID p)) (main d)) as [[u|e] m] eqn:Hc; [|done]. injection Hcr as _ <-. injection Hret as <- <-.
  destruct (create_ok _ _ _ _ Hm Hc) as (Hm' & Hnone & Hl).
  destruct (get_row_spec _ (mkRowDb m p') row d' (conj Hm' Hp') Hg) as ((Hok & Hs1 & Hs2) & r & Hr & ->). cbn [main row_provs] in *.
  rewrite Hl, decide_True in Hr by done. injection Hr as <-. exists p. splits; [done|done|done|done| | |].
  - unfold row_joined. cbn [row_provs]. by rewrite Hsp.
  - intros i. by rewrite Hs1, Hl.
  - intros i. by rewrite Hs2, Hsp.
Qed.

(** A change reaches the row of its ID alone, and an unknown ID is refused. *)
Lemma update_row_spec id upd d row d' : rowdb_ok d -> (forall r, key (upd r) = key r) ->
  update_row provider_id set_provider id upd d = (Ok row, d') ->
  exists r, tbl d.(main) id = Some r /\ row = row_joined d (upd r) /\ rowdb_ok d' /\
    (forall i, tbl d'.(main) i = if decide (i = id) then Some (upd r) else tbl d.(main) i) /\
    (forall i, tbl d'.(row_provs) i = tbl d.(row_provs) i).
Proof.
  intros [Hm Hp] Hkey Ht. apply tx_bind_Ok in Ht as (n & d1 & Hup & Ht). unfold on_main in Hup.
  destruct (db_update id upd (main d)) as [[n'|e] m] eqn:Hu; [|done]. injection Hup as -> <-.
  destruct (update_ok _ _ _ _ _ Hm Hkey Hu) as (Hm' & Hl & Hn). destruct (n =? 0)%Z; [done|].
  destruct (get_row_spec _ (mkRowDb m d.(row_provs)) row d' (conj Hm' Hp) Ht) as ((Hok & Hs1 & Hs2) & r & Hr & ->). cbn [main row_provs] in *.
  rewrite Hl, decide_True in Hr by done. destruct (tbl (main d) id) as [r0|] eqn:Hr0; [|done]. injection Hr as <-.
  exists r0. splits; [done|done|done| |done]. intros i. rewrite Hs1, Hl. by destruct (decide (i = id)) as [->|]; [rewrite Hr0|].
Qed.

Lemma delete_row_spec id (d : RowDb Db PDb) u d' : rowdb_ok d -> delete_row id d = (Ok u, d') ->
  rowdb_ok d' /\ is_Some (tbl d.(main) id) /\ d'.(row_provs) = d.(row_provs) /\
  (forall i, tbl d'.(main) i = if decide (i = id) then None else tbl d.(main) i).
Proof.
  intros [Hm Hp] Ht. apply tx_bind_Ok in Ht as (n & d1 & Hdel & Ht). unfold on_main in Hdel.
  destruct (db_delete id (main d)) as [[n'|e] m] eqn:Hx; [|done]. injection Hdel as -> <-.
  destruct (delete_ok _ _ _ _ Hm Hx) as (Hm' & Hl & Hn). destruct (tbl (main d) id) as [r|]; subst n; [|done].
  injection Ht as _ <-. splits; [by split|by exists r|done|done].
Qed.
End effects.
