(* ===== verification/Deployments.v ===== *)
(** * Deployment state ([internal/core/statemanager.go])

    The table of circuit breakers and the atomic counters of a deployment.  [Acquire] and [Release]
    hold the lock of the table for each of their parts; [RemoveConnection] loads and adds in two
    atomic operations. *)

From S2P Require Import Prelude GoBase.
Local Open Scope Z_scope.

Record DeploymentState : Type := mkDeploymentState {
  DsAlive : Z;
  TripUntil : Z;
  activeConnections : Z;
  lastSeen : Z
}.
#[export] Instance DeploymentState_eta : Eta DeploymentState := fun d =>
  mkDeploymentState (DsAlive d) (TripUntil d) (activeConnections d) (lastSeen d).

Definition AddConnection (d : DeploymentState) : DeploymentState := d <| activeConnections ::= fun n => wrap32 (n + 1) |>.
(** Alone: the load and the addition at once. *)
Definition RemoveConnection (d : DeploymentState) : DeploymentState :=
  if 0 <? d.(activeConnections) then d <| activeConnections ::= fun n => wrap32 (n - 1) |> else d.
Definition GetConnections (d : DeploymentState) : Z := d.(activeConnections).
Definition SetAliveState (alive : Z) (d : DeploymentState) : DeploymentState := d <| DsAlive := alive |>.

(** [Unix] of an instant in nanoseconds. *)
Definition unix (t : Z) : Z := t / Second.
Definition SetTripUntil (now s : Z) (d : DeploymentState) : DeploymentState :=
  if 0 <? s then d <| TripUntil := unix (time_add now s) |> else d.

Definition IsHealthy (now : Z) (d : DeploymentState) : bool :=
  if d.(DsAlive) =? 0 then false else if unix now <? d.(TripUntil) then false else true.

(** ** The table *)

Definition StateManager : Type := gmap string DeploymentState.
Definition NewStateManager : StateManager := ∅.
Definition NewDeployment (alive : Z) : DeploymentState := SetAliveState alive (mkDeploymentState 0 0 0 0).

(** [Acquire] when nothing comes between its two looks at the table. *)
Definition Acquire (now : Z) (id : string) (alive : Z) (m : StateManager) : DeploymentState * StateManager :=
  let s := match m !! id with Some s => s | None => NewDeployment alive end <| lastSeen := unix now |> in
  (s, <[id := s]> m).
Definition Release (id : string) (m : StateManager) : StateManager := delete id m.

(** ** Connections under interleaving *)

(** A deployment and the removals that have loaded a positive counter and not added yet. *)
Record Connections : Type := mkConnections { deployment : DeploymentState; removing : nat }.

Inductive connection_step : Connections -> Connections -> Prop :=
| cn_add c : connection_step c (mkConnections (AddConnection c.(deployment)) c.(removing))
| cn_load c : 0 < c.(deployment).(activeConnections) -> connection_step c (mkConnections c.(deployment) (S c.(removing)))
| cn_sub c n : c.(removing) = S n ->
    connection_step c (mkConnections (c.(deployment) <| activeConnections ::= fun x => wrap32 (x - 1) |>) n).

Lemma wrap32_small z : - 2 ^ 31 <= z < 2 ^ 31 -> wrap32 z = z.
Proof. intros Hz. unfold wrap32. rewrite Z.mod_small; lia. Qed.

(** Sequentially a counter is never negative and what was added is what can be removed. *)
Lemma connections_balance d : 0 <= d.(activeConnections) < 2 ^ 31 - 1 ->
  0 <= (RemoveConnection d).(activeConnections) /\ RemoveConnection (AddConnection d) = d.
Proof.
  intros Hd. assert (Hadd : (AddConnection d).(activeConnections) = d.(activeConnections) + 1) by (cbn; apply wrap32_small; lia).
  split.
  - unfold RemoveConnection. destruct (Z.ltb_spec 0 d.(activeConnections)); cbn; [rewrite wrap32_small by lia|]; lia.
  - unfold RemoveConnection. rewrite Hadd. destruct (Z.ltb_spec 0 (d.(activeConnections) + 1)); [|lia].
    destruct d as [a t n l]. unfold AddConnection. cbn in *. rewrite (wrap32_small (n + 1)) by lia. f_equal. rewrite wrap32_small by lia. lia.
Qed.

(** Two removals that race for the last connection leave the counter negative. *)
Lemma removals_race : exists c, star connection_step (mkConnections (mkDeploymentState 1 0 1 0) 0) c /\ c.(deployment).(activeConnections) = -1.
Proof.
  eexists. split.
  - eapply star_step; [by apply cn_load|]. eapply star_step; [by apply cn_load|].
    eapply star_step; [by eapply cn_sub|]. eapply star_step; [by eapply cn_sub|apply star_refl].
  - reflexivity.
Qed.

(** A tripped deployment is healthy again once the time is over, and not before its second. *)
Lemma trip_ends now s later d : 0 < s -> d.(DsAlive) <> 0 -> IsHealthy later (SetTripUntil now s d) = (unix (time_add now s) <=? unix later).
Proof.
  intros Hs Ha. unfold SetTripUntil. rewrite (proj2 (Z.ltb_lt 0 s) Hs). unfold IsHealthy. cbn.
  rewrite (proj2 (Z.eqb_neq _ _) Ha). destruct (Z.ltb_spec (unix later) (unix (time_add now s))), (Z.leb_spec (unix (time_add now s)) (unix later)); lia || done.
Qed.

(** A deployment is made once and keeps its state until it is released. *)
Lemma Acquire_same now id alive m d : m !! id = Some d -> (Acquire now id alive m).1 = d <| lastSeen := unix now |>.
Proof. intros Hd. unfold Acquire. by rewrite Hd. Qed.
