(* ===== verification/ConfigFile.v ===== *)
(** * Reading the configuration ([configs/serverconfig.go], [Load] and [read])

    The defaults, the file over them, the hook that turns settings into durations, the decoding
    into the sections of [Config] and their validation, once per process.

    viper and mapstructure are an interface: the setting of a key, and what a decoded field holds in
    terms of the setting and of the hook.  [table_viper] is an instance. *)

From S2P Require Import Prelude GoBase Float64 Duration Config.
Local Open Scope Z_scope.
Local Open Scope string_scope.

(** ** Settings *)

(** A setting, by the [reflect.Kind] of its value; of the kinds the hook does not name only
    booleans and slices of strings have a constructor of their own. *)
Inductive Data : Type :=
| DString (s : string)
| DInt (n : Z)
| DUint (n : Z)
| DFloat (x : f64)
| DBool (b : bool)
| DSlice (l : list string)
| DDuration (d : Z)
| DOther.

(** The types of the fields of the configuration. *)
Inductive FieldType : Type := TString | TInt | TBool | TSlice | TDuration.
#[export] Instance FieldType_eq_dec : EqDecision FieldType.
Proof. solve_decision. Defined.

Definition type_of (d : Data) : option FieldType :=
  match d with
  | DString _ => Some TString | DInt _ => Some TInt | DBool _ => Some TBool
  | DSlice _ => Some TSlice | DDuration _ => Some TDuration
  | DUint _ | DFloat _ | DOther => None
  end.
Definition zero_of (t : FieldType) : Data :=
  match t with TString => DString "" | TInt => DInt 0 | TBool => DBool false | TSlice => DSlice [] | TDuration => DDuration 0 end.

(** [time.Duration] of a [float64]; what the conversion gives outside of [int64] the language
    leaves to the implementation. *)
Class FloatConversion := { unrepresentable : f64 -> Z }.
Definition int64_of_float `{FloatConversion} (x : f64) : Z :=
  if is_finite x && (MinInt64 <=? f64_trunc x)%Z && (f64_trunc x <=? MaxInt64)%Z then f64_trunc x else unrepresentable x.

(** [durationHook]; a [time.Duration] is of the kind [reflect.Int64]. *)
Definition durationHook `{FloatConversion} (to : FieldType) (data : Data) : result DurationError Data :=
  if negb (bool_decide (to = TDuration)) then Ok data
  else
    match data with
    | DString s => match time_ParseDuration s with Ok d => Ok (DDuration d) | Err e => Err e end
    | DInt n | DDuration n => Ok (DDuration (mul64 n Second))
    | DUint n => Ok (DDuration (mul64 (wrap64 n) Second))
    | DFloat x => Ok (DDuration (int64_of_float (f64_mul x (f64_of_Z Second))))
    | DBool _ | DSlice _ | DOther => Ok data
    end.

(** ** The fields of the configuration *)

Definition server_settings (s : ServerConfig) : list (string * Data) :=
  [("server.port", DInt s.(Port)); ("server.max_body_size", DInt s.(MaxBodySize));
   ("server.config_source", DString s.(ConfigSource)); ("server.db_path", DString s.(DBPath));
   ("server.mock_enabled", DBool s.(MockEnabled)); ("server.aes_pass_key", DString s.(AesPasskey));
   ("server.trusted_proxies", DSlice s.(TrustedProxies))].
Definition upstream_settings (u : UpstreamConfig) : list (string * Data) :=
  [("upstream.max_idle_conns", DInt u.(MaxIdleConns)); ("upstream.max_conns_per_host", DInt u.(UMaxConnsPerHost));
   ("upstream.max_idle_conns_per_host", DInt u.(MaxIdleConnsPerHost));
   ("upstream.idle_conn_timeout", DDuration u.(IdleConnTimeout)); ("upstream.dial_timeout", DDuration u.(DialTimeout));
   ("upstream.keep_alive", DDuration u.(KeepAlive)); ("upstream.tls_handshake_timeout", DDuration u.(TLSHandshakeTimeout));
   ("upstream.response_header_timeout", DDuration u.(ResponseHeaderTimeout));
   ("upstream.request_timeout", DDuration u.(URequestTimeout)); ("upstream.stream_idle_timeout", DDuration u.(UStreamIdleTimeout));
   ("upstream.max_retries", DInt u.(UMaxRetries)); ("upstream.retry_backoff", DDuration u.(URetryBackoff));
   ("upstream.max_response_bytes", DInt u.(MaxResponseBytesKB)); ("upstream.write_buffer_size", DInt u.(WriteBufferSize));
   ("upstream.read_buffer_size", DInt u.(ReadBufferSize)); ("upstream.disable_compression", DBool u.(DisableCompression))].
Definition catalog_settings (m : ModelCatalogConfig) : list (string * Data) :=
  [("modelcatalog.source_url", DString m.(SourceURL)); ("modelcatalog.sync_interval", DDuration m.(SyncInterval))].
Definition metrics_settings (m : MetricsEngineConfig) : list (string * Data) :=
  [("metrics_engine.enabled", DBool m.(MEnabled)); ("metrics_engine.dsn", DString m.(DSN));
   ("metrics_engine.buffer_capacity", DInt m.(BufferCapacity)); ("metrics_engine.flush_interval", DDuration m.(FlushInterval));
   ("metrics_engine.prune_interval", DDuration m.(PruneInterval)); ("metrics_engine.events_days", DInt m.(EventsDays));
   ("metrics_engine.payloads_days", DInt m.(PayloadsDays)); ("metrics_engine.query_timeout", DDuration m.(QueryTimeout));
   ("metrics_engine.max_page", DInt m.(MaxPage)); ("metrics_engine.max_window", DDuration m.(MaxWindow));
   ("metrics_engine.payload_mode", DString m.(PayloadMode)); ("metrics_engine.payload_max_kb", DInt m.(PayloadMaxKB))].

(** The fields of a configuration under the keys of their [mapstructure] tags; a section that is nil
    has none. *)
Definition settings_of (c : GatewayConfig) : list (string * Data) :=
  (match c.(ServerConfig_) with Some s => server_settings s | None => [] end ++
   upstream_settings c.(Upstream_) ++
   match c.(LogLevel) with Some l => [("observability.log_level", DString l)] | None => [] end ++
   match c.(ModelCatalog_) with Some m => catalog_settings m | None => [] end ++
   match c.(MetricsEngine_) with Some m => metrics_settings m | None => [] end)%list.

(** Whether a section is there. *)
Definition section_set (name : string) (c : GatewayConfig) : Prop :=
  (name = "server" -> is_Some c.(ServerConfig_)) /\ (name = "observability" -> is_Some c.(LogLevel)) /\
  (name = "modelcatalog" -> is_Some c.(ModelCatalog_)) /\ (name = "metrics_engine" -> is_Some c.(MetricsEngine_)).

(** ** viper *)

Inductive ReadResult : Type := FileRead | FileNotFound | FileBroken (msg : string).

Definition Hook : Type := FieldType -> Data -> result DurationError Data.

Class Viper (V : Type) := {
  SetDefault : string -> Data -> V -> V;
  ReadInConfig : V -> ReadResult * V;
  StringToSliceHookFunc : string -> FieldType -> Data -> Data;
  Unmarshal : Hook -> V -> result string GatewayConfig
}.

(** The field at [key] of type [t] was decoded to [d]. *)
Definition decoded (hook : Hook) (setting : option Data) (t : FieldType) (d : Data) : Prop :=
  match setting with
  | None => d = zero_of t
  | Some x => exists x', hook t x = Ok x' /\ (type_of x' = Some t -> d = x')
  end.

(** A setting the hook makes one of the type of the field. *)
Definition decodable (hook : Hook) (setting : option Data) (t : FieldType) : Prop :=
  match setting with None => True | Some x => exists x', hook t x = Ok x' /\ type_of x' = Some t end.

Definition DefaultData : list (string * Data) :=
  [("server.port", DInt 8080); ("server.config_source", DString "yaml"); ("server.db_path", DString "./data/diffractllm.db");
   ("server.max_body_size", DInt 32768); ("server.trusted_proxies", DSlice []);
   ("upstream.max_idle_conns", DInt 1000); ("upstream.max_conns_per_host", DInt 256);
   ("upstream.max_idle_conns_per_host", DInt 256); ("upstream.idle_conn_timeout", DString "90s");
   ("upstream.dial_timeout", DString "5s"); ("upstream.keep_alive", DString "30s");
   ("upstream.tls_handshake_timeout", DString "10s"); ("upstream.response_header_timeout", DString "30s");
   ("upstream.request_timeout", DString "60s"); ("upstream.stream_idle_timeout", DString "60s");
   ("upstream.max_retries", DInt 0); ("upstream.retry_backoff", DString "250ms");
   ("upstream.max_response_bytes", DInt 32768); ("upstream.write_buffer_size", DInt (Z.shiftl 64 10));
   ("upstream.read_buffer_size", DInt (Z.shiftl 64 10)); ("upstream.disable_compression", DBool true);
   ("observability.log_level", DString "info");
   ("modelcatalog.sync_interval", DString "5m"); ("modelcatalog.source_url", DString "https://getbifrost.ai/datasheet");
   ("metrics_engine.enabled", DBool true); ("metrics_engine.dsn", DString "./data/diffractllm-metrics.duckdb");
   ("metrics_engine.buffer_capacity", DInt 5000); ("metrics_engine.flush_interval", DString "5s");
   ("metrics_engine.prune_interval", DString "24h"); ("metrics_engine.events_days", DInt 90);
   ("metrics_engine.payloads_days", DInt 7); ("metrics_engine.query_timeout", DString "5s");
   ("metrics_engine.max_page", DInt 200); ("metrics_engine.max_window", DString "2160h")].

(** The type of every field, by its key. *)
Definition schema : list (string * FieldType) :=
  omap (fun '(k, d) => match type_of d with Some t => Some (k, t) | None => None end) (settings_of DefaultConfig).

Class ViperLaws (V : Type) `{Viper V} := {
  (** The setting of a key: what was set by a file, else the default. *)
  Get : V -> string -> option Data;
  (** No file was read into it. *)
  pristine : V -> Prop;
  get_default k d v k' : pristine v ->
    Get (SetDefault k d v) k' = (if String.eqb k' k then Some d else Get v k') /\ pristine (SetDefault k d v);
  not_found v v' : ReadInConfig v = (FileNotFound, v') -> (pristine v -> pristine v') /\ forall k, Get v' k = Get v k;
  slice_other sep t x : type_of x = Some t -> StringToSliceHookFunc sep t x = x;
  unmarshal_fields hook v c k d t : Unmarshal hook v = Ok c -> (k, d) ∈ settings_of c -> (k, t) ∈ schema ->
    type_of d = Some t /\ decoded hook (Get v k) t d;
  (** A section with a setting is allocated. *)
  unmarshal_sections hook v c name field : Unmarshal hook v = Ok c -> is_Some (Get v (name ++ "." ++ field)) -> section_set name c;
  unmarshal_total hook v : pristine v -> (forall k t, (k, t) ∈ schema -> decodable hook (Get v k) t) ->
    exists c, Unmarshal hook v = Ok c
}.

(** ** Reading *)

Inductive ReadError : Type :=
| ReadFailed (msg : string)
| UnmarshalFailed (msg : string)
| InvalidConfig (e : ConfigError).

Section read.
Context {V : Type} `{Viper V} `{FloatConversion}.

(** [ComposeDecodeHookFunc] of the two hooks. *)
Definition decode_hook : Hook := fun to data =>
  match durationHook to data with Ok data => Ok (StringToSliceHookFunc "," to data) | Err e => Err e end.

Definition set_defaults (l : list (string * Data)) (v : V) : V := foldl (fun v '(k, d) => SetDefault k d v) v l.

(** [read], from the state of viper. *)
Definition read (v : V) : result ReadError GatewayConfig * V :=
  let '(res, v) := ReadInConfig (set_defaults DefaultData v) in
  match res with
  | FileBroken msg => (Err (ReadFailed msg), v)
  | FileRead | FileNotFound =>
      match Unmarshal decode_hook v with
      | Err msg => (Err (UnmarshalFailed msg), v)
      | Ok cfg => match GatewayConfig_Validate cfg with Err e => (Err (InvalidConfig e), v) | Ok _ => (Ok cfg, v) end
      end
  end.

(** The package: viper, and [config] and [loadErr] once [loadOnce] ran. *)
Record Package : Type := mkPackage { viper : V; loaded : option (result ReadError GatewayConfig) }.

Definition Load (p : Package) : result ReadError GatewayConfig * Package :=
  match p.(loaded) with
  | Some r => (r, p)
  | None => let '(r, v) := read p.(viper) in (r, mkPackage v (Some r))
  end.

(** [GlobalConfig]: the configuration, nil after an error. *)
Definition GlobalConfig (p : Package) : option GatewayConfig * Package :=
  let '(r, p) := Load p in (match r with Ok cfg => Some cfg | Err _ => None end, p).

(** ** The hook *)

(** A whole number of seconds whose nanoseconds an [int64] holds. *)
Lemma durationHook_seconds n : in_int64 (n * Second)%Z -> durationHook TDuration (DInt n) = Ok (DDuration (n * Second)%Z).
Proof. intros Hn. unfold durationHook, mul64. cbn. by rewrite wrap64_small. Qed.

(** A larger number wraps around, and validation accepts what it wraps to. *)
Lemma durationHook_wraps :
  durationHook TDuration (DInt 18446744074) = Ok (DDuration 290448384) /\
  let u := DefaultConfig.(Upstream_) <| URequestTimeout := 290448384%Z |> in
  GatewayConfig_Validate (mkGatewayConfig DefaultConfig.(ServerConfig_) u DefaultConfig.(LogLevel)
    DefaultConfig.(ModelCatalog_) DefaultConfig.(MetricsEngine_)) = Ok ().
Proof. by vm_compute. Qed.

Lemma durationHook_other t d : t <> TDuration -> durationHook t d = Ok d.
Proof. intros Ht. unfold durationHook. by rewrite bool_decide_eq_false_2. Qed.

(** ** The defaults *)

Context `{!ViperLaws V}.

(** The default of a key. *)
Fixpoint assoc {A} (k : string) (l : list (string * A)) : option A :=
  match l with [] => None | (k', d) :: l => if String.eqb k k' then Some d else assoc k l end.

Lemma get_defaults l v k : NoDup l.*1 -> pristine v ->
  Get (set_defaults l v) k = match assoc k l with Some d => Some d | None => Get v k end /\ pristine (set_defaults l v).
Proof.
  revert v. induction l as [|[k0 d0] l IH]; intros v Hd Hv; [done|]. apply NoDup_cons in Hd as [Hk0 Hd]. cbn.
  destruct (get_default k0 d0 v k Hv) as [Hg Hp]. destruct (IH _ Hd Hp) as [Hi Hp']. split; [|done].
  unfold set_defaults in Hi. rewrite Hi, Hg. destruct (String.eqb_spec k k0) as [->|]; [|done].
  enough (assoc k0 l = None) as -> by done. clear -Hk0. induction l as [|[k d] l IH]; [done|]. cbn in *.
  apply not_elem_of_cons in Hk0 as [Hn Hk0]. destruct (String.eqb_spec k0 k); [done|by apply IH].
Qed.

(** What the default of a key makes of a field of type [t]. *)
Definition default_field (k : string) (t : FieldType) : Data :=
  match assoc k DefaultData with
  | None => zero_of t
  | Some x => match durationHook t x with Ok d => d | Err _ => DOther end
  end.

Definition default_typed (f : string * FieldType) : bool :=
  match assoc f.1 DefaultData with
  | None => true
  | Some x => match durationHook f.2 x with Ok d => bool_decide (type_of d = Some f.2) | Err _ => false end
  end.

Lemma defaults_typed k t : (k, t) ∈ schema -> default_typed (k, t) = true.
Proof.
  intros Hk. assert (Ha : forallb default_typed schema = true) by by vm_compute.
  rewrite forallb_forall in Ha. by apply Ha, list_elem_of_In.
Qed.

Lemma default_decodes k t : (k, t) ∈ schema ->
  decodable decode_hook (assoc k DefaultData) t /\
  forall d, decoded decode_hook (assoc k DefaultData) t d -> d = default_field k t.
Proof.
  intros Hk. pose proof (defaults_typed k t Hk) as Ht. unfold default_typed, default_field, decodable, decoded, decode_hook in *. cbn [fst snd] in Ht.
  destruct (assoc k DefaultData) as [x|]; [|done]. destruct (durationHook t x) as [y|]; [|done].
  apply bool_decide_eq_true in Ht. rewrite (slice_other "," t y Ht). split; [by exists y|].
  intros d (x' & [= ->] & Hd). by apply Hd.
Qed.

(** A list of settings whose values follow from their keys. *)
Lemma settings_determined (f : string -> FieldType -> Data) l s : l.*1 = s.*1 ->
  (forall k d t, (k, d) ∈ l -> (k, t) ∈ s -> d = f k t) -> l = map (fun p => (p.1, f p.1 p.2)) s.
Proof.
  revert s. induction l as [|[k d] l IH]; intros [|[k' t] s] Hk Hd; try done. cbn in *. injection Hk as -> Hk.
  f_equal; [f_equal; apply Hd; constructor|]. apply IH; [done|]. intros. by apply Hd; constructor.
Qed.

Lemma default_settings : map (fun p => (p.1, default_field p.1 p.2)) schema = settings_of DefaultConfig.
Proof. by vm_compute. Qed.

Definition complete (c : GatewayConfig) : Prop :=
  is_Some c.(ServerConfig_) /\ is_Some c.(LogLevel) /\ is_Some c.(ModelCatalog_) /\ is_Some c.(MetricsEngine_).

Lemma settings_keys c : complete c -> (settings_of c).*1 = schema.*1.
Proof. destruct c. unfold complete. cbn. by intros ([? ->] & [? ->] & [? ->] & [? ->]). Qed.

Lemma settings_inj c c' : complete c -> complete c' -> settings_of c = settings_of c' -> c = c'.
Proof.
  destruct c as [s u l m e], c' as [s' u' l' m' e']. unfold complete. cbn.
  intros ([? [= ->]] & [? [= ->]] & [? [= ->]] & [? [= ->]]) ([? [= ->]] & [? [= ->]] & [? [= ->]] & [? [= ->]]) Hs.
  repeat match goal with x : ServerConfig |- _ => destruct x | x : UpstreamConfig |- _ => destruct x
    | x : ModelCatalogConfig |- _ => destruct x | x : MetricsEngineConfig |- _ => destruct x end.
  cbn in Hs. injection Hs. by intros; subst.
Qed.

(** ** What is read *)

(** a configuration that is read is within the ranges of its validation, and every field of it holds
    what the hooks make of its setting. *)
Lemma read_ok v cfg v' : read v = (Ok cfg, v') -> GatewayConfig_Validate cfg = Ok () /\
  forall k d t, (k, d) ∈ settings_of cfg -> (k, t) ∈ schema -> type_of d = Some t /\ decoded decode_hook (Get v' k) t d.
Proof.
  unfold read. destruct (ReadInConfig _) as [res v1]. intros Hr.
  assert (Hu : Unmarshal decode_hook v1 = Ok cfg /\ GatewayConfig_Validate cfg = Ok () /\ v' = v1).
  { destruct res; try done; (destruct (Unmarshal _ v1) as [c|] eqn:Hu; [|done]); destruct (GatewayConfig_Validate c) as [[]|] eqn:Hv; naive_solver. }
  destruct Hu as (Hu & Hv & ->). split; [done|]. intros k d t Hd Ht. by eapply unmarshal_fields.
Qed.

(** Without a file the configuration is the defaults, read without an error. *)
Lemma read_without_file v v' : pristine v -> (forall k, Get v k = None) ->
  ReadInConfig (set_defaults DefaultData v) = (FileNotFound, v') -> read v = (Ok DefaultConfig, v').
Proof.
  intros Hp Hn Hr. assert (Hd : NoDup DefaultData.*1) by (by apply (bool_decide_unpack _); vm_compute).
  assert (Hg : forall k, Get v' k = assoc k DefaultData).
  { intros k. destruct (not_found _ _ Hr) as [_ ->]. destruct (get_defaults DefaultData v k Hd Hp) as [-> _].
    rewrite Hn. by destruct (assoc k DefaultData). }
  destruct (unmarshal_total decode_hook v') as [c Hc].
  { apply (not_found _ _ Hr). by destruct (get_defaults DefaultData v "" Hd Hp). }
  { intros k t Hk. rewrite Hg. by apply default_decodes. }
  assert (Hs : forall name field, is_Some (assoc (name ++ "." ++ field) DefaultData) -> section_set name c).
  { intros name field Ha. eapply unmarshal_sections; [done|]. by rewrite Hg. }
  assert (Hcc : complete c).
  { split; [|split; [|split]].
    - by apply (Hs "server" "port"); [eexists|].
    - by apply (Hs "observability" "log_level"); [eexists|].
    - by apply (Hs "modelcatalog" "source_url"); [eexists|].
    - by apply (Hs "metrics_engine" "dsn"); [eexists|]. }
  assert (c = DefaultConfig) as ->.
  { apply settings_inj; [done|repeat split; by eexists|]. rewrite <- default_settings. apply settings_determined; [by apply settings_keys|].
    intros k d t Hkd Hkt. destruct (unmarshal_fields _ _ _ _ _ _ Hc Hkd Hkt) as [_ Hdec]. rewrite Hg in Hdec. by apply default_decodes. }
  unfold read. rewrite Hr, Hc. by replace (GatewayConfig_Validate DefaultConfig) with (Ok (E:=ConfigError) ()) by by vm_compute.
Qed.

(** The file is read once: later calls answer what the first did. *)
Lemma Load_once p : let '(r, p') := Load p in Load p' = (r, p') /\ (GlobalConfig p').1 = match r with Ok cfg => Some cfg | Err _ => None end.
Proof.
  unfold GlobalConfig, Load. destruct (loaded p) eqn:Hl; [by rewrite Hl|]. by destruct (read (viper p)) as [r v].
Qed.

End read.

(** ** A viper of tables *)

Record Table : Type := mkTable { t_file : ReadResult; t_read : list (string * Data); t_defaults : list (string * Data); t_pristine : bool }.

Definition t_get (v : Table) (k : string) : option Data :=
  match (if v.(t_pristine) then None else assoc k v.(t_read)) with Some d => Some d | None => assoc k v.(t_defaults) end.

Definition coerce (t : FieldType) (d : Data) : Data := if bool_decide (type_of d = Some t) then d else zero_of t.

Definition as_int (d : Data) : Z := match d with DInt n | DDuration n => n | _ => 0%Z end.
Definition as_string (d : Data) : string := match d with DString s => s | _ => "" end.
Definition as_bool (d : Data) : bool := match d with DBool b => b | _ => false end.
Definition as_slice (d : Data) : list string := match d with DSlice l => l | _ => [] end.

(** The configuration with given fields, every section allocated. *)
Definition assemble (f : string -> FieldType -> Data) : GatewayConfig :=
  let int k := as_int (f k TInt) in let dur k := as_int (f k TDuration) in let str k := as_string (f k TString) in
  let bool k := as_bool (f k TBool) in
  mkGatewayConfig
    (Some (mkServerConfig (int "server.port") (int "server.max_body_size") (str "server.config_source") (str "server.db_path")
       (bool "server.mock_enabled") (str "server.aes_pass_key") (as_slice (f "server.trusted_proxies" TSlice))))
    (mkUpstreamConfig (int "upstream.max_idle_conns") (int "upstream.max_conns_per_host") (int "upstream.max_idle_conns_per_host")
       (dur "upstream.idle_conn_timeout") (dur "upstream.dial_timeout") (dur "upstream.keep_alive") (dur "upstream.tls_handshake_timeout")
       (dur "upstream.response_header_timeout") (dur "upstream.request_timeout") (dur "upstream.stream_idle_timeout")
       (int "upstream.max_retries") (dur "upstream.retry_backoff") (int "upstream.max_response_bytes")
       (int "upstream.write_buffer_size") (int "upstream.read_buffer_size") (bool "upstream.disable_compression"))
    (Some (str "observability.log_level"))
    (Some (mkModelCatalogConfig (str "modelcatalog.source_url") (dur "modelcatalog.sync_interval")))
    (Some (mkMetricsEngineConfig (bool "metrics_engine.enabled") (str "metrics_engine.dsn") (int "metrics_engine.buffer_capacity")
       (dur "metrics_engine.flush_interval") (dur "metrics_engine.prune_interval") (int "metrics_engine.events_days")
       (int "metrics_engine.payloads_days") (dur "metrics_engine.query_timeout") (int "metrics_engine.max_page")
       (dur "metrics_engine.max_window") (str "metrics_engine.payload_mode") (int "metrics_engine.payload_max_kb"))).

Definition t_decode (hook : Hook) (v : Table) (k : string) (t : FieldType) : Data :=
  match t_get v k with
  | None => zero_of t
  | Some x => match hook t x with Ok d => coerce t d | Err _ => zero_of t end
  end.
Definition t_ok (hook : Hook) (v : Table) (f : string * FieldType) : bool :=
  match t_get v f.1 with None => true | Some x => match hook f.2 x with Ok _ => true | Err _ => false end end.

Definition t_unmarshal (hook : Hook) (v : Table) : result string GatewayConfig :=
  if forallb (t_ok hook v) schema then Ok (assemble (t_decode hook v)) else Err "decoding".

#[export] Instance table_viper : Viper Table := {
  SetDefault k d v := mkTable v.(t_file) v.(t_read) ((k, d) :: v.(t_defaults)) v.(t_pristine);
  ReadInConfig v := (v.(t_file),
    match v.(t_file) with FileRead => mkTable FileRead v.(t_read) v.(t_defaults) false | _ => v end);
  StringToSliceHookFunc sep t x := x;
  Unmarshal := t_unmarshal
}.

Lemma coerce_typed t d : type_of (coerce t d) = Some t.
Proof. unfold coerce. case_bool_decide; [done|by destruct t]. Qed.

Lemma typed_int d : type_of d = Some TInt -> DInt (as_int d) = d.
Proof. by destruct d. Qed.
Lemma typed_duration d : type_of d = Some TDuration -> DDuration (as_int d) = d.
Proof. by destruct d. Qed.
Lemma typed_string d : type_of d = Some TString -> DString (as_string d) = d.
Proof. by destruct d. Qed.
Lemma typed_bool d : type_of d = Some TBool -> DBool (as_bool d) = d.
Proof. by destruct d. Qed.
Lemma typed_slice d : type_of d = Some TSlice -> DSlice (as_slice d) = d.
Proof. by destruct d. Qed.

Lemma assemble_settings f : (forall k t, type_of (f k t) = Some t) ->
  settings_of (assemble f) = map (fun p => (p.1, f p.1 p.2)) schema.
Proof.
  intros Hf. let s := eval vm_compute in schema in change schema with s.
  unfold assemble. cbn.
  repeat first [reflexivity | apply f_equal2; [apply f_equal; first [apply typed_int | apply typed_duration | apply typed_string | apply typed_bool | apply typed_slice]; apply Hf|]].
Qed.

Lemma t_decode_typed hook v k t : type_of (t_decode hook v k t) = Some t.
Proof.
  unfold t_decode. destruct (t_get v k); [|by destruct t]. destruct (hook t d); [apply coerce_typed|by destruct t].
Qed.

Lemma schema_keys k t t' : (k, t) ∈ schema -> (k, t') ∈ schema -> t = t'.
Proof.
  assert (Ha : forallb (fun p => forallb (fun q => negb (String.eqb p.1 q.1) || bool_decide (p.2 = q.2)) schema) schema = true) by by vm_compute.
  rewrite forallb_forall in Ha. intros Ht%list_elem_of_In Ht'%list_elem_of_In. apply Ha in Ht. rewrite forallb_forall in Ht. apply Ht in Ht'.
  cbn in Ht'. rewrite String.eqb_refl in Ht'. by apply bool_decide_eq_true in Ht'.
Qed.

#[export] Program Instance table_laws : ViperLaws Table := {
  Get := t_get;
  pristine v := v.(t_pristine) = true
}.
Next Obligation. intros k d v k' Hp. unfold t_get. cbn in *. by rewrite Hp. Qed.
Next Obligation. intros v v' Hr. cbn in Hr. destruct (t_file v) eqn:Hf; try done. by injection Hr as <-. Qed.
Next Obligation. done. Qed.
Next Obligation.
  intros hook v c k d t Hu Hd Ht. unfold Unmarshal, table_viper, t_unmarshal in Hu. destruct (forallb (t_ok hook v) schema) eqn:Ho; [|done]. injection Hu as <-.
  rewrite assemble_settings in Hd by (intros; apply t_decode_typed). apply list_elem_of_In, in_map_iff in Hd as ([k0 t0] & [= <- <-] & Hk%list_elem_of_In).
  cbn [Get fst snd]. rewrite (schema_keys _ _ _ Ht Hk). split; [apply t_decode_typed|]. rewrite forallb_forall in Ho.
  apply list_elem_of_In in Hk. apply Ho in Hk. unfold t_ok, t_decode, decoded in *. cbn [fst snd] in *.
  destruct (t_get v k0) as [x|]; [|done]. destruct (hook t0 x) as [y|]; [|done]. exists y. split; [done|].
  intros Hy. unfold coerce. by rewrite bool_decide_eq_true_2.
Qed.
Next Obligation.
  intros hook v c name field Hu _. unfold Unmarshal, table_viper, t_unmarshal in Hu. destruct (forallb (t_ok hook v) schema); [|done]. injection Hu as <-. repeat split; by eexists.
Qed.
Next Obligation.
  intros hook v _ Hd. unfold Unmarshal, table_viper, t_unmarshal. assert (forallb (t_ok hook v) schema = true) as ->; [|by eexists].
  apply forallb_forall. intros [k t] Hk%list_elem_of_In. specialize (Hd k t Hk). unfold t_ok, decodable in *. cbn.
  destruct (t_get v k); [|done]. by destruct Hd as (x' & -> & _).
Qed.

(** A file that sets the port and gives a time-out in seconds. *)
Definition demo_file : Table :=
  mkTable FileRead [("server.port", DInt 8085); ("upstream.request_timeout", DInt 75); ("server.aes_pass_key", DString "k")] [] true.
#[local] Instance demo_conversion : FloatConversion := {| unrepresentable _ := 0%Z |}.

Example demo_read : match (Load (mkPackage demo_file None)).1 with
  | Ok c => c.(Upstream_).(URequestTimeout) = (75 * Second)%Z /\ c.(Upstream_).(DialTimeout) = (5 * Second)%Z /\
      match c.(ServerConfig_) with Some s => s.(Port) = 8085%Z /\ s.(DBPath) = "./data/diffractllm.db" | None => False end
  | Err _ => False
  end.
Proof. by vm_compute. Qed.

(** No file: the hypotheses of [read_without_file] hold of the tables. *)
Example demo_without_file : (read (mkTable FileNotFound [] [] true)).1 = Ok DefaultConfig.
Proof. by vm_compute. Qed.
