(* ===== verification/Logs.v ===== *)
(** * Logging ([internal/observability/logging/logger.go], [internal/server/handlers.go])

    The level of the logger and its singleton, and the record of a request that was served.  zap,
    which writes the records, is not modelled: a record is its level and its fields. *)

From S2P Require Import Prelude GoBase Float64 Errors Catalog Pricing Credential Context.
Local Open Scope Z_scope.

(** ** Levels *)

Inductive Level : Type := DebugLevel | InfoLevel | WarnLevel | ErrorLevel | DPanicLevel | PanicLevel | FatalLevel.

Definition parseLevel (levelStr : string) : Level :=
  if String.eqb levelStr "debug" then DebugLevel
  else if String.eqb levelStr "info" then InfoLevel
  else if String.eqb levelStr "warn" then WarnLevel
  else if String.eqb levelStr "error" then ErrorLevel
  else if String.eqb levelStr "dpanic" then DPanicLevel
  else if String.eqb levelStr "panic" then PanicLevel
  else if String.eqb levelStr "fatal" then FatalLevel
  else InfoLevel.

(** zap's numbers of the levels; a logger writes the records at its level and above. *)
Definition zap_level (l : Level) : Z :=
  match l with
  | DebugLevel => -1 | InfoLevel => 0 | WarnLevel => 1 | ErrorLevel => 2 | DPanicLevel => 3 | PanicLevel => 4 | FatalLevel => 5
  end.
Definition enabled (logger record : Level) : bool := zap_level logger <=? zap_level record.

(** The package: the logger, by its level, and whether [logsingleton] ran. *)
Record Package : Type := mkPackage { logger : option Level; built : bool }.

(** [logNew], where the configuration builds; it panics otherwise.  A logger is made once. *)
Definition logNew (loglevel : string) (p : Package) : option Level * Package :=
  if p.(built) then (None, p) else (Some (parseLevel (ToLower loglevel)), mkPackage p.(logger) true).

Definition LogInit (LOGLEVEL : string) (p : Package) : option Level * Package :=
  match p.(logger) with
  | Some l => (Some l, p)
  | None => let '(l, p) := logNew LOGLEVEL p in (l, mkPackage l p.(built))
  end.

(** The first level wins. *)
Lemma LogInit_once a b : let '(l, p) := LogInit a (mkPackage None false) in
  l = Some (parseLevel (ToLower a)) /\ LogInit b p = (l, p).
Proof. done. Qed.

(** ** The record of a request *)

Inductive Field : Type := FString (s : string) | FInt (n : Z) | FBool (b : bool) | FFloat (x : f64) | FDuration (d : Z).

Definition logRequest (rctx : DiffractLLMContext) : list (string * Field) :=
  ([("event", FString "request"); ("request_id", FString rctx.(RequestID)); ("sdk", FString rctx.(SDKProvider));
    ("kind", FString rctx.(RequestKind_)); ("model", FString (SlashKey rctx.(Modelkey))); ("requested_model", FString rctx.(RequestedModel));
    ("response_status", FInt rctx.(ResponseStatus)); ("upstream_status", FInt rctx.(UpstreamStatus)); ("ttfb", FDuration rctx.(TTFB));
    ("response_bytes", FInt rctx.(ResponseBytes)); ("completed", FBool rctx.(RequestCompleted));
    ("hooks_pre_call", FDuration rctx.(HookLog_).(PreCallTotal)); ("hooks_pre_provider", FDuration rctx.(HookLog_).(PreProviderTotal));
    ("hooks_post_provider", FDuration rctx.(HookLog_).(PostProviderTotal)); ("hooks_post_call", FDuration rctx.(HookLog_).(PostCallTotal))] ++
   (if is_empty rctx.(VirtualKeyID) then []
    else [("virtual_key_id", FString rctx.(VirtualKeyID)); ("client_id", FString rctx.(ClientID)); ("budget_ref", FString rctx.(BudgetRef))]) ++
   match rctx.(SelectedCredential) with
   | Some cred => [("credential_id", FString cred.(CID)); ("credential_name", FString cred.(CName))]
   | None => []
   end ++
   (if (0 <? rctx.(StreamChunks)) || rctx.(StreamAborted)
    then [("stream_chunks", FInt rctx.(StreamChunks)); ("finish_reason", FString rctx.(StreamFinishReason)); ("stream_aborted", FBool rctx.(StreamAborted))]
    else []) ++
   match rctx.(Usage_) with
   | Some u => [("input_tokens", FInt u.(InputTokens)); ("output_tokens", FInt u.(OutputTokens));
                ("cached_input_tokens", FInt u.(CachedInputTokens)); ("reasoning_tokens", FInt u.(ReasoningTokens)); ("cost", FFloat rctx.(Cost))]
   | None => []
   end ++
   match rctx.(CError) with
   | Some e => [("error_code", FString e.(Code)); ("error_category", FString e.(ErrorCategory)); ("error_message", FString e.(Message))]
   | None => []
   end)%list.

(** What a request asked and was answered, its headers and the secrets of its credential are not
    in the record: it is the same whatever they are. *)
Lemma log_has_no_payload rctx body answer request policy cred cred' : rctx.(SelectedCredential) = Some cred ->
  cred'.(CID) = cred.(CID) -> cred'.(CName) = cred.(CName) ->
  logRequest (rctx <| BodyBytes := body |> <| ResponseBody := answer |> <| Request := request |> <| VirtualKeyPolicy := policy |>
                   <| SelectedCredential := Some cred' |>) = logRequest rctx.
Proof. intros Hc Hi Hn. unfold logRequest. cbn. by rewrite Hc, Hi, Hn. Qed.

(** A record says at most once what it says. *)
Lemma log_fields_once rctx : NoDup (logRequest rctx).*1.
Proof.
  apply (bool_decide_unpack _). unfold logRequest.
  by destruct (is_empty _), (SelectedCredential rctx), (_ || _), (Usage_ rctx), (CError rctx).
Qed.
