(* ===== verification/Routes.v ===== *)
(** * Routes and middleware ([internal/server/routes.go], [middleware.go])

    The table of routes the server registers, and what happens to a request on its way to a
    handler: the request identifier, the access log, the recovery of panics and the guard of the
    metrics endpoints.

    gin is an interface: how the router finds the route of a request, in terms of the patterns that
    were registered.  The handlers are an argument: what they make of the response and whether they
    panic; most of them are modelled in files of their own. *)

From S2P Require Import Prelude GoBase Errors Catalog Chat OpenAI Server Logs.
From Stdlib Require Import Ascii.
Local Open Scope Z_scope.

(** ** Patterns *)

(** A segment of a pattern: a text, or a parameter with its name. *)
Inductive Segment : Type := Lit (s : string) | Par (name : string).

Definition segment (s : string) : Segment := match s with String ":"%char name => Par name | _ => Lit s end.
Definition segments (pattern : string) : list Segment := map segment (split_byte "/"%char pattern).

(** The parameters a path gives the pattern it matches; a parameter is never empty. *)
Fixpoint match_segments (ps : list Segment) (path : list string) : option (list (string * string)) :=
  match ps, path with
  | [], [] => Some []
  | Lit a :: ps, b :: path => if String.eqb a b then match_segments ps path else None
  | Par x :: ps, b :: path => if is_empty b then None else (fun l => (x, b) :: l) <$> match_segments ps path
  | _, _ => None
  end.
Definition match_path (pattern path : string) : option (list (string * string)) :=
  match_segments (segments pattern) (split_byte "/"%char path).

Definition is_par (s : Segment) : bool := match s with Par _ => true | Lit _ => false end.
(** A pattern without parameters. *)
Definition static (pattern : string) : bool := negb (existsb is_par (segments pattern)).

(** Two patterns of one method that cannot be registered together: they are the same, or name the
    parameter at one place differently. *)
Fixpoint clash (ps qs : list Segment) : bool :=
  match ps, qs with
  | [], [] => true
  | Lit a :: ps, Lit b :: qs => if String.eqb a b then clash ps qs else false
  | Par x :: ps, Par y :: qs => if String.eqb x y then clash ps qs else true
  | _, _ => false
  end.

(** ** Routes *)

(** The handlers of the administration and of the probes. *)
Inductive Handler : Type :=
| handleHealth | handleReady | handleInfo | handleStats | handleModelCatalog
| listBudgets | createBudget | getBudget | updateBudget | deleteBudget
| listVirtualKeys | createVirtualKey | getVirtualKey | updateVirtualKeyRouting | rotateVirtualKey | setVirtualKeyStatus | revokeVirtualKey
| listProviders | getProvider | getProviderSettings | updateProvider
| listCredentials | createCredential | updateCredential | deleteCredential
| listModels | listModelCatalog
| listCustomPricing | createCustomPricing | updateCustomPricing | deleteCustomPricing
| getMetricsStats | listMetricsRequests | getMetricsRequestSummary | getMetricsRequest | getMetricsRequestPayload
| getMetricsTopVirtualKeys | getMetricsBudgetSpend.

Inductive Endpoint : Type := Sdk (desc : RouteDescriptor) | Own (h : Handler).

(** [guarded]: the group's [requireMetrics] runs first. *)
Record Route : Type := mkRoute { r_method : string; r_pattern : string; guarded : bool; endpoint : Endpoint }.

Record RouterGroup : Type := mkRouterGroup { basePath : string; g_guarded : bool }.

(** [group.Group(path, ..)] and [group.Handle(method, path, ..)]: the paths of the table have no
    empty or dotted segments, so joining them is appending. *)
Definition Group (path : string) (guard : bool) (g : RouterGroup) : RouterGroup :=
  mkRouterGroup (g.(basePath) ++ path) (g.(g_guarded) || guard).
Definition Handle (g : RouterGroup) (method path : string) (e : Endpoint) : Route :=
  mkRoute method (g.(basePath) ++ path) g.(g_guarded) e.
Definition GET (g : RouterGroup) (path : string) (h : Handler) : Route := Handle g "GET" path (Own h).
Definition POST (g : RouterGroup) (path : string) (h : Handler) : Route := Handle g "POST" path (Own h).
Definition PUT (g : RouterGroup) (path : string) (h : Handler) : Route := Handle g "PUT" path (Own h).
Definition DELETE (g : RouterGroup) (path : string) (h : Handler) : Route := Handle g "DELETE" path (Own h).

Definition root : RouterGroup := mkRouterGroup "" false.

(** The loop over the descriptors, with the group of each SDK it has made. *)
Definition add_descriptor (acc : gmap string RouterGroup * list Route) (desc : RouteDescriptor) : gmap string RouterGroup * list Route :=
  let '(groups, routes) := acc in
  if negb desc.(AddToRoute) then acc
  else
    let sdkPath := default (Group ("/" ++ desc.(SDK)) false root) (groups !! desc.(SDK)) in
    (<[desc.(SDK) := sdkPath]> groups, (routes ++ [Handle sdkPath desc.(Method) desc.(Path) (Sdk desc)])%list).
Definition sdk_routes (descriptors : list RouteDescriptor) : list Route := (foldl add_descriptor (∅, []) descriptors).2.

Definition own_routes : list Route :=
  let router := root in
  let admin := Group "/v1/admin" false router in
  let budgets := Group "/budgets" false admin in
  let keys := Group "/virtual-keys" false admin in
  let providers := Group "/providers" false admin in
  let models := Group "/models" false admin in
  let pricing := Group "/pricing/custom" false admin in
  let metrics := Group "/metrics" true admin in
  [GET router "/health" handleHealth; GET router "/ready" handleReady; GET router "/v1/info" handleInfo;
   GET admin "/stats" handleStats; POST admin "/sync/catalog" handleModelCatalog;
   GET budgets "" listBudgets; POST budgets "" createBudget; GET budgets "/:id" getBudget; PUT budgets "/:id" updateBudget;
   DELETE budgets "/:id" deleteBudget;
   GET keys "" listVirtualKeys; POST keys "" createVirtualKey; GET keys "/:id" getVirtualKey;
   PUT keys "/:id/routing" updateVirtualKeyRouting; POST keys "/:id/rotate" rotateVirtualKey;
   PUT keys "/:id/status" setVirtualKeyStatus; DELETE keys "/:id" revokeVirtualKey;
   GET providers "" listProviders; GET providers "/:providername" getProvider;
   GET providers "/:providername/settings" getProviderSettings; PUT providers "/:providername/settings" updateProvider;
   GET providers "/:providername/credentials" listCredentials; POST providers "/:providername/credentials" createCredential;
   PUT providers "/:providername/credentials/:id" updateCredential; DELETE providers "/:providername/credentials/:id" deleteCredential;
   GET models "" listModels; GET models "/catalog" listModelCatalog;
   GET pricing "" listCustomPricing; POST pricing "" createCustomPricing; PUT pricing "/:id" updateCustomPricing;
   DELETE pricing "/:id" deleteCustomPricing;
   GET metrics "/stats" getMetricsStats; GET metrics "/requests" listMetricsRequests;
   GET metrics "/requests/summary" getMetricsRequestSummary; GET metrics "/requests/:id" getMetricsRequest;
   GET metrics "/requests/:id/payload" getMetricsRequestPayload; GET metrics "/virtual-keys/top" getMetricsTopVirtualKeys;
   GET metrics "/budgets/:id" getMetricsBudgetSpend].

(** [routeHandlers]: the table, unless gin refuses the trusted proxies. *)
Definition routeHandlers (SetTrustedProxies : list string -> option string) (TrustedProxies : list string)
    (descriptors : list RouteDescriptor) : result string (list Route) :=
  match SetTrustedProxies TrustedProxies with
  | Some e => Err ("trusted proxies: " ++ e)%string
  | None => Ok (sdk_routes descriptors ++ own_routes)%list
  end.

(** ** gin *)

Definition clashing (r r' : Route) : bool :=
  String.eqb r.(r_method) r'.(r_method) && clash (segments r.(r_pattern)) (segments r'.(r_pattern)).

(** No two routes clash; gin panics at the registration otherwise. *)
Fixpoint registrable (rs : list Route) : bool :=
  match rs with [] => true | r :: rs => negb (existsb (clashing r) rs) && registrable rs end.

Inductive Found : Type := Matched (r : Route) (params : list (string * string)) | NoMethod | NoRoute.

(** The router, as it is configured: a request to a known path with another method is answered 405
    ([HandleMethodNotAllowed]), and no path is redirected. *)
Class Router := { find : list Route -> string -> string -> Found }.

Definition serves (r : Route) (method path : string) : Prop := r.(r_method) = method /\ is_Some (match_path r.(r_pattern) path).

Class RouterLaws `{Router} := {
  find_sound rs m p r ps : registrable rs = true -> find rs m p = Matched r ps ->
    r ∈ rs /\ r.(r_method) = m /\ match_path r.(r_pattern) p = Some ps;
  find_complete rs m p r : registrable rs = true -> r ∈ rs -> serves r m p -> exists r' ps, find rs m p = Matched r' ps;
  (** A pattern without parameters goes first. *)
  find_static rs m p r ps r' : registrable rs = true -> find rs m p = Matched r ps ->
    r' ∈ rs -> serves r' m p -> static r'.(r_pattern) = true -> static r.(r_pattern) = true;
  find_no_method rs m p r : registrable rs = true -> r ∈ rs -> is_Some (match_path r.(r_pattern) p) -> find rs m p <> NoRoute;
  find_no_route rs m p : registrable rs = true -> find rs m p = NoMethod -> exists r, r ∈ rs /\ is_Some (match_path r.(r_pattern) p)
}.

(** ** A reference router *)

Definition matching (m p : string) (r : Route) : bool :=
  String.eqb r.(r_method) m && match match_path r.(r_pattern) p with Some _ => true | None => false end.
Definition on_path (p : string) (r : Route) : bool := match match_path r.(r_pattern) p with Some _ => true | None => false end.

(** The first match without parameters, else the first match. *)
Definition find_first (rs : list Route) (m p : string) : Found :=
  match List.filter (matching m p) rs with
  | [] => if existsb (on_path p) rs then NoMethod else NoRoute
  | r :: found => let r := default r (List.find (fun r => static r.(r_pattern)) (r :: found)) in
                  Matched r (default [] (match_path r.(r_pattern) p))
  end.
#[export] Instance first_router : Router := {| find := find_first |}.

(** ** The middleware *)

(** A record of the access log. *)
Record Access : Type := mkAccess { level : Level; fields : list (string * Field) }.

(** What gin's writer has: the status, and the bytes written, if any were. *)
Record Writer : Type := mkWriter { status : Z; written : option string }.
Definition Size (w : Writer) : Z := match w.(written) with Some b => Z.of_nat (String.length b) | None => -1 end.
Definition Written (w : Writer) : bool := bool_decide (is_Some w.(written)).
Definition Writer0 : Writer := mkWriter StatusOK None.

Definition StatusMethodNotAllowed : Z := 405.

Section serve.
(** Values a handler panics with. *)
Variable Panic : Type.

Inductive Ended : Type := Returned | Panicked (v : Panic).

Record Request : Type := mkRequest {
  q_method : string;
  q_path : string;
  RawQuery : string;
  (** [c.GetHeader("X-Request-ID")]. *)
  XRequestID : string;
  ClientIP : string
}.

(** A request under way: the writer, the header and the key of its identifier, the errors gin
    keeps, the records of the access log and of panics (the value, the path and whether a response
    was under way). *)
Record Call : Type := mkCall {
  writer : Writer;
  id_header : string;
  id_key : string;
  errors : string;
  accesses : list Access;
  panics : list (Panic * string * bool)
}.
#[export] Instance Call_eta : Eta Call := fun c =>
  mkCall (writer c) (id_header c) (id_key c) (errors c) (accesses c) (panics c).
Definition Call0 : Call := mkCall Writer0 "" "" "" [] [].

Definition HandlerFunc : Type := Call -> Ended * Call.

(** The environment of a request: the handlers, the encoding of [gin.H{"error": msg}], what gin takes
    for a connection the client broke and the text it keeps of it, whether there is a metrics engine,
    a fresh identifier, and how long the request takes. *)
Record Env : Type := mkEnv {
  handle : Endpoint -> Request -> list (string * string) -> Writer -> Ended * Writer * string;
  error_json : string -> string;
  broken_pipe : Panic -> option string;
  metrics : bool;
  newV7 : string;
  took : Z
}.
Variable env : Env.

(** [c.AbortWithStatusJSON(code, gin.H{"error": msg})] before anything was written. *)
Definition AbortWithStatusJSON (code : Z) (msg : string) (c : Call) : Call :=
  c <| writer := mkWriter code (Some (env.(error_json) msg)) |>.

Definition RequestIDMiddleware (q : Request) (next : HandlerFunc) : HandlerFunc := fun c =>
  let requestID := if is_empty q.(XRequestID) then env.(newV7) else q.(XRequestID) in
  next (c <| id_header := requestID |> <| id_key := requestID |>).

Definition access_fields (q : Request) (c : Call) : list (string * Field) :=
  ([("method", FString q.(q_method)); ("path", FString q.(q_path)); ("status", FInt c.(writer).(status));
    ("took", FDuration env.(took)); ("client_ip", FString q.(ClientIP)); ("request_id", FString c.(id_key))] ++
   (if is_empty q.(RawQuery) then [] else [("query", FString q.(RawQuery))]) ++
   (if 0 <? Size c.(writer) then [("bytes", FInt (Size c.(writer)))] else []) ++
   (if is_empty c.(errors) then [] else [("errors", FString c.(errors))]))%list.
Definition access_level (q : Request) (c : Call) : Level :=
  let status := c.(writer).(status) in
  if String.eqb q.(q_path) "/health" || String.eqb q.(q_path) "/ready" then DebugLevel
  else if StatusInternalServerError <=? status then ErrorLevel
  else if StatusBadRequest <=? status then WarnLevel
  else InfoLevel.

(** A panic that passes through is not logged here. *)
Definition AccessLogMiddleware (q : Request) (next : HandlerFunc) : HandlerFunc := fun c =>
  match next c with
  | (Panicked v, c) => (Panicked v, c)
  | (Returned, c) => (Returned, c <| accesses := (c.(accesses) ++ [mkAccess (access_level q c) (access_fields q c)])%list |>)
  end.

Definition HandleRecovery (q : Request) (v : Panic) (c : Call) : Call :=
  let c := c <| panics := (c.(panics) ++ [(v, q.(q_path), Written c.(writer))])%list |> in
  if Written c.(writer) then c else AbortWithStatusJSON StatusInternalServerError "internal error" c.

(** [gin.CustomRecoveryWithWriter]: a connection the client broke is recorded as an error. *)
Definition Recovery (q : Request) (next : HandlerFunc) : HandlerFunc := fun c =>
  match next c with
  | (Returned, c) => (Returned, c)
  | (Panicked v, c) => (Returned, match env.(broken_pipe) v with
                                  | Some text => c <| errors ::= fun e => (e ++ text)%string |>
                                  | None => HandleRecovery q v c
                                  end)
  end.

(** The handlers of a route. *)
Definition run_endpoint (q : Request) (e : Endpoint) (ps : list (string * string)) : HandlerFunc := fun c =>
  let '(ended, w, errs) := env.(handle) e q ps c.(writer) in (ended, c <| writer := w |> <| errors := errs |>).
Definition require_metrics (next : HandlerFunc) : HandlerFunc := fun c =>
  if env.(metrics) then next c else (Returned, AbortWithStatusJSON StatusServiceUnavailable "metrics engine is disabled" c).

Definition answer (code : Z) (msg : string) : HandlerFunc := fun c => (Returned, AbortWithStatusJSON code msg c).

Definition chain `{Router} (rs : list Route) (q : Request) : HandlerFunc :=
  match find rs q.(q_method) q.(q_path) with
  | Matched r ps => (if r.(guarded) then require_metrics else id) (run_endpoint q r.(endpoint) ps)
  | NoRoute => answer StatusNotFound "unknown or unsupported endpoint"
  | NoMethod => answer StatusMethodNotAllowed "method not allowed"
  end.

(** A request served: the middleware in the order it was registered. *)
Definition serve `{Router} (rs : list Route) (q : Request) : Ended * Call :=
  RequestIDMiddleware q (AccessLogMiddleware q (Recovery q (chain rs q))) Call0.

(** ** Every request is answered *)

(** The identifier of the request. *)
Definition request_id (q : Request) : string := if is_empty q.(XRequestID) then env.(newV7) else q.(XRequestID).

(** What a handler left, recovered. *)
Definition recovered (q : Request) (r : Ended * Call) : Call :=
  match r with
  | (Returned, c) => c
  | (Panicked v, c) => match env.(broken_pipe) v with Some text => c <| errors ::= fun e => (e ++ text)%string |> | None => HandleRecovery q v c end
  end.

Definition identified (q : Request) : Call := Call0 <| id_header := request_id q |> <| id_key := request_id q |>.

Lemma serve_eq `{Router} rs q :
  serve rs q = let c := recovered q (chain rs q (identified q)) in
    (Returned, c <| accesses := (c.(accesses) ++ [mkAccess (access_level q c) (access_fields q c)])%list |>).
Proof.
  unfold serve, RequestIDMiddleware, AccessLogMiddleware, Recovery. change (_ <| id_key := _ |>) with (identified q).
  by destruct (chain rs q (identified q)) as [[|v] c].
Qed.

(** Handlers leave the identifier and the logs alone. *)
Lemma chain_frame `{Router} rs q c : let c' := (chain rs q c).2 in
  c'.(id_header) = c.(id_header) /\ c'.(id_key) = c.(id_key) /\ c'.(accesses) = c.(accesses) /\ c'.(panics) = c.(panics).
Proof.
  unfold chain. destruct (find _ _ _) as [r ps| |]; [|done|done].
  assert (Hr : let c' := (run_endpoint q (endpoint r) ps c).2 in
    c'.(id_header) = c.(id_header) /\ c'.(id_key) = c.(id_key) /\ c'.(accesses) = c.(accesses) /\ c'.(panics) = c.(panics)).
  { unfold run_endpoint. by destruct (handle _ _ _ _ _) as [[e w] errs]. }
  destruct (guarded r); [|done]. unfold require_metrics. by destruct (metrics env).
Qed.

Lemma recovered_frame q r : (recovered q r).(id_header) = r.2.(id_header) /\ (recovered q r).(id_key) = r.2.(id_key) /\
  (recovered q r).(accesses) = r.2.(accesses).
Proof.
  destruct r as [[|v] c]; [done|]. cbn. destruct (broken_pipe env v); [done|]. unfold HandleRecovery. by destruct (Written _).
Qed.

End serve.

#[global] Arguments Returned {Panic}.
#[global] Arguments Panicked {Panic} v.
#[global] Arguments writer {Panic} c.
#[global] Arguments id_header {Panic} c.
#[global] Arguments id_key {Panic} c.
#[global] Arguments accesses {Panic} c.
#[global] Arguments panics {Panic} c.

(** ** Matching *)

(** Some path may match both. *)
Fixpoint overlap (ps qs : list Segment) : bool :=
  match ps, qs with
  | [], [] => true
  | Lit a :: ps, Lit b :: qs => String.eqb a b && overlap ps qs
  | Par _ :: ps, Lit b :: qs | Lit b :: ps, Par _ :: qs => negb (is_empty b) && overlap ps qs
  | Par _ :: ps, Par _ :: qs => overlap ps qs
  | _, _ => false
  end.

Lemma match_overlap ps : forall qs path, is_Some (match_segments ps path) -> is_Some (match_segments qs path) -> overlap ps qs = true.
Proof.
  induction ps as [|s ps IH]; intros qs path.
  - destruct path; cbn; [|by intros [? [=]]]. intros _. by destruct qs as [|[]]; cbn; [|intros [? [=]]..].
  - destruct path as [|b path]; [by destruct s; intros [? [=]]|]. destruct qs as [|t qs]; [by intros _ [? [=]]|]. revert s t.
    intros [a|x] [a'|y]; cbn.
    + destruct (String.eqb_spec a b) as [->|]; [|by intros [? [=]]]. destruct (String.eqb_spec a' b) as [->|]; [|by intros _ [? [=]]].
      intros. rewrite String.eqb_refl. eauto.
    + destruct (String.eqb_spec a b) as [->|]; [|by intros [? [=]]]. destruct (is_empty b); [by intros _ [? [=]]|].
      rewrite fmap_is_Some. cbn. eauto.
    + destruct (String.eqb_spec a' b) as [->|]; [|by intros _ [? [=]]]. destruct (is_empty b); [by intros [? [=]]|].
      rewrite fmap_is_Some. cbn. eauto.
    + destruct (is_empty b); [by intros [? [=]]|]. rewrite !fmap_is_Some. eauto.
Qed.

(** Two routes no request fits both of, unless exactly one of them has no parameters. *)
Definition exclusive (r r' : Route) : bool :=
  negb (String.eqb r.(r_method) r'.(r_method)) || negb (overlap (segments r.(r_pattern)) (segments r'.(r_pattern))) ||
  xorb (static r.(r_pattern)) (static r'.(r_pattern)).

Fixpoint all_exclusive (rs : list Route) : bool :=
  match rs with [] => true | r :: rs => forallb (exclusive r) rs && all_exclusive rs end.

Lemma exclusive_sym r r' : exclusive r r' = exclusive r' r.
Proof.
  unfold exclusive. rewrite (String.eqb_sym (r_method r)), (xorb_comm (static (r_pattern r))). do 3 f_equal.
  generalize (segments (r_pattern r)), (segments (r_pattern r')). induction l as [|[a|x] l IH]; intros [|[b|y] l']; cbn; try done;
    rewrite ?IH; [by rewrite String.eqb_sym|done..].
Qed.

Lemma all_exclusive_pair rs r r' : all_exclusive rs = true -> r ∈ rs -> r' ∈ rs -> r = r' \/ exclusive r r' = true.
Proof.
  induction rs as [|a rs IH]; [by intros _ ?%elem_of_nil|]. cbn. intros [Ha Hr]%andb_true_iff. rewrite forallb_forall in Ha.
  intros [->|H1]%elem_of_cons [->|H2]%elem_of_cons; [by left| | |by apply IH].
  - right. by apply Ha, list_elem_of_In.
  - right. rewrite exclusive_sym. by apply Ha, list_elem_of_In.
Qed.

Lemma serves_matching r m p : serves r m p <-> matching m p r = true.
Proof.
  unfold serves, matching. rewrite andb_true_iff, String.eqb_eq. destruct (match_path (r_pattern r) p); naive_solver.
Qed.

Lemma serves_exclusive r r' m p : serves r m p -> serves r' m p -> exclusive r r' = true ->
  static r.(r_pattern) = negb (static r'.(r_pattern)).
Proof.
  intros [<- Hp] [Hm Hp'] He. unfold exclusive in He. rewrite Hm, String.eqb_refl, (match_overlap _ _ _ Hp Hp') in He. cbn in He.
  destruct (static (r_pattern r)), (static (r_pattern r')); done.
Qed.

(** ** The reference router is one *)

Lemma matching_elem rs m p r : r ∈ List.filter (matching m p) rs <-> r ∈ rs /\ serves r m p.
Proof. by rewrite !list_elem_of_In, filter_In, serves_matching. Qed.

Lemma on_path_spec p r : on_path p r = true <-> is_Some (match_path r.(r_pattern) p).
Proof. unfold on_path. destruct (match_path _ _); split; try done; by intros []. Qed.

Lemma find_first_case rs m p :
  (exists r ps, find_first rs m p = Matched r ps /\ r ∈ rs /\ r.(r_method) = m /\ match_path r.(r_pattern) p = Some ps /\
     forall r', r' ∈ rs -> serves r' m p -> static r'.(r_pattern) = true -> static r.(r_pattern) = true) \/
  ((forall r, r ∈ rs -> ~ serves r m p) /\
   find_first rs m p = if existsb (on_path p) rs then NoMethod else NoRoute).
Proof.
  unfold find_first. destruct (List.filter (matching m p) rs) as [|r0 found] eqn:Hf.
  { right. split; [|done]. intros r Hr Hs. assert (Hx : r ∈ List.filter (matching m p) rs) by by apply matching_elem.
    rewrite Hf in Hx. by apply elem_of_nil in Hx. }
  left. set (r := default r0 _). assert (Hr : r ∈ r0 :: found /\ forall r', r' ∈ r0 :: found -> static r'.(r_pattern) = true -> static r.(r_pattern) = true).
  { unfold r. destruct (List.find _ (r0 :: found)) as [s|] eqn:Hs.
    - apply find_some in Hs as [Hs Hst]. split; [by apply list_elem_of_In|done].
    - split; [constructor|]. intros r' Hr' Hst. apply list_elem_of_In in Hr'. pose proof (find_none _ _ Hs r' Hr'). cbn in *. congruence. }
  destruct Hr as [Hr Hst]. rewrite <- Hf in Hr, Hst. apply matching_elem in Hr as (Hin & Hm & ps & Hp). exists r, ps. rewrite Hp.
  split; [done|]. split; [done|]. split; [done|]. split; [done|]. intros r' Hr' Hs'. by apply Hst, matching_elem.
Qed.

#[export] Instance first_router_laws : RouterLaws.
Proof.
  constructor; unfold find, first_router.
  - intros rs m p r ps _ Hf. destruct (find_first_case rs m p) as [(r' & ps' & E & H1 & H2 & H3 & _)|[_ E]];
    [rewrite E in Hf; by injection Hf as <- <-|].
    rewrite E in Hf. by destruct (existsb _ _).
  - intros rs m p r _ Hr Hs. destruct (find_first_case rs m p) as [(r' & ps' & E & _)|[Hn _]]; [eauto|]. by destruct (Hn r Hr).
  - intros rs m p r ps r' _ Hf Hr' Hs Hst. destruct (find_first_case rs m p) as [(r1 & ps' & E & _ & _ & _ & Hx)|[Hn _]]; [|by destruct (Hn r' Hr')].
    rewrite E in Hf. injection Hf as -> _. by apply (Hx r').
  - intros rs m p r _ Hr Hp Hf. destruct (find_first_case rs m p) as [(r1 & ps' & E & _)|[_ E]]; [congruence|].
    rewrite E in Hf. assert (existsb (on_path p) rs = true) as Hx; [|by rewrite Hx in Hf].
    apply existsb_exists. exists r. split; [by apply list_elem_of_In|by apply on_path_spec].
  - intros rs m p _ Hf. destruct (find_first_case rs m p) as [(r1 & ps' & E & _)|[_ E]]; [congruence|].
    rewrite E in Hf. destruct (existsb (on_path p) rs) eqn:Hx; [|done]. apply existsb_exists in Hx as (r & Hr & Hp).
    exists r. split; [by apply list_elem_of_In|by apply on_path_spec].
Qed.

(** ** The table *)

Section table.
Context `{Sonic}.

Definition table : list Route := (sdk_routes [OpenAIChatRoute] ++ own_routes)%list.

(** gin accepts the registrations, and no request has two routes to choose from. *)
Lemma table_registrable : registrable table = true.
Proof. reflexivity. Qed.
Lemma table_exclusive : all_exclusive table = true.
Proof. reflexivity. Qed.

(** The routes behind [requireMetrics] are those of the metrics, no other. *)
Lemma metrics_guarded : forallb (fun r => Bool.eqb r.(guarded) (has_prefix "/v1/admin/metrics/" r.(r_pattern))) table = true.
Proof. reflexivity. Qed.

Context {R : Router} `{!RouterLaws}.

(** Where a request goes does not depend on how the router looks. *)
Lemma router_determined m p : find table m p = find_first table m p.
Proof.
  pose proof table_registrable as Ht. destruct (find_first_case table m p) as [(r & ps & E & Hin & Hm & Hp & Hst)|[Hn E]]; rewrite E.
  - assert (Hs : serves r m p) by (split; [done|by eexists]). destruct (find_complete _ _ _ _ Ht Hin Hs) as (r' & ps' & E').
    destruct (find_sound _ _ _ _ _ Ht E') as (Hin' & Hm' & Hp'). assert (Hs' : serves r' m p) by (split; [done|by eexists]).
    enough (r' = r) as -> by congruence. destruct (all_exclusive_pair _ _ _ table_exclusive Hin' Hin) as [|Hx]; [done|].
    pose proof (serves_exclusive _ _ _ _ Hs' Hs Hx) as Hxor. pose proof (find_static _ _ _ _ _ _ Ht E' Hin Hs) as H1.
    pose proof (Hst r' Hin' Hs') as H2. destruct (static (r_pattern r)), (static (r_pattern r')); naive_solver.
  - destruct (find table m p) as [r ps| |] eqn:Hf.
    + destruct (find_sound _ _ _ _ _ Ht Hf) as (Hin & Hm & Hp). destruct (Hn r Hin). by split; [|eexists].
    + destruct (find_no_route _ _ _ Ht Hf) as (r & Hin & Hp). assert (existsb (on_path p) table = true) as ->; [|done].
      apply existsb_exists. exists r. split; [by apply list_elem_of_In|by apply on_path_spec].
    + destruct (existsb (on_path p) table) eqn:Hx; [|done]. apply existsb_exists in Hx as (r & Hr & Hp).
      exfalso. eapply (find_no_method table m p r); [done|by apply list_elem_of_In|by apply on_path_spec|done].
Qed.
End table.

(** ** What a request gets *)

Section answers.
Context `{Sonic} {R : Router} `{!RouterLaws} {Panic : Type}.
Variable env : Env Panic.
Abbreviation E := (Ended Panic).

(** The response, in terms of the reference router and of the handler alone. *)
Definition response (q : Request) : Writer :=
  let refused code msg := mkWriter code (Some (error_json Panic env msg)) in
  match find_first table q.(q_method) q.(q_path) with
  | NoRoute => refused StatusNotFound "unknown or unsupported endpoint"
  | NoMethod => refused StatusMethodNotAllowed "method not allowed"
  | Matched r ps =>
      if r.(guarded) && negb (metrics Panic env) then refused StatusServiceUnavailable "metrics engine is disabled"
      else
        let '(ended, w, _) := handle Panic env r.(endpoint) q ps Writer0 in
        match ended with
        | Returned => w
        | Panicked v => if bool_decide (is_Some (broken_pipe Panic env v)) || Written w then w
                        else refused StatusInternalServerError "internal error"
        end
  end.

(** C9: Whatever the router's data structure, whatever a handler does and whether or not it
    panics, a request is answered and logged once: the server never panics; the response is that of
    the one route that fits the request (404 where none does, 405 where one does for another method,
    503 for the metrics of a gateway without a metrics engine, 500 after a panic that wrote
    nothing); it carries the client's identifier or a fresh one; and there is one record of the access
    log, with that identifier and the status that was sent, an error from 500 on and a warning from
    400 on except for the probes. *)
Theorem serve_spec q : let '(ended, c) := serve Panic env table q in
  ended = Returned /\ c.(writer) = response q /\
  c.(id_header) = request_id Panic env q /\ c.(id_key) = c.(id_header) /\
  exists a, c.(accesses) = [a] /\ ("request_id", FString c.(id_header)) ∈ a.(fields) /\ ("status", FInt c.(writer).(status)) ∈ a.(fields) /\
    a.(level) = if String.eqb q.(q_path) "/health" || String.eqb q.(q_path) "/ready" then DebugLevel
                else if 500 <=? c.(writer).(status) then ErrorLevel else if 400 <=? c.(writer).(status) then WarnLevel else InfoLevel.
Proof.
  rewrite serve_eq. cbn zeta. set (c := recovered _ _ _ _).
  destruct (recovered_frame Panic env q (chain Panic env table q (identified Panic env q))) as (F1 & F2 & F3).
  destruct (chain_frame Panic env table q (identified Panic env q)) as (G1 & G2 & G3 & _). fold c in F1, F2, F3.
  assert (Ha : accesses c = []) by (rewrite F3, G3; done). assert (Hi : id_header c = request_id Panic env q) by (rewrite F1, G1; done).
  assert (Hk : id_key c = request_id Panic env q) by (rewrite F2, G2; done).
  split; [done|]. split; [|split; [done|split; [cbn; congruence|]]].
  - cbn. unfold c, response, recovered, chain. rewrite router_determined. destruct (find_first _ _ _) as [r ps| |]; [|done|done].
    unfold require_metrics, run_endpoint. destruct (guarded r), (metrics Panic env); cbn; try done;
      (destruct (handle _ _ _ _ _) as [[[|v] w] errs]; cbn; [done|]; destruct (broken_pipe Panic env v); cbn; [done|];
       unfold HandleRecovery; cbn; by destruct (Written w)).
  - exists (mkAccess (access_level Panic q c) (access_fields Panic env q c)). cbn. rewrite Ha, Hk, Hi. split; [done|].
    split; [set_solver|]. split; [set_solver|]. reflexivity.
Qed.

(** The administration asks nobody who they are: a request that fits one of its routes, the metrics
    apart, runs the handler, whatever else it carries. *)
Lemma admin_is_public q r ps : find_first table q.(q_method) q.(q_path) = Matched r ps ->
  has_prefix "/v1/admin/metrics/" r.(r_pattern) = false -> chain Panic env table q = run_endpoint Panic env q r.(endpoint) ps.
Proof.
  intros Hf Hg. unfold chain. rewrite router_determined, Hf.
  assert (Hr : r ∈ table).
  { destruct (find_first_case table q.(q_method) q.(q_path)) as [(r' & ps' & E & Hr & _)|[_ E]]; rewrite E in Hf;
      [by injection Hf as <- _|by destruct (existsb _ _)]. }
  pose proof metrics_guarded as Hm. rewrite forallb_forall in Hm. apply list_elem_of_In, Hm, Bool.eqb_prop in Hr. by rewrite Hr, Hg.
Qed.
End answers.

(** ** Requests on concrete paths *)

#[local] Instance no_json : Sonic :=
  {| marshal_request _ := Err ""; unmarshal_request _ := Err ""; marshal_response _ := Err ""; unmarshal_response _ := Err "";
     marshal_chunk _ := Err ""; unmarshal_chunk _ := Err ""; marshal_error _ := Err ""; unmarshal_error _ := mkOpenAIErrorResponse None |}.

Definition demo_found (m p : string) : option (Endpoint * list (string * string)) :=
  match find_first table m p with Matched r ps => Some (r.(endpoint), ps) | _ => None end.

Example summary_is_no_id : demo_found "GET" "/v1/admin/metrics/requests/summary" = Some (Own getMetricsRequestSummary, []).
Proof. reflexivity. Qed.
Example request_by_id : demo_found "GET" "/v1/admin/metrics/requests/r1" = Some (Own getMetricsRequest, [("id", "r1")]).
Proof. reflexivity. Qed.
Example chat_is_sdk : demo_found "POST" "/openai/v1/chat/completions" = Some (Sdk OpenAIChatRoute, []).
Proof. reflexivity. Qed.
Example health_by_post : find_first table "POST" "/health" = NoMethod.
Proof. reflexivity. Qed.

(** A gateway without metrics whose handler of budgets panics. *)
Definition demo_env : Env string :=
  mkEnv string
    (fun e _ _ w => match e with Own getBudget => (Panicked "nil map", w, "") | _ => (Returned, mkWriter 200 (Some "{}"), "") end)
    (fun msg => "{error:" ++ msg ++ "}")%string (fun _ => None) false "0190-fresh" 5.
Definition demo_request (path id : string) : Request := mkRequest "GET" path "" id "127.0.0.1".

Lemma serve_spec_witness :
  (let c := (serve string demo_env table (demo_request "/v1/admin/budgets/b1" "")).2 in
   c.(writer) = mkWriter 500 (Some "{error:internal error}") /\ c.(id_header) = "0190-fresh") /\
  (let c := (serve string demo_env table (demo_request "/v1/admin/metrics/stats" "mine")).2 in
   c.(writer) = mkWriter 503 (Some "{error:metrics engine is disabled}") /\ c.(id_header) = "mine").
Proof.
  split.
  - pose proof (serve_spec demo_env (demo_request "/v1/admin/budgets/b1" "")) as Hs.
    destruct (serve _ _ _ _) as [e c]. destruct Hs as (_ & Hw & Hi & _). split; [exact Hw|exact Hi].
  - pose proof (serve_spec demo_env (demo_request "/v1/admin/metrics/stats" "mine")) as Hs.
    destruct (serve _ _ _ _) as [e c]. destruct Hs as (_ & Hw & Hi & _). split; [exact Hw|exact Hi].
Defined.
