(* ===== verification/Opening.v ===== *)
(** * Opening the databases ([internal/dbstore/store.go], [seed.go], [dbsource.go], [provider.go],
    [internal/metrics-engine/duckdb.go])

    The store of the gateway: its file, the pragmas of its connection, the tables, the rows every
    provider has from the first boot on, and its source, which the process opens once.  The metrics
    store: the connector, the migrations and the connection that writes.

    [database/sql] keeps the connections; the drivers and gorm are arguments: how their calls end. *)

From S2P Require Import Prelude GoBase Catalog Credential StoreCatalog Gorm Migrations Config ConfigFile.
From stdpp Require Import sorting.
Local Open Scope Z_scope.

(** ** The pool of connections ([database/sql])

    A pool of one connection: when it was made and the pragmas that were executed on it.  A
    connection older than [maxLifetime] is closed before it is used again, and a new one is made; a
    pragma of SQLite belongs to the connection it was executed on ([journal_mode] apart, which is
    kept in the file). *)

Record Pool : Type := mkPool {
  idle : option (Z * list string);
  MaxOpenConns : Z;
  MaxIdleConns : Z;
  ConnMaxLifetime : Z;
  pool_closed : bool
}.
#[export] Instance Pool_eta : Eta Pool := fun p =>
  mkPool (idle p) (MaxOpenConns p) (MaxIdleConns p) (ConnMaxLifetime p) (pool_closed p).
Definition OpenPool : Pool := mkPool None 0 2 0 false.

Definition expired (p : Pool) (now created : Z) : bool := (0 <? p.(ConnMaxLifetime)) && (created + p.(ConnMaxLifetime) <? now).

(** The connection a statement at [now] runs on. *)
Definition connection (p : Pool) (now : Z) : Z * list string :=
  match p.(idle) with
  | Some (created, set) => if expired p now created then (now, []) else (created, set)
  | None => (now, [])
  end.

(** [sqlDB.Exec] of a pragma that the driver accepts. *)
Definition Exec (now : Z) (pragma : string) (p : Pool) : Pool :=
  let '(created, set) := connection p now in p <| idle := Some (created, (set ++ [pragma])%list) |>.

(** ** The store *)

Definition pragmas : list string :=
  ["PRAGMA journal_mode = WAL"; "PRAGMA foreign_keys = ON"; "PRAGMA busy_timeout = 5000"; "PRAGMA synchronous = NORMAL";
   "PRAGMA cache_size = -64000"; "PRAGMA temp_store = MEMORY"].

Inductive Stat : Type := StatExists | StatNotExist | StatFailed (msg : string).

(** How the calls of [openStore] end; [now] is the time of each statement. *)
Record OpenEnv : Type := mkOpenEnv {
  os_Stat : string -> Stat;
  os_Create : string -> option string;
  gorm_Open : string -> option string;
  gorm_DB : option string;
  exec : string -> option string;
  now : nat -> Z
}.

Inductive StoreError : Type :=
| CreateFile (path msg : string)
| OpenFailed (path msg : string)
| NoSqlDB (msg : string)
| PragmaFailed (pragma msg : string)
| MigrateFailed (msg : string)
| SeedFailed (msg : string)
| NotInitialized
| SourceConfig (e : ReadError)
| NewStoreFailed (e : StoreError)
| CloseFailed (msg : string).

(** The loop over the pragmas; a failing one leaves the pool as it is. *)
Fixpoint set_pragmas (env : OpenEnv) (i : nat) (ps : list string) (p : Pool) : result StoreError Pool :=
  match ps with
  | [] => Ok p
  | pragma :: ps =>
      match env.(exec) pragma with
      | Some msg => Err (PragmaFailed pragma msg)
      | None => set_pragmas env (S i) ps (Exec (env.(now) i) pragma p)
      end
  end.

(** [Store]: its pool and the key its context carries. *)
Record Store : Type := mkStore { pool : Pool; aespasskey : string }.

Definition openStore (env : OpenEnv) (dbPath aespasskey : string) : result StoreError Store :=
  _ ← match env.(os_Stat) dbPath with
      | StatNotExist => match env.(os_Create) dbPath with Some msg => Err (CreateFile dbPath msg) | None => Ok tt end
      | StatExists | StatFailed _ => Ok tt
      end;
  match env.(gorm_Open) dbPath with
  | Some msg => Err (OpenFailed dbPath msg)
  | None =>
      match env.(gorm_DB) with
      | Some msg => Err (NoSqlDB msg)
      | None =>
          p ← set_pragmas env 0 pragmas OpenPool;
          Ok (mkStore (p <| MaxOpenConns := 1 |> <| MaxIdleConns := 1 |> <| ConnMaxLifetime := Hour |>) aespasskey)
      end
  end.

(** ** The singleton and the source *)

(** [globalStore] and [globalErr] once [storeOnce] ran. *)
Definition Opened : Type := option (result StoreError Store).
Definition NewStore (env : OpenEnv) (dbPath aespasskey : string) (g : Opened) : result StoreError Store * Opened :=
  match g with
  | Some r => (r, g)
  | None => let r := openStore env dbPath aespasskey in (r, Some r)
  end.

(** [sqlDB.Close] of the pool the singleton shares with its source. *)
Definition close_pool (s : Store) : Store := mkStore (s.(pool) <| idle := None |> <| pool_closed := true |>) s.(aespasskey).

Record DBSource : Type := mkDBSource { store : option Store; source_path : string; mockEnabled : bool }.

(** [None] is the panic on a configuration without its server section. *)
Definition NewDBSource (env : OpenEnv) (cfg : result ReadError GatewayConfig) (g : Opened) : option (result StoreError DBSource * Opened) :=
  match cfg with
  | Err e => Some (Err (SourceConfig e), g)
  | Ok cfg =>
      match cfg.(ServerConfig_) with
      | None => None
      | Some s =>
          let '(r, g) := NewStore env s.(DBPath) s.(AesPasskey) g in
          Some (match r with Err e => Err (NewStoreFailed e) | Ok st => Ok (mkDBSource (Some st) s.(DBPath) s.(MockEnabled)) end, g)
      end
  end.

(** [DBSource.Close], given how the pool's does; the singleton keeps the store that was closed. *)
Definition DBSource_Close (close : option string) (s : DBSource) (g : Opened) : result StoreError () * DBSource * Opened :=
  match s.(store) with
  | None => (Ok tt, s, g)
  | Some st =>
      match close with
      | Some msg => (Err (CloseFailed msg), s, g)
      | None => (Ok tt, mkDBSource None s.(source_path) s.(mockEnabled), match g with Some (Ok _) => Some (Ok (close_pool st)) | _ => g end)
      end
  end.

(** ** Seeding *)

(** [core.SupportedProviders()]. *)
Definition provider_le (a b : string) : Prop := String.leb a b = true.
#[export] Instance provider_le_dec a b : Decision (provider_le a b).
Proof. unfold provider_le. apply _. Defined.
Definition SupportedProviders : list Provider := merge_sort provider_le supportedProviders.

(** ON CONFLICT (name) DO NOTHING. *)
#[export] Instance Provider_conflict : Conflict string StoreProvider := { conflict_key := SPName; assign old _ := old }.

(** The loop of [UpsertProviders]; [uuid i] is the identifier made for the [i]-th row. *)
Fixpoint provider_rows (uuid : nat -> string) (seen : gset string) (i : nat) (names : list Provider) : list StoreProvider :=
  match names with
  | [] => []
  | name :: names =>
      if is_empty name || bool_decide (name ∈ seen) then provider_rows uuid seen i names
      else mkStoreProvider (uuid i) name false NetworkConfig0 None :: provider_rows uuid ({[name]} ∪ seen) (S i) names
  end.

Lemma provider_rows_spec uuid names : forall seen i,
  (forall k, k ∈ map SPName (provider_rows uuid seen i names) <-> k ∈ names /\ k <> "" /\ k ∉ seen) /\
  NoDup (map SPName (provider_rows uuid seen i names)) /\
  (forall r, r ∈ provider_rows uuid seen i names -> r.(SPIsConfigured) = false /\ r.(SPNetwork) = NetworkConfig0 /\ r.(SPProxy) = None).
Proof.
  induction names as [|name names IH]; intros seen i; cbn; [split; [set_solver|split; [constructor|set_solver]]|].
  destruct (is_empty name) eqn:He; cbn.
  { apply is_empty_true in He as ->. destruct (IH seen i) as (H1 & H2 & H3). split; [|done]. intros k. rewrite H1. set_solver. }
  apply is_empty_false in He. case_bool_decide as Hs.
  { destruct (IH seen i) as (H1 & H2 & H3). split; [|done]. intros k. rewrite H1. set_solver. }
  destruct (IH ({[name]} ∪ seen) (S i)) as (H1 & H2 & H3). cbn. split; [|split].
  - intros k. rewrite !elem_of_cons, H1. destruct (decide (k = name)) as [->|]; set_solver.
  - constructor; [|done]. rewrite H1. set_solver.
  - intros r [->|Hr]%elem_of_cons; [done|by apply H3].
Qed.

Lemma SupportedProviders_elem k : k ∈ SupportedProviders <-> k ∈ supportedProviders.
Proof. unfold SupportedProviders. by rewrite merge_sort_Permutation. Qed.

Definition supported_rows (uuid : nat -> string) : list StoreProvider := provider_rows uuid ∅ 0 SupportedProviders.

Lemma supported_rows_name uuid k : k ∈ map SPName (supported_rows uuid) <-> k ∈ supportedProviders.
Proof.
  unfold supported_rows. destruct (provider_rows_spec uuid SupportedProviders ∅ 0) as (-> & _ & _).
  rewrite SupportedProviders_elem. split; [by intros (? & _)|]. intros Hk. split; [done|]. split; [|set_solver].
  intros ->. apply IsKnownProvider_spec, IsKnownProvider_nonempty in Hk. done.
Qed.

(** A row the boot adds. *)
Definition fresh_provider (k : string) (r : StoreProvider) : Prop :=
  r.(SPName) = k /\ r.(SPIsConfigured) = false /\ r.(SPNetwork) = NetworkConfig0 /\ r.(SPProxy) = None.

Section seed.
Context {Db : Type} `{UpsertTable Db string StoreProvider}.

Definition UpsertProviders (uuid : nat -> string) (names : list Provider) (d : Db) : result string () * Db :=
  match provider_rows uuid ∅ 0 names with
  | [] => (Ok tt, d)
  | rows => match create_or_update rows 200 d with
            | (Err e, d) => (Err ("upsert providers: " ++ e)%string, d)
            | (Ok _, d) => (Ok tt, d)
            end
  end.

Definition seedProviders (uuid : nat -> string) (d : Db) : result string () * Db :=
  match UpsertProviders uuid SupportedProviders d with
  | (Err e, d) => (Err ("seed providers: " ++ e)%string, d)
  | (Ok _, d) => (Ok tt, d)
  end.

(** [Store.Seed]: the mock data is commented out. *)
Definition Seed (uuid : nat -> string) (mockEnabled : bool) (d : Db) : result string () * Db := seedProviders uuid d.

(** [DBSource.Init]; [AutoMigrate] is gorm's: its error, and the tables it leaves. *)
Definition DBSource_Init (AutoMigrate : Db -> option string * Db) (uuid : nat -> string) (s : DBSource) (d : Db)
    : result StoreError () * Db :=
  match s.(store) with
  | None => (Err NotInitialized, d)
  | Some _ =>
      match AutoMigrate d with
      | (Some msg, d) => (Err (MigrateFailed msg), d)
      | (None, d) => match Seed uuid s.(mockEnabled) d with (Err msg, d) => (Err (SeedFailed msg), d) | (Ok _, d) => (Ok tt, d) end
      end
  end.

(** ** What seeding leaves *)

Context `{!UpsertLaws Db string StoreProvider}.

(** After a boot that reports no error every provider the gateway knows has a row: the row
    it had, with the settings an operator gave it, and otherwise a new one that is not configured;
    no other row is touched.  A boot that reports an error changed no row, and a second boot
    changes nothing. *)
Theorem seed_spec uuid mock d res d' : Seed uuid mock d = (res, d') ->
  match res with
  | Err _ => forall k, utbl d' k = utbl d k
  | Ok _ => (forall k r, utbl d k = Some r -> utbl d' k = Some r) /\
            (forall k, k ∈ supportedProviders -> utbl d k = None -> exists r, utbl d' k = Some r /\ fresh_provider k r) /\
            (forall k, k ∉ supportedProviders -> utbl d' k = utbl d k) /\
            forall uuid' mock' res' d'', Seed uuid' mock' d' = (res', d'') -> forall k, utbl d'' k = utbl d' k
  end.
Proof.
  assert (Hone : forall uuid mock d res d', Seed uuid mock d = (res, d') ->
    (exists e, res = Err e /\ forall k, utbl d' k = utbl d k) \/
    (res = Ok tt /\ forall k, utbl d' k = match row_with (supported_rows uuid) k with
       Some r => Some (default r (utbl d k)) | None => utbl d k end)).
  { clear uuid mock d res d'. intros uuid mock d res d'. unfold Seed, seedProviders, UpsertProviders. fold (supported_rows uuid).
    destruct (supported_rows uuid) as [|r0 rs0] eqn:Hr; [intros [= <- <-]; by right|]. rewrite <- Hr.
    destruct (create_or_update (supported_rows uuid) 200 d) as [[u|e] d1] eqn:Hc; intros [= <- <-]; [right|left; eauto using upsert_err].
    split; [done|]. intros k. assert (Hnd : NoDup (map conflict_key (supported_rows uuid))).
    { exact (proj1 (proj2 (provider_rows_spec uuid SupportedProviders ∅ 0))). }
    rewrite (upsert_ok _ _ _ _ _ Hnd Hc k).
    destruct (row_with _ k); [|done]. by destruct (utbl d k). }
  assert (Hrow : forall uuid k, match row_with (supported_rows uuid) k with
    Some r => k ∈ supportedProviders /\ fresh_provider k r | None => k ∉ supportedProviders end).
  { clear. intros uuid k. unfold row_with. destruct (List.find _ _) as [r|] eqn:Hf.
    - apply find_some in Hf as [Hin Hk%bool_decide_eq_true]. cbn in Hk. apply list_elem_of_In in Hin. split.
      + rewrite <- (supported_rows_name uuid), <- Hk. by apply list_elem_of_In, in_map, list_elem_of_In.
      + split; [done|]. by apply (provider_rows_spec uuid SupportedProviders ∅ 0).
    - rewrite <- (supported_rows_name uuid). intros (r & Hk & Hin)%list_elem_of_In%in_map_iff.
      pose proof (find_none _ _ Hf r Hin) as Hn%bool_decide_eq_false. done. }
  intros Hs. destruct (Hone _ _ _ _ _ Hs) as [(e & -> & Hd)|[-> Hd]]; [done|]. split; [|split; [|split]].
  - intros k r Hk. rewrite Hd, Hk. by destruct (row_with _ _).
  - intros k Hk Hn. specialize (Hrow uuid k). rewrite Hd, Hn. destruct (row_with _ _) as [r|]; [|done]. destruct Hrow. by exists r.
  - intros k Hk. specialize (Hrow uuid k). rewrite Hd. destruct (row_with _ _); [|done]. by destruct Hrow.
  - intros uuid' mock' res' d'' Hs' k. destruct (Hone _ _ _ _ _ Hs') as [(e & -> & Hd')|[-> Hd']]; [done|]. rewrite Hd'.
    pose proof (Hrow uuid' k) as H1. pose proof (Hrow uuid k) as H2. specialize (Hd k). destruct (row_with (supported_rows uuid') k); [|done].
    destruct (row_with (supported_rows uuid) k); [|by destruct H1]. by rewrite Hd.
Qed.
End seed.

(** ** The connection of the store *)

Lemma set_pragmas_spec env ps : forall i p p', set_pragmas env i ps p = Ok p' -> p.(ConnMaxLifetime) = 0 ->
  p'.(ConnMaxLifetime) = 0 /\ p'.(pool_closed) = p.(pool_closed) /\
  p'.(idle) = match ps with [] => p.(idle) | _ => match p.(idle) with Some (t, set) => Some (t, (set ++ ps)%list) | None => Some (env.(now) i, ps) end end.
Proof.
  induction ps as [|q ps IH]; intros i p p'; cbn; [by intros [= ->]|]. destruct (exec env q); [done|]. intros Hs Hp.
  assert (Hx : (Exec (now env i) q p).(ConnMaxLifetime) = 0 /\ (Exec (now env i) q p).(pool_closed) = p.(pool_closed) /\
    (Exec (now env i) q p).(idle) = match p.(idle) with Some (t, set) => Some (t, (set ++ [q])%list) | None => Some (env.(now) i, [q]) end).
  { unfold Exec, connection, expired. rewrite Hp. destruct (idle p) as [[t set]|]; cbn; by rewrite ?Hp. }
  destruct Hx as (E1 & E2 & E3). destruct (IH _ _ _ Hs E1) as (F1 & F2 & F3). split; [done|]. split; [congruence|].
  rewrite F3, E3. by destruct ps, (idle p) as [[t set]|]; cbn; rewrite <- ?app_assoc.
Qed.

(** A store that was opened has one connection, with all its pragmas. *)
Lemma openStore_spec env dbPath key st : openStore env dbPath key = Ok st ->
  st.(aespasskey) = key /\ st.(pool).(idle) = Some (env.(now) 0%nat, pragmas) /\ st.(pool).(MaxOpenConns) = 1 /\ st.(pool).(pool_closed) = false /\
  forall q, q ∈ pragmas -> env.(exec) q = None.
Proof.
  unfold openStore, mbind, result_bind. destruct (match os_Stat env dbPath with StatNotExist => _ | _ => _ end); [|done].
  destruct (gorm_Open env dbPath), (gorm_DB env); try done.
  destruct (set_pragmas env 0 pragmas OpenPool) as [p|] eqn:Hp; [|done]. intros [= <-].
  assert (Hx : forall ps i p p', set_pragmas env i ps p = Ok p' -> forall q, q ∈ ps -> exec env q = None).
  { clear. induction ps as [|r ps IH]; intros i p p'; cbn; [set_solver|]. destruct (exec env r) eqn:Hr; [done|].
    intros Hs q [->|Hq]%elem_of_cons; [done|]. by eapply IH. }
  destruct (set_pragmas_spec _ _ _ _ _ Hp eq_refl) as (_ & H2 & H3). split; [done|]. split; [done|]. split; [done|]. split; [done|].
  by eapply Hx.
Qed.

(** The pragmas last as long as that connection, an hour: the one that replaces it has none of
    them, the checks of foreign keys and the busy time-out among them. *)
Lemma pragmas_expire env dbPath key st t : openStore env dbPath key = Ok st ->
  (connection st.(pool) t).2 = if env.(now) 0%nat + Hour <? t then [] else pragmas.
Proof.
  intros Ho. assert (Hl : st.(pool).(ConnMaxLifetime) = Hour).
  { revert Ho. unfold openStore, mbind, result_bind. repeat case_match; try done; by intros [= <-]. }
  destruct (openStore_spec _ _ _ _ Ho) as (_ & Hi & _). unfold connection, expired. rewrite Hi, Hl. cbn [fst snd].
  change (0 <? Hour) with true. cbn [andb]. by destruct (_ <? t).
Qed.

(** The process opens its store once: a source made after another was closed has the store that was
    closed. *)
Lemma reopened_is_closed env env' cfg s g s' : NewDBSource env (Ok cfg) None = Some (Ok s, g) ->
  let '(_, _, g') := DBSource_Close None s g in NewDBSource env' (Ok cfg) g' = Some (Ok s', g') ->
  exists st, s'.(store) = Some st /\ st.(pool).(pool_closed) = true.
Proof.
  unfold NewDBSource. destruct (ServerConfig_ cfg) as [sc|]; [|done]. cbn.
  destruct (openStore env (DBPath sc) (AesPasskey sc)) as [st|e] eqn:Ho; intros [= <- <-]. cbn. intros [= <-]. by eexists.
Qed.

(** A source is closed once: the pool of a source that was closed is not closed again. *)
Lemma DBSource_Close_twice close close' s g s' g' : DBSource_Close close s g = (Ok tt, s', g') ->
  s'.(store) = None /\ DBSource_Close close' s' g' = (Ok tt, s', g').
Proof.
  unfold DBSource_Close. destruct (store s) as [st|] eqn:Hs; [destruct close; [done|]|]; intros [= <- <-]; cbn; by rewrite ?Hs.
Qed.

(** ** The metrics store *)

Section duck.
Context {Db : Type} `{MigrationDb Db}.

(** [DuckDBStore]: its database, whether that is open, and whether it holds a connection. *)
Record DuckDBStore : Type := mkDuckDBStore { ds_db : option (Db * bool); ds_conn : bool }.
Definition NewDuckDBStore : DuckDBStore := mkDuckDBStore None false.

Inductive InitError : Type := NoDirectory (dbpath msg : string) | ConnectorFailed (msg : string) | NotMigrated (e : MigrateError) | NotConnected (msg : string).

(** [ds.db.Close()]. *)
Definition close_db (ds : DuckDBStore) : DuckDBStore :=
  mkDuckDBStore (match ds.(ds_db) with Some (d, _) => Some (d, false) | None => None end) ds.(ds_conn).

(** [Init], given how the calls of the driver end: the database of a connector that could be made. *)
Definition Init (MkdirAll : option string) (NewConnector : result string Db) (Connect : option string)
    (commit : Z -> bool) (embedded : list (string * string)) (dbpath : string) (ds : DuckDBStore) : result InitError () * DuckDBStore :=
  match MkdirAll with
  | Some msg => (Err (NoDirectory dbpath msg), ds)
  | None =>
      match NewConnector with
      | Err msg => (Err (ConnectorFailed msg), ds)
      | Ok d =>
          match Migrate commit embedded d with
          | (Err e, d) => (Err (NotMigrated e), close_db (mkDuckDBStore (Some (d, true)) ds.(ds_conn)))
          | (Ok _, d) =>
              let ds := mkDuckDBStore (Some (d, true)) ds.(ds_conn) in
              match Connect with
              | Some msg => (Err (NotConnected msg), close_db ds)
              | None => (Ok tt, mkDuckDBStore ds.(ds_db) true)
              end
          end
      end
  end.

(** [Close]: the connection, whose error is dropped, then the database. *)
Definition Duck_Close (close : option string) (ds : DuckDBStore) : option string * DuckDBStore :=
  let ds := mkDuckDBStore ds.(ds_db) false in
  match ds.(ds_db) with None => (None, ds) | Some _ => (close, close_db ds) end.

Definition is_open (ds : DuckDBStore) : bool := match ds.(ds_db) with Some (_, o) => o | None => false end.

(** A store that was initialised is open, with a connection, on a database all of whose migrations
    ran; one that was not leaves nothing open. *)
Lemma Init_spec MkdirAll NewConnector Connect commit embedded dbpath res ds :
  Init MkdirAll NewConnector Connect commit embedded dbpath NewDuckDBStore = (res, ds) ->
  match res with
  | Ok _ => exists d0 d, NewConnector = Ok d0 /\ Migrate commit embedded d0 = (Ok tt, d) /\ ds = mkDuckDBStore (Some (d, true)) true
  | Err _ => is_open ds = false /\ ds.(ds_conn) = false
  end.
Proof.
  unfold Init. destruct MkdirAll; [by intros [= <- <-]|]. destruct NewConnector as [d0|]; [|by intros [= <- <-]].
  destruct (Migrate commit embedded d0) as [[[]|e] d] eqn:Hm; [|by intros [= <- <-]]. destruct Connect; intros [= <- <-]; [done|by exists d0, d].
Qed.

Lemma Duck_Close_spec close ds : is_open (Duck_Close close ds).2 = false /\ (Duck_Close close ds).2.(ds_conn) = false.
Proof. unfold Duck_Close. by destruct ds as [[[d o]|] c]. Qed.
End duck.
#[global] Arguments DuckDBStore Db : clear implicits.

(** ** A first boot *)

Definition demo_row : StoreProvider := mkStoreProvider "p1" ProviderAzure true NetworkConfig0 None.
Definition demo_uuid (i : nat) : string := "u" ++ pretty i.

Lemma seed_spec_witness :
  let d : MemUpsert string StoreProvider := ({["azure" := demo_row]}, []) in
  let '(r, d') := Seed demo_uuid true d in
  r = Ok tt /\ d'.1 !! "azure" = Some demo_row /\ (exists r, d'.1 !! "openai" = Some r /\ fresh_provider "openai" r).
Proof.
  cbn zeta. destruct (Seed demo_uuid true (({["azure" := demo_row]}, []) : MemUpsert string StoreProvider)) as [r d'] eqn:Hs.
  assert (Hr : r = Ok tt). { apply (f_equal fst) in Hs. cbn [fst] in Hs. rewrite <- Hs. vm_compute. reflexivity. }
  pose proof (seed_spec demo_uuid true _ _ _ Hs) as Hx. rewrite Hr in Hx. destruct Hx as (H1 & H2 & _). split; [exact Hr|]. split.
  - apply (H1 "azure"). reflexivity.
  - apply (H2 "openai"); [|reflexivity]. apply IsKnownProvider_spec. reflexivity.
Defined.

Example seeded_names : map SPName (supported_rows demo_uuid) = ["anthropic"; "azure"; "cohere"; "custom"; "ollama"; "openai"].
Proof. by vm_compute. Qed.
