(* ===== verification/Main.v ===== *)
(** * The process ([src/main.go], [internal/gateway/gateway.go], [internal/buildinfo/buildinfo.go])

    The entry point: a gateway is initialised and started, waits for a signal or for its server to
    fail, and is stopped; a gateway that could not be brought up is stopped as well.  With it, what
    the gateway says of itself while it runs: the probes, the build, the statistics of its jobs and
    its status. *)

From S2P Require Import Prelude GoBase Float64 Context Worker Config Errors Lifecycle.
Local Open Scope Z_scope.

(** ** The build *)

Definition LicenseFree : string := "free".
Definition LicenseCommercial : string := "commercial".
Record BuildInfo : Type := mkBuildInfo { Version : string; License : string }.

(** [buildinfo.Get], given what was stamped into the binary. *)
Definition Get (version license : string) : BuildInfo :=
  mkBuildInfo version (if String.eqb license LicenseCommercial then license else LicenseFree).

Lemma Get_license version license : (Get version license).(License) = LicenseFree \/ (Get version license).(License) = LicenseCommercial.
Proof. unfold Get. cbn. destruct (String.eqb_spec license LicenseCommercial) as [->|]; auto. Qed.

(** ** What the gateway says of itself *)

Section main.
Variable Value : Type.
Abbreviation Gw := (Lifecycle.Gw Value).
#[local] Arguments gwcfg {Value} _.
#[local] Arguments source {Value} _.
#[local] Arguments server {Value} _.
#[local] Arguments metrics_set {Value} _.
#[local] Arguments isRunning {Value} _.
#[local] Arguments groups {Value} _.
#[local] Arguments closes {Value} _.
#[local] Arguments metrics_closes {Value} _.
#[local] Arguments catalog_group {Value} _.
#[local] Arguments workers {Value} _ _.
#[local] Arguments active {Value} _ _.
#[local] Arguments up {Value} _ _.
#[local] Arguments finished_work {Value} _ _.
#[local] Arguments silent {Value} _.
#[local] Arguments tidy {Value} _.
#[local] Arguments gw_ok {Value} _.
#[local] Arguments gw_background {Value} _ _.
#[local] Arguments Gw_Start {Value} _ _ _.
#[local] Arguments Gw_Stop {Value} _ _ _.
#[local] Arguments Initialize {Value} _ _.
#[local] Arguments NewGateway {Value}.
#[local] Arguments gw_run {Value} _ _.
#[local] Arguments quiet {Value} _.
#[local] Arguments Trigger {Value} _ _.

(** The statistics of a component's jobs: none before its group is made. *)
Definition jobs_of (c : Component) (s : Gw) : option (list (JobStats Value)) :=
  match workers c s with
  | Some i => Some (match s.(groups) !! i with Some g => Stats Value g | None => [] end)
  | None => None
  end.

(** [handleStats]: readiness, and the jobs of governance, the catalog and the metrics engine.  Those of
    the catalog are asked for without a check; [None] is the panic that comes of it. *)
Definition handleStats (s : Gw) : option (bool * list (JobStats Value) * list (JobStats Value) * list (JobStats Value)) :=
  let ready := match s.(server) with Some v => v.(isReady) | None => false end in
  match jobs_of CatalogJobs s with
  | None => None
  | Some catalog =>
      Some (ready, default [] (jobs_of GovernanceJobs s), catalog,
            if s.(metrics_set) then default [] (jobs_of MetricsJobs s) else [])
  end.

(** [handleModelCatalog]: the job of the catalog is triggered, not awaited. *)
Definition handleModelCatalog (s : Gw) : option (result WorkerError Z * Gw) :=
  match s.(catalog_group) with
  | None => None
  | Some i =>
      match s.(groups) !! i with
      | None => None
      | Some g =>
          let '(r, g) := Trigger "catalog_sync" g in
          Some (match r with Ok _ => Ok 202 | Err e => Err e end, s <| groups ::= <[i := g]> |>)
      end
  end.

(** [GetStatus]: the configuration the gateway has, the path of its store, and the seconds since it
    started, to two digits; [None] is a panic on a configuration without one of its sections. *)
Inductive StatusValue : Type := SBool (b : bool) | SInt (n : Z) | SString (s : string) | SFloat (x : f64).

(** [math.Round(d.Seconds()*100) / 100]. *)
Definition uptime_seconds (d : Z) : f64 :=
  let seconds := f64_add (f64_of_Z (Z.quot d Second)) (f64_div (f64_of_Z (Z.rem d Second)) (f64_of_Z Second)) in
  f64_div (f64_round (f64_mul seconds (f64_of_Z 100))) (f64_of_Z 100).

Definition GetStatus (cfg : option GatewayConfig) (path : string) (uptime : Z) (s : Gw) : option (list (string * StatusValue)) :=
  config ← match cfg with
           | None => Some []
           | Some cfg =>
               match cfg.(ServerConfig_), cfg.(LogLevel) with
               | Some sc, Some level => Some [("port", SInt sc.(Port)); ("config_source", SString sc.(ConfigSource)); ("log_level", SString level)]
               | _, _ => None
               end
           end;
  Some (("running", SBool s.(isRunning)) :: config ++ (if s.(source) then [("store", SString path)] else []) ++
        (if s.(isRunning) then [("uptime_seconds", SFloat (uptime_seconds uptime))] else []))%list.

(** ** Waiting *)




(** ** What is left when the process ends *)











(** While the gateway runs its statistics are there, and a synchronisation that is asked for is one
    more step of its background. *)
Lemma asked_while_running l s : gw_run l s -> s.(isRunning) = true ->
  is_Some (handleStats s) /\ exists r s', handleModelCatalog s = Some (r, s') /\ gw_background s s'.
Proof.
  intros Hr Hrun. destruct (run_ok Value l s Hr) as [Hok _]. destruct (ok_running _ _ Hok Hrun) as (_ & _ & _ & Hup).
  destruct (Hup CatalogJobs I) as (i & g & Hw & Hg & _). unfold handleStats, handleModelCatalog, jobs_of. rewrite Hw, Hg. split; [done|].
  cbn in Hw. rewrite Hw, Hg. pose proof (bg_trigger Value i g "catalog_sync" _ Hg) as Hb. destruct (Trigger "catalog_sync" g) as [r g'].
  eexists _, _. split; [reflexivity|]. exact (gb_jobs _ _ _ Hb).
Qed.

End main.

(** ** A process that serves, and one whose metrics store does not open *)

Example demo_uptime : uptime_seconds 90126000000 = f64_div (f64_of_Z 9013) (f64_of_Z 100).
Proof. by vm_compute. Qed.



